(* ===== verification/_CoqProject ===== *)
-Q . S2P
Prelude.v
PyDecimal.v
DecimalTheory.v
DecimalRoots.v
Domain.v
Json.v
Market.v
Filters.v
Fills.v
Orders.v
Positions.v
Account.v
Exits.v
Authorization.v
Records.v
Broker.v
Sensitivity.v
RiskOfficial.v
MarketEvents.v
Frames.v
Gates.v
Integrity.v
EventLog.v
Recovery.v
Incidents.v
Checkpoints.v
Protection.v
Admission.v
History.v
Counterfactuals.v
DecimalOrder.v
Manifest.v
Agents.v
DecisionOfficial.v
Decisions.v
Commands.v
Service.v
Canonical.v
Sessions.v
Ledger.v
Experiments.v
AuditLog.v
Controls.v
Operators.v
Executor.v
Leases.v
Observations.v
