(* ===== verification/Prelude.v ===== *)
(** * MAAIS: a verification development of the paper-trading core

    MAAIS is a paper-trading platform: it turns market events into minute
    frames, decides on them, sizes the positions against risk limits, executes
    the orders against recorded books and keeps an account with protective
    exits.  This library models that core as pure functions in an error monad
    and proves what makes it correct.

    ** The parts and how they interact

    A market event ([MarketEvents]) is validated when it is built.  The events
    of a symbol up to a cutoff make a causal frame ([Frames]); the integrity
    state machine ([Integrity]) admits or quarantines the frame; a cursor and a
    recovery state machine ([Recovery]) close the holes of a bar stream; the
    accepted frames make the rolling history ([History]) that the features are
    computed from.

    The orchestration service ([Service]) takes a frame and a command
    ([Commands]) to an outcome: quarantine, halt, neutral, rejected or
    executed.  It runs the agents ([Agents]) that the manifest of the
    experiment ([Manifest]) lists, the official decision engine
    ([DecisionOfficial]), the monitoring admission ([Admission]) and the risk
    engine ([RiskOfficial]), records the decision ([Decisions]), follows a
    rejected one as a counterfactual ([Counterfactuals]) and issues the signed
    capability ([Authorization]) that the broker needs.

    The paper broker ([Broker]) executes an approved command: it verifies the
    capability, quantises by the exchange filters ([Filters]), creates an
    order ([Orders]), fills it against the first eligible book ([Fills]),
    applies the fill to the account ([Account]) and its position ([Positions]),
    maintains the exit plan ([Exits]) and checks the stored record ([Records]).
    The protection service ([Protection]) turns marks and funding settlements
    into exits through the same broker, or into halts with an incident
    ([Incidents]).  The live feed fills the buffer of observations that frames
    and executions read ([Observations]).  Workers hold leases ([Leases]) and
    write checkpoints ([Checkpoints]).

    Around this core, operators: a login opens one session ([Sessions]); a
    request enters the inbox of commands ([Operators]); the worker claims it
    and executes it ([Executor]) on the kill switch ([Controls]), the status
    of the experiment ([Experiments]) and the account.  Every change is an event
    of the ledger ([Ledger]), the ends of commands are events of the
    hash-chained audit log ([AuditLog]).

    ** Files

    - [Prelude]: the error monad of Python calls, its inversion tactics
      ([py_inv], [py_raise], [bool_prop], [pass]), insertion-ordered
      dictionaries, reflexive-transitive closure.
    - [PyDecimal], [DecimalTheory], [DecimalRoots], [DecimalOrder]:
      [decimal.Decimal] at the default context (28 digits, round half even):
      arithmetic, comparison, quotients, rounding and square roots, with their
      values in Q, the bounds of one rounding, exactness on grids and the
      monotonicity of rounded sums and means.
    - [Domain]: [domain/enums.py] and [execution/paper/clock.py]; aware and
      naive datetimes as an instant with an offset.
    - [Json], [Canonical]: [domain/json.py]; freezing, canonical text, thawing,
      hashing; the canonical text as a prefix code.
    - [Gates], [EventLog]: what several parts share: the decision over a list of
      gates, and append-only audit trails with contiguous sequences.
    - [Market], [Filters], [Fills], [Orders], [Positions], [Account], [Exits],
      [Authorization], [Records], [Broker], [Sensitivity]: the files of the same
      names in [execution/paper/].
    - [RiskOfficial]: [risk/official.py].  [DecisionOfficial]:
      [decision/official.py].  [Decisions]: [decisions/bundle.py].
    - [MarketEvents], [Frames], [Recovery], [History]: [market_data/events.py],
      [frames.py], [recovery.py] and [history.py].  [Integrity]:
      [market_data/integrity/state_machine.py].
    - [Admission]: [monitoring/admission.py].  [Counterfactuals]:
      [research/counterfactuals.py].
    - [Manifest]: [experiments/manifest.py].  [Agents]: [agents/evaluations.py]
      and what it uses of [agents/base.py] and [feature_pipeline/features.py].
    - [Incidents], [Controls], [Operators]: [operations/incidents.py],
      [operations/controls.py] and [operations/operator_commands.py], the last
      two with their repositories in [db/repositories/].
    - [Checkpoints], [Protection], [Commands], [Service], [Executor]: of
      [orchestration/], [checkpoints.py], [protection.py], [commands.py] with
      [results.py], [service.py] and [operator_control.py].
    - [Sessions]: [security/sessions.py], [db/repositories/sessions.py] and the
      handlers of [api/app.py] and [api/security.py] that use them.
    - [Ledger]: [domain/events.py] and [db/repositories/events.py].
      [Experiments]: [experiments/service.py], [db/repositories/experiments.py]
      and the projection of experiments in [db/replay.py].  [AuditLog]:
      [observability/audit.py] and [db/repositories/observability.py].
      [Leases]: [db/repositories/workers.py].  [Observations]:
      [orchestration/observations.py].

    A definition carries the name of the Python function or class; a method
    whose name several classes share has a prefix ([account_mark],
    [position_mark]); a constructor's checks are [<Class>_post_init].  Exceptions
    are the [exn] of this file, with the source's message up to interpolated
    values.  A repository is a function on its tables: the rows of a table are a
    finite map or a list, a statement that locks or reads rows is a search in
    them, and the unique keys that a statement relies on are the conflicts that
    the model checks.  A transaction that raises changes nothing.

    ** What the theorems show

    - The whole decision: an executed outcome passed every gate under a signed
      capability, a rejected one names the first failed gate, every outcome is
      validated; the analysis answers for every valid matrix of agents, which
      itself is complete whatever the agents reply; monitoring admits exactly
      under its conditions.
    - Accounting, for amounts on decimal grids within 28 digits and a leverage
      that divides 100: every account that accepted operations can reach
      reconciles and is an exact rational ledger; closing a position is exact
      first-in first-out; reduce-only fills are never refused.  Where rounding
      does break the exact reconciliation (a leverage of 3, average prices of 28
      digits) is shown by example.
    - Execution: entries are authorised, within their approval and end
      protected; exits flatten the position, and refusals of an exit are halts
      with evidence; fills are causal, complete and never better than the touch;
      under the same conditions a mark of a protected position always ends as
      marked, exited or halted.
    - Orders and exits as state machines: the lifecycle of an order, the
      conservative passive queue, stops that never loosen, bounded holding,
      exact triggers and the recovery of an exit intent after a restart.
    - Risk: the engine always answers, an approval keeps every limit, and the
      absence of an edge, a stop or warm correlations refuses the position.
    - Market data: frames never look ahead and do not depend on the order of
      delivery; identity conflicts are found; under a policy that requires every
      check a frame is admitted exactly when every integrity condition holds; a
      validated backfill of deliverable bars closes its gap, and the recovery
      state machine can finish it, with a faithful audit trail;
      the rolling history refines the log of accepted frames and survives
      restarts.
    - Research and experiments: counterfactuals apply every source event once
      and resolve exactly; a manifest is well-formed whatever the order of its
      agents; the row of an experiment is the one that its events rebuild.
    - Operators: sessions are exclusive and revocations final; of wrong
      passwords in a row at most nine are compared in any quarter of an hour;
      commands are idempotent, confirmed and taken one at a time; a halt at a
      time that is not before the last change always turns the kill switch on,
      and it goes off only on purpose; a call of the worker answers for at most
      one command and has the effect of that command only.
    - Workers: one owner per experiment, in ever growing epochs that its events
      list ([Leases.worker_lease_is_exclusive]); what the buffer of
      observations answers is never later than asked for, and a wait for a book
      is answered by books after its start
      ([Observations.observation_buffer_causal]).
    - Records: incidents and checkpoints refine their contracts; the audit log
      that direct appends write is a chain, and the last hash of a chain fixes
      every event; health evaluations are sound; canonical JSON is injective up
      to the order of keys and identifies a decimal's value.

    ** Parameters and assumptions

    The digest ([hashlib.sha256]), the keyed digest ([hmac]) and the name-based
    identifier ([uuid.uuid5]) are arguments.  Theorems that need them assume
    that a digest has 64 characters, or that the events at hand have distinct
    digests; the witnesses instantiate them by concrete functions.  Wall clocks,
    random draws, generated identifiers, measured durations, the answer of the
    password verifier and of the flatten planner are arguments of the operations
    that read them; so are the feature pipeline and the replies of the agents.
    The audit and inbox functions that live in the database as SQL are
    arguments too: the runtime roles append their audit events through the SQL
    of a migration, only the direct append is modelled.  The JSONB column of the
    audit evidence is the interface [JsonbColumn], whose law says that it keeps
    the canonical text of evidence without floats ([AuditLog] shows what becomes
    of a float); health components are stored as they are.  [Executor] uses the
    paper execution, market data, incident and platform repositories through
    the interface [OtherRepositories], whose laws say that they write no
    experiment, control or command event; with [KeepsBooks], that opening an
    incident and activating a run leave accounts and pending orders
    alone.

    Decimals are finite, with unbounded exponents: Python's exponent limits
    (near 10^999999) are out of the reach of the modelled quantities.
    Dictionary keys and symbols are byte strings; upper-casing is that of ASCII
    letters.  A [timedelta] is an integer number of microseconds and a datetime
    an integer instant, without Python's year bounds.

    Transactions run one after the other: the row locks of the source serialise
    those that touch the same rows, and what happens between two transactions
    of a worker is a step of another in the step relations.

    ** Fuel and bounds

    The loops of the source run over lists.  Only the digit loops of
    [PyDecimal] and [Json], and the removal of a substring in [Operators], take
    fuel: the binary or decimal size of their argument, and the length of the
    text.  [DecimalTheory.ndigits_spec], [DecimalTheory.strip_spec] and
    [Json.dnormalize_spec] show that it is enough for digits; each removal
    consumes a character.

    ** Not modelled

    Network, file-system and process code (exchange connectors, market-data
    ingestion, artifact stores, backups, drills, the command line), the
    dashboard, migrations and SQL functions, the read-only queries and routes of
    the API, pydantic settings, logging, password hashing, the repositories not
    named above, the asynchronous runtime and the flatten planner around
    [Executor], the parsing of stored manifests ([from_dict]), the legacy
    floating-point engines over pandas frames (agent heuristics, feature
    pipeline, legacy decision and risk engines) and third-party packages. *)

From Stdlib Require Import ZArith Lia List Bool String.
From stdpp Require Import base decidable list strings.

(** ** Python exceptions *)

(** The exception classes raised by the modelled modules.  A payload string is
    the message (or, for the two rejection classes, the [reason] attribute).
    [DivisionUndefined] is the [InvalidOperation] that [0 / 0] raises: its text
    names the condition, its class is [InvalidOperation].  [IntegrityError] is
    the database driver's refusal of a row, with the constraint it breaks. *)
Inductive exn : Type :=
| ValueError (msg : string)
| TypeError (msg : string)
| LookupError (msg : string)
| RuntimeError (msg : string)
| PermissionError (msg : string)
| ArithmeticError (msg : string)
| AssertionError
| DivisionByZero
| DivisionUndefined
| InsufficientMargin (msg : string)
| IllegalOrderTransition (msg : string)
| FilterRejection (reason : string)
| FillRejection (reason : string) (market_event_id : option string)
| FrameIdentityConflict (msg : string)
| BackfillValidationError (msg : string)
| FrameHistoryConflict (msg : string)
| RuntimeObservationConflict (msg : string)
| EligibleBookTimeout (msg : string)
| TradingControlConflict (msg : string)
| OperatorCommandConflict (msg : string)
| FlattenPlanningError (reason_code : string) (detail : string)
| InvalidExperimentTransition (msg : string)
| ImmutableManifestError (msg : string)
| OptimisticConcurrencyError (msg : string)
| OperationalStateConflict (msg : string)
| StaleOperationalState (msg : string)
| VersionIdentityConflict (msg : string)
| ObservabilityIntegrityError (msg : string)
| WorkerLeaseConflict (msg : string)
| WorkerLeaseExpired (msg : string)
| IntegrityError (constraint : string)
| InvalidOperation.

#[export] Instance exn_eq_dec : EqDecision exn.
Proof. solve_decision. Defined.

(** [type(exc).__name__] and [str(exc)]. *)
Definition error_type (e : exn) : string :=
  match e with
  | ValueError _ => "ValueError" | TypeError _ => "TypeError" | LookupError _ => "LookupError"
  | RuntimeError _ => "RuntimeError" | PermissionError _ => "PermissionError" | ArithmeticError _ => "ArithmeticError"
  | AssertionError => "AssertionError" | DivisionByZero => "DivisionByZero" | InsufficientMargin _ => "InsufficientMargin"
  | IllegalOrderTransition _ => "IllegalOrderTransition" | FilterRejection _ => "FilterRejection"
  | FillRejection _ _ => "FillRejection" | FrameIdentityConflict _ => "FrameIdentityConflict"
  | BackfillValidationError _ => "BackfillValidationError" | FrameHistoryConflict _ => "FrameHistoryConflict"
  | RuntimeObservationConflict _ => "RuntimeObservationConflict" | EligibleBookTimeout _ => "EligibleBookTimeout"
  | TradingControlConflict _ => "TradingControlConflict" | OperatorCommandConflict _ => "OperatorCommandConflict"
  | FlattenPlanningError _ _ => "FlattenPlanningError" | InvalidExperimentTransition _ => "InvalidExperimentTransition"
  | ImmutableManifestError _ => "ImmutableManifestError"
  | OptimisticConcurrencyError _ => "OptimisticConcurrencyError"
  | OperationalStateConflict _ => "OperationalStateConflict" | StaleOperationalState _ => "StaleOperationalState"
  | VersionIdentityConflict _ => "VersionIdentityConflict" | ObservabilityIntegrityError _ => "ObservabilityIntegrityError"
  | WorkerLeaseConflict _ => "WorkerLeaseConflict" | WorkerLeaseExpired _ => "WorkerLeaseExpired"
  | IntegrityError _ => "IntegrityError"
  | DivisionUndefined | InvalidOperation => "InvalidOperation"
  end.
Definition error_text (e : exn) : string :=
  match e with
  | ValueError m | TypeError m | LookupError m | RuntimeError m | PermissionError m | ArithmeticError m
  | InsufficientMargin m | IllegalOrderTransition m | FilterRejection m | FillRejection m _ | FrameIdentityConflict m
  | BackfillValidationError m | FrameHistoryConflict m | RuntimeObservationConflict m | EligibleBookTimeout m
  | TradingControlConflict m | OperatorCommandConflict m | FlattenPlanningError _ m | InvalidExperimentTransition m
  | ImmutableManifestError m | OptimisticConcurrencyError m | OperationalStateConflict m | StaleOperationalState m
  | VersionIdentityConflict m | ObservabilityIntegrityError m | WorkerLeaseConflict m | WorkerLeaseExpired m
  | IntegrityError m => m
  | AssertionError => ""
  | DivisionByZero => "[<class 'decimal.DivisionByZero'>]"
  | DivisionUndefined => "[<class 'decimal.DivisionUndefined'>]"
  | InvalidOperation => "[<class 'decimal.InvalidOperation'>]"
  end.

(** ** The error monad: a Python call returns a value or raises *)

Inductive outcome (E A : Type) : Type :=
| Ok (a : A)
| Raise (e : E).
Arguments Ok {E A} a.
Arguments Raise {E A} e.

Abbreviation result := (outcome exn).

Definition bind {E A B} (m : outcome E A) (f : A -> outcome E B) : outcome E B :=
  match m with
  | Ok a => f a
  | Raise e => Raise e
  end.

(** [raise_if c e]: the statement [if c: raise e]. *)
Definition raise_if {E} (c : bool) (e : E) : outcome E unit :=
  if c then Raise e else Ok tt.

(** [map_exn f m]: [try: m  except e: raise f e]. *)
Definition map_exn {E F A} (f : E -> F) (m : outcome E A) : outcome F A :=
  match m with
  | Ok a => Ok a
  | Raise e => Raise (f e)
  end.

Definition of_option {E A} (e : E) (o : option A) : outcome E A :=
  match o with
  | Some a => Ok a
  | None => Raise e
  end.

Declare Scope py_scope.
Delimit Scope py_scope with py.
Notation "'let*' x ':=' m 'in' k" := (bind m (fun x => k))
  (at level 10, x binder, m at level 99, k at level 200) : py_scope.
Notation "'do*' m ';;' k" := (bind m (fun _ : unit => k))
  (at level 10, m at level 99, k at level 200) : py_scope.
Open Scope py_scope.

(** [mapM f l]: a loop over [l] that stops at the first exception. *)
Definition mapM {E A B} (f : A -> outcome E B) : list A -> outcome E (list B) :=
  fix loop l :=
    match l with
    | [] => Ok []
    | x :: l' => let* y := f x in let* ys := loop l' in Ok (y :: ys)
    end.

(** [iterM f l]: [for x in l: f x]. *)
Definition iterM {E A} (f : A -> outcome E unit) : list A -> outcome E unit :=
  fix loop l :=
    match l with
    | [] => Ok tt
    | x :: l' => do* f x ;; loop l'
    end.

Definition is_ok {E A} (m : outcome E A) : bool :=
  match m with Ok _ => true | Raise _ => false end.

(** ** Inversion of successful runs *)

Lemma bind_Ok {E A B} (m : outcome E A) (f : A -> outcome E B) b :
  bind m f = Ok b <-> exists a, m = Ok a /\ f a = Ok b.
Proof.
  destruct m as [a|e]; simpl; split.
  - eauto.
  - intros (a' & [= ->] & H); exact H.
  - discriminate.
  - intros (a' & H & _); discriminate.
Qed.

Lemma bind_Raise {E A B} (m : outcome E A) (f : A -> outcome E B) e :
  bind m f = Raise e <-> m = Raise e \/ exists a, m = Ok a /\ f a = Raise e.
Proof.
  destruct m as [a|e']; simpl; split.
  - eauto.
  - intros [H | (a' & [= ->] & H)]; [discriminate | exact H].
  - intros [= ->]; auto.
  - intros [H | (a' & H & _)]; congruence.
Qed.

Lemma raise_if_Ok {E} c (e : E) u : raise_if c e = Ok u <-> c = false.
Proof. destruct c, u; simpl; split; congruence. Qed.

Lemma raise_if_Raise {E} c (e e' : E) : raise_if c e = Raise e' <-> c = true /\ e = e'.
Proof. destruct c; simpl; split; intuition congruence. Qed.

Lemma of_option_Ok {E A} (e : E) (o : option A) a : of_option e o = Ok a <-> o = Some a.
Proof. destruct o; simpl; split; congruence. Qed.

Lemma of_option_Raise {E A} (e e' : E) (o : option A) : of_option e o = Raise e' <-> o = None /\ e = e'.
Proof. destruct o; simpl; split; intuition congruence. Qed.

Lemma map_exn_Ok {E F A} (f : E -> F) (m : outcome E A) a : map_exn f m = Ok a <-> m = Ok a.
Proof. destruct m; simpl; split; congruence. Qed.

Lemma bind_assoc {E A B C} (m : outcome E A) (f : A -> outcome E B) (g : B -> outcome E C) :
  bind (bind m f) g = bind m (fun a => bind (f a) g).
Proof. destruct m; reflexivity. Qed.

Lemma mapM_Forall2 {E A B} (f : A -> outcome E B) l l' :
  mapM f l = Ok l' <-> Forall2 (fun x y => f x = Ok y) l l'.
Proof.
  revert l'; induction l as [|x l IH]; intros l'; simpl.
  - split; [intros [= <-]; constructor | intros H; inversion H; reflexivity].
  - rewrite bind_Ok; split.
    + intros (y & Hy & Hl). apply bind_Ok in Hl as (ys & Hys & [= <-]).
      constructor; [exact Hy | apply IH, Hys].
    + intros H; inversion H as [|? y ? ys Hy Hys]; subst.
      exists y; split; [exact Hy|]. apply bind_Ok; exists ys.
      split; [apply IH, Hys | reflexivity].
Qed.

(** What a loop raises, one of its steps raised. *)
Lemma mapM_errors {E A B} (f : A -> outcome E B) (P : E -> Prop) l :
  Forall (fun x => forall e, f x = Raise e -> P e) l -> forall e, mapM f l = Raise e -> P e.
Proof.
  induction 1 as [|x l Hx _ IH]; intros e H; simpl in H; [discriminate|].
  apply bind_Raise in H as [H|(y & _ & H)]; [exact (Hx e H)|].
  apply bind_Raise in H as [H|(ys & _ & H)]; [exact (IH e H) | discriminate].
Qed.

Lemma iterM_Forall {E A} (f : A -> outcome E unit) l :
  iterM f l = Ok tt <-> Forall (fun x => f x = Ok tt) l.
Proof.
  induction l as [|x l IH]; simpl.
  - split; [constructor | reflexivity].
  - rewrite bind_Ok, Forall_cons, <- IH. split.
    + intros ([] & H1 & H2); auto.
    + intros [H1 H2]; exists tt; auto.
Qed.

(** [pass] runs a goal [m = r] forward over a statement that does not raise. *)
Lemma raise_if_pass {E A} c (e : E) (k : outcome E A) r : c = false -> k = r -> (do* raise_if c e ;; k) = r.
Proof. intros -> H; exact H. Qed.

Lemma unit_pass {E A} (m : outcome E unit) (k : outcome E A) r : m = Ok tt -> k = r -> (do* m ;; k) = r.
Proof. intros -> H; exact H. Qed.

Lemma bind_pass {E A B} (m : outcome E A) (f : A -> outcome E B) a r : m = Ok a -> f a = r -> bind m f = r.
Proof. intros -> H; exact H. Qed.

Ltac pass :=
  lazymatch goal with
  | |- bind (raise_if _ _) _ = _ => refine (raise_if_pass _ _ _ _ _ _)
  | |- bind (A := unit) _ _ = _ => refine (unit_pass _ _ _ _ _)
  | |- bind _ _ = _ => refine (bind_pass _ _ _ _ _ _)
  end.

(** [py_inv] decomposes every hypothesis [m = Ok v], statement by statement. *)
Ltac py_inv_step :=
  match goal with
  | H : bind _ _ = Ok _ |- _ =>
      let a := fresh "v" in let H1 := fresh "H" in
      apply bind_Ok in H as (a & H1 & H)
  | H : raise_if _ _ = Ok _ |- _ => apply raise_if_Ok in H
  | H : of_option _ _ = Ok _ |- _ => apply of_option_Ok in H
  | H : map_exn _ _ = Ok _ |- _ => apply map_exn_Ok in H
  | H : Ok _ = Ok _ |- _ => injection H as H; try subst
  | H : Raise _ = Ok _ |- _ => discriminate H
  end.
Ltac py_inv := cbv zeta in *; repeat py_inv_step.

(** [py_raise H] follows the hypothesis [H : m = Raise e] to each statement that raises. *)
Ltac py_raise H :=
  repeat (match type of H with
  | bind _ _ = Raise _ => apply bind_Raise in H as [H|(? & ? & H)]
  | raise_if _ _ = Raise _ => apply raise_if_Raise in H as [? H]
  | of_option _ _ = Raise _ => apply of_option_Raise in H as [? H]
  | Ok _ = Raise _ => discriminate H
  | Raise _ = Raise _ => fail
  | (if ?c then _ else _) = Raise _ => destruct c eqn:?
  | (match ?c with _ => _ end) = Raise _ => destruct c eqn:?
  end).

(** Boolean guards of the source, as propositions. *)
Ltac bool_prop :=
  repeat match goal with
  | H : (_ && _)%bool = true |- _ => apply andb_true_iff in H as [? ?]
  | H : (_ || _)%bool = false |- _ => apply orb_false_iff in H as [? ?]
  | H : negb _ = true |- _ => apply negb_true_iff in H
  | H : negb _ = false |- _ => apply negb_false_iff in H
  | H : bool_decide _ = true |- _ => apply bool_decide_eq_true in H
  | H : bool_decide _ = false |- _ => apply bool_decide_eq_false in H
  | H : (_ <? _)%Z = true |- _ => apply Z.ltb_lt in H
  | H : (_ <? _)%Z = false |- _ => apply Z.ltb_ge in H
  | H : (_ <=? _)%Z = true |- _ => apply Z.leb_le in H
  | H : (_ <=? _)%Z = false |- _ => apply Z.leb_gt in H
  | H : (_ =? _)%Z = true |- _ => apply Z.eqb_eq in H
  | H : (_ =? _)%Z = false |- _ => apply Z.eqb_neq in H
  end.

(** Membership in a literal list. *)
Ltac in_list := rewrite ?elem_of_cons, ?elem_of_nil in *; intuition congruence.

(** ** Dictionaries keyed by strings

    A Python [dict] keeps its insertion order, which rounded sums over its
    values can see: an association list, updated in place or extended. *)

Definition pydict (V : Type) : Type := list (string * V).

Fixpoint dict_get {V} (d : pydict V) (k : string) : option V :=
  match d with
  | [] => None
  | (k', v) :: d' => if decide (k = k') then Some v else dict_get d' k
  end.

Fixpoint dict_set {V} (d : pydict V) (k : string) (v : V) : pydict V :=
  match d with
  | [] => [(k, v)]
  | (k', v') :: d' => if decide (k = k') then (k, v) :: d' else (k', v') :: dict_set d' k v
  end.

Definition dict_values {V} (d : pydict V) : list V := map snd d.

Section Dict.
Context {V : Type}.
Implicit Types (d : pydict V) (k : string) (v : V).

Lemma dict_get_set d k v : dict_get (dict_set d k v) k = Some v.
Proof.
  induction d as [|[k' v'] d IH]; simpl; [now rewrite decide_True|].
  destruct (decide (k = k')) as [->|H]; simpl; [now rewrite decide_True | now rewrite decide_False].
Qed.

Lemma dict_get_set_ne d k k0 v : k0 <> k -> dict_get (dict_set d k v) k0 = dict_get d k0.
Proof.
  intros H. induction d as [|[k' v'] d IH]; simpl; [now rewrite decide_False|].
  destruct (decide (k = k')) as [->|Hk]; simpl; [now rewrite !decide_False by congruence|].
  destruct (decide (k0 = k')); [reflexivity | exact IH].
Qed.

Lemma dict_get_In d k v : dict_get d k = Some v -> In v (dict_values d).
Proof.
  induction d as [|[k' v'] d IH]; simpl; [discriminate|].
  destruct (decide (k = k')); [intros [= ->]; auto | auto].
Qed.

Lemma dict_get_Forall (P : V -> Prop) d k v : Forall P (dict_values d) -> dict_get d k = Some v -> P v.
Proof. rewrite List.Forall_forall. intros H E. eapply H, dict_get_In, E. Qed.

Lemma dict_set_Forall (P : V -> Prop) d k v :
  Forall P (dict_values d) -> P v -> Forall P (dict_values (dict_set d k v)).
Proof.
  intros H Hv. induction d as [|[k' v'] d IH]; simpl in *; [now constructor|].
  apply Forall_cons in H as [H1 H2]. destruct (decide (k = k')); simpl; constructor; auto.
Qed.
End Dict.

(** A list without repeated keys holds one element per key. *)
Lemma NoDup_map_inj {A B} (f : A -> B) l x y : NoDup (map f l) -> In x l -> In y l -> f x = f y -> x = y.
Proof.
  induction l as [|z l IH]; cbn; [intros _ []|]. intros N Hx Hy E. apply NoDup_cons in N as [Hz N].
  destruct Hx as [->|Hx], Hy as [->|Hy]; [reflexivity | | | now apply IH].
  - exfalso. apply Hz. rewrite E. now apply list_elem_of_In, in_map.
  - exfalso. apply Hz. rewrite <- E. now apply list_elem_of_In, in_map.
Qed.

Lemma existsb_false_Forall {A} (f : A -> bool) l : existsb f l = false <-> Forall (fun x => f x = false) l.
Proof.
  induction l as [|x l IH]; cbn [existsb]; [split; [constructor | reflexivity]|].
  rewrite orb_false_iff, Forall_cons, IH. reflexivity.
Qed.

Lemma last_app_one {A} (l : list A) x : last (l ++ [x]) = Some x.
Proof. induction l as [|y l IH]; [reflexivity|]. cbn [app]. destruct (l ++ [x]) eqn:E; [now destruct l | exact IH]. Qed.

Lemma last_In {A} (l : list A) x : last l = Some x -> In x l.
Proof.
  induction l as [|y l IH]; [discriminate|]. destruct l as [|z l]; [intros [= ->]; now left|]. intros H. right. now apply IH.
Qed.

Lemma filter_all {A} (f : A -> bool) l : Forall (fun x => f x = true) l -> List.filter f l = l.
Proof. induction 1 as [|x l H _ IH]; cbn [List.filter]; [reflexivity|]. now rewrite H, IH. Qed.

Lemma filter_nil {A} (f : A -> bool) l : List.filter f l = [] <-> Forall (fun x => f x = false) l.
Proof.
  induction l as [|x l IH]; cbn [List.filter]; [split; constructor|]. rewrite Forall_cons. destruct (f x).
  - split; [discriminate | intros [H _]; discriminate].
  - rewrite IH. tauto.
Qed.

Lemma Forall_iff' {A} (P Q : A -> Prop) l : (forall x, P x <-> Q x) -> Forall P l <-> Forall Q l.
Proof. intros H. split; apply List.Forall_impl; intros x; apply H. Qed.

Lemma remove_dups_nil {A} `{EqDecision A} (l : list A) : remove_dups l = [] <-> l = [].
Proof.
  split; [|now intros ->]. destruct l as [|x l]; [reflexivity|]. intros H.
  assert (Hx : elem_of x (remove_dups (x :: l))) by (apply elem_of_remove_dups; left).
  rewrite H in Hx. now apply elem_of_nil in Hx.
Qed.

(** Keys of dictionaries. *)

Lemma dict_get_NoDup {V} (d : pydict V) k v : NoDup (map fst d) -> In (k, v) d -> dict_get d k = Some v.
Proof.
  induction d as [|[k' v'] d IH]; cbn [dict_get map fst]; intros N H; [destruct H|].
  apply NoDup_cons in N as [Hn N]. destruct H as [[= -> ->]|H]; [now rewrite decide_True|].
  rewrite decide_False; [now apply IH|]. intros ->. apply Hn, list_elem_of_In, in_map_iff. now exists (k', v).
Qed.

Lemma dict_set_keys {V} (d : pydict V) k v x : elem_of x (map fst (dict_set d k v)) -> x = k \/ elem_of x (map fst d).
Proof.
  induction d as [|[k' v'] d IH]; cbn [dict_set map fst]; [rewrite list_elem_of_singleton; auto|].
  destruct (decide (k = k')) as [->|n]; cbn [map fst]; rewrite !elem_of_cons; tauto.
Qed.

Lemma dict_set_NoDup {V} (d : pydict V) k v : NoDup (map fst d) -> NoDup (map fst (dict_set d k v)).
Proof.
  induction d as [|[k' v'] d IH]; cbn [dict_set map fst]; intros N; [apply NoDup_singleton|].
  apply NoDup_cons in N as [Hn N]. destruct (decide (k = k')) as [->|n]; cbn [map fst]; apply NoDup_cons; [auto|].
  split; [|now apply IH]. intros He. apply dict_set_keys in He as [->|He]; auto.
Qed.

Lemma dict_get_key {V} (d : pydict V) k : elem_of k (map fst d) <-> exists v, dict_get d k = Some v.
Proof.
  induction d as [|[k' v'] d IH]; cbn [map fst dict_get]; [rewrite elem_of_nil; split; [tauto | intros [v H]; discriminate]|].
  rewrite elem_of_cons, IH. destruct (decide (k = k')) as [->|n]; [split; eauto | tauto].
Qed.

(** [{key(x): x for x in l}]: the last one of a key wins. *)
Section DictBy.
Context {A : Type} (key : A -> string).
Implicit Types (l : list A) (d : pydict A).

Definition dict_add d x : pydict A := dict_set d (key x) x.
Definition dict_by l : pydict A := fold_left dict_add l [].

Lemma dict_add_sound l : forall d, (forall k x, dict_get d k = Some x -> key x = k) ->
  forall k x, dict_get (fold_left dict_add l d) k = Some x -> key x = k /\ (In x l \/ dict_get d k = Some x).
Proof.
  induction l as [|y l IH]; intros d Hd k x H; cbn [fold_left] in H; [eauto|]. unfold dict_add at 2 in H.
  apply IH in H as [H1 [H2|H2]].
  - split; [exact H1 | left; now right].
  - destruct (decide (k = key y)) as [->|n].
    + rewrite dict_get_set in H2. injection H2 as ->. split; [reflexivity | left; now left].
    + rewrite dict_get_set_ne in H2 by exact n. auto.
  - intros k' x' H'. destruct (decide (k' = key y)) as [->|n].
    + rewrite dict_get_set in H'. now injection H' as ->.
    + rewrite dict_get_set_ne in H' by exact n. auto.
Qed.

Lemma dict_by_sound l k x : dict_get (dict_by l) k = Some x -> key x = k /\ In x l.
Proof. intros H. destruct (dict_add_sound l [] ltac:(discriminate) k x H) as [E [I|I]]; [now split | discriminate]. Qed.

Lemma dict_add_other l : forall d k, ~ elem_of k (map key l) -> dict_get (fold_left dict_add l d) k = dict_get d k.
Proof.
  induction l as [|x l IH]; intros d k H; cbn [fold_left]; [reflexivity|].
  cbn [map] in H. rewrite elem_of_cons in H. rewrite IH by tauto. apply dict_get_set_ne. tauto.
Qed.

(** Without repeated keys, each element is found. *)
Lemma dict_by_find l x : NoDup (map key l) -> In x l -> dict_get (dict_by l) (key x) = Some x.
Proof.
  unfold dict_by. generalize (@nil (string * A)) as d. induction l as [|y l IH]; intros d N H; [destruct H|].
  cbn [map] in N. apply NoDup_cons in N as [Hy N]. cbn [fold_left].
  destruct H as [->|H]; [|now apply IH]. rewrite dict_add_other by exact Hy. apply dict_get_set.
Qed.
End DictBy.

(** Dictionaries with the same keys in the same order are equal when their entries are. *)
Lemma dict_ext {V} (d d' : pydict V) : map fst d = map fst d' -> NoDup (map fst d) ->
  (forall k, elem_of k (map fst d) -> dict_get d k = dict_get d' k) -> d = d'.
Proof.
  revert d'. induction d as [|[k v] d IH]; intros [|[k' v'] d'] E N H; try discriminate; [reflexivity|].
  cbn [map fst] in *. injection E as <- E. apply NoDup_cons in N as [Hk N].
  pose proof (H k ltac:(constructor)) as Hv. cbn [dict_get] in Hv. rewrite !decide_True in Hv by reflexivity.
  injection Hv as <-. f_equal. apply IH; [exact E | exact N|]. intros k2 Hk2.
  assert (k2 <> k) by congruence. specialize (H k2 ltac:(now constructor)). cbn [dict_get] in H.
  now rewrite !decide_False in H by assumption.
Qed.

(** ** Reflexive-transitive closure, for reachability arguments *)

Section Star.
Context {A : Type} (R : A -> A -> Prop).

Inductive star : A -> A -> Prop :=
| star_refl a : star a a
| star_step a b c : R a b -> star b c -> star a c.

Lemma star_one a b : R a b -> star a b.
Proof. intros H; eapply star_step; [exact H | constructor]. Qed.

Lemma star_trans a b c : star a b -> star b c -> star a c.
Proof. induction 1; eauto using star_step. Qed.

(** A predicate closed under steps holds along every run. *)
Lemma star_invariant (P : A -> Prop) :
  (forall a b, P a -> R a b -> P b) -> forall a b, P a -> star a b -> P b.
Proof. intros HP a b Ha Hs; induction Hs; eauto. Qed.

(** A preorder that every step respects relates the two ends of a run. *)
Lemma star_preorder (Q : A -> A -> Prop) :
  (forall a, Q a a) -> (forall a b c, Q a b -> Q b c -> Q a c) ->
  (forall a b, R a b -> Q a b) -> forall a b, star a b -> Q a b.
Proof. intros Hr Ht HR a b Hs; induction Hs; eauto. Qed.
End Star.

Create HintDb pydb discriminated.
#[export] Hint Resolve star_refl star_one : pydb.
