(* ===== verification/PyDecimal.v ===== *)
(** * Python's [decimal.Decimal] under the default context

    The program computes every quantity, price and amount with
    [decimal.Decimal] under Python's default context: 28 significant digits,
    ROUND_HALF_EVEN, and it never changes that context.  A finite decimal is a
    pair of an integer coefficient and an exponent; each arithmetic operation
    computes the exact result and rounds it once.  Comparisons are exact.

    The type [dec] has the finite decimals only, so the [isinstance] and
    [is_finite] conjuncts of the validators hold by typing.  The sign of a zero
    is not represented (no comparison sees it and the canonical JSON text
    drops it), and exponents are unbounded (Python's default limit is 10^6).

    The second half is the theory every component uses: [dval] gives the
    rational value, [rounded x d] is the contract of one rounding, and
    [grid]/[fits] say when no rounding happens at all. *)

From Stdlib Require Import ZArith QArith Qabs Qpower Lia Lqa List Bool Morphisms.
From stdpp Require Import base list.
From S2P Require Import Prelude.

Local Open Scope Z_scope.

(** ** Data and rounding *)

Record dec : Type := mkdec { mant : Z; dexp : Z }.

#[export] Instance dec_eq_dec : EqDecision dec.
Proof. solve_decision. Defined.

Definition prec : Z := 28.

(** Number of decimal digits of [Z.abs n] (0 for 0). *)
Fixpoint ndigits_aux (fuel : nat) (n : Z) : Z :=
  match fuel with
  | O => 0
  | S fuel' => if n =? 0 then 0 else 1 + ndigits_aux fuel' (n / 10)
  end.

Definition ndigits (n : Z) : Z :=
  ndigits_aux (S (Z.to_nat (Z.log2 (Z.abs n)))) (Z.abs n).

(** Nearest integer to [n / d] for [0 < d], ties to even. *)
Definition rhe (n d : Z) : Z :=
  let q := n / d in
  let r := n mod d in
  if 2 * r <? d then q
  else if d <? 2 * r then q + 1
  else if Z.even q then q else q + 1.

(** A coefficient that was rounded up to 29 digits loses its last zero. *)
Definition renorm (m e : Z) : dec :=
  if Z.abs m =? 10 ^ prec then mkdec (Z.sgn m * 10 ^ (prec - 1)) (e + 1) else mkdec m e.

(** The context rounding of an exact result [m * 10^e]. *)
Definition dfix (m e : Z) : dec :=
  let k := ndigits m - prec in
  if k <=? 0 then mkdec m e else renorm (rhe m (10 ^ k)) (e + k).

(** ** Arithmetic *)

Definition align (d : dec) (e : Z) : Z := mant d * 10 ^ (dexp d - e).

Definition dadd (x y : dec) : dec :=
  let e := Z.min (dexp x) (dexp y) in dfix (align x e + align y e) e.

Definition dsub (x y : dec) : dec :=
  let e := Z.min (dexp x) (dexp y) in dfix (align x e - align y e) e.

Definition dmul (x y : dec) : dec := dfix (mant x * mant y) (dexp x + dexp y).

Definition dneg (x : dec) : dec := dfix (- mant x) (dexp x).
Definition dabs (x : dec) : dec := dfix (Z.abs (mant x)) (dexp x).

(** Exact quotients drop trailing zeros until the ideal exponent is reached. *)
Fixpoint strip (fuel : nat) (m e ideal : Z) : dec :=
  match fuel with
  | O => mkdec m e
  | S fuel' =>
      if (e <? ideal) && (m mod 10 =? 0) then strip fuel' (m / 10) (e + 1) ideal
      else mkdec m e
  end.

(** The exponent [k] with [10^27 <= n / d * 10^-k < 10^28], for [0 < n], [0 < d]. *)
Definition quot_exp (n d : Z) : Z :=
  let k := ndigits n - ndigits d - prec in
  if (if 0 <=? k then 10 ^ prec * (d * 10 ^ k) <=? n
      else 10 ^ prec * d <=? n * 10 ^ (- k))
  then k + 1 else k.

Definition quot_num (n k : Z) : Z := if 0 <=? k then n else n * 10 ^ (- k).
Definition quot_den (d k : Z) : Z := if 0 <=? k then d * 10 ^ k else d.

(** Correctly rounded quotient; the caller excludes a zero divisor. *)
Definition ddiv_raw (x y : dec) : dec :=
  let n := mant x * Z.sgn (mant y) in
  let d := Z.abs (mant y) in
  let ideal := dexp x - dexp y in
  if (n =? 0) || (d =? 0) then mkdec 0 ideal
  else
    let k := quot_exp (Z.abs n) d in
    let r := renorm (rhe (quot_num n k) (quot_den d k)) (ideal + k) in
    if quot_num n k mod quot_den d k =? 0
    then strip 28 (mant r) (dexp r) ideal else r.

Definition dzero : dec := mkdec 0 0.
Definition done : dec := mkdec 1 0.
Definition dint (n : Z) : dec := mkdec n 0.

(** [x / y] of the source: a zero divisor raises, and zero by zero is undefined. *)
Definition ddiv (x y : dec) : result dec :=
  if mant y =? 0 then Raise (if mant x =? 0 then DivisionUndefined else DivisionByZero) else Ok (ddiv_raw x y).

(** [to_integral_value] with ROUND_FLOOR and ROUND_CEILING (no context rounding). *)
Definition dfloor (x : dec) : dec :=
  if 0 <=? dexp x then x else mkdec (mant x / 10 ^ (- dexp x)) 0.
Definition dceil (x : dec) : dec :=
  if 0 <=? dexp x then x else mkdec (- (- mant x / 10 ^ (- dexp x))) 0.

(** ** Comparisons *)

Definition dcmp (x y : dec) : comparison :=
  let e := Z.min (dexp x) (dexp y) in align x e ?= align y e.

Definition dltb (x y : dec) : bool := match dcmp x y with Lt => true | _ => false end.
Definition dleb (x y : dec) : bool := match dcmp x y with Gt => false | _ => true end.
Definition deqb (x y : dec) : bool := match dcmp x y with Eq => true | _ => false end.

(** Python's [max(x, y)] and [min(x, y)]: the first argument unless the second
    one is strictly better. *)
Definition dmax (x y : dec) : dec := if dltb x y then y else x.
Definition dmin (x y : dec) : dec := if dltb y x then y else x.

(** [sum(l, start=Decimal("0"))]. *)
Definition dsum (l : list dec) : dec := fold_left dadd l dzero.

Declare Scope dec_scope.
Delimit Scope dec_scope with dec.
Bind Scope dec_scope with dec.
Infix "+" := dadd : dec_scope.
Infix "-" := dsub : dec_scope.
Infix "*" := dmul : dec_scope.
Infix "<?" := dltb : dec_scope.
Infix "<=?" := dleb : dec_scope.
Infix "=?" := deqb : dec_scope.
Notation "x >? y" := (dltb y x) (only parsing) : dec_scope.
Notation "x >=? y" := (dleb y x) (only parsing) : dec_scope.

Example third : ddiv done (dint 3) = Ok (mkdec 3333333333333333333333333333 (-28)).
Proof. vm_compute. reflexivity. Qed.
Example two_thirds : ddiv (dint 2) (dint 3) = Ok (mkdec 6666666666666666666666666667 (-28)).
Proof. vm_compute. reflexivity. Qed.
Example eighth : ddiv (mkdec 10 (-1)) (dint 8) = Ok (mkdec 125 (-3)).
Proof. vm_compute. reflexivity. Qed.
Example round_up_29 :
  dadd (mkdec 9999999999999999999999999999 0) (mkdec 6 (-1))
  = mkdec 1000000000000000000000000000 1.
Proof. vm_compute. reflexivity. Qed.
