(* ===== verification/DecimalTheory.v ===== *)
(** * Theory of the decimal model

    [dval] maps a decimal to its rational value.  [rounded x d] is what one
    context rounding promises about the exact result [x]: the result has at
    most 28 digits, lies on the same side as [x] of every 28-digit decimal, and
    is within half a unit in the last place.  [fits x] says that no rounding
    happens.  [grid g x] puts a value on the integer multiples of [10^g], the
    shape of quantities and amounts in the program. *)

From Stdlib Require Import ZArith QArith Qabs Qpower Lia Lqa List Bool Morphisms Setoid.
From stdpp Require Import base list.
From S2P Require Import Prelude PyDecimal.

Local Open Scope Z_scope.

(** ** Powers of ten and values *)

Definition pow10 (e : Z) : Q := Qpower 10 e.
Arguments pow10 : simpl never.
Definition dval (d : dec) : Q := (inject_Z (mant d) * pow10 (dexp d))%Q.

(** At most 28 significant digits. *)
Definition repr (d : dec) : Prop := Z.abs (mant d) < 10 ^ prec.
Definition fits (x : Q) : Prop := exists d, repr d /\ dval d == x.
Definition grid (g : Z) (x : Q) : Prop := exists n : Z, x == inject_Z n * pow10 g.

(** Half a unit in the last place, relative: [5 * 10^-28]. *)
Definition half_ulp : Q := 5 # 10000000000000000000000000000.

Record rounded (x : Q) (d : dec) : Prop := {
  rounded_repr : repr d;
  rounded_lo : forall p, repr p -> (dval p <= x -> dval p <= dval d)%Q;
  rounded_hi : forall p, repr p -> (x <= dval p -> dval d <= dval p)%Q;
  rounded_err : (Qabs (dval d - x) <= Qabs x * half_ulp)%Q
}.

Fixpoint qsum (l : list Q) : Q :=
  match l with [] => 0%Q | x :: l' => (x + qsum l')%Q end.

(** Equality of values, Python's [==] on decimals. *)
Definition deq (x y : dec) : Prop := (dval x == dval y)%Q.

Lemma pow10_pos e : (0 < pow10 e)%Q.
Proof. apply Qpower_0_lt; reflexivity. Qed.

Lemma pow10_nz e : ~ (pow10 e == 0)%Q.
Proof. pose proof (pow10_pos e); lra. Qed.

Lemma pow10_add a b : (pow10 (a + b) == pow10 a * pow10 b)%Q.
Proof. apply Qpower_plus; discriminate. Qed.

Lemma pow10_0 : (pow10 0 == 1)%Q.
Proof. reflexivity. Qed.

Lemma pow10_Z k : 0 <= k -> (pow10 k == inject_Z (10 ^ k))%Q.
Proof. intros H. unfold pow10. rewrite Zpower_Qpower by exact H. reflexivity. Qed.

Lemma pow10_split a b : b <= a -> (pow10 a == inject_Z (10 ^ (a - b)) * pow10 b)%Q.
Proof.
  intros H. rewrite <- pow10_Z by lia. rewrite <- pow10_add.
  replace (a - b + b) with a by lia. reflexivity.
Qed.

Lemma pow10_opp a : (pow10 (- a) * pow10 a == 1)%Q.
Proof. rewrite <- pow10_add. replace (- a + a) with 0 by lia. apply pow10_0. Qed.

Lemma pow10_mono a b : a <= b -> (pow10 a <= pow10 b)%Q.
Proof.
  intros H. rewrite (pow10_split b a H).
  assert (1 <= inject_Z (10 ^ (b - a)))%Q.
  { change 1%Q with (inject_Z 1). rewrite <- Zle_Qle. pose proof (Z.pow_pos_nonneg 10 (b - a)). lia. }
  pose proof (pow10_pos a). nra.
Qed.

Lemma inject_Z_lt a b : (inject_Z a < inject_Z b)%Q <-> a < b.
Proof. rewrite Zlt_Qlt. reflexivity. Qed.
Lemma inject_Z_le a b : (inject_Z a <= inject_Z b)%Q <-> a <= b.
Proof. rewrite Zle_Qle. reflexivity. Qed.

Lemma Qabs_inject_Z z : (Qabs (inject_Z z) == inject_Z (Z.abs z))%Q.
Proof. reflexivity. Qed.

Lemma scaled_le a b e : (inject_Z a * pow10 e <= inject_Z b * pow10 e)%Q <-> a <= b.
Proof. rewrite Qmult_le_r by apply pow10_pos. apply inject_Z_le. Qed.
Lemma scaled_lt a b e : (inject_Z a * pow10 e < inject_Z b * pow10 e)%Q <-> a < b.
Proof. rewrite Qmult_lt_r by apply pow10_pos. apply inject_Z_lt. Qed.

Lemma align_val d e : e <= dexp d -> (inject_Z (align d e) * pow10 e == dval d)%Q.
Proof.
  intros H. unfold align, dval. rewrite (pow10_split (dexp d) e H), inject_Z_mult. ring.
Qed.

(** ** Comparisons are exact *)

Lemma dcmp_spec x y : dcmp x y = (dval x ?= dval y)%Q.
Proof.
  unfold dcmp. set (e := Z.min (dexp x) (dexp y)).
  rewrite <- (align_val x e), <- (align_val y e) by (unfold e; lia).
  destruct (Z.compare_spec (align x e) (align y e)) as [H|H|H]; symmetry.
  - rewrite H. apply Qeq_alt; reflexivity.
  - apply Qlt_alt, scaled_lt, H.
  - apply Qgt_alt, scaled_lt, H.
Qed.

Lemma dltb_lt x y : dltb x y = true <-> (dval x < dval y)%Q.
Proof.
  unfold dltb. rewrite dcmp_spec, Qlt_alt. destruct (dval x ?= dval y)%Q; split; congruence.
Qed.
Lemma dltb_ge x y : dltb x y = false <-> (dval y <= dval x)%Q.
Proof.
  rewrite <- not_true_iff_false, dltb_lt. split; [apply Qnot_lt_le | apply Qle_not_lt].
Qed.
Lemma dleb_le x y : dleb x y = true <-> (dval x <= dval y)%Q.
Proof.
  unfold dleb. rewrite dcmp_spec, Qle_alt. destruct (dval x ?= dval y)%Q; split; congruence.
Qed.
Lemma dleb_gt x y : dleb x y = false <-> (dval y < dval x)%Q.
Proof.
  rewrite <- not_true_iff_false, dleb_le. split; [apply Qnot_le_lt | apply Qlt_not_le].
Qed.
Lemma deqb_eq x y : deqb x y = true <-> (dval x == dval y)%Q.
Proof.
  unfold deqb. rewrite dcmp_spec, Qeq_alt. destruct (dval x ?= dval y)%Q; split; congruence.
Qed.
Lemma deqb_ne x y : deqb x y = false <-> ~ (dval x == dval y)%Q.
Proof. rewrite <- not_true_iff_false, deqb_eq. reflexivity. Qed.

(** Decimal guards of the source, as rational facts. *)
Ltac dec_prop :=
  repeat match goal with
  | H : dltb _ _ = true |- _ => apply dltb_lt in H
  | H : dltb _ _ = false |- _ => apply dltb_ge in H
  | H : dleb _ _ = true |- _ => apply dleb_le in H
  | H : dleb _ _ = false |- _ => apply dleb_gt in H
  | H : deqb _ _ = true |- _ => apply deqb_eq in H
  | H : deqb _ _ = false |- _ => apply deqb_ne in H
  | |- dltb _ _ = true => apply dltb_lt
  | |- dltb _ _ = false => apply dltb_ge
  | |- dleb _ _ = true => apply dleb_le
  | |- dleb _ _ = false => apply dleb_gt
  | |- deqb _ _ = true => apply deqb_eq
  | |- deqb _ _ = false => apply deqb_ne
  end.

Lemma dval_zero : (dval dzero == 0)%Q.
Proof. reflexivity. Qed.
Lemma dval_one : (dval done == 1)%Q.
Proof. reflexivity. Qed.
Lemma dval_int n : (dval (dint n) == inject_Z n)%Q.
Proof. unfold dval, dint; cbn [mant dexp]. rewrite pow10_0. ring. Qed.

Lemma dval_0_iff d : (dval d == 0)%Q <-> mant d = 0.
Proof.
  unfold dval. split.
  - intros H. apply Qmult_integral in H as [H|H]; [|now apply pow10_nz in H].
    unfold Qeq in H; simpl in H; lia.
  - intros ->. ring.
Qed.

Lemma dmax_val x y : (dval (dmax x y) == if Qlt_le_dec (dval x) (dval y) then dval y else dval x)%Q.
Proof.
  unfold dmax. destruct (dltb x y) eqn:E; dec_prop; destruct (Qlt_le_dec _ _); lra || reflexivity.
Qed.
Lemma dmax_ub_l x y : (dval x <= dval (dmax x y))%Q.
Proof. unfold dmax. destruct (dltb x y) eqn:E; dec_prop; lra. Qed.
Lemma dmax_ub_r x y : (dval y <= dval (dmax x y))%Q.
Proof. unfold dmax. destruct (dltb x y) eqn:E; dec_prop; lra. Qed.
Lemma dmin_lb_l x y : (dval (dmin x y) <= dval x)%Q.
Proof. unfold dmin. destruct (dltb y x) eqn:E; dec_prop; lra. Qed.
Lemma dmin_lb_r x y : (dval (dmin x y) <= dval y)%Q.
Proof. unfold dmin. destruct (dltb y x) eqn:E; dec_prop; lra. Qed.
Lemma dmax_case x y : dmax x y = x \/ dmax x y = y.
Proof. unfold dmax. destruct (dltb x y); auto. Qed.
Lemma dmin_case x y : dmin x y = x \/ dmin x y = y.
Proof. unfold dmin. destruct (dltb y x); auto. Qed.

(** ** Digits and integer rounding *)

Lemma ndigits_aux_spec fuel n :
  0 <= n < 2 ^ Z.of_nat fuel ->
  (n = 0 /\ ndigits_aux fuel n = 0) \/
  (0 < ndigits_aux fuel n /\ 10 ^ (ndigits_aux fuel n - 1) <= n < 10 ^ ndigits_aux fuel n).
Proof.
  revert n; induction fuel as [|fuel IH]; intros n Hn.
  - simpl in *. left. lia.
  - cbn [ndigits_aux]. destruct (Z.eqb_spec n 0) as [->|Hnz]; [left; auto|right].
    assert (Hq : 0 <= n / 10 < 2 ^ Z.of_nat fuel).
    { rewrite Nat2Z.inj_succ, Z.pow_succ_r in Hn by lia.
      split; [apply Z.div_pos; lia|]. apply Z.div_lt_upper_bound; lia. }
    pose proof (Z.div_mod n 10 ltac:(lia)) as E. pose proof (Z.mod_pos_bound n 10 ltac:(lia)).
    destruct (IH _ Hq) as [[Hz ->]|(Hpos & Hlo & Hhi)].
    + replace (1 + 0 - 1) with 0 by lia. rewrite Z.pow_0_r. change (10 ^ (1 + 0)) with 10. lia.
    + set (k := ndigits_aux fuel (n / 10)) in *.
      replace (1 + k - 1) with (Z.succ (k - 1)) by lia. replace (1 + k) with (Z.succ k) by lia.
      rewrite !Z.pow_succ_r by lia. lia.
Qed.

Lemma ndigits_spec n :
  (n = 0 /\ ndigits n = 0) \/
  (0 < ndigits n /\ 10 ^ (ndigits n - 1) <= Z.abs n < 10 ^ ndigits n).
Proof.
  unfold ndigits.
  assert (Hb : 0 <= Z.abs n < 2 ^ Z.of_nat (S (Z.to_nat (Z.log2 (Z.abs n))))).
  { split; [lia|]. pose proof (Z.log2_nonneg (Z.abs n)).
    rewrite Nat2Z.inj_succ, Z2Nat.id by lia.
    destruct (Z.eq_dec n 0) as [->|Hn]; [reflexivity|].
    apply Z.log2_spec; lia. }
  destruct (ndigits_aux_spec _ _ Hb) as [[H1 H2]|H]; [left|right; exact H].
  split; [lia | exact H2].
Qed.

Lemma ndigits_le_repr n k : 0 <= k -> ndigits n <= k <-> Z.abs n < 10 ^ k.
Proof.
  intros Hk. destruct (ndigits_spec n) as [[-> ->]|(Hp & Hlo & Hhi)].
  - split; intros _; [apply Z.pow_pos_nonneg; lia | exact Hk].
  - split; intros H.
    + pose proof (Z.pow_le_mono_r 10 (ndigits n) k). lia.
    + destruct (Z.le_gt_cases (ndigits n) k) as [|Hgt]; [assumption|exfalso].
      pose proof (Z.pow_le_mono_r 10 k (ndigits n - 1)). lia.
Qed.

Section IntegerRounding.
Context (n d : Z) (Hd : 0 < d).

Lemma rhe_cases : rhe n d = n / d \/ (rhe n d = n / d + 1 /\ 0 < n mod d).
Proof.
  unfold rhe. pose proof (Z.mod_pos_bound n d Hd).
  destruct (Z.ltb_spec (2 * (n mod d)) d); [auto|].
  destruct (Z.ltb_spec d (2 * (n mod d))); [right; lia|].
  destruct (Z.even (n / d)); [auto|right; lia].
Qed.

Lemma rhe_lo z : z * d <= n -> z <= rhe n d.
Proof.
  intros H. assert (z <= n / d) by (apply Z.div_le_lower_bound; lia).
  destruct rhe_cases as [->|[-> _]]; lia.
Qed.

Lemma rhe_hi z : n <= z * d -> rhe n d <= z.
Proof.
  intros H. pose proof (Z.div_mod n d ltac:(lia)). pose proof (Z.mod_pos_bound n d Hd).
  destruct rhe_cases as [->|[-> Hm]]; nia.
Qed.

Lemma rhe_near : 2 * Z.abs (rhe n d * d - n) <= d.
Proof.
  unfold rhe. pose proof (Z.mod_pos_bound n d Hd). pose proof (Z.div_mod n d ltac:(lia)).
  destruct (Z.ltb_spec (2 * (n mod d)) d); [nia|].
  destruct (Z.ltb_spec d (2 * (n mod d))); [nia|].
  destruct (Z.even (n / d)); nia.
Qed.

Lemma rhe_scale c : 0 < c -> rhe (c * n) (c * d) = rhe n d.
Proof.
  intros Hc. unfold rhe.
  rewrite Z.div_mul_cancel_l, Z.mul_mod_distr_l by lia.
  replace (2 * (c * (n mod d))) with (c * (2 * (n mod d))) by lia.
  replace (c * (2 * (n mod d)) <? c * d) with (2 * (n mod d) <? d)
    by (apply eq_iff_eq_true; rewrite !Z.ltb_lt; nia).
  replace (c * d <? c * (2 * (n mod d))) with (d <? 2 * (n mod d))
    by (apply eq_iff_eq_true; rewrite !Z.ltb_lt; nia).
  reflexivity.
Qed.
End IntegerRounding.

(** ** One context rounding *)

Lemma repr_opp d : repr d -> repr (mkdec (- mant d) (dexp d)).
Proof. unfold repr; simpl. lia. Qed.

Lemma dval_opp d : (dval (mkdec (- mant d) (dexp d)) == - dval d)%Q.
Proof. unfold dval; cbn [mant dexp]. rewrite inject_Z_opp. ring. Qed.

Lemma renorm_val n k : (dval (renorm n k) == inject_Z n * pow10 k)%Q.
Proof.
  unfold renorm. destruct (Z.eqb_spec (Z.abs n) (10 ^ prec)) as [E|E]; [|reflexivity].
  unfold dval; cbn [mant dexp]. rewrite pow10_add.
  assert (Hn : n = Z.sgn n * 10 ^ (prec - 1) * 10).
  { replace (Z.sgn n * 10 ^ (prec - 1) * 10) with (Z.sgn n * 10 ^ prec) by (unfold prec; lia).
    rewrite <- E, Z.mul_comm, Z.abs_sgn. reflexivity. }
  rewrite Hn at 2. rewrite (inject_Z_mult _ 10). change (pow10 1) with (inject_Z 10). ring.
Qed.

Lemma renorm_repr n k : Z.abs n <= 10 ^ prec -> repr (renorm n k).
Proof.
  unfold renorm, repr. intros H. destruct (Z.eqb_spec (Z.abs n) (10 ^ prec)) as [E|E].
  - simpl. rewrite Z.abs_mul. unfold prec in *.
    assert (Z.abs (Z.sgn n) <= 1) by (destruct n; simpl; lia). simpl. lia.
  - simpl mant. lia.
Qed.

(** A representable value below [x] is below the integer part of [x] in units
    of [10^k], where [10^k] is the quantum of [x]. *)
Lemma repr_below x n k p :
  (forall z, (inject_Z z * pow10 k <= x)%Q -> z <= n) ->
  (inject_Z (10 ^ 27) * pow10 k <= Qabs x)%Q ->
  repr p -> (dval p <= x)%Q -> (dval p <= inject_Z n * pow10 k)%Q.
Proof.
  intros Hn Hx Hp Hle. destruct (Z.le_gt_cases k (dexp p)) as [Hk|Hk].
  - rewrite <- (align_val p k Hk) in *. apply scaled_le, Hn, Hle.
  - assert (Hb : (Qabs (dval p) <= inject_Z (10 ^ 27) * pow10 k)%Q).
    { unfold dval. rewrite Qabs_Qmult, (Qabs_pos (pow10 _)) by apply Qlt_le_weak, pow10_pos.
      apply Qle_trans with (inject_Z (10 ^ 28) * pow10 (dexp p))%Q.
      - apply Qmult_le_r; [apply pow10_pos|]. rewrite Qabs_inject_Z. apply inject_Z_le.
        unfold repr, prec in Hp. lia.
      - rewrite (pow10_split k (dexp p)) by lia. rewrite Qmult_assoc, <- inject_Z_mult.
        apply scaled_le. change (10 ^ 28) with (10 ^ 27 * 10).
        apply Z.mul_le_mono_nonneg_l; [lia|].
        pose proof (Z.pow_le_mono_r 10 1 (k - dexp p)). lia. }
    destruct (Qlt_le_dec x 0) as [Hneg|Hpos].
    + assert (E : (dval p == - (inject_Z (10 ^ 27) * pow10 k))%Q).
      { rewrite Qabs_neg in Hx by lra.
        pose proof (Qle_Qabs (- dval p)) as Hq. rewrite Qabs_opp in Hq. lra. }
      assert (Hz : - 10 ^ 27 <= n).
      { apply Hn. rewrite inject_Z_opp. lra. }
      apply (scaled_le _ _ k) in Hz. rewrite inject_Z_opp in Hz. lra.
    + rewrite Qabs_pos in Hx by lra.
      specialize (Hn _ Hx). apply (scaled_le _ _ k) in Hn.
      pose proof (Qle_Qabs (dval p)). lra.
Qed.

Lemma rounded_core x n k :
  (forall z, (inject_Z z * pow10 k <= x)%Q -> z <= n) ->
  (forall z, (x <= inject_Z z * pow10 k)%Q -> n <= z) ->
  (Qabs (inject_Z n * pow10 k - x) <= (1 # 2) * pow10 k)%Q ->
  (inject_Z (10 ^ 27) * pow10 k <= Qabs x)%Q ->
  (Qabs x <= inject_Z (10 ^ 28) * pow10 k)%Q ->
  rounded x (renorm n k).
Proof.
  intros Hlo Hhi Herr Hx Hx'. apply Qabs_Qle_condition in Hx' as [Hx1 Hx2].
  split.
  - apply renorm_repr. unfold prec. apply Z.abs_le; split; [|apply Hhi; lra].
    apply Hlo. rewrite inject_Z_opp. lra.
  - intros p Hp Hle. rewrite renorm_val. eapply repr_below; eauto.
  - intros p Hp Hle. rewrite renorm_val.
    enough (- dval p <= inject_Z (- n) * pow10 k)%Q by (rewrite inject_Z_opp in *; lra).
    rewrite <- dval_opp. apply (repr_below (- x) (- n) k).
    + intros z Hz. enough (n <= - z) by lia. apply Hhi. rewrite inject_Z_opp. lra.
    + now rewrite Qabs_opp.
    + now apply repr_opp.
    + rewrite dval_opp. lra.
  - rewrite renorm_val. unfold half_ulp.
    change (inject_Z (10 ^ 27)) with (1000000000000000000000000000 # 1) in Hx. lra.
Qed.

Lemma rounded_exact d x : repr d -> (dval d == x)%Q -> rounded x d.
Proof.
  intros Hr E. split; [exact Hr | intros; lra | intros; lra |].
  assert (x - x == 0)%Q as Ez by ring. rewrite E, Ez. change (Qabs 0) with 0%Q.
  pose proof (Qabs_nonneg x). unfold half_ulp. lra.
Qed.

#[export] Instance rounded_Proper : Proper (Qeq ==> eq ==> iff) rounded.
Proof.
  intros x y E d d' <-. split; intros [H1 H2 H3 H4]; (split; [exact H1|..]).
  - intros p Hp; rewrite <- E; auto.
  - intros p Hp; rewrite <- E; auto.
  - now rewrite <- E.
  - intros p Hp; rewrite E; auto.
  - intros p Hp; rewrite E; auto.
  - now rewrite E.
Qed.

(** The scaled quotient [n / d] rounded to an integer. *)
Lemma rounded_quot n d k x :
  0 < d -> (inject_Z n == x * pow10 (- k) * inject_Z d)%Q ->
  (inject_Z (10 ^ 27) * pow10 k <= Qabs x)%Q -> (Qabs x <= inject_Z (10 ^ 28) * pow10 k)%Q ->
  rounded x (renorm (rhe n d) k).
Proof.
  intros Hd E Hx Hx'.
  assert (Hd' : (0 < inject_Z d)%Q) by (change 0%Q with (inject_Z 0); now apply inject_Z_lt).
  pose proof (pow10_pos k) as Hk. pose proof (pow10_opp k) as Ho. pose proof (pow10_pos (- k)) as Hk'.
  assert (Ex : (x * inject_Z d == inject_Z n * pow10 k)%Q).
  { rewrite E. transitivity (x * inject_Z d * (pow10 (- k) * pow10 k))%Q; [rewrite Ho|]; ring. }
  apply rounded_core; [| | |exact Hx|exact Hx'].
  - intros z Hz. apply rhe_lo; [exact Hd|]. apply inject_Z_le.
    rewrite inject_Z_mult. apply (Qmult_le_r _ _ _ Hk). rewrite <- Ex.
    apply (Qmult_le_r _ _ _ Hd') in Hz. lra.
  - intros z Hz. apply rhe_hi; [exact Hd|]. apply inject_Z_le.
    rewrite inject_Z_mult. apply (Qmult_le_r _ _ _ Hk). rewrite <- Ex.
    apply (Qmult_le_r _ _ _ Hd') in Hz. lra.
  - pose proof (rhe_near n d Hd) as Hn. apply inject_Z_le in Hn.
    rewrite inject_Z_mult, <- Qabs_inject_Z in Hn.
    unfold Z.sub in Hn. rewrite inject_Z_plus, inject_Z_mult, inject_Z_opp in Hn.
    apply (Qmult_le_r _ _ _ Hd').
    rewrite <- (Qabs_pos (inject_Z d)) at 1 by lra. rewrite <- Qabs_Qmult.
    assert ((inject_Z (rhe n d) * pow10 k - x) * inject_Z d
            == (inject_Z (rhe n d) * inject_Z d + - inject_Z n) * pow10 k)%Q as -> by lra.
    rewrite Qabs_Qmult, (Qabs_pos (pow10 k)) by lra.
    apply (Qmult_le_r _ _ _ Hk) in Hn. change (inject_Z 2) with 2%Q in Hn. lra.
Qed.

Lemma dfix_rounded m e : rounded (inject_Z m * pow10 e) (dfix m e).
Proof.
  unfold dfix. destruct (Z.leb_spec (ndigits m - prec) 0) as [Hk|Hk].
  - apply rounded_exact; [|reflexivity]. apply (ndigits_le_repr m prec); unfold prec in *; lia.
  - set (k := ndigits m - prec) in *.
    destruct (ndigits_spec m) as [[_ H0]|(_ & Hlo & Hhi)]; [unfold k, prec in Hk; lia|].
    replace (ndigits m) with (28 + k) in Hlo, Hhi by (unfold k, prec; lia).
    replace (28 + k - 1) with (27 + k) in Hlo by lia.
    rewrite Z.pow_add_r in Hlo, Hhi by lia.
    assert (Ex : (Qabs (inject_Z m * pow10 e)
                  == inject_Z (Z.abs m) * pow10 e)%Q).
    { rewrite Qabs_Qmult, Qabs_inject_Z, (Qabs_pos (pow10 e)) by apply Qlt_le_weak, pow10_pos.
      reflexivity. }
    apply rounded_quot.
    + apply Z.pow_pos_nonneg; lia.
    + rewrite <- pow10_Z by lia.
      transitivity (inject_Z m * (pow10 e * pow10 (- (e + k)) * pow10 k))%Q; [|ring].
      rewrite <- !pow10_add. replace (e + - (e + k) + k) with 0 by lia. rewrite pow10_0. ring.
    + rewrite Ex, (pow10_split (e + k) e) by lia. replace (e + k - e) with k by lia.
      rewrite Qmult_assoc, <- inject_Z_mult. now apply scaled_le.
    + rewrite Ex, (pow10_split (e + k) e) by lia. replace (e + k - e) with k by lia.
      rewrite Qmult_assoc, <- inject_Z_mult. apply scaled_le. lia.
Qed.

Lemma dadd_rounded x y : rounded (dval x + dval y) (dadd x y).
Proof.
  unfold dadd. set (e := Z.min (dexp x) (dexp y)).
  rewrite <- (align_val x e), <- (align_val y e) by (unfold e; lia).
  rewrite <- Qmult_plus_distr_l, <- inject_Z_plus. apply dfix_rounded.
Qed.

Lemma dsub_rounded x y : rounded (dval x - dval y) (dsub x y).
Proof.
  unfold dsub. set (e := Z.min (dexp x) (dexp y)).
  rewrite <- (align_val x e), <- (align_val y e) by (unfold e; lia).
  assert (inject_Z (align x e) * pow10 e - inject_Z (align y e) * pow10 e
          == inject_Z (align x e - align y e) * pow10 e)%Q as ->.
  { unfold Z.sub. rewrite inject_Z_plus, inject_Z_opp. ring. }
  apply dfix_rounded.
Qed.

Lemma dmul_rounded x y : rounded (dval x * dval y) (dmul x y).
Proof.
  unfold dmul, dval.
  assert (inject_Z (mant x) * pow10 (dexp x) * (inject_Z (mant y) * pow10 (dexp y))
          == inject_Z (mant x * mant y) * pow10 (dexp x + dexp y))%Q as ->.
  { rewrite inject_Z_mult, pow10_add. ring. }
  apply dfix_rounded.
Qed.

Lemma dneg_rounded x : rounded (- dval x) (dneg x).
Proof.
  unfold dneg. rewrite <- dval_opp. unfold dval; cbn [mant dexp]. apply dfix_rounded.
Qed.

Lemma dabs_rounded x : rounded (Qabs (dval x)) (dabs x).
Proof.
  unfold dabs, dval. rewrite Qabs_Qmult, Qabs_inject_Z, (Qabs_pos (pow10 _))
    by apply Qlt_le_weak, pow10_pos. apply dfix_rounded.
Qed.

Lemma inject_Z_pos z : 0 < z -> (0 < inject_Z z)%Q.
Proof. intros H. change 0%Q with (inject_Z 0). now apply inject_Z_lt. Qed.

(** The test of [quot_exp] compares the quotient with [10^28 * 10^k]. *)
Lemma quot_exp_test n d k :
  0 < d ->
  (if 0 <=? k then 10 ^ prec * (d * 10 ^ k) <=? n else 10 ^ prec * d <=? n * 10 ^ (- k)) = true <->
  (inject_Z (10 ^ 28) * pow10 k <= inject_Z n / inject_Z d)%Q.
Proof.
  intros Hd. pose proof (inject_Z_pos d Hd) as Hd'.
  assert (Hiff : (inject_Z (10 ^ 28) * pow10 k <= inject_Z n / inject_Z d)%Q <->
                 (inject_Z (10 ^ 28) * pow10 k * inject_Z d <= inject_Z n)%Q).
  { split; intros H; [|now apply Qle_shift_div_l].
    apply (Qmult_le_r _ _ (inject_Z d) Hd') in H.
    rewrite (Qmult_comm (_ / _)), Qmult_div_r in H by lra. lra. }
  rewrite Hiff. destruct (Z.leb_spec 0 k) as [Hk|Hk]; rewrite Z.leb_le, <- inject_Z_le; unfold prec.
  - rewrite !inject_Z_mult, <- (pow10_Z k) by lia. split; intros; lra.
  - rewrite !inject_Z_mult, <- (pow10_Z (- k)) by lia.
    rewrite <- (Qmult_le_r (inject_Z (10 ^ 28) * pow10 k * inject_Z d) _ (pow10 (- k)))
      by apply pow10_pos.
    assert (inject_Z (10 ^ 28) * pow10 k * inject_Z d * pow10 (- k)
            == inject_Z (10 ^ 28) * inject_Z d)%Q as ->; [|reflexivity].
    transitivity (inject_Z (10 ^ 28) * inject_Z d * (pow10 (- k) * pow10 k))%Q; [ring|].
    rewrite pow10_opp. ring.
Qed.

Lemma quot_bounds n d (k := ndigits n - ndigits d - prec) :
  0 < n -> 0 < d ->
  (inject_Z (10 ^ 27) * pow10 k <= inject_Z n / inject_Z d)%Q /\
  (inject_Z n / inject_Z d <= inject_Z (10 ^ 28) * pow10 (k + 1))%Q.
Proof.
  intros Hn Hd. pose proof (inject_Z_pos d Hd) as Hd'.
  destruct (ndigits_spec n) as [[H0 _]|(Hp & Hn1 & Hn2)]; [lia|].
  destruct (ndigits_spec d) as [[H0 _]|(Hp' & Hd1 & Hd2)]; [lia|].
  rewrite Z.abs_eq in Hn1, Hn2, Hd1, Hd2 by lia.
  apply inject_Z_le in Hn1, Hd1. rewrite <- pow10_Z in Hn1, Hd1 by lia.
  apply inject_Z_lt in Hn2, Hd2. rewrite <- pow10_Z in Hn2, Hd2 by lia.
  rewrite <- !pow10_Z, <- !pow10_add by lia.
  split; [apply Qle_shift_div_l | apply Qle_shift_div_r]; try exact Hd'.
  - apply Qle_trans with (pow10 (27 + k) * pow10 (ndigits d))%Q.
    + apply Qmult_le_l; [apply pow10_pos|]. lra.
    + rewrite <- pow10_add. eapply Qle_trans; [|exact Hn1]. apply pow10_mono. unfold k, prec. lia.
  - apply Qle_trans with (pow10 (28 + (k + 1)) * pow10 (ndigits d - 1))%Q.
    + rewrite <- pow10_add. eapply Qle_trans; [apply Qlt_le_weak, Hn2|].
      apply pow10_mono. unfold k, prec. lia.
    + apply Qmult_le_l; [apply pow10_pos|]. lra.
Qed.

Lemma quot_exp_spec n d :
  0 < n -> 0 < d ->
  (inject_Z (10 ^ 27) * pow10 (quot_exp n d) <= inject_Z n / inject_Z d)%Q /\
  (inject_Z n / inject_Z d <= inject_Z (10 ^ 28) * pow10 (quot_exp n d))%Q.
Proof.
  intros Hn Hd. destruct (quot_bounds n d Hn Hd) as [Hlow Hhigh].
  unfold quot_exp. set (k := ndigits n - ndigits d - prec) in *.
  pose proof (quot_exp_test n d k Hd) as Hmid.
  destruct (if 0 <=? k then _ else _).
  - split; [|exact Hhigh]. apply proj1 in Hmid. specialize (Hmid eq_refl).
    rewrite pow10_add. change (inject_Z (10 ^ 27)) with (1000000000000000000000000000 # 1).
    change (inject_Z (10 ^ 28)) with (10000000000000000000000000000 # 1) in Hmid.
    change (pow10 1) with 10%Q. lra.
  - split; [exact Hlow|].
    destruct (Qlt_le_dec (inject_Z (10 ^ 28) * pow10 k) (inject_Z n / inject_Z d)) as [H|H];
      [|exact H].
    apply Qlt_le_weak, Hmid in H. discriminate.
Qed.

Lemma strip_spec fuel m e ideal :
  (dval (strip fuel m e ideal) == inject_Z m * pow10 e)%Q /\ Z.abs (mant (strip fuel m e ideal)) <= Z.abs m.
Proof.
  revert m e; induction fuel as [|fuel IH]; intros m e; cbn [strip].
  - split; [reflexivity | simpl; lia].
  - destruct ((e <? ideal) && (m mod 10 =? 0)) eqn:E; [|split; [reflexivity | simpl; lia]].
    bool_prop. destruct (IH (m / 10) (e + 1)) as [IH1 IH2].
    assert (Em : m = m / 10 * 10) by (pose proof (Z.div_mod m 10 ltac:(lia)); lia).
    split; [|lia]. rewrite IH1, pow10_add. rewrite Em at 2.
    rewrite (inject_Z_mult _ 10). change (pow10 1) with (inject_Z 10). ring.
Qed.

Lemma quot_sign x y :
  mant y <> 0 ->
  (dval x / dval y ==
   inject_Z (mant x * Z.sgn (mant y)) / inject_Z (Z.abs (mant y)) * pow10 (dexp x - dexp y))%Q.
Proof.
  intros Hy. unfold dval.
  assert (Hs : (inject_Z (Z.abs (mant y)) == inject_Z (mant y) * inject_Z (Z.sgn (mant y)))%Q).
  { rewrite <- inject_Z_mult.
    replace (mant y * Z.sgn (mant y)) with (Z.abs (mant y)) by (destruct (mant y); simpl; lia).
    reflexivity. }
  assert (Hy' : ~ (inject_Z (mant y) == 0)%Q).
  { intros H. unfold Qeq in H; simpl in H. lia. }
  assert (Hsg : ~ (inject_Z (Z.sgn (mant y)) == 0)%Q).
  { intros H. unfold Qeq in H; simpl in H. lia. }
  assert (Hp : (pow10 (dexp x) == pow10 (dexp x - dexp y) * pow10 (dexp y))%Q).
  { rewrite <- pow10_add. replace (dexp x - dexp y + dexp y) with (dexp x) by lia. reflexivity. }
  rewrite Hs, Hp, inject_Z_mult. field. repeat split; auto using pow10_nz.
Qed.

Lemma quot_rounded n d ideal (k := quot_exp (Z.abs n) d) :
  n <> 0 -> 0 < d ->
  rounded (inject_Z n / inject_Z d * pow10 ideal)
          (renorm (rhe (quot_num n k) (quot_den d k)) (ideal + k)).
Proof.
  intros Hn Hd. destruct (quot_exp_spec (Z.abs n) d ltac:(lia) Hd) as [Hlo Hhi].
  fold k in Hlo, Hhi. pose proof (inject_Z_pos d Hd) as Hd'. pose proof (pow10_pos ideal) as Hi.
  assert (Ha : (Qabs (inject_Z n / inject_Z d * pow10 ideal)
               == inject_Z (Z.abs n) / inject_Z d * pow10 ideal)%Q).
  { rewrite Qabs_Qmult, (Qabs_pos (pow10 ideal)) by lra. unfold Qdiv.
    rewrite Qabs_Qmult, Qabs_inject_Z, (Qabs_pos (/ _)) by (apply Qlt_le_weak, Qinv_lt_0_compat, Hd').
    reflexivity. }
  apply rounded_quot.
  - unfold quot_den. destruct (Z.leb_spec 0 k); [|exact Hd].
    apply Z.mul_pos_pos; [exact Hd | apply Z.pow_pos_nonneg; lia].
  - replace (- (ideal + k)) with (- ideal + - k) by lia. rewrite pow10_add.
    transitivity (inject_Z n / inject_Z d * (pow10 (- ideal) * pow10 ideal) *
                  (pow10 (- k) * inject_Z (quot_den d k)))%Q; [|ring].
    rewrite pow10_opp. unfold quot_num, quot_den. destruct (Z.leb_spec 0 k).
    + rewrite inject_Z_mult, <- (pow10_Z k) by lia.
      transitivity (inject_Z n * (pow10 (- k) * pow10 k))%Q; [rewrite pow10_opp; ring|].
      field; lra.
    + rewrite inject_Z_mult, <- (pow10_Z (- k)) by lia. field; lra.
  - rewrite Ha, pow10_add. apply (Qmult_le_r _ _ (pow10 ideal) Hi) in Hlo. lra.
  - rewrite Ha, pow10_add. apply (Qmult_le_r _ _ (pow10 ideal) Hi) in Hhi. lra.
Qed.

Lemma ddiv_raw_rounded x y : mant y <> 0 -> rounded (dval x / dval y) (ddiv_raw x y).
Proof.
  intros Hy. rewrite (quot_sign x y Hy). unfold ddiv_raw.
  set (n := mant x * Z.sgn (mant y)). set (d := Z.abs (mant y)).
  set (ideal := dexp x - dexp y). assert (Hd : 0 < d) by (unfold d; lia).
  destruct (Z.eqb_spec n 0) as [->|Hn]; cbn [orb].
  { apply rounded_exact; [reflexivity|]. unfold dval; cbn [mant dexp]. unfold Qdiv. ring. }
  destruct (Z.eqb_spec d 0) as [|_]; [lia|].
  pose proof (quot_rounded n d ideal Hn Hd) as Hr.
  destruct (_ =? 0) in |- *; [|exact Hr].
  set (r := renorm _ _) in *. destruct (strip_spec 28 (mant r) (dexp r) ideal) as [Ev Er].
  change (inject_Z (mant r) * pow10 (dexp r))%Q with (dval r) in Ev.
  destruct Hr as [H1 H2 H3 H4].
  split; [unfold repr in *; lia | setoid_rewrite Ev; auto .. | now rewrite Ev].
Qed.

(** ** Consequences of the rounding contract *)

Section Consequences.
Context {x : Q} {d : dec} (R : rounded x d).

Lemma rounded_fits : fits x -> (dval d == x)%Q.
Proof.
  intros (p & Hp & E). apply Qle_antisym.
  - rewrite <- E. apply (rounded_hi _ _ R p Hp). lra.
  - rewrite <- E. apply (rounded_lo _ _ R p Hp). lra.
Qed.

Lemma rounded_zero : (x == 0)%Q -> (dval d == 0)%Q.
Proof. intros E. rewrite rounded_fits; [exact E|]. exists dzero. split; [reflexivity|]. now rewrite E. Qed.

Lemma rounded_nonneg : (0 <= x)%Q -> (0 <= dval d)%Q.
Proof. intros H. apply (rounded_lo _ _ R dzero); [reflexivity | exact H]. Qed.

Lemma rounded_nonpos : (x <= 0)%Q -> (dval d <= 0)%Q.
Proof. intros H. apply (rounded_hi _ _ R dzero); [reflexivity | exact H]. Qed.

Lemma rounded_pos : (0 < x)%Q -> (0 < dval d)%Q.
Proof.
  intros H. pose proof (rounded_err _ _ R) as He. rewrite (Qabs_pos x) in He by lra.
  apply Qabs_Qle_condition in He as [He _]. unfold half_ulp in He. lra.
Qed.

Lemma rounded_neg : (x < 0)%Q -> (dval d < 0)%Q.
Proof.
  intros H. pose proof (rounded_err _ _ R) as He. rewrite (Qabs_neg x) in He by lra.
  apply Qabs_Qle_condition in He as [_ He]. unfold half_ulp in He. lra.
Qed.

(** The sign of the exact result is the sign of the rounded one. *)
Lemma rounded_pos_inv : (0 < dval d)%Q -> (0 < x)%Q.
Proof.
  intros H. destruct (Qlt_le_dec 0 x) as [|Hx]; [assumption|].
  apply rounded_nonpos in Hx. lra.
Qed.

Lemma rounded_zero_inv : (dval d == 0)%Q -> (x == 0)%Q.
Proof.
  intros H. destruct (Q_dec x 0) as [[Hx|Hx]|Hx]; [| |exact Hx].
  - apply rounded_neg in Hx. lra.
  - apply rounded_pos in Hx. lra.
Qed.

(** Relative error, for a nonnegative exact result. *)
Lemma rounded_rel : (0 <= x)%Q ->
  (x * (1 - half_ulp) <= dval d /\ dval d <= x * (1 + half_ulp))%Q.
Proof.
  intros H. pose proof (rounded_err _ _ R) as He. rewrite (Qabs_pos x) in He by lra.
  apply Qabs_Qle_condition in He. lra.
Qed.
End Consequences.

Lemma repr_fits d : repr d -> fits (dval d).
Proof. intros H; exists d; split; [exact H | reflexivity]. Qed.

#[export] Instance fits_Proper : Proper (Qeq ==> iff) fits.
Proof. intros x y E. unfold fits. now setoid_rewrite E. Qed.
#[export] Instance grid_Proper g : Proper (Qeq ==> iff) (grid g).
Proof. intros x y E. unfold grid. now setoid_rewrite E. Qed.

Lemma dadd_repr x y : repr (dadd x y).
Proof. apply (rounded_repr _ _ (dadd_rounded x y)). Qed.
Lemma dsub_repr x y : repr (dsub x y).
Proof. apply (rounded_repr _ _ (dsub_rounded x y)). Qed.
Lemma dmul_repr x y : repr (dmul x y).
Proof. apply (rounded_repr _ _ (dmul_rounded x y)). Qed.

Lemma dadd_exact x y : fits (dval x + dval y) -> (dval (dadd x y) == dval x + dval y)%Q.
Proof. apply (rounded_fits (dadd_rounded x y)). Qed.
Lemma dsub_exact x y : fits (dval x - dval y) -> (dval (dsub x y) == dval x - dval y)%Q.
Proof. apply (rounded_fits (dsub_rounded x y)). Qed.
Lemma dmul_exact x y : fits (dval x * dval y) -> (dval (dmul x y) == dval x * dval y)%Q.
Proof. apply (rounded_fits (dmul_rounded x y)). Qed.

Lemma dsub_diag x y : deq x y -> (dval (dsub x y) == 0)%Q.
Proof. intros E. apply (rounded_zero (dsub_rounded x y)). unfold deq in E. lra. Qed.

Lemma dsub_zero_inv x y : (dval (dsub x y) == 0)%Q -> deq x y.
Proof. intros H. apply (rounded_zero_inv (dsub_rounded x y)) in H. unfold deq. lra. Qed.

Lemma dadd_0_l x : repr x -> deq (dadd dzero x) x.
Proof.
  intros H. unfold deq. rewrite dadd_exact; rewrite dval_zero, Qplus_0_l; [reflexivity|].
  now apply repr_fits.
Qed.

Lemma dsub_0_r x : repr x -> deq (dsub x dzero) x.
Proof.
  intros H. unfold deq. rewrite dsub_exact; rewrite dval_zero; [lra|].
  assert (dval x - 0 == dval x)%Q as -> by lra. now apply repr_fits.
Qed.

Lemma dadd_nonneg x y : (0 <= dval x -> 0 <= dval y -> 0 <= dval (dadd x y))%Q.
Proof. intros. apply (rounded_nonneg (dadd_rounded x y)). lra. Qed.
Lemma dadd_pos x y : (0 < dval x -> 0 <= dval y -> 0 < dval (dadd x y))%Q.
Proof. intros. apply (rounded_pos (dadd_rounded x y)). lra. Qed.
Lemma dmul_nonneg x y : (0 <= dval x -> 0 <= dval y -> 0 <= dval (dmul x y))%Q.
Proof. intros. apply (rounded_nonneg (dmul_rounded x y)). nra. Qed.
Lemma dmul_pos x y : (0 < dval x -> 0 < dval y -> 0 < dval (dmul x y))%Q.
Proof. intros. apply (rounded_pos (dmul_rounded x y)). nra. Qed.

Lemma ddiv_Ok x y z : ddiv x y = Ok z <-> (~ (dval y == 0)%Q) /\ z = ddiv_raw x y.
Proof.
  unfold ddiv. rewrite dval_0_iff. destruct (Z.eqb_spec (mant y) 0) as [E|E].
  - split; [discriminate | intros [H _]; contradiction].
  - split; [intros [= <-]; auto | intros [_ ->]; reflexivity].
Qed.

Lemma ddiv_total x y : ~ (dval y == 0)%Q -> ddiv x y = Ok (ddiv_raw x y).
Proof. intros H. apply ddiv_Ok; auto. Qed.

Lemma ddiv_rounded x y : ~ (dval y == 0)%Q -> rounded (dval x / dval y) (ddiv_raw x y).
Proof. rewrite dval_0_iff. apply ddiv_raw_rounded. Qed.

Lemma Qdiv_nonneg a b : (0 <= a -> 0 < b -> 0 <= a / b)%Q.
Proof. intros. apply Qle_shift_div_l; lra. Qed.
Lemma Qdiv_pos a b : (0 < a -> 0 < b -> 0 < a / b)%Q.
Proof. intros. apply Qlt_shift_div_l; lra. Qed.

Lemma ddiv_nonneg x y : (0 <= dval x -> 0 < dval y -> 0 <= dval (ddiv_raw x y))%Q.
Proof. intros. apply (rounded_nonneg (ddiv_rounded x y ltac:(lra))), Qdiv_nonneg; lra. Qed.
Lemma ddiv_pos x y : (0 < dval x -> 0 < dval y -> 0 < dval (ddiv_raw x y))%Q.
Proof. intros. apply (rounded_pos (ddiv_rounded x y ltac:(lra))), Qdiv_pos; lra. Qed.

Lemma ddiv_one x : repr x -> deq (ddiv_raw x done) x.
Proof.
  intros H. assert (Hx : (dval x / dval done == dval x)%Q) by (rewrite dval_one; field).
  unfold deq. rewrite (rounded_fits (ddiv_rounded x done ltac:(rewrite dval_one; lra))), Hx;
    [reflexivity|]. rewrite Hx. now apply repr_fits.
Qed.

(** ** Values on a grid are not rounded *)

Lemma grid_mult g n : grid g (inject_Z n * pow10 g).
Proof. exists n; reflexivity. Qed.
Lemma grid_0 g : grid g 0.
Proof. exists 0. ring. Qed.
Lemma grid_add g x y : grid g x -> grid g y -> grid g (x + y).
Proof. intros [a ->] [b ->]. exists (a + b). rewrite inject_Z_plus. ring. Qed.
Lemma grid_opp g x : grid g x -> grid g (- x).
Proof. intros [a ->]. exists (- a). rewrite inject_Z_opp. ring. Qed.
Lemma grid_sub g x y : grid g x -> grid g y -> grid g (x - y).
Proof. intros Hx Hy. apply grid_add; [exact Hx | now apply grid_opp]. Qed.
Lemma grid_mul g h x y : grid g x -> grid h y -> grid (g + h) (x * y).
Proof. intros [a ->] [b ->]. exists (a * b). rewrite inject_Z_mult, pow10_add. ring. Qed.
Lemma grid_weaken g h x : h <= g -> grid g x -> grid h x.
Proof.
  intros H [a ->]. exists (a * 10 ^ (g - h)). rewrite (pow10_split g h H), inject_Z_mult. ring.
Qed.
Lemma grid_self d : grid (dexp d) (dval d).
Proof. exists (mant d). reflexivity. Qed.

(** The largest magnitude that a 28-digit value on the grid [10^g] can have. *)
Definition grid_max (g : Z) : Q := (inject_Z (10 ^ prec) * pow10 g)%Q.

Lemma grid_max_pos g : (0 < grid_max g)%Q.
Proof. apply Qmult_lt_0_compat; [reflexivity | apply pow10_pos]. Qed.

Lemma fits_grid g x : grid g x -> (Qabs x < grid_max g)%Q -> fits x.
Proof.
  intros [n E] H. exists (mkdec n g). split; [|now symmetry].
  unfold repr; cbn [mant]. unfold grid_max in H. rewrite E, Qabs_Qmult, Qabs_inject_Z in H.
  rewrite (Qabs_pos (pow10 g)) in H by apply Qlt_le_weak, pow10_pos.
  now apply scaled_lt in H.
Qed.

Lemma fits_grid_nonneg g x : grid g x -> (0 <= x -> x < grid_max g -> fits x)%Q.
Proof. intros Hg H1 H2. apply (fits_grid g); [exact Hg|]. now rewrite Qabs_pos. Qed.

(** Sums of nonnegative grid values are exact while the total stays in range. *)
Lemma qsum_nonneg l : Forall (fun x => 0 <= x)%Q l -> (0 <= qsum l)%Q.
Proof. induction 1; simpl; lra. Qed.

Lemma qsum_app l l' : (qsum (l ++ l') == qsum l + qsum l')%Q.
Proof. induction l as [|x l IH]; simpl; [|rewrite IH]; ring. Qed.

Lemma qsum_grid g l : Forall (grid g) l -> grid g (qsum l).
Proof. induction 1; simpl; [apply grid_0 | now apply grid_add]. Qed.

Lemma fold_dadd_exact g l acc :
  grid g (dval acc) -> (0 <= dval acc)%Q ->
  Forall (fun d => grid g (dval d) /\ 0 <= dval d)%Q l ->
  (dval acc + qsum (map dval l) < grid_max g)%Q ->
  (dval (fold_left dadd l acc) == dval acc + qsum (map dval l))%Q.
Proof.
  intros Ga Ha Hl. revert acc Ga Ha; induction Hl as [|d l [Gd Hd] Hl IH]; intros acc Ga Ha Hs; simpl in *.
  - ring.
  - assert (Hq : (0 <= qsum (map dval l))%Q).
    { apply qsum_nonneg. rewrite Forall_map. eapply Forall_impl; [exact Hl|]. simpl; tauto. }
    assert (E : (dval (dadd acc d) == dval acc + dval d)%Q).
    { apply dadd_exact, (fits_grid_nonneg g); [now apply grid_add | lra | lra]. }
    rewrite IH; [rewrite E; ring | rewrite E; now apply grid_add | lra | lra].
Qed.

Lemma dsum_exact g l :
  Forall (fun d => grid g (dval d) /\ 0 <= dval d)%Q l ->
  (qsum (map dval l) < grid_max g)%Q -> (dval (dsum l) == qsum (map dval l))%Q.
Proof.
  intros Hl Hs. unfold dsum. rewrite (fold_dadd_exact g).
  - rewrite dval_zero; ring.
  - apply grid_0.
  - rewrite dval_zero; lra.
  - exact Hl.
  - rewrite dval_zero; lra.
Qed.

Lemma dsum_repr l : repr (dsum l).
Proof.
  unfold dsum. assert (H : repr dzero) by reflexivity. revert H. generalize dzero.
  induction l as [|x l IH]; intros a Ha; simpl; [exact Ha|]. apply IH, dadd_repr.
Qed.

Lemma dsum_nonneg l : Forall (fun d => 0 <= dval d)%Q l -> (0 <= dval (dsum l))%Q.
Proof.
  unfold dsum. intros Hl. assert (H : (0 <= dval dzero)%Q) by (rewrite dval_zero; lra).
  revert H. generalize dzero. induction Hl as [|x l Hx _ IH]; intros a Ha; simpl; [exact Ha|].
  apply IH, dadd_nonneg; assumption.
Qed.

(** ** Operations respect equality of values *)

#[export] Instance deq_Equivalence : Equivalence deq.
Proof. split; [intros x | intros x y | intros x y z]; unfold deq; intros; lra || (etransitivity; eauto). Qed.

Lemma ndigits_shift m j : m <> 0 -> 0 <= j -> ndigits (m * 10 ^ j) = ndigits m + j.
Proof.
  intros Hm Hj. pose proof (Z.pow_pos_nonneg 10 j ltac:(lia) Hj) as Hp.
  destruct (ndigits_spec m) as [[H _]|(Hd & H1 & H2)]; [lia|].
  destruct (ndigits_spec (m * 10 ^ j)) as [[H _]|(Hd' & H1' & H2')]; [nia|].
  rewrite Z.abs_mul, (Z.abs_eq (10 ^ j)) in H1', H2' by lia.
  assert (H3 : 10 ^ (ndigits m - 1 + j) <= Z.abs m * 10 ^ j < 10 ^ (ndigits m + j)).
  { rewrite !Z.pow_add_r by lia. nia. }
  assert (ndigits (m * 10 ^ j) - 1 < ndigits m + j) by (apply (Z.pow_lt_mono_r_iff 10); lia).
  assert (ndigits m - 1 + j < ndigits (m * 10 ^ j)) by (apply (Z.pow_lt_mono_r_iff 10); lia).
  lia.
Qed.

Lemma dfix_shift m e j : 0 <= j -> deq (dfix (m * 10 ^ j) (e - j)) (dfix m e).
Proof.
  intros Hj.
  assert (E : (inject_Z (m * 10 ^ j) * pow10 (e - j) == inject_Z m * pow10 e)%Q).
  { rewrite inject_Z_mult, (pow10_split e (e - j)) by lia.
    replace (e - (e - j)) with j by lia. ring. }
  destruct (Z.leb_spec (ndigits m - prec) 0) as [Hk|Hk].
  - assert (Hf : fits (inject_Z m * pow10 e)).
    { exists (mkdec m e). split; [|reflexivity].
      apply (ndigits_le_repr m prec); unfold prec in *; lia. }
    unfold deq. rewrite (rounded_fits (dfix_rounded m e) Hf).
    rewrite (rounded_fits (dfix_rounded (m * 10 ^ j) (e - j))); rewrite E; [reflexivity | exact Hf].
  - assert (Hm : m <> 0) by (intros ->; vm_compute in Hk; discriminate).
    unfold dfix, deq. rewrite ndigits_shift by assumption.
    rewrite (proj2 (Z.leb_gt _ _)) by lia. rewrite (proj2 (Z.leb_gt _ _)) by lia.
    replace (ndigits m + j - prec) with (j + (ndigits m - prec)) by lia.
    rewrite Z.pow_add_r, (Z.mul_comm m) by lia.
    rewrite rhe_scale by (apply Z.pow_pos_nonneg; lia).
    replace (e - j + (j + (ndigits m - prec))) with (e + (ndigits m - prec)) by lia. reflexivity.
Qed.

Lemma dfix_deq m e m' e' :
  (inject_Z m * pow10 e == inject_Z m' * pow10 e')%Q -> deq (dfix m e) (dfix m' e').
Proof.
  assert (H : forall m e m' e', e' <= e -> (inject_Z m * pow10 e == inject_Z m' * pow10 e')%Q ->
                           deq (dfix m e) (dfix m' e')).
  { clear. intros m e m' e' Hle E. rewrite (pow10_split e e' Hle), Qmult_assoc, <- inject_Z_mult in E.
    apply Qmult_inj_r in E; [|apply pow10_nz].
    assert (m' = m * 10 ^ (e - e')) as -> by (symmetry; apply inject_Z_injective, E).
    symmetry. replace e' with (e - (e - e')) at 2 by lia. apply dfix_shift. lia. }
  intros E. destruct (Z.le_gt_cases e' e); [now apply H|].
  symmetry. apply H; [lia | now symmetry].
Qed.

Lemma dadd_sum x y : (inject_Z (align x (Z.min (dexp x) (dexp y)) + align y (Z.min (dexp x) (dexp y)))
                      * pow10 (Z.min (dexp x) (dexp y)) == dval x + dval y)%Q.
Proof. rewrite inject_Z_plus, Qmult_plus_distr_l, !align_val by lia. reflexivity. Qed.

#[export] Instance dadd_Proper : Proper (deq ==> deq ==> deq) dadd.
Proof.
  intros x x' Ex y y' Ey. apply dfix_deq. rewrite !dadd_sum. unfold deq in *. now rewrite Ex, Ey.
Qed.

Lemma dsub_diff x y : (inject_Z (align x (Z.min (dexp x) (dexp y)) - align y (Z.min (dexp x) (dexp y)))
                      * pow10 (Z.min (dexp x) (dexp y)) == dval x - dval y)%Q.
Proof.
  unfold Z.sub. rewrite inject_Z_plus, inject_Z_opp, Qmult_plus_distr_l.
  rewrite <- (align_val x (Z.min (dexp x) (dexp y))), <- (align_val y (Z.min (dexp x) (dexp y)))
    by lia. ring.
Qed.

#[export] Instance dsub_Proper : Proper (deq ==> deq ==> deq) dsub.
Proof.
  intros x x' Ex y y' Ey. apply dfix_deq. rewrite !dsub_diff. unfold deq in *. now rewrite Ex, Ey.
Qed.

#[export] Instance dmul_Proper : Proper (deq ==> deq ==> deq) dmul.
Proof.
  intros x x' Ex y y' Ey. apply dfix_deq.
  assert (H : forall a b, (inject_Z (mant a * mant b) * pow10 (dexp a + dexp b) == dval a * dval b)%Q).
  { intros a b. unfold dval. rewrite inject_Z_mult, pow10_add. ring. }
  rewrite !H. unfold deq in *. now rewrite Ex, Ey.
Qed.

Lemma dmul_comm x y : dmul x y = dmul y x.
Proof. unfold dmul. rewrite Z.mul_comm, Z.add_comm. reflexivity. Qed.

Lemma dadd_comm x y : dadd x y = dadd y x.
Proof. unfold dadd. rewrite Z.min_comm, Z.add_comm. reflexivity. Qed.

Lemma dsum_deq l l' : Forall2 deq l l' -> deq (dsum l) (dsum l').
Proof.
  unfold dsum. intros H. assert (E : deq dzero dzero) by reflexivity. revert E.
  generalize dzero at 1 3; generalize dzero. induction H as [|x y l l' Hxy _ IH]; intros a b E; simpl.
  - exact E.
  - apply IH. now rewrite E, Hxy.
Qed.

(** Sums of signed grid values are exact while the total magnitude stays in range. *)
Lemma fold_dadd_exact_abs g l acc :
  grid g (dval acc) -> Forall (fun d => grid g (dval d)) l ->
  (Qabs (dval acc) + qsum (map (fun d => Qabs (dval d)) l) < grid_max g)%Q ->
  (dval (fold_left dadd l acc) == dval acc + qsum (map dval l))%Q.
Proof.
  intros Ha Hl; revert acc Ha; induction Hl as [|x l Hx Hl IH]; intros acc Ha H;
    cbn [fold_left map qsum] in *; [ring|].
  assert (0 <= qsum (map (fun d => Qabs (dval d)) l))%Q.
  { apply qsum_nonneg. rewrite Forall_map. apply List.Forall_forall. intros; apply Qabs_nonneg. }
  pose proof (Qabs_triangle (dval acc) (dval x)).
  assert (E : (dval (dadd acc x) == dval acc + dval x)%Q).
  { apply dadd_exact, (fits_grid g); [now apply grid_add | lra]. }
  rewrite IH; rewrite ?E; [ring | now apply grid_add | lra].
Qed.

Lemma dsum_exact_abs g l :
  Forall (fun d => grid g (dval d)) l -> (qsum (map (fun d => Qabs (dval d)) l) < grid_max g)%Q ->
  (dval (dsum l) == qsum (map dval l))%Q.
Proof.
  intros Hl H. unfold dsum. rewrite (fold_dadd_exact_abs g); rewrite ?dval_zero; [ring | apply grid_0 | exact Hl |].
  change (Qabs 0) with 0%Q. lra.
Qed.

Lemma qsum_abs_le l : (Qabs (qsum l) <= qsum (map Qabs l))%Q.
Proof.
  induction l as [|x l IH]; cbn [qsum map]; [apply Qle_refl|].
  pose proof (Qabs_triangle x (qsum l)). lra.
Qed.
