(* ===== verification/DecimalRoots.v ===== *)
(** * Squares and square roots of decimals

    [x ** 2] and [x.sqrt()] of Python's decimal arithmetic at precision 28.  An
    integer power is computed with three more digits and then rounded again;
    the square root is correctly rounded, half to even. *)

From Stdlib Require Import ZArith QArith Qabs Lia Lqa Bool.
From stdpp Require Import base decidable.
From S2P Require Import Prelude PyDecimal DecimalTheory.

Local Open Scope Z_scope.

(** [dfix] at another precision. *)
Definition dfix_at (p m e : Z) : dec :=
  let k := ndigits m - p in
  if k <=? 0 then mkdec m e
  else
    let r := rhe m (10 ^ k) in
    if Z.abs r =? 10 ^ p then mkdec (Z.sgn r * 10 ^ (p - 1)) (e + k + 1) else mkdec r (e + k).

Definition dsquare (x : dec) : dec :=
  if mant x =? 0 then dzero
  else let r := dfix_at (prec + 3) (mant x * mant x) (dexp x + dexp x) in dfix (mant r) (dexp r).

(** The coefficient scaled to a square of 29 digits, its exponent, the shift
    and whether the scaling lost nothing. *)
Definition sqrt_scale (x : dec) : Z * Z * Z * bool :=
  let e := dexp x / 2 in
  let c := if Z.odd (dexp x) then mant x * 10 else mant x in
  let l := if Z.odd (dexp x) then ndigits (mant x) / 2 + 1 else (ndigits (mant x) + 1) / 2 in
  let shift := prec + 1 - l in
  if 0 <=? shift then (c * 100 ^ shift, e - shift, shift, true)
  else (c / 100 ^ (- shift), e - shift, shift, c mod 100 ^ (- shift) =? 0).

Definition dsqrt (x : dec) : result dec :=
  if mant x =? 0 then Ok (mkdec 0 (dexp x / 2))
  else
    do* raise_if (mant x <? 0) InvalidOperation ;;
    let '(c, e, shift, exact) := sqrt_scale x in
    let n := Z.sqrt c in
    if exact && (n * n =? c)
    then Ok (dfix (if 0 <=? shift then n / 10 ^ shift else n * 10 ^ (- shift)) (e + shift))
    else Ok (dfix (if n mod 5 =? 0 then n + 1 else n) e).

Example sqrt_2 : dsqrt (dint 2) = Ok (mkdec 1414213562373095048801688724 (-27)).
Proof. vm_compute. reflexivity. Qed.
Example sqrt_exact : dsqrt (mkdec 225 (-4)) = Ok (mkdec 15 (-2)).
Proof. vm_compute. reflexivity. Qed.
Example square_1 : dsquare (mkdec (-15) (-1)) = mkdec 225 (-2).
Proof. vm_compute. reflexivity. Qed.

Lemma dval_sign m e : (0 <= m -> (0 <= dval (mkdec m e))%Q) /\ (0 < m -> (0 < dval (mkdec m e))%Q).
Proof.
  unfold dval; cbn [mant dexp]. pose proof (pow10_pos e). split; intros Hm.
  - apply Qmult_le_0_compat; [|lra]. change 0%Q with (inject_Z 0). rewrite <- Zle_Qle. exact Hm.
  - apply inject_Z_pos in Hm. nra.
Qed.

Lemma dval_mant_pos x : (0 < dval x)%Q -> 0 < mant x.
Proof.
  intros H. destruct (Z.lt_trichotomy 0 (mant x)) as [|[E|E]]; [assumption | |].
  - exfalso. symmetry in E. apply dval_0_iff in E. lra.
  - exfalso. assert (inject_Z (mant x) < 0)%Q by (change 0%Q with (inject_Z 0); rewrite <- Zlt_Qlt; lia).
    pose proof (pow10_pos (dexp x)). unfold dval in H. nra.
Qed.

Lemma rhe_nonneg n d : 0 <= n -> 0 < d -> 0 <= rhe n d.
Proof.
  intros Hn Hd. unfold rhe. pose proof (Z.div_pos n d Hn Hd).
  destruct (_ <? _); [lia|]. destruct (_ <? _); [lia|]. destruct (Z.even _); lia.
Qed.

Lemma dfix_nonneg m e : 0 <= m -> (0 <= dval (dfix m e))%Q.
Proof. intros Hm. apply (rounded_nonneg (dfix_rounded m e)), (proj1 (dval_sign m e) Hm). Qed.

Lemma dsquare_nonneg x : (0 <= dval (dsquare x))%Q.
Proof.
  unfold dsquare. destruct (_ =? 0); [rewrite dval_zero; lra|]. apply dfix_nonneg. unfold dfix_at.
  destruct (Z.leb_spec (ndigits (mant x * mant x) - (prec + 3)) 0); cbn [mant]; [nia|].
  assert (0 <= rhe (mant x * mant x) (10 ^ (ndigits (mant x * mant x) - (prec + 3)))).
  { apply rhe_nonneg; [nia | apply Z.pow_pos_nonneg; lia]. }
  destruct (_ =? _); cbn [mant]; [|assumption]. apply Z.mul_nonneg_nonneg; [|apply Z.pow_nonneg; lia].
  now apply Z.sgn_nonneg.
Qed.

(** The square root of a positive representable value is positive. *)
Lemma dsqrt_pos x : repr x -> (0 < dval x)%Q -> exists s, dsqrt x = Ok s /\ (0 < dval s)%Q.
Proof.
  intros Hr Hx. apply dval_mant_pos in Hx. unfold dsqrt.
  destruct (Z.eqb_spec (mant x) 0); [lia|]. destruct (Z.ltb_spec (mant x) 0); [lia|]. cbn [raise_if bind].
  assert (Hd : ndigits (mant x) <= prec) by (apply ndigits_le_repr; [unfold prec; lia | exact Hr]).
  assert (Hpos : forall m e, 0 < m -> (0 < dval (dfix m e))%Q).
  { intros m e Hm. apply (rounded_pos (dfix_rounded m e)), (proj2 (dval_sign m e) Hm). }
  unfold sqrt_scale. set (c := if Z.odd (dexp x) then mant x * 10 else mant x).
  set (l := if Z.odd (dexp x) then ndigits (mant x) / 2 + 1 else (ndigits (mant x) + 1) / 2).
  assert (Hc : 1 <= c) by (unfold c; destruct (Z.odd _); lia).
  assert (Hl : l <= 15).
  { unfold l, prec in *. destruct (Z.odd _).
    - pose proof (Z.div_le_upper_bound (ndigits (mant x)) 2 14 ltac:(lia) ltac:(lia)). lia.
    - pose proof (Z.div_le_upper_bound (ndigits (mant x) + 1) 2 15 ltac:(lia) ltac:(lia)). lia. }
  replace (0 <=? prec + 1 - l) with true by (unfold prec; symmetry; apply Z.leb_le; lia).
  set (shift := prec + 1 - l). assert (Hs : 0 < shift) by (unfold shift, prec; lia). clearbody shift.
  assert (Hp : 0 < 10 ^ shift) by (apply Z.pow_pos_nonneg; lia).
  assert (E100 : 100 ^ shift = 10 ^ shift * 10 ^ shift) by (rewrite <- Z.pow_mul_l; reflexivity).
  assert (Hn : 10 ^ shift <= Z.sqrt (c * 100 ^ shift)) by (apply Z.sqrt_le_square; rewrite ?E100; nia).
  cbn [andb]. destruct (Z.eqb_spec (Z.sqrt (c * 100 ^ shift) * Z.sqrt (c * 100 ^ shift)) (c * 100 ^ shift)) as [E|E];
    eexists; (split; [reflexivity|]); apply Hpos.
  - rewrite (proj2 (Z.leb_le 0 shift)) by lia. apply Z.div_str_pos. lia.
  - destruct (_ =? 0); lia.
Qed.
