(* ===== verification/Domain.v ===== *)
(** * Domain enumerations, identifiers and clock values

    [maais/domain/enums.py], and
    the clock boundary of [maais/execution/paper/clock.py]: [require_utc],
    order eligibility and the choice of the first eligible event.

    A [datetime] keeps what the program can observe of one: its instant in
    microseconds and its UTC offset ([None] for a naive value).  A [timedelta]
    is a number of microseconds and a [UUID] its integer. *)

From Stdlib Require Import ZArith Lia List Bool String Ascii.
From stdpp Require Import base decidable list strings.
From S2P Require Import Prelude PyDecimal.

Local Open Scope Z_scope.

(** ** Enumerations *)

Inductive Direction : Type := LONG | SHORT | NEUTRAL.
Inductive PaperOrderSide : Type := BUY | SELL.
Inductive PaperOrderType : Type := MARKET | LIMIT | STOP_MARKET.
Inductive PaperOrderStatus : Type :=
| CREATED | AUTHORIZED | ACCEPTED | PARTIALLY_FILLED | FILLED | CANCELED | REJECTED | EXPIRED.
Inductive PositionEffect : Type := OPEN | REDUCE.
Inductive QualityStatus : Type := PASSED | FAILED | NOT_APPLICABLE.

Inductive GateType : Type :=
| GT_DATA_QUALITY | GT_REGIME_COMPATIBILITY | GT_CONSENSUS | GT_ADVERSARIAL | GT_EV | GT_ALPHA | GT_MONITORING | GT_DRAWDOWN
| GT_CORRELATION | GT_PORTFOLIO_RISK | GT_LEVERAGE | GT_EXCHANGE_FILTERS | GT_PAPER_BROKER_CAPACITY.

Inductive ExperimentStatus : Type := ES_CREATED | ES_RUNNING | ES_PAUSED | ES_STOPPED | ES_COMPLETED | ES_FAILED.
Inductive StrategyStage : Type := SG_RESEARCH | SG_SIMULATION | SG_PILOT | SG_FULL_PRODUCTION.
Inductive AgentMaturity : Type := AM_IMPLEMENTED | AM_PROXY | AM_DISABLED.
Inductive DecisionStatus : Type := DS_COMPLETED | DS_REJECTED | DS_QUARANTINED.
Inductive Disposition : Type := DP_NEUTRAL | DP_REJECTED | DP_APPROVED.
Inductive ProposalStatus : Type := PS_NEUTRAL | PS_REJECTED | PS_APPROVED | PS_EXPIRED.
Inductive ReasonCode : Type :=
| RC_ACCEPTED | RC_PRIOR_GATE_FAILED | RC_NEUTRAL_CONSENSUS | RC_DISABLED_AGENT | RC_INCOMPATIBLE_REGIME | RC_AGENT_FAILED
| RC_DATA_QUALITY_FAILED | RC_INSUFFICIENT_HISTORY | RC_CONSENSUS_FAILED | RC_ADVERSARIAL_BLOCKED | RC_NON_POSITIVE_EV
| RC_ALPHA_FAILED | RC_MONITORING_UNHEALTHY | RC_DRAWDOWN_HALT | RC_CORRELATION_BLOCKED | RC_PORTFOLIO_RISK_EXCEEDED
| RC_LEVERAGE_REJECTED | RC_EXCHANGE_FILTER_REJECTED | RC_BROKER_CAPACITY_REJECTED | RC_DUPLICATE_IDENTICAL.

#[export] Instance Direction_eq_dec : EqDecision Direction.
Proof. solve_decision. Defined.
#[export] Instance PaperOrderSide_eq_dec : EqDecision PaperOrderSide.
Proof. solve_decision. Defined.
#[export] Instance PaperOrderType_eq_dec : EqDecision PaperOrderType.
Proof. solve_decision. Defined.
#[export] Instance PaperOrderStatus_eq_dec : EqDecision PaperOrderStatus.
Proof. solve_decision. Defined.
#[export] Instance PositionEffect_eq_dec : EqDecision PositionEffect.
Proof. solve_decision. Defined.
#[export] Instance QualityStatus_eq_dec : EqDecision QualityStatus.
Proof. solve_decision. Defined.

#[export] Instance GateType_eq_dec : EqDecision GateType.
Proof. solve_decision. Defined.

#[export] Instance ExperimentStatus_eq_dec : EqDecision ExperimentStatus.
Proof. solve_decision. Defined.
#[export] Instance StrategyStage_eq_dec : EqDecision StrategyStage.
Proof. solve_decision. Defined.
#[export] Instance AgentMaturity_eq_dec : EqDecision AgentMaturity.
Proof. solve_decision. Defined.
#[export] Instance DecisionStatus_eq_dec : EqDecision DecisionStatus.
Proof. solve_decision. Defined.
#[export] Instance Disposition_eq_dec : EqDecision Disposition.
Proof. solve_decision. Defined.
#[export] Instance ProposalStatus_eq_dec : EqDecision ProposalStatus.
Proof. solve_decision. Defined.
#[export] Instance ReasonCode_eq_dec : EqDecision ReasonCode.
Proof. solve_decision. Defined.

(** An enumeration whose members carry a string, Python's [StrEnum]. *)
Class StrEnum (A : Type) : Type := enum_value : A -> string.

#[export] Instance Direction_value : StrEnum Direction := fun d =>
  match d with LONG => "long" | SHORT => "short" | NEUTRAL => "neutral" end.
#[export] Instance PaperOrderSide_value : StrEnum PaperOrderSide := fun s =>
  match s with BUY => "buy" | SELL => "sell" end.
#[export] Instance PaperOrderType_value : StrEnum PaperOrderType := fun t =>
  match t with MARKET => "market" | LIMIT => "limit" | STOP_MARKET => "stop_market" end.
#[export] Instance PaperOrderStatus_value : StrEnum PaperOrderStatus := fun s =>
  match s with
  | CREATED => "created" | AUTHORIZED => "authorized" | ACCEPTED => "accepted"
  | PARTIALLY_FILLED => "partially_filled" | FILLED => "filled" | CANCELED => "canceled"
  | REJECTED => "rejected" | EXPIRED => "expired"
  end.
#[export] Instance PositionEffect_value : StrEnum PositionEffect := fun e =>
  match e with OPEN => "open" | REDUCE => "reduce" end.
#[export] Instance QualityStatus_value : StrEnum QualityStatus := fun q =>
  match q with
  | PASSED => "passed" | FAILED => "failed" | NOT_APPLICABLE => "not_applicable"
  end.
#[export] Instance GateType_value : StrEnum GateType := fun g =>
  match g with
  | GT_DATA_QUALITY => "data_quality" | GT_REGIME_COMPATIBILITY => "regime_compatibility" | GT_CONSENSUS => "consensus"
  | GT_ADVERSARIAL => "adversarial" | GT_EV => "ev" | GT_ALPHA => "alpha" | GT_MONITORING => "monitoring"
  | GT_DRAWDOWN => "drawdown" | GT_CORRELATION => "correlation" | GT_PORTFOLIO_RISK => "portfolio_risk"
  | GT_LEVERAGE => "leverage" | GT_EXCHANGE_FILTERS => "exchange_filters"
  | GT_PAPER_BROKER_CAPACITY => "paper_broker_capacity"
  end.

#[export] Instance ExperimentStatus_value : StrEnum ExperimentStatus := fun s =>
  match s with
  | ES_CREATED => "created" | ES_RUNNING => "running" | ES_PAUSED => "paused" | ES_STOPPED => "stopped"
  | ES_COMPLETED => "completed" | ES_FAILED => "failed"
  end.
#[export] Instance StrategyStage_value : StrEnum StrategyStage := fun s =>
  match s with
  | SG_RESEARCH => "research" | SG_SIMULATION => "simulation" | SG_PILOT => "pilot" | SG_FULL_PRODUCTION => "full_production"
  end.
#[export] Instance AgentMaturity_value : StrEnum AgentMaturity := fun m =>
  match m with AM_IMPLEMENTED => "implemented" | AM_PROXY => "proxy" | AM_DISABLED => "disabled" end.
#[export] Instance DecisionStatus_value : StrEnum DecisionStatus := fun s =>
  match s with DS_COMPLETED => "completed" | DS_REJECTED => "rejected" | DS_QUARANTINED => "quarantined" end.
#[export] Instance Disposition_value : StrEnum Disposition := fun d =>
  match d with DP_NEUTRAL => "neutral" | DP_REJECTED => "rejected" | DP_APPROVED => "approved" end.
#[export] Instance ProposalStatus_value : StrEnum ProposalStatus := fun s =>
  match s with PS_NEUTRAL => "neutral" | PS_REJECTED => "rejected" | PS_APPROVED => "approved" | PS_EXPIRED => "expired" end.
#[export] Instance ReasonCode_value : StrEnum ReasonCode := fun r =>
  match r with
  | RC_ACCEPTED => "accepted" | RC_PRIOR_GATE_FAILED => "prior_gate_failed" | RC_NEUTRAL_CONSENSUS => "neutral_consensus"
  | RC_DISABLED_AGENT => "disabled_agent" | RC_INCOMPATIBLE_REGIME => "incompatible_regime" | RC_AGENT_FAILED => "agent_failed"
  | RC_DATA_QUALITY_FAILED => "data_quality_failed" | RC_INSUFFICIENT_HISTORY => "insufficient_history"
  | RC_CONSENSUS_FAILED => "consensus_failed" | RC_ADVERSARIAL_BLOCKED => "adversarial_blocked"
  | RC_NON_POSITIVE_EV => "non_positive_ev" | RC_ALPHA_FAILED => "alpha_failed"
  | RC_MONITORING_UNHEALTHY => "monitoring_unhealthy" | RC_DRAWDOWN_HALT => "drawdown_halt"
  | RC_CORRELATION_BLOCKED => "correlation_blocked" | RC_PORTFOLIO_RISK_EXCEEDED => "portfolio_risk_exceeded"
  | RC_LEVERAGE_REJECTED => "leverage_rejected" | RC_EXCHANGE_FILTER_REJECTED => "exchange_filter_rejected"
  | RC_BROKER_CAPACITY_REJECTED => "broker_capacity_rejected" | RC_DUPLICATE_IDENTICAL => "duplicate_identical"
  end.

(** [Direction(text)]. *)
Definition Direction_of (text : string) : option Direction :=
  List.find (fun d => bool_decide (enum_value d = text)) [LONG; SHORT; NEUTRAL].

(** ** Names *)

(** [symbol and symbol == symbol.upper()], for ASCII text. *)
Definition is_lower (c : ascii) : bool :=
  let n := Z.of_nat (nat_of_ascii c) in (97 <=? n) && (n <=? 122).
Definition upper_symbol (s : string) : bool :=
  negb (bool_decide (s = "")) && negb (existsb is_lower (list_ascii_of_string s)).

(** ** Identifiers and time *)

Definition UUID : Type := Z.
Definition timedelta : Type := Z.

Record datetime : Type := mkdt { instant : Z; utcoffset : option timedelta }.

#[export] Instance datetime_eq_dec : EqDecision datetime.
Proof. solve_decision. Defined.

Definition utc (us : Z) : datetime := mkdt us (Some 0).
Definition seconds (s : Z) : timedelta := s * 1000000.

Definition is_utc (t : datetime) : bool :=
  match utcoffset t with Some o => o =? 0 | None => false end.

Definition require_utc (value : datetime) (field : string) : result unit :=
  raise_if (negb (is_utc value)) (ValueError (field +:+ " must be UTC-aware")).

(** Python refuses to order a naive and an aware datetime. *)
Definition same_awareness (a b : datetime) : bool :=
  Bool.eqb (bool_decide (utcoffset a = None)) (bool_decide (utcoffset b = None)).

Definition dt_cmp_error : exn := TypeError "can't compare offset-naive and offset-aware datetimes".

(** [a < b] and [a <= b] on values that were not validated before. *)
Definition dt_lt (a b : datetime) : result bool :=
  if same_awareness a b then Ok (instant a <? instant b) else Raise dt_cmp_error.
Definition dt_le (a b : datetime) : result bool :=
  if same_awareness a b then Ok (instant a <=? instant b) else Raise dt_cmp_error.

(** The same on values that passed [require_utc]. *)
Definition dt_ltb (a b : datetime) : bool := instant a <? instant b.
Definition dt_leb (a b : datetime) : bool := instant a <=? instant b.

(** [a == b]: a naive and an aware datetime differ. *)
Definition dt_eqb (a b : datetime) : bool := same_awareness a b && (instant a =? instant b).

Definition dt_add (t : datetime) (d : timedelta) : datetime := mkdt (instant t + d) (utcoffset t).
Definition dt_sub (a b : datetime) : timedelta := instant a - instant b.

(** ** [clock.py] *)

Record OrderEligibility : Type := {
  elig_decided_at : datetime;
  elig_latency : timedelta;
  eligible_at : datetime
}.

Record ObservedEvent : Type := {
  oe_event_id : string;
  oe_observed_at : datetime;
  oe_sequence : Z
}.

Definition ObservedEvent_post_init (e : ObservedEvent) : result ObservedEvent :=
  do* require_utc (oe_observed_at e) "observed_at" ;;
  do* raise_if (bool_decide (oe_event_id e = "")) (ValueError "event_id is required") ;;
  do* raise_if (oe_sequence e <? 0) (ValueError "sequence must be nonnegative") ;;
  Ok e.

Definition eligibility (decided_at : datetime) (latency : timedelta) : result OrderEligibility :=
  do* require_utc decided_at "decided_at" ;;
  do* raise_if (latency <=? 0) (ValueError "latency must be positive") ;;
  Ok {| elig_decided_at := decided_at; elig_latency := latency;
        eligible_at := dt_add decided_at latency |}.

(** Lexicographic order on [(observed_at, sequence)], the sort key of events and books. *)
Definition key_ltb (a b : Z * Z) : bool :=
  (fst a <? fst b) || ((fst a =? fst b) && (snd a <? snd b)).

(** [min(l, key=f)]: the first of the minimal elements. *)
Definition min_by {A} (key : A -> Z * Z) (l : list A) : option A :=
  match l with
  | [] => None
  | x :: l' => Some (fold_left (fun best y => if key_ltb (key y) (key best) then y else best) l' x)
  end.

Definition event_key (e : ObservedEvent) : Z * Z := (instant (oe_observed_at e), oe_sequence e).

(** The events are [ObservedEvent] values, whose times passed [require_utc]. *)
Definition first_eligible (el : OrderEligibility) (events : list ObservedEvent) : result ObservedEvent :=
  of_option (LookupError "no eligible observed market event")
    (min_by event_key (List.filter (fun e => dt_ltb (eligible_at el) (oe_observed_at e)) events)).

(** ** Facts *)

Lemma require_utc_Ok t f u : require_utc t f = Ok u <-> is_utc t = true.
Proof. unfold require_utc. rewrite raise_if_Ok. apply negb_false_iff. Qed.

Lemma require_utc_true t f : is_utc t = true -> require_utc t f = Ok tt.
Proof. intros H. unfold require_utc. now rewrite H. Qed.

Lemma dt_eqb_refl a : dt_eqb a a = true.
Proof. unfold dt_eqb, same_awareness. now rewrite Z.eqb_refl, andb_true_r, eqb_reflx. Qed.

Lemma same_awareness_utc a b : is_utc a = true -> is_utc b = true -> same_awareness a b = true.
Proof.
  unfold is_utc, same_awareness. destruct (utcoffset a), (utcoffset b); try discriminate; reflexivity.
Qed.

Definition key_le (a b : Z * Z) : Prop := key_ltb b a = false.

Lemma key_le_refl a : key_le a a.
Proof. unfold key_le, key_ltb. rewrite Z.ltb_irrefl, Z.ltb_irrefl, andb_false_r. reflexivity. Qed.

Lemma key_le_trans a b c : key_le a b -> key_le b c -> key_le a c.
Proof.
  unfold key_le, key_ltb. destruct a as [a1 a2], b as [b1 b2], c as [c1 c2]; simpl. intros H1 H2.
  lia.
Qed.

Lemma key_ltb_le a b : key_ltb a b = true -> key_le a b.
Proof. unfold key_le, key_ltb. destruct a as [a1 a2], b as [b1 b2]; simpl. lia. Qed.

Lemma fold_min_spec {A} (key : A -> Z * Z) l x :
  let best := fold_left (fun best y => if key_ltb (key y) (key best) then y else best) l x in
  (best = x \/ In best l) /\ key_le (key best) (key x) /\ Forall (fun y => key_le (key best) (key y)) l.
Proof.
  revert x; induction l as [|y l IH]; intros x; cbn [fold_left].
  - split; [auto|split; [apply key_le_refl | constructor]].
  - destruct (IH (if key_ltb (key y) (key x) then y else x)) as (Hin & Hle & Hall).
    assert (Hy : key_le (key (if key_ltb (key y) (key x) then y else x)) (key y) /\
                 key_le (key (if key_ltb (key y) (key x) then y else x)) (key x)).
    { destruct (key_ltb (key y) (key x)) eqn:E.
      - split; [apply key_le_refl | now apply key_ltb_le].
      - split; [exact E | apply key_le_refl]. }
    split; [|split; [eapply key_le_trans; [exact Hle | apply Hy]|]].
    + destruct (key_ltb (key y) (key x)); destruct Hin as [Hin|Hin]; rewrite ?Hin; simpl; auto.
    + constructor; [eapply key_le_trans; [exact Hle | apply Hy] | exact Hall].
Qed.

Lemma min_by_spec {A} (key : A -> Z * Z) l b :
  min_by key l = Some b -> In b l /\ Forall (fun y => key_le (key b) (key y)) l.
Proof.
  destruct l as [|x l]; [discriminate|]. intros [= <-].
  destruct (fold_min_spec key l x) as (Hin & Hle & Hall). split.
  - destruct Hin as [->|Hin]; simpl; auto.
  - constructor; assumption.
Qed.

Lemma min_by_None {A} (key : A -> Z * Z) l : min_by key l = None <-> l = [].
Proof. destruct l; simpl; split; congruence. Qed.
