(* ===== verification/Json.v ===== *)
(** * Canonical JSON: [maais/domain/json.py]

    [freeze_json] normalises a Python value to an immutable JSON tree;
    [canonical_json_bytes] serialises it with sorted keys; [content_hash] is
    the SHA-256 digest of that text.  The digest function itself ([hashlib]) is
    a parameter of the definitions that use it.

    Strings are byte strings in UTF-8, so sorting keys by byte is Python's
    sorting by code point.  A float is kept as the pair of its finiteness and
    its [repr] text.  Keys of a mapping are strings by typing. *)

From Stdlib Require Import ZArith QArith Qabs Lia Lqa List Bool String Ascii Permutation Sorted.
From stdpp Require Import base decidable list.
From S2P Require Import Prelude PyDecimal DecimalTheory Domain.

Local Open Scope Z_scope.
Local Open Scope string_scope.
Local Open Scope list_scope.
Local Open Scope Z_scope.

(** ** Values *)

(** What the program passes to [freeze_json]. *)
Inductive pyval : Type :=
| PNone
| PBool (b : bool)
| PInt (n : Z)
| PFloat (finite : bool) (text : string)
| PStr (s : string)
| PEnum (value : string)
| PDec (d : dec)
| PTime (t : datetime)
| PUuid (u : UUID)
| PSeq (items : list pyval)
| PSet (items : list pyval)
| PDict (items : list (string * pyval)).

(** A frozen JSON tree ([JsonValue]). *)
Inductive json : Type :=
| JNull
| JBool (b : bool)
| JInt (n : Z)
| JFloat (text : string)
| JStr (s : string)
| JArr (items : list json)
| JObj (items : list (string * json)).

Section ListEqb.
Context {A : Type} (eqb : A -> A -> bool).

Fixpoint list_eqb (l l' : list A) : bool :=
  match l, l' with
  | [], [] => true
  | x :: l, x' :: l' => eqb x x' && list_eqb l l'
  | _, _ => false
  end.

Lemma list_eqb_spec l : Forall (fun x => forall y, eqb x y = true <-> x = y) l -> forall l', list_eqb l l' = true <-> l = l'.
Proof.
  induction 1 as [|x l Hx _ IH]; intros [|y l']; cbn [list_eqb]; try (split; congruence).
  rewrite andb_true_iff, Hx, IH. split; [intros [-> ->]; reflexivity | intros [= -> ->]; auto].
Qed.
End ListEqb.

Fixpoint json_eqb (x y : json) : bool :=
  match x, y with
  | JNull, JNull => true
  | JBool b, JBool b' => Bool.eqb b b'
  | JInt n, JInt n' => n =? n'
  | JFloat t, JFloat t' => String.eqb t t'
  | JStr s, JStr s' => String.eqb s s'
  | JArr l, JArr l' => list_eqb json_eqb l l'
  | JObj l, JObj l' => list_eqb (fun kv kv' => String.eqb (fst kv) (fst kv') && json_eqb (snd kv) (snd kv')) l l'
  | _, _ => false
  end.

Lemma json_eqb_spec : forall x y, json_eqb x y = true <-> x = y.
Proof.
  fix IH 1. intros [|b|n|t|s|l|l] [|b'|n'|t'|s'|l'|l']; cbn [json_eqb]; try (split; congruence).
  - rewrite Bool.eqb_true_iff. split; congruence.
  - rewrite Z.eqb_eq. split; congruence.
  - rewrite String.eqb_eq. split; congruence.
  - rewrite String.eqb_eq. split; congruence.
  - rewrite list_eqb_spec; [split; congruence|]. induction l as [|x l IHl]; constructor; [exact (IH x) | exact IHl].
  - rewrite list_eqb_spec; [split; congruence|]. induction l as [|[k x] l IHl]; constructor; [|exact IHl].
    intros [k' y]. cbn [fst snd]. rewrite andb_true_iff, String.eqb_eq, (IH x y). split; [intros [-> ->]; reflexivity | intros [= -> ->]; auto].
Qed.

#[export] Instance json_eq_dec : EqDecision json.
Proof. intros x y. destruct (json_eqb x y) eqn:E; [left; now apply json_eqb_spec | right; rewrite <- json_eqb_spec; congruence]. Defined.

(** ** Text of numbers *)

Definition digit_char (d : Z) : ascii :=
  ascii_of_nat (if d <? 10 then 48 + Z.to_nat d else 87 + Z.to_nat d).

(** The [k] low digits of [n] in a base up to 16, most significant first. *)
Fixpoint fixed_digits (base : Z) (k : nat) (n : Z) : list ascii :=
  match k with
  | O => []
  | S k' => fixed_digits base k' (n / base) ++ [digit_char (n mod base)]
  end.

Definition nat_digits (n : Z) : list ascii := fixed_digits 10 (Z.to_nat (Z.max 1 (ndigits n))) n.

Definition int_chars (n : Z) : list ascii :=
  if n <? 0 then "-"%char :: nat_digits (- n) else nat_digits n.

(** [Decimal.normalize]: context rounding, then no trailing zeros. *)
Fixpoint strip_all (fuel : nat) (m e : Z) : dec :=
  match fuel with
  | O => mkdec m e
  | S fuel' => if m mod 10 =? 0 then strip_all fuel' (m / 10) (e + 1) else mkdec m e
  end.

Definition dnormalize (d : dec) : dec :=
  let r := dfix (mant d) (dexp d) in
  if mant r =? 0 then dzero else strip_all 28 (mant r) (dexp r).

(** [format(d, "f")] of a decimal with coefficient [m] and exponent [e]. *)
Definition format_f (d : dec) : list ascii :=
  let m := Z.abs (mant d) in
  let sign := if mant d <? 0 then ["-"%char] else [] in
  sign ++
  (if 0 <=? dexp d then nat_digits m ++ repeat "0"%char (Z.to_nat (dexp d))
   else
     let k := - dexp d in
     nat_digits (m / 10 ^ k) ++ "."%char :: fixed_digits 10 (Z.to_nat k) (m mod 10 ^ k)).

Definition dec_chars (d : dec) : list ascii :=
  if mant d =? 0 then ["0"%char] else format_f (dnormalize d).

Definition dec_text (d : dec) : string := string_of_list_ascii (dec_chars d).

(** [Decimal(text)] on fixed-point text: sign, digits, at most one point. *)
Record scan : Type := mkscan { sc_mant : Z; sc_exp : Z; sc_point : bool }.

Definition scan_char (s : scan) (c : ascii) : scan :=
  if ascii_dec c "."%char then mkscan (sc_mant s) (sc_exp s) true
  else mkscan (10 * sc_mant s + (Z.of_nat (nat_of_ascii c) - 48))
              (if sc_point s then sc_exp s - 1 else sc_exp s) (sc_point s).

Definition scan_unsigned (l : list ascii) : dec :=
  let s := fold_left scan_char l (mkscan 0 0 false) in mkdec (sc_mant s) (sc_exp s).

Definition dec_of_chars (l : list ascii) : dec :=
  match l with
  | c :: l' =>
      if ascii_dec c "-"%char
      then let d := scan_unsigned l' in mkdec (- mant d) (dexp d)
      else scan_unsigned l
  | [] => dzero
  end.

Definition dec_of_text (s : string) : dec := dec_of_chars (list_ascii_of_string s).

(** ** Text of times and identifiers *)

(** Proleptic Gregorian date of a day number (1970-01-01 is day 0). *)
Definition civil_from_days (days : Z) : Z * Z * Z :=
  let z := days + 719468 in
  let era := z / 146097 in
  let doe := z mod 146097 in
  let yoe := (doe - doe / 1460 + doe / 36524 - doe / 146096) / 365 in
  let doy := doe - (365 * yoe + yoe / 4 - yoe / 100) in
  let mp := (5 * doy + 2) / 153 in
  let d := doy - (153 * mp + 2) / 5 + 1 in
  let m := if mp <? 10 then mp + 3 else mp - 9 in
  let y := yoe + era * 400 + (if m <=? 2 then 1 else 0) in
  (y, m, d).

Definition day_us : Z := 86400000000.

(** The text of [isoformat()] before its offset. *)
Definition iso_chars (t : datetime) : list ascii :=
  let '(y, mo, d) := civil_from_days (instant t / day_us) in
  let us := instant t mod day_us in
  let sec := us / 1000000 in
  let micro := us mod 1000000 in
  fixed_digits 10 4 y ++ "-"%char :: fixed_digits 10 2 mo ++ "-"%char :: fixed_digits 10 2 d ++
  "T"%char :: fixed_digits 10 2 (sec / 3600) ++ ":"%char :: fixed_digits 10 2 (sec / 60 mod 60) ++
  ":"%char :: fixed_digits 10 2 (sec mod 60) ++
  (if micro =? 0 then [] else "."%char :: fixed_digits 10 6 micro).

(** [isoformat()] of a UTC time, and the same with the suffix written as [Z]. *)
Definition isoformat (t : datetime) : string :=
  string_of_list_ascii (iso_chars t ++ list_ascii_of_string "+00:00").
Definition utc_iso (t : datetime) : result string :=
  do* raise_if (negb (is_utc t)) (ValueError "datetime values must be UTC-aware") ;;
  Ok (string_of_list_ascii (iso_chars t ++ ["Z"%char])).

Definition uuid_str (u : UUID) : string :=
  let h := fixed_digits 16 32 u in
  string_of_list_ascii
    (take 8 h ++ "-"%char :: take 4 (drop 8 h) ++ "-"%char :: take 4 (drop 12 h) ++
     "-"%char :: take 4 (drop 16 h) ++ "-"%char :: drop 20 h).

(** ** Serialisation *)

Definition hex_escape (n : Z) : list ascii :=
  ["\"%char; "u"%char] ++ fixed_digits 16 4 n.

Definition quote_char : ascii := ascii_of_nat 34.

Definition escape_char (c : ascii) : list ascii :=
  let n := Z.of_nat (nat_of_ascii c) in
  if n =? 34 then ["\"%char; quote_char]
  else if n =? 92 then ["\"%char; "\"%char]
  else if n =? 10 then ["\"%char; "n"%char]
  else if n =? 13 then ["\"%char; "r"%char]
  else if n =? 9 then ["\"%char; "t"%char]
  else if n =? 8 then ["\"%char; "b"%char]
  else if n =? 12 then ["\"%char; "f"%char]
  else if n <? 32 then hex_escape n
  else [c].

Definition quote (s : string) : list ascii :=
  quote_char :: concat (map escape_char (list_ascii_of_string s)) ++ [quote_char].

Fixpoint join (sep : list ascii) (l : list (list ascii)) : list ascii :=
  match l with
  | [] => []
  | [x] => x
  | x :: l' => x ++ sep ++ join sep l'
  end.

Section SortBy.
Context {A : Type} (key : A -> string).

Fixpoint insert_by (x : A) (l : list A) : list A :=
  match l with
  | [] => [x]
  | y :: l' => if String.leb (key x) (key y) then x :: y :: l' else y :: insert_by x l'
  end.

(** Stable sort by key. *)
Fixpoint sort_by (l : list A) : list A :=
  match l with
  | [] => []
  | x :: l' => insert_by x (sort_by l')
  end.
End SortBy.

(** [json.dumps(.., sort_keys=True, separators=(",", ":"), ensure_ascii=False)]. *)
Fixpoint dumps (j : json) : list ascii :=
  match j with
  | JNull => list_ascii_of_string "null"
  | JBool true => list_ascii_of_string "true"
  | JBool false => list_ascii_of_string "false"
  | JInt n => int_chars n
  | JFloat t => list_ascii_of_string t
  | JStr s => quote s
  | JArr l => "["%char :: join [","%char] (map dumps l) ++ ["]"%char]
  | JObj l =>
      "{"%char ::
      join [","%char]
        (map snd (sort_by fst (map (fun kv => (fst kv, quote (fst kv) ++ ":"%char :: dumps (snd kv))) l)))
      ++ ["}"%char]
  end.

Definition dumps_text (j : json) : string := string_of_list_ascii (dumps j).

(** ** [freeze_json] *)

Fixpoint freeze_json (v : pyval) : result json :=
  match v with
  | PEnum s => Ok (JStr s)
  | PDec d => Ok (JStr (dec_text d))
  | PTime t => let* s := utc_iso t in Ok (JStr s)
  | PUuid u => Ok (JStr (uuid_str u))
  | PNone => Ok JNull
  | PStr s => Ok (JStr s)
  | PBool b => Ok (JBool b)
  | PInt n => Ok (JInt n)
  | PFloat fin t => do* raise_if (negb fin) (ValueError "JSON floats must be finite") ;; Ok (JFloat t)
  | PDict l =>
      let* items := mapM (fun kv => let* j := freeze_json (snd kv) in Ok (fst kv, j)) l in
      Ok (JObj items)
  | PSet l =>
      let* items := mapM freeze_json l in
      Ok (JArr (sort_by dumps_text items))
  | PSeq l =>
      let* items := mapM freeze_json l in
      Ok (JArr items)
  end.

Definition canonical_json_bytes (v : pyval) : result string :=
  let* j := freeze_json v in Ok (dumps_text j).

(** [if not isinstance(j, Mapping): raise TypeError(msg)]. *)
Definition as_mapping (msg : string) (j : json) : result json :=
  do* raise_if (match j with JObj _ => false | _ => true end) (TypeError msg) ;; Ok j.


Section Digest.
(** [hashlib.sha256(..).hexdigest()]. *)
Context (sha256_hex : string -> string).

Definition content_hash (v : pyval) : result string :=
  let* b := canonical_json_bytes v in Ok (sha256_hex b).
End Digest.

Example text_1 : dec_text (mkdec (-1230) (-2)) = "-12.3".
Proof. vm_compute. reflexivity. Qed.
Example text_2 : dec_text (mkdec 5 (-4)) = "0.0005".
Proof. vm_compute. reflexivity. Qed.
Example text_3 : dec_text (mkdec 12 3) = "12000".
Proof. vm_compute. reflexivity. Qed.
Example iso_1 : utc_iso (utc 1785628800123000) = Ok "2026-08-02T00:00:00.123000Z".
Proof. vm_compute. reflexivity. Qed.
Example uuid_1 : uuid_str 1 = "00000000-0000-0000-0000-000000000001".
Proof. vm_compute. reflexivity. Qed.
Example dumps_1 :
  canonical_json_bytes (PSeq [PNone; PBool true; PInt (-3); PSet [PInt 2; PInt 1]])
  = Ok "[null,true,-3,[1,2]]".
Proof. vm_compute. reflexivity. Qed.

(** ** Reading back the text of a decimal *)

Lemma digit_char_spec d :
  0 <= d < 10 ->
  digit_char d <> "."%char /\ digit_char d <> "-"%char /\
  Z.of_nat (nat_of_ascii (digit_char d)) - 48 = d.
Proof.
  intros Hd. assert (d = 0 \/ d = 1 \/ d = 2 \/ d = 3 \/ d = 4 \/ d = 5 \/ d = 6 \/ d = 7 \/ d = 8 \/ d = 9)
    as H by lia.
  repeat (destruct H as [->|H]; [vm_compute; repeat split; discriminate|]).
  subst; vm_compute; repeat split; discriminate.
Qed.

Lemma scan_point m e p : scan_char (mkscan m e p) "."%char = mkscan m e true.
Proof. reflexivity. Qed.

Lemma scan_digits k n m e p :
  fold_left scan_char (fixed_digits 10 k n) (mkscan m e p)
  = mkscan (m * 10 ^ Z.of_nat k + n mod 10 ^ Z.of_nat k) (if p then e - Z.of_nat k else e) p.
Proof.
  revert n; induction k as [|k IH]; intros n; cbn [fixed_digits].
  - simpl. rewrite Z.mod_1_r. destruct p; f_equal; lia.
  - rewrite fold_left_app, IH. cbn [fold_left]. unfold scan_char; cbn [sc_mant sc_exp sc_point].
    pose proof (Z.mod_pos_bound n 10 ltac:(lia)) as Hm.
    destruct (digit_char_spec (n mod 10) Hm) as (Hd & _ & Hv).
    destruct (ascii_dec _ _) as [E|_]; [contradiction|]. rewrite Hv.
    rewrite Nat2Z.inj_succ, Z.pow_succ_r by lia.
    rewrite Z.rem_mul_r by lia.
    destruct p; f_equal; lia.
Qed.

Lemma fixed_digits_no_sign k n : Forall (fun c => c <> "-"%char) (fixed_digits 10 k n).
Proof.
  revert n; induction k as [|k IH]; intros n; cbn [fixed_digits]; [constructor|].
  apply Forall_app; split; [apply IH|]. constructor; [|constructor].
  apply digit_char_spec, Z.mod_pos_bound; lia.
Qed.

Lemma zeros_digits j : repeat "0"%char j = fixed_digits 10 j 0.
Proof.
  induction j as [|j IH]; [reflexivity|].
  cbn [fixed_digits]. change (0 / 10) with 0. rewrite <- IH. change [digit_char (0 mod 10)] with (repeat "0"%char 1).
  rewrite <- repeat_app, Nat.add_comm. reflexivity.
Qed.

Lemma scan_nat n m e p :
  0 <= n ->
  fold_left scan_char (nat_digits n) (mkscan m e p)
  = mkscan (m * 10 ^ Z.max 1 (ndigits n) + n)
           (if p then e - Z.max 1 (ndigits n) else e) p.
Proof.
  intros Hn. unfold nat_digits. rewrite scan_digits, Z2Nat.id by lia.
  rewrite (Z.mod_small n); [reflexivity|]. split; [exact Hn|].
  pose proof (proj1 (ndigits_le_repr n (Z.max 1 (ndigits n)) ltac:(lia)) ltac:(lia)). lia.
Qed.

Lemma nat_digits_head n l : exists c l', nat_digits n ++ l = c :: l' /\ c <> "-"%char.
Proof.
  unfold nat_digits. pose proof (fixed_digits_no_sign (Z.to_nat (Z.max 1 (ndigits n))) n) as H.
  destruct (fixed_digits 10 (Z.to_nat (Z.max 1 (ndigits n))) n) as [|c r] eqn:E.
  - exfalso. destruct (Z.to_nat (Z.max 1 (ndigits n))) eqn:Ek; [lia|].
    cbn [fixed_digits] in E. now apply app_eq_nil in E.
  - inversion H; subst. exists c, (r ++ l). auto.
Qed.

Definition format_body (m e : Z) : list ascii :=
  if 0 <=? e then nat_digits m ++ repeat "0"%char (Z.to_nat e)
  else nat_digits (m / 10 ^ (- e)) ++ "."%char :: fixed_digits 10 (Z.to_nat (- e)) (m mod 10 ^ (- e)).

Lemma scan_format_body m e : 0 <= m -> (dval (scan_unsigned (format_body m e)) == inject_Z m * pow10 e)%Q.
Proof.
  intros Hm. unfold scan_unsigned, format_body. destruct (Z.leb_spec 0 e) as [He|He].
  - rewrite fold_left_app, scan_nat, zeros_digits, scan_digits by exact Hm.
    unfold dval; cbn [sc_mant sc_exp sc_point mant dexp]. rewrite Z2Nat.id, Z.mod_0_l by (try apply Z.pow_nonzero; lia).
    rewrite pow10_0, (pow10_Z e) by lia. rewrite Z.mul_0_l, Z.add_0_l, Z.add_0_r, inject_Z_mult. ring.
  - set (k := - e). assert (Hk : 0 <= k) by lia.
    rewrite fold_left_app, scan_nat by (apply Z.div_pos; [lia | apply Z.pow_pos_nonneg; lia]).
    cbn [fold_left]. rewrite !scan_point, !scan_digits. unfold dval; cbn [sc_mant sc_exp sc_point mant dexp]. rewrite Z2Nat.id by exact Hk.
    rewrite Z.mod_mod by (apply Z.pow_nonzero; lia).
    replace (0 - k) with e by lia.
    replace ((0 * 10 ^ Z.max 1 (ndigits (m / 10 ^ k)) + m / 10 ^ k) * 10 ^ k + m mod 10 ^ k) with m; [reflexivity|].
    rewrite Z.mul_0_l, Z.add_0_l, Z.mul_comm. apply Z.div_mod, Z.pow_nonzero; lia.
Qed.

Lemma format_body_head m e : exists c l, format_body m e = c :: l /\ c <> "-"%char.
Proof. unfold format_body. destruct (0 <=? e); apply nat_digits_head. Qed.

Lemma dec_of_chars_neg l :
  dec_of_chars ("-"%char :: l) = mkdec (- mant (scan_unsigned l)) (dexp (scan_unsigned l)).
Proof. reflexivity. Qed.

Lemma dec_of_format d : deq (dec_of_chars (format_f d)) d.
Proof.
  unfold format_f. change (if 0 <=? dexp d then _ else _) with (format_body (Z.abs (mant d)) (dexp d)).
  pose proof (scan_format_body (Z.abs (mant d)) (dexp d) ltac:(lia)) as Hs.
  unfold deq. destruct (Z.ltb_spec (mant d) 0) as [Hneg|Hpos]; cbn [app].
  - rewrite dec_of_chars_neg, dval_opp, Hs. unfold dval. rewrite Z.abs_neq, inject_Z_opp by lia. ring.
  - destruct (format_body_head (Z.abs (mant d)) (dexp d)) as (c & l & E & Hc).
    unfold dec_of_chars. rewrite E. destruct (ascii_dec c "-"%char) as [|_]; [contradiction|].
    rewrite <- E, Hs. unfold dval. rewrite Z.abs_eq by lia. reflexivity.
Qed.

Lemma strip_all_spec fuel m e :
  m <> 0 -> Z.abs m < 10 ^ Z.of_nat fuel ->
  deq (strip_all fuel m e) (mkdec m e) /\ mant (strip_all fuel m e) mod 10 <> 0.
Proof.
  revert m e; induction fuel as [|fuel IH]; intros m e Hm Hb.
  - simpl in Hb. lia.
  - cbn [strip_all]. destruct (Z.eqb_spec (m mod 10) 0) as [E|E]; [|split; [reflexivity | exact E]].
    pose proof (Z.div_mod m 10 ltac:(lia)) as Ed. rewrite E, Z.add_0_r in Ed.
    rewrite Nat2Z.inj_succ, Z.pow_succ_r in Hb by lia.
    destruct (IH (m / 10) (e + 1)) as [IH1 IH2]; [lia | lia |]. split; [|exact IH2].
    rewrite IH1. unfold deq, dval; cbn [mant dexp]. rewrite pow10_add.
    rewrite Ed at 2. rewrite inject_Z_mult. change (pow10 1) with (inject_Z 10). ring.
Qed.

Lemma dnormalize_spec d : deq (dnormalize d) (dfix (mant d) (dexp d)).
Proof.
  unfold dnormalize. pose proof (rounded_repr _ _ (dfix_rounded (mant d) (dexp d))) as Hr.
  set (r := dfix _ _) in *. destruct (Z.eqb_spec (mant r) 0) as [E|E].
  - unfold deq. rewrite (proj2 (dval_0_iff r) E). reflexivity.
  - rewrite (proj1 (strip_all_spec 28 (mant r) (dexp r) E Hr)). destruct r; reflexivity.
Qed.

Lemma normal_form_unique x y :
  deq x y -> mant x mod 10 <> 0 -> mant y mod 10 <> 0 -> x = y.
Proof.
  assert (H : forall x y, dexp x <= dexp y -> deq x y -> mant x mod 10 <> 0 -> x = y).
  { clear. intros x y Hle E Hx. unfold deq, dval in E.
    rewrite (pow10_split _ _ Hle), Qmult_assoc, <- inject_Z_mult in E.
    apply Qmult_inj_r in E; [|apply pow10_nz]. apply (proj1 (inject_Z_injective _ _)) in E.
    destruct (Z.eq_dec (dexp x) (dexp y)) as [Ee|Ee].
    - rewrite Ee, Z.sub_diag, Z.pow_0_r, Z.mul_1_r in E. destruct x as [m e], y as [m' e'].
      cbn [mant dexp] in *. subst. reflexivity.
    - exfalso. apply Hx. rewrite E. replace (dexp y - dexp x) with (Z.succ (dexp y - dexp x - 1)) by lia.
      rewrite Z.pow_succ_r, (Z.mul_comm 10), Z.mul_assoc by lia. apply Z.mod_mul. lia. }
  intros E Hx Hy. destruct (Z.le_ge_cases (dexp x) (dexp y)); [now apply H|].
  symmetry. apply H; [assumption | now symmetry | assumption].
Qed.

(** Reading back the canonical text of a decimal gives its value, rounded to
    the context precision. *)
Lemma dec_text_read d : deq (dec_of_text (dec_text d)) (dfix (mant d) (dexp d)).
Proof.
  unfold dec_of_text, dec_text. rewrite list_ascii_of_string_of_list_ascii. unfold dec_chars.
  destruct (Z.eqb_spec (mant d) 0) as [E|E].
  - rewrite E. reflexivity.
  - rewrite dec_of_format. apply dnormalize_spec.
Qed.

Lemma dfix_repr d : repr d -> deq (dfix (mant d) (dexp d)) d.
Proof.
  intros H. unfold deq. apply (rounded_fits (dfix_rounded (mant d) (dexp d))).
  exists d; split; [exact H | reflexivity].
Qed.

Lemma dec_text_deq x y : deq x y -> dec_text x = dec_text y.
Proof.
  intros E. unfold dec_text, dec_chars. f_equal.
  assert (Hz : (mant x =? 0) = (mant y =? 0)).
  { apply eq_iff_eq_true. rewrite !Z.eqb_eq, <- !dval_0_iff. unfold deq in E. now rewrite E. }
  rewrite <- Hz. destruct (Z.eqb_spec (mant x) 0) as [_|Hx]; [reflexivity|]. f_equal.
  assert (Hd : deq (dfix (mant x) (dexp x)) (dfix (mant y) (dexp y))) by (apply dfix_deq, E).
  assert (H0 : forall d, mant d <> 0 -> mant (dfix (mant d) (dexp d)) <> 0).
  { intros d Hd0 H. apply Hd0. apply dval_0_iff.
    apply (rounded_zero_inv (dfix_rounded (mant d) (dexp d))). now apply dval_0_iff. }
  assert (Hy : mant y <> 0) by (intros Hy; rewrite Hy in Hz; discriminate).
  apply H0 in Hx, Hy.
  pose proof (rounded_repr _ _ (dfix_rounded (mant x) (dexp x))) as Rx.
  pose proof (rounded_repr _ _ (dfix_rounded (mant y) (dexp y))) as Ry.
  apply normal_form_unique.
  - now rewrite !dnormalize_spec.
  - unfold dnormalize. rewrite (proj2 (Z.eqb_neq _ _) Hx). apply (strip_all_spec 28); assumption.
  - unfold dnormalize. rewrite (proj2 (Z.eqb_neq _ _) Hy). apply (strip_all_spec 28); assumption.
Qed.

(** ** Sorted keys *)

Lemma ascii_compare_nat a b : Ascii.compare a b = (nat_of_ascii a ?= nat_of_ascii b)%nat.
Proof.
  unfold Ascii.compare. rewrite N2Nat.inj_compare. reflexivity.
Qed.

Lemma string_compare_trans s1 s2 s3 :
  String.compare s1 s2 <> Gt -> String.compare s2 s3 <> Gt -> String.compare s1 s3 <> Gt.
Proof.
  revert s2 s3; induction s1 as [|a s1 IH]; intros [|b s2] [|c s3]; simpl; try congruence.
  rewrite !ascii_compare_nat. intros H1 H2.
  destruct (Nat.compare_spec (nat_of_ascii a) (nat_of_ascii b)) as [E1|E1|E1]; [| |congruence];
  destruct (Nat.compare_spec (nat_of_ascii b) (nat_of_ascii c)) as [E2|E2|E2]; try congruence;
  destruct (Nat.compare_spec (nat_of_ascii a) (nat_of_ascii c)) as [E3|E3|E3]; try lia; try congruence.
  eapply IH; eassumption.
Qed.

Lemma leb_trans s1 s2 s3 : String.leb s1 s2 = true -> String.leb s2 s3 = true -> String.leb s1 s3 = true.
Proof.
  unfold String.leb. intros H1 H2.
  pose proof (string_compare_trans s1 s2 s3) as H.
  destruct (String.compare s1 s2), (String.compare s2 s3), (String.compare s1 s3);
    try discriminate; try reflexivity; exfalso; apply H; congruence.
Qed.

Section SortFacts.
Context {A : Type} (key : A -> string).
Let le (x y : A) : Prop := String.leb (key x) (key y) = true.

Lemma insert_by_perm x l : Permutation (insert_by key x l) (x :: l).
Proof.
  induction l as [|y l IH]; simpl; [reflexivity|].
  destruct (String.leb _ _); [reflexivity|]. rewrite IH. apply perm_swap.
Qed.

Lemma sort_by_perm l : Permutation (sort_by key l) l.
Proof. induction l as [|x l IH]; simpl; [reflexivity|]. now rewrite insert_by_perm, IH. Qed.

Lemma sort_by_nil l : sort_by key l = [] <-> l = [].
Proof.
  split; [|now intros ->]. intros H. pose proof (sort_by_perm l) as P. rewrite H in P. now apply Permutation_nil in P.
Qed.

Lemma insert_by_sorted x l : StronglySorted le l -> StronglySorted le (insert_by key x l).
Proof.
  induction 1 as [|y l Hl IH Hy]; simpl; [repeat constructor|].
  destruct (String.leb (key x) (key y)) eqn:E.
  - constructor; [now constructor|]. constructor; [exact E|].
    eapply List.Forall_impl; [|exact Hy]. intros z Hz. eapply leb_trans; eassumption.
  - constructor; [exact IH|]. rewrite insert_by_perm. constructor; [|exact Hy].
    destruct (String.leb_total (key x) (key y)); unfold le; congruence.
Qed.

Lemma sort_by_sorted l : StronglySorted le (sort_by key l).
Proof. induction l as [|x l IH]; simpl; [constructor | now apply insert_by_sorted]. Qed.

(** With distinct keys the sorted list does not depend on the order of the input. *)
Lemma sorted_unique l l' :
  StronglySorted le l -> StronglySorted le l' -> Permutation l l' ->
  List.NoDup (map key l) -> l = l'.
Proof.
  intros Hl; revert l'; induction Hl as [|x l Hl IH Hx]; intros l' Hl' Hp Hn.
  - now apply Permutation_nil in Hp.
  - destruct Hl' as [|y l' Hl' Hy]; [now apply Permutation_sym, Permutation_nil in Hp|].
    assert (x = y) as <-.
    { assert (In y (x :: l)) as [E|Hin] by (rewrite Hp; left; reflexivity); [exact E|].
      assert (In x (y :: l')) as [E|Hin'] by (rewrite <- Hp; left; reflexivity); [now symmetry|].
      exfalso. simpl in Hn. apply NoDup_cons_iff in Hn as [Hn _]. apply Hn.
      rewrite (String.leb_antisym (key x) (key y)).
      - now apply in_map.
      - rewrite List.Forall_forall in Hx. now apply Hx.
      - rewrite List.Forall_forall in Hy. now apply Hy. }
    f_equal. apply IH; [exact Hl' | now apply Permutation_cons_inv in Hp|].
    simpl in Hn. now apply NoDup_cons_iff in Hn.
Qed.

Lemma sort_by_Permutation l l' :
  Permutation l l' -> List.NoDup (map key l) -> sort_by key l = sort_by key l'.
Proof.
  intros Hp Hn. apply sorted_unique; try apply sort_by_sorted.
  - now rewrite !sort_by_perm.
  - eapply Permutation_NoDup; [apply Permutation_map, Permutation_sym, sort_by_perm | exact Hn].
Qed.
End SortFacts.

Definition freeze_item (kv : string * pyval) : result (string * json) :=
  let* j := freeze_json (snd kv) in Ok (fst kv, j).

Lemma freeze_items_keys l items : mapM freeze_item l = Ok items -> map fst items = map fst l.
Proof.
  intros H. apply mapM_Forall2 in H. induction H as [|[k v] [k' j] l items Hf _ IH]; [reflexivity|].
  unfold freeze_item in Hf. py_inv. simpl. now rewrite IH.
Qed.

Lemma dumps_obj_perm l l' :
  Permutation l l' -> List.NoDup (map fst l) -> dumps (JObj l) = dumps (JObj l').
Proof.
  intros Hp Hn. cbn [dumps]. do 4 f_equal. apply sort_by_Permutation.
  - now apply Permutation_map.
  - rewrite map_map. exact Hn.
Qed.

(** The canonical bytes of a mapping (and with them its content hash) do
    not depend on the order in which its keys were inserted. *)
Theorem canonical_key_order l l' b :
  Permutation l l' -> List.NoDup (map fst l) ->
  canonical_json_bytes (PDict l) = Ok b -> canonical_json_bytes (PDict l') = Ok b.
Proof.
  intros Hp Hn H. unfold canonical_json_bytes in *. cbn [freeze_json] in *.
  apply bind_Ok in H as (j & Hj & [= <-]). apply bind_Ok in Hj as (items & Hi & [= <-]).
  apply mapM_Forall2 in Hi as Hf.
  destruct (Permutation_Forall2 Hp Hf) as (items' & Hp' & Hf'). apply mapM_Forall2 in Hf'.
  change (mapM freeze_item l' = Ok items') in Hf'.
  cbn [freeze_json]. change (mapM _ l') with (mapM freeze_item l'). rewrite Hf'. simpl.
  f_equal. unfold dumps_text. f_equal. symmetry. apply dumps_obj_perm; [exact Hp'|].
  rewrite (freeze_items_keys l); [exact Hn | exact Hi].
Qed.

Definition sample_dict : list (string * pyval) := [("b", PInt 1); ("a", PDec (mkdec 150 (-2)))].

Lemma canonical_key_order_witness :
  canonical_json_bytes (PDict (rev sample_dict)) = canonical_json_bytes (PDict sample_dict).
Proof.
  destruct (canonical_json_bytes (PDict sample_dict)) as [b|e] eqn:E; [|discriminate].
  apply (canonical_key_order sample_dict (rev sample_dict) b).
  - apply Permutation_rev.
  - repeat constructor; simpl; intuition discriminate.
  - exact E.
Defined.

(** The canonical text of a decimal identifies its value: two decimals of
    at most 28 digits have the same text exactly when Python's [==] holds. *)
Theorem decimal_text_canonical x y :
  repr x -> repr y -> (dec_text x = dec_text y <-> deqb x y = true).
Proof.
  intros Hx Hy. rewrite deqb_eq. split; [|apply dec_text_deq].
  intros E. pose proof (dec_text_read x) as Ex. pose proof (dec_text_read y) as Ey.
  rewrite E, Ey, !dfix_repr in Ex by assumption. now symmetry.
Qed.

Lemma decimal_text_canonical_witness :
  dec_text (mkdec 150 (-2)) = dec_text (mkdec 15 (-1)).
Proof. apply (decimal_text_canonical (mkdec 150 (-2)) (mkdec 15 (-1))); reflexivity. Defined.

(** ** Errors: only [ValueError] *)

Lemma utc_iso_Raise t e : utc_iso t = Raise e -> exists msg, e = ValueError msg.
Proof.
  unfold utc_iso. destruct (is_utc t); cbn [negb raise_if bind].
  - discriminate.
  - intros [= <-]. eauto.
Qed.

Lemma freeze_json_Raise : forall v e, freeze_json v = Raise e -> exists msg, e = ValueError msg.
Proof.
  fix IH 1. intros v e. destruct v as [ |b|n|fin t|str|str|d|t|u|l|l|l]; cbn [freeze_json]; try discriminate.
  - intros H. apply bind_Raise in H as [H|(? & _ & H)]; [|discriminate]. apply raise_if_Raise in H as [_ <-]. eauto.
  - intros H. apply bind_Raise in H as [H|(? & _ & H)]; [|discriminate]. apply (utc_iso_Raise t), H.
  - intros H. apply bind_Raise in H as [H|(? & _ & H)]; [|discriminate]. revert e H. apply mapM_errors.
    induction l as [|x l IHl]; constructor; [exact (IH x) | exact IHl].
  - intros H. apply bind_Raise in H as [H|(? & _ & H)]; [|discriminate]. revert e H. apply mapM_errors.
    induction l as [|x l IHl]; constructor; [exact (IH x) | exact IHl].
  - intros H. apply bind_Raise in H as [H|(? & _ & H)]; [|discriminate]. revert e H. apply mapM_errors.
    induction l as [|[k x] l IHl]; constructor; [|exact IHl]. intros e H. cbn [snd fst] in H.
    apply bind_Raise in H as [H|(? & _ & H)]; [exact (IH x e H) | discriminate].
Qed.

Lemma content_hash_Raise h v e : content_hash h v = Raise e -> exists msg, e = ValueError msg.
Proof.
  unfold content_hash, canonical_json_bytes. intros H.
  apply bind_Raise in H as [H|(? & _ & H)]; [|discriminate].
  apply bind_Raise in H as [H|(? & _ & H)]; [|discriminate]. eapply freeze_json_Raise, H.
Qed.

(** ** Frozen trees as values, and [str] of a decimal *)

(** A frozen tree is itself a value the program freezes again. *)
Fixpoint thaw (j : json) : pyval :=
  match j with
  | JNull => PNone
  | JBool b => PBool b
  | JInt n => PInt n
  | JFloat t => PFloat true t
  | JStr s => PStr s
  | JArr l => PSeq (map thaw l)
  | JObj l => PDict (map (fun kv => (fst kv, thaw (snd kv))) l)
  end.

(** Freezing is idempotent. *)
Lemma freeze_thaw : forall j, freeze_json (thaw j) = Ok j.
Proof.
  fix IH 1. intros [ |b|n|t|s|l|l]; try reflexivity; cbn [thaw freeze_json].
  - assert (E : mapM freeze_json (map thaw l) = Ok l).
    { induction l as [|x l IHl]; [reflexivity|]. cbn [map mapM]. rewrite (IH x), IHl. reflexivity. }
    rewrite E. reflexivity.
  - assert (E : mapM (fun kv : string * pyval => let* j := freeze_json (snd kv) in Ok (fst kv, j))
                  (map (fun kv => (fst kv, thaw (snd kv))) l) = Ok l).
    { induction l as [|[k x] l IHl]; [reflexivity|]. cbn [map mapM fst snd]. rewrite (IH x), IHl. reflexivity. }
    rewrite E. reflexivity.
Qed.

(** Values without a non-UTC time or a non-finite float freeze. *)
Fixpoint freezable (v : pyval) : bool :=
  match v with
  | PFloat fin _ => fin
  | PTime t => is_utc t
  | PSeq l | PSet l => forallb freezable l
  | PDict l => forallb (fun kv => freezable (snd kv)) l
  | _ => true
  end.

Lemma mapM_total {E A B} (f : A -> outcome E B) l :
  Forall (fun x => exists y, f x = Ok y) l -> exists ys, mapM f l = Ok ys.
Proof.
  induction 1 as [|x l (y & Hy) _ (ys & Hys)]; [eexists; reflexivity|].
  exists (y :: ys). cbn [mapM]. rewrite Hy, Hys. reflexivity.
Qed.

Lemma freeze_total : forall v, freezable v = true -> exists j, freeze_json v = Ok j.
Proof.
  fix IH 1. intros [ |b|n|fin t|str|str|d|t|u|l|l|l] H; cbn [freezable] in H; cbn [freeze_json]; eauto.
  - rewrite H. cbn. eauto.
  - unfold utc_iso. rewrite H. cbn [negb raise_if bind]. eauto.
  - assert (E : exists ys, mapM freeze_json l = Ok ys).
    { apply mapM_total. induction l as [|x l IHl]; constructor; cbn [forallb] in H; apply andb_true_iff in H as [H1 H2];
        [exact (IH x H1) | exact (IHl H2)]. }
    destruct E as [ys ->]. cbn [bind]. eauto.
  - assert (E : exists ys, mapM freeze_json l = Ok ys).
    { apply mapM_total. induction l as [|x l IHl]; constructor; cbn [forallb] in H; apply andb_true_iff in H as [H1 H2];
        [exact (IH x H1) | exact (IHl H2)]. }
    destruct E as [ys ->]. cbn [bind]. eauto.
  - assert (E : exists ys, mapM (fun kv : string * pyval => let* j := freeze_json (snd kv) in Ok (fst kv, j)) l = Ok ys).
    { apply mapM_total. induction l as [|[k x] l IHl]; constructor; cbn [forallb snd] in H; apply andb_true_iff in H as [H1 H2];
        [|exact (IHl H2)]. destruct (IH x H1) as [j Hj]. cbn [snd]. rewrite Hj. cbn [bind]. eauto. }
    destruct E as [ys ->]. cbn [bind]. eauto.
Qed.

Lemma freezable_thaw : forall j, freezable (thaw j) = true.
Proof.
  fix IH 1. intros [ |b|n|t|s|l|l]; try reflexivity; cbn [thaw freezable].
  - induction l as [|x l IHl]; [reflexivity|]. cbn [map forallb]. rewrite (IH x), IHl. reflexivity.
  - induction l as [|[k x] l IHl]; [reflexivity|]. cbn [map forallb snd]. rewrite (IH x), IHl. reflexivity.
Qed.


Lemma forallb_freezable {A} (f : A -> pyval) l : (forall x, freezable (f x) = true) -> forallb freezable (map f l) = true.
Proof. intros H. induction l as [|x l IH]; [reflexivity|]. cbn [map forallb]. now rewrite H, IH. Qed.


Lemma content_hash_total h v : freezable v = true -> exists b, content_hash h v = Ok (h b).
Proof.
  intros H. destruct (freeze_total v H) as [j Hj]. exists (dumps_text j).
  unfold content_hash, canonical_json_bytes. rewrite Hj. reflexivity.
Qed.

(** [str(d)]: plain notation while the exponent is not positive and the number is
    not smaller than 10^-6, scientific notation otherwise. *)
Definition dec_str (d : dec) : string :=
  let digits := nat_digits (Z.abs (mant d)) in
  let n := Z.of_nat (length digits) in
  let left := dexp d + n in
  let dotplace := if (dexp d <=? 0) && (-6 <? left) then left else 1 in
  let body :=
    if dotplace <=? 0 then "0"%char :: "."%char :: repeat "0"%char (Z.to_nat (- dotplace)) ++ digits
    else if n <=? dotplace then digits ++ repeat "0"%char (Z.to_nat (dotplace - n))
    else firstn (Z.to_nat dotplace) digits ++ "."%char :: skipn (Z.to_nat dotplace) digits in
  let e := left - dotplace in
  let suffix := if left =? dotplace then []
                else "E"%char :: (if e <? 0 then "-"%char else "+"%char) :: nat_digits (Z.abs e) in
  string_of_list_ascii ((if mant d <? 0 then ["-"%char] else []) ++ body ++ suffix).

Example str_1 : dec_str (mkdec 12345 (-2)) = "123.45".
Proof. vm_compute. reflexivity. Qed.
Example str_2 : dec_str (mkdec 5 3) = "5E+3".
Proof. vm_compute. reflexivity. Qed.
Example str_3 : dec_str (mkdec (-12) (-9)) = "-1.2E-8".
Proof. vm_compute. reflexivity. Qed.
Example str_4 : dec_str (mkdec 12 (-4)) = "0.0012".
Proof. vm_compute. reflexivity. Qed.
