(* ===== verification/Market.v ===== *)
(** * Observed market state: [maais/execution/paper/market.py]

    Book levels, book snapshots and trade prints with the checks of their
    constructors.  A dataclass instance exists only when its [__post_init__]
    returned; [valid_book] and [valid_trade] say so of a model value. *)

From Stdlib Require Import ZArith QArith Lia Lqa List Bool String.
From stdpp Require Import base decidable list strings.
From S2P Require Import Prelude PyDecimal DecimalTheory Domain.

Local Open Scope Z_scope.

Definition require_positive_decimal (value : dec) (field : string) : result unit :=
  raise_if (value <=? dzero)%dec (ValueError (field +:+ " must be a positive finite Decimal")).

Record BookLevel : Type := { lv_price : dec; lv_quantity : dec }.

Definition BookLevel_post_init (l : BookLevel) : result BookLevel :=
  do* require_positive_decimal (lv_price l) "level price" ;;
  do* require_positive_decimal (lv_quantity l) "level quantity" ;;
  Ok l.

Record BookSnapshot : Type := {
  bk_event_id : string;
  bk_symbol : string;
  bk_venue_event_at : datetime;
  bk_observed_at : datetime;
  bk_sequence : Z;
  bk_bids : list BookLevel;
  bk_asks : list BookLevel;
  bk_mark_price : dec
}.

(** [levels[0].price]; the constructor refuses an empty side. *)
Definition top_price (l : list BookLevel) : dec :=
  match l with [] => dzero | x :: _ => lv_price x end.

Definition best_bid (b : BookSnapshot) : dec := top_price (bk_bids b).
Definition best_ask (b : BookSnapshot) : dec := top_price (bk_asks b).
Definition midpoint (b : BookSnapshot) : dec := ddiv_raw (best_bid b + best_ask b)%dec (dint 2).

(** [any(bad(left, right) for left, right in zip(l, l[1:]))]. *)
Fixpoint any_adjacent (bad : dec -> dec -> bool) (l : list dec) : bool :=
  match l with
  | x :: ((y :: _) as l') => bad x y || any_adjacent bad l'
  | _ => false
  end.

Definition BookSnapshot_post_init (b : BookSnapshot) : result BookSnapshot :=
  do* raise_if (bool_decide (bk_event_id b = "") || bool_decide (bk_symbol b = ""))
        (ValueError "event_id and symbol are required") ;;
  do* require_utc (bk_venue_event_at b) "venue_event_at" ;;
  do* require_utc (bk_observed_at b) "observed_at" ;;
  do* raise_if (dt_ltb (bk_observed_at b) (bk_venue_event_at b))
        (ValueError "venue_event_at cannot follow observed_at") ;;
  do* raise_if (bk_sequence b <? 0) (ValueError "sequence must be nonnegative") ;;
  do* raise_if (match bk_bids b, bk_asks b with [], _ | _, [] => true | _, _ => false end)
        (ValueError "both bid and ask depth are required") ;;
  do* raise_if (any_adjacent (fun l r => (l <=? r)%dec) (map lv_price (bk_bids b)))
        (ValueError "bids must be strictly descending") ;;
  do* raise_if (any_adjacent (fun l r => (l >=? r)%dec) (map lv_price (bk_asks b)))
        (ValueError "asks must be strictly ascending") ;;
  do* raise_if (best_bid b >=? best_ask b)%dec (ValueError "book must not be crossed or locked") ;;
  do* require_positive_decimal (bk_mark_price b) "mark_price" ;;
  Ok b.

Record TradePrint : Type := {
  tp_event_id : string;
  tp_symbol : string;
  tp_venue_event_at : datetime;
  tp_observed_at : datetime;
  tp_sequence : Z;
  tp_price : dec;
  tp_quantity : dec;
  tp_aggressor_side : string
}.

Definition TradePrint_post_init (t : TradePrint) : result TradePrint :=
  do* raise_if (bool_decide (tp_event_id t = "") || bool_decide (tp_symbol t = ""))
        (ValueError "event_id and symbol are required") ;;
  do* require_utc (tp_venue_event_at t) "venue_event_at" ;;
  do* require_utc (tp_observed_at t) "observed_at" ;;
  do* raise_if (dt_ltb (tp_observed_at t) (tp_venue_event_at t))
        (ValueError "venue_event_at cannot follow observed_at") ;;
  do* raise_if (tp_sequence t <? 0) (ValueError "sequence must be nonnegative") ;;
  do* require_positive_decimal (tp_price t) "trade price" ;;
  do* require_positive_decimal (tp_quantity t) "trade quantity" ;;
  do* raise_if (negb (bool_decide (tp_aggressor_side t = "buy") ||
                       bool_decide (tp_aggressor_side t = "sell")))
        (ValueError "aggressor_side must be buy or sell") ;;
  Ok t.

(** ** What the constructors guarantee *)

Definition valid_level (l : BookLevel) : Prop := (0 < dval (lv_price l) /\ 0 < dval (lv_quantity l))%Q.

Definition valid_book (b : BookSnapshot) : Prop :=
  BookSnapshot_post_init b = Ok b /\ Forall valid_level (bk_bids b) /\ Forall valid_level (bk_asks b).

Definition valid_trade (t : TradePrint) : Prop := TradePrint_post_init t = Ok t.

Lemma require_positive_Ok v f u : require_positive_decimal v f = Ok u <-> (0 < dval v)%Q.
Proof. unfold require_positive_decimal. rewrite raise_if_Ok, dleb_gt, dval_zero. reflexivity. Qed.

Lemma require_positive_true v f : (0 < dval v)%Q -> require_positive_decimal v f = Ok tt.
Proof. intros H. now apply require_positive_Ok. Qed.

Lemma BookLevel_post_init_Ok l l' : BookLevel_post_init l = Ok l' <-> l' = l /\ valid_level l.
Proof.
  unfold BookLevel_post_init, valid_level. split.
  - intros H. py_inv. repeat match goal with H : require_positive_decimal _ _ = Ok _ |- _ =>
      apply require_positive_Ok in H end. auto.
  - intros (-> & Hp & Hq). rewrite !require_positive_true by assumption. reflexivity.
Qed.

(** Prices along one side of a valid book move away from the touch. *)
Lemma any_adjacent_sorted (R : dec -> dec -> Prop) bad l :
  (forall x y, bad x y = false -> R x y) -> (forall x y z, R x y -> R y z -> R x z) ->
  any_adjacent bad l = false ->
  match l with [] => True | x :: l' => Forall (R x) l' end.
Proof.
  intros Hb Ht. induction l as [|x [|y l] IH]; intros H; [exact I | constructor |].
  cbn [any_adjacent] in H. apply orb_false_iff in H as [H1 H2]. specialize (IH H2).
  constructor; [now apply Hb|]. eapply List.Forall_impl; [|exact IH].
  intros z Hz. eapply Ht; [apply Hb, H1 | exact Hz].
Qed.

Section ValidBook.
Context (b : BookSnapshot) (Hb : valid_book b).

Lemma valid_book_facts :
  bk_event_id b <> "" /\ bk_symbol b <> "" /\
  is_utc (bk_venue_event_at b) = true /\ is_utc (bk_observed_at b) = true /\
  instant (bk_venue_event_at b) <= instant (bk_observed_at b) /\
  bk_bids b <> [] /\ bk_asks b <> [] /\
  any_adjacent (fun l r => (l <=? r)%dec) (map lv_price (bk_bids b)) = false /\
  any_adjacent (fun l r => (l >=? r)%dec) (map lv_price (bk_asks b)) = false /\
  (dval (best_bid b) < dval (best_ask b))%Q.
Proof.
  destruct Hb as [H _]. unfold BookSnapshot_post_init in H. py_inv.
  repeat match goal with H : require_utc _ _ = Ok _ |- _ => apply require_utc_Ok in H end.
  unfold dt_ltb in *. bool_prop. dec_prop.
  repeat split; try assumption; intros E; rewrite ?E in *; try discriminate.
  destruct (bk_bids b); discriminate.
Qed.

Lemma asks_ascending : Forall (fun l => dval (best_ask b) <= dval (lv_price l))%Q (bk_asks b).
Proof.
  destruct valid_book_facts as (_ & _ & _ & _ & _ & _ & _ & _ & Ha & _).
  apply (any_adjacent_sorted (fun x y => dval x < dval y)%Q) in Ha;
    [|intros x y H; dec_prop; exact H | intros x y z; apply Qlt_trans].
  unfold best_ask. destruct (bk_asks b) as [|l ls]; [constructor|]. simpl in *.
  constructor; [lra|]. rewrite Forall_map in Ha. eapply List.Forall_impl; [|exact Ha].
  simpl; intros; lra.
Qed.

Lemma bids_descending : Forall (fun l => dval (lv_price l) <= dval (best_bid b))%Q (bk_bids b).
Proof.
  destruct valid_book_facts as (_ & _ & _ & _ & _ & _ & _ & Ha & _ & _).
  apply (any_adjacent_sorted (fun x y => dval y < dval x)%Q) in Ha;
    [|intros x y H; dec_prop; exact H | intros x y z H1 H2; eapply Qlt_trans; eassumption].
  unfold best_bid. destruct (bk_bids b) as [|l ls]; [constructor|]. simpl in *.
  constructor; [lra|]. rewrite Forall_map in Ha. eapply List.Forall_impl; [|exact Ha].
  simpl; intros; lra.
Qed.
End ValidBook.
