(* ===== verification/Filters.v ===== *)
(** * Exchange filters: [maais/execution/paper/filters.py]

    Quantisation of quantities and prices to the exchange grid, and
    [prepare], which turns a requested order into one the exchange accepts or
    raises [FilterRejection] with the reason. *)

From Stdlib Require Import ZArith QArith Qround Lia Lqa List Bool String.
From stdpp Require Import base decidable list strings.
From S2P Require Import Prelude PyDecimal DecimalTheory Domain Json.

Local Open Scope Z_scope.

Definition _require_positive (value : dec) (field : string) : result unit :=
  raise_if (value <=? dzero)%dec (ValueError (field +:+ " must be a positive finite Decimal")).

Inductive rounding_mode : Type := ROUND_FLOOR | ROUND_CEILING.

Definition to_integral_value (r : rounding_mode) (x : dec) : dec :=
  match r with ROUND_FLOOR => dfloor x | ROUND_CEILING => dceil x end.

Definition _multiple (value increment : dec) (r : rounding_mode) : result dec :=
  let* q := ddiv value increment in
  Ok (to_integral_value r q * increment)%dec.

Record PreparedOrder : Type := {
  pr_symbol : string;
  pr_side : PaperOrderSide;
  pr_order_type : PaperOrderType;
  pr_requested_quantity : dec;
  pr_approved_quantity : dec;
  pr_quantity : dec;
  pr_price : option dec;
  pr_notional : dec
}.

Record ExchangeFilterSnapshot : Type := {
  ef_symbol : string;
  ef_status : string;
  ef_price_tick : dec;
  ef_quantity_step : dec;
  ef_minimum_quantity : dec;
  ef_maximum_quantity : dec;
  ef_minimum_notional : dec;
  ef_supported_order_types : list PaperOrderType;
  ef_captured_at : datetime
}.

Definition ExchangeFilterSnapshot_post_init (f : ExchangeFilterSnapshot)
  : result ExchangeFilterSnapshot :=
  do* raise_if (bool_decide (ef_symbol f = "")) (ValueError "symbol is required") ;;
  do* iterM (fun nv => _require_positive (snd nv) (fst nv))
        [("price_tick", ef_price_tick f); ("quantity_step", ef_quantity_step f);
         ("minimum_quantity", ef_minimum_quantity f); ("maximum_quantity", ef_maximum_quantity f);
         ("minimum_notional", ef_minimum_notional f)] ;;
  do* raise_if (ef_minimum_quantity f >? ef_maximum_quantity f)%dec
        (ValueError "minimum_quantity cannot exceed maximum_quantity") ;;
  do* raise_if (bool_decide (ef_supported_order_types f = []))
        (ValueError "supported_order_types cannot be empty") ;;
  do* require_utc (ef_captured_at f) "captured_at" ;;
  Ok f.

Definition rules_dict (f : ExchangeFilterSnapshot) : list (string * pyval) :=
  [("symbol", PStr (ef_symbol f)); ("status", PStr (ef_status f));
   ("price_tick", PDec (ef_price_tick f)); ("quantity_step", PDec (ef_quantity_step f));
   ("minimum_quantity", PDec (ef_minimum_quantity f));
   ("maximum_quantity", PDec (ef_maximum_quantity f));
   ("minimum_notional", PDec (ef_minimum_notional f));
   ("supported_order_types", PSeq (map (fun t => PEnum (enum_value t)) (ef_supported_order_types f)))].

Definition filter_to_dict (f : ExchangeFilterSnapshot) : list (string * pyval) :=
  rules_dict f ++ [("captured_at", PTime (ef_captured_at f))].

Definition rules_hash (sha256_hex : string -> string) (f : ExchangeFilterSnapshot) : result string :=
  content_hash sha256_hex (PDict (rules_dict f)).

Definition filter_content_hash (sha256_hex : string -> string) (f : ExchangeFilterSnapshot) : result string :=
  content_hash sha256_hex (PDict (filter_to_dict f)).

Definition quantize_quantity (f : ExchangeFilterSnapshot) (value : dec) : result dec :=
  do* _require_positive value "requested_quantity" ;;
  _multiple value (ef_quantity_step f) ROUND_FLOOR.

Definition quantize_price (f : ExchangeFilterSnapshot) (side : PaperOrderSide) (value : dec) : result dec :=
  do* _require_positive value "price" ;;
  _multiple value (ef_price_tick f) (if bool_decide (side = BUY) then ROUND_FLOOR else ROUND_CEILING).

(** The price and notional of the prepared order: a limit order has a quantised
    price, any other order type is only validated at [price]. *)
Definition prepared_notional (f : ExchangeFilterSnapshot) (side : PaperOrderSide)
    (order_type : PaperOrderType) (quantity : dec) (price : option dec) : result (option dec * dec) :=
  if bool_decide (order_type = LIMIT) then
    let* p := of_option (FilterRejection "limit_price_required") price in
    let* qp := quantize_price f side p in
    Ok (Some qp, (quantity * qp)%dec)
  else
    let* p := of_option (FilterRejection "validation_price_required") price in
    do* _require_positive p "price" ;;
    Ok (None, (quantity * p)%dec).

Definition prepare (f : ExchangeFilterSnapshot) (side : PaperOrderSide) (order_type : PaperOrderType)
    (requested_quantity approved_quantity : dec) (price : option dec) (approved_notional : dec)
  : result PreparedOrder :=
  do* raise_if (negb (bool_decide (ef_status f = "TRADING"))) (FilterRejection "symbol_not_trading") ;;
  do* raise_if (negb (bool_decide (order_type ∈ ef_supported_order_types f)))
        (FilterRejection "unsupported_order_type") ;;
  do* _require_positive approved_quantity "approved_quantity" ;;
  do* _require_positive approved_notional "approved_notional" ;;
  do* raise_if (requested_quantity >? approved_quantity)%dec
        (FilterRejection "approved_quantity_exceeded") ;;
  let* quantity := quantize_quantity f requested_quantity in
  do* raise_if (quantity <? ef_minimum_quantity f)%dec (FilterRejection "quantity_below_minimum") ;;
  do* raise_if (quantity >? ef_maximum_quantity f)%dec (FilterRejection "quantity_above_maximum") ;;
  let* pn := prepared_notional f side order_type quantity price in
  do* raise_if (snd pn <? ef_minimum_notional f)%dec (FilterRejection "notional_below_minimum") ;;
  do* raise_if (snd pn >? approved_notional)%dec (FilterRejection "approved_notional_exceeded") ;;
  Ok {| pr_symbol := ef_symbol f; pr_side := side; pr_order_type := order_type;
        pr_requested_quantity := requested_quantity; pr_approved_quantity := approved_quantity;
        pr_quantity := quantity; pr_price := fst pn; pr_notional := snd pn |}.

(** ** Facts *)

Definition valid_filters (f : ExchangeFilterSnapshot) : Prop :=
  ExchangeFilterSnapshot_post_init f = Ok f.

Lemma _require_positive_Ok v n u : _require_positive v n = Ok u <-> (0 < dval v)%Q.
Proof. unfold _require_positive. rewrite raise_if_Ok, dleb_gt, dval_zero. reflexivity. Qed.

Lemma valid_filters_positive f :
  valid_filters f ->
  (0 < dval (ef_price_tick f) /\ 0 < dval (ef_quantity_step f) /\ 0 < dval (ef_minimum_quantity f) /\
   0 < dval (ef_maximum_quantity f) /\ 0 < dval (ef_minimum_notional f))%Q /\
  is_utc (ef_captured_at f) = true.
Proof.
  unfold valid_filters, ExchangeFilterSnapshot_post_init. intros H. simpl iterM in H. py_inv.
  repeat match goal with
  | H : _require_positive _ _ = Ok _ |- _ => apply _require_positive_Ok in H
  | H : require_utc _ _ = Ok _ |- _ => apply require_utc_Ok in H
  end. auto 10.
Qed.

(** Floor and ceiling of a decimal are the integers around it. *)
Lemma dfloor_spec x :
  exists n, (dval (dfloor x) == inject_Z n)%Q /\ (inject_Z n <= dval x /\ dval x < inject_Z (n + 1))%Q.
Proof.
  unfold dfloor. destruct (Z.leb_spec 0 (dexp x)) as [He|He].
  - exists (mant x * 10 ^ dexp x). unfold dval. rewrite (pow10_Z _ He), <- inject_Z_mult.
    split; [reflexivity | split; [apply Qle_refl | apply inject_Z_lt; lia]].
  - set (k := - dexp x). assert (Hk : 0 < 10 ^ k) by (apply Z.pow_pos_nonneg; lia).
    exists (mant x / 10 ^ k). split; [unfold dval; cbn [mant dexp]; rewrite pow10_0; ring|].
    assert (E : (dval x * inject_Z (10 ^ k) == inject_Z (mant x))%Q).
    { unfold dval. rewrite <- (pow10_Z k) by lia. unfold k.
      rewrite <- Qmult_assoc, (Qmult_comm (pow10 (dexp x))), pow10_opp. ring. }
    pose proof (inject_Z_pos _ Hk) as Hk'. pose proof (Z.div_mod (mant x) (10 ^ k) ltac:(lia)) as Ed.
    pose proof (Z.mod_pos_bound (mant x) (10 ^ k) Hk).
    split; [apply (Qmult_le_r _ _ _ Hk') | apply (Qmult_lt_r _ _ _ Hk')];
      rewrite E, <- inject_Z_mult; [apply inject_Z_le | apply inject_Z_lt]; nia.
Qed.

Lemma dfloor_repr x : repr x -> (0 <= dval x)%Q -> repr (dfloor x).
Proof.
  unfold dfloor, repr. intros Hr Hx. destruct (Z.leb_spec 0 (dexp x)); [exact Hr|]. cbn [mant].
  assert (0 <= mant x).
  { destruct (Z.le_gt_cases 0 (mant x)) as [|Hn]; [assumption|exfalso].
    apply (scaled_lt _ _ (dexp x)) in Hn. unfold dval in Hx. rewrite Qmult_0_l in Hn. lra. }
  assert (0 < 10 ^ (- dexp x)) by (apply Z.pow_pos_nonneg; lia).
  rewrite Z.abs_eq in * by (try apply Z.div_pos; lia).
  apply Z.le_lt_trans with (mant x); [|exact Hr].
  apply Z.div_le_upper_bound; nia.
Qed.

(** Division and multiplication by a power of ten only move the exponent. *)
Lemma fits_scale x k : fits x -> fits (x * pow10 k).
Proof.
  intros (d & Hd & E). exists (mkdec (mant d) (dexp d + k)). split; [exact Hd|].
  rewrite <- E. unfold dval; cbn [mant dexp]. rewrite pow10_add. ring.
Qed.

Lemma div_power_of_ten x s k : (dval s == pow10 k)%Q -> (x / dval s == x * pow10 (- k))%Q.
Proof.
  intros ->. transitivity (x * (pow10 (- k) * pow10 k) / pow10 k)%Q;
    [rewrite pow10_opp|]; field; apply pow10_nz.
Qed.

Definition power_of_ten (s : dec) : Prop := exists k, (dval s == pow10 k)%Q.

(** With a power-of-ten quantity step, quantisation is exactly the floor:
    the result is the largest multiple of the step not above the request.  The
    order never exceeds what was asked and leaves less than one step behind. *)
Theorem quantize_quantity_floor f v :
  power_of_ten (ef_quantity_step f) -> repr v -> (0 < dval v)%Q ->
  exists q n, quantize_quantity f v = Ok q /\
    (dval q == inject_Z n * dval (ef_quantity_step f) /\
     dval q <= dval v /\ dval v < dval q + dval (ef_quantity_step f))%Q.
Proof.
  intros (k & Ek) Hr Hv. set (s := ef_quantity_step f) in *.
  pose proof (pow10_pos k) as Hk. pose proof (pow10_opp k) as Ho. pose proof (pow10_pos (- k)) as Hk'.
  assert (Hs : ~ (dval s == 0)%Q) by (rewrite Ek; apply pow10_nz).
  pose proof (div_power_of_ten (dval v) s k Ek) as Ev.
  assert (Eq : (dval (ddiv_raw v s) == dval v * pow10 (- k))%Q).
  { rewrite (rounded_fits (ddiv_rounded v s Hs)), Ev; [reflexivity|].
    rewrite Ev. now apply fits_scale, repr_fits. }
  destruct (dfloor_spec (ddiv_raw v s)) as (n & En & Hlo & Hhi). rewrite Eq in Hlo, Hhi.
  assert (Em : (dval (dmul (dfloor (ddiv_raw v s)) s) == inject_Z n * dval s)%Q).
  { rewrite dmul_exact, En; [reflexivity|]. rewrite Ek.
    apply fits_scale, repr_fits, dfloor_repr.
    - apply (rounded_repr _ _ (ddiv_rounded v s Hs)).
    - rewrite Eq. nra. }
  exists (dmul (dfloor (ddiv_raw v s)) s), n. split.
  - unfold quantize_quantity, _multiple. rewrite (proj2 (_require_positive_Ok v _ tt) Hv). simpl.
    fold s. now rewrite ddiv_total.
  - split; [exact Em|]. rewrite Em, Ek.
    rewrite inject_Z_plus in Hhi. change (inject_Z 1) with 1%Q in Hhi.
    apply (Qmult_le_r _ _ (pow10 k) Hk) in Hlo. apply (Qmult_lt_r _ _ (pow10 k) Hk) in Hhi.
    assert (dval v * pow10 (- k) * pow10 k == dval v)%Q as E by (rewrite <- Qmult_assoc, Ho; ring).
    rewrite E in Hlo, Hhi. lra.
Qed.

Definition btc_filters : ExchangeFilterSnapshot := {|
  ef_symbol := "BTCUSDT"; ef_status := "TRADING"; ef_price_tick := mkdec 1 (-1);
  ef_quantity_step := mkdec 1 (-3); ef_minimum_quantity := mkdec 1 (-3);
  ef_maximum_quantity := dint 1000; ef_minimum_notional := dint 5;
  ef_supported_order_types := [MARKET; LIMIT]; ef_captured_at := utc 0 |}.

Lemma btc_step : power_of_ten (ef_quantity_step btc_filters).
Proof. exists (-3). reflexivity. Qed.

Lemma quantize_quantity_floor_witness :
  exists q n, quantize_quantity btc_filters (mkdec 12345678 (-7)) = Ok q /\
    (dval q == inject_Z n * dval (mkdec 1 (-3)) /\ dval q <= dval (mkdec 12345678 (-7)) /\
     dval (mkdec 12345678 (-7)) < dval q + dval (mkdec 1 (-3)))%Q.
Proof.
  apply (quantize_quantity_floor btc_filters (mkdec 12345678 (-7)));
    [exists (-3); reflexivity | reflexivity | reflexivity].
Defined.

(** An accepted order satisfies every exchange filter and every approval
    limit that [prepare] is given. *)
Theorem prepare_within_limits f side ot rq aq price an p :
  prepare f side ot rq aq price an = Ok p ->
  ef_status f = "TRADING" /\ ot ∈ ef_supported_order_types f /\
  pr_symbol p = ef_symbol f /\ pr_side p = side /\ pr_order_type p = ot /\
  quantize_quantity f rq = Ok (pr_quantity p) /\
  (dval rq <= dval aq /\
   dval (ef_minimum_quantity f) <= dval (pr_quantity p) /\
   dval (pr_quantity p) <= dval (ef_maximum_quantity f) /\
   dval (ef_minimum_notional f) <= dval (pr_notional p) /\
   dval (pr_notional p) <= dval an)%Q /\
  exists unit_price, pr_notional p = (pr_quantity p * unit_price)%dec /\
    match ot with
    | LIMIT => pr_price p = Some unit_price
    | _ => price = Some unit_price /\ pr_price p = None
    end.
Proof.
  unfold prepare. intros H. py_inv. bool_prop. dec_prop. cbn [pr_symbol pr_side pr_order_type
    pr_quantity pr_notional pr_price]. repeat (split; [assumption || reflexivity|]).
  split; [auto|]. unfold prepared_notional in *.
  case_bool_decide; py_inv; cbn [fst snd].
  - subst. eexists; split; reflexivity.
  - eexists; split; [reflexivity|]. destruct ot; try contradiction; auto.
Qed.

Definition sample_prepared : PreparedOrder := {|
  pr_symbol := "BTCUSDT"; pr_side := BUY; pr_order_type := MARKET;
  pr_requested_quantity := mkdec 12345 (-4); pr_approved_quantity := dint 2;
  pr_quantity := mkdec 1234 (-3); pr_price := None; pr_notional := mkdec 61700000 (-3) |}.

Lemma prepare_within_limits_witness :
  prepare btc_filters BUY MARKET (mkdec 12345 (-4)) (dint 2) (Some (dint 50000)) (dint 100000)
    = Ok sample_prepared /\
  (dval (pr_notional sample_prepared) <= dval (dint 100000))%Q.
Proof.
  split; [vm_compute; reflexivity|].
  apply (prepare_within_limits btc_filters BUY MARKET (mkdec 12345 (-4)) (dint 2)
           (Some (dint 50000)) (dint 100000) sample_prepared).
  vm_compute; reflexivity.
Defined.

(** A quantity already on the exchange grid is left unchanged. *)
Lemma quantize_quantity_fixed f v n :
  power_of_ten (ef_quantity_step f) -> repr v -> (0 < dval v)%Q ->
  (dval v == inject_Z n * dval (ef_quantity_step f))%Q ->
  exists q, quantize_quantity f v = Ok q /\ deq q v.
Proof.
  intros Hp Hr Hv En. pose proof Hp as (k & Ek). pose proof (pow10_pos k) as Hk.
  unfold quantize_quantity, _multiple. rewrite (proj2 (_require_positive_Ok v _ tt) Hv). simpl.
  set (s := ef_quantity_step f) in *.
  assert (Hs : ~ (dval s == 0)%Q) by (rewrite Ek; apply pow10_nz).
  rewrite ddiv_total by exact Hs. simpl. eexists; split; [reflexivity|].
  assert (Ev : (dval v / dval s == inject_Z n)%Q) by (rewrite En; field; exact Hs).
  assert (Hf : fits (dval v / dval s)).
  { rewrite (div_power_of_ten _ s k Ek). now apply fits_scale, repr_fits. }
  pose proof (rounded_fits (ddiv_rounded v s Hs) Hf) as Eq. rewrite Ev in Eq.
  destruct (dfloor_spec (ddiv_raw v s)) as (z & Ez & Hlo & Hhi). rewrite Eq in Hlo, Hhi.
  apply (proj1 (inject_Z_le _ _)) in Hlo. apply (proj1 (inject_Z_lt _ _)) in Hhi. assert (z = n) as -> by lia.
  unfold deq. rewrite dmul_exact, Ez, En; [reflexivity|]. rewrite Ek.
  apply fits_scale, repr_fits, dfloor_repr.
  - apply (rounded_repr _ _ (ddiv_rounded v s Hs)).
  - rewrite Eq, <- Ev. apply Qdiv_nonneg; [lra | rewrite Ek; exact Hk].
Qed.
