(* ===== verification/Fills.v ===== *)
(** * Market fills: [maais/execution/paper/fills.py]

    [MarketFillEngine.fill] walks the first eligible book.  The constructor
    checks of the request, of every slice and of the resulting fill are part of
    the run, as in the source. *)

From Stdlib Require Import ZArith QArith Qabs Lia Lqa List Bool String.
From stdpp Require Import base decidable list strings.
From S2P Require Import Prelude PyDecimal DecimalTheory Domain Market.

Local Open Scope Z_scope.

Record MarketFillRequest : Type := {
  rq_symbol : string;
  rq_side : PaperOrderSide;
  rq_quantity : dec;
  rq_eligible_after : datetime;
  rq_decision_executable_price : dec;
  rq_taker_fee_rate : dec
}.

Definition MarketFillRequest_post_init (r : MarketFillRequest) : result MarketFillRequest :=
  do* raise_if (bool_decide (rq_symbol r = "")) (ValueError "symbol is required") ;;
  do* require_positive_decimal (rq_quantity r) "quantity" ;;
  do* require_positive_decimal (rq_decision_executable_price r) "decision_executable_price" ;;
  do* raise_if (negb ((dzero <=? rq_taker_fee_rate r)%dec && (rq_taker_fee_rate r <=? done)%dec))
        (ValueError "taker_fee_rate must be a finite Decimal in [0, 1]") ;;
  do* require_utc (rq_eligible_after r) "eligible_after" ;;
  Ok r.

Record FillSlice : Type := { sl_price : dec; sl_quantity : dec }.

Definition FillSlice_post_init (s : FillSlice) : result FillSlice :=
  do* require_positive_decimal (sl_price s) "fill slice price" ;;
  do* require_positive_decimal (sl_quantity s) "fill slice quantity" ;;
  Ok s.

Record PaperFill : Type := {
  fl_market_event_id : string;
  fl_symbol : string;
  fl_side : PaperOrderSide;
  fl_fill_at : datetime;
  fl_quantity : dec;
  fl_price : dec;
  fl_notional : dec;
  fl_slices : list FillSlice;
  fl_liquidity_role : string;
  fl_fee : dec;
  fl_spread_cost : dec;
  fl_depth_slippage : dec;
  fl_latency_slippage : dec;
  fl_total_slippage : dec;
  fl_book : BookSnapshot
}.

Definition PaperFill_post_init (p : PaperFill) : result PaperFill :=
  do* raise_if (bool_decide (fl_market_event_id p = "") || bool_decide (fl_symbol p = ""))
        (ValueError "market_event_id and symbol are required") ;;
  do* require_utc (fl_fill_at p) "fill_at" ;;
  do* require_positive_decimal (fl_quantity p) "fill quantity" ;;
  do* require_positive_decimal (fl_price p) "fill price" ;;
  do* require_positive_decimal (fl_notional p) "fill notional" ;;
  do* raise_if (fl_fee p <? dzero)%dec (ValueError "fee must be nonnegative") ;;
  let slice_quantity := dsum (map sl_quantity (fl_slices p)) in
  let slice_notional := dsum (map (fun i => sl_quantity i * sl_price i)%dec (fl_slices p)) in
  do* raise_if (match fl_slices p with [] => true | _ => false end ||
                negb (slice_quantity =? fl_quantity p)%dec ||
                negb (slice_notional =? fl_notional p)%dec)
        (ValueError "fill slices do not reconcile to quantity and notional") ;;
  let* unit := ddiv (fl_notional p) (fl_quantity p) in
  do* raise_if (negb (fl_price p =? unit)%dec)
        (ValueError "fill price does not reconcile to notional and quantity") ;;
  do* raise_if (negb (fl_total_slippage p =?
                      fl_spread_cost p + fl_depth_slippage p + fl_latency_slippage p)%dec)
        (ValueError "total slippage does not reconcile to its components") ;;
  do* raise_if (negb (bool_decide (bk_event_id (fl_book p) = fl_market_event_id p)) ||
                negb (bool_decide (bk_symbol (fl_book p) = fl_symbol p)) ||
                negb (dt_eqb (bk_observed_at (fl_book p)) (fl_fill_at p)))
        (ValueError "fill identity differs from its source book") ;;
  Ok p.

(** [MarketFillEngine._walk]: the loop and the depth check after it. *)
Fixpoint walk_loop (levels : list BookLevel) (remaining : dec) : result (list FillSlice * dec) :=
  match levels with
  | [] => Ok ([], remaining)
  | level :: levels' =>
      if (remaining <=? dzero)%dec then Ok ([], remaining)
      else
        let quantity := dmin (lv_quantity level) remaining in
        let* s := FillSlice_post_init {| sl_price := lv_price level; sl_quantity := quantity |} in
        let* rest := walk_loop levels' (remaining - quantity)%dec in
        Ok (s :: fst rest, snd rest)
  end.

Definition _walk (levels : list BookLevel) (requested : dec) (market_event_id : string)
  : result (list FillSlice) :=
  let* r := walk_loop levels requested in
  do* raise_if (dzero <? snd r)%dec (FillRejection "insufficient_visible_depth" (Some market_event_id)) ;;
  Ok (fst r).

Definition book_key (b : BookSnapshot) : Z * Z := (instant (bk_observed_at b), bk_sequence b).

Definition eligible_book (r : MarketFillRequest) (b : BookSnapshot) : bool :=
  bool_decide (bk_symbol b = rq_symbol r) && dt_ltb (rq_eligible_after r) (bk_observed_at b).

(** The side of the book a market order consumes. *)
Definition taker_levels (side : PaperOrderSide) (b : BookSnapshot) : list BookLevel :=
  if bool_decide (side = BUY) then bk_asks b else bk_bids b.

(** [MarketFillEngine.fill]; [sorted(eligible, key)[0]] is the first minimal book. *)
Definition fill (max_book_age : timedelta) (request : MarketFillRequest) (books : list BookSnapshot)
  : result PaperFill :=
  let* book := of_option (FillRejection "no_eligible_book" None)
                 (min_by book_key (List.filter (eligible_book request) books)) in
  do* raise_if (max_book_age <? dt_sub (bk_observed_at book) (bk_venue_event_at book))
        (FillRejection "stale_book" (Some (bk_event_id book))) ;;
  let levels := taker_levels (rq_side request) book in
  let* slices := _walk levels (rq_quantity request) (bk_event_id book) in
  let filled_notional := dsum (map (fun i => sl_price i * sl_quantity i)%dec slices) in
  let* average_price := ddiv filled_notional (rq_quantity request) in
  let first_price := top_price levels in
  let q := rq_quantity request in
  let dep := rq_decision_executable_price request in
  let is_buy := bool_decide (rq_side request = BUY) in
  let spread_cost := (if is_buy then (first_price - midpoint book) * q
                      else (midpoint book - first_price) * q)%dec in
  let depth_slippage := (if is_buy then (average_price - first_price) * q
                         else (first_price - average_price) * q)%dec in
  let latency_slippage := (if is_buy then (first_price - dep) * q
                           else (dep - first_price) * q)%dec in
  PaperFill_post_init {|
    fl_market_event_id := bk_event_id book; fl_symbol := rq_symbol request;
    fl_side := rq_side request; fl_fill_at := bk_observed_at book; fl_quantity := q;
    fl_price := average_price; fl_notional := filled_notional; fl_slices := slices;
    fl_liquidity_role := "taker"; fl_fee := (filled_notional * rq_taker_fee_rate request)%dec;
    fl_spread_cost := spread_cost; fl_depth_slippage := depth_slippage;
    fl_latency_slippage := latency_slippage;
    fl_total_slippage := (spread_cost + depth_slippage + latency_slippage)%dec;
    fl_book := book |}.

Definition MarketFillEngine_init (max_book_age : timedelta) : result timedelta :=
  do* raise_if (max_book_age <=? 0) (ValueError "max_book_age must be positive") ;;
  Ok max_book_age.

(** ** The walk consumes the book best price first *)

(** Every slice but the last takes a whole level, in the order of the book. *)
Inductive best_first : list BookLevel -> list FillSlice -> Prop :=
| bf_nil ls : best_first ls []
| bf_last l ls s :
    sl_price s = lv_price l -> (dval (sl_quantity s) <= dval (lv_quantity l))%Q ->
    best_first (l :: ls) [s]
| bf_full l ls s ss :
    sl_price s = lv_price l -> sl_quantity s = lv_quantity l -> best_first ls ss ->
    best_first (l :: ls) (s :: ss).

Definition depth (levels : list BookLevel) : Q := qsum (map (fun l => dval (lv_quantity l)) levels).
Definition slice_total (slices : list FillSlice) : Q := qsum (map (fun s => dval (sl_quantity s)) slices).
Definition slice_value (slices : list FillSlice) : Q :=
  qsum (map (fun s => dval (sl_price s) * dval (sl_quantity s))%Q slices).

Definition good_slice (g : Z) (s : FillSlice) : Prop :=
  grid g (dval (sl_quantity s)) /\ (0 < dval (sl_quantity s) /\ 0 < dval (sl_price s))%Q.

Lemma FillSlice_post_init_true s :
  (0 < dval (sl_price s) -> 0 < dval (sl_quantity s) -> FillSlice_post_init s = Ok s)%Q.
Proof. intros. unfold FillSlice_post_init. now rewrite !require_positive_true. Qed.

Lemma slice_total_nonneg g ss : Forall (good_slice g) ss -> (0 <= slice_total ss)%Q.
Proof.
  intros H. apply qsum_nonneg. rewrite Forall_map. eapply List.Forall_impl; [|exact H].
  simpl. intros a (_ & ? & _). lra.
Qed.

Lemma slice_total_zero g ss : Forall (good_slice g) ss -> (slice_total ss <= 0)%Q -> ss = [].
Proof.
  intros H Hs. destruct H as [|s ss (_ & Hq & _) H]; [reflexivity|exfalso].
  apply slice_total_nonneg in H. unfold slice_total in *; simpl in Hs. lra.
Qed.

Lemma walk_loop_spec g levels remaining :
  Forall valid_level levels -> Forall (fun l => grid g (dval (lv_quantity l))) levels ->
  grid g (dval remaining) -> (0 <= dval remaining)%Q -> (dval remaining < grid_max g)%Q ->
  exists slices rem, walk_loop levels remaining = Ok (slices, rem) /\
    best_first levels slices /\ Forall (good_slice g) slices /\ (0 <= dval rem)%Q /\
    (slice_total slices + dval rem == dval remaining)%Q /\
    ((0 < dval rem)%Q -> (depth levels + dval rem == dval remaining)%Q).
Proof.
  intros Hv Hg; revert remaining; induction levels as [|l levels IH]; intros remaining Gr H0 Hm.
  - exists [], remaining. repeat split; try constructor; unfold slice_total, depth; simpl; intros; lra.
  - inversion Hv as [|? ? [Hlp Hlq] Hv']; inversion Hg as [|? ? Hlg Hg']; subst. cbn [walk_loop].
    destruct (remaining <=? dzero)%dec eqn:E; dec_prop; rewrite dval_zero in E.
    { exists [], remaining. repeat split; try constructor; unfold slice_total; simpl; intros; lra. }
    unfold dmin. destruct (remaining <? lv_quantity l)%dec eqn:Em; dec_prop.
    + rewrite FillSlice_post_init_true by assumption. simpl bind.
      assert (Ez : (dval (remaining - remaining)%dec == 0)%Q) by (apply dsub_diag; reflexivity).
      destruct (IH Hv' Hg' (remaining - remaining)%dec) as (ss & rem & -> & Hbf & Hgs & Hr & Hs & _);
        rewrite ?Ez; [apply grid_0 | lra | lra |].
      apply (slice_total_zero g) in Hgs as ->; [|lra].
      unfold slice_total in Hs; simpl in Hs.
      eexists _, rem. split; [reflexivity|]. cbn [fst snd].
      split; [constructor; [reflexivity | simpl; lra]|].
      split; [constructor; [repeat split; assumption | constructor]|].
      split; [exact Hr|]. unfold slice_total; simpl. split; [lra | intros; lra].
    + rewrite FillSlice_post_init_true by assumption. simpl bind.
      assert (Ez : (dval (remaining - lv_quantity l)%dec == dval remaining - dval (lv_quantity l))%Q).
      { apply dsub_exact, (fits_grid_nonneg g); [now apply grid_sub | lra | lra]. }
      destruct (IH Hv' Hg' (remaining - lv_quantity l)%dec) as (ss & rem & -> & Hbf & Hgs & Hr & Hs & Hd);
        rewrite ?Ez; [now apply grid_sub | lra | lra |].
      rewrite Ez in Hs, Hd. eexists _, rem. split; [reflexivity|]. cbn [fst snd].
      split; [constructor; [reflexivity | reflexivity | exact Hbf]|].
      split; [constructor; [repeat split; assumption | exact Hgs]|].
      split; [exact Hr|]. unfold slice_total, depth in *; simpl. split; [lra | intros H; specialize (Hd H); lra].
Qed.

(** ** Complete fills *)

Lemma deqb_refl x : deqb x x = true.
Proof. apply deqb_eq. reflexivity. Qed.

Definition valid_request (r : MarketFillRequest) : Prop := MarketFillRequest_post_init r = Ok r.

Lemma valid_request_facts r :
  valid_request r ->
  rq_symbol r <> "" /\ (0 < dval (rq_quantity r))%Q /\ (0 < dval (rq_decision_executable_price r))%Q /\
  (0 <= dval (rq_taker_fee_rate r) /\ dval (rq_taker_fee_rate r) <= 1)%Q /\
  is_utc (rq_eligible_after r) = true.
Proof.
  unfold valid_request, MarketFillRequest_post_init. intros H. py_inv. bool_prop. dec_prop.
  repeat match goal with
  | H : require_positive_decimal _ _ = Ok _ |- _ => apply require_positive_Ok in H
  | H : require_utc _ _ = Ok _ |- _ => apply require_utc_Ok in H
  end. rewrite ?dval_zero, ?dval_one in *. auto 10.
Qed.

(** The consumed side of a book on a price grid [gp] and a quantity grid [gq]:
    the exact totals stay within 28 digits. *)
Record tradable (gp gq : Z) (levels : list BookLevel) : Prop := {
  tr_valid : Forall valid_level levels;
  tr_price : Forall (fun l => grid gp (dval (lv_price l))) levels;
  tr_quantity : Forall (fun l => grid gq (dval (lv_quantity l))) levels;
  tr_depth : (depth levels < grid_max gq)%Q;
  tr_value : (qsum (map (fun l => dval (lv_price l) * dval (lv_quantity l)) levels)
              < grid_max (gp + gq))%Q
}.

Lemma best_first_value levels ss g :
  Forall valid_level levels -> best_first levels ss -> Forall (good_slice g) ss ->
  (slice_value ss <= qsum (map (fun l => dval (lv_price l) * dval (lv_quantity l)) levels))%Q.
Proof.
  intros Hv Hb. unfold slice_value. induction Hb as [ls|l ls s Hp Hq|l ls s ss Hp Hq Hb IH]; intros Hg.
  - apply qsum_nonneg. rewrite Forall_map. eapply List.Forall_impl; [|exact Hv].
    intros l [H1 H2]. simpl. nra.
  - inversion Hv as [|? ? [Hlp Hlq] Hv']; subst. simpl. rewrite Hp.
    assert (0 <= qsum (map (fun l => dval (lv_price l) * dval (lv_quantity l)) ls))%Q.
    { apply qsum_nonneg. rewrite Forall_map. eapply List.Forall_impl; [|exact Hv'].
      intros l' [H1 H2]. simpl. nra. }
    nra.
  - inversion Hv; inversion Hg; subst. simpl. rewrite Hp, Hq. specialize (IH H2 H6). lra.
Qed.

Lemma best_first_prices (P : dec -> Prop) levels ss :
  best_first levels ss -> Forall (fun l => P (lv_price l)) levels -> Forall (fun s => P (sl_price s)) ss.
Proof.
  induction 1 as [ls|l ls s Hp Hq|l ls s ss Hp Hq Hb IH]; intros H; [constructor| |];
    inversion H; subst; constructor; try rewrite Hp; auto.
Qed.

(** The code's sum of slice values is exact. *)
Lemma slice_notional_exact gp gq levels ss :
  tradable gp gq levels -> best_first levels ss -> Forall (good_slice gq) ss ->
  (dval (dsum (map (fun i => sl_price i * sl_quantity i)%dec ss)) == slice_value ss)%Q.
Proof.
  intros T Hb Hg. pose proof (tr_value _ _ _ T) as Hmax.
  pose proof (best_first_value levels ss gq (tr_valid _ _ _ T) Hb Hg) as Hle.
  pose proof (best_first_prices (fun p => grid gp (dval p)) levels ss Hb (tr_price _ _ _ T)) as Hp.
  assert (Hterm : Forall (fun s => grid (gp + gq) (dval (sl_price s * sl_quantity s)%dec) /\
      (0 <= dval (sl_price s * sl_quantity s)%dec)%Q /\
      (dval (sl_price s * sl_quantity s)%dec == dval (sl_price s) * dval (sl_quantity s))%Q) ss).
  { clear Hb. unfold slice_value in Hle. revert Hle. induction Hg as [|s ss (Gq & Hq & Hpp) Hg IH]; intros Hle;
      [constructor|]. inversion Hp; subst. simpl in Hle.
    assert (Hrest : (0 <= qsum (map (fun s => dval (sl_price s) * dval (sl_quantity s)) ss))%Q).
    { apply qsum_nonneg. rewrite Forall_map. eapply List.Forall_impl; [|exact Hg].
      intros a (_ & ? & ?). simpl. nra. }
    assert (Hpos : (0 < dval (sl_price s) * dval (sl_quantity s))%Q) by nra.
    assert (E : (dval (sl_price s * sl_quantity s)%dec == dval (sl_price s) * dval (sl_quantity s))%Q).
    { apply dmul_exact, (fits_grid_nonneg (gp + gq)); [now apply grid_mul | lra | lra]. }
    constructor; [rewrite E; split; [now apply grid_mul | split; [lra | reflexivity]]|].
    apply IH; [assumption | lra]. }
  assert (Es : (qsum (map dval (map (fun i => sl_price i * sl_quantity i)%dec ss)) == slice_value ss)%Q).
  { unfold slice_value. clear -Hterm. induction Hterm as [|s ss (_ & _ & E) _ IH]; simpl; [reflexivity|].
    now rewrite IH, E. }
  rewrite (dsum_exact (gp + gq)); [exact Es | | rewrite Es; lra].
  rewrite Forall_map. eapply List.Forall_impl; [|exact Hterm]. simpl. tauto.
Qed.

Lemma slice_quantity_exact gq levels ss q :
  (depth levels < grid_max gq)%Q -> Forall (good_slice gq) ss -> (slice_total ss == q)%Q ->
  (q <= depth levels)%Q -> (dval (dsum (map sl_quantity ss)) == q)%Q.
Proof.
  intros Hm Hg Hs Hq. rewrite (dsum_exact gq).
  - rewrite map_map. exact Hs.
  - rewrite Forall_map. eapply List.Forall_impl; [|exact Hg]. intros s (G & H & _). split; [exact G | lra].
  - rewrite map_map. change (slice_total ss < grid_max gq)%Q. lra.
Qed.

Lemma walk_complete gq levels q ev :
  Forall valid_level levels -> Forall (fun l => grid gq (dval (lv_quantity l))) levels ->
  (depth levels < grid_max gq)%Q -> grid gq (dval q) -> (0 < dval q)%Q -> (dval q <= depth levels)%Q ->
  exists ss, _walk levels q ev = Ok ss /\ best_first levels ss /\ Forall (good_slice gq) ss /\
    (slice_total ss == dval q)%Q.
Proof.
  intros Hv Hg Hm Gq H0 Hd.
  destruct (walk_loop_spec gq levels q Hv Hg Gq ltac:(lra) ltac:(lra)) as (ss & rem & E & Hb & Hs & Hr & Ht & Hx).
  assert (Ez : (dval rem == 0)%Q).
  { destruct (Qlt_le_dec 0 (dval rem)) as [Hp|]; [specialize (Hx Hp); lra | lra]. }
  exists ss. split; [|split; [exact Hb | split; [exact Hs | lra]]].
  unfold _walk. rewrite E. simpl.
  assert ((dzero <? rem)%dec = false) as -> by (apply dltb_ge; rewrite dval_zero; lra). reflexivity.
Qed.

Lemma walk_insufficient gq levels q ev :
  Forall valid_level levels -> Forall (fun l => grid gq (dval (lv_quantity l))) levels ->
  grid gq (dval q) -> (dval q < grid_max gq)%Q -> (depth levels < dval q)%Q ->
  _walk levels q ev = Raise (FillRejection "insufficient_visible_depth" (Some ev)).
Proof.
  intros Hv Hg Gq Hm Hd.
  assert (H0 : (0 <= depth levels)%Q).
  { apply qsum_nonneg. rewrite Forall_map. eapply List.Forall_impl; [|exact Hv]. intros l [_ H]. simpl. lra. }
  destruct (walk_loop_spec gq levels q Hv Hg Gq ltac:(lra) Hm) as (ss & rem & E & Hb & Hs & Hr & Ht & Hx).
  assert (Hle : (slice_total ss <= depth levels)%Q).
  { clear -Hb Hv. unfold slice_total, depth. induction Hb as [ls|l ls s Hp Hq|l ls s ss Hp Hq Hb IH].
    - apply qsum_nonneg. rewrite Forall_map. eapply List.Forall_impl; [|exact Hv]. intros l [_ H]. simpl. lra.
    - inversion Hv as [|? ? [_ ?] Hv']; subst. simpl.
      assert (0 <= qsum (map (fun l => dval (lv_quantity l)) ls))%Q; [|lra].
      apply qsum_nonneg. rewrite Forall_map. eapply List.Forall_impl; [|exact Hv']. intros l' [_ H']. simpl. lra.
    - inversion Hv; subst. simpl. rewrite Hq. specialize (IH H2). lra. }
  unfold _walk. rewrite E. simpl.
  assert ((dzero <? rem)%dec = true) as -> by (apply dltb_lt; rewrite dval_zero; lra). reflexivity.
Qed.

Lemma first_book_eligible r books b :
  min_by book_key (List.filter (eligible_book r) books) = Some b ->
  In b books /\ bk_symbol b = rq_symbol r /\
  instant (rq_eligible_after r) < instant (bk_observed_at b) /\
  forall b', In b' books -> eligible_book r b' = true -> key_le (book_key b) (book_key b').
Proof.
  intros H. apply min_by_spec in H as [Hin Hall]. apply filter_In in Hin as [Hin He].
  unfold eligible_book, dt_ltb in He. bool_prop. repeat split; try assumption.
  intros b' Hb' He'. rewrite List.Forall_forall in Hall. apply Hall, filter_In; auto.
Qed.

Definition fill_of (r : MarketFillRequest) (b : BookSnapshot) (ss : list FillSlice) (f : PaperFill) : Prop :=
  fl_book f = b /\ fl_market_event_id f = bk_event_id b /\ fl_symbol f = rq_symbol r /\
  fl_side f = rq_side r /\ fl_fill_at f = bk_observed_at b /\ fl_quantity f = rq_quantity r /\
  fl_slices f = ss /\ fl_notional f = dsum (map (fun i => sl_price i * sl_quantity i)%dec ss) /\
  fl_price f = ddiv_raw (fl_notional f) (rq_quantity r) /\
  fl_fee f = (fl_notional f * rq_taker_fee_rate r)%dec /\
  fl_depth_slippage f =
    (if bool_decide (rq_side r = BUY)
     then (fl_price f - top_price (taker_levels (rq_side r) b)) * rq_quantity r
     else (top_price (taker_levels (rq_side r) b) - fl_price f) * rq_quantity r)%dec.

Lemma PaperFill_post_init_same p p' : PaperFill_post_init p = Ok p' -> p' = p.
Proof. unfold PaperFill_post_init. intros H. py_inv. reflexivity. Qed.

Lemma PaperFill_post_init_true p :
  fl_market_event_id p <> "" -> fl_symbol p <> "" -> is_utc (fl_fill_at p) = true ->
  (0 < dval (fl_quantity p))%Q -> (0 < dval (fl_price p))%Q -> (0 < dval (fl_notional p))%Q ->
  (0 <= dval (fl_fee p))%Q -> fl_slices p <> [] ->
  (dval (dsum (map sl_quantity (fl_slices p))) == dval (fl_quantity p))%Q ->
  (dval (dsum (map (fun i => sl_quantity i * sl_price i)%dec (fl_slices p))) == dval (fl_notional p))%Q ->
  fl_price p = ddiv_raw (fl_notional p) (fl_quantity p) ->
  fl_total_slippage p = (fl_spread_cost p + fl_depth_slippage p + fl_latency_slippage p)%dec ->
  bk_event_id (fl_book p) = fl_market_event_id p -> bk_symbol (fl_book p) = fl_symbol p ->
  bk_observed_at (fl_book p) = fl_fill_at p ->
  PaperFill_post_init p = Ok p.
Proof.
  intros H1 H2 H3 H4 H5 H6 H7 H8 H9 H10 H11 H12 H13 H14 H15. unfold PaperFill_post_init.
  rewrite !(bool_decide_eq_false_2 _ H1), !(bool_decide_eq_false_2 _ H2).
  rewrite require_utc_true, !require_positive_true by assumption. cbn [bind orb raise_if].
  assert ((fl_fee p <? dzero)%dec = false) as -> by (apply dltb_ge; now rewrite dval_zero).
  apply deqb_eq in H9, H10. rewrite H9, H10, ddiv_total, <- H11, H12, H13, H14, H15 by lra.
  rewrite !deqb_refl, dt_eqb_refl, !bool_decide_eq_true_2 by reflexivity.
  destruct (fl_slices p); [congruence|]. cbn [raise_if orb negb bind]. rewrite deqb_refl. reflexivity.
Qed.

(** What a returned fill says about its book and slices. *)
Lemma fill_inv age r books f :
  fill age r books = Ok f ->
  exists b ss, min_by book_key (List.filter (eligible_book r) books) = Some b /\
    dt_sub (bk_observed_at b) (bk_venue_event_at b) <= age /\
    _walk (taker_levels (rq_side r) b) (rq_quantity r) (bk_event_id b) = Ok ss /\ fill_of r b ss f.
Proof.
  unfold fill. intros H. py_inv. bool_prop.
  apply PaperFill_post_init_same in H as ->. apply ddiv_Ok in H3 as [_ ->].
  eexists _, _. repeat split; eassumption || reflexivity.
Qed.

(** A fill is causal.  It comes from the earliest book of the symbol that
    was observed strictly after the order became eligible (in the order of
    observation time, then sequence), that book was not stale, and the fill
    carries its event, its time and the requested quantity. *)
Theorem fill_causal age r books f :
  fill age r books = Ok f ->
  In (fl_book f) books /\ bk_symbol (fl_book f) = rq_symbol r /\
  instant (rq_eligible_after r) < instant (fl_fill_at f) /\
  fl_fill_at f = bk_observed_at (fl_book f) /\ fl_market_event_id f = bk_event_id (fl_book f) /\
  fl_quantity f = rq_quantity r /\
  dt_sub (bk_observed_at (fl_book f)) (bk_venue_event_at (fl_book f)) <= age /\
  forall b, In b books -> eligible_book r b = true -> key_le (book_key (fl_book f)) (book_key b).
Proof.
  intros H. apply fill_inv in H as (b & ss & Hm & Hage & _ & Hf).
  destruct Hf as (Eb & Ee & _ & _ & Et & Eq & _). apply first_book_eligible in Hm as (Hin & Hsym & Hlt & Hmin).
  rewrite Eb, Ee, Et, Eq. repeat split; assumption.
Qed.

(** Complete execution.  When the first eligible book is fresh and shows
    enough depth on the exchange grid, the engine returns a fill (its own
    reconciliation checks never raise): the slices consume the book best price
    first, add up to exactly the requested quantity, and the notional is their
    exact value. *)
Theorem fill_complete age r books b gp gq :
  valid_request r -> valid_book b ->
  min_by book_key (List.filter (eligible_book r) books) = Some b ->
  dt_sub (bk_observed_at b) (bk_venue_event_at b) <= age ->
  tradable gp gq (taker_levels (rq_side r) b) ->
  grid gq (dval (rq_quantity r)) -> (dval (rq_quantity r) <= depth (taker_levels (rq_side r) b))%Q ->
  exists f, fill age r books = Ok f /\ fl_book f = b /\
    best_first (taker_levels (rq_side r) b) (fl_slices f) /\
    (slice_total (fl_slices f) == dval (rq_quantity r))%Q /\
    (dval (fl_notional f) == slice_value (fl_slices f))%Q.
Proof.
  intros Hr Hb Hm Hage T Gq Hd. set (levels := taker_levels (rq_side r) b) in *.
  destruct (valid_request_facts r Hr) as (Hsym & Hq & _ & [Hf0 _] & _).
  destruct (valid_book_facts b Hb) as (Hid & _ & _ & Hobs & _).
  destruct (first_book_eligible r books b Hm) as (_ & Esym & _ & _).
  destruct (walk_complete gq levels (rq_quantity r) (bk_event_id b) (tr_valid _ _ _ T)
              (tr_quantity _ _ _ T) (tr_depth _ _ _ T) Gq Hq Hd) as (ss & Ew & Hbf & Hgs & Htot).
  pose proof (slice_notional_exact gp gq levels ss T Hbf Hgs) as En.
  pose proof (slice_quantity_exact gq levels ss _ (tr_depth _ _ _ T) Hgs Htot Hd) as Eqs.
  assert (Hpos : (0 < slice_value ss)%Q).
  { destruct Hgs as [|s ss' (_ & H1 & H2) Hgs']; [unfold slice_total in Htot; simpl in Htot; lra|].
    unfold slice_value; simpl.
    assert (0 <= qsum (map (fun s => dval (sl_price s) * dval (sl_quantity s)) ss'))%Q; [|nra].
    apply qsum_nonneg. rewrite Forall_map. eapply List.Forall_impl; [|exact Hgs'].
    intros a (_ & ? & ?). simpl. nra. }
  assert (Hne : ss <> []) by (intros ->; unfold slice_value in Hpos; simpl in Hpos; lra).
  unfold fill. rewrite Hm. simpl of_option. cbn [bind].
  rewrite (proj2 (Z.ltb_ge _ _) Hage). cbn [raise_if bind]. fold levels. rewrite Ew. cbn [bind].
  set (n := dsum (map (fun i => sl_price i * sl_quantity i)%dec ss)) in *.
  assert (Hn : (0 < dval n)%Q) by lra.
  rewrite ddiv_total by lra. cbn [bind]. eexists. split.
  - apply PaperFill_post_init_true; cbn [fl_market_event_id fl_symbol fl_fill_at fl_quantity fl_price
      fl_notional fl_slices fl_fee fl_spread_cost fl_depth_slippage fl_latency_slippage
      fl_total_slippage fl_book]; try assumption; try reflexivity.
    + now apply ddiv_pos.
    + apply dmul_nonneg; lra.
    + rewrite (map_ext _ (fun i => sl_price i * sl_quantity i)%dec) by (intros; apply dmul_comm).
      reflexivity.
  - cbn [fl_book fl_slices fl_notional]. repeat split; assumption.
Qed.

(** ** The fill price *)

Lemma grid_pos_ge g x : grid g x -> (0 < x -> pow10 g <= x)%Q.
Proof.
  intros [n E] H. rewrite E in *. pose proof (pow10_pos g).
  assert (Hn : 0 < n) by (apply (scaled_lt 0 n g); rewrite Qmult_0_l; exact H).
  assert (H1 : 1 <= n) by lia. apply (scaled_le 1 n g) in H1. change (inject_Z 1) with 1%Q in H1. lra.
Qed.

Lemma tradable_price_fits gp gq levels l :
  tradable gp gq levels -> In l levels -> fits (dval (lv_price l)).
Proof.
  intros T Hin. pose proof (tr_value _ _ _ T) as Hval.
  pose proof (tr_valid _ _ _ T) as Hv. pose proof (tr_price _ _ _ T) as Hp. pose proof (tr_quantity _ _ _ T) as Hq.
  rewrite List.Forall_forall in Hv, Hp, Hq. destruct (Hv l Hin) as [Hlp Hlq].
  apply (fits_grid_nonneg gp); [now apply Hp | lra |].
  pose proof (grid_pos_ge gq _ (Hq l Hin) Hlq) as Hge. pose proof (pow10_pos gq) as Hg0.
  assert (Hle : (dval (lv_price l) * dval (lv_quantity l)
                <= qsum (map (fun l => dval (lv_price l) * dval (lv_quantity l)) levels))%Q).
  { clear -Hin Hv. induction levels as [|a levels IH]; [destruct Hin|]. simpl.
    assert (Ha : (0 <= dval (lv_price a) * dval (lv_quantity a))%Q).
    { destruct (Hv a (or_introl eq_refl)). nra. }
    assert (Hrest : (0 <= qsum (map (fun l => dval (lv_price l) * dval (lv_quantity l)) levels))%Q).
    { apply qsum_nonneg. rewrite Forall_map, List.Forall_forall. intros x Hx.
      destruct (Hv x (or_intror Hx)). simpl. nra. }
    destruct Hin as [->|Hin]; [lra|]. specialize (IH Hin (fun x Hx => Hv x (or_intror Hx))). lra. }
  unfold grid_max in *. rewrite pow10_add in Hval. apply (Qmult_lt_r _ _ (pow10 gq) Hg0). nra.
Qed.

Lemma slice_value_bounds lo hi ss g :
  Forall (good_slice g) ss -> Forall (fun s => lo <= dval (sl_price s) /\ dval (sl_price s) <= hi)%Q ss ->
  (lo * slice_total ss <= slice_value ss /\ slice_value ss <= hi * slice_total ss)%Q.
Proof.
  intros Hg Hb. unfold slice_value, slice_total. induction Hg as [|s ss (_ & Hq & _) Hg IH]; simpl; [lra|].
  inversion Hb as [|? ? [H1 H2] Hb']; subst. destruct (IH Hb') as [IH1 IH2]. nra.
Qed.

(** The average price of a fill lies between any two 28-digit bounds of the
    prices it consumed: rounding the quotient never crosses them. *)
Lemma fill_price_between gp gq r b ss lo hi :
  tradable gp gq (taker_levels (rq_side r) b) -> grid gq (dval (rq_quantity r)) ->
  (0 < dval (rq_quantity r))%Q -> (dval (rq_quantity r) < grid_max gq)%Q ->
  _walk (taker_levels (rq_side r) b) (rq_quantity r) (bk_event_id b) = Ok ss ->
  fits lo -> fits hi ->
  Forall (fun l => lo <= dval (lv_price l) /\ dval (lv_price l) <= hi)%Q (taker_levels (rq_side r) b) ->
  (lo <= dval (ddiv_raw (dsum (map (fun i => sl_price i * sl_quantity i)%dec ss)) (rq_quantity r)) /\
   dval (ddiv_raw (dsum (map (fun i => sl_price i * sl_quantity i)%dec ss)) (rq_quantity r)) <= hi)%Q.
Proof.
  intros T Gq Hq Hmax Hw (plo & Rlo & Elo) (phi & Rhi & Ehi) Hb.
  set (levels := taker_levels (rq_side r) b) in *. set (q := rq_quantity r) in *.
  destruct (walk_loop_spec gq levels q (tr_valid _ _ _ T) (tr_quantity _ _ _ T) Gq ltac:(lra) Hmax)
    as (ss' & rem & E & Hbf & Hgs & Hr & Ht & _).
  unfold _walk in Hw. rewrite E in Hw. simpl in Hw. apply bind_Ok in Hw as (u & Hu & [= ->]).
  apply raise_if_Ok, dltb_ge in Hu. rewrite dval_zero in Hu.
  pose proof (slice_notional_exact gp gq levels ss T Hbf Hgs) as En.
  pose proof (best_first_prices (fun p => lo <= dval p /\ dval p <= hi)%Q levels ss Hbf Hb) as Hp.
  destruct (slice_value_bounds lo hi ss gq Hgs Hp) as [H1 H2].
  assert (Ett : (slice_total ss == dval q)%Q) by lra. rewrite Ett in H1, H2.
  pose proof (ddiv_rounded (dsum (map (fun i => sl_price i * sl_quantity i)%dec ss)) q ltac:(lra)) as R.
  split.
  - rewrite <- Elo. apply (rounded_lo _ _ R plo Rlo). rewrite Elo. apply Qle_shift_div_l; lra.
  - rewrite <- Ehi. apply (rounded_hi _ _ R phi Rhi). rewrite Ehi. apply Qle_shift_div_r; lra.
Qed.

Lemma top_price_in l : l <> [] -> exists x, In x l /\ top_price l = lv_price x.
Proof. destruct l as [|x l]; [congruence|]. intros _. exists x. split; [now left | reflexivity]. Qed.

Lemma max_price_bound levels :
  Forall (fun l => 0 < dval (lv_price l))%Q levels ->
  levels <> [] -> exists m, In m levels /\ Forall (fun l => dval (lv_price l) <= dval (lv_price m))%Q levels.
Proof.
  intros H Hne. induction levels as [|l [|l' ls] IH]; [congruence| |].
  - exists l. split; [now left|]. repeat constructor. lra.
  - inversion H; subst. destruct IH as (m & Hin & Hm); [assumption | discriminate|].
    destruct (Qlt_le_dec (dval (lv_price m)) (dval (lv_price l))) as [Hlt|Hle].
    + exists l. split; [now left|]. constructor; [lra|]. eapply List.Forall_impl; [|exact Hm]. simpl. intros; lra.
    + exists m. split; [now right|]. constructor; assumption.
Qed.

(** Slippage is adverse.  A market buy never fills below the best ask and a
    market sell never above the best bid of its book, and the reported depth
    slippage is never negative. *)
Theorem fill_no_better_than_touch age r books f gp gq :
  fill age r books = Ok f -> valid_request r -> valid_book (fl_book f) ->
  tradable gp gq (taker_levels (rq_side r) (fl_book f)) ->
  grid gq (dval (rq_quantity r)) -> (dval (rq_quantity r) < grid_max gq)%Q ->
  match rq_side r with
  | BUY => (dval (best_ask (fl_book f)) <= dval (fl_price f))%Q
  | SELL => (dval (fl_price f) <= dval (best_bid (fl_book f)))%Q
  end /\ (0 <= dval (fl_depth_slippage f))%Q.
Proof.
  intros H Hr Hb T Gq Hmax. apply fill_inv in H as (b & ss & _ & _ & Hw & Hf).
  destruct Hf as (Eb & _ & _ & _ & _ & _ & Ess & En & Ep & _ & Ed). rewrite Eb in *. clear Eb.
  destruct (valid_request_facts r Hr) as (_ & Hq & _).
  destruct (valid_book_facts b Hb) as (_ & _ & _ & _ & _ & Hnb & Hna & _).
  assert (Hbd : exists lo hi, fits lo /\ fits hi /\
     Forall (fun l => lo <= dval (lv_price l) /\ dval (lv_price l) <= hi)%Q (taker_levels (rq_side r) b) /\
     match rq_side r with BUY => lo = dval (best_ask b) | SELL => hi = dval (best_bid b) end).
  { pose proof (tr_valid _ _ _ T) as Hv.
    assert (Hpos : Forall (fun l => 0 < dval (lv_price l))%Q (taker_levels (rq_side r) b))
      by (eapply List.Forall_impl; [|exact Hv]; intros l []; assumption).
    unfold taker_levels in *. destruct (rq_side r); simpl in *.
    - destruct (top_price_in _ Hna) as (x & Hx & Ex). destruct (max_price_bound _ Hpos Hna) as (m & Hm & Hall).
      exists (dval (best_ask b)), (dval (lv_price m)). unfold best_ask at 1. rewrite Ex.
      split; [eapply tradable_price_fits; eauto|]. split; [eapply tradable_price_fits; eauto|].
      split; [|reflexivity]. pose proof (asks_ascending b Hb) as Ha. rewrite List.Forall_forall in *. auto.
    - destruct (top_price_in _ Hnb) as (x & Hx & Ex).
      exists 0%Q, (dval (best_bid b)). unfold best_bid at 1. rewrite Ex.
      split; [apply (repr_fits dzero); reflexivity|]. split; [eapply tradable_price_fits; eauto|].
      split; [|reflexivity]. pose proof (bids_descending b Hb) as Ha. rewrite List.Forall_forall in *.
      intros l Hl. split; [specialize (Hpos l Hl); lra | auto]. }
  destruct Hbd as (lo & hi & Flo & Fhi & Hall & Hside).
  destruct (fill_price_between gp gq r b ss lo hi T Gq Hq Hmax Hw Flo Fhi Hall) as [P1 P2].
  rewrite <- En, <- Ep in P1, P2. rewrite Ed. unfold taker_levels in *.
  destruct (rq_side r); simpl in *; subst;
    (split; [assumption|]); apply dmul_nonneg; [|lra| |lra]; apply (rounded_nonneg (dsub_rounded _ _));
    unfold best_ask, best_bid in *; lra.
Qed.

(** ** Sample book *)

Definition sample_book : BookSnapshot := {|
  bk_event_id := "book-1"; bk_symbol := "BTCUSDT"; bk_venue_event_at := utc 2000000;
  bk_observed_at := utc 2100000; bk_sequence := 7;
  bk_bids := [{| lv_price := dint 99; lv_quantity := dint 2 |}; {| lv_price := dint 98; lv_quantity := dint 5 |}];
  bk_asks := [{| lv_price := dint 100; lv_quantity := dint 1 |}; {| lv_price := dint 101; lv_quantity := dint 2 |};
              {| lv_price := dint 105; lv_quantity := dint 10 |}];
  bk_mark_price := mkdec 995 (-1) |}.

Definition sample_request : MarketFillRequest := {|
  rq_symbol := "BTCUSDT"; rq_side := BUY; rq_quantity := dint 3; rq_eligible_after := utc 2000000;
  rq_decision_executable_price := dint 100; rq_taker_fee_rate := mkdec 5 (-4) |}.

Lemma sample_book_valid : valid_book sample_book.
Proof. repeat split; repeat constructor; vm_compute; reflexivity. Qed.

Lemma grid_int n : grid 0 (dval (dint n)).
Proof. exists n. reflexivity. Qed.

Lemma sample_tradable : tradable 0 0 (taker_levels BUY sample_book).
Proof.
  split; try (vm_compute; reflexivity); simpl; repeat (apply List.Forall_cons; [|]); try apply List.Forall_nil;
    try apply grid_int; split; vm_compute; reflexivity.
Qed.

Lemma fill_complete_witness :
  exists f, fill (seconds 2) sample_request [sample_book] = Ok f /\ fl_book f = sample_book /\
    best_first (taker_levels BUY sample_book) (fl_slices f) /\
    (slice_total (fl_slices f) == dval (dint 3))%Q /\
    (dval (fl_notional f) == slice_value (fl_slices f))%Q.
Proof.
  apply (fill_complete (seconds 2) sample_request [sample_book] sample_book 0 0).
  - vm_compute; reflexivity.
  - apply sample_book_valid.
  - vm_compute; reflexivity.
  - vm_compute; discriminate.
  - apply sample_tradable.
  - apply grid_int.
  - vm_compute; discriminate.
Defined.

Definition sample_fill : PaperFill :=
  match fill (seconds 2) sample_request [sample_book] with
  | Ok f => f
  | Raise _ => {| fl_market_event_id := ""; fl_symbol := ""; fl_side := BUY; fl_fill_at := utc 0;
      fl_quantity := dzero; fl_price := dzero; fl_notional := dzero; fl_slices := []; fl_liquidity_role := "";
      fl_fee := dzero; fl_spread_cost := dzero; fl_depth_slippage := dzero; fl_latency_slippage := dzero;
      fl_total_slippage := dzero; fl_book := sample_book |}
  end.

Lemma fill_causal_witness :
  fill (seconds 2) sample_request [sample_book] = Ok sample_fill /\
  (instant (rq_eligible_after sample_request) < instant (fl_fill_at sample_fill)).
Proof.
  split; [vm_compute; reflexivity|].
  apply (fill_causal (seconds 2) sample_request [sample_book] sample_fill). vm_compute; reflexivity.
Defined.

Lemma fill_no_better_than_touch_witness :
  (dval (best_ask (fl_book sample_fill)) <= dval (fl_price sample_fill))%Q /\
  (0 <= dval (fl_depth_slippage sample_fill))%Q.
Proof.
  apply (fill_no_better_than_touch (seconds 2) sample_request [sample_book] sample_fill 0 0).
  - vm_compute; reflexivity.
  - vm_compute; reflexivity.
  - apply sample_book_valid.
  - apply sample_tradable.
  - apply grid_int.
  - vm_compute; reflexivity.
Defined.
