(* ===== verification/Orders.v ===== *)
(** * Paper orders: [maais/execution/paper/orders.py]

    The limit-order queue simulation ([advance_limit_queue]) and the order
    state machine with its append-only event log ([PaperOrder]). *)

From Stdlib Require Import ZArith QArith Qabs Qminmax Lia Lqa List Bool String Morphisms.
From stdpp Require Import base decidable list strings.
From S2P Require Import Prelude PyDecimal DecimalTheory Domain Json Market.

Local Open Scope Z_scope.

Definition TERMINAL_ORDER_STATUSES : list PaperOrderStatus := [FILLED; CANCELED; REJECTED; EXPIRED].

Definition is_terminal (s : PaperOrderStatus) : bool := bool_decide (s ∈ TERMINAL_ORDER_STATUSES).

(** ** Limit-order queue *)

Record LimitFill : Type := {
  lf_market_event_id : string;
  lf_fill_at : datetime;
  lf_quantity : dec;
  lf_price : dec;
  lf_fee : dec
}.

Record LimitQueueState : Type := {
  lq_order_id : UUID;
  lq_symbol : string;
  lq_side : PaperOrderSide;
  lq_limit_price : dec;
  lq_requested_quantity : dec;
  lq_filled_quantity : dec;
  lq_queue_ahead : dec;
  lq_eligible_after : datetime;
  lq_expires_at : datetime;
  lq_maker_fee_rate : dec;
  lq_status : PaperOrderStatus;
  lq_last_sequence : Z
}.

Definition lq_remaining_quantity (s : LimitQueueState) : dec :=
  (lq_requested_quantity s - lq_filled_quantity s)%dec.

(** [dataclasses.replace] on the fields a trade can change. *)
Definition lq_replace (s : LimitQueueState) (filled queue : dec) (st : PaperOrderStatus) (seq : Z)
  : LimitQueueState := {|
  lq_order_id := lq_order_id s; lq_symbol := lq_symbol s; lq_side := lq_side s;
  lq_limit_price := lq_limit_price s; lq_requested_quantity := lq_requested_quantity s;
  lq_filled_quantity := filled; lq_queue_ahead := queue; lq_eligible_after := lq_eligible_after s;
  lq_expires_at := lq_expires_at s; lq_maker_fee_rate := lq_maker_fee_rate s;
  lq_status := st; lq_last_sequence := seq |}.

Definition from_book (order_id : UUID) (side : PaperOrderSide) (limit_price quantity : dec)
    (eligible_after expires_at : datetime) (maker_fee_rate : dec) (book : BookSnapshot)
  : result LimitQueueState :=
  do* require_positive_decimal limit_price "limit_price" ;;
  do* require_positive_decimal quantity "quantity" ;;
  do* require_utc eligible_after "eligible_after" ;;
  do* require_utc expires_at "expires_at" ;;
  do* raise_if (dt_leb expires_at eligible_after) (ValueError "expires_at must follow eligible_after") ;;
  do* raise_if ((maker_fee_rate <? dzero)%dec || (maker_fee_rate >? done)%dec)
        (ValueError "maker_fee_rate must be a finite Decimal in [0, 1]") ;;
  let resting_levels := if bool_decide (side = BUY) then bk_bids book else bk_asks book in
  let queue_ahead :=
    match List.find (fun l => (lv_price l =? limit_price)%dec) resting_levels with
    | Some l => lv_quantity l
    | None => dzero
    end in
  Ok {| lq_order_id := order_id; lq_symbol := bk_symbol book; lq_side := side;
        lq_limit_price := limit_price; lq_requested_quantity := quantity;
        lq_filled_quantity := dzero; lq_queue_ahead := queue_ahead;
        lq_eligible_after := eligible_after; lq_expires_at := expires_at;
        lq_maker_fee_rate := maker_fee_rate; lq_status := ACCEPTED;
        lq_last_sequence := bk_sequence book |}.

(** A trade that goes through the limit price. *)
Definition qualifies (s : LimitQueueState) (t : TradePrint) : bool :=
  (bool_decide (lq_side s = BUY) && bool_decide (tp_aggressor_side t = "sell") &&
   (tp_price t <? lq_limit_price s)%dec) ||
  (bool_decide (lq_side s = SELL) && bool_decide (tp_aggressor_side t = "buy") &&
   (tp_price t >? lq_limit_price s)%dec).

(** The queue ahead and the trade volume left after the trade consumed it. *)
Definition consume_queue (queue_ahead trade_quantity : dec) : dec * dec :=
  if (dzero <? queue_ahead)%dec then
    let consumed := dmin queue_ahead trade_quantity in
    ((queue_ahead - consumed)%dec, (trade_quantity - consumed)%dec)
  else (queue_ahead, trade_quantity).

Definition participation : dec := mkdec 10 (-2).

Definition advance_limit_queue (s : LimitQueueState) (t : TradePrint)
  : LimitQueueState * list LimitFill :=
  if is_terminal (lq_status s) then (s, [])
  else if negb (bool_decide (tp_symbol t = lq_symbol s)) then (s, [])
  else if dt_leb (lq_expires_at s) (tp_observed_at t) then
    (lq_replace s (lq_filled_quantity s) (lq_queue_ahead s) EXPIRED (tp_sequence t), [])
  else if dt_leb (tp_observed_at t) (lq_eligible_after s) || (tp_sequence t <=? lq_last_sequence s) then
    (s, [])
  else if negb (qualifies s t) then
    (lq_replace s (lq_filled_quantity s) (lq_queue_ahead s) (lq_status s) (tp_sequence t), [])
  else
    let '(queue_ahead, trade_remaining) := consume_queue (lq_queue_ahead s) (tp_quantity t) in
    let fill_quantity := dmin (lq_remaining_quantity s) (trade_remaining * participation)%dec in
    if (fill_quantity <=? dzero)%dec then
      (lq_replace s (lq_filled_quantity s) queue_ahead (lq_status s) (tp_sequence t), [])
    else
      let cumulative := (lq_filled_quantity s + fill_quantity)%dec in
      let status := if (cumulative =? lq_requested_quantity s)%dec then FILLED else PARTIALLY_FILLED in
      (lq_replace s cumulative queue_ahead status (tp_sequence t),
       [{| lf_market_event_id := tp_event_id t; lf_fill_at := tp_observed_at t;
           lf_quantity := fill_quantity; lf_price := tp_price t;
           lf_fee := (fill_quantity * tp_price t * lq_maker_fee_rate s)%dec |}]).

(** The queue over a sequence of trades. *)
Fixpoint run_queue (s : LimitQueueState) (trades : list TradePrint) : LimitQueueState * list LimitFill :=
  match trades with
  | [] => (s, [])
  | t :: trades' =>
      let '(s', fills) := advance_limit_queue s t in
      let '(s'', fills') := run_queue s' trades' in
      (s'', fills ++ fills')
  end.

(** ** The order state machine *)

Record OrderTransition : Type := {
  ot_sequence : Z;
  ot_event_type : string;
  ot_event_at : datetime;
  ot_payload : json
}.

Record PaperOrder : Type := {
  po_order_id : UUID;
  po_experiment_id : UUID;
  po_proposal_id : UUID;
  po_client_order_id : string;
  po_command_hash : string;
  po_symbol : string;
  po_side : PaperOrderSide;
  po_order_type : PaperOrderType;
  po_position_effect : PositionEffect;
  po_quantity : dec;
  po_filled_quantity : dec;
  po_limit_price : option dec;
  po_reduce_only : bool;
  po_status : PaperOrderStatus;
  po_created_at : datetime;
  po_expires_at : datetime;
  po_version : Z;
  po_events : list OrderTransition
}.

Definition po_remaining_quantity (o : PaperOrder) : dec := (po_quantity o - po_filled_quantity o)%dec.

Definition po_replace (o : PaperOrder) (filled : dec) (st : PaperOrderStatus) (version : Z)
    (events : list OrderTransition) : PaperOrder := {|
  po_order_id := po_order_id o; po_experiment_id := po_experiment_id o;
  po_proposal_id := po_proposal_id o; po_client_order_id := po_client_order_id o;
  po_command_hash := po_command_hash o; po_symbol := po_symbol o; po_side := po_side o;
  po_order_type := po_order_type o; po_position_effect := po_position_effect o;
  po_quantity := po_quantity o; po_filled_quantity := filled; po_limit_price := po_limit_price o;
  po_reduce_only := po_reduce_only o; po_status := st; po_created_at := po_created_at o;
  po_expires_at := po_expires_at o; po_version := version; po_events := events |}.

Definition order_create (order_id experiment_id proposal_id : UUID) (client_order_id command_hash symbol : string)
    (side : PaperOrderSide) (order_type : PaperOrderType) (position_effect : PositionEffect)
    (quantity : dec) (limit_price : option dec) (reduce_only : bool) (open_quantity : dec)
    (created_at expires_at : datetime) : result PaperOrder :=
  do* raise_if (bool_decide (client_order_id = "") || bool_decide (symbol = ""))
        (ValueError "client_order_id and symbol are required") ;;
  do* raise_if (negb (bool_decide (String.length command_hash = 64%nat)))
        (ValueError "command_hash must be a SHA-256 hex digest") ;;
  do* require_positive_decimal quantity "quantity" ;;
  do* require_utc created_at "created_at" ;;
  do* require_utc expires_at "expires_at" ;;
  do* raise_if (dt_leb expires_at created_at) (ValueError "expires_at must follow created_at") ;;
  do* (if bool_decide (order_type = LIMIT) then
         let* p := of_option (ValueError "limit orders require limit_price") limit_price in
         require_positive_decimal p "limit_price"
       else raise_if (match limit_price with Some _ => true | None => false end)
              (ValueError "non-limit orders cannot have limit_price")) ;;
  do* (if bool_decide (position_effect = REDUCE) then
         do* raise_if (negb reduce_only) (ValueError "reduce position effect requires reduce_only") ;;
         raise_if (quantity >? open_quantity)%dec (ValueError "reduce-only quantity exceeds open quantity")
       else raise_if reduce_only (ValueError "open position effect cannot be reduce_only")) ;;
  let* payload := freeze_json (PDict
    [("client_order_id", PStr client_order_id); ("command_hash", PStr command_hash);
     ("symbol", PStr symbol); ("side", PEnum (enum_value side)); ("order_type", PEnum (enum_value order_type));
     ("position_effect", PEnum (enum_value position_effect)); ("quantity", PDec quantity);
     ("limit_price", match limit_price with Some p => PDec p | None => PNone end);
     ("reduce_only", PBool reduce_only)]) in
  Ok {| po_order_id := order_id; po_experiment_id := experiment_id; po_proposal_id := proposal_id;
        po_client_order_id := client_order_id; po_command_hash := command_hash; po_symbol := symbol;
        po_side := side; po_order_type := order_type; po_position_effect := position_effect;
        po_quantity := quantity; po_filled_quantity := dzero; po_limit_price := limit_price;
        po_reduce_only := reduce_only; po_status := CREATED; po_created_at := created_at;
        po_expires_at := expires_at; po_version := 1;
        po_events := [{| ot_sequence := 1; ot_event_type := "order.created"; ot_event_at := created_at;
                         ot_payload := payload |}] |}.

(** [_transition]; the default payload is the empty tuple. *)
Definition _transition (o : PaperOrder) (status : PaperOrderStatus) (event_type : string)
    (event_at : datetime) (payload : pyval) : result PaperOrder :=
  do* require_utc event_at "event_at" ;;
  do* raise_if (is_terminal (po_status o))
        (IllegalOrderTransition ("order is terminal in " +:+ enum_value (po_status o))) ;;
  let* frozen := freeze_json payload in
  let frozen := match frozen with JObj _ => frozen | _ => JObj [("value", frozen)] end in
  Ok (po_replace o (po_filled_quantity o) status (po_version o + 1)
        (po_events o ++ [{| ot_sequence := po_version o + 1; ot_event_type := event_type;
                            ot_event_at := event_at; ot_payload := frozen |}])).

Definition authorize (o : PaperOrder) (event_at : datetime) : result PaperOrder :=
  do* raise_if (negb (bool_decide (po_status o = CREATED)))
        (IllegalOrderTransition "only created orders can be authorized") ;;
  _transition o AUTHORIZED "order.authorized" event_at (PSeq []).

Definition accept (o : PaperOrder) (event_at : datetime) : result PaperOrder :=
  do* raise_if (negb (bool_decide (po_status o = AUTHORIZED)))
        (IllegalOrderTransition "only authorized orders can be accepted") ;;
  _transition o ACCEPTED "order.accepted" event_at (PSeq []).

Definition order_apply_fill (o : PaperOrder) (quantity : dec) (event_at : datetime) : result PaperOrder :=
  do* raise_if (negb (bool_decide (po_status o ∈ [ACCEPTED; PARTIALLY_FILLED])))
        (IllegalOrderTransition "order cannot fill from current status") ;;
  do* require_positive_decimal quantity "fill quantity" ;;
  do* raise_if (quantity >? po_remaining_quantity o)%dec
        (ValueError "fill quantity exceeds remaining quantity") ;;
  let next_filled := (po_filled_quantity o + quantity)%dec in
  let next_status := if (next_filled =? po_quantity o)%dec then FILLED else PARTIALLY_FILLED in
  let* transitioned :=
    _transition o next_status
      (if bool_decide (next_status = FILLED) then "order.filled" else "order.partially_filled")
      event_at (PDict [("quantity", PDec quantity); ("cumulative_quantity", PDec next_filled)]) in
  Ok (po_replace transitioned next_filled (po_status transitioned) (po_version transitioned)
        (po_events transitioned)).

Definition cancel (o : PaperOrder) (event_at : datetime) : result PaperOrder :=
  _transition o CANCELED "order.canceled" event_at (PSeq []).

Definition expire (o : PaperOrder) (event_at : datetime) : result PaperOrder :=
  _transition o EXPIRED "order.expired" event_at (PSeq []).

Definition reject (o : PaperOrder) (event_at : datetime) (reason : string) : result PaperOrder :=
  do* raise_if (bool_decide (reason = "")) (ValueError "rejection reason is required") ;;
  _transition o REJECTED "order.rejected" event_at (PDict [("reason", PStr reason)]).

(** The operations of an order, and a run of several of them. *)
Inductive order_op : Type :=
| OpAuthorize (at_ : datetime)
| OpAccept (at_ : datetime)
| OpFill (quantity : dec) (at_ : datetime)
| OpCancel (at_ : datetime)
| OpExpire (at_ : datetime)
| OpReject (at_ : datetime) (reason : string).

Definition order_run1 (o : PaperOrder) (op : order_op) : result PaperOrder :=
  match op with
  | OpAuthorize t => authorize o t
  | OpAccept t => accept o t
  | OpFill q t => order_apply_fill o q t
  | OpCancel t => cancel o t
  | OpExpire t => expire o t
  | OpReject t r => reject o t r
  end.

Fixpoint order_run (o : PaperOrder) (ops : list order_op) : result PaperOrder :=
  match ops with
  | [] => Ok o
  | op :: ops' => let* o' := order_run1 o op in order_run o' ops'
  end.

(** ** Order invariant *)

Definition event_types (o : PaperOrder) : list string := map ot_event_type (po_events o).

(** The part of the log that the status implies. *)
Definition audit_ok (o : PaperOrder) : Prop :=
  match po_status o with
  | CREATED => event_types o = ["order.created"]
  | AUTHORIZED => event_types o = ["order.created"; "order.authorized"]
  | ACCEPTED => event_types o = ["order.created"; "order.authorized"; "order.accepted"]
  | PARTIALLY_FILLED | FILLED =>
      exists rest, event_types o = "order.created" :: "order.authorized" :: "order.accepted" :: rest
  | _ => True
  end.

(** Quantities are multiples of [10^g] within 28 digits. *)
Record order_wf (g : Z) (o : PaperOrder) : Prop := {
  wf_quantity : grid g (dval (po_quantity o)) /\
                (0 < dval (po_quantity o) /\ dval (po_quantity o) < grid_max g)%Q;
  wf_filled : grid g (dval (po_filled_quantity o)) /\
              (0 <= dval (po_filled_quantity o) /\ dval (po_filled_quantity o) <= dval (po_quantity o))%Q;
  wf_done : po_status o = FILLED <-> (dval (po_filled_quantity o) == dval (po_quantity o))%Q;
  wf_untouched : po_status o ∈ [CREATED; AUTHORIZED; ACCEPTED] -> (dval (po_filled_quantity o) == 0)%Q;
  wf_version : po_version o = Z.of_nat (length (po_events o));
  wf_sequence : map ot_sequence (po_events o) = map Z.of_nat (seq 1 (length (po_events o)));
  wf_audit : audit_ok o
}.

Lemma is_terminal_false s : is_terminal s = false <-> s ∈ [CREATED; AUTHORIZED; ACCEPTED; PARTIALLY_FILLED].
Proof.
  unfold is_terminal, TERMINAL_ORDER_STATUSES. rewrite bool_decide_eq_false.
  destruct s; rewrite !elem_of_cons, elem_of_nil; intuition congruence.
Qed.

Lemma _transition_inv o st ty t p o' :
  _transition o st ty t p = Ok o' ->
  is_utc t = true /\ is_terminal (po_status o) = false /\
  exists j, o' = po_replace o (po_filled_quantity o) st (po_version o + 1)
                   (po_events o ++ [{| ot_sequence := po_version o + 1; ot_event_type := ty;
                                       ot_event_at := t; ot_payload := j |}]).
Proof.
  unfold _transition. intros H. py_inv. apply require_utc_Ok in H0.
  split; [assumption|]. split; [assumption|]. eexists; reflexivity.
Qed.

(** Appending a transition event keeps the log contiguous. *)
Lemma log_extend (events : list OrderTransition) ev :
  map ot_sequence events = map Z.of_nat (seq 1 (length events)) ->
  ot_sequence ev = Z.of_nat (length events) + 1 ->
  map ot_sequence (events ++ [ev]) = map Z.of_nat (seq 1 (length (events ++ [ev]))).
Proof.
  intros H E. rewrite length_app, Nat.add_1_r, seq_S, List.map_app, H, List.map_app. f_equal.
  simpl. rewrite E. f_equal. lia.
Qed.

Lemma transition_log g o filled st ty t j :
  order_wf g o ->
  let o' := po_replace o filled st (po_version o + 1)
    (po_events o ++ [{| ot_sequence := po_version o + 1; ot_event_type := ty; ot_event_at := t; ot_payload := j |}]) in
  po_version o' = Z.of_nat (length (po_events o')) /\
  map ot_sequence (po_events o') = map Z.of_nat (seq 1 (length (po_events o'))) /\
  event_types o' = event_types o ++ [ty].
Proof.
  intros W. cbn [po_replace po_version po_events]. pose proof (wf_version _ _ W) as Hv.
  split; [rewrite length_app; simpl; lia|]. split.
  - apply log_extend; [apply (wf_sequence _ _ W) | simpl; lia].
  - unfold event_types; cbn [po_replace po_events]. now rewrite List.map_app.
Qed.

(** A transition that does not touch the filled quantity. *)
Lemma wf_plain_transition g o st ty t p o' :
  order_wf g o -> _transition o st ty t p = Ok o' ->
  st <> FILLED -> (st ∈ [CREATED; AUTHORIZED; ACCEPTED] -> (dval (po_filled_quantity o) == 0)%Q) ->
  (forall o', po_status o' = st -> event_types o' = event_types o ++ [ty] -> audit_ok o') ->
  order_wf g o'.
Proof.
  intros W H Hst Hun Ha. apply _transition_inv in H as (_ & Hnt & j & ->).
  destruct (transition_log g o (po_filled_quantity o) st ty t j W) as (Hv & Hs & Ht).
  assert (Hne : po_status o <> FILLED) by (intros E; rewrite E in Hnt; discriminate).
  split; [exact (wf_quantity _ _ W) | exact (wf_filled _ _ W) | | exact Hun | exact Hv | exact Hs |].
  - pose proof (wf_done _ _ W) as Hd. cbn [po_replace po_status po_filled_quantity po_quantity].
    split; intros E; [contradiction|]. now apply Hd in E.
  - apply Ha; [reflexivity | exact Ht].
Qed.

Lemma wf_authorize g o t o' : order_wf g o -> authorize o t = Ok o' -> order_wf g o'.
Proof.
  unfold authorize. intros W H. py_inv. bool_prop. eapply wf_plain_transition; eauto; try discriminate.
  - intros _. apply (wf_untouched _ _ W). rewrite H0. in_list.
  - intros x Hx Ht. unfold audit_ok. rewrite Hx, Ht.
    pose proof (wf_audit _ _ W) as Ha. unfold audit_ok in Ha. rewrite H0 in Ha. now rewrite Ha.
Qed.

Lemma wf_accept g o t o' : order_wf g o -> accept o t = Ok o' -> order_wf g o'.
Proof.
  unfold accept. intros W H. py_inv. bool_prop. eapply wf_plain_transition; eauto; try discriminate.
  - intros _. apply (wf_untouched _ _ W). rewrite H0. in_list.
  - intros x Hx Ht. unfold audit_ok. rewrite Hx, Ht.
    pose proof (wf_audit _ _ W) as Ha. unfold audit_ok in Ha. rewrite H0 in Ha. now rewrite Ha.
Qed.

Lemma wf_close g o st ty t p o' :
  order_wf g o -> st ∈ [CANCELED; REJECTED; EXPIRED] -> _transition o st ty t p = Ok o' -> order_wf g o'.
Proof.
  intros W Hst H. eapply wf_plain_transition; eauto.
  - intros ->. in_list.
  - intros Hin. exfalso. in_list.
  - intros x Hx Ht. unfold audit_ok. rewrite Hx.
    rewrite !elem_of_cons, elem_of_nil in Hst. destruct Hst as [->|[->|[->|[]]]]; exact I.
Qed.

Lemma wf_fill g o q t o' :
  order_wf g o -> grid g (dval q) -> order_apply_fill o q t = Ok o' -> order_wf g o'.
Proof.
  unfold order_apply_fill. intros W Gq H. py_inv. bool_prop. dec_prop.
  apply require_positive_Ok in H1. destruct (wf_quantity _ _ W) as [GQ [HQ0 HQ]].
  destruct (wf_filled _ _ W) as [GF [HF0 HF]].
  assert (Er : (dval (po_remaining_quantity o) == dval (po_quantity o) - dval (po_filled_quantity o))%Q).
  { apply dsub_exact, (fits_grid_nonneg g); [now apply grid_sub | lra | lra]. }
  assert (En : (dval (po_filled_quantity o + q)%dec == dval (po_filled_quantity o) + dval q)%Q).
  { apply dadd_exact, (fits_grid_nonneg g); [now apply grid_add | lra | lra]. }
  apply _transition_inv in H3 as (_ & _ & j & ->).
  set (nf := (po_filled_quantity o + q)%dec) in *.
  destruct (transition_log g o nf (if (nf =? po_quantity o)%dec then FILLED else PARTIALLY_FILLED)
    (if bool_decide ((if (nf =? po_quantity o)%dec then FILLED else PARTIALLY_FILLED) = FILLED)
     then "order.filled" else "order.partially_filled") t j W) as (Hv & Hs & Ht).
  split.
  - exact (wf_quantity _ _ W).
  - cbn [po_replace po_filled_quantity po_quantity]. rewrite En. split; [now apply grid_add | lra].
  - cbn [po_replace po_status po_filled_quantity po_quantity].
    destruct (nf =? po_quantity o)%dec eqn:E; dec_prop; split; intros; try discriminate; auto; contradiction.
  - cbn [po_replace po_status]. destruct (nf =? po_quantity o)%dec; in_list.
  - exact Hv.
  - exact Hs.
  - unfold audit_ok. cbn [po_replace po_status]. change (event_types _) with
      (event_types (po_replace o nf (if (nf =? po_quantity o)%dec then FILLED else PARTIALLY_FILLED)
        (po_version o + 1) (po_events o ++ [{| ot_sequence := po_version o + 1;
          ot_event_type := if bool_decide ((if (nf =? po_quantity o)%dec then FILLED else PARTIALLY_FILLED) = FILLED)
                           then "order.filled" else "order.partially_filled";
          ot_event_at := t; ot_payload := j |}]))).
    assert (Hrest : exists rest, event_types o = "order.created" :: "order.authorized" :: "order.accepted" :: rest).
    { pose proof (wf_audit _ _ W) as Ha. unfold audit_ok in Ha.
      rewrite !elem_of_cons, elem_of_nil in H0. destruct H0 as [E|[E|[]]]; rewrite E in Ha; [|exact Ha].
      exists []. exact Ha. }
    destruct Hrest as (rest & Hrest). rewrite Ht, Hrest. cbn [app].
    destruct (nf =? po_quantity o)%dec; eexists; reflexivity.
Qed.

Definition op_on_grid (g : Z) (op : order_op) : Prop :=
  match op with OpFill q _ => grid g (dval q) | _ => True end.

Lemma wf_run1 g o op o' : order_wf g o -> op_on_grid g op -> order_run1 o op = Ok o' -> order_wf g o'.
Proof.
  intros W G H. destruct op; simpl in *.
  - eapply wf_authorize; eauto.
  - eapply wf_accept; eauto.
  - eapply wf_fill; eauto.
  - eapply wf_close; [exact W | | exact H]; in_list.
  - eapply wf_close; [exact W | | exact H]; in_list.
  - unfold reject in H. py_inv. eapply wf_close; [exact W | | exact H]; in_list.
Qed.

Lemma wf_run g ops o o' :
  order_wf g o -> Forall (op_on_grid g) ops -> order_run o ops = Ok o' -> order_wf g o'.
Proof.
  intros W G; revert o W; induction G as [|op ops Hop G IH]; intros o W H; simpl in H; py_inv; [exact W|].
  eapply IH; [|exact H]. eapply wf_run1; eauto.
Qed.

Lemma order_create_wf g oid eid pid cid ch sym side oty pe q lp ro oq c e o :
  order_create oid eid pid cid ch sym side oty pe q lp ro oq c e = Ok o ->
  grid g (dval q) -> (dval q < grid_max g)%Q -> order_wf g o.
Proof.
  unfold order_create. intros H Gq Hq.
  repeat (apply bind_Ok in H; destruct H as (? & ? & H)); injection H as <-.
  apply require_positive_Ok in H2. split; cbn.
  - auto.
  - rewrite dval_zero. split; [apply grid_0 | lra].
  - rewrite dval_zero. split; [discriminate | intros E; lra].
  - reflexivity.
  - reflexivity.
  - reflexivity.
  - reflexivity.
Qed.

(** What a run must leave behind, read off its operations alone: the quantity
    they fill and the trail of event types, where [q] is the ordered quantity
    and [filled] what was filled before. *)
Definition op_fill (op : order_op) : Q := match op with OpFill q _ => dval q | _ => 0 end.
Definition filled_by (ops : list order_op) : Q := qsum (map op_fill ops).

Definition op_event (q filled : Q) (op : order_op) : string :=
  match op with
  | OpAuthorize _ => "order.authorized"
  | OpAccept _ => "order.accepted"
  | OpFill x _ => if Qeq_bool (filled + dval x) q then "order.filled" else "order.partially_filled"
  | OpCancel _ => "order.canceled"
  | OpExpire _ => "order.expired"
  | OpReject _ _ => "order.rejected"
  end.

Fixpoint trail (q filled : Q) (ops : list order_op) : list string :=
  match ops with
  | [] => []
  | op :: ops' => op_event q filled op :: trail q (filled + op_fill op) ops'
  end.

#[export] Instance op_event_Proper : Proper (Qeq ==> Qeq ==> eq ==> eq) op_event.
Proof. intros q q' Eq f f' Ef op ? <-. destruct op; cbn; try reflexivity. now rewrite Eq, Ef. Qed.

Lemma trail_Proper q f f' ops : (f == f')%Q -> trail q f ops = trail q f' ops.
Proof.
  revert f f'; induction ops as [|op ops IH]; intros f f' E; cbn; [reflexivity|].
  f_equal; [now rewrite E | apply IH; now rewrite E].
Qed.

Lemma deqb_Qeq x y : (x =? y)%dec = Qeq_bool (dval x) (dval y).
Proof. apply eq_true_iff_eq. now rewrite deqb_eq, Qeq_bool_iff. Qed.

(** One operation adds its quantity and its one event, and keeps the terms. *)
Lemma run1_accounts g o op o' : order_wf g o -> op_on_grid g op -> order_run1 o op = Ok o' ->
  (dval (po_filled_quantity o') == dval (po_filled_quantity o) + op_fill op)%Q /\
  po_quantity o' = po_quantity o /\
  event_types o' = event_types o ++ [op_event (dval (po_quantity o)) (dval (po_filled_quantity o)) op].
Proof.
  intros W G H. destruct op; cbn [order_run1 op_fill op_event op_on_grid] in *;
    unfold authorize, accept, cancel, expire, reject in H; try solve [py_inv;
      match goal with H : _transition _ _ _ _ _ = Ok _ |- _ => apply _transition_inv in H as (_ & _ & j & ->) end;
      split; [cbn; ring | split; [reflexivity | unfold event_types; cbn; now rewrite List.map_app]]].
  unfold order_apply_fill in H. py_inv. bool_prop. dec_prop.
  match goal with H : require_positive_decimal _ _ = Ok _ |- _ => apply require_positive_Ok in H end.
  destruct (wf_quantity _ _ W) as [GQ [HQ0 HQ]]. destruct (wf_filled _ _ W) as [GF [HF0 HF]].
  assert (Er : (dval (po_remaining_quantity o) == dval (po_quantity o) - dval (po_filled_quantity o))%Q).
  { apply dsub_exact, (fits_grid_nonneg g); [now apply grid_sub | lra | lra]. }
  assert (En : (dval (po_filled_quantity o + quantity)%dec == dval (po_filled_quantity o) + dval quantity)%Q).
  { apply dadd_exact, (fits_grid_nonneg g); [now apply grid_add | lra | lra]. }
  match goal with H : _transition _ _ _ _ _ = Ok _ |- _ => apply _transition_inv in H as (_ & _ & j & ->) end.
  split; [exact En|split; [reflexivity|]]. unfold event_types; cbn [po_replace po_events]. rewrite List.map_app. cbn [map ot_event_type].
  do 2 f_equal. rewrite <- En, <- deqb_Qeq. destruct (_ =? _)%dec; reflexivity.
Qed.

Lemma run_accounts g ops : forall o o', order_wf g o -> Forall (op_on_grid g) ops -> order_run o ops = Ok o' ->
  (dval (po_filled_quantity o') == dval (po_filled_quantity o) + filled_by ops)%Q /\
  po_quantity o' = po_quantity o /\
  event_types o' = event_types o ++ trail (dval (po_quantity o)) (dval (po_filled_quantity o)) ops.
Proof.
  induction ops as [|op ops IH]; intros o o' W G H; cbn [order_run] in H.
  - injection H as <-. split; [unfold filled_by; cbn; ring | split; [reflexivity | now rewrite app_nil_r]].
  - inversion G as [|? ? G1 G2]; subst. apply bind_Ok in H as (o1 & H1 & H).
    destruct (run1_accounts g o op o1 W G1 H1) as (F1 & Q1 & T1).
    destruct (IH o1 o' (wf_run1 g o op o1 W G1 H1) G2 H) as (F2 & Q2 & T2).
    split; [unfold filled_by in *; cbn [map qsum]; rewrite F2, F1; ring|]. split; [congruence|].
    rewrite T2, T1, Q1, <- app_assoc. cbn [app trail]. do 2 f_equal. now apply trail_Proper.
Qed.

(** C34: The order state machine.  Along every run of operations from a created
    order (quantities on a decimal grid), the filled quantity is the sum of the
    fills of the run, between zero and the ordered quantity; the order is FILLED
    exactly when they are equal; the event log is numbered 1..version without
    gaps, holds the creation and then exactly one event per operation, a fill
    event being final exactly when it completes the order; and an order with any
    fill was created, authorised and accepted, in that order. *)
Theorem order_lifecycle g oid eid pid cid ch sym side oty pe q lp ro oq c e o ops o' :
  order_create oid eid pid cid ch sym side oty pe q lp ro oq c e = Ok o ->
  grid g (dval q) -> (dval q < grid_max g)%Q ->
  Forall (op_on_grid g) ops -> order_run o ops = Ok o' ->
  order_wf g o' /\ po_quantity o' = q /\ (dval (po_filled_quantity o') == filled_by ops)%Q /\
  (dval (po_remaining_quantity o') == dval q - filled_by ops)%Q /\
  event_types o' = "order.created" :: trail (dval q) 0 ops.
Proof.
  intros H Gq Hq Hops Hrun. pose proof (order_create_wf _ _ _ _ _ _ _ _ _ _ _ _ _ _ _ _ _ H Gq Hq) as W.
  pose proof (wf_run g ops o o' W Hops Hrun) as W'. destruct (run_accounts g ops o o' W Hops Hrun) as (F & Eq & T).
  assert (E : po_quantity o = q /\ po_filled_quantity o = dzero /\ event_types o = ["order.created"]).
  { unfold order_create in H. repeat (apply bind_Ok in H; destruct H as (? & ? & H)); injection H as <-. auto. }
  destruct E as (E1 & E2 & E3). rewrite E1, E2 in *. rewrite dval_zero, Qplus_0_l in F.
  split; [exact W'|split; [congruence|split; [exact F|split]]].
  - destruct (wf_quantity _ _ W') as [GQ [HQ0 HQ]]. destruct (wf_filled _ _ W') as [GF [HF0 HF]].
    rewrite <- F, <- Eq. apply dsub_exact, (fits_grid_nonneg g); [now apply grid_sub | lra | lra].
  - rewrite T, E3. reflexivity.
Qed.

Definition sample_hash : string := string_of_list_ascii (repeat (Ascii.ascii_of_nat 97) 64).

Definition sample_create : result PaperOrder :=
  order_create 1 2 3 "c-1" sample_hash "BTCUSDT" BUY MARKET OPEN (dint 3) None false dzero (utc 1) (utc 9).

Definition sample_ops : list order_op :=
  [OpAuthorize (utc 1); OpAccept (utc 1); OpFill (dint 1) (utc 2); OpFill (dint 2) (utc 3)].

Lemma order_lifecycle_witness :
  exists o o', sample_create = Ok o /\ order_run o sample_ops = Ok o' /\
    po_status o' = FILLED /\ order_wf 0 o'.
Proof.
  destruct sample_create as [o|ex] eqn:E; [|discriminate].
  destruct (order_run o sample_ops) as [o'|ex] eqn:E'.
  - exists o, o'. split; [reflexivity|]. split; [exact E'|].
    split; [vm_compute in E; injection E as <-; vm_compute in E'; injection E' as <-; reflexivity|].
    unfold sample_create in E. eapply (order_lifecycle 0); [exact E | exists 3; reflexivity | vm_compute; reflexivity | | exact E'].
    repeat constructor; [exists 1 | exists 2]; reflexivity.
  - exfalso. vm_compute in E. injection E as <-. vm_compute in E'. discriminate.
Defined.

(** A terminal order is final: no operation succeeds on an order that is
    filled, canceled, rejected or expired. *)
Theorem terminal_order_final o op :
  is_terminal (po_status o) = true -> is_ok (order_run1 o op) = false.
Proof.
  intros Ht. destruct (order_run1 o op) as [o'|ex] eqn:E; [exfalso|reflexivity].
  destruct op; simpl in E; unfold authorize, accept, order_apply_fill, cancel, expire, reject in E;
    py_inv; bool_prop.
  - rewrite H in Ht. discriminate.
  - rewrite H in Ht. discriminate.
  - apply bool_decide_eq_true in Ht. unfold TERMINAL_ORDER_STATUSES in Ht. in_list.
  - apply _transition_inv in E as (_ & E & _). congruence.
  - apply _transition_inv in E as (_ & E & _). congruence.
  - apply _transition_inv in E as (_ & E & _). congruence.
Qed.

Definition filled_order : PaperOrder :=
  match let* o := sample_create in order_run o sample_ops with
  | Ok o => o
  | Raise _ => {| po_order_id := 0; po_experiment_id := 0; po_proposal_id := 0; po_client_order_id := "";
      po_command_hash := ""; po_symbol := ""; po_side := BUY; po_order_type := MARKET;
      po_position_effect := OPEN; po_quantity := dzero; po_filled_quantity := dzero; po_limit_price := None;
      po_reduce_only := false; po_status := CREATED; po_created_at := utc 0; po_expires_at := utc 0;
      po_version := 0; po_events := [] |}
  end.

Lemma terminal_order_final_witness :
  po_status filled_order = FILLED /\ is_ok (order_run1 filled_order (OpCancel (utc 5))) = false.
Proof.
  split; [vm_compute; reflexivity|].
  apply (terminal_order_final filled_order (OpCancel (utc 5))). vm_compute; reflexivity.
Defined.

(** ** Limit queue invariant *)

(** Requested quantities, queue and trades are on [10^g]; a 10% participation
    puts fills on [10^(g-1)]. *)
Record queue_wf (g : Z) (s : LimitQueueState) : Prop := {
  qw_requested : grid (g - 1) (dval (lq_requested_quantity s)) /\
    (0 < dval (lq_requested_quantity s) /\ dval (lq_requested_quantity s) < grid_max (g - 1))%Q;
  qw_filled : grid (g - 1) (dval (lq_filled_quantity s)) /\
    (0 <= dval (lq_filled_quantity s) /\ dval (lq_filled_quantity s) <= dval (lq_requested_quantity s))%Q;
  qw_queue : grid g (dval (lq_queue_ahead s)) /\
    (0 <= dval (lq_queue_ahead s) /\ dval (lq_queue_ahead s) < grid_max g)%Q;
  qw_done : lq_status s = FILLED <-> (dval (lq_filled_quantity s) == dval (lq_requested_quantity s))%Q
}.

Definition trade_on_grid (g : Z) (t : TradePrint) : Prop :=
  grid g (dval (tp_quantity t)) /\ (0 < dval (tp_quantity t) /\ dval (tp_quantity t) < grid_max g)%Q.

(** The trade that produced a fill went through the limit price, strictly
    inside the order's life, and gave at most 10% of its volume. *)
Definition fill_from (s : LimitQueueState) (t : TradePrint) (f : LimitFill) : Prop :=
  lf_market_event_id f = tp_event_id t /\ lf_fill_at f = tp_observed_at t /\ lf_price f = tp_price t /\
  instant (lq_eligible_after s) < instant (tp_observed_at t) < instant (lq_expires_at s) /\
  tp_symbol t = lq_symbol s /\
  match lq_side s with
  | BUY => (dval (lf_price f) < dval (lq_limit_price s))%Q
  | SELL => (dval (lq_limit_price s) < dval (lf_price f))%Q
  end /\
  (0 < dval (lf_quantity f) /\ dval (lf_quantity f) <= dval (tp_quantity t) * (1 # 10))%Q.

Lemma consume_queue_spec g q t q' r :
  grid g (dval q) -> (0 <= dval q /\ dval q < grid_max g)%Q ->
  grid g (dval t) -> (0 < dval t /\ dval t < grid_max g)%Q ->
  consume_queue q t = (q', r) ->
  grid g (dval q') /\ grid g (dval r) /\
  (0 <= dval q' /\ dval q' <= dval q /\ 0 <= dval r /\ dval r <= dval t /\ (0 < dval r -> dval q' == 0))%Q /\
  (dval q - dval q' == dval t - dval r)%Q /\ (dval q' == 0 \/ dval r == 0)%Q.
Proof.
  intros Gq [Hq0 Hq] Gt [Ht0 Ht]. unfold consume_queue.
  destruct (dzero <? q)%dec eqn:E; dec_prop; rewrite dval_zero in E; intros [= <- <-].
  - assert (Hc : grid g (dval (dmin q t)) /\ (0 <= dval (dmin q t))%Q)
      by (destruct (dmin_case q t) as [->| ->]; split; assumption || lra).
    pose proof (dmin_lb_l q t) as H1. pose proof (dmin_lb_r q t) as H2. destruct Hc as [Gc Hc].
    assert (E1 : (dval (q - dmin q t)%dec == dval q - dval (dmin q t))%Q)
      by (apply dsub_exact, (fits_grid_nonneg g); [now apply grid_sub | lra | lra]).
    assert (E2 : (dval (t - dmin q t)%dec == dval t - dval (dmin q t))%Q)
      by (apply dsub_exact, (fits_grid_nonneg g); [now apply grid_sub | lra | lra]).
    rewrite E1, E2. split; [now apply grid_sub|]. split; [now apply grid_sub|].
    assert (Hz : (dval q - dval (dmin q t) == 0 \/ dval t - dval (dmin q t) == 0)%Q)
      by (destruct (dmin_case q t) as [->| ->]; [left | right]; ring).
    split; [repeat split; try lra; destruct Hz; lra|]. split; [lra | exact Hz].
  - repeat split; try assumption; try lra.
Qed.

Lemma participation_exact g r :
  grid g (dval r) -> (0 <= dval r /\ dval r < grid_max g)%Q ->
  grid (g - 1) (dval (r * participation)%dec) /\ (dval (r * participation)%dec == dval r * (1 # 10))%Q.
Proof.
  intros Gr [H0 Hm]. assert (Ep : (dval participation == 1 # 10)%Q) by reflexivity.
  assert (Gp : grid (-1) (dval participation)) by (exists 1; reflexivity).
  assert (Gm : grid (g - 1) (dval r * dval participation)).
  { replace (g - 1) with (g + -1) by lia. now apply grid_mul. }
  assert (E : (dval (r * participation)%dec == dval r * dval participation)%Q).
  { apply dmul_exact, (fits_grid_nonneg (g - 1)); [exact Gm | rewrite Ep; lra |].
    unfold grid_max in *. replace g with (g - 1 + 1) in Hm by lia. rewrite pow10_add in Hm.
    change (pow10 1) with 10%Q in Hm. rewrite Ep. lra. }
  rewrite E. split; [exact Gm | now rewrite Ep].
Qed.

Definition fills_total (fills : list LimitFill) : Q := qsum (map (fun f => dval (lf_quantity f)) fills).

Definition same_terms (s s' : LimitQueueState) : Prop :=
  lq_symbol s' = lq_symbol s /\ lq_side s' = lq_side s /\ lq_limit_price s' = lq_limit_price s /\
  lq_eligible_after s' = lq_eligible_after s /\ lq_expires_at s' = lq_expires_at s /\
  lq_requested_quantity s' = lq_requested_quantity s.

(** The contract of one trade. *)
Record queue_step (g : Z) (s s' : LimitQueueState) (t : TradePrint) (fills : list LimitFill) : Prop := {
  qs_wf : queue_wf g s';
  qs_terms : same_terms s s';
  qs_total : (dval (lq_filled_quantity s') == dval (lq_filled_quantity s) + fills_total fills)%Q;
  qs_queue : (dval (lq_queue_ahead s') <= dval (lq_queue_ahead s))%Q;
  qs_fills : Forall (fill_from s t) fills;
  qs_priority : fills <> [] -> (dval (lq_queue_ahead s') == 0)%Q
}.

Lemma queue_step_id g s t : queue_wf g s -> queue_step g s s t [].
Proof.
  intros W. split; [exact W | repeat split | unfold fills_total; simpl; lra | lra | constructor | congruence].
Qed.

(** A trade that changes neither the filled quantity nor grows the queue. *)
Lemma queue_step_quiet g s t queue st seq :
  queue_wf g s -> grid g (dval queue) -> (0 <= dval queue /\ dval queue <= dval (lq_queue_ahead s))%Q ->
  (st = FILLED <-> lq_status s = FILLED) ->
  queue_step g s (lq_replace s (lq_filled_quantity s) queue st seq) t [].
Proof.
  intros W Gq [H0 Hle] Hst. destruct (qw_queue _ _ W) as [_ [_ Hm]].
  split; [|repeat split | unfold fills_total; simpl; lra | exact Hle | constructor | congruence].
  split; cbn [lq_replace lq_requested_quantity lq_filled_quantity lq_queue_ahead lq_status].
  - exact (qw_requested _ _ W).
  - exact (qw_filled _ _ W).
  - split; [exact Gq | lra].
  - rewrite Hst. exact (qw_done _ _ W).
Qed.

Lemma qualifies_through s t :
  qualifies s t = true ->
  match lq_side s with
  | BUY => (dval (tp_price t) < dval (lq_limit_price s))%Q
  | SELL => (dval (lq_limit_price s) < dval (tp_price t))%Q
  end.
Proof.
  unfold qualifies. intros H. apply orb_true_iff in H as [H|H]; bool_prop; dec_prop;
    destruct (lq_side s); congruence || assumption.
Qed.

Lemma advance_step g s t :
  queue_wf g s -> trade_on_grid g t ->
  queue_step g s (fst (advance_limit_queue s t)) t (snd (advance_limit_queue s t)).
Proof.
  intros W [Gt Ht]. destruct (qw_queue _ _ W) as [Gq Hq]. destruct (qw_filled _ _ W) as [Gf Hf].
  destruct (qw_requested _ _ W) as [Gr Hr].
  unfold advance_limit_queue. destruct (is_terminal (lq_status s)) eqn:Et; [now apply queue_step_id|].
  assert (Hnf : lq_status s <> FILLED) by (intros E; rewrite E in Et; discriminate).
  destruct (negb (bool_decide (tp_symbol t = lq_symbol s))) eqn:Es; [now apply queue_step_id|].
  destruct (dt_leb (lq_expires_at s) (tp_observed_at t)) eqn:Ex.
  { apply queue_step_quiet; [exact W | exact Gq | lra | split; [discriminate | contradiction]]. }
  destruct (_ || _) eqn:Ee; [now apply queue_step_id|].
  destruct (negb (qualifies s t)) eqn:Eq; [apply queue_step_quiet; [exact W | exact Gq | lra | reflexivity]|].
  unfold dt_leb in *. bool_prop. apply qualifies_through in Eq.
  destruct (consume_queue _ _) as [queue tr] eqn:Ec.
  destruct (consume_queue_spec g _ _ _ _ Gq Hq Gt Ht Ec) as (Gq' & Gtr & (Hq1 & Hq2 & Hr1 & Hr2 & Hprio) & _).
  destruct (participation_exact g tr Gtr ltac:(lra)) as [Gp Ep].
  assert (Erem : (dval (lq_remaining_quantity s) == dval (lq_requested_quantity s) - dval (lq_filled_quantity s))%Q).
  { apply dsub_exact, (fits_grid_nonneg (g - 1)); [now apply grid_sub | lra | lra]. }
  set (fq := dmin (lq_remaining_quantity s) (tr * participation)%dec) in *.
  destruct (fq <=? dzero)%dec eqn:Ez; dec_prop; rewrite dval_zero in Ez.
  { apply queue_step_quiet; [exact W | exact Gq' | lra | reflexivity]. }
  pose proof (dmin_lb_l (lq_remaining_quantity s) (tr * participation)%dec) as M1. fold fq in M1.
  pose proof (dmin_lb_r (lq_remaining_quantity s) (tr * participation)%dec) as M2. fold fq in M2.
  assert (Gfq : grid (g - 1) (dval fq)).
  { unfold fq. destruct (dmin_case (lq_remaining_quantity s) (tr * participation)%dec) as [->| ->];
      [rewrite Erem; now apply grid_sub | exact Gp]. }
  assert (Ecum : (dval (lq_filled_quantity s + fq)%dec == dval (lq_filled_quantity s) + dval fq)%Q).
  { apply dadd_exact, (fits_grid_nonneg (g - 1)); [now apply grid_add | lra | lra]. }
  cbn [fst snd]. split.
  - split; cbn [lq_replace lq_requested_quantity lq_filled_quantity lq_queue_ahead lq_status];
      [auto | rewrite Ecum; split; [now apply grid_add | lra] | split; [exact Gq' | lra] |].
    destruct (_ =? _)%dec eqn:E; dec_prop; split; intros; try discriminate; auto; contradiction.
  - repeat split.
  - cbn [lq_replace lq_filled_quantity]. unfold fills_total; simpl. rewrite Ecum. lra.
  - exact Hq2.
  - constructor; [|constructor]. repeat split; cbn [lf_market_event_id lf_fill_at lf_price lf_quantity];
      try assumption; try lia; lra.
  - intros _. cbn [lq_replace lq_queue_ahead]. apply Hprio. lra.
Qed.

Lemma fill_from_terms s s' t f : same_terms s s' -> fill_from s' t f -> fill_from s t f.
Proof. intros (E1 & E2 & E3 & E4 & E5 & _). unfold fill_from. now rewrite E1, E2, E3, E4, E5. Qed.

Lemma same_terms_trans s1 s2 s3 : same_terms s1 s2 -> same_terms s2 s3 -> same_terms s1 s3.
Proof. unfold same_terms. intuition congruence. Qed.

Lemma run_queue_sound g trades s :
  queue_wf g s -> Forall (trade_on_grid g) trades ->
  let s' := fst (run_queue s trades) in let fills := snd (run_queue s trades) in
  queue_wf g s' /\ same_terms s s' /\
  (dval (lq_filled_quantity s') == dval (lq_filled_quantity s) + fills_total fills)%Q /\
  (dval (lq_queue_ahead s') <= dval (lq_queue_ahead s))%Q /\
  Forall (fun f => exists t, In t trades /\ fill_from s t f) fills.
Proof.
  intros W HT; revert s W; induction HT as [|t trades Ht HT IH]; intros s W; cbn [run_queue].
  - cbn [fst snd]. repeat split; try exact W; try constructor; unfold fills_total; simpl; lra || apply W.
  - pose proof (advance_step g s t W Ht) as [W1 T1 E1 Q1 F1 _].
    destruct (advance_limit_queue s t) as [s1 f1]. cbn [fst snd] in *.
    specialize (IH s1 W1). destruct (run_queue s1 trades) as [s2 f2]. cbn [fst snd] in *.
    destruct IH as (W2 & T2 & E2 & Q2 & F2).
    split; [exact W2|]. split; [eapply same_terms_trans; eauto|].
    split; [unfold fills_total in *; rewrite List.map_app, qsum_app; lra|]. split; [lra|].
    apply List.Forall_app; split.
    + eapply List.Forall_impl; [|exact F1]. intros f Hf. exists t. split; [now left | exact Hf].
    + eapply List.Forall_impl; [|exact F2]. intros f (t' & Hin & Hf).
      exists t'. split; [now right | eapply fill_from_terms; eauto].
Qed.

(** Quantities of the book side an order joins. *)
Definition resting_levels (side : PaperOrderSide) (b : BookSnapshot) : list BookLevel :=
  if bool_decide (side = BUY) then bk_bids b else bk_asks b.

Lemma from_book_wf g oid side lp q ea ex fee b s :
  from_book oid side lp q ea ex fee b = Ok s ->
  grid (g - 1) (dval q) -> (dval q < grid_max (g - 1))%Q ->
  Forall (fun l => grid g (dval (lv_quantity l)) /\ 0 < dval (lv_quantity l) /\ dval (lv_quantity l) < grid_max g)%Q
    (resting_levels side b) ->
  queue_wf g s /\ (dval (lq_filled_quantity s) == 0)%Q /\ lq_requested_quantity s = q.
Proof.
  unfold from_book. fold (resting_levels side b). intros H Gq Hq Hl.
  repeat (apply bind_Ok in H; destruct H as (? & ? & H)); injection H as <-.
  apply require_positive_Ok in H1. split; [|split; reflexivity].
  split; cbn [lq_requested_quantity lq_filled_quantity lq_queue_ahead lq_status].
  - split; [exact Gq | lra].
  - rewrite dval_zero. split; [apply grid_0 | lra].
  - assert (Hz : grid g (dval dzero) /\ (0 <= dval dzero /\ dval dzero < grid_max g)%Q).
    { rewrite dval_zero. split; [apply grid_0|]. split; [lra|].
      unfold grid_max. pose proof (pow10_pos g). change (inject_Z (10 ^ prec)) with (10000000000000000000000000000#1). lra. }
    destruct (List.find _ _) as [l|] eqn:E; [|exact Hz].
    apply List.find_some in E as [Hin _]. rewrite List.Forall_forall in Hl.
    destruct (Hl l Hin) as (? & ? & ?). split; [assumption | lra].
  - rewrite dval_zero. split; [discriminate | intros E; lra].
Qed.

(** *** The reference: what the trades of a run give, in exact rationals *)

(** A trade goes through the limit on the other side of the order. *)
Definition trades_through (s : LimitQueueState) (t : TradePrint) : bool :=
  match lq_side s with
  | BUY => bool_decide (tp_aggressor_side t = "sell") && (tp_price t <? lq_limit_price s)%dec
  | SELL => bool_decide (tp_aggressor_side t = "buy") && (lq_limit_price s <? tp_price t)%dec
  end.

(** The volume that goes through the limit: of the order's symbol, after the
    eligibility, in increasing sequence, up to the first trade at the expiry. *)
Fixpoint through_volume (s : LimitQueueState) (last : Z) (trades : list TradePrint) : Q :=
  match trades with
  | [] => 0
  | t :: trades' =>
      if negb (bool_decide (tp_symbol t = lq_symbol s)) then through_volume s last trades'
      else if instant (lq_expires_at s) <=? instant (tp_observed_at t) then 0
      else if (instant (tp_observed_at t) <=? instant (lq_eligible_after s)) || (tp_sequence t <=? last)
      then through_volume s last trades'
      else (if trades_through s t then dval (tp_quantity t) else 0) + through_volume s (tp_sequence t) trades'
  end.

(** The volume first takes the queue ahead; a tenth of the rest fills the order. *)
Definition queue_left (queue volume : Q) : Q := Qmax 0 (queue - volume).
Definition reference_fill (requested filled queue volume : Q) : Q :=
  Qmin requested (filled + Qmax 0 (volume - queue) * (1 # 10)).

Lemma qualifies_trades_through s t : qualifies s t = trades_through s t.
Proof.
  unfold qualifies, trades_through. destruct (lq_side s); cbn [bool_decide];
    rewrite ?bool_decide_true, ?bool_decide_false by (reflexivity || discriminate); cbn [andb orb];
    now rewrite ?orb_false_r.
Qed.

Lemma through_volume_terms s s' last trades : same_terms s s' ->
  through_volume s' last trades = through_volume s last trades.
Proof.
  intros (E1 & E2 & E3 & E4 & E5 & _). revert last; induction trades as [|t trades IH]; intros last; cbn; [reflexivity|].
  unfold trades_through. rewrite E1, E2, E3, E4, E5, !IH. reflexivity.
Qed.

Lemma through_volume_nonneg g s last trades : Forall (trade_on_grid g) trades -> (0 <= through_volume s last trades)%Q.
Proof.
  intros H; revert last; induction H as [|t trades [_ Ht] _ IH]; intros last; cbn; [lra|].
  pose proof (IH last). pose proof (IH (tp_sequence t)). repeat match goal with |- context [if ?c then _ else _] => destruct c end; lra.
Qed.

Lemma is_Qmin z a b : (z <= a)%Q -> (z <= b)%Q -> (z == a \/ z == b)%Q -> (z == Qmin a b)%Q.
Proof. intros. destruct (Q.min_spec a b) as [[? E]|[? E]]; rewrite E; lra. Qed.
Lemma is_Qmax z a b : (a <= z)%Q -> (b <= z)%Q -> (z == a \/ z == b)%Q -> (z == Qmax a b)%Q.
Proof. intros. destruct (Q.max_spec a b) as [[? E]|[? E]]; rewrite E; lra. Qed.

(** Case analysis on every minimum and maximum, and linear arithmetic. *)
Ltac q_cases := repeat match goal with
  | |- context [Qmax ?a ?b] => let H := fresh in
      pose proof (Q.max_spec a b) as H; generalize dependent (Qmax a b); intros
  | |- context [Qmin ?a ?b] => let H := fresh in
      pose proof (Q.min_spec a b) as H; generalize dependent (Qmin a b); intros
  | H : context [Qmax ?a ?b] |- _ => let H' := fresh in
      pose proof (Q.max_spec a b) as H'; generalize dependent (Qmax a b); intros
  | H : context [Qmin ?a ?b] |- _ => let H' := fresh in
      pose proof (Q.min_spec a b) as H'; generalize dependent (Qmin a b); intros
  end; repeat match goal with H : _ \/ _ |- _ => destruct H as [[? ?]|[? ?]] end; try split; lra.

(** A terminal order ignores every trade. *)
Lemma run_queue_terminal s trades : is_terminal (lq_status s) = true -> run_queue s trades = (s, []).
Proof.
  intros H. induction trades as [|t trades IH]; cbn [run_queue]; [reflexivity|].
  unfold advance_limit_queue. rewrite H, IH. reflexivity.
Qed.

Lemma not_done g s : queue_wf g s -> is_terminal (lq_status s) = false ->
  (dval (lq_filled_quantity s) < dval (lq_requested_quantity s))%Q.
Proof.
  intros W Ht. destruct (qw_filled _ _ W) as [_ Hf].
  destruct (Qlt_le_dec (dval (lq_filled_quantity s)) (dval (lq_requested_quantity s))) as [|L]; [assumption|].
  assert (E : lq_status s = FILLED) by (apply (qw_done _ _ W); lra). rewrite E in Ht. discriminate.
Qed.

(** One live trade, in closed form. *)
Lemma advance_volume g s t : queue_wf g s -> trade_on_grid g t -> is_terminal (lq_status s) = false ->
  tp_symbol t = lq_symbol s -> instant (tp_observed_at t) < instant (lq_expires_at s) ->
  instant (lq_eligible_after s) < instant (tp_observed_at t) -> lq_last_sequence s < tp_sequence t ->
  let s' := fst (advance_limit_queue s t) in
  let v := if trades_through s t then dval (tp_quantity t) else 0%Q in
  lq_last_sequence s' = tp_sequence t /\
  (dval (lq_queue_ahead s') == queue_left (dval (lq_queue_ahead s)) v)%Q /\
  (dval (lq_filled_quantity s') == reference_fill (dval (lq_requested_quantity s)) (dval (lq_filled_quantity s))
                                     (dval (lq_queue_ahead s)) v)%Q /\
  (is_terminal (lq_status s') = true -> lq_status s' = FILLED).
Proof.
  intros W [Gt Ht] Hterm Hsym Hex Hel Hseq. destruct (qw_queue _ _ W) as [Gq Hq].
  destruct (qw_filled _ _ W) as [Gf Hf]. destruct (qw_requested _ _ W) as [Gr Hr].
  pose proof (not_done g s W Hterm) as Hlt.
  unfold advance_limit_queue. rewrite Hterm, bool_decide_true by exact Hsym. cbn [negb]. unfold dt_leb.
  rewrite (proj2 (Z.leb_gt _ _) Hex), (proj2 (Z.leb_gt _ _) Hel), (proj2 (Z.leb_gt _ _) Hseq). cbn [orb].
  rewrite qualifies_trades_through. destruct (trades_through s t); cbn [negb].
  2: { cbn [fst lq_replace lq_last_sequence lq_queue_ahead lq_filled_quantity lq_status].
       split; [reflexivity|]. split; [apply is_Qmax; lra|]. split; [|congruence].
       apply is_Qmin; [lra | | right]; rewrite <- (is_Qmax 0 0 (0 - dval (lq_queue_ahead s))) by lra; lra. }
  destruct (consume_queue _ _) as [queue tr] eqn:Ec.
  destruct (consume_queue_spec g _ _ _ _ Gq Hq Gt Ht Ec) as (_ & Gtr & (Hq1 & Hq2 & Hr1 & Hr2 & _) & Hd & Hz).
  destruct (participation_exact g tr Gtr ltac:(lra)) as [Gp Ep].
  assert (Erem : (dval (lq_remaining_quantity s) == dval (lq_requested_quantity s) - dval (lq_filled_quantity s))%Q).
  { apply dsub_exact, (fits_grid_nonneg (g - 1)); [now apply grid_sub | lra | lra]. }
  assert (Eq : (dval queue == queue_left (dval (lq_queue_ahead s)) (dval (tp_quantity t)))%Q)
    by (apply is_Qmax; [lra | lra | destruct Hz; [left | right]; lra]).
  assert (Et : (dval tr == Qmax 0 (dval (tp_quantity t) - dval (lq_queue_ahead s)))%Q)
    by (apply is_Qmax; [lra | lra | destruct Hz; [right | left]; lra]).
  unfold reference_fill. rewrite <- Et.
  set (fq := dmin (lq_remaining_quantity s) (tr * participation)%dec) in *.
  pose proof (dmin_lb_l (lq_remaining_quantity s) (tr * participation)%dec) as M1. fold fq in M1.
  pose proof (dmin_lb_r (lq_remaining_quantity s) (tr * participation)%dec) as M2. fold fq in M2.
  assert (Hfq : (dval fq == dval (lq_requested_quantity s) - dval (lq_filled_quantity s) \/ dval fq == dval tr * (1 # 10))%Q)
    by (unfold fq; destruct (dmin_case (lq_remaining_quantity s) (tr * participation)%dec) as [->| ->]; auto).
  destruct (fq <=? dzero)%dec eqn:Ez; dec_prop; rewrite dval_zero in Ez;
    cbn [fst lq_replace lq_last_sequence lq_queue_ahead lq_filled_quantity lq_status].
  { split; [reflexivity|split; [exact Eq|split; [|congruence]]]. apply is_Qmin; destruct Hfq; lra. }
  assert (Gfq : grid (g - 1) (dval fq)).
  { unfold fq. destruct (dmin_case (lq_remaining_quantity s) (tr * participation)%dec) as [->| ->];
      [rewrite Erem; now apply grid_sub | exact Gp]. }
  assert (Ecum : (dval (lq_filled_quantity s + fq)%dec == dval (lq_filled_quantity s) + dval fq)%Q).
  { apply dadd_exact, (fits_grid_nonneg (g - 1)); [now apply grid_add | lra | lra]. }
  split; [reflexivity|split; [exact Eq|split]].
  - apply is_Qmin; rewrite Ecum; destruct Hfq; lra.
  - destruct (_ =? _)%dec; [reflexivity | discriminate].
Qed.

(** The steps of a run compose in closed form. *)
Lemma reference_compose requested filled queue v V :
  (0 <= queue)%Q -> (0 <= v)%Q -> (0 <= V)%Q -> (filled <= requested)%Q ->
  (queue_left (queue_left queue v) V == queue_left queue (v + V))%Q /\
  (reference_fill requested (reference_fill requested filled queue v) (queue_left queue v) V
     == reference_fill requested filled queue (v + V))%Q.
Proof.
  intros. unfold queue_left, reference_fill.
  q_cases.
Qed.

Lemma run_queue_volume g trades : forall s, queue_wf g s -> Forall (trade_on_grid g) trades ->
  (lq_status s = FILLED -> dval (lq_queue_ahead s) == 0)%Q ->
  (is_terminal (lq_status s) = true -> lq_status s = FILLED) ->
  let s' := fst (run_queue s trades) in let V := through_volume s (lq_last_sequence s) trades in
  (dval (lq_queue_ahead s') == queue_left (dval (lq_queue_ahead s)) V)%Q /\
  (dval (lq_filled_quantity s') == reference_fill (dval (lq_requested_quantity s)) (dval (lq_filled_quantity s))
                                     (dval (lq_queue_ahead s)) V)%Q.
Proof.
  induction trades as [|t trades IH]; intros s W HT Hf Hterm; cbv zeta.
  - cbn [run_queue fst through_volume].
    destruct (qw_queue _ _ W) as [_ [? _]]. destruct (qw_filled _ _ W) as [_ [_ ?]].
    unfold queue_left, reference_fill. q_cases.
  - inversion HT as [|? ? Ht HT']; subst.
    pose proof (through_volume_nonneg g s (lq_last_sequence s) (t :: trades) HT) as HV.
    destruct (is_terminal (lq_status s)) eqn:Et.
    { rewrite (run_queue_terminal s (t :: trades) Et). cbn [fst]. specialize (Hterm eq_refl).
      pose proof (Hf Hterm). pose proof (proj1 (qw_done _ _ W) Hterm). unfold queue_left, reference_fill. q_cases. }
    assert (Hlt : (dval (lq_filled_quantity s) < dval (lq_requested_quantity s))%Q) by (now apply (not_done g)).
    destruct (qw_queue _ _ W) as [_ [Hq0 _]]. destruct (qw_filled _ _ W) as [_ [Hf0 Hfr]].
    destruct (advance_step g s t W Ht) as [W1 T1 _ _ _ _].
    pose proof (advance_volume g s t W Ht Et) as Hv. cbv zeta in Hv. revert HV. cbn [run_queue through_volume].
    destruct (advance_limit_queue s t) as [s1 f1] eqn:Ea. cbn [fst] in *.
    destruct (bool_decide (tp_symbol t = lq_symbol s)) eqn:Es; cbn [negb].
    2: { intros _. unfold advance_limit_queue in Ea. rewrite Et, Es in Ea. injection Ea as <- <-.
         specialize (IH s W HT' Hf ltac:(now rewrite Et)). destruct (run_queue s trades). exact IH. }
    destruct (instant (lq_expires_at s) <=? instant (tp_observed_at t)) eqn:Ex.
    { intros _. unfold advance_limit_queue, dt_leb in Ea. rewrite Et, Es, Ex in Ea. injection Ea as <- <-.
      rewrite run_queue_terminal by reflexivity. cbn [fst lq_replace lq_queue_ahead lq_filled_quantity].
      unfold queue_left, reference_fill. q_cases. }
    destruct (_ || _) eqn:Ee.
    { intros _. unfold advance_limit_queue, dt_leb in Ea. rewrite Et, Es, Ex, Ee in Ea. injection Ea as <- <-.
      specialize (IH s W HT' Hf ltac:(now rewrite Et)). destruct (run_queue s trades). exact IH. }
    bool_prop. destruct Hv as (V1 & V2 & V3 & V4); [assumption | lia | lia | lia |]. intros HV.
    set (v := if trades_through s t then dval (tp_quantity t) else 0%Q) in *.
    assert (Hv0 : (0 <= v)%Q) by (unfold v; destruct (trades_through s t); destruct Ht as [_ Ht]; lra).
    pose proof (proj2 (proj2 (proj2 (proj2 (proj2 T1))))) as Er.
    destruct (IH s1 W1 HT') as (I1 & I2); [|exact V4|].
    { intros Hd. apply (qw_done _ _ W1) in Hd. rewrite Er in Hd. rewrite V2. rewrite V3 in Hd.
      unfold queue_left, reference_fill in *. clear -Hd Hlt Hq0. q_cases. }
    rewrite V1, (through_volume_terms _ _ _ _ T1) in I1, I2. rewrite Er in I2.
    pose proof (through_volume_nonneg g s (tp_sequence t) trades HT') as HV'.
    set (V := through_volume s (tp_sequence t) trades) in *.
    destruct (reference_compose (dval (lq_requested_quantity s)) (dval (lq_filled_quantity s)) (dval (lq_queue_ahead s)) v V)
      as (C1 & C2); [lra | lra | lra | lra |].
    destruct (run_queue s1 trades) as [s2 f2]. cbn [fst] in *. rewrite <- C1, <- C2, I1, I2.
    unfold queue_left, reference_fill in *. split; [now rewrite V2 | now rewrite V2, V3].
Qed.

Lemma from_book_queue oid side lp q ea ex fee b s : from_book oid side lp q ea ex fee b = Ok s ->
  lq_queue_ahead s = match List.find (fun l => (lv_price l =? lp)%dec) (resting_levels side b) with
                     | Some l => lv_quantity l | None => dzero end /\
  lq_status s = ACCEPTED /\ lq_last_sequence s = bk_sequence b.
Proof.
  unfold from_book. fold (resting_levels side b). intros H.
  repeat (apply bind_Ok in H; destruct H as (? & ? & H)); injection H as <-. auto.
Qed.


Definition queue_book : BookSnapshot := {|
  bk_event_id := "book-2"; bk_symbol := "BTCUSDT"; bk_venue_event_at := utc 0; bk_observed_at := utc 0;
  bk_sequence := 1; bk_bids := [{| lv_price := dint 99; lv_quantity := dint 5 |}];
  bk_asks := [{| lv_price := dint 100; lv_quantity := dint 5 |}]; bk_mark_price := dint 99 |}.

Definition queue_trade (seq at_ price quantity : Z) : TradePrint := {|
  tp_event_id := "trade"; tp_symbol := "BTCUSDT"; tp_venue_event_at := utc at_; tp_observed_at := utc at_;
  tp_sequence := seq; tp_price := dint price; tp_quantity := dint quantity; tp_aggressor_side := "sell" |}.

Definition queue_trades : list TradePrint := [queue_trade 2 10 98 15; queue_trade 3 20 98 40].

Definition queue_start : LimitQueueState := {|
  lq_order_id := 1; lq_symbol := "BTCUSDT"; lq_side := BUY; lq_limit_price := dint 99;
  lq_requested_quantity := dint 2; lq_filled_quantity := dzero; lq_queue_ahead := dint 5;
  lq_eligible_after := utc 1; lq_expires_at := utc 100; lq_maker_fee_rate := mkdec 2 (-4);
  lq_status := ACCEPTED; lq_last_sequence := 1 |}.

