(* ===== verification/Positions.v ===== *)
(** * One-way positions with FIFO lots: [maais/execution/paper/positions.py] *)

From Stdlib Require Import ZArith QArith Qabs Qminmax Lia Lqa List Bool String Morphisms.
From stdpp Require Import base decidable list strings.
From S2P Require Import Prelude PyDecimal DecimalTheory Domain Market.

Local Open Scope Z_scope.

Record PositionLot : Type := {
  lot_id : UUID;
  lot_opening_fill_id : UUID;
  lot_opened_at : datetime;
  lot_entry_price : dec;
  lot_original_quantity : dec;
  lot_remaining_quantity : dec;
  lot_opening_fee : dec;
  lot_remaining_opening_fee : dec;
  lot_funding : dec
}.

Definition lot_reduce (l : PositionLot) (remaining fee : dec) : PositionLot := {|
  lot_id := lot_id l; lot_opening_fill_id := lot_opening_fill_id l; lot_opened_at := lot_opened_at l;
  lot_entry_price := lot_entry_price l; lot_original_quantity := lot_original_quantity l;
  lot_remaining_quantity := remaining; lot_opening_fee := lot_opening_fee l;
  lot_remaining_opening_fee := fee; lot_funding := lot_funding l |}.

Definition lot_fund (l : PositionLot) (funding : dec) : PositionLot := {|
  lot_id := lot_id l; lot_opening_fill_id := lot_opening_fill_id l; lot_opened_at := lot_opened_at l;
  lot_entry_price := lot_entry_price l; lot_original_quantity := lot_original_quantity l;
  lot_remaining_quantity := lot_remaining_quantity l; lot_opening_fee := lot_opening_fee l;
  lot_remaining_opening_fee := lot_remaining_opening_fee l; lot_funding := funding |}.

Record PositionState : Type := {
  ps_position_id : UUID;
  ps_experiment_id : UUID;
  ps_symbol : string;
  ps_side : Direction;
  ps_mark_price : dec;
  ps_average_entry : dec;
  ps_realized_pnl : dec;
  ps_fees : dec;
  ps_funding : dec;
  ps_lots : list PositionLot;
  ps_opened_at : option datetime;
  ps_closed_at : option datetime;
  ps_version : Z
}.

Definition position_empty (position_id experiment_id : UUID) (symbol : string) : result PositionState :=
  do* raise_if (bool_decide (symbol = "")) (ValueError "symbol is required") ;;
  Ok {| ps_position_id := position_id; ps_experiment_id := experiment_id; ps_symbol := symbol;
        ps_side := NEUTRAL; ps_mark_price := dzero; ps_average_entry := dzero; ps_realized_pnl := dzero;
        ps_fees := dzero; ps_funding := dzero; ps_lots := []; ps_opened_at := None; ps_closed_at := None;
        ps_version := 0 |}.

Definition ps_quantity (p : PositionState) : dec := dsum (map lot_remaining_quantity (ps_lots p)).
Definition is_flat (p : PositionState) : bool := (ps_quantity p =? dzero)%dec.

Definition ps_unrealized_pnl (p : PositionState) : dec :=
  if is_flat p then dzero
  else if bool_decide (ps_side p = LONG) then
    dsum (map (fun l => (ps_mark_price p - lot_entry_price l) * lot_remaining_quantity l)%dec (ps_lots p))
  else
    dsum (map (fun l => (lot_entry_price l - ps_mark_price p) * lot_remaining_quantity l)%dec (ps_lots p)).

Definition ps_gross_notional (p : PositionState) : dec := (ps_quantity p * ps_mark_price p)%dec.

Definition _require_nonnegative (value : dec) (field : string) : result unit :=
  raise_if (value <? dzero)%dec (ValueError (field +:+ " must be a nonnegative finite Decimal")).

Definition lots_value (lots : list PositionLot) : dec :=
  dsum (map (fun l => lot_entry_price l * lot_remaining_quantity l)%dec lots).

Definition open_fill (p : PositionState) (fill_id : UUID) (side : Direction) (quantity price fee : dec)
    (fill_at : datetime) : result PositionState :=
  do* raise_if (bool_decide (side = NEUTRAL)) (ValueError "opening side must be long or short") ;;
  do* raise_if (negb (is_flat p) && negb (bool_decide (ps_side p = side)))
        (ValueError "one-way position can only scale in the same direction") ;;
  do* require_positive_decimal quantity "quantity" ;;
  do* require_positive_decimal price "price" ;;
  do* _require_nonnegative fee "fee" ;;
  do* require_utc fill_at "fill_at" ;;
  let lot := {| lot_id := fill_id; lot_opening_fill_id := fill_id; lot_opened_at := fill_at;
                lot_entry_price := price; lot_original_quantity := quantity;
                lot_remaining_quantity := quantity; lot_opening_fee := fee;
                lot_remaining_opening_fee := fee; lot_funding := dzero |} in
  let lots := ps_lots p ++ [lot] in
  let total_quantity := (ps_quantity p + quantity)%dec in
  let* average_entry := ddiv (lots_value lots) total_quantity in
  Ok {| ps_position_id := ps_position_id p; ps_experiment_id := ps_experiment_id p;
        ps_symbol := ps_symbol p; ps_side := side; ps_mark_price := price;
        ps_average_entry := average_entry; ps_realized_pnl := ps_realized_pnl p;
        ps_fees := (ps_fees p + fee)%dec; ps_funding := ps_funding p; ps_lots := lots;
        ps_opened_at := (if negb (is_flat p) then ps_opened_at p else Some fill_at);
        ps_closed_at := None; ps_version := ps_version p + 1 |}.

(** The loop of [close_fill]: the updated lots and the realised result.  The
    division is guarded by the test on the lot's remaining quantity. *)
Fixpoint close_lots (side : Direction) (price : dec) (lots : list PositionLot)
    (remaining_to_close realized : dec) : list PositionLot * dec :=
  match lots with
  | [] => ([], realized)
  | lot :: lots' =>
      if (remaining_to_close <=? dzero)%dec || (lot_remaining_quantity lot <=? dzero)%dec then
        let '(updated, r) := close_lots side price lots' remaining_to_close realized in
        (lot :: updated, r)
      else
        let closing := dmin (lot_remaining_quantity lot) remaining_to_close in
        let realized' :=
          if bool_decide (side = LONG) then (realized + (price - lot_entry_price lot) * closing)%dec
          else (realized + (lot_entry_price lot - price) * closing)%dec in
        let fee_allocation :=
          ddiv_raw (lot_remaining_opening_fee lot * closing)%dec (lot_remaining_quantity lot) in
        let lot' := lot_reduce lot (lot_remaining_quantity lot - closing)%dec
                      (lot_remaining_opening_fee lot - fee_allocation)%dec in
        let '(updated, r) := close_lots side price lots' (remaining_to_close - closing)%dec realized' in
        (lot' :: updated, r)
  end.

Definition close_fill (p : PositionState) (quantity price fee : dec) (fill_at : datetime)
  : result PositionState :=
  do* require_positive_decimal quantity "quantity" ;;
  do* require_positive_decimal price "price" ;;
  do* _require_nonnegative fee "fee" ;;
  do* require_utc fill_at "fill_at" ;;
  do* raise_if (is_flat p || (quantity >? ps_quantity p)%dec)
        (ValueError "close quantity exceeds open quantity") ;;
  let '(updated, realized) := close_lots (ps_side p) price (ps_lots p) quantity dzero in
  let remaining_quantity := (ps_quantity p - quantity)%dec in
  let open_left := (dzero <? remaining_quantity)%dec in
  Ok {| ps_position_id := ps_position_id p; ps_experiment_id := ps_experiment_id p;
        ps_symbol := ps_symbol p; ps_side := (if open_left then ps_side p else NEUTRAL);
        ps_mark_price := price;
        ps_average_entry := (if open_left then ddiv_raw (lots_value updated) remaining_quantity else dzero);
        ps_realized_pnl := (ps_realized_pnl p + realized)%dec; ps_fees := (ps_fees p + fee)%dec;
        ps_funding := ps_funding p; ps_lots := updated; ps_opened_at := ps_opened_at p;
        ps_closed_at := (if open_left then None else Some fill_at); ps_version := ps_version p + 1 |}.

Definition position_mark (p : PositionState) (price : dec) : result PositionState :=
  do* require_positive_decimal price "mark price" ;;
  Ok {| ps_position_id := ps_position_id p; ps_experiment_id := ps_experiment_id p;
        ps_symbol := ps_symbol p; ps_side := ps_side p; ps_mark_price := price;
        ps_average_entry := ps_average_entry p; ps_realized_pnl := ps_realized_pnl p;
        ps_fees := ps_fees p; ps_funding := ps_funding p; ps_lots := ps_lots p;
        ps_opened_at := ps_opened_at p; ps_closed_at := ps_closed_at p; ps_version := ps_version p + 1 |}.

(** The division is by the quantity of a position that is not flat. *)
Definition position_apply_funding (p : PositionState) (amount : dec) : result PositionState :=
  do* raise_if (is_flat p) (ValueError "cannot apply funding to a flat position") ;;
  let quantity := ps_quantity p in
  let lots := map (fun l =>
      if (dzero <? lot_remaining_quantity l)%dec
      then lot_fund l (lot_funding l + ddiv_raw (amount * lot_remaining_quantity l) quantity)%dec
      else l) (ps_lots p) in
  Ok {| ps_position_id := ps_position_id p; ps_experiment_id := ps_experiment_id p;
        ps_symbol := ps_symbol p; ps_side := ps_side p; ps_mark_price := ps_mark_price p;
        ps_average_entry := ps_average_entry p; ps_realized_pnl := ps_realized_pnl p;
        ps_fees := ps_fees p; ps_funding := (ps_funding p + amount)%dec; ps_lots := lots;
        ps_opened_at := ps_opened_at p; ps_closed_at := ps_closed_at p; ps_version := ps_version p + 1 |}.

(** ** Quantity invariant *)

Definition lot_q (l : PositionLot) : Q := dval (lot_remaining_quantity l).

(** Open quantity of a list of lots, in exact arithmetic. *)
Definition lots_quantity (lots : list PositionLot) : Q := qsum (map lot_q lots).

(** Lot quantities are nonnegative multiples of [10^g] whose total has at most
    28 digits; the position has a side exactly when it is open. *)
Record position_wf (g : Z) (p : PositionState) : Prop := {
  pw_lots : Forall (fun l => grid g (lot_q l) /\ 0 <= lot_q l)%Q (ps_lots p);
  pw_range : (lots_quantity (ps_lots p) < grid_max g)%Q;
  pw_side : ps_side p = NEUTRAL <-> (lots_quantity (ps_lots p) == 0)%Q
}.

Lemma lots_quantity_exact g lots :
  Forall (fun l => grid g (lot_q l) /\ 0 <= lot_q l)%Q lots -> (lots_quantity lots < grid_max g)%Q ->
  (dval (dsum (map lot_remaining_quantity lots)) == lots_quantity lots)%Q.
Proof.
  intros Hl Hr. rewrite (dsum_exact g); rewrite ?List.map_map; [reflexivity | | exact Hr].
  rewrite Forall_map. exact Hl.
Qed.

Lemma lots_quantity_nonneg g lots :
  Forall (fun l => grid g (lot_q l) /\ 0 <= lot_q l)%Q lots -> (0 <= lots_quantity lots)%Q.
Proof.
  intros H. apply qsum_nonneg. rewrite Forall_map. eapply List.Forall_impl; [|exact H]. simpl; tauto.
Qed.

Lemma lots_quantity_grid g lots :
  Forall (fun l => grid g (lot_q l) /\ 0 <= lot_q l)%Q lots -> grid g (lots_quantity lots).
Proof.
  intros H. apply qsum_grid. rewrite Forall_map. eapply List.Forall_impl; [|exact H]. simpl; tauto.
Qed.

Section Wf.
Context {g : Z} {p : PositionState} (W : position_wf g p).

Lemma pw_quantity : (dval (ps_quantity p) == lots_quantity (ps_lots p))%Q.
Proof. apply (lots_quantity_exact g); apply W. Qed.

Lemma pw_flat : is_flat p = true <-> (lots_quantity (ps_lots p) == 0)%Q.
Proof. unfold is_flat. rewrite deqb_eq, pw_quantity, dval_zero. reflexivity. Qed.

Lemma pw_nonneg : (0 <= lots_quantity (ps_lots p))%Q.
Proof. eapply lots_quantity_nonneg, W. Qed.
End Wf.

Lemma position_empty_wf g pid eid sym p : position_empty pid eid sym = Ok p -> position_wf g p.
Proof.
  unfold position_empty. intros H. py_inv. split; cbn; [constructor | | split; reflexivity].
  change (lots_quantity []) with 0%Q. apply grid_max_pos.
Qed.

Lemma open_fill_wf g p fid side q price fee t p' :
  position_wf g p -> grid g (dval q) -> (lots_quantity (ps_lots p) + dval q < grid_max g)%Q ->
  open_fill p fid side q price fee t = Ok p' ->
  position_wf g p' /\ (lots_quantity (ps_lots p') == lots_quantity (ps_lots p) + dval q)%Q /\ ps_side p' = side.
Proof.
  intros W Gq Hr H. unfold open_fill in H. py_inv. bool_prop.
  apply require_positive_Ok in H2. pose proof (pw_nonneg W).
  assert (E : forall l, (lots_quantity (ps_lots p ++ [l]) == lots_quantity (ps_lots p) + lot_q l)%Q).
  { intros l. unfold lots_quantity. rewrite List.map_app, qsum_app. simpl. ring. }
  split; [split|split]; cbn [ps_lots ps_side].
  - apply List.Forall_app; split; [apply W|]. constructor; [|constructor].
    unfold lot_q; cbn [lot_remaining_quantity]. split; [exact Gq | lra].
  - rewrite E. unfold lot_q; cbn [lot_remaining_quantity]. exact Hr.
  - rewrite E. unfold lot_q; cbn [lot_remaining_quantity]. split; [contradiction | intros; lra].
  - rewrite E. reflexivity.
  - reflexivity.
Qed.

(** ** FIFO closing against an exact reference *)

(** What closing [q] first-in first-out leaves of each lot, in exact arithmetic. *)
Fixpoint fifo_ref (qs : list Q) (q : Q) : list Q :=
  match qs with
  | [] => []
  | x :: qs' => (x - Qmin x q) :: fifo_ref qs' (q - Qmin x q)
  end%Q.

(** The profit of closing [q] first-in first-out at [price], in exact arithmetic. *)
Fixpoint fifo_pnl (side : Direction) (price : Q) (lots : list PositionLot) (q : Q) : Q :=
  match lots with
  | [] => 0
  | l :: lots' =>
      (if bool_decide (side = LONG) then price - dval (lot_entry_price l)
       else dval (lot_entry_price l) - price) * Qmin (lot_q l) q
      + fifo_pnl side price lots' (q - Qmin (lot_q l) q)
  end%Q.

Lemma dmin_Qmin x y : (dval (dmin x y) == Qmin (dval x) (dval y))%Q.
Proof.
  unfold dmin. destruct (dltb y x) eqn:E; dec_prop; symmetry; [apply Q.min_r | apply Q.min_l]; lra.
Qed.

Lemma fifo_ref_sum qs q :
  Forall (fun x => 0 <= x)%Q qs -> (0 <= q <= qsum qs)%Q -> (qsum (fifo_ref qs q) == qsum qs - q)%Q.
Proof.
  intros H; revert q; induction H as [|x qs Hx Hqs IH]; intros q [H0 Hq]; cbn [fifo_ref qsum] in *; [lra|].
  apply qsum_nonneg in Hqs. rewrite IH; [ring|]. destruct (Qlt_le_dec x q).
  - rewrite Q.min_l by lra. split; lra.
  - rewrite Q.min_r by lra. split; lra.
Qed.

Lemma fifo_ref_done qs q : Forall (fun x => 0 <= x)%Q qs -> (q == 0)%Q -> Forall2 Qeq qs (fifo_ref qs q).
Proof.
  intros H; revert q; induction H as [|x qs Hx _ IH]; intros q Hq; cbn [fifo_ref]; constructor.
  - rewrite Q.min_r; lra.
  - apply IH. rewrite Q.min_r; lra.
Qed.

#[local] Instance fifo_ref_Proper : Proper (eq ==> Qeq ==> Forall2 Qeq) fifo_ref.
Proof.
  intros qs ? <-. induction qs as [|x qs IH]; intros q q' E; cbn [fifo_ref]; constructor.
  - rewrite E. reflexivity.
  - apply IH. rewrite E. reflexivity.
Qed.

#[local] Instance fifo_pnl_Proper side price lots : Proper (Qeq ==> Qeq) (fifo_pnl side price lots).
Proof.
  induction lots as [|l lots IH]; intros q q' E; cbn [fifo_pnl]; [reflexivity|].
  apply Qplus_comp; [|apply IH]; rewrite E; reflexivity.
Qed.

Lemma qsum_eq l l' : Forall2 Qeq l l' -> (qsum l == qsum l')%Q.
Proof. induction 1 as [|x y l l' E _ IH]; cbn [qsum]; [reflexivity | rewrite E, IH; reflexivity]. Qed.

#[export] Instance Forall2_Qeq_Equivalence : Equivalence (Forall2 Qeq).
Proof. split; [apply _ | apply _ | apply _]. Qed.

Section CloseLots.
Context (g : Z).

Definition lots_ok (lots : list PositionLot) : Prop :=
  Forall (fun l => grid g (lot_q l) /\ 0 <= lot_q l)%Q lots.

Lemma lots_ok_nonneg lots : lots_ok lots -> Forall (fun x => 0 <= x)%Q (map lot_q lots).
Proof. intros H. rewrite Forall_map. eapply List.Forall_impl; [|exact H]. simpl; tauto. Qed.

(** One step of the loop on a lot that is not skipped: nothing is rounded. *)
Lemma closing_exact l q :
  grid g (lot_q l) -> (0 <= lot_q l)%Q -> (lot_q l < grid_max g)%Q ->
  grid g (dval q) -> (0 <= dval q)%Q -> (dval q < grid_max g)%Q ->
  let c := dmin (lot_remaining_quantity l) q in
  grid g (dval c) /\ (0 <= dval c)%Q /\ (dval c == Qmin (lot_q l) (dval q))%Q /\
  (dval (lot_remaining_quantity l - c)%dec == lot_q l - Qmin (lot_q l) (dval q))%Q /\
  (dval (q - c)%dec == dval q - Qmin (lot_q l) (dval q))%Q.
Proof.
  intros Gl Hl Bl Gq Hq Bq c.
  assert (Ec : (dval c == Qmin (lot_q l) (dval q))%Q) by apply dmin_Qmin.
  pose proof (dmin_lb_l (lot_remaining_quantity l) q) as H1.
  pose proof (dmin_lb_r (lot_remaining_quantity l) q) as H2. fold c in H1, H2.
  assert (Gc : grid g (dval c)) by (unfold c; destruct (dmin_case (lot_remaining_quantity l) q) as [->| ->]; assumption).
  assert (Hc : (0 <= dval c)%Q) by (unfold c; destruct (dmin_case (lot_remaining_quantity l) q) as [->| ->]; assumption).
  unfold lot_q in *. split; [exact Gc|split; [exact Hc|split; [exact Ec|split]]]; rewrite <- Ec; apply dsub_exact;
    (apply (fits_grid_nonneg g); [apply grid_sub; assumption | lra | lra]).
Qed.

Lemma close_lots_fifo side price lots q realized updated r :
  lots_ok lots -> (lots_quantity lots < grid_max g)%Q ->
  grid g (dval q) -> (0 <= dval q)%Q -> (dval q < grid_max g)%Q ->
  close_lots side price lots q realized = (updated, r) ->
  lots_ok updated /\ Forall2 Qeq (map lot_q updated) (fifo_ref (map lot_q lots) (dval q)) /\
  map lot_id updated = map lot_id lots /\ map lot_entry_price updated = map lot_entry_price lots.
Proof.
  intros Hl; revert q realized updated r.
  induction Hl as [|l lots [Gl Nl] Hl IH]; intros q realized updated r Hb Gq Hq Bq H;
    cbn [close_lots] in H.
  { injection H as <- <-. repeat split; constructor. }
  cbn [map fifo_ref]. unfold lots_quantity in Hb; cbn [map qsum] in Hb.
  pose proof (qsum_nonneg _ (lots_ok_nonneg _ Hl)) as Hn.
  destruct (closing_exact l q) as (Gc & Hc & Ec & Er & Eq); try assumption; [lra|].
  destruct (_ || _) eqn:Hskip.
  - destruct (close_lots _ _ _ _ _) as [u r'] eqn:E in H. injection H as <- <-.
    apply IH in E as (H1 & H2 & H3 & H4); try assumption; [|unfold lots_quantity; lra].
    assert (Ez : (Qmin (lot_q l) (dval q) == 0)%Q).
    { apply orb_true_iff in Hskip as [Hs|Hs]; dec_prop; rewrite dval_zero in Hs; unfold lot_q in *;
        [rewrite Q.min_r | rewrite Q.min_l]; lra. }
    split; [constructor; auto|split; [|cbn [map]; split; congruence]].
    cbn [map]. constructor; [lra|]. etransitivity; [exact H2|].
    apply fifo_ref_Proper; [reflexivity | lra].
  - destruct (close_lots _ _ _ _ _) as [u r'] eqn:E in H. injection H as <- <-.
    apply IH in E as (H1 & H2 & H3 & H4); [| unfold lots_quantity; lra | | |].
    + split; [constructor; auto|split; [|cbn [map lot_reduce lot_id lot_entry_price]; split; congruence]].
      * unfold lot_q; cbn [lot_reduce lot_remaining_quantity]. rewrite Er. split.
        -- rewrite <- Ec. now apply grid_sub.
        -- pose proof (Q.le_min_l (lot_q l) (dval q)). lra.
      * cbn [map]. constructor; [exact Er|]. etransitivity; [exact H2|].
        apply fifo_ref_Proper; [reflexivity | exact Eq].
    + rewrite Eq, <- Ec. now apply grid_sub.
    + rewrite Eq. pose proof (Q.le_min_r (lot_q l) (dval q)). lra.
    + rewrite Eq, <- Ec. lra.
Qed.
End CloseLots.

(** ** Exact profit and loss *)

Section Pnl.
Context (g gp : Z) (P : Q) (side : Direction) (price : dec).

(** Prices on the grid [10^gp], positive and at most [P]. *)
Definition price_ok (d : dec) : Prop := (grid gp (dval d) /\ 0 < dval d /\ dval d <= P)%Q.

Lemma price_diff_exact a b :
  price_ok a -> price_ok b -> (P < grid_max gp)%Q ->
  (dval (a - b)%dec == dval a - dval b)%Q /\ grid gp (dval a - dval b) /\ (Qabs (dval a - dval b) <= P)%Q.
Proof.
  intros (Ga & Pa & Ba) (Gb & Pb & Bb) HP.
  assert (Hd : (Qabs (dval a - dval b) <= P)%Q) by (apply Qabs_Qle_condition; split; lra).
  split; [|split; [now apply grid_sub | exact Hd]].
  apply dsub_exact, (fits_grid gp); [now apply grid_sub | lra].
Qed.

(** One term of the realised profit: nothing is rounded. *)
Lemma pnl_term_exact realized a b c q T :
  price_ok a -> price_ok b -> (P < grid_max gp)%Q ->
  grid g (dval c) -> (0 <= dval c)%Q -> (dval c <= dval q)%Q ->
  grid (gp + g) (dval realized) -> (Qabs (dval realized) <= P * T)%Q ->
  (P * (T + dval q) < grid_max (gp + g))%Q ->
  let d := (realized + (a - b) * c)%dec in
  (dval d == dval realized + (dval a - dval b) * dval c)%Q /\
  grid (gp + g) (dval d) /\ (Qabs (dval d) <= P * (T + dval c))%Q.
Proof.
  intros Ha Hb HP Gc Hc Hcq Gr Br HT d.
  assert (HP0 : (0 < P)%Q) by (destruct Ha as (_ & ? & ?); lra).
  destruct (price_diff_exact a b Ha Hb HP) as (E1 & G1 & B1).
  assert (G2 : grid (gp + g) ((dval a - dval b) * dval c)) by now apply grid_mul.
  assert (B2 : (Qabs ((dval a - dval b) * dval c) <= P * dval c)%Q).
  { rewrite Qabs_Qmult, (Qabs_pos (dval c)) by exact Hc. now apply Qmult_le_compat_r. }
  pose proof (Qabs_triangle (dval realized) ((dval a - dval b) * dval c)) as B3.
  assert (B4 : (P * (T + dval c) <= P * (T + dval q))%Q) by (apply Qmult_le_l; [exact HP0 | lra]).
  pose proof (Qabs_nonneg (dval realized)).
  assert (E2 : (dval ((a - b) * c)%dec == (dval a - dval b) * dval c)%Q).
  { rewrite dmul_exact; [now rewrite E1|]. rewrite E1. apply (fits_grid (gp + g)); [exact G2 | lra]. }
  assert (E3 : (dval d == dval realized + (dval a - dval b) * dval c)%Q).
  { unfold d. rewrite dadd_exact; [now rewrite E2|]. rewrite E2.
    apply (fits_grid (gp + g)); [now apply grid_add | lra]. }
  split; [exact E3|]. rewrite E3. split; [now apply grid_add | lra].
Qed.

(** The profit per unit of closing a lot. *)
Definition unit_pnl (l : PositionLot) : Q :=
  if bool_decide (side = LONG) then (dval price - dval (lot_entry_price l))%Q
  else (dval (lot_entry_price l) - dval price)%Q.

Lemma realized_step realized l c q T :
  price_ok price -> price_ok (lot_entry_price l) -> (P < grid_max gp)%Q ->
  grid g (dval c) -> (0 <= dval c)%Q -> (dval c <= dval q)%Q ->
  grid (gp + g) (dval realized) -> (Qabs (dval realized) <= P * T)%Q ->
  (P * (T + dval q) < grid_max (gp + g))%Q ->
  let d := if bool_decide (side = LONG) then (realized + (price - lot_entry_price l) * c)%dec
           else (realized + (lot_entry_price l - price) * c)%dec in
  (dval d == dval realized + unit_pnl l * dval c)%Q /\
  grid (gp + g) (dval d) /\ (Qabs (dval d) <= P * (T + dval c))%Q.
Proof.
  intros Hp Hl HP Gc Hc Hcq Gr Br HT. unfold unit_pnl.
  destruct (bool_decide (side = LONG)); now apply (pnl_term_exact _ _ _ _ q).
Qed.

Lemma close_lots_pnl lots q realized updated r T :
  lots_ok g lots -> (lots_quantity lots < grid_max g)%Q ->
  grid g (dval q) -> (0 <= dval q)%Q -> (dval q < grid_max g)%Q ->
  price_ok price -> Forall (fun l => price_ok (lot_entry_price l)) lots -> (P < grid_max gp)%Q ->
  grid (gp + g) (dval realized) -> (Qabs (dval realized) <= P * T)%Q ->
  (P * (T + dval q) < grid_max (gp + g))%Q ->
  close_lots side price lots q realized = (updated, r) ->
  (dval r == dval realized + fifo_pnl side (dval price) lots (dval q))%Q.
Proof.
  intros Hl; revert q realized updated r T.
  induction Hl as [|l lots [Gl Nl] Hl IH]; intros q realized updated r T Hb Gq Hq Bq Hp Hps HP Gr Br HT H;
    cbn [close_lots] in H; cbn [fifo_pnl]; [injection H as <- <-; lra|].
  fold (unit_pnl l). apply Forall_cons in Hps as [Hpl Hps]. unfold lots_quantity in Hb; cbn [map qsum] in Hb.
  pose proof (qsum_nonneg _ (lots_ok_nonneg g _ Hl)) as Hn.
  destruct (closing_exact g l q) as (Gc & Hc & Ec & Er & Eq); try assumption; [lra|].
  pose proof (Q.le_min_r (lot_q l) (dval q)) as Hmq.
  destruct (_ || _) eqn:Hskip; destruct (close_lots _ _ _ _ _) as [u r'] eqn:E in H; injection H as <- <-.
  - assert (Ez : (Qmin (lot_q l) (dval q) == 0)%Q).
    { apply orb_true_iff in Hskip as [Hs|Hs]; dec_prop; rewrite dval_zero in Hs; unfold lot_q in *;
        [rewrite Q.min_r | rewrite Q.min_l]; lra. }
    eapply IH in E; try eassumption; [|unfold lots_quantity; lra]. rewrite E.
    rewrite (fifo_pnl_Proper side (dval price) lots (dval q - Qmin (lot_q l) (dval q))%Q (dval q)) by lra.
    rewrite Ez. ring.
  - destruct (realized_step realized l (dmin (lot_remaining_quantity l) q) q T) as (Vd & Gd & Bd); try assumption.
    { rewrite Ec. exact Hmq. }
    eapply (IH _ _ _ _ (T + dval (dmin (lot_remaining_quantity l) q))%Q) in E; try assumption.
    + rewrite E, Vd, Ec, (fifo_pnl_Proper side (dval price) lots _ _ Eq). ring.
    + unfold lots_quantity; lra.
    + rewrite Eq, <- Ec. now apply grid_sub.
    + rewrite Eq. lra.
    + rewrite Eq, <- Ec. lra.
    + rewrite Eq, Ec.
      assert (T + Qmin (lot_q l) (dval q) + (dval q - Qmin (lot_q l) (dval q)) == T + dval q)%Q as -> by ring.
      exact HT.
Qed.

Lemma unit_pnl_ok l : price_ok price -> price_ok (lot_entry_price l) ->
  grid gp (unit_pnl l) /\ (Qabs (unit_pnl l) <= P)%Q.
Proof.
  intros (G1 & ? & ?) (G2 & ? & ?). unfold unit_pnl. destruct (bool_decide _);
    (split; [now apply grid_sub | apply Qabs_Qle_condition; split; lra]).
Qed.

Lemma fifo_pnl_bound lots q :
  lots_ok g lots -> grid g q -> (0 <= q)%Q -> price_ok price ->
  Forall (fun l => price_ok (lot_entry_price l)) lots ->
  grid (gp + g) (fifo_pnl side (dval price) lots q) /\
  (Qabs (fifo_pnl side (dval price) lots q) <= P * q)%Q.
Proof.
  intros Hl; revert q; induction Hl as [|l lots [Gl Nl] Hl IH]; intros q Gq Hq Hp Hps; cbn [fifo_pnl].
  { split; [apply grid_0|]. destruct Hp as (_ & ? & ?). change (Qabs 0) with 0%Q. nra. }
  fold (unit_pnl l). apply Forall_cons in Hps as [Hpl Hps]. destruct (unit_pnl_ok l Hp Hpl) as [Gu Bu].
  assert (Hc : grid g (Qmin (lot_q l) q) /\ (0 <= Qmin (lot_q l) q)%Q /\ (Qmin (lot_q l) q <= q)%Q).
  { destruct (Q.min_spec (lot_q l) q) as [[? ->]|[? ->]]; repeat split; assumption || lra. }
  destruct Hc as (Gc & Hc0 & Hcq).
  destruct (IH (q - Qmin (lot_q l) q)%Q) as [G2 B2]; [now apply grid_sub | lra | assumption | assumption |].
  split; [apply grid_add; [now apply grid_mul | exact G2]|].
  eapply Qle_trans; [apply Qabs_triangle|]. rewrite Qabs_Qmult, (Qabs_pos (Qmin _ _)) by exact Hc0.
  pose proof (Qmult_le_compat_r _ _ _ Bu Hc0).
  assert (P * q == P * Qmin (lot_q l) q + P * (q - Qmin (lot_q l) q))%Q as -> by ring. lra.
Qed.
End Pnl.

(** ** Well-formedness is preserved *)

Lemma close_fill_Ok p q price fee t p' :
  close_fill p q price fee t = Ok p' ->
  (0 < dval q /\ 0 < dval price /\ dval q <= dval (ps_quantity p))%Q /\ is_flat p = false /\ is_utc t = true /\
  exists updated r, close_lots (ps_side p) price (ps_lots p) q dzero = (updated, r) /\
    ps_lots p' = updated /\ ps_realized_pnl p' = (ps_realized_pnl p + r)%dec /\ ps_version p' = ps_version p + 1 /\
    ps_side p' = (if (dzero <? ps_quantity p - q)%dec then ps_side p else NEUTRAL) /\
    ps_closed_at p' = (if (dzero <? ps_quantity p - q)%dec then None else Some t) /\
    ps_fees p' = (ps_fees p + fee)%dec /\ ps_funding p' = ps_funding p /\ ps_mark_price p' = price.
Proof.
  unfold close_fill. intros H. py_inv. bool_prop. dec_prop.
  apply require_positive_Ok in H0, H1. apply require_utc_Ok in H3.
  destruct (close_lots _ _ _ _ _) as [u r] eqn:E. injection H as <-. cbn.
  repeat split; try assumption. exists u, r. repeat split; reflexivity.
Qed.

(** On a well-formed position, closing [q] leaves exactly what the FIFO reference leaves. *)
Lemma close_fill_fifo g p q price fee t p' :
  position_wf g p -> grid g (dval q) -> close_fill p q price fee t = Ok p' ->
  position_wf g p' /\
  Forall2 Qeq (map lot_q (ps_lots p')) (fifo_ref (map lot_q (ps_lots p)) (dval q)) /\
  (lots_quantity (ps_lots p') == lots_quantity (ps_lots p) - dval q)%Q.
Proof.
  intros W Gq H.
  apply close_fill_Ok in H as ((Hq & _ & Hle) & Hflat & _ & u & r & Ec & El & _ & _ & Es & _).
  rewrite (pw_quantity W) in Hle. pose proof (pw_range g p W) as Hr.
  destruct (close_lots_fifo g _ _ _ _ _ _ _ (pw_lots g p W) Hr Gq ltac:(lra) ltac:(lra) Ec) as (H1 & H2 & _ & _).
  assert (Hsum : (lots_quantity (ps_lots p') == lots_quantity (ps_lots p) - dval q)%Q).
  { unfold lots_quantity at 1. rewrite El, (qsum_eq _ _ H2). apply fifo_ref_sum.
    - apply (lots_ok_nonneg g), W.
    - split; [lra | exact Hle]. }
  assert (Eq : (dval (ps_quantity p - q)%dec == lots_quantity (ps_lots p) - dval q)%Q).
  { rewrite dsub_exact; rewrite (pw_quantity W); [reflexivity|].
    apply (fits_grid_nonneg g); [apply grid_sub; [apply lots_quantity_grid, W | exact Gq] | lra | lra]. }
  split; [split|split]; [rewrite El; exact H1 | rewrite Hsum; lra | | rewrite El; exact H2 | exact Hsum].
  rewrite Hsum, Es. destruct (dltb _ _) eqn:E; dec_prop; rewrite dval_zero, Eq in E.
  - split; [|lra]. intros Hs. apply (pw_side g p W) in Hs. apply not_true_iff_false in Hflat.
    rewrite (pw_flat W) in Hflat. contradiction.
  - split; [lra | reflexivity].
Qed.

Lemma position_mark_wf g p price p' :
  position_wf g p -> position_mark p price = Ok p' -> position_wf g p'.
Proof. intros [H1 H2 H3] H. unfold position_mark in H. py_inv. split; assumption. Qed.

Lemma funded_lots_q amount quantity lots :
  map lot_q (map (fun l => if (dzero <? lot_remaining_quantity l)%dec
      then lot_fund l (lot_funding l + ddiv_raw (amount * lot_remaining_quantity l) quantity)%dec
      else l) lots) = map lot_q lots.
Proof.
  rewrite List.map_map. apply map_ext. intros l. destruct (dltb _ _); reflexivity.
Qed.

Lemma position_funding_wf g p amount p' :
  position_wf g p -> position_apply_funding p amount = Ok p' -> position_wf g p'.
Proof.
  intros [H1 H2 H3] H. unfold position_apply_funding in H. py_inv.
  set (f := fun l : PositionLot => if (dzero <? lot_remaining_quantity l)%dec then _ else _).
  pose proof (funded_lots_q amount (ps_quantity p) (ps_lots p)) as E. fold f in E.
  split; cbn [ps_lots ps_side]; unfold lots_quantity; rewrite ?E; try assumption.
  apply (Forall_map lot_q (fun x => grid g x /\ 0 <= x)%Q). rewrite E. apply Forall_map. exact H1.
Qed.

(** ** The position's life as a step relation *)

(** The updates a position goes through; an opening quantity is on the
    instrument's grid and the total stays within 28 digits of it. *)
Inductive position_step (g : Z) : PositionState -> PositionState -> Prop :=
| step_open p fid side q price fee t p' :
    grid g (dval q) -> (lots_quantity (ps_lots p) + dval q < grid_max g)%Q ->
    open_fill p fid side q price fee t = Ok p' -> position_step g p p'
| step_close p q price fee t p' :
    grid g (dval q) -> close_fill p q price fee t = Ok p' -> position_step g p p'
| step_mark p price p' : position_mark p price = Ok p' -> position_step g p p'
| step_funding p amount p' : position_apply_funding p amount = Ok p' -> position_step g p p'.

Lemma position_step_wf g p p' : position_wf g p -> position_step g p p' -> position_wf g p'.
Proof.
  intros W H. destruct H.
  - eapply open_fill_wf; eassumption.
  - eapply close_fill_fifo; eassumption.
  - eapply position_mark_wf; eassumption.
  - eapply position_funding_wf; eassumption.
Qed.

Lemma position_step_version g p p' : position_step g p p' -> ps_version p' = ps_version p + 1 /\ ps_symbol p' = ps_symbol p.
Proof.
  intros [? ? ? ? ? ? ? ? _ _ H | ? ? ? ? ? ? _ H | ? ? ? H | ? ? ? H];
    unfold open_fill, close_fill, position_mark, position_apply_funding in H; py_inv; try (split; reflexivity).
  destruct (close_lots _ _ _ _ _). injection H as <-. split; reflexivity.
Qed.

(** Along every run of opening fills, closing fills, marks and funding
    from an empty position: the lots stay nonnegative multiples of the
    instrument's step, the program's [quantity] property is their exact total,
    the position reports [NEUTRAL] exactly when it is flat, and no update
    decreases the version. *)
Theorem position_run_invariant g pid eid sym p0 p :
  position_empty pid eid sym = Ok p0 -> star (position_step g) p0 p ->
  position_wf g p /\ (dval (ps_quantity p) == lots_quantity (ps_lots p))%Q /\
  (ps_side p = NEUTRAL <-> is_flat p = true) /\ ps_version p0 <= ps_version p /\ ps_symbol p = sym.
Proof.
  intros H0 Hs. assert (W : position_wf g p).
  { refine (star_invariant _ (position_wf g) (position_step_wf g) p0 p _ Hs).
    eapply position_empty_wf, H0. }
  split; [exact W|split; [apply (pw_quantity W)|split]].
  - rewrite (pw_flat W). apply W.
  - assert (Hv : ps_version p0 <= ps_version p /\ ps_symbol p0 = ps_symbol p).
    { revert Hs. apply (star_preorder _ (fun a b => ps_version a <= ps_version b /\ ps_symbol a = ps_symbol b)).
      - intros; split; [lia | reflexivity].
      - intros a b c [? ?] [? ?]; split; [lia | congruence].
      - intros a b Hab. apply position_step_version in Hab as [-> ->]. split; [lia | reflexivity]. }
    unfold position_empty in H0. py_inv. destruct Hv as [? <-]. split; [assumption | reflexivity].
Qed.

(** A positive quantity up to the open one can always be closed. *)
Lemma close_fill_total g p q price fee t :
  position_wf g p -> ps_side p <> NEUTRAL -> (0 < dval q)%Q -> (dval q <= lots_quantity (ps_lots p))%Q ->
  (0 < dval price)%Q -> (0 <= dval fee)%Q -> is_utc t = true -> exists p', close_fill p q price fee t = Ok p'.
Proof.
  intros W Hs Hq Hle Hp Hfee Ht.
  assert (Hflat : is_flat p = false).
  { apply not_true_iff_false. rewrite (pw_flat W). intros E. apply Hs, (pw_side g p W), E. }
  unfold close_fill. rewrite !require_positive_true by assumption.
  unfold _require_nonnegative. rewrite (proj2 (dltb_ge fee dzero)) by exact Hfee.
  rewrite (require_utc_true _ _ Ht), Hflat. cbn [bind raise_if orb].
  rewrite (proj2 (dltb_ge (ps_quantity p) q)) by (rewrite (pw_quantity W); exact Hle). cbn [bind raise_if].
  destruct (close_lots _ _ _ _ _). eauto.
Qed.

(** The realised result of a closing fill is the exact FIFO profit. *)
Lemma close_fill_pnl g gp P p q price fee t p' :
  position_wf g p -> grid g (dval q) -> price_ok gp P price ->
  Forall (fun l => price_ok gp P (lot_entry_price l)) (ps_lots p) ->
  (P < grid_max gp)%Q -> (P * dval q < grid_max (gp + g))%Q ->
  close_fill p q price fee t = Ok p' ->
  exists r, ps_realized_pnl p' = (ps_realized_pnl p + r)%dec /\
    (dval r == fifo_pnl (ps_side p) (dval price) (ps_lots p) (dval q))%Q.
Proof.
  intros W Gq Hp Hps HP HT H. pose proof (pw_range g p W) as Hr.
  apply close_fill_Ok in H as ((Hq & _ & Hle) & _ & _ & u & r & Ec & _ & Er & _).
  rewrite (pw_quantity W) in Hle. exists r. split; [exact Er|].
  assert (E : (dval r == dval dzero + fifo_pnl (ps_side p) (dval price) (ps_lots p) (dval q))%Q).
  { eapply (close_lots_pnl g gp P _ _ _ _ _ _ _ 0); try eassumption;
      rewrite ?dval_zero; [apply W | lra | lra | apply grid_0 | change (Qabs 0) with 0%Q; lra |].
    rewrite Qplus_0_l. exact HT. }
  rewrite E, dval_zero. ring.
Qed.

(** C33: On decimal grids that leave room for 28 digits (quantities on one grid,
    prices on another, their products below the bound of exact arithmetic),
    closing part or all of an open position succeeds for every positive
    quantity up to the open one and is exact first-in first-out: each lot keeps
    what the FIFO reference leaves, the realised result grows by exactly the
    FIFO profit of the closed quantities, and the position turns [NEUTRAL] with
    a closing time exactly when everything is closed. *)
Theorem close_fill_exact_fifo g gp P p q price fee t :
  position_wf g p -> ps_side p <> NEUTRAL -> grid g (dval q) ->
  (0 < dval q)%Q -> (dval q <= lots_quantity (ps_lots p))%Q -> (0 <= dval fee)%Q -> is_utc t = true ->
  price_ok gp P price -> Forall (fun l => price_ok gp P (lot_entry_price l)) (ps_lots p) ->
  (P < grid_max gp)%Q -> (P * dval q < grid_max (gp + g))%Q ->
  exists p' r, close_fill p q price fee t = Ok p' /\ position_wf g p' /\
    Forall2 Qeq (map lot_q (ps_lots p')) (fifo_ref (map lot_q (ps_lots p)) (dval q)) /\
    (dval (ps_quantity p') == dval (ps_quantity p) - dval q)%Q /\
    ps_realized_pnl p' = (ps_realized_pnl p + r)%dec /\
    (dval r == fifo_pnl (ps_side p) (dval price) (ps_lots p) (dval q))%Q /\
    (ps_side p' = NEUTRAL <-> (dval q == dval (ps_quantity p))%Q) /\
    (ps_side p' = NEUTRAL <-> ps_closed_at p' = Some t).
Proof.
  intros W Hs Gq Hq Hle Hfee Ht Hp Hps HP HT.
  destruct (close_fill_total g p q price fee t W Hs Hq Hle (proj1 (proj2 Hp)) Hfee Ht) as [p' H].
  pose proof (close_fill_fifo g _ _ _ _ _ _ W Gq H) as (W' & Hf & Hl).
  destruct (close_fill_pnl g gp P _ _ _ _ _ _ W Gq Hp Hps HP HT H) as (r & Er & Vr).
  apply close_fill_Ok in H as Hi. destruct Hi as (_ & _ & _ & u & r0 & _ & _ & _ & _ & Es & Ecl & _).
  exists p', r. split; [exact H|split; [exact W'|split; [exact Hf|split; [|split; [exact Er|split; [exact Vr|split]]]]]].
  - rewrite (pw_quantity W'), (pw_quantity W). exact Hl.
  - rewrite (pw_side g p' W'), Hl, (pw_quantity W). split; lra.
  - rewrite Es, Ecl. destruct (dltb _ _); [split; [contradiction | discriminate] | split; reflexivity].
Qed.

(** ** Witnesses *)

Definition sample_time : datetime := utc 1700000000000000.

(** Long 2 at 100, then 3 at 110. *)
Definition sample_position : PositionState :=
  match (let* p := position_empty 1 2 "BTCUSDT" in
         let* p := open_fill p 11 LONG (dint 2) (dint 100) (mkdec 1 (-1)) sample_time in
         open_fill p 12 LONG (dint 3) (dint 110) (mkdec 1 (-1)) sample_time) with
  | Ok p => p
  | Raise _ => {| ps_position_id := 0; ps_experiment_id := 0; ps_symbol := ""; ps_side := NEUTRAL;
                  ps_mark_price := dzero; ps_average_entry := dzero; ps_realized_pnl := dzero;
                  ps_fees := dzero; ps_funding := dzero; ps_lots := []; ps_opened_at := None;
                  ps_closed_at := None; ps_version := 0 |}
  end.

Lemma sample_position_run : exists p0,
  position_empty 1 2 "BTCUSDT" = Ok p0 /\ star (position_step (-3)) p0 sample_position.
Proof.
  eexists. split; [reflexivity|].
  eapply star_step; [apply (step_open (-3) _ 11 LONG (dint 2) (dint 100) (mkdec 1 (-1)) sample_time)|].
  - exists 2000. reflexivity.
  - reflexivity.
  - vm_compute. reflexivity.
  - eapply star_one, (step_open (-3) _ 12 LONG (dint 3) (dint 110) (mkdec 1 (-1)) sample_time).
    + exists 3000. reflexivity.
    + reflexivity.
    + vm_compute. reflexivity.
Qed.

Lemma sample_position_wf : position_wf (-3) sample_position.
Proof.
  destruct sample_position_run as (p0 & H & Hs).
  exact (star_invariant _ _ (position_step_wf (-3)) _ _ (position_empty_wf (-3) _ _ _ _ H) Hs).
Qed.

Lemma position_run_invariant_witness : exists p0,
  position_empty 1 2 "BTCUSDT" = Ok p0 /\ star (position_step (-3)) p0 sample_position /\
  (dval (ps_quantity sample_position) == 5)%Q /\
  (dval (ps_quantity sample_position) == lots_quantity (ps_lots sample_position))%Q.
Proof.
  destruct sample_position_run as (p0 & H & Hs).
  exists p0. split; [exact H|split; [exact Hs|split; [reflexivity|]]].
  exact (proj1 (proj2 (position_run_invariant (-3) 1 2 "BTCUSDT" p0 sample_position H Hs))).
Defined.

Lemma close_fill_exact_fifo_witness : exists p' r,
  close_fill sample_position (dint 4) (dint 120) (mkdec 1 (-1)) sample_time = Ok p' /\
  position_wf (-3) p' /\
  Forall2 Qeq (map lot_q (ps_lots p')) [0; 1]%Q /\ (dval r == 60)%Q.
Proof.
  destruct (close_fill_exact_fifo (-3) (-2) 1000 sample_position (dint 4) (dint 120) (mkdec 1 (-1)) sample_time)
    as (p' & r & H1 & H2 & H3 & _ & _ & H4 & _);
    [exact sample_position_wf | discriminate | exists 4000; reflexivity | reflexivity | discriminate
    | discriminate | reflexivity | | | reflexivity | reflexivity |].
  - split; [exists 12000; reflexivity | split; [reflexivity | discriminate]].
  - apply List.Forall_cons; [|apply List.Forall_cons; [|apply List.Forall_nil]];
      (split; [|split; [reflexivity | discriminate]]); [exists 10000 | exists 11000]; reflexivity.
  - exists p', r. split; [exact H1|split; [exact H2|split]].
    + etransitivity; [exact H3|].
      apply List.Forall2_cons; [reflexivity|apply List.Forall2_cons; [reflexivity|apply List.Forall2_nil]].
    + rewrite H4. reflexivity.
Defined.
