(* ===== verification/Account.v ===== *)
(** * Experiment account: [maais/execution/paper/account.py]

    The account keeps cash, the equity peak and one position per symbol.  The
    positions are a dictionary in insertion order, because the sums over its
    values are rounded in that order.  The model has the whole of every
    operation: fills, marks, funding and the reconciliation they end with. *)

From Stdlib Require Import ZArith QArith Qabs Lia Lqa List Bool String Morphisms.
From stdpp Require Import base decidable list strings.
From S2P Require Import Prelude PyDecimal DecimalTheory Domain Market Positions.

Local Open Scope Z_scope.

Record ReconciliationReport : Type := {
  cash_residual : dec;
  equity_residual : dec;
  margin_residual : dec
}.

Definition report_ok (r : ReconciliationReport) : bool :=
  (cash_residual r =? dzero)%dec && (equity_residual r =? dzero)%dec && (margin_residual r =? dzero)%dec.

Record AccountState : Type := {
  ac_experiment_id : UUID;
  ac_initial_capital : dec;
  ac_currency : string;
  ac_leverage : Z;
  ac_cash_balance : dec;
  ac_peak_equity : dec;
  ac_positions : pydict PositionState;
  ac_version : Z;
  ac_updated_at : option datetime
}.

Record AccountSnapshot : Type := {
  sn_cash_balance : dec; sn_equity : dec; sn_used_margin : dec; sn_free_margin : dec;
  sn_gross_notional : dec; sn_unrealized_pnl : dec; sn_realized_pnl : dec; sn_fees : dec;
  sn_funding : dec; sn_peak_equity : dec; sn_drawdown : dec
}.

Definition account_create (experiment_id : UUID) (initial_capital : dec) (currency : string) (leverage : Z)
  : result AccountState :=
  do* require_positive_decimal initial_capital "initial_capital" ;;
  do* raise_if (bool_decide (currency = "")) (ValueError "currency is required") ;;
  do* raise_if (negb ((1 <=? leverage) && (leverage <=? 5))) (ValueError "leverage must be between 1 and 5") ;;
  Ok {| ac_experiment_id := experiment_id; ac_initial_capital := initial_capital; ac_currency := currency;
        ac_leverage := leverage; ac_cash_balance := initial_capital; ac_peak_equity := initial_capital;
        ac_positions := []; ac_version := 0; ac_updated_at := None |}.

Definition ac_position (a : AccountState) (symbol : string) : result PositionState :=
  of_option (LookupError ("no position for " +:+ symbol)) (dict_get (ac_positions a) symbol).

(** [sum(f(position) for position in self.positions.values())]. *)
Definition over_positions (f : PositionState -> dec) (a : AccountState) : dec :=
  dsum (map f (dict_values (ac_positions a))).

Definition ac_realized_pnl : AccountState -> dec := over_positions ps_realized_pnl.
Definition ac_unrealized_pnl : AccountState -> dec := over_positions ps_unrealized_pnl.
Definition ac_fees : AccountState -> dec := over_positions ps_fees.
Definition ac_funding : AccountState -> dec := over_positions ps_funding.
Definition ac_gross_notional : AccountState -> dec := over_positions ps_gross_notional.

Definition used_margin (a : AccountState) : result dec := ddiv (ac_gross_notional a) (dint (ac_leverage a)).
Definition equity (a : AccountState) : dec := (ac_cash_balance a + ac_unrealized_pnl a)%dec.
Definition free_margin (a : AccountState) : result dec :=
  let* um := used_margin a in Ok (equity a - um)%dec.

(** The division is by a positive peak. *)
Definition drawdown (a : AccountState) : dec :=
  if (ac_peak_equity a <=? dzero)%dec then dzero
  else dmax dzero (ddiv_raw (ac_peak_equity a - equity a)%dec (ac_peak_equity a)).

Definition account_snapshot (a : AccountState) : result AccountSnapshot :=
  let* um := used_margin a in
  let* fm := free_margin a in
  Ok {| sn_cash_balance := ac_cash_balance a; sn_equity := equity a; sn_used_margin := um;
        sn_free_margin := fm; sn_gross_notional := ac_gross_notional a;
        sn_unrealized_pnl := ac_unrealized_pnl a; sn_realized_pnl := ac_realized_pnl a;
        sn_fees := ac_fees a; sn_funding := ac_funding a; sn_peak_equity := ac_peak_equity a;
        sn_drawdown := drawdown a |}.

Definition reconcile (a : AccountState) : result ReconciliationReport :=
  let expected_cash := (ac_initial_capital a + ac_realized_pnl a - ac_fees a + ac_funding a)%dec in
  let* margins := mapM (fun p => ddiv (ps_quantity p * ps_mark_price p)%dec (dint (ac_leverage a)))
                    (dict_values (ac_positions a)) in
  let* um := used_margin a in
  Ok {| cash_residual := (ac_cash_balance a - expected_cash)%dec;
        equity_residual := (equity a - (ac_cash_balance a + ac_unrealized_pnl a))%dec;
        margin_residual := (um - dsum margins)%dec |}.

(** [replace(self, cash_balance=..., positions=..., version=self.version + 1, updated_at=...)]. *)
Definition ac_update (a : AccountState) (cash : dec) (ps : pydict PositionState) (at_ : datetime) : AccountState := {|
  ac_experiment_id := ac_experiment_id a; ac_initial_capital := ac_initial_capital a;
  ac_currency := ac_currency a; ac_leverage := ac_leverage a; ac_cash_balance := cash;
  ac_peak_equity := ac_peak_equity a; ac_positions := ps; ac_version := ac_version a + 1;
  ac_updated_at := Some at_ |}.

(** [replace(candidate, peak_equity=max(peak, candidate.equity))]. *)
Definition ac_raise_peak (peak : dec) (a : AccountState) : AccountState := {|
  ac_experiment_id := ac_experiment_id a; ac_initial_capital := ac_initial_capital a;
  ac_currency := ac_currency a; ac_leverage := ac_leverage a; ac_cash_balance := ac_cash_balance a;
  ac_peak_equity := dmax peak (equity a); ac_positions := ac_positions a; ac_version := ac_version a;
  ac_updated_at := ac_updated_at a |}.

Definition opening_side (side : PaperOrderSide) : Direction := match side with BUY => LONG | SELL => SHORT end.

(** The two branches of [apply_fill]: the position and the cash after the fill. *)
Definition fill_open (a : AccountState) (fill_id position_id : UUID) (symbol : string) (side : PaperOrderSide)
    (quantity price fee : dec) (fill_at : datetime) : result (PositionState * dec) :=
  let* current :=
    match dict_get (ac_positions a) symbol with
    | None => position_empty position_id (ac_experiment_id a) symbol
    | Some p =>
        do* raise_if (negb (is_flat p) && negb (ps_position_id p =? position_id))
              (ValueError "position_id does not match the open position") ;;
        Ok p
    end in
  let* p' := open_fill current fill_id (opening_side side) quantity price fee fill_at in
  Ok (p', (ac_cash_balance a - fee)%dec).

Definition fill_reduce (a : AccountState) (symbol : string) (side : PaperOrderSide)
    (quantity price fee : dec) (fill_at : datetime) : result (PositionState * dec) :=
  match dict_get (ac_positions a) symbol with
  | None => Raise (ValueError "reduce-only fill has no open quantity")
  | Some p =>
      do* raise_if (is_flat p) (ValueError "reduce-only fill has no open quantity") ;;
      let expected_side := if bool_decide (ps_side p = LONG) then SELL else BUY in
      do* raise_if (negb (bool_decide (side = expected_side)))
            (ValueError "reduce-only fill side does not close the position") ;;
      let* p' := close_fill p quantity price fee fill_at in
      let realized_delta := (ps_realized_pnl p' - ps_realized_pnl p)%dec in
      Ok (p', (ac_cash_balance a + realized_delta - fee)%dec)
  end.

Definition apply_fill (a : AccountState) (fill_id position_id : UUID) (symbol : string)
    (side : PaperOrderSide) (effect : PositionEffect) (quantity price fee : dec) (fill_at : datetime)
  : result AccountState :=
  do* require_positive_decimal quantity "quantity" ;;
  do* require_positive_decimal price "price" ;;
  do* _require_nonnegative fee "fee" ;;
  do* require_utc fill_at "fill_at" ;;
  let* pc :=
    match effect with
    | OPEN => fill_open a fill_id position_id symbol side quantity price fee fill_at
    | REDUCE => fill_reduce a symbol side quantity price fee fill_at
    end in
  let candidate := ac_update a (snd pc) (dict_set (ac_positions a) symbol (fst pc)) fill_at in
  let candidate := ac_raise_peak (ac_peak_equity a) candidate in
  let* short :=
    match effect with
    | OPEN => let* fm := free_margin candidate in Ok (fm <? dzero)%dec
    | REDUCE => Ok false
    end in
  do* raise_if short (InsufficientMargin "paper account has insufficient free margin") ;;
  let* report := reconcile candidate in
  do* raise_if (negb (report_ok report)) (ArithmeticError "account reconciliation failed after fill") ;;
  Ok candidate.

Definition account_mark (a : AccountState) (symbol : string) (price : dec) (observed_at : datetime)
  : result AccountState :=
  do* require_utc observed_at "observed_at" ;;
  let* p := ac_position a symbol in
  let* p' := position_mark p price in
  Ok (ac_raise_peak (ac_peak_equity a)
        (ac_update a (ac_cash_balance a) (dict_set (ac_positions a) symbol p') observed_at)).

(** The amount a position of the given side receives. *)
Definition funding_amount (p : PositionState) (rate : dec) : dec :=
  let signed_amount := (ps_gross_notional p * rate)%dec in
  if bool_decide (ps_side p = LONG) then dneg signed_amount else signed_amount.

Definition account_apply_funding (a : AccountState) (symbol : string) (rate : dec) (observed_at : datetime)
  : result AccountState :=
  do* require_utc observed_at "observed_at" ;;
  let* p := ac_position a symbol in
  do* raise_if (is_flat p) (ValueError "cannot apply funding to a flat position") ;;
  let amount := funding_amount p rate in
  let* p' := position_apply_funding p amount in
  let candidate := ac_raise_peak (ac_peak_equity a)
        (ac_update a (ac_cash_balance a + amount)%dec (dict_set (ac_positions a) symbol p') observed_at) in
  let* report := reconcile candidate in
  do* raise_if (negb (report_ok report)) (ArithmeticError "account reconciliation failed after funding") ;;
  Ok candidate.

(** ** What every update guarantees *)

Lemma raise_peak_equity peak a : equity (ac_raise_peak peak a) = equity a.
Proof. reflexivity. Qed.

Lemma raise_peak_reconcile peak a : reconcile (ac_raise_peak peak a) = reconcile a.
Proof. reflexivity. Qed.

(** The equity identity holds by construction, whatever is rounded. *)
Lemma equity_residual_zero a r : reconcile a = Ok r -> (dval (equity_residual r) == 0)%Q.
Proof. unfold reconcile. intros H. py_inv. apply dsub_diag. reflexivity. Qed.

(** What an account update from [a] to [a'] that replaces one position does. *)
Record account_update (a a' : AccountState) (symbol : string) (p' : PositionState) (at_ : datetime) : Prop := {
  au_id : ac_experiment_id a' = ac_experiment_id a /\ ac_initial_capital a' = ac_initial_capital a /\
          ac_currency a' = ac_currency a /\ ac_leverage a' = ac_leverage a;
  au_version : ac_version a' = ac_version a + 1;
  au_time : ac_updated_at a' = Some at_;
  au_position : dict_get (ac_positions a') symbol = Some p';
  au_others : forall s, s <> symbol -> dict_get (ac_positions a') s = dict_get (ac_positions a) s;
  au_peak : ac_peak_equity a' = dmax (ac_peak_equity a) (equity a')
}.

Lemma update_spec a cash symbol p' at_ :
  account_update a (ac_raise_peak (ac_peak_equity a)
    (ac_update a cash (dict_set (ac_positions a) symbol p') at_)) symbol p' at_.
Proof.
  split; try reflexivity; cbn [ac_raise_peak ac_update ac_positions].
  - repeat split.
  - apply dict_get_set.
  - intros s Hs. now apply dict_get_set_ne.
Qed.

Lemma update_peak {a a' symbol p' t} : account_update a a' symbol p' t ->
  (dval (ac_peak_equity a) <= dval (ac_peak_equity a') /\ dval (equity a') <= dval (ac_peak_equity a'))%Q.
Proof. intros U. rewrite (au_peak _ _ _ _ _ U). split; [apply dmax_ub_l | apply dmax_ub_r]. Qed.

(** The statements of [apply_fill], on a successful call. *)
Lemma apply_fill_Ok a fid pid symbol side effect q price fee t a' :
  apply_fill a fid pid symbol side effect q price fee t = Ok a' ->
  (0 < dval q /\ 0 < dval price /\ 0 <= dval fee)%Q /\ is_utc t = true /\
  exists p' cash,
    match effect with
    | OPEN => fill_open a fid pid symbol side q price fee t
    | REDUCE => fill_reduce a symbol side q price fee t
    end = Ok (p', cash) /\
    a' = ac_raise_peak (ac_peak_equity a) (ac_update a cash (dict_set (ac_positions a) symbol p') t) /\
    (effect = OPEN -> exists fm, free_margin a' = Ok fm /\ (0 <= dval fm)%Q) /\
    (exists r, reconcile a' = Ok r /\ report_ok r = true).
Proof.
  unfold apply_fill. intros H. py_inv. unfold _require_nonnegative in *. py_inv. dec_prop.
  apply require_positive_Ok in H0, H1. apply require_utc_Ok in H3. destruct v3 as [p' cash].
  split; [auto|split; [exact H3|]]. exists p', cash. split; [exact H4|split; [reflexivity|split]].
  - intros ->. py_inv. eexists; split; [eassumption|]. dec_prop. assumption.
  - eexists; split; [eassumption|]. bool_prop. assumption.
Qed.

(** A fill that the account accepts changes only the traded symbol's
    position, advances the version by one, stamps the fill time, raises the
    equity peak to at least the new equity and never lowers it, leaves
    nonnegative free margin after an opening fill, and leaves books that
    reconcile: the three residuals of [reconcile] are exactly zero. *)
Theorem apply_fill_sound a fid pid symbol side effect q price fee t a' :
  apply_fill a fid pid symbol side effect q price fee t = Ok a' ->
  (exists p', account_update a a' symbol p' t /\ ps_mark_price p' = price) /\
  (dval (ac_peak_equity a) <= dval (ac_peak_equity a') /\ dval (equity a') <= dval (ac_peak_equity a'))%Q /\
  (effect = OPEN -> exists fm, free_margin a' = Ok fm /\ (0 <= dval fm)%Q) /\
  exists r, reconcile a' = Ok r /\ (dval (cash_residual r) == 0)%Q /\
    (dval (equity_residual r) == 0)%Q /\ (dval (margin_residual r) == 0)%Q.
Proof.
  intros H. apply apply_fill_Ok in H as (_ & _ & p' & cash & Hp & -> & Hm & r & Hr & Hok).
  pose proof (update_spec a cash symbol p' t) as U. split; [|split; [exact (update_peak U)|split; [exact Hm|]]].
  - exists p'. split; [exact U|]. destruct effect; unfold fill_open, fill_reduce in Hp; py_inv.
    + unfold open_fill in *. py_inv. reflexivity.
    + destruct (dict_get _ _); [|discriminate]. py_inv.
      match goal with H : close_fill _ _ _ _ _ = Ok _ |- _ => apply close_fill_Ok in H as Hc end.
      destruct Hc as (_ & _ & _ & u & r' & _ & _ & _ & _ & _ & _ & _ & _ & Hmk). exact Hmk.
  - exists r. split; [exact Hr|]. unfold report_ok in Hok. bool_prop. dec_prop. rewrite dval_zero in *. auto.
Qed.

(** Marking a known symbol changes only its mark price; the drawdown an
    account reports is always nonnegative, and zero right after an update that
    set a new peak. *)
Theorem account_mark_sound a symbol price t a' :
  account_mark a symbol price t = Ok a' ->
  (exists p p', dict_get (ac_positions a) symbol = Some p /\ position_mark p price = Ok p' /\
     account_update a a' symbol p' t) /\
  ac_cash_balance a' = ac_cash_balance a /\
  (dval (ac_peak_equity a) <= dval (ac_peak_equity a') /\ dval (equity a') <= dval (ac_peak_equity a'))%Q /\
  (0 <= dval (drawdown a'))%Q /\
  (dval (ac_peak_equity a) <= dval (equity a') -> dval (drawdown a') == 0)%Q.
Proof.
  unfold account_mark, ac_position. intros H. py_inv.
  pose proof (update_spec a (ac_cash_balance a) symbol v1 t) as U.
  set (a' := ac_raise_peak _ _) in *.
  split; [eauto|split; [reflexivity|split; [exact (update_peak U)|split]]].
  - unfold drawdown. destruct (dleb _ _); [apply Qle_refl|]. rewrite <- dval_zero at 1. apply dmax_ub_l.
  - intros Hpk. unfold drawdown. destruct (dleb _ _) eqn:E; [reflexivity|]. dec_prop. rewrite dval_zero in E.
    assert (Hz : (dval (ac_peak_equity a' - equity a')%dec == 0)%Q).
    { apply dsub_diag. rewrite (au_peak _ _ _ _ _ U). unfold dmax, deq.
      destruct (dltb _ _) eqn:E2; dec_prop; lra. }
    assert (Hd : (dval (ddiv_raw (ac_peak_equity a' - equity a')%dec (ac_peak_equity a')) == 0)%Q).
    { apply (rounded_zero (ddiv_rounded _ (ac_peak_equity a') ltac:(lra))). rewrite Hz. unfold Qdiv. ring. }
    destruct (dmax_case dzero (ddiv_raw (ac_peak_equity a' - equity a')%dec (ac_peak_equity a'))) as [->| ->];
      [reflexivity | exact Hd].
Qed.

(** ** Exact books

    Prices are multiples of [10^gp] up to [P], quantities multiples of [10^g]
    and money amounts multiples of [10^m].  While the magnitudes stay within
    28 digits of these grids nothing is rounded, and the account is a ledger:
    cash is exactly capital plus realised results minus fees plus funding. *)

Section Books.
Context (g gp m : Z) (P : Q) (Hm : m <= gp + g) (HP : (P < grid_max gp)%Q).

Record position_ok (p : PositionState) : Prop := {
  po_wf : position_wf g p;
  po_mark : grid gp (dval (ps_mark_price p)) /\ (0 <= dval (ps_mark_price p))%Q /\ (dval (ps_mark_price p) <= P)%Q;
  po_entries : Forall (fun l => price_ok gp P (lot_entry_price l)) (ps_lots p);
  po_money : grid m (dval (ps_realized_pnl p)) /\ grid m (dval (ps_fees p)) /\ grid m (dval (ps_funding p))
}.

(** Exact totals over the positions. *)
Definition psum (f : PositionState -> Q) (a : AccountState) : Q :=
  qsum (map f (dict_values (ac_positions a))).
Definition qrealized (p : PositionState) : Q := dval (ps_realized_pnl p).
Definition qfees (p : PositionState) : Q := dval (ps_fees p).
Definition qfunding (p : PositionState) : Q := dval (ps_funding p).
Definition qlots (p : PositionState) : Q := lots_quantity (ps_lots p).
Definition qturn (p : PositionState) : Q := (Qabs (qrealized p) + Qabs (qfees p) + Qabs (qfunding p))%Q.
Definition turnover (a : AccountState) : Q := (Qabs (dval (ac_initial_capital a)) + psum qturn a)%Q.
Definition exposure (a : AccountState) : Q := psum qlots a.

Definition ledger_balance (a : AccountState) : Q :=
  (dval (ac_initial_capital a) + psum qrealized a - psum qfees a + psum qfunding a)%Q.

Record books (a : AccountState) : Prop := {
  bo_positions : Forall position_ok (dict_values (ac_positions a));
  bo_capital : grid m (dval (ac_initial_capital a));
  bo_balance : (dval (ac_cash_balance a) == ledger_balance a)%Q;
  bo_turnover : (turnover a < grid_max m)%Q;
  bo_exposure : (P * exposure a < grid_max (gp + g - 2))%Q
}.

Lemma qsum_map_le (f h : PositionState -> Q) l : (forall p, f p <= h p)%Q -> (qsum (map f l) <= qsum (map h l))%Q.
Proof. intros H. induction l as [|x l IH]; cbn [map qsum]; [apply Qle_refl|]. pose proof (H x). lra. Qed.

Lemma qsum_map_add (f h : PositionState -> Q) l :
  (qsum (map (fun p => f p + h p) l) == qsum (map f l) + qsum (map h l))%Q.
Proof. induction l as [|x l IH]; cbn [map qsum]; [ring|]. rewrite IH. ring. Qed.

Lemma psum_dsum (f : PositionState -> dec) a :
  Forall (fun p => grid m (dval (f p))) (dict_values (ac_positions a)) ->
  (psum (fun p => Qabs (dval (f p))) a < grid_max m)%Q ->
  (dval (over_positions f a) == psum (fun p => dval (f p)) a)%Q.
Proof.
  intros Hg Hb. unfold over_positions, psum in *. rewrite (dsum_exact_abs m); rewrite ?List.map_map; try assumption.
  - reflexivity.
  - now apply Forall_map.
Qed.

Lemma turn_parts a :
  (psum (fun p => Qabs (qrealized p)) a + psum (fun p => Qabs (qfees p)) a + psum (fun p => Qabs (qfunding p)) a
    == psum qturn a)%Q.
Proof. unfold psum, qturn. rewrite !qsum_map_add. reflexivity. Qed.

Lemma psum_abs_nonneg f a : (0 <= psum (fun p => Qabs (f p)) a)%Q.
Proof. apply qsum_nonneg, Forall_map, List.Forall_forall. intros. apply Qabs_nonneg. Qed.

Lemma psum_abs_le f a : (Qabs (psum f a) <= psum (fun p => Qabs (f p)) a)%Q.
Proof. unfold psum. eapply Qle_trans; [apply qsum_abs_le|]. rewrite List.map_map. apply Qle_refl. Qed.

Lemma psum_grid f a : Forall (fun p => grid m (f p)) (dict_values (ac_positions a)) -> grid m (psum f a).
Proof. intros H. now apply qsum_grid, Forall_map. Qed.

Section Reconcile.
Context (a : AccountState) (B : books a).

Lemma bo_money : Forall (fun p => grid m (qrealized p)) (dict_values (ac_positions a)) /\
  Forall (fun p => grid m (qfees p)) (dict_values (ac_positions a)) /\
  Forall (fun p => grid m (qfunding p)) (dict_values (ac_positions a)).
Proof.
  pose proof (bo_positions a B) as H.
  split; [|split]; (eapply List.Forall_impl; [|exact H]; intros p Hp; apply Hp).
Qed.

Context (L : Z) (EL : ac_leverage a = L) (HL : 0 < L) (DL : (L | 100)).

(** The running totals of [expected_cash], each within the turnover. *)
Lemma ledger_parts :
  let c := dval (ac_initial_capital a) in
  (Qabs (c + psum qrealized a) <= turnover a /\
   Qabs (c + psum qrealized a - psum qfees a) <= turnover a /\ Qabs (ledger_balance a) <= turnover a)%Q.
Proof.
  intros c. pose proof (turn_parts a) as Ht. unfold turnover, ledger_balance. fold c.
  pose proof (psum_abs_le qrealized a). pose proof (psum_abs_le qfees a). pose proof (psum_abs_le qfunding a).
  pose proof (psum_abs_nonneg qfees a). pose proof (psum_abs_nonneg qfunding a).
  pose proof (Qabs_triangle c (psum qrealized a)) as T1.
  pose proof (Qabs_triangle (c + psum qrealized a) (- psum qfees a)) as T2. rewrite Qabs_opp in T2.
  pose proof (Qabs_triangle (c + psum qrealized a - psum qfees a) (psum qfunding a)) as T3.
  unfold Qminus in *. repeat split; lra.
Qed.

Lemma cash_reconciles :
  (dval (ac_initial_capital a + ac_realized_pnl a - ac_fees a + ac_funding a)%dec == ledger_balance a)%Q.
Proof.
  destruct bo_money as (G1 & G2 & G3). destruct ledger_parts as (L1 & L2 & L3).
  pose proof (bo_turnover a B) as Hb. pose proof (turn_parts a) as Ht.
  pose proof (psum_abs_nonneg qrealized a). pose proof (psum_abs_nonneg qfees a).
  pose proof (psum_abs_nonneg qfunding a). pose proof (Qabs_nonneg (dval (ac_initial_capital a))).
  unfold turnover in Hb.
  assert (E1 : (dval (ac_realized_pnl a) == psum qrealized a)%Q)
    by (apply psum_dsum; [exact G1 | unfold qrealized in *; lra]).
  assert (E2 : (dval (ac_fees a) == psum qfees a)%Q) by (apply psum_dsum; [exact G2 | unfold qfees in *; lra]).
  assert (E3 : (dval (ac_funding a) == psum qfunding a)%Q)
    by (apply psum_dsum; [exact G3 | unfold qfunding in *; lra]).
  pose proof (grid_add _ _ _ (bo_capital a B) (psum_grid _ _ G1)) as K1.
  pose proof (grid_sub _ _ _ K1 (psum_grid _ _ G2)) as K2.
  pose proof (grid_add _ _ _ K2 (psum_grid _ _ G3)) as K3.
  pose proof (bo_turnover a B) as Hb'.
  assert (F1 : (dval (ac_initial_capital a + ac_realized_pnl a)%dec
                == dval (ac_initial_capital a) + psum qrealized a)%Q).
  { rewrite dadd_exact; rewrite E1; [reflexivity | apply (fits_grid m); [exact K1 | lra]]. }
  assert (F2 : (dval (ac_initial_capital a + ac_realized_pnl a - ac_fees a)%dec
                == dval (ac_initial_capital a) + psum qrealized a - psum qfees a)%Q).
  { rewrite dsub_exact; rewrite F1, E2; [reflexivity | apply (fits_grid m); [exact K2 | lra]]. }
  rewrite dadd_exact; rewrite F2, E3; [reflexivity | apply (fits_grid m); [exact K3 | unfold ledger_balance in L3; lra]].
Qed.

Lemma margin_div x : grid (gp + g) (dval x) -> (0 <= dval x)%Q -> (dval x < grid_max (gp + g - 2))%Q ->
  (dval (ddiv_raw x (dint L)) == dval x / inject_Z L)%Q /\ grid (gp + g - 2) (dval x / inject_Z L) /\
  (0 <= dval x / inject_Z L)%Q /\ (dval x / inject_Z L <= dval x)%Q.
Proof.
  intros [n En] H0 Hb. destruct DL as [c Hc]. pose proof (inject_Z_pos L HL) as PL.
  assert (G : grid (gp + g - 2) (dval x / inject_Z L)).
  { exists (n * c). rewrite En, (pow10_split (gp + g) (gp + g - 2)) by lia.
    replace (gp + g - (gp + g - 2)) with 2 by lia. change (10 ^ 2) with 100. rewrite Hc, !inject_Z_mult.
    field. lra. }
  assert (H1 : (0 <= dval x / inject_Z L)%Q) by now apply Qdiv_nonneg.
  assert (H2 : (dval x / inject_Z L <= dval x)%Q).
  { apply Qle_shift_div_r; [exact PL|]. assert (1 <= inject_Z L)%Q.
    { change 1%Q with (inject_Z 1). apply inject_Z_le. lia. } nra. }
  split; [|auto]. rewrite (rounded_fits (ddiv_rounded x (dint L) ltac:(rewrite dval_int; lra))); rewrite dval_int;
    [reflexivity|]. apply (fits_grid_nonneg (gp + g - 2)); [exact G | exact H1 | lra].
Qed.

Lemma grid_max_mono k h : k <= h -> (grid_max k <= grid_max h)%Q.
Proof.
  intros H. unfold grid_max. pose proof (pow10_mono k h H).
  assert (0 < inject_Z (10 ^ prec))%Q by reflexivity. nra.
Qed.

Lemma qlots_nonneg : Forall (fun x => 0 <= x)%Q (map qlots (dict_values (ac_positions a))).
Proof.
  apply Forall_map. eapply List.Forall_impl; [|apply (bo_positions a B)].
  intros p Hp. apply (pw_nonneg (po_wf p Hp)).
Qed.

Lemma notional_exact p : position_ok p -> (P * qlots p < grid_max (gp + g - 2))%Q ->
  let v := (qlots p * dval (ps_mark_price p))%Q in
  (dval (ps_gross_notional p) == v)%Q /\ grid (gp + g) v /\ (0 <= v)%Q /\ (v <= P * qlots p)%Q.
Proof.
  intros [W (Gm & M0 & MP) _ _] Hb v. unfold ps_gross_notional.
  pose proof (pw_nonneg W) as Hn. fold (qlots p) in Hn.
  assert (Gv : grid (gp + g) v).
  { unfold v. replace (gp + g) with (g + gp) by lia. apply grid_mul; [apply lots_quantity_grid, W | exact Gm]. }
  assert (Bv : (v <= P * qlots p)%Q) by (unfold v; nra). assert (Nv : (0 <= v)%Q) by (unfold v; nra).
  pose proof (grid_max_mono (gp + g - 2) (gp + g) ltac:(lia)).
  split; [|auto]. rewrite dmul_exact; rewrite (pw_quantity W); [reflexivity|].
  apply (fits_grid_nonneg (gp + g)); [exact Gv | exact Nv | fold (qlots p) v; lra].
Qed.

(** The per-position margins add up to the margin of the total. *)
Lemma margin_sums ps :
  Forall position_ok ps -> (P * qsum (map qlots ps) < grid_max (gp + g - 2))%Q -> (0 < P)%Q ->
  let vs := map (fun p => qlots p * dval (ps_mark_price p))%Q ps in
  Forall (fun d => grid (gp + g) (dval d) /\ 0 <= dval d)%Q (map ps_gross_notional ps) /\
  Forall (fun d => grid (gp + g - 2) (dval d) /\ 0 <= dval d)%Q
    (map (fun p => ddiv_raw (ps_gross_notional p) (dint L)) ps) /\
  (qsum (map dval (map ps_gross_notional ps)) <= P * qsum (map qlots ps))%Q /\
  (qsum (map dval (map (fun p => ddiv_raw (ps_gross_notional p) (dint L)) ps))
    == qsum (map dval (map ps_gross_notional ps)) / inject_Z L)%Q.
Proof.
  intros Hps. induction Hps as [|p ps Hp Hps IH]; intros Hb HP0; cbn [map qsum].
  - split; [apply List.Forall_nil|split; [apply List.Forall_nil|split; [lra|]]]. field. pose proof (inject_Z_pos L HL). lra.
  - pose proof (pw_nonneg (po_wf p Hp)) as Hn. fold (qlots p) in Hn.
    assert (Hn' : (0 <= qsum (map qlots ps))%Q).
    { apply qsum_nonneg, Forall_map. eapply List.Forall_impl; [|exact Hps].
      intros x Hx. apply (pw_nonneg (po_wf x Hx)). }
    cbn [map qsum] in Hb. assert (0 <= P * qlots p)%Q by nra. assert (0 <= P * qsum (map qlots ps))%Q by nra.
    destruct (notional_exact p Hp) as (E & G & N & Bv); [lra|].
    destruct (margin_div (ps_gross_notional p)) as (E2 & G2 & N2 & B2);
      [rewrite E; exact G | rewrite E; exact N | rewrite E; lra |].
    destruct IH as (I1 & I2 & I3 & I4); [lra | exact HP0 |].
    split; [apply List.Forall_cons; [rewrite E; auto | exact I1]|].
    split; [apply List.Forall_cons; [rewrite E2; auto | exact I2]|]. split; [rewrite E; lra|].
    rewrite E2, I4. field. pose proof (inject_Z_pos L HL). lra.
Qed.

(** Balanced books reconcile: all three residuals are zero. *)
Lemma books_reconcile : (0 < P)%Q -> exists r, reconcile a = Ok r /\ report_ok r = true.
Proof.
  intros HP0. pose proof (inject_Z_pos L HL) as PL. pose proof (bo_exposure a B) as Hb.
  destruct (margin_sums _ (bo_positions a B) Hb HP0) as (S1 & S2 & S3 & S4).
  set (ps := dict_values (ac_positions a)) in *.
  assert (Hdiv : forall x, ddiv x (dint L) = Ok (ddiv_raw x (dint L)))
    by (intros x; apply ddiv_total; rewrite dval_int; lra).
  assert (Em : mapM (fun p => ddiv (ps_quantity p * ps_mark_price p)%dec (dint L)) ps
               = Ok (map (fun p => ddiv_raw (ps_gross_notional p) (dint L)) ps)).
  { apply mapM_Forall2. clear -Hdiv. induction ps as [|p ps IH]; [apply List.Forall2_nil | apply List.Forall2_cons; [apply Hdiv | exact IH]]. }
  unfold reconcile, used_margin. rewrite EL. fold ps. rewrite Em, Hdiv. cbn [bind].
  eexists; split; [reflexivity|]. unfold report_ok; cbn [cash_residual equity_residual margin_residual].
  rewrite !andb_true_iff, !deqb_eq, dval_zero. fold ps in Hb. unfold exposure, psum in Hb. fold ps in Hb.
  pose proof (grid_max_mono (gp + g - 2) (gp + g) ltac:(lia)).
  assert (En : (dval (ac_gross_notional a) == qsum (map dval (map ps_gross_notional ps)))%Q).
  { apply (dsum_exact (gp + g)); [exact S1 | lra]. }
  repeat split; apply dsub_diag; unfold deq; [rewrite cash_reconciles; apply B | reflexivity |].
  assert (Hnn : (0 <= qsum (map dval (map ps_gross_notional ps)))%Q).
  { apply qsum_nonneg, Forall_map. eapply List.Forall_impl; [|exact S1]. simpl; tauto. }
  destruct (margin_div (ac_gross_notional a)) as (E2 & _ & _ & B2); [rewrite En | rewrite En; exact Hnn | rewrite En; lra |].
  { apply qsum_grid, Forall_map. eapply List.Forall_impl; [|exact S1]. simpl; tauto. }
  rewrite E2, En, (dsum_exact (gp + g - 2)), S4; [reflexivity | exact S2 | rewrite S4, <- En; lra].
Qed.
End Reconcile.

(** *** Replacing one position *)

(** What the symbol's present position contributes to a total. *)
Definition contrib (f : PositionState -> Q) (a : AccountState) (symbol : string) : Q :=
  match dict_get (ac_positions a) symbol with Some p => f p | None => 0%Q end.

Lemma psum_set f (d : pydict PositionState) symbol p' :
  (qsum (map f (dict_values (dict_set d symbol p'))) ==
   qsum (map f (dict_values d)) - match dict_get d symbol with Some p => f p | None => 0 end + f p')%Q.
Proof.
  unfold dict_values in *. induction d as [|[k v] d IH]; cbn [dict_set dict_get map snd qsum]; [ring|].
  destruct (decide (symbol = k)); cbn [map snd qsum]; [ring|]. rewrite IH. ring.
Qed.

Lemma psum_update f a cash symbol p' t :
  (psum f (ac_update a cash (dict_set (ac_positions a) symbol p') t) == psum f a - contrib f a symbol + f p')%Q.
Proof. apply psum_set. Qed.

Lemma books_update a cash symbol p' t x :
  books a -> position_ok p' ->
  (dval cash == dval (ac_cash_balance a) + (qrealized p' - contrib qrealized a symbol)
     - (qfees p' - contrib qfees a symbol) + (qfunding p' - contrib qfunding a symbol))%Q ->
  (turnover a + x < grid_max m)%Q -> (qturn p' <= contrib qturn a symbol + x)%Q ->
  (P * (exposure a - contrib qlots a symbol + qlots p') < grid_max (gp + g - 2))%Q ->
  books (ac_raise_peak (ac_peak_equity a) (ac_update a cash (dict_set (ac_positions a) symbol p') t)).
Proof.
  intros B Hp Hc Ht Hx He. set (a1 := ac_update _ _ _ _). assert (B1 : books a1).
  { split.
    - apply dict_set_Forall; [apply B | exact Hp].
    - apply B.
    - unfold ledger_balance. unfold a1. rewrite !psum_update. cbn [ac_update ac_cash_balance ac_initial_capital].
      rewrite Hc, (bo_balance a B). unfold ledger_balance. ring.
    - unfold turnover in *. unfold a1. rewrite psum_update. cbn [ac_update ac_initial_capital]. lra.
    - unfold exposure in *. unfold a1. rewrite psum_update. exact He. }
  destruct B1 as [H1 H2 H3 H4 H5]. split; assumption.
Qed.

Lemma contrib_le f a symbol : (forall p, 0 <= f p)%Q -> (contrib f a symbol <= psum f a)%Q.
Proof.
  intros Hf. unfold contrib, psum, dict_values.
  induction (ac_positions a) as [|[k v] d IH]; cbn [dict_get map snd qsum]; [lra|].
  assert (0 <= qsum (map f (map snd d)))%Q
    by (apply qsum_nonneg, Forall_map, List.Forall_forall; intros; apply Hf).
  destruct (decide (symbol = k)); pose proof (Hf v); lra.
Qed.

Lemma contrib_qlots_le a symbol : books a -> (contrib qlots a symbol <= exposure a)%Q.
Proof.
  intros B. pose proof (qlots_nonneg a B) as H. unfold contrib, exposure, psum, dict_values in *.
  induction (ac_positions a) as [|[k v] d IH]; cbn [dict_get map snd qsum] in *; [lra|].
  apply Forall_cons in H as [H1 H2]. pose proof (qsum_nonneg _ H2) as H3.
  destruct (decide (symbol = k)); [lra|]. specialize (IH H2). lra.
Qed.

Lemma qturn_nonneg p : (0 <= qturn p)%Q.
Proof.
  unfold qturn. pose proof (Qabs_nonneg (qrealized p)). pose proof (Qabs_nonneg (qfees p)).
  pose proof (Qabs_nonneg (qfunding p)). lra.
Qed.

(** A money amount stays exact when the turnover leaves room for the change. *)
Lemma money_add_exact a symbol x y z :
  (turnover a + z < grid_max m)%Q -> grid m (dval x) -> grid m (dval y) ->
  (Qabs (dval x) <= contrib qturn a symbol)%Q -> (Qabs (dval y) <= z)%Q ->
  (dval (x + y)%dec == dval x + dval y)%Q /\ grid m (dval x + dval y).
Proof.
  intros Ht Gx Gy Bx By. pose proof (contrib_le qturn a symbol qturn_nonneg).
  pose proof (Qabs_triangle (dval x) (dval y)). pose proof (Qabs_nonneg (dval (ac_initial_capital a))).
  unfold turnover in Ht.
  split; [|now apply grid_add]. apply dadd_exact, (fits_grid m); [now apply grid_add | lra].
Qed.

Lemma cash_bound a : books a -> (Qabs (dval (ac_cash_balance a)) <= turnover a)%Q /\ grid m (dval (ac_cash_balance a)).
Proof.
  intros B. rewrite (bo_balance a B). destruct (ledger_parts a) as (_ & _ & H). split; [exact H|].
  destruct (bo_money a B) as (G1 & G2 & G3). unfold ledger_balance.
  apply grid_add; [apply grid_sub; [apply grid_add; [apply B|]|]|]; now apply psum_grid.
Qed.

Lemma position_empty_ok pid eid sym p : (0 < P)%Q -> position_empty pid eid sym = Ok p ->
  position_ok p /\ (qrealized p == 0)%Q /\ (qfees p == 0)%Q /\ (qfunding p == 0)%Q /\ (qlots p == 0)%Q /\ (qturn p == 0)%Q.
Proof.
  intros HP0 H. pose proof (position_empty_wf g _ _ _ _ H) as W. unfold position_empty in H. py_inv.
  split; [|repeat split; reflexivity]. split; [exact W | | apply List.Forall_nil | repeat split; apply grid_0].
  split; [apply grid_0 | split; [apply Qle_refl | exact (Qlt_le_weak _ _ HP0)]].
Qed.

(** The position a fill on [symbol] starts from. *)
Lemma current_ok a symbol p : books a -> dict_get (ac_positions a) symbol = Some p ->
  position_ok p /\ (forall f, contrib f a symbol = f p).
Proof.
  intros B E. split; [exact (dict_get_Forall _ _ _ _ (bo_positions a B) E)|].
  intros f. unfold contrib. now rewrite E.
Qed.

Lemma qturn_change p p' x : (Qabs (qrealized p' - qrealized p) + Qabs (qfees p' - qfees p) +
    Qabs (qfunding p' - qfunding p) <= x)%Q -> (qturn p' <= qturn p + x)%Q.
Proof.
  intros H. unfold qturn.
  pose proof (Qabs_triangle (qrealized p) (qrealized p' - qrealized p)) as T1.
  pose proof (Qabs_triangle (qfees p) (qfees p' - qfees p)) as T2.
  pose proof (Qabs_triangle (qfunding p) (qfunding p' - qfunding p)) as T3.
  assert (E : forall u v : Q, (u + (v - u) == v)%Q) by (intros; ring). rewrite !E in *. lra.
Qed.

Lemma open_position_ok a symbol cur fid side q price fee t p' :
  position_ok cur -> (forall f, In f [qrealized; qfees; qfunding; qlots; qturn] -> f cur == contrib f a symbol)%Q ->
  (turnover a + dval fee < grid_max m)%Q ->
  grid g (dval q) -> (qlots cur + dval q < grid_max g)%Q -> price_ok gp P price -> grid m (dval fee) ->
  open_fill cur fid side q price fee t = Ok p' ->
  position_ok p' /\ (qrealized p' == qrealized cur)%Q /\ (qfunding p' == qfunding cur)%Q /\
  (qfees p' == qfees cur + dval fee)%Q /\ (qlots p' == qlots cur + dval q)%Q /\ (0 <= dval fee)%Q.
Proof.
  intros Hc Hf Ht Gq Bq Hp Gf H.
  destruct (open_fill_wf g _ _ _ _ _ _ _ _ (po_wf _ Hc) Gq Bq H) as (W' & El & _).
  unfold open_fill in H. py_inv. unfold _require_nonnegative in *. py_inv. dec_prop. rewrite dval_zero in *.
  destruct (po_money _ Hc) as (M1 & M2 & M3).
  destruct (money_add_exact a symbol (ps_fees cur) fee (dval fee)) as (Ef & Gf'); try assumption.
  { rewrite <- Hf by (simpl; tauto). unfold qturn. pose proof (Qabs_nonneg (qrealized cur)).
    pose proof (Qabs_nonneg (qfunding cur)). unfold qfees. lra. }
  { rewrite Qabs_pos; [apply Qle_refl | assumption]. }
  split; [|split; [reflexivity|split; [reflexivity|split; [exact Ef|split; [exact El | assumption]]]]].
  split; [exact W' | | | cbn; rewrite Ef; auto]; cbn [ps_mark_price ps_lots].
  - destruct Hp as (G1 & G2 & G3). split; [exact G1 | split; [lra | exact G3]].
  - apply List.Forall_app; split; [apply Hc|]. apply List.Forall_cons; [exact Hp | apply List.Forall_nil].
Qed.

Lemma close_position_ok a symbol p q price fee t p' :
  position_ok p -> (forall f, contrib f a symbol = f p) ->
  (turnover a + (P * dval q + dval fee) < grid_max m)%Q -> (P * qlots p < grid_max (gp + g - 2))%Q ->
  grid g (dval q) -> price_ok gp P price -> grid m (dval fee) -> (0 <= dval fee)%Q ->
  close_fill p q price fee t = Ok p' ->
  let r := fifo_pnl (ps_side p) (dval price) (ps_lots p) (dval q) in
  position_ok p' /\ (qrealized p' == qrealized p + r)%Q /\ (qfunding p' == qfunding p)%Q /\
  (qfees p' == qfees p + dval fee)%Q /\ (qlots p' == qlots p - dval q)%Q /\
  grid m r /\ (Qabs r <= P * dval q)%Q /\ (dval (ps_realized_pnl p' - ps_realized_pnl p)%dec == r)%Q.
Proof.
  intros Hc Hf Ht Hb Gq Hp Gf Hfee H.
  pose proof (close_fill_fifo g _ _ _ _ _ _ (po_wf _ Hc) Gq H) as (W' & _ & El).
  apply close_fill_Ok in H as ((Hq & _ & Hle) & _ & _ & u & r & Ec & Eu & Er & _ & _ & _ & Efe & Efu & Emk).
  rewrite (pw_quantity (po_wf _ Hc)) in Hle. fold (qlots p) in Hle.
  pose proof (pw_range g p (po_wf _ Hc)) as Hr. fold (qlots p) in Hr.
  assert (HP0 : (0 < P)%Q) by (destruct Hp as (_ & ? & ?); lra).
  destruct (fifo_pnl_bound g gp P (ps_side p) price (ps_lots p) (dval q) (pw_lots g p (po_wf _ Hc)) Gq
    (Qlt_le_weak _ _ Hq) Hp (po_entries _ Hc)) as [Gr Br].
  pose proof (grid_max_mono (gp + g - 2) (gp + g) ltac:(lia)).
  assert (Vr : (dval r == fifo_pnl (ps_side p) (dval price) (ps_lots p) (dval q))%Q).
  { rewrite <- (Qplus_0_l (fifo_pnl _ _ _ _)), <- dval_zero.
    eapply (close_lots_pnl g gp P _ _ _ _ _ _ _ 0); try eassumption; rewrite ?dval_zero;
      [apply (po_wf _ Hc) | lra | lra | apply Hc | apply grid_0 | change (Qabs 0) with 0%Q; lra | nra]. }
  rewrite <- Vr in Gr, Br. apply (grid_weaken _ m _ Hm) in Gr.
  destruct (po_money _ Hc) as (M1 & M2 & M3).
  assert (Hpq : (0 <= P * dval q)%Q) by nra.
  assert (Hz : forall x, (Qabs (dval x) <= qturn p)%Q -> forall y, grid m (dval x) -> grid m (dval y) ->
      (Qabs (dval y) <= P * dval q + dval fee)%Q -> (dval (x + y)%dec == dval x + dval y)%Q /\ grid m (dval x + dval y)).
  { intros x Hx y Gx Gy Hy. apply (money_add_exact a symbol x y (P * dval q + dval fee)); try assumption.
    now rewrite Hf. }
  pose proof (Qabs_nonneg (qrealized p)) as N1. pose proof (Qabs_nonneg (qfees p)) as N2.
  pose proof (Qabs_nonneg (qfunding p)) as N3.
  destruct (Hz (ps_realized_pnl p)) with (y := r) as [E1 G1]; [unfold qturn, qrealized in *; lra | exact M1 | exact Gr | lra |].
  destruct (Hz (ps_fees p)) with (y := fee) as [E2 G2];
    [unfold qturn, qfees in *; lra | exact M2 | exact Gf | rewrite Qabs_pos; lra |].
  cbv zeta. rewrite <- Vr. unfold qrealized, qfees, qfunding, qlots in *. rewrite Er, Efe, Efu in *.
  split; [|split; [exact E1|split; [reflexivity|split; [exact E2|split; [exact El|split; [exact Gr|split; [exact Br|]]]]]]].
  - split; [exact W' | rewrite Emk | rewrite Eu | rewrite Er, Efe, Efu, E1, E2; auto].
    + destruct Hp as (P1 & P2 & P3). split; [exact P1 | split; [lra | exact P3]].
    + destruct (close_lots_fifo g _ _ _ _ _ _ _ (pw_lots g p (po_wf _ Hc)) Hr Gq (Qlt_le_weak _ _ Hq)
        (Qle_lt_trans _ _ _ Hle Hr) Ec) as (_ & _ & _ & Ep).
      apply (Forall_map lot_entry_price (price_ok gp P)). rewrite Ep. apply Forall_map, Hc.
  - rewrite dsub_exact; rewrite E1; [ring|].
    assert (dval (ps_realized_pnl p) + dval r - dval (ps_realized_pnl p) == dval r)%Q as -> by ring.
    apply (fits_grid m); [exact Gr|]. unfold turnover in Ht.
    pose proof (Qabs_nonneg (dval (ac_initial_capital a))).
    pose proof (contrib_le qturn a symbol qturn_nonneg) as Hcl. rewrite Hf in Hcl. pose proof (qturn_nonneg p). lra.
Qed.

(** What the accepted fills of an exact account look like. *)
Record fill_fits (a : AccountState) (q price fee : dec) : Prop := {
  ff_quantity : grid g (dval q);
  ff_price : price_ok gp P price;
  ff_fee : grid m (dval fee);
  ff_turnover : (turnover a + (P * dval q + dval fee) < grid_max m)%Q;
  ff_exposure : (P * (exposure a + dval q) < grid_max (gp + g - 2))%Q;
  ff_range : (exposure a + dval q < grid_max g)%Q
}.

Lemma cash_step a x y :
  books a -> grid m (dval x) -> (turnover a + y < grid_max m)%Q -> (Qabs (dval x) <= y)%Q ->
  (dval (ac_cash_balance a - x)%dec == dval (ac_cash_balance a) - dval x)%Q /\
  (dval (ac_cash_balance a + x)%dec == dval (ac_cash_balance a) + dval x)%Q /\
  grid m (dval (ac_cash_balance a) + dval x).
Proof.
  intros B Gx Ht Hx. destruct (cash_bound a B) as [Bc Gc].
  pose proof (Qabs_triangle (dval (ac_cash_balance a)) (dval x)) as T1.
  pose proof (Qabs_triangle (dval (ac_cash_balance a)) (- dval x)) as T2. rewrite Qabs_opp in T2.
  split; [|split; [|now apply grid_add]].
  - apply dsub_exact, (fits_grid m); [now apply grid_sub | unfold Qminus; lra].
  - apply dadd_exact, (fits_grid m); [now apply grid_add | lra].
Qed.

Lemma fill_open_books a fid pid symbol side q price fee t p' cash t' :
  books a -> (0 < P)%Q -> fill_fits a q price fee -> (0 < dval q)%Q ->
  fill_open a fid pid symbol side q price fee t = Ok (p', cash) ->
  books (ac_raise_peak (ac_peak_equity a) (ac_update a cash (dict_set (ac_positions a) symbol p') t')).
Proof.
  intros B HP0 [Gq Hp Gf Ht He Hr] Hq H. unfold fill_open in H. py_inv.
  assert (Hcur : position_ok v /\
    forall f, In f [qrealized; qfees; qfunding; qlots; qturn] -> (f v == contrib f a symbol)%Q).
  { match goal with H : match dict_get _ _ with _ => _ end = Ok _ |- _ => rename H into Hv end.
    destruct (dict_get (ac_positions a) symbol) as [p|] eqn:E; py_inv.
    - destruct (current_ok a symbol v B E) as [K1 K2]. split; [exact K1|]. intros f _. rewrite K2. reflexivity.
    - destruct (position_empty_ok _ _ _ _ HP0 Hv) as (K1 & K2). split; [exact K1|].
      intros f Hf. unfold contrib. rewrite E. simpl in Hf.
      destruct K2 as (? & ? & ? & ? & ?); destruct Hf as [<-|[<-|[<-|[<-|[<-|[]]]]]]; assumption. }
  destruct Hcur as [Hc Hf]. pose proof (contrib_qlots_le a symbol B) as Hl.
  assert (Hpq : (0 <= P * dval q)%Q) by nra.
  pose proof (Hf qrealized ltac:(simpl; tauto)) as F1. pose proof (Hf qfees ltac:(simpl; tauto)) as F2.
  pose proof (Hf qfunding ltac:(simpl; tauto)) as F3. pose proof (Hf qlots ltac:(simpl; tauto)) as F4.
  pose proof (Hf qturn ltac:(simpl; tauto)) as F5.
  assert (Hb1 : (turnover a + dval fee < grid_max m)%Q) by lra.
  assert (Hb2 : (qlots v + dval q < grid_max g)%Q) by lra.
  match goal with H : open_fill _ _ _ _ _ _ _ = Ok _ |- _ =>
    destruct (open_position_ok a symbol _ _ _ _ _ _ _ _ Hc Hf Hb1 Gq Hb2 Hp Gf H)
      as (K & E1 & E2 & E3 & E4 & Hfee) end.
  destruct (cash_step a fee (P * dval q + dval fee) B Gf Ht) as (Ec & _); [rewrite Qabs_pos; lra|].
  apply (books_update a _ symbol _ t' (P * dval q + dval fee)); try assumption.
  - rewrite Ec, E1, E2, E3, F1, F2, F3. ring.
  - rewrite <- F5. apply qturn_change. rewrite E1, E2, E3.
    assert (Z0 : forall u : Q, (u - u == 0)%Q) by (intros; ring). rewrite !Z0.
    assert (qfees v + dval fee - qfees v == dval fee)%Q as -> by ring.
    change (Qabs 0) with 0%Q. rewrite Qabs_pos; lra.
  - rewrite E4, F4.
    assert (exposure a - contrib qlots a symbol + (contrib qlots a symbol + dval q) == exposure a + dval q)%Q
      as -> by ring. exact He.
Qed.

Lemma qlots_bound a symbol p : books a -> (0 < P)%Q -> dict_get (ac_positions a) symbol = Some p ->
  (P * qlots p < grid_max (gp + g - 2))%Q.
Proof.
  intros B HP0 E. destruct (current_ok a symbol p B E) as [_ Hf].
  pose proof (contrib_qlots_le a symbol B) as Hl. rewrite Hf in Hl.
  eapply Qle_lt_trans; [|exact (bo_exposure a B)]. apply Qmult_le_l; assumption.
Qed.

Lemma reduce_cash_exact a symbol p q price fee t p' :
  books a -> (0 < P)%Q -> fill_fits a q price fee -> dict_get (ac_positions a) symbol = Some p ->
  (0 <= dval fee)%Q -> close_fill p q price fee t = Ok p' ->
  (dval (ac_cash_balance a + (ps_realized_pnl p' - ps_realized_pnl p) - fee)%dec
     == dval (ac_cash_balance a) + fifo_pnl (ps_side p) (dval price) (ps_lots p) (dval q) - dval fee)%Q.
Proof.
  intros B HP0 F E Hfee H. pose proof F as [Gq Hp Gf Ht He Hr].
  destruct (current_ok a symbol p B E) as [Hc Hf]. pose proof (qlots_bound a symbol p B HP0 E) as Hb.
  destruct (close_position_ok a symbol _ _ _ _ _ _ Hc Hf Ht Hb Gq Hp Gf Hfee H)
    as (_ & _ & _ & _ & _ & Gr & Br & Ed).
  set (r := fifo_pnl _ _ _ _) in *.
  pose proof (proj1 (proj1 (close_fill_Ok _ _ _ _ _ _ H))) as Hq. assert (Hpq : (0 <= P * dval q)%Q) by nra.
  assert (Gd : grid m (dval (ps_realized_pnl p' - ps_realized_pnl p)%dec)) by (rewrite Ed; exact Gr).
  destruct (cash_step a (ps_realized_pnl p' - ps_realized_pnl p)%dec (P * dval q + dval fee) B Gd Ht)
    as (_ & Ec & Gc); [rewrite Ed; lra|].
  rewrite dsub_exact; rewrite Ec, Ed; [reflexivity|]. rewrite Ed in Gc.
  apply (fits_grid m); [now apply grid_sub|]. destruct (cash_bound a B) as [Bc _].
  pose proof (Qabs_triangle (dval (ac_cash_balance a)) r).
  pose proof (Qabs_triangle (dval (ac_cash_balance a) + r) (- dval fee)) as T. rewrite Qabs_opp, (Qabs_pos (dval fee)) in T
    by exact Hfee. unfold Qminus. lra.
Qed.

Lemma fill_reduce_books a symbol side q price fee t p' cash t' :
  books a -> (0 < P)%Q -> fill_fits a q price fee -> (0 < dval q)%Q -> (0 <= dval fee)%Q ->
  fill_reduce a symbol side q price fee t = Ok (p', cash) ->
  books (ac_raise_peak (ac_peak_equity a) (ac_update a cash (dict_set (ac_positions a) symbol p') t')).
Proof.
  intros B HP0 [Gq Hp Gf Ht He Hr] Hq Hfee H. unfold fill_reduce in H.
  destruct (dict_get (ac_positions a) symbol) as [p|] eqn:E; [|discriminate]. py_inv.
  destruct (current_ok a symbol p B E) as [Hc Hf].
  pose proof (qlots_bound a symbol p B HP0 E) as Hb. assert (Hpq : (0 <= P * dval q)%Q) by nra.
  match goal with H : close_fill _ _ _ _ _ = Ok _ |- _ =>
    destruct (close_position_ok a symbol _ _ _ _ _ _ Hc Hf Ht Hb Gq Hp Gf Hfee H)
      as (K & E1 & E2 & E3 & E4 & Gr & Br & Ed);
    pose proof (reduce_cash_exact a symbol p q price fee t p' B HP0 ltac:(now split) E Hfee H) as Ecash end.
  set (r := fifo_pnl _ _ _ _) in *.
  apply (books_update a _ symbol _ t' (P * dval q + dval fee)); try assumption; rewrite ?Hf.
  - rewrite Ecash, E1, E2, E3. ring.
  - apply qturn_change. rewrite E1, E2, E3.
    assert (qrealized p + r - qrealized p == r)%Q as -> by ring.
    assert (qfees p + dval fee - qfees p == dval fee)%Q as -> by ring.
    assert (qfunding p - qfunding p == 0)%Q as -> by ring.
    change (Qabs 0) with 0%Q. rewrite (Qabs_pos (dval fee)) by exact Hfee. lra.
  - rewrite E4. eapply Qle_lt_trans; [|exact He]. apply Qmult_le_l; [exact HP0 | lra].
Qed.

(** The signed amount a position of the given side receives, in exact arithmetic. *)
Definition funding_due (p : PositionState) (rate : dec) : Q :=
  ((if bool_decide (ps_side p = LONG) then -1 else 1) * (qlots p * dval (ps_mark_price p)) * dval rate)%Q.

Section Funding.
Context (a : AccountState) (symbol : string) (p : PositionState) (rate : dec) (gr : Z) (p' : PositionState).
Context (B : books a) (HP0 : (0 < P)%Q) (Hgr : m <= gp + g + gr) (E : dict_get (ac_positions a) symbol = Some p).
Context (Gr : grid gr (dval rate)) (Ht : (turnover a + P * qlots p * Qabs (dval rate) < grid_max m)%Q).

Lemma funding_amount_exact :
  (dval (funding_amount p rate) == funding_due p rate)%Q /\ grid m (dval (funding_amount p rate)) /\
  (Qabs (dval (funding_amount p rate)) <= P * qlots p * Qabs (dval rate))%Q.
Proof.
  unfold funding_due. destruct (current_ok a symbol p B E) as [Hc Hf].
  destruct (notional_exact p Hc (qlots_bound a symbol p B HP0 E)) as (En & Gn & Nn & Bn).
  set (v := (qlots p * dval (ps_mark_price p))%Q) in *.
  assert (Gs : grid m (v * dval rate)) by (eapply grid_weaken; [exact Hgr | now apply grid_mul]).
  assert (Bs : (Qabs (v * dval rate) <= P * qlots p * Qabs (dval rate))%Q).
  { rewrite Qabs_Qmult, (Qabs_pos v) by exact Nn. apply Qmult_le_compat_r; [exact Bn | apply Qabs_nonneg]. }
  assert (Hturn : (0 <= turnover a)%Q).
  { unfold turnover. pose proof (Qabs_nonneg (dval (ac_initial_capital a))).
    pose proof (contrib_le qturn a symbol qturn_nonneg) as K. rewrite Hf in K. pose proof (qturn_nonneg p). lra. }
  assert (Es : (dval (ps_gross_notional p * rate)%dec == v * dval rate)%Q).
  { rewrite dmul_exact; rewrite En; [reflexivity | apply (fits_grid m); [exact Gs | lra]]. }
  assert (Ea : (dval (funding_amount p rate) == (if bool_decide (ps_side p = LONG) then -1 else 1) * v * dval rate)%Q).
  { unfold funding_amount. destruct (bool_decide _); [|rewrite Es; ring].
    rewrite (rounded_fits (dneg_rounded _)); rewrite Es; [ring|].
    apply (fits_grid m); [now apply grid_opp | rewrite Qabs_opp; lra]. }
  split; [exact Ea|]. rewrite Ea. destruct (bool_decide _).
  - assert (-1 * v * dval rate == - (v * dval rate))%Q as -> by ring. split; [now apply grid_opp | now rewrite Qabs_opp].
  - assert (1 * v * dval rate == v * dval rate)%Q as -> by ring. auto.
Qed.

(** Cash and the position's funding move by exactly the amount. *)
Lemma funding_moves : let x := dval (funding_amount p rate) in
  (dval (ac_cash_balance a + funding_amount p rate)%dec == dval (ac_cash_balance a) + x)%Q /\
  (dval (ps_funding p + funding_amount p rate)%dec == dval (ps_funding p) + x)%Q /\
  grid m (dval (ps_funding p) + x) /\ (dval (ps_funding p + funding_amount p rate - ps_funding p)%dec == x)%Q.
Proof.
  destruct funding_amount_exact as (_ & Ga & Ba). destruct (current_ok a symbol p B E) as [Hc Hf].
  destruct (po_money _ Hc) as (M1 & M2 & M3). destruct (cash_step a _ _ B Ga Ht Ba) as (_ & Ec & _).
  destruct (money_add_exact a symbol (ps_funding p) (funding_amount p rate) _ Ht M3 Ga) as (Ef & Gf);
    [rewrite Hf; unfold qturn, qfunding; pose proof (Qabs_nonneg (qrealized p)); pose proof (Qabs_nonneg (qfees p)); lra
    | exact Ba |].
  cbv zeta. repeat split; try assumption. rewrite dsub_exact; rewrite Ef; [ring|].
  assert (dval (ps_funding p) + dval (funding_amount p rate) - dval (ps_funding p) == dval (funding_amount p rate))%Q as -> by ring.
  apply (fits_grid m); [exact Ga|]. pose proof (Qabs_nonneg (dval (ac_initial_capital a))).
  pose proof (contrib_le qturn a symbol qturn_nonneg) as K. rewrite Hf in K. pose proof (qturn_nonneg p).
  unfold turnover in *. lra.
Qed.

Lemma funding_books t' : position_apply_funding p (funding_amount p rate) = Ok p' ->
  books (ac_raise_peak (ac_peak_equity a)
    (ac_update a (ac_cash_balance a + funding_amount p rate)%dec (dict_set (ac_positions a) symbol p') t')).
Proof.
  intros H. destruct funding_amount_exact as (_ & Ga & Ba). destruct funding_moves as (Ec & Ef & Gf & _).
  destruct (current_ok a symbol p B E) as [Hc Hf]. destruct (po_money _ Hc) as (M1 & M2 & M3).
  pose proof (position_funding_wf g _ _ _ (po_wf _ Hc) H) as W'. unfold position_apply_funding in H. py_inv.
  set (f := fun l : PositionLot => if (dzero <? lot_remaining_quantity l)%dec then _ else _) in *.
  set (q' := Build_PositionState _ _ _ _ _ _ _ _ _ _ _ _ _) in *.
  assert (Hql : qlots q' = qlots p).
  { unfold qlots, lots_quantity, q'; cbn [ps_lots]. unfold f. now rewrite funded_lots_q. }
  apply (books_update a _ symbol q' t' (P * qlots p * Qabs (dval rate))); try assumption; rewrite ?Hf.
  - split; [exact W' | apply Hc | | unfold q'; cbn [ps_realized_pnl ps_fees ps_funding]; rewrite Ef; auto].
    unfold q'; cbn [ps_lots]. apply Forall_map. eapply List.Forall_impl; [|apply (po_entries _ Hc)].
    intros l Hl'. unfold f. destruct (dltb _ _); exact Hl'.
  - rewrite Ec. unfold q', qrealized, qfees, qfunding; cbn [ps_realized_pnl ps_fees ps_funding]. rewrite Ef. ring.
  - apply qturn_change. unfold q', qrealized, qfees, qfunding; cbn [ps_realized_pnl ps_fees ps_funding]. rewrite Ef.
    assert (Z0 : forall u : Q, (u - u == 0)%Q) by (intros; ring). rewrite !Z0.
    assert (dval (ps_funding p) + dval (funding_amount p rate) - dval (ps_funding p)
            == dval (funding_amount p rate))%Q as -> by ring.
    change (Qabs 0) with 0%Q. lra.
  - rewrite Hql. assert (exposure a - qlots p + qlots p == exposure a)%Q as -> by ring. apply B.
Qed.
End Funding.
End Books.

(** The checks and the position updates never raise [ArithmeticError]. *)
Ltac no_arith H :=
  unfold position_empty, open_fill, close_fill in H;
  unfold require_positive_decimal, _require_nonnegative, require_utc, ddiv in H;
  cbv zeta in H; py_raise H; 
  solve [discriminate H | match type of H with context [if ?c then DivisionUndefined else _] => destruct c; discriminate H end].

Lemma fill_open_not_arith a fid pid symbol side q price fee t msg :
  fill_open a fid pid symbol side q price fee t <> Raise (ArithmeticError msg).
Proof. intros H. unfold fill_open in H. no_arith H. Qed.

Lemma fill_reduce_not_arith a symbol side q price fee t msg :
  fill_reduce a symbol side q price fee t <> Raise (ArithmeticError msg).
Proof. intros H. unfold fill_reduce in H. no_arith H. Qed.

(** What an accepted fill does to cash, in exact rationals: an opening fill
    costs its fee, a closing one brings the first-in first-out profit too. *)
Definition fill_cash (a : AccountState) (symbol : string) (effect : PositionEffect) (q price fee : dec) (cash : Q) : Prop :=
  match effect with
  | OPEN => (cash == dval (ac_cash_balance a) - dval fee)%Q
  | REDUCE => exists p, dict_get (ac_positions a) symbol = Some p /\
      (cash == dval (ac_cash_balance a) + fifo_pnl (ps_side p) (dval price) (ps_lots p) (dval q) - dval fee)%Q
  end.

Section FillOutcome.
Context (g gp m : Z) (P : Q) (a : AccountState) (fid pid : UUID) (symbol : string) (side : PaperOrderSide).
Context (effect : PositionEffect) (q price fee : dec) (t : datetime).
Context (Hm : m <= gp + g) (HP : (P < grid_max gp)%Q) (HP0 : (0 < P)%Q).
Context (HL : 0 < ac_leverage a) (DL : (ac_leverage a | 100)).
Context (B : books g gp m P a) (F : fill_fits g gp m P a q price fee).

Local Abbreviation moved := match effect with
  | OPEN => fill_open a fid pid symbol side q price fee t
  | REDUCE => fill_reduce a symbol side q price fee t
  end.
Local Abbreviation after p' cash :=
  (ac_raise_peak (ac_peak_equity a) (ac_update a cash (dict_set (ac_positions a) symbol p') t)).

Lemma moved_books p' cash : (0 < dval q)%Q -> (0 <= dval fee)%Q -> moved = Ok (p', cash) ->
  books g gp m P (after p' cash) /\ (exists fm, free_margin (after p' cash) = Ok fm) /\
  exists r, reconcile (after p' cash) = Ok r /\ report_ok r = true.
Proof.
  intros Hq Hfee H.
  assert (B' : books g gp m P (after p' cash))
    by (destruct effect; [eapply fill_open_books | eapply fill_reduce_books]; eassumption).
  split; [exact B'|]. split; [|exact (books_reconcile g gp m P _ B' _ eq_refl HL DL HP0)].
  unfold free_margin, used_margin. rewrite ddiv_total; [cbn [bind]; eauto|].
  rewrite dval_int. pose proof (inject_Z_pos _ HL). cbn. lra.
Qed.

Lemma moved_cash p' cash : (0 <= dval fee)%Q -> moved = Ok (p', cash) -> fill_cash a symbol effect q price fee (dval cash).
Proof.
  intros Hfee H. destruct effect; cbn [fill_cash].
  - unfold fill_open in H. py_inv. pose proof F as [Gq Hp Gf Ht _ _].
    assert (Hpq : (0 <= P * dval q)%Q).
    { unfold open_fill in *. py_inv. apply Qmult_le_0_compat; [lra|].
      match goal with H : require_positive_decimal q _ = Ok _ |- _ => apply require_positive_Ok in H; lra end. }
    apply (cash_step g gp m P a fee (P * dval q + dval fee) B Gf Ht). rewrite Qabs_pos; lra.
  - unfold fill_reduce in H. destruct (dict_get (ac_positions a) symbol) as [p|] eqn:E; [|discriminate]. py_inv.
    exists p. split; [reflexivity|].
    match goal with H : close_fill _ _ _ _ _ = Ok _ |- _ =>
      exact (reduce_cash_exact g gp m P Hm HP a symbol p q price fee t _ B HP0 F E Hfee H) end.
Qed.
End FillOutcome.

(** C37: While amounts stay within 28 digits of their grids and the leverage
    divides 100 (1, 2, 4 or 5), the account is an exact ledger.  A fill never
    fails reconciliation; an accepted one leaves cash equal, with no rounding
    at all, to initial capital plus realised results minus fees plus funding,
    and changes it by exactly the profit of the lots it closes less its fee.  A
    fill with valid arguments ends in one of three ways: the error of the
    position it does not suit, [InsufficientMargin] for an opening fill that
    would leave negative free margin, or acceptance. *)
Theorem fills_keep_exact_books g gp m P a fid pid symbol side effect q price fee t :
  m <= gp + g -> (P < grid_max gp)%Q -> (0 < P)%Q -> 0 < ac_leverage a -> (ac_leverage a | 100) ->
  books g gp m P a -> fill_fits g gp m P a q price fee ->
  apply_fill a fid pid symbol side effect q price fee t
    <> Raise (ArithmeticError "account reconciliation failed after fill") /\
  (forall a', apply_fill a fid pid symbol side effect q price fee t = Ok a' ->
    books g gp m P a' /\ (dval (ac_cash_balance a') == ledger_balance a')%Q /\
    fill_cash a symbol effect q price fee (dval (ac_cash_balance a'))) /\
  ((0 < dval q)%Q -> (0 <= dval fee)%Q -> is_utc t = true ->
   match (match effect with
          | OPEN => fill_open a fid pid symbol side q price fee t
          | REDUCE => fill_reduce a symbol side q price fee t
          end) with
   | Raise e => apply_fill a fid pid symbol side effect q price fee t = Raise e
   | Ok (p', cash) =>
       let a' := ac_raise_peak (ac_peak_equity a) (ac_update a cash (dict_set (ac_positions a) symbol p') t) in
       exists fm, free_margin a' = Ok fm /\
         apply_fill a fid pid symbol side effect q price fee t =
           if bool_decide (effect = OPEN) && (fm <? dzero)%dec
           then Raise (InsufficientMargin "paper account has insufficient free margin") else Ok a'
   end).
Proof.
  intros Hm HP HP0 HL DL B F.
  pose proof (moved_books g gp m P a fid pid symbol side effect q price fee t Hm HP HP0 HL DL B F) as Hbk.
  split; [|split].
  - unfold apply_fill. intros H. repeat (apply bind_Raise in H as [H|(? & ? & H)]; [no_arith H|]).
    apply bind_Raise in H as [H|([p' cash] & Hp & H)].
    { destruct effect; [now apply fill_open_not_arith in H | now apply fill_reduce_not_arith in H]. }
    unfold _require_nonnegative in *. py_inv. dec_prop.
    match goal with H : require_positive_decimal q _ = Ok _ |- _ => apply require_positive_Ok in H end.
    destruct (Hbk p' cash ltac:(assumption) ltac:(assumption) Hp) as (_ & (fm & Efm) & r & Er & Hr).
    cbn [fst snd] in H. rewrite Efm, Er in H. cbn [bind] in H. rewrite Hr in H.
    destruct effect; py_raise H; discriminate.
  - intros a' H. apply apply_fill_Ok in H as ((Hq & _ & Hfee) & _ & p' & cash & Hp & -> & _).
    destruct (Hbk p' cash Hq Hfee Hp) as (B' & _). split; [exact B'|split; [apply B'|]].
    eapply moved_cash; eassumption.
  - intros Hq Hfee Ht. unfold apply_fill. rewrite !require_positive_true by (exact Hq || apply F).
    unfold _require_nonnegative. rewrite (proj2 (dltb_ge fee dzero)) by exact Hfee.
    rewrite (require_utc_true _ _ Ht). cbn [bind raise_if]. destruct (match effect with OPEN => _ | REDUCE => _ end)
      as [[p' cash]|e] eqn:Hp; [|reflexivity]. cbn [bind fst snd].
    destruct (Hbk p' cash Hq Hfee eq_refl) as (_ & (fm & Efm) & r & Er & Hr).
    exists fm. split; [exact Efm|]. rewrite Efm, Er.
    destruct effect; cbn [bind raise_if andb]; rewrite ?bool_decide_true, ?bool_decide_false by (reflexivity || discriminate);
      cbn [andb]; [destruct (fm <? dzero)%dec|]; cbn [bind raise_if]; rewrite ?Hr; reflexivity.
Qed.

(** The last checks of [apply_fill] pass on exact books. *)
Lemma apply_fill_reduce g gp m P a fid pid symbol side q price fee t p' cash :
  m <= gp + g -> (P < grid_max gp)%Q -> (0 < P)%Q -> 0 < ac_leverage a -> (ac_leverage a | 100) ->
  books g gp m P a -> fill_fits g gp m P a q price fee ->
  (0 < dval q)%Q -> (0 <= dval fee)%Q -> is_utc t = true ->
  fill_reduce a symbol side q price fee t = Ok (p', cash) ->
  exists a', apply_fill a fid pid symbol side REDUCE q price fee t = Ok a' /\ books g gp m P a' /\
    ac_cash_balance a' = cash.
Proof.
  intros Hm HP HP0 HL DL B F Hq Hfee Ht H.
  pose proof (fill_reduce_books g gp m P Hm HP a symbol side q price fee t p' cash t B HP0 F Hq Hfee H) as B'.
  set (a' := ac_raise_peak _ _) in B'. exists a'. split; [|split; [exact B' | reflexivity]].
  destruct (books_reconcile g gp m P a' B' _ eq_refl HL DL HP0) as (r & Er & Hr).
  unfold apply_fill. rewrite !require_positive_true by (exact Hq || apply F).
  unfold _require_nonnegative. rewrite (proj2 (dltb_ge fee dzero)) by exact Hfee.
  rewrite (require_utc_true _ _ Ht), H. cbn [bind raise_if fst snd]. fold a'.
  rewrite Er. cbn [bind]. rewrite Hr. reflexivity.
Qed.

(** An exit is never refused.  On exact books, a reduce-only fill on the
    closing side for any positive quantity up to the open one is accepted, and
    cash changes by exactly the FIFO profit less the fee. *)
Theorem reduce_fill_accepted g gp m P a p fid pid symbol q price fee t :
  m <= gp + g -> (P < grid_max gp)%Q -> (0 < P)%Q -> 0 < ac_leverage a -> (ac_leverage a | 100) ->
  books g gp m P a -> fill_fits g gp m P a q price fee ->
  dict_get (ac_positions a) symbol = Some p -> ps_side p <> NEUTRAL ->
  (0 < dval q)%Q -> (dval q <= lots_quantity (ps_lots p))%Q -> (0 <= dval fee)%Q -> is_utc t = true ->
  let side := if bool_decide (ps_side p = LONG) then SELL else BUY in
  exists a', apply_fill a fid pid symbol side REDUCE q price fee t = Ok a' /\ books g gp m P a' /\
    (dval (ac_cash_balance a') == dval (ac_cash_balance a)
       + fifo_pnl (ps_side p) (dval price) (ps_lots p) (dval q) - dval fee)%Q.
Proof.
  intros Hm HP HP0 HL DL B F E Hs Hq Hle Hfee Ht side. pose proof F as [Gq Hp Gf Htu He Hr].
  destruct (current_ok g gp m P a symbol p B E) as [Hc Hf]. pose proof (po_wf _ _ _ _ _ Hc) as W.
  destruct (close_fill_total g p q price fee t W Hs Hq Hle (proj1 (proj2 Hp)) Hfee Ht) as [p' H].
  assert (Hflat : is_flat p = false).
  { apply not_true_iff_false. rewrite (pw_flat W). intros Ez. apply Hs, (pw_side g p W), Ez. }
  assert (Hred : fill_reduce a symbol side q price fee t
    = Ok (p', (ac_cash_balance a + (ps_realized_pnl p' - ps_realized_pnl p) - fee)%dec)).
  { unfold fill_reduce. rewrite E, Hflat, H. cbn [raise_if bind]. unfold side.
    rewrite bool_decide_true by reflexivity. reflexivity. }
  destruct (apply_fill_reduce g gp m P a fid pid _ _ _ _ _ _ _ _ Hm HP HP0 HL DL B F Hq Hfee Ht Hred)
    as (a' & Ha & B' & Ec).
  exists a'. split; [exact Ha|split; [exact B'|]]. rewrite Ec.
  exact (reduce_cash_exact g gp m P Hm HP a symbol p q price fee t p' B HP0 F E Hfee H).
Qed.

(** A mark does not change what flowed through the account. *)
Lemma mark_turnover a symbol price t a' p p' : account_mark a symbol price t = Ok a' ->
  dict_get (ac_positions a) symbol = Some p -> position_mark p price = Ok p' ->
  (turnover a' == turnover a)%Q /\ ac_positions a' = dict_set (ac_positions a) symbol p' /\
  ac_cash_balance a' = ac_cash_balance a /\ ac_leverage a' = ac_leverage a /\ ac_experiment_id a' = ac_experiment_id a.
Proof.
  intros H E Hm. unfold account_mark, ac_position in H. rewrite E in H. cbn [of_option bind] in H. rewrite Hm in H.
  py_inv. split; [|repeat split].
  unfold turnover, psum. cbn [ac_raise_peak ac_update ac_positions ac_initial_capital]. rewrite psum_set, E.
  unfold position_mark in Hm. py_inv. unfold qturn, qrealized, qfees, qfunding.
  cbn [ps_realized_pnl ps_fees ps_funding]. ring.
Qed.

(** On exact books a settlement of an open position is always accepted. *)
Lemma funding_accepted g gp gr m P a p symbol rate t :
  m <= gp + g -> m <= gp + g + gr -> (P < grid_max gp)%Q -> (0 < P)%Q -> 0 < ac_leverage a -> (ac_leverage a | 100) ->
  books g gp m P a -> dict_get (ac_positions a) symbol = Some p -> is_flat p = false -> is_utc t = true ->
  grid gr (dval rate) -> (turnover a + P * qlots p * Qabs (dval rate) < grid_max m)%Q ->
  exists a' p', account_apply_funding a symbol rate t = Ok a' /\ books g gp m P a' /\
    dict_get (ac_positions a') symbol = Some p' /\
    (dval (ps_funding p' - ps_funding p)%dec == funding_due p rate)%Q /\
    (dval (ac_cash_balance a') == dval (ac_cash_balance a) + funding_due p rate)%Q /\
    ac_experiment_id a' = ac_experiment_id a /\ (exists r, reconcile a' = Ok r /\ report_ok r = true).
Proof.
  intros Hm Hgr HP HP0 HL DL B E Hf Ut Gr Ht.
  destruct (funding_amount_exact g gp m P a symbol p rate gr B HP0 Hgr E Gr Ht) as (Ed & _).
  destruct (funding_moves g gp m P a symbol p rate gr B HP0 Hgr E Gr Ht) as (Ec & _ & _ & Es).
  assert (Hp : exists p', position_apply_funding p (funding_amount p rate) = Ok p' /\
    ps_funding p' = (ps_funding p + funding_amount p rate)%dec).
  { unfold position_apply_funding. rewrite Hf. cbn [raise_if bind]. eexists; split; reflexivity. }
  destruct Hp as (p' & Hp & Ef).
  pose proof (funding_books g gp m P a symbol p rate gr p' B HP0 Hgr E Gr Ht t Hp) as B'.
  set (a' := ac_raise_peak _ _) in B'. exists a', p'.
  destruct (books_reconcile g gp m P a' B' _ eq_refl HL DL HP0) as (r & Er & Hr).
  split; [|split; [exact B'|split; [apply dict_get_set|split; [now rewrite Ef, Es|split; [|split; [reflexivity | eauto]]]]]].
  - unfold account_apply_funding. pass; [exact (require_utc_true _ _ Ut)|]. pass; [unfold ac_position; rewrite E; reflexivity|].
    pass; [exact Hf|]. pass; [exact Hp|]. fold a'. pass; [exact Er|]. pass; [now rewrite Hr | reflexivity].
  - cbn [a' ac_raise_peak ac_update ac_cash_balance]. now rewrite Ec, Ed.
Qed.

(** ** Runs of an account *)

Lemma create_books g gp m P eid capital currency leverage a :
  grid m (dval capital) -> (dval capital < grid_max m)%Q ->
  account_create eid capital currency leverage = Ok a -> books g gp m P a /\ 1 <= ac_leverage a <= 5.
Proof.
  intros G Hb H. unfold account_create in H. py_inv. bool_prop. apply require_positive_Ok in H0.
  split; [|cbn; lia]. split; cbn [ac_positions ac_initial_capital ac_cash_balance].
  - apply List.Forall_nil.
  - exact G.
  - unfold ledger_balance, psum; cbn. ring.
  - unfold turnover, psum; cbn [ac_positions ac_initial_capital dict_values map qsum]. rewrite Qabs_pos; lra.
  - unfold exposure, psum; cbn [ac_positions dict_values map qsum].
    eapply Qle_lt_trans; [|apply grid_max_pos]. lra.
Qed.

Lemma mark_books g gp m P a symbol price t a' :
  (0 < P)%Q -> price_ok gp P price -> books g gp m P a -> account_mark a symbol price t = Ok a' -> books g gp m P a'.
Proof.
  intros HP0 Hp B H. unfold account_mark, ac_position in H. py_inv.
  destruct (current_ok g gp m P a symbol v0 B ltac:(assumption)) as [Hc Hf].
  match goal with H : position_mark _ _ = Ok _ |- _ =>
    pose proof (position_mark_wf g _ _ _ (po_wf _ _ _ _ _ Hc) H) as W; unfold position_mark in H; py_inv end.
  apply (books_update g gp m P a _ symbol _ t 0); rewrite ?Hf; try assumption.
  - split; [exact W | | apply Hc | apply Hc]. destruct Hp as (? & ? & ?). cbn. repeat split; try assumption. lra.
  - unfold qrealized, qfees, qfunding; cbn [ps_realized_pnl ps_fees ps_funding]. ring.
  - pose proof (bo_turnover _ _ _ _ a B). lra.
  - unfold qturn, qrealized, qfees, qfunding; cbn [ps_realized_pnl ps_fees ps_funding]. lra.
  - unfold qlots; cbn [ps_lots]. fold (qlots v0).
    assert (exposure a - qlots v0 + qlots v0 == exposure a)%Q as -> by ring. apply B.
Qed.

(** One accepted update whose amounts are on the grids and leave room for 28 digits. *)
Inductive account_step (g gp gr m : Z) (P : Q) : AccountState -> AccountState -> Prop :=
| account_step_fill a fid pid symbol side effect q price fee t a' :
    fill_fits g gp m P a q price fee ->
    apply_fill a fid pid symbol side effect q price fee t = Ok a' -> account_step g gp gr m P a a'
| account_step_mark a symbol price t a' :
    price_ok gp P price -> account_mark a symbol price t = Ok a' -> account_step g gp gr m P a a'
| account_step_funding a symbol p rate t a' :
    dict_get (ac_positions a) symbol = Some p -> grid gr (dval rate) ->
    (turnover a + P * qlots p * Qabs (dval rate) < grid_max m)%Q ->
    account_apply_funding a symbol rate t = Ok a' -> account_step g gp gr m P a a'.

Section AccountRuns.
Context (g gp gr m : Z) (P : Q).
Context (Hm : m <= gp + g) (Hr : m <= gp + g + gr) (HP : (P < grid_max gp)%Q) (HP0 : (0 < P)%Q).

Lemma account_step_books a a' : books g gp m P a -> account_step g gp gr m P a a' -> books g gp m P a'.
Proof.
  intros B H. destruct H as [a fid pid symbol side effect q price fee t a' F H | a symbol price t a' Hp H
                            | a symbol p rate t a' E Gr Ht H].
  - apply apply_fill_Ok in H as ((Hq & _ & Hfee) & _ & p' & cash & Hp & -> & _).
    destruct effect; [eapply fill_open_books | eapply fill_reduce_books]; eassumption.
  - eapply mark_books; eassumption.
  - unfold account_apply_funding, ac_position in H. rewrite E in H. cbn [of_option bind] in H. py_inv.
    eapply funding_books; eassumption.
Qed.

Lemma account_step_leverage a a' : account_step g gp gr m P a a' ->
  ac_leverage a' = ac_leverage a /\ ac_version a' = ac_version a + 1 /\
  (dval (ac_peak_equity a) <= dval (ac_peak_equity a'))%Q /\ (dval (equity a') <= dval (ac_peak_equity a'))%Q.
Proof.
  intros H. assert (U : exists s p' t, account_update a a' s p' t).
  { destruct H as [a fid pid symbol side effect q price fee t a' F H | a symbol price t a' Hp H
                  | a symbol p rate t a' E Gr Ht H].
    - apply apply_fill_Ok in H as (_ & _ & p' & cash & Hp & -> & _). eauto using update_spec.
    - unfold account_mark in H. py_inv. eauto using update_spec.
    - unfold account_apply_funding in H. py_inv. eauto using update_spec. }
  destruct U as (s & p' & t & U). pose proof (update_peak U). split; [apply U|split; [apply U|tauto]].
Qed.
End AccountRuns.

(** C4: Every account that accepted fills, marks and funding make of a fresh one
    keeps exact books, for a leverage of 1, 2, 4 or 5 and amounts on decimal
    grids that leave room for 28 digits: cash is the exact ledger balance,
    [reconcile] returns three zero residuals, and the equity peak never fell
    below the initial capital.  ([leverage3_margin_mismatch]: with leverage 3
    the reconciliation of two open positions fails.) *)
Theorem account_run_reconciles g gp gr m P eid capital currency leverage a0 a :
  m <= gp + g -> m <= gp + g + gr -> (P < grid_max gp)%Q -> (0 < P)%Q ->
  grid m (dval capital) -> (dval capital < grid_max m)%Q -> leverage <> 3 ->
  account_create eid capital currency leverage = Ok a0 -> star (account_step g gp gr m P) a0 a ->
  (dval (ac_cash_balance a) == ledger_balance a)%Q /\
  (exists r, reconcile a = Ok r /\ report_ok r = true) /\
  (dval capital <= dval (ac_peak_equity a))%Q /\ ac_version a0 <= ac_version a.
Proof.
  intros Hm Hr HP HP0 Gc Bc HL H0 Hs. destruct (create_books g gp m P _ _ _ _ _ Gc Bc H0) as [B0 L0].
  assert (B : books g gp m P a).
  { refine (star_invariant _ (books g gp m P) _ a0 a B0 Hs). intros x y. now apply account_step_books. }
  assert (Hv : ac_leverage a = ac_leverage a0 /\ ac_version a0 <= ac_version a /\
               (dval (ac_peak_equity a0) <= dval (ac_peak_equity a))%Q).
  { revert Hs. apply (star_preorder _ (fun a b => ac_leverage b = ac_leverage a /\ ac_version a <= ac_version b /\
      (dval (ac_peak_equity a) <= dval (ac_peak_equity b))%Q)).
    - intros; repeat split; lia || lra.
    - intros x y z (? & ? & ?) (? & ? & ?); repeat split; try lia; try congruence. lra.
    - intros x y Hxy. apply account_step_leverage in Hxy as (-> & -> & ? & _). repeat split; lia || assumption. }
  destruct Hv as (El & Ev & Ep). assert (E0 : ac_leverage a0 = leverage /\ ac_peak_equity a0 = capital).
  { unfold account_create in H0. py_inv. split; reflexivity. }
  destruct E0 as [E0 E1]. rewrite E1 in Ep.
  split; [apply B|split; [|split; [exact Ep | exact Ev]]].
  eapply (books_reconcile g gp m P a B (ac_leverage a) eq_refl); [lia | | exact HP0].
  assert (leverage = 1 \/ leverage = 2 \/ leverage = 4 \/ leverage = 5) as Hc by lia. rewrite El, E0.
  destruct Hc as [->|[->|[->| ->]]]; [exists 100 | exists 50 | exists 25 | exists 20]; reflexivity.
Qed.

(** ** Where rounding breaks the reconciliation *)

(** The account after one affordable opening fill at leverage 3. *)
Definition leverage3_account : result AccountState :=
  let* a := account_create 1 (dint 1000) "USDT" 3 in
  apply_fill a 1 1 "BTCUSDT" BUY OPEN done done dzero sample_time.

(** With leverage 3 the per-position margins are rounded before they are
    added, and 1/3 + 1/3 is not 2/3 in 28 digits: the second of two ordinary
    opening fills raises [ArithmeticError] although the account has the margin
    for it many times over. *)
Theorem leverage3_margin_mismatch :
  (let* a := leverage3_account in free_margin a) = Ok (mkdec 9996666666666666666666666667 (-25)) /\
  (let* a := leverage3_account in apply_fill a 2 2 "ETHUSDT" BUY OPEN done done dzero sample_time)
    = Raise (ArithmeticError "account reconciliation failed after fill").
Proof. split; vm_compute; reflexivity. Qed.

(** An account long one unit at 100 after a fee of 0.5. *)
Definition rounding_account : result AccountState :=
  let* a := account_create 1 (dint 10000) "USDT" 1 in
  apply_fill a 1 1 "BTCUSDT" BUY OPEN done (dint 100) (mkdec 5 (-1)) sample_time.

(** A volume-weighted exit price with 28 digits (here 301/3) makes the cash
    balance and the expected cash round at different positions: the account
    refuses the full exit of an open position. *)
Theorem exit_refused_by_cash_rounding :
  is_ok rounding_account = true /\
  (let* a := rounding_account in let* vwap := ddiv (dint 301) (dint 3) in
   apply_fill a 2 1 "BTCUSDT" SELL REDUCE done vwap (mkdec 5 (-1)) sample_time)
    = Raise (ArithmeticError "account reconciliation failed after fill").
Proof. split; vm_compute; reflexivity. Qed.

(** ** Witnesses *)

Definition account_default : AccountState := {|
  ac_experiment_id := 0; ac_initial_capital := dzero; ac_currency := ""; ac_leverage := 1;
  ac_cash_balance := dzero; ac_peak_equity := dzero; ac_positions := []; ac_version := 0; ac_updated_at := None |}.

Definition or_default (m : result AccountState) : AccountState :=
  match m with Ok a => a | Raise _ => account_default end.

Definition sample_account0 : AccountState := or_default (account_create 7 (dint 10000) "USDT" 5).
Definition sample_account : AccountState :=
  or_default (apply_fill sample_account0 11 21 "BTCUSDT" BUY OPEN (dint 2) (dint 100) (mkdec 1 (-1)) sample_time).

Lemma sample_fits0 : fill_fits (-3) (-2) (-5) 1000 sample_account0 (dint 2) (dint 100) (mkdec 1 (-1)).
Proof.
  split; [exists 2000; reflexivity | | exists 10000; reflexivity | reflexivity | reflexivity | reflexivity].
  split; [exists 10000; reflexivity | split; [reflexivity | discriminate]].
Qed.

Lemma sample_books0 : books (-3) (-2) (-5) 1000 sample_account0.
Proof.
  apply (create_books (-3) (-2) (-5) 1000 7 (dint 10000) "USDT" 5); [exists 1000000000; reflexivity | reflexivity ..].
Qed.

Lemma sample_run : star (account_step (-3) (-2) 0 (-5) 1000) sample_account0 sample_account.
Proof.
  apply star_one. apply (account_step_fill _ _ _ _ _ _ 11 21 "BTCUSDT" BUY OPEN (dint 2) (dint 100) (mkdec 1 (-1)) sample_time).
  - exact sample_fits0.
  - vm_compute. reflexivity.
Qed.

Lemma sample_books : books (-3) (-2) (-5) 1000 sample_account.
Proof.
  refine (star_invariant _ _ _ _ _ sample_books0 sample_run). intros x y.
  apply account_step_books; lia || reflexivity.
Qed.

Lemma sample_fits : fill_fits (-3) (-2) (-5) 1000 sample_account (dint 1) (dint 120) (mkdec 1 (-1)).
Proof.
  split; [exists 1000; reflexivity | | exists 10000; reflexivity | reflexivity | reflexivity | reflexivity].
  split; [exists 12000; reflexivity | split; [reflexivity | discriminate]].
Qed.

Lemma apply_fill_sound_witness :
  apply_fill sample_account0 11 21 "BTCUSDT" BUY OPEN (dint 2) (dint 100) (mkdec 1 (-1)) sample_time = Ok sample_account /\
  (dval (ac_peak_equity sample_account0) <= dval (ac_peak_equity sample_account))%Q.
Proof.
  assert (H : apply_fill sample_account0 11 21 "BTCUSDT" BUY OPEN (dint 2) (dint 100) (mkdec 1 (-1)) sample_time
              = Ok sample_account) by (vm_compute; reflexivity).
  split; [exact H|].
  exact (proj1 (proj1 (proj2 (apply_fill_sound _ _ _ _ _ _ _ _ _ _ _ H)))).
Defined.

Lemma account_mark_sound_witness :
  account_mark sample_account "BTCUSDT" (dint 120) sample_time
    = Ok (or_default (account_mark sample_account "BTCUSDT" (dint 120) sample_time)) /\
  (0 <= dval (drawdown (or_default (account_mark sample_account "BTCUSDT" (dint 120) sample_time))))%Q.
Proof.
  assert (H : account_mark sample_account "BTCUSDT" (dint 120) sample_time
    = Ok (or_default (account_mark sample_account "BTCUSDT" (dint 120) sample_time))) by (vm_compute; reflexivity).
  split; [exact H|].
  exact (proj1 (proj2 (proj2 (proj2 (account_mark_sound _ _ _ _ _ H))))).
Defined.

Lemma fills_keep_exact_books_witness : exists a',
  apply_fill sample_account 12 21 "BTCUSDT" SELL REDUCE (dint 1) (dint 120) (mkdec 1 (-1)) sample_time = Ok a' /\
  (dval (ac_cash_balance a') == ledger_balance a')%Q.
Proof.
  destruct (apply_fill sample_account 12 21 "BTCUSDT" SELL REDUCE (dint 1) (dint 120) (mkdec 1 (-1)) sample_time)
    as [a'|e] eqn:E; [|vm_compute in E; discriminate].
  exists a'. split; [reflexivity|].
  refine (proj1 (proj2 (proj1 (proj2 (fills_keep_exact_books (-3) (-2) (-5) 1000 sample_account 12 21 "BTCUSDT" SELL REDUCE
    (dint 1) (dint 120) (mkdec 1 (-1)) sample_time _ _ _ _ _ sample_books sample_fits)) a' E)));
    [lia | reflexivity | reflexivity | reflexivity | exists 20; reflexivity].
Defined.

Definition sample_held : PositionState :=
  match dict_get (ac_positions sample_account) "BTCUSDT" with Some p => p | None => sample_position end.

Lemma reduce_fill_accepted_witness : exists a',
  apply_fill sample_account 12 21 "BTCUSDT" SELL REDUCE (dint 1) (dint 120) (mkdec 1 (-1)) sample_time = Ok a' /\
  (dval (ac_cash_balance a') == 10019 + (8 # 10))%Q.
Proof.
  assert (E : dict_get (ac_positions sample_account) "BTCUSDT" = Some sample_held) by (vm_compute; reflexivity).
  assert (Ep : ps_side sample_held = LONG) by (vm_compute; reflexivity).
  destruct (reduce_fill_accepted (-3) (-2) (-5) 1000 sample_account sample_held 12 21 "BTCUSDT"
    (dint 1) (dint 120) (mkdec 1 (-1)) sample_time) as (a' & H1 & _ & H2);
    [lia | vm_compute; reflexivity | reflexivity | vm_compute; reflexivity | exists 20; vm_compute; reflexivity
    | exact sample_books | exact sample_fits
    | exact E | rewrite Ep; discriminate | reflexivity | vm_compute; discriminate | discriminate | reflexivity |].
  exists a'. rewrite Ep in H1. rewrite bool_decide_true in H1 by reflexivity. split; [exact H1|].
  rewrite H2. vm_compute. reflexivity.
Defined.

Lemma account_run_reconciles_witness :
  exists r, reconcile sample_account = Ok r /\ report_ok r = true.
Proof.
  refine (proj1 (proj2 (account_run_reconciles (-3) (-2) 0 (-5) 1000 7 (dint 10000) "USDT" 5
    sample_account0 sample_account _ _ _ _ _ _ _ _ sample_run)));
    [lia | lia | reflexivity | reflexivity | exists 1000000000; reflexivity | reflexivity | discriminate | reflexivity].
Defined.
