(* ===== verification/Exits.v ===== *)
(** * Exit plans: [maais/execution/paper/exits.py]

    The protective exit plan of an open position: stop, target, maximum hold,
    opposing signals and emergency flatten.  Each [replace] of the source runs
    the dataclass check again; the model runs it too. *)

From Stdlib Require Import ZArith QArith Qabs Lia Lqa List Bool String.
From stdpp Require Import base decidable list strings.
From S2P Require Import Prelude PyDecimal DecimalTheory Domain Market.

Local Open Scope Z_scope.

Inductive ExitPlanStatus : Type := EP_ACTIVE | EP_TRIGGERED | EP_SUPERSEDED | EP_CLOSED.
Inductive ExitReason : Type := STOP | TARGET | MAXIMUM_HOLD | OPPOSING_SIGNAL | EMERGENCY.

#[export] Instance ExitPlanStatus_eq_dec : EqDecision ExitPlanStatus.
Proof. solve_decision. Defined.
#[export] Instance ExitReason_eq_dec : EqDecision ExitReason.
Proof. solve_decision. Defined.

#[export] Instance ExitPlanStatus_value : StrEnum ExitPlanStatus := fun s =>
  match s with
  | EP_ACTIVE => "active" | EP_TRIGGERED => "triggered" | EP_SUPERSEDED => "superseded" | EP_CLOSED => "closed"
  end.
#[export] Instance ExitReason_value : StrEnum ExitReason := fun r =>
  match r with
  | STOP => "stop" | TARGET => "target" | MAXIMUM_HOLD => "maximum_hold"
  | OPPOSING_SIGNAL => "opposing_signal" | EMERGENCY => "emergency"
  end.

Record ExitIntent : Type := {
  ei_position_id : UUID;
  ei_side : PaperOrderSide;
  ei_order_type : PaperOrderType;
  ei_quantity : dec;
  ei_reduce_only : bool;
  ei_reason : ExitReason;
  ei_triggered_at : datetime;
  ei_trigger_price : option dec
}.

Record ExitPlan : Type := {
  ep_plan_id : UUID;
  ep_position_id : UUID;
  ep_side : Direction;
  ep_quantity : dec;
  ep_average_entry : dec;
  ep_expected_loss_fraction : dec;
  ep_expected_gain_fraction : dec;
  ep_stop_price : dec;
  ep_target_price : dec;
  ep_maximum_bars : Z;
  ep_bars_elapsed : Z;
  ep_opposite_signal_streak : Z;
  ep_status : ExitPlanStatus;
  ep_created_at : datetime;
  ep_changed_at : datetime;
  ep_version : Z;
  ep_trigger_reason : option ExitReason;
  ep_triggered_at : option datetime;
  ep_trigger_price : option dec;
  ep_trigger_executable_price : option dec
}.

Record ExitEvaluation : Type := { ee_plan : ExitPlan; ee_intent : option ExitIntent }.

Definition is_none {A} (o : option A) : bool := match o with None => true | Some _ => false end.
Definition is_some {A} (o : option A) : bool := negb (is_none o).

(** A check on a field that may be [None]. *)
Definition when_some {A} (o : option A) (check : A -> result unit) : result unit :=
  match o with None => Ok tt | Some x => check x end.

Definition ExitPlan_post_init (p : ExitPlan) : result ExitPlan :=
  do* raise_if (bool_decide (ep_status p = EP_ACTIVE) &&
                (is_some (ep_trigger_reason p) || is_some (ep_triggered_at p) ||
                 is_some (ep_trigger_executable_price p) || is_some (ep_trigger_price p)))
        (ValueError "active exit plan cannot contain trigger metadata") ;;
  do* raise_if ((bool_decide (ep_status p = EP_TRIGGERED) || bool_decide (ep_status p = EP_CLOSED)) &&
                (is_none (ep_trigger_reason p) || is_none (ep_triggered_at p) ||
                 is_none (ep_trigger_executable_price p)))
        (ValueError "triggered and closed exit plans require restart metadata") ;;
  do* when_some (ep_triggered_at p) (fun t =>
        do* require_utc t "triggered_at" ;;
        let* early := dt_lt t (ep_created_at p) in
        raise_if early (ValueError "exit trigger cannot precede plan creation")) ;;
  do* when_some (ep_trigger_price p) (fun d => require_positive_decimal d "trigger_price") ;;
  do* when_some (ep_trigger_executable_price p)
        (fun d => require_positive_decimal d "trigger_executable_price") ;;
  Ok p.

Definition _require_fraction (value : dec) (field : string) : result unit :=
  raise_if (negb ((dzero <? value)%dec && (value <? done)%dec))
    (ValueError (field +:+ " must be a finite Decimal in (0, 1)")).

(** Stop and target of a position. *)
Definition _levels (side : Direction) (average_entry loss gain : dec) : dec * dec :=
  if bool_decide (side = LONG)
  then ((average_entry * (done - loss))%dec, (average_entry * (done + gain))%dec)
  else ((average_entry * (done + loss))%dec, (average_entry * (done - gain))%dec).

Definition exit_create (plan_id position_id : UUID) (side : Direction)
    (quantity average_entry loss gain : dec) (created_at : datetime) (maximum_bars : Z) : result ExitPlan :=
  do* raise_if (bool_decide (side = NEUTRAL)) (ValueError "exit plan side must be long or short") ;;
  do* require_positive_decimal quantity "quantity" ;;
  do* require_positive_decimal average_entry "average_entry" ;;
  do* _require_fraction loss "expected_loss_fraction" ;;
  do* _require_fraction gain "expected_gain_fraction" ;;
  do* require_utc created_at "created_at" ;;
  do* raise_if (maximum_bars <=? 0) (ValueError "maximum_bars must be positive") ;;
  let '(stop, target) := _levels side average_entry loss gain in
  ExitPlan_post_init {|
    ep_plan_id := plan_id; ep_position_id := position_id; ep_side := side; ep_quantity := quantity;
    ep_average_entry := average_entry; ep_expected_loss_fraction := loss; ep_expected_gain_fraction := gain;
    ep_stop_price := stop; ep_target_price := target; ep_maximum_bars := maximum_bars; ep_bars_elapsed := 0;
    ep_opposite_signal_streak := 0; ep_status := EP_ACTIVE; ep_created_at := created_at;
    ep_changed_at := created_at; ep_version := 1; ep_trigger_reason := None; ep_triggered_at := None;
    ep_trigger_price := None; ep_trigger_executable_price := None |}.

Definition _require_active (p : ExitPlan) : result unit :=
  raise_if (negb (bool_decide (ep_status p = EP_ACTIVE)))
    (RuntimeError ("exit plan is not active: " +:+ enum_value (ep_status p))).

Definition closing_side (p : ExitPlan) : PaperOrderSide :=
  if bool_decide (ep_side p = LONG) then SELL else BUY.

Definition _trigger (p : ExitPlan) (reason : ExitReason) (triggered_at : datetime)
    (trigger_price : option dec) (executable : dec) : result ExitEvaluation :=
  let* triggered := ExitPlan_post_init {|
    ep_plan_id := ep_plan_id p; ep_position_id := ep_position_id p; ep_side := ep_side p;
    ep_quantity := ep_quantity p; ep_average_entry := ep_average_entry p;
    ep_expected_loss_fraction := ep_expected_loss_fraction p;
    ep_expected_gain_fraction := ep_expected_gain_fraction p;
    ep_stop_price := ep_stop_price p; ep_target_price := ep_target_price p;
    ep_maximum_bars := ep_maximum_bars p; ep_bars_elapsed := ep_bars_elapsed p;
    ep_opposite_signal_streak := ep_opposite_signal_streak p; ep_status := EP_TRIGGERED;
    ep_created_at := ep_created_at p; ep_changed_at := triggered_at; ep_version := ep_version p + 1;
    ep_trigger_reason := Some reason; ep_triggered_at := Some triggered_at;
    ep_trigger_price := trigger_price; ep_trigger_executable_price := Some executable |} in
  Ok {| ee_plan := triggered;
        ee_intent := Some {| ei_position_id := ep_position_id p; ei_side := closing_side p;
                             ei_order_type := MARKET; ei_quantity := ep_quantity p; ei_reduce_only := true;
                             ei_reason := reason; ei_triggered_at := triggered_at;
                             ei_trigger_price := trigger_price |} |}.

Definition evaluate_mark (p : ExitPlan) (mark_price : dec) (observed_at : datetime)
    (executable_price : option dec) : result ExitEvaluation :=
  do* _require_active p ;;
  do* require_positive_decimal mark_price "mark_price" ;;
  do* require_utc observed_at "observed_at" ;;
  do* when_some executable_price (fun d => require_positive_decimal d "executable_price") ;;
  let executable := match executable_price with Some d => d | None => mark_price end in
  if bool_decide (ep_side p = LONG) then
    if (mark_price <=? ep_stop_price p)%dec then _trigger p STOP observed_at (Some mark_price) executable
    else if (mark_price >=? ep_target_price p)%dec then _trigger p TARGET observed_at (Some mark_price) executable
    else Ok {| ee_plan := p; ee_intent := None |}
  else
    if (mark_price >=? ep_stop_price p)%dec then _trigger p STOP observed_at (Some mark_price) executable
    else if (mark_price <=? ep_target_price p)%dec then _trigger p TARGET observed_at (Some mark_price) executable
    else Ok {| ee_plan := p; ee_intent := None |}.

Definition opposing_signal (p : ExitPlan) (direction : Direction) (approved : bool) : bool :=
  approved && ((bool_decide (ep_side p = LONG) && bool_decide (direction = SHORT)) ||
               (bool_decide (ep_side p = SHORT) && bool_decide (direction = LONG))).

Definition observe_closed_bar (p : ExitPlan) (direction : Direction) (approved : bool)
    (closed_at : datetime) (executable_price : dec) : result ExitEvaluation :=
  do* _require_active p ;;
  do* require_utc closed_at "closed_at" ;;
  do* require_positive_decimal executable_price "executable_price" ;;
  let streak := if opposing_signal p direction approved then ep_opposite_signal_streak p + 1 else 0 in
  let* updated := ExitPlan_post_init {|
    ep_plan_id := ep_plan_id p; ep_position_id := ep_position_id p; ep_side := ep_side p;
    ep_quantity := ep_quantity p; ep_average_entry := ep_average_entry p;
    ep_expected_loss_fraction := ep_expected_loss_fraction p;
    ep_expected_gain_fraction := ep_expected_gain_fraction p;
    ep_stop_price := ep_stop_price p; ep_target_price := ep_target_price p;
    ep_maximum_bars := ep_maximum_bars p; ep_bars_elapsed := ep_bars_elapsed p + 1;
    ep_opposite_signal_streak := streak; ep_status := ep_status p;
    ep_created_at := ep_created_at p; ep_changed_at := closed_at; ep_version := ep_version p + 1;
    ep_trigger_reason := ep_trigger_reason p; ep_triggered_at := ep_triggered_at p;
    ep_trigger_price := ep_trigger_price p; ep_trigger_executable_price := ep_trigger_executable_price p |} in
  if 2 <=? streak then _trigger updated OPPOSING_SIGNAL closed_at None executable_price
  else if ep_maximum_bars updated <=? ep_bars_elapsed updated
       then _trigger updated MAXIMUM_HOLD closed_at None executable_price
       else Ok {| ee_plan := updated; ee_intent := None |}.

(** [replace(self, quantity=..., average_entry=..., stop_price=..., target_price=..., changed_at=...,
    version=self.version + 1)]: the common part of [resize] and [tighten_stop]. *)
Definition exit_relevel (p : ExitPlan) (quantity average_entry stop target : dec) (changed_at : datetime)
  : result ExitPlan :=
  ExitPlan_post_init {|
    ep_plan_id := ep_plan_id p; ep_position_id := ep_position_id p; ep_side := ep_side p;
    ep_quantity := quantity; ep_average_entry := average_entry;
    ep_expected_loss_fraction := ep_expected_loss_fraction p;
    ep_expected_gain_fraction := ep_expected_gain_fraction p;
    ep_stop_price := stop; ep_target_price := target;
    ep_maximum_bars := ep_maximum_bars p; ep_bars_elapsed := ep_bars_elapsed p;
    ep_opposite_signal_streak := ep_opposite_signal_streak p; ep_status := ep_status p;
    ep_created_at := ep_created_at p; ep_changed_at := changed_at; ep_version := ep_version p + 1;
    ep_trigger_reason := ep_trigger_reason p; ep_triggered_at := ep_triggered_at p;
    ep_trigger_price := ep_trigger_price p; ep_trigger_executable_price := ep_trigger_executable_price p |}.

Definition exit_resize (p : ExitPlan) (quantity average_entry : dec) (changed_at : datetime) : result ExitPlan :=
  do* _require_active p ;;
  do* require_positive_decimal quantity "quantity" ;;
  do* require_positive_decimal average_entry "average_entry" ;;
  do* require_utc changed_at "changed_at" ;;
  let '(proposed_stop, target) :=
    _levels (ep_side p) average_entry (ep_expected_loss_fraction p) (ep_expected_gain_fraction p) in
  let stop := if bool_decide (ep_side p = LONG) then dmax (ep_stop_price p) proposed_stop
              else dmin (ep_stop_price p) proposed_stop in
  exit_relevel p quantity average_entry stop target changed_at.

Definition tighten_stop (p : ExitPlan) (stop_price : dec) (changed_at : datetime) : result ExitPlan :=
  do* _require_active p ;;
  do* require_positive_decimal stop_price "stop_price" ;;
  do* require_utc changed_at "changed_at" ;;
  let moves_away := (bool_decide (ep_side p = LONG) && (stop_price <? ep_stop_price p)%dec) ||
                    (bool_decide (ep_side p = SHORT) && (stop_price >? ep_stop_price p)%dec) in
  do* raise_if moves_away (ValueError "stop cannot move away from risk") ;;
  exit_relevel p (ep_quantity p) (ep_average_entry p) stop_price (ep_target_price p) changed_at.

Definition emergency_flatten (p : ExitPlan) (triggered_at : datetime) (executable_price : dec)
  : result ExitEvaluation :=
  do* _require_active p ;;
  do* require_utc triggered_at "triggered_at" ;;
  do* require_positive_decimal executable_price "executable_price" ;;
  _trigger p EMERGENCY triggered_at None executable_price.

Definition pending_intent (p : ExitPlan) : result ExitIntent :=
  do* raise_if (negb (bool_decide (ep_status p = EP_TRIGGERED)))
        (RuntimeError "only a triggered exit plan has a pending intent") ;;
  let* reason := of_option AssertionError (ep_trigger_reason p) in
  let* at_ := of_option AssertionError (ep_triggered_at p) in
  Ok {| ei_position_id := ep_position_id p; ei_side := closing_side p; ei_order_type := MARKET;
        ei_quantity := ep_quantity p; ei_reduce_only := true; ei_reason := reason;
        ei_triggered_at := at_; ei_trigger_price := ep_trigger_price p |}.

Definition exit_close (p : ExitPlan) (closed_at : datetime) : result ExitPlan :=
  do* require_utc closed_at "closed_at" ;;
  do* raise_if (negb (bool_decide (ep_status p = EP_TRIGGERED)))
        (RuntimeError "only a triggered exit plan can be closed") ;;
  ExitPlan_post_init {|
    ep_plan_id := ep_plan_id p; ep_position_id := ep_position_id p; ep_side := ep_side p;
    ep_quantity := ep_quantity p; ep_average_entry := ep_average_entry p;
    ep_expected_loss_fraction := ep_expected_loss_fraction p;
    ep_expected_gain_fraction := ep_expected_gain_fraction p;
    ep_stop_price := ep_stop_price p; ep_target_price := ep_target_price p;
    ep_maximum_bars := ep_maximum_bars p; ep_bars_elapsed := ep_bars_elapsed p;
    ep_opposite_signal_streak := ep_opposite_signal_streak p; ep_status := EP_CLOSED;
    ep_created_at := ep_created_at p; ep_changed_at := closed_at; ep_version := ep_version p + 1;
    ep_trigger_reason := ep_trigger_reason p; ep_triggered_at := ep_triggered_at p;
    ep_trigger_price := ep_trigger_price p; ep_trigger_executable_price := ep_trigger_executable_price p |}.

(** ** The plan's life as a step relation *)

Inductive exit_step : ExitPlan -> ExitPlan -> Prop :=
| xs_mark p price t x ev : evaluate_mark p price t x = Ok ev -> exit_step p (ee_plan ev)
| xs_bar p d ok t x ev : observe_closed_bar p d ok t x = Ok ev -> exit_step p (ee_plan ev)
| xs_resize p q e t p' : exit_resize p q e t = Ok p' -> exit_step p p'
| xs_tighten p s t p' : tighten_stop p s t = Ok p' -> exit_step p p'
| xs_flatten p t x ev : emergency_flatten p t x = Ok ev -> exit_step p (ee_plan ev)
| xs_close p t p' : exit_close p t = Ok p' -> exit_step p p'.

Lemma post_init_Ok p p' : ExitPlan_post_init p = Ok p' -> p' = p.
Proof. unfold ExitPlan_post_init. intros H. py_inv. reflexivity. Qed.

Lemma post_init_active p p' : ExitPlan_post_init p = Ok p' -> ep_status p = EP_ACTIVE ->
  ep_trigger_reason p = None /\ ep_triggered_at p = None /\ ep_trigger_price p = None /\
  ep_trigger_executable_price p = None.
Proof.
  unfold ExitPlan_post_init. intros H Ha. apply bind_Ok in H as (u & H & _).
  apply raise_if_Ok in H. rewrite bool_decide_true in H by exact Ha. cbn [andb] in H.
  bool_prop. unfold is_some, is_none in *. bool_prop.
  destruct (ep_trigger_reason p), (ep_triggered_at p), (ep_trigger_price p), (ep_trigger_executable_price p);
    try discriminate. auto.
Qed.

Lemma require_active_Ok p u : _require_active p = Ok u <-> ep_status p = EP_ACTIVE.
Proof.
  unfold _require_active. rewrite raise_if_Ok, negb_false_iff. apply bool_decide_eq_true.
Qed.

(** The fields no update changes, and the stop, which only moves towards the price. *)
Record exit_le (p p' : ExitPlan) : Prop := {
  el_id : ep_plan_id p' = ep_plan_id p /\ ep_position_id p' = ep_position_id p /\ ep_side p' = ep_side p /\
          ep_created_at p' = ep_created_at p /\ ep_maximum_bars p' = ep_maximum_bars p;
  el_version : ep_version p <= ep_version p';
  el_stop : match ep_side p with
            | LONG => (dval (ep_stop_price p) <= dval (ep_stop_price p'))%Q
            | SHORT => (dval (ep_stop_price p') <= dval (ep_stop_price p))%Q
            | NEUTRAL => True
            end
}.

Lemma exit_le_refl p : exit_le p p.
Proof. split; [repeat split | lia | destruct (ep_side p); [lra | lra | exact I]]. Qed.

Lemma exit_le_trans p1 p2 p3 : exit_le p1 p2 -> exit_le p2 p3 -> exit_le p1 p3.
Proof.
  intros [(A1 & A2 & A3 & A4 & A5) V1 S1] [(B1 & B2 & B3 & B4 & B5) V2 S2]. split.
  - repeat split; congruence.
  - lia.
  - rewrite A3 in S2. destruct (ep_side p1); [lra | lra | exact I].
Qed.

(** What [_trigger] returns: the plan in [TRIGGERED] with its restart data and the intent to close it all. *)
Lemma trigger_Ok p reason t price x ev : _trigger p reason t price x = Ok ev ->
  exit_le p (ee_plan ev) /\ ep_status (ee_plan ev) = EP_TRIGGERED /\ ep_trigger_reason (ee_plan ev) = Some reason /\
  ep_triggered_at (ee_plan ev) = Some t /\ ep_trigger_price (ee_plan ev) = price /\
  ep_quantity (ee_plan ev) = ep_quantity p /\ ep_version (ee_plan ev) = ep_version p + 1 /\
  pending_intent (ee_plan ev) = of_option AssertionError (ee_intent ev) /\
  exists i, ee_intent ev = Some i /\ ei_reason i = reason /\ ei_side i = closing_side p /\
    ei_quantity i = ep_quantity p /\ ei_reduce_only i = true /\ ei_position_id i = ep_position_id p.
Proof.
  unfold _trigger. intros H. py_inv. match goal with H : ExitPlan_post_init _ = Ok _ |- _ =>
    apply post_init_Ok in H; subst end. cbn.
  split; [split; cbn; [repeat split | lia | destruct (ep_side p); [lra | lra | exact I]]|].
  repeat split. eexists; repeat split.
Qed.

(** Decompose the guards shared by the plan's operations. *)
Ltac exit_inv :=
  py_inv;
  repeat match goal with
  | H : _require_active _ = Ok _ |- _ => apply require_active_Ok in H
  | H : require_positive_decimal _ _ = Ok _ |- _ => apply require_positive_Ok in H
  | H : require_utc _ _ = Ok _ |- _ => apply require_utc_Ok in H
  | H : ExitPlan_post_init _ = Ok _ |- _ => apply post_init_Ok in H; try subst
  end.

Lemma evaluate_mark_Ok p price t x ev : evaluate_mark p price t x = Ok ev ->
  ep_status p = EP_ACTIVE /\
  ((ev = {| ee_plan := p; ee_intent := None |}) \/
   exists reason e, _trigger p reason t (Some price) e = Ok ev).
Proof.
  unfold evaluate_mark. intros H. exit_inv. split; [assumption|].
  destruct (bool_decide _); repeat (destruct (dleb _ _)); py_inv; eauto.
Qed.

(** The plan after one more closed bar, before the exit rules are applied. *)
Definition bar_advanced (p p' : ExitPlan) (streak : Z) : Prop :=
  exit_le p p' /\ ep_status p' = ep_status p /\ ep_bars_elapsed p' = ep_bars_elapsed p + 1 /\
  ep_opposite_signal_streak p' = streak /\ ep_version p' = ep_version p + 1.

Lemma observe_closed_bar_Ok p d ok t x ev : observe_closed_bar p d ok t x = Ok ev ->
  ep_status p = EP_ACTIVE /\
  let streak := if opposing_signal p d ok then ep_opposite_signal_streak p + 1 else 0 in
  exists u, bar_advanced p u streak /\
    ((2 <= streak /\ _trigger u OPPOSING_SIGNAL t None x = Ok ev) \/
     (streak < 2 /\ ep_maximum_bars p <= ep_bars_elapsed p + 1 /\ _trigger u MAXIMUM_HOLD t None x = Ok ev) \/
     (streak < 2 /\ ep_bars_elapsed p + 1 < ep_maximum_bars p /\ ev = {| ee_plan := u; ee_intent := None |})).
Proof.
  unfold observe_closed_bar. intros H. exit_inv. split; [assumption|].
  set (streak := if opposing_signal p d ok then _ else _) in *. cbv zeta.
  match type of H with (if _ then _trigger ?u _ _ _ _ else _) = _ => exists u end.
  split.
  { split; [split; cbn; [repeat split | lia | destruct (ep_side p); [lra | lra | exact I]]|].
    cbn. repeat split; auto. }
  cbn [ep_maximum_bars ep_bars_elapsed] in H.
  destruct (Z.leb_spec 2 streak); [left; auto|].
  destruct (Z.leb_spec (ep_maximum_bars p) (ep_bars_elapsed p + 1)); [right; left; auto|].
  right; right. py_inv. auto.
Qed.

Lemma exit_step_le p p' : exit_step p p' -> exit_le p p'.
Proof.
  intros H. destruct H as [p price t x ev H | p d ok t x ev H | p q e t p' H | p s t p' H | p t x ev H | p t p' H].
  - apply evaluate_mark_Ok in H as (_ & [->|(r & e & H)]); [apply exit_le_refl | now apply trigger_Ok in H].
  - apply observe_closed_bar_Ok in H as (_ & u & (L & _) & [(_ & H)|[(_ & _ & H)|(_ & _ & ->)]]);
      [| |exact L]; apply trigger_Ok in H as (L' & _); eapply exit_le_trans; eassumption.
  - unfold exit_resize in H. destruct (_levels _ _ _ _) as [s tg]. unfold exit_relevel in H. exit_inv.
    split; cbn; [repeat split | lia |]. destruct (ep_side p); [apply dmax_ub_l | apply dmin_lb_l | exact I].
  - unfold tighten_stop, exit_relevel in H. exit_inv. bool_prop. split; cbn; [repeat split | lia |].
    destruct (ep_side p); [| |exact I];
      match goal with H : bool_decide (?a = ?a) && _ = false |- _ => rewrite bool_decide_true in H by reflexivity;
        cbn [andb] in H; now apply dltb_ge in H end.
  - unfold emergency_flatten in H. exit_inv. now apply trigger_Ok in H.
  - unfold exit_close in H. exit_inv. split; cbn; [repeat split | lia | destruct (ep_side p); [lra | lra | exact I]].
Qed.

(** The evidence of a trigger, and the quantity that is to be closed. *)
Definition same_trigger (p p' : ExitPlan) : Prop :=
  ep_quantity p' = ep_quantity p /\ ep_stop_price p' = ep_stop_price p /\ ep_trigger_reason p' = ep_trigger_reason p /\
  ep_triggered_at p' = ep_triggered_at p /\ ep_trigger_price p' = ep_trigger_price p /\
  ep_trigger_executable_price p' = ep_trigger_executable_price p.

(** Only an active plan moves, except that a triggered one is closed. *)
Lemma exit_step_status p p' : exit_step p p' ->
  ep_status p = EP_ACTIVE \/ (ep_status p = EP_TRIGGERED /\ ep_status p' = EP_CLOSED /\ same_trigger p p').
Proof.
  intros H. destruct H as [p price t x ev H | p d ok t x ev H | p q e t p' H | p s t p' H | p t x ev H | p t p' H].
  - left. now apply evaluate_mark_Ok in H.
  - left. now apply observe_closed_bar_Ok in H.
  - left. unfold exit_resize in H. destruct (_levels _ _ _ _). now exit_inv.
  - left. unfold tighten_stop in H. now exit_inv.
  - left. unfold emergency_flatten in H. now exit_inv.
  - right. unfold exit_close in H. exit_inv. bool_prop. split; [assumption|]. split; [reflexivity | repeat split].
Qed.

Lemma closed_stays p p' : star exit_step p p' -> ep_status p = EP_CLOSED -> p' = p.
Proof.
  induction 1 as [|p q r H _ _]; intros E; [reflexivity|]. apply exit_step_status in H as [H|[H _]]; congruence.
Qed.

(** C35: Over any sequence of marks, closed bars, resizes, stop changes, flatten
    commands and the final close, a plan's stop never moves away from the
    market: it only rises for a long position and only falls for a short one,
    also when scaling in would compute a looser level.  A triggered plan never
    becomes active again: it stays as it is, or is closed with the same quantity
    and evidence; a closed plan never changes. *)
Theorem stop_never_loosens p p' :
  star exit_step p p' ->
  (ep_side p = LONG -> (dval (ep_stop_price p) <= dval (ep_stop_price p'))%Q) /\
  (ep_side p = SHORT -> (dval (ep_stop_price p') <= dval (ep_stop_price p))%Q) /\
  (ep_side p' = ep_side p /\ ep_position_id p' = ep_position_id p /\ ep_version p <= ep_version p') /\
  (ep_status p = EP_TRIGGERED -> p' = p \/ (ep_status p' = EP_CLOSED /\ same_trigger p p')) /\
  (ep_status p = EP_CLOSED -> p' = p).
Proof.
  intros H. assert (L : exit_le p p').
  { revert H. apply (star_preorder _ exit_le exit_le_refl exit_le_trans exit_step_le). }
  destruct L as [(_ & Hp & Hs & _) V S].
  split; [intros E; rewrite E in S; exact S|]. split; [intros E; rewrite E in S; exact S|].
  split; [auto|]. split; [|now apply closed_stays].
  intros E. destruct H as [|p q r H Hr]; [now left|]. right.
  apply exit_step_status in H as [H|(_ & Hq & T)]; [congruence|].
  apply closed_stays in Hr as ->; auto.
Qed.

(** ** When a plan triggers *)

(** A plan that the constructor accepted, active, created at a UTC time. *)
Record live_plan (p : ExitPlan) : Prop := {
  lp_valid : ExitPlan_post_init p = Ok p;
  lp_active : ep_status p = EP_ACTIVE;
  lp_created : is_utc (ep_created_at p) = true
}.

(** A time at which the plan can trigger. *)
Definition after_creation (p : ExitPlan) (t : datetime) : Prop :=
  is_utc t = true /\ instant (ep_created_at p) <= instant t.

Lemma trigger_total p reason t price x :
  is_utc (ep_created_at p) = true -> after_creation p t -> (0 < dval x)%Q ->
  (forall d, price = Some d -> (0 < dval d)%Q) -> exists ev, _trigger p reason t price x = Ok ev.
Proof.
  intros Hc [Ht Hle] Hx Hp. unfold _trigger, ExitPlan_post_init.
  cbn [ep_status ep_trigger_reason ep_triggered_at ep_trigger_price ep_trigger_executable_price ep_created_at].
  rewrite (bool_decide_false (EP_TRIGGERED = EP_ACTIVE)) by discriminate.
  rewrite (bool_decide_true (EP_TRIGGERED = EP_TRIGGERED)) by reflexivity.
  cbn [andb orb is_none raise_if bind when_some]. rewrite (require_utc_true _ _ Ht). cbn [bind].
  unfold dt_lt. rewrite (same_awareness_utc _ _ Ht Hc). cbn [bind].
  rewrite (proj2 (Z.ltb_ge _ _) Hle). cbn [bind raise_if].
  destruct price as [d|]; cbn [when_some]; rewrite ?require_positive_true by auto; cbn [bind]; eauto.
Qed.

Lemma active_passes p : ep_status p = EP_ACTIVE -> _require_active p = Ok tt.
Proof. intros H. now apply require_active_Ok. Qed.

Definition stop_hit (p : ExitPlan) (price : dec) : Prop :=
  match ep_side p with
  | LONG => (dval price <= dval (ep_stop_price p))%Q
  | _ => (dval (ep_stop_price p) <= dval price)%Q
  end.
Definition target_hit (p : ExitPlan) (price : dec) : Prop :=
  match ep_side p with
  | LONG => (dval (ep_target_price p) <= dval price)%Q
  | _ => (dval price <= dval (ep_target_price p))%Q
  end.

(** What [evaluate_mark] returns once its arguments passed the checks. *)
Lemma evaluate_mark_eq p price t x :
  live_plan p -> (0 < dval price)%Q -> is_utc t = true -> (forall d, x = Some d -> (0 < dval d)%Q) ->
  let e := match x with Some d => d | None => price end in
  (stop_hit p price /\ evaluate_mark p price t x = _trigger p STOP t (Some price) e) \/
  (~ stop_hit p price /\ target_hit p price /\ evaluate_mark p price t x = _trigger p TARGET t (Some price) e) \/
  (~ stop_hit p price /\ ~ target_hit p price /\ evaluate_mark p price t x = Ok {| ee_plan := p; ee_intent := None |}).
Proof.
  intros [_ Ha _] Hp Ht Hx e. unfold evaluate_mark, stop_hit, target_hit.
  rewrite (active_passes p Ha), (require_positive_true _ _ Hp), (require_utc_true _ _ Ht). cbn [bind].
  assert (when_some x (fun d => require_positive_decimal d "executable_price") = Ok tt) as ->.
  { destruct x; cbn; [apply require_positive_true; auto | reflexivity]. }
  cbn [bind]. fold e. destruct (ep_side p).
  1: rewrite (bool_decide_true (LONG = LONG)) by reflexivity.
  2: rewrite (bool_decide_false (SHORT = LONG)) by discriminate.
  3: rewrite (bool_decide_false (NEUTRAL = LONG)) by discriminate.
  all: match goal with |- context [if dleb ?a ?b then _trigger _ STOP _ _ _ else _] => destruct (dleb a b) eqn:E1 end;
    dec_prop; [left; auto|right].
  all: match goal with |- context [if dleb ?a ?b then _trigger _ TARGET _ _ _ else _] => destruct (dleb a b) eqn:E2 end;
    dec_prop; [left|right]; repeat split; try assumption; apply Qlt_not_le; assumption.
Qed.

(** Deciding whether the stop is hit, by the comparison of the source. *)
Definition stop_hitb (p : ExitPlan) (price : dec) : bool :=
  if bool_decide (ep_side p = LONG) then (price <=? ep_stop_price p)%dec else (price >=? ep_stop_price p)%dec.

Lemma stop_hitb_spec p price : stop_hitb p price = true <-> stop_hit p price.
Proof. unfold stop_hitb, stop_hit. destruct (ep_side p); cbn; apply dleb_le. Qed.

(** A mark always gets an answer, and the right one: the plan triggers
    exactly when the mark is at or beyond the stop or the target, the stop wins
    when both are hit, the intent closes the whole quantity reduce-only on the
    opposite side, and otherwise the plan is unchanged. *)
Theorem mark_triggers_exactly p price t x :
  live_plan p -> (0 < dval price)%Q -> after_creation p t -> (forall d, x = Some d -> (0 < dval d)%Q) ->
  exists ev, evaluate_mark p price t x = Ok ev /\
    (ee_intent ev = None <-> ~ stop_hit p price /\ ~ target_hit p price) /\
    (ee_intent ev = None -> ee_plan ev = p) /\
    (forall i, ee_intent ev = Some i ->
       ei_reason i = (if stop_hitb p price then STOP else TARGET) /\
       ei_side i = closing_side p /\ ei_quantity i = ep_quantity p /\ ei_reduce_only i = true /\
       ep_status (ee_plan ev) = EP_TRIGGERED).
Proof.
  intros L Hp Ht Hx.
  assert (Htr : forall r e, (0 < dval e)%Q -> exists ev i, _trigger p r t (Some price) e = Ok ev /\
    ee_intent ev = Some i /\ ei_reason i = r /\ ei_side i = closing_side p /\ ei_quantity i = ep_quantity p /\
    ei_reduce_only i = true /\ ep_status (ee_plan ev) = EP_TRIGGERED).
  { intros r e He. destruct (trigger_total p r t (Some price) e (lp_created p L) Ht He) as [ev Hev];
      [intros d [= <-]; exact Hp|]. exists ev.
    apply trigger_Ok in Hev as Hi. destruct Hi as (_ & Hs & _ & _ & _ & _ & _ & _ & i & Ei & H1 & H2 & H3 & H4 & _).
    exists i. auto 10. }
  assert (He : (0 < dval (match x with Some d => d | None => price end))%Q) by (destruct x; auto).
  destruct (evaluate_mark_eq p price t x L Hp (proj1 Ht) Hx) as [(S & E)|[(S & T & E)|(S & T & E)]]; rewrite E.
  - destruct (Htr STOP _ He) as (ev & i & Hev & Ei & Hr & Hi). exists ev. rewrite Ei.
    split; [exact Hev|split; [split; [discriminate | tauto]|split; [discriminate|]]].
    intros j [= <-]. rewrite (proj2 (stop_hitb_spec p price) S). auto.
  - destruct (Htr TARGET _ He) as (ev & i & Hev & Ei & Hr & Hi). exists ev. rewrite Ei.
    split; [exact Hev|split; [split; [discriminate | tauto]|split; [discriminate|]]].
    intros j [= <-]. assert (stop_hitb p price = false) as ->; [|auto].
    apply not_true_iff_false. now rewrite stop_hitb_spec.
  - eexists; split; [reflexivity|]. cbn. split; [tauto|split; [reflexivity|discriminate]].
Qed.

(** A restart loses nothing: whenever a mark, a closed bar or a flatten
    command produces an exit intent, the plan it returns is [TRIGGERED] and
    [pending_intent] rebuilds exactly that intent from the stored plan; when no
    intent is produced the plan is still active. *)
Theorem restart_recovers_intent p ev :
  (exists price t x, evaluate_mark p price t x = Ok ev) \/
  (exists d ok t x, observe_closed_bar p d ok t x = Ok ev) \/
  (exists t x, emergency_flatten p t x = Ok ev) ->
  match ee_intent ev with
  | Some i => pending_intent (ee_plan ev) = Ok i /\ ep_status (ee_plan ev) = EP_TRIGGERED
  | None => ep_status (ee_plan ev) = EP_ACTIVE
  end.
Proof.
  assert (Ht : forall q r t price x, _trigger q r t price x = Ok ev ->
    match ee_intent ev with
    | Some i => pending_intent (ee_plan ev) = Ok i /\ ep_status (ee_plan ev) = EP_TRIGGERED
    | None => ep_status (ee_plan ev) = EP_ACTIVE
    end).
  { intros q r t price x H. apply trigger_Ok in H as (_ & Hs & _ & _ & _ & _ & _ & Hp & i & Ei & _).
    rewrite Ei in *. auto. }
  intros [(price & t & x & H)|[(d & ok & t & x & H)|(t & x & H)]].
  - apply evaluate_mark_Ok in H as (Ha & [->|(r & e & H)]); [exact Ha | eapply Ht, H].
  - apply observe_closed_bar_Ok in H as (Ha & u & (_ & Hs & _) & [(_ & H)|[(_ & _ & H)|(_ & _ & ->)]]);
      [eapply Ht, H | eapply Ht, H | cbn; congruence].
  - unfold emergency_flatten in H. exit_inv. eapply Ht, H.
Qed.

(** ** Bounded holding time *)

Record closed_bar : Type := {
  cb_direction : Direction; cb_approved : bool; cb_closed_at : datetime; cb_executable : dec
}.

(** Feeding closed bars to a plan until it triggers. *)
Fixpoint run_bars (p : ExitPlan) (bars : list closed_bar) : result ExitEvaluation :=
  match bars with
  | [] => Ok {| ee_plan := p; ee_intent := None |}
  | b :: bars' =>
      let* ev := observe_closed_bar p (cb_direction b) (cb_approved b) (cb_closed_at b) (cb_executable b) in
      match ee_intent ev with
      | Some _ => Ok ev
      | None => run_bars (ee_plan ev) bars'
      end
  end.

Definition good_bar (p : ExitPlan) (b : closed_bar) : Prop :=
  after_creation p (cb_closed_at b) /\ (0 < dval (cb_executable b))%Q.

Lemma bar_total p b : live_plan p -> good_bar p b ->
  exists ev, observe_closed_bar p (cb_direction b) (cb_approved b) (cb_closed_at b) (cb_executable b) = Ok ev /\
    match ee_intent ev with
    | Some _ => True
    | None => live_plan (ee_plan ev) /\ ep_bars_elapsed (ee_plan ev) = ep_bars_elapsed p + 1 /\
              ep_maximum_bars (ee_plan ev) = ep_maximum_bars p /\ ep_created_at (ee_plan ev) = ep_created_at p /\
              ep_bars_elapsed p + 1 < ep_maximum_bars p
    end.
Proof.
  intros L [Ht Hx]. pose proof (post_init_active _ _ (lp_valid p L) (lp_active p L)) as (N1 & N2 & N3 & N4).
  unfold observe_closed_bar. rewrite (active_passes p (lp_active p L)), (require_utc_true _ _ (proj1 Ht)),
    (require_positive_true _ _ Hx). cbn [bind].
  set (streak := if opposing_signal _ _ _ then _ else _). set (u := Build_ExitPlan _ _ _ _ _ _ _ _ _ _ _ _ _ _ _ _ _ _ _ _).
  assert (Hu : ExitPlan_post_init u = Ok u).
  { unfold u, ExitPlan_post_init; cbn. rewrite N1, N2, N3, N4, (lp_active p L). reflexivity. }
  rewrite Hu. cbn [bind]. assert (Ha : after_creation u (cb_closed_at b)) by exact Ht.
  destruct (trigger_total u OPPOSING_SIGNAL (cb_closed_at b) None (cb_executable b) (lp_created p L) Ha Hx) as [e1 E1];
    [discriminate|].
  destruct (trigger_total u MAXIMUM_HOLD (cb_closed_at b) None (cb_executable b) (lp_created p L) Ha Hx) as [e2 E2];
    [discriminate|].
  apply trigger_Ok in E1 as T1. destruct T1 as (_ & _ & _ & _ & _ & _ & _ & _ & i1 & I1 & _).
  apply trigger_Ok in E2 as T2. destruct T2 as (_ & _ & _ & _ & _ & _ & _ & _ & i2 & I2 & _).
  destruct (Z.leb_spec 2 streak); [exists e1; rewrite I1; auto|].
  destruct (Z.leb_spec (ep_maximum_bars u) (ep_bars_elapsed u)) as [Hm|Hm]; [exists e2; rewrite I2; auto|].
  exists {| ee_plan := u; ee_intent := None |}. split; [reflexivity|]. cbn [ee_intent ee_plan].
  split; [split; [exact Hu | exact (lp_active p L) | exact (lp_created p L)]|]. cbn in Hm |- *. repeat split; lia.
Qed.

(** No position is held for ever: whatever the decisions on the closed
    bars are, a live plan that sees as many bars as its maximum hold still
    allows has triggered, at the latest on the last of them. *)
Theorem hold_is_bounded p bars :
  live_plan p -> Forall (good_bar p) bars -> ep_bars_elapsed p < ep_maximum_bars p ->
  ep_maximum_bars p - ep_bars_elapsed p <= Z.of_nat (length bars) ->
  exists ev i, run_bars p bars = Ok ev /\ ee_intent ev = Some i /\ ep_status (ee_plan ev) = EP_TRIGGERED /\
    pending_intent (ee_plan ev) = Ok i.
Proof.
  intros L Hb; revert p L Hb. induction bars as [|b bars IH]; intros p L Hb Hlt Hn; [cbn in Hn; lia|].
  apply Forall_cons in Hb as [Hb1 Hb]. destruct (bar_total p b L Hb1) as (ev & Hev & Hi).
  cbn [run_bars]. rewrite Hev. cbn [bind]. destruct (ee_intent ev) as [i|] eqn:Ei.
  - exists ev, i. split; [reflexivity|split; [exact Ei|]].
    apply observe_closed_bar_Ok in Hev as (_ & u & _ & [(_ & H)|[(_ & _ & H)|(_ & _ & ->)]]); [| |discriminate];
      apply trigger_Ok in H as (_ & Hs & _ & _ & _ & _ & _ & Hp & _); rewrite Ei in Hp; auto.
  - destruct Hi as (L' & E1 & E2 & E3 & Hlt'). cbn [length] in Hn. apply IH; [exact L' | | lia | lia].
    eapply List.Forall_impl; [|exact Hb]. intros c [[U V] W]. split; [split; [exact U|rewrite E3; exact V] | exact W].
Qed.

(** Two approved decisions in a row against the position close it: a live
    plan whose last bar carried one opposing approved signal triggers with
    [OPPOSING_SIGNAL] on the next one, and any other bar resets the count. *)
Theorem second_opposing_signal_exits p d ok t x ev :
  observe_closed_bar p d ok t x = Ok ev -> 0 <= ep_opposite_signal_streak p ->
  (opposing_signal p d ok = true -> 1 <= ep_opposite_signal_streak p ->
     exists i, ee_intent ev = Some i /\ ei_reason i = OPPOSING_SIGNAL /\ ei_side i = closing_side p) /\
  (opposing_signal p d ok = true -> ep_opposite_signal_streak p = 0 ->
     ep_opposite_signal_streak (ee_plan ev) = 1 \/ exists i, ee_intent ev = Some i /\ ei_reason i = MAXIMUM_HOLD) /\
  (opposing_signal p d ok = false ->
     ep_opposite_signal_streak (ee_plan ev) = 0 \/ exists i, ee_intent ev = Some i /\ ei_reason i = MAXIMUM_HOLD).
Proof.
  intros H H0. apply observe_closed_bar_Ok in H as (_ & u & (L & _ & _ & Es & _) & Hc).
  assert (Ec : closing_side u = closing_side p)
    by (unfold closing_side; destruct L as [(_ & _ & -> & _) _ _]; reflexivity).
  split; [|split].
  - intros Eo Hs. rewrite Eo in Hc. destruct Hc as [(_ & H)|[(? & _)|(? & _)]]; [|lia|lia].
    apply trigger_Ok in H as (_ & _ & _ & _ & _ & _ & _ & _ & i & Ei & Er & Esd & _).
    exists i. rewrite Esd, Ec. auto.
  - intros Eo Hs. rewrite Eo, Hs in *. destruct Hc as [(? & _)|[(_ & _ & H)|(_ & _ & ->)]]; [lia| |left; exact Es].
    apply trigger_Ok in H as (_ & _ & _ & _ & _ & _ & _ & _ & i & Ei & Er & _). eauto.
  - intros Eo. rewrite Eo in *. destruct Hc as [(? & _)|[(_ & _ & H)|(_ & _ & ->)]]; [lia| |left; exact Es].
    apply trigger_Ok in H as (_ & _ & _ & _ & _ & _ & _ & _ & i & Ei & Er & _). eauto.
Qed.

(** ** Where the levels lie *)

(** One part in 10^20, far above the rounding error of two operations. *)
Definition visible (f : dec) : Prop := (1 # 100000000000000000000 <= dval f)%Q.

Lemma scale_down e f : (0 < dval e)%Q -> visible f -> (dval f < 1)%Q ->
  (0 < dval (e * (done - f))%dec /\ dval (e * (done - f))%dec < dval e)%Q.
Proof.
  unfold visible. intros He Hf H1. pose proof (dsub_rounded done f) as R. rewrite dval_one in R.
  pose proof (rounded_pos R ltac:(lra)) as Hp. pose proof (rounded_rel R ltac:(lra)) as [_ Hu].
  split; [apply dmul_pos; assumption|].
  pose proof (rounded_rel (dmul_rounded e (done - f)%dec) ltac:(nra)) as [_ Hm].
  set (a := dval (done - f)%dec) in *. set (d := dval (e * (done - f))%dec) in *.
  assert (Ha : (a * (1 + half_ulp) < 1)%Q) by (unfold half_ulp in *; lra).
  assert (dval e * a * (1 + half_ulp) == dval e * (a * (1 + half_ulp)))%Q as E by ring. rewrite E in Hm. nra.
Qed.

Lemma scale_up e f : (0 < dval e)%Q -> visible f -> (dval e < dval (e * (done + f))%dec)%Q.
Proof.
  unfold visible. intros He Hf. pose proof (dadd_rounded done f) as R. rewrite dval_one in R.
  pose proof (rounded_rel R ltac:(lra)) as [Hl _].
  pose proof (rounded_pos R ltac:(lra)) as Hp.
  pose proof (rounded_rel (dmul_rounded e (done + f)%dec) ltac:(nra)) as [Hm _].
  set (a := dval (done + f)%dec) in *. set (d := dval (e * (done + f))%dec) in *.
  assert (Ha : (1 < a * (1 - half_ulp))%Q) by (unfold half_ulp in *; lra).
  assert (dval e * a * (1 - half_ulp) == dval e * (a * (1 - half_ulp)))%Q as E by ring. rewrite E in Hm. nra.
Qed.

(** The levels of a new plan bracket the entry: for a long position the
    stop lies below and the target above the average entry, for a short one the
    other way round, and all levels are positive, for every loss and gain
    fraction of at least one part in 10^20, rounding included. *)
Theorem levels_bracket_entry plan pos side q e loss gain t bars p :
  exit_create plan pos side q e loss gain t bars = Ok p -> visible loss -> visible gain ->
  (0 < dval (ep_stop_price p) /\ 0 < dval (ep_target_price p))%Q /\
  (side = LONG -> dval (ep_stop_price p) < dval e /\ dval e < dval (ep_target_price p))%Q /\
  (side = SHORT -> dval (ep_target_price p) < dval e /\ dval e < dval (ep_stop_price p))%Q /\
  side <> NEUTRAL /\ live_plan p /\ 0 < ep_maximum_bars p /\ ep_bars_elapsed p = 0.
Proof.
  unfold exit_create. intros H Hl Hg. destruct (_levels side e loss gain) as [st tg] eqn:El.
  apply bind_Ok in H as (u0 & H0 & H). py_inv_step. unfold _require_fraction in H. py_inv. bool_prop.
  repeat match goal with H : require_positive_decimal _ _ = Ok _ |- _ => apply require_positive_Ok in H
                       | H : require_utc _ _ = Ok _ |- _ => apply require_utc_Ok in H end.
  dec_prop. rewrite dval_zero, dval_one in *. pose proof H as Hp. apply post_init_Ok in H. subst p. cbn.
  pose proof (scale_down e loss ltac:(assumption) Hl ltac:(assumption)) as [D1 D2].
  pose proof (scale_down e gain ltac:(assumption) Hg ltac:(assumption)) as [D3 D4].
  pose proof (scale_up e loss ltac:(assumption) Hl) as U1. pose proof (scale_up e gain ltac:(assumption) Hg) as U2.
  assert (Hlive : live_plan {|
    ep_plan_id := plan; ep_position_id := pos; ep_side := side; ep_quantity := q; ep_average_entry := e;
    ep_expected_loss_fraction := loss; ep_expected_gain_fraction := gain; ep_stop_price := st; ep_target_price := tg;
    ep_maximum_bars := bars; ep_bars_elapsed := 0; ep_opposite_signal_streak := 0; ep_status := EP_ACTIVE;
    ep_created_at := t; ep_changed_at := t; ep_version := 1; ep_trigger_reason := None; ep_triggered_at := None;
    ep_trigger_price := None; ep_trigger_executable_price := None |}).
  { split; [exact Hp | reflexivity | assumption]. }
  unfold _levels in El. destruct side; cbn in El; injection El as <- <-; repeat split;
    try assumption; try discriminate; try lia; intros; try discriminate; try lra; try (split; lra).
Qed.

(** ** Witnesses *)

Definition t0 : datetime := utc 1700000000000000.

(** Long 2 at 100, stop 1% below, target 2% above, at most 3 bars. *)
Definition sample_plan : ExitPlan := {|
  ep_plan_id := 1; ep_position_id := 2; ep_side := LONG; ep_quantity := dint 2; ep_average_entry := dint 100;
  ep_expected_loss_fraction := mkdec 1 (-2); ep_expected_gain_fraction := mkdec 2 (-2);
  ep_stop_price := mkdec 9900 (-2); ep_target_price := mkdec 10200 (-2); ep_maximum_bars := 3;
  ep_bars_elapsed := 0; ep_opposite_signal_streak := 0; ep_status := EP_ACTIVE; ep_created_at := t0;
  ep_changed_at := t0; ep_version := 1; ep_trigger_reason := None; ep_triggered_at := None;
  ep_trigger_price := None; ep_trigger_executable_price := None |}.

Lemma sample_plan_live : live_plan sample_plan.
Proof. split; vm_compute; reflexivity. Qed.

Lemma sample_after : after_creation sample_plan t0.
Proof. split; [reflexivity | apply Z.le_refl]. Qed.

(** Scaling in at 90 would compute a stop of 89.1; the plan keeps 99. *)
Lemma stop_never_loosens_witness : exists p',
  exit_resize sample_plan (dint 4) (dint 90) t0 = Ok p' /\
  (dval (ep_stop_price sample_plan) <= dval (ep_stop_price p'))%Q.
Proof.
  destruct (exit_resize sample_plan (dint 4) (dint 90) t0) as [p'|e] eqn:E; [|vm_compute in E; discriminate].
  exists p'. split; [reflexivity|].
  exact (proj1 (stop_never_loosens sample_plan p' (star_one exit_step _ _ (xs_resize _ _ _ _ _ E))) eq_refl).
Defined.

Lemma mark_triggers_exactly_witness : exists ev i,
  evaluate_mark sample_plan (dint 98) t0 None = Ok ev /\ ee_intent ev = Some i /\ ei_reason i = STOP /\
  ei_side i = SELL /\ ei_quantity i = dint 2.
Proof.
  destruct (mark_triggers_exactly sample_plan (dint 98) t0 None sample_plan_live) as (ev & H & Hn & _ & Hi);
    [reflexivity | exact sample_after | discriminate |].
  destruct (ee_intent ev) as [i|] eqn:Ei.
  - exists ev, i. destruct (Hi i eq_refl) as (H1 & H2 & H3 & _). repeat split; assumption.
  - exfalso. apply (proj1 (proj1 Hn eq_refl)). vm_compute. discriminate.
Defined.

Lemma restart_recovers_intent_witness : exists ev i,
  emergency_flatten sample_plan t0 (dint 97) = Ok ev /\ ee_intent ev = Some i /\ pending_intent (ee_plan ev) = Ok i.
Proof.
  destruct (emergency_flatten sample_plan t0 (dint 97)) as [ev|e] eqn:E; [|vm_compute in E; discriminate].
  pose proof (restart_recovers_intent sample_plan ev
    (or_intror (or_intror (ex_intro _ t0 (ex_intro _ (dint 97) E))))) as H.
  destruct (ee_intent ev) as [i|] eqn:Ei; [|vm_compute in E; injection E as <-; discriminate].
  exists ev, i. split; [reflexivity|split; [exact Ei|exact (proj1 H)]].
Defined.

Definition sample_bar : closed_bar :=
  {| cb_direction := LONG; cb_approved := true; cb_closed_at := t0; cb_executable := dint 100 |}.

Lemma hold_is_bounded_witness : exists ev i,
  run_bars sample_plan [sample_bar; sample_bar; sample_bar] = Ok ev /\ ee_intent ev = Some i /\
  ei_reason i = MAXIMUM_HOLD.
Proof.
  destruct (hold_is_bounded sample_plan [sample_bar; sample_bar; sample_bar] sample_plan_live) as (ev & i & H & Ei & _).
  - assert (good_bar sample_plan sample_bar) by (split; [exact sample_after | reflexivity]).
    repeat (apply List.Forall_cons; [assumption|]). apply List.Forall_nil.
  - reflexivity.
  - cbn. lia.
  - exists ev, i. split; [exact H|split; [exact Ei|]].
    vm_compute in H. injection H as <-. injection Ei as <-. reflexivity.
Defined.

Lemma second_opposing_signal_exits_witness : exists ev1 ev2 i,
  observe_closed_bar sample_plan SHORT true t0 (dint 100) = Ok ev1 /\
  observe_closed_bar (ee_plan ev1) SHORT true t0 (dint 100) = Ok ev2 /\
  ee_intent ev2 = Some i /\ ei_reason i = OPPOSING_SIGNAL.
Proof.
  destruct (observe_closed_bar sample_plan SHORT true t0 (dint 100)) as [ev1|e] eqn:E1; [|vm_compute in E1; discriminate].
  destruct (observe_closed_bar (ee_plan ev1) SHORT true t0 (dint 100)) as [ev2|e] eqn:E2;
    [|vm_compute in E1; injection E1 as <-; vm_compute in E2; discriminate].
  assert (Hs : ep_opposite_signal_streak (ee_plan ev1) = 1 /\ opposing_signal (ee_plan ev1) SHORT true = true)
    by (vm_compute in E1; injection E1 as <-; split; reflexivity).
  destruct Hs as [Hs Ho].
  destruct (proj1 (second_opposing_signal_exits _ _ _ _ _ _ E2 ltac:(lia)) Ho ltac:(lia)) as (i & Ei & Er & _).
  exists ev1, ev2, i. auto.
Defined.

Lemma levels_bracket_entry_witness :
  exit_create 1 2 LONG (dint 2) (dint 100) (mkdec 1 (-2)) (mkdec 2 (-2)) t0 3 = Ok sample_plan /\
  (dval (ep_stop_price sample_plan) < 100 /\ 100 < dval (ep_target_price sample_plan))%Q.
Proof.
  assert (H : exit_create 1 2 LONG (dint 2) (dint 100) (mkdec 1 (-2)) (mkdec 2 (-2)) t0 3 = Ok sample_plan)
    by (vm_compute; reflexivity).
  split; [exact H|].
  exact (proj1 (proj2 (levels_bracket_entry _ _ _ _ _ _ _ _ _ _ H ltac:(unfold visible; vm_compute; discriminate)
    ltac:(unfold visible; vm_compute; discriminate))) eq_refl).
Defined.
