(* ===== verification/Authorization.v ===== *)
(** * Execution capabilities: [maais/execution/paper/authorization.py]

    A capability binds an approved proposal to a keyed digest of its canonical
    JSON.  The keyed digest ([hmac] with SHA-256, hexadecimal text) is a
    parameter; a key is the string of its bytes. *)

From Stdlib Require Import ZArith Lia List Bool String Ascii.
From stdpp Require Import base decidable list strings.
From S2P Require Import Prelude PyDecimal DecimalTheory Domain Market Json.

Local Open Scope Z_scope.

Record AuthorizationClaims : Type := {
  cl_experiment_id : UUID;
  cl_decision_cycle_id : UUID;
  cl_proposal_id : UUID;
  cl_gate_chain_hash : string;
  cl_symbol : string;
  cl_side : PaperOrderSide;
  cl_quantity : dec;
  cl_approved_notional : dec;
  cl_issued_at : datetime;
  cl_expires_at : datetime
}.

Definition AuthorizationClaims_post_init (c : AuthorizationClaims) : result AuthorizationClaims :=
  do* raise_if (negb (bool_decide (String.length (cl_gate_chain_hash c) = 64%nat)))
        (ValueError "gate_chain_hash must be a SHA-256 hex digest") ;;
  do* raise_if (bool_decide (cl_symbol c = "")) (ValueError "symbol is required") ;;
  do* require_positive_decimal (cl_quantity c) "quantity" ;;
  do* require_positive_decimal (cl_approved_notional c) "approved_notional" ;;
  do* require_utc (cl_issued_at c) "issued_at" ;;
  do* require_utc (cl_expires_at c) "expires_at" ;;
  do* raise_if (dt_leb (cl_expires_at c) (cl_issued_at c)) (ValueError "expires_at must follow issued_at") ;;
  Ok c.

Definition signing_payload (c : AuthorizationClaims) : pyval := PDict
  [("experiment_id", PUuid (cl_experiment_id c)); ("decision_cycle_id", PUuid (cl_decision_cycle_id c));
   ("proposal_id", PUuid (cl_proposal_id c)); ("gate_chain_hash", PStr (cl_gate_chain_hash c));
   ("symbol", PStr (cl_symbol c)); ("side", PEnum (enum_value (cl_side c)));
   ("quantity", PDec (cl_quantity c)); ("approved_notional", PDec (cl_approved_notional c));
   ("issued_at", PTime (cl_issued_at c)); ("expires_at", PTime (cl_expires_at c))].

Record ExecutionCapability : Type := { cap_claims : AuthorizationClaims; cap_signature : string }.

Definition is_ascii (s : string) : bool :=
  forallb (fun c => Z.of_nat (nat_of_ascii c) <? 128) (list_ascii_of_string s).

(** [hmac.compare_digest] on strings accepts ASCII text only. *)
Definition compare_digest (a b : string) : result bool :=
  do* raise_if (negb (is_ascii a && is_ascii b))
        (TypeError "comparing strings with non-ASCII characters is not supported") ;;
  Ok (bool_decide (a = b)).

Section Authorizer.
Context (hmac_sha256_hex : string -> string -> string).

Definition ExecutionAuthorizer_init (signing_key : string) : result string :=
  do* raise_if (String.length signing_key <? 32)%nat
        (ValueError "signing key must contain at least 32 bytes") ;;
  Ok signing_key.

Definition _signature (key : string) (claims : AuthorizationClaims) : result string :=
  let* payload := canonical_json_bytes (signing_payload claims) in
  Ok (hmac_sha256_hex key payload).

Definition issue (key : string) (claims : AuthorizationClaims) (all_gates_passed : bool)
  : result ExecutionCapability :=
  do* raise_if (negb all_gates_passed)
        (PermissionError "execution capability requires a passed gate chain") ;;
  let* signature := _signature key claims in
  Ok {| cap_claims := claims; cap_signature := signature |}.

(** The claims are a constructed object, whose times passed [require_utc]. *)
Definition verify (key : string) (capability : ExecutionCapability) (at_ : datetime) : result bool :=
  do* require_utc at_ "verification time" ;;
  if dt_ltb (cl_expires_at (cap_claims capability)) at_ || dt_ltb at_ (cl_issued_at (cap_claims capability))
  then Ok false
  else
    let* expected := _signature key (cap_claims capability) in
    compare_digest expected (cap_signature capability).

(** ** Facts *)

Lemma verify_true key cap t : verify key cap t = Ok true ->
  is_utc t = true /\
  instant (cl_issued_at (cap_claims cap)) <= instant t <= instant (cl_expires_at (cap_claims cap)) /\
  _signature key (cap_claims cap) = Ok (cap_signature cap).
Proof.
  unfold verify. intros H. apply bind_Ok in H as (u & Hu & H). apply require_utc_Ok in Hu.
  destruct (_ || _) eqn:E; [discriminate|]. bool_prop. unfold dt_ltb in *. bool_prop.
  apply bind_Ok in H as (s & Hs & H). unfold compare_digest in H. py_inv.
  apply bool_decide_eq_true in H. subst s. repeat split; assumption || lia.
Qed.

(** The payload of a constructed claim always has a canonical text. *)
Lemma signature_total key c : AuthorizationClaims_post_init c = Ok c ->
  exists payload, canonical_json_bytes (signing_payload c) = Ok payload /\
    _signature key c = Ok (hmac_sha256_hex key payload).
Proof.
  intros H. unfold AuthorizationClaims_post_init in H. py_inv.
  repeat match goal with H : require_utc _ _ = Ok _ |- _ => apply require_utc_Ok in H end.
  assert (Hp : exists payload, canonical_json_bytes (signing_payload c) = Ok payload).
  { unfold canonical_json_bytes, signing_payload. cbn [freeze_json mapM bind fst snd].
    unfold utc_iso. repeat match goal with H : is_utc _ = true |- _ => rewrite H end. cbn [negb raise_if bind].
    cbn [bind]. eauto. }
  destruct Hp as [payload Hp]. exists payload. split; [exact Hp|]. unfold _signature. rewrite Hp. reflexivity.
Qed.
End Authorizer.

(** Capabilities come from passed gate chains and nothing else: issuing is
    refused without one; an issued capability verifies exactly inside its
    validity window; and whatever verifies lies in its window and carries the
    keyed digest of exactly its own claims.  ([hexdigest] returns ASCII text.) *)
Theorem capability_sound (hmac_sha256_hex : string -> string -> string) key claims t :
  (forall k msg, is_ascii (hmac_sha256_hex k msg) = true) ->
  AuthorizationClaims_post_init claims = Ok claims -> is_utc t = true ->
  issue hmac_sha256_hex key claims false
    = Raise (PermissionError "execution capability requires a passed gate chain") /\
  (exists cap, issue hmac_sha256_hex key claims true = Ok cap /\
     verify hmac_sha256_hex key cap t =
       Ok (dt_leb (cl_issued_at claims) t && dt_leb t (cl_expires_at claims))) /\
  (forall signature, verify hmac_sha256_hex key {| cap_claims := claims; cap_signature := signature |} t = Ok true ->
     exists cap, issue hmac_sha256_hex key claims true = Ok cap /\ cap_signature cap = signature).
Proof.
  intros Ha Hc Ht. split; [reflexivity|].
  destruct (signature_total hmac_sha256_hex key claims Hc) as (payload & Hp & Hs).
  assert (Hi : issue hmac_sha256_hex key claims true
    = Ok {| cap_claims := claims; cap_signature := hmac_sha256_hex key payload |}).
  { unfold issue. rewrite Hs. reflexivity. }
  split.
  - eexists; split; [exact Hi|]. unfold verify. rewrite (require_utc_true _ _ Ht). cbn [bind cap_claims cap_signature].
    rewrite Hs. unfold dt_ltb, dt_leb.
    destruct (Z.ltb_spec (instant (cl_expires_at claims)) (instant t)), (Z.ltb_spec (instant t) (instant (cl_issued_at claims)));
      cbn [orb]; rewrite ?(proj2 (Z.leb_le _ _)), ?(proj2 (Z.leb_gt _ _)) by lia; rewrite ?andb_false_r; try reflexivity.
    cbn [bind]. unfold compare_digest. rewrite !Ha. cbn. now rewrite bool_decide_true.
  - intros signature H. apply verify_true in H as (_ & _ & H). cbn [cap_claims cap_signature] in H.
    eexists; split; [exact Hi|]. cbn. congruence.
Qed.

(** ** Witness *)

(** A stand-in for the digest: any ASCII-valued function of key and text. *)
Definition toy_hmac (key msg : string) : string :=
  string_of_list_ascii (nat_digits (Z.of_nat (String.length key) * 1000 + Z.of_nat (String.length msg))).

Lemma fixed_digits_ascii k n : forallb (fun c => Z.of_nat (nat_of_ascii c) <? 128) (fixed_digits 10 k n) = true.
Proof.
  revert n; induction k as [|k IH]; intros n; cbn [fixed_digits]; [reflexivity|].
  rewrite forallb_app, IH. cbn [forallb andb]. rewrite andb_true_r.
  pose proof (Z.mod_pos_bound n 10 ltac:(lia)) as Hb. remember (n mod 10) as d.
  assert (d = 0 \/ d = 1 \/ d = 2 \/ d = 3 \/ d = 4 \/ d = 5 \/ d = 6 \/ d = 7 \/ d = 8 \/ d = 9) as Hc by lia.
  repeat destruct Hc as [->|Hc]; try reflexivity. rewrite Hc. reflexivity.
Qed.

Lemma toy_hmac_ascii k msg : is_ascii (toy_hmac k msg) = true.
Proof. unfold is_ascii, toy_hmac. rewrite list_ascii_of_string_of_list_ascii. apply fixed_digits_ascii. Qed.

Definition sample_claims : AuthorizationClaims := {|
  cl_experiment_id := 1; cl_decision_cycle_id := 2; cl_proposal_id := 3;
  cl_gate_chain_hash := string_of_list_ascii (repeat "a"%char 64); cl_symbol := "BTCUSDT"; cl_side := BUY;
  cl_quantity := dint 2; cl_approved_notional := dint 1000;
  cl_issued_at := utc 0; cl_expires_at := utc (seconds 60) |}.

Lemma capability_sound_witness : exists cap,
  issue toy_hmac "key" sample_claims true = Ok cap /\ verify toy_hmac "key" cap (utc (seconds 5)) = Ok true /\
  verify toy_hmac "key" cap (utc (seconds 61)) = Ok false.
Proof.
  destruct (proj1 (proj2 (capability_sound toy_hmac "key" sample_claims (utc (seconds 5)) toy_hmac_ascii
    ltac:(vm_compute; reflexivity) eq_refl))) as (cap & H1 & H2).
  exists cap. split; [exact H1|split; [exact H2|]].
  vm_compute in H1. injection H1 as <-. vm_compute. reflexivity.
Defined.
