(* ===== verification/Records.v ===== *)
(** * Execution records: [maais/execution/paper/records.py]

    The rows an execution hands to persistence, with the checks of their
    constructors and the cross-check of a whole execution. *)

From Stdlib Require Import ZArith QArith Lia Lqa List Bool String.
From stdpp Require Import base decidable list strings.
From S2P Require Import Prelude PyDecimal DecimalTheory Domain Market Json Filters Orders Positions Account Exits.

Local Open Scope Z_scope.

Record ExecutionFillRecord : Type := {
  xf_id : UUID;
  xf_order_intent_id : UUID;
  xf_market_event_id : string;
  xf_fill_at : datetime;
  xf_quantity : dec;
  xf_price : dec;
  xf_liquidity_role : string;
  xf_fee : dec;
  xf_fee_asset : string;
  xf_spread_cost : dec;
  xf_depth_slippage : dec;
  xf_latency_slippage : dec;
  xf_total_slippage : dec;
  xf_market_snapshot : json
}.

Definition ExecutionFillRecord_post_init (r : ExecutionFillRecord) : result ExecutionFillRecord :=
  do* raise_if (bool_decide (xf_market_event_id r = "") || bool_decide (xf_liquidity_role r = "") ||
                bool_decide (xf_fee_asset r = ""))
        (ValueError "market event, liquidity role, and fee asset are required") ;;
  do* require_utc (xf_fill_at r) "fill_at" ;;
  do* require_positive_decimal (xf_quantity r) "fill quantity" ;;
  do* require_positive_decimal (xf_price r) "fill price" ;;
  do* raise_if (xf_fee r <? dzero)%dec (ValueError "fee must be nonnegative") ;;
  do* raise_if (negb (xf_total_slippage r =? xf_spread_cost r + xf_depth_slippage r + xf_latency_slippage r)%dec)
        (ValueError "total slippage does not reconcile to its components") ;;
  Ok r.

Record PaperExecutionRecord : Type := {
  pe_order : PaperOrder;
  pe_exchange_filters : ExchangeFilterSnapshot;
  pe_fills : list ExecutionFillRecord;
  pe_account : option AccountState;
  pe_exit_plan : option ExitPlan
}.

(** The part of [validate] about the exit plan. *)
Definition validate_exit_plan (order : PaperOrder) (account : option AccountState) (plan : ExitPlan) : result unit :=
  let* account := of_option AssertionError account in
  let* position := ac_position account (po_symbol order) in
  do* raise_if (negb (ep_position_id plan =? ps_position_id position))
        (ValueError "exit plan position identity differs") ;;
  do* raise_if (negb (is_flat position) && negb (ep_quantity plan =? ps_quantity position)%dec)
        (ValueError "exit plan quantity differs from position") ;;
  raise_if (is_flat position && negb (bool_decide (ep_status plan = EP_CLOSED)))
    (ValueError "flat position requires a closed exit plan").

Definition validate (r : PaperExecutionRecord) : result unit :=
  let order := pe_order r in
  do* when_some (pe_account r) (fun a =>
        raise_if (negb (po_experiment_id order =? ac_experiment_id a))
          (ValueError "order and account experiment differ")) ;;
  do* raise_if (negb (bool_decide (po_symbol order = ef_symbol (pe_exchange_filters r))))
        (ValueError "order and exchange filter symbol differ") ;;
  do* raise_if (existsb (fun f => negb (xf_order_intent_id f =? po_order_id order)) (pe_fills r))
        (ValueError "fill order identity differs") ;;
  let total_filled := dsum (map xf_quantity (pe_fills r)) in
  do* raise_if (negb (total_filled =? po_filled_quantity order)%dec)
        (ValueError "fill projection does not match order filled quantity") ;;
  do* raise_if (match pe_fills r with [] => false | _ => true end && is_none (pe_account r))
        (ValueError "filled execution requires account state") ;;
  do* raise_if (is_none (pe_account r) && is_some (pe_exit_plan r))
        (ValueError "exit plan requires account state") ;;
  do* when_some (pe_account r) (fun a =>
        let* report := reconcile a in
        raise_if (negb (report_ok report)) (ValueError "account does not reconcile")) ;;
  when_some (pe_exit_plan r) (validate_exit_plan order (pe_account r)).

Record FundingRecord : Type := {
  fr_id : UUID;
  fr_experiment_id : UUID;
  fr_position_id : UUID;
  fr_market_event_id : string;
  fr_funding_at : datetime;
  fr_observed_at : datetime;
  fr_rate : dec;
  fr_rate_type : string;
  fr_mark_price : dec;
  fr_notional : dec;
  fr_amount : dec
}.

Definition FundingRecord_post_init (r : FundingRecord) : result FundingRecord :=
  do* raise_if (bool_decide (fr_market_event_id r = "")) (ValueError "market_event_id is required") ;;
  do* require_utc (fr_funding_at r) "funding_at" ;;
  do* require_utc (fr_observed_at r) "observed_at" ;;
  do* raise_if (dt_ltb (fr_observed_at r) (fr_funding_at r))
        (ValueError "funding cannot be observed before its venue timestamp") ;;
  do* raise_if (negb (bool_decide (fr_rate_type r = "Regular") || bool_decide (fr_rate_type r = "Special")))
        (ValueError "funding rate_type must be Regular or Special") ;;
  do* require_positive_decimal (fr_mark_price r) "funding mark price" ;;
  do* require_positive_decimal (fr_notional r) "funding notional" ;;
  Ok r.

(** ** What a validated execution guarantees *)

Lemma fill_record_post_init_Ok r r' : ExecutionFillRecord_post_init r = Ok r' -> r' = r.
Proof. unfold ExecutionFillRecord_post_init. intros H. py_inv. reflexivity. Qed.

(** The facts a reader of the stored record relies on. *)
Record consistent_execution (r : PaperExecutionRecord) : Prop := {
  ce_symbol : po_symbol (pe_order r) = ef_symbol (pe_exchange_filters r);
  ce_fills : Forall (fun f => xf_order_intent_id f = po_order_id (pe_order r)) (pe_fills r);
  ce_quantity : (dval (dsum (map xf_quantity (pe_fills r))) == dval (po_filled_quantity (pe_order r)))%Q;
  ce_account : forall a, pe_account r = Some a ->
    po_experiment_id (pe_order r) = ac_experiment_id a /\ exists rep, reconcile a = Ok rep /\ report_ok rep = true;
  ce_no_account : pe_account r = None -> pe_fills r = [] /\ pe_exit_plan r = None;
  ce_plan : forall a p, pe_account r = Some a -> pe_exit_plan r = Some p ->
    exists q, dict_get (ac_positions a) (po_symbol (pe_order r)) = Some q /\ ep_position_id p = ps_position_id q /\
      (is_flat q = false -> (dval (ep_quantity p) == dval (ps_quantity q))%Q) /\
      (is_flat q = true -> ep_status p = EP_CLOSED)
}.

Lemma validate_exit_plan_Ok order a p u : validate_exit_plan order (Some a) p = Ok u ->
  exists q, dict_get (ac_positions a) (po_symbol order) = Some q /\ ep_position_id p = ps_position_id q /\
    (is_flat q = false -> (dval (ep_quantity p) == dval (ps_quantity q))%Q) /\
    (is_flat q = true -> ep_status p = EP_CLOSED).
Proof.
  unfold validate_exit_plan, ac_position. cbn [of_option bind]. intros H. py_inv. bool_prop.
  exists v. split; [assumption|split; [assumption|split]]; intros E; rewrite E in *; cbn [negb andb] in *; bool_prop.
  - dec_prop. assumption.
  - assumption.
Qed.

Lemma validate_Ok r u : validate r = Ok u -> consistent_execution r.
Proof.
  unfold validate. intros H. py_inv. bool_prop. dec_prop. split; try assumption.
  - match goal with H : existsb _ _ = false |- _ => apply existsb_false_Forall in H;
      eapply List.Forall_impl; [|exact H] end. intros f Hf. cbn in Hf. now bool_prop.
  - intros a Ea. rewrite Ea in *. cbn [when_some] in *. py_inv. bool_prop. split; [assumption|]. eauto.
  - intros Ea. rewrite Ea in *. cbn [is_none when_some] in *. rewrite andb_true_r in *. cbn [andb] in *.
    unfold is_some, is_none in *. destruct (pe_fills r), (pe_exit_plan r); try discriminate. auto.
  - intros a p Ea Ep. rewrite Ea, Ep in *. cbn [when_some] in H. now apply validate_exit_plan_Ok in H.
Qed.
