(* ===== verification/Broker.v ===== *)
(** * The paper broker: [maais/execution/paper/broker.py]

    The two handlers that turn an approved command into an executed order:
    [execute_market_entry] and [execute_market_exit].  Each composes the
    authoriser, the exchange filters, the clock, the order state machine, the
    fill engine, the account and the exit plan in the order of the source, and
    ends with the cross-check of the stored record.

    The exit handler turns filter and fill rejections into [ExitExecutionHalt],
    which carries the command and the plan; it is the second kind of
    [broker_error].  The digest functions are parameters. *)

From Stdlib Require Import ZArith QArith Lia Lqa List Bool String.
From stdpp Require Import base decidable list strings.
From S2P Require Import Prelude PyDecimal DecimalTheory Domain Market Json Filters Fills Orders Positions Account Exits Authorization Records.

Local Open Scope Z_scope.

Record MarketEntryCommand : Type := {
  ec_order_id : UUID;
  ec_fill_id : UUID;
  ec_position_id : UUID;
  ec_exit_plan_id : UUID;
  ec_experiment_id : UUID;
  ec_decision_cycle_id : UUID;
  ec_proposal_id : UUID;
  ec_gate_chain_hash : string;
  ec_client_order_id : string;
  ec_symbol : string;
  ec_side : PaperOrderSide;
  ec_requested_quantity : dec;
  ec_approved_quantity : dec;
  ec_approved_notional : dec;
  ec_decision_executable_price : dec;
  ec_decision_completed_at : datetime;
  ec_execution_latency : timedelta;
  ec_created_at : datetime;
  ec_expires_at : datetime;
  ec_taker_fee_rate : dec;
  ec_expected_loss_fraction : dec;
  ec_expected_gain_fraction : dec;
  ec_capability : ExecutionCapability;
  ec_exchange_filters : ExchangeFilterSnapshot
}.

Definition MarketEntryCommand_post_init (c : MarketEntryCommand) : result MarketEntryCommand :=
  do* raise_if (negb (bool_decide (String.length (ec_gate_chain_hash c) = 64%nat)))
        (ValueError "gate_chain_hash must be a SHA-256 hex digest") ;;
  Ok c.

Record PaperBrokerResult : Type := { br_record : PaperExecutionRecord; br_fill : PaperFill }.

Record MarketExitCommand : Type := {
  xc_order_id : UUID;
  xc_fill_id : UUID;
  xc_experiment_id : UUID;
  xc_proposal_id : UUID;
  xc_client_order_id : string;
  xc_symbol : string;
  xc_decision_executable_price : dec;
  xc_execution_latency : timedelta;
  xc_created_at : datetime;
  xc_expires_at : datetime;
  xc_taker_fee_rate : dec;
  xc_intent : ExitIntent;
  xc_exchange_filters : ExchangeFilterSnapshot
}.

Record ExitExecutionHalt : Type := {
  hl_command : MarketExitCommand;
  hl_exit_plan : ExitPlan;
  hl_reason : string;
  hl_market_event_id : option string
}.

Definition py_option {A} (f : A -> pyval) (o : option A) : pyval := match o with Some x => f x | None => PNone end.

Definition event_payload (h : ExitExecutionHalt) : result json :=
  let c := hl_command h in
  freeze_json (PDict
    [("experiment_id", PUuid (xc_experiment_id c)); ("proposal_id", PUuid (xc_proposal_id c));
     ("position_id", PUuid (ei_position_id (xc_intent c))); ("order_id", PUuid (xc_order_id c));
     ("exit_plan_id", PUuid (ep_plan_id (hl_exit_plan h))); ("exit_plan_version", PInt (ep_version (hl_exit_plan h)));
     ("reason", PStr (hl_reason h)); ("market_event_id", py_option PStr (hl_market_event_id h));
     ("triggered_at", PTime (ei_triggered_at (xc_intent c)));
     ("trigger_price", py_option PDec (ei_trigger_price (xc_intent c)));
     ("requires_operator_review", PBool true)]).

(** What the exit handler can raise. *)
Inductive broker_error : Type :=
| Plain (e : exn)
| Halt (h : ExitExecutionHalt).

(** The JSON of the book and slices a fill consumed. *)
Definition book_facts (f : PaperFill) : list (string * pyval) :=
  let b := fl_book f in
  [("book_event_id", PStr (bk_event_id b)); ("venue_event_at", PTime (bk_venue_event_at b));
   ("observed_at", PTime (bk_observed_at b)); ("sequence", PInt (bk_sequence b));
   ("best_bid", PDec (best_bid b)); ("best_ask", PDec (best_ask b)); ("mark_price", PDec (bk_mark_price b))].
Definition slice_facts (f : PaperFill) : string * pyval :=
  ("slices", PSeq (map (fun s => PDict [("price", PDec (sl_price s)); ("quantity", PDec (sl_quantity s))])
                     (fl_slices f))).

(** [ExecutionFillRecord(...)] as both handlers build it. *)
Definition stored_fill (fill_id order_id : UUID) (fee_asset : string) (f : PaperFill) (snapshot : json)
  : result ExecutionFillRecord :=
  ExecutionFillRecord_post_init {|
    xf_id := fill_id; xf_order_intent_id := order_id; xf_market_event_id := fl_market_event_id f;
    xf_fill_at := fl_fill_at f; xf_quantity := fl_quantity f; xf_price := fl_price f;
    xf_liquidity_role := fl_liquidity_role f; xf_fee := fl_fee f; xf_fee_asset := fee_asset;
    xf_spread_cost := fl_spread_cost f; xf_depth_slippage := fl_depth_slippage f;
    xf_latency_slippage := fl_latency_slippage f; xf_total_slippage := fl_total_slippage f;
    xf_market_snapshot := snapshot |}.

Section Broker.
(** The broker's collaborators: the digests, the signing key and the fill engine's age limit. *)
Context (sha256_hex : string -> string) (hmac_sha256_hex : string -> string -> string).
Context (signing_key : string) (max_book_age : timedelta).

(** [actual_claims == expected_claims]. *)
Definition claims_match (c : MarketEntryCommand) (quantity : dec) : bool :=
  let claims := cap_claims (ec_capability c) in
  (cl_experiment_id claims =? ec_experiment_id c) && (cl_decision_cycle_id claims =? ec_decision_cycle_id c) &&
  (cl_proposal_id claims =? ec_proposal_id c) &&
  bool_decide (cl_gate_chain_hash claims = ec_gate_chain_hash c) &&
  bool_decide (cl_symbol claims = ec_symbol c) && bool_decide (cl_side claims = ec_side c) &&
  (cl_quantity claims =? quantity)%dec && (cl_approved_notional claims =? ec_approved_notional c)%dec.

Definition entry_command_payload (c : MarketEntryCommand) (quantity : dec) (eligible : datetime) : pyval := PDict
  [("experiment_id", PUuid (ec_experiment_id c)); ("decision_cycle_id", PUuid (ec_decision_cycle_id c));
   ("proposal_id", PUuid (ec_proposal_id c)); ("gate_chain_hash", PStr (ec_gate_chain_hash c));
   ("symbol", PStr (ec_symbol c)); ("side", PEnum (enum_value (ec_side c))); ("quantity", PDec quantity);
   ("approved_notional", PDec (ec_approved_notional c)); ("eligible_after", PTime eligible);
   ("expires_at", PTime (ec_expires_at c));
   ("filter_snapshot", PDict
      [("captured_at", PTime (ef_captured_at (ec_exchange_filters c)));
       ("price_tick", PDec (ef_price_tick (ec_exchange_filters c)));
       ("quantity_step", PDec (ef_quantity_step (ec_exchange_filters c)))])].

(** The quantity already open in the symbol. *)
Definition open_quantity (a : AccountState) (symbol : string) : dec :=
  match dict_get (ac_positions a) symbol with Some p => ps_quantity p | None => dzero end.

(** The accepted order of an entry. *)
Definition entry_order (c : MarketEntryCommand) (a : AccountState) (quantity : dec) (eligible : datetime)
  : result PaperOrder :=
  let* command_hash := content_hash sha256_hex (entry_command_payload c quantity eligible) in
  let* order := order_create (ec_order_id c) (ec_experiment_id c) (ec_proposal_id c) (ec_client_order_id c)
                  command_hash (ec_symbol c) (ec_side c) MARKET OPEN quantity None false
                  (open_quantity a (ec_symbol c)) (ec_created_at c) (ec_expires_at c) in
  let* order := authorize order (ec_created_at c) in
  accept order (ec_created_at c).

(** The plan that protects the position after an entry. *)
Definition entry_exit_plan (c : MarketEntryCommand) (active : option ExitPlan) (p : PositionState)
    (fill_at : datetime) : result ExitPlan :=
  match active with
  | None =>
      exit_create (ec_exit_plan_id c) (ps_position_id p) (ps_side p) (ps_quantity p) (ps_average_entry p)
        (ec_expected_loss_fraction c) (ec_expected_gain_fraction c) fill_at 60
  | Some plan =>
      do* raise_if (negb (ep_position_id plan =? ps_position_id p))
            (ValueError "active exit plan belongs to another position") ;;
      exit_resize plan (ps_quantity p) (ps_average_entry p) fill_at
  end.

Definition execute_market_entry (c : MarketEntryCommand) (account : AccountState) (books : list BookSnapshot)
    (active_exit_plan : option ExitPlan) : result PaperBrokerResult :=
  do* raise_if (negb (ac_experiment_id account =? ec_experiment_id c))
        (ValueError "account and command experiment differ") ;;
  let* late := dt_lt (ec_decision_completed_at c) (ef_captured_at (ec_exchange_filters c)) in
  do* raise_if late (ValueError "exchange filter snapshot cannot be captured after the decision") ;;
  let* valid := verify hmac_sha256_hex signing_key (ec_capability c) (ec_created_at c) in
  do* raise_if (negb valid) (PermissionError "execution capability is invalid or expired") ;;
  let* prepared := prepare (ec_exchange_filters c) (ec_side c) MARKET (ec_requested_quantity c)
                     (ec_approved_quantity c) (Some (ec_decision_executable_price c)) (ec_approved_notional c) in
  let quantity := pr_quantity prepared in
  do* raise_if (negb (claims_match c quantity))
        (PermissionError "execution capability does not match prepared order") ;;
  let* el := eligibility (ec_decision_completed_at c) (ec_execution_latency c) in
  let* order := entry_order c account quantity (eligible_at el) in
  let* request := MarketFillRequest_post_init {|
    rq_symbol := ec_symbol c; rq_side := ec_side c; rq_quantity := quantity;
    rq_eligible_after := eligible_at el; rq_decision_executable_price := ec_decision_executable_price c;
    rq_taker_fee_rate := ec_taker_fee_rate c |} in
  let* f := fill max_book_age request books in
  do* raise_if (dt_leb (ec_expires_at c) (fl_fill_at f))
        (RuntimeError "first eligible market fill occurred after order expiry") ;;
  let* order := order_apply_fill order (fl_quantity f) (fl_fill_at f) in
  let* next_account := apply_fill account (ec_fill_id c) (ec_position_id c) (ec_symbol c) (ec_side c) OPEN
                         (fl_quantity f) (fl_price f) (fl_fee f) (fl_fill_at f) in
  let* position := ac_position next_account (ec_symbol c) in
  let* plan := entry_exit_plan c active_exit_plan position (fl_fill_at f) in
  let* snapshot := freeze_json (PDict (book_facts f ++ [slice_facts f])) in
  let* stored := stored_fill (ec_fill_id c) (ec_order_id c) (ac_currency account) f snapshot in
  let record := {| pe_order := order; pe_exchange_filters := ec_exchange_filters c; pe_fills := [stored];
                   pe_account := Some next_account; pe_exit_plan := Some plan |} in
  do* validate record ;;
  Ok {| br_record := record; br_fill := f |}.

Definition exit_command_payload (c : MarketExitCommand) (p : PositionState) (plan : ExitPlan) (quantity : dec)
    (eligible : datetime) : pyval := PDict
  [("position_id", PUuid (ps_position_id p)); ("exit_plan_id", PUuid (ep_plan_id plan));
   ("exit_plan_version", PInt (ep_version plan)); ("reason", PEnum (enum_value (ei_reason (xc_intent c))));
   ("quantity", PDec quantity); ("eligible_after", PTime eligible)].

Definition exit_order (c : MarketExitCommand) (p : PositionState) (plan : ExitPlan) (quantity : dec)
    (eligible : datetime) : result PaperOrder :=
  let* command_hash := content_hash sha256_hex (exit_command_payload c p plan quantity eligible) in
  let* order := order_create (xc_order_id c) (xc_experiment_id c) (xc_proposal_id c) (xc_client_order_id c)
                  command_hash (xc_symbol c) (ei_side (xc_intent c)) MARKET REDUCE quantity None true
                  (ps_quantity p) (xc_created_at c) (xc_expires_at c) in
  let* order := authorize order (xc_created_at c) in
  accept order (xc_created_at c).

Definition position_close_side (p : PositionState) : PaperOrderSide :=
  if bool_decide (enum_value (ps_side p) = "long") then SELL else BUY.

(** The intent is for all of the open position, on its closing side. *)
Definition intent_matches (c : MarketExitCommand) (p : PositionState) (plan : ExitPlan) : bool :=
  (ei_position_id (xc_intent c) =? ps_position_id p) && (ep_position_id plan =? ps_position_id p) &&
  (ei_quantity (xc_intent c) =? ps_quantity p)%dec &&
  bool_decide (ei_side (xc_intent c) = position_close_side p) && ei_reduce_only (xc_intent c).

Definition halt (c : MarketExitCommand) (plan : ExitPlan) (reason : string) (event : option string) : broker_error :=
  Halt {| hl_command := c; hl_exit_plan := plan; hl_reason := reason; hl_market_event_id := event |}.

(** [except FilterRejection] and [except FillRejection]. *)
Definition on_filter (c : MarketExitCommand) (plan : ExitPlan) (e : exn) : broker_error :=
  match e with
  | FilterRejection reason => halt c plan ("exchange_filter:" +:+ reason) None
  | _ => Plain e
  end.
Definition on_fill (c : MarketExitCommand) (plan : ExitPlan) (e : exn) : broker_error :=
  match e with
  | FillRejection reason event => halt c plan reason event
  | _ => Plain e
  end.

Definition lift {A} (m : result A) : outcome broker_error A := map_exn Plain m.

Definition execute_market_exit (c : MarketExitCommand) (account : AccountState) (exit_plan : ExitPlan)
    (books : list BookSnapshot) : outcome broker_error PaperBrokerResult :=
  let intent := xc_intent c in
  do* raise_if (negb (ac_experiment_id account =? xc_experiment_id c))
        (Plain (ValueError "account and exit command experiment differ")) ;;
  let* position := lift (ac_position account (xc_symbol c)) in
  do* raise_if (is_flat position) (Plain (ValueError "exit command has no open position")) ;;
  do* raise_if (negb (bool_decide (ep_status exit_plan = EP_TRIGGERED)))
        (Plain (PermissionError "exit plan is not triggered")) ;;
  do* raise_if (negb (intent_matches c position exit_plan))
        (Plain (PermissionError "exit intent does not match the open position and plan")) ;;
  let* late := lift (dt_lt (ei_triggered_at intent) (ef_captured_at (xc_exchange_filters c))) in
  do* raise_if late (halt c exit_plan "future_exchange_filter_snapshot" None) ;;
  let* prepared := map_exn (on_filter c exit_plan)
    (prepare (xc_exchange_filters c) (ei_side intent) MARKET (ei_quantity intent) (ps_quantity position)
       (Some (xc_decision_executable_price c)) (ps_quantity position * xc_decision_executable_price c)%dec) in
  let quantity := pr_quantity prepared in
  do* raise_if (negb (quantity =? ps_quantity position)%dec) (halt c exit_plan "exit_quantization_residual" None) ;;
  let* el := lift (eligibility (ei_triggered_at intent) (xc_execution_latency c)) in
  let* order := lift (exit_order c position exit_plan quantity (eligible_at el)) in
  let* f := map_exn (on_fill c exit_plan)
    (let* request := MarketFillRequest_post_init {|
       rq_symbol := xc_symbol c; rq_side := ei_side intent; rq_quantity := quantity;
       rq_eligible_after := eligible_at el; rq_decision_executable_price := xc_decision_executable_price c;
       rq_taker_fee_rate := xc_taker_fee_rate c |} in
     fill max_book_age request books) in
  do* raise_if (dt_leb (xc_expires_at c) (fl_fill_at f))
        (halt c exit_plan "exit_fill_after_expiry" (Some (fl_market_event_id f))) ;;
  let* order := lift (order_apply_fill order (fl_quantity f) (fl_fill_at f)) in
  let* next_account := lift (apply_fill account (xc_fill_id c) (ps_position_id position) (xc_symbol c)
                               (ei_side intent) REDUCE (fl_quantity f) (fl_price f) (fl_fee f) (fl_fill_at f)) in
  let* closed_plan := lift (exit_close exit_plan (fl_fill_at f)) in
  let* snapshot := lift (freeze_json (PDict (book_facts f ++
    [("trigger_price", py_option PDec (ei_trigger_price intent));
     ("exit_reason", PEnum (enum_value (ei_reason intent))); slice_facts f]))) in
  let* stored := lift (stored_fill (xc_fill_id c) (xc_order_id c) (ac_currency account) f snapshot) in
  let record := {| pe_order := order; pe_exchange_filters := xc_exchange_filters c; pe_fills := [stored];
                   pe_account := Some next_account; pe_exit_plan := Some closed_plan |} in
  do* lift (validate record) ;;
  Ok {| br_record := record; br_fill := f |}.
End Broker.

(** ** Facts about the collaborators, as the handlers use them *)

Lemma prepare_market_Ok f side rq aq price an p :
  prepare f side MARKET rq aq (Some price) an = Ok p ->
  repr (pr_quantity p) /\ quantize_quantity f rq = Ok (pr_quantity p) /\
  (dval rq <= dval aq)%Q /\ (dval (pr_quantity p * price)%dec <= dval an)%Q /\
  (dval (ef_minimum_quantity f) <= dval (pr_quantity p))%Q /\
  (dval (pr_quantity p) <= dval (ef_maximum_quantity f))%Q.
Proof.
  unfold prepare. intros H. py_inv. bool_prop. dec_prop. cbn [pr_quantity].
  match goal with H : prepared_notional _ _ _ _ _ = Ok _ |- _ => unfold prepared_notional in H;
    rewrite bool_decide_false in H by discriminate; cbn [of_option bind] in H; py_inv end.
  cbn [snd] in *. split; [|auto 10].
  match goal with H : quantize_quantity _ _ = Ok _ |- _ => unfold quantize_quantity, _multiple in H; py_inv end.
  apply dmul_repr.
Qed.

(** The fill of a market request. *)
Lemma fill_facts age r books f : fill age r books = Ok f ->
  fl_quantity f = rq_quantity r /\ instant (rq_eligible_after r) < instant (fl_fill_at f) /\
  In (fl_book f) books /\ bk_symbol (fl_book f) = rq_symbol r /\ fl_fill_at f = bk_observed_at (fl_book f).
Proof.
  intros H. apply fill_inv in H as (b & ss & Hm & _ & _ & Hf). destruct Hf as (Eb & _ & _ & _ & Et & Eq & _).
  apply first_book_eligible in Hm as (Hin & Hsym & Hlt & _). rewrite Eb, Et, Eq. auto.
Qed.

Lemma request_post_init_Ok r r' : MarketFillRequest_post_init r = Ok r' -> r' = r.
Proof. unfold MarketFillRequest_post_init. intros H. py_inv. reflexivity. Qed.

(** The order both handlers build, after its one fill. *)
Lemma filled_order_facts oid eid pid cid ch sym side pe q ro oq c e o o1 o2 t o3 :
  order_create oid eid pid cid ch sym side MARKET pe q None ro oq c e = Ok o ->
  authorize o c = Ok o1 -> accept o1 c = Ok o2 -> order_apply_fill o2 q t = Ok o3 -> repr q ->
  po_order_id o3 = oid /\ po_experiment_id o3 = eid /\ po_symbol o3 = sym /\ po_side o3 = side /\
  po_quantity o3 = q /\ po_status o3 = FILLED /\ po_position_effect o3 = pe /\ po_reduce_only o3 = ro /\
  (dval (po_filled_quantity o3) == dval q)%Q /\ is_utc e = true.
Proof.
  intros Hc Ha Hk Hf Hq. unfold order_create in Hc. py_inv.
  unfold authorize in Ha. py_inv. apply _transition_inv in Ha as (_ & _ & j1 & ->).
  unfold accept in Hk. py_inv. apply _transition_inv in Hk as (_ & _ & j2 & ->).
  unfold order_apply_fill in Hf. py_inv. cbn [po_replace po_filled_quantity po_quantity] in *.
  assert (E : ((dzero + q) =? q)%dec = true) by (apply deqb_eq, dadd_0_l, Hq).
  rewrite E in *. match goal with H : _transition _ _ _ _ _ = Ok _ |- _ =>
    apply _transition_inv in H as (_ & _ & j3 & ->) end. cbn.
  repeat split; try reflexivity; [now apply dadd_0_l|].
  match goal with H : require_utc e _ = Ok _ |- _ => now apply require_utc_Ok in H end.
Qed.

(** ** Entries *)

Section EntryFacts.
Context (sha256_hex : string -> string) (hmac_sha256_hex : string -> string -> string).
Context (signing_key : string) (max_book_age : timedelta).
Abbreviation entry := (execute_market_entry sha256_hex hmac_sha256_hex signing_key max_book_age).

(** The statements of a successful entry. *)
Lemma entry_Ok c a books active res : entry c a books active = Ok res ->
  verify hmac_sha256_hex signing_key (ec_capability c) (ec_created_at c) = Ok true /\
  exists p el o f o' a' pos plan snapshot stored,
    prepare (ec_exchange_filters c) (ec_side c) MARKET (ec_requested_quantity c) (ec_approved_quantity c)
      (Some (ec_decision_executable_price c)) (ec_approved_notional c) = Ok p /\
    claims_match c (pr_quantity p) = true /\
    eligibility (ec_decision_completed_at c) (ec_execution_latency c) = Ok el /\
    entry_order sha256_hex c a (pr_quantity p) (eligible_at el) = Ok o /\
    fl_quantity f = pr_quantity p /\ instant (eligible_at el) < instant (fl_fill_at f) /\
    In (fl_book f) books /\ bk_symbol (fl_book f) = ec_symbol c /\
    instant (fl_fill_at f) < instant (ec_expires_at c) /\
    order_apply_fill o (fl_quantity f) (fl_fill_at f) = Ok o' /\
    apply_fill a (ec_fill_id c) (ec_position_id c) (ec_symbol c) (ec_side c) OPEN (fl_quantity f) (fl_price f)
      (fl_fee f) (fl_fill_at f) = Ok a' /\
    dict_get (ac_positions a') (ec_symbol c) = Some pos /\
    entry_exit_plan c active pos (fl_fill_at f) = Ok plan /\
    stored_fill (ec_fill_id c) (ec_order_id c) (ac_currency a) f snapshot = Ok stored /\
    res = {| br_record := {| pe_order := o'; pe_exchange_filters := ec_exchange_filters c; pe_fills := [stored];
                             pe_account := Some a'; pe_exit_plan := Some plan |}; br_fill := f |} /\
    consistent_execution (br_record res).
Proof.
  unfold execute_market_entry. intros H. py_inv. bool_prop. subst.
  match goal with H : MarketFillRequest_post_init _ = Ok _ |- _ => apply request_post_init_Ok in H; subst end.
  match goal with H : fill _ _ _ = Ok _ |- _ => apply fill_facts in H as (Eq & Hlt & Hin & Hsym & _) end.
  cbn [rq_quantity rq_eligible_after rq_symbol] in *. unfold dt_leb, ac_position in *. py_inv. bool_prop.
  match goal with H : validate _ = Ok _ |- _ => pose proof (validate_Ok _ _ H) as Hc end.
  split; [assumption|]. do 10 eexists. repeat (split; [eassumption|]). split; [reflexivity | exact Hc].
Qed.
End EntryFacts.

Lemma claims_match_true c q : claims_match c q = true ->
  let cl := cap_claims (ec_capability c) in
  cl_experiment_id cl = ec_experiment_id c /\ cl_decision_cycle_id cl = ec_decision_cycle_id c /\
  cl_proposal_id cl = ec_proposal_id c /\
  cl_gate_chain_hash cl = ec_gate_chain_hash c /\ cl_symbol cl = ec_symbol c /\ cl_side cl = ec_side c /\
  (dval (cl_quantity cl) == dval q)%Q /\ (dval (cl_approved_notional cl) == dval (ec_approved_notional c))%Q.
Proof. unfold claims_match. intros H. bool_prop. dec_prop. auto 10. Qed.

Lemma exit_create_Ok plan pos side q e loss gain t bars p :
  exit_create plan pos side q e loss gain t bars = Ok p ->
  ep_status p = EP_ACTIVE /\ ep_position_id p = pos /\ ep_quantity p = q /\ ep_side p = side.
Proof.
  unfold exit_create. intros H. destruct (_levels _ _ _ _). py_inv. apply post_init_Ok in H. subst p. auto.
Qed.

Lemma exit_resize_Ok p q e t p' : exit_resize p q e t = Ok p' ->
  ep_status p' = EP_ACTIVE /\ ep_position_id p' = ep_position_id p /\ ep_quantity p' = q /\ ep_side p' = ep_side p.
Proof.
  unfold exit_resize. intros H. destruct (_levels _ _ _ _). unfold exit_relevel in H. exit_inv. cbn. auto.
Qed.

(** The plan of an entry is active and covers exactly the open position. *)
Lemma entry_exit_plan_Ok c active p t plan : entry_exit_plan c active p t = Ok plan ->
  ep_status plan = EP_ACTIVE /\ ep_position_id plan = ps_position_id p /\ ep_quantity plan = ps_quantity p.
Proof.
  unfold entry_exit_plan. destruct active as [old|]; intros H.
  - py_inv. bool_prop. apply exit_resize_Ok in H as (? & ? & ? & _). repeat split; congruence.
  - apply exit_create_Ok in H as (? & ? & ? & _). auto.
Qed.


(** What an opening fill does to the books: cash pays the fee, the position of
    the symbol gets one more lot, with this quantity and price, and everything
    else stays. *)
Record entry_booked (a a' : AccountState) (pos : PositionState) (c : MarketEntryCommand) (f : PaperFill) : Prop := {
  eb_cash : ac_cash_balance a' = (ac_cash_balance a - fl_fee f)%dec;
  eb_position : dict_get (ac_positions a') (ec_symbol c) = Some pos;
  eb_others : forall s, s <> ec_symbol c -> dict_get (ac_positions a') s = dict_get (ac_positions a) s;
  eb_side : ps_side pos = opening_side (ec_side c) /\ ps_mark_price pos = fl_price f;
  eb_lots : exists lot,
    ps_lots pos = match dict_get (ac_positions a) (ec_symbol c) with Some p => ps_lots p | None => [] end ++ [lot] /\
    lot_opening_fill_id lot = ec_fill_id c /\ lot_entry_price lot = fl_price f /\
    lot_remaining_quantity lot = fl_quantity f /\ lot_opening_fee lot = fl_fee f;
  eb_version : ac_version a' = ac_version a + 1
}.

Lemma apply_fill_booked a a' pos c f :
  apply_fill a (ec_fill_id c) (ec_position_id c) (ec_symbol c) (ec_side c) OPEN (fl_quantity f) (fl_price f) (fl_fee f) (fl_fill_at f)
    = Ok a' -> dict_get (ac_positions a') (ec_symbol c) = Some pos -> entry_booked a a' pos c f.
Proof.
  intros H Hpos. apply apply_fill_Ok in H as (_ & _ & p' & cash & Hp & E & _).
  pose proof (update_spec a cash (ec_symbol c) p' (fl_fill_at f)) as U. rewrite <- E in U.
  assert (p' = pos) as -> by (pose proof (au_position _ _ _ _ _ U); congruence).
  unfold fill_open, open_fill in Hp. py_inv. cbn [ps_side ps_mark_price ps_lots] in *.
  split; [reflexivity | exact Hpos | apply U | split; reflexivity | | apply U].
  eexists. split; [f_equal; destruct (dict_get (ac_positions a) (ec_symbol c));
    [now py_inv | unfold position_empty in *; py_inv; reflexivity] | repeat split].
Qed.

(** The stored fill and the order say what the fill was. *)
Record entry_recorded (r : PaperExecutionRecord) (c : MarketEntryCommand) (f : PaperFill) : Prop := {
  er_order : po_order_id (pe_order r) = ec_order_id c /\ po_symbol (pe_order r) = ec_symbol c /\
             po_side (pe_order r) = ec_side c /\ po_position_effect (pe_order r) = OPEN;
  er_filled : po_status (pe_order r) = FILLED /\ po_quantity (pe_order r) = fl_quantity f /\
              (dval (po_filled_quantity (pe_order r)) == dval (fl_quantity f))%Q;
  er_fill : exists x, pe_fills r = [x] /\ xf_id x = ec_fill_id c /\ xf_order_intent_id x = ec_order_id c /\
              xf_market_event_id x = fl_market_event_id f /\ xf_fill_at x = fl_fill_at f /\
              xf_quantity x = fl_quantity f /\ xf_price x = fl_price f /\ xf_fee x = fl_fee f
}.

(** C6: No position without protection.  After an executed entry the order is
    completely filled, the one stored fill, the order and the account agree on
    its quantity, price and fee, the position of the symbol has exactly one
    more lot, with them, and the rest of the books is unchanged; the account
    reconciles and has nonnegative free margin; and the stored exit plan is
    active, belongs to the traded position and covers its whole quantity. *)
Theorem entry_is_protected sha256_hex hmac_sha256_hex key age c a books active res :
  execute_market_entry sha256_hex hmac_sha256_hex key age c a books active = Ok res ->
  exists a' pos plan,
    pe_account (br_record res) = Some a' /\ pe_exit_plan (br_record res) = Some plan /\
    entry_recorded (br_record res) c (br_fill res) /\ entry_booked a a' pos c (br_fill res) /\
    ep_status plan = EP_ACTIVE /\ ep_position_id plan = ps_position_id pos /\ ep_quantity plan = ps_quantity pos /\
    is_flat pos = false /\
    (exists fm, free_margin a' = Ok fm /\ (0 <= dval fm)%Q) /\
    (exists rep, reconcile a' = Ok rep /\ report_ok rep = true).
Proof.
  intros H. apply entry_Ok in H as (_ & p & el & o1 & f1 & o2 & a' & pos & plan & sn & st & Hp & _ & _ & Ho &
    Eq & _ & _ & _ & _ & Hof & Ha & Hpos & Hplan & Hst & Eres & Hc).
  apply entry_exit_plan_Ok in Hplan as (P1 & P2 & P3). pose proof (apply_fill_booked _ _ _ _ _ Ha Hpos) as Hbk.
  apply apply_fill_Ok in Ha as (_ & _ & p' & cash & _ & Ea & Hm & Hr).
  assert (Es : po_order_id o2 = ec_order_id c /\ po_symbol o2 = ec_symbol c /\ po_side o2 = ec_side c /\
    po_position_effect o2 = OPEN /\ po_status o2 = FILLED /\ po_quantity o2 = fl_quantity f1 /\
    (dval (po_filled_quantity o2) == dval (fl_quantity f1))%Q).
  { unfold entry_order in Ho. py_inv. apply prepare_market_Ok in Hp as (Hrp & _). rewrite Eq in Hof |- *.
    match goal with H1 : order_create _ _ _ _ _ _ _ _ _ _ _ _ _ _ _ = Ok _, H2 : authorize _ _ = Ok _ |- _ =>
      pose proof (filled_order_facts _ _ _ _ _ _ _ _ _ _ _ _ _ _ _ _ _ _ H1 H2 Ho Hof Hrp) end. tauto. }
  destruct Es as (S1 & S2 & S3 & S4 & S5 & S6 & S7).
  exists a', pos, plan. subst res. cbn [br_record br_fill pe_account pe_exit_plan].
  do 2 (split; [reflexivity|]). split; [|split; [exact Hbk|]].
  { unfold stored_fill in Hst. apply fill_record_post_init_Ok in Hst as ->.
    split; cbn [pe_order pe_fills]; [auto | auto | eexists; split; [reflexivity | repeat split]]. }
  repeat (split; [assumption || reflexivity|]). split; [|split; [apply Hm; reflexivity | exact Hr]].
  destruct (ce_plan _ Hc a' plan eq_refl eq_refl) as (q & Eq' & _ & _ & Hflat). cbn [br_record pe_order] in Eq'.
  rewrite S2, Hpos in Eq'. injection Eq' as <-. destruct (is_flat pos) eqn:E; [|reflexivity].
  rewrite (Hflat eq_refl) in P1. discriminate.
Qed.

(** ** Exits *)

Section ExitFacts.
Context (sha256_hex : string -> string) (max_book_age : timedelta).
Abbreviation exit_ := (execute_market_exit sha256_hex max_book_age).

Lemma lift_Ok {A} (m : result A) x : lift m = Ok x <-> m = Ok x.
Proof. apply map_exn_Ok. Qed.

Lemma exit_Ok c a plan books res : exit_ c a plan books = Ok res ->
  ep_status plan = EP_TRIGGERED /\
  exists pos p el o f o' a' plan' snapshot stored,
    dict_get (ac_positions a) (xc_symbol c) = Some pos /\ is_flat pos = false /\ intent_matches c pos plan = true /\
    repr (pr_quantity p) /\ (dval (pr_quantity p) == dval (ps_quantity pos))%Q /\
    eligibility (ei_triggered_at (xc_intent c)) (xc_execution_latency c) = Ok el /\
    exit_order sha256_hex c pos plan (pr_quantity p) (eligible_at el) = Ok o /\
    fl_quantity f = pr_quantity p /\ instant (eligible_at el) < instant (fl_fill_at f) /\ In (fl_book f) books /\
    instant (fl_fill_at f) < instant (xc_expires_at c) /\
    order_apply_fill o (fl_quantity f) (fl_fill_at f) = Ok o' /\
    apply_fill a (xc_fill_id c) (ps_position_id pos) (xc_symbol c) (ei_side (xc_intent c)) REDUCE
      (fl_quantity f) (fl_price f) (fl_fee f) (fl_fill_at f) = Ok a' /\
    exit_close plan (fl_fill_at f) = Ok plan' /\
    res = {| br_record := {| pe_order := o'; pe_exchange_filters := xc_exchange_filters c; pe_fills := [stored];
                             pe_account := Some a'; pe_exit_plan := Some plan' |}; br_fill := f |} /\
    stored_fill (xc_fill_id c) (xc_order_id c) (ac_currency a) f snapshot = Ok stored /\
    consistent_execution (br_record res).
Proof.
  unfold execute_market_exit, lift, ac_position. intros H. py_inv. bool_prop. dec_prop.
  match goal with H : MarketFillRequest_post_init _ = Ok _ |- _ => apply request_post_init_Ok in H; subst end.
  match goal with H : fill _ _ _ = Ok _ |- _ => apply fill_facts in H as (Eq & Hlt & Hin & _) end.
  cbn [rq_quantity rq_eligible_after rq_symbol] in *. unfold dt_leb in *. bool_prop.
  match goal with H : prepare _ _ _ _ _ _ _ = Ok _ |- _ => apply prepare_market_Ok in H as (Hr & _) end.
  match goal with H : validate _ = Ok _ |- _ => pose proof (validate_Ok _ _ H) as Hc end.
  split; [assumption|]. do 10 eexists. repeat (split; [eassumption || reflexivity|]). exact Hc.
Qed.
End ExitFacts.

(** What an executed exit leaves: a flat position under the same keys, a closed plan, exact books. *)
Lemma exit_leaves_flat sha256_hex age g c a plan books res pos :
  execute_market_exit sha256_hex age c a plan books = Ok res ->
  dict_get (ac_positions a) (xc_symbol c) = Some pos -> position_wf g pos ->
  consistent_execution (br_record res) /\
  exists a' p' plan', pe_account (br_record res) = Some a' /\ pe_exit_plan (br_record res) = Some plan' /\
    ac_positions a' = dict_set (ac_positions a) (xc_symbol c) p' /\ is_flat p' = true /\ ps_side p' = NEUTRAL /\
    ep_status plan' = EP_CLOSED /\ ac_experiment_id a' = ac_experiment_id a /\
    (exists rep, reconcile a' = Ok rep /\ report_ok rep = true).
Proof.
  intros H Epos W. apply exit_Ok in H as (_ & pos' & p & el & o1 & f1 & o2 & a' & plan' & sn & st & E' & _ & _ & _ &
    Hq & _ & _ & Eq & _ & _ & _ & _ & Ha & Hcl & Eres & _ & Hc).
  rewrite Epos in E'. injection E' as <-. rewrite Eres in Hc |- *. rewrite Eq in *. split; [exact Hc|].
  apply apply_fill_Ok in Ha as (_ & _ & p' & cash & Hp & -> & _ & Hrep). unfold fill_reduce in Hp. rewrite Epos in Hp. py_inv.
  pose proof (pw_quantity W) as Hpq.
  assert (Gq : grid g (dval (pr_quantity p))) by (rewrite Hq, Hpq; apply lots_quantity_grid, W).
  match goal with H : close_fill _ _ _ _ _ = Ok _ |- _ => destruct (close_fill_fifo g _ _ _ _ _ _ W Gq H) as (W' & _ & Hl) end.
  assert (Hz : (lots_quantity (ps_lots p') == 0)%Q) by (rewrite Hl, Hq, Hpq; ring).
  do 3 eexists. do 3 (split; [reflexivity|]). split; [apply (pw_flat W'), Hz|]. split; [apply (pw_side _ _ W'), Hz|].
  split; [unfold exit_close in Hcl; exit_inv; reflexivity|]. split; [reflexivity | exact Hrep].
Qed.


(** Errors of the steps that are not wrapped in [try]. *)
Definition not_rejection (e : exn) : Prop :=
  match e with FilterRejection _ | FillRejection _ _ => False | _ => True end.

Definition quiet {A} (m : result A) : Prop := forall e, m = Raise e -> not_rejection e.

Create HintDb quiet discriminated.

Lemma quiet_Ok {A} (x : A) : quiet (Ok x).
Proof. intros e H. discriminate. Qed.
Lemma quiet_Raise {A} e : not_rejection e -> quiet (@Raise exn A e).
Proof. intros H e' [= <-]. exact H. Qed.
Lemma quiet_bind {A B} (m : result A) (f : A -> result B) : quiet m -> (forall x, quiet (f x)) -> quiet (bind m f).
Proof. intros Hm Hf e H. apply bind_Raise in H as [H|(x & _ & H)]; [exact (Hm e H) | exact (Hf x e H)]. Qed.
Lemma quiet_raise_if c e : not_rejection e -> quiet (raise_if c e).
Proof. intros H e' E. apply raise_if_Raise in E as [_ <-]. exact H. Qed.
Lemma quiet_of_option {A} e (o : option A) : not_rejection e -> quiet (of_option e o).
Proof. intros H e' E. destruct o; [discriminate|]. injection E as <-. exact H. Qed.
Lemma quiet_when_some {A} (o : option A) f : (forall x, quiet (f x)) -> quiet (when_some o f).
Proof. intros H. destruct o; [apply H | apply quiet_Ok]. Qed.
Lemma quiet_mapM {A B} (f : A -> result B) l : (forall x, quiet (f x)) -> quiet (mapM f l).
Proof.
  intros H. refine (mapM_errors f not_rejection l _). apply List.Forall_forall. intros x _. exact (H x).
Qed.
Lemma quiet_freeze v : quiet (freeze_json v).
Proof. intros e H. apply freeze_json_Raise in H as [msg ->]. exact I. Qed.
Lemma quiet_hash h v : quiet (content_hash h v).
Proof. intros e H. apply content_hash_Raise in H as [msg ->]. exact I. Qed.
Lemma quiet_ddiv x y : quiet (ddiv x y).
Proof. unfold ddiv. destruct (mant y =? 0); [destruct (mant x =? 0); now apply quiet_Raise | apply quiet_Ok]. Qed.
#[export] Hint Resolve quiet_Ok quiet_freeze quiet_hash quiet_ddiv : quiet.

(** [quiet] goals follow the statements of the definition. *)
Ltac quiet_step :=
  match goal with
  | |- quiet (bind _ _) => apply quiet_bind; [|intros]
  | |- quiet (raise_if _ _) => apply quiet_raise_if; exact I
  | |- quiet (of_option _ _) => apply quiet_of_option; exact I
  | |- quiet (when_some _ _) => apply quiet_when_some; intros
  | |- quiet (mapM _ _) => apply quiet_mapM; intros
  | |- quiet (Raise _) => apply quiet_Raise; exact I
  | |- quiet (if ?c then _ else _) => destruct c
  | |- quiet (match ?x with _ => _ end) => destruct x
  | |- quiet (let '(_, _) := ?x in _) => destruct x
  end.
Ltac quiet_solve := cbv zeta; repeat (quiet_step || solve [auto with quiet]).

Lemma quiet_positive d f : quiet (require_positive_decimal d f).
Proof. unfold require_positive_decimal. quiet_solve. Qed.
Lemma quiet_utc d f : quiet (require_utc d f).
Proof. unfold require_utc. quiet_solve. Qed.
Lemma quiet_nonnegative d f : quiet (_require_nonnegative d f).
Proof. unfold _require_nonnegative. quiet_solve. Qed.
Lemma quiet_dt_lt a b : quiet (dt_lt a b).
Proof. unfold dt_lt. quiet_solve. Qed.
#[export] Hint Resolve quiet_positive quiet_utc quiet_nonnegative quiet_dt_lt : quiet.

Lemma quiet_transition o st ty t p : quiet (_transition o st ty t p).
Proof. unfold _transition. quiet_solve. Qed.
#[export] Hint Resolve quiet_transition : quiet.

Lemma quiet_exit_order h c p plan q t : quiet (exit_order h c p plan q t).
Proof. unfold exit_order, order_create, authorize, accept. quiet_solve. Qed.
Lemma quiet_order_fill o q t : quiet (order_apply_fill o q t).
Proof. unfold order_apply_fill. quiet_solve. Qed.
Lemma quiet_close_fill p q price fee t : quiet (close_fill p q price fee t).
Proof. unfold close_fill. quiet_solve. Qed.
Lemma quiet_open_fill p i s q price fee t : quiet (open_fill p i s q price fee t).
Proof. unfold open_fill. quiet_solve. Qed.
Lemma quiet_empty i e s : quiet (position_empty i e s).
Proof. unfold position_empty. quiet_solve. Qed.
#[export] Hint Resolve quiet_close_fill quiet_open_fill quiet_empty : quiet.
Lemma quiet_used_margin a : quiet (used_margin a).
Proof. unfold used_margin. quiet_solve. Qed.
#[export] Hint Resolve quiet_used_margin : quiet.
Lemma quiet_reconcile a : quiet (reconcile a).
Proof. unfold reconcile. quiet_solve. Qed.
#[export] Hint Resolve quiet_reconcile : quiet.
Lemma quiet_apply_fill a i j s side ef q price fee t : quiet (apply_fill a i j s side ef q price fee t).
Proof. unfold apply_fill, fill_open, fill_reduce, free_margin. quiet_solve. Qed.
Lemma quiet_exit_post p : quiet (ExitPlan_post_init p).
Proof. unfold ExitPlan_post_init. quiet_solve. Qed.
#[export] Hint Resolve quiet_exit_post : quiet.
Lemma quiet_exit_close p t : quiet (exit_close p t).
Proof. unfold exit_close. quiet_solve. Qed.
Lemma quiet_stored i j s f x : quiet (stored_fill i j s f x).
Proof. unfold stored_fill, ExecutionFillRecord_post_init. quiet_solve. Qed.
Lemma quiet_validate r : quiet (validate r).
Proof. unfold validate, validate_exit_plan, ac_position. quiet_solve. Qed.
Lemma quiet_eligibility d l : quiet (eligibility d l).
Proof. unfold eligibility. quiet_solve. Qed.
#[export] Hint Resolve quiet_exit_order quiet_order_fill quiet_apply_fill quiet_exit_close quiet_stored quiet_validate
  quiet_eligibility : quiet.

(** What the two wrapped calls raise, as the handler turns it into its own errors. *)
Definition good_error (c : MarketExitCommand) (plan : ExitPlan) (err : broker_error) : Prop :=
  match err with
  | Plain e => not_rejection e
  | Halt h => hl_command h = c /\ hl_exit_plan h = plan /\ hl_reason h <> ""
  end.

Definition halts {A} c plan (m : outcome broker_error A) : Prop := forall err, m = Raise err -> good_error c plan err.

Lemma halts_bind {A B} c plan (m : outcome broker_error A) (f : A -> outcome broker_error B) :
  halts c plan m -> (forall x, halts c plan (f x)) -> halts c plan (bind m f).
Proof. intros Hm Hf e H. apply bind_Raise in H as [H|(x & _ & H)]; [exact (Hm e H) | exact (Hf x e H)]. Qed.
Lemma halts_lift {A} c plan (m : result A) : quiet m -> halts c plan (lift m).
Proof. intros Hm err H. unfold lift in H. destruct m; [discriminate|]. injection H as <-. apply Hm. reflexivity. Qed.
Lemma halts_raise_if c plan b err : good_error c plan err -> halts c plan (raise_if b err).
Proof. intros H e E. apply raise_if_Raise in E as [_ <-]. exact H. Qed.

Lemma halts_filter c plan f side rq aq price an :
  halts c plan (map_exn (on_filter c plan) (prepare f side MARKET rq aq price an)).
Proof.
  intros err H. destruct (prepare f side MARKET rq aq price an) as [|e] eqn:E; [discriminate|]. injection H as <-.
  unfold prepare, prepared_notional, quantize_quantity, quantize_price, _multiple, _require_positive, ddiv in E.
  cbv zeta in E. py_raise E; try (injection E as E); subst e;
    try match goal with |- context [if ?c then DivisionUndefined else _] => destruct c end; cbn; auto; repeat split; discriminate.
Qed.

Lemma walk_quiet levels q : quiet (walk_loop levels q).
Proof.
  revert q; induction levels as [|l levels IH]; intros q; cbn [walk_loop]; [apply quiet_Ok|].
  unfold FillSlice_post_init. quiet_solve.
Qed.

Lemma halts_fill c plan age r books :
  halts c plan (map_exn (on_fill c plan) (let* q := MarketFillRequest_post_init r in fill age q books)).
Proof.
  intros err H. destruct (bind _ _) as [|e] eqn:E in H; [discriminate|]. injection H as <-.
  apply bind_Raise in E as [E|(q & _ & E)].
  - assert (Q : quiet (MarketFillRequest_post_init r)) by (unfold MarketFillRequest_post_init; quiet_solve).
    apply Q in E. destruct e; exact E || contradiction.
  - unfold fill in E. cbv zeta in E. apply bind_Raise in E as [E|(b & _ & E)].
    { destruct (min_by _ _); [discriminate|]. injection E as <-. repeat split. discriminate. }
    apply bind_Raise in E as [E|(u & _ & E)].
    { apply raise_if_Raise in E as [_ <-]. repeat split. discriminate. }
    apply bind_Raise in E as [E|(ss & _ & E)].
    { unfold _walk in E. apply bind_Raise in E as [E|(rr & _ & E)].
      - apply walk_quiet in E. destruct e; exact E || contradiction.
      - apply bind_Raise in E as [E|(u' & _ & E)]; [|discriminate].
        apply raise_if_Raise in E as [_ <-]. repeat split. discriminate. }
    match type of E with ?m = _ => assert (Q : quiet m) by (quiet_solve; unfold PaperFill_post_init; quiet_solve) end.
    apply Q in E. destruct e; exact E || contradiction.
Qed.

(** Every step of the exit handler respects its errors. *)
Lemma exit_halts sha256_hex age c a plan books : halts c plan (execute_market_exit sha256_hex age c a plan books).
Proof.
  unfold execute_market_exit, ac_position. cbv zeta.
  repeat first [apply halts_bind; [|intros]
               | apply halts_raise_if; repeat split; discriminate
               | apply halts_filter | apply halts_fill
               | apply halts_lift; solve [auto with quiet | quiet_solve]].
  intros e H; discriminate.
Qed.

(** A refused protective exit is an incident, not a lost exception: every
    rejection by the exchange filters or the fill engine surfaces as an
    [ExitExecutionHalt] that carries this command, this plan and a reason, and
    what else the handler raises is never a rejection of that kind. *)
Theorem exit_rejections_halt sha256_hex age c a plan books err :
  execute_market_exit sha256_hex age c a plan books = Raise err ->
  match err with
  | Plain e => not_rejection e
  | Halt h => hl_command h = c /\ hl_exit_plan h = plan /\ hl_reason h <> ""
  end.
Proof. exact (exit_halts sha256_hex age c a plan books err). Qed.

(** ** Witnesses *)

(** A stand-in for the digest, with the length of a SHA-256 text. *)
Definition demo_sha (_ : string) : string := sample_hash.
Definition demo_account : AccountState := or_default (account_create 1 (dint 10000) "USDT" 1).

Definition demo_claims : AuthorizationClaims := {|
  cl_experiment_id := 1; cl_decision_cycle_id := 2; cl_proposal_id := 3; cl_gate_chain_hash := sample_hash;
  cl_symbol := "BTCUSDT"; cl_side := BUY; cl_quantity := dint 30; cl_approved_notional := dint 4000;
  cl_issued_at := utc 0; cl_expires_at := utc (seconds 60) |}.

Definition demo_capability : ExecutionCapability :=
  match issue toy_hmac "k" demo_claims true with
  | Ok c => c
  | Raise _ => {| cap_claims := demo_claims; cap_signature := "" |}
  end.

(** Buy 30 at 100. *)
Definition demo_entry : MarketEntryCommand := {|
  ec_order_id := 31; ec_fill_id := 32; ec_position_id := 33; ec_exit_plan_id := 34; ec_experiment_id := 1;
  ec_decision_cycle_id := 2; ec_proposal_id := 3; ec_gate_chain_hash := sample_hash;
  ec_client_order_id := "entry-1"; ec_symbol := "BTCUSDT"; ec_side := BUY; ec_requested_quantity := dint 30;
  ec_approved_quantity := dint 30; ec_approved_notional := dint 4000; ec_decision_executable_price := dint 100;
  ec_decision_completed_at := utc (seconds 1); ec_execution_latency := 250000; ec_created_at := utc (seconds 1);
  ec_expires_at := utc (seconds 30); ec_taker_fee_rate := mkdec 4 (-4); ec_expected_loss_fraction := mkdec 1 (-2);
  ec_expected_gain_fraction := mkdec 2 (-2); ec_capability := demo_capability; ec_exchange_filters := btc_filters |}.

Definition demo_book (id : string) (at_ ask : Z) (bids : list BookLevel) : BookSnapshot := {|
  bk_event_id := id; bk_symbol := "BTCUSDT"; bk_venue_event_at := utc (seconds at_);
  bk_observed_at := utc (seconds at_ + 1000); bk_sequence := at_; bk_bids := bids;
  bk_asks := [{| lv_price := dint ask; lv_quantity := dint 50 |}]; bk_mark_price := dint 100 |}.

Definition thin_bids : list BookLevel := [{| lv_price := dint 99; lv_quantity := dint 50 |}].

Definition demo_entered : result PaperBrokerResult :=
  execute_market_entry demo_sha toy_hmac "k" (seconds 2) demo_entry demo_account [demo_book "b1" 2 100 thin_bids] None.

Definition held_account (r : result PaperBrokerResult) : AccountState :=
  match r with
  | Ok b => match pe_account (br_record b) with Some a => a | None => account_default end
  | Raise _ => account_default
  end.
Definition held_plan (r : result PaperBrokerResult) : ExitPlan :=
  match r with
  | Ok b => match pe_exit_plan (br_record b) with Some p => p | None => sample_plan end
  | Raise _ => sample_plan
  end.


Lemma entry_is_protected_witness : exists res a' pos plan, demo_entered = Ok res /\
  pe_account (br_record res) = Some a' /\ dict_get (ac_positions a') "BTCUSDT" = Some pos /\
  pe_exit_plan (br_record res) = Some plan /\ ep_status plan = EP_ACTIVE /\ ep_quantity plan = ps_quantity pos.
Proof.
  destruct demo_entered as [res|e] eqn:E; [|vm_compute in E; discriminate].
  destruct (entry_is_protected _ _ _ _ _ _ _ _ _ E) as (a' & pos & plan & H1 & H2 & _ & H3 & H4 & _ & H5 & _).
  exists res, a', pos, plan. split; [reflexivity|]. split; [exact H1|]. split; [exact (eb_position _ _ _ _ _ H3)|].
  split; [exact H2|]. split; [exact H4 | exact H5].
Defined.

(** The stop at 99 is hit; everything is sold at 99. *)
Definition demo_triggered : ExitPlan :=
  match evaluate_mark (held_plan demo_entered) (dint 99) (utc (seconds 5)) None with
  | Ok ev => ee_plan ev
  | Raise _ => sample_plan
  end.

Definition demo_intent : ExitIntent :=
  match pending_intent demo_triggered with
  | Ok i => i
  | Raise _ => {| ei_position_id := 0; ei_side := SELL; ei_order_type := MARKET; ei_quantity := dzero;
                  ei_reduce_only := false; ei_reason := STOP; ei_triggered_at := utc 0; ei_trigger_price := None |}
  end.

Definition demo_exit : MarketExitCommand := {|
  xc_order_id := 41; xc_fill_id := 42; xc_experiment_id := 1; xc_proposal_id := 3; xc_client_order_id := "exit-1";
  xc_symbol := "BTCUSDT"; xc_decision_executable_price := dint 99; xc_execution_latency := 250000;
  xc_created_at := utc (seconds 5); xc_expires_at := utc (seconds 30); xc_taker_fee_rate := mkdec 4 (-4);
  xc_intent := demo_intent; xc_exchange_filters := btc_filters |}.

Definition demo_exited (bids : list BookLevel) : outcome broker_error PaperBrokerResult :=
  execute_market_exit demo_sha (seconds 2) demo_exit (held_account demo_entered) demo_triggered
    [demo_book "b2" 6 102 bids].

Definition demo_position : PositionState :=
  match dict_get (ac_positions (held_account demo_entered)) "BTCUSDT" with Some p => p | None => sample_position end.

Lemma demo_position_wf : position_wf (-3) demo_position.
Proof.
  assert (E : map lot_remaining_quantity (ps_lots demo_position) = [dint 30]) by (vm_compute; reflexivity).
  split.
  - apply (Forall_map lot_remaining_quantity (fun d => grid (-3) (dval d) /\ 0 <= dval d)%Q). rewrite E.
    apply List.Forall_cons; [|apply List.Forall_nil]. split; [exists 30000; reflexivity | discriminate].
  - vm_compute. reflexivity.
  - split; vm_compute; discriminate.
Qed.


Definition halt_summary {A} (m : outcome broker_error A) : option (string * option string) :=
  match m with Raise (Halt h) => Some (hl_reason h, hl_market_event_id h) | _ => None end.

Definition one_bid : list BookLevel := [{| lv_price := dint 99; lv_quantity := dint 1 |}].

(** No bids deep enough: the handler halts with the reason and the book's event. *)
Lemma exit_rejections_halt_witness : exists h,
  demo_exited one_bid = Raise (Halt h) /\ hl_command h = demo_exit /\ hl_exit_plan h = demo_triggered /\
  hl_reason h = "insufficient_visible_depth" /\ hl_market_event_id h = Some "b2".
Proof.
  assert (Hs : halt_summary (demo_exited one_bid) = Some ("insufficient_visible_depth", Some "b2"))
    by (vm_compute; reflexivity).
  destruct (demo_exited one_bid) as [res|[e|h]] eqn:E; cbn [halt_summary] in Hs; [discriminate | discriminate |].
  pose proof (exit_rejections_halt _ _ _ _ _ _ _ E) as (H1 & H2 & _). injection Hs as Hr He.
  exists h. auto.
Defined.

(** Where rounding refuses a protective exit.  Long 30 at 100 with a
    capital of 10000, a triggered plan and enough bids on two levels (10 at
    100.1, 20 at 100): the fill price 3001/30 has 28 digits, cash and expected
    cash are rounded at different positions, and the handler raises
    [ArithmeticError], not an [ExitExecutionHalt], with the position open. *)
Theorem exit_lost_to_rounding :
  let bids := [{| lv_price := mkdec 1001 (-1); lv_quantity := dint 10 |};
               {| lv_price := dint 100; lv_quantity := dint 20 |}] in
  is_ok (BookSnapshot_post_init (demo_book "b2" 6 102 bids)) = true /\
  demo_exited bids = Raise (Plain (ArithmeticError "account reconciliation failed after fill")).
Proof. split; vm_compute; reflexivity. Qed.
