(* ===== verification/Sensitivity.v ===== *)
(** * Fill sensitivities: [maais/execution/paper/sensitivity.py]

    Optimistic, conservative and stressed versions of a fill. *)

From Stdlib Require Import ZArith QArith Qabs Lia Lqa List Bool String.
From stdpp Require Import base decidable list strings.
From S2P Require Import Prelude PyDecimal DecimalTheory Domain Market Fills.

Local Open Scope Z_scope.

Inductive SensitivityScenario : Type := OPTIMISTIC | CONSERVATIVE | STRESS.

#[export] Instance SensitivityScenario_value : StrEnum SensitivityScenario := fun s =>
  match s with OPTIMISTIC => "optimistic" | CONSERVATIVE => "conservative" | STRESS => "stress" end.

Record SensitivityOutcome : Type := {
  so_scenario : SensitivityScenario;
  so_calculated_at : datetime;
  so_effective_fill_price : dec;
  so_fee : dec;
  so_execution_cost : dec;
  so_marked_pnl : dec
}.

Definition SensitivityOutcome_post_init (o : SensitivityOutcome) : result SensitivityOutcome :=
  do* require_utc (so_calculated_at o) "calculated_at" ;;
  do* require_positive_decimal (so_effective_fill_price o) "effective_fill_price" ;;
  do* raise_if ((so_fee o <? dzero)%dec || (so_execution_cost o <? dzero)%dec)
        (ValueError "fee and execution_cost must be nonnegative") ;;
  Ok o.

(** [min(l)] and [max(l)]; Python raises on an empty sequence. *)
Definition py_min (l : list dec) : result dec :=
  match l with [] => Raise (ValueError "min() iterable argument is empty") | x :: l' => Ok (fold_left dmin l' x) end.
Definition py_max (l : list dec) : result dec :=
  match l with [] => Raise (ValueError "max() iterable argument is empty") | x :: l' => Ok (fold_left dmax l' x) end.

Definition outcome_at (f : PaperFill) (best_price fee_rate marked_price : dec) (calculated_at : datetime)
    (scenario : SensitivityScenario) (price : dec) : result SensitivityOutcome :=
  let fee := (price * fl_quantity f * fee_rate)%dec in
  let slippage := (dabs (price - best_price) * fl_quantity f)%dec in
  let gross := ((marked_price - price) * fl_quantity f)%dec in
  let gross := if bool_decide (fl_side f = SELL) then dneg gross else gross in
  SensitivityOutcome_post_init {|
    so_scenario := scenario; so_calculated_at := calculated_at; so_effective_fill_price := price;
    so_fee := fee; so_execution_cost := (fee + slippage)%dec; so_marked_pnl := (gross - fee)%dec |}.

Definition calculate_sensitivities (f : PaperFill) (marked_price : dec) (calculated_at : datetime)
    (stress_multiplier : dec) : result (list SensitivityOutcome) :=
  do* require_positive_decimal marked_price "marked_price" ;;
  do* require_utc calculated_at "calculated_at" ;;
  do* raise_if (stress_multiplier <? done)%dec
        (ValueError "stress_multiplier must be a finite Decimal at least 1") ;;
  let is_buy := bool_decide (fl_side f = BUY) in
  let* best_price := (if is_buy then py_min else py_max) (map sl_price (fl_slices f)) in
  let* per_unit := ddiv (dabs (fl_total_slippage f)) (fl_quantity f) in
  let additional_stress := (per_unit * (stress_multiplier - done))%dec in
  let stress_price := (if is_buy then fl_price f + additional_stress else fl_price f - additional_stress)%dec in
  do* require_positive_decimal stress_price "stress effective fill price" ;;
  let* fee_rate := (if (dzero <? fl_notional f)%dec then ddiv (fl_fee f) (fl_notional f) else Ok dzero) in
  let outcome := outcome_at f best_price fee_rate marked_price calculated_at in
  let* optimistic := outcome OPTIMISTIC best_price in
  let* conservative := outcome CONSERVATIVE (fl_price f) in
  let* stress := outcome STRESS stress_price in
  Ok [optimistic; conservative; stress].

(** ** Facts *)

Lemma dabs_nonneg x : (0 <= dval (dabs x))%Q.
Proof. apply (rounded_nonneg (dabs_rounded x)), Qabs_nonneg. Qed.

Lemma dadd_ge x y : repr x -> (0 <= dval y)%Q -> (dval x <= dval (x + y)%dec)%Q.
Proof. intros Hx Hy. apply (rounded_lo _ _ (dadd_rounded x y) x Hx). lra. Qed.

Lemma dsub_le x y : repr x -> (0 <= dval y)%Q -> (dval (x - y)%dec <= dval x)%Q.
Proof. intros Hx Hy. apply (rounded_hi _ _ (dsub_rounded x y) x Hx). lra. Qed.

Lemma fold_dmin_spec l x : In (fold_left dmin l x) (x :: l) /\
  Forall (fun y => dval (fold_left dmin l x) <= dval y)%Q (x :: l).
Proof.
  revert x; induction l as [|y l IH]; intros x; cbn [fold_left].
  - split; [now left | repeat constructor; apply Qle_refl].
  - destruct (IH (dmin x y)) as [Hin Hall]. apply Forall_cons in Hall as [H1 H2].
    pose proof (dmin_lb_l x y). pose proof (dmin_lb_r x y). split.
    + destruct Hin as [E|Hin]; [|now right; right]. rewrite <- E.
      destruct (dmin_case x y) as [->| ->]; [now left | right; now left].
    + repeat (apply List.Forall_cons; [lra|]). exact H2.
Qed.

Lemma fold_dmax_spec l x : In (fold_left dmax l x) (x :: l) /\
  Forall (fun y => dval y <= dval (fold_left dmax l x))%Q (x :: l).
Proof.
  revert x; induction l as [|y l IH]; intros x; cbn [fold_left].
  - split; [now left | repeat constructor; apply Qle_refl].
  - destruct (IH (dmax x y)) as [Hin Hall]. apply Forall_cons in Hall as [H1 H2].
    pose proof (dmax_ub_l x y). pose proof (dmax_ub_r x y). split.
    + destruct Hin as [E|Hin]; [|now right; right]. rewrite <- E.
      destruct (dmax_case x y) as [->| ->]; [now left | right; now left].
    + repeat (apply List.Forall_cons; [lra|]). exact H2.
Qed.

(** The three scenarios of a fill are ordered as their names say.  They come
    back optimistic, conservative, stress; the optimistic price is the best
    slice price, no stressed price is better for the trader than the price of
    the fill, all prices are positive, and every fee and execution cost is
    nonnegative. *)
Theorem sensitivities_ordered f marked t mult outs :
  calculate_sensitivities f marked t mult = Ok outs -> repr (fl_price f) -> (0 < dval (fl_quantity f))%Q ->
  exists o c s, outs = [o; c; s] /\
    (so_scenario o = OPTIMISTIC /\ so_scenario c = CONSERVATIVE /\ so_scenario s = STRESS) /\
    In (so_effective_fill_price o) (map sl_price (fl_slices f)) /\ so_effective_fill_price c = fl_price f /\
    (if bool_decide (fl_side f = BUY)
     then Forall (fun x => dval (so_effective_fill_price o) <= dval (sl_price x))%Q (fl_slices f) /\
          (dval (so_effective_fill_price c) <= dval (so_effective_fill_price s))%Q
     else Forall (fun x => dval (sl_price x) <= dval (so_effective_fill_price o))%Q (fl_slices f) /\
          (dval (so_effective_fill_price s) <= dval (so_effective_fill_price c))%Q) /\
    Forall (fun x => 0 < dval (so_effective_fill_price x) /\ 0 <= dval (so_fee x) /\
                     0 <= dval (so_execution_cost x))%Q outs.
Proof.
  unfold calculate_sensitivities. intros H Hp Hq. py_inv. dec_prop. rewrite dval_one in *.
  assert (Hout : forall sc pr o fr bp, outcome_at f bp fr marked t sc pr = Ok o ->
    so_scenario o = sc /\ so_effective_fill_price o = pr /\
    (0 < dval (so_effective_fill_price o) /\ 0 <= dval (so_fee o) /\ 0 <= dval (so_execution_cost o))%Q).
  { intros sc pr o fr bp Ho. unfold outcome_at, SensitivityOutcome_post_init in Ho. py_inv. bool_prop. dec_prop.
    repeat match goal with H : require_positive_decimal _ _ = Ok _ |- _ => apply require_positive_Ok in H end.
    cbn in *. rewrite dval_zero in *. auto. }
  match goal with H1 : outcome_at _ _ _ _ _ OPTIMISTIC _ = Ok ?o, H2 : outcome_at _ _ _ _ _ CONSERVATIVE _ = Ok ?c,
    H3 : outcome_at _ _ _ _ _ STRESS _ = Ok ?s |- _ => exists o, c, s;
    apply Hout in H1 as (S1 & P1 & F1); apply Hout in H2 as (S2 & P2 & F2); apply Hout in H3 as (S3 & P3 & F3) end.
  match goal with H : ddiv _ _ = Ok ?u |- _ => apply ddiv_Ok in H as (_ & ->) end.
  assert (Hadd : (0 <= dval (ddiv_raw (dabs (fl_total_slippage f)) (fl_quantity f) * (mult - done))%dec)%Q).
  { apply dmul_nonneg; [apply ddiv_nonneg; [apply dabs_nonneg | exact Hq]|].
    apply (rounded_nonneg (dsub_rounded mult done)). rewrite dval_one. lra. }
  split; [reflexivity|split; [auto|]]. rewrite P1, P2, P3. clear S1 S2 S3.
  assert (HF : Forall (fun x => 0 < dval (so_effective_fill_price x) /\ 0 <= dval (so_fee x) /\
     0 <= dval (so_execution_cost x))%Q [v6; v7; v8]) by (repeat (apply List.Forall_cons; [assumption|]); apply List.Forall_nil).
  destruct (bool_decide (fl_side f = BUY)); unfold py_min, py_max in *;
    destruct (map sl_price (fl_slices f)) as [|x l] eqn:El; try discriminate; py_inv.
  - destruct (fold_dmin_spec l x) as [Hin Hall]. split; [exact Hin|split; [reflexivity|split; [|exact HF]]].
    split; [|now apply dadd_ge].
    apply (Forall_map sl_price (fun d => dval (fold_left dmin l x) <= dval d)%Q). rewrite El. exact Hall.
  - destruct (fold_dmax_spec l x) as [Hin Hall]. split; [exact Hin|split; [reflexivity|split; [|exact HF]]].
    split; [|now apply dsub_le].
    apply (Forall_map sl_price (fun d => dval d <= dval (fold_left dmax l x))%Q). rewrite El. exact Hall.
Qed.

Definition sample_sensitivities : list SensitivityOutcome :=
  match calculate_sensitivities sample_fill (dint 103) (utc 3000000) (dint 2) with Ok l => l | Raise _ => [] end.

Lemma sensitivities_ordered_witness : exists o c s,
  sample_sensitivities = [o; c; s] /\ so_scenario s = STRESS /\
  (dval (so_effective_fill_price c) <= dval (so_effective_fill_price s))%Q.
Proof.
  destruct (sensitivities_ordered sample_fill (dint 103) (utc 3000000) (dint 2) sample_sensitivities)
    as (o & c & s & H1 & (_ & _ & H2) & _ & _ & H3 & _); [vm_compute; reflexivity ..|].
  exists o, c, s. split; [exact H1|split; [exact H2|]]. rewrite bool_decide_true in H3 by (vm_compute; reflexivity).
  exact (proj2 H3).
Defined.
