(* ===== verification/RiskOfficial.v ===== *)
(** * The official risk engine: [maais/risk/official.py]

    Position sizing under Kelly, drawdown, correlation, loss, notional and
    margin limits.  [evaluate] runs the eight gates in order and stops at the
    first failure of the first four.  Symbols are ASCII; the SHA-256 digest is a
    parameter of the definitions that use it.

    [RiskGateResult.details] and the input snapshot are frozen JSON; the
    constructors freeze them again, which changes nothing ([Json.freeze_thaw]). *)

From Stdlib Require Import ZArith QArith Qabs Lia Lqa List Bool String Ascii Permutation.
From stdpp Require Import base decidable list strings.
From S2P Require Import Prelude PyDecimal DecimalTheory Domain Json.

Local Open Scope Z_scope.

Inductive RiskCheck : Type :=
| KELLY | PRICE_AND_STOP | DRAWDOWN | CORRELATION
| TRADE_RISK_AT_STOP | PORTFOLIO_LOSS_AT_STOP | GROSS_NOTIONAL | MARGIN.

#[export] Instance RiskCheck_eq_dec : EqDecision RiskCheck.
Proof. solve_decision. Defined.

#[export] Instance RiskCheck_value : StrEnum RiskCheck := fun c =>
  match c with
  | KELLY => "kelly" | PRICE_AND_STOP => "price_and_stop" | DRAWDOWN => "drawdown"
  | CORRELATION => "correlation" | TRADE_RISK_AT_STOP => "trade_risk_at_stop"
  | PORTFOLIO_LOSS_AT_STOP => "portfolio_loss_at_stop" | GROSS_NOTIONAL => "gross_notional"
  | MARGIN => "margin"
  end.

(** [tuple(RiskCheck)]: definition order. *)
Definition all_checks : list RiskCheck :=
  [KELLY; PRICE_AND_STOP; DRAWDOWN; CORRELATION; TRADE_RISK_AT_STOP; PORTFOLIO_LOSS_AT_STOP; GROSS_NOTIONAL; MARGIN].

Record OfficialRiskPolicy : Type := {
  rp_maximum_kelly_fraction : dec;
  rp_maximum_trade_loss_fraction : dec;
  rp_maximum_portfolio_loss_fraction : dec;
  rp_maximum_gross_notional_fraction : dec;
  rp_maximum_margin_fraction : dec;
  rp_minimum_aligned_correlation_returns : Z;
  rp_correlation_reduce_20_threshold : dec;
  rp_correlation_reduce_40_threshold : dec;
  rp_correlation_block_threshold : dec;
  rp_drawdown_reduce_25_threshold : dec;
  rp_drawdown_reduce_50_threshold : dec;
  rp_drawdown_halt_threshold : dec
}.

Definition positive_field (nv : string * dec) : result unit :=
  raise_if (snd nv <=? dzero)%dec (ValueError (fst nv +:+ " must be a positive finite Decimal")).

Definition OfficialRiskPolicy_post_init (p : OfficialRiskPolicy) : result OfficialRiskPolicy :=
  do* iterM positive_field
    [("maximum_kelly_fraction", rp_maximum_kelly_fraction p);
     ("maximum_trade_loss_fraction", rp_maximum_trade_loss_fraction p);
     ("maximum_portfolio_loss_fraction", rp_maximum_portfolio_loss_fraction p);
     ("maximum_gross_notional_fraction", rp_maximum_gross_notional_fraction p);
     ("maximum_margin_fraction", rp_maximum_margin_fraction p);
     ("correlation_reduce_20_threshold", rp_correlation_reduce_20_threshold p);
     ("correlation_reduce_40_threshold", rp_correlation_reduce_40_threshold p);
     ("correlation_block_threshold", rp_correlation_block_threshold p);
     ("drawdown_reduce_25_threshold", rp_drawdown_reduce_25_threshold p);
     ("drawdown_reduce_50_threshold", rp_drawdown_reduce_50_threshold p);
     ("drawdown_halt_threshold", rp_drawdown_halt_threshold p)] ;;
  do* raise_if (rp_minimum_aligned_correlation_returns p <? 2)
        (ValueError "correlation warmup must require at least two returns") ;;
  do* raise_if (negb ((rp_correlation_reduce_20_threshold p <? rp_correlation_reduce_40_threshold p)%dec &&
                      (rp_correlation_reduce_40_threshold p <? rp_correlation_block_threshold p)%dec &&
                      (rp_correlation_block_threshold p <=? done)%dec))
        (ValueError "correlation thresholds must be ordered within [0, 1]") ;;
  do* raise_if (negb ((rp_drawdown_reduce_25_threshold p <? rp_drawdown_reduce_50_threshold p)%dec &&
                      (rp_drawdown_reduce_50_threshold p <? rp_drawdown_halt_threshold p)%dec &&
                      (rp_drawdown_halt_threshold p <? done)%dec))
        (ValueError "drawdown thresholds must be ordered within [0, 1]") ;;
  Ok p.

Definition conservative : OfficialRiskPolicy := {|
  rp_maximum_kelly_fraction := mkdec 25 (-2); rp_maximum_trade_loss_fraction := mkdec 2 (-2);
  rp_maximum_portfolio_loss_fraction := mkdec 6 (-2); rp_maximum_gross_notional_fraction := mkdec 1 0;
  rp_maximum_margin_fraction := mkdec 1 0; rp_minimum_aligned_correlation_returns := 60;
  rp_correlation_reduce_20_threshold := mkdec 30 (-2); rp_correlation_reduce_40_threshold := mkdec 60 (-2);
  rp_correlation_block_threshold := mkdec 70 (-2); rp_drawdown_reduce_25_threshold := mkdec 5 (-2);
  rp_drawdown_reduce_50_threshold := mkdec 10 (-2); rp_drawdown_halt_threshold := mkdec 20 (-2) |}.

Record DrawdownSnapshot : Type := { dd_peak_equity : dec; dd_current_equity : dec }.

Definition DrawdownSnapshot_post_init (d : DrawdownSnapshot) : result DrawdownSnapshot :=
  do* raise_if ((dd_peak_equity d <=? dzero)%dec || (dd_current_equity d <? dzero)%dec ||
                (dd_current_equity d >? dd_peak_equity d)%dec)
        (ValueError "drawdown equity inputs are invalid") ;;
  Ok d.

Definition drawdown_fraction (d : DrawdownSnapshot) : result dec :=
  ddiv (dd_peak_equity d - dd_current_equity d)%dec (dd_peak_equity d).

Definition drawdown_dict (d : DrawdownSnapshot) : pyval := PDict
  [("peak_equity", PStr (dec_str (dd_peak_equity d))); ("current_equity", PStr (dec_str (dd_current_equity d)))].

Record OpenRiskPosition : Type := {
  orp_symbol : string; orp_notional : dec; orp_loss_at_stop : dec; orp_margin : dec
}.

Definition nonnegative_field (nv : string * dec) : result unit :=
  raise_if (snd nv <? dzero)%dec (ValueError ("open position " +:+ fst nv +:+ " must be nonnegative and finite")).

Definition OpenRiskPosition_post_init (p : OpenRiskPosition) : result OpenRiskPosition :=
  do* raise_if (negb (upper_symbol (orp_symbol p))) (ValueError "open risk position symbol must be uppercase") ;;
  do* iterM nonnegative_field
    [("notional", orp_notional p); ("loss_at_stop", orp_loss_at_stop p); ("margin", orp_margin p)] ;;
  Ok p.

Record CorrelationObservation : Type := {
  co_other_symbol : string; co_aligned_return_count : Z; co_correlation : option dec
}.

Definition CorrelationObservation_post_init (c : CorrelationObservation) : result CorrelationObservation :=
  do* raise_if (negb (upper_symbol (co_other_symbol c))) (ValueError "correlation symbol must be uppercase") ;;
  do* raise_if (co_aligned_return_count c <? 0) (ValueError "aligned return count cannot be negative") ;;
  do* raise_if (match co_correlation c with
                | Some r => (r <? mkdec (-1) 0)%dec || (r >? done)%dec
                | None => false
                end) (ValueError "correlation must be finite and within [-1, 1]") ;;
  Ok c.

Record OfficialRiskRequest : Type := {
  rr_symbol : string;
  rr_direction : Direction;
  rr_capital : dec;
  rr_executable_price : dec;
  rr_stop_price : dec;
  rr_p_win : dec;
  rr_expected_gain_fraction : dec;
  rr_expected_loss_fraction : dec;
  rr_entry_fee_fraction : dec;
  rr_leverage : Z;
  rr_drawdown : DrawdownSnapshot;
  rr_open_positions : list OpenRiskPosition;
  rr_correlations : list CorrelationObservation;
  rr_evaluated_at : datetime
}.

(** The constructor also sorts the positions and the correlations by symbol. *)
Definition OfficialRiskRequest_post_init (r : OfficialRiskRequest) : result OfficialRiskRequest :=
  do* raise_if (negb (upper_symbol (rr_symbol r))) (ValueError "risk request symbol must be uppercase") ;;
  do* raise_if (bool_decide (rr_direction r = NEUTRAL)) (ValueError "risk request direction must be long or short") ;;
  do* iterM positive_field
    [("capital", rr_capital r); ("executable_price", rr_executable_price r); ("stop_price", rr_stop_price r);
     ("expected_gain_fraction", rr_expected_gain_fraction r);
     ("expected_loss_fraction", rr_expected_loss_fraction r)] ;;
  do* raise_if ((rr_p_win r <? dzero)%dec || (rr_p_win r >? done)%dec)
        (ValueError "p_win must be a finite Decimal in [0, 1]") ;;
  do* raise_if ((rr_entry_fee_fraction r <? dzero)%dec || (rr_entry_fee_fraction r >? mkdec 1 (-2))%dec)
        (ValueError "entry_fee_fraction must be a finite Decimal in [0, 0.01]") ;;
  do* raise_if (rr_leverage r <=? 0) (ValueError "leverage must be positive") ;;
  do* raise_if (negb (is_utc (rr_evaluated_at r))) (ValueError "risk evaluation time must be UTC-aware") ;;
  let position_names := map orp_symbol (rr_open_positions r) in
  let correlation_names := map co_other_symbol (rr_correlations r) in
  do* raise_if (negb (bool_decide (NoDup position_names))) (ValueError "open risk positions must be unique by symbol") ;;
  do* raise_if (negb (bool_decide (NoDup correlation_names)))
        (ValueError "correlation observations must be unique by symbol") ;;
  do* raise_if (negb (forallb (fun s => bool_decide (s ∈ position_names) && negb (bool_decide (s = rr_symbol r)))
                        correlation_names))
        (ValueError "correlation observations must belong to open portfolio symbols") ;;
  Ok {| rr_symbol := rr_symbol r; rr_direction := rr_direction r; rr_capital := rr_capital r;
        rr_executable_price := rr_executable_price r; rr_stop_price := rr_stop_price r; rr_p_win := rr_p_win r;
        rr_expected_gain_fraction := rr_expected_gain_fraction r;
        rr_expected_loss_fraction := rr_expected_loss_fraction r;
        rr_entry_fee_fraction := rr_entry_fee_fraction r; rr_leverage := rr_leverage r;
        rr_drawdown := rr_drawdown r; rr_open_positions := sort_by orp_symbol (rr_open_positions r);
        rr_correlations := sort_by co_other_symbol (rr_correlations r); rr_evaluated_at := rr_evaluated_at r |}.

Record RiskGateResult : Type := {
  gt_check : RiskCheck; gt_status : QualityStatus; gt_reason_code : string; gt_details : json
}.

Definition RiskGateResult_post_init (g : RiskGateResult) : result RiskGateResult :=
  do* raise_if (bool_decide (gt_reason_code g = "")) (ValueError "risk gate reason code is required") ;;
  let* normalized := freeze_json (thaw (gt_details g)) in
  let* normalized := as_mapping "risk gate details must be an object" normalized in
  Ok {| gt_check := gt_check g; gt_status := gt_status g; gt_reason_code := gt_reason_code g;
        gt_details := normalized |}.

Definition gate_dict (g : RiskGateResult) : pyval := PDict
  [("check", PEnum (enum_value (gt_check g))); ("status", PEnum (enum_value (gt_status g)));
   ("reason_code", PStr (gt_reason_code g)); ("details", thaw (gt_details g))].

Definition _gate (check : RiskCheck) (status : QualityStatus) (reason_code : string)
    (details : list (string * pyval)) : result RiskGateResult :=
  let* normalized := freeze_json (PDict details) in
  let* normalized := as_mapping "risk gate details must be an object" normalized in
  RiskGateResult_post_init
    {| gt_check := check; gt_status := status; gt_reason_code := reason_code; gt_details := normalized |}.

Record OfficialRiskDecision : Type := {
  rd_approved : bool;
  rd_quantity : dec;
  rd_notional : dec;
  rd_risk_at_stop : dec;
  rd_margin : dec;
  rd_half_kelly_fraction : dec;
  rd_drawdown_multiplier : dec;
  rd_correlation_multiplier : dec;
  rd_input_snapshot : json;
  rd_gates : list RiskGateResult;
  rd_rejection_reason : option string;
  rd_content_hash : string
}.

Definition passed (g : RiskGateResult) : bool := bool_decide (gt_status g = PASSED).

Definition decision_field (nv : string * dec) : result unit :=
  raise_if (snd nv <? dzero)%dec (ValueError ("risk decision " +:+ fst nv +:+ " must be nonnegative and finite")).

Definition OfficialRiskDecision_post_init (d : OfficialRiskDecision) : result OfficialRiskDecision :=
  do* raise_if (negb (bool_decide (map gt_check (rd_gates d) = all_checks)))
        (ValueError "official risk decision must contain every ordered risk gate") ;;
  do* iterM decision_field
    [("quantity", rd_quantity d); ("notional", rd_notional d); ("risk_at_stop", rd_risk_at_stop d);
     ("margin", rd_margin d); ("half_kelly_fraction", rd_half_kelly_fraction d);
     ("drawdown_multiplier", rd_drawdown_multiplier d);
     ("correlation_multiplier", rd_correlation_multiplier d)] ;;
  do* raise_if (negb (Bool.eqb (rd_approved d) (forallb passed (rd_gates d))))
        (ValueError "risk approval must match its complete gate chain") ;;
  do* raise_if (Bool.eqb (rd_approved d) (match rd_rejection_reason d with Some _ => true | None => false end))
        (ValueError "risk rejection reason does not match approval") ;;
  do* raise_if (negb (bool_decide (String.length (rd_content_hash d) = 64%nat)))
        (ValueError "risk decision content hash must be SHA-256") ;;
  let* normalized := freeze_json (thaw (rd_input_snapshot d)) in
  let* normalized := as_mapping "risk decision input snapshot must be an object" normalized in
  Ok {| rd_approved := rd_approved d; rd_quantity := rd_quantity d; rd_notional := rd_notional d;
        rd_risk_at_stop := rd_risk_at_stop d; rd_margin := rd_margin d;
        rd_half_kelly_fraction := rd_half_kelly_fraction d; rd_drawdown_multiplier := rd_drawdown_multiplier d;
        rd_correlation_multiplier := rd_correlation_multiplier d; rd_input_snapshot := normalized;
        rd_gates := rd_gates d; rd_rejection_reason := rd_rejection_reason d; rd_content_hash := rd_content_hash d |}.

(** ** The engine *)

Definition position_dict (p : OpenRiskPosition) : pyval := PDict
  [("symbol", PStr (orp_symbol p)); ("notional", PDec (orp_notional p));
   ("loss_at_stop", PDec (orp_loss_at_stop p)); ("margin", PDec (orp_margin p))].

Definition correlation_dict (c : CorrelationObservation) : pyval := PDict
  [("other_symbol", PStr (co_other_symbol c)); ("aligned_return_count", PInt (co_aligned_return_count c));
   ("correlation", match co_correlation c with Some r => PDec r | None => PNone end)].

Definition request_dict (r : OfficialRiskRequest) : pyval := PDict
  [("symbol", PStr (rr_symbol r)); ("direction", PEnum (enum_value (rr_direction r)));
   ("capital", PDec (rr_capital r)); ("executable_price", PDec (rr_executable_price r));
   ("stop_price", PDec (rr_stop_price r)); ("p_win", PDec (rr_p_win r));
   ("expected_gain_fraction", PDec (rr_expected_gain_fraction r));
   ("expected_loss_fraction", PDec (rr_expected_loss_fraction r));
   ("entry_fee_fraction", PDec (rr_entry_fee_fraction r)); ("leverage", PInt (rr_leverage r));
   ("drawdown", drawdown_dict (rr_drawdown r));
   ("open_positions", PSeq (map position_dict (rr_open_positions r)));
   ("correlations", PSeq (map correlation_dict (rr_correlations r)));
   ("evaluated_at", PTime (rr_evaluated_at r))].

Definition policy_dict (p : OfficialRiskPolicy) : pyval := PDict
  [("maximum_kelly_fraction", PDec (rp_maximum_kelly_fraction p));
   ("maximum_trade_loss_fraction", PDec (rp_maximum_trade_loss_fraction p));
   ("maximum_portfolio_loss_fraction", PDec (rp_maximum_portfolio_loss_fraction p));
   ("maximum_gross_notional_fraction", PDec (rp_maximum_gross_notional_fraction p));
   ("maximum_margin_fraction", PDec (rp_maximum_margin_fraction p));
   ("minimum_aligned_correlation_returns", PInt (rp_minimum_aligned_correlation_returns p));
   ("correlation_reduce_20_threshold", PDec (rp_correlation_reduce_20_threshold p));
   ("correlation_reduce_40_threshold", PDec (rp_correlation_reduce_40_threshold p));
   ("correlation_block_threshold", PDec (rp_correlation_block_threshold p));
   ("drawdown_reduce_25_threshold", PDec (rp_drawdown_reduce_25_threshold p));
   ("drawdown_reduce_50_threshold", PDec (rp_drawdown_reduce_50_threshold p));
   ("drawdown_halt_threshold", PDec (rp_drawdown_halt_threshold p))].

(** The quantity caps of the sizing step, by name, in dictionary order. *)
Record sizing : Type := {
  sz_risk_fraction : dec; sz_risk_budget : dec;
  sz_existing_loss : dec; sz_loss_limit : dec;
  sz_existing_notional : dec; sz_notional_limit : dec;
  sz_existing_margin : dec; sz_margin_limit : dec;
  sz_caps : list (string * dec);
  sz_quantity : dec; sz_notional : dec; sz_risk_at_stop : dec; sz_margin : dec
}.

Section Engine.
Context (sha256_hex : string -> string) (policy : OfficialRiskPolicy).

Definition _input_snapshot (r : OfficialRiskRequest) : result json :=
  let* normalized := freeze_json (PDict [("request", request_dict r); ("policy", policy_dict policy)]) in
  as_mapping "risk input snapshot must be an object" normalized.

Definition _decision (input_snapshot : json) (quantity notional risk_at_stop margin half_kelly
    drawdown_multiplier correlation_multiplier : dec) (gates : list RiskGateResult) : result OfficialRiskDecision :=
  let approved := forallb passed gates in
  let rejection := option_map gt_reason_code (find (fun g => negb (passed g)) gates) in
  let* digest := content_hash sha256_hex (PDict
    [("approved", PBool approved); ("quantity", PDec quantity); ("notional", PDec notional);
     ("risk_at_stop", PDec risk_at_stop); ("margin", PDec margin); ("half_kelly_fraction", PDec half_kelly);
     ("drawdown_multiplier", PDec drawdown_multiplier);
     ("correlation_multiplier", PDec correlation_multiplier); ("input_snapshot", thaw input_snapshot);
     ("gates", PSeq (map gate_dict gates));
     ("rejection_reason", match rejection with Some s => PStr s | None => PNone end)]) in
  OfficialRiskDecision_post_init {|
    rd_approved := approved; rd_quantity := quantity; rd_notional := notional; rd_risk_at_stop := risk_at_stop;
    rd_margin := margin; rd_half_kelly_fraction := half_kelly; rd_drawdown_multiplier := drawdown_multiplier;
    rd_correlation_multiplier := correlation_multiplier; rd_input_snapshot := input_snapshot;
    rd_gates := gates; rd_rejection_reason := rejection; rd_content_hash := digest |}.

(** The gates after the failing one are marked with the check that blocked them. *)
Definition _early_rejection (input_snapshot : json) (half_kelly : dec) (completed : list RiskGateResult)
    (drawdown_multiplier : dec) : result OfficialRiskDecision :=
  let* blocking := of_option (LookupError "tuple index out of range") (last (map gt_check completed)) in
  let* rest := mapM (fun check => _gate check NOT_APPLICABLE "prior_risk_gate_failed"
                                    [("blocking_check", PEnum (enum_value blocking))])
                 (skipn (length completed) all_checks) in
  _decision input_snapshot dzero dzero dzero dzero half_kelly drawdown_multiplier dzero (completed ++ rest).

(** [{item.other_symbol: item for item in correlations}]. *)
Definition observations (r : OfficialRiskRequest) : pydict CorrelationObservation :=
  fold_left (fun d c => dict_set d (co_other_symbol c) c) (rr_correlations r) [].

Definition observed (d : pydict CorrelationObservation) (symbol : string) : result CorrelationObservation :=
  of_option (LookupError symbol) (dict_get d symbol).

Definition sorted_strings (l : list string) : pyval := PSeq (map PStr (sort_by (fun s => s) l)).

(** The loop over the warm correlations: the multiplier and the values seen,
    or the symbol that blocks and the values seen up to it. *)
Fixpoint correlation_loop (d : pydict CorrelationObservation) (symbols : list string) (multiplier : dec)
    (values : pydict dec) : result (dec * pydict dec + string * pydict dec) :=
  match symbols with
  | [] => Ok (inl (multiplier, values))
  | symbol :: symbols' =>
      let* o := observed d symbol in
      let* raw := of_option (RuntimeError "warm correlation unexpectedly has no value") (co_correlation o) in
      let value := dabs raw in
      let values := dict_set values symbol value in
      if (value >=? rp_correlation_block_threshold policy)%dec then Ok (inr (symbol, values))
      else
        let multiplier :=
          if (value >=? rp_correlation_reduce_40_threshold policy)%dec then dmin multiplier (mkdec 6 (-1))
          else if (value >=? rp_correlation_reduce_20_threshold policy)%dec then dmin multiplier (mkdec 8 (-1))
          else multiplier in
        correlation_loop d symbols' multiplier values
  end.

Definition dec_dict (d : pydict dec) : pyval := PDict (map (fun kv => (fst kv, PDec (snd kv))) d).

(** The symbols whose observation satisfies a test; the observations exist. *)
Definition selected (d : pydict CorrelationObservation) (test : CorrelationObservation -> bool) (l : list string)
  : result (list string) :=
  let* hits := mapM (fun s => let* o := observed d s in Ok (s, test o)) l in
  Ok (map fst (List.filter snd hits)).

Definition other_symbols (r : OfficialRiskRequest) : list string :=
  List.filter (fun s => negb (bool_decide (s = rr_symbol r))) (map orp_symbol (rr_open_positions r)).

Definition _correlation_gate (r : OfficialRiskRequest) : result (dec * RiskGateResult) :=
  let others := other_symbols r in
  let d := observations r in
  match others with
  | [] =>
      let* g := _gate CORRELATION PASSED "single_symbol_or_empty_portfolio" [("multiplier", PDec done)] in
      Ok (done, g)
  | _ =>
      let missing := List.filter (fun s => match dict_get d s with None => true | Some _ => false end)
                       (remove_dups others) in
      match missing with
      | _ :: _ =>
          let* g := _gate CORRELATION NOT_APPLICABLE "correlation_observation_missing"
                      [("symbols", sorted_strings missing)] in
          Ok (dzero, g)
      | [] =>
          let* cold := selected d (fun o => co_aligned_return_count o <? rp_minimum_aligned_correlation_returns policy)
                         others in
          match cold with
          | _ :: _ =>
              let* g := _gate CORRELATION NOT_APPLICABLE "correlation_history_cold"
                [("symbols", sorted_strings cold);
                 ("minimum_returns", PInt (rp_minimum_aligned_correlation_returns policy))] in
              Ok (dzero, g)
          | [] =>
              let* unavailable := selected d (fun o => match co_correlation o with None => true | Some _ => false end)
                                    others in
              match unavailable with
              | _ :: _ =>
                  let* g := _gate CORRELATION NOT_APPLICABLE "correlation_unavailable"
                              [("symbols", sorted_strings unavailable)] in
                  Ok (dzero, g)
              | [] =>
                  let* outcome := correlation_loop d others done [] in
                  match outcome with
                  | inr (symbol, values) =>
                      let* g := _gate CORRELATION FAILED "correlation_cluster_blocked"
                        [("correlations", dec_dict values); ("blocking_symbol", PStr symbol)] in
                      Ok (dzero, g)
                  | inl (multiplier, values) =>
                      let* counts := mapM (fun s => let* o := observed d s in
                                                    Ok (s, PInt (co_aligned_return_count o))) others in
                      let* g := _gate CORRELATION PASSED "correlation_warm_and_within_limit"
                        [("correlations", dec_dict values); ("multiplier", PDec multiplier);
                         ("aligned_returns", PDict counts)] in
                      Ok (multiplier, g)
                  end
              end
          end
      end
  end.

(** [full_kelly] and its ingredients. *)
Definition kelly (r : OfficialRiskRequest) : result (dec * dec * dec) :=
  let* gain_loss_ratio := ddiv (rr_expected_gain_fraction r) (rr_expected_loss_fraction r) in
  let* full_kelly := ddiv (rr_p_win r * gain_loss_ratio - (done - rr_p_win r))%dec gain_loss_ratio in
  let* half := ddiv full_kelly (dint 2) in
  Ok (gain_loss_ratio, full_kelly, dmin half (rp_maximum_kelly_fraction policy)).

Definition stop_is_valid (r : OfficialRiskRequest) : bool :=
  (bool_decide (rr_direction r = LONG) && (rr_stop_price r <? rr_executable_price r)%dec) ||
  (bool_decide (rr_direction r = SHORT) && (rr_stop_price r >? rr_executable_price r)%dec).

Definition drawdown_multiplier_of (drawdown : dec) : dec :=
  if (drawdown >=? rp_drawdown_reduce_50_threshold policy)%dec then mkdec 5 (-1)
  else if (drawdown >=? rp_drawdown_reduce_25_threshold policy)%dec then mkdec 75 (-2)
  else done.

(** The quantities of the sizing step. *)
Definition size_position (r : OfficialRiskRequest) (half_kelly stop_distance drawdown_multiplier
    correlation_multiplier : dec) : result sizing :=
  let risk_fraction := dmin half_kelly (rp_maximum_trade_loss_fraction policy) in
  let risk_budget := (rr_capital r * risk_fraction * drawdown_multiplier * correlation_multiplier)%dec in
  let existing_loss := dsum (map orp_loss_at_stop (rr_open_positions r)) in
  let loss_limit := (rr_capital r * rp_maximum_portfolio_loss_fraction policy)%dec in
  let remaining_loss_capacity := dmax (loss_limit - existing_loss)%dec dzero in
  let existing_notional := dsum (map orp_notional (rr_open_positions r)) in
  let notional_limit := (rr_capital r * rp_maximum_gross_notional_fraction policy)%dec in
  let remaining_notional_capacity := dmax (notional_limit - existing_notional)%dec dzero in
  let existing_margin := dsum (map orp_margin (rr_open_positions r)) in
  let margin_limit := (rr_capital r * rp_maximum_margin_fraction policy)%dec in
  let remaining_margin_capacity := dmax (margin_limit - existing_margin)%dec dzero in
  let* inverse_leverage := ddiv done (dint (rr_leverage r)) in
  let margin_cost_per_quantity := (rr_executable_price r * (inverse_leverage + rr_entry_fee_fraction r))%dec in
  let* trade_loss := ddiv risk_budget stop_distance in
  let* portfolio_loss := ddiv remaining_loss_capacity stop_distance in
  let* gross_notional := ddiv remaining_notional_capacity (rr_executable_price r) in
  let* margin_and_entry_fee := ddiv remaining_margin_capacity margin_cost_per_quantity in
  let quantity := dmin (dmin (dmin trade_loss portfolio_loss) gross_notional) margin_and_entry_fee in
  let notional := (quantity * rr_executable_price r)%dec in
  let* margin := ddiv notional (dint (rr_leverage r)) in
  Ok {| sz_risk_fraction := risk_fraction; sz_risk_budget := risk_budget;
        sz_existing_loss := existing_loss; sz_loss_limit := loss_limit;
        sz_existing_notional := existing_notional; sz_notional_limit := notional_limit;
        sz_existing_margin := existing_margin; sz_margin_limit := margin_limit;
        sz_caps := [("trade_loss", trade_loss); ("portfolio_loss", portfolio_loss);
                    ("gross_notional", gross_notional); ("margin_and_entry_fee", margin_and_entry_fee)];
        sz_quantity := quantity; sz_notional := notional; sz_risk_at_stop := (quantity * stop_distance)%dec;
        sz_margin := margin |}.

Definition limiting_constraints (z : sizing) : list string :=
  sort_by (fun s => s) (map fst (List.filter (fun kv => (snd kv =? sz_quantity z)%dec) (sz_caps z))).

(** The last four gates. *)
Definition trade_gate (z : sizing) : result RiskGateResult :=
  _gate TRADE_RISK_AT_STOP
    (if (dzero <? sz_quantity z)%dec && (sz_risk_at_stop z <=? sz_risk_budget z)%dec then PASSED else FAILED)
    (if (dzero <? sz_quantity z)%dec then "trade_risk_sized_within_all_caps" else "no_risk_capacity")
    [("risk_fraction", PDec (sz_risk_fraction z)); ("risk_budget", PDec (sz_risk_budget z));
     ("quantity", PDec (sz_quantity z)); ("risk_at_stop", PDec (sz_risk_at_stop z));
     ("quantity_caps", dec_dict (sz_caps z));
     ("limiting_constraints", PSeq (map PStr (limiting_constraints z)))].

Definition portfolio_gate (z : sizing) : result RiskGateResult :=
  let total_loss := (sz_existing_loss z + sz_risk_at_stop z)%dec in
  let ok := (total_loss <=? sz_loss_limit z)%dec in
  _gate PORTFOLIO_LOSS_AT_STOP (if ok then PASSED else FAILED)
    (if ok then "portfolio_loss_at_stop_within_limit" else "portfolio_loss_at_stop_exceeded")
    [("existing_loss_at_stop", PDec (sz_existing_loss z)); ("proposed_loss_at_stop", PDec (sz_risk_at_stop z));
     ("total_loss_at_stop", PDec total_loss); ("limit", PDec (sz_loss_limit z))].

Definition notional_gate (z : sizing) : result RiskGateResult :=
  let total_notional := (sz_existing_notional z + sz_notional z)%dec in
  let ok := (total_notional <=? sz_notional_limit z)%dec in
  _gate GROSS_NOTIONAL (if ok then PASSED else FAILED)
    (if ok then "gross_notional_within_limit" else "gross_notional_exceeded")
    [("existing_notional", PDec (sz_existing_notional z)); ("proposed_notional", PDec (sz_notional z));
     ("total_notional", PDec total_notional); ("limit", PDec (sz_notional_limit z))].

Definition margin_gate (r : OfficialRiskRequest) (z : sizing) : result RiskGateResult :=
  let entry_fee := (sz_notional z * rr_entry_fee_fraction r)%dec in
  let total_margin := (sz_existing_margin z + sz_margin z)%dec in
  let total_required_capital := (total_margin + entry_fee)%dec in
  let ok := (total_required_capital <=? sz_margin_limit z)%dec in
  _gate MARGIN (if ok then PASSED else FAILED)
    (if ok then "margin_and_entry_fee_within_limit" else "margin_and_entry_fee_exceeded")
    [("existing_margin", PDec (sz_existing_margin z)); ("proposed_margin", PDec (sz_margin z));
     ("entry_fee_fraction", PDec (rr_entry_fee_fraction r)); ("entry_fee", PDec entry_fee);
     ("total_margin", PDec total_margin); ("total_required_capital", PDec total_required_capital);
     ("limit", PDec (sz_margin_limit z))].

Definition evaluate (r : OfficialRiskRequest) : result OfficialRiskDecision :=
  let* input_snapshot := _input_snapshot r in
  let* k := kelly r in
  let '(gain_loss_ratio, full_kelly, half_kelly) := k in
  if (half_kelly <=? dzero)%dec then
    let* g := _gate KELLY FAILED "kelly_nonpositive"
      [("p_win", PDec (rr_p_win r)); ("gain_loss_ratio", PDec gain_loss_ratio); ("full_kelly", PDec full_kelly)] in
    _early_rejection input_snapshot (dmax half_kelly dzero) [g] dzero
  else
  let* g1 := _gate KELLY PASSED "kelly_positive"
    [("p_win", PDec (rr_p_win r)); ("gain_loss_ratio", PDec gain_loss_ratio); ("half_kelly", PDec half_kelly)] in
  if negb (stop_is_valid r) then
    let* g := _gate PRICE_AND_STOP FAILED "stop_not_protective"
      [("direction", PEnum (enum_value (rr_direction r))); ("executable_price", PDec (rr_executable_price r));
       ("stop_price", PDec (rr_stop_price r))] in
    _early_rejection input_snapshot half_kelly [g1; g] dzero
  else
  let stop_distance := dabs (rr_executable_price r - rr_stop_price r)%dec in
  let* g2 := _gate PRICE_AND_STOP PASSED "executable_price_and_stop_valid"
    [("executable_price", PDec (rr_executable_price r)); ("stop_price", PDec (rr_stop_price r));
     ("stop_distance", PDec stop_distance)] in
  let* drawdown := drawdown_fraction (rr_drawdown r) in
  let peak := ("peak_equity", PDec (dd_peak_equity (rr_drawdown r))) in
  let current := ("current_equity", PDec (dd_current_equity (rr_drawdown r))) in
  if (drawdown >=? rp_drawdown_halt_threshold policy)%dec then
    let* g := _gate DRAWDOWN FAILED "drawdown_halt" [("drawdown_fraction", PDec drawdown); peak; current] in
    _early_rejection input_snapshot half_kelly [g1; g2; g] dzero
  else
  let drawdown_multiplier := drawdown_multiplier_of drawdown in
  let* g3 := _gate DRAWDOWN PASSED "drawdown_within_limit"
    [("drawdown_fraction", PDec drawdown); ("multiplier", PDec drawdown_multiplier); peak; current] in
  let* c := _correlation_gate r in
  let '(correlation_multiplier, g4) := c in
  if negb (passed g4) then
    _early_rejection input_snapshot half_kelly [g1; g2; g3; g4] drawdown_multiplier
  else
  let* z := size_position r half_kelly stop_distance drawdown_multiplier correlation_multiplier in
  let* g5 := trade_gate z in
  let* g6 := portfolio_gate z in
  let* g7 := notional_gate z in
  let* g8 := margin_gate r z in
  _decision input_snapshot (sz_quantity z) (sz_notional z) (sz_risk_at_stop z) (sz_margin z) half_kelly
    drawdown_multiplier correlation_multiplier [g1; g2; g3; g4; g5; g6; g7; g8].
End Engine.

(** ** Gates and decisions *)

Lemma gate_Ok c s reason d g : _gate c s reason d = Ok g ->
  gt_check g = c /\ gt_status g = s /\ gt_reason_code g = reason /\ reason <> "".
Proof.
  unfold _gate, RiskGateResult_post_init. intros H. py_inv. cbn in *. bool_prop. repeat split; assumption.
Qed.

Lemma freeze_dict_obj l : freezable (PDict l) = true -> exists items, freeze_json (PDict l) = Ok (JObj items).
Proof.
  intros H. destruct (freeze_total _ H) as [j Hj]. cbn [freeze_json] in *.
  apply bind_Ok in Hj as (items & Hi & Hj). exists items. now rewrite Hi.
Qed.

Lemma gate_total c s reason d : freezable (PDict d) = true -> reason <> "" -> exists g, _gate c s reason d = Ok g.
Proof.
  intros Hf Hr. destruct (freeze_dict_obj d Hf) as [items Hi].
  unfold _gate, RiskGateResult_post_init. rewrite Hi. cbn [bind as_mapping raise_if gt_reason_code gt_details].
  rewrite bool_decide_false by exact Hr. cbn [raise_if bind]. rewrite freeze_thaw. cbn. eauto.
Qed.

Lemma freezable_dec_dict d : freezable (dec_dict d) = true.
Proof. unfold dec_dict. cbn [freezable]. induction d as [|[k v] d IH]; [reflexivity | exact IH]. Qed.

Lemma freezable_strings l : freezable (sorted_strings l) = true.
Proof. unfold sorted_strings. cbn [freezable]. now apply forallb_freezable. Qed.

(** The values that a decision must have. *)
Definition decision_valid (d : OfficialRiskDecision) : Prop := OfficialRiskDecision_post_init d = Ok d.

Lemma decision_Ok sha snap q n ra mg hk dm cm gates d :
  _decision sha snap q n ra mg hk dm cm gates = Ok d ->
  rd_quantity d = q /\ rd_notional d = n /\ rd_risk_at_stop d = ra /\ rd_margin d = mg /\
  rd_half_kelly_fraction d = hk /\ rd_drawdown_multiplier d = dm /\ rd_correlation_multiplier d = cm /\
  rd_gates d = gates /\ rd_approved d = forallb passed gates /\
  rd_rejection_reason d = option_map gt_reason_code (find (fun g => negb (passed g)) gates) /\
  map gt_check gates = all_checks /\
  (0 <= dval q /\ 0 <= dval n /\ 0 <= dval ra /\ 0 <= dval mg /\ 0 <= dval hk)%Q /\ String.length (rd_content_hash d) = 64%nat.
Proof.
  unfold _decision, OfficialRiskDecision_post_init. intros H. cbn [iterM] in H. py_inv.
  unfold decision_field in *. py_inv. cbn [snd fst rd_quantity rd_notional rd_risk_at_stop rd_margin
    rd_half_kelly_fraction rd_drawdown_multiplier rd_correlation_multiplier rd_gates rd_approved
    rd_rejection_reason rd_content_hash] in *. bool_prop. dec_prop. rewrite dval_zero in *. auto 20.
Qed.

Lemma find_not_passed gates :
  forallb passed gates = match option_map gt_reason_code (find (fun g => negb (passed g)) gates) with
                         | Some _ => false | None => true end.
Proof.
  induction gates as [|g gates IH]; [reflexivity|]. cbn [forallb find].
  destruct (passed g); cbn [negb andb]; [exact IH | reflexivity].
Qed.

Section Total.
Context (sha256_hex : string -> string) (Hsha : forall s, String.length (sha256_hex s) = 64%nat).

Lemma decision_total items q n ra mg hk dm cm gates :
  map gt_check gates = all_checks ->
  Forall (fun x => 0 <= dval x)%Q [q; n; ra; mg; hk; dm; cm] ->
  exists d, _decision sha256_hex (JObj items) q n ra mg hk dm cm gates = Ok d.
Proof.
  intros Hg Hv. unfold _decision. set (v := PDict _). assert (Hf : freezable v = true).
  { unfold v. cbn [freezable forallb snd]. rewrite freezable_thaw, forallb_freezable.
    - destruct (option_map _ _); reflexivity.
    - intros g. unfold gate_dict. cbn [freezable forallb snd]. now rewrite freezable_thaw. }
  destruct (content_hash_total sha256_hex v Hf) as [b Hb]. rewrite Hb. cbn [bind].
  unfold OfficialRiskDecision_post_init. cbn [rd_gates rd_quantity rd_notional rd_risk_at_stop rd_margin
    rd_half_kelly_fraction rd_drawdown_multiplier rd_correlation_multiplier rd_approved rd_rejection_reason
    rd_content_hash rd_input_snapshot].
  rewrite bool_decide_true by exact Hg. cbn [negb raise_if bind].
  assert (Hfield : forall name x, (0 <= dval x)%Q -> decision_field (name, x) = Ok tt).
  { intros name x Hx. unfold decision_field. cbn [snd fst]. rewrite (proj2 (dltb_ge x dzero)) by exact Hx. reflexivity. }
  repeat match goal with H : Forall _ (_ :: _) |- _ => apply Forall_cons in H as [? H] end.
  cbn [iterM]. rewrite !Hfield by assumption. cbn [bind].
  rewrite Bool.eqb_reflx. cbn [negb raise_if bind]. rewrite find_not_passed.
  destruct (option_map _ _); cbn [Bool.eqb raise_if bind]; rewrite (bool_decide_true (String.length _ = 64%nat)) by apply Hsha;
    cbn [negb raise_if bind]; rewrite freeze_thaw; cbn; eauto.
Qed.

Lemma early_total items hk completed dm :
  map gt_check completed = firstn (length completed) all_checks -> completed <> [] ->
  (0 <= dval hk)%Q -> (0 <= dval dm)%Q ->
  exists d, _early_rejection sha256_hex (JObj items) hk completed dm = Ok d.
Proof.
  intros Hc Hne Hk Hd. unfold _early_rejection.
  destruct (last (map gt_check completed)) as [c|] eqn:El.
  2:{ exfalso. apply Hne. apply last_None in El. now apply map_eq_nil in El. }
  cbn [of_option bind].
  assert (Hr : exists rest, mapM (fun check => _gate check NOT_APPLICABLE "prior_risk_gate_failed"
             [("blocking_check", PEnum (enum_value c))]) (skipn (length completed) all_checks) = Ok rest /\
           map gt_check rest = skipn (length completed) all_checks).
  { set (l := skipn _ _). clearbody l. induction l as [|x l (rest & Hr & Hm)]; [exists []; split; reflexivity|].
    destruct (gate_total x NOT_APPLICABLE "prior_risk_gate_failed" [("blocking_check", PEnum (enum_value c))]) as [g Hg];
      [reflexivity | discriminate|]. exists (g :: rest). cbn [mapM map]. rewrite Hg, Hr. cbn [bind].
    apply gate_Ok in Hg as (-> & _). rewrite Hm. split; reflexivity. }
  destruct Hr as (rest & -> & Hm). cbn [bind]. apply decision_total.
  - rewrite List.map_app, Hc, Hm. apply firstn_skipn.
  - repeat (apply List.Forall_cons; [assumption || apply Qle_refl|]). apply List.Forall_nil.
Qed.
End Total.

(** ** Valid inputs *)

Record valid_policy (p : OfficialRiskPolicy) : Prop := {
  vp_kelly : (0 < dval (rp_maximum_kelly_fraction p))%Q;
  vp_trade : (0 < dval (rp_maximum_trade_loss_fraction p))%Q;
  vp_portfolio : (0 < dval (rp_maximum_portfolio_loss_fraction p))%Q;
  vp_notional : (0 < dval (rp_maximum_gross_notional_fraction p))%Q;
  vp_margin : (0 < dval (rp_maximum_margin_fraction p))%Q;
  vp_correlation : (dval (rp_correlation_reduce_20_threshold p) < dval (rp_correlation_reduce_40_threshold p) /\
    dval (rp_correlation_reduce_40_threshold p) < dval (rp_correlation_block_threshold p))%Q;
  vp_drawdown : (0 < dval (rp_drawdown_reduce_25_threshold p) /\
    dval (rp_drawdown_reduce_25_threshold p) < dval (rp_drawdown_reduce_50_threshold p) /\
    dval (rp_drawdown_reduce_50_threshold p) < dval (rp_drawdown_halt_threshold p))%Q
}.

Lemma policy_post_init_valid p p' : OfficialRiskPolicy_post_init p = Ok p' -> valid_policy p.
Proof.
  unfold OfficialRiskPolicy_post_init. intros H. cbn [iterM] in H. py_inv. unfold positive_field in *. py_inv.
  cbn [snd fst] in *. bool_prop. dec_prop. rewrite dval_zero in *. split; auto.
Qed.

(** A request as the constructor returns it, with a valid drawdown snapshot. *)
Record valid_risk_request (r : OfficialRiskRequest) : Prop := {
  vr_built : exists r0, OfficialRiskRequest_post_init r0 = Ok r;
  vr_drawdown : DrawdownSnapshot_post_init (rr_drawdown r) = Ok (rr_drawdown r)
}.

Record request_facts (r : OfficialRiskRequest) : Prop := {
  rf_capital : (0 < dval (rr_capital r))%Q;
  rf_price : (0 < dval (rr_executable_price r))%Q;
  rf_stop : (0 < dval (rr_stop_price r))%Q;
  rf_gain : (0 < dval (rr_expected_gain_fraction r))%Q;
  rf_loss : (0 < dval (rr_expected_loss_fraction r))%Q;
  rf_fee : (0 <= dval (rr_entry_fee_fraction r))%Q;
  rf_leverage : 0 < rr_leverage r;
  rf_time : is_utc (rr_evaluated_at r) = true;
  rf_direction : rr_direction r <> NEUTRAL
}.

Lemma request_post_init_facts r0 r : OfficialRiskRequest_post_init r0 = Ok r -> request_facts r.
Proof.
  unfold OfficialRiskRequest_post_init. intros H. cbn [iterM] in H. py_inv. unfold positive_field in *. py_inv.
  cbn [snd fst] in *. bool_prop. dec_prop. rewrite dval_zero in *. split; cbn; auto.
Qed.

Section Evaluate.
Context (sha256_hex : string -> string) (Hsha : forall s, String.length (sha256_hex s) = 64%nat).
Context (policy : OfficialRiskPolicy) (VP : valid_policy policy).

Lemma kelly_total r : request_facts r ->
  exists g f h, kelly policy r = Ok (g, f, h) /\ (dval h <= dval (rp_maximum_kelly_fraction policy))%Q.
Proof.
  intros F. unfold kelly.
  rewrite ddiv_total by (pose proof (rf_loss r F); lra). cbn [bind].
  pose proof (ddiv_pos _ _ (rf_gain r F) (rf_loss r F)) as Hg. set (g := ddiv_raw _ _) in *.
  rewrite ddiv_total by lra. cbn [bind]. rewrite (ddiv_total _ (dint 2)) by (rewrite dval_int; discriminate).
  cbn [bind]. do 3 eexists. split; [reflexivity | apply dmin_lb_r].
Qed.

Lemma snapshot_total r : request_facts r -> exists items, _input_snapshot policy r = Ok (JObj items).
Proof.
  intros F. unfold _input_snapshot. destruct (freeze_dict_obj
    [("request", request_dict r); ("policy", policy_dict policy)]) as [items Hi].
  - unfold request_dict. cbn [freezable forallb snd]. rewrite (rf_time r F).
    rewrite !forallb_freezable; [reflexivity | intros c; unfold correlation_dict; cbn; destruct (co_correlation c); reflexivity
                                | intros p; reflexivity].
  - exists items. rewrite Hi. reflexivity.
Qed.

(** Lookups that the warm-up checks make safe. *)
Lemma selected_total d test l : Forall (fun s => dict_get d s <> None) l -> exists hits,
  selected d test l = Ok hits /\
  (hits = [] -> Forall (fun s => exists o, dict_get d s = Some o /\ test o = false) l).
Proof.
  intros H. unfold selected, observed. induction H as [|s l Hs _ (hits & Hh & Hn)].
  - exists []. split; [reflexivity | constructor].
  - cbn [mapM]. destruct (dict_get d s) as [o|] eqn:E; [|congruence]. cbn [of_option bind].
    apply bind_Ok in Hh as (ps & Hp & Hh). injection Hh as <-. rewrite Hp. cbn [bind].
    eexists; split; [reflexivity|]. cbn [List.filter snd]. destruct (test o) eqn:Et; [discriminate|].
    intros Hz. constructor; [eauto | auto].
Qed.

Lemma correlation_loop_total d l : forall mult values,
  Forall (fun s => exists o, dict_get d s = Some o /\ co_correlation o <> None) l ->
  (0 <= dval mult)%Q -> (dval mult <= 1)%Q ->
  exists out, correlation_loop policy d l mult values = Ok out /\
    match out with
    | inl (m, _) => (0 <= dval m)%Q /\ (dval m <= dval mult)%Q /\
        Forall (fun s => exists o c, dict_get d s = Some o /\ co_correlation o = Some c /\
                  (dval (dabs c) < dval (rp_correlation_block_threshold policy))%Q /\
                  ((dval (rp_correlation_reduce_40_threshold policy) <= dval (dabs c))%Q -> (dval m <= 6 # 10)%Q) /\
                  ((dval (rp_correlation_reduce_20_threshold policy) <= dval (dabs c))%Q -> (dval m <= 8 # 10)%Q)) l
    | inr (s, _) => In s l
    end.
Proof.
  induction l as [|s l IH]; intros mult values H H0 H1; cbn [correlation_loop].
  - eexists; split; [reflexivity|]. split; [exact H0 | split; [apply Qle_refl | constructor]].
  - apply Forall_cons in H as [(o & Ho & Hc) H]. unfold observed. rewrite Ho. cbn [of_option bind].
    destruct (co_correlation o) as [c|] eqn:Ec; [|congruence]. cbn [of_option bind].
    destruct (dleb (rp_correlation_block_threshold policy) (dabs c)) eqn:Eb; [eexists; split; [reflexivity | now left]|].
    set (mult' := if dleb _ _ then dmin mult (mkdec 6 (-1)) else _).
    assert (Hm : (0 <= dval mult' /\ dval mult' <= dval mult)%Q /\
      ((dval (rp_correlation_reduce_40_threshold policy) <= dval (dabs c))%Q -> (dval mult' <= 6 # 10)%Q) /\
      ((dval (rp_correlation_reduce_20_threshold policy) <= dval (dabs c))%Q -> (dval mult' <= 8 # 10)%Q)).
    { assert (E6 : (dval (mkdec 6 (-1)) == 6 # 10)%Q) by reflexivity.
      assert (E8 : (dval (mkdec 8 (-1)) == 8 # 10)%Q) by reflexivity.
      unfold mult'. destruct (dleb (rp_correlation_reduce_40_threshold policy) (dabs c)) eqn:E40;
        [|destruct (dleb (rp_correlation_reduce_20_threshold policy) (dabs c)) eqn:E20]; dec_prop.
      - pose proof (dmin_lb_l mult (mkdec 6 (-1))). pose proof (dmin_lb_r mult (mkdec 6 (-1))).
        destruct (dmin_case mult (mkdec 6 (-1))) as [E|E]; rewrite E in *; repeat split; intros; lra.
      - pose proof (dmin_lb_l mult (mkdec 8 (-1))). pose proof (dmin_lb_r mult (mkdec 8 (-1))).
        destruct (dmin_case mult (mkdec 8 (-1))) as [E|E]; rewrite E in *; repeat split; intros; lra.
      - repeat split; intros; lra. }
    destruct Hm as ((M0 & M1) & M40 & M20).
    destruct (IH mult' (dict_set values s (dabs c)) H M0 ltac:(lra)) as (out & Hout & Hspec).
    exists out. split; [exact Hout|]. destruct out as [[m vs]|[b vs]]; [|now right].
    destruct Hspec as (S0 & S1 & S2). split; [exact S0|split; [lra|]]. constructor; [|exact S2].
    dec_prop. exists o, c. repeat split; try assumption; intros K; [specialize (M40 K) | specialize (M20 K)]; lra.
Qed.

(** What a passed correlation gate knows of another open symbol. *)
Definition correlation_ok (r : OfficialRiskRequest) (m : dec) (s : string) : Prop :=
  exists o c, dict_get (observations r) s = Some o /\ co_correlation o = Some c /\
    rp_minimum_aligned_correlation_returns policy <= co_aligned_return_count o /\
    (dval (dabs c) < dval (rp_correlation_block_threshold policy))%Q /\
    ((dval (rp_correlation_reduce_40_threshold policy) <= dval (dabs c))%Q -> (dval m <= 6 # 10)%Q) /\
    ((dval (rp_correlation_reduce_20_threshold policy) <= dval (dabs c))%Q -> (dval m <= 8 # 10)%Q).

Lemma gate_exists c s reason d : freezable (PDict d) = true -> reason <> "" ->
  exists g, _gate c s reason d = Ok g /\ gt_check g = c /\ gt_status g = s /\ gt_reason_code g = reason.
Proof.
  intros Hf Hr. destruct (gate_total c s reason d Hf Hr) as [g Hg]. exists g. split; [exact Hg|].
  apply gate_Ok in Hg. tauto.
Qed.

Lemma counts_total d l : Forall (fun s => dict_get d s <> None) l -> exists counts,
  mapM (fun s => let* o := observed d s in Ok (s, PInt (co_aligned_return_count o))) l = Ok counts /\
  forallb (fun kv => freezable (snd kv)) counts = true.
Proof.
  intros H. unfold observed. induction H as [|s l Hs _ (counts & Hc & Hf)]; [exists []; split; reflexivity|].
  destruct (dict_get d s) as [o|] eqn:E; [|congruence].
  exists ((s, PInt (co_aligned_return_count o)) :: counts). cbn [mapM]. rewrite E. cbn [of_option bind].
  rewrite Hc. split; [reflexivity | exact Hf].
Qed.

Lemma nothing_missing d l :
  List.filter (fun s => match dict_get d s with None => true | Some _ => false end) (remove_dups l) = [] ->
  Forall (fun s => dict_get (V := CorrelationObservation) d s <> None) l.
Proof.
  intros H. apply List.Forall_forall. intros s Hs E.
  assert (Hin : In s (List.filter (fun s => match dict_get d s with None => true | Some _ => false end) (remove_dups l))).
  { apply filter_In. split; [|now rewrite E]. apply list_elem_of_In, elem_of_remove_dups, list_elem_of_In, Hs. }
  rewrite H in Hin. destruct Hin.
Qed.

(** The contract of the correlation gate. *)
Definition correlation_answer (r : OfficialRiskRequest) (mg : result (dec * RiskGateResult)) : Prop :=
  exists m g, mg = Ok (m, g) /\ gt_check g = CORRELATION /\ (0 <= dval m /\ dval m <= 1)%Q /\
    (passed g = true -> Forall (correlation_ok r m) (other_symbols r)).

(** A gate that stops the evaluation. *)
Lemma stopping_answer r s reason d : freezable (PDict d) = true -> reason <> "" -> s <> PASSED ->
  correlation_answer r (let* g := _gate CORRELATION s reason d in Ok (dzero, g)).
Proof.
  intros Hf Hr Hs. destruct (gate_exists CORRELATION s reason d Hf Hr) as (g & -> & Hc & Es & _).
  exists dzero, g. repeat split; try assumption; try discriminate.
  unfold passed. rewrite Es, bool_decide_false by exact Hs. discriminate.
Qed.

Lemma passing_answer r m reason d : freezable (PDict d) = true -> reason <> "" -> (0 <= dval m)%Q -> (dval m <= 1)%Q ->
  Forall (correlation_ok r m) (other_symbols r) ->
  correlation_answer r (let* g := _gate CORRELATION PASSED reason d in Ok (m, g)).
Proof.
  intros Hf Hr H0 H1 Hok. destruct (gate_exists CORRELATION PASSED reason d Hf Hr) as (g & -> & Hc & _).
  exists m, g. auto.
Qed.

Lemma correlation_gate_total r : correlation_answer r (_correlation_gate policy r).
Proof.
  unfold _correlation_gate. remember (other_symbols r) as l eqn:El. destruct l as [|s0 l0].
  { apply passing_answer; try discriminate; try reflexivity. rewrite <- El. constructor. }
  set (l := s0 :: l0) in *. clearbody l. destruct (List.filter _ (remove_dups l)) as [|x xs] eqn:Em.
  2:{ apply stopping_answer; try discriminate. cbn [freezable forallb snd]. now rewrite freezable_strings. }
  pose proof (nothing_missing _ _ Em) as Hd. set (d := observations r) in *.
  destruct (selected_total d (fun o => co_aligned_return_count o <? rp_minimum_aligned_correlation_returns policy) l Hd)
    as (cold & -> & Wc). cbn [bind]. destruct cold as [|x xs].
  2:{ apply stopping_answer; try discriminate. cbn [freezable forallb snd]. now rewrite freezable_strings. }
  destruct (selected_total d (fun o => match co_correlation o with None => true | Some _ => false end) l Hd)
    as (un & -> & Wu). cbn [bind]. destruct un as [|x xs].
  2:{ apply stopping_answer; try discriminate. cbn [freezable forallb snd]. now rewrite freezable_strings. }
  specialize (Wc eq_refl). specialize (Wu eq_refl).
  destruct (correlation_loop_total d l done []) as (out & -> & Hspec); [| discriminate | apply Qle_refl |].
  { eapply List.Forall_impl; [|exact Wu]. intros s (o & Eo & Et). exists o. split; [exact Eo|].
    intros E. rewrite E in Et. discriminate. }
  cbn [bind]. destruct out as [[m vs]|[b vs]]; pose proof (freezable_dec_dict vs) as Hv.
  - destruct Hspec as (S0 & S1 & S2). destruct (counts_total d l Hd) as (counts & -> & Hf). cbn [bind].
    apply passing_answer; try discriminate; [cbn [freezable forallb snd andb] in *; now rewrite Hv, Hf | exact S0 | exact S1 |].
    rewrite <- El. apply List.Forall_forall. intros s Hin. rewrite List.Forall_forall in S2, Wc.
    destruct (S2 s Hin) as (o & c & Eo & Ec & Hlt & H40 & H20). destruct (Wc s Hin) as (o' & Eo' & Hw).
    rewrite Eo in Eo'. injection Eo' as <-. bool_prop. exists o, c. auto 10.
  - apply stopping_answer; try discriminate. cbn [freezable forallb snd andb] in *. now rewrite Hv.
Qed.

(** *** Sizing *)

Definition stop_distance_of (r : OfficialRiskRequest) : dec := dabs (rr_executable_price r - rr_stop_price r)%dec.

Lemma stop_distance_pos r : stop_is_valid r = true -> (0 < dval (stop_distance_of r))%Q.
Proof.
  unfold stop_is_valid, stop_distance_of. intros H.
  assert (Hne : ~ (dval (rr_executable_price r) - dval (rr_stop_price r) == 0)%Q).
  { apply orb_true_iff in H as [H|H]; bool_prop; dec_prop; lra. }
  pose proof (dsub_rounded (rr_executable_price r) (rr_stop_price r)) as R.
  apply (rounded_pos (dabs_rounded _)).
  destruct (Q_dec (dval (rr_executable_price r - rr_stop_price r)%dec) 0) as [[Hs|Hs]|Hs].
  - rewrite Qabs_neg by lra. lra.
  - rewrite Qabs_pos by lra. exact Hs.
  - exfalso. apply Hne. exact (rounded_zero_inv R Hs).
Qed.

Lemma size_total r hk sd dm cm :
  request_facts r -> (0 < dval sd)%Q -> (0 < dval hk)%Q -> (0 <= dval dm)%Q -> (0 <= dval cm)%Q ->
  exists z, size_position policy r hk sd dm cm = Ok z /\
    (0 <= dval (sz_quantity z) /\ 0 <= dval (sz_notional z) /\ 0 <= dval (sz_risk_at_stop z) /\
     0 <= dval (sz_margin z))%Q /\
    sz_risk_budget z = (rr_capital r * dmin hk (rp_maximum_trade_loss_fraction policy) * dm * cm)%dec /\
    sz_risk_at_stop z = (sz_quantity z * sd)%dec /\ sz_notional z = (sz_quantity z * rr_executable_price r)%dec /\
    sz_existing_loss z = dsum (map orp_loss_at_stop (rr_open_positions r)) /\
    sz_loss_limit z = (rr_capital r * rp_maximum_portfolio_loss_fraction policy)%dec /\
    sz_existing_notional z = dsum (map orp_notional (rr_open_positions r)) /\
    sz_notional_limit z = (rr_capital r * rp_maximum_gross_notional_fraction policy)%dec /\
    sz_existing_margin z = dsum (map orp_margin (rr_open_positions r)) /\
    sz_margin_limit z = (rr_capital r * rp_maximum_margin_fraction policy)%dec /\
    sz_margin z = ddiv_raw (sz_notional z) (dint (rr_leverage r)) /\
    Forall (fun kv => dval (sz_quantity z) <= dval (snd kv))%Q (sz_caps z).
Proof.
  intros F Hsd Hhk Hdm Hcm. unfold size_position.
  pose proof (inject_Z_pos _ (rf_leverage r F)) as HL.
  assert (HL' : ~ (dval (dint (rr_leverage r)) == 0)%Q) by (rewrite dval_int; lra).
  rewrite (ddiv_total done) by exact HL'. cbn [bind].
  set (il := ddiv_raw done (dint (rr_leverage r))).
  assert (Hil : (0 < dval il)%Q) by (apply ddiv_pos; [rewrite dval_one; lra | rewrite dval_int; exact HL]).
  assert (Hmc : (0 < dval (rr_executable_price r * (il + rr_entry_fee_fraction r))%dec)%Q).
  { apply dmul_pos; [apply F | apply dadd_pos; [exact Hil | apply F]]. }
  pose proof (rf_price r F) as Hpx. pose proof (rf_capital r F) as Hcap.
  rewrite !ddiv_total by lra. cbn [bind].
  set (c1 := ddiv_raw _ sd). set (c2 := ddiv_raw _ sd). set (c3 := ddiv_raw _ (rr_executable_price r)).
  set (c4 := ddiv_raw _ (_ * _)%dec).
  assert (Hmax : forall x, (0 <= dval (dmax x dzero))%Q) by (intros x; rewrite <- dval_zero at 1; apply dmax_ub_r).
  assert (Hfrac : (0 <= dval (dmin hk (rp_maximum_trade_loss_fraction policy)))%Q).
  { pose proof (vp_trade _ VP). destruct (dmin_case hk (rp_maximum_trade_loss_fraction policy)) as [->| ->]; lra. }
  assert (H1 : (0 <= dval c1)%Q).
  { apply ddiv_nonneg; [|exact Hsd]. repeat apply dmul_nonneg; try assumption. lra. }
  assert (H2 : (0 <= dval c2)%Q) by (apply ddiv_nonneg; [apply Hmax | exact Hsd]).
  assert (H3 : (0 <= dval c3)%Q) by (apply ddiv_nonneg; [apply Hmax | exact Hpx]).
  assert (H4 : (0 <= dval c4)%Q) by (apply ddiv_nonneg; [apply Hmax | exact Hmc]).
  set (q := dmin (dmin (dmin c1 c2) c3) c4).
  assert (Hq : (0 <= dval q)%Q).
  { unfold q. repeat match goal with |- context [dmin ?a ?b] => destruct (dmin_case a b) as [->| ->] end; assumption. }
  rewrite ddiv_total by exact HL'. cbn [bind]. eexists; split; [reflexivity|]. cbn.
  assert (Hn : (0 <= dval (q * rr_executable_price r)%dec)%Q) by (apply dmul_nonneg; [exact Hq | apply Qlt_le_weak; exact Hpx]).
  split; [repeat split; [exact Hq | exact Hn | apply dmul_nonneg; [exact Hq | apply Qlt_le_weak; exact Hsd] |
    apply ddiv_nonneg; [exact Hn | rewrite dval_int; exact HL]]|].
  repeat (split; [reflexivity|]). unfold q.
  pose proof (dmin_lb_l (dmin (dmin c1 c2) c3) c4). pose proof (dmin_lb_r (dmin (dmin c1 c2) c3) c4).
  pose proof (dmin_lb_l (dmin c1 c2) c3). pose proof (dmin_lb_r (dmin c1 c2) c3).
  pose proof (dmin_lb_l c1 c2). pose proof (dmin_lb_r c1 c2).
  repeat (apply List.Forall_cons; [cbn [snd]; lra|]). apply List.Forall_nil.
Qed.

Lemma drawdown_multiplier_range dd :
  (0 < dval (drawdown_multiplier_of policy dd))%Q /\ (dval (drawdown_multiplier_of policy dd) <= 1)%Q /\
  ((dval (rp_drawdown_reduce_50_threshold policy) <= dval dd)%Q -> (dval (drawdown_multiplier_of policy dd) <= 1 # 2)%Q) /\
  ((dval (rp_drawdown_reduce_25_threshold policy) <= dval dd)%Q -> (dval (drawdown_multiplier_of policy dd) <= 3 # 4)%Q).
Proof.
  unfold drawdown_multiplier_of.
  destruct (dleb (rp_drawdown_reduce_50_threshold policy) dd) eqn:E1;
    [|destruct (dleb (rp_drawdown_reduce_25_threshold policy) dd) eqn:E2]; dec_prop;
    repeat split; intros; try reflexivity; try discriminate; lra.
Qed.

(** *** The answers of the engine *)

(** A decision without a position. *)
Definition refused (d : OfficialRiskDecision) : Prop :=
  rd_approved d = false /\ rd_quantity d = dzero /\ rd_notional d = dzero /\ rd_risk_at_stop d = dzero /\
  rd_margin d = dzero.

(** The blocking gate of an early rejection. *)
Definition stops_at (reason : option string) (c : RiskCheck) (d : OfficialRiskDecision) : Prop :=
  refused d /\ match reason with Some t => rd_rejection_reason d = Some t | None => True end /\
  (exists done g rest, rd_gates d = done ++ g :: rest /\ forallb passed done = true /\ gt_check g = c /\ passed g = false).

Lemma early_spec items hk done g dm :
  map gt_check (done ++ [g]) = firstn (S (length done)) all_checks -> forallb passed done = true -> passed g = false ->
  (0 <= dval hk)%Q -> (0 <= dval dm)%Q ->
  exists d, _early_rejection sha256_hex (JObj items) hk (done ++ [g]) dm = Ok d /\
    stops_at (Some (gt_reason_code g)) (gt_check g) d.
Proof.
  intros Hc Hp Hg Hk Hd.
  destruct (early_total sha256_hex Hsha items hk (done ++ [g]) dm) as [d E]; try assumption.
  { rewrite List.length_app. cbn [length]. rewrite Nat.add_1_r. exact Hc. }
  { intros E. symmetry in E. now apply app_cons_not_nil in E. }
  exists d. split; [exact E|]. unfold _early_rejection in E. py_inv.
  rewrite <- app_assoc in *. cbn [app] in *.
  match goal with H : _decision _ _ _ _ _ _ _ _ _ _ = Ok d |- _ => apply decision_Ok in H end.
  destruct_and!. 
  match goal with H : rd_gates d = done ++ g :: ?rest |- _ => rename H into EG end.
  match goal with H : rd_approved d = _ |- _ => rewrite forallb_app in H; cbn [forallb] in H; rewrite Hg, andb_false_r in H end.
  split; [repeat split; assumption|]. split; [|exists done, g; eauto].
  match goal with H : rd_rejection_reason d = _ |- _ => rewrite H end. clear - Hp Hg.
  induction done as [|x l IH]; cbn [app find forallb] in *; [rewrite Hg; reflexivity|].
  apply andb_true_iff in Hp as [Hx Hl]. rewrite Hx. cbn [negb]. apply IH, Hl.
Qed.

(** The four limits that a sized position must meet. *)
Definition within_trade (z : sizing) : bool := (dzero <? sz_quantity z)%dec && (sz_risk_at_stop z <=? sz_risk_budget z)%dec.
Definition within_portfolio (z : sizing) : bool := (sz_existing_loss z + sz_risk_at_stop z <=? sz_loss_limit z)%dec.
Definition within_notional (z : sizing) : bool := (sz_existing_notional z + sz_notional z <=? sz_notional_limit z)%dec.
Definition within_margin (r : OfficialRiskRequest) (z : sizing) : bool :=
  (sz_existing_margin z + sz_margin z + sz_notional z * rr_entry_fee_fraction r <=? sz_margin_limit z)%dec.

Record sized (r : OfficialRiskRequest) (d : OfficialRiskDecision) (g f hk dd m : dec) (z : sizing) : Prop := {
  si_kelly : kelly policy r = Ok (g, f, hk);
  si_half : (0 < dval hk /\ dval hk <= dval (rp_maximum_kelly_fraction policy))%Q;
  si_stop : stop_is_valid r = true;
  si_drawdown : drawdown_fraction (rr_drawdown r) = Ok dd;
  si_halt : (dval dd < dval (rp_drawdown_halt_threshold policy))%Q;
  si_multiplier : (0 <= dval m /\ dval m <= 1)%Q;
  si_correlation : Forall (correlation_ok r m) (other_symbols r);
  si_size : size_position policy r hk (stop_distance_of r) (drawdown_multiplier_of policy dd) m = Ok z;
  si_quantity : rd_quantity d = sz_quantity z;
  si_notional : rd_notional d = sz_notional z;
  si_risk : rd_risk_at_stop d = sz_risk_at_stop z;
  si_margin : rd_margin d = sz_margin z;
  si_half_kelly : rd_half_kelly_fraction d = hk;
  si_dm : rd_drawdown_multiplier d = drawdown_multiplier_of policy dd;
  si_cm : rd_correlation_multiplier d = m;
  si_approved : rd_approved d = (within_trade z && within_portfolio z && within_notional z && within_margin r z)
}.

Lemma request_facts_of r : valid_risk_request r -> request_facts r.
Proof. intros [[r0 H] _]. exact (request_post_init_facts _ _ H). Qed.

Lemma drawdown_total r : valid_risk_request r ->
  exists dd, drawdown_fraction (rr_drawdown r) = Ok dd.
Proof.
  intros [_ H]. unfold DrawdownSnapshot_post_init in H. py_inv. bool_prop. dec_prop. rewrite dval_zero in *.
  unfold drawdown_fraction. rewrite ddiv_total by lra. eauto.
Qed.

Lemma passed_status g s : gt_status g = s -> passed g = bool_decide (s = PASSED).
Proof. unfold passed. now intros ->. Qed.

(** One early rejection, whatever its details are. *)
Lemma stop_with items hk done c s reason details dm :
  freezable (PDict details) = true -> reason <> "" -> s <> PASSED ->
  map gt_check done ++ [c] = firstn (S (length done)) all_checks -> forallb passed done = true ->
  (0 <= dval hk)%Q -> (0 <= dval dm)%Q ->
  exists d, (let* g := _gate c s reason details in _early_rejection sha256_hex (JObj items) hk (done ++ [g]) dm) = Ok d /\
    stops_at (Some reason) c d.
Proof.
  intros Hf Hr Hs Hm Hp Hk Hd. destruct (gate_exists c s reason details Hf Hr) as (g & -> & <- & Es & <-). cbn [bind].
  apply early_spec; try assumption.
  - rewrite List.map_app. exact Hm.
  - rewrite (passed_status _ _ Es). now rewrite bool_decide_false.
Qed.

Lemma pass_gate c reason details : freezable (PDict details) = true -> reason <> "" ->
  exists g, _gate c PASSED reason details = Ok g /\ gt_check g = c /\ passed g = true.
Proof.
  intros Hf Hr. destruct (gate_exists c PASSED reason details Hf Hr) as (g & -> & Hc & Es & _).
  exists g. rewrite (passed_status _ _ Es). auto.
Qed.

Lemma limit_gate c (b : bool) reason details : freezable (PDict details) = true -> reason <> "" ->
  exists g, _gate c (if b then PASSED else FAILED) reason details = Ok g /\ gt_check g = c /\ passed g = b.
Proof.
  intros Hf Hr. destruct (gate_exists c (if b then PASSED else FAILED) reason details Hf Hr) as (g & -> & Hc & Es & _).
  exists g. rewrite (passed_status _ _ Es). destruct b; auto.
Qed.

(** The last four gates of a sized request, and the decision. *)
Lemma sized_decision r z items hk dm m early :
  map gt_check early = [KELLY; PRICE_AND_STOP; DRAWDOWN; CORRELATION] -> forallb passed early = true ->
  (0 <= dval (sz_quantity z) /\ 0 <= dval (sz_notional z) /\ 0 <= dval (sz_risk_at_stop z) /\ 0 <= dval (sz_margin z))%Q ->
  (0 <= dval hk)%Q -> (0 <= dval dm)%Q -> (0 <= dval m)%Q ->
  exists d, (let* g5 := trade_gate z in let* g6 := portfolio_gate z in let* g7 := notional_gate z in
             let* g8 := margin_gate r z in
             _decision sha256_hex (JObj items) (sz_quantity z) (sz_notional z) (sz_risk_at_stop z) (sz_margin z) hk dm m
               (early ++ [g5; g6; g7; g8])) = Ok d /\
    rd_approved d = (within_trade z && within_portfolio z && within_notional z && within_margin r z) /\
    rd_quantity d = sz_quantity z /\ rd_notional d = sz_notional z /\ rd_risk_at_stop d = sz_risk_at_stop z /\
    rd_margin d = sz_margin z /\ rd_half_kelly_fraction d = hk /\ rd_drawdown_multiplier d = dm /\
    rd_correlation_multiplier d = m.
Proof.
  intros Hearly Hpassed Hz Hk Hd Hm.
  unfold trade_gate, portfolio_gate, notional_gate, margin_gate.
  destruct (limit_gate TRADE_RISK_AT_STOP (within_trade z)
    (if (dzero <? sz_quantity z)%dec then "trade_risk_sized_within_all_caps" else "no_risk_capacity")
    [("risk_fraction", PDec (sz_risk_fraction z)); ("risk_budget", PDec (sz_risk_budget z));
     ("quantity", PDec (sz_quantity z)); ("risk_at_stop", PDec (sz_risk_at_stop z));
     ("quantity_caps", dec_dict (sz_caps z));
     ("limiting_constraints", PSeq (map PStr (limiting_constraints z)))]) as (g5 & E5 & C5 & P5).
  { cbn [freezable forallb snd]. pose proof (freezable_dec_dict (sz_caps z)) as Hcaps. cbn [freezable] in Hcaps. rewrite Hcaps.
    now rewrite forallb_freezable. }
  { destruct (dzero <? sz_quantity z)%dec; discriminate. }
  unfold within_trade in E5. rewrite E5. cbn [bind]. fold (within_portfolio z).
  destruct (limit_gate PORTFOLIO_LOSS_AT_STOP (within_portfolio z)
    (if within_portfolio z then "portfolio_loss_at_stop_within_limit" else "portfolio_loss_at_stop_exceeded")
    [("existing_loss_at_stop", PDec (sz_existing_loss z)); ("proposed_loss_at_stop", PDec (sz_risk_at_stop z));
     ("total_loss_at_stop", PDec (sz_existing_loss z + sz_risk_at_stop z)%dec); ("limit", PDec (sz_loss_limit z))])
    as (g6 & -> & C6 & P6); [reflexivity | destruct (within_portfolio z); discriminate|]. cbn [bind].
  fold (within_notional z).
  destruct (limit_gate GROSS_NOTIONAL (within_notional z)
    (if within_notional z then "gross_notional_within_limit" else "gross_notional_exceeded")
    [("existing_notional", PDec (sz_existing_notional z)); ("proposed_notional", PDec (sz_notional z));
     ("total_notional", PDec (sz_existing_notional z + sz_notional z)%dec); ("limit", PDec (sz_notional_limit z))])
    as (g7 & -> & C7 & P7); [reflexivity | destruct (within_notional z); discriminate|]. cbn [bind].
  fold (within_margin r z).
  destruct (limit_gate MARGIN (within_margin r z)
    (if within_margin r z then "margin_and_entry_fee_within_limit" else "margin_and_entry_fee_exceeded")
    [("existing_margin", PDec (sz_existing_margin z)); ("proposed_margin", PDec (sz_margin z));
     ("entry_fee_fraction", PDec (rr_entry_fee_fraction r)); ("entry_fee", PDec (sz_notional z * rr_entry_fee_fraction r)%dec);
     ("total_margin", PDec (sz_existing_margin z + sz_margin z)%dec);
     ("total_required_capital", PDec (sz_existing_margin z + sz_margin z + sz_notional z * rr_entry_fee_fraction r)%dec);
     ("limit", PDec (sz_margin_limit z))])
    as (g8 & -> & C8 & P8); [reflexivity | destruct (within_margin r z); discriminate|]. cbn [bind].
  destruct (decision_total sha256_hex Hsha items (sz_quantity z) (sz_notional z) (sz_risk_at_stop z) (sz_margin z) hk dm m
    (early ++ [g5; g6; g7; g8])) as [d Ed].
  { rewrite List.map_app, Hearly. cbn [map]. now rewrite C5, C6, C7, C8. }
  { repeat (apply List.Forall_cons; [assumption || tauto|]). apply List.Forall_nil. }
  exists d. split; [exact Ed|]. apply decision_Ok in Ed. destruct_and!. repeat split; try assumption.
  match goal with H : rd_approved d = _ |- _ => rewrite H end. rewrite forallb_app, Hpassed. cbn [forallb].
  rewrite P5, P6, P7, P8. cbn [andb]. now rewrite andb_true_r, !andb_assoc.
Qed.

(** What the evaluation of a request gives: a stop at one of the first four
    gates, in their order, or a sized position. *)
Inductive evaluation (r : OfficialRiskRequest) (d : OfficialRiskDecision) : Prop :=
| no_edge g f hk : kelly policy r = Ok (g, f, hk) -> (dval hk <= 0)%Q ->
    stops_at (Some "kelly_nonpositive") KELLY d -> evaluation r d
| bad_stop g f hk : kelly policy r = Ok (g, f, hk) -> (0 < dval hk)%Q -> stop_is_valid r = false ->
    stops_at (Some "stop_not_protective") PRICE_AND_STOP d -> evaluation r d
| halted g f hk dd : kelly policy r = Ok (g, f, hk) -> (0 < dval hk)%Q -> stop_is_valid r = true ->
    drawdown_fraction (rr_drawdown r) = Ok dd -> (dval (rp_drawdown_halt_threshold policy) <= dval dd)%Q ->
    stops_at (Some "drawdown_halt") DRAWDOWN d -> evaluation r d
| correlated g f hk dd m cg : kelly policy r = Ok (g, f, hk) -> (0 < dval hk)%Q -> stop_is_valid r = true ->
    drawdown_fraction (rr_drawdown r) = Ok dd -> (dval dd < dval (rp_drawdown_halt_threshold policy))%Q ->
    _correlation_gate policy r = Ok (m, cg) -> passed cg = false ->
    stops_at (Some (gt_reason_code cg)) CORRELATION d -> evaluation r d
| position g f hk dd m z : sized r d g f hk dd m z -> evaluation r d.

Lemma evaluate_cases r : valid_risk_request r ->
  exists d, evaluate sha256_hex policy r = Ok d /\ evaluation r d.
Proof.
  intros VR. pose proof (request_facts_of r VR) as F. unfold evaluate.
  destruct (snapshot_total r F) as [items ->]. destruct (kelly_total r F) as (gl & fk & hk & Hkelly & Hmax).
  rewrite Hkelly. cbn [bind].
  destruct (dleb hk dzero) eqn:Ek; dec_prop; rewrite dval_zero in *.
  { destruct (stop_with items (dmax hk dzero) [] KELLY FAILED "kelly_nonpositive"
      [("p_win", PDec (rr_p_win r)); ("gain_loss_ratio", PDec gl); ("full_kelly", PDec fk)] dzero) as (d & Hd & S1);
      try discriminate; try reflexivity; [rewrite <- dval_zero at 1; apply dmax_ub_r|].
    exists d. split; [exact Hd | now apply (no_edge _ _ gl fk hk)]. }
  destruct (pass_gate KELLY "kelly_positive" [("p_win", PDec (rr_p_win r)); ("gain_loss_ratio", PDec gl);
    ("half_kelly", PDec hk)]) as (g1 & -> & C1 & P1); [reflexivity | discriminate|]. cbn [bind].
  destruct (stop_is_valid r) eqn:Est; cbn [negb].
  2:{ destruct (stop_with items hk [g1] PRICE_AND_STOP FAILED "stop_not_protective"
        [("direction", PEnum (enum_value (rr_direction r))); ("executable_price", PDec (rr_executable_price r));
         ("stop_price", PDec (rr_stop_price r))] dzero) as (d & Hd & S1);
        try discriminate; try reflexivity; [cbn; now rewrite C1 | cbn; now rewrite P1 | lra |].
      exists d. split; [exact Hd | now apply (bad_stop _ _ gl fk hk)]. }
  destruct (pass_gate PRICE_AND_STOP "executable_price_and_stop_valid"
    [("executable_price", PDec (rr_executable_price r)); ("stop_price", PDec (rr_stop_price r));
     ("stop_distance", PDec (dabs (rr_executable_price r - rr_stop_price r)%dec))]) as (g2 & -> & C2 & P2);
    [reflexivity | discriminate|]. cbn [bind].
  destruct (drawdown_total r VR) as [dd Hdd]. rewrite Hdd. cbn [bind].
  destruct (dleb (rp_drawdown_halt_threshold policy) dd) eqn:Eh; dec_prop.
  { destruct (stop_with items hk [g1; g2] DRAWDOWN FAILED "drawdown_halt" [("drawdown_fraction", PDec dd);
      ("peak_equity", PDec (dd_peak_equity (rr_drawdown r))); ("current_equity", PDec (dd_current_equity (rr_drawdown r)))]
      dzero) as (d & Hd & S1);
      try discriminate; try reflexivity; [cbn; now rewrite C1, C2 | cbn; now rewrite P1, P2 | lra |].
    exists d. split; [exact Hd | now apply (halted _ _ gl fk hk dd)]. }
  pose proof (drawdown_multiplier_range dd) as (M0 & M1 & _).
  set (dm := drawdown_multiplier_of policy dd) in *.
  destruct (pass_gate DRAWDOWN "drawdown_within_limit" [("drawdown_fraction", PDec dd); ("multiplier", PDec dm);
    ("peak_equity", PDec (dd_peak_equity (rr_drawdown r))); ("current_equity", PDec (dd_current_equity (rr_drawdown r)))])
    as (g3 & -> & C3 & P3); [reflexivity | discriminate|]. cbn [bind].
  destruct (correlation_gate_total r) as (m & g4 & Hcg & C4 & Hm & Hok). rewrite Hcg. cbn [bind].
  destruct (passed g4) eqn:P4; cbn [negb].
  2:{ destruct (early_spec items hk [g1; g2; g3] g4 dm) as (d & Hd & S1); try assumption; try lra;
        [cbn; now rewrite C1, C2, C3, C4 | cbn; now rewrite P1, P2, P3 |].
      rewrite C4 in S1. exists d. split; [exact Hd | now apply (correlated _ _ gl fk hk dd m g4)]. }
  specialize (Hok eq_refl).
  destruct (size_total r hk (stop_distance_of r) dm m F (stop_distance_pos r Est)) as (z & Hz & Hspec);
    [assumption | lra | tauto |].
  change (dabs (rr_executable_price r - rr_stop_price r)%dec) with (stop_distance_of r). rewrite Hz. cbn [bind].
  destruct (sized_decision r z items hk dm m [g1; g2; g3; g4]) as (d & Hd & Ha & Hf); try tauto; try lra.
  { cbn. now rewrite C1, C2, C3, C4. }
  { cbn. now rewrite P1, P2, P3, P4. }
  exists d. split; [exact Hd|]. apply (position _ _ gl fk hk dd m z). destruct_and!.
  split; try assumption; split; assumption.
Qed.
End Evaluate.

(** ** Theorems *)

Lemma forallb_perm {A} (f : A -> bool) l l' : Permutation l l' -> forallb f l = forallb f l'.
Proof.
  induction 1 as [|x l l' _ IH|x y l|l l' l'' _ IH _ IH']; cbn [forallb]; [reflexivity | now rewrite IH | | congruence].
  now rewrite !andb_assoc, (andb_comm (f x)).
Qed.

Lemma forallb_eq {A} (f g : A -> bool) l : (forall x, f x = g x) -> forallb f l = forallb g l.
Proof. intros H. induction l as [|x l IH]; [reflexivity|]. cbn [forallb]. now rewrite H, IH. Qed.

(** Steps that agree on a check may assume it passed. *)
Lemma raise_if_ext {A} b e (k k' : result A) : (b = false -> k = k') ->
  (do* raise_if b e ;; k) = (do* raise_if b e ;; k').
Proof. destruct b; intros H; [reflexivity | cbn; auto]. Qed.

Lemma bind_ext {A B} (x : result A) (k k' : A -> result B) : (forall a, k a = k' a) -> bind x k = bind x k'.
Proof. intros H. destruct x; cbn; auto. Qed.

Lemma dmul_le_l x y : repr x -> (0 <= dval x)%Q -> (dval y <= 1)%Q -> (dval (x * y)%dec <= dval x)%Q.
Proof. intros Hr H0 H1. apply (rounded_hi _ _ (dmul_rounded x y)); [exact Hr | nra]. Qed.

(** C38: The engine always answers: for a valid policy and a valid request
    [evaluate] raises nothing and gives a decision that lists the eight checks
    in order, is approved exactly when all of them passed, and names the reason
    of the first one that did not.  It stops at one of the first four gates
    with no position, or sizes one and approves it exactly when it is positive
    and within the four limits. *)
Theorem risk_evaluate_total (sha256_hex : string -> string) (policy : OfficialRiskPolicy) (r : OfficialRiskRequest)
    (Hsha : forall s, String.length (sha256_hex s) = 64%nat) (VP : valid_policy policy) (VR : valid_risk_request r) :
  exists d, evaluate sha256_hex policy r = Ok d /\ map gt_check (rd_gates d) = all_checks /\
    rd_approved d = forallb passed (rd_gates d) /\
    rd_rejection_reason d = option_map gt_reason_code (find (fun g => negb (passed g)) (rd_gates d)) /\
    evaluation policy r d.
Proof.
  destruct (evaluate_cases sha256_hex Hsha policy VP r VR) as (d & Hd & Hcases).
  exists d. split; [exact Hd|]. enough (map gt_check (rd_gates d) = all_checks /\
    rd_approved d = forallb passed (rd_gates d) /\
    rd_rejection_reason d = option_map gt_reason_code (find (fun g => negb (passed g)) (rd_gates d))) by tauto.
  assert (Hdec : exists snap q n ra mg hk dm cm gates, _decision sha256_hex snap q n ra mg hk dm cm gates = Ok d).
  { unfold evaluate, _early_rejection in Hd. repeat (py_inv; try case_match); eauto 20. }
  destruct Hdec as (snap & q & n & ra & mg & hk & dm & cm & gates & Hdec). apply decision_Ok in Hdec.
  destruct_and!. subst gates. auto.
Qed.

(** C32: An approved request keeps every limit: its stop is protective, the
    drawdown is below the halt threshold, every other open symbol has a warm
    correlation below the block threshold, the quantity is positive, the loss
    at the stop is within the risk budget and within half Kelly and the trade
    limit of the capital, and the portfolio with the new position stays within
    the loss, notional and margin limits, the entry fee included. *)
Theorem risk_approval_sound (sha256_hex : string -> string) (policy : OfficialRiskPolicy) (r : OfficialRiskRequest)
    (d : OfficialRiskDecision) (Hsha : forall s, String.length (sha256_hex s) = 64%nat) (VP : valid_policy policy)
    (VR : valid_risk_request r) (E : evaluate sha256_hex policy r = Ok d) (A : rd_approved d = true) :
  stop_is_valid r = true /\
  (exists dd, drawdown_fraction (rr_drawdown r) = Ok dd /\ (dval dd < dval (rp_drawdown_halt_threshold policy))%Q /\
    rd_drawdown_multiplier d = drawdown_multiplier_of policy dd) /\
  Forall (correlation_ok policy r (rd_correlation_multiplier d)) (other_symbols r) /\
  (0 < dval (rd_half_kelly_fraction d) /\ dval (rd_half_kelly_fraction d) <= dval (rp_maximum_kelly_fraction policy))%Q /\
  (0 < dval (rd_quantity d))%Q /\ rd_notional d = (rd_quantity d * rr_executable_price r)%dec /\
  rd_risk_at_stop d = (rd_quantity d * stop_distance_of r)%dec /\
  ddiv (rd_notional d) (dint (rr_leverage r)) = Ok (rd_margin d) /\
  (let at_risk := (rr_capital r * dmin (rd_half_kelly_fraction d) (rp_maximum_trade_loss_fraction policy))%dec in
   dval (rd_risk_at_stop d) <= dval (at_risk * rd_drawdown_multiplier d * rd_correlation_multiplier d)%dec /\
   dval (rd_risk_at_stop d) <= dval at_risk)%Q /\
  (dval (dsum (map orp_loss_at_stop (rr_open_positions r)) + rd_risk_at_stop d)%dec <=
     dval (rr_capital r * rp_maximum_portfolio_loss_fraction policy)%dec)%Q /\
  (dval (dsum (map orp_notional (rr_open_positions r)) + rd_notional d)%dec <=
     dval (rr_capital r * rp_maximum_gross_notional_fraction policy)%dec)%Q /\
  (dval (dsum (map orp_margin (rr_open_positions r)) + rd_margin d + rd_notional d * rr_entry_fee_fraction r)%dec <=
     dval (rr_capital r * rp_maximum_margin_fraction policy)%dec)%Q.
Proof.
  destruct (evaluate_cases sha256_hex Hsha policy VP r VR) as (d' & Hd & Hcases).
  rewrite E in Hd. injection Hd as <-.
  destruct Hcases as [? ? ? _ _ [[A' _] _] | ? ? ? _ _ _ [[A' _] _] | ? ? ? ? _ _ _ _ _ [[A' _] _]
    | ? ? ? ? ? ? _ _ _ _ _ _ _ [[A' _] _] | g f hk dd m z [Hk Hh Hs Hdd Hhalt Hm Hcor Hz Eq En Er Em Ehk Edm Ecm Ea]];
    try congruence.
  pose proof (request_facts_of r VR) as F. rewrite A in Ea. symmetry in Ea. bool_prop.
  pose proof (drawdown_multiplier_range policy dd) as (D0 & D1 & _).
  destruct (size_total policy VP r hk (stop_distance_of r) (drawdown_multiplier_of policy dd) m F
    (stop_distance_pos r Hs)) as (z' & Hz' & _ & Zb & Zr & Zn & Zl & Zll & Zen & Znl & Zem & Zml & Zm & _);
    [tauto | lra | tauto|].
  rewrite Hz in Hz'. injection Hz' as <-.
  rewrite Eq, En, Er, Em, Ehk, Edm, Ecm. unfold within_trade, within_portfolio, within_notional, within_margin in *.
  rewrite Zb, Zl, Zll, Zen, Znl, Zem, Zml in *. bool_prop. dec_prop. rewrite dval_zero in *.
  repeat match goal with |- _ /\ _ => split end; try assumption; try tauto; eauto.
  - rewrite Zm. apply ddiv_total. rewrite dval_int. pose proof (inject_Z_pos _ (rf_leverage r F)). lra.
  - eapply Qle_trans; [eassumption|].
    eapply Qle_trans; [apply dmul_le_l; [apply dmul_repr | | tauto] | apply dmul_le_l; [apply dmul_repr | | exact D1]].
    all: repeat apply dmul_nonneg; try lra; try apply Qlt_le_weak, F.
    all: pose proof (vp_trade _ VP); destruct (dmin_case hk (rp_maximum_trade_loss_fraction policy)) as [->| ->]; lra.
Qed.

(** No position without an edge, a protective stop, equity above the halt
    level and usable correlations: each failure gives a refusal with zero
    quantity, notional, risk and margin. *)
Theorem risk_halts (sha256_hex : string -> string) (policy : OfficialRiskPolicy) (r : OfficialRiskRequest)
    (Hsha : forall s, String.length (sha256_hex s) = 64%nat) (VP : valid_policy policy) (VR : valid_risk_request r)
    (H : (exists g f hk, kelly policy r = Ok (g, f, hk) /\ (dval hk <= 0)%Q) \/ stop_is_valid r = false \/
         (exists dd, drawdown_fraction (rr_drawdown r) = Ok dd /\ (dval (rp_drawdown_halt_threshold policy) <= dval dd)%Q) \/
         (exists s, In s (other_symbols r) /\ forall m, ~ correlation_ok policy r m s)) :
  exists d, evaluate sha256_hex policy r = Ok d /\ refused d.
Proof.
  destruct (evaluate_cases sha256_hex Hsha policy VP r VR) as (d & Hd & Hcases). exists d. split; [exact Hd|].
  destruct Hcases as [? ? ? _ _ [R _] | ? ? ? _ _ _ [R _] | ? ? ? ? _ _ _ _ _ [R _] | ? ? ? ? ? ? _ _ _ _ _ _ _ [R _]
    | g f hk dd m z [Hk Hh Hs Hdd Hhalt Hm Hcor Hz _ _ _ _ _ _ _ _]]; try exact R. exfalso.
  destruct H as [(g' & f' & hk' & E & Hle) | [E | [(dd' & E & Hle) | (s & Hin & Hno)]]].
  - rewrite Hk in E. injection E as -> -> ->. lra.
  - congruence.
  - rewrite Hdd in E. injection E as ->. lra.
  - rewrite List.Forall_forall in Hcor. exact (Hno m (Hcor s Hin)).
Qed.

(** The order in which the portfolio lists its positions and correlations
    does not matter: the constructor gives the same request, hence the same
    decision and the same content hash. *)
Theorem risk_order_independent (positions positions' : list OpenRiskPosition)
    (correlations correlations' : list CorrelationObservation) (r : OfficialRiskRequest)
    (make := fun ps cs => OfficialRiskRequest_post_init {|
       rr_symbol := rr_symbol r; rr_direction := rr_direction r; rr_capital := rr_capital r;
       rr_executable_price := rr_executable_price r; rr_stop_price := rr_stop_price r; rr_p_win := rr_p_win r;
       rr_expected_gain_fraction := rr_expected_gain_fraction r; rr_expected_loss_fraction := rr_expected_loss_fraction r;
       rr_entry_fee_fraction := rr_entry_fee_fraction r; rr_leverage := rr_leverage r; rr_drawdown := rr_drawdown r;
       rr_open_positions := ps; rr_correlations := cs; rr_evaluated_at := rr_evaluated_at r |})
    (Hp : Permutation positions positions') (Hc : Permutation correlations correlations') :
  make positions correlations = make positions' correlations'.
Proof.
  unfold make, OfficialRiskRequest_post_init. cbn.
  pose proof (Permutation_map orp_symbol Hp) as Np. pose proof (Permutation_map co_other_symbol Hc) as Nc.
  rewrite <- (forallb_perm _ _ _ Nc).
  rewrite (bool_decide_ext (NoDup (map orp_symbol positions')) (NoDup (map orp_symbol positions))) by now rewrite Np.
  rewrite (bool_decide_ext (NoDup (map co_other_symbol correlations')) (NoDup (map co_other_symbol correlations)))
    by now rewrite Nc.
  rewrite (forallb_eq (fun s => bool_decide (s ∈ map orp_symbol positions') && negb (bool_decide (s = rr_symbol r)))
    (fun s => bool_decide (s ∈ map orp_symbol positions) && negb (bool_decide (s = rr_symbol r)))).
  2:{ intros s. f_equal. apply bool_decide_ext. now rewrite Np. }
  repeat first [apply raise_if_ext; intros ? | apply bind_ext; intros ?].
  bool_prop. do 2 f_equal; apply sort_by_Permutation; try assumption; now apply NoDup_ListNoDup.
Qed.

(** ** Concrete requests *)

Definition toy_sha (_ : string) : string := "aaaaaaaaaaaaaaaaaaaaaaaaaaaaaaaaaaaaaaaaaaaaaaaaaaaaaaaaaaaaaaaa".

Definition sample_raw (capital stop current : dec) : OfficialRiskRequest := {|
  rr_symbol := "BTCUSDT"; rr_direction := LONG; rr_capital := capital; rr_executable_price := dint 100;
  rr_stop_price := stop; rr_p_win := mkdec 6 (-1); rr_expected_gain_fraction := mkdec 2 (-2);
  rr_expected_loss_fraction := mkdec 1 (-2); rr_entry_fee_fraction := mkdec 4 (-4); rr_leverage := 1;
  rr_drawdown := {| dd_peak_equity := dint 1000; dd_current_equity := current |};
  rr_open_positions := [{| orp_symbol := "SOLUSDT"; orp_notional := dint 10; orp_loss_at_stop := dint 1; orp_margin := dint 10 |};
                        {| orp_symbol := "ETHUSDT"; orp_notional := dint 20; orp_loss_at_stop := dint 2; orp_margin := dint 20 |}];
  rr_correlations := [{| co_other_symbol := "SOLUSDT"; co_aligned_return_count := 80; co_correlation := Some (mkdec (-35) (-2)) |};
                      {| co_other_symbol := "ETHUSDT"; co_aligned_return_count := 60; co_correlation := Some (mkdec 6 (-1)) |}];
  rr_evaluated_at := utc 1750000000000000 |}.

(** The request as the constructor returns it. *)
Definition sample_request (capital stop current : dec) : OfficialRiskRequest :=
  match OfficialRiskRequest_post_init (sample_raw capital stop current) with
  | Ok r => r
  | Raise _ => sample_raw capital stop current
  end.

Lemma conservative_valid : valid_policy conservative.
Proof. apply (policy_post_init_valid conservative conservative). vm_compute. reflexivity. Qed.

Lemma toy_sha_length s : String.length (toy_sha s) = 64%nat.
Proof. reflexivity. Qed.

Lemma sample_request_valid capital stop current
  (H : match OfficialRiskRequest_post_init (sample_raw capital stop current),
             DrawdownSnapshot_post_init {| dd_peak_equity := dint 1000; dd_current_equity := current |} with
       | Ok _, Ok _ => true | _, _ => false end = true) : valid_risk_request (sample_request capital stop current).
Proof.
  unfold sample_request. destruct (OfficialRiskRequest_post_init (sample_raw capital stop current)) as [r|] eqn:E; [|discriminate].
  split; [now exists (sample_raw capital stop current)|].
  assert (Hd : rr_drawdown r = {| dd_peak_equity := dint 1000; dd_current_equity := current |}).
  { unfold OfficialRiskRequest_post_init in E. py_inv. reflexivity. }
  rewrite Hd. destruct (DrawdownSnapshot_post_init _) eqn:E2; [|discriminate].
  unfold DrawdownSnapshot_post_init in *. py_inv. reflexivity.
Qed.

Lemma sample_approved : exists d,
  evaluate toy_sha conservative (sample_request (dint 1000) (dint 95) (dint 940)) = Ok d /\ rd_approved d = true.
Proof. eexists. split; [vm_compute; reflexivity | reflexivity]. Qed.

Lemma risk_evaluate_total_witness : exists d,
  evaluate toy_sha conservative (sample_request (dint 1000) (dint 95) (dint 940)) = Ok d /\ map gt_check (rd_gates d) = all_checks.
Proof.
  destruct (risk_evaluate_total toy_sha conservative (sample_request (dint 1000) (dint 95) (dint 940)) toy_sha_length
    conservative_valid (sample_request_valid (dint 1000) (dint 95) (dint 940) eq_refl)) as (d & E & Hc & _).
  exists d. split; assumption.
Defined.

Lemma risk_approval_sound_witness : exists d,
  evaluate toy_sha conservative (sample_request (dint 1000) (dint 95) (dint 940)) = Ok d /\ rd_approved d = true /\
  (0 < dval (rd_quantity d))%Q.
Proof.
  destruct sample_approved as (d & E & A). exists d. split; [exact E|split; [exact A|]].
  pose proof (risk_approval_sound toy_sha conservative _ d toy_sha_length conservative_valid
    (sample_request_valid (dint 1000) (dint 95) (dint 940) eq_refl) E A) as H. tauto.
Defined.

(** A quarter of the equity is lost. *)
Lemma risk_halts_witness : exists d,
  evaluate toy_sha conservative (sample_request (dint 1000) (dint 95) (dint 750)) = Ok d /\ refused d.
Proof.
  apply (risk_halts toy_sha conservative (sample_request (dint 1000) (dint 95) (dint 750)) toy_sha_length
    conservative_valid (sample_request_valid (dint 1000) (dint 95) (dint 750) eq_refl)).
  right. right. left. exists (mkdec 25 (-2)). split; [vm_compute; reflexivity | vm_compute; discriminate].
Defined.

Lemma risk_order_independent_witness :
  OfficialRiskRequest_post_init (sample_raw (dint 1000) (dint 95) (dint 940)) =
  Ok (sample_request (dint 1000) (dint 95) (dint 940)) /\
  exists r, OfficialRiskRequest_post_init {|
     rr_symbol := "BTCUSDT"; rr_direction := LONG; rr_capital := dint 1000; rr_executable_price := dint 100;
     rr_stop_price := dint 95; rr_p_win := mkdec 6 (-1); rr_expected_gain_fraction := mkdec 2 (-2);
     rr_expected_loss_fraction := mkdec 1 (-2); rr_entry_fee_fraction := mkdec 4 (-4); rr_leverage := 1;
     rr_drawdown := {| dd_peak_equity := dint 1000; dd_current_equity := dint 940 |};
     rr_open_positions := rev (rr_open_positions (sample_raw (dint 1000) (dint 95) (dint 940)));
     rr_correlations := rev (rr_correlations (sample_raw (dint 1000) (dint 95) (dint 940)));
     rr_evaluated_at := utc 1750000000000000 |} = Ok r /\ r = sample_request (dint 1000) (dint 95) (dint 940).
Proof.
  split; [vm_compute; reflexivity|]. eexists; split; [|reflexivity].
  pose proof (risk_order_independent _ _ _ _ (sample_raw (dint 1000) (dint 95) (dint 940))
    (Permutation_rev (rr_open_positions (sample_raw (dint 1000) (dint 95) (dint 940))))
    (Permutation_rev (rr_correlations (sample_raw (dint 1000) (dint 95) (dint 940))))) as H. cbn beta zeta in H.
  refine (eq_trans (eq_sym H) _). vm_compute. reflexivity.
Defined.

(** The rounding of [risk_budget / stop_distance] can refuse a position
    that no limit constrains more tightly: with a capital of 450 and a stop 7
    away from the price the loss at the stop is 10^-27 above the budget, and the
    decision is a rejection that gives the reason code of a passed gate. *)
Theorem risk_rejects_by_rounding : exists d,
  evaluate toy_sha conservative {|
    rr_symbol := "BTCUSDT"; rr_direction := LONG; rr_capital := dint 450; rr_executable_price := dint 100;
    rr_stop_price := dint 93; rr_p_win := mkdec 6 (-1); rr_expected_gain_fraction := mkdec 2 (-2);
    rr_expected_loss_fraction := mkdec 1 (-2); rr_entry_fee_fraction := mkdec 4 (-4); rr_leverage := 1;
    rr_drawdown := {| dd_peak_equity := dint 1000; dd_current_equity := dint 1000 |};
    rr_open_positions := []; rr_correlations := []; rr_evaluated_at := utc 1750000000000000 |} = Ok d /\
  rd_approved d = false /\ rd_rejection_reason d = Some "trade_risk_sized_within_all_caps" /\
  rd_risk_at_stop d = mkdec 9000000000000000000000000002 (-27).
Proof. eexists. split; [vm_compute; reflexivity | repeat split]. Qed.
