(* ===== verification/MarketEvents.v ===== *)
(** * Observed market events: [maais/market_data/events.py]

    The eight payload classes, the event envelope, their constructors' checks
    and their dictionaries.  The class of a payload is its constructor in
    [MarketPayload]; [payload_kind] is the table [_PAYLOAD_TYPES] read from
    payload class to kind.  The SHA-256 digest is a parameter. *)

From Stdlib Require Import ZArith QArith Lia Lqa List Bool String Ascii.
From stdpp Require Import base decidable list strings.
From S2P Require Import Prelude PyDecimal DecimalTheory Domain Json.

Local Open Scope Z_scope.

Definition _require_utc (value : datetime) (field : string) : result unit :=
  raise_if (negb (is_utc value)) (ValueError (field +:+ " must be UTC-aware")).

(** A [dec] is a finite Decimal; the two keyword arguments are [positive] and [nonnegative]. *)
Definition _require_decimal (value : dec) (field : string) (positive nonnegative : bool) : result unit :=
  do* raise_if (positive && (value <=? dzero)%dec) (ValueError (field +:+ " must be positive")) ;;
  raise_if (nonnegative && (value <? dzero)%dec) (ValueError (field +:+ " must be nonnegative")).

Inductive MarketEventKind : Type :=
| CLOSED_BAR | ORDER_BOOK | TRADE | MARK_FUNDING | FUNDING_SETTLEMENT | REFERENCE_PRICE | VENUE_CLOCK | SYMBOL_STATE.
Inductive ReferenceKind : Type := PRIMARY_SPOT | SECONDARY_VENUE.
Inductive AggressorSide : Type := AGGRESSOR_BUY | AGGRESSOR_SELL.

#[export] Instance MarketEventKind_eq_dec : EqDecision MarketEventKind.
Proof. solve_decision. Defined.
#[export] Instance ReferenceKind_eq_dec : EqDecision ReferenceKind.
Proof. solve_decision. Defined.
#[export] Instance AggressorSide_eq_dec : EqDecision AggressorSide.
Proof. solve_decision. Defined.

#[export] Instance MarketEventKind_value : StrEnum MarketEventKind := fun k =>
  match k with
  | CLOSED_BAR => "closed_bar" | ORDER_BOOK => "order_book" | TRADE => "trade" | MARK_FUNDING => "mark_funding"
  | FUNDING_SETTLEMENT => "funding_settlement" | REFERENCE_PRICE => "reference_price"
  | VENUE_CLOCK => "venue_clock" | SYMBOL_STATE => "symbol_state"
  end.
#[export] Instance ReferenceKind_value : StrEnum ReferenceKind := fun k =>
  match k with PRIMARY_SPOT => "primary_spot" | SECONDARY_VENUE => "secondary_venue" end.
#[export] Instance AggressorSide_value : StrEnum AggressorSide := fun s =>
  match s with AGGRESSOR_BUY => "buy" | AGGRESSOR_SELL => "sell" end.

(** Optional values in dictionaries. *)
Definition popt {A} (f : A -> pyval) (o : option A) : pyval := match o with Some a => f a | None => PNone end.

(** ** Payloads *)

Record PriceLevel : Type := { pl_price : dec; pl_quantity : dec }.

Definition PriceLevel_post_init (l : PriceLevel) : result PriceLevel :=
  do* _require_decimal (pl_price l) "price level price" true false ;;
  do* _require_decimal (pl_quantity l) "price level quantity" true false ;;
  Ok l.

Definition level_to_dict (l : PriceLevel) : pyval :=
  PDict [("price", PDec (pl_price l)); ("quantity", PDec (pl_quantity l))].

Record ClosedBarPayload : Type := {
  cb_timeframe : string;
  cb_bar_open_at : datetime;
  cb_bar_close_at : datetime;
  cb_open : dec;
  cb_high : dec;
  cb_low : dec;
  cb_close : dec;
  cb_volume : dec;
  cb_quote_volume : dec;
  cb_trade_count : Z;
  cb_taker_buy_volume : dec;
  cb_taker_buy_quote_volume : dec;
  cb_closed : bool
}.

Definition positive_fields (l : list (string * dec)) : result unit :=
  iterM (fun nv => _require_decimal (snd nv) (fst nv) true false) l.
Definition nonnegative_fields (l : list (string * dec)) : result unit :=
  iterM (fun nv => _require_decimal (snd nv) (fst nv) false true) l.

Definition ClosedBarPayload_post_init (b : ClosedBarPayload) : result ClosedBarPayload :=
  do* raise_if (bool_decide (cb_timeframe b = "")) (ValueError "bar timeframe is required") ;;
  do* _require_utc (cb_bar_open_at b) "bar_open_at" ;;
  do* _require_utc (cb_bar_close_at b) "bar_close_at" ;;
  do* raise_if (dt_leb (cb_bar_close_at b) (cb_bar_open_at b)) (ValueError "bar_close_at must follow bar_open_at") ;;
  do* positive_fields [("open", cb_open b); ("high", cb_high b); ("low", cb_low b); ("close", cb_close b)] ;;
  do* nonnegative_fields [("volume", cb_volume b); ("quote_volume", cb_quote_volume b);
        ("taker_buy_volume", cb_taker_buy_volume b); ("taker_buy_quote_volume", cb_taker_buy_quote_volume b)] ;;
  do* raise_if (cb_trade_count b <? 0) (ValueError "trade_count must be nonnegative") ;;
  do* raise_if ((cb_low b >? dmin (cb_open b) (cb_close b))%dec || (cb_high b <? dmax (cb_open b) (cb_close b))%dec)
        (ValueError "bar OHLC values are inconsistent") ;;
  do* raise_if (cb_high b <? cb_low b)%dec (ValueError "bar high cannot be below low") ;;
  do* raise_if (cb_taker_buy_volume b >? cb_volume b)%dec (ValueError "taker buy volume cannot exceed total volume") ;;
  do* raise_if (cb_taker_buy_quote_volume b >? cb_quote_volume b)%dec
        (ValueError "taker buy quote volume cannot exceed total quote volume") ;;
  Ok b.

Definition bar_to_dict (b : ClosedBarPayload) : pyval := PDict
  [("timeframe", PStr (cb_timeframe b)); ("bar_open_at", PTime (cb_bar_open_at b));
   ("bar_close_at", PTime (cb_bar_close_at b)); ("open", PDec (cb_open b)); ("high", PDec (cb_high b));
   ("low", PDec (cb_low b)); ("close", PDec (cb_close b)); ("volume", PDec (cb_volume b));
   ("quote_volume", PDec (cb_quote_volume b)); ("trade_count", PInt (cb_trade_count b));
   ("taker_buy_volume", PDec (cb_taker_buy_volume b));
   ("taker_buy_quote_volume", PDec (cb_taker_buy_quote_volume b)); ("closed", PBool (cb_closed b))].

Record OrderBookPayload : Type := {
  ob_bids : list PriceLevel;
  ob_asks : list PriceLevel;
  ob_published_at : datetime;
  ob_sequence_start : Z;
  ob_previous_sequence : option Z;
  ob_snapshot_sequence : option Z
}.

(** [any(bad(left, right) for left, right in zip(l, l[1:]))]. *)
Fixpoint any_pair {A} (bad : A -> A -> bool) (l : list A) : bool :=
  match l with
  | x :: ((y :: _) as l') => bad x y || any_pair bad l'
  | _ => false
  end.

Definition negative_sequence (nv : string * option Z) : result unit :=
  raise_if (match snd nv with Some v => v <? 0 | None => false end)
    (ValueError ("order book " +:+ fst nv +:+ " must be nonnegative")).

Definition OrderBookPayload_post_init (b : OrderBookPayload) : result OrderBookPayload :=
  do* _require_utc (ob_published_at b) "order book published_at" ;;
  do* raise_if (ob_sequence_start b <? 0) (ValueError "order book sequence_start must be nonnegative") ;;
  do* iterM negative_sequence
        [("previous_sequence", ob_previous_sequence b); ("snapshot_sequence", ob_snapshot_sequence b)] ;;
  match ob_bids b, ob_asks b with
  | bid :: _, ask :: _ =>
      do* raise_if (any_pair (fun l r => (pl_price l <=? pl_price r)%dec) (ob_bids b))
            (ValueError "order book bids must be strictly descending") ;;
      do* raise_if (any_pair (fun l r => (pl_price l >=? pl_price r)%dec) (ob_asks b))
            (ValueError "order book asks must be strictly ascending") ;;
      do* raise_if (pl_price bid >=? pl_price ask)%dec (ValueError "order book is crossed or locked") ;;
      Ok b
  | _, _ => Raise (ValueError "order book requires bid and ask depth")
  end.

(** [levels[0].price]. *)
Definition first_price (l : list PriceLevel) : result dec :=
  of_option (LookupError "tuple index out of range") (option_map pl_price (head l)).

Definition book_to_dict (b : OrderBookPayload) : pyval := PDict
  [("bids", PSeq (map level_to_dict (ob_bids b))); ("asks", PSeq (map level_to_dict (ob_asks b)));
   ("published_at", PTime (ob_published_at b)); ("sequence_start", PInt (ob_sequence_start b));
   ("previous_sequence", popt PInt (ob_previous_sequence b));
   ("snapshot_sequence", popt PInt (ob_snapshot_sequence b))].

Record TradePayload : Type := { tp_price : dec; tp_quantity : dec; tp_aggressor_side : AggressorSide }.

Definition TradePayload_post_init (t : TradePayload) : result TradePayload :=
  do* _require_decimal (tp_price t) "trade price" true false ;;
  do* _require_decimal (tp_quantity t) "trade quantity" true false ;;
  Ok t.

Definition trade_to_dict (t : TradePayload) : pyval := PDict
  [("price", PDec (tp_price t)); ("quantity", PDec (tp_quantity t));
   ("aggressor_side", PEnum (enum_value (tp_aggressor_side t)))].

Record MarkFundingPayload : Type := {
  mf_mark_price : dec;
  mf_index_price : dec;
  mf_funding_rate : dec;
  mf_next_funding_at : datetime;
  mf_estimated_settle_price : option dec
}.

Definition MarkFundingPayload_post_init (p : MarkFundingPayload) : result MarkFundingPayload :=
  do* _require_decimal (mf_mark_price p) "mark_price" true false ;;
  do* _require_decimal (mf_index_price p) "index_price" true false ;;
  do* _require_decimal (mf_funding_rate p) "funding_rate" false false ;;
  do* _require_utc (mf_next_funding_at p) "next_funding_at" ;;
  do* match mf_estimated_settle_price p with
      | Some v => _require_decimal v "estimated_settle_price" false true
      | None => Ok tt
      end ;;
  Ok p.

Definition mark_to_dict (p : MarkFundingPayload) : pyval := PDict
  [("mark_price", PDec (mf_mark_price p)); ("index_price", PDec (mf_index_price p));
   ("funding_rate", PDec (mf_funding_rate p)); ("next_funding_at", PTime (mf_next_funding_at p));
   ("estimated_settle_price", popt PDec (mf_estimated_settle_price p))].

Record FundingSettlementPayload : Type := {
  fs_funding_at : datetime; fs_funding_rate : dec; fs_mark_price : dec; fs_rate_type : string
}.

Definition FundingSettlementPayload_post_init (p : FundingSettlementPayload) : result FundingSettlementPayload :=
  do* _require_utc (fs_funding_at p) "funding_at" ;;
  do* _require_decimal (fs_funding_rate p) "funding_rate" false false ;;
  do* _require_decimal (fs_mark_price p) "funding mark_price" true false ;;
  do* raise_if (negb (bool_decide (fs_rate_type p = "Regular") || bool_decide (fs_rate_type p = "Special")))
        (ValueError "funding rate_type must be Regular or Special") ;;
  Ok p.

Definition settlement_to_dict (p : FundingSettlementPayload) : pyval := PDict
  [("funding_at", PTime (fs_funding_at p)); ("funding_rate", PDec (fs_funding_rate p));
   ("mark_price", PDec (fs_mark_price p)); ("rate_type", PStr (fs_rate_type p))].

Record ReferencePricePayload : Type := {
  rp_reference_kind : ReferenceKind;
  rp_instrument : string;
  rp_price : dec;
  rp_source_event_id : string;
  rp_source_quantity : option dec;
  rp_source_side : option AggressorSide;
  rp_source_bid : option dec;
  rp_source_ask : option dec;
  rp_source_published_at : option datetime;
  rp_source_engine_at : option datetime
}.

Definition opt_check {A} (f : A -> result unit) (o : option A) : result unit :=
  match o with Some a => f a | None => Ok tt end.

Definition present {A} (o : option A) : bool := match o with Some _ => true | None => false end.

Definition ReferencePricePayload_post_init (p : ReferencePricePayload) : result ReferencePricePayload :=
  do* raise_if (bool_decide (rp_instrument p = "") || bool_decide (rp_source_event_id p = ""))
        (ValueError "reference instrument and source event are required") ;;
  do* _require_decimal (rp_price p) "reference price" true false ;;
  do* opt_check (fun q => _require_decimal q "reference source quantity" true false) (rp_source_quantity p) ;;
  do* raise_if (negb (Bool.eqb (present (rp_source_bid p)) (present (rp_source_ask p))))
        (ValueError "reference bid and ask must be present together") ;;
  do* match rp_source_bid p, rp_source_ask p with
      | Some bid, Some ask =>
          do* _require_decimal bid "reference source bid" true false ;;
          do* _require_decimal ask "reference source ask" true false ;;
          raise_if (bid >=? ask)%dec (ValueError "reference source bid must be below ask")
      | _, _ => Ok tt
      end ;;
  do* opt_check (fun t => _require_utc t "reference source_published_at") (rp_source_published_at p) ;;
  do* opt_check (fun t => _require_utc t "reference source_engine_at") (rp_source_engine_at p) ;;
  Ok p.

Definition reference_to_dict (p : ReferencePricePayload) : pyval := PDict
  [("reference_kind", PEnum (enum_value (rp_reference_kind p))); ("instrument", PStr (rp_instrument p));
   ("price", PDec (rp_price p)); ("source_event_id", PStr (rp_source_event_id p));
   ("source_quantity", popt PDec (rp_source_quantity p));
   ("source_side", popt (fun s => PEnum (enum_value s)) (rp_source_side p));
   ("source_bid", popt PDec (rp_source_bid p)); ("source_ask", popt PDec (rp_source_ask p));
   ("source_published_at", popt PTime (rp_source_published_at p));
   ("source_engine_at", popt PTime (rp_source_engine_at p))].

Record VenueClockPayload : Type := { vc_server_time : datetime }.

Definition VenueClockPayload_post_init (p : VenueClockPayload) : result VenueClockPayload :=
  do* _require_utc (vc_server_time p) "server_time" ;; Ok p.

Definition clock_to_dict (p : VenueClockPayload) : pyval := PDict [("server_time", PTime (vc_server_time p))].

Record SymbolStatePayload : Type := { ss_status : string }.

Definition SymbolStatePayload_post_init (p : SymbolStatePayload) : result SymbolStatePayload :=
  do* raise_if (negb (upper_symbol (ss_status p))) (ValueError "symbol status must be a nonempty uppercase value") ;;
  Ok p.

Definition state_to_dict (p : SymbolStatePayload) : pyval := PDict [("status", PStr (ss_status p))].

Inductive MarketPayload : Type :=
| BarPayload (p : ClosedBarPayload)
| BookPayload (p : OrderBookPayload)
| TradePrintPayload (p : TradePayload)
| MarkPayload (p : MarkFundingPayload)
| SettlementPayload (p : FundingSettlementPayload)
| ReferencePayload (p : ReferencePricePayload)
| ClockPayload (p : VenueClockPayload)
| StatePayload (p : SymbolStatePayload).

(** The kind whose entry in [_PAYLOAD_TYPES] is the class of the payload. *)
Definition payload_kind (p : MarketPayload) : MarketEventKind :=
  match p with
  | BarPayload _ => CLOSED_BAR | BookPayload _ => ORDER_BOOK | TradePrintPayload _ => TRADE
  | MarkPayload _ => MARK_FUNDING | SettlementPayload _ => FUNDING_SETTLEMENT
  | ReferencePayload _ => REFERENCE_PRICE | ClockPayload _ => VENUE_CLOCK | StatePayload _ => SYMBOL_STATE
  end.

Definition payload_to_dict (p : MarketPayload) : pyval :=
  match p with
  | BarPayload p => bar_to_dict p | BookPayload p => book_to_dict p | TradePrintPayload p => trade_to_dict p
  | MarkPayload p => mark_to_dict p | SettlementPayload p => settlement_to_dict p
  | ReferencePayload p => reference_to_dict p | ClockPayload p => clock_to_dict p | StatePayload p => state_to_dict p
  end.

(** ** Events *)

Record ObservedMarketEvent : Type := {
  ev_venue : string;
  ev_stream : string;
  ev_symbol : string;
  ev_event_id : string;
  ev_kind : MarketEventKind;
  ev_venue_event_at : datetime;
  ev_observed_at : datetime;
  ev_sequence : option Z;
  ev_sequence_not_applicable_reason : option string;
  ev_payload : MarketPayload
}.

Definition ObservedMarketEvent_post_init (e : ObservedMarketEvent) : result ObservedMarketEvent :=
  do* raise_if (bool_decide (ev_venue e = "") || bool_decide (ev_stream e = "") || bool_decide (ev_event_id e = ""))
        (ValueError "venue, stream, and event_id are required") ;;
  do* raise_if (negb (upper_symbol (ev_symbol e))) (ValueError "event symbol must be nonempty uppercase") ;;
  do* _require_utc (ev_venue_event_at e) "venue_event_at" ;;
  do* _require_utc (ev_observed_at e) "observed_at" ;;
  do* match ev_sequence e with
      | None => raise_if (match ev_sequence_not_applicable_reason e with
                          | Some r => bool_decide (r = "") | None => true end)
                  (ValueError "missing sequence requires an explicit reason")
      | Some s =>
          do* raise_if (s <? 0) (ValueError "sequence must be nonnegative") ;;
          raise_if (present (ev_sequence_not_applicable_reason e))
            (ValueError "sequence reason is invalid when a sequence exists")
      end ;;
  do* raise_if (negb (bool_decide (payload_kind (ev_payload e) = ev_kind e)))
        (ValueError ("event payload does not match kind " +:+ enum_value (ev_kind e))) ;;
  Ok e.

Definition identity (e : ObservedMarketEvent) : string * string * string * string :=
  (ev_venue e, ev_stream e, ev_symbol e, ev_event_id e).

Definition event_to_dict (e : ObservedMarketEvent) : pyval := PDict
  [("venue", PStr (ev_venue e)); ("stream", PStr (ev_stream e)); ("symbol", PStr (ev_symbol e));
   ("event_id", PStr (ev_event_id e)); ("kind", PEnum (enum_value (ev_kind e)));
   ("venue_event_at", PTime (ev_venue_event_at e)); ("observed_at", PTime (ev_observed_at e));
   ("sequence", popt PInt (ev_sequence e));
   ("sequence_not_applicable_reason", popt PStr (ev_sequence_not_applicable_reason e));
   ("payload", payload_to_dict (ev_payload e))].

Definition event_hash (sha256_hex : string -> string) (e : ObservedMarketEvent) : result string :=
  content_hash sha256_hex (event_to_dict e).

(** ** Values that exist *)

Definition valid_bar (b : ClosedBarPayload) : Prop := ClosedBarPayload_post_init b = Ok b.
Definition valid_order_book (b : OrderBookPayload) : Prop :=
  OrderBookPayload_post_init b = Ok b /\ Forall (fun l => PriceLevel_post_init l = Ok l) (ob_bids b ++ ob_asks b).

Definition valid_payload (p : MarketPayload) : Prop :=
  match p with
  | BarPayload p => valid_bar p
  | BookPayload p => valid_order_book p
  | TradePrintPayload p => TradePayload_post_init p = Ok p
  | MarkPayload p => MarkFundingPayload_post_init p = Ok p
  | SettlementPayload p => FundingSettlementPayload_post_init p = Ok p
  | ReferencePayload p => ReferencePricePayload_post_init p = Ok p
  | ClockPayload p => VenueClockPayload_post_init p = Ok p
  | StatePayload p => SymbolStatePayload_post_init p = Ok p
  end.

Definition valid_event (e : ObservedMarketEvent) : Prop :=
  valid_payload (ev_payload e) /\ ObservedMarketEvent_post_init e = Ok e.

(** ** Facts *)

Lemma _require_utc_Ok t f u : _require_utc t f = Ok u <-> is_utc t = true.
Proof. unfold _require_utc. rewrite raise_if_Ok. apply negb_false_iff. Qed.

Lemma _require_decimal_Ok v f p n u : _require_decimal v f p n = Ok u ->
  (p = true -> (0 < dval v)%Q) /\ (n = true -> (0 <= dval v)%Q).
Proof.
  unfold _require_decimal. intros H. py_inv.
  apply andb_false_iff in H0, H. split; intros ->.
  - destruct H0 as [H0|H0]; [discriminate|]. dec_prop. now rewrite dval_zero in H0.
  - destruct H as [H|H]; [discriminate|]. dec_prop. now rewrite dval_zero in H.
Qed.

Record bar_facts (b : ClosedBarPayload) : Prop := {
  bf_open_utc : is_utc (cb_bar_open_at b) = true;
  bf_close_utc : is_utc (cb_bar_close_at b) = true;
  bf_order : instant (cb_bar_open_at b) < instant (cb_bar_close_at b);
  bf_close : (0 < dval (cb_close b))%Q;
  bf_ohlc : ((cb_low b <=? dmin (cb_open b) (cb_close b))%dec && (cb_high b >=? dmax (cb_open b) (cb_close b))%dec) = true;
  bf_volume : (0 <= dval (cb_volume b))%Q;
  bf_quote : (0 <= dval (cb_quote_volume b))%Q
}.

Lemma valid_bar_facts b : valid_bar b -> bar_facts b.
Proof.
  unfold valid_bar, ClosedBarPayload_post_init, positive_fields, nonnegative_fields. intros H. cbn [iterM snd fst] in H. py_inv.
  repeat match goal with
    | H : _require_utc _ _ = Ok _ |- _ => apply _require_utc_Ok in H
    | H : _require_decimal _ _ _ _ = Ok _ |- _ => apply _require_decimal_Ok in H as [? ?]
    end.
  unfold dt_leb in *. bool_prop. dec_prop. split; auto. apply andb_true_iff. split; now dec_prop.
Qed.

Lemma freezable_popt {A} (f : A -> pyval) o : (forall a, o = Some a -> freezable (f a) = true) -> freezable (popt f o) = true.
Proof. destruct o as [a|]; intros H; [now apply H | reflexivity]. Qed.

Lemma valid_payload_freezable p : valid_payload p -> freezable (payload_to_dict p) = true.
Proof.
  assert (Ht : forall t f u, _require_utc t f = Ok u -> freezable (PTime t) = true)
    by (intros t f u H; apply _require_utc_Ok in H; exact H).
  assert (Ho : forall (o : option datetime) f u, opt_check (fun t => _require_utc t f) o = Ok u -> freezable (popt PTime o) = true).
  { intros [t|] f u H; [now apply (Ht t f u) | reflexivity]. }
  destruct p as [p|p|p|p|p|p|p|p]; cbn [valid_payload payload_to_dict]; intros H.
  - apply valid_bar_facts in H. unfold bar_to_dict. cbn. now rewrite (bf_open_utc p H), (bf_close_utc p H).
  - destruct H as [H _]. unfold OrderBookPayload_post_init in H. py_inv. unfold book_to_dict. cbn [freezable forallb snd].
    rewrite !forallb_freezable by reflexivity. change (is_utc (ob_published_at p)) with (freezable (PTime (ob_published_at p))). rewrite (Ht _ _ _ H0), !freezable_popt by reflexivity. reflexivity.
  - unfold TradePayload_post_init in H. reflexivity.
  - unfold MarkFundingPayload_post_init in H. py_inv. unfold mark_to_dict. cbn [freezable forallb snd].
    rewrite freezable_popt by reflexivity. match goal with H : _require_utc _ _ = Ok _ |- _ => apply _require_utc_Ok in H; rewrite H end. reflexivity.
  - unfold FundingSettlementPayload_post_init in H. py_inv. unfold settlement_to_dict. cbn [freezable forallb snd].
    apply _require_utc_Ok in H0. rewrite H0. reflexivity.
  - unfold ReferencePricePayload_post_init in H. py_inv. unfold reference_to_dict. cbn [forallb freezable snd].
    rewrite !(freezable_popt PDec), !(freezable_popt (fun s => PEnum _)) by reflexivity.
    repeat match goal with H : opt_check (fun t => _require_utc t _) _ = Ok _ |- _ => apply Ho in H; rewrite H end. reflexivity.
  - unfold VenueClockPayload_post_init in H. py_inv. unfold clock_to_dict. cbn. apply _require_utc_Ok in H0. now rewrite H0.
  - reflexivity.
Qed.

Record event_facts (e : ObservedMarketEvent) : Prop := {
  ef_venue_at : is_utc (ev_venue_event_at e) = true;
  ef_observed : is_utc (ev_observed_at e) = true;
  ef_kind : payload_kind (ev_payload e) = ev_kind e;
  ef_payload : valid_payload (ev_payload e);
  ef_sequence : match ev_sequence e with Some s => 0 <= s | None => True end
}.

Lemma valid_event_facts e : valid_event e -> event_facts e.
Proof.
  intros [Hp H]. unfold ObservedMarketEvent_post_init in H. py_inv.
  repeat match goal with H : _require_utc _ _ = Ok _ |- _ => apply _require_utc_Ok in H end. bool_prop.
  split; auto. destruct (ev_sequence e); [|exact I]. py_inv. now bool_prop.
Qed.

Lemma event_freezable e : valid_event e -> freezable (event_to_dict e) = true.
Proof.
  intros V. pose proof (valid_event_facts e V) as F. unfold event_to_dict. cbn [freezable forallb snd].
  rewrite (ef_venue_at e F), (ef_observed e F), (valid_payload_freezable _ (ef_payload e F)), !freezable_popt by reflexivity.
  reflexivity.
Qed.

Lemma event_hash_total h e : valid_event e -> exists t, event_hash h e = Ok t.
Proof.
  intros V. unfold event_hash. destruct (content_hash_total h (event_to_dict e) (event_freezable e V)) as [b Hb]. eauto.
Qed.
