(* ===== verification/Frames.v ===== *)
(** * Causal minute frames: [maais/market_data/frames.py]

    The frame key, the source observations, the frame and its builder: what the
    program knows of the market when it decides on a closed minute bar.  The
    builder takes the events seen up to the decision cutoff, drops repeated
    deliveries, refuses two contents under one identity and keeps the latest
    event of each source.

    SHA-256 and [uuid.uuid5] of the URL name space are parameters. *)

From Stdlib Require Import ZArith QArith Lia Lqa List Bool String Ascii.
From stdpp Require Import base decidable list strings.
From S2P Require Import Prelude PyDecimal DecimalTheory Domain Json MarketEvents.

Local Open Scope Z_scope.

Inductive TimestampBasis : Type := VENUE_EVENT | LOCAL_OBSERVATION.

#[export] Instance TimestampBasis_eq_dec : EqDecision TimestampBasis.
Proof. solve_decision. Defined.
#[export] Instance TimestampBasis_value : StrEnum TimestampBasis := fun b =>
  match b with VENUE_EVENT => "venue_event" | LOCAL_OBSERVATION => "local_observation" end.

Record FrameKey : Type := {
  fk_experiment_id : UUID;
  fk_strategy_version_id : UUID;
  fk_symbol : string;
  fk_timeframe : string;
  fk_bar_close_at : datetime
}.

Definition FrameKey_post_init (k : FrameKey) : result FrameKey :=
  do* raise_if ((fk_experiment_id k =? 0) || (fk_strategy_version_id k =? 0)) (ValueError "frame key UUIDs cannot be nil") ;;
  do* raise_if (negb (upper_symbol (fk_symbol k))) (ValueError "frame key symbol must be nonempty uppercase") ;;
  do* raise_if (bool_decide (fk_timeframe k = "")) (ValueError "frame key timeframe is required") ;;
  do* raise_if (negb (is_utc (fk_bar_close_at k))) (ValueError "frame key bar_close_at must be UTC-aware") ;;
  Ok k.

Definition frame_name (k : FrameKey) : string :=
  "maais://market-frame/" +:+ uuid_str (fk_experiment_id k) +:+ "/" +:+ uuid_str (fk_strategy_version_id k) +:+ "/" +:+
  fk_symbol k +:+ "/" +:+ fk_timeframe k +:+ "/" +:+ isoformat (fk_bar_close_at k).

Definition key_to_dict (k : FrameKey) : pyval := PDict
  [("experiment_id", PUuid (fk_experiment_id k)); ("strategy_version_id", PUuid (fk_strategy_version_id k));
   ("symbol", PStr (fk_symbol k)); ("timeframe", PStr (fk_timeframe k)); ("bar_close_at", PTime (fk_bar_close_at k))].

Record SourceObservation : Type := {
  so_venue : string;
  so_stream : string;
  so_event_id : string;
  so_content_hash : string;
  so_venue_event_at : datetime;
  so_observed_at : datetime;
  so_sequence : option Z;
  so_source_published_at : option datetime;
  so_source_engine_at : option datetime;
  so_timestamp_basis : TimestampBasis
}.

Definition source_to_dict (s : SourceObservation) : pyval := PDict
  [("venue", PStr (so_venue s)); ("stream", PStr (so_stream s)); ("event_id", PStr (so_event_id s));
   ("content_hash", PStr (so_content_hash s)); ("venue_event_at", PTime (so_venue_event_at s));
   ("observed_at", PTime (so_observed_at s)); ("sequence", popt PInt (so_sequence s));
   ("source_published_at", popt PTime (so_source_published_at s));
   ("source_engine_at", popt PTime (so_source_engine_at s));
   ("timestamp_basis", PEnum (enum_value (so_timestamp_basis s)))].

Record CausalMinuteFrame : Type := {
  cf_key : FrameKey;
  cf_frame_id : UUID;
  cf_cutoff_at : datetime;
  cf_bar : ClosedBarPayload;
  cf_book_bids : list PriceLevel;
  cf_book_asks : list PriceLevel;
  cf_best_bid : option dec;
  cf_best_ask : option dec;
  cf_mark_price : option dec;
  cf_index_price : option dec;
  cf_funding_rate : option dec;
  cf_primary_spot_price : option dec;
  cf_secondary_venue_price : option dec;
  cf_venue_server_time : option datetime;
  cf_symbol_status : option string;
  cf_source_manifest : pydict SourceObservation;
  cf_content_hash : string
}.

(** [x != y.price] where [x] may be [None]. *)
Definition differs (x : option dec) (l : list PriceLevel) : bool :=
  match x, l with
  | Some d, y :: _ => negb (d =? pl_price y)%dec
  | _, _ => true
  end.

Definition nonempty {A} (l : list A) : bool := match l with [] => false | _ => true end.

(** The dictionary that the content hash covers. *)
Definition normalized (f : CausalMinuteFrame) : pyval := PDict
  [("key", key_to_dict (cf_key f)); ("frame_id", PUuid (cf_frame_id f)); ("cutoff_at", PTime (cf_cutoff_at f));
   ("bar", bar_to_dict (cf_bar f)); ("book_bids", PSeq (map level_to_dict (cf_book_bids f)));
   ("book_asks", PSeq (map level_to_dict (cf_book_asks f))); ("best_bid", popt PDec (cf_best_bid f));
   ("best_ask", popt PDec (cf_best_ask f)); ("mark_price", popt PDec (cf_mark_price f));
   ("index_price", popt PDec (cf_index_price f)); ("funding_rate", popt PDec (cf_funding_rate f));
   ("primary_spot_price", popt PDec (cf_primary_spot_price f));
   ("secondary_venue_price", popt PDec (cf_secondary_venue_price f));
   ("venue_server_time", popt PTime (cf_venue_server_time f)); ("symbol_status", popt PStr (cf_symbol_status f));
   ("source_manifest", PDict (map (fun ns => (fst ns, source_to_dict (snd ns))) (cf_source_manifest f)))].

Section Builder.
Context (sha256_hex : string -> string) (uuid5 : string -> UUID).

Definition key_frame_id (k : FrameKey) : UUID := uuid5 (frame_name k).

Definition CausalMinuteFrame_post_init (f : CausalMinuteFrame) : result CausalMinuteFrame :=
  do* raise_if (negb (cf_frame_id f =? key_frame_id (cf_key f)))
        (ValueError "frame_id differs from deterministic frame key") ;;
  do* raise_if (negb (bool_decide (String.length (cf_content_hash f) = 64%nat)))
        (ValueError "frame content_hash must be SHA-256") ;;
  do* raise_if (negb (Bool.eqb (nonempty (cf_book_bids f)) (nonempty (cf_book_asks f))))
        (ValueError "causal frame book sides must be present together") ;;
  do* (if nonempty (cf_book_bids f)
       then raise_if (differs (cf_best_bid f) (cf_book_bids f) || differs (cf_best_ask f) (cf_book_asks f))
              (ValueError "causal frame best prices differ from captured book depth")
       else raise_if (present (cf_best_bid f) || present (cf_best_ask f))
              (ValueError "causal frame best prices require captured book depth")) ;;
  Ok f.

Definition from_event (e : ObservedMarketEvent) : result SourceObservation :=
  let* digest := event_hash sha256_hex e in
  Ok {| so_venue := ev_venue e; so_stream := ev_stream e; so_event_id := ev_event_id e; so_content_hash := digest;
        so_venue_event_at := ev_venue_event_at e; so_observed_at := ev_observed_at e; so_sequence := ev_sequence e;
        so_source_published_at := match ev_payload e with ReferencePayload p => rp_source_published_at p | _ => None end;
        so_source_engine_at := match ev_payload e with ReferencePayload p => rp_source_engine_at p | _ => None end;
        so_timestamp_basis := if dt_eqb (ev_venue_event_at e) (ev_observed_at e) then LOCAL_OBSERVATION else VENUE_EVENT |}.

(** The message of the source also shows the identity. *)
Definition conflict : exn := FrameIdentityConflict "event has different content under the same identity".

(** [_deduplicate]: the values of a dictionary keyed by identity, in insertion order. *)
Fixpoint dedup_loop (acc events : list ObservedMarketEvent) : result (list ObservedMarketEvent) :=
  match events with
  | [] => Ok acc
  | event :: events' =>
      match find (fun x => bool_decide (identity x = identity event)) acc with
      | None => dedup_loop (acc ++ [event]) events'
      | Some existing =>
          let* h := event_hash sha256_hex existing in
          let* h' := event_hash sha256_hex event in
          do* raise_if (negb (bool_decide (h = h'))) conflict ;;
          dedup_loop acc events'
      end
  end.
Definition _deduplicate (events : list ObservedMarketEvent) : result (list ObservedMarketEvent) := dedup_loop [] events.

(** The sort key of [_latest]: observation time, venue time, sequence or -1, event id, content hash. *)
Definition latest_key : Type := Z * Z * Z * string * string.

Definition event_latest_key (e : ObservedMarketEvent) : result latest_key :=
  let* h := event_hash sha256_hex e in
  Ok (instant (ev_observed_at e), instant (ev_venue_event_at e),
      match ev_sequence e with Some s => s | None => -1 end, ev_event_id e, h).

Definition lex (c d : comparison) : comparison := match c with Eq => d | _ => c end.
Definition latest_compare (a b : latest_key) : comparison :=
  let '(o, v, s, i, h) := a in
  let '(o', v', s', i', h') := b in
  lex (o ?= o') (lex (v ?= v') (lex (s ?= s') (lex (String.compare i i') (String.compare h h')))).
Definition later (a b : latest_key) : bool := match latest_compare a b with Gt => true | _ => false end.

(** [max(.., key=.., default=None)]: the first of the maximal elements. *)
Definition max_keyed (l : list (latest_key * ObservedMarketEvent)) : option ObservedMarketEvent :=
  match l with
  | [] => None
  | x :: l' => Some (snd (fold_left (fun best y => if later (fst y) (fst best) then y else best) l' x))
  end.

Definition keyed (e : ObservedMarketEvent) : result (latest_key * ObservedMarketEvent) :=
  let* k := event_latest_key e in Ok (k, e).

Definition _latest (events : list ObservedMarketEvent) (predicate : ObservedMarketEvent -> bool)
  : result (option ObservedMarketEvent) :=
  let* candidates := mapM keyed (List.filter predicate events) in
  Ok (max_keyed candidates).

Definition is_kind (kind : MarketEventKind) (venue : string) (e : ObservedMarketEvent) : bool :=
  bool_decide (ev_kind e = kind) && bool_decide (ev_venue e = venue).

Definition is_reference (rk : ReferenceKind) (e : ObservedMarketEvent) : bool :=
  bool_decide (ev_kind e = REFERENCE_PRICE) &&
  match ev_payload e with ReferencePayload p => bool_decide (rp_reference_kind p = rk) | _ => false end.

Definition _latest_reference (events : list ObservedMarketEvent) (rk : ReferenceKind)
  : result (option ObservedMarketEvent) := _latest events (is_reference rk).

(** [_payload(event, cls)]: [project] is the [isinstance] test. *)
Definition _payload {A} (project : MarketPayload -> option A) (name : string) (event : option ObservedMarketEvent)
  : result (option A) :=
  match event with
  | None => Ok None
  | Some e =>
      let* p := of_option (TypeError ("event payload is not " +:+ name)) (project (ev_payload e)) in Ok (Some p)
  end.

Definition as_book (p : MarketPayload) := match p with BookPayload b => Some b | _ => None end.
Definition as_mark (p : MarketPayload) := match p with MarkPayload b => Some b | _ => None end.
Definition as_reference (p : MarketPayload) := match p with ReferencePayload b => Some b | _ => None end.
Definition as_clock (p : MarketPayload) := match p with ClockPayload b => Some b | _ => None end.
Definition as_state (p : MarketPayload) := match p with StatePayload b => Some b | _ => None end.

(** [next((event for event in events if ..), None)]: same identity and same content as [e]. *)
Fixpoint canonical_of (e : ObservedMarketEvent) (events : list ObservedMarketEvent) : result (option ObservedMarketEvent) :=
  match events with
  | [] => Ok None
  | x :: events' =>
      if bool_decide (identity x = identity e) then
        let* h := event_hash sha256_hex x in
        let* h' := event_hash sha256_hex e in
        if bool_decide (h = h') then Ok (Some x) else canonical_of e events'
      else canonical_of e events'
  end.

(** The named sources that are present, observed. *)
Fixpoint manifest_of (selected : list (string * option ObservedMarketEvent)) : result (pydict SourceObservation) :=
  match selected with
  | [] => Ok []
  | (_, None) :: selected' => manifest_of selected'
  | (name, Some e) :: selected' =>
      let* s := from_event e in
      let* rest := manifest_of selected' in
      Ok ((name, s) :: rest)
  end.

(** The checks on the bar, and the decision cutoff. *)
Definition frame_cutoff (key : FrameKey) (closed_bar_event : ObservedMarketEvent) (decision_cutoff : option datetime)
  : result (ClosedBarPayload * datetime) :=
  let* bar := of_option (ValueError "frame requires a closed-bar event")
    (match ev_kind closed_bar_event, ev_payload closed_bar_event with CLOSED_BAR, BarPayload b => Some b | _, _ => None end) in
  do* raise_if (negb (cb_closed bar)) (ValueError "frame requires a fully closed bar") ;;
  do* raise_if (negb (bool_decide (cb_timeframe bar = "1m")) ||
                negb (dt_sub (cb_bar_close_at bar) (cb_bar_open_at bar) =? seconds 60))
        (ValueError "frame builder requires an aligned one-minute bar") ;;
  do* raise_if (negb (bool_decide (fk_symbol key = ev_symbol closed_bar_event)) ||
                negb (bool_decide (fk_timeframe key = cb_timeframe bar)) ||
                negb (dt_eqb (fk_bar_close_at key) (cb_bar_close_at bar)))
        (ValueError "frame key does not match the closed bar") ;;
  let cutoff := match decision_cutoff with Some c => c | None => ev_observed_at closed_bar_event end in
  do* raise_if (negb (is_utc cutoff)) (ValueError "frame decision cutoff must be UTC-aware") ;;
  do* raise_if (dt_ltb cutoff (cb_bar_close_at bar) || dt_ltb (ev_observed_at closed_bar_event) cutoff)
        (ValueError "frame decision cutoff must fall between bar close and bar observation") ;;
  Ok (bar, cutoff).

Definition available (key : FrameKey) (cutoff : datetime) (events : list ObservedMarketEvent) : list ObservedMarketEvent :=
  List.filter (fun e => bool_decide (ev_symbol e = fk_symbol key) && dt_leb (ev_observed_at e) cutoff) events.

(** The events of the sources other than the bar. *)
Record sources : Type := {
  sr_book : option ObservedMarketEvent;
  sr_mark : option ObservedMarketEvent;
  sr_spot : option ObservedMarketEvent;
  sr_secondary : option ObservedMarketEvent;
  sr_clock : option ObservedMarketEvent;
  sr_state : option ObservedMarketEvent
}.

Definition select_sources (venue : string) (events : list ObservedMarketEvent) : result sources :=
  let* book := _latest events (is_kind ORDER_BOOK venue) in
  let* mark := _latest events (is_kind MARK_FUNDING venue) in
  let* spot := _latest_reference events PRIMARY_SPOT in
  let* secondary := _latest_reference events SECONDARY_VENUE in
  let* clock := _latest events (is_kind VENUE_CLOCK venue) in
  let* state := _latest events (is_kind SYMBOL_STATE venue) in
  Ok {| sr_book := book; sr_mark := mark; sr_spot := spot; sr_secondary := secondary; sr_clock := clock;
        sr_state := state |}.

(** The frame of the selected events; its hash covers all its other fields. *)
Definition assemble (key : FrameKey) (cutoff : datetime) (bar : ClosedBarPayload) (canonical_bar : ObservedMarketEvent)
    (s : sources) : result CausalMinuteFrame :=
  let* book := _payload as_book "OrderBookPayload" (sr_book s) in
  let* mark := _payload as_mark "MarkFundingPayload" (sr_mark s) in
  let* spot := _payload as_reference "ReferencePricePayload" (sr_spot s) in
  let* secondary := _payload as_reference "ReferencePricePayload" (sr_secondary s) in
  let* clock := _payload as_clock "VenueClockPayload" (sr_clock s) in
  let* state := _payload as_state "SymbolStatePayload" (sr_state s) in
  let* manifest := manifest_of
    [("closed_bar", Some canonical_bar); ("order_book", sr_book s); ("mark_funding", sr_mark s);
     ("primary_spot", sr_spot s); ("secondary_venue", sr_secondary s); ("venue_clock", sr_clock s);
     ("symbol_state", sr_state s)] in
  let* best_bid := match book with Some b => let* p := first_price (ob_bids b) in Ok (Some p) | None => Ok None end in
  let* best_ask := match book with Some b => let* p := first_price (ob_asks b) in Ok (Some p) | None => Ok None end in
  let frame digest := {|
    cf_key := key; cf_frame_id := key_frame_id key; cf_cutoff_at := cutoff; cf_bar := bar;
    cf_book_bids := match book with Some b => ob_bids b | None => [] end;
    cf_book_asks := match book with Some b => ob_asks b | None => [] end;
    cf_best_bid := best_bid; cf_best_ask := best_ask;
    cf_mark_price := option_map mf_mark_price mark; cf_index_price := option_map mf_index_price mark;
    cf_funding_rate := option_map mf_funding_rate mark; cf_primary_spot_price := option_map rp_price spot;
    cf_secondary_venue_price := option_map rp_price secondary;
    cf_venue_server_time := option_map vc_server_time clock; cf_symbol_status := option_map ss_status state;
    cf_source_manifest := manifest; cf_content_hash := digest |} in
  let* digest := content_hash sha256_hex (normalized (frame "")) in
  CausalMinuteFrame_post_init (frame digest).

Definition build (key : FrameKey) (closed_bar_event : ObservedMarketEvent) (events : list ObservedMarketEvent)
    (decision_cutoff : option datetime) : result CausalMinuteFrame :=
  let* bc := frame_cutoff key closed_bar_event decision_cutoff in
  let '(bar, cutoff) := bc in
  let* deduplicated := _deduplicate (available key cutoff events ++ [closed_bar_event]) in
  let* canonical := canonical_of closed_bar_event deduplicated in
  let* canonical_bar := of_option (FrameIdentityConflict "closed bar identity has different content") canonical in
  let* s := select_sources (ev_venue closed_bar_event) deduplicated in
  assemble key cutoff bar canonical_bar s.
End Builder.

(** ** Total comparisons *)

Class TotalCompare {A} (cmp : A -> A -> comparison) : Prop := {
  tc_eq a b : cmp a b = Eq -> a = b;
  tc_opp a b : cmp b a = CompOpp (cmp a b);
  tc_trans a b c : cmp a b <> Gt -> cmp b c <> Gt -> cmp a c <> Gt
}.

#[export] Instance Z_total : TotalCompare Z.compare.
Proof.
  split; [apply Z.compare_eq | intros; apply Z.compare_antisym |].
  intros a b c. rewrite !Z.compare_gt_iff. lia.
Qed.

#[export] Instance string_total : TotalCompare String.compare.
Proof.
  split; [intros a b; apply String.compare_eq_iff | intros; apply String.compare_antisym | apply string_compare_trans].
Qed.

Definition pair_compare {A B} (ca : A -> A -> comparison) (cb : B -> B -> comparison) (x y : A * B) : comparison :=
  lex (ca (fst x) (fst y)) (cb (snd x) (snd y)).

#[export] Instance pair_total {A B} ca cb (HA : TotalCompare (A := A) ca) (HB : TotalCompare (A := B) cb) :
  TotalCompare (pair_compare ca cb).
Proof.
  assert (Hlt : forall a b c, ca a b = Lt -> ca b c <> Gt -> ca a c = Lt).
  { intros a b c H1 H2. assert (H0 : ca a b <> Gt) by congruence. pose proof (tc_trans a b c H0 H2) as H3.
    destruct (ca a c) eqn:E; [|reflexivity | congruence]. apply tc_eq in E as <-.
    rewrite (tc_opp a b), H1 in H2. now contradiction H2. }
  assert (Hlt' : forall a b c, ca a b <> Gt -> ca b c = Lt -> ca a c = Lt).
  { intros a b c H1 H2. assert (H0 : ca b c <> Gt) by congruence. pose proof (tc_trans a b c H1 H0) as H3.
    destruct (ca a c) eqn:E; [|reflexivity | congruence]. apply tc_eq in E as <-.
    rewrite (tc_opp b a), H2 in H1. now contradiction H1. }
  split; unfold pair_compare, lex.
  - intros [a b] [a' b']. cbn. destruct (ca a a') eqn:E; try discriminate. apply tc_eq in E as ->.
    intros E. now apply tc_eq in E as ->.
  - intros [a b] [a' b']. cbn. rewrite (tc_opp (cmp := ca) a a'), (tc_opp (cmp := cb) b b'). now destruct (ca a a').
  - intros [a1 b1] [a2 b2] [a3 b3]. cbn.
    destruct (ca a1 a2) eqn:E1; [apply tc_eq in E1 as -> | | now intros []];
      (destruct (ca a2 a3) eqn:E2; [| | now intros _ []]); intros H1 H2.
    + now apply (tc_trans b1 b2 b3).
    + discriminate.
    + apply tc_eq in E2 as <-. now rewrite E1.
    + now rewrite (Hlt a1 a2 a3) by congruence.
Qed.

#[export] Instance latest_total : TotalCompare latest_compare.
Proof.
  assert (E : forall a b, latest_compare a b =
    pair_compare (pair_compare (pair_compare (pair_compare Z.compare Z.compare) Z.compare) String.compare) String.compare a b).
  { intros [[[[o v] s] i] h] [[[[o' v'] s'] i'] h']. unfold latest_compare, pair_compare, lex. cbn [fst snd].
    destruct (o ?= o'); [destruct (v ?= v'); [destruct (s ?= s') |..] |..]; reflexivity. }
  split; intros *; rewrite !E; [apply tc_eq | apply tc_opp | apply tc_trans].
Qed.

Lemma max_keyed_spec l :
  match max_keyed l with
  | None => l = []
  | Some e => exists k, In (k, e) l /\ Forall (fun y => latest_compare (fst y) k <> Gt) l
  end.
Proof.
  destruct l as [|x l]; [reflexivity|]. cbn [max_keyed].
  assert (Hrefl : forall k, latest_compare k k <> Gt).
  { intros k H. pose proof (tc_opp k k) as H'. rewrite H in H'. discriminate. }
  assert (H : forall best, let b := fold_left (fun best y => if later (fst y) (fst best) then y else best) l best in
    (b = best \/ In b l) /\ latest_compare (fst best) (fst b) <> Gt /\
    Forall (fun y => latest_compare (fst y) (fst b) <> Gt) l).
  { induction l as [|y l IH]; intros best; cbn [fold_left]; [auto|].
    destruct (IH (if later (fst y) (fst best) then y else best)) as (Hin & Hle & Hall).
    assert (Hy : latest_compare (fst y) (fst (if later (fst y) (fst best) then y else best)) <> Gt /\
                 latest_compare (fst best) (fst (if later (fst y) (fst best) then y else best)) <> Gt).
    { unfold later. destruct (latest_compare (fst y) (fst best)) eqn:E; split; try congruence; try apply Hrefl.
      rewrite (tc_opp (fst y)), E. discriminate. }
    split; [|split; [exact (tc_trans _ _ _ (proj2 Hy) Hle)|]].
    - destruct Hin as [Hin|Hin]; [rewrite Hin; destruct (later _ _); cbn; auto | cbn; auto].
    - constructor; [exact (tc_trans _ _ _ (proj1 Hy) Hle) | exact Hall]. }
  destruct (H x) as (Hin & Hle & Hall). set (b := fold_left _ l x) in *.
  exists (fst b). split; [|constructor; assumption]. rewrite <- surjective_pairing. destruct Hin as [->|Hin]; cbn; auto.
Qed.

(** ** Deduplication and the latest event *)

Section Theory.
Context (sha256_hex : string -> string) (uuid5 : string -> UUID).
Context (Hsha : forall s, String.length (sha256_hex s) = 64%nat).

Definition digest (e : ObservedMarketEvent) : string :=
  match event_hash sha256_hex e with Ok h => h | Raise _ => "" end.

Lemma event_hash_digest e : valid_event e -> event_hash sha256_hex e = Ok (digest e).
Proof. intros V. destruct (event_hash_total sha256_hex e V) as [h H]. unfold digest. now rewrite H. Qed.

(** One content per identity. *)
Definition consistent (l : list ObservedMarketEvent) : Prop :=
  forall x y, In x l -> In y l -> identity x = identity y -> digest x = digest y.

Lemma find_identity e l :
  match find (fun x => bool_decide (identity x = identity e)) l with
  | Some x => In x l /\ identity x = identity e
  | None => ~ In (identity e) (map identity l)
  end.
Proof.
  destruct (find _ l) as [x|] eqn:E.
  - apply find_some in E as [Hin Hb]. split; [exact Hin | now apply bool_decide_eq_true in Hb].
  - intros Hin. apply in_map_iff in Hin as (x & Hx & Hin). pose proof (find_none _ _ E x Hin) as H. cbn in H.
    apply bool_decide_eq_false in H. contradiction.
Qed.

Lemma dedup_spec events : forall acc d, Forall valid_event (acc ++ events) -> NoDup (map identity acc) ->
  dedup_loop sha256_hex acc events = Ok d ->
  NoDup (map identity d) /\ incl acc d /\ incl d (acc ++ events) /\
  (forall e, In e events -> exists x, In x d /\ identity x = identity e /\ digest x = digest e).
Proof.
  induction events as [|e events IH]; intros acc d V N H; cbn [dedup_loop] in H.
  - injection H as <-. rewrite app_nil_r. repeat split; [exact N | apply incl_refl | apply incl_refl | intros e []].
  - pose proof (find_identity e acc) as F. destruct (find _ acc) as [x|].
    + destruct F as [Hx Eid]. rewrite !List.Forall_forall in V.
      rewrite !event_hash_digest in H by (apply V, in_app_iff; cbn; auto). py_inv. bool_prop.
      destruct (IH acc d) as (D1 & D2 & D3 & D4); [|exact N | exact H|].
      { apply List.Forall_forall. intros y Hy. apply V. apply in_app_iff in Hy as [Hy|Hy]; apply in_app_iff; cbn; auto. }
      repeat split; [exact D1 | exact D2 | |].
      * intros y Hy. apply D3, in_app_iff in Hy as [Hy|Hy]; apply in_app_iff; cbn; auto.
      * intros y [<-|Hy]; [exists x; auto | now apply D4].
    + destruct (IH (acc ++ [e]) d) as (D1 & D2 & D3 & D4); [rewrite <- app_assoc; exact V | | exact H|].
      { rewrite map_app. apply NoDup_app. split; [exact N|split; [|cbn; apply NoDup_singleton]].
        intros i Hi Hi'. cbn in Hi'. apply list_elem_of_singleton in Hi' as ->. apply F. now apply list_elem_of_In. }
      repeat split; [exact D1 | | |].
      * intros y Hy. apply D2, in_app_iff. auto.
      * intros y Hy. apply D3 in Hy. now rewrite <- app_assoc in Hy.
      * intros y [<-|Hy]; [exists e; split; [apply D2, in_app_iff; cbn; auto | auto] | now apply D4].
Qed.

Lemma dedup_total events : forall acc, Forall valid_event (acc ++ events) -> consistent (acc ++ events) ->
  exists d, dedup_loop sha256_hex acc events = Ok d.
Proof.
  induction events as [|e events IH]; intros acc V C; cbn [dedup_loop]; [eauto|].
  pose proof (find_identity e acc) as F. destruct (find _ acc) as [x|].
  - destruct F as [Hx Eid]. pose proof V as V'. rewrite List.Forall_forall in V'.
    rewrite !event_hash_digest by (apply V', in_app_iff; cbn; auto). cbn [bind].
    rewrite bool_decide_true by (apply C; [apply in_app_iff; auto | apply in_app_iff; cbn; auto | exact Eid]). cbn [negb raise_if bind].
    assert (I : incl (acc ++ events) (acc ++ e :: events)).
    { intros y Hy. apply in_app_iff in Hy as [Hy|Hy]; apply in_app_iff; cbn; auto. }
    apply IH; [apply List.Forall_forall; intros y Hy; apply V', I, Hy | intros y z Hy Hz; apply C; auto].
  - apply IH; rewrite <- app_assoc; assumption.
Qed.

Lemma dedup_consistent events d : Forall valid_event events -> _deduplicate sha256_hex events = Ok d -> consistent events.
Proof.
  intros V H x y Hx Hy E. destruct (dedup_spec events [] d V (NoDup_nil_2) H) as (N & _ & _ & Hc).
  destruct (Hc x Hx) as (x' & Ix & Ex & <-). destruct (Hc y Hy) as (y' & Iy & Ey & <-).
  f_equal. apply (NoDup_map_inj identity d); congruence.
Qed.

(** ** The latest event *)

Definition key_of (e : ObservedMarketEvent) : latest_key :=
  (instant (ev_observed_at e), instant (ev_venue_event_at e),
   match ev_sequence e with Some s => s | None => -1 end, ev_event_id e, digest e).

Lemma keyed_total l : Forall valid_event l -> mapM (keyed sha256_hex) l = Ok (map (fun e => (key_of e, e)) l).
Proof.
  induction 1 as [|e l V _ IH]; [reflexivity|]. cbn [mapM map]. unfold keyed at 1, event_latest_key.
  rewrite event_hash_digest by exact V. cbn [bind]. rewrite IH. reflexivity.
Qed.

(** [o] is the latest of the events of [l] that satisfy [pred]. *)
Definition is_latest (l : list ObservedMarketEvent) (pred : ObservedMarketEvent -> bool) (o : option ObservedMarketEvent) : Prop :=
  match o with
  | None => Forall (fun e => pred e = false) l
  | Some e => In e l /\ pred e = true /\
      forall y, In y l -> pred y = true -> latest_compare (key_of y) (key_of e) <> Gt
  end.

Lemma latest_spec l pred : Forall valid_event l -> exists o, _latest sha256_hex l pred = Ok o /\ is_latest l pred o.
Proof.
  intros V. unfold _latest. rewrite keyed_total.
  2:{ rewrite List.Forall_forall in *. intros x Hx. apply filter_In in Hx as [Hx _]. auto. }
  cbn [bind]. eexists; split; [reflexivity|].
  pose proof (max_keyed_spec (map (fun e => (key_of e, e)) (List.filter pred l))) as M.
  destruct (max_keyed _) as [e|]; cbn [is_latest].
  - destruct M as (k & Hin & Hall). apply in_map_iff in Hin as (e' & [= <- <-] & Hin).
    apply filter_In in Hin as [Hin Hp]. split; [exact Hin|split; [exact Hp|]]. intros y Hy Hpy.
    rewrite List.Forall_forall in Hall. apply (Hall (key_of y, y)), in_map_iff. exists y. rewrite filter_In. auto.
  - apply map_eq_nil in M. apply List.Forall_forall. intros y Hy. destruct (pred y) eqn:E; [|reflexivity].
    assert (In y (List.filter pred l)) as Hin by now apply filter_In. rewrite M in Hin. destruct Hin.
Qed.

(** Digests tell the events of [l] apart. *)
Definition separated (l : list ObservedMarketEvent) : Prop :=
  forall x y, In x l -> In y l -> digest x = digest y -> x = y.

Lemma latest_unique l l' pred o o' : separated l -> (forall x, In x l <-> In x l') ->
  is_latest l pred o -> is_latest l' pred o' -> o = o'.
Proof.
  intros S E H H'. destruct o as [e|], o' as [e'|]; cbn [is_latest] in *; [| | |reflexivity].
  - destruct H as (I & P & M), H' as (I' & P' & M'). f_equal. apply S; [exact I | now apply E|].
    pose proof (M e' (proj2 (E e') I') P') as L. pose proof (M' e (proj1 (E e) I) P) as L'.
    rewrite (tc_opp (cmp := latest_compare) (key_of e)) in L.
    destruct (latest_compare (key_of e) (key_of e')) eqn:C; [apply tc_eq in C | now contradiction L | now contradiction L'].
    unfold key_of in C. now injection C.
  - destruct H as (I & P & _). rewrite List.Forall_forall in H'. rewrite (H' e) in P by now apply E. discriminate.
  - destruct H' as (I & P & _). rewrite List.Forall_forall in H. rewrite (H e') in P by now apply E. discriminate.
Qed.

(** The six choices of the builder. *)
Record selection (venue : string) (l : list ObservedMarketEvent) (s : sources) : Prop := {
  sel_book : is_latest l (is_kind ORDER_BOOK venue) (sr_book s);
  sel_mark : is_latest l (is_kind MARK_FUNDING venue) (sr_mark s);
  sel_spot : is_latest l (is_reference PRIMARY_SPOT) (sr_spot s);
  sel_secondary : is_latest l (is_reference SECONDARY_VENUE) (sr_secondary s);
  sel_clock : is_latest l (is_kind VENUE_CLOCK venue) (sr_clock s);
  sel_state : is_latest l (is_kind SYMBOL_STATE venue) (sr_state s)
}.

Lemma select_spec venue l : Forall valid_event l ->
  exists s, select_sources sha256_hex venue l = Ok s /\ selection venue l s.
Proof.
  intros V. unfold select_sources, _latest_reference.
  destruct (latest_spec l (is_kind ORDER_BOOK venue) V) as (o1 & -> & ?).
  destruct (latest_spec l (is_kind MARK_FUNDING venue) V) as (o2 & -> & ?).
  destruct (latest_spec l (is_reference PRIMARY_SPOT) V) as (o3 & -> & ?).
  destruct (latest_spec l (is_reference SECONDARY_VENUE) V) as (o4 & -> & ?).
  destruct (latest_spec l (is_kind VENUE_CLOCK venue) V) as (o5 & -> & ?).
  destruct (latest_spec l (is_kind SYMBOL_STATE venue) V) as (o6 & -> & ?).
  cbn [bind]. eexists; split; [reflexivity|]. split; assumption.
Qed.

Lemma selection_unique venue l l' s s' : separated l -> (forall x, In x l <-> In x l') ->
  selection venue l s -> selection venue l' s' -> s = s'.
Proof.
  intros S E [] []. destruct s, s'; cbn in *. f_equal; eapply (latest_unique l l'); eassumption.
Qed.
(** ** Assembling a frame *)

Lemma canonical_spec e d : valid_event e -> Forall valid_event d ->
  (exists x, In x d /\ identity x = identity e /\ digest x = digest e) ->
  exists x, canonical_of sha256_hex e d = Ok (Some x) /\ In x d /\ identity x = identity e /\ digest x = digest e.
Proof.
  intros Ve V (x & Hin & Hi & Hd). induction V as [|y d Vy V IH]; [destruct Hin|]. cbn [canonical_of].
  destruct (bool_decide (identity y = identity e)) eqn:Ei; bool_prop.
  - rewrite !event_hash_digest by assumption. cbn [bind].
    destruct (bool_decide (digest y = digest e)) eqn:Ed; bool_prop; [exists y; cbn; auto|].
    destruct Hin as [->|Hin]; [contradiction|]. destruct (IH Hin) as (z & ? & ? & ?). exists z; cbn; auto.
  - destruct Hin as [->|Hin]; [contradiction|]. destruct (IH Hin) as (z & ? & ? & ?). exists z; cbn; auto.
Qed.

(** The payload of a selected event has the class that the builder expects. *)
Definition typed {A} (project : MarketPayload -> option A) (o : option ObservedMarketEvent) : Prop :=
  match o with Some e => valid_event e /\ exists p, project (ev_payload e) = Some p | None => True end.

Lemma payload_typed {A} (project : MarketPayload -> option A) name o : typed project o ->
  _payload project name o = Ok (match o with Some e => project (ev_payload e) | None => None end).
Proof. destruct o as [e|]; [intros [_ [p Hp]]; cbn; now rewrite Hp | reflexivity]. Qed.

Lemma typed_kind {A} (project : MarketPayload -> option A) kind venue d o :
  (forall p, payload_kind p = kind -> exists a, project p = Some a) ->
  Forall valid_event d -> is_latest d (is_kind kind venue) o -> typed project o.
Proof.
  intros Hk V H. destruct o as [e|]; [|exact I]. destruct H as (Hin & P & _). rewrite List.Forall_forall in V.
  split; [auto|]. unfold is_kind in P. bool_prop. apply Hk. rewrite (ef_kind e (valid_event_facts e (V e Hin))). assumption.
Qed.

Lemma typed_reference rk d o : Forall valid_event d -> is_latest d (is_reference rk) o -> typed as_reference o.
Proof.
  intros V H. destruct o as [e|]; [|exact I]. destruct H as (Hin & P & _). rewrite List.Forall_forall in V.
  split; [auto|]. unfold is_reference in P. bool_prop. destruct (ev_payload e); try discriminate. cbn; eauto.
Qed.

Lemma from_event_total e : valid_event e -> exists s, from_event sha256_hex e = Ok s /\
  freezable (source_to_dict s) = true /\ so_content_hash s = digest e /\ so_observed_at s = ev_observed_at e.
Proof.
  intros V. unfold from_event. rewrite event_hash_digest by exact V. cbn [bind]. eexists; split; [reflexivity|].
  pose proof (valid_event_facts e V) as F. pose proof (ef_payload e F) as P. split; [|split; reflexivity].
  unfold source_to_dict. cbn [freezable forallb snd so_venue_event_at so_observed_at so_sequence so_source_published_at so_source_engine_at].
  rewrite (ef_venue_at e F), (ef_observed e F), (freezable_popt PInt) by reflexivity.
  destruct (ev_payload e); try reflexivity. cbn [valid_payload] in P. unfold ReferencePricePayload_post_init in P. py_inv.
  destruct (rp_source_published_at p), (rp_source_engine_at p); cbn [opt_check popt freezable] in *;
    repeat match goal with H : _require_utc _ _ = Ok _ |- _ => apply _require_utc_Ok in H; rewrite H end; reflexivity.
Qed.

Lemma manifest_total l : Forall (fun ns => match snd ns with Some e => valid_event e | None => True end) l ->
  exists m, manifest_of sha256_hex l = Ok m /\
    forallb (fun kv => freezable (snd kv)) (map (fun ns => (fst ns, source_to_dict (snd ns))) m) = true.
Proof.
  induction 1 as [|[name [e|]] l V _ (m & Hm & Hf)]; cbn [manifest_of snd] in *; [exists []; auto | | eauto].
  destruct (from_event_total e V) as (s & -> & Hs & _). rewrite Hm. cbn [bind].
  eexists; split; [reflexivity|]. cbn [map forallb fst snd]. now rewrite Hs, Hf.
Qed.

Definition valid_key (k : FrameKey) : Prop := FrameKey_post_init k = Ok k.

Lemma first_price_cons l b : first_price (b :: l) = Ok (pl_price b).
Proof. reflexivity. Qed.

Lemma differs_first b l : differs (Some (pl_price b)) (b :: l) = false.
Proof. unfold differs. apply negb_false_iff. dec_prop. reflexivity. Qed.

Lemma normalized_freezable f :
  is_utc (fk_bar_close_at (cf_key f)) = true -> is_utc (cf_cutoff_at f) = true -> valid_bar (cf_bar f) ->
  (forall t, cf_venue_server_time f = Some t -> is_utc t = true) ->
  forallb (fun kv => freezable (snd kv)) (map (fun ns => (fst ns, source_to_dict (snd ns))) (cf_source_manifest f)) = true ->
  freezable (normalized f) = true.
Proof.
  intros Uk Uc Vb Ut Hm. pose proof (valid_bar_facts _ Vb) as B. unfold normalized, key_to_dict, bar_to_dict.
  cbn [freezable forallb snd]. rewrite Uk, Uc, (bf_open_utc _ B), (bf_close_utc _ B), Hm, !forallb_freezable,
    !(freezable_popt PDec), (freezable_popt PStr), (freezable_popt PTime) by (reflexivity || exact Ut). reflexivity.
Qed.

Lemma clock_utc o t : typed as_clock o ->
  option_map vc_server_time (match o with Some e => as_clock (ev_payload e) | None => None end) = Some t -> is_utc t = true.
Proof.
  destruct o as [e|]; [|discriminate]. intros [Ve _] Ht.
  pose proof (ef_payload e (valid_event_facts e Ve)) as P. destruct (ev_payload e); try discriminate.
  injection Ht as <-. cbn in P. unfold VenueClockPayload_post_init in P. py_inv. now apply _require_utc_Ok in H.
Qed.

(** Both sides of a book have a best level. *)
Lemma book_levels o : typed as_book o ->
  match o with
  | Some e => exists b b1 bs a1 asks, ev_payload e = BookPayload b /\ ob_bids b = b1 :: bs /\ ob_asks b = a1 :: asks
  | None => True
  end.
Proof.
  destruct o as [e|]; [|auto]. intros [Ve [b Hb]]. pose proof (ef_payload e (valid_event_facts e Ve)) as P.
  destruct (ev_payload e); try discriminate. injection Hb as ->. destruct P as [P _].
  unfold OrderBookPayload_post_init in P. py_inv. destruct (ob_bids b) as [|b1 bs] eqn:Eb; [discriminate|].
  destruct (ob_asks b) as [|a1 asks] eqn:Ea; [discriminate|]. eauto 10.
Qed.

Lemma assemble_total key cutoff bar x venue d s :
  valid_key key -> is_utc cutoff = true -> valid_bar bar -> valid_event x -> Forall valid_event d -> selection venue d s ->
  exists f, assemble sha256_hex uuid5 key cutoff bar x s = Ok f.
Proof.
  intros Vk Uc Vb Vx V [H1 H2 H3 H4 H5 H6]. unfold assemble.
  apply (typed_kind as_book) in H1; [| intros []; try discriminate; cbn; eauto | exact V].
  apply (typed_kind as_mark) in H2; [| intros []; try discriminate; cbn; eauto | exact V].
  apply typed_reference in H3; [| exact V]. apply typed_reference in H4; [| exact V].
  apply (typed_kind as_clock) in H5; [| intros []; try discriminate; cbn; eauto | exact V].
  apply (typed_kind as_state) in H6; [| intros []; try discriminate; cbn; eauto | exact V].
  rewrite !payload_typed by assumption. cbn [bind].
  destruct (manifest_total [("closed_bar", Some x); ("order_book", sr_book s); ("mark_funding", sr_mark s);
     ("primary_spot", sr_spot s); ("secondary_venue", sr_secondary s); ("venue_clock", sr_clock s);
     ("symbol_state", sr_state s)]) as (m & -> & Hm).
  { repeat (apply List.Forall_cons; [cbn [snd]|]); try exact Vx; [| | | | | |apply List.Forall_nil];
      match goal with |- match ?o with _ => _ end => destruct o; unfold typed in *; tauto end. }
  assert (Uk : is_utc (fk_bar_close_at key) = true) by (unfold valid_key, FrameKey_post_init in Vk; py_inv; now bool_prop).
  apply book_levels in H1. cbn [bind]. destruct (sr_book s) as [eb|];
    [destruct H1 as (b & b1 & bs & a1 & asks & -> & Eb & Ea); cbn [as_book]; rewrite Eb, Ea, !first_price_cons|]; cbn [bind].
  all: match goal with |- context [content_hash sha256_hex (normalized ?f)] =>
      destruct (content_hash_total sha256_hex (normalized f)) as [t ->]; [apply normalized_freezable; try assumption; exact (fun t => clock_utc _ t H5)|] end.
  all: cbn [bind]; unfold CausalMinuteFrame_post_init;
    cbn [cf_frame_id cf_key cf_content_hash cf_book_bids cf_book_asks cf_best_bid cf_best_ask];
    rewrite Z.eqb_refl, bool_decide_true by apply Hsha; cbn [negb raise_if bind nonempty Bool.eqb];
    rewrite ?differs_first; cbn; eauto.
Qed.

(** ** The builder *)

Record cutoff_facts (key : FrameKey) (e : ObservedMarketEvent) (dc : option datetime) (bar : ClosedBarPayload) (cutoff : datetime) : Prop := {
  co_kind : ev_kind e = CLOSED_BAR;
  co_payload : ev_payload e = BarPayload bar;
  co_closed : cb_closed bar = true;
  co_minute : dt_sub (cb_bar_close_at bar) (cb_bar_open_at bar) = seconds 60;
  co_symbol : ev_symbol e = fk_symbol key;
  co_timeframe : cb_timeframe bar = "1m" /\ fk_timeframe key = "1m";
  co_close : dt_eqb (fk_bar_close_at key) (cb_bar_close_at bar) = true;
  co_utc : is_utc cutoff = true;
  co_cutoff : cutoff = match dc with Some c => c | None => ev_observed_at e end;
  co_bounds : instant (cb_bar_close_at bar) <= instant cutoff <= instant (ev_observed_at e)
}.

Lemma frame_cutoff_Ok key e dc bar cutoff : frame_cutoff key e dc = Ok (bar, cutoff) -> cutoff_facts key e dc bar cutoff.
Proof.
  unfold frame_cutoff. intros H. py_inv. unfold dt_ltb in *. bool_prop.
  destruct (ev_kind e) eqn:Ek; try discriminate. destruct (ev_payload e) eqn:Ep; try discriminate.
  match goal with H : Some _ = Some _ |- _ => injection H as -> end. split; auto; split; congruence.
Qed.

Lemma available_In key cutoff events e : In e (available key cutoff events) <->
  In e events /\ ev_symbol e = fk_symbol key /\ instant (ev_observed_at e) <= instant cutoff.
Proof.
  unfold available. rewrite filter_In. unfold dt_leb. rewrite andb_true_iff, bool_decide_eq_true, Z.leb_le. tauto.
Qed.

(** The parts of a successful build. *)
Record built key (e : ObservedMarketEvent) events dc f (bar : ClosedBarPayload) cutoff d x s : Prop := {
  bt_cutoff : frame_cutoff key e dc = Ok (bar, cutoff);
  bt_dedup : _deduplicate sha256_hex (available key cutoff events ++ [e]) = Ok d;
  bt_canonical : canonical_of sha256_hex e d = Ok (Some x);
  bt_select : select_sources sha256_hex (ev_venue e) d = Ok s;
  bt_assemble : assemble sha256_hex uuid5 key cutoff bar x s = Ok f
}.

Lemma build_built key e events dc f : build sha256_hex uuid5 key e events dc = Ok f ->
  exists bar cutoff d x s, built key e events dc f bar cutoff d x s.
Proof.
  unfold build. intros H. apply bind_Ok in H as ([bar cutoff] & H1 & H). py_inv. subst. exists bar, cutoff. do 3 eexists. split; eassumption.
Qed.

Lemma built_build key e events dc f bar cutoff d x s : built key e events dc f bar cutoff d x s ->
  build sha256_hex uuid5 key e events dc = Ok f.
Proof. intros [H1 H2 H3 H4 H5]. unfold build. rewrite H1. cbn [bind]. rewrite H2. cbn [bind]. rewrite H3. cbn [bind of_option].
  rewrite H4. exact H5. Qed.

Lemma available_valid key cutoff events e : Forall valid_event events -> valid_event e ->
  Forall valid_event (available key cutoff events ++ [e]).
Proof.
  intros V Ve. apply List.Forall_forall. intros y Hy. rewrite List.Forall_forall in V.
  apply in_app_iff in Hy as [Hy|[<-|[]]]; [apply available_In in Hy; apply V, Hy | exact Ve].
Qed.

Lemma dedup_valid events d : Forall valid_event events -> _deduplicate sha256_hex events = Ok d -> Forall valid_event d.
Proof.
  intros V H. destruct (dedup_spec events [] d V (NoDup_nil_2) H) as (_ & _ & I & _).
  apply List.Forall_forall. intros y Hy. rewrite List.Forall_forall in V. apply V, (I y Hy).
Qed.

(** With separated digests nothing is lost. *)
Lemma dedup_same events d : Forall valid_event events -> separated events -> _deduplicate sha256_hex events = Ok d ->
  forall x, In x d <-> In x events.
Proof.
  intros V S H. destruct (dedup_spec events [] d V (NoDup_nil_2) H) as (_ & _ & I & C). intros x. split; [apply I|].
  intros Hx. destruct (C x Hx) as (y & Hy & _ & E). assert (y = x) as <-; [|exact Hy].
  apply S; [apply (I y Hy) | exact Hx | exact E].
Qed.

Lemma build_exists key e events dc bar cutoff :
  valid_key key -> valid_event e -> Forall valid_event events ->
  frame_cutoff key e dc = Ok (bar, cutoff) -> consistent (available key cutoff events ++ [e]) ->
  exists f d x s, built key e events dc f bar cutoff d x s /\ selection (ev_venue e) d s.
Proof.
  intros Vk Ve V H C. pose proof (available_valid key cutoff events e V Ve) as Va.
  destruct (dedup_total (available key cutoff events ++ [e]) [] Va C) as [d Hd].
  pose proof (dedup_valid _ d Va Hd) as Vd. pose proof (frame_cutoff_Ok _ _ _ _ _ H) as F.
  destruct (dedup_spec _ [] d Va (NoDup_nil_2) Hd) as (_ & _ & _ & Hc).
  destruct (canonical_spec e d Ve Vd) as (x & Hx & Hin & _); [apply Hc, in_app_iff; cbn; auto|].
  destruct (select_spec (ev_venue e) d Vd) as (s & Hs & S).
  destruct (assemble_total key cutoff bar x (ev_venue e) d s) as [f Hf]; try assumption; [apply F | | |].
  - pose proof (ef_payload e (valid_event_facts e Ve)) as P. rewrite (co_payload _ _ _ _ _ F) in P. exact P.
  - rewrite List.Forall_forall in Vd. auto.
  - exists f, d, x, s. split; [split; assumption | exact S].
Qed.

(** ** What a frame says *)

(** [o] is the event of the source [pred] that was observed last among those
    known at the cutoff. *)
Definition seen (known : list ObservedMarketEvent) (pred : ObservedMarketEvent -> bool) (o : option ObservedMarketEvent) : Prop :=
  match o with
  | None => forall y, In y known -> pred y = false
  | Some e => In e known /\ pred e = true /\
      forall y, In y known -> pred y = true -> instant (ev_observed_at y) <= instant (ev_observed_at e)
  end.

Lemma latest_observed y e : latest_compare (key_of y) (key_of e) <> Gt -> instant (ev_observed_at y) <= instant (ev_observed_at e).
Proof.
  unfold latest_compare, key_of, lex. intros H. destruct (Z.compare_spec (instant (ev_observed_at y)) (instant (ev_observed_at e)));
    [lia | lia | now contradiction H].
Qed.

Lemma latest_seen known bar_event pred o : (pred bar_event = false) ->
  is_latest (known ++ [bar_event]) pred o -> seen known pred o.
Proof.
  intros Hb. destruct o as [e|]; cbn [is_latest seen].
  - intros (I & P & M). apply in_app_iff in I as [I|[<-|[]]]; [|congruence]. split; [exact I|split; [exact P|]].
    intros y Hy Hp. apply latest_observed, M; [apply in_app_iff; auto | exact Hp].
  - intros H y Hy. rewrite List.Forall_forall in H. apply H, in_app_iff. auto.
Qed.

Lemma latest_same l l' pred o : (forall x, In x l <-> In x l') -> is_latest l pred o -> is_latest l' pred o.
Proof.
  intros E. destruct o as [e|]; cbn [is_latest].
  - intros (I & P & M). split; [now apply E|split; [exact P|]]. intros y Hy. apply M, E, Hy.
  - rewrite !List.Forall_forall. intros H x Hx. apply H, E, Hx.
Qed.

Definition payload_of {A} (project : MarketPayload -> option A) (o : option ObservedMarketEvent) : option A :=
  match o with Some e => project (ev_payload e) | None => None end.

(** The manifest records exactly the selected events. *)
Definition recorded (m : pydict SourceObservation) (name : string) (o : option ObservedMarketEvent) : Prop :=
  match dict_get m name, o with
  | Some so, Some e => from_event sha256_hex e = Ok so
  | None, None => True
  | _, _ => False
  end.

Lemma manifest_recorded l : forall m, manifest_of sha256_hex l = Ok m -> NoDup (map fst l) ->
  Forall (fun no => recorded m (fst no) (snd no)) l.
Proof.
  assert (Hnone : forall l m name, manifest_of sha256_hex l = Ok m -> ~ In name (map fst l) -> dict_get m name = None).
  { clear l. induction l as [|[n [e|]] l IH]; intros m name H Hin; cbn [manifest_of map fst] in *.
    - injection H as <-. reflexivity.
    - py_inv. cbn [dict_get]. rewrite decide_False by (intros ->; apply Hin; now left). eapply IH; [eassumption|].
      intros Hi. apply Hin. now right.
    - apply IH; [exact H|]. intros Hi. apply Hin. now right. }
  induction l as [|[n o] l IH]; intros m H N; [constructor|]. cbn [map fst] in N. apply NoDup_cons in N as [Hn N].
  assert (Hn' : ~ In n (map fst l)) by now rewrite <- list_elem_of_In.
  destruct o as [e|]; cbn [manifest_of] in H.
  - py_inv. constructor.
    + unfold recorded. cbn. now rewrite decide_True.
    + specialize (IH _ H1 N). rewrite List.Forall_forall in *. intros [n' o'] Hin. specialize (IH (n', o') Hin).
      unfold recorded in *. cbn [fst snd dict_get] in *. rewrite decide_False; [exact IH|].
      intros ->. apply Hn'. exact (in_map fst _ _ Hin).
  - constructor; [unfold recorded; cbn; now rewrite (Hnone l m n H Hn') | now apply IH].
Qed.

(** The fields of an assembled frame. *)
Record reports (f : CausalMinuteFrame) (key : FrameKey) (cutoff : datetime) (bar : ClosedBarPayload)
    (x : ObservedMarketEvent) (s : sources) : Prop := {
  rs_key : cf_key f = key;
  rs_id : cf_frame_id f = key_frame_id uuid5 key;
  rs_cutoff : cf_cutoff_at f = cutoff;
  rs_bar : cf_bar f = bar;
  rs_book : (cf_book_bids f, cf_book_asks f) =
    match payload_of as_book (sr_book s) with Some b => (ob_bids b, ob_asks b) | None => ([], []) end;
  rs_best : cf_best_bid f = option_map pl_price (head (cf_book_bids f)) /\
            cf_best_ask f = option_map pl_price (head (cf_book_asks f));
  rs_mark : cf_mark_price f = option_map mf_mark_price (payload_of as_mark (sr_mark s));
  rs_index : cf_index_price f = option_map mf_index_price (payload_of as_mark (sr_mark s));
  rs_rate : cf_funding_rate f = option_map mf_funding_rate (payload_of as_mark (sr_mark s));
  rs_spot : cf_primary_spot_price f = option_map rp_price (payload_of as_reference (sr_spot s));
  rs_secondary : cf_secondary_venue_price f = option_map rp_price (payload_of as_reference (sr_secondary s));
  rs_clock : cf_venue_server_time f = option_map vc_server_time (payload_of as_clock (sr_clock s));
  rs_status : cf_symbol_status f = option_map ss_status (payload_of as_state (sr_state s));
  rs_manifest : Forall (fun no => recorded (cf_source_manifest f) (fst no) (snd no))
    [("closed_bar", Some x); ("order_book", sr_book s); ("mark_funding", sr_mark s); ("primary_spot", sr_spot s);
     ("secondary_venue", sr_secondary s); ("venue_clock", sr_clock s); ("symbol_state", sr_state s)];
  rs_hash : content_hash sha256_hex (normalized f) = Ok (cf_content_hash f)
}.

Lemma payload_Ok {A} (project : MarketPayload -> option A) name o p :
  _payload project name o = Ok p -> p = payload_of project o.
Proof. destruct o as [e|]; cbn; intros H; py_inv; [congruence | reflexivity]. Qed.

Lemma assemble_reports key cutoff bar x s f :
  assemble sha256_hex uuid5 key cutoff bar x s = Ok f -> reports f key cutoff bar x s.
Proof.
  unfold assemble. intros H. py_inv. unfold CausalMinuteFrame_post_init in H. py_inv.
  repeat match goal with H : _payload _ _ _ = Ok _ |- _ => apply payload_Ok in H; subst end.
  split; cbn [cf_key cf_frame_id cf_cutoff_at cf_bar cf_book_bids cf_book_asks cf_best_bid cf_best_ask cf_mark_price
    cf_index_price cf_funding_rate cf_primary_spot_price cf_secondary_venue_price cf_venue_server_time cf_symbol_status
    cf_source_manifest cf_content_hash]; try reflexivity.
  - now destruct (payload_of as_book (sr_book s)).
  - destruct (payload_of as_book (sr_book s)); py_inv; try unfold first_price in *; py_inv; subst; auto.
  - apply manifest_recorded; [assumption|]. cbn [map fst]. apply (bool_decide_unpack (NoDup _)). vm_compute. exact I.
  - assumption.
Qed.
End Theory.

(** ** Theorems *)

Lemma dedup_raises sha256_hex events : forall acc ex, Forall valid_event (acc ++ events) ->
  dedup_loop sha256_hex acc events = Raise ex -> ex = conflict.
Proof.
  induction events as [|e events IH]; intros acc ex V H; cbn [dedup_loop] in H; [discriminate|].
  pose proof (find_identity e acc) as F. destruct (find _ acc) as [x|].
  - destruct F as [Hx _]. pose proof V as V'. rewrite List.Forall_forall in V'.
    rewrite !event_hash_digest in H by (apply V', in_app_iff; cbn; auto). cbn [bind] in H.
    destruct (negb _); cbn [raise_if bind] in H; [now injection H|]. apply (IH acc); [|exact H].
    apply List.Forall_forall. intros y Hy. apply V', in_app_iff. apply in_app_iff in Hy as [Hy|Hy]; cbn; auto.
  - apply (IH (acc ++ [e])); [rewrite <- app_assoc; exact V | exact H].
Qed.

Lemma build_selected sha256_hex uuid5 key e events dc f bar cutoff d x s :
  valid_event e -> Forall valid_event events -> separated sha256_hex (e :: events) ->
  built sha256_hex uuid5 key e events dc f bar cutoff d x s ->
  x = e /\ (forall y, In y d <-> In y (available key cutoff events ++ [e])) /\ selection sha256_hex (ev_venue e) d s.
Proof.
  intros Ve V S B. pose proof (available_valid key cutoff events e V Ve) as Va.
  assert (S' : separated sha256_hex (available key cutoff events ++ [e])).
  { intros y z Hy Hz. apply S; [apply in_app_iff in Hy as [Hy|[<-|[]]] | apply in_app_iff in Hz as [Hz|[<-|[]]]];
      cbn; auto; right; now apply available_In in Hy || apply available_In in Hz. }
  pose proof (dedup_same _ _ _ Va S' (bt_dedup _ _ _ _ _ _ _ _ _ _ _ _ B)) as E.
  pose proof (dedup_valid _ _ _ Va (bt_dedup _ _ _ _ _ _ _ _ _ _ _ _ B)) as Vd.
  destruct (canonical_spec sha256_hex e d Ve Vd) as (x' & Hx & Hin & _ & Ed).
  { exists e. split; [apply E, in_app_iff; cbn; auto | auto]. }
  rewrite (bt_canonical _ _ _ _ _ _ _ _ _ _ _ _ B) in Hx. injection Hx as <-.
  destruct (select_spec sha256_hex (ev_venue e) d Vd) as (s' & Hs & Sel).
  rewrite (bt_select _ _ _ _ _ _ _ _ _ _ _ _ B) in Hs. injection Hs as <-.
  split; [|split; [exact E | exact Sel]]. apply S'; [now apply E | apply in_app_iff; cbn; auto | exact Ed].
Qed.

Lemma bar_not_source e kind venue : ev_kind e = CLOSED_BAR -> kind <> CLOSED_BAR -> is_kind kind venue e = false.
Proof. intros H Hk. unfold is_kind. rewrite H, bool_decide_false by congruence. reflexivity. Qed.

(** C8: No look-ahead.  A frame is decided at a cutoff between the close and
    the observation of its bar.  Each of its other sources is the event that
    was observed last among the events of its symbol known at the cutoff, or
    is absent when there was none; the fields, the manifest and the content
    hash report exactly those events; and no event observed after the cutoff,
    however many arrive, changes the frame. *)
Theorem frame_causal sha256_hex uuid5 key e events dc f
    (Ve : valid_event e) (V : Forall valid_event events) (S : separated sha256_hex (e :: events))
    (B : build sha256_hex uuid5 key e events dc = Ok f) :
  exists bar cutoff s, cutoff_facts key e dc bar cutoff /\ reports sha256_hex uuid5 f key cutoff bar e s /\
    (let known := available key cutoff events in
     seen known (is_kind ORDER_BOOK (ev_venue e)) (sr_book s) /\
     seen known (is_kind MARK_FUNDING (ev_venue e)) (sr_mark s) /\
     seen known (is_reference PRIMARY_SPOT) (sr_spot s) /\
     seen known (is_reference SECONDARY_VENUE) (sr_secondary s) /\
     seen known (is_kind VENUE_CLOCK (ev_venue e)) (sr_clock s) /\
     seen known (is_kind SYMBOL_STATE (ev_venue e)) (sr_state s)) /\
    forall later, Forall (fun y => instant cutoff < instant (ev_observed_at y)) later ->
      build sha256_hex uuid5 key e (events ++ later) dc = Ok f.
Proof.
  destruct (build_built _ _ _ _ _ _ _ B) as (bar & cutoff & d & x & s & Bt).
  destruct (build_selected _ _ _ _ _ _ _ _ _ _ _ _ Ve V S Bt) as (-> & E & Sel).
  pose proof (frame_cutoff_Ok _ _ _ _ _ (bt_cutoff _ _ _ _ _ _ _ _ _ _ _ _ Bt)) as F.
  exists bar, cutoff, s. split; [exact F|]. split; [apply assemble_reports, (bt_assemble _ _ _ _ _ _ _ _ _ _ _ _ Bt)|]. split.
  - destruct Sel. pose proof (co_kind _ _ _ _ _ F) as K.
    assert (R : forall rk, is_reference rk e = false) by (intros rk; unfold is_reference; now rewrite K).
    repeat split; eapply latest_seen; try apply bar_not_source; try apply R; try exact K; try discriminate;
      eapply latest_same; eassumption.
  - intros later L. eapply built_build. destruct Bt as [T1 T2 T3 T4 T5]. split; [exact T1 | | exact T3 | exact T4 | exact T5].
    unfold available in *. rewrite List.filter_app. replace (List.filter _ later) with (@nil ObservedMarketEvent);
      [now rewrite app_nil_r|].
    clear - L. induction L as [|y l Hy _ IH]; [reflexivity|]. cbn [List.filter].
    unfold dt_leb at 1. rewrite (proj2 (Z.leb_gt _ _) Hy), andb_false_r. exact IH.
Qed.

(** Delivery does not matter.  Reordered, repeated or merged deliveries of
    the same events give the same frame, with the same content hash. *)
Theorem frame_delivery_independent sha256_hex uuid5 key e events events' dc f
    (Ve : valid_event e) (V : Forall valid_event events) (S : separated sha256_hex (e :: events))
    (Hsha : forall s, String.length (sha256_hex s) = 64%nat) (Vk : valid_key key)
    (Same : forall y, In y events <-> In y events') (B : build sha256_hex uuid5 key e events dc = Ok f) :
  build sha256_hex uuid5 key e events' dc = Ok f.
Proof.
  destruct (build_built _ _ _ _ _ _ _ B) as (bar & cutoff & d & x & s & Bt).
  destruct (build_selected _ _ _ _ _ _ _ _ _ _ _ _ Ve V S Bt) as (-> & E & Sel).
  assert (V' : Forall valid_event events').
  { apply List.Forall_forall. intros y Hy. rewrite List.Forall_forall in V. now apply V, Same. }
  assert (S' : separated sha256_hex (e :: events')).
  { intros y z Hy Hz. apply S; destruct Hy as [Hy|Hy], Hz as [Hz|Hz]; cbn; auto; right; now apply Same. }
  pose proof (available_valid key cutoff events e V Ve) as Va.
  pose proof (dedup_consistent _ _ _ Va (bt_dedup _ _ _ _ _ _ _ _ _ _ _ _ Bt)) as C.
  assert (Ea : forall y, In y (available key cutoff events' ++ [e]) <-> In y (available key cutoff events ++ [e])).
  { intros y. rewrite !in_app_iff, !available_In, Same. tauto. }
  destruct (build_exists sha256_hex uuid5 Hsha key e events' dc bar cutoff Vk Ve V'
    (bt_cutoff _ _ _ _ _ _ _ _ _ _ _ _ Bt)) as (f' & d' & x' & s' & Bt' & Sel').
  { intros y z Hy Hz. apply C; now apply Ea. }
  destruct (build_selected _ _ _ _ _ _ _ _ _ _ _ _ Ve V' S' Bt') as (-> & E' & _).
  assert (s' = s) as ->.
  { apply (selection_unique sha256_hex (ev_venue e) d' d); [| | exact Sel' | exact Sel].
    - intros y z Hy Hz. apply S'; [apply E', in_app_iff in Hy as [Hy|[<-|[]]] | apply E', in_app_iff in Hz as [Hz|[<-|[]]]];
        cbn; auto; right; now apply available_In in Hy || apply available_In in Hz.
    - intros y. rewrite E, E'. apply Ea. }
  pose proof (bt_assemble _ _ _ _ _ _ _ _ _ _ _ _ Bt) as A. rewrite (bt_assemble _ _ _ _ _ _ _ _ _ _ _ _ Bt') in A.
  injection A as ->. exact (built_build _ _ _ _ _ _ _ _ _ _ _ _ Bt').
Qed.

(** Identity conflicts are detected and nothing else fails.  For a valid
    key, bar and events, the builder gives a frame exactly when no two known
    events share an identity with different contents; otherwise it raises
    [FrameIdentityConflict]. *)
Theorem frame_conflict_detected sha256_hex uuid5 key e events dc bar cutoff
    (Hsha : forall s, String.length (sha256_hex s) = 64%nat) (Vk : valid_key key)
    (Ve : valid_event e) (V : Forall valid_event events) (C : frame_cutoff key e dc = Ok (bar, cutoff)) :
  (consistent sha256_hex (available key cutoff events ++ [e]) -> exists f, build sha256_hex uuid5 key e events dc = Ok f) /\
  (~ consistent sha256_hex (available key cutoff events ++ [e]) -> build sha256_hex uuid5 key e events dc = Raise conflict).
Proof.
  split.
  - intros H. destruct (build_exists _ uuid5 Hsha key e events dc bar cutoff Vk Ve V C H) as (f & d & x & s & B & _).
    exists f. exact (built_build _ _ _ _ _ _ _ _ _ _ _ _ B).
  - intros H. pose proof (available_valid key cutoff events e V Ve) as Va. unfold build. rewrite C. cbn [bind].
    destruct (_deduplicate sha256_hex _) as [d|ex] eqn:D; [exfalso; exact (H (dedup_consistent _ _ _ Va D))|].
    cbn [bind]. f_equal. exact (dedup_raises sha256_hex _ [] ex Va D).
Qed.

(** ** A concrete market *)

(** A digest that tells the sample events apart. *)
Definition toy_digest (s : string) : string :=
  let l := list_ascii_of_string s in
  let pad := repeat "0"%char 32 in
  string_of_list_ascii (firstn 32 (l ++ pad) ++ firstn 32 (rev_append l pad)).

Lemma toy_digest_length s : String.length (toy_digest s) = 64%nat.
Proof.
  assert (H : forall l, String.length (string_of_list_ascii l) = List.length l) by (induction l; cbn; congruence).
  unfold toy_digest. rewrite H, length_app, !length_firstn, rev_append_rev, !length_app, repeat_length. lia.
Qed.

Definition toy_uuid5 (s : string) : UUID := Z.of_nat (String.length s).

Definition at_ms (ms : Z) : datetime := utc (1785628800000000 + ms * 1000).

Definition sample_bar_payload (start_ms : Z) (close : Z) : ClosedBarPayload := {|
  cb_timeframe := "1m"; cb_bar_open_at := at_ms start_ms; cb_bar_close_at := at_ms (start_ms + 60000);
  cb_open := dint 100; cb_high := dint 105; cb_low := dint 95; cb_close := dint close; cb_volume := dint 10;
  cb_quote_volume := dint 1000; cb_trade_count := 5; cb_taker_buy_volume := dint 4;
  cb_taker_buy_quote_volume := dint 400; cb_closed := true |}.

Definition sample_event (id : string) (kind : MarketEventKind) (venue_ms observed_ms : Z) (sequence : Z) (p : MarketPayload)
  : ObservedMarketEvent := {|
  ev_venue := "binance"; ev_stream := "stream"; ev_symbol := "BTCUSDT"; ev_event_id := id; ev_kind := kind;
  ev_venue_event_at := at_ms venue_ms; ev_observed_at := at_ms observed_ms; ev_sequence := Some sequence;
  ev_sequence_not_applicable_reason := None; ev_payload := p |}.

Definition sample_bar_event : ObservedMarketEvent :=
  sample_event "bar-1" CLOSED_BAR 60000 60300 1 (BarPayload (sample_bar_payload 0 101)).

Definition sample_book_event (id : string) (observed_ms : Z) (bid ask : Z) : ObservedMarketEvent :=
  sample_event id ORDER_BOOK (observed_ms - 20) observed_ms 7 (BookPayload
    {| ob_bids := [{| pl_price := dint bid; pl_quantity := dint 1 |}];
       ob_asks := [{| pl_price := dint ask; pl_quantity := dint 2 |}];
       ob_published_at := at_ms observed_ms; ob_sequence_start := 7; ob_previous_sequence := None;
       ob_snapshot_sequence := None |}).

Definition sample_market_key : FrameKey := {|
  fk_experiment_id := 1; fk_strategy_version_id := 2; fk_symbol := "BTCUSDT"; fk_timeframe := "1m";
  fk_bar_close_at := at_ms 60000 |}.

(** Two books before the cutoff and one after it; one is delivered twice. *)
Definition sample_books : list ObservedMarketEvent :=
  [sample_book_event "b-1" 59000 99 103; sample_book_event "b-2" 60100 100 102; sample_book_event "b-3" 60200 90 91].
Definition sample_events : list ObservedMarketEvent := sample_book_event "b-1" 59000 99 103 :: sample_books.

Lemma separated_by_digests sha256_hex base l : NoDup (map (digest sha256_hex) base) -> incl l base -> separated sha256_hex l.
Proof. intros N I x y Hx Hy E. exact (NoDup_map_inj (digest sha256_hex) base x y N (I x Hx) (I y Hy) E). Qed.

Lemma sample_separated : separated toy_digest (sample_bar_event :: sample_events).
Proof.
  apply (separated_by_digests toy_digest (sample_bar_event :: sample_books)).
  - apply (bool_decide_unpack (NoDup _)). vm_compute. exact I.
  - intros y [<-|[<-|Hy]]; [now left | right; now left | now right].
Qed.

Lemma sample_bar_valid : valid_event sample_bar_event.
Proof. split; vm_compute; reflexivity. Qed.

Lemma book_event_valid id ms bid ask : 0 < bid -> bid < ask -> id <> "" -> valid_event (sample_book_event id ms bid ask).
Proof.
  intros Hb Ha Hid.
  assert (P : forall n, 0 < n -> dleb (dint n) dzero = false).
  { intros n Hn. dec_prop. rewrite dval_zero, dval_int. now apply inject_Z_pos. }
  split; [split|].
  - cbn. unfold OrderBookPayload_post_init. cbn. rewrite (proj2 (dleb_gt (dint ask) (dint bid))); [reflexivity|].
    rewrite !dval_int, <- Zlt_Qlt. exact Ha.
  - cbn. repeat constructor; unfold PriceLevel_post_init, _require_decimal; cbn [pl_price pl_quantity andb]; rewrite P by lia; reflexivity.
  - unfold ObservedMarketEvent_post_init. cbn. rewrite (bool_decide_false (id = "")) by exact Hid. reflexivity.
Qed.

Lemma sample_events_valid : Forall valid_event sample_events.
Proof. repeat constructor; apply book_event_valid; (lia || discriminate). Qed.

Definition sample_frame : result CausalMinuteFrame :=
  build toy_digest toy_uuid5 sample_market_key sample_bar_event sample_events (Some (at_ms 60150)).

Lemma sample_frame_built : exists f, sample_frame = Ok f /\ cf_best_bid f = Some (dint 100).
Proof. eexists. split; [vm_compute; reflexivity | reflexivity]. Qed.

Lemma frame_causal_witness : exists f, sample_frame = Ok f /\ cf_best_bid f = Some (dint 100) /\
  build toy_digest toy_uuid5 sample_market_key sample_bar_event
    (sample_events ++ [sample_book_event "b-4" 60151 80 81]) (Some (at_ms 60150)) = Ok f.
Proof.
  destruct sample_frame_built as (f & B & Hf).
  destruct (frame_causal toy_digest toy_uuid5 sample_market_key sample_bar_event sample_events (Some (at_ms 60150)) f
    sample_bar_valid sample_events_valid sample_separated B) as (bar & cutoff & s & F & _ & _ & Late).
  exists f. split; [exact B|split; [exact Hf|]]. apply Late. repeat constructor.
  rewrite (co_cutoff _ _ _ _ _ F). vm_compute. reflexivity.
Defined.

Lemma sample_key_valid : valid_key sample_market_key.
Proof. vm_compute. reflexivity. Qed.

Lemma frame_delivery_independent_witness : exists f, sample_frame = Ok f /\
  build toy_digest toy_uuid5 sample_market_key sample_bar_event (rev sample_events ++ sample_events) (Some (at_ms 60150)) = Ok f.
Proof.
  destruct sample_frame_built as (f & B & Hf). exists f. split; [exact B|].
  apply (frame_delivery_independent toy_digest toy_uuid5 sample_market_key sample_bar_event sample_events
    (rev sample_events ++ sample_events) (Some (at_ms 60150)) f sample_bar_valid sample_events_valid sample_separated
    toy_digest_length sample_key_valid); [|exact B].
  intros y. rewrite in_app_iff, <- in_rev. tauto.
Defined.

(** The same event id with another book. *)
Lemma frame_conflict_detected_witness :
  build toy_digest toy_uuid5 sample_market_key sample_bar_event (sample_book_event "b-1" 60000 98 104 :: sample_events)
    (Some (at_ms 60150)) = Raise conflict.
Proof.
  assert (V : Forall valid_event (sample_book_event "b-1" 60000 98 104 :: sample_events)).
  { constructor; [apply book_event_valid; (lia || discriminate) | exact sample_events_valid]. }
  apply (proj2 (frame_conflict_detected toy_digest toy_uuid5 sample_market_key sample_bar_event _ (Some (at_ms 60150))
    (sample_bar_payload 0 101) (at_ms 60150) toy_digest_length sample_key_valid sample_bar_valid V eq_refl)).
  intros C. specialize (C (sample_book_event "b-1" 60000 98 104) (sample_book_event "b-1" 59000 99 103)
    ltac:(apply in_app_iff; left; vm_compute; left; reflexivity)
    ltac:(apply in_app_iff; left; vm_compute; right; left; reflexivity) eq_refl).
  vm_compute in C. discriminate.
Defined.
