(* ===== verification/Gates.v ===== *)
(** * Ordered gates

    What the admission machines share: a list of gates, each of which answers
    with a result that names its check and says whether it passed, and a
    decision that collects the checks that block. *)

From Stdlib Require Import List Bool.
From stdpp Require Import base decidable list.
From S2P Require Import Prelude Domain.

Section Gates.
Context {R K : Type} (check : R -> K) (status : R -> QualityStatus).

(** The gate [k] answers, and passes exactly when [P]. *)
Definition gate_answers (k : K) (P : Prop) (m : result R) : Prop :=
  exists r, m = Ok r /\ check r = k /\ (status r = PASSED <-> P).

Definition answered (meaning : K -> Prop) (k : K) (r : R) : Prop :=
  check r = k /\ (status r = PASSED <-> meaning k).

Lemma gates_answer {A} (x : A) (meaning : K -> Prop) ks (gates : list (A -> result R)) :
  Forall2 (fun k m => gate_answers k (meaning k) m) ks (map (fun gate => gate x) gates) ->
  exists results, mapM (fun gate => gate x) gates = Ok results /\ Forall2 (answered meaning) ks results.
Proof.
  revert ks. induction gates as [|m gates IH]; intros ks H; cbn [map mapM] in *.
  - inversion H; subst. exists []. split; [reflexivity | constructor].
  - inversion H as [|k ? ks' ? (r & Hr & Hk & Hs) H']; subst. destruct (IH ks' H') as (rs & Hrs & Hall).
    exists (r :: rs). rewrite Hr, Hrs. cbn [bind]. split; [reflexivity|]. constructor; [split; auto | exact Hall].
Qed.

(** [tuple(item.check for item in gates if item.status is not PASSED)]. *)
Definition not_passed (r : R) : bool := negb (bool_decide (status r = PASSED)).
Definition blocking (results : list R) : list K := map check (List.filter not_passed results).

Lemma blocking_nil meaning ks results : Forall2 (answered meaning) ks results ->
  blocking results = [] <-> Forall meaning ks.
Proof.
  unfold blocking, not_passed. induction 1 as [|k r ks results [Hc Hs] _ IH]; cbn [List.filter map]; [split; constructor|].
  rewrite Forall_cons, <- IH, <- Hs. destruct (decide (status r = PASSED)) as [E|E].
  - rewrite bool_decide_true by exact E. cbn [negb]. tauto.
  - rewrite bool_decide_false by exact E. cbn [negb map]. split; [discriminate | tauto].
Qed.

Lemma In_blocking meaning ks results k : Forall2 (answered meaning) ks results ->
  In k (blocking results) <-> In k ks /\ ~ meaning k.
Proof.
  intros H. unfold blocking, not_passed. induction H as [|k' r ks results [Hc Hs] _ IH]; cbn [List.filter map In]; [tauto|].
  destruct (decide (status r = PASSED)) as [E|E].
  - rewrite bool_decide_true by exact E. cbn [negb]. rewrite IH. apply Hs in E. split; [tauto|].
    intros [[->|Hin] Hm]; [contradiction | auto].
  - rewrite bool_decide_false by exact E. cbn [negb map In]. rewrite IH, Hc.
    assert (~ meaning k') by (intros M; apply E, Hs, M). split; [intros [->|[? ?]]; auto | tauto].
Qed.
End Gates.
