(* ===== verification/Integrity.v ===== *)
(** * Market integrity: [maais/market_data/integrity/state_machine.py]

    The eighteen checks that admit a causal frame or quarantine it.  Each check
    passes, fails or does not apply; a failure, or a required check that does
    not apply, blocks the frame.

    Sets of the policy are lists without order; dictionaries are [pydict]s.
    [Decimal(str(delta.total_seconds()))] is exact for spans below 10^15
    microseconds, where the shortest text of the float is the decimal text of
    the span; [seconds_decimal] is that value. *)

From Stdlib Require Import ZArith QArith Qabs Lia Lqa List Bool String.
From stdpp Require Import base decidable list strings.
From S2P Require Import Prelude PyDecimal DecimalTheory DecimalRoots Domain Json MarketEvents Frames Gates.

Local Open Scope Z_scope.

Inductive IntegrityCheck : Type :=
| REQUIRED_SOURCES | MISSING_INTERVAL | DUPLICATE_CONFLICT | SEQUENCE | VENUE_TIMESTAMP | OBSERVED_LAG
| SOURCE_FRESHNESS | CLOCK_DRIFT | STALE_BOOK | API_OUTAGE | OHLC | VOLUME | CROSSED_BOOK | CHECK_SYMBOL_STATE
| HISTORICAL_COVERAGE | CLOSE_RETURN_OUTLIER | FUTURES_SPOT_BASIS | SECONDARY_REFERENCE.

#[export] Instance IntegrityCheck_eq_dec : EqDecision IntegrityCheck.
Proof. solve_decision. Defined.
#[export] Instance IntegrityCheck_value : StrEnum IntegrityCheck := fun c =>
  match c with
  | REQUIRED_SOURCES => "required_sources" | MISSING_INTERVAL => "missing_interval"
  | DUPLICATE_CONFLICT => "duplicate_conflict" | SEQUENCE => "sequence" | VENUE_TIMESTAMP => "venue_timestamp"
  | OBSERVED_LAG => "observed_lag" | SOURCE_FRESHNESS => "source_freshness" | CLOCK_DRIFT => "clock_drift"
  | STALE_BOOK => "stale_book" | API_OUTAGE => "api_outage" | OHLC => "ohlc" | VOLUME => "volume"
  | CROSSED_BOOK => "crossed_book" | CHECK_SYMBOL_STATE => "symbol_state"
  | HISTORICAL_COVERAGE => "historical_coverage" | CLOSE_RETURN_OUTLIER => "close_return_outlier"
  | FUTURES_SPOT_BASIS => "futures_spot_basis" | SECONDARY_REFERENCE => "secondary_reference"
  end.

(** [frozenset(IntegrityCheck)], in definition order. *)
Definition every_check : list IntegrityCheck :=
  [REQUIRED_SOURCES; MISSING_INTERVAL; DUPLICATE_CONFLICT; SEQUENCE; VENUE_TIMESTAMP; OBSERVED_LAG; SOURCE_FRESHNESS;
   CLOCK_DRIFT; STALE_BOOK; API_OUTAGE; OHLC; VOLUME; CROSSED_BOOK; CHECK_SYMBOL_STATE; HISTORICAL_COVERAGE;
   CLOSE_RETURN_OUTLIER; FUTURES_SPOT_BASIS; SECONDARY_REFERENCE].

Inductive FrameAdmission : Type := ADMITTED | QUARANTINED.
Inductive SequenceRule : Type := CONTIGUOUS | MONOTONIC.

#[export] Instance FrameAdmission_eq_dec : EqDecision FrameAdmission.
Proof. solve_decision. Defined.
#[export] Instance SequenceRule_eq_dec : EqDecision SequenceRule.
Proof. solve_decision. Defined.
#[export] Instance FrameAdmission_value : StrEnum FrameAdmission := fun a =>
  match a with ADMITTED => "admitted" | QUARANTINED => "quarantined" end.
#[export] Instance SequenceRule_value : StrEnum SequenceRule := fun r =>
  match r with CONTIGUOUS => "contiguous" | MONOTONIC => "monotonic" end.

Record IntegrityPolicy : Type := {
  ip_required_checks : list IntegrityCheck;
  ip_required_sources : list string;
  ip_sequence_rules : pydict SequenceRule;
  ip_source_max_age : pydict timedelta;
  ip_max_venue_timestamp_skew : timedelta;
  ip_venue_timestamp_skew_overrides : pydict timedelta;
  ip_max_venue_clock_drift : timedelta;
  ip_max_book_age : timedelta;
  ip_max_decision_lag : timedelta;
  ip_minimum_history_bars : Z;
  ip_minimum_outlier_returns : Z;
  ip_outlier_z_threshold : dec;
  ip_maximum_basis_fraction : dec;
  ip_maximum_secondary_divergence : dec
}.

Definition positive_span (nv : string * timedelta) : result unit :=
  raise_if (snd nv <=? 0) (ValueError (fst nv +:+ " must be positive")).
Definition positive_threshold (nv : string * dec) : result unit :=
  raise_if (snd nv <=? dzero)%dec (ValueError (fst nv +:+ " must be a positive finite Decimal")).
Definition subset (a b : list string) : bool := forallb (fun s => bool_decide (s ∈ b)) a.

Definition IntegrityPolicy_post_init (p : IntegrityPolicy) : result IntegrityPolicy :=
  do* raise_if (negb (nonempty (ip_required_checks p)) || negb (nonempty (ip_required_sources p)))
        (ValueError "official integrity policy cannot be empty") ;;
  do* iterM positive_span
        [("max_venue_timestamp_skew", ip_max_venue_timestamp_skew p);
         ("max_venue_clock_drift", ip_max_venue_clock_drift p);
         ("max_book_age", ip_max_book_age p); ("max_decision_lag", ip_max_decision_lag p)] ;;
  do* raise_if ((ip_minimum_history_bars p <=? 0) || (ip_minimum_outlier_returns p <? 2))
        (ValueError "integrity warm-up windows are invalid") ;;
  do* iterM positive_threshold
        [("outlier_z_threshold", ip_outlier_z_threshold p); ("maximum_basis_fraction", ip_maximum_basis_fraction p);
         ("maximum_secondary_divergence", ip_maximum_secondary_divergence p)] ;;
  do* raise_if (negb (subset (map fst (ip_venue_timestamp_skew_overrides p)) (ip_required_sources p)))
        (ValueError "venue timestamp skew overrides must name required sources") ;;
  do* raise_if (existsb (fun v => v <=? 0) (dict_values (ip_venue_timestamp_skew_overrides p)))
        (ValueError "venue timestamp skew overrides must be positive") ;;
  do* raise_if (negb (nonempty (ip_sequence_rules p)) ||
                negb (subset (map fst (ip_sequence_rules p)) (ip_required_sources p)))
        (ValueError "sequence rules must name required sources") ;;
  Ok p.

Definition official : IntegrityPolicy := {|
  ip_required_checks := every_check;
  ip_required_sources := ["closed_bar"; "order_book"; "mark_funding"; "primary_spot"; "secondary_venue"; "venue_clock"; "symbol_state"];
  ip_sequence_rules := [("closed_bar", CONTIGUOUS); ("order_book", MONOTONIC)];
  ip_source_max_age := [("closed_bar", seconds 1); ("order_book", seconds 2); ("mark_funding", seconds 2);
    ("primary_spot", seconds 5); ("secondary_venue", seconds 5); ("venue_clock", seconds 60);
    ("symbol_state", seconds 86400)];
  ip_max_venue_timestamp_skew := seconds 1;
  ip_venue_timestamp_skew_overrides := [("primary_spot", seconds 5); ("secondary_venue", seconds 5)];
  ip_max_venue_clock_drift := seconds 1; ip_max_book_age := seconds 2; ip_max_decision_lag := seconds 5;
  ip_minimum_history_bars := 60; ip_minimum_outlier_returns := 20; ip_outlier_z_threshold := dint 5;
  ip_maximum_basis_fraction := mkdec 2 (-2); ip_maximum_secondary_divergence := mkdec 2 (-2) |}.

Record IntegrityContext : Type := {
  ic_frame : CausalMinuteFrame;
  ic_evaluated_at : datetime;
  ic_previous_bar_close_at : option datetime;
  ic_previous_close : option dec;
  ic_prior_sequences : pydict Z;
  ic_recent_close_returns : list dec;
  ic_historical_bar_count : Z
}.

Definition IntegrityContext_post_init (c : IntegrityContext) : result IntegrityContext :=
  do* raise_if (negb (is_utc (ic_evaluated_at c))) (ValueError "evaluated_at must be UTC-aware") ;;
  do* raise_if (match ic_previous_bar_close_at c with Some t => negb (is_utc t) | None => false end)
        (ValueError "previous_bar_close_at must be UTC-aware") ;;
  do* raise_if (match ic_previous_close c with Some d => (d <=? dzero)%dec | None => false end)
        (ValueError "previous_close must be a positive finite Decimal") ;;
  do* raise_if (ic_historical_bar_count c <? 0) (ValueError "historical_bar_count must be nonnegative") ;;
  do* raise_if (existsb (fun nv => bool_decide (fst nv = "") || (snd nv <? 0)) (ic_prior_sequences c))
        (ValueError "prior source sequences must be named and nonnegative") ;;
  Ok c.

Record IntegrityResult : Type := {
  ir_check : IntegrityCheck; ir_status : QualityStatus; ir_reason_code : string; ir_details : json
}.

Definition IntegrityResult_post_init (r : IntegrityResult) : result IntegrityResult :=
  do* raise_if (bool_decide (ir_reason_code r = "")) (ValueError "integrity reason_code is required") ;;
  let* details := freeze_json (thaw (ir_details r)) in
  let* details := as_mapping "integrity details must be an object" details in
  Ok {| ir_check := ir_check r; ir_status := ir_status r; ir_reason_code := ir_reason_code r; ir_details := details |}.

Definition result_to_dict (r : IntegrityResult) : pyval := PDict
  [("check", PEnum (enum_value (ir_check r))); ("status", PEnum (enum_value (ir_status r)));
   ("reason_code", PStr (ir_reason_code r)); ("details", thaw (ir_details r))].

Record IntegrityAssessment : Type := {
  ia_frame_id : UUID;
  ia_admission : FrameAdmission;
  ia_quality_status : QualityStatus;
  ia_results : list IntegrityResult;
  ia_blocking_checks : list IntegrityCheck;
  ia_content_hash : string
}.

Definition expected_reasons (c : IntegrityCheck) : list string :=
  match c with
  | MISSING_INTERVAL => ["previous_bar_missing"]
  | HISTORICAL_COVERAGE => ["historical_warmup_incomplete"]
  | CLOSE_RETURN_OUTLIER => ["previous_close_missing"; "return_warmup_incomplete"]
  | _ => []
  end.

(** [{result.check: result for result in results}.get(check)]: the last one. *)
Definition by_check (results : list IntegrityResult) (c : IntegrityCheck) : option IntegrityResult :=
  find (fun r => bool_decide (ir_check r = c)) (rev results).

Definition is_expected_warmup (a : IntegrityAssessment) : bool :=
  nonempty (ia_blocking_checks a) &&
  forallb (fun c =>
    match by_check (ia_results a) c with
    | Some r => bool_decide (ir_status r = NOT_APPLICABLE) && bool_decide (ir_reason_code r ∈ expected_reasons c)
    | None => false
    end) (ia_blocking_checks a).

Definition _result (check : IntegrityCheck) (status : QualityStatus) (reason_code : string)
    (details : list (string * pyval)) : result IntegrityResult :=
  let* normalized := freeze_json (PDict details) in
  do* raise_if (match normalized with JObj _ => false | _ => true end) AssertionError ;;
  IntegrityResult_post_init
    {| ir_check := check; ir_status := status; ir_reason_code := reason_code; ir_details := normalized |}.

(** [Decimal(str(delta.total_seconds()))]. *)
Definition seconds_decimal (delta : timedelta) : dec :=
  if delta mod 1000000 =? 0 then mkdec (delta / 100000) (-1) else strip_all 6 delta (-6).

Definition strings (l : list string) : pyval := PSeq (map PStr l).
Definition sorted_names (l : list string) : list string := sort_by (fun s => s) l.
Definition status_of (valid : bool) : QualityStatus := if valid then PASSED else FAILED.

Section Machine.
Context (sha256_hex : string -> string) (policy : IntegrityPolicy).

Definition source (c : IntegrityContext) (name : string) : option SourceObservation :=
  dict_get (cf_source_manifest (ic_frame c)) name.

Definition missing_sources (c : IntegrityContext) : list string :=
  sorted_names (List.filter (fun name => negb (present (source c name))) (ip_required_sources policy)).

Definition _required_sources (c : IntegrityContext) : result IntegrityResult :=
  match missing_sources c with
  | [] => _result REQUIRED_SOURCES PASSED "required_sources_present" []
  | missing => _result REQUIRED_SOURCES NOT_APPLICABLE "required_sources_missing" [("missing", strings missing)]
  end.

Definition _missing_interval (c : IntegrityContext) : result IntegrityResult :=
  match ic_previous_bar_close_at c with
  | None => _result MISSING_INTERVAL NOT_APPLICABLE "previous_bar_missing" []
  | Some previous =>
      if negb (dt_eqb previous (cb_bar_open_at (cf_bar (ic_frame c)))) then
        _result MISSING_INTERVAL FAILED "bar_interval_gap"
          [("expected_open", PTime previous); ("actual_open", PTime (cb_bar_open_at (cf_bar (ic_frame c))))]
      else _result MISSING_INTERVAL PASSED "bar_interval_contiguous" []
  end.

(** One turn of the loop of [_sequence]: the source has no sequence, or its
    rule is violated, or neither. *)
Inductive sequence_verdict : Type := NoSequence | BadSequence (previous current : Z) | GoodSequence.

Definition sequence_of (c : IntegrityContext) (name : string) (rule : SequenceRule) : sequence_verdict :=
  match source c name with
  | None => NoSequence
  | Some so =>
      match so_sequence so with
      | None => NoSequence
      | Some current =>
          match dict_get (ic_prior_sequences c) name with
          | None => GoodSequence
          | Some previous =>
              if (bool_decide (rule = CONTIGUOUS) && negb (current =? previous + 1)) ||
                 (bool_decide (rule = MONOTONIC) && (current <=? previous))
              then BadSequence previous current else GoodSequence
          end
      end
  end.

Definition sorted_rules : list (string * SequenceRule) := sort_by fst (ip_sequence_rules policy).

Definition missing_sequences (c : IntegrityContext) : list string :=
  map fst (List.filter (fun nr => match sequence_of c (fst nr) (snd nr) with NoSequence => true | _ => false end) sorted_rules).
Definition bad_sequences (c : IntegrityContext) : list pyval :=
  flat_map (fun nr =>
    match sequence_of c (fst nr) (snd nr) with
    | BadSequence previous current =>
        [PDict [("source", PStr (fst nr)); ("rule", PEnum (enum_value (snd nr))); ("previous", PInt previous);
                ("current", PInt current)]]
    | _ => []
    end) sorted_rules.

Definition _sequence (c : IntegrityContext) : result IntegrityResult :=
  match missing_sequences c, bad_sequences c with
  | (_ :: _) as missing, _ =>
      _result SEQUENCE NOT_APPLICABLE "required_sequence_missing" [("sources", strings missing)]
  | [], (_ :: _) as bad => _result SEQUENCE FAILED "sequence_gap_or_regression" [("sources", PSeq bad)]
  | [], [] => _result SEQUENCE PASSED "sequences_contiguous_or_initialized" []
  end.

Definition skew_limit (name : string) : timedelta :=
  match dict_get (ip_venue_timestamp_skew_overrides policy) name with
  | Some limit => limit
  | None => ip_max_venue_timestamp_skew policy
  end.
Definition skew_of (so : SourceObservation) : timedelta := Z.abs (dt_sub (so_observed_at so) (so_venue_event_at so)).
Definition is_local (so : SourceObservation) : bool := bool_decide (so_timestamp_basis so = LOCAL_OBSERVATION).

Definition skewed (ns : string * SourceObservation) : bool :=
  negb (is_local (snd ns)) && (skew_limit (fst ns) <? skew_of (snd ns)).

Definition skew_observation (ns : string * SourceObservation) : string * pyval :=
  (fst ns, PDict [("skew_seconds", PDec (seconds_decimal (skew_of (snd ns))));
                  ("limit_seconds", PDec (seconds_decimal (skew_limit (fst ns))));
                  ("timestamp_basis", PEnum (enum_value (so_timestamp_basis (snd ns))));
                  ("comparable", PBool (bool_decide (so_timestamp_basis (snd ns) = VENUE_EVENT)))]).

Definition _venue_timestamp (c : IntegrityContext) : result IntegrityResult :=
  let items := sort_by fst (cf_source_manifest (ic_frame c)) in
  let observations := ("observations", PDict (map skew_observation items)) in
  match map fst (List.filter skewed items) with
  | (_ :: _) as bad => _result VENUE_TIMESTAMP FAILED "venue_timestamp_skew" [("sources", strings bad); observations]
  | [] => _result VENUE_TIMESTAMP PASSED
            (if existsb (fun ns => is_local (snd ns)) items
             then "venue_timestamps_within_skew_or_observation_based" else "venue_timestamps_within_skew") [observations]
  end.

Definition lag (c : IntegrityContext) : timedelta := dt_sub (ic_evaluated_at c) (cf_cutoff_at (ic_frame c)).

Definition _observed_lag (c : IntegrityContext) : result IntegrityResult :=
  if lag c <? 0 then _result OBSERVED_LAG FAILED "evaluation_precedes_frame" []
  else if ip_max_decision_lag policy <? lag c then
    _result OBSERVED_LAG FAILED "decision_lag_exceeded" [("lag_seconds", PStr (dec_str (seconds_decimal (lag c))))]
  else _result OBSERVED_LAG PASSED "decision_lag_within_limit" [].

Definition age (c : IntegrityContext) (so : SourceObservation) : timedelta :=
  dt_sub (cf_cutoff_at (ic_frame c)) (so_observed_at so).

Definition without_age : list string :=
  List.filter (fun name => negb (present (dict_get (ip_source_max_age policy) name))) (sorted_names (ip_required_sources policy)).
Definition stale_sources (c : IntegrityContext) : list string :=
  List.filter (fun name =>
    match dict_get (ip_source_max_age policy) name, source c name with
    | Some maximum, Some so => maximum <? age c so
    | _, _ => false
    end) (sorted_names (ip_required_sources policy)).

Definition _source_freshness (c : IntegrityContext) : result IntegrityResult :=
  match without_age, stale_sources c with
  | (_ :: _) as missing, _ =>
      _result SOURCE_FRESHNESS NOT_APPLICABLE "source_freshness_policy_missing" [("sources", strings missing)]
  | [], (_ :: _) as stale => _result SOURCE_FRESHNESS FAILED "source_stale" [("sources", strings stale)]
  | [], [] => _result SOURCE_FRESHNESS PASSED "sources_fresh" []
  end.

Definition _clock_drift (c : IntegrityContext) : result IntegrityResult :=
  match source c "venue_clock", cf_venue_server_time (ic_frame c) with
  | Some so, Some server =>
      let drift := Z.abs (dt_sub server (so_observed_at so)) in
      if ip_max_venue_clock_drift policy <? drift then
        _result CLOCK_DRIFT FAILED "venue_clock_drift_exceeded" [("drift_seconds", PStr (dec_str (seconds_decimal drift)))]
      else _result CLOCK_DRIFT PASSED "venue_clock_within_limit" []
  | _, _ => _result CLOCK_DRIFT NOT_APPLICABLE "venue_clock_missing" []
  end.

Definition _stale_book (c : IntegrityContext) : result IntegrityResult :=
  match source c "order_book" with
  | None => _result STALE_BOOK NOT_APPLICABLE "order_book_missing" []
  | Some so =>
      if ip_max_book_age policy <? age c so then _result STALE_BOOK FAILED "order_book_stale" []
      else _result STALE_BOOK PASSED "order_book_fresh" []
  end.

Definition _api_outage (c : IntegrityContext) : result IntegrityResult :=
  if ip_max_decision_lag policy <? lag c then _result API_OUTAGE FAILED "market_data_outage" []
  else _result API_OUTAGE PASSED "market_data_current" [].

Definition ohlc_valid (b : ClosedBarPayload) : bool :=
  (cb_low b <=? dmin (cb_open b) (cb_close b))%dec && (cb_high b >=? dmax (cb_open b) (cb_close b))%dec.

Definition _ohlc (c : IntegrityContext) : result IntegrityResult :=
  let valid := ohlc_valid (cf_bar (ic_frame c)) in
  _result OHLC (status_of valid) (if valid then "ohlc_valid" else "ohlc_invalid") [].

Definition _volume (c : IntegrityContext) : result IntegrityResult :=
  let bar := cf_bar (ic_frame c) in
  let valid := (cb_volume bar >=? dzero)%dec && (cb_quote_volume bar >=? dzero)%dec in
  _result VOLUME (status_of valid) (if valid then "volume_nonnegative" else "volume_negative") [].

Definition _crossed_book (c : IntegrityContext) : result IntegrityResult :=
  match cf_best_bid (ic_frame c), cf_best_ask (ic_frame c) with
  | Some bid, Some ask =>
      let valid := (bid <? ask)%dec in
      _result CROSSED_BOOK (status_of valid) (if valid then "book_not_crossed" else "book_crossed_or_locked") []
  | _, _ => _result CROSSED_BOOK NOT_APPLICABLE "order_book_missing" []
  end.

Definition _symbol_state (c : IntegrityContext) : result IntegrityResult :=
  match cf_symbol_status (ic_frame c) with
  | None => _result CHECK_SYMBOL_STATE NOT_APPLICABLE "symbol_state_missing" []
  | Some status =>
      let valid := bool_decide (status = "TRADING") in
      _result CHECK_SYMBOL_STATE (status_of valid) (if valid then "symbol_trading" else "symbol_not_trading")
        [("symbol_status", PStr status)]
  end.

Definition warming (c : IntegrityContext) : bool := ic_historical_bar_count c <? ip_minimum_history_bars policy.
Definition warmup_details (c : IntegrityContext) : list (string * pyval) :=
  [("actual", PInt (ic_historical_bar_count c)); ("required", PInt (ip_minimum_history_bars policy))].

Definition _historical_coverage (c : IntegrityContext) : result IntegrityResult :=
  if warming c then _result HISTORICAL_COVERAGE NOT_APPLICABLE "historical_warmup_incomplete" (warmup_details c)
  else _result HISTORICAL_COVERAGE PASSED "historical_coverage_sufficient" [].

(** The return of the bar and the mean and variance of the recent returns. *)
Definition return_statistics (close previous : dec) (values : list dec) : result (dec * dec * dec) :=
  let* current := ddiv (close - previous)%dec previous in
  let n := Z.of_nat (length values) in
  let* mean := ddiv (dsum values) (dint n) in
  let* variance := ddiv (dsum (map (fun v => dsquare (v - mean)%dec) values)) (dint (n - 1)) in
  Ok (current, mean, variance).

Definition _close_return_outlier (c : IntegrityContext) : result IntegrityResult :=
  if warming c then _result CLOSE_RETURN_OUTLIER NOT_APPLICABLE "return_warmup_incomplete" (warmup_details c)
  else
    match ic_previous_close c with
    | None => _result CLOSE_RETURN_OUTLIER NOT_APPLICABLE "previous_close_missing" []
    | Some previous =>
        let values := ic_recent_close_returns c in
        if Z.of_nat (length values) <? ip_minimum_outlier_returns policy then
          _result CLOSE_RETURN_OUTLIER NOT_APPLICABLE "return_warmup_incomplete"
            [("actual", PInt (Z.of_nat (length values))); ("required", PInt (ip_minimum_outlier_returns policy))]
        else
          let* s := return_statistics (cb_close (cf_bar (ic_frame c))) previous values in
          let '(current, mean, variance) := s in
          if (variance =? dzero)%dec then
            let failed := negb (current =? mean)%dec in
            _result CLOSE_RETURN_OUTLIER (status_of (negb failed))
              (if failed then "zero_variance_outlier" else "return_matches_zero_variance_baseline")
              [("current_return", PDec current); ("baseline_mean", PDec mean)]
          else
            let* deviation := dsqrt variance in
            let* z_score := ddiv (dabs (current - mean)%dec) deviation in
            let failed := (z_score >? ip_outlier_z_threshold policy)%dec in
            _result CLOSE_RETURN_OUTLIER (status_of (negb failed))
              (if failed then "return_outlier" else "return_within_baseline")
              [("current_return", PDec current); ("z_score", PDec z_score)]
    end.

Definition divergence_of (mark reference : dec) : result dec := ddiv (dabs (mark - reference)%dec) reference.

Definition _futures_spot_basis (c : IntegrityContext) : result IntegrityResult :=
  match cf_mark_price (ic_frame c), cf_primary_spot_price (ic_frame c) with
  | Some mark, Some spot =>
      let* divergence := divergence_of mark spot in
      let failed := (divergence >? ip_maximum_basis_fraction policy)%dec in
      _result FUTURES_SPOT_BASIS (status_of (negb failed))
        (if failed then "basis_divergence_exceeded" else "basis_within_limit")
        [("divergence", PDec divergence); ("futures_mark", PDec mark); ("primary_spot", PDec spot)]
  | _, _ => _result FUTURES_SPOT_BASIS NOT_APPLICABLE "futures_or_spot_price_missing" []
  end.

Definition _secondary_reference (c : IntegrityContext) : result IntegrityResult :=
  match cf_secondary_venue_price (ic_frame c), cf_mark_price (ic_frame c) with
  | None, _ => _result SECONDARY_REFERENCE NOT_APPLICABLE "secondary_reference_missing" []
  | Some _, None => _result SECONDARY_REFERENCE NOT_APPLICABLE "futures_mark_missing" []
  | Some reference, Some mark =>
      let* divergence := divergence_of mark reference in
      let failed := (divergence >? ip_maximum_secondary_divergence policy)%dec in
      _result SECONDARY_REFERENCE (status_of (negb failed))
        (if failed then "secondary_divergence_exceeded" else "secondary_divergence_within_limit")
        [("divergence", PDec divergence); ("futures_mark", PDec mark); ("secondary_reference", PDec reference)]
  end.

Definition _duplicate_conflict (c : IntegrityContext) : result IntegrityResult :=
  _result DUPLICATE_CONFLICT PASSED "frame_identity_canonical" [].

Definition checks : list (IntegrityContext -> result IntegrityResult) :=
  [_required_sources; _missing_interval; _duplicate_conflict; _sequence; _venue_timestamp; _observed_lag;
   _source_freshness; _clock_drift; _stale_book; _api_outage; _ohlc; _volume; _crossed_book; _symbol_state;
   _historical_coverage; _close_return_outlier; _futures_spot_basis; _secondary_reference].

Definition blocks (r : IntegrityResult) : bool :=
  bool_decide (ir_status r = FAILED) ||
  (bool_decide (ir_status r = NOT_APPLICABLE) && bool_decide (ir_check r ∈ ip_required_checks policy)).

Definition evaluate (c : IntegrityContext) : result IntegrityAssessment :=
  let* results := mapM (fun check => check c) checks in
  let blocking := map ir_check (List.filter blocks results) in
  let admission := if nonempty blocking then QUARANTINED else ADMITTED in
  let quality := if nonempty blocking then FAILED else PASSED in
  let* digest := content_hash sha256_hex (PDict
    [("frame_id", PUuid (cf_frame_id (ic_frame c))); ("admission", PEnum (enum_value admission));
     ("quality_status", PEnum (enum_value quality)); ("results", PSeq (map result_to_dict results));
     ("blocking_checks", PSeq (map (fun k => PEnum (enum_value k)) blocking))]) in
  Ok {| ia_frame_id := cf_frame_id (ic_frame c); ia_admission := admission; ia_quality_status := quality;
        ia_results := results; ia_blocking_checks := blocking; ia_content_hash := digest |}.
End Machine.

(** ** What each check answers *)

Definition answers : IntegrityCheck -> Prop -> result IntegrityResult -> Prop := gate_answers ir_check ir_status.

Lemma result_total k s reason d : freezable (PDict d) = true -> reason <> "" ->
  exists r, _result k s reason d = Ok r /\ ir_check r = k /\ ir_status r = s /\ ir_reason_code r = reason.
Proof.
  intros Hf Hr. destruct (freeze_total _ Hf) as [j Hj]. unfold _result. rewrite Hj. cbn [bind].
  cbn [freeze_json] in Hj. apply bind_Ok in Hj as (items & _ & Hj). injection Hj as <-.
  cbn [raise_if bind]. unfold IntegrityResult_post_init. cbn [ir_reason_code ir_details].
  rewrite bool_decide_false by exact Hr. cbn [raise_if bind]. rewrite freeze_thaw. cbn. eauto.
Qed.

Lemma answer k P s reason d : freezable (PDict d) = true -> reason <> "" -> (s = PASSED <-> P) ->
  answers k P (_result k s reason d).
Proof. intros Hf Hr Hs. destruct (result_total k s reason d Hf Hr) as (r & -> & Hk & <- & _). exists r. auto. Qed.

Lemma answer_status k P (b : bool) reason d : freezable (PDict d) = true -> reason <> "" -> (b = true <-> P) ->
  answers k P (_result k (status_of b) reason d).
Proof. intros Hf Hr Hb. apply answer; [exact Hf | exact Hr|]. rewrite <- Hb. destruct b; cbn; split; congruence. Qed.

Lemma freezable_details l : forallb (fun kv => freezable (snd kv)) l = true -> freezable (PDict l) = true.
Proof. intros H. exact H. Qed.

Lemma freezable_strings' l : freezable (strings l) = true.
Proof. unfold strings. cbn [freezable]. now apply forallb_freezable. Qed.

Lemma sort_Forall {A} (key : A -> string) (P : A -> Prop) l : Forall P (sort_by key l) <-> Forall P l.
Proof. split; intros H; [rewrite <- (sort_by_perm key l) | rewrite (sort_by_perm key l)]; exact H. Qed.


(** Facts on a frame that the builder guarantees. *)
Record frame_facts (f : CausalMinuteFrame) : Prop := {
  ff_bar : valid_bar (cf_bar f);
  ff_spot : match cf_primary_spot_price f with Some p => (0 < dval p)%Q | None => True end;
  ff_secondary : match cf_secondary_venue_price f with Some p => (0 < dval p)%Q | None => True end
}.

Lemma reference_positive sha256_hex rk d o : Forall valid_event d -> is_latest sha256_hex d (is_reference rk) o ->
  match option_map rp_price (payload_of as_reference o) with Some p => (0 < dval p)%Q | None => True end.
Proof.
  intros V H. apply (typed_reference _ _ _ _ V) in H. destruct o as [e|]; [|exact I]. destruct H as [Ve [p Hp]].
  cbn [payload_of]. rewrite Hp. cbn [option_map]. pose proof (ef_payload e (valid_event_facts e Ve)) as P.
  destruct (ev_payload e); try discriminate. injection Hp as ->. cbn in P. unfold ReferencePricePayload_post_init in P. py_inv.
  match goal with H : _require_decimal (rp_price p) _ _ _ = Ok _ |- _ => apply _require_decimal_Ok in H end. tauto.
Qed.

Lemma build_frame_facts sha256_hex uuid5 key e events dc f : valid_event e -> Forall valid_event events ->
  build sha256_hex uuid5 key e events dc = Ok f -> frame_facts f.
Proof.
  intros Ve V B. destruct (build_built _ _ _ _ _ _ _ B) as (bar & cutoff & d & x & s & [T1 T2 T3 T4 T5]).
  apply frame_cutoff_Ok in T1. apply assemble_reports in T5.
  pose proof (dedup_valid _ _ _ (available_valid key cutoff events e V Ve) T2) as Vd.
  destruct (select_spec sha256_hex (ev_venue e) d Vd) as (s' & Hs & Sel). rewrite T4 in Hs. injection Hs as <-.
  pose proof (ef_payload e (valid_event_facts e Ve)) as P. rewrite (co_payload _ _ _ _ _ T1) in P. split.
  - rewrite (rs_bar _ _ _ _ _ _ _ _ T5). exact P.
  - rewrite (rs_spot _ _ _ _ _ _ _ _ T5). exact (reference_positive _ _ _ _ Vd (sel_spot _ _ _ _ Sel)).
  - rewrite (rs_secondary _ _ _ _ _ _ _ _ T5). exact (reference_positive _ _ _ _ Vd (sel_secondary _ _ _ _ Sel)).
Qed.

Record context_facts (c : IntegrityContext) : Prop := {
  cx_frame : frame_facts (ic_frame c);
  cx_previous : match ic_previous_bar_close_at c with Some t => is_utc t = true | None => True end;
  cx_close : match ic_previous_close c with Some d => (0 < dval d)%Q | None => True end
}.

(** A context as its constructor returns it, around a built frame. *)
Definition valid_context (c : IntegrityContext) : Prop :=
  IntegrityContext_post_init c = Ok c /\ frame_facts (ic_frame c).

Lemma valid_context_facts c : valid_context c -> context_facts c.
Proof.
  intros [H F]. unfold IntegrityContext_post_init in H. py_inv. split; [exact F | |].
  - destruct (ic_previous_bar_close_at c); [now bool_prop | exact I].
  - destruct (ic_previous_close c); [|exact I]. dec_prop. rewrite dval_zero in *. assumption.
Qed.

Record policy_facts (p : IntegrityPolicy) : Prop := {
  pf_checks : ip_required_checks p <> [];
  pf_returns : 2 <= ip_minimum_outlier_returns p
}.

Definition valid_integrity_policy (p : IntegrityPolicy) : Prop := IntegrityPolicy_post_init p = Ok p.

Lemma valid_policy_facts p : valid_integrity_policy p -> policy_facts p.
Proof.
  unfold valid_integrity_policy, IntegrityPolicy_post_init. intros H. py_inv. bool_prop. split; [|lia].
  destruct (ip_required_checks p); discriminate.
Qed.

(** ** The meaning of a passed check *)

Section Specification.
Context (policy : IntegrityPolicy) (c : IntegrityContext).

Definition sources_present : Prop := Forall (fun name => source c name <> None) (ip_required_sources policy).
Definition interval_contiguous : Prop := exists t, ic_previous_bar_close_at c = Some t /\
  dt_eqb t (cb_bar_open_at (cf_bar (ic_frame c))) = true.

(** The rule of a source allows its sequence after the previous one, if any. *)
Definition follows (rule : SequenceRule) (previous current : Z) : Prop :=
  match rule with CONTIGUOUS => current = previous + 1 | MONOTONIC => previous < current end.
Definition sequences_advance : Prop := Forall (fun nr => exists so current,
  source c (fst nr) = Some so /\ so_sequence so = Some current /\
  forall previous, dict_get (ic_prior_sequences c) (fst nr) = Some previous -> follows (snd nr) previous current)
  (ip_sequence_rules policy).
Definition timestamps_agree : Prop := Forall (fun ns =>
  so_timestamp_basis (snd ns) <> LOCAL_OBSERVATION -> skew_of (snd ns) <= skew_limit policy (fst ns))
  (cf_source_manifest (ic_frame c)).
Definition decided_in_time : Prop := 0 <= lag c <= ip_max_decision_lag policy.
Definition sources_fresh : Prop := Forall (fun name => exists maximum, dict_get (ip_source_max_age policy) name = Some maximum /\
  forall so, source c name = Some so -> age c so <= maximum) (ip_required_sources policy).
Definition clock_agrees : Prop := exists so server, source c "venue_clock" = Some so /\
  cf_venue_server_time (ic_frame c) = Some server /\
  Z.abs (dt_sub server (so_observed_at so)) <= ip_max_venue_clock_drift policy.
Definition book_fresh : Prop := exists so, source c "order_book" = Some so /\ age c so <= ip_max_book_age policy.
Definition no_outage : Prop := lag c <= ip_max_decision_lag policy.
Definition bar_consistent : Prop := ohlc_valid (cf_bar (ic_frame c)) = true.
Definition volumes_nonnegative : Prop := (0 <= dval (cb_volume (cf_bar (ic_frame c))) /\
  0 <= dval (cb_quote_volume (cf_bar (ic_frame c))))%Q.
Definition book_uncrossed : Prop := exists bid ask, cf_best_bid (ic_frame c) = Some bid /\
  cf_best_ask (ic_frame c) = Some ask /\ (dval bid < dval ask)%Q.
Definition symbol_trading : Prop := cf_symbol_status (ic_frame c) = Some "TRADING".
Definition history_covered : Prop := ip_minimum_history_bars policy <= ic_historical_bar_count c.
Definition return_ordinary : Prop := history_covered /\ exists previous current mean variance,
  ic_previous_close c = Some previous /\
  ip_minimum_outlier_returns policy <= Z.of_nat (length (ic_recent_close_returns c)) /\
  return_statistics (cb_close (cf_bar (ic_frame c))) previous (ic_recent_close_returns c) = Ok (current, mean, variance) /\
  (((dval variance == 0)%Q /\ (dval current == dval mean)%Q) \/
   ((0 < dval variance)%Q /\ exists deviation z, dsqrt variance = Ok deviation /\
      ddiv (dabs (current - mean)%dec) deviation = Ok z /\ (dval z <= dval (ip_outlier_z_threshold policy))%Q)).
Definition basis_small : Prop := exists mark spot divergence, cf_mark_price (ic_frame c) = Some mark /\
  cf_primary_spot_price (ic_frame c) = Some spot /\ divergence_of mark spot = Ok divergence /\
  (dval divergence <= dval (ip_maximum_basis_fraction policy))%Q.
Definition secondary_agrees : Prop := exists mark reference divergence, cf_mark_price (ic_frame c) = Some mark /\
  cf_secondary_venue_price (ic_frame c) = Some reference /\ divergence_of mark reference = Ok divergence /\
  (dval divergence <= dval (ip_maximum_secondary_divergence policy))%Q.

Definition required_meaning (k : IntegrityCheck) : Prop :=
  match k with
  | REQUIRED_SOURCES => sources_present | MISSING_INTERVAL => interval_contiguous | DUPLICATE_CONFLICT => True
  | SEQUENCE => sequences_advance | VENUE_TIMESTAMP => timestamps_agree | OBSERVED_LAG => decided_in_time
  | SOURCE_FRESHNESS => sources_fresh | CLOCK_DRIFT => clock_agrees | STALE_BOOK => book_fresh
  | API_OUTAGE => no_outage | OHLC => bar_consistent | VOLUME => volumes_nonnegative | CROSSED_BOOK => book_uncrossed
  | CHECK_SYMBOL_STATE => symbol_trading | HISTORICAL_COVERAGE => history_covered
  | CLOSE_RETURN_OUTLIER => return_ordinary | FUTURES_SPOT_BASIS => basis_small
  | SECONDARY_REFERENCE => secondary_agrees
  end.

Ltac no_pass := split; [discriminate|].

Lemma required_sources_spec : answers REQUIRED_SOURCES sources_present (_required_sources policy c).
Proof.
  unfold _required_sources. assert (E : missing_sources policy c = [] <-> sources_present).
  { unfold missing_sources, sources_present, sorted_names. split.
    - intros H. assert (Hf : List.filter (fun name => negb (present (source c name))) (ip_required_sources policy) = []).
      { apply Permutation_nil. rewrite <- H. apply sort_by_perm. }
      apply filter_nil in Hf. revert Hf. apply List.Forall_impl. intros n Hn E. rewrite E in Hn. discriminate.
    - intros H. rewrite (proj2 (filter_nil _ _)); [reflexivity|]. revert H. apply List.Forall_impl.
      intros n Hn. destruct (source c n); [reflexivity | contradiction]. }
  destruct (missing_sources policy c) as [|x l].
  - apply answer; [reflexivity | discriminate | tauto].
  - apply answer; [cbn [freezable forallb snd]; now rewrite freezable_strings' | discriminate|].
    no_pass. intros H. apply E in H. discriminate.
Qed.

Lemma missing_interval_spec : context_facts c -> answers MISSING_INTERVAL interval_contiguous (_missing_interval c).
Proof.
  intros X. unfold _missing_interval, interval_contiguous. pose proof (cx_previous c X) as U.
  destruct (ic_previous_bar_close_at c) as [t|].
  - destruct (dt_eqb t _) eqn:E; cbn [negb].
    + apply answer; [reflexivity | discriminate|]. split; eauto.
    + apply answer; [|discriminate | no_pass; intros (t' & [= <-] & H); congruence].
      cbn. rewrite U, (bf_open_utc _ (valid_bar_facts _ (ff_bar _ (cx_frame c X)))). reflexivity.
  - apply answer; [reflexivity | discriminate|]. no_pass. intros (t & H & _). discriminate.
Qed.

Lemma sequence_good name rule : sequence_of c name rule = GoodSequence <->
  exists so current, source c name = Some so /\ so_sequence so = Some current /\
    forall previous, dict_get (ic_prior_sequences c) name = Some previous -> follows rule previous current.
Proof.
  unfold sequence_of. destruct (source c name) as [so|]; [|split; [discriminate | intros (? & ? & [=] & _)]].
  destruct (so_sequence so) as [current|] eqn:Es; [|split; [discriminate | intros (? & ? & [= <-] & E & _); congruence]].
  destruct (dict_get (ic_prior_sequences c) name) as [previous|].
  - destruct rule; cbn [bool_decide]; rewrite ?bool_decide_true, ?bool_decide_false by (reflexivity || discriminate); cbn [andb orb].
    + rewrite orb_false_r. destruct (Z.eqb_spec current (previous + 1)); cbn [negb]; split; try discriminate; try reflexivity.
      * intros _. exists so, current. repeat split; auto. intros p [= <-]. assumption.
      * intros (? & ? & [= <-] & E & H). rewrite Es in E. injection E as <-. specialize (H _ eq_refl). cbn in H. contradiction.
    + destruct (Z.leb_spec current previous); split; try discriminate; try reflexivity.
      * intros (? & ? & [= <-] & E & H'). rewrite Es in E. injection E as <-. specialize (H' _ eq_refl). cbn in H'. lia.
      * intros _. exists so, current. repeat split; auto. intros p [= <-]. assumption.
  - split; [|reflexivity]. intros _. exists so, current. repeat split; auto. discriminate.
Qed.

Lemma freezable_bad_sequences : forallb freezable (bad_sequences policy c) = true.
Proof.
  unfold bad_sequences. induction (sorted_rules policy) as [|nr l IH]; [reflexivity|]. cbn [flat_map].
  rewrite forallb_app, IH, andb_true_r. now destruct (sequence_of _ _ _).
Qed.

Lemma sequence_spec : answers SEQUENCE sequences_advance (_sequence policy c).
Proof.
  assert (E : (missing_sequences policy c = [] /\ bad_sequences policy c = []) <-> sequences_advance).
  { unfold sequences_advance. rewrite <- (sort_Forall fst). fold (sorted_rules policy).
    rewrite <- (Forall_iff' _ _ _ (fun nr => sequence_good (fst nr) (snd nr))).
    unfold missing_sequences, bad_sequences. induction (sorted_rules policy) as [|nr l IH]; [cbn; split; [constructor | auto]|].
    rewrite Forall_cons, <- IH. cbn [List.filter flat_map map].
    destruct (sequence_of c (fst nr) (snd nr)); cbn [map app]; split; intros [? ?]; try discriminate; tauto. }
  unfold _sequence. destruct (missing_sequences policy c) as [|x l]; [destruct (bad_sequences policy c) as [|y l] eqn:Eb|].
  - apply answer; [reflexivity | discriminate | tauto].
  - apply answer; [pose proof freezable_bad_sequences as Hb; rewrite Eb in Hb; cbn [freezable forallb snd] in *; now rewrite Hb | discriminate|].
    no_pass. intros H. apply E in H as [_ H]. discriminate.
  - apply answer; [cbn [freezable forallb snd]; now rewrite freezable_strings' | discriminate|].
    no_pass. intros H. apply E in H as [H _]. discriminate.
Qed.

Lemma freezable_observations l : forallb (fun kv => freezable (snd kv)) (map (skew_observation policy) l) = true.
Proof. induction l as [|ns l IH]; [reflexivity | exact IH]. Qed.

Lemma venue_timestamp_spec : answers VENUE_TIMESTAMP timestamps_agree (_venue_timestamp policy c).
Proof.
  unfold _venue_timestamp. set (items := sort_by fst (cf_source_manifest (ic_frame c))).
  assert (E : map fst (List.filter (skewed policy) items) = [] <-> timestamps_agree).
  { unfold timestamps_agree. rewrite <- (sort_Forall fst). fold items. split.
    - intros H. apply map_eq_nil, filter_nil in H. revert H. apply List.Forall_impl. intros ns H Hb.
      unfold skewed, is_local in H. rewrite bool_decide_false in H by exact Hb. cbn in H. bool_prop. lia.
    - intros H. rewrite (proj2 (filter_nil _ _)); [reflexivity|]. revert H. apply List.Forall_impl. intros ns H.
      unfold skewed, is_local. destruct (decide (so_timestamp_basis (snd ns) = LOCAL_OBSERVATION)) as [Hl|Hl].
      + now rewrite bool_decide_true.
      + rewrite bool_decide_false by exact Hl. specialize (H Hl). apply Z.ltb_ge. exact H. }
  destruct (map fst _) as [|x l].
  - apply answer; [cbn [freezable forallb snd]; now rewrite freezable_observations | destruct (existsb _ _); discriminate | tauto].
  - apply answer; [cbn [freezable forallb snd]; now rewrite freezable_strings', freezable_observations | discriminate|].
    no_pass. intros H. apply E in H. discriminate.
Qed.

Lemma observed_lag_spec : answers OBSERVED_LAG decided_in_time (_observed_lag policy c).
Proof.
  unfold _observed_lag, decided_in_time. destruct (Z.ltb_spec (lag c) 0); [|destruct (Z.ltb_spec (ip_max_decision_lag policy) (lag c))];
    (apply answer; [reflexivity | discriminate|]; split; try discriminate; auto; lia).
Qed.

Lemma source_freshness_spec : answers SOURCE_FRESHNESS sources_fresh (_source_freshness policy c).
Proof.
  assert (E : (without_age policy = [] /\ stale_sources policy c = []) <-> sources_fresh).
  { unfold sources_fresh, without_age, stale_sources, sorted_names.
    rewrite <- (sort_Forall (fun s => s)), !filter_nil, <- Forall_and. apply Forall_iff'. intros n. split.
    - intros [H1 H2]. destruct (dict_get (ip_source_max_age policy) n) as [m|]; [|discriminate]. exists m. split; [reflexivity|].
      intros so Hso. rewrite Hso in H2. now bool_prop.
    - intros (m & Hm & Hage). rewrite Hm. split; [reflexivity|]. destruct (source c n) as [so|]; [|reflexivity].
      apply Z.ltb_ge, Hage. reflexivity. }
  unfold _source_freshness. destruct (without_age policy) as [|x l]; [destruct (stale_sources policy c) as [|y l]|].
  - apply answer; [reflexivity | discriminate | tauto].
  - apply answer; [cbn [freezable forallb snd]; now rewrite freezable_strings' | discriminate|].
    no_pass. intros H. apply E in H as [_ H]. discriminate.
  - apply answer; [cbn [freezable forallb snd]; now rewrite freezable_strings' | discriminate|].
    no_pass. intros H. apply E in H as [H _]. discriminate.
Qed.

Lemma clock_drift_spec : answers CLOCK_DRIFT clock_agrees (_clock_drift policy c).
Proof.
  unfold _clock_drift, clock_agrees.
  destruct (source c "venue_clock") as [so|]; [destruct (cf_venue_server_time (ic_frame c)) as [server|]|].
  - destruct (Z.ltb_spec (ip_max_venue_clock_drift policy) (Z.abs (dt_sub server (so_observed_at so))));
      (apply answer; [reflexivity | discriminate|]); [no_pass; intros (? & ? & [= <-] & [= <-] & ?); lia | split; eauto].
  - apply answer; [reflexivity | discriminate|]. no_pass. intros (? & ? & _ & [=] & _).
  - apply answer; [reflexivity | discriminate|]. no_pass. intros (? & ? & [=] & _).
Qed.

Lemma stale_book_spec : answers STALE_BOOK book_fresh (_stale_book policy c).
Proof.
  unfold _stale_book, book_fresh. destruct (source c "order_book") as [so|].
  - destruct (Z.ltb_spec (ip_max_book_age policy) (age c so));
      (apply answer; [reflexivity | discriminate|]); [no_pass; intros (? & [= <-] & ?); lia | split; eauto].
  - apply answer; [reflexivity | discriminate|]. no_pass. intros (? & [=] & _).
Qed.

Lemma api_outage_spec : answers API_OUTAGE no_outage (_api_outage policy c).
Proof.
  unfold _api_outage, no_outage. destruct (Z.ltb_spec (ip_max_decision_lag policy) (lag c));
    (apply answer; [reflexivity | discriminate|]); split; try discriminate; auto; lia.
Qed.

Lemma ohlc_spec : answers OHLC bar_consistent (_ohlc c).
Proof.
  unfold _ohlc. apply answer_status; [reflexivity | destruct (ohlc_valid _); discriminate | reflexivity].
Qed.

Lemma volume_spec : answers VOLUME volumes_nonnegative (_volume c).
Proof.
  unfold _volume, volumes_nonnegative. apply answer_status; [reflexivity | destruct (_ && _); discriminate |].
  rewrite andb_true_iff, !dleb_le, !dval_zero. reflexivity.
Qed.

Lemma crossed_book_spec : answers CROSSED_BOOK book_uncrossed (_crossed_book c).
Proof.
  unfold _crossed_book, book_uncrossed. destruct (cf_best_bid (ic_frame c)) as [bid|]; [destruct (cf_best_ask (ic_frame c)) as [ask|]|].
  - apply answer_status; [reflexivity | destruct (_ <? _)%dec; discriminate |]. rewrite dltb_lt. split; [eauto 6|].
    intros (? & ? & [= <-] & [= <-] & H). exact H.
  - apply answer; [reflexivity | discriminate|]. no_pass. intros (? & ? & _ & [=] & _).
  - apply answer; [reflexivity | discriminate|]. no_pass. intros (? & ? & [=] & _).
Qed.

Lemma symbol_state_spec : answers CHECK_SYMBOL_STATE symbol_trading (_symbol_state c).
Proof.
  unfold _symbol_state, symbol_trading. destruct (cf_symbol_status (ic_frame c)) as [st|].
  - apply answer_status; [reflexivity | destruct (bool_decide _); discriminate |]. rewrite bool_decide_eq_true. split; congruence.
  - apply answer; [reflexivity | discriminate|]. no_pass. discriminate.
Qed.

Lemma historical_coverage_spec : answers HISTORICAL_COVERAGE history_covered (_historical_coverage policy c).
Proof.
  unfold _historical_coverage, warming, history_covered.
  destruct (Z.ltb_spec (ic_historical_bar_count c) (ip_minimum_history_bars policy));
    (apply answer; [reflexivity | discriminate|]); split; try discriminate; auto; lia.
Qed.

Lemma nonneg_cases x : (0 <= dval x)%Q -> deqb x dzero = false -> (0 < dval x)%Q.
Proof. intros H E. dec_prop. rewrite dval_zero in E. destruct (Q_dec (dval x) 0) as [[?|?]|?]; [lra | assumption | contradiction]. Qed.

Lemma statistics_total close previous values : (0 < dval previous)%Q -> (2 <= length values)%nat ->
  exists current mean variance, return_statistics close previous values = Ok (current, mean, variance) /\
    repr variance /\ (0 <= dval variance)%Q.
Proof.
  intros Hp Hl. unfold return_statistics.
  assert (Hi : forall n, 0 < n -> ~ (dval (dint n) == 0)%Q).
  { intros n Hn. rewrite dval_int. pose proof (inject_Z_pos n Hn). lra. }
  rewrite ddiv_total by lra. cbn [bind]. rewrite (ddiv_total _ (dint (Z.of_nat _))) by (apply Hi; lia). cbn [bind].
  set (mean := ddiv_raw _ _). rewrite (ddiv_total _ (dint (_ - 1))) by (apply Hi; lia). cbn [bind].
  do 3 eexists. split; [reflexivity|]. split.
  - eapply rounded_repr, ddiv_rounded, Hi. lia.
  - apply ddiv_nonneg; [|rewrite dval_int; apply inject_Z_pos; lia]. apply dsum_nonneg.
    apply List.Forall_map, List.Forall_forall. intros v _. apply dsquare_nonneg.
Qed.

Lemma return_outlier_spec : context_facts c -> policy_facts policy -> answers CLOSE_RETURN_OUTLIER return_ordinary (_close_return_outlier policy c).
Proof.
  intros X F. unfold _close_return_outlier, return_ordinary, history_covered, warming.
  destruct (Z.ltb_spec (ic_historical_bar_count c) (ip_minimum_history_bars policy)).
  { apply answer; [reflexivity | discriminate|]. no_pass. intros [? _]. lia. }
  pose proof (cx_close c X) as Hc. destruct (ic_previous_close c) as [previous|].
  2:{ apply answer; [reflexivity | discriminate|]. no_pass. intros (_ & ? & ? & ? & ? & [=] & _). }
  destruct (Z.ltb_spec (Z.of_nat (length (ic_recent_close_returns c))) (ip_minimum_outlier_returns policy)).
  { apply answer; [reflexivity | discriminate|]. no_pass. intros (_ & ? & ? & ? & ? & _ & ? & _). lia. }
  destruct (statistics_total (cb_close (cf_bar (ic_frame c))) previous (ic_recent_close_returns c) Hc)
    as (current & mean & variance & Hs & Hr & Hv); [pose proof (pf_returns _ F); lia|].
  rewrite Hs. cbn [bind]. destruct (deqb variance dzero) eqn:Ev.
  - apply answer_status; [reflexivity | destruct (negb (deqb current mean)); discriminate |]. rewrite negb_involutive, deqb_eq.
    dec_prop. rewrite dval_zero in Ev. split.
    + intros E. split; [assumption|]. exists previous, current, mean, variance. split; [reflexivity|]. split; [assumption|]. split; [exact Hs|]. left. now split.
    + intros (_ & ? & ? & ? & ? & [= <-] & _ & E & H'). rewrite Hs in E. injection E as <- <- <-.
      destruct H' as [[_ H']|[H' _]]; [exact H' | lra].
  - pose proof (nonneg_cases _ Hv Ev) as Hp. destruct (dsqrt_pos variance Hr Hp) as (deviation & Hd & Hdp).
    rewrite Hd. cbn [bind]. rewrite ddiv_total by lra. cbn [bind].
    apply answer_status; [reflexivity | destruct (_ >? _)%dec; discriminate |]. rewrite negb_true_iff, dltb_ge. split.
    + intros Hz. split; [assumption|]. exists previous, current, mean, variance. repeat split; auto. right. split; [exact Hp|].
      exists deviation. eexists. split; [exact Hd|]. split; [apply ddiv_total; lra | exact Hz].
    + intros (_ & ? & ? & ? & ? & [= <-] & _ & E & H'). rewrite Hs in E. injection E as <- <- <-.
      destruct H' as [[H' _]|(_ & dev & z & E1 & E2 & Hz)]; [lra|]. rewrite Hd in E1. injection E1 as <-.
      rewrite ddiv_total in E2 by lra. injection E2 as <-. exact Hz.
Qed.

Lemma divergence_total mark reference : (0 < dval reference)%Q -> exists d, divergence_of mark reference = Ok d.
Proof. intros H. unfold divergence_of. rewrite ddiv_total by lra. eauto. Qed.

Lemma basis_spec : context_facts c -> answers FUTURES_SPOT_BASIS basis_small (_futures_spot_basis policy c).
Proof.
  intros X. unfold _futures_spot_basis, basis_small. pose proof (ff_spot _ (cx_frame c X)) as Hp.
  destruct (cf_mark_price (ic_frame c)) as [mark|]; [destruct (cf_primary_spot_price (ic_frame c)) as [spot|]|].
  - destruct (divergence_total mark spot Hp) as [d Hd]. rewrite Hd. cbn [bind].
    apply answer_status; [reflexivity | destruct (_ >? _)%dec; discriminate |]. rewrite negb_true_iff, dltb_ge. split; [eauto 8|].
    intros (? & ? & ? & [= <-] & [= <-] & E & H). rewrite Hd in E. injection E as <-. exact H.
  - apply answer; [reflexivity | discriminate|]. no_pass. intros (? & ? & ? & _ & [=] & _).
  - apply answer; [reflexivity | discriminate|]. no_pass. intros (? & ? & ? & [=] & _).
Qed.

Lemma secondary_spec : context_facts c -> answers SECONDARY_REFERENCE secondary_agrees (_secondary_reference policy c).
Proof.
  intros X. unfold _secondary_reference, secondary_agrees. pose proof (ff_secondary _ (cx_frame c X)) as Hp.
  destruct (cf_secondary_venue_price (ic_frame c)) as [reference|]; [destruct (cf_mark_price (ic_frame c)) as [mark|]|].
  - destruct (divergence_total mark reference Hp) as [d Hd]. rewrite Hd. cbn [bind].
    apply answer_status; [reflexivity | destruct (_ >? _)%dec; discriminate |]. rewrite negb_true_iff, dltb_ge. split; [eauto 8|].
    intros (? & ? & ? & [= <-] & [= <-] & E & H). rewrite Hd in E. injection E as <-. exact H.
  - apply answer; [reflexivity | discriminate|]. no_pass. intros (? & ? & ? & [=] & _).
  - apply answer; [reflexivity | discriminate|]. no_pass. intros (? & ? & ? & _ & [=] & _).
Qed.

(** The checks answer in order, each exactly for its meaning. *)
Lemma checks_answer : context_facts c -> policy_facts policy ->
  exists results, mapM (fun check => check c) (checks policy) = Ok results /\
    Forall2 (fun k r => ir_check r = k /\ (ir_status r = PASSED <-> required_meaning k)) every_check results.
Proof.
  intros X F.
  assert (H : Forall2 (fun k m => answers k (required_meaning k) m) every_check (map (fun check => check c) (checks policy))).
  { unfold every_check, checks. cbn [map]. repeat apply List.Forall2_cons; try apply List.Forall2_nil.
    all: first [apply required_sources_spec | now apply missing_interval_spec | apply sequence_spec
      | apply venue_timestamp_spec | apply observed_lag_spec | apply source_freshness_spec | apply clock_drift_spec
      | apply stale_book_spec | apply api_outage_spec | apply ohlc_spec | apply volume_spec | apply crossed_book_spec
      | apply symbol_state_spec | apply historical_coverage_spec | now apply return_outlier_spec | now apply basis_spec
      | now apply secondary_spec | (apply answer; [reflexivity | discriminate | split; [intros _; exact I | reflexivity]])]. }
  exact (gates_answer ir_check ir_status c required_meaning every_check (checks policy) H).
Qed.
End Specification.

(** ** The assessment *)

Lemma every_check_complete k : In k every_check.
Proof. destruct k; cbn; tauto. Qed.

Lemma Forall2_In_l {A B} (R : A -> B -> Prop) l l' x : Forall2 R l l' -> In x l -> exists y, In y l' /\ R x y.
Proof. induction 1 as [|a b l l' H _ IH]; intros []; [subst; exists b; cbn; auto | destruct (IH H0) as (y & ? & ?); exists y; cbn; auto]. Qed.
Lemma Forall2_In_r {A B} (R : A -> B -> Prop) l l' y : Forall2 R l l' -> In y l' -> exists x, In x l /\ R x y.
Proof. induction 1 as [|a b l l' H _ IH]; intros []; [subst; exists a; cbn; auto | destruct (IH H0) as (x & ? & ?); exists x; cbn; auto]. Qed.

Record assessed (policy : IntegrityPolicy) (c : IntegrityContext) (a : IntegrityAssessment) : Prop := {
  as_checks : mapM (fun check => check c) (checks policy) = Ok (ia_results a);
  as_answers : Forall2 (fun k r => ir_check r = k /\ (ir_status r = PASSED <-> required_meaning policy c k)) every_check (ia_results a);
  as_blocking : ia_blocking_checks a = map ir_check (List.filter (blocks policy) (ia_results a));
  as_admission : ia_admission a = if nonempty (ia_blocking_checks a) then QUARANTINED else ADMITTED;
  as_quality : ia_quality_status a = if nonempty (ia_blocking_checks a) then FAILED else PASSED
}.

Lemma evaluate_assessed sha256_hex policy c : valid_integrity_policy policy -> valid_context c ->
  exists a, evaluate sha256_hex policy c = Ok a /\ assessed policy c a.
Proof.
  intros VP VC. destruct (checks_answer policy c (valid_context_facts c VC) (valid_policy_facts policy VP)) as (results & Hm & Ha).
  unfold evaluate. rewrite Hm. cbn [bind].
  match goal with |- context [content_hash sha256_hex ?v] => destruct (content_hash_total sha256_hex v) as [t ->] end.
  { cbn [freezable forallb snd]. rewrite !forallb_freezable; [reflexivity | reflexivity |].
    intros r. unfold result_to_dict. cbn [freezable forallb snd]. now rewrite freezable_thaw. }
  cbn [bind]. eexists; split; [reflexivity|]. split; try reflexivity; assumption.
Qed.

Lemma not_blocked policy c a r : assessed policy c a -> ia_admission a = ADMITTED -> In r (ia_results a) -> blocks policy r = false.
Proof.
  intros A H Hin. rewrite (as_admission _ _ _ A), (as_blocking _ _ _ A) in H.
  destruct (List.filter (blocks policy) (ia_results a)) as [|x l] eqn:E; [|discriminate].
  apply filter_nil in E. rewrite List.Forall_forall in E. auto.
Qed.

Lemma filter_map_agree {A B} (f : A -> B) (p : A -> bool) (q : B -> bool) l :
  (forall x, In x l -> q (f x) = p x) -> map f (List.filter p l) = List.filter q (map f l).
Proof.
  intros H. induction l as [|x l IH]; cbn [List.filter map]; [reflexivity|].
  rewrite (H x) by (now left). rewrite <- IH by (intros; apply H; now right). now destruct (p x).
Qed.

Lemma assessed_checks policy c a : assessed policy c a -> map ir_check (ia_results a) = every_check.
Proof.
  intros A. pose proof (as_answers _ _ _ A) as F2. induction F2 as [|k r ks rs [H _] _ IH]; cbn [map]; congruence.
Qed.

Lemma assessed_inj policy c a r r' : assessed policy c a -> In r (ia_results a) -> In r' (ia_results a) ->
  ir_check r = ir_check r' -> r = r'.
Proof.
  intros A. apply NoDup_map_inj. rewrite (assessed_checks _ _ _ A). apply (bool_decide_unpack (NoDup _)). vm_compute. exact I.
Qed.

(** What blocks: each check at most once, in the order of the checks, only
    because it is not met, and whenever it is required and not met. *)
Lemma blocking_checks policy c a : assessed policy c a ->
  ia_blocking_checks a = List.filter (fun k => bool_decide (k ∈ ia_blocking_checks a)) every_check /\
  (forall k, In k (ia_blocking_checks a) -> ~ required_meaning policy c k) /\
  (forall k, In k (ip_required_checks policy) -> In k (ia_blocking_checks a) <-> ~ required_meaning policy c k).
Proof.
  intros A. pose proof (as_answers _ _ _ A) as F2.
  assert (Hin : forall r, In r (ia_results a) -> In (ir_check r) (ia_blocking_checks a) <-> blocks policy r = true).
  { intros r Hr. rewrite (as_blocking _ _ _ A), in_map_iff. split.
    - intros (r' & Ek & Hr'). apply filter_In in Hr' as [Hr' B]. now rewrite <- (assessed_inj _ _ _ r' r A Hr' Hr Ek).
    - intros B. exists r. split; [reflexivity | now apply filter_In]. }
  assert (Hsound : forall k, In k (ia_blocking_checks a) -> ~ required_meaning policy c k).
  { intros k Hk M. assert (Hk' := Hk). rewrite (as_blocking _ _ _ A) in Hk'. apply in_map_iff in Hk' as (r & <- & Hr).
    apply filter_In in Hr as [Hr B]. destruct (Forall2_In_r _ _ _ r F2 Hr) as (k0 & _ & E & Hs). rewrite E in M.
    unfold blocks in B. rewrite (proj2 Hs M) in B. discriminate. }
  split; [|split; [exact Hsound|]].
  - rewrite <- (assessed_checks _ _ _ A). rewrite (as_blocking _ _ _ A) at 1. apply filter_map_agree. intros r Hr.
    apply eq_true_iff_eq. rewrite bool_decide_eq_true, list_elem_of_In. now apply Hin.
  - intros k Hk. split; [apply Hsound|]. intros N.
    destruct (Forall2_In_l _ _ _ k F2 (every_check_complete k)) as (r & Hr & <- & Hs). apply Hin; [exact Hr|].
    unfold blocks. rewrite (bool_decide_true (ir_check r ∈ _)) by now apply list_elem_of_In.
    destruct (ir_status r); [tauto | reflexivity | reflexivity].
Qed.

(** C9: Fail closed.  For a valid policy and a context around a built frame
    the state machine always answers, with all eighteen checks in order.  An
    admitted frame meets every required check: its sources are present and
    fresh, its bar follows the previous one, its sequences advance, its clocks
    agree, the decision is in time, the book is fresh and uncrossed, the symbol
    trades, the history is covered, the return is no outlier and the basis and
    the secondary price are within bounds.  A frame is quarantined exactly when
    something blocks; the blocking checks are listed once each in the order of
    the checks, are all unmet, and include every required one that is unmet.
    When the policy requires every check, as the official one does, a frame is
    admitted exactly when all are met, and otherwise the unmet ones are listed. *)
Theorem integrity_admits_exactly sha256_hex policy c (VP : valid_integrity_policy policy) (VC : valid_context c) :
  exists a, evaluate sha256_hex policy c = Ok a /\ map ir_check (ia_results a) = every_check /\
    (ia_quality_status a = PASSED <-> ia_admission a = ADMITTED) /\
    (ia_admission a = ADMITTED -> forall k, In k (ip_required_checks policy) -> required_meaning policy c k) /\
    (ia_admission a = QUARANTINED <-> ia_blocking_checks a <> []) /\
    ia_blocking_checks a = List.filter (fun k => bool_decide (k ∈ ia_blocking_checks a)) every_check /\
    (forall k, In k (ia_blocking_checks a) -> ~ required_meaning policy c k) /\
    (forall k, In k (ip_required_checks policy) -> In k (ia_blocking_checks a) <-> ~ required_meaning policy c k) /\
    ((forall k, In k (ip_required_checks policy)) ->
     ia_admission a = ADMITTED <-> forall k, required_meaning policy c k).
Proof.
  destruct (evaluate_assessed sha256_hex policy c VP VC) as (a & Ha & A). exists a. split; [exact Ha|].
  pose proof (as_answers _ _ _ A) as F2. destruct (blocking_checks _ _ _ A) as (B1 & B2 & B3).
  assert (Hreq : ia_admission a = ADMITTED -> forall k, In k (ip_required_checks policy) -> required_meaning policy c k).
  { intros H k Hk. destruct (Forall2_In_l _ _ _ k F2 (every_check_complete k)) as (r & Hr & Ek & Hs). apply Hs.
    pose proof (not_blocked _ _ _ _ A H Hr) as B. unfold blocks in B. rewrite Ek in B.
    rewrite (bool_decide_true (k ∈ _)) in B by now apply list_elem_of_In. rewrite andb_true_r in B. bool_prop.
    destruct (ir_status r); congruence. }
  split; [exact (assessed_checks _ _ _ A)|split; [|split; [exact Hreq|split; [|split; [exact B1|split; [exact B2|split; [exact B3|]]]]]]].
  - rewrite (as_quality _ _ _ A), (as_admission _ _ _ A). destruct (nonempty _); split; congruence.
  - rewrite (as_admission _ _ _ A). destruct (ia_blocking_checks a); cbn [nonempty]; split; congruence.
  - intros Hall. split; [auto|]. intros H. rewrite (as_admission _ _ _ A), (as_blocking _ _ _ A).
    rewrite (proj2 (filter_nil _ _)); [reflexivity|]. apply List.Forall_forall. intros r Hr.
    destruct (Forall2_In_r _ _ _ r F2 Hr) as (k & _ & _ & Hs). unfold blocks. rewrite (proj2 Hs (H k)). reflexivity.
Qed.

Definition history_check (k : IntegrityCheck) : bool :=
  match k with MISSING_INTERVAL | HISTORICAL_COVERAGE | CLOSE_RETURN_OUTLIER => true | _ => false end.

Lemma by_check_In results k r : by_check results k = Some r -> In r results /\ ir_check r = k.
Proof.
  unfold by_check. intros H. apply find_some in H as [Hin Hb]. apply in_rev in Hin. split; [exact Hin | now bool_prop].
Qed.

(** A warm-up is only a lack of history.  An assessment that the program
    takes for an expected warm-up is a quarantine in which no check failed,
    every check that is not about history passed, and the bar either is the
    first one or follows the previous one. *)
Theorem warmup_is_lack_of_history sha256_hex policy c a (VP : valid_integrity_policy policy) (VC : valid_context c)
    (Hall : forall k, In k (ip_required_checks policy)) (E : evaluate sha256_hex policy c = Ok a)
    (W : is_expected_warmup a = true) :
  ia_admission a = QUARANTINED /\ Forall (fun r => ir_status r <> FAILED) (ia_results a) /\
  (forall k, history_check k = false -> required_meaning policy c k) /\
  (ic_previous_bar_close_at c = None \/ interval_contiguous c).
Proof.
  destruct (evaluate_assessed sha256_hex policy c VP VC) as (a' & Ha & A). rewrite E in Ha. injection Ha as <-.
  pose proof (as_answers _ _ _ A) as F2. unfold is_expected_warmup in W. apply andb_true_iff in W as [W1 W2].
  rewrite (as_admission _ _ _ A), W1. split; [reflexivity|]. rewrite forallb_forall in W2.
  pose proof (fun r r' => assessed_inj policy c a r r' A) as Huniq.
  (* Every blocker is a history check that does not apply. *)
  assert (Hb : forall r, In r (ia_results a) -> ir_status r = PASSED \/ (ir_status r = NOT_APPLICABLE /\ history_check (ir_check r) = true)).
  { intros r Hr. destruct (blocks policy r) eqn:B.
    - right. assert (Hin : In (ir_check r) (ia_blocking_checks a)).
      { rewrite (as_blocking _ _ _ A). apply in_map, filter_In. auto. }
      specialize (W2 _ Hin). destruct (by_check (ia_results a) (ir_check r)) as [r'|] eqn:Eb; [|discriminate].
      apply by_check_In in Eb as [Hr' Ek]. rewrite (Huniq r' r Hr' Hr Ek) in W2. bool_prop. split; [assumption|].
      match goal with H : ir_reason_code r ∈ _ |- _ => revert H end.
      destruct (ir_check r); cbn [expected_reasons history_check]; try reflexivity; intros Hx; now apply not_elem_of_nil in Hx.
    - left. unfold blocks in B. rewrite (bool_decide_true (ir_check r ∈ _)) in B by now apply list_elem_of_In.
      rewrite andb_true_r in B. bool_prop. destruct (ir_status r); congruence. }
  split; [|split].
  - apply List.Forall_forall. intros r Hr. destruct (Hb r Hr) as [H|[H _]]; congruence.
  - intros k Hk. destruct (Forall2_In_l _ _ _ k F2 (every_check_complete k)) as (r & Hr & Ek & Hs). apply Hs.
    destruct (Hb r Hr) as [H|[_ H]]; [exact H | congruence].
  - destruct (ic_previous_bar_close_at c) as [t|] eqn:Et; [right | now left].
    pose proof (as_checks _ _ _ A) as Hm. unfold checks in Hm. cbn [mapM] in Hm.
    apply bind_Ok in Hm as (r0 & _ & Hm). apply bind_Ok in Hm as (rs & Hm & Er). apply bind_Ok in Hm as (r1 & H1 & Hm).
    apply bind_Ok in Hm as (rs' & _ & Ers). injection Ers as <-. injection Er as Er.
    assert (Hin : In r1 (ia_results a)) by (rewrite <- Er; cbn; auto).
    destruct (missing_interval_spec c (valid_context_facts c VC)) as (r & Hr & Ek & Hs). rewrite Hr in H1. injection H1 as <-.
    apply Hs. destruct (Hb r Hin) as [H|[H _]]; [exact H|]. exfalso. unfold _missing_interval in Hr. rewrite Et in Hr.
    assert (Hst : forall k s reason d, _result k s reason d = Ok r -> ir_status r = s).
    { intros k s reason d Hx. unfold _result, IntegrityResult_post_init in Hx. py_inv. reflexivity. }
    destruct (negb _); apply Hst in Hr; congruence.
Qed.

(** ** A concrete assessment *)

Definition sample_reference (id : string) (rk : ReferenceKind) (price : Z) : ObservedMarketEvent :=
  sample_event id REFERENCE_PRICE 60000 60050 3 (ReferencePayload
    {| rp_reference_kind := rk; rp_instrument := "BTC"; rp_price := dint price; rp_source_event_id := id;
       rp_source_quantity := None; rp_source_side := None; rp_source_bid := None; rp_source_ask := None;
       rp_source_published_at := None; rp_source_engine_at := None |}).

Definition full_events : list ObservedMarketEvent :=
  [sample_book_event "b-2" 60100 100 102;
   sample_event "m-1" MARK_FUNDING 60000 60080 4 (MarkPayload
     {| mf_mark_price := dint 101; mf_index_price := dint 101; mf_funding_rate := mkdec 1 (-4);
        mf_next_funding_at := at_ms 3600000; mf_estimated_settle_price := None |});
   sample_reference "s-1" PRIMARY_SPOT 100; sample_reference "v-1" SECONDARY_VENUE 101;
   sample_event "c-1" VENUE_CLOCK 60000 60020 5 (ClockPayload {| vc_server_time := at_ms 60010 |});
   sample_event "t-1" SYMBOL_STATE 59990 60000 6 (StatePayload {| ss_status := "TRADING" |})].

Lemma full_events_valid : Forall valid_event full_events.
Proof.
  constructor; [apply book_event_valid; (lia || discriminate)|].
  repeat constructor; vm_compute; reflexivity.
Qed.

Definition frame_default : CausalMinuteFrame := {|
  cf_key := sample_market_key; cf_frame_id := 0; cf_cutoff_at := at_ms 0; cf_bar := sample_bar_payload 0 101;
  cf_book_bids := []; cf_book_asks := []; cf_best_bid := None; cf_best_ask := None; cf_mark_price := None;
  cf_index_price := None; cf_funding_rate := None; cf_primary_spot_price := None; cf_secondary_venue_price := None;
  cf_venue_server_time := None; cf_symbol_status := None; cf_source_manifest := []; cf_content_hash := "" |}.

Definition full_frame : CausalMinuteFrame :=
  match build toy_digest toy_uuid5 sample_market_key sample_bar_event full_events (Some (at_ms 60150)) with
  | Ok f => f
  | Raise _ => frame_default
  end.

Lemma full_frame_facts : frame_facts full_frame.
Proof.
  assert (B : exists f, build toy_digest toy_uuid5 sample_market_key sample_bar_event full_events (Some (at_ms 60150)) = Ok f)
    by (eexists; vm_compute; reflexivity).
  destruct B as [f B]. unfold full_frame. rewrite B.
  exact (build_frame_facts _ _ _ _ _ _ _ sample_bar_valid full_events_valid B).
Qed.

Definition steady_returns (n : nat) : list dec := concat (repeat [mkdec 1 (-2); mkdec (-1) (-2)] n).

Definition full_context : IntegrityContext := {|
  ic_frame := full_frame; ic_evaluated_at := at_ms 60500; ic_previous_bar_close_at := Some (at_ms 0);
  ic_previous_close := Some (dint 100); ic_prior_sequences := [("closed_bar", 0); ("order_book", 6)];
  ic_recent_close_returns := steady_returns 30; ic_historical_bar_count := 61 |}.

(** The same market without a past. *)
Definition first_context : IntegrityContext := {|
  ic_frame := full_frame; ic_evaluated_at := at_ms 60500; ic_previous_bar_close_at := None;
  ic_previous_close := None; ic_prior_sequences := []; ic_recent_close_returns := []; ic_historical_bar_count := 0 |}.

Lemma full_context_valid : valid_context full_context.
Proof. split; [vm_compute; reflexivity | exact full_frame_facts]. Qed.
Lemma first_context_valid : valid_context first_context.
Proof. split; [vm_compute; reflexivity | exact full_frame_facts]. Qed.
Lemma official_valid : valid_integrity_policy official.
Proof. vm_compute. reflexivity. Qed.

Lemma full_context_admitted : exists a, evaluate toy_digest official full_context = Ok a /\ ia_admission a = ADMITTED.
Proof. eexists. split; [vm_compute; reflexivity | reflexivity]. Qed.
Lemma first_context_warmup : exists a, evaluate toy_digest official first_context = Ok a /\ is_expected_warmup a = true.
Proof. eexists. split; [vm_compute; reflexivity | vm_compute; reflexivity]. Qed.

Lemma integrity_admits_exactly_witness :
  (exists a, evaluate toy_digest official full_context = Ok a /\ ia_admission a = ADMITTED) /\
  return_ordinary official full_context.
Proof.
  destruct full_context_admitted as (a & E & A). split; [eauto|].
  destruct (integrity_admits_exactly toy_digest official full_context official_valid full_context_valid)
    as (a' & E' & _ & _ & H & _). rewrite E in E'. injection E' as <-.
  exact (H A CLOSE_RETURN_OUTLIER (every_check_complete _)).
Defined.

Lemma warmup_is_lack_of_history_witness : exists a, evaluate toy_digest official first_context = Ok a /\
  ia_admission a = QUARANTINED /\ basis_small official first_context.
Proof.
  destruct first_context_warmup as (a & E & W). exists a. split; [exact E|].
  destruct (warmup_is_lack_of_history toy_digest official first_context a official_valid first_context_valid
    every_check_complete E W) as (Q & _ & H & _). split; [exact Q | exact (H FUTURES_SPOT_BASIS eq_refl)].
Defined.
