(* ===== verification/EventLog.v ===== *)
(** * Audit trails: the event histories of [market_data/recovery.py],
    [operations/incidents.py] and [orchestration/checkpoints.py]

    The three state machines keep the same kind of history: numbered events
    from a fixed opening event, in time order, the last one at the time of the
    state.  Each file declares its own transition class with the same fields
    and checks; this file has them once.  A state that keeps such a history is
    an instance of [Journal], and its constructor runs [history_check]. *)

From Stdlib Require Import ZArith QArith Lia List Bool String Ascii.
From stdpp Require Import base decidable list strings.
From S2P Require Import Prelude PyDecimal DecimalTheory Domain Json MarketEvents.

Local Open Scope Z_scope.

(** [not s] of a string. *)
Definition empty (s : string) : bool := bool_decide (s = "").

(** [range(start, start + n)]. *)
Definition zrange (start : Z) (n : nat) : list Z := map (fun i => start + Z.of_nat i) (seq 0 n).

Record Transition : Type := {
  tr_sequence : Z; tr_event_type : string; tr_event_at : datetime; tr_payload : json
}.

(** [name] begins the messages of the file. *)
Definition object_payload (name : string) (v : pyval) : result json :=
  let* normalized := freeze_json v in as_mapping (name +:+ " must be an object") normalized.

Definition dotted (ty : string) : bool := existsb (fun ch => bool_decide (ch = "."%char)) (list_ascii_of_string ty).

Definition Transition_post_init (owner clock payload_name : string) (t : Transition) : result Transition :=
  do* raise_if ((tr_sequence t <=? 0) || negb (dotted (tr_event_type t)))
        (ValueError (owner +:+ " transition identity is invalid")) ;;
  do* _require_utc (tr_event_at t) clock ;;
  let* payload := object_payload payload_name (thaw (tr_payload t)) in
  Ok {| tr_sequence := tr_sequence t; tr_event_type := tr_event_type t; tr_event_at := tr_event_at t; tr_payload := payload |}.

(** ** Histories *)

Class Journal (S : Type) := {
  journal_owner : string;
  journal_opening : string;
  journal_clock : string;
  journal_version : S -> Z;
  journal_time : S -> datetime;
  journal_events : S -> list Transition
}.

Definition regresses (previous current : Transition) : bool := dt_ltb (tr_event_at current) (tr_event_at previous).

Section History.
Context {S : Type} {J : Journal S}.
Implicit Types (s : S).

Definition history_check (s : S) : result unit :=
  do* raise_if ((journal_version s <=? 0) ||
                negb (bool_decide (map tr_sequence (journal_events s) = zrange 1 (Z.to_nat (journal_version s)))))
        (ValueError (journal_owner +:+ " event history must be contiguous")) ;;
  let* first := of_option (LookupError "tuple index out of range") (head (journal_events s)) in
  do* raise_if (negb (bool_decide (tr_event_type first = journal_opening)))
        (ValueError (journal_owner +:+ " history must begin with " +:+ journal_opening)) ;;
  let* final := of_option (LookupError "tuple index out of range") (last (journal_events s)) in
  do* raise_if (negb (dt_eqb (tr_event_at final) (journal_time s)))
        (ValueError (journal_clock +:+ " must match the latest event")) ;;
  raise_if (any_pair regresses (journal_events s)) (ValueError (journal_owner +:+ " event time cannot regress")).

(** What the check promises. *)
Record history_ok (s : S) : Prop := {
  ho_version : 0 < journal_version s;
  ho_sequences : map tr_sequence (journal_events s) = zrange 1 (Z.to_nat (journal_version s));
  ho_first : exists first, head (journal_events s) = Some first /\ tr_event_type first = journal_opening;
  ho_final : exists final, last (journal_events s) = Some final /\ dt_eqb (tr_event_at final) (journal_time s) = true;
  ho_ordered : any_pair regresses (journal_events s) = false
}.

Lemma history_check_Ok s u : history_check s = Ok u <-> history_ok s.
Proof.
  destruct u. unfold history_check. split.
  - intros H. py_inv. bool_prop. split; eauto.
  - intros [H1 H2 (f & H3 & H4) (l & H5 & H6) H7].
    pass; [rewrite (proj2 (Z.leb_gt _ _) H1), bool_decide_true by exact H2; reflexivity|].
    pass; [now rewrite H3|]. pass; [now rewrite bool_decide_true|]. pass; [now rewrite H5|]. pass; [now rewrite H6|].
    now rewrite H7.
Qed.
End History.

(** ** Appending to a history *)

Lemma zrange_S k n : zrange k (S n) = k :: zrange (k + 1) n.
Proof.
  unfold zrange. cbn [seq map]. rewrite Z.add_0_r. f_equal. rewrite <- seq_shift, map_map. apply map_ext. intros i. lia.
Qed.

Lemma zrange_length k n : length (zrange k n) = n.
Proof. unfold zrange. now rewrite length_map, length_seq. Qed.

Lemma zrange_app k n m : zrange k (n + m) = zrange k n ++ zrange (k + Z.of_nat n) m.
Proof.
  revert k; induction n as [|n IH]; intros k; cbn [Nat.add].
  - now rewrite Z.add_0_r.
  - rewrite !zrange_S, IH. cbn [app]. do 3 f_equal. lia.
Qed.

Lemma zrange_snoc k n : zrange k (S n) = zrange k n ++ [k + Z.of_nat n].
Proof. replace (S n) with (n + 1)%nat by lia. now rewrite zrange_app, zrange_S. Qed.

Lemma any_pair_snoc {A} (bad : A -> A -> bool) l x :
  any_pair bad (l ++ [x]) = any_pair bad l || match last l with Some y => bad y x | None => false end.
Proof.
  induction l as [|a [|b l] IH]; [reflexivity | cbn; now rewrite orb_false_r |].
  cbn [app any_pair] in *. rewrite IH, orb_assoc. reflexivity.
Qed.

Lemma dt_eqb_instant a b : dt_eqb a b = true -> instant a = instant b.
Proof. unfold dt_eqb. intros H. bool_prop. assumption. Qed.

Lemma empty_length s : String.length s <> 0%nat -> empty s = false.
Proof. intros H. unfold empty. apply bool_decide_eq_false. intros ->. now apply H. Qed.

Section Append.
Context {S : Type} {J : Journal S}.

(** One event later: the next number, not before the state's time. *)
Lemma history_append (s s' : S) t : history_ok s ->
  journal_version s' = journal_version s + 1 -> journal_events s' = journal_events s ++ [t] ->
  tr_sequence t = journal_version s + 1 -> tr_event_at t = journal_time s' ->
  instant (journal_time s) <= instant (journal_time s') -> history_ok s'.
Proof.
  intros [H1 H2 (f & H3 & H4) (l & H5 & H6) H7] Ev Ee Es Et Hle. split; rewrite ?Ev, ?Ee.
  - lia.
  - rewrite map_app, H2. cbn [map]. replace (Z.to_nat (journal_version s + 1)) with (Datatypes.S (Z.to_nat (journal_version s))) by lia.
    rewrite zrange_snoc. do 2 f_equal. lia.
  - exists f. split; [now destruct (journal_events s) | exact H4].
  - exists t. rewrite last_snoc, Et. split; [reflexivity | apply dt_eqb_refl].
  - rewrite any_pair_snoc, H7, H5. cbn [orb]. unfold regresses. rewrite Et. apply Z.ltb_ge.
    apply dt_eqb_instant in H6. lia.
Qed.

(** The first event. *)
Lemma history_open (s : S) t : journal_version s = 1 -> journal_events s = [t] -> tr_sequence t = 1 ->
  tr_event_type t = journal_opening -> tr_event_at t = journal_time s -> history_ok s.
Proof.
  intros Ev Ee Es Et Ea. split; rewrite ?Ev, ?Ee; [lia | cbn; now rewrite Es | eauto | | reflexivity].
  exists t. rewrite Ea. split; [reflexivity | apply dt_eqb_refl].
Qed.
End Append.

(** ** Building events *)

Lemma object_payload_Ok name v j : object_payload name v = Ok j -> freeze_json v = Ok j /\ exists items, j = JObj items.
Proof.
  unfold object_payload, as_mapping. intros H. apply bind_Ok in H as (j' & Hj & H). py_inv. destruct j; try discriminate. eauto.
Qed.

Lemma Transition_post_init_same owner clock name t t' : Transition_post_init owner clock name t = Ok t' -> t' = t.
Proof.
  unfold Transition_post_init. intros H. py_inv.
  match goal with H : object_payload _ _ = Ok _ |- _ => apply object_payload_Ok in H as (H & _); rewrite freeze_thaw in H; injection H as <- end.
  now destruct t.
Qed.

Lemma transition_total owner clock name n ty at' items : 0 < n -> dotted ty = true -> is_utc at' = true ->
  Transition_post_init owner clock name {| tr_sequence := n; tr_event_type := ty; tr_event_at := at'; tr_payload := JObj items |} =
  Ok {| tr_sequence := n; tr_event_type := ty; tr_event_at := at'; tr_payload := JObj items |}.
Proof.
  intros Hn Hty Ut. unfold Transition_post_init. cbn [tr_sequence tr_event_type tr_event_at tr_payload].
  pass; [rewrite Hty, (proj2 (Z.leb_gt _ _)) by exact Hn; reflexivity|]. pass; [now apply _require_utc_Ok|].
  pass; [unfold object_payload; rewrite freeze_thaw; reflexivity | reflexivity].
Qed.

Lemma freeze_dict_total l : freezable (PDict l) = true -> exists items, freeze_json (PDict l) = Ok (JObj items).
Proof.
  intros Hf. destruct (freeze_total _ Hf) as [j Hj]. cbn [freeze_json] in *. apply bind_Ok in Hj as (items & H & [= <-]).
  rewrite H. cbn [bind]. eauto.
Qed.

(** Every state of a run has a valid history when each step appends to it. *)
Definition history_extends {S} `{Journal S} (s s' : S) : Prop :=
  exists more, journal_events s' = journal_events s ++ more.

Lemma history_extends_refl {S} `{Journal S} (s : S) : history_extends s s.
Proof. exists []. now rewrite app_nil_r. Qed.

Lemma history_extends_trans {S} `{Journal S} (a b c : S) : history_extends a b -> history_extends b c -> history_extends a c.
Proof. intros [l Hl] [m Hm]. exists (l ++ m). now rewrite Hm, Hl, app_assoc. Qed.
