(* ===== verification/Recovery.v ===== *)
(** * Market-data recovery: [maais/market_data/recovery.py]

    The cursor of a closed-bar stream, the detection of a gap, the validation
    of a backfill and the recovery state machine with its audit trail.

    Dataclass copies ([replace]) run the constructor's checks again, and so do
    the definitions below. *)

From Stdlib Require Import ZArith QArith Lia List Bool String Ascii.
From stdpp Require Import base decidable list strings.
From S2P Require Import Prelude PyDecimal DecimalTheory Domain Json MarketEvents Frames EventLog.

Local Open Scope Z_scope.

Inductive CursorStatus : Type := CURSOR_ACTIVE | CURSOR_RECOVERING | CURSOR_HALTED.
Inductive RecoveryStatus : Type := DETECTED | BACKFILLING | COMPLETED | RECOVERY_FAILED.

#[export] Instance RecoveryStatus_eq_dec : EqDecision RecoveryStatus.
Proof. solve_decision. Defined.

Record MarketCursor : Type := {
  mc_experiment_id : UUID;
  mc_venue : string;
  mc_stream : string;
  mc_symbol : string;
  mc_timeframe : string;
  mc_event_id : string;
  mc_sequence : Z;
  mc_venue_event_at : datetime;
  mc_observed_at : datetime;
  mc_bar_close_at : datetime;
  mc_status : CursorStatus;
  mc_version : Z;
  mc_updated_at : datetime
}.

Definition MarketCursor_post_init (c : MarketCursor) : result MarketCursor :=
  do* raise_if (mc_experiment_id c =? 0) (ValueError "cursor experiment_id cannot be nil") ;;
  do* raise_if (existsb empty [mc_venue c; mc_stream c; mc_symbol c; mc_timeframe c; mc_event_id c])
        (ValueError "cursor identity fields are required") ;;
  do* raise_if (negb (upper_symbol (mc_symbol c))) (ValueError "cursor symbol must be uppercase") ;;
  do* raise_if ((mc_sequence c <? 0) || (mc_version c <=? 0)) (ValueError "cursor sequence and version must be positive state") ;;
  do* iterM (fun nv => _require_utc (snd nv) (fst nv))
        [("venue_event_at", mc_venue_event_at c); ("observed_at", mc_observed_at c);
         ("bar_close_at", mc_bar_close_at c); ("updated_at", mc_updated_at c)] ;;
  do* raise_if (dt_ltb (mc_observed_at c) (mc_venue_event_at c) || dt_ltb (mc_observed_at c) (mc_bar_close_at c))
        (ValueError "cursor observation cannot precede venue event or bar close") ;;
  do* raise_if (dt_ltb (mc_updated_at c) (mc_observed_at c)) (ValueError "cursor update cannot precede observation") ;;
  Ok c.

Definition cursor_create (experiment_id : UUID) (venue stream symbol timeframe event_id : string) (sequence : option Z)
    (venue_event_at observed_at bar_close_at updated_at : datetime) : result MarketCursor :=
  let* sequence := of_option (ValueError "closed-bar cursor requires a sequence") sequence in
  MarketCursor_post_init {|
    mc_experiment_id := experiment_id; mc_venue := venue; mc_stream := stream; mc_symbol := symbol;
    mc_timeframe := timeframe; mc_event_id := event_id; mc_sequence := sequence; mc_venue_event_at := venue_event_at;
    mc_observed_at := observed_at; mc_bar_close_at := bar_close_at; mc_status := CURSOR_ACTIVE; mc_version := 1;
    mc_updated_at := updated_at |}.

(** [event.kind is CLOSED_BAR and isinstance(event.payload, ClosedBarPayload)]. *)
Definition bar_of (e : ObservedMarketEvent) : option ClosedBarPayload :=
  match ev_kind e, ev_payload e with MarketEvents.CLOSED_BAR, BarPayload b => Some b | _, _ => None end.

Definition same_stream (venue stream symbol timeframe : string) (e : ObservedMarketEvent) (bar : ClosedBarPayload) : bool :=
  bool_decide (ev_venue e = venue) && bool_decide (ev_stream e = stream) && bool_decide (ev_symbol e = symbol) &&
  bool_decide (cb_timeframe bar = timeframe).

Definition advance_closed_bar (c : MarketCursor) (e : ObservedMarketEvent) : result MarketCursor :=
  let* bar := of_option (ValueError "cursor can advance only from a closed-bar event") (bar_of e) in
  do* raise_if (negb (same_stream (mc_venue c) (mc_stream c) (mc_symbol c) (mc_timeframe c) e bar))
        (ValueError "cursor and closed-bar identity differ") ;;
  do* raise_if (negb (cb_closed bar)) (ValueError "cursor cannot advance from an open bar") ;;
  let* sequence := of_option (ValueError "closed-bar cursor requires a sequence") (ev_sequence e) in
  do* raise_if ((sequence <=? mc_sequence c) || dt_leb (cb_bar_close_at bar) (mc_bar_close_at c))
        (ValueError "cursor regression or duplicate") ;;
  do* raise_if (negb (sequence =? mc_sequence c + 1)) (ValueError "cursor sequence gap requires recovery") ;;
  do* raise_if (negb (dt_eqb (cb_bar_open_at bar) (mc_bar_close_at c))) (ValueError "cursor bar gap requires recovery") ;;
  MarketCursor_post_init {|
    mc_experiment_id := mc_experiment_id c; mc_venue := mc_venue c; mc_stream := mc_stream c; mc_symbol := mc_symbol c;
    mc_timeframe := mc_timeframe c; mc_event_id := ev_event_id e; mc_sequence := sequence;
    mc_venue_event_at := ev_venue_event_at e; mc_observed_at := ev_observed_at e; mc_bar_close_at := cb_bar_close_at bar;
    mc_status := CURSOR_ACTIVE; mc_version := mc_version c + 1; mc_updated_at := ev_observed_at e |}.

(** ** Gaps *)

Record GapRange : Type := {
  gr_experiment_id : UUID;
  gr_venue : string;
  gr_stream : string;
  gr_symbol : string;
  gr_timeframe : string;
  gr_start_sequence : Z;
  gr_end_sequence_exclusive : Z;
  gr_start_open_at : datetime;
  gr_end_open_at_exclusive : datetime;
  gr_interval : timedelta
}.

Definition gap_span (g : GapRange) : timedelta := dt_sub (gr_end_open_at_exclusive g) (gr_start_open_at g).
Definition missing_count (g : GapRange) : Z := gap_span g / gr_interval g.

Definition missing_open_times (g : GapRange) : list datetime :=
  map (fun i => dt_add (gr_start_open_at g) (gr_interval g * i)) (zrange 0 (Z.to_nat (missing_count g))).
Definition missing_sequences (g : GapRange) : list Z :=
  zrange (gr_start_sequence g) (Z.to_nat (gr_end_sequence_exclusive g - gr_start_sequence g)).

Definition GapRange_post_init (g : GapRange) : result GapRange :=
  do* _require_utc (gr_start_open_at g) "start_open_at" ;;
  do* _require_utc (gr_end_open_at_exclusive g) "end_open_at_exclusive" ;;
  do* raise_if (gr_interval g <=? 0) (ValueError "gap interval must be positive") ;;
  do* raise_if ((gr_start_sequence g <? 0) || (gr_end_sequence_exclusive g <=? gr_start_sequence g))
        (ValueError "gap sequence range must contain at least one event") ;;
  do* raise_if (dt_leb (gr_end_open_at_exclusive g) (gr_start_open_at g))
        (ValueError "gap range must contain at least one interval") ;;
  do* raise_if (negb (gap_span g mod gr_interval g =? 0)) (ValueError "gap range must align to its interval") ;;
  do* raise_if (negb (gr_end_sequence_exclusive g - gr_start_sequence g =? missing_count g))
        (ValueError "gap time and sequence coverage differ") ;;
  Ok g.

Definition gap_to_dict (g : GapRange) : pyval := PDict
  [("experiment_id", PUuid (gr_experiment_id g)); ("venue", PStr (gr_venue g)); ("stream", PStr (gr_stream g));
   ("symbol", PStr (gr_symbol g)); ("timeframe", PStr (gr_timeframe g)); ("start_sequence", PInt (gr_start_sequence g));
   ("end_sequence_exclusive", PInt (gr_end_sequence_exclusive g)); ("start_open_at", PTime (gr_start_open_at g));
   ("end_open_at_exclusive", PTime (gr_end_open_at_exclusive g)); ("interval_seconds", PInt (gr_interval g / 1000000));
   ("missing_count", PInt (missing_count g))].

Definition detect_closed_bar_gap (c : MarketCursor) (candidate : ObservedMarketEvent) : result (option GapRange) :=
  let* bar := of_option (ValueError "gap detection requires a closed-bar candidate") (bar_of candidate) in
  do* raise_if (negb (same_stream (mc_venue c) (mc_stream c) (mc_symbol c) (mc_timeframe c) candidate bar))
        (ValueError "candidate and cursor identity differ") ;;
  do* raise_if (negb (cb_closed bar)) (ValueError "gap detection requires a closed candidate bar") ;;
  do* raise_if (dt_ltb (cb_bar_open_at bar) (mc_bar_close_at c)) (ValueError "candidate bar regresses behind cursor") ;;
  let* sequence := of_option (ValueError "candidate sequence regresses behind cursor")
    (match ev_sequence candidate with Some s => if s <=? mc_sequence c then None else Some s | None => None end) in
  if dt_eqb (cb_bar_open_at bar) (mc_bar_close_at c) && (sequence =? mc_sequence c + 1) then Ok None
  else
    do* raise_if (dt_eqb (cb_bar_open_at bar) (mc_bar_close_at c))
          (ValueError "sequence gap exists without a closed-bar time gap") ;;
    let* g := GapRange_post_init {|
      gr_experiment_id := mc_experiment_id c; gr_venue := mc_venue c; gr_stream := mc_stream c;
      gr_symbol := mc_symbol c; gr_timeframe := mc_timeframe c; gr_start_sequence := mc_sequence c + 1;
      gr_end_sequence_exclusive := sequence; gr_start_open_at := mc_bar_close_at c;
      gr_end_open_at_exclusive := cb_bar_open_at bar;
      gr_interval := dt_sub (cb_bar_close_at bar) (cb_bar_open_at bar) |} in
    Ok (Some g).

(** ** Backfills *)

Record BackfillBatch : Type := {
  bb_gap : GapRange; bb_events : list ObservedMarketEvent; bb_content_hash : string
}.

(** The checks of one backfilled event: its open time and its sequence. *)
Definition backfill_item (g : GapRange) (e : ObservedMarketEvent) : result (datetime * Z) :=
  let* bar := of_option (BackfillValidationError "backfill contains a non-bar event") (bar_of e) in
  do* raise_if (negb (same_stream (gr_venue g) (gr_stream g) (gr_symbol g) (gr_timeframe g) e bar))
        (BackfillValidationError "backfill identity differs from the gap") ;;
  do* raise_if (negb (cb_closed bar)) (BackfillValidationError "backfill contains an open rather than closed bar") ;;
  let* sequence := of_option (BackfillValidationError "backfill contains an event without a sequence") (ev_sequence e) in
  Ok (cb_bar_open_at bar, sequence).

Section Hashing.
Context (sha256_hex : string -> string).

(** [l != sorted(l)] holds when some time precedes its predecessor. *)
Definition validate_backfill (g : GapRange) (events : list ObservedMarketEvent) : result BackfillBatch :=
  do* raise_if (negb (Z.of_nat (length events) =? missing_count g)) (BackfillValidationError "backfill coverage differs") ;;
  let* items := mapM (backfill_item g) events in
  let open_times := map fst items in
  do* raise_if (any_pair (fun a b => dt_ltb b a) open_times) (BackfillValidationError "backfill events are not ordered") ;;
  do* raise_if (negb (bool_decide (NoDup (map instant open_times))))
        (BackfillValidationError "backfill contains duplicate bar opens") ;;
  do* raise_if (negb (bool_decide (map instant open_times = map instant (missing_open_times g))))
        (BackfillValidationError "backfill coverage does not exactly match the gap") ;;
  do* raise_if (negb (bool_decide (map snd items = missing_sequences g)))
        (BackfillValidationError "backfill sequence coverage does not exactly match the gap") ;;
  let* digest := content_hash sha256_hex (PDict
    [("gap", gap_to_dict g); ("events", PSeq (map event_to_dict events))]) in
  Ok {| bb_gap := g; bb_events := events; bb_content_hash := digest |}.

(** ** The recovery state machine *)

Record RecoveryState : Type := {
  rs_recovery_id : UUID;
  rs_experiment_id : UUID;
  rs_gap : GapRange;
  rs_status : RecoveryStatus;
  rs_attempt : Z;
  rs_source_hash : option string;
  rs_failure_reason : option string;
  rs_started_at : datetime;
  rs_changed_at : datetime;
  rs_completed_at : option datetime;
  rs_version : Z;
  rs_events : list Transition;
  rs_dispatched_through_sequence : option Z;
  rs_dispatched_through_event_id : option string
}.

(** [not s] of an optional string. *)
Definition falsy (s : option string) : bool := match s with Some t => empty t | None => true end.

#[export] Instance RecoveryState_journal : Journal RecoveryState := {
  journal_owner := "recovery"; journal_opening := "market_recovery.detected"; journal_clock := "recovery change time";
  journal_version := rs_version; journal_time := rs_changed_at; journal_events := rs_events }.

Definition _payload : pyval -> result json := object_payload "recovery event payload".

Definition RecoveryTransition_post_init : Transition -> result Transition :=
  Transition_post_init "recovery" "event_at" "recovery event payload".

Definition RecoveryState_post_init (s : RecoveryState) : result RecoveryState :=
  do* raise_if ((rs_recovery_id s =? 0) || (rs_experiment_id s =? 0)) (ValueError "recovery UUIDs cannot be nil") ;;
  do* raise_if (negb (gr_experiment_id (rs_gap s) =? rs_experiment_id s)) (ValueError "gap and recovery experiment differ") ;;
  do* raise_if ((rs_attempt s <? 0) || (rs_version s <=? 0)) (ValueError "recovery attempt and version are invalid") ;;
  do* _require_utc (rs_started_at s) "started_at" ;;
  do* _require_utc (rs_changed_at s) "changed_at" ;;
  do* raise_if (dt_ltb (rs_changed_at s) (rs_started_at s)) (ValueError "recovery change time cannot precede start") ;;
  do* opt_check (fun t => _require_utc t "completed_at") (rs_completed_at s) ;;
  do* (if bool_decide (rs_status s = COMPLETED) then
         do* raise_if (match rs_completed_at s with Some t => negb (dt_eqb t (rs_changed_at s)) | None => true end ||
                       falsy (rs_source_hash s))
               (ValueError "completed recovery requires completion time and source hash") ;;
         raise_if (match rs_source_hash s with Some h => negb (bool_decide (String.length h = 64%nat)) | None => false end)
           (ValueError "recovery source hash must be SHA-256")
       else raise_if (present (rs_completed_at s)) (ValueError "only a completed recovery can have a completion time")) ;;
  do* raise_if (bool_decide (rs_status s = RECOVERY_FAILED) && falsy (rs_failure_reason s))
        (ValueError "failed recovery requires a reason") ;;
  do* raise_if (negb (bool_decide (rs_status s = RECOVERY_FAILED)) && present (rs_failure_reason s))
        (ValueError "only a failed recovery can have a failure reason") ;;
  do* raise_if (negb (Bool.eqb (present (rs_dispatched_through_sequence s)) (present (rs_dispatched_through_event_id s))))
        (ValueError "recovery dispatch progress identity must be complete") ;;
  do* raise_if (match rs_dispatched_through_sequence s with
                | Some n => (n <? gr_start_sequence (rs_gap s)) || (gr_end_sequence_exclusive (rs_gap s) <? n) ||
                            falsy (rs_dispatched_through_event_id s)
                | None => false
                end) (ValueError "recovery dispatch progress is outside the recovery range") ;;
  do* raise_if (bool_decide (rs_status s = COMPLETED) &&
                negb (bool_decide (rs_dispatched_through_sequence s = Some (gr_end_sequence_exclusive (rs_gap s)))))
        (ValueError "completed recovery requires dispatch through the candidate") ;;
  do* history_check s ;;
  Ok s.

Definition entries_blocked (s : RecoveryState) : bool := negb (bool_decide (rs_status s = COMPLETED)).

Definition recovery_create (recovery_id experiment_id : UUID) (gap : GapRange) (started_at : datetime) : result RecoveryState :=
  do* _require_utc started_at "started_at" ;;
  do* raise_if ((recovery_id =? 0) || (experiment_id =? 0)) (ValueError "recovery UUIDs cannot be nil") ;;
  do* raise_if (negb (gr_experiment_id gap =? experiment_id)) (ValueError "gap and recovery experiment differ") ;;
  let* payload := _payload (gap_to_dict gap) in
  let* event := RecoveryTransition_post_init
    {| tr_sequence := 1; tr_event_type := "market_recovery.detected"; tr_event_at := started_at; tr_payload := payload |} in
  RecoveryState_post_init {|
    rs_recovery_id := recovery_id; rs_experiment_id := experiment_id; rs_gap := gap; rs_status := DETECTED;
    rs_attempt := 0; rs_source_hash := None; rs_failure_reason := None; rs_started_at := started_at;
    rs_changed_at := started_at; rs_completed_at := None; rs_version := 1; rs_events := [event];
    rs_dispatched_through_sequence := None; rs_dispatched_through_event_id := None |}.

(** The keyword arguments [changes] of [_advance]; absent ones keep the field. *)
Record changes : Type := {
  ch_attempt : Z; ch_source_hash : option string; ch_failure_reason : option string; ch_completed_at : option datetime;
  ch_sequence : option Z; ch_event_id : option string
}.
Definition no_change (s : RecoveryState) : changes := {|
  ch_attempt := rs_attempt s; ch_source_hash := rs_source_hash s; ch_failure_reason := rs_failure_reason s;
  ch_completed_at := rs_completed_at s; ch_sequence := rs_dispatched_through_sequence s;
  ch_event_id := rs_dispatched_through_event_id s |}.

Definition _advance (s : RecoveryState) (status : RecoveryStatus) (event_type : string) (event_at : datetime)
    (payload : pyval) (ch : changes) : result RecoveryState :=
  do* _require_utc event_at "event_at" ;;
  do* raise_if (dt_ltb event_at (rs_changed_at s)) (ValueError "recovery event time cannot regress") ;;
  let* frozen := _payload payload in
  let* event := RecoveryTransition_post_init
    {| tr_sequence := rs_version s + 1; tr_event_type := event_type; tr_event_at := event_at; tr_payload := frozen |} in
  RecoveryState_post_init {|
    rs_recovery_id := rs_recovery_id s; rs_experiment_id := rs_experiment_id s; rs_gap := rs_gap s; rs_status := status;
    rs_attempt := ch_attempt ch; rs_source_hash := ch_source_hash ch; rs_failure_reason := ch_failure_reason ch;
    rs_started_at := rs_started_at s; rs_changed_at := event_at; rs_completed_at := ch_completed_at ch;
    rs_version := rs_version s + 1; rs_events := rs_events s ++ [event];
    rs_dispatched_through_sequence := ch_sequence ch; rs_dispatched_through_event_id := ch_event_id ch |}.

Definition begin_backfill (s : RecoveryState) (changed_at : datetime) : result RecoveryState :=
  do* raise_if (negb (bool_decide (rs_status s = DETECTED))) (RuntimeError "only detected recovery can begin backfilling") ;;
  _advance s BACKFILLING "market_recovery.backfill_started" changed_at (PDict [("attempt", PInt (rs_attempt s + 1))])
    {| ch_attempt := rs_attempt s + 1; ch_source_hash := rs_source_hash s; ch_failure_reason := rs_failure_reason s;
       ch_completed_at := rs_completed_at s; ch_sequence := rs_dispatched_through_sequence s;
       ch_event_id := rs_dispatched_through_event_id s |}.

(** [==] of two gaps: times compare by instant. *)
Definition gap_eqb (a b : GapRange) : bool :=
  (gr_experiment_id a =? gr_experiment_id b) && bool_decide (gr_venue a = gr_venue b) &&
  bool_decide (gr_stream a = gr_stream b) && bool_decide (gr_symbol a = gr_symbol b) &&
  bool_decide (gr_timeframe a = gr_timeframe b) && (gr_start_sequence a =? gr_start_sequence b) &&
  (gr_end_sequence_exclusive a =? gr_end_sequence_exclusive b) && dt_eqb (gr_start_open_at a) (gr_start_open_at b) &&
  dt_eqb (gr_end_open_at_exclusive a) (gr_end_open_at_exclusive b) && (gr_interval a =? gr_interval b).

Definition complete (s : RecoveryState) (batch : BackfillBatch) (completed_at : datetime) : result RecoveryState :=
  do* raise_if (negb (bool_decide (rs_status s = BACKFILLING))) (RuntimeError "only backfilling recovery can complete") ;;
  do* raise_if (negb (gap_eqb (bb_gap batch) (rs_gap s))) (ValueError "backfill batch belongs to another gap") ;;
  let* validated := validate_backfill (rs_gap s) (bb_events batch) in
  do* raise_if (negb (bool_decide (bb_content_hash validated = bb_content_hash batch)))
        (ValueError "backfill batch content hash is invalid") ;;
  do* raise_if (negb (bool_decide (rs_dispatched_through_sequence s = Some (gr_end_sequence_exclusive (rs_gap s)))))
        (RuntimeError "recovery cannot complete before every event is dispatched") ;;
  _advance s COMPLETED "market_recovery.completed" completed_at
    (PDict [("source_hash", PStr (bb_content_hash batch)); ("events", PInt (Z.of_nat (length (bb_events batch))))])
    {| ch_attempt := rs_attempt s; ch_source_hash := Some (bb_content_hash batch); ch_failure_reason := rs_failure_reason s;
       ch_completed_at := Some completed_at; ch_sequence := rs_dispatched_through_sequence s;
       ch_event_id := rs_dispatched_through_event_id s |}.

Definition expected_sequence (s : RecoveryState) : Z :=
  match rs_dispatched_through_sequence s with Some n => n + 1 | None => gr_start_sequence (rs_gap s) end.

Definition record_dispatch (s : RecoveryState) (c : MarketCursor) (changed_at : datetime) : result RecoveryState :=
  do* raise_if (negb (bool_decide (rs_status s = BACKFILLING)))
        (RuntimeError "only a backfilling recovery can record dispatch progress") ;;
  do* raise_if (negb ((mc_experiment_id c =? rs_experiment_id s) && bool_decide (mc_venue c = gr_venue (rs_gap s)) &&
                      bool_decide (mc_stream c = gr_stream (rs_gap s)) && bool_decide (mc_symbol c = gr_symbol (rs_gap s)) &&
                      bool_decide (mc_timeframe c = gr_timeframe (rs_gap s))))
        (ValueError "recovery dispatch cursor identity differs") ;;
  do* raise_if (negb (mc_sequence c =? expected_sequence s) || (gr_end_sequence_exclusive (rs_gap s) <? mc_sequence c))
        (ValueError "recovery dispatch cursor is not the next expected event") ;;
  _advance s BACKFILLING "market_recovery.dispatch_progressed" changed_at
    (PDict [("event_id", PStr (mc_event_id c)); ("sequence", PInt (mc_sequence c)); ("bar_close_at", PTime (mc_bar_close_at c))])
    {| ch_attempt := rs_attempt s; ch_source_hash := rs_source_hash s; ch_failure_reason := rs_failure_reason s;
       ch_completed_at := rs_completed_at s; ch_sequence := Some (mc_sequence c); ch_event_id := Some (mc_event_id c) |}.

Definition retry (s : RecoveryState) (reason : string) (retry_at : datetime) : result RecoveryState :=
  do* raise_if (negb (bool_decide (rs_status s = BACKFILLING))) (RuntimeError "only a backfilling recovery can schedule a retry") ;;
  do* raise_if (empty reason) (ValueError "recovery retry reason is required") ;;
  _advance s DETECTED "market_recovery.retry_scheduled" retry_at
    (PDict [("attempt", PInt (rs_attempt s)); ("reason", PStr reason)]) (no_change s).

Definition fail (s : RecoveryState) (reason : string) (failed_at : datetime) : result RecoveryState :=
  do* raise_if (negb (bool_decide (rs_status s = DETECTED) || bool_decide (rs_status s = BACKFILLING)))
        (RuntimeError "only an active recovery can fail") ;;
  do* raise_if (empty reason) (ValueError "recovery failure reason is required") ;;
  _advance s RECOVERY_FAILED "market_recovery.failed" failed_at (PDict [("reason", PStr reason)])
    {| ch_attempt := rs_attempt s; ch_source_hash := rs_source_hash s; ch_failure_reason := Some reason;
       ch_completed_at := rs_completed_at s; ch_sequence := rs_dispatched_through_sequence s;
       ch_event_id := rs_dispatched_through_event_id s |}.
End Hashing.

(** ** Closing a gap *)

(** The missing sequences and the candidate. *)
Lemma full_log g : gr_start_sequence g <= gr_end_sequence_exclusive g ->
  missing_sequences g ++ [gr_end_sequence_exclusive g] =
  zrange (gr_start_sequence g) (Z.to_nat (gr_end_sequence_exclusive g - gr_start_sequence g + 1)).
Proof.
  intros H. unfold missing_sequences.
  replace (Z.to_nat (gr_end_sequence_exclusive g - gr_start_sequence g + 1))
    with (S (Z.to_nat (gr_end_sequence_exclusive g - gr_start_sequence g))) by lia.
  rewrite zrange_snoc. do 2 f_equal. lia.
Qed.

Lemma dt_eqb_utc a b : is_utc a = true -> is_utc b = true -> dt_eqb a b = (instant a =? instant b).
Proof. intros Ha Hb. unfold dt_eqb. now rewrite same_awareness_utc. Qed.

(** The bar spans the interval of the gap and was observed after it closed. *)
Definition spans (interval : timedelta) (e : ObservedMarketEvent) : Prop :=
  exists bar, bar_of e = Some bar /\ dt_sub (cb_bar_close_at bar) (cb_bar_open_at bar) = interval.
Definition timely (e : ObservedMarketEvent) : Prop :=
  instant (ev_venue_event_at e) <= instant (ev_observed_at e) /\
  forall bar, bar_of e = Some bar -> instant (cb_bar_close_at bar) <= instant (ev_observed_at e).

(** The event that the stream of [g] expects after sequence [sq] and close [close]. *)
Definition next_bar (g : GapRange) (sq close : Z) (e : ObservedMarketEvent) : Prop :=
  exists bar, bar_of e = Some bar /\ same_stream (gr_venue g) (gr_stream g) (gr_symbol g) (gr_timeframe g) e bar = true /\
    cb_closed bar = true /\ ev_sequence e = Some (sq + 1) /\ instant (cb_bar_open_at bar) = close.

Fixpoint chain (g : GapRange) (sq close : Z) (l : list ObservedMarketEvent) : Prop :=
  match l with
  | [] => True
  | e :: l' => next_bar g sq close e /\ chain g (sq + 1) (close + gr_interval g) l'
  end.

Lemma chain_app g l l' : forall sq close, chain g sq close l ->
  chain g (sq + Z.of_nat (length l)) (close + gr_interval g * Z.of_nat (length l)) l' -> chain g sq close (l ++ l').
Proof.
  induction l as [|e l IH]; intros sq close H H'; cbn [app chain length] in *.
  - replace (sq + Z.of_nat 0) with sq in H' by lia. replace (close + gr_interval g * Z.of_nat 0) with close in H' by lia. exact H'.
  - destruct H as [He H]. split; [exact He|]. apply IH; [exact H|].
    replace (sq + 1 + Z.of_nat (length l)) with (sq + Z.of_nat (S (length l))) by lia.
    replace (close + gr_interval g + gr_interval g * Z.of_nat (length l)) with (close + gr_interval g * Z.of_nat (S (length l))) by lia.
    exact H'.
Qed.

Lemma backfill_chain g s0 events items : Forall2 (fun e it => backfill_item g e = Ok it) events items ->
  forall k q n n', map instant (map fst items) = map (fun i => s0 + gr_interval g * i) (zrange k n) ->
    map snd items = zrange q n' -> chain g (q - 1) (s0 + gr_interval g * k) events.
Proof.
  induction 1 as [|e [t sq] events items He _ IH]; intros k q n n' Ht Hq; cbn [map fst snd chain] in *; [exact I|].
  destruct n as [|n]; [discriminate|]. destruct n' as [|n']; [discriminate|]. rewrite zrange_S in Ht, Hq. cbn [map] in Ht.
  injection Ht as Et Ht. injection Hq as -> Hq. unfold backfill_item in He. py_inv. bool_prop. split.
  - exists v. repeat split; try assumption. rewrite H2. f_equal. lia.
  - replace (q - 1 + 1) with (q + 1 - 1) by lia.
    replace (s0 + gr_interval g * k + gr_interval g) with (s0 + gr_interval g * (k + 1)) by lia.
    exact (IH (k + 1) (q + 1) n n' Ht Hq).
Qed.

(** A cursor on the stream of [g]. *)
Record cursor_on (g : GapRange) (c : MarketCursor) : Prop := {
  cu_valid : MarketCursor_post_init c = Ok c;
  cu_experiment : mc_experiment_id c = gr_experiment_id g;
  cu_venue : mc_venue c = gr_venue g;
  cu_stream : mc_stream c = gr_stream g;
  cu_symbol : mc_symbol c = gr_symbol g;
  cu_timeframe : mc_timeframe c = gr_timeframe g
}.

Record cursor_facts (c : MarketCursor) : Prop := {
  cf_nil : (mc_experiment_id c =? 0) = false;
  cf_names : existsb empty [mc_venue c; mc_stream c; mc_symbol c; mc_timeframe c] = false;
  cf_id : empty (mc_event_id c) = false;
  cf_upper : upper_symbol (mc_symbol c) = true;
  cf_sequence : 0 <= mc_sequence c /\ 0 < mc_version c;
  cf_close_utc : is_utc (mc_bar_close_at c) = true
}.

Lemma cursor_valid_facts c : MarketCursor_post_init c = Ok c -> cursor_facts c.
Proof.
  unfold MarketCursor_post_init. intros H. cbn [iterM existsb fst snd] in H. py_inv.
  repeat match goal with H : _require_utc _ _ = Ok _ |- _ => apply _require_utc_Ok in H end. bool_prop.
  split; cbn [existsb]; try assumption; try lia. repeat (apply orb_false_iff; split); assumption || reflexivity.
Qed.

Lemma bar_of_facts e bar : valid_event e -> bar_of e = Some bar -> bar_facts bar.
Proof.
  intros V H. pose proof (ef_payload e (valid_event_facts e V)) as P. unfold bar_of in H.
  destruct (ev_kind e); try discriminate. destruct (ev_payload e); try discriminate. injection H as ->. now apply valid_bar_facts.
Qed.

Lemma advance_next g c e : cursor_on g c -> 0 < gr_interval g -> valid_event e -> timely e -> spans (gr_interval g) e ->
  next_bar g (mc_sequence c) (instant (mc_bar_close_at c)) e ->
  exists c', advance_closed_bar c e = Ok c' /\ cursor_on g c' /\ mc_sequence c' = mc_sequence c + 1 /\
    mc_event_id c' = ev_event_id e /\ instant (mc_bar_close_at c') = instant (mc_bar_close_at c) + gr_interval g.
Proof.
  intros [Vc C1 C2 C3 C4 C5] Hi Ve [T1 T2] (bar & Hb & Hspan) (bar' & Hb' & Hs & Hcl & Hsq & Ho).
  rewrite Hb in Hb'. injection Hb' as <-. specialize (T2 bar Hb). unfold dt_sub in Hspan.
  pose proof (cursor_valid_facts c Vc) as F. pose proof (bar_of_facts e bar Ve Hb) as B. pose proof (valid_event_facts e Ve) as E.
  unfold advance_closed_bar. rewrite Hb. cbn [of_option bind]. rewrite C2, C3, C4, C5, Hs, Hcl, Hsq. cbn [negb raise_if bind of_option].
  unfold dt_leb. rewrite (proj2 (Z.leb_gt (mc_sequence c + 1) (mc_sequence c))) by lia.
  rewrite (proj2 (Z.leb_gt (instant (cb_bar_close_at bar)) _)) by lia. cbn [orb raise_if bind]. rewrite Z.eqb_refl.
  rewrite dt_eqb_utc, Ho, Z.eqb_refl by (apply B || apply F). cbn [negb raise_if bind].
  match goal with |- exists c', MarketCursor_post_init ?c0 = _ /\ _ => assert (P : MarketCursor_post_init c0 = Ok c0) end.
  { unfold MarketCursor_post_init. cbn [mc_experiment_id mc_venue mc_stream mc_symbol mc_timeframe mc_event_id mc_sequence
      mc_venue_event_at mc_observed_at mc_bar_close_at mc_version mc_updated_at iterM fst snd].
    pose proof (cf_names c F) as N. rewrite C2, C3, C4, C5 in N. cbn [existsb] in N. bool_prop.
    assert (Hid : empty (ev_event_id e) = false) by (destruct Ve as [_ Ve]; unfold ObservedMarketEvent_post_init in Ve; py_inv; bool_prop; now apply bool_decide_eq_false).
    rewrite (cf_nil c F). cbn [existsb].
    repeat match goal with H : empty _ = false |- _ => rewrite H end. cbn [orb raise_if bind].
    pose proof (cf_upper c F) as U. rewrite C4 in U. rewrite U. cbn [negb raise_if bind]. pose proof (cf_sequence c F).
    rewrite (proj2 (Z.ltb_ge (mc_sequence c + 1) 0)), (proj2 (Z.leb_gt (mc_version c + 1) 0)) by lia. cbn [orb raise_if bind].
    unfold _require_utc. rewrite (ef_venue_at e E), (ef_observed e E), (bf_close_utc bar B). cbn [negb raise_if bind]. unfold dt_ltb.
    rewrite (proj2 (Z.ltb_ge (instant (ev_observed_at e)) (instant (ev_venue_event_at e)))),
      (proj2 (Z.ltb_ge (instant (ev_observed_at e)) (instant (cb_bar_close_at bar)))), Z.ltb_irrefl by lia. reflexivity. }
  rewrite P. eexists; split; [reflexivity|]. split; [split; cbn; auto|]. cbn. repeat split; lia.
Qed.

(** The cursors after each event. *)
Fixpoint advance_trace (c : MarketCursor) (events : list ObservedMarketEvent) : result (list MarketCursor) :=
  match events with
  | [] => Ok []
  | e :: events' =>
      let* c' := advance_closed_bar c e in
      let* rest := advance_trace c' events' in
      Ok (c' :: rest)
  end.

Definition deliverable (interval : timedelta) (e : ObservedMarketEvent) : Prop := valid_event e /\ timely e /\ spans interval e.

Lemma chain_advances g l : 0 < gr_interval g -> Forall (deliverable (gr_interval g)) l ->
  forall c, cursor_on g c -> chain g (mc_sequence c) (instant (mc_bar_close_at c)) l ->
  exists cs, advance_trace c l = Ok cs /\ Forall (cursor_on g) cs /\ Forall (fun c' => mc_event_id c' <> "") cs /\
    map mc_sequence cs = zrange (mc_sequence c + 1) (length l) /\
    map (fun c' => instant (mc_bar_close_at c')) cs =
      map (fun i => instant (mc_bar_close_at c) + gr_interval g * i) (zrange 1 (length l)).
Proof.
  intros Hi. induction 1 as [|e l (Ve & Te & Se) _ IH]; intros c Hc Hch; cbn [advance_trace chain length] in *.
  - exists []. repeat split; constructor.
  - destruct Hch as [He Hch]. destruct (advance_next g c e Hc Hi Ve Te Se He) as (c' & Ha & Hc' & Esq & Eid & Ecl).
    rewrite Ha. cbn [bind]. destruct (IH c' Hc') as (cs & Hcs & H1 & H2 & H3 & H4).
    { rewrite Esq, Ecl. exact Hch. }
    rewrite Hcs. cbn [bind]. eexists; split; [reflexivity|]. split; [now constructor|]. split.
    { constructor; [|exact H2]. pose proof (cf_id c' (cursor_valid_facts c' (cu_valid _ _ Hc'))) as N. unfold empty in N. now bool_prop. }
    cbn [map]. rewrite !zrange_S, H3, H4, Esq, Ecl. cbn [map]. split; [reflexivity|]. f_equal; [lia|].
    unfold zrange. rewrite !map_map. apply map_ext. intros i. lia.
Qed.

Record gap_facts (g : GapRange) : Prop := {
  gf_start_utc : is_utc (gr_start_open_at g) = true;
  gf_end_utc : is_utc (gr_end_open_at_exclusive g) = true;
  gf_interval : 0 < gr_interval g;
  gf_sequences : 0 <= gr_start_sequence g < gr_end_sequence_exclusive g;
  gf_count : gr_end_sequence_exclusive g - gr_start_sequence g = missing_count g;
  gf_span : instant (gr_end_open_at_exclusive g) = instant (gr_start_open_at g) + gr_interval g * missing_count g
}.

Definition valid_gap (g : GapRange) : Prop := GapRange_post_init g = Ok g.

Lemma valid_gap_facts g : valid_gap g -> gap_facts g.
Proof.
  unfold valid_gap, GapRange_post_init. intros H. py_inv.
  repeat match goal with H : _require_utc _ _ = Ok _ |- _ => apply _require_utc_Ok in H end. bool_prop.
  split; try assumption; try lia. unfold missing_count, gap_span, dt_sub in *.
  pose proof (Z.div_mod (instant (gr_end_open_at_exclusive g) - instant (gr_start_open_at g)) (gr_interval g) ltac:(lia)).
  match goal with H : _ mod _ = 0 |- _ => rewrite H in * end. lia.
Qed.

Record detected (c : MarketCursor) (candidate : ObservedMarketEvent) (g : GapRange) : Prop := {
  dg_valid : valid_gap g;
  dg_stream : gr_experiment_id g = mc_experiment_id c /\ gr_venue g = mc_venue c /\ gr_stream g = mc_stream c /\
              gr_symbol g = mc_symbol c /\ gr_timeframe g = mc_timeframe c;
  dg_start : gr_start_sequence g = mc_sequence c + 1 /\ gr_start_open_at g = mc_bar_close_at c;
  dg_candidate : next_bar g (gr_end_sequence_exclusive g - 1) (instant (gr_end_open_at_exclusive g)) candidate;
  dg_span : spans (gr_interval g) candidate
}.

Lemma detect_detected c candidate g : detect_closed_bar_gap c candidate = Ok (Some g) -> detected c candidate g.
Proof.
  unfold detect_closed_bar_gap. intros H. py_inv. destruct (_ && _); [discriminate|]. py_inv. subst.
  match goal with H : GapRange_post_init ?g0 = Ok ?g |- _ =>
    assert (g = g0) as -> by (unfold GapRange_post_init in H; py_inv; reflexivity) end.
  bool_prop. destruct (ev_sequence candidate) as [sq|] eqn:Es; [|discriminate]. destruct (_ <=? _); [discriminate|].
  match goal with H : Some _ = Some _ |- _ => injection H as -> end.
  split; cbn; auto 10; [|exists v; auto]. exists v. repeat split; try assumption. rewrite Es. f_equal. cbn. lia.
Qed.

Lemma validate_chain sha256_hex g events batch : gap_facts g -> validate_backfill sha256_hex g events = Ok batch ->
  chain g (gr_start_sequence g - 1) (instant (gr_start_open_at g)) events /\
  Z.of_nat (length events) = missing_count g /\ bb_events batch = events /\ bb_gap batch = g.
Proof.
  intros G H. unfold validate_backfill in H. py_inv. bool_prop.
  match goal with H : mapM _ _ = Ok _ |- _ => apply mapM_Forall2 in H; rename H into F2 end.
  split; [|cbn; auto]. replace (instant (gr_start_open_at g)) with (instant (gr_start_open_at g) + gr_interval g * 0) by lia.
  eapply backfill_chain; [exact F2 | | eassumption].
  match goal with H : map instant (map fst _) = _ |- _ => rewrite H end. unfold missing_open_times.
  rewrite map_map. reflexivity.
Qed.

(** The cursors of a gap: the backfill and then the candidate. *)
Lemma gap_trace sha256_hex c candidate g events batch :
  MarketCursor_post_init c = Ok c -> detect_closed_bar_gap c candidate = Ok (Some g) ->
  validate_backfill sha256_hex g events = Ok batch -> Forall (deliverable (gr_interval g)) events ->
  valid_event candidate -> timely candidate ->
  exists cs, advance_trace c (events ++ [candidate]) = Ok cs /\ Forall (cursor_on g) cs /\
    Forall (fun c' => mc_event_id c' <> "") cs /\
    map mc_sequence cs = missing_sequences g ++ [gr_end_sequence_exclusive g] /\
    map (fun c' => instant (mc_bar_close_at c')) cs =
      map (fun i => instant (gr_start_open_at g) + gr_interval g * i) (zrange 1 (S (length events))).
Proof.
  intros Vc D B Hev Ve Te. pose proof (detect_detected _ _ _ D) as [Vg Hst [Hs Ho] Hcand Hspan].
  pose proof (valid_gap_facts g Vg) as G. destruct (validate_chain _ _ _ _ G B) as (Hch & Hlen & _ & _).
  pose proof (gf_count g G) as Hcount. pose proof (gf_span g G) as Hsp.
  destruct (chain_advances g (events ++ [candidate]) (gf_interval g G)) with (c := c) as (cs & Hcs & H1 & H2 & H3 & H4).
  - apply Forall_app. split; [exact Hev|]. constructor; [|constructor]. split; [exact Ve|split; assumption].
  - destruct Hst as (? & ? & ? & ? & ?). split; congruence.
  - rewrite <- Ho. replace (mc_sequence c) with (gr_start_sequence g - 1) by lia.
    apply chain_app; [exact Hch|]. cbn [chain]. split; [|exact I].
    replace (gr_start_sequence g - 1 + Z.of_nat (length events)) with (gr_end_sequence_exclusive g - 1) by lia.
    rewrite Hlen, <- Hsp. exact Hcand.
  - exists cs. split; [exact Hcs|]. split; [exact H1|]. split; [exact H2|]. rewrite length_app in H3, H4. cbn [length] in H3, H4.
    replace (length events + 1)%nat with (S (length events)) in H3, H4 by lia. split.
    + rewrite H3, zrange_snoc, <- Hs. unfold missing_sequences. rewrite Hcount. f_equal; [f_equal; lia | f_equal; lia].
    + rewrite H4, <- Ho. reflexivity.
Qed.

(** ** Runs of the recovery *)

Definition dispatch_type : string := "market_recovery.dispatch_progressed".
Definition start_type : string := "market_recovery.backfill_started".

(** The sequences that the audit trail says were dispatched, in order. *)
Definition logged (t : Transition) : list Z :=
  if bool_decide (tr_event_type t = dispatch_type) then
    match tr_payload t with
    | JObj items => match dict_get items "sequence" with Some (JInt n) => [n] | _ => [] end
    | _ => []
    end
  else [].
Definition dispatched_log (s : RecoveryState) : list Z := flat_map logged (rs_events s).
Definition attempts_log (s : RecoveryState) : Z :=
  Z.of_nat (length (List.filter (fun t => bool_decide (tr_event_type t = start_type)) (rs_events s))).

Section Runs.
Context (sha256_hex : string -> string).

Inductive recovery_step : RecoveryState -> RecoveryState -> Prop :=
| step_begin s t s' : begin_backfill s t = Ok s' -> recovery_step s s'
| step_dispatch s c t s' : record_dispatch s c t = Ok s' -> recovery_step s s'
| step_retry s reason t s' : retry s reason t = Ok s' -> recovery_step s s'
| step_fail s reason t s' : fail s reason t = Ok s' -> recovery_step s s'
| step_complete s batch t s' : complete sha256_hex s batch t = Ok s' -> recovery_step s s'.

Definition covered (s : RecoveryState) : nat :=
  match rs_dispatched_through_sequence s with
  | None => O
  | Some n => Z.to_nat (n - gr_start_sequence (rs_gap s) + 1)
  end.

Record recovery_inv (g : GapRange) (s : RecoveryState) : Prop := {
  ri_valid : RecoveryState_post_init s = Ok s;
  ri_gap : rs_gap s = g;
  ri_log : dispatched_log s = zrange (gr_start_sequence g) (covered s);
  ri_attempts : rs_attempt s = attempts_log s;
  ri_source : rs_status s = COMPLETED ->
    exists events batch, validate_backfill sha256_hex g events = Ok batch /\ rs_source_hash s = Some (bb_content_hash batch)
}.

Lemma RecoveryState_post_init_same s s' : RecoveryState_post_init s = Ok s' -> s' = s.
Proof. unfold RecoveryState_post_init. intros H. py_inv. reflexivity. Qed.

(** The state after one transition. *)
Lemma advance_Ok s status ty at' p ch s' : _advance s status ty at' p ch = Ok s' ->
  exists j, freeze_json p = Ok j /\ RecoveryState_post_init s' = Ok s' /\
    rs_gap s' = rs_gap s /\ rs_status s' = status /\ rs_attempt s' = ch_attempt ch /\ rs_source_hash s' = ch_source_hash ch /\
    rs_dispatched_through_sequence s' = ch_sequence ch /\
    rs_events s' = rs_events s ++ [{| tr_sequence := rs_version s + 1; tr_event_type := ty; tr_event_at := at'; tr_payload := j |}].
Proof.
  unfold _advance. intros H. apply bind_Ok in H as ([] & _ & H). apply bind_Ok in H as ([] & _ & H).
  apply bind_Ok in H as (j & Hj & H). apply bind_Ok in H as (t & Ht & H). apply Transition_post_init_same in Ht as ->.
  pose proof (RecoveryState_post_init_same _ _ H) as ->. apply object_payload_Ok in Hj as [Hj _].
  exists j. repeat split; auto.
Qed.

Lemma dispatched_app s s' t : rs_events s' = rs_events s ++ [t] -> dispatched_log s' = dispatched_log s ++ logged t.
Proof. unfold dispatched_log. intros ->. rewrite flat_map_app. cbn [flat_map]. now rewrite app_nil_r. Qed.

Lemma attempts_app s s' t : rs_events s' = rs_events s ++ [t] ->
  attempts_log s' = attempts_log s + (if bool_decide (tr_event_type t = start_type) then 1 else 0).
Proof.
  unfold attempts_log. intros ->. rewrite List.filter_app, length_app. cbn [List.filter].
  destruct (bool_decide _); cbn [length]; lia.
Qed.

Lemma through_bounds s n : RecoveryState_post_init s = Ok s -> rs_dispatched_through_sequence s = Some n ->
  gr_start_sequence (rs_gap s) <= n <= gr_end_sequence_exclusive (rs_gap s).
Proof.
  unfold RecoveryState_post_init. intros H E. py_inv. rewrite E in *. bool_prop. lia.
Qed.

(** A transition that is neither a start nor a dispatch. *)
Lemma quiet_step g s s' status ty at' p ch : recovery_inv g s -> _advance s status ty at' p ch = Ok s' ->
  ty <> dispatch_type -> ty <> start_type -> status <> COMPLETED ->
  ch_attempt ch = rs_attempt s -> ch_sequence ch = rs_dispatched_through_sequence s -> recovery_inv g s'.
Proof.
  intros [I1 I2 I3 I4 I5] H Hd Hs Hc Ea Esq. apply advance_Ok in H as (j & _ & V & G & St & A & _ & Sq & Ev). split.
  - exact V.
  - congruence.
  - rewrite (dispatched_app _ _ _ Ev), I3. unfold logged. cbn [tr_event_type]. rewrite bool_decide_false by exact Hd.
    rewrite app_nil_r. unfold covered. now rewrite Sq, Esq, G.
  - rewrite A, Ea, I4, (attempts_app _ _ _ Ev). cbn [tr_event_type]. rewrite bool_decide_false by exact Hs. lia.
  - intros E. congruence.
Qed.

Lemma recovery_step_inv g s s' : recovery_inv g s -> recovery_step s s' -> recovery_inv g s'.
Proof.
  intros I. destruct 1 as [s t s' H|s c t s' H|s reason t s' H|s reason t s' H|s batch t s' H].
  - destruct I as [I1 <- I3 I4 I5]. unfold begin_backfill in H. py_inv. apply advance_Ok in H as (j & _ & V & G & St & A & _ & Sq & Ev). split.
    + exact V.
    + congruence.
    + rewrite (dispatched_app _ _ _ Ev), I3. cbn. rewrite app_nil_r. unfold covered. now rewrite Sq, G.
    + rewrite A. cbn [ch_attempt]. rewrite I4, (attempts_app _ _ _ Ev). reflexivity.
    + intros E. congruence.
  - destruct I as [I1 <- I3 I4 I5]. unfold record_dispatch in H. py_inv. bool_prop.
    apply advance_Ok in H as (j & Hj & V & G & St & A & _ & Sq & Ev). cbn [ch_sequence ch_attempt] in *. split.
    + exact V.
    + congruence.
    + rewrite (dispatched_app _ _ _ Ev), I3. cbn [freeze_json mapM fst snd bind] in Hj. py_inv.
      unfold logged. cbn. unfold covered. rewrite Sq, G.
      match goal with H : mc_sequence c = expected_sequence s |- _ => rewrite H end. unfold expected_sequence.
      destruct (rs_dispatched_through_sequence s) as [n|] eqn:En.
      * pose proof (through_bounds s n I1 En) as Hb.
        replace (Z.to_nat (n + 1 - gr_start_sequence (rs_gap s) + 1)) with (S (Z.to_nat (n - gr_start_sequence (rs_gap s) + 1))) by lia.
        rewrite zrange_snoc. do 2 f_equal. lia.
      * replace (Z.to_nat (gr_start_sequence (rs_gap s) - gr_start_sequence (rs_gap s) + 1)) with 1%nat by lia.
        rewrite zrange_S. reflexivity.
    + rewrite A, I4, (attempts_app _ _ _ Ev). cbn [tr_event_type]. rewrite bool_decide_false by discriminate. lia.
    + intros E. congruence.
  - unfold retry in H. py_inv. eapply quiet_step; try eassumption; try discriminate; reflexivity.
  - unfold fail in H. py_inv. eapply quiet_step; try eassumption; try discriminate; reflexivity.
  - destruct I as [I1 <- I3 I4 I5]. unfold complete in H. py_inv. bool_prop.
    apply advance_Ok in H as (j & _ & V & G & St & A & Hh & Sq & Ev). cbn [ch_attempt ch_source_hash ch_sequence] in *. split.
    + exact V.
    + congruence.
    + rewrite (dispatched_app _ _ _ Ev), I3. cbn. rewrite app_nil_r. unfold covered. now rewrite Sq, G.
    + rewrite A, I4, (attempts_app _ _ _ Ev). cbn [tr_event_type]. rewrite bool_decide_false by discriminate. lia.
    + intros _. exists (bb_events batch). eexists. split; [eassumption|]. congruence.
Qed.

Lemma recovery_create_inv rid eid g t s : recovery_create rid eid g t = Ok s ->
  recovery_inv g s /\ rs_status s = DETECTED /\ rs_changed_at s = t /\ rs_dispatched_through_sequence s = None /\
  rs_experiment_id s = eid /\ gr_experiment_id g = eid.
Proof.
  unfold recovery_create. intros H. py_inv. apply Transition_post_init_same in H4 as ->.
  pose proof (RecoveryState_post_init_same _ _ H) as ->. bool_prop. split; [split|]; try reflexivity; try assumption; try discriminate.
  auto.
Qed.

(** ** A recovery can complete *)

(** What a valid state promises, as propositions. *)
Record state_facts (s : RecoveryState) : Prop := {
  sf_ids : (rs_recovery_id s =? 0) = false /\ (rs_experiment_id s =? 0) = false;
  sf_experiment : gr_experiment_id (rs_gap s) = rs_experiment_id s;
  sf_counts : 0 <= rs_attempt s /\ 0 < rs_version s;
  sf_utc : is_utc (rs_started_at s) = true /\ is_utc (rs_changed_at s) = true;
  sf_times : instant (rs_started_at s) <= instant (rs_changed_at s);
  sf_completed : if bool_decide (rs_status s = COMPLETED)
    then (exists t, rs_completed_at s = Some t /\ is_utc t = true /\ dt_eqb t (rs_changed_at s) = true) /\
         (exists h, rs_source_hash s = Some h /\ String.length h = 64%nat) /\
         rs_dispatched_through_sequence s = Some (gr_end_sequence_exclusive (rs_gap s))
    else rs_completed_at s = None;
  sf_failed : if bool_decide (rs_status s = RECOVERY_FAILED) then falsy (rs_failure_reason s) = false
    else rs_failure_reason s = None;
  sf_dispatched : match rs_dispatched_through_sequence s, rs_dispatched_through_event_id s with
    | None, None => True
    | Some n, Some id => gr_start_sequence (rs_gap s) <= n <= gr_end_sequence_exclusive (rs_gap s) /\ empty id = false
    | _, _ => False
    end;
  sf_history : history_ok s
}.

Lemma state_facts_valid s : state_facts s <-> RecoveryState_post_init s = Ok s.
Proof.
  unfold RecoveryState_post_init. split.
  - intros [[F1 F2] F3 [F4 F5] [F6 F7] F8 F9 F10 F11 F12].
    pass; [now rewrite F1, F2|]. pass; [now rewrite F3, Z.eqb_refl|].
    pass; [now rewrite (proj2 (Z.ltb_ge _ _) F4), (proj2 (Z.leb_gt _ _) F5)|].
    pass; [now apply _require_utc_Ok|]. pass; [now apply _require_utc_Ok|].
    pass; [now apply Z.ltb_ge|].
    pass; [destruct (bool_decide _); [destruct F9 as [(t & -> & U & _) _]; now apply _require_utc_Ok | now rewrite F9]|].
    pass.
    { destruct (bool_decide _); [|now rewrite F9]. destruct F9 as [(t & -> & _ & E) [(h & -> & L) _]]. cbn [falsy].
      rewrite E, L, empty_length by (rewrite L; discriminate). reflexivity. }
    pass; [destruct (bool_decide (_ = RECOVERY_FAILED)); [exact F10 | reflexivity]|].
    pass; [destruct (bool_decide (_ = RECOVERY_FAILED)); [reflexivity | now rewrite F10]|].
    destruct (rs_dispatched_through_sequence s) as [n|], (rs_dispatched_through_event_id s) as [id|]; try contradiction;
      (pass; [reflexivity|]); (pass; [|]).
    1: { destruct F11 as [[? ?] Hid]. cbn [falsy]. rewrite Hid, (proj2 (Z.ltb_ge n _)), (proj2 (Z.ltb_ge _ n)) by assumption. reflexivity. }
    2: reflexivity.
    all: pass; [destruct (bool_decide (_ = COMPLETED)); [destruct F9 as (_ & _ & F9); try discriminate F9; rewrite bool_decide_true by exact F9|]; reflexivity|].
    all: pass; [now apply history_check_Ok | reflexivity].
  - intros H. py_inv. repeat match goal with H : _require_utc _ _ = Ok _ |- _ => apply _require_utc_Ok in H end.
    match goal with H : history_check _ = Ok _ |- _ => apply history_check_Ok in H end.
    bool_prop. split; try (split; assumption); eauto.
    + split; now apply Z.eqb_neq.
    + now apply Z.ltb_ge.
    + destruct (bool_decide (rs_status s = COMPLETED)) eqn:E; py_inv.
      * destruct (rs_completed_at s) as [t|], (rs_source_hash s) as [h|]; cbn in *; try discriminate; bool_prop; try discriminate.
        match goal with H : _require_utc _ _ = Ok _ |- _ => apply _require_utc_Ok in H end. eauto 8.
      * now destruct (rs_completed_at s).
    + destruct (bool_decide (rs_status s = RECOVERY_FAILED)); cbn in *; [assumption | now destruct (rs_failure_reason s)].
    + destruct (rs_dispatched_through_sequence s), (rs_dispatched_through_event_id s); cbn in *; try discriminate; bool_prop;
        auto with lia.
Qed.

(** The changes that keep a state of a recovery of [g] valid in a status that is still open, or completed at [t]. *)
Definition sound_changes (g : GapRange) (status : RecoveryStatus) (t : datetime) (ch : changes) : Prop :=
  0 <= ch_attempt ch /\ ch_failure_reason ch = None /\
  match ch_sequence ch, ch_event_id ch with
  | None, None => True
  | Some n, Some id => gr_start_sequence g <= n <= gr_end_sequence_exclusive g /\ empty id = false
  | _, _ => False
  end /\
  match status with
  | COMPLETED => ch_completed_at ch = Some t /\ ch_sequence ch = Some (gr_end_sequence_exclusive g) /\
                 exists h, ch_source_hash ch = Some h /\ String.length h = 64%nat
  | RECOVERY_FAILED => False
  | _ => ch_completed_at ch = None
  end.

Lemma sound_no_change s t : state_facts s -> rs_status s <> RECOVERY_FAILED -> rs_status s <> COMPLETED ->
  sound_changes (rs_gap s) (rs_status s) t (no_change s).
Proof.
  intros F Hf Hc. pose proof (sf_completed s F) as C. pose proof (sf_failed s F) as R.
  rewrite bool_decide_false in C, R by assumption. split; [apply F|]. split; [exact R|]. split; [exact (sf_dispatched s F)|].
  cbn. destruct (rs_status s); congruence.
Qed.

Lemma advance_total s status ty t p items ch :
  state_facts s -> freeze_json p = Ok (JObj items) ->
  dotted ty = true -> is_utc t = true -> instant (rs_changed_at s) <= instant t -> sound_changes (rs_gap s) status t ch ->
  exists s', _advance s status ty t p ch = Ok s' /\ state_facts s' /\ rs_gap s' = rs_gap s /\
    rs_experiment_id s' = rs_experiment_id s /\ rs_status s' = status /\ rs_changed_at s' = t /\
    rs_dispatched_through_sequence s' = ch_sequence ch.
Proof.
  intros F Hj Hty Ut Hle (Ha & Hf & Hd & Hs). pose proof F as [F1 F2 [F3 F4] [F5 F6] F7 _ _ _ F11].
  set (s' := {|
    rs_recovery_id := rs_recovery_id s; rs_experiment_id := rs_experiment_id s; rs_gap := rs_gap s; rs_status := status;
    rs_attempt := ch_attempt ch; rs_source_hash := ch_source_hash ch; rs_failure_reason := ch_failure_reason ch;
    rs_started_at := rs_started_at s; rs_changed_at := t; rs_completed_at := ch_completed_at ch;
    rs_version := rs_version s + 1;
    rs_events := rs_events s ++ [{| tr_sequence := rs_version s + 1; tr_event_type := ty; tr_event_at := t; tr_payload := JObj items |}];
    rs_dispatched_through_sequence := ch_sequence ch; rs_dispatched_through_event_id := ch_event_id ch |}).
  assert (P : state_facts s').
  { split; cbn [s' rs_recovery_id rs_experiment_id rs_gap rs_status rs_attempt rs_source_hash rs_failure_reason rs_started_at
      rs_changed_at rs_completed_at rs_version rs_events rs_dispatched_through_sequence rs_dispatched_through_event_id];
      try assumption; try lia; auto.
    - destruct status; cbn in Hs |- *; try assumption; [|contradiction]. destruct Hs as (Hc & Hq & Hh).
      split; [|auto]. exists t. repeat split; try assumption. apply dt_eqb_refl.
    - destruct status; cbn; try assumption. contradiction.
    - apply (history_append s s' _ F11 eq_refl eq_refl); [reflexivity..|]. exact Hle. }
  exists s'. split; [|split; [exact P | repeat split]]. unfold _advance.
  pass; [now apply _require_utc_Ok|]. pass; [now apply Z.ltb_ge|]. pass; [unfold _payload, object_payload; rewrite Hj; reflexivity|]. cbn beta.
  pass; [apply transition_total; [lia | exact Hty | exact Ut] | apply state_facts_valid, P].
Qed.

(** Every cursor recorded in turn. *)
Fixpoint dispatch_all (s : RecoveryState) (cs : list MarketCursor) (t : datetime) : result RecoveryState :=
  match cs with
  | [] => Ok s
  | c :: cs' => let* s' := record_dispatch s c t in dispatch_all s' cs' t
  end.

Record open_state (g : GapRange) (t : datetime) (status : RecoveryStatus) (s : RecoveryState) : Prop := {
  os_facts : state_facts s;
  os_gap : rs_gap s = g;
  os_changed : rs_changed_at s = t;
  os_status : rs_status s = status
}.

Lemma dispatch_total g t t' s c : open_state g t' BACKFILLING s -> is_utc t = true -> instant t' <= instant t -> cursor_on g c ->
  mc_sequence c = expected_sequence s -> mc_sequence c <= gr_end_sequence_exclusive g ->
  exists s', record_dispatch s c t = Ok s' /\ open_state g t BACKFILLING s' /\ rs_dispatched_through_sequence s' = Some (mc_sequence c).
Proof.
  intros [F <- <- St] Ut Hle [Vc C1 C2 C3 C4 C5] Hsq Hend. pose proof (cursor_valid_facts c Vc) as Fc.
  pose proof (sound_no_change s t F ltac:(congruence) ltac:(congruence)) as (S1 & S2 & S3 & S4). rewrite St in S4. cbn in S1, S2, S4.
  pose proof (sf_dispatched s F) as D.
  assert (Hb : gr_start_sequence (rs_gap s) <= expected_sequence s)
    by (unfold expected_sequence; destruct (rs_dispatched_through_sequence s), (rs_dispatched_through_event_id s); lia || contradiction).
  eassert (E : record_dispatch s c t = _).
  { unfold record_dispatch. pass; [now rewrite St|]. pass.
    { now rewrite C1, C2, C3, C4, C5, (sf_experiment s F), Z.eqb_refl, !bool_decide_true. }
    pass; [now rewrite Hsq, Z.eqb_refl, (proj2 (Z.ltb_ge _ _)) by lia | reflexivity]. }
  rewrite E. edestruct (advance_total s BACKFILLING "market_recovery.dispatch_progressed" t) as (s' & H & Fs & G & _ & St' & Ch & Th);
    [exact F | | reflexivity | exact Ut | exact Hle | | exists s'; split; [exact H | split; [split; assumption | exact Th]]].
  - cbn. unfold utc_iso. rewrite (cf_close_utc c Fc). reflexivity.
  - split; [exact S1|]. split; [exact S2|]. split; [|exact S4]. cbn. split; [lia | apply Fc].
Qed.

Lemma dispatch_all_total g t cs : is_utc t = true -> Forall (cursor_on g) cs -> forall s t',
  open_state g t' BACKFILLING s -> instant t' <= instant t ->
  map mc_sequence cs = zrange (expected_sequence s) (length cs) ->
  expected_sequence s + Z.of_nat (length cs) <= gr_end_sequence_exclusive g + 1 ->
  exists s' t'', dispatch_all s cs t = Ok s' /\ open_state g t'' BACKFILLING s' /\ instant t'' <= instant t /\
    expected_sequence s' = expected_sequence s + Z.of_nat (length cs).
Proof.
  intros Ut. induction 1 as [|c cs Hc _ IH]; intros s t' O Ht Hsq Hend; cbn [dispatch_all length map] in *.
  - exists s, t'. repeat split; try assumption; try apply O. lia.
  - rewrite zrange_S in Hsq. injection Hsq as Hsq Hrest.
    destruct (dispatch_total g t t' s c O Ut Ht Hc Hsq ltac:(lia)) as (s1 & H1 & O1 & Th). rewrite H1. cbn [bind].
    assert (E : expected_sequence s1 = expected_sequence s + 1) by (unfold expected_sequence at 1; rewrite Th; lia).
    destruct (IH s1 t O1 ltac:(lia)) as (s' & t'' & H' & O' & Ht' & E'); [now rewrite E | lia|].
    exists s', t''. repeat split; try assumption; try apply O'. lia.
Qed.

Lemma create_total rid g t : gap_facts g -> rid <> 0 -> gr_experiment_id g <> 0 -> is_utc t = true ->
  exists s, recovery_create rid (gr_experiment_id g) g t = Ok s /\ open_state g t DETECTED s /\ expected_sequence s = gr_start_sequence g.
Proof.
  intros G Hr He Ut. destruct (freeze_dict_total [("experiment_id", PUuid (gr_experiment_id g)); ("venue", PStr (gr_venue g)); ("stream", PStr (gr_stream g));
   ("symbol", PStr (gr_symbol g)); ("timeframe", PStr (gr_timeframe g)); ("start_sequence", PInt (gr_start_sequence g));
   ("end_sequence_exclusive", PInt (gr_end_sequence_exclusive g)); ("start_open_at", PTime (gr_start_open_at g));
   ("end_open_at_exclusive", PTime (gr_end_open_at_exclusive g)); ("interval_seconds", PInt (gr_interval g / 1000000));
   ("missing_count", PInt (missing_count g))]) as [items Hj].
  { cbn. now rewrite (gf_start_utc g G), (gf_end_utc g G). }
  set (event := {| tr_sequence := 1; tr_event_type := "market_recovery.detected"; tr_event_at := t; tr_payload := JObj items |}).
  assert (He' : RecoveryTransition_post_init event = Ok event).
  { apply transition_total; [lia | reflexivity | exact Ut]. }
  set (s := {|
    rs_recovery_id := rid; rs_experiment_id := gr_experiment_id g; rs_gap := g; rs_status := DETECTED; rs_attempt := 0;
    rs_source_hash := None; rs_failure_reason := None; rs_started_at := t; rs_changed_at := t; rs_completed_at := None;
    rs_version := 1; rs_events := [event]; rs_dispatched_through_sequence := None; rs_dispatched_through_event_id := None |}).
  assert (P : state_facts s).
  { split; cbn; try reflexivity; try lia; auto. now apply (history_open s event). }
  exists s. split; [|split; [split; [exact P | reflexivity..] | reflexivity]].
  unfold recovery_create. pass; [now apply _require_utc_Ok|]. pass; [now rewrite (proj2 (Z.eqb_neq _ _) Hr), (proj2 (Z.eqb_neq _ _) He)|].
  pass; [now rewrite Z.eqb_refl|]. pass; [unfold _payload, object_payload, gap_to_dict; rewrite Hj; reflexivity|]. cbn beta.
  pass; [exact He' | apply state_facts_valid, P].
Qed.

Lemma begin_total g t t' s : open_state g t' DETECTED s -> is_utc t = true -> instant t' <= instant t ->
  exists s', begin_backfill s t = Ok s' /\ open_state g t BACKFILLING s' /\ expected_sequence s' = expected_sequence s.
Proof.
  intros [F <- <- St] Ut Hle.
  pose proof (sound_no_change s t F ltac:(congruence) ltac:(congruence)) as (S1 & S2 & S3 & S4). rewrite St in S4. cbn in S1, S2, S3, S4.
  eassert (E : begin_backfill s t = _) by (unfold begin_backfill; pass; [now rewrite St | reflexivity]).
  rewrite E. edestruct (advance_total s BACKFILLING "market_recovery.backfill_started" t) as (s' & H & Fs & G & _ & St' & Ch & Th);
    [exact F | | reflexivity | exact Ut | exact Hle | |
     exists s'; split; [exact H | split; [split; assumption | unfold expected_sequence; rewrite Th, G; reflexivity]]];
    [reflexivity|].
  split; [cbn; lia|]. split; [exact S2|]. split; [exact S3 | exact S4].
Qed.

Lemma gap_eqb_refl g : gap_eqb g g = true.
Proof. unfold gap_eqb. now rewrite !Z.eqb_refl, !bool_decide_true, !dt_eqb_refl by reflexivity. Qed.

Lemma complete_total g t t' s events batch : open_state g t' BACKFILLING s -> is_utc t = true -> instant t' <= instant t ->
  validate_backfill sha256_hex g events = Ok batch -> bb_events batch = events -> bb_gap batch = g ->
  (forall x, String.length (sha256_hex x) = 64%nat) -> rs_dispatched_through_sequence s = Some (gr_end_sequence_exclusive g) ->
  exists s', complete sha256_hex s batch t = Ok s' /\ open_state g t COMPLETED s'.
Proof.
  intros [F <- <- St] Ut Hle B Be Bg Hh Hth.
  pose proof (sound_no_change s t F ltac:(congruence) ltac:(congruence)) as (S1 & S2 & S3 & S4). rewrite St in S4. cbn in S1, S2, S3, S4.
  assert (Hlen : String.length (bb_content_hash batch) = 64%nat).
  { unfold validate_backfill, content_hash in B. py_inv. apply Hh. }
  eassert (E : complete sha256_hex s batch t = _).
  { unfold complete. pass; [now rewrite St|]. pass; [now rewrite Bg, gap_eqb_refl|]. pass; [rewrite Be; exact B|].
    pass; [now rewrite bool_decide_true|]. pass; [now rewrite bool_decide_true | reflexivity]. }
  rewrite E. edestruct (advance_total s COMPLETED "market_recovery.completed" t) as (s' & H & Fs & G & _ & St' & Ch & Th);
    [exact F | | reflexivity | exact Ut | exact Hle | | exists s'; split; [exact H | split; assumption]]; [reflexivity|].
  split; [exact S1|]. split; [exact S2|]. split; [exact S3|]. cbn. split; [reflexivity|]. split; [exact Hth|]. eauto.
Qed.

(** ** The properties *)

(** C17: A validated backfill of deliverable bars closes the gap that was
    detected: the cursor that refused the candidate advances through every
    event of the batch and then through the candidate, over exactly the
    missing sequence numbers, bar by bar without a hole. *)
Theorem backfill_closes_gap c candidate g events batch :
  MarketCursor_post_init c = Ok c -> detect_closed_bar_gap c candidate = Ok (Some g) ->
  validate_backfill sha256_hex g events = Ok batch -> Forall (deliverable (gr_interval g)) events ->
  valid_event candidate -> timely candidate ->
  is_ok (advance_closed_bar c candidate) = false /\
  exists cs, advance_trace c (events ++ [candidate]) = Ok cs /\ Forall (cursor_on g) cs /\
    map mc_sequence cs = missing_sequences g ++ [gr_end_sequence_exclusive g] /\
    map (fun c' => instant (mc_bar_close_at c')) cs =
      map (fun i => instant (gr_start_open_at g) + gr_interval g * i) (zrange 1 (S (length events))).
Proof.
  intros Vc D B Hev Ve Te. split.
  - pose proof (detect_detected _ _ _ D) as [Vg _ [Hs _] (bar & Hb & Hst & Hcl & Hsq & Ho) _]. apply valid_gap_facts in Vg.
    destruct (advance_closed_bar c candidate) as [c'|e] eqn:A; [|reflexivity]. exfalso.
    unfold advance_closed_bar in A. rewrite Hb, Hsq in A. cbn [of_option bind] in A. py_inv. bool_prop. pose proof (gf_sequences g Vg). lia.
  - destruct (gap_trace sha256_hex c candidate g events batch Vc D B Hev Ve Te) as (cs & H1 & H2 & _ & H3 & H4). eauto 6.
Qed.

(** C15: Every state that the recovery of a gap can reach from its detection is
    well-formed; the audit trail lists the dispatched sequences as an unbroken
    prefix of the gap and the candidate, and as many starts as attempts;
    entries are unblocked only when every missing bar and the candidate were
    dispatched and the source hash is the one of a backfill that validates;
    and a completed or failed recovery never moves again. *)
Theorem recovery_audit rid eid g t0 s0 s :
  recovery_create rid eid g t0 = Ok s0 -> star recovery_step s0 s ->
  RecoveryState_post_init s = Ok s /\ rs_gap s = g /\ rs_attempt s = attempts_log s /\
  (exists rest, dispatched_log s ++ rest = missing_sequences g ++ [gr_end_sequence_exclusive g]) /\
  (entries_blocked s = false ->
     dispatched_log s = missing_sequences g ++ [gr_end_sequence_exclusive g] /\
     exists events batch, validate_backfill sha256_hex g events = Ok batch /\ rs_source_hash s = Some (bb_content_hash batch)) /\
  (rs_status s = COMPLETED \/ rs_status s = RECOVERY_FAILED -> forall s', ~ recovery_step s s').
Proof.
  intros C R. destruct (recovery_create_inv _ _ _ _ _ C) as (I0 & _).
  pose proof (star_invariant recovery_step (recovery_inv g) (recovery_step_inv g) _ _ I0 R) as [I1 I2 I3 I4 I5].
  pose proof I1 as F. apply state_facts_valid in F.
  split; [exact I1|]. split; [exact I2|]. split; [exact I4|]. split; [|split].
  - rewrite I3. unfold covered. destruct (rs_dispatched_through_sequence s) as [n|] eqn:En; [|cbn; eauto].
    pose proof (through_bounds s n I1 En) as Hb. rewrite I2 in *. rewrite full_log by lia.
    exists (zrange (n + 1) (Z.to_nat (gr_end_sequence_exclusive g - n))).
    replace (Z.to_nat (gr_end_sequence_exclusive g - gr_start_sequence g + 1))
      with (Z.to_nat (n - gr_start_sequence g + 1) + Z.to_nat (gr_end_sequence_exclusive g - n))%nat by lia.
    rewrite zrange_app. do 2 f_equal. lia.
  - intros U. unfold entries_blocked in U. bool_prop. split; [|auto].
    pose proof (sf_completed s F) as H. rewrite bool_decide_true in H by assumption. destruct H as (_ & _ & H).
    pose proof (through_bounds s _ I1 H). rewrite I2 in *. rewrite I3, full_log by lia. unfold covered. now rewrite H, I2.
  - intros T s' St. inversion St as [? ? ? H|? ? ? ? H|? ? ? ? H|? ? ? ? H|? ? ? ? H]; subst;
      unfold begin_backfill, record_dispatch, retry, fail, complete in H; py_inv; bool_prop;
      destruct T as [T|T]; try congruence; rewrite T in *; discriminate.
Qed.

(** C18: Recovery can always finish: from the detection of a gap, a validated
    backfill of deliverable bars takes the state machine through the start, one
    recorded dispatch for each cursor the events produce and the completion,
    and unblocks the entries. *)
Theorem recovery_completes c candidate g events batch rid t0 t1 t2 :
  (forall x, String.length (sha256_hex x) = 64%nat) ->
  MarketCursor_post_init c = Ok c -> detect_closed_bar_gap c candidate = Ok (Some g) ->
  validate_backfill sha256_hex g events = Ok batch -> Forall (deliverable (gr_interval g)) events ->
  valid_event candidate -> timely candidate -> rid <> 0 ->
  forallb is_utc [t0; t1; t2] = true -> instant t0 <= instant t1 <= instant t2 ->
  exists cs s0 s1 s2 s3, advance_trace c (events ++ [candidate]) = Ok cs /\
    recovery_create rid (mc_experiment_id c) g t0 = Ok s0 /\ begin_backfill s0 t1 = Ok s1 /\
    dispatch_all s1 cs t1 = Ok s2 /\ complete sha256_hex s2 batch t2 = Ok s3 /\ entries_blocked s3 = false.
Proof.
  intros Hh Vc D B Hev Ve Te Hr Hu Ht. cbn [forallb] in Hu. bool_prop.
  destruct (gap_trace sha256_hex c candidate g events batch Vc D B Hev Ve Te) as (cs & Hcs & Hon & _ & Hsq & Hcl).
  pose proof (detect_detected _ _ _ D) as [Vg (Hx & _) _ _ _]. apply valid_gap_facts in Vg.
  destruct (validate_chain _ _ _ _ Vg B) as (_ & Hlen & Be & Bg). pose proof (gf_count g Vg) as Hcount.
  assert (Hn : length cs = S (length events)) by (rewrite <- (length_map (fun c' => instant (mc_bar_close_at c')) cs), Hcl, length_map; apply zrange_length).
  rewrite <- Hx. assert (Hnil : gr_experiment_id g <> 0) by (pose proof (cf_nil c (cursor_valid_facts c Vc)); rewrite Hx; now apply Z.eqb_neq).
  destruct (create_total rid g t0 Vg Hr Hnil ltac:(assumption)) as (s0 & E0 & O0 & X0).
  destruct (begin_total g t1 t0 s0 O0 ltac:(assumption) ltac:(lia)) as (s1 & E1 & O1 & X1).
  destruct (dispatch_all_total g t1 cs ltac:(assumption) Hon s1 t1 O1 ltac:(lia)) as (s2 & t' & E2 & O2 & T2 & X2).
  { rewrite Hsq, X1, X0, Hn. unfold missing_sequences. rewrite Hcount, <- Hlen, Nat2Z.id, zrange_snoc. do 2 f_equal. lia. }
  { rewrite X1, X0, Hn. lia. }
  assert (Th : rs_dispatched_through_sequence s2 = Some (gr_end_sequence_exclusive g)).
  { rewrite X1, X0, Hn in X2. unfold expected_sequence in X2. rewrite (os_gap _ _ _ _ O2) in X2.
    destruct (rs_dispatched_through_sequence s2); [f_equal|]; lia. }
  destruct (complete_total g t2 t' s2 events batch O2 ltac:(assumption) ltac:(lia) B Be Bg Hh Th) as (s3 & E3 & O3).
  exists cs, s0, s1, s2, s3. repeat split; try assumption. unfold entries_blocked. now rewrite (os_status _ _ _ _ O3).
Qed.
End Runs.

(** ** Witnesses: a stream that skips two bars *)

Definition sample_bar (id : string) (sequence start_ms span_ms : Z) : ObservedMarketEvent := {|
  ev_venue := "binance"; ev_stream := "stream"; ev_symbol := "BTCUSDT"; ev_event_id := id;
  ev_kind := MarketEvents.CLOSED_BAR; ev_venue_event_at := at_ms (start_ms + span_ms);
  ev_observed_at := at_ms (start_ms + span_ms + 300); ev_sequence := Some sequence;
  ev_sequence_not_applicable_reason := None;
  ev_payload := BarPayload {|
    cb_timeframe := "1m"; cb_bar_open_at := at_ms start_ms; cb_bar_close_at := at_ms (start_ms + span_ms);
    cb_open := dint 100; cb_high := dint 105; cb_low := dint 95; cb_close := dint 101; cb_volume := dint 10;
    cb_quote_volume := dint 1000; cb_trade_count := 5; cb_taker_buy_volume := dint 4;
    cb_taker_buy_quote_volume := dint 400; cb_closed := true |} |}.

Definition sample_cursor : MarketCursor := {|
  mc_experiment_id := 1; mc_venue := "binance"; mc_stream := "stream"; mc_symbol := "BTCUSDT"; mc_timeframe := "1m";
  mc_event_id := "bar-1"; mc_sequence := 1; mc_venue_event_at := at_ms 60000; mc_observed_at := at_ms 60300;
  mc_bar_close_at := at_ms 60000; mc_status := CURSOR_ACTIVE; mc_version := 1; mc_updated_at := at_ms 60300 |}.

Definition sample_candidate : ObservedMarketEvent := sample_bar "bar-4" 4 180000 60000.

Definition sample_gap : GapRange := {|
  gr_experiment_id := 1; gr_venue := "binance"; gr_stream := "stream"; gr_symbol := "BTCUSDT"; gr_timeframe := "1m";
  gr_start_sequence := 2; gr_end_sequence_exclusive := 4; gr_start_open_at := at_ms 60000;
  gr_end_open_at_exclusive := at_ms 180000; gr_interval := 60000000 |}.

Definition sample_backfill : list ObservedMarketEvent := [sample_bar "bar-2" 2 60000 60000; sample_bar "bar-3" 3 120000 60000].

Example sample_detected : detect_closed_bar_gap sample_cursor sample_candidate = Ok (Some sample_gap).
Proof. vm_compute. reflexivity. Qed.

Lemma sample_validated : exists batch, validate_backfill toy_digest sample_gap sample_backfill = Ok batch.
Proof. eexists. vm_compute. reflexivity. Qed.

Ltac timely_bar := split; [vm_compute; discriminate | intros bar H; vm_compute in H; injection H as <-; vm_compute; discriminate].
Ltac deliverable_bar :=
  split; [split; vm_compute; reflexivity|]; split; [timely_bar | eexists; split; [reflexivity | vm_compute; reflexivity]].

Lemma sample_deliverable : Forall (deliverable 60000000) (sample_backfill ++ [sample_candidate]).
Proof. unfold sample_backfill. do 3 (apply Forall_cons; split; [deliverable_bar|]). apply Forall_nil. exact I. Qed.

Lemma backfill_closes_gap_witness : exists cs,
  advance_trace sample_cursor (sample_backfill ++ [sample_candidate]) = Ok cs /\ map mc_sequence cs = [2; 3; 4].
Proof.
  destruct sample_validated as [batch B]. pose proof sample_deliverable as Hd. apply Forall_app in Hd as [Hb Hc].
  inversion Hc as [|? ? (Vc & Tc & _) _]; subst.
  destruct (backfill_closes_gap toy_digest sample_cursor sample_candidate sample_gap sample_backfill batch eq_refl sample_detected B
    Hb Vc Tc) as (_ & cs & Hcs & _ & Hsq & _).
  exists cs. split; [exact Hcs | rewrite Hsq; reflexivity].
Defined.

Lemma recovery_completes_witness : exists cs s0 s1 s2 s3 batch,
  validate_backfill toy_digest sample_gap sample_backfill = Ok batch /\
  advance_trace sample_cursor (sample_backfill ++ [sample_candidate]) = Ok cs /\
  recovery_create 9 1 sample_gap (at_ms 250000) = Ok s0 /\ begin_backfill s0 (at_ms 251000) = Ok s1 /\
  dispatch_all s1 cs (at_ms 251000) = Ok s2 /\ complete toy_digest s2 batch (at_ms 252000) = Ok s3 /\ entries_blocked s3 = false.
Proof.
  destruct sample_validated as [batch B]. pose proof sample_deliverable as Hd. apply Forall_app in Hd as [Hb Hc].
  inversion Hc as [|? ? (Vc & Tc & _) _]; subst.
  destruct (recovery_completes toy_digest sample_cursor sample_candidate sample_gap sample_backfill batch 9 (at_ms 250000)
    (at_ms 251000) (at_ms 252000) toy_digest_length eq_refl sample_detected B Hb Vc Tc ltac:(discriminate) eq_refl
    ltac:(vm_compute; split; discriminate)) as (cs & s0 & s1 & s2 & s3 & H).
  exists cs, s0, s1, s2, s3, batch. split; [exact B | exact H].
Defined.

Definition sample_create : result RecoveryState := recovery_create 9 1 sample_gap (at_ms 250000).

Lemma recovery_audit_witness : exists s0 s1, sample_create = Ok s0 /\ begin_backfill s0 (at_ms 251000) = Ok s1 /\
  attempts_log s1 = 1 /\ rs_attempt s1 = 1 /\ dispatched_log s1 = [].
Proof.
  destruct sample_create as [s0|e] eqn:E0; [|vm_compute in E0; discriminate].
  destruct (begin_backfill s0 (at_ms 251000)) as [s1|e] eqn:E1;
    [|vm_compute in E0; injection E0 as <-; vm_compute in E1; discriminate].
  destruct (recovery_audit toy_digest 9 1 sample_gap (at_ms 250000) s0 s1 E0
    (star_one _ _ _ (step_begin toy_digest s0 (at_ms 251000) s1 E1))) as (_ & _ & A & _).
  exists s0, s1. vm_compute in E0; injection E0 as <-. vm_compute in E1; injection E1 as <-.
  repeat split; try exact A; reflexivity.
Defined.

(** [validate_backfill] compares the open times and the sequences but not the
    spans: a batch with a bar shorter than the interval validates, and the
    cursor refuses the next bar, so no dispatch reaches the candidate. *)
Definition short_backfill : list ObservedMarketEvent := [sample_bar "bar-2" 2 60000 59000; sample_bar "bar-3" 3 120000 60000].

Lemma short_backfill_validates :
  is_ok (validate_backfill toy_digest sample_gap short_backfill) = true /\ Forall valid_event short_backfill /\
  Forall timely short_backfill /\
  advance_trace sample_cursor (short_backfill ++ [sample_candidate]) = Raise (ValueError "cursor bar gap requires recovery").
Proof.
  split; [vm_compute; reflexivity|]. split; [repeat (apply Forall_cons; split; [split; vm_compute; reflexivity|]); now apply Forall_nil|].
  split; [repeat (apply Forall_cons; split; [timely_bar|]); now apply Forall_nil | vm_compute; reflexivity].
Qed.
