(* ===== verification/Incidents.v ===== *)
(** * Incidents: [maais/operations/incidents.py]

    An incident is opened with its evidence, acknowledged by an actor and
    resolved with a resolution; one that requires an operator's review is
    resolved only on the operator's confirmation.  Every change goes through
    [_advance], which appends to the audit trail and runs the constructor's
    checks again. *)

From Stdlib Require Import ZArith QArith Lia List Bool String Ascii.
From stdpp Require Import base decidable list strings.
From S2P Require Import Prelude PyDecimal DecimalTheory Domain Json MarketEvents EventLog.

Local Open Scope Z_scope.

Inductive IncidentSeverity : Type := WARNING | ERROR | CRITICAL.
Inductive IncidentStatus : Type := INCIDENT_OPEN | ACKNOWLEDGED | RESOLVED.

#[export] Instance IncidentStatus_eq_dec : EqDecision IncidentStatus.
Proof. solve_decision. Defined.
#[export] Instance IncidentSeverity_value : StrEnum IncidentSeverity := fun s =>
  match s with WARNING => "warning" | ERROR => "error" | CRITICAL => "critical" end.

Record IncidentState : Type := {
  in_incident_id : UUID;
  in_experiment_id : UUID;
  in_deduplication_key : string;
  in_severity : IncidentSeverity;
  in_component : string;
  in_reason_code : string;
  in_evidence : json;
  in_requires_operator_review : bool;
  in_status : IncidentStatus;
  in_detected_at : datetime;
  in_acknowledged_at : option datetime;
  in_resolved_at : option datetime;
  in_acknowledged_by : option string;
  in_resolved_by : option string;
  in_resolution : option string;
  in_changed_at : datetime;
  in_version : Z;
  in_events : list Transition
}.

#[export] Instance IncidentState_journal : Journal IncidentState := {
  journal_owner := "incident"; journal_opening := "incident.opened"; journal_clock := "incident change time";
  journal_version := in_version; journal_time := in_changed_at; journal_events := in_events }.

Definition incident_payload : pyval -> result json := object_payload "incident payload".

Definition IncidentTransition_post_init : Transition -> result Transition :=
  Transition_post_init "incident" "event_at" "incident payload".

(** The constructor; it stores the evidence frozen once more. *)
Definition IncidentState_post_init (s : IncidentState) : result IncidentState :=
  do* raise_if ((in_incident_id s =? 0) || (in_experiment_id s =? 0)) (ValueError "incident UUIDs cannot be nil") ;;
  do* raise_if (empty (in_deduplication_key s) || empty (in_component s) || empty (in_reason_code s))
        (ValueError "incident identity and reason are required") ;;
  do* _require_utc (in_detected_at s) "detected_at" ;;
  do* _require_utc (in_changed_at s) "changed_at" ;;
  do* opt_check (fun t => _require_utc t "acknowledged_at") (in_acknowledged_at s) ;;
  do* opt_check (fun t => _require_utc t "resolved_at") (in_resolved_at s) ;;
  do* raise_if (dt_ltb (in_changed_at s) (in_detected_at s)) (ValueError "incident change time cannot precede detection") ;;
  do* raise_if (bool_decide (in_status s = INCIDENT_OPEN) && (present (in_acknowledged_at s) || present (in_resolved_at s)))
        (ValueError "open incident cannot have terminal transition times") ;;
  do* raise_if (bool_decide (in_status s = ACKNOWLEDGED) && (negb (present (in_acknowledged_at s)) || present (in_resolved_at s)))
        (ValueError "acknowledged incident transition times are invalid") ;;
  do* raise_if (bool_decide (in_status s = RESOLVED) && negb (present (in_resolved_at s)))
        (ValueError "resolved incident requires a resolution time") ;;
  do* raise_if (negb (Bool.eqb (present (in_acknowledged_at s)) (present (in_acknowledged_by s))))
        (ValueError "incident acknowledgement time and actor must appear together") ;;
  do* (match in_resolved_at s with
       | None => raise_if (present (in_resolved_by s) || present (in_resolution s))
                   (ValueError "unresolved incident cannot have resolution metadata")
       | Some _ => raise_if (match in_resolved_by s, in_resolution s with
                             | Some by', Some r => empty by' || empty r
                             | _, _ => true
                             end) (ValueError "resolved incident requires actor and resolution")
       end) ;;
  do* history_check s ;;
  let* normalized := freeze_json (thaw (in_evidence s)) in
  let* evidence := as_mapping "incident evidence must be an object" normalized in
  Ok {| in_incident_id := in_incident_id s; in_experiment_id := in_experiment_id s;
        in_deduplication_key := in_deduplication_key s; in_severity := in_severity s; in_component := in_component s;
        in_reason_code := in_reason_code s; in_evidence := evidence;
        in_requires_operator_review := in_requires_operator_review s; in_status := in_status s;
        in_detected_at := in_detected_at s; in_acknowledged_at := in_acknowledged_at s; in_resolved_at := in_resolved_at s;
        in_acknowledged_by := in_acknowledged_by s; in_resolved_by := in_resolved_by s; in_resolution := in_resolution s;
        in_changed_at := in_changed_at s; in_version := in_version s; in_events := in_events s |}.

Definition incident_create (incident_id experiment_id : UUID) (deduplication_key : string) (severity : IncidentSeverity)
    (component reason_code : string) (evidence : pyval) (requires_operator_review : bool) (detected_at : datetime)
  : result IncidentState :=
  do* _require_utc detected_at "detected_at" ;;
  let* normalized := incident_payload evidence in
  let* payload := incident_payload (PDict
    [("deduplication_key", PStr deduplication_key); ("severity", PEnum (enum_value severity)); ("component", PStr component);
     ("reason_code", PStr reason_code); ("evidence", thaw normalized);
     ("requires_operator_review", PBool requires_operator_review)]) in
  let* event := IncidentTransition_post_init
    {| tr_sequence := 1; tr_event_type := "incident.opened"; tr_event_at := detected_at; tr_payload := payload |} in
  IncidentState_post_init {|
    in_incident_id := incident_id; in_experiment_id := experiment_id; in_deduplication_key := deduplication_key;
    in_severity := severity; in_component := component; in_reason_code := reason_code; in_evidence := normalized;
    in_requires_operator_review := requires_operator_review; in_status := INCIDENT_OPEN; in_detected_at := detected_at;
    in_acknowledged_at := None; in_resolved_at := None; in_acknowledged_by := None; in_resolved_by := None;
    in_resolution := None; in_changed_at := detected_at; in_version := 1; in_events := [event] |}.

(** The keyword arguments of [_advance], as the fields they replace. *)
Record incident_changes : Type := {
  ic_acknowledged_at : option datetime; ic_acknowledged_by : option string; ic_resolved_at : option datetime;
  ic_resolved_by : option string; ic_resolution : option string
}.

Definition incident_advance (s : IncidentState) (status : IncidentStatus) (event_type : string) (event_at : datetime)
    (payload : pyval) (ch : incident_changes) : result IncidentState :=
  do* _require_utc event_at "event_at" ;;
  do* raise_if (dt_ltb event_at (in_changed_at s)) (ValueError "incident transition time cannot regress") ;;
  let* frozen := incident_payload payload in
  let* event := IncidentTransition_post_init
    {| tr_sequence := in_version s + 1; tr_event_type := event_type; tr_event_at := event_at; tr_payload := frozen |} in
  IncidentState_post_init {|
    in_incident_id := in_incident_id s; in_experiment_id := in_experiment_id s;
    in_deduplication_key := in_deduplication_key s; in_severity := in_severity s; in_component := in_component s;
    in_reason_code := in_reason_code s; in_evidence := in_evidence s;
    in_requires_operator_review := in_requires_operator_review s; in_status := status; in_detected_at := in_detected_at s;
    in_acknowledged_at := ic_acknowledged_at ch; in_resolved_at := ic_resolved_at ch;
    in_acknowledged_by := ic_acknowledged_by ch; in_resolved_by := ic_resolved_by ch; in_resolution := ic_resolution ch;
    in_changed_at := event_at; in_version := in_version s + 1; in_events := in_events s ++ [event] |}.

Definition acknowledge (s : IncidentState) (actor : string) (acknowledged_at : datetime) : result IncidentState :=
  do* raise_if (bool_decide (in_status s = RESOLVED)) (RuntimeError "incident is already resolved") ;;
  do* raise_if (bool_decide (in_status s = ACKNOWLEDGED)) (RuntimeError "incident is already acknowledged") ;;
  do* raise_if (empty actor) (ValueError "incident acknowledgement actor is required") ;;
  incident_advance s ACKNOWLEDGED "incident.acknowledged" acknowledged_at (PDict [("actor", PStr actor)])
    {| ic_acknowledged_at := Some acknowledged_at; ic_acknowledged_by := Some actor; ic_resolved_at := in_resolved_at s;
       ic_resolved_by := in_resolved_by s; ic_resolution := in_resolution s |}.

Definition resolve (s : IncidentState) (actor resolution : string) (resolved_at : datetime) (operator_confirmed : bool)
  : result IncidentState :=
  do* raise_if (bool_decide (in_status s = RESOLVED)) (RuntimeError "incident is already resolved") ;;
  do* raise_if (empty actor || empty resolution) (ValueError "incident resolution actor and text are required") ;;
  do* raise_if (in_requires_operator_review s && negb operator_confirmed)
        (PermissionError "incident resolution requires operator confirmation") ;;
  incident_advance s RESOLVED "incident.resolved" resolved_at
    (PDict [("actor", PStr actor); ("resolution", PStr resolution); ("operator_confirmed", PBool operator_confirmed)])
    {| ic_acknowledged_at := in_acknowledged_at s; ic_acknowledged_by := in_acknowledged_by s;
       ic_resolved_at := Some resolved_at; ic_resolved_by := Some actor; ic_resolution := Some resolution |}.

(** ** Runs *)

Inductive incident_step : IncidentState -> IncidentState -> Prop :=
| step_acknowledge s actor t s' : acknowledge s actor t = Ok s' -> incident_step s s'
| step_resolve s actor resolution t confirmed s' : resolve s actor resolution t confirmed = Ok s' -> incident_step s s'.

(** What the constructor promises about a state. *)
Record incident_facts (s : IncidentState) : Prop := {
  nf_ids : (in_incident_id s =? 0) = false /\ (in_experiment_id s =? 0) = false;
  nf_names : empty (in_deduplication_key s) = false /\ empty (in_component s) = false /\ empty (in_reason_code s) = false;
  nf_utc : is_utc (in_detected_at s) = true /\ is_utc (in_changed_at s) = true;
  nf_acknowledged : match in_acknowledged_at s, in_acknowledged_by s with
    | None, None => in_status s <> ACKNOWLEDGED
    | Some t, Some _ => is_utc t = true /\ in_status s <> INCIDENT_OPEN
    | _, _ => False
    end;
  nf_resolved : match in_resolved_at s, in_resolved_by s, in_resolution s with
    | None, None, None => in_status s <> RESOLVED
    | Some t, Some by', Some r => is_utc t = true /\ in_status s = RESOLVED /\ empty by' = false /\ empty r = false
    | _, _, _ => False
    end;
  nf_times : instant (in_detected_at s) <= instant (in_changed_at s);
  nf_history : history_ok s;
  nf_evidence : exists items, in_evidence s = JObj items
}.

Definition incident_valid (s : IncidentState) : Prop := IncidentState_post_init s = Ok s.

Lemma incident_post_init_same s s' : IncidentState_post_init s = Ok s' -> s' = s.
Proof.
  unfold IncidentState_post_init, as_mapping. intros H. py_inv. rewrite freeze_thaw in *.
  match goal with H : Ok (in_evidence s) = Ok _ |- _ => injection H as <- end. now destruct s.
Qed.

Lemma incident_facts_valid s : incident_facts s <-> incident_valid s.
Proof.
  unfold incident_valid. split.
  - intros [[F1 F2] (F3 & F4 & F5) [F6 F7] F8 F9 F10 F11 (items & F12)].
    unfold IncidentState_post_init.
    pass; [now rewrite F1, F2|]. pass; [now rewrite F3, F4, F5|]. pass; [now apply _require_utc_Ok|].
    pass; [now apply _require_utc_Ok|].
    pass; [destruct (in_acknowledged_at s), (in_acknowledged_by s); try contradiction; [now apply _require_utc_Ok | reflexivity]|].
    pass; [destruct (in_resolved_at s), (in_resolved_by s), (in_resolution s); try contradiction; [now apply _require_utc_Ok | reflexivity]|].
    pass; [now apply Z.ltb_ge|].
    destruct (in_acknowledged_at s) as [ta|] eqn:Ea, (in_acknowledged_by s) as [ba|] eqn:Eb; try contradiction;
    destruct (in_resolved_at s) as [tr|] eqn:Er, (in_resolved_by s) as [br|] eqn:Es, (in_resolution s) as [rr|] eqn:Et; try contradiction;
      cbn [present negb orb andb Bool.eqb].
    all: pass; [destruct (in_status s); intuition congruence|].
    all: pass; [destruct (in_status s); intuition congruence|].
    all: pass; [destruct (in_status s); intuition congruence|].
    all: pass; [reflexivity|].
    all: pass; [try reflexivity; destruct F9 as (_ & _ & -> & ->); reflexivity|].
    all: pass; [now apply history_check_Ok|].
    all: rewrite freeze_thaw, F12; cbn [bind as_mapping raise_if]; destruct s; cbn in *; now subst.
  - intros H. unfold IncidentState_post_init in H. py_inv.
    repeat match goal with H : _require_utc _ _ = Ok _ |- _ => apply _require_utc_Ok in H end.
    match goal with H : history_check _ = Ok _ |- _ => apply history_check_Ok in H end. bool_prop.
    assert (Eo : forall b, bool_decide (in_status s = b) = true \/ in_status s <> b) by (intros b; destruct (bool_decide_reflect (in_status s = b)); auto).
    split; auto.
    + split; now apply Z.eqb_neq.
    + destruct (in_acknowledged_at s), (in_acknowledged_by s); cbn in *; try discriminate.
      * split; [now apply _require_utc_Ok in H4|]. intros E. now rewrite E in H7.
      * intros E. now rewrite E in H8.
    + destruct (in_resolved_at s), (in_resolved_by s), (in_resolution s); cbn in *; py_inv; try discriminate; bool_prop.
      * split; [now apply _require_utc_Ok in H5|]. split; [|auto]. destruct (in_status s); [|destruct (in_acknowledged_at s)|reflexivity]; cbn in *;
          rewrite ?orb_true_r in *; discriminate.
      * intros E. now rewrite E in H9.
    + now apply Z.ltb_ge.
    + rewrite freeze_thaw in H13. injection H13 as <-. unfold as_mapping in H14. destruct (in_evidence s); try discriminate. eauto.
Qed.

(** Fields that no operation changes. *)
Definition same_incident (a b : IncidentState) : Prop :=
  in_incident_id a = in_incident_id b /\ in_experiment_id a = in_experiment_id b /\
  in_deduplication_key a = in_deduplication_key b /\ in_severity a = in_severity b /\ in_component a = in_component b /\
  in_reason_code a = in_reason_code b /\ in_evidence a = in_evidence b /\
  in_requires_operator_review a = in_requires_operator_review b /\ in_detected_at a = in_detected_at b.

(** The events that a state's fields stand for. *)
Definition trail (s : IncidentState) : list string :=
  "incident.opened" :: (if present (in_acknowledged_at s) then ["incident.acknowledged"] else []) ++
  (if present (in_resolved_at s) then ["incident.resolved"] else []).

(** The payload of the latest event carries the operator's confirmation. *)
Definition confirmed (s : IncidentState) : Prop :=
  exists e items, last (in_events s) = Some e /\ tr_payload e = JObj items /\
    dict_get items "operator_confirmed" = Some (JBool true).

Lemma incident_advance_Ok s status ty t p ch s' : incident_advance s status ty t p ch = Ok s' ->
  exists items, freeze_json p = Ok (JObj items) /\ incident_valid s' /\ same_incident s' s /\ in_status s' = status /\
    in_acknowledged_at s' = ic_acknowledged_at ch /\ in_resolved_at s' = ic_resolved_at ch /\
    in_events s' = in_events s ++ [{| tr_sequence := in_version s + 1; tr_event_type := ty; tr_event_at := t; tr_payload := JObj items |}].
Proof.
  unfold incident_advance, IncidentTransition_post_init. intros H. py_inv.
  match goal with H : Transition_post_init _ _ _ _ = Ok _ |- _ => apply Transition_post_init_same in H as -> end.
  match goal with H : incident_payload _ = Ok _ |- _ => apply object_payload_Ok in H as (Hp & items & ->) end.
  pose proof (incident_post_init_same _ _ H) as ->. exists items. split; [exact Hp|]. split; [exact H|]. repeat split.
Qed.

Lemma incident_advance_total s status ty t p items ch : incident_facts s -> freeze_json p = Ok (JObj items) -> dotted ty = true ->
  is_utc t = true -> instant (in_changed_at s) <= instant t ->
  match ic_acknowledged_at ch, ic_acknowledged_by ch with
  | None, None => status <> ACKNOWLEDGED
  | Some t, Some _ => is_utc t = true /\ status <> INCIDENT_OPEN
  | _, _ => False
  end ->
  match ic_resolved_at ch, ic_resolved_by ch, ic_resolution ch with
  | None, None, None => status <> RESOLVED
  | Some t, Some by', Some r => is_utc t = true /\ status = RESOLVED /\ empty by' = false /\ empty r = false
  | _, _, _ => False
  end -> exists s', incident_advance s status ty t p ch = Ok s'.
Proof.
  intros [F1 F2 [F3 F4] _ _ F5 F6 (ev & F7)] Hp Hty Ut Hle Ha Hr. eexists. unfold incident_advance, IncidentTransition_post_init.
  pass; [now apply _require_utc_Ok|]. pass; [now apply Z.ltb_ge|].
  pass; [unfold incident_payload, object_payload; rewrite Hp; reflexivity|]. cbn beta.
  pass; [apply transition_total; [pose proof (ho_version s F6); cbn in *; lia | exact Hty | exact Ut]|]. cbn beta.
  apply incident_facts_valid. split; cbn; auto; [lia | | eauto].
  eapply (history_append s _ _ F6); try reflexivity. exact Hle.
Qed.

Record incident_inv (s0 s : IncidentState) : Prop := {
  ni_valid : incident_valid s;
  ni_same : same_incident s s0;
  ni_trail : map tr_event_type (in_events s) = trail s;
  ni_confirmed : in_status s = RESOLVED -> in_requires_operator_review s = true -> confirmed s
}.

Lemma open_unacknowledged s : incident_facts s -> in_status s = INCIDENT_OPEN -> in_acknowledged_at s = None.
Proof. intros F E. pose proof (nf_acknowledged s F). destruct (in_acknowledged_at s), (in_acknowledged_by s); intuition congruence. Qed.

Lemma unresolved s : incident_facts s -> in_status s <> RESOLVED ->
  in_resolved_at s = None /\ in_resolved_by s = None /\ in_resolution s = None.
Proof.
  intros F E. pose proof (nf_resolved s F). destruct (in_resolved_at s), (in_resolved_by s), (in_resolution s); intuition congruence.
Qed.

Lemma incident_step_inv s0 s s' : incident_inv s0 s -> incident_step s s' -> incident_inv s0 s'.
Proof.
  intros [V Sm T _] H. apply incident_facts_valid in V as F.
  destruct H as [s actor t s' H|s actor resolution t ok s' H]; [unfold acknowledge in H | unfold resolve in H]; py_inv; bool_prop;
    apply incident_advance_Ok in H as (items & Hp & V' & Sm' & St & A & R & Ev).
  - destruct (unresolved s F ltac:(assumption)) as (Nr & _).
    assert (Na : in_acknowledged_at s = None) by (apply open_unacknowledged; [exact F | destruct (in_status s); congruence]).
    cbn [ic_acknowledged_at ic_resolved_at] in *. split; [exact V' | unfold same_incident in *; intuition congruence | | congruence].
    rewrite Ev, map_app, T. unfold trail. now rewrite A, R, Na, Nr.
  - destruct (unresolved s F ltac:(assumption)) as (Nr & _). cbn [ic_acknowledged_at ic_resolved_at] in *.
    split; [exact V' | unfold same_incident in *; intuition congruence | |].
    + rewrite Ev, map_app, T. unfold trail. rewrite A, R, Nr. cbn [present map tr_event_type app]. now rewrite app_nil_r.
    + intros _ Hrev. assert (Hr : in_requires_operator_review s = true) by (unfold same_incident in Sm'; intuition congruence).
      match goal with H : in_requires_operator_review s && negb ok = false |- _ => rewrite Hr in H; cbn in H; bool_prop end. subst ok.
      cbn in Hp. injection Hp as <-. eexists _, _. rewrite Ev, last_snoc. repeat split.
Qed.

Lemma incident_create_inv id experiment key severity component reason evidence review t0 s0 :
  incident_create id experiment key severity component reason evidence review t0 = Ok s0 -> incident_inv s0 s0.
Proof.
  unfold incident_create, IncidentTransition_post_init. intros H. py_inv.
  match goal with H : Transition_post_init _ _ _ _ = Ok _ |- _ => apply Transition_post_init_same in H as -> end.
  pose proof (incident_post_init_same _ _ H) as ->. split; [exact H | repeat split | reflexivity | discriminate].
Qed.

Lemma incident_create_total id experiment key severity component reason evidence review t :
  id <> 0 -> experiment <> 0 -> empty key = false -> empty component = false -> empty reason = false ->
  freezable (PDict evidence) = true -> is_utc t = true ->
  exists s, incident_create id experiment key severity component reason (PDict evidence) review t = Ok s /\
    in_incident_id s = id /\ in_experiment_id s = experiment /\ in_deduplication_key s = key /\ in_severity s = severity /\
    in_reason_code s = reason /\ in_requires_operator_review s = review /\ in_status s = INCIDENT_OPEN.
Proof.
  intros Hid Hex Hk Hc Hr Hf Ut. destruct (freeze_dict_total _ Hf) as [items Hi].
  destruct (freeze_dict_total [("deduplication_key", PStr key); ("severity", PEnum (enum_value severity)); ("component", PStr component);
     ("reason_code", PStr reason); ("evidence", thaw (JObj items)); ("requires_operator_review", PBool review)]) as [payload Hp].
  { cbn. pose proof (freezable_thaw (JObj items)) as Ft. cbn in Ft. now rewrite Ft. }
  set (event := {| tr_sequence := 1; tr_event_type := "incident.opened"; tr_event_at := t; tr_payload := JObj payload |}).
  set (s := {|
    in_incident_id := id; in_experiment_id := experiment; in_deduplication_key := key; in_severity := severity;
    in_component := component; in_reason_code := reason; in_evidence := JObj items; in_requires_operator_review := review;
    in_status := INCIDENT_OPEN; in_detected_at := t; in_acknowledged_at := None; in_resolved_at := None;
    in_acknowledged_by := None; in_resolved_by := None; in_resolution := None; in_changed_at := t; in_version := 1;
    in_events := [event] |}).
  exists s. split; [|repeat split]. unfold incident_create, IncidentTransition_post_init.
  pass; [now apply _require_utc_Ok|]. pass; [unfold incident_payload, object_payload; rewrite Hi; reflexivity|]. cbn beta.
  pass; [unfold incident_payload, object_payload; rewrite Hp; reflexivity|]. cbn beta.
  pass; [apply transition_total; [lia | reflexivity | exact Ut]|]. apply (incident_facts_valid s). split; cbn; auto; try discriminate; try lia.
  - now apply (history_open s event).
  - eauto.
Qed.

(** ** The properties *)

(** C39: An incident keeps its identity, evidence and review flag for ever; its
    audit trail lists exactly the acknowledgement and the resolution that its
    fields report, in order; one that requires an operator's review is resolved
    only by an event that carries the operator's confirmation; a resolved
    incident never changes, and every other one can be resolved at any later
    time by a confirmed operator. *)
Theorem incident_lifecycle id experiment key severity component reason evidence review t0 s0 s :
  incident_create id experiment key severity component reason evidence review t0 = Ok s0 -> star incident_step s0 s ->
  incident_valid s /\ same_incident s s0 /\ map tr_event_type (in_events s) = trail s /\
  (in_status s = RESOLVED <-> in_resolved_at s <> None) /\
  (in_status s = RESOLVED -> in_requires_operator_review s = true -> confirmed s) /\
  (in_status s = RESOLVED -> forall s', ~ incident_step s s') /\
  (in_status s <> RESOLVED -> forall actor resolution t, empty actor = false -> empty resolution = false -> is_utc t = true ->
     instant (in_changed_at s) <= instant t -> exists s', resolve s actor resolution t true = Ok s' /\ in_status s' = RESOLVED).
Proof.
  intros C R. pose proof (star_invariant incident_step (incident_inv s0) (incident_step_inv s0) _ _ (incident_create_inv _ _ _ _ _ _ _ _ _ _ C) R)
    as [V Sm T Cf]. apply incident_facts_valid in V as F. pose proof F as [_ _ _ Fa Fr Fo Fh _].
  split; [exact V|]. split; [exact Sm|]. split; [exact T|]. split; [|split; [exact Cf|split]].
  - split.
    + intros E N. rewrite N in Fr. destruct (in_resolved_by s), (in_resolution s); intuition congruence.
    + intros N. destruct (in_resolved_at s), (in_resolved_by s), (in_resolution s); intuition congruence.
  - intros E s' St. destruct St as [? ? ? ? H|? ? ? ? ? ? H]; [unfold acknowledge in H | unfold resolve in H]; py_inv; bool_prop; congruence.
  - intros N actor resolution t Ha Hr Ut Hle. eassert (E : resolve s actor resolution t true = _).
    { unfold resolve. pass; [now apply bool_decide_eq_false|]. pass; [now rewrite Ha, Hr|].
      pass; [now rewrite andb_false_r | reflexivity]. }
    rewrite E. edestruct (incident_advance_total s RESOLVED "incident.resolved" t) as [s' Hs'];
      [exact F | | reflexivity | exact Ut | exact Hle | | | exists s'; split; [exact Hs'|]]; [reflexivity | | cbn; auto |].
    + cbn. destruct (in_acknowledged_at s), (in_acknowledged_by s); intuition congruence.
    + apply incident_advance_Ok in Hs' as (? & _ & _ & _ & St & _). exact St.
Qed.

(** An incident found at [t], acknowledged and resolved. *)
Definition sample_incident : result IncidentState :=
  incident_create 11 1 "protective-exit:1" CRITICAL "position_protection" "protective_exit_unfillable"
    (PDict [("reason", PStr "insufficient_visible_depth")]) true (utc 1000).

Lemma incident_lifecycle_witness : exists s0 s1 s2, sample_incident = Ok s0 /\ acknowledge s0 "operator" (utc 2000) = Ok s1 /\
  resolve s1 "operator" "closed by hand" (utc 3000) false = Raise (PermissionError "incident resolution requires operator confirmation") /\
  resolve s1 "operator" "closed by hand" (utc 3000) true = Ok s2 /\ confirmed s2 /\
  map tr_event_type (in_events s2) = ["incident.opened"; "incident.acknowledged"; "incident.resolved"].
Proof.
  destruct sample_incident as [s0|e] eqn:E0; [|vm_compute in E0; discriminate].
  pose proof E0 as C. vm_compute in E0. injection E0 as E0.
  destruct (acknowledge s0 "operator" (utc 2000)) as [s1|e] eqn:E1; [|subst s0; vm_compute in E1; discriminate].
  destruct (resolve s1 "operator" "closed by hand" (utc 3000) true) as [s2|e] eqn:E2;
    [|subst s0; vm_compute in E1; injection E1 as <-; vm_compute in E2; discriminate].
  assert (R : star incident_step s0 s2)
    by (eapply star_step; [exact (step_acknowledge _ _ _ _ E1) | apply star_one; exact (step_resolve _ _ _ _ _ _ E2)]).
  destruct (incident_lifecycle _ _ _ _ _ _ _ _ _ _ _ C R) as (_ & _ & T & _ & Cf & _).
  exists s0, s1, s2. split; [reflexivity|]. split; [exact E1|].
  subst s0. vm_compute in E1. injection E1 as <-. split; [reflexivity|]. split; [exact E2|].
  vm_compute in E2. injection E2 as <-. split; [apply Cf; reflexivity | exact T].
Defined.
