(* ===== verification/Checkpoints.v ===== *)
(** * Worker checkpoints: [maais/orchestration/checkpoints.py]

    The lease of a worker and the checkpoint state machine: a worker starts,
    runs or recovers, stops or halts; an active checkpoint is snapshotted; a
    restart hands the checkpoint to another worker.  Every operation appends to
    the audit trail and runs the constructor's checks again. *)

From Stdlib Require Import ZArith QArith Lia List Bool String Ascii.
From stdpp Require Import base decidable list strings.
From S2P Require Import Prelude PyDecimal DecimalTheory Domain Json MarketEvents EventLog.

Local Open Scope Z_scope.

Inductive WorkerStatus : Type := STARTING | RUNNING | RECOVERING | STOPPING | STOPPED | HALTED.
Inductive WorkerLeaseStatus : Type := LEASE_ACTIVE | LEASE_RELEASED.

#[export] Instance WorkerStatus_eq_dec : EqDecision WorkerStatus.
Proof. solve_decision. Defined.
#[export] Instance WorkerLeaseStatus_eq_dec : EqDecision WorkerLeaseStatus.
Proof. solve_decision. Defined.
#[export] Instance WorkerStatus_value : StrEnum WorkerStatus := fun s =>
  match s with
  | STARTING => "starting" | RUNNING => "running" | RECOVERING => "recovering" | STOPPING => "stopping"
  | STOPPED => "stopped" | HALTED => "halted"
  end.

(** [_require_utc]: one message for every field. *)
Definition checkpoint_utc (t : datetime) : result unit := _require_utc t "checkpoint time".

(** ** Leases *)

Record WorkerLease : Type := {
  wl_experiment_id : UUID;
  wl_worker_id : UUID;
  wl_status : WorkerLeaseStatus;
  wl_acquired_at : datetime;
  wl_heartbeat_at : datetime;
  wl_expires_at : datetime;
  wl_released_at : option datetime;
  wl_epoch : Z
}.

Definition WorkerLease_post_init (l : WorkerLease) : result WorkerLease :=
  do* raise_if ((wl_experiment_id l =? 0) || (wl_worker_id l =? 0)) (ValueError "worker lease UUIDs cannot be nil") ;;
  do* iterM checkpoint_utc [wl_acquired_at l; wl_heartbeat_at l; wl_expires_at l] ;;
  do* opt_check checkpoint_utc (wl_released_at l) ;;
  do* raise_if ((wl_epoch l <=? 0) || dt_ltb (wl_heartbeat_at l) (wl_acquired_at l))
        (ValueError "worker lease epoch or heartbeat is invalid") ;;
  do* (if bool_decide (wl_status l = LEASE_ACTIVE) then
         raise_if (present (wl_released_at l) || dt_leb (wl_expires_at l) (wl_heartbeat_at l))
           (ValueError "active worker lease requires a future expiry")
       else raise_if (match wl_released_at l with None => true | Some t => dt_ltb t (wl_heartbeat_at l) end)
              (ValueError "released worker lease requires an ordered release time")) ;;
  Ok l.

Definition lease_active (l : WorkerLease) : bool := bool_decide (wl_status l = LEASE_ACTIVE).

Definition valid_at (l : WorkerLease) (observed_at : datetime) : result bool :=
  do* checkpoint_utc observed_at ;;
  Ok (lease_active l && dt_ltb observed_at (wl_expires_at l)).

(** ** Checkpoints *)

Definition _ALLOWED_TRANSITIONS (s : WorkerStatus) : list WorkerStatus :=
  match s with
  | STARTING => [RUNNING; HALTED]
  | RUNNING => [RECOVERING; STOPPING; HALTED]
  | RECOVERING => [RUNNING; STOPPING; HALTED]
  | STOPPING => [STOPPED; HALTED]
  | STOPPED => []
  | HALTED => []
  end.

Record WorkerCheckpoint : Type := {
  wc_experiment_id : UUID;
  wc_worker_id : UUID;
  wc_status : WorkerStatus;
  wc_state : json;
  wc_checkpoint_at : datetime;
  wc_version : Z;
  wc_events : list Transition
}.

#[export] Instance WorkerCheckpoint_journal : Journal WorkerCheckpoint := {
  journal_owner := "checkpoint"; journal_opening := "worker_checkpoint.starting"; journal_clock := "checkpoint time";
  journal_version := wc_version; journal_time := wc_checkpoint_at; journal_events := wc_events }.

Definition checkpoint_payload : pyval -> result json := object_payload "checkpoint state".

Definition CheckpointTransition_post_init : Transition -> result Transition :=
  Transition_post_init "checkpoint" "checkpoint time" "checkpoint state".

Definition WorkerCheckpoint_post_init (c : WorkerCheckpoint) : result WorkerCheckpoint :=
  do* raise_if ((wc_experiment_id c =? 0) || (wc_worker_id c =? 0)) (ValueError "checkpoint UUIDs cannot be nil") ;;
  do* checkpoint_utc (wc_checkpoint_at c) ;;
  do* raise_if (wc_version c <=? 0) (ValueError "checkpoint version must be positive") ;;
  let* normalized := checkpoint_payload (thaw (wc_state c)) in
  do* history_check c ;;
  Ok {| wc_experiment_id := wc_experiment_id c; wc_worker_id := wc_worker_id c; wc_status := wc_status c;
        wc_state := normalized; wc_checkpoint_at := wc_checkpoint_at c; wc_version := wc_version c; wc_events := wc_events c |}.

Definition checkpoint_create (experiment_id worker_id : UUID) (checkpoint_at : datetime) (state : pyval) : result WorkerCheckpoint :=
  let* normalized := checkpoint_payload state in
  let* event := CheckpointTransition_post_init
    {| tr_sequence := 1; tr_event_type := "worker_checkpoint.starting"; tr_event_at := checkpoint_at; tr_payload := normalized |} in
  WorkerCheckpoint_post_init {|
    wc_experiment_id := experiment_id; wc_worker_id := worker_id; wc_status := STARTING; wc_state := normalized;
    wc_checkpoint_at := checkpoint_at; wc_version := 1; wc_events := [event] |}.

(** [CheckpointTransition(sequence=self.version + 1, ...)] and [replace(self, ...)]. *)
Definition checkpoint_replace (c : WorkerCheckpoint) (worker_id : UUID) (status : WorkerStatus) (event_type : string)
    (checkpoint_at : datetime) (normalized event_payload : json) : result WorkerCheckpoint :=
  let* event := CheckpointTransition_post_init
    {| tr_sequence := wc_version c + 1; tr_event_type := event_type; tr_event_at := checkpoint_at; tr_payload := event_payload |} in
  WorkerCheckpoint_post_init {|
    wc_experiment_id := wc_experiment_id c; wc_worker_id := worker_id; wc_status := status; wc_state := normalized;
    wc_checkpoint_at := checkpoint_at; wc_version := wc_version c + 1; wc_events := wc_events c ++ [event] |}.

Definition transition (c : WorkerCheckpoint) (status : WorkerStatus) (checkpoint_at : datetime) (state : pyval) : result WorkerCheckpoint :=
  do* raise_if (match _ALLOWED_TRANSITIONS (wc_status c) with [] => true | _ => false end)
        (RuntimeError "worker checkpoint is terminal") ;;
  do* raise_if (negb (bool_decide (status ∈ _ALLOWED_TRANSITIONS (wc_status c))))
        (RuntimeError ("illegal worker transition: " +:+ enum_value (wc_status c) +:+ " -> " +:+ enum_value status)) ;;
  do* checkpoint_utc checkpoint_at ;;
  do* raise_if (dt_ltb checkpoint_at (wc_checkpoint_at c)) (ValueError "checkpoint time cannot regress") ;;
  let* normalized := checkpoint_payload state in
  checkpoint_replace c (wc_worker_id c) status ("worker_checkpoint." +:+ enum_value status) checkpoint_at normalized normalized.

Definition snapshot (c : WorkerCheckpoint) (checkpoint_at : datetime) (state : pyval) : result WorkerCheckpoint :=
  do* raise_if (bool_decide (wc_status c ∈ [STOPPED; HALTED])) (RuntimeError "worker checkpoint is terminal") ;;
  do* raise_if (negb (bool_decide (wc_status c ∈ [RUNNING; RECOVERING])))
        (RuntimeError "only an active worker checkpoint can be snapshotted") ;;
  do* checkpoint_utc checkpoint_at ;;
  do* raise_if (dt_leb checkpoint_at (wc_checkpoint_at c)) (ValueError "checkpoint snapshot time must advance") ;;
  let* normalized := checkpoint_payload state in
  checkpoint_replace c (wc_worker_id c) (wc_status c) "worker_checkpoint.snapshotted" checkpoint_at normalized normalized.

(** [{**normalized, "previous_worker_id": ..., "previous_status": ...}]. *)
Definition with_previous (c : WorkerCheckpoint) (normalized : json) : json :=
  match normalized with
  | JObj items => JObj (dict_set (dict_set items "previous_worker_id" (JStr (uuid_str (wc_worker_id c))))
                          "previous_status" (JStr (enum_value (wc_status c))))
  | _ => normalized
  end.

Definition restart (c : WorkerCheckpoint) (worker_id : UUID) (checkpoint_at : datetime) (state : pyval) : result WorkerCheckpoint :=
  do* raise_if ((worker_id =? 0) || (worker_id =? wc_worker_id c))
        (ValueError "checkpoint restart requires a different non-nil worker") ;;
  do* checkpoint_utc checkpoint_at ;;
  do* raise_if (dt_ltb checkpoint_at (wc_checkpoint_at c)) (ValueError "checkpoint time cannot regress") ;;
  let* normalized := checkpoint_payload state in
  checkpoint_replace c worker_id STARTING "worker_checkpoint.starting" checkpoint_at normalized (with_previous c normalized).

(** ** Runs *)

Inductive checkpoint_step : WorkerCheckpoint -> WorkerCheckpoint -> Prop :=
| step_transition c status t state c' : transition c status t state = Ok c' -> checkpoint_step c c'
| step_snapshot c t state c' : snapshot c t state = Ok c' -> checkpoint_step c c'
| step_restart c worker t state c' : restart c worker t state = Ok c' -> checkpoint_step c c'.

(** The contract, in its own words: a worker that has started runs, may recover
    and run again, stops from either through [STOPPING], and may halt until its
    end; while it is active it may report without moving; and at any time
    another worker may take over, from the start. *)
Inductive contract_step : UUID * WorkerStatus -> UUID * WorkerStatus -> Prop :=
| contract_run w : contract_step (w, STARTING) (w, RUNNING)
| contract_degrade w : contract_step (w, RUNNING) (w, RECOVERING)
| contract_recover w : contract_step (w, RECOVERING) (w, RUNNING)
| contract_stop w s : s = RUNNING \/ s = RECOVERING -> contract_step (w, s) (w, STOPPING)
| contract_finish w : contract_step (w, STOPPING) (w, STOPPED)
| contract_halt w s : s <> STOPPED -> s <> HALTED -> contract_step (w, s) (w, HALTED)
| contract_stay w s : s = RUNNING \/ s = RECOVERING -> contract_step (w, s) (w, s)
| contract_takeover w s w' : w' <> w -> contract_step (w, s) (w', STARTING).

(** The table of the code allows the moves of the contract and no others. *)
Lemma contract_move w s s' : s' <> s -> contract_step (w, s) (w, s') <-> s' ∈ _ALLOWED_TRANSITIONS s.
Proof.
  intros Hne. split.
  - intros H. inversion H; subst; try congruence; try (destruct s; cbn; in_list).
    all: match goal with E : _ \/ _ |- _ => destruct E as [->| ->]; cbn; in_list | _ => cbn; in_list end.
  - intros H. destruct s; cbn in H; rewrite ?elem_of_cons, ?elem_of_nil in H;
      repeat destruct H as [->|H]; try contradiction; constructor; auto; discriminate.
Qed.

Definition owner (c : WorkerCheckpoint) : UUID * WorkerStatus := (wc_worker_id c, wc_status c).

(** The status that an audit trail stands for: the last status event. *)
Definition status_of_event (ty : string) : option WorkerStatus :=
  find (fun s => bool_decide (ty = "worker_checkpoint." +:+ enum_value s)) [STARTING; RUNNING; RECOVERING; STOPPING; STOPPED; HALTED].
Definition replay (l : list Transition) : option WorkerStatus :=
  fold_left (fun acc t => match status_of_event (tr_event_type t) with Some s => Some s | None => acc end) l None.

Record checkpoint_facts (c : WorkerCheckpoint) : Prop := {
  kf_ids : (wc_experiment_id c =? 0) = false /\ (wc_worker_id c =? 0) = false;
  kf_utc : is_utc (wc_checkpoint_at c) = true;
  kf_state : exists items, wc_state c = JObj items;
  kf_history : history_ok c
}.

Definition checkpoint_valid (c : WorkerCheckpoint) : Prop := WorkerCheckpoint_post_init c = Ok c.

Lemma checkpoint_post_init_same c c' : WorkerCheckpoint_post_init c = Ok c' -> c' = c.
Proof.
  unfold WorkerCheckpoint_post_init, checkpoint_payload. intros H. py_inv.
  match goal with H : object_payload _ _ = Ok _ |- _ => apply object_payload_Ok in H as [H _]; rewrite freeze_thaw in H; injection H as <- end.
  now destruct c.
Qed.

Lemma checkpoint_facts_valid c : checkpoint_facts c <-> checkpoint_valid c.
Proof.
  unfold checkpoint_valid, WorkerCheckpoint_post_init, checkpoint_payload, checkpoint_utc. split.
  - intros [[F1 F2] F3 (items & F4) F5]. pass; [now rewrite F1, F2|]. pass; [now apply _require_utc_Ok|].
    pass; [apply Z.leb_gt; exact (ho_version c F5)|].
    pass; [unfold object_payload; rewrite freeze_thaw, F4; reflexivity|]. cbn beta. pass; [now apply history_check_Ok|].
    destruct c; cbn in *; now subst.
  - intros H. py_inv. bool_prop.
    match goal with H : _require_utc _ _ = Ok _ |- _ => apply _require_utc_Ok in H end.
    match goal with H : history_check _ = Ok _ |- _ => apply history_check_Ok in H end.
    match goal with H : object_payload _ _ = Ok _ |- _ => apply object_payload_Ok in H as (E & items & ->); rewrite freeze_thaw in E; injection E as E end.
    split; eauto. split; now apply Z.eqb_neq.
Qed.

Lemma checkpoint_replace_Ok c w status ty t st p c' : checkpoint_replace c w status ty t st p = Ok c' ->
  checkpoint_valid c' /\ wc_experiment_id c' = wc_experiment_id c /\ owner c' = (w, status) /\ wc_checkpoint_at c' = t /\
  wc_state c' = st /\
  wc_events c' = wc_events c ++ [{| tr_sequence := wc_version c + 1; tr_event_type := ty; tr_event_at := t; tr_payload := p |}].
Proof.
  unfold checkpoint_replace, CheckpointTransition_post_init. intros H. py_inv.
  match goal with H : Transition_post_init _ _ _ _ = Ok _ |- _ => apply Transition_post_init_same in H as -> end.
  pose proof (checkpoint_post_init_same _ _ H) as ->. repeat split; exact H.
Qed.

Lemma checkpoint_replace_total c w status ty t items items' : checkpoint_facts c -> (w =? 0) = false -> dotted ty = true ->
  is_utc t = true -> instant (wc_checkpoint_at c) <= instant t ->
  exists c', checkpoint_replace c w status ty t (JObj items) (JObj items') = Ok c'.
Proof.
  intros [[F1 F2] F3 _ F5] Hw Hty Ut Hle. eexists. unfold checkpoint_replace, CheckpointTransition_post_init.
  pose proof (ho_version c F5) as Hv. cbn in Hv.
  pass; [apply transition_total; [lia | exact Hty | exact Ut]|]. cbn beta. apply checkpoint_facts_valid. split; cbn; eauto.
  eapply (history_append c _ _ F5); try reflexivity. exact Hle.
Qed.

Lemma replay_snoc l t : replay (l ++ [t]) = match status_of_event (tr_event_type t) with Some s => Some s | None => replay l end.
Proof. unfold replay. now rewrite fold_left_app. Qed.

Lemma status_of_status s : status_of_event ("worker_checkpoint." +:+ enum_value s) = Some s.
Proof. destruct s; vm_compute; reflexivity. Qed.

(** What each operation does. *)
Lemma checkpoint_step_spec c c' : checkpoint_step c c' ->
  checkpoint_valid c' /\ wc_experiment_id c' = wc_experiment_id c /\ contract_step (owner c) (owner c') /\
  instant (wc_checkpoint_at c) <= instant (wc_checkpoint_at c') /\
  exists t, wc_events c' = wc_events c ++ [t] /\
    (status_of_event (tr_event_type t) = Some (wc_status c') \/
     status_of_event (tr_event_type t) = None /\ wc_status c' = wc_status c).
Proof.
  destruct 1 as [c status t state c' H|c t state c' H|c worker t state c' H];
    [unfold transition in H | unfold snapshot in H | unfold restart in H]; py_inv; bool_prop;
    apply checkpoint_replace_Ok in H as (V & Ex & Ow & At & _ & Ev); rewrite Ow, At; (split; [exact V|]); (split; [exact Ex|]);
    pose proof (f_equal snd Ow) as Es; cbn in Es;
    unfold dt_ltb, dt_leb in *; bool_prop.
  - split; [apply contract_move; [intros -> | assumption]; destruct (wc_status c); cbn in *; in_list|].
    split; [assumption|]. eexists. split; [exact Ev|]. left. cbn [tr_event_type]. rewrite Es. apply status_of_status.
  - split; [apply contract_stay; rewrite !elem_of_cons, elem_of_nil in *; tauto|]. split; [lia|]. eexists. split; [exact Ev|]. right. split; [reflexivity | exact Es].
  - split; [now constructor|]. split; [assumption|]. eexists. split; [exact Ev|]. left. rewrite Es. reflexivity.
Qed.

Record checkpoint_inv (c0 c : WorkerCheckpoint) : Prop := {
  ki_valid : checkpoint_valid c;
  ki_experiment : wc_experiment_id c = wc_experiment_id c0;
  ki_replay : replay (wc_events c) = Some (wc_status c);
  ki_contract : star contract_step (owner c0) (owner c);
  ki_extends : history_extends c0 c
}.

Lemma checkpoint_step_inv c0 c c' : checkpoint_inv c0 c -> checkpoint_step c c' -> checkpoint_inv c0 c'.
Proof.
  intros [V E R C X] St. apply checkpoint_step_spec in St as (V' & E' & C' & _ & t & Ev & Hs). split.
  - exact V'.
  - congruence.
  - rewrite Ev, replay_snoc. destruct Hs as [->|[-> ->]]; [reflexivity | exact R].
  - exact (star_trans _ _ _ _ C (star_one _ _ _ C')).
  - apply (history_extends_trans _ _ _ X). exists [t]. exact Ev.
Qed.

Lemma checkpoint_create_inv e w t state c : checkpoint_create e w t state = Ok c -> checkpoint_inv c c /\ owner c = (w, STARTING).
Proof.
  unfold checkpoint_create, CheckpointTransition_post_init. intros H. py_inv.
  match goal with H : Transition_post_init _ _ _ _ = Ok _ |- _ => apply Transition_post_init_same in H as -> end.
  pose proof (checkpoint_post_init_same _ _ H) as ->. split; [|reflexivity].
  split; [exact H | reflexivity | reflexivity | apply star_refl | apply history_extends_refl].
Qed.

Lemma contract_terminal a b : contract_step a b -> snd a ∈ [STOPPED; HALTED] -> fst b <> fst a.
Proof.
  destruct 1; cbn; intros T; try assumption; exfalso;
    try match goal with E : _ \/ _ |- _ => destruct E as [->| ->] end; try (rewrite !elem_of_cons, elem_of_nil in T; intuition congruence).
Qed.

(** ** The properties *)


(** A worker that starts, runs, halts and is replaced. *)
Definition sample_state : pyval := PDict [("phase", PStr "warmup")].

