(* ===== verification/Protection.v ===== *)
(** * Position protection: [maais/orchestration/protection.py]

    The service that marks an open position, asks its exit plan what the mark
    means and executes the protective exit through the paper broker.  A mark
    ends in one of three outcomes: marked, exited, or halted with a critical
    incident; the constructor of the outcome checks that it fits.  The service
    also applies a venue's funding settlements.

    [uuid5] of the URL name space and the broker's digest are parameters. *)

From Stdlib Require Import ZArith QArith Qabs Lia Lqa List Bool String Ascii.
From stdpp Require Import base decidable list strings.
From S2P Require Import Prelude PyDecimal DecimalTheory Domain Json Market Filters Fills Orders Positions Account Exits Records Broker MarketEvents EventLog Incidents.

Local Open Scope Z_scope.

Inductive ProtectionDisposition : Type := MARKED | EXITED | PROTECTION_HALTED.

#[export] Instance ProtectionDisposition_eq_dec : EqDecision ProtectionDisposition.
Proof. solve_decision. Defined.

(** ** [==] on the compared dataclasses

    Decimals compare by value, datetimes by instant, mappings by their keys. *)

Definition opt_eqb {A} (eqb : A -> A -> bool) (a b : option A) : bool :=
  match a, b with Some x, Some y => eqb x y | None, None => true | _, _ => false end.

Definition dict_eqb {V} (eqb : V -> V -> bool) (a b : pydict V) : bool :=
  (length a =? length b)%nat &&
  forallb (fun kv => match dict_get b (fst kv) with Some v => eqb (snd kv) v | None => false end) a.

Definition lot_eqb (a b : PositionLot) : bool :=
  (lot_id a =? lot_id b) && (lot_opening_fill_id a =? lot_opening_fill_id b) && dt_eqb (lot_opened_at a) (lot_opened_at b) &&
  (lot_entry_price a =? lot_entry_price b)%dec && (lot_original_quantity a =? lot_original_quantity b)%dec &&
  (lot_remaining_quantity a =? lot_remaining_quantity b)%dec && (lot_opening_fee a =? lot_opening_fee b)%dec &&
  (lot_remaining_opening_fee a =? lot_remaining_opening_fee b)%dec && (lot_funding a =? lot_funding b)%dec.

Definition position_eqb (a b : PositionState) : bool :=
  (ps_position_id a =? ps_position_id b) && (ps_experiment_id a =? ps_experiment_id b) &&
  bool_decide (ps_symbol a = ps_symbol b) && bool_decide (ps_side a = ps_side b) &&
  (ps_mark_price a =? ps_mark_price b)%dec && (ps_average_entry a =? ps_average_entry b)%dec &&
  (ps_realized_pnl a =? ps_realized_pnl b)%dec && (ps_fees a =? ps_fees b)%dec && (ps_funding a =? ps_funding b)%dec &&
  list_eqb lot_eqb (ps_lots a) (ps_lots b) && opt_eqb dt_eqb (ps_opened_at a) (ps_opened_at b) &&
  opt_eqb dt_eqb (ps_closed_at a) (ps_closed_at b) && (ps_version a =? ps_version b).

Definition account_eqb (a b : AccountState) : bool :=
  (ac_experiment_id a =? ac_experiment_id b) && (ac_initial_capital a =? ac_initial_capital b)%dec &&
  bool_decide (ac_currency a = ac_currency b) && (ac_leverage a =? ac_leverage b) &&
  (ac_cash_balance a =? ac_cash_balance b)%dec && (ac_peak_equity a =? ac_peak_equity b)%dec &&
  dict_eqb position_eqb (ac_positions a) (ac_positions b) && (ac_version a =? ac_version b) &&
  opt_eqb dt_eqb (ac_updated_at a) (ac_updated_at b).

Definition plan_eqb (a b : ExitPlan) : bool :=
  (ep_plan_id a =? ep_plan_id b) && (ep_position_id a =? ep_position_id b) && bool_decide (ep_side a = ep_side b) &&
  (ep_quantity a =? ep_quantity b)%dec && (ep_average_entry a =? ep_average_entry b)%dec &&
  (ep_expected_loss_fraction a =? ep_expected_loss_fraction b)%dec &&
  (ep_expected_gain_fraction a =? ep_expected_gain_fraction b)%dec && (ep_stop_price a =? ep_stop_price b)%dec &&
  (ep_target_price a =? ep_target_price b)%dec && (ep_maximum_bars a =? ep_maximum_bars b) &&
  (ep_bars_elapsed a =? ep_bars_elapsed b) && (ep_opposite_signal_streak a =? ep_opposite_signal_streak b) &&
  bool_decide (ep_status a = ep_status b) && dt_eqb (ep_created_at a) (ep_created_at b) &&
  dt_eqb (ep_changed_at a) (ep_changed_at b) && (ep_version a =? ep_version b) &&
  bool_decide (ep_trigger_reason a = ep_trigger_reason b) && opt_eqb dt_eqb (ep_triggered_at a) (ep_triggered_at b) &&
  opt_eqb deqb (ep_trigger_price a) (ep_trigger_price b) &&
  opt_eqb deqb (ep_trigger_executable_price a) (ep_trigger_executable_price b).

(** ** Context and outcome *)

Record ProtectionContext : Type := {
  pc_experiment_id : UUID;
  pc_entry_proposal_id : UUID;
  pc_symbol : string;
  pc_account : AccountState;
  pc_exit_plan : ExitPlan;
  pc_exchange_filters : ExchangeFilterSnapshot;
  pc_books : list BookSnapshot;
  pc_execution_latency : timedelta;
  pc_order_ttl : timedelta;
  pc_taker_fee_rate : dec;
  pc_entry_admission_halted : bool
}.

(** [sorted(books, key=lambda item: (item.observed_at, item.sequence))], stable. *)
Definition book_key (b : BookSnapshot) : Z * Z := (instant (bk_observed_at b), bk_sequence b).
Fixpoint insert_book (b : BookSnapshot) (l : list BookSnapshot) : list BookSnapshot :=
  match l with
  | [] => [b]
  | x :: l' => if key_ltb (book_key x) (book_key b) then x :: insert_book b l' else b :: l
  end.
Definition sort_books (l : list BookSnapshot) : list BookSnapshot := fold_right insert_book [] l.

Definition ProtectionContext_post_init (c : ProtectionContext) : result ProtectionContext :=
  do* raise_if ((pc_experiment_id c =? 0) || (pc_entry_proposal_id c =? 0)) (ValueError "protection identities cannot be nil") ;;
  do* raise_if (negb (ac_experiment_id (pc_account c) =? pc_experiment_id c))
        (ValueError "protection account and experiment differ") ;;
  do* raise_if (negb (bool_decide (ef_symbol (pc_exchange_filters c) = pc_symbol c)))
        (ValueError "protection filter and symbol differ") ;;
  let* position := ac_position (pc_account c) (pc_symbol c) in
  do* raise_if (is_flat position || negb (ps_position_id position =? ep_position_id (pc_exit_plan c)))
        (ValueError "protection requires the matching non-flat position") ;;
  do* raise_if (negb (bool_decide (ep_status (pc_exit_plan c) ∈ [EP_ACTIVE; EP_TRIGGERED])))
        (ValueError "protection requires an active or triggered exit plan") ;;
  do* raise_if ((pc_execution_latency c <=? 0) || (pc_order_ttl c <=? 0))
        (ValueError "protection latency and order TTL must be positive") ;;
  do* raise_if (negb ((dzero <=? pc_taker_fee_rate c)%dec && (pc_taker_fee_rate c <=? done)%dec))
        (ValueError "protection taker fee must be a finite Decimal in [0, 1]") ;;
  Ok {| pc_experiment_id := pc_experiment_id c; pc_entry_proposal_id := pc_entry_proposal_id c; pc_symbol := pc_symbol c;
        pc_account := pc_account c; pc_exit_plan := pc_exit_plan c; pc_exchange_filters := pc_exchange_filters c;
        pc_books := sort_books (pc_books c); pc_execution_latency := pc_execution_latency c;
        pc_order_ttl := pc_order_ttl c; pc_taker_fee_rate := pc_taker_fee_rate c;
        pc_entry_admission_halted := pc_entry_admission_halted c |}.

Record ProtectionOutcome : Type := {
  oc_disposition : ProtectionDisposition;
  oc_market_event_id : string;
  oc_account : AccountState;
  oc_exit_plan : ExitPlan;
  oc_execution : option PaperExecutionRecord;
  oc_incident : option IncidentState;
  oc_requires_persistent_halt : bool
}.

Definition ProtectionOutcome_post_init (o : ProtectionOutcome) : result ProtectionOutcome :=
  do* raise_if (empty (oc_market_event_id o)) (ValueError "protection outcome requires a market event") ;;
  do* raise_if (bool_decide (oc_disposition o = MARKED) &&
                (present (oc_execution o) || present (oc_incident o) || oc_requires_persistent_halt o ||
                 negb (bool_decide (ep_status (oc_exit_plan o) = EP_ACTIVE))))
        (ValueError "marked outcome shape is invalid") ;;
  do* raise_if (bool_decide (oc_disposition o = EXITED) &&
                (negb (present (oc_execution o)) || present (oc_incident o) || oc_requires_persistent_halt o ||
                 negb (bool_decide (ep_status (oc_exit_plan o) = EP_CLOSED))))
        (ValueError "exited outcome shape is invalid") ;;
  do* raise_if (bool_decide (oc_disposition o = PROTECTION_HALTED) &&
                (present (oc_execution o) || negb (present (oc_incident o)) || negb (oc_requires_persistent_halt o) ||
                 negb (bool_decide (ep_status (oc_exit_plan o) = EP_TRIGGERED))))
        (ValueError "halted protection outcome shape is invalid") ;;
  let* report := reconcile (oc_account o) in
  do* raise_if (negb (report_ok report)) (ValueError "protection account does not reconcile") ;;
  do* raise_if (match oc_execution o with
                | Some r => negb (opt_eqb account_eqb (pe_account r) (Some (oc_account o))) ||
                            negb (opt_eqb plan_eqb (pe_exit_plan r) (Some (oc_exit_plan o)))
                | None => false
                end) (ValueError "protection execution differs from official account or exit plan") ;;
  do* raise_if (match oc_incident o with
                | Some i => negb (in_experiment_id i =? ac_experiment_id (oc_account o))
                | None => false
                end) (ValueError "protection incident and account experiment differ") ;;
  Ok o.

(** ** Funding settlements *)

Record FundingSettlementCommand : Type := {
  fc_experiment_id : UUID;
  fc_symbol : string;
  fc_market_event_id : string;
  fc_funding_at : datetime;
  fc_observed_at : datetime;
  fc_mark_price : dec;
  fc_rate : dec;
  fc_rate_type : string;
  fc_account : AccountState
}.

Definition FundingSettlementCommand_post_init (c : FundingSettlementCommand) : result FundingSettlementCommand :=
  do* raise_if ((fc_experiment_id c =? 0) || empty (fc_symbol c) || empty (fc_market_event_id c))
        (ValueError "funding settlement identity is required") ;;
  do* raise_if (negb (ac_experiment_id (fc_account c) =? fc_experiment_id c))
        (ValueError "funding account and experiment differ") ;;
  do* require_utc (fc_funding_at c) "funding_at" ;;
  do* require_utc (fc_observed_at c) "observed_at" ;;
  do* raise_if (dt_ltb (fc_observed_at c) (fc_funding_at c)) (ValueError "funding cannot be observed before venue settlement") ;;
  do* raise_if (match ac_updated_at (fc_account c) with Some t => dt_ltb (fc_observed_at c) t | None => false end)
        (ValueError "funding settlement would regress official account time") ;;
  do* require_positive_decimal (fc_mark_price c) "funding mark_price" ;;
  do* raise_if (negb (bool_decide (fc_rate_type c ∈ ["Regular"; "Special"])))
        (ValueError "funding rate_type must be Regular or Special") ;;
  let* position := ac_position (fc_account c) (fc_symbol c) in
  do* raise_if (is_flat position) (ValueError "funding settlement requires an open position") ;;
  do* raise_if (match ps_opened_at position with None => true | Some t => dt_ltb (fc_funding_at c) t end)
        (ValueError "funding settlement predates the open position") ;;
  Ok c.

Record FundingApplicationOutcome : Type := {
  fo_record : FundingRecord; fo_account : AccountState; fo_observed_at : datetime; fo_rate_type : string
}.

Definition FundingApplicationOutcome_post_init (o : FundingApplicationOutcome) : result FundingApplicationOutcome :=
  do* require_utc (fo_observed_at o) "observed_at" ;;
  do* raise_if (negb (dt_eqb (fr_observed_at (fo_record o)) (fo_observed_at o)))
        (ValueError "funding outcome and record observation times differ") ;;
  do* raise_if (negb (bool_decide (fr_rate_type (fo_record o) = fo_rate_type o)))
        (ValueError "funding outcome and record rate types differ") ;;
  do* raise_if (negb (fr_experiment_id (fo_record o) =? ac_experiment_id (fo_account o)))
        (ValueError "funding outcome account and record experiment differ") ;;
  let* report := reconcile (fo_account o) in
  do* raise_if (negb (report_ok report)) (ValueError "funding outcome account does not reconcile") ;;
  Ok o.

(** ** The service *)

Definition int_str (n : Z) : string := string_of_list_ascii (int_chars n).

(** [isinstance(event.payload, MarkFundingPayload)] of a mark/funding event. *)
Definition mark_of (e : ObservedMarketEvent) : option MarkFundingPayload :=
  match ev_kind e, ev_payload e with MARK_FUNDING, MarkPayload p => Some p | _, _ => None end.

(** The books are in order, so [eligible[-1]] is the latest one. *)
Definition _trigger_executable_price (e : ObservedMarketEvent) (mark : MarkFundingPayload) (c : ProtectionContext) : result dec :=
  match last (List.filter (fun b => bool_decide (bk_symbol b = pc_symbol c) && dt_leb (bk_observed_at b) (ev_observed_at e)) (pc_books c)) with
  | None => Ok (mf_mark_price mark)
  | Some book =>
      let* position := ac_position (pc_account c) (pc_symbol c) in
      Ok (if bool_decide (ps_side position = LONG) then best_bid book else best_ask book)
  end.

Section Service.
Context (sha256_hex : string -> string) (uuid5 : string -> UUID) (max_book_age : timedelta).

(** [_id(namespace, *parts)] on the text of the parts. *)
Definition _id (namespace : string) (parts : list string) : UUID :=
  uuid5 ("maais://" +:+ namespace +:+ "/" +:+ String.concat "/" parts).

Definition deduplication_key (c : ProtectionContext) (e : ObservedMarketEvent) (reason_code : string) : string :=
  "protective-exit:" +:+ uuid_str (pc_experiment_id c) +:+ ":" +:+ uuid_str (ep_plan_id (pc_exit_plan c)) +:+ ":" +:+
  ev_event_id e +:+ ":" +:+ reason_code.

Definition _incident (c : ProtectionContext) (e : ObservedMarketEvent) (reason_code : string) (evidence : list (string * pyval))
  : result IncidentState :=
  let key := deduplication_key c e reason_code in
  incident_create (_id "incident" [key]) (pc_experiment_id c) key CRITICAL "position_protection" reason_code
    (PDict (dict_set (dict_set evidence "mark_event" (event_to_dict e)) "entry_admission_halted"
       (PBool (pc_entry_admission_halted c)))) true (ev_observed_at e).

Definition exit_command (c : ProtectionContext) (e : ObservedMarketEvent) (plan : ExitPlan) (intent : ExitIntent) (price : dec)
  : MarketExitCommand := {|
  xc_order_id := _id "protective-order" [uuid_str (pc_experiment_id c); uuid_str (ep_plan_id plan); ev_event_id e];
  xc_fill_id := _id "protective-fill" [uuid_str (pc_experiment_id c); uuid_str (ep_plan_id plan); ev_event_id e];
  xc_experiment_id := pc_experiment_id c; xc_proposal_id := pc_entry_proposal_id c;
  xc_client_order_id := "paper-protect-" +:+ uuid_str (ep_plan_id plan) +:+ "-" +:+ int_str (ep_version plan);
  xc_symbol := pc_symbol c; xc_decision_executable_price := price; xc_execution_latency := pc_execution_latency c;
  xc_created_at := ev_observed_at e; xc_expires_at := dt_add (ev_observed_at e) (pc_order_ttl c);
  xc_taker_fee_rate := pc_taker_fee_rate c; xc_intent := intent; xc_exchange_filters := pc_exchange_filters c |}.

(** The items of a frozen mapping, as [dict(frozen)] has them. *)
Definition items_of (j : json) : list (string * pyval) :=
  match j with JObj items => map (fun kv => (fst kv, thaw (snd kv))) items | _ => [] end.

Definition halted_outcome (c : ProtectionContext) (e : ObservedMarketEvent) (marked : AccountState) (plan : ExitPlan)
    (reason_code : string) (evidence : list (string * pyval)) : result ProtectionOutcome :=
  let* incident := _incident c e reason_code evidence in
  ProtectionOutcome_post_init {|
    oc_disposition := PROTECTION_HALTED; oc_market_event_id := ev_event_id e; oc_account := marked; oc_exit_plan := plan;
    oc_execution := None; oc_incident := Some incident; oc_requires_persistent_halt := true |}.

(** The plan and its intent after the mark. *)
Definition marked_plan (e : ObservedMarketEvent) (mark : MarkFundingPayload) (c : ProtectionContext)
  : result (ExitPlan * option ExitIntent) :=
  if bool_decide (ep_status (pc_exit_plan c) = EP_TRIGGERED) then
    let* intent := pending_intent (pc_exit_plan c) in Ok (pc_exit_plan c, Some intent)
  else
    let* executable := _trigger_executable_price e mark c in
    let* evaluation := evaluate_mark (pc_exit_plan c) (mf_mark_price mark) (ev_observed_at e) (Some executable) in
    Ok (ee_plan evaluation, ee_intent evaluation).

(** The [try] around the broker with its two handlers. *)
Definition protective_exit (e : ObservedMarketEvent) (c : ProtectionContext) (marked : AccountState) (plan : ExitPlan)
    (command : MarketExitCommand) : result ProtectionOutcome :=
  match execute_market_exit sha256_hex max_book_age command marked plan (pc_books c) with
  | Raise (Halt h) =>
      let* payload := event_payload h in
      halted_outcome c e marked plan "protective_exit_unfillable" (items_of payload)
  | Raise (Plain exc) =>
      halted_outcome c e marked plan "protective_exit_execution_failed"
        [("reason", PStr (error_text exc)); ("error_type", PStr (error_type exc)); ("position_id", PUuid (ep_position_id plan));
         ("exit_plan_id", PUuid (ep_plan_id plan)); ("requires_operator_review", PBool true)]
  | Ok res =>
      match pe_account (br_record res), pe_exit_plan (br_record res) with
      | Some account, Some closed =>
          ProtectionOutcome_post_init {|
            oc_disposition := EXITED; oc_market_event_id := ev_event_id e; oc_account := account; oc_exit_plan := closed;
            oc_execution := Some (br_record res); oc_incident := None; oc_requires_persistent_halt := false |}
      | _, _ => Raise (RuntimeError "protective exit did not produce account and exit state")
      end
  end.

Definition protect_mark (e : ObservedMarketEvent) (c : ProtectionContext) : result ProtectionOutcome :=
  let* mark := of_option (ValueError "position protection requires a mark/funding event") (mark_of e) in
  do* raise_if (negb (bool_decide (ev_symbol e = pc_symbol c))) (ValueError "protection event and context symbol differ") ;;
  do* raise_if (match ac_updated_at (pc_account c) with Some t => dt_ltb (ev_observed_at e) t | None => false end)
        (ValueError "protection mark would regress official account time") ;;
  let* marked := account_mark (pc_account c) (pc_symbol c) (mf_mark_price mark) (ev_observed_at e) in
  let* pi := marked_plan e mark c in
  let plan := fst pi in
  match snd pi with
  | None =>
      ProtectionOutcome_post_init {|
        oc_disposition := MARKED; oc_market_event_id := ev_event_id e; oc_account := marked; oc_exit_plan := plan;
        oc_execution := None; oc_incident := None; oc_requires_persistent_halt := false |}
  | Some intent =>
      let* price := of_option AssertionError (ep_trigger_executable_price plan) in
      protective_exit e c marked plan (exit_command c e plan intent price)
  end.

Definition protect_funding (c : FundingSettlementCommand) : result FundingApplicationOutcome :=
  let* marked := account_mark (fc_account c) (fc_symbol c) (fc_mark_price c) (fc_observed_at c) in
  let* position := ac_position marked (fc_symbol c) in
  let* funded := account_apply_funding marked (fc_symbol c) (fc_rate c) (fc_observed_at c) in
  let* next_position := ac_position funded (fc_symbol c) in
  let amount := (ps_funding next_position - ps_funding position)%dec in
  let* record := FundingRecord_post_init {|
    fr_id := _id "paper-funding" [uuid_str (fc_experiment_id c); fc_market_event_id c];
    fr_experiment_id := fc_experiment_id c; fr_position_id := ps_position_id position;
    fr_market_event_id := fc_market_event_id c; fr_funding_at := fc_funding_at c; fr_observed_at := fc_observed_at c;
    fr_rate := fc_rate c; fr_rate_type := fc_rate_type c; fr_mark_price := fc_mark_price c;
    fr_notional := ps_gross_notional position; fr_amount := amount |} in
  FundingApplicationOutcome_post_init {|
    fo_record := record; fo_account := funded; fo_observed_at := fc_observed_at c; fo_rate_type := fc_rate_type c |}.
End Service.

(** ** Comparing a value with itself *)

Lemma opt_eqb_refl {A} (eqb : A -> A -> bool) : (forall x, eqb x x = true) -> forall o, opt_eqb eqb o o = true.
Proof. intros H [x|]; [apply H | reflexivity]. Qed.

Lemma list_eqb_refl {A} (eqb : A -> A -> bool) : (forall x, eqb x x = true) -> forall l, list_eqb eqb l l = true.
Proof. intros H l. induction l as [|x l IH]; cbn; [reflexivity|]. now rewrite H, IH. Qed.

Lemma dict_eqb_refl {V} (eqb : V -> V -> bool) d : (forall x, eqb x x = true) -> NoDup (map fst d) -> dict_eqb eqb d d = true.
Proof.
  intros H N. unfold dict_eqb. rewrite Nat.eqb_refl. apply forallb_forall. intros [k v] Hin. cbn [fst snd].
  now rewrite (dict_get_NoDup d k v N Hin).
Qed.

Lemma position_eqb_refl p : position_eqb p p = true.
Proof.
  unfold position_eqb. rewrite !Z.eqb_refl, !deqb_refl, !bool_decide_true, !opt_eqb_refl by (reflexivity || apply dt_eqb_refl).
  rewrite list_eqb_refl; [reflexivity|]. intros l. unfold lot_eqb. now rewrite !Z.eqb_refl, !deqb_refl, dt_eqb_refl.
Qed.

Lemma account_eqb_refl a : NoDup (map fst (ac_positions a)) -> account_eqb a a = true.
Proof.
  intros N. unfold account_eqb. rewrite !Z.eqb_refl, !deqb_refl, bool_decide_true, opt_eqb_refl by (reflexivity || apply dt_eqb_refl).
  now rewrite (dict_eqb_refl _ _ position_eqb_refl N).
Qed.

Lemma plan_eqb_refl p : plan_eqb p p = true.
Proof.
  unfold plan_eqb. rewrite !Z.eqb_refl, !deqb_refl, !dt_eqb_refl, !bool_decide_true, !opt_eqb_refl by
    (reflexivity || apply dt_eqb_refl || apply deqb_refl). reflexivity.
Qed.

(** ** The service always answers *)

Lemma freezable_set l k v :
  freezable (PDict l) = true -> freezable v = true -> freezable (PDict (dict_set l k v)) = true.
Proof.
  cbn [freezable]. induction l as [|[k' v'] l IH]; cbn [dict_set forallb snd]; intros Hl Hv; [now rewrite Hv|].
  apply andb_true_iff in Hl as [H1 H2].
  destruct (decide (k = k')); cbn [forallb snd]; [now rewrite Hv, H2 | now rewrite H1, IH].
Qed.

Lemma book_prices b : valid_book b -> (0 < dval (best_bid b) /\ 0 < dval (best_ask b))%Q.
Proof.
  intros V. pose proof (valid_book_facts b V) as (_ & _ & _ & _ & _ & Hb & Ha & _). destruct V as (_ & Fb & Fa).
  unfold best_bid, best_ask. destruct (bk_bids b), (bk_asks b); try contradiction.
  apply Forall_inv in Fb, Fa. split; [apply Fb | apply Fa].
Qed.

(** A triggered plan carries what a restart needs. *)
Lemma post_init_triggered p : ExitPlan_post_init p = Ok p -> ep_status p = EP_TRIGGERED ->
  exists i x, pending_intent p = Ok i /\ ep_trigger_executable_price p = Some x /\ is_utc (ei_triggered_at i) = true.
Proof.
  unfold ExitPlan_post_init, pending_intent. intros H E. py_inv. rewrite E in *.
  rewrite (bool_decide_true (EP_TRIGGERED = EP_TRIGGERED)) in * by reflexivity. cbn [orb andb] in *. bool_prop.
  destruct (ep_trigger_reason p), (ep_triggered_at p) as [t|], (ep_trigger_executable_price p); try discriminate.
  cbn [negb raise_if bind of_option when_some] in *. py_inv.
  match goal with H : require_utc t _ = Ok _ |- _ => apply require_utc_Ok in H end. eauto 10.
Qed.

Lemma trigger_valid p reason t price x ev : _trigger p reason t price x = Ok ev -> ExitPlan_post_init (ee_plan ev) = Ok (ee_plan ev).
Proof.
  unfold _trigger. intros H. apply bind_Ok in H as (p' & H & E). apply post_init_Ok in H as Ep. subst p'.
  py_inv. exact H.
Qed.

(** What the caller of the service establishes: the context was constructed, its
    parts are what their own constructors and updates build, the account is an
    exact ledger with a leverage that divides 100, and the event is a later mark
    of the position's symbol. *)
Record protected (g gp m : Z) (P : Q) (e : ObservedMarketEvent) (mark : MarkFundingPayload) (c : ProtectionContext) : Prop := {
  pd_built : exists c0, ProtectionContext_post_init c0 = Ok c;
  pd_plan : ExitPlan_post_init (pc_exit_plan c) = Ok (pc_exit_plan c);
  pd_books : Forall valid_book (pc_books c);
  pd_ledger : books g gp m P (pc_account c);
  pd_precision : m <= gp + g /\ (P < grid_max gp)%Q /\ (0 < P)%Q;
  pd_leverage : 0 < ac_leverage (pc_account c) /\ (ac_leverage (pc_account c) | 100);
  pd_keys : NoDup (map fst (ac_positions (pc_account c)));
  pd_event : valid_event e /\ ev_payload e = MarkPayload mark /\ ev_symbol e = pc_symbol c;
  pd_price : price_ok gp P (mf_mark_price mark);
  pd_account_time : match ac_updated_at (pc_account c) with Some t => dt_ltb (ev_observed_at e) t = false | None => True end;
  pd_plan_time : after_creation (pc_exit_plan c) (ev_observed_at e) /\ is_utc (ep_created_at (pc_exit_plan c)) = true
}.

Section Answers.
Context (sha256_hex : string -> string) (uuid5 : string -> UUID) (max_book_age : timedelta).
Context (uuid5_not_nil : forall name, uuid5 name <> 0).
Context (g gp m : Z) (P : Q) (e : ObservedMarketEvent) (mark : MarkFundingPayload) (c : ProtectionContext).
Context (H : protected g gp m P e mark c).

Lemma context_facts : pc_experiment_id c <> 0 /\ ac_experiment_id (pc_account c) = pc_experiment_id c /\
  (exists p, dict_get (ac_positions (pc_account c)) (pc_symbol c) = Some p) /\
  (ep_status (pc_exit_plan c) = EP_ACTIVE \/ ep_status (pc_exit_plan c) = EP_TRIGGERED).
Proof.
  destruct (pd_built _ _ _ _ _ _ _ H) as [c0 Hc]. unfold ProtectionContext_post_init, ac_position in Hc. py_inv.
  cbn [pc_experiment_id pc_account pc_symbol pc_exit_plan]. bool_prop. repeat split; eauto.
  match goal with H : ep_status _ ∈ _ |- _ => rewrite !elem_of_cons in H; destruct H as [?|[?|H]]; auto; now apply elem_of_nil in H end.
Qed.

Lemma event_mark : mark_of e = Some mark /\ (0 < dval (mf_mark_price mark))%Q /\ is_utc (ev_observed_at e) = true /\
  empty (ev_event_id e) = false.
Proof.
  destruct (pd_event _ _ _ _ _ _ _ H) as (V & Ep & _). pose proof (valid_event_facts e V) as F. pose proof (ef_payload e F) as Vp.
  rewrite Ep in Vp. cbn [valid_payload] in Vp. unfold mark_of. rewrite <- (ef_kind e F), Ep. cbn [payload_kind].
  split; [reflexivity|]. unfold MarkFundingPayload_post_init in Vp. py_inv.
  split; [match goal with H : _require_decimal (mf_mark_price mark) _ _ _ = Ok _ |- _ =>
    apply _require_decimal_Ok in H as [Hp _]; now apply Hp end|].
  split; [apply F|]. destruct V as [_ V]. unfold ObservedMarketEvent_post_init in V. py_inv. bool_prop.
  unfold empty. now apply bool_decide_eq_false.
Qed.

(** The account after the mark, whatever happens next. *)
Lemma marked_total : exists marked p p',
  account_mark (pc_account c) (pc_symbol c) (mf_mark_price mark) (ev_observed_at e) = Ok marked /\
  dict_get (ac_positions (pc_account c)) (pc_symbol c) = Some p /\ position_mark p (mf_mark_price mark) = Ok p' /\
  dict_get (ac_positions marked) (pc_symbol c) = Some p' /\ position_wf g p' /\
  NoDup (map fst (ac_positions marked)) /\ ac_experiment_id marked = pc_experiment_id c /\
  exists r, reconcile marked = Ok r /\ report_ok r = true.
Proof.
  destruct context_facts as (_ & Ea & (p & Ep) & _). destruct event_mark as (_ & Hp & Ut & _).
  destruct (pd_precision _ _ _ _ _ _ _ H) as (Hm & HP & HP0). destruct (pd_leverage _ _ _ _ _ _ _ H) as [HL DL].
  assert (Em : exists p', position_mark p (mf_mark_price mark) = Ok p')
    by (unfold position_mark; rewrite (require_positive_true _ _ Hp); eexists; reflexivity).
  destruct Em as [p' Em]. pose proof (pd_ledger _ _ _ _ _ _ _ H) as B.
  destruct (current_ok _ _ _ _ _ _ _ B Ep) as [Hok _].
  eassert (Hmark : account_mark _ _ _ _ = Ok _).
  { unfold account_mark. pass; [exact (require_utc_true _ _ Ut)|]. pass; [unfold ac_position; rewrite Ep; reflexivity|].
    pass; [exact Em | reflexivity]. }
  eexists _, p, p'. split; [exact Hmark|]. split; [exact Ep|]. split; [exact Em|].
  pose proof (mark_books _ _ _ _ _ _ _ _ _ HP0 (pd_price _ _ _ _ _ _ _ H) B Hmark) as B'.
  split; [apply dict_get_set|]. split; [exact (position_mark_wf g _ _ _ (po_wf _ _ _ _ _ Hok) Em)|].
  split; [apply dict_set_NoDup, H|]. split; [exact Ea|].
  exact (books_reconcile g gp m P _ B' _ eq_refl HL DL HP0).
Qed.

Lemma executable_total : exists x, _trigger_executable_price e mark c = Ok x /\ (0 < dval x)%Q.
Proof.
  destruct context_facts as (_ & _ & (p & Ep) & _). destruct event_mark as (_ & Hp & _).
  unfold _trigger_executable_price. destruct (last _) as [b|] eqn:El; [|eauto].
  unfold ac_position. rewrite Ep. cbn [of_option bind]. eexists; split; [reflexivity|].
  assert (Hin : In b (pc_books c)).
  { apply last_Some_elem_of, list_elem_of_In, List.filter_In in El. apply El. }
  pose proof (proj1 (List.Forall_forall _ _) (pd_books _ _ _ _ _ _ _ H) b Hin) as V.
  destruct (bool_decide _); apply (book_prices b V).
Qed.

(** An exit is due: it was triggered before, or this mark hits a level. *)
Definition must_exit : Prop :=
  ep_status (pc_exit_plan c) = EP_TRIGGERED \/
  stop_hit (pc_exit_plan c) (mf_mark_price mark) \/ target_hit (pc_exit_plan c) (mf_mark_price mark).

(** What the mark means for the plan. *)
Definition plan_answer (a : ExitPlan * option ExitIntent) : Prop :=
  let '(plan, oi) := a in
  match oi with
  | None => plan = pc_exit_plan c /\ ep_status plan = EP_ACTIVE /\
            ~ stop_hit plan (mf_mark_price mark) /\ ~ target_hit plan (mf_mark_price mark)
  | Some i => ep_status plan = EP_TRIGGERED /\ is_utc (ei_triggered_at i) = true /\ must_exit /\
              exists x, ep_trigger_executable_price plan = Some x
  end.

Lemma trigger_answers reason x : (0 < dval x)%Q -> must_exit ->
  exists ev, _trigger (pc_exit_plan c) reason (ev_observed_at e) (Some (mf_mark_price mark)) x = Ok ev /\
    plan_answer (ee_plan ev, ee_intent ev).
Proof.
  intros Px Due. destruct event_mark as (_ & Hp & _). destruct (pd_plan_time _ _ _ _ _ _ _ H) as [Ac Uc].
  destruct (trigger_total (pc_exit_plan c) reason (ev_observed_at e) (Some (mf_mark_price mark)) x Uc Ac Px) as [ev Ev];
    [now intros d [= <-]|]. exists ev. split; [exact Ev|].
  pose proof (trigger_valid _ _ _ _ _ _ Ev) as V. apply trigger_Ok in Ev as (_ & Et & _ & _ & _ & _ & _ & Ep & i & Ei & _).
  rewrite Ei in *. destruct (post_init_triggered _ V Et) as (i' & x' & E1 & E2 & E3). rewrite E1 in Ep. injection Ep as ->.
  split; [exact Et|]. split; [exact E3|]. eauto.
Qed.

Lemma marked_plan_total : exists a, marked_plan e mark c = Ok a /\ plan_answer a.
Proof.
  destruct context_facts as (_ & _ & _ & St). destruct event_mark as (_ & Hp & Ut & _).
  pose proof (pd_plan _ _ _ _ _ _ _ H) as V. destruct (pd_plan_time _ _ _ _ _ _ _ H) as [_ Uc]. unfold marked_plan.
  destruct St as [St|St]; rewrite St.
  - rewrite bool_decide_false by discriminate. destruct executable_total as (x & Hx & Px). rewrite Hx. cbn [bind].
    destruct (evaluate_mark_eq (pc_exit_plan c) (mf_mark_price mark) (ev_observed_at e) (Some x)) as [(D & E)|[(_ & D & E)|(S & T & E)]];
      [now split | exact Hp | exact Ut | now intros d [= <-] | | |]; rewrite E.
    + destruct (trigger_answers STOP x Px (or_intror (or_introl D))) as (ev & Ev & A). rewrite Ev. now exists (ee_plan ev, ee_intent ev).
    + destruct (trigger_answers TARGET x Px (or_intror (or_intror D))) as (ev & Ev & A). rewrite Ev. now exists (ee_plan ev, ee_intent ev).
    + now exists (pc_exit_plan c, None).
  - rewrite bool_decide_true by reflexivity. destruct (post_init_triggered _ V St) as (i & x & E1 & E2 & E3). rewrite E1. cbn [bind].
    exists (pc_exit_plan c, Some i). split; [reflexivity|]. split; [exact St|]. split; [exact E3|]. split; [now left | eauto].
Qed.

Lemma incident_total reason evidence : empty reason = false -> freezable (PDict evidence) = true ->
  exists i, _incident uuid5 c e reason evidence = Ok i /\ in_experiment_id i = pc_experiment_id c /\ in_severity i = CRITICAL /\
    in_requires_operator_review i = true /\ in_status i = INCIDENT_OPEN /\ in_reason_code i = reason.
Proof.
  intros Hr Hf. destruct context_facts as (Hid & _). destruct event_mark as (_ & _ & Ut & _).
  destruct (pd_event _ _ _ _ _ _ _ H) as (V & _). unfold _incident, _id.
  edestruct incident_create_total as (i & Hi & _ & F1 & _ & F2 & F3 & F4 & F5);
    [apply uuid5_not_nil | exact Hid | | | exact Hr | | exact Ut | exists i; split; [exact Hi | auto]]; [reflexivity | reflexivity |].
  apply freezable_set; [apply freezable_set; [exact Hf | now apply event_freezable] | reflexivity].
Qed.

(** What each outcome promises. *)
Definition protection_answer (o : ProtectionOutcome) : Prop :=
  oc_market_event_id o = ev_event_id e /\
  (exists r, reconcile (oc_account o) = Ok r /\ report_ok r = true) /\
  match oc_disposition o with
  | MARKED =>
      oc_exit_plan o = pc_exit_plan c /\ ep_status (oc_exit_plan o) = EP_ACTIVE /\
      ~ stop_hit (pc_exit_plan c) (mf_mark_price mark) /\ ~ target_hit (pc_exit_plan c) (mf_mark_price mark) /\
      account_mark (pc_account c) (pc_symbol c) (mf_mark_price mark) (ev_observed_at e) = Ok (oc_account o)
  | EXITED =>
      exists r p, oc_execution o = Some r /\ consistent_execution r /\
        dict_get (ac_positions (oc_account o)) (pc_symbol c) = Some p /\ is_flat p = true /\
        ep_status (oc_exit_plan o) = EP_CLOSED
  | PROTECTION_HALTED =>
      exists i, oc_incident o = Some i /\ in_severity i = CRITICAL /\ in_requires_operator_review i = true /\
        in_status i = INCIDENT_OPEN /\ oc_requires_persistent_halt o = true /\ ep_status (oc_exit_plan o) = EP_TRIGGERED /\
        account_mark (pc_account c) (pc_symbol c) (mf_mark_price mark) (ev_observed_at e) = Ok (oc_account o)
  end.

Lemma halted_total marked plan reason evidence :
  account_mark (pc_account c) (pc_symbol c) (mf_mark_price mark) (ev_observed_at e) = Ok marked ->
  ac_experiment_id marked = pc_experiment_id c -> (exists r, reconcile marked = Ok r /\ report_ok r = true) ->
  ep_status plan = EP_TRIGGERED -> empty reason = false -> freezable (PDict evidence) = true ->
  exists o, halted_outcome uuid5 c e marked plan reason evidence = Ok o /\ protection_answer o /\ oc_disposition o <> MARKED.
Proof.
  intros Hm Ea (r & Er & Rr) St Hr Hf. destruct (incident_total reason evidence Hr Hf) as (i & Hi & F1 & F2 & F3 & F4 & _).
  destruct event_mark as (_ & _ & _ & Ne). unfold halted_outcome. rewrite Hi. cbn [bind].
  eexists. split.
  - unfold ProtectionOutcome_post_init. pass; [exact Ne|]. pass; [reflexivity|]. pass; [reflexivity|].
    pass; [cbn [oc_exit_plan]; rewrite St; reflexivity|]. pass; [exact Er|]. pass; [now rewrite Rr|]. pass; [reflexivity|].
    pass; [cbn [oc_incident oc_account]; now rewrite F1, Ea, Z.eqb_refl | reflexivity].
  - split; [|discriminate]. split; [reflexivity|]. split; [eauto|]. cbn. exists i. auto 10.
Qed.

Lemma protective_exit_total marked p plan i x :
  account_mark (pc_account c) (pc_symbol c) (mf_mark_price mark) (ev_observed_at e) = Ok marked ->
  dict_get (ac_positions marked) (pc_symbol c) = Some p -> position_wf g p -> NoDup (map fst (ac_positions marked)) ->
  ac_experiment_id marked = pc_experiment_id c -> (exists r, reconcile marked = Ok r /\ report_ok r = true) ->
  ep_status plan = EP_TRIGGERED -> is_utc (ei_triggered_at i) = true ->
  exists o, protective_exit sha256_hex uuid5 max_book_age e c marked plan (exit_command uuid5 c e plan i x) = Ok o /\
    protection_answer o /\ oc_disposition o <> MARKED.
Proof.
  intros Hm Ep W N Ea Rec St Ut. set (command := exit_command uuid5 c e plan i x).
  unfold protective_exit. destruct (execute_market_exit _ _ _ _ _ _) as [res|[exc|h]] eqn:Ex.
  - destruct (exit_leaves_flat _ _ g _ _ _ _ _ _ Ex Ep W) as (Hc & a' & p' & plan' & E1 & E2 & E3 & Fl & _ & Cl & E4 & r & Er & Rr).
    destruct event_mark as (_ & _ & _ & Ne). rewrite E1, E2. eexists. split.
    + unfold ProtectionOutcome_post_init. pass; [exact Ne|]. pass; [reflexivity|].
      pass; [cbn [oc_exit_plan]; rewrite Cl; reflexivity|]. pass; [reflexivity|]. pass; [exact Er|]. pass; [now rewrite Rr|].
      pass; [|pass; reflexivity]. cbn [oc_execution oc_account oc_exit_plan]. rewrite E1, E2. cbn [opt_eqb].
      rewrite plan_eqb_refl, account_eqb_refl; [reflexivity|]. rewrite E3. apply dict_set_NoDup, N.
    + split; [|discriminate]. split; [reflexivity|]. split; [eauto|]. cbn. exists (br_record res), p'. split; [reflexivity|]. split; [exact Hc|].
      split; [rewrite E3; apply dict_get_set | auto].
  - apply halted_total; auto.
  - apply exit_halts in Ex as (Eh & _ & _).
    assert (Hp : exists items, event_payload h = Ok (JObj items)).
    { apply freeze_dict_total. cbn [freezable forallb snd]. rewrite Eh.
      destruct (hl_market_event_id h), (ei_trigger_price _); cbn; now rewrite Ut. }
    destruct Hp as [items Hp]. rewrite Hp. cbn [bind]. apply halted_total; auto. exact (freezable_thaw (JObj items)).
Qed.
End Answers.

(** C3: On 28-digit grids and with a leverage that divides 100 ([protected]), a
    position under protection always gets an answer: no error of the exit path
    escapes.  (Not so with a leverage of 3: [leverage3_loses_incident].)  A mark
    of an account that satisfies its ledger invariant ends as MARKED exactly when the plan is active and neither level is hit, and
    then plan and books are untouched but for the mark; otherwise either the
    position is flat with its plan closed and a consistent execution record, or
    the plan stays triggered and an open critical incident that requires the
    operator demands a persistent halt. *)
Theorem protection_always_answers sha256_hex uuid5 age g gp m P e mark c :
  (forall name, uuid5 name <> 0) -> protected g gp m P e mark c ->
  exists o, protect_mark sha256_hex uuid5 age e c = Ok o /\ protection_answer e mark c o /\
    (oc_disposition o = MARKED <-> ~ must_exit mark c).
Proof.
  intros Hu H. destruct (context_facts g gp m P e mark c H) as (_ & _ & _ & St). destruct (event_mark g gp m P e mark c H) as (Em & _ & _ & Ne).
  destruct (marked_total g gp m P e mark c H) as (marked & p & p' & Hm & Ep & _ & Ep' & W & N & Ea & r & Er & Rr).
  destruct (marked_plan_total g gp m P e mark c H) as ([plan oi] & Hp & A).
  unfold protect_mark. rewrite Em. cbn [of_option bind].
  rewrite (bool_decide_true (ev_symbol e = pc_symbol c)) by apply H. cbn [negb raise_if bind].
  assert (match ac_updated_at (pc_account c) with Some t => dt_ltb (ev_observed_at e) t | None => false end = false) as ->.
  { pose proof (pd_account_time _ _ _ _ _ _ _ H) as Ht. now destruct (ac_updated_at (pc_account c)). }
  cbn [raise_if bind]. rewrite Hm, Hp. cbn [bind fst snd]. destruct oi as [i|]; cbn [plan_answer] in A.
  - destruct A as (Et & Ut & Due & x & Ex). rewrite Ex. cbn [of_option bind].
    destruct (protective_exit_total sha256_hex uuid5 age Hu g gp m P e mark c H marked p' plan i x Hm Ep' W N Ea) as (o & Ho & Ho' & Nm); eauto.
    exists o. split; [exact Ho|]. split; [exact Ho' | tauto].
  - destruct A as (-> & Ac & Ns & Nt). eexists. split.
    + unfold ProtectionOutcome_post_init. pass; [exact Ne|]. pass; [cbn [oc_exit_plan]; rewrite Ac; reflexivity|].
      pass; [reflexivity|]. pass; [reflexivity|]. pass; [exact Er|]. pass; [now rewrite Rr|]. pass; [reflexivity|].
      pass; reflexivity.
    + split; [split; [reflexivity|]; split; [eauto|]; cbn; auto|]. cbn. split; [|reflexivity].
      intros _ [D|[D|D]]; [rewrite Ac in D; discriminate | now apply Ns | now apply Nt].
Qed.

(** ** Settlements are applied *)

Lemma funding_record_valid r : fr_market_event_id r <> "" -> is_utc (fr_funding_at r) = true -> is_utc (fr_observed_at r) = true ->
  dt_ltb (fr_observed_at r) (fr_funding_at r) = false -> fr_rate_type r ∈ ["Regular"; "Special"] ->
  (0 < dval (fr_mark_price r))%Q -> (0 < dval (fr_notional r))%Q -> FundingRecord_post_init r = Ok r.
Proof.
  intros Hm U1 U2 Hl Ht Hp Hn. unfold FundingRecord_post_init.
  pass; [now apply bool_decide_eq_false|]. pass; [now apply require_utc_true|]. pass; [now apply require_utc_true|].
  pass; [exact Hl|]. pass.
  { rewrite !elem_of_cons in Ht. destruct Ht as [->|[->|Ht]]; [reflexivity | reflexivity | now apply elem_of_nil in Ht]. }
  pass; [now apply require_positive_true|]. pass; [now apply require_positive_true | reflexivity].
Qed.

Lemma notional_positive g gp m P a p symbol : m <= gp + g -> (P < grid_max gp)%Q -> (0 < P)%Q ->
  books g gp m P a -> dict_get (ac_positions a) symbol = Some p ->
  (0 < dval (ps_mark_price p))%Q -> is_flat p = false ->
  (0 < dval (ps_gross_notional p))%Q /\ (dval (ps_gross_notional p) == qlots p * dval (ps_mark_price p))%Q.
Proof.
  intros Hm HP HP0 B E M0 Hf. destruct (current_ok _ _ _ _ _ _ _ B E) as [Hok _]. pose proof (po_wf _ _ _ _ _ Hok) as W.
  destruct (notional_exact g gp m P p Hok (qlots_bound _ _ _ _ _ _ _ B HP0 E)) as (En & _). split; [|exact En].
  rewrite En. apply Qmult_lt_0_compat; [|exact M0]. unfold qlots. pose proof (pw_nonneg W) as N. apply Qle_lteq in N as [N|N]; [exact N|].
  exfalso. apply not_true_iff_false in Hf. apply Hf, (pw_flat W). now rewrite <- N.
Qed.

(** A valid settlement of an account that satisfies its ledger invariant is
    always applied.  The recorded amount is the notional at the settlement's mark
    times the rate, paid by a long position and received by a short one, without
    rounding; cash moves by exactly that amount and the account reconciles. *)
Theorem funding_settlement_exact uuid5 g gp gr m P c p :
  FundingSettlementCommand_post_init c = Ok c ->
  m <= gp + g -> m <= gp + g + gr -> (P < grid_max gp)%Q -> (0 < P)%Q ->
  books g gp m P (fc_account c) -> 0 < ac_leverage (fc_account c) -> (ac_leverage (fc_account c) | 100) ->
  price_ok gp P (fc_mark_price c) -> grid gr (dval (fc_rate c)) ->
  dict_get (ac_positions (fc_account c)) (fc_symbol c) = Some p ->
  (turnover (fc_account c) + P * qlots p * Qabs (dval (fc_rate c)) < grid_max m)%Q ->
  let sign := if bool_decide (ps_side p = LONG) then (-1)%Q else 1%Q in
  let notional := (qlots p * dval (fc_mark_price c))%Q in
  exists o, protect_funding uuid5 c = Ok o /\
    (dval (fr_notional (fo_record o)) == notional)%Q /\
    (dval (fr_amount (fo_record o)) == sign * notional * dval (fc_rate c))%Q /\
    (dval (ac_cash_balance (fo_account o)) == dval (ac_cash_balance (fc_account c)) + dval (fr_amount (fo_record o)))%Q /\
    fr_position_id (fo_record o) = ps_position_id p /\
    exists r, reconcile (fo_account o) = Ok r /\ report_ok r = true.
Proof.
  intros V Hm Hgr HP HP0 B HL DL Hp Gr E Ht sign notional. pose proof V as V'.
  unfold FundingSettlementCommand_post_init, ac_position in V'. py_inv. bool_prop.
  match goal with H : dict_get _ _ = Some ?v |- _ => lazymatch v with p => fail | _ => rewrite E in H; injection H as <- end end.
  repeat match goal with H : require_utc _ _ = Ok _ |- _ => apply require_utc_Ok in H
                       | H : require_positive_decimal _ _ = Ok _ |- _ => apply require_positive_Ok in H end.
  eassert (Em : position_mark p (fc_mark_price c) = Ok _)
    by (unfold position_mark; rewrite require_positive_true by assumption; reflexivity).
  set (p1 := Build_PositionState _ _ _ _ _ _ _ _ _ _ _ _ _) in Em.
  eassert (Hmark : account_mark (fc_account c) (fc_symbol c) (fc_mark_price c) (fc_observed_at c) = Ok _).
  { unfold account_mark. pass; [now apply require_utc_true|]. pass; [unfold ac_position; rewrite E; reflexivity|].
    pass; [exact Em | reflexivity]. }
  set (marked := ac_raise_peak _ _) in Hmark.
  pose proof (mark_books _ _ _ _ _ _ _ _ _ HP0 Hp B Hmark) as B1.
  destruct (mark_turnover _ _ _ _ _ _ _ Hmark E Em) as (T1 & K1 & C1 & L1 & X1).
  assert (E1 : dict_get (ac_positions marked) (fc_symbol c) = Some p1) by (rewrite K1; apply dict_get_set).
  assert (F1 : is_flat p1 = false) by assumption.
  assert (Q1 : qlots p1 = qlots p) by reflexivity.
  destruct (funding_accepted g gp gr m P marked p1 (fc_symbol c) (fc_rate c) (fc_observed_at c))
    as (funded & p2 & Hf & _ & E2 & Ea & Ec & X2 & Rec);
    [assumption .. | now rewrite L1 | now rewrite L1 | exact B1 | exact E1 | exact F1 | assumption | exact Gr | now rewrite T1, Q1 |].
  destruct (notional_positive g gp m P marked p1 (fc_symbol c) Hm HP HP0 B1 E1) as [Np En]; [assumption | assumption |].
  destruct Rec as (r & Er & Rr). eexists. split.
  - unfold protect_funding. pass; [exact Hmark|]. pass; [unfold ac_position; rewrite E1; reflexivity|]. pass; [exact Hf|].
    pass; [unfold ac_position; rewrite E2; reflexivity|]. pass.
    { apply funding_record_valid; cbn [fr_market_event_id fr_funding_at fr_observed_at fr_rate_type fr_mark_price fr_notional]; auto.
      unfold empty in *. now bool_prop. }
    unfold FundingApplicationOutcome_post_init. cbn [fo_record fo_account fo_observed_at fo_rate_type fr_observed_at fr_rate_type fr_experiment_id].
    pass; [now apply require_utc_true|]. pass; [now rewrite dt_eqb_refl|]. pass; [now rewrite bool_decide_true|].
    pass; [rewrite X2; apply negb_false_iff, Z.eqb_eq; symmetry; assumption|]. pass; [exact Er|]. pass; [now rewrite Rr | reflexivity].
  - cbn [fo_record fo_account fr_notional fr_amount fr_position_id]. rewrite Ea, Ec, C1. unfold funding_due. split; [exact En|]. split; [reflexivity|]. split; [reflexivity|]. split; [reflexivity | eauto].
Qed.

(** ** Witnesses *)

Definition demo_uuid5 (name : string) : UUID := 1 + Z.of_nat (String.length name).
Definition after (s : Z) : datetime := utc (1700000000000000 + seconds s).

Definition demo_plan : ExitPlan :=
  match exit_create 31 21 LONG (dint 2) (dint 100) (mkdec 1 (-2)) (mkdec 2 (-2)) sample_time 60 with
  | Ok p => p
  | Raise _ => sample_plan
  end.

Definition bid_after (s bid : Z) : BookSnapshot := {|
  bk_event_id := "p1"; bk_symbol := "BTCUSDT"; bk_venue_event_at := after s; bk_observed_at := after s; bk_sequence := s;
  bk_bids := [{| lv_price := dint bid; lv_quantity := dint 50 |}];
  bk_asks := [{| lv_price := dint (bid + 1); lv_quantity := dint 50 |}]; bk_mark_price := dint bid |}.

Definition demo_context (books : list BookSnapshot) : ProtectionContext := {|
  pc_experiment_id := 7; pc_entry_proposal_id := 3; pc_symbol := "BTCUSDT"; pc_account := sample_account;
  pc_exit_plan := demo_plan; pc_exchange_filters := btc_filters; pc_books := books; pc_execution_latency := 250000;
  pc_order_ttl := seconds 30; pc_taker_fee_rate := mkdec 4 (-4); pc_entry_admission_halted := true |}.

Definition demo_mark_payload (price : Z) : MarkFundingPayload := {|
  mf_mark_price := dint price; mf_index_price := dint price; mf_funding_rate := mkdec 1 (-4);
  mf_next_funding_at := after 3600; mf_estimated_settle_price := None |}.

Definition demo_mark (price : Z) : ObservedMarketEvent := {|
  ev_venue := "binance"; ev_stream := "markPrice"; ev_symbol := "BTCUSDT"; ev_event_id := "m1"; ev_kind := MARK_FUNDING;
  ev_venue_event_at := after 5; ev_observed_at := after 5; ev_sequence := Some 9;
  ev_sequence_not_applicable_reason := None; ev_payload := MarkPayload (demo_mark_payload price) |}.

Lemma demo_protected price books : In price [98; 100] -> In books [[]; [bid_after 6 98]] ->
  protected (-3) (-2) (-5) 1000 (demo_mark price) (demo_mark_payload price) (demo_context books).
Proof.
  intros Hp Hb. split.
  - exists (demo_context books). destruct Hb as [<-|[<-|[]]]; vm_compute; reflexivity.
  - vm_compute. reflexivity.
  - destruct Hb as [<-|[<-|[]]]; [constructor|]. apply List.Forall_cons; [|apply List.Forall_nil].
    split; [vm_compute; reflexivity|]. split; apply List.Forall_cons; try apply List.Forall_nil; split; reflexivity.
  - exact sample_books.
  - split; [lia | split; reflexivity].
  - assert (ac_leverage sample_account = 5) as E by (vm_compute; reflexivity).
    cbn [demo_context pc_account]. rewrite E. split; [lia | now exists 20].
  - assert (map fst (ac_positions sample_account) = ["BTCUSDT"]) as E by (vm_compute; reflexivity).
    cbn [demo_context pc_account]. rewrite E. apply NoDup_singleton.
  - destruct Hp as [<-|[<-|[]]]; split; [split; vm_compute; reflexivity | auto | split; vm_compute; reflexivity | auto].
  - destruct Hp as [<-|[<-|[]]]; (split; [first [now exists 9800 | now exists 10000] | split; [reflexivity | discriminate]]).
  - vm_compute. reflexivity.
  - split; [split; vm_compute; [reflexivity | discriminate] | vm_compute; reflexivity].
Qed.

Definition disposition (price : Z) (books : list BookSnapshot) : option ProtectionDisposition :=
  match protect_mark demo_sha demo_uuid5 (seconds 2) (demo_mark price) (demo_context books) with
  | Ok o => Some (oc_disposition o)
  | Raise _ => None
  end.

(** The stop is at 99: a mark at 100 changes nothing, one at 98 exits into the
    bid, and without a book it halts with an incident. *)
Lemma protection_always_answers_witness :
  disposition 100 [] = Some MARKED /\ disposition 98 [bid_after 6 98] = Some EXITED /\
  exists o i, protect_mark demo_sha demo_uuid5 (seconds 2) (demo_mark 98) (demo_context []) = Ok o /\
    oc_disposition o = PROTECTION_HALTED /\ oc_incident o = Some i /\ in_severity i = CRITICAL.
Proof.
  split; [vm_compute; reflexivity|]. split; [vm_compute; reflexivity|].
  destruct (protection_always_answers demo_sha demo_uuid5 (seconds 2) (-3) (-2) (-5) 1000 (demo_mark 98)
    (demo_mark_payload 98) (demo_context [])) as (o & Ho & (_ & _ & A) & _).
  - intros name. unfold demo_uuid5. lia.
  - apply demo_protected; simpl; auto.
  - assert (D : disposition 98 [] = Some PROTECTION_HALTED) by (vm_compute; reflexivity).
    unfold disposition in D. rewrite Ho in D. injection D as D. rewrite D in A. destruct A as (i & Hi & Hc & _).
    exists o, i. auto.
Defined.

Definition demo_funding : FundingSettlementCommand := {|
  fc_experiment_id := 7; fc_symbol := "BTCUSDT"; fc_market_event_id := "f1"; fc_funding_at := after 10;
  fc_observed_at := after 11; fc_mark_price := dint 110; fc_rate := mkdec 1 (-4); fc_rate_type := "Regular";
  fc_account := sample_account |}.

(** The same account on the finer money grid that a rate with four places needs. *)
Lemma funded_books : books (-3) (-2) (-9) 1000 sample_account.
Proof.
  assert (B0 : books (-3) (-2) (-9) 1000 sample_account0).
  { apply (create_books (-3) (-2) (-9) 1000 7 (dint 10000) "USDT" 5); [now exists 10000000000000 | reflexivity ..]. }
  assert (F0 : fill_fits (-3) (-2) (-9) 1000 sample_account0 (dint 2) (dint 100) (mkdec 1 (-1))).
  { split; [now exists 2000 | | now exists 100000000 | reflexivity | reflexivity | reflexivity].
    split; [now exists 10000 | split; [reflexivity | discriminate]]. }
  apply (account_step_books (-3) (-2) (-4) (-9) 1000 ltac:(lia) ltac:(lia) eq_refl eq_refl sample_account0 sample_account B0).
  apply (account_step_fill _ _ _ _ _ _ 11 21 "BTCUSDT" BUY OPEN (dint 2) (dint 100) (mkdec 1 (-1)) sample_time); [exact F0|].
  vm_compute. reflexivity.
Qed.

(** Long 2 at a mark of 110 and a rate of 0.0001 pays 0.022. *)
Lemma funding_settlement_exact_witness : exists o, protect_funding demo_uuid5 demo_funding = Ok o /\
  (dval (fr_amount (fo_record o)) == - (22 # 1000))%Q.
Proof.
  assert (E : dict_get (ac_positions sample_account) "BTCUSDT" = Some sample_held) by (vm_compute; reflexivity).
  assert (Ep : ps_side sample_held = LONG) by (vm_compute; reflexivity).
  assert (El : ac_leverage sample_account = 5) by (vm_compute; reflexivity).
  destruct (funding_settlement_exact demo_uuid5 (-3) (-2) (-4) (-9) 1000 demo_funding sample_held) as (o & Ho & _ & Ha & _).
  - vm_compute. reflexivity.
  - lia.
  - lia.
  - reflexivity.
  - reflexivity.
  - exact funded_books.
  - cbn [demo_funding fc_account]. rewrite El. lia.
  - cbn [demo_funding fc_account]. rewrite El. now exists 20.
  - split; [now exists 11000 | split; [reflexivity | discriminate]].
  - now exists 1.
  - exact E.
  - vm_compute. reflexivity.
  - exists o. split; [exact Ho|]. rewrite Ha, Ep. vm_compute. reflexivity.
Defined.

(** Two long positions of 2, at 100 and at 50, with leverage 3: both entries reconcile. *)
Definition leverage3_pair : AccountState :=
  or_default (let* a := account_create 7 (dint 1000) "USDT" 3 in
              let* a := apply_fill a 1 21 "BTCUSDT" BUY OPEN (dint 2) (dint 100) dzero sample_time in
              apply_fill a 2 22 "ETHUSDT" BUY OPEN (dint 2) (dint 50) dzero sample_time).

Definition leverage3_context : ProtectionContext := {|
  pc_experiment_id := 7; pc_entry_proposal_id := 3; pc_symbol := "BTCUSDT"; pc_account := leverage3_pair;
  pc_exit_plan := demo_plan; pc_exchange_filters := btc_filters; pc_books := []; pc_execution_latency := 250000;
  pc_order_ttl := seconds 30; pc_taker_fee_rate := mkdec 4 (-4); pc_entry_admission_halted := true |}.

(** At leverage 3 the divisor of 100 is missing and the guarantee fails.  The
    mark at 98 hits the stop and no book can fill the exit, but the margins of
    the marked account, 196/3 + 100/3, differ from 296/3 in the last digit: the
    constructor of the halted outcome raises, and with it the incident and the
    request for a halt are lost. *)
Lemma leverage3_loses_incident :
  ProtectionContext_post_init leverage3_context = Ok leverage3_context /\ stop_hitb demo_plan (dint 98) = true /\
  (let* r := reconcile leverage3_pair in Ok (report_ok r)) = Ok true /\
  protect_mark demo_sha demo_uuid5 (seconds 2) (demo_mark 98) leverage3_context
    = Raise (ValueError "protection account does not reconcile").
Proof. repeat split; vm_compute; reflexivity. Qed.
