(* ===== verification/Admission.v ===== *)
(** * Monitoring admission: [maais/monitoring/admission.py]

    The six ordered gates that let a symbol enter: kill switch, component
    health, warm baseline, volatility, liquidity and benchmark.  Anything that
    is missing or stale does not pass, and every gate that does not pass blocks.

    [int(delta.total_seconds())] is the whole number of seconds: exact for spans
    below 2^33 seconds, where the float keeps the microseconds. *)

From Stdlib Require Import ZArith QArith Lia Lqa List Bool String.
From stdpp Require Import base decidable list strings.
From S2P Require Import Prelude PyDecimal DecimalTheory Domain Json MarketEvents Frames Gates EventLog.

Local Open Scope Z_scope.

Inductive AdmissionCheck : Type := KILL_SWITCH | HEALTH | BASELINE_WARMUP | VOLATILITY | LIQUIDITY | BENCHMARK.

#[export] Instance AdmissionCheck_eq_dec : EqDecision AdmissionCheck.
Proof. solve_decision. Defined.
#[export] Instance AdmissionCheck_value : StrEnum AdmissionCheck := fun c =>
  match c with
  | KILL_SWITCH => "kill_switch" | HEALTH => "health" | BASELINE_WARMUP => "baseline_warmup"
  | VOLATILITY => "volatility" | LIQUIDITY => "liquidity" | BENCHMARK => "benchmark"
  end.

(** [tuple(AdmissionCheck)]. *)
Definition admission_checks : list AdmissionCheck := [KILL_SWITCH; HEALTH; BASELINE_WARMUP; VOLATILITY; LIQUIDITY; BENCHMARK].

Record OfficialAdmissionPolicy : Type := {
  ap_mandatory_components : list string;
  ap_health_max_age : timedelta;
  ap_market_observation_max_age : timedelta;
  ap_benchmark_max_age : timedelta;
  ap_minimum_baseline_samples : Z;
  ap_volatility_multiplier : dec;
  ap_maximum_spread_fraction : dec
}.

(** [len(set(names)) != len(names)]. *)
Definition has_duplicates (names : list string) : bool := negb (length (remove_dups names) =? length names)%nat.

Definition positive_age (nv : string * timedelta) : result unit :=
  raise_if (snd nv <=? 0) (ValueError (fst nv +:+ " must be positive")).
Definition positive_decimal (nv : string * dec) : result unit :=
  raise_if (snd nv <=? dzero)%dec (ValueError (fst nv +:+ " must be a positive finite Decimal")).
Definition nonnegative_decimal (nv : string * dec) : result unit :=
  raise_if (snd nv <? dzero)%dec (ValueError (fst nv +:+ " must be nonnegative and finite")).

Definition OfficialAdmissionPolicy_post_init (p : OfficialAdmissionPolicy) : result OfficialAdmissionPolicy :=
  do* raise_if (negb (nonempty (ap_mandatory_components p)) || has_duplicates (ap_mandatory_components p) ||
                existsb empty (ap_mandatory_components p))
        (ValueError "mandatory monitoring components must be nonempty and unique") ;;
  do* iterM positive_age
        [("health_max_age", ap_health_max_age p); ("market_observation_max_age", ap_market_observation_max_age p);
         ("benchmark_max_age", ap_benchmark_max_age p)] ;;
  do* raise_if (ap_minimum_baseline_samples p <=? 1) (ValueError "baseline warmup must require multiple samples") ;;
  do* iterM positive_decimal
        [("volatility_multiplier", ap_volatility_multiplier p); ("maximum_spread_fraction", ap_maximum_spread_fraction p)] ;;
  Ok p.

(** The values of [ComponentName], in definition order. *)
Definition component_names : list string :=
  ["market_data"; "feature_pipeline"; "agents"; "decision"; "risk"; "execution"; "monitoring"].

Definition conservative : OfficialAdmissionPolicy := {|
  ap_mandatory_components := component_names; ap_health_max_age := seconds 10;
  ap_market_observation_max_age := seconds 2; ap_benchmark_max_age := seconds 60; ap_minimum_baseline_samples := 60;
  ap_volatility_multiplier := mkdec 15 (-1); ap_maximum_spread_fraction := mkdec 5 (-2) |}.

Record HealthObservation : Type := {
  ho_component : string; ho_healthy : bool; ho_observed_at : datetime; ho_error : option string
}.

Definition HealthObservation_post_init (h : HealthObservation) : result HealthObservation :=
  do* raise_if (empty (ho_component h)) (ValueError "health component is required") ;;
  do* _require_utc (ho_observed_at h) "health observed_at" ;;
  do* raise_if (ho_healthy h && present (ho_error h)) (ValueError "healthy component cannot carry an error") ;;
  Ok h.

Record RollingVolatilityBaseline : Type := {
  vb_symbol : string;
  vb_timeframe : string;
  vb_sample_count : Z;
  vb_baseline_std : dec;
  vb_current_std : dec;
  vb_spread_fraction : dec;
  vb_observed_at : datetime
}.

Definition RollingVolatilityBaseline_post_init (b : RollingVolatilityBaseline) : result RollingVolatilityBaseline :=
  do* raise_if (negb (upper_symbol (vb_symbol b)) || empty (vb_timeframe b))
        (ValueError "volatility baseline identity is invalid") ;;
  do* raise_if (vb_sample_count b <? 0) (ValueError "volatility baseline sample count cannot be negative") ;;
  do* raise_if (vb_baseline_std b <=? dzero)%dec (ValueError "baseline std must be positive and finite") ;;
  do* iterM nonnegative_decimal [("current_std", vb_current_std b); ("spread_fraction", vb_spread_fraction b)] ;;
  do* _require_utc (vb_observed_at b) "volatility observed_at" ;;
  Ok b.

Record BenchmarkObservation : Type := {
  bo_symbol : string; bo_return_fraction : dec; bo_observed_at : datetime; bo_source_event_id : string
}.

Definition BenchmarkObservation_post_init (b : BenchmarkObservation) : result BenchmarkObservation :=
  do* raise_if (negb (upper_symbol (bo_symbol b)) || empty (bo_source_event_id b))
        (ValueError "benchmark identity is invalid") ;;
  do* _require_utc (bo_observed_at b) "benchmark observed_at" ;;
  Ok b.

Record MonitoringAdmissionContext : Type := {
  mc_symbol : string;
  mc_timeframe : string;
  mc_evaluated_at : datetime;
  mc_kill_switch_active : bool;
  mc_kill_switch_reason : option string;
  mc_kill_switch_version : Z;
  mc_kill_switch_changed_at : datetime;
  mc_kill_switch_changed_by : string;
  mc_health : list HealthObservation;
  mc_volatility : option RollingVolatilityBaseline;
  mc_benchmark : option BenchmarkObservation
}.

Definition MonitoringAdmissionContext_post_init (c : MonitoringAdmissionContext) : result MonitoringAdmissionContext :=
  do* raise_if (negb (upper_symbol (mc_symbol c)) || empty (mc_timeframe c))
        (ValueError "monitoring context identity is invalid") ;;
  do* _require_utc (mc_evaluated_at c) "monitoring evaluated_at" ;;
  do* _require_utc (mc_kill_switch_changed_at c) "kill_switch_changed_at" ;;
  do* raise_if (negb (Bool.eqb (mc_kill_switch_active c) (present (mc_kill_switch_reason c))))
        (ValueError "kill switch state and reason must appear together") ;;
  do* raise_if (mc_kill_switch_version c <? 0) (ValueError "kill switch version cannot be negative") ;;
  do* raise_if (empty (mc_kill_switch_changed_by c)) (ValueError "kill switch actor is required") ;;
  do* raise_if (dt_ltb (mc_evaluated_at c) (mc_kill_switch_changed_at c))
        (ValueError "kill switch state cannot come from the future") ;;
  do* raise_if (has_duplicates (map ho_component (mc_health c)))
        (ValueError "health observations must be unique by component") ;;
  Ok {| mc_symbol := mc_symbol c; mc_timeframe := mc_timeframe c; mc_evaluated_at := mc_evaluated_at c;
        mc_kill_switch_active := mc_kill_switch_active c; mc_kill_switch_reason := mc_kill_switch_reason c;
        mc_kill_switch_version := mc_kill_switch_version c; mc_kill_switch_changed_at := mc_kill_switch_changed_at c;
        mc_kill_switch_changed_by := mc_kill_switch_changed_by c; mc_health := sort_by ho_component (mc_health c);
        mc_volatility := mc_volatility c; mc_benchmark := mc_benchmark c |}.

Record AdmissionGateResult : Type := {
  ag_check : AdmissionCheck; ag_status : QualityStatus; ag_reason_code : string; ag_details : json
}.

Definition AdmissionGateResult_post_init (r : AdmissionGateResult) : result AdmissionGateResult :=
  do* raise_if (empty (ag_reason_code r)) (ValueError "admission reason code is required") ;;
  let* details := freeze_json (thaw (ag_details r)) in
  let* details := as_mapping "admission gate details must be an object" details in
  Ok {| ag_check := ag_check r; ag_status := ag_status r; ag_reason_code := ag_reason_code r; ag_details := details |}.

Definition gate_to_dict (r : AdmissionGateResult) : pyval := PDict
  [("check", PEnum (enum_value (ag_check r))); ("status", PEnum (enum_value (ag_status r)));
   ("reason_code", PStr (ag_reason_code r)); ("details", thaw (ag_details r))].

Record MonitoringAdmissionDecision : Type := {
  md_allowed : bool;
  md_input_snapshot : json;
  md_gates : list AdmissionGateResult;
  md_blocking_checks : list AdmissionCheck;
  md_content_hash : string
}.

(** [item.status is not QualityStatus.PASSED]. *)
Definition blocking_of (gates : list AdmissionGateResult) : list AdmissionCheck := blocking ag_check ag_status gates.

Definition MonitoringAdmissionDecision_post_init (d : MonitoringAdmissionDecision) : result MonitoringAdmissionDecision :=
  do* raise_if (negb (bool_decide (map ag_check (md_gates d) = admission_checks)))
        (ValueError "monitoring decision must contain every ordered admission check") ;;
  let expected := blocking_of (md_gates d) in
  do* raise_if (negb (bool_decide (expected = md_blocking_checks d)) ||
                negb (Bool.eqb (md_allowed d) (negb (nonempty expected))))
        (ValueError "monitoring admission does not match its gate results") ;;
  do* raise_if (negb (String.length (md_content_hash d) =? 64)%nat)
        (ValueError "monitoring admission content hash must be SHA-256") ;;
  let* snapshot := freeze_json (thaw (md_input_snapshot d)) in
  let* snapshot := as_mapping "monitoring input snapshot must be an object" snapshot in
  Ok {| md_allowed := md_allowed d; md_input_snapshot := snapshot; md_gates := md_gates d;
        md_blocking_checks := md_blocking_checks d; md_content_hash := md_content_hash d |}.

Definition _gate (check : AdmissionCheck) (status : QualityStatus) (reason_code : string) (details : list (string * pyval))
  : result AdmissionGateResult :=
  let* normalized := freeze_json (PDict details) in
  let* normalized := as_mapping "admission gate details must be an object" normalized in
  AdmissionGateResult_post_init
    {| ag_check := check; ag_status := status; ag_reason_code := reason_code; ag_details := normalized |}.

Definition whole_seconds (d : timedelta) : pyval := PInt (Z.quot d 1000000).
Definition names (l : list string) : pyval := PSeq (map PStr l).
Definition sorted_strings (l : list string) : list string := sort_by (fun s => s) l.

Definition health_to_dict (h : HealthObservation) : pyval := PDict
  [("component", PStr (ho_component h)); ("healthy", PBool (ho_healthy h)); ("observed_at", PTime (ho_observed_at h));
   ("error", popt PStr (ho_error h))].
Definition volatility_to_dict (b : RollingVolatilityBaseline) : pyval := PDict
  [("symbol", PStr (vb_symbol b)); ("timeframe", PStr (vb_timeframe b)); ("sample_count", PInt (vb_sample_count b));
   ("baseline_std", PDec (vb_baseline_std b)); ("current_std", PDec (vb_current_std b));
   ("spread_fraction", PDec (vb_spread_fraction b)); ("observed_at", PTime (vb_observed_at b))].
Definition benchmark_to_dict (b : BenchmarkObservation) : pyval := PDict
  [("symbol", PStr (bo_symbol b)); ("return_fraction", PDec (bo_return_fraction b));
   ("observed_at", PTime (bo_observed_at b)); ("source_event_id", PStr (bo_source_event_id b))].

(** ** The gates *)

Section Admission.
Context (sha256_hex : string -> string) (policy : OfficialAdmissionPolicy).

Definition input_snapshot_value (c : MonitoringAdmissionContext) : pyval := PDict
  [("context", PDict
      [("symbol", PStr (mc_symbol c)); ("timeframe", PStr (mc_timeframe c)); ("evaluated_at", PTime (mc_evaluated_at c));
       ("kill_switch_active", PBool (mc_kill_switch_active c));
       ("kill_switch_reason", popt PStr (mc_kill_switch_reason c));
       ("kill_switch_version", PInt (mc_kill_switch_version c));
       ("kill_switch_changed_at", PTime (mc_kill_switch_changed_at c));
       ("kill_switch_changed_by", PStr (mc_kill_switch_changed_by c));
       ("health", PSeq (map health_to_dict (mc_health c)));
       ("volatility", popt volatility_to_dict (mc_volatility c));
       ("benchmark", popt benchmark_to_dict (mc_benchmark c))]);
   ("policy", PDict
      [("mandatory_components", names (ap_mandatory_components policy));
       ("health_max_age_seconds", whole_seconds (ap_health_max_age policy));
       ("market_observation_max_age_seconds", whole_seconds (ap_market_observation_max_age policy));
       ("benchmark_max_age_seconds", whole_seconds (ap_benchmark_max_age policy));
       ("minimum_baseline_samples", PInt (ap_minimum_baseline_samples policy));
       ("volatility_multiplier", PDec (ap_volatility_multiplier policy));
       ("maximum_spread_fraction", PDec (ap_maximum_spread_fraction policy))])].

Definition _input_snapshot (c : MonitoringAdmissionContext) : result json :=
  let* normalized := freeze_json (input_snapshot_value c) in
  as_mapping "monitoring input snapshot must be an object" normalized.

Definition _kill_switch (c : MonitoringAdmissionContext) : result AdmissionGateResult :=
  let state := [("version", PInt (mc_kill_switch_version c)); ("changed_at", PTime (mc_kill_switch_changed_at c));
                ("changed_by", PStr (mc_kill_switch_changed_by c))] in
  if mc_kill_switch_active c
  then _gate KILL_SWITCH FAILED "kill_switch_active" (("reason", popt PStr (mc_kill_switch_reason c)) :: state)
  else _gate KILL_SWITCH PASSED "kill_switch_clear" state.

(** [{item.component: item for item in context.health}.get(name)]: the last one. *)
Definition observation (c : MonitoringAdmissionContext) (name : string) : option HealthObservation :=
  find (fun h => bool_decide (ho_component h = name)) (rev (mc_health c)).

(** The mandatory components whose observation is [bad]; all are observed where this is used. *)
Definition components_where (c : MonitoringAdmissionContext) (bad : HealthObservation -> bool) : list string :=
  sorted_strings (List.filter (fun name => match observation c name with Some h => bad h | None => false end)
                    (ap_mandatory_components policy)).

Definition missing_components (c : MonitoringAdmissionContext) : list string :=
  sorted_strings (remove_dups (List.filter (fun name => negb (present (observation c name))) (ap_mandatory_components policy))).

Definition older_than (c : MonitoringAdmissionContext) (maximum : timedelta) (t : datetime) : bool :=
  maximum <? dt_sub (mc_evaluated_at c) t.
Definition from_future (c : MonitoringAdmissionContext) (t : datetime) : bool := dt_ltb (mc_evaluated_at c) t.

Definition _health (c : MonitoringAdmissionContext) : result AdmissionGateResult :=
  match missing_components c with
  | (_ :: _) as missing => _gate HEALTH NOT_APPLICABLE "mandatory_health_missing" [("components", names missing)]
  | [] =>
  match components_where c (fun h => negb (ho_healthy h)) with
  | (_ :: _) as unhealthy => _gate HEALTH FAILED "mandatory_health_unhealthy" [("components", names unhealthy)]
  | [] =>
  match components_where c (fun h => from_future c (ho_observed_at h)) with
  | (_ :: _) as future => _gate HEALTH FAILED "mandatory_health_from_future" [("components", names future)]
  | [] =>
  match components_where c (fun h => older_than c (ap_health_max_age policy) (ho_observed_at h)) with
  | (_ :: _) as stale =>
      _gate HEALTH FAILED "mandatory_health_stale"
        [("components", names stale); ("maximum_age_seconds", whole_seconds (ap_health_max_age policy))]
  | [] => _gate HEALTH PASSED "mandatory_health_fresh" [("components", names (ap_mandatory_components policy))]
  end end end end.

Definition _baseline (c : MonitoringAdmissionContext) : result AdmissionGateResult :=
  match mc_volatility c with
  | None => _gate BASELINE_WARMUP NOT_APPLICABLE "baseline_missing" []
  | Some b =>
      if negb (bool_decide ((vb_symbol b, vb_timeframe b) = (mc_symbol c, mc_timeframe c))) then
        _gate BASELINE_WARMUP FAILED "baseline_identity_mismatch"
          [("expected_symbol", PStr (mc_symbol c)); ("expected_timeframe", PStr (mc_timeframe c));
           ("actual_symbol", PStr (vb_symbol b)); ("actual_timeframe", PStr (vb_timeframe b))]
      else if from_future c (vb_observed_at b) then _gate BASELINE_WARMUP FAILED "baseline_from_future" []
      else if older_than c (ap_market_observation_max_age policy) (vb_observed_at b) then
        _gate BASELINE_WARMUP FAILED "baseline_observation_stale" []
      else if vb_sample_count b <? ap_minimum_baseline_samples policy then
        _gate BASELINE_WARMUP NOT_APPLICABLE "baseline_cold"
          [("sample_count", PInt (vb_sample_count b)); ("minimum_samples", PInt (ap_minimum_baseline_samples policy))]
      else _gate BASELINE_WARMUP PASSED "baseline_warm"
             [("sample_count", PInt (vb_sample_count b)); ("baseline_std", PDec (vb_baseline_std b))]
  end.

(** The baseline, when its gate passes. *)
Definition warm_baseline (c : MonitoringAdmissionContext) : result (option RollingVolatilityBaseline) :=
  let* gate := _baseline c in
  Ok (if bool_decide (ag_status gate = PASSED) then mc_volatility c else None).

Definition _volatility (c : MonitoringAdmissionContext) : result AdmissionGateResult :=
  let* baseline := warm_baseline c in
  match baseline with
  | None => _gate VOLATILITY NOT_APPLICABLE "baseline_unavailable" []
  | Some b =>
      let threshold := (vb_baseline_std b * ap_volatility_multiplier policy)%dec in
      if (vb_current_std b >? threshold)%dec then
        _gate VOLATILITY FAILED "volatility_circuit_breaker"
          [("current_std", PDec (vb_current_std b)); ("baseline_std", PDec (vb_baseline_std b)); ("threshold", PDec threshold)]
      else _gate VOLATILITY PASSED "volatility_within_limit"
             [("current_std", PDec (vb_current_std b)); ("threshold", PDec threshold)]
  end.

Definition _liquidity (c : MonitoringAdmissionContext) : result AdmissionGateResult :=
  let* baseline := warm_baseline c in
  match baseline with
  | None => _gate LIQUIDITY NOT_APPLICABLE "liquidity_observation_missing" []
  | Some b =>
      if (vb_spread_fraction b >? ap_maximum_spread_fraction policy)%dec then
        _gate LIQUIDITY FAILED "liquidity_spread_exceeded"
          [("spread_fraction", PDec (vb_spread_fraction b));
           ("maximum_spread_fraction", PDec (ap_maximum_spread_fraction policy))]
      else _gate LIQUIDITY PASSED "liquidity_within_limit" [("spread_fraction", PDec (vb_spread_fraction b))]
  end.

Definition _benchmark (c : MonitoringAdmissionContext) : result AdmissionGateResult :=
  match mc_benchmark c with
  | None => _gate BENCHMARK NOT_APPLICABLE "benchmark_missing" []
  | Some b =>
      if from_future c (bo_observed_at b) then
        _gate BENCHMARK FAILED "benchmark_from_future" [("source_event_id", PStr (bo_source_event_id b))]
      else if older_than c (ap_benchmark_max_age policy) (bo_observed_at b) then
        _gate BENCHMARK FAILED "benchmark_stale" [("source_event_id", PStr (bo_source_event_id b))]
      else _gate BENCHMARK PASSED "benchmark_explicit_and_fresh"
             [("benchmark_symbol", PStr (bo_symbol b)); ("return_fraction", PDec (bo_return_fraction b));
              ("source_event_id", PStr (bo_source_event_id b)); ("observed_at", PTime (bo_observed_at b))]
  end.

Definition admission_gates : list (MonitoringAdmissionContext -> result AdmissionGateResult) :=
  [_kill_switch; _health; _baseline; _volatility; _liquidity; _benchmark].

Definition admission_evaluate (c : MonitoringAdmissionContext) : result MonitoringAdmissionDecision :=
  let* snapshot := _input_snapshot c in
  let* gates := mapM (fun gate => gate c) admission_gates in
  let blocked := blocking_of gates in
  let allowed := negb (nonempty blocked) in
  let* digest := content_hash sha256_hex (PDict
    [("allowed", PBool allowed); ("input_snapshot", thaw snapshot); ("gates", PSeq (map gate_to_dict gates));
     ("blocking_checks", PSeq (map (fun k => PEnum (enum_value k)) blocked))]) in
  MonitoringAdmissionDecision_post_init
    {| md_allowed := allowed; md_input_snapshot := snapshot; md_gates := gates; md_blocking_checks := blocked;
       md_content_hash := digest |}.
End Admission.

(** ** What each gate means *)

(** The observed time is not in the future and at most [maximum] old. *)
Definition recent (c : MonitoringAdmissionContext) (maximum : timedelta) (t : datetime) : Prop :=
  0 <= dt_sub (mc_evaluated_at c) t <= maximum.

Section Meaning.
Context (policy : OfficialAdmissionPolicy) (c : MonitoringAdmissionContext).

Definition component_fresh (name : string) : Prop :=
  exists h, observation c name = Some h /\ ho_healthy h = true /\ recent c (ap_health_max_age policy) (ho_observed_at h).

Definition baseline_usable (b : RollingVolatilityBaseline) : Prop :=
  mc_volatility c = Some b /\ vb_symbol b = mc_symbol c /\ vb_timeframe b = mc_timeframe c /\
  recent c (ap_market_observation_max_age policy) (vb_observed_at b) /\ ap_minimum_baseline_samples policy <= vb_sample_count b.

Definition admission_meaning (k : AdmissionCheck) : Prop :=
  match k with
  | KILL_SWITCH => mc_kill_switch_active c = false
  | HEALTH => Forall component_fresh (ap_mandatory_components policy)
  | BASELINE_WARMUP => exists b, baseline_usable b
  | VOLATILITY => exists b, baseline_usable b /\
      (dval (vb_current_std b) <= dval (vb_baseline_std b * ap_volatility_multiplier policy)%dec)%Q
  | LIQUIDITY => exists b, baseline_usable b /\ (dval (vb_spread_fraction b) <= dval (ap_maximum_spread_fraction policy))%Q
  | BENCHMARK => exists b, mc_benchmark c = Some b /\ recent c (ap_benchmark_max_age policy) (bo_observed_at b)
  end.
End Meaning.

(** Contexts that exist: what their constructors built. *)
Record valid_monitoring (c : MonitoringAdmissionContext) : Prop := {
  vm_built : exists c0, MonitoringAdmissionContext_post_init c0 = Ok c;
  vm_health : Forall (fun h => HealthObservation_post_init h = Ok h) (mc_health c);
  vm_volatility : forall b, mc_volatility c = Some b -> RollingVolatilityBaseline_post_init b = Ok b;
  vm_benchmark : forall b, mc_benchmark c = Some b -> BenchmarkObservation_post_init b = Ok b
}.

Lemma admission_gate_total k s reason d : freezable (PDict d) = true -> empty reason = false ->
  exists r, _gate k s reason d = Ok r /\ ag_check r = k /\ ag_status r = s.
Proof.
  intros Hf Hr. destruct (freeze_dict_total _ Hf) as [items Hi]. eexists. split; [|split].
  - unfold _gate. pass; [exact Hi|]. pass; [reflexivity|]. unfold AdmissionGateResult_post_init.
    pass; [exact Hr|]. pass; [exact (freeze_thaw (JObj items))|]. pass; reflexivity.
  - reflexivity.
  - reflexivity.
Qed.

Definition admission_answers : AdmissionCheck -> Prop -> result AdmissionGateResult -> Prop := gate_answers ag_check ag_status.

Lemma gate_answer k P s reason d : freezable (PDict d) = true -> empty reason = false -> (s = PASSED <-> P) ->
  admission_answers k P (_gate k s reason d).
Proof. intros Hf Hr Hs. destruct (admission_gate_total k s reason d Hf Hr) as (r & -> & Hk & <-). exists r. auto. Qed.

Lemma freezable_names l : freezable (names l) = true.
Proof. cbn [names freezable]. now apply forallb_freezable. Qed.

Section Answers.
Context (policy : OfficialAdmissionPolicy) (c : MonitoringAdmissionContext) (V : valid_monitoring c).

Lemma monitoring_times : is_utc (mc_evaluated_at c) = true /\ is_utc (mc_kill_switch_changed_at c) = true.
Proof.
  destruct (vm_built c V) as [c0 H]. unfold MonitoringAdmissionContext_post_init in H. py_inv.
  repeat match goal with H : _require_utc _ _ = Ok _ |- _ => apply _require_utc_Ok in H end. split; assumption.
Qed.

(** A refused branch of a gate. *)
Ltac refuse := apply gate_answer; [|reflexivity|]; [try reflexivity | split; [discriminate | let H := fresh in intros H; exfalso; revert H]].

Lemma kill_switch_answers : admission_answers KILL_SWITCH (admission_meaning policy c KILL_SWITCH) (_kill_switch c).
Proof.
  destruct monitoring_times as [_ U]. cbn [admission_meaning]. unfold _kill_switch. destruct (mc_kill_switch_active c).
  - refuse; [cbn [freezable forallb snd]; rewrite freezable_popt, U by reflexivity; reflexivity | discriminate].
  - apply gate_answer; [cbn [freezable forallb snd]; now rewrite U | reflexivity | tauto].
Qed.

Lemma components_where_nil bad : components_where policy c bad = [] <->
  Forall (fun name => forall h, observation c name = Some h -> bad h = false) (ap_mandatory_components policy).
Proof.
  unfold components_where, sorted_strings. rewrite sort_by_nil, filter_nil. apply Forall_iff'. intros n.
  destruct (observation c n) as [h|]; split; auto; try (intros E h' [= <-]; exact E); try congruence.
Qed.

Lemma missing_components_nil : missing_components policy c = [] <->
  Forall (fun name => exists h, observation c name = Some h) (ap_mandatory_components policy).
Proof.
  unfold missing_components, sorted_strings. rewrite sort_by_nil, remove_dups_nil, filter_nil. apply Forall_iff'. intros n.
  destruct (observation c n) as [h|]; cbn; split; eauto; try discriminate. intros [h [=]].
Qed.

Lemma health_answers : admission_answers HEALTH (admission_meaning policy c HEALTH) (_health policy c).
Proof.
  cbn [admission_meaning].
  assert (E : (missing_components policy c = [] /\ components_where policy c (fun h => negb (ho_healthy h)) = [] /\
     components_where policy c (fun h => from_future c (ho_observed_at h)) = [] /\
     components_where policy c (fun h => older_than c (ap_health_max_age policy) (ho_observed_at h)) = []) <->
     Forall (component_fresh policy c) (ap_mandatory_components policy)).
  { rewrite missing_components_nil, !components_where_nil, <- !Forall_and. apply Forall_iff'. intros n.
    unfold component_fresh, recent, from_future, older_than, dt_ltb, dt_sub. split.
    - intros ([h Hh] & H1 & H2 & H3). exists h. specialize (H1 h Hh). specialize (H2 h Hh). specialize (H3 h Hh). bool_prop.
      repeat split; auto; lia.
    - intros (h & Hh & H1 & H2). split; [eauto|]. repeat split; intros h' E; rewrite Hh in E; injection E as <-.
      + now rewrite H1.
      + apply Z.ltb_ge. lia.
      + apply Z.ltb_ge. lia. }
  unfold _health.
  repeat match goal with
  | |- context [match ?l with [] => _ | _ :: _ => _ end] => destruct l eqn:?
  end; try (refuse; [cbn [freezable forallb snd]; now rewrite freezable_names | intros H; apply E in H; intuition discriminate]).
  apply gate_answer; [cbn [freezable forallb snd]; now rewrite freezable_names | reflexivity | tauto].
Qed.

(** The baseline gate passes exactly for a usable baseline, which the two next gates read. *)
Lemma recent_spec maximum t : recent c maximum t <-> from_future c t = false /\ older_than c maximum t = false.
Proof. unfold recent, from_future, older_than, dt_ltb, dt_sub. rewrite !Z.ltb_ge. lia. Qed.

Lemma baseline_gate : exists r, _baseline policy c = Ok r /\ ag_check r = BASELINE_WARMUP /\
  (ag_status r = PASSED <-> exists b, baseline_usable policy c b).
Proof.
  change (admission_answers BASELINE_WARMUP (exists b, baseline_usable policy c b) (_baseline policy c)).
  unfold _baseline, baseline_usable. destruct (mc_volatility c) as [b|]; [|refuse; intros (b & [=] & _)].
  assert (E : forall b', Some b = Some b' -> b' = b) by congruence.
  case_bool_decide as I; cbn [negb].
  2:{ refuse. intros (b' & Hb & H1 & H2 & _). apply E in Hb. subst b'. apply I. congruence. }
  injection I as I1 I2.
  destruct (from_future c (vb_observed_at b)) eqn:F.
  { refuse. intros (b' & Hb & _ & _ & H & _). apply E in Hb. subst b'. apply recent_spec in H as [H _]. congruence. }
  destruct (older_than c _ (vb_observed_at b)) eqn:O.
  { refuse. intros (b' & Hb & _ & _ & H & _). apply E in Hb. subst b'. apply recent_spec in H as [_ H]. congruence. }
  destruct (Z.ltb_spec (vb_sample_count b) (ap_minimum_baseline_samples policy)).
  { refuse. intros (b' & Hb & _ & _ & _ & H'). apply E in Hb. subst b'. lia. }
  apply gate_answer; [reflexivity | reflexivity|]. split; [|reflexivity]. intros _. exists b.
  do 3 (split; [reflexivity || assumption|]). split; [apply recent_spec; auto | assumption].
Qed.

Lemma warm_baseline_spec : exists o, warm_baseline policy c = Ok o /\ forall b, o = Some b <-> baseline_usable policy c b.
Proof.
  destruct baseline_gate as (r & Hr & _ & Hs). unfold warm_baseline. rewrite Hr. cbn [bind]. eexists; split; [reflexivity|].
  intros b. case_bool_decide as I.
  - apply Hs in I as (b' & H). split; [|intros H'; apply H']. intros E. destruct H as (Hb & H). rewrite Hb in E. injection E as <-.
    split; assumption.
  - split; [discriminate|]. intros H. exfalso. apply I, Hs. eauto.
Qed.

Lemma volatility_answers : admission_answers VOLATILITY (admission_meaning policy c VOLATILITY) (_volatility policy c).
Proof.
  cbn [admission_meaning]. destruct warm_baseline_spec as ([b|] & Ho & Hb); unfold _volatility; rewrite Ho; cbn [bind].
  - pose proof (proj1 (Hb b) eq_refl) as U.
    assert (E : forall b', baseline_usable policy c b' -> b' = b) by (intros b' H; apply Hb in H; congruence).
    destruct (_ >? _)%dec eqn:G; dec_prop.
    + refuse. intros (b' & H & L). apply E in H. subst b'. lra.
    + apply gate_answer; [reflexivity | reflexivity|]. split; eauto.
  - refuse. intros (b & H & _). apply Hb in H. discriminate.
Qed.

Lemma liquidity_answers : admission_answers LIQUIDITY (admission_meaning policy c LIQUIDITY) (_liquidity policy c).
Proof.
  cbn [admission_meaning]. destruct warm_baseline_spec as ([b|] & Ho & Hb); unfold _liquidity; rewrite Ho; cbn [bind].
  - pose proof (proj1 (Hb b) eq_refl) as U.
    assert (E : forall b', baseline_usable policy c b' -> b' = b) by (intros b' H; apply Hb in H; congruence).
    destruct (_ >? _)%dec eqn:G; dec_prop.
    + refuse. intros (b' & H & L). apply E in H. subst b'. lra.
    + apply gate_answer; [reflexivity | reflexivity|]. split; eauto.
  - refuse. intros (b & H & _). apply Hb in H. discriminate.
Qed.

Lemma benchmark_utc b : mc_benchmark c = Some b -> is_utc (bo_observed_at b) = true.
Proof. intros H. apply (vm_benchmark c V) in H. unfold BenchmarkObservation_post_init in H. py_inv. now apply _require_utc_Ok in H1. Qed.

Lemma benchmark_answers : admission_answers BENCHMARK (admission_meaning policy c BENCHMARK) (_benchmark policy c).
Proof.
  cbn [admission_meaning]. unfold _benchmark. pose proof benchmark_utc as U.
  destruct (mc_benchmark c) as [b|]; [|refuse; intros (b & [=] & _)]. specialize (U b eq_refl).
  assert (E : forall b', Some b = Some b' -> b' = b) by congruence.
  destruct (from_future c (bo_observed_at b)) eqn:F.
  { refuse. intros (b' & Hb & H). apply E in Hb. subst b'. apply recent_spec in H as [H _]. congruence. }
  destruct (older_than c _ (bo_observed_at b)) eqn:O.
  { refuse. intros (b' & Hb & H). apply E in Hb. subst b'. apply recent_spec in H as [_ H]. congruence. }
  apply gate_answer; [cbn [freezable forallb snd]; now rewrite U | reflexivity|]. split; [|reflexivity]. intros _. exists b.
  split; [reflexivity | apply recent_spec; auto].
Qed.

Lemma admission_gates_answer : exists gates, mapM (fun gate => gate c) (admission_gates policy) = Ok gates /\
  Forall2 (answered ag_check ag_status (admission_meaning policy c)) admission_checks gates.
Proof.
  apply gates_answer. unfold admission_gates, admission_checks. cbn [map]. repeat apply List.Forall2_cons; try apply List.Forall2_nil.
  - exact kill_switch_answers.
  - exact health_answers.
  - exact baseline_gate.
  - exact volatility_answers.
  - exact liquidity_answers.
  - exact benchmark_answers.
Qed.

Lemma admission_snapshot_total : exists items, _input_snapshot policy c = Ok (JObj items).
Proof.
  assert (F : freezable (input_snapshot_value policy c) = true).
  { destruct monitoring_times as [U1 U2]. unfold input_snapshot_value. cbn [freezable forallb snd].
    rewrite freezable_names, U1, U2, !freezable_popt; try reflexivity.
    - enough (forallb freezable (map health_to_dict (mc_health c)) = true) as -> by reflexivity.
      apply forallb_forall. intros v Hv. apply in_map_iff in Hv as (h & <- & Hin).
      pose proof (proj1 (List.Forall_forall _ _) (vm_health c V) h Hin) as Hh. unfold HealthObservation_post_init in Hh. py_inv.
      apply _require_utc_Ok in H0. cbn [health_to_dict freezable forallb snd]. rewrite H0, freezable_popt; reflexivity.
    - intros b Hb. apply benchmark_utc in Hb. cbn. now rewrite Hb.
    - intros b Hb. apply (vm_volatility c V) in Hb. unfold RollingVolatilityBaseline_post_init in Hb. py_inv.
      match goal with H : _require_utc _ _ = Ok _ |- _ => apply _require_utc_Ok in H; cbn; now rewrite H end. }
  destruct (freeze_dict_total _ F) as [items Hi]. exists items. unfold _input_snapshot. pass; [exact Hi | reflexivity].
Qed.
End Answers.

(** ** The properties *)

(** C12: Entries are admitted exactly when all six gates hold of the context: the
    kill switch is off, every mandatory component was seen healthy within its
    age, the baseline is the symbol's own, recent and warm, its volatility and
    spread are within the limits and a recent benchmark is present.  The
    decision is always produced; it blocks exactly the gates that do not hold,
    in their order. *)
Theorem admission_admits_exactly sha256_hex policy c :
  (forall text, String.length (sha256_hex text) = 64%nat) -> valid_monitoring c ->
  exists d, admission_evaluate sha256_hex policy c = Ok d /\
    (md_allowed d = true <-> forall k, admission_meaning policy c k) /\
    (forall k, In k (md_blocking_checks d) <-> ~ admission_meaning policy c k) /\
    map ag_check (md_gates d) = admission_checks /\ sublist (md_blocking_checks d) admission_checks.
Proof.
  intros Hh V. destruct (admission_gates_answer policy c V) as (gates & Hg & A).
  destruct (admission_snapshot_total policy c V) as [items Hs].
  assert (Hk : map ag_check gates = admission_checks).
  { clear - A. induction A as [|k r ks rs [<- _] _ IH]; cbn; [reflexivity | now rewrite IH]. }
  assert (Hin : forall k, In k admission_checks) by (intros []; cbn; tauto).
  unfold admission_evaluate. rewrite Hs, Hg. cbn [bind].
  match goal with |- context [content_hash sha256_hex ?v] => destruct (content_hash_total sha256_hex v) as [t Ht] end.
  { cbn [freezable forallb snd]. rewrite freezable_thaw, !forallb_freezable; [reflexivity | reflexivity |].
    intros r. unfold gate_to_dict. cbn [freezable forallb snd]. now rewrite freezable_thaw. }
  rewrite Ht. cbn [bind]. eexists. split.
  { unfold MonitoringAdmissionDecision_post_init. pass; [cbn [md_gates]; now rewrite bool_decide_true|].
    pass; [cbn [md_gates md_blocking_checks md_allowed]; rewrite bool_decide_true, eqb_reflx by reflexivity; reflexivity|].
    pass; [cbn [md_content_hash]; now rewrite Hh|]. pass; [exact (freeze_thaw (JObj items))|]. pass; reflexivity. }
  cbn [md_allowed md_blocking_checks md_gates]. unfold blocking_of. split; [|split; [|split; [exact Hk|]]].
  - pose proof (blocking_nil ag_check ag_status _ _ _ A) as B. rewrite List.Forall_forall in B.
    destruct (blocking ag_check ag_status gates) as [|k l]; cbn; split; try discriminate.
    + intros _ k. now apply B.
    + reflexivity.
    + intros H. assert (E : k :: l = []) by (apply B; auto). discriminate.
  - intros k. rewrite (In_blocking ag_check ag_status _ _ _ k A). split; [tauto | auto].
  - rewrite <- Hk. unfold blocking. clear. induction gates as [|r gates IH]; cbn; [constructor|].
    destruct (not_passed _ r); cbn; [now apply sublist_skip | now apply sublist_cons].
Qed.

Definition demo_monitoring : MonitoringAdmissionContext := {|
  mc_symbol := "BTCUSDT"; mc_timeframe := "1m"; mc_evaluated_at := utc (seconds 100); mc_kill_switch_active := false;
  mc_kill_switch_reason := None; mc_kill_switch_version := 1; mc_kill_switch_changed_at := utc 0;
  mc_kill_switch_changed_by := "operator";
  mc_health := map (fun name => {| ho_component := name; ho_healthy := true; ho_observed_at := utc (seconds 95); ho_error := None |})
    (sorted_strings component_names);
  mc_volatility := Some {| vb_symbol := "BTCUSDT"; vb_timeframe := "1m"; vb_sample_count := 60; vb_baseline_std := dint 2;
    vb_current_std := dint 3; vb_spread_fraction := mkdec 1 (-3); vb_observed_at := utc (seconds 99) |};
  mc_benchmark := None |}.

Definition toy_hash (_ : string) : string := "0123456789abcdef0123456789abcdef0123456789abcdef0123456789abcdef".

(** Everything is in order but the benchmark. *)
Lemma admission_admits_exactly_witness : exists d, admission_evaluate toy_hash conservative demo_monitoring = Ok d /\
  md_allowed d = false /\ md_blocking_checks d = [BENCHMARK].
Proof.
  destruct (admission_admits_exactly toy_hash conservative demo_monitoring) as (d & Hd & _ & Hb & _).
  - reflexivity.
  - split; [exists demo_monitoring; vm_compute; reflexivity | | | discriminate].
    + repeat (apply List.Forall_cons; [vm_compute; reflexivity|]). apply List.Forall_nil.
    + intros b [= <-]. vm_compute. reflexivity.
  - assert (E : match admission_evaluate toy_hash conservative demo_monitoring with
                | Ok d => (md_allowed d, md_blocking_checks d) | Raise _ => (true, []) end = (false, [BENCHMARK]))
      by (vm_compute; reflexivity).
    rewrite Hd in E. injection E as E1 E2. exists d. auto.
Defined.
