(* ===== verification/History.v ===== *)
(** * Causal frame history: [maais/market_data/history.py]

    The rolling window of committed frames from which features and integrity
    contexts are computed, and its restoration after a restart.

    The history is an object that changes in place: an operation takes the
    history and returns the new one.  [restore] assigns symbol after symbol, so
    it returns the history it leaves behind even when it raises.  The frozen set
    of symbols is the list of its members; its order decides only which symbol a
    conflict names.  The feature pipeline, which works in floating point, is a
    parameter; its inputs are modelled. *)

From Stdlib Require Import ZArith QArith Lia List Bool Ascii String Sorted Permutation.
From stdpp Require Import base decidable list strings sorting.
From S2P Require Import Prelude PyDecimal DecimalTheory Domain Json MarketEvents Frames Integrity EventLog.

Local Open Scope Z_scope.

Record CommittedFrameSnapshot : Type := {
  hs_experiment_id : UUID;
  hs_frame_id : UUID;
  hs_symbol : string;
  hs_timeframe : string;
  hs_bar : ClosedBarPayload;
  hs_primary_spot_price : option dec;
  hs_primary_spot_event_id : option string;
  hs_primary_spot_observed_at : option datetime;
  hs_source_sequences : pydict Z;
  hs_content_hash : string
}.

Definition CommittedFrameSnapshot_post_init (s : CommittedFrameSnapshot) : result CommittedFrameSnapshot :=
  do* raise_if ((hs_experiment_id s =? 0) || (hs_frame_id s =? 0)) (ValueError "history snapshot UUIDs cannot be nil") ;;
  do* raise_if (negb (upper_symbol (hs_symbol s)) || empty (hs_timeframe s))
        (ValueError "history snapshot identity is invalid") ;;
  do* raise_if (negb (bool_decide (cb_timeframe (hs_bar s) = hs_timeframe s)) || negb (cb_closed (hs_bar s)))
        (ValueError "history snapshot requires a matching closed bar") ;;
  let spot := [present (hs_primary_spot_price s); present (hs_primary_spot_event_id s); present (hs_primary_spot_observed_at s)] in
  do* raise_if (negb (Bool.eqb (existsb negb spot) (forallb negb spot)))
        (ValueError "history primary spot evidence must be complete") ;;
  do* raise_if (match hs_primary_spot_price s with Some p => (p <=? dzero)%dec | None => false end)
        (ValueError "history primary spot price must be positive and finite") ;;
  do* raise_if (match hs_primary_spot_observed_at s with Some t => negb (is_utc t) | None => false end)
        (ValueError "history primary spot observation must be UTC-aware") ;;
  do* raise_if (existsb (fun nv => empty (fst nv) || (snd nv <? 0)) (hs_source_sequences s))
        (ValueError "history source sequences must be named and nonnegative") ;;
  do* raise_if (negb (String.length (hs_content_hash s) =? 64)%nat) (ValueError "history content_hash must be SHA-256") ;;
  Ok s.

(** [{name: source.sequence for ... if source.sequence is not None}]. *)
Definition sequences_of (manifest : pydict SourceObservation) : pydict Z :=
  flat_map (fun ns => match so_sequence (snd ns) with Some q => [(fst ns, q)] | None => [] end) manifest.

Definition snapshot_of (f : CausalMinuteFrame) : CommittedFrameSnapshot :=
  let spot_source := dict_get (cf_source_manifest f) "primary_spot" in {|
  hs_experiment_id := fk_experiment_id (cf_key f); hs_frame_id := cf_frame_id f; hs_symbol := fk_symbol (cf_key f);
  hs_timeframe := fk_timeframe (cf_key f); hs_bar := cf_bar f; hs_primary_spot_price := cf_primary_spot_price f;
  hs_primary_spot_event_id := option_map so_event_id spot_source;
  hs_primary_spot_observed_at := option_map so_observed_at spot_source;
  hs_source_sequences := sequences_of (cf_source_manifest f); hs_content_hash := cf_content_hash f |}.

Definition from_frame (f : CausalMinuteFrame) : result CommittedFrameSnapshot :=
  CommittedFrameSnapshot_post_init (snapshot_of f).

Definition snapshot_open (s : CommittedFrameSnapshot) : datetime := cb_bar_open_at (hs_bar s).
Definition snapshot_close (s : CommittedFrameSnapshot) : datetime := cb_bar_close_at (hs_bar s).

Record CausalFrameHistory : Type := {
  hi_experiment_id : UUID;
  hi_symbols : list string;
  hi_timeframe : string;
  hi_maximum_bars : Z;
  hi_snapshots : pydict (list CommittedFrameSnapshot)
}.

Definition with_snapshots (h : CausalFrameHistory) (snapshots : pydict (list CommittedFrameSnapshot)) : CausalFrameHistory := {|
  hi_experiment_id := hi_experiment_id h; hi_symbols := hi_symbols h; hi_timeframe := hi_timeframe h;
  hi_maximum_bars := hi_maximum_bars h; hi_snapshots := snapshots |}.

Definition history_init (experiment_id : UUID) (symbols : list string) (timeframe : string) (maximum_bars : Z)
  : result CausalFrameHistory :=
  do* raise_if (experiment_id =? 0) (ValueError "history experiment_id cannot be nil") ;;
  do* raise_if (negb (nonempty symbols) || negb (length (remove_dups symbols) =? length symbols)%nat)
        (ValueError "history symbols must be nonempty and unique") ;;
  do* raise_if (existsb (fun s => negb (upper_symbol s)) symbols) (ValueError "history symbols must be uppercase") ;;
  do* raise_if (empty timeframe || (maximum_bars <? 60)) (ValueError "history requires a timeframe and at least 60 bars") ;;
  Ok {| hi_experiment_id := experiment_id; hi_symbols := symbols; hi_timeframe := timeframe;
        hi_maximum_bars := maximum_bars; hi_snapshots := map (fun s => (s, [])) symbols |}.

Definition _validate_identity (h : CausalFrameHistory) (experiment_id : UUID) (symbol timeframe : string) : result unit :=
  raise_if (negb (experiment_id =? hi_experiment_id h) || negb (bool_decide (symbol ∈ hi_symbols h)) ||
            negb (bool_decide (timeframe = hi_timeframe h)))
    (ValueError "frame history identity differs from runtime configuration").

(** [sorted(values, key=lambda item: item.bar.bar_close_at)], stable. *)
Fixpoint insert_snapshot (s : CommittedFrameSnapshot) (l : list CommittedFrameSnapshot) : list CommittedFrameSnapshot :=
  match l with
  | [] => [s]
  | x :: l' => if dt_ltb (snapshot_close x) (snapshot_close s) then x :: insert_snapshot s l' else s :: l
  end.
Definition sort_snapshots (l : list CommittedFrameSnapshot) : list CommittedFrameSnapshot := fold_right insert_snapshot [] l.

(** [values[-n:]] for a positive [n]. *)
Definition last_n {A} (n : Z) (l : list A) : list A := skipn (length l - Z.to_nat n) l.

(** The checks on neighbours, over [zip(ordered, ordered[1:])]. *)
Fixpoint check_neighbours (symbol : string) (l : list CommittedFrameSnapshot) : result unit :=
  match l with
  | x :: ((y :: _) as l') =>
      do* raise_if (negb (dt_eqb (snapshot_close x) (snapshot_open y)))
            (FrameHistoryConflict ("persisted history is not contiguous for " +:+ symbol)) ;;
      do* raise_if ((hs_frame_id x =? hs_frame_id y) || bool_decide (hs_content_hash x = hs_content_hash y))
            (FrameHistoryConflict ("persisted history is duplicated for " +:+ symbol)) ;;
      check_neighbours symbol l'
  | _ => Ok tt
  end.

Definition of_symbol (symbol : string) (l : list CommittedFrameSnapshot) : list CommittedFrameSnapshot :=
  List.filter (fun s => bool_decide (hs_symbol s = symbol)) l.

(** The second loop of [restore]: what it leaves when it stops. *)
Fixpoint restore_symbols (h : CausalFrameHistory) (symbols : list string) (snapshots : list CommittedFrameSnapshot)
  : CausalFrameHistory * result unit :=
  match symbols with
  | [] => (h, Ok tt)
  | symbol :: symbols' =>
      let ordered := sort_snapshots (of_symbol symbol snapshots) in
      match check_neighbours symbol ordered with
      | Raise e => (h, Raise e)
      | Ok _ =>
          restore_symbols (with_snapshots h (dict_set (hi_snapshots h) symbol (last_n (hi_maximum_bars h) ordered)))
            symbols' snapshots
      end
  end.

Definition restore (h : CausalFrameHistory) (snapshots : list CommittedFrameSnapshot) : CausalFrameHistory * result unit :=
  if existsb nonempty (dict_values (hi_snapshots h))
  then (h, Raise (FrameHistoryConflict "history can only be restored before use"))
  else
    match iterM (fun s => _validate_identity h (hs_experiment_id s) (hs_symbol s) (hs_timeframe s)) snapshots with
    | Raise e => (h, Raise e)
    | Ok _ => restore_symbols h (hi_symbols h) snapshots
    end.

Definition window (h : CausalFrameHistory) (symbol : string) : result (list CommittedFrameSnapshot) :=
  of_option (LookupError symbol) (dict_get (hi_snapshots h) symbol).

Definition same_content (s : CommittedFrameSnapshot) (f : CausalMinuteFrame) : bool :=
  (hs_frame_id s =? cf_frame_id f) && bool_decide (hs_content_hash s = cf_content_hash f).

Definition frame_close (f : CausalMinuteFrame) : datetime := cb_bar_close_at (cf_bar f).
Definition frame_open (f : CausalMinuteFrame) : datetime := cb_bar_open_at (cf_bar f).

Definition _prior (h : CausalFrameHistory) (f : CausalMinuteFrame) : result (list CommittedFrameSnapshot) :=
  do* _validate_identity h (fk_experiment_id (cf_key f)) (fk_symbol (cf_key f)) (fk_timeframe (cf_key f)) ;;
  let* values := window h (fk_symbol (cf_key f)) in
  do* raise_if (existsb (fun s => dt_ltb (frame_close f) (snapshot_close s)) values)
        (FrameHistoryConflict "cannot evaluate a frame behind committed history") ;;
  do* raise_if (match List.filter (fun s => dt_eqb (snapshot_close s) (frame_close f)) values with
                | s :: _ => negb (same_content s f)
                | [] => false
                end) (FrameHistoryConflict "frame time has different committed content") ;;
  Ok (List.filter (fun s => dt_ltb (snapshot_close s) (frame_close f)) values).

Definition commit (h : CausalFrameHistory) (f : CausalMinuteFrame) : result (bool * CausalFrameHistory) :=
  let* prior := _prior h f in
  let* values := window h (fk_symbol (cf_key f)) in
  let append :=
    do* raise_if (match last prior with Some p => negb (dt_eqb (snapshot_close p) (frame_open f)) | None => false end)
          (FrameHistoryConflict "committed frame does not continue causal history") ;;
    let* snapshot := from_frame f in
    Ok (true, with_snapshots h (dict_set (hi_snapshots h) (fk_symbol (cf_key f)) (last_n (hi_maximum_bars h) (values ++ [snapshot])))) in
  match last values with
  | Some existing =>
      if dt_eqb (snapshot_close existing) (frame_close f) then
        do* raise_if (negb (same_content existing f)) (FrameHistoryConflict "committed frame time has different content") ;;
        Ok (false, h)
      else append
  | None => append
  end.

(** [snapshots]: the window under a readable error. *)
Definition snapshots (h : CausalFrameHistory) (symbol : string) : result (list CommittedFrameSnapshot) :=
  of_option (ValueError ("history symbol is not configured: " +:+ symbol)) (dict_get (hi_snapshots h) symbol).

Definition close_series (h : CausalFrameHistory) (symbol : string) : result (list (datetime * dec)) :=
  let* values := snapshots h symbol in Ok (map (fun s => (snapshot_close s, cb_close (hs_bar s))) values).

Definition benchmark_base (h : CausalFrameHistory) (symbol : string) (horizon_bars : Z) : result (option CommittedFrameSnapshot) :=
  do* raise_if (horizon_bars <? 2) (ValueError "benchmark horizon must contain at least two bars") ;;
  let* values := snapshots h symbol in
  if Z.of_nat (length values) <? horizon_bars then Ok None
  else
    let* candidate := of_option (LookupError "tuple index out of range")
                        (nth_error values (length values - Z.to_nat horizon_bars)) in
    Ok (if present (hs_primary_spot_price candidate) then Some candidate else None).

(** [(current - previous) / previous] over [zip(closes, closes[1:])]. *)
Fixpoint close_returns (closes : list dec) : result (list dec) :=
  match closes with
  | previous :: ((current :: _) as closes') =>
      let* r := ddiv (current - previous)%dec previous in
      let* rest := close_returns closes' in
      Ok (r :: rest)
  | _ => Ok []
  end.

Definition integrity_context (h : CausalFrameHistory) (f : CausalMinuteFrame) (evaluated_at : datetime) : result IntegrityContext :=
  let* prior := _prior h f in
  let previous := last prior in
  let* returns := close_returns (map (fun s => cb_close (hs_bar s)) prior) in
  IntegrityContext_post_init {|
    ic_frame := f; ic_evaluated_at := evaluated_at; ic_previous_bar_close_at := option_map snapshot_close previous;
    ic_previous_close := option_map (fun s => cb_close (hs_bar s)) previous;
    ic_prior_sequences := match previous with Some s => hs_source_sequences s | None => [] end;
    ic_recent_close_returns := returns; ic_historical_bar_count := Z.of_nat (length prior) |}.

(** ** The inputs of the feature pipeline *)

Record KlineData : Type := {
  kl_symbol : string;
  kl_timeframe : string;
  kl_open_time : datetime;
  kl_open : dec;
  kl_high : dec;
  kl_low : dec;
  kl_close : dec;
  kl_volume : dec;
  kl_close_time : datetime;
  kl_quote_volume : dec;
  kl_trade_count : Z;
  kl_taker_buy_volume : dec;
  kl_taker_buy_quote_volume : dec;
  kl_is_closed : bool
}.

Record FundingRateData : Type := { fd_symbol : string; fd_funding_time : datetime; fd_funding_rate : dec; fd_mark_price : dec }.

Record OrderBookSnapshot : Type := {
  os_symbol : string; os_timestamp : datetime; os_bids : list (dec * dec); os_asks : list (dec * dec); os_last_update_id : Z
}.

Definition _kline (symbol : string) (b : ClosedBarPayload) : KlineData := {|
  kl_symbol := symbol; kl_timeframe := cb_timeframe b; kl_open_time := cb_bar_open_at b; kl_open := cb_open b;
  kl_high := cb_high b; kl_low := cb_low b; kl_close := cb_close b; kl_volume := cb_volume b;
  kl_close_time := cb_bar_close_at b; kl_quote_volume := cb_quote_volume b; kl_trade_count := cb_trade_count b;
  kl_taker_buy_volume := cb_taker_buy_volume b; kl_taker_buy_quote_volume := cb_taker_buy_quote_volume b;
  kl_is_closed := cb_closed b |}.

Definition level_pair (l : PriceLevel) : dec * dec := (pl_price l, pl_quantity l).

Definition order_book_of (f : CausalMinuteFrame) : option OrderBookSnapshot :=
  match dict_get (cf_source_manifest f) "order_book" with
  | Some source =>
      if nonempty (cf_book_bids f) && nonempty (cf_book_asks f) then Some {|
        os_symbol := fk_symbol (cf_key f); os_timestamp := so_observed_at source; os_bids := map level_pair (cf_book_bids f);
        os_asks := map level_pair (cf_book_asks f);
        os_last_update_id := match so_sequence source with Some q => q | None => 0 end |}
      else None
  | None => None
  end.

Definition funding_of (f : CausalMinuteFrame) : option FundingRateData :=
  match cf_funding_rate f, cf_mark_price f, dict_get (cf_source_manifest f) "mark_funding" with
  | Some rate, Some mark, Some source => Some {|
      fd_symbol := fk_symbol (cf_key f); fd_funding_time := so_venue_event_at source; fd_funding_rate := rate; fd_mark_price := mark |}
  | _, _, _ => None
  end.

Section Pipeline.
Context {F : Type} (pipeline : string -> list KlineData -> option OrderBookSnapshot -> option FundingRateData -> string -> result (option F)).

Definition compute (h : CausalFrameHistory) (f : CausalMinuteFrame) : result (option F) :=
  let* prior := _prior h f in
  pipeline (fk_symbol (cf_key f)) (map (fun s => _kline (hs_symbol s) (hs_bar s)) prior ++ [_kline (fk_symbol (cf_key f)) (cf_bar f)])
    (order_book_of f) (funding_of f) (fk_timeframe (cf_key f)).
End Pipeline.

(** ** Windows *)

(** Neighbouring bars of the list touch. *)
Fixpoint contiguous (l : list CommittedFrameSnapshot) : Prop :=
  match l with
  | x :: ((y :: _) as l') => dt_eqb (snapshot_close x) (snapshot_open y) = true /\ contiguous l'
  | _ => True
  end.

(** ... and hold different frames. *)
Fixpoint distinct_neighbours (l : list CommittedFrameSnapshot) : Prop :=
  match l with
  | x :: ((y :: _) as l') => hs_frame_id x <> hs_frame_id y /\ hs_content_hash x <> hs_content_hash y /\ distinct_neighbours l'
  | _ => True
  end.

Definition barred (s : CommittedFrameSnapshot) : Prop := valid_bar (hs_bar s).
Definition earlier (x y : CommittedFrameSnapshot) : Prop := instant (snapshot_close x) < instant (snapshot_close y).

Lemma utc_eqb a b : is_utc a = true -> is_utc b = true -> dt_eqb a b = (instant a =? instant b).
Proof. intros Ua Ub. unfold dt_eqb. now rewrite (same_awareness_utc _ _ Ua Ub). Qed.

Lemma barred_facts s : barred s -> is_utc (snapshot_open s) = true /\ is_utc (snapshot_close s) = true /\
  instant (snapshot_open s) < instant (snapshot_close s).
Proof. intros H. apply valid_bar_facts in H. split; [|split]; apply H. Qed.

Lemma contiguous_app l y : contiguous l -> (forall x, last l = Some x -> dt_eqb (snapshot_close x) (snapshot_open y) = true) ->
  contiguous (l ++ [y]).
Proof.
  induction l as [|x l IH]; intros C H; [exact I|]. destruct l as [|x' l]; cbn [app contiguous].
  - split; [now apply H | exact I].
  - destruct C as [C1 C2]. split; [exact C1|]. apply IH; assumption.
Qed.

Lemma contiguous_earlier l : Forall barred l -> contiguous l -> StronglySorted earlier l.
Proof.
  induction l as [|x l IH]; intros B C; [constructor|]. apply Forall_cons in B as [Bx B].
  assert (S : StronglySorted earlier l).
  { apply IH; [exact B|]. destruct l; [exact I | apply C]. }
  constructor; [exact S|]. destruct l as [|y l]; [constructor|]. destruct C as [C _]. apply Forall_cons in B as [By _].
  assert (Hxy : earlier x y).
  { destruct (barred_facts x Bx) as (_ & Ux & _), (barred_facts y By) as (Uy & _ & Ly).
    rewrite (utc_eqb _ _ Ux Uy) in C. unfold earlier. bool_prop. lia. }
  apply StronglySorted_inv in S as [_ Fy]. constructor; [exact Hxy|].
  eapply List.Forall_impl; [|exact Fy]. intros z Hz. unfold earlier in *. lia.
Qed.

Lemma contiguous_last_n n l : contiguous l -> contiguous (last_n n l).
Proof.
  unfold last_n. generalize (length l - Z.to_nat n)%nat. intros k. revert l. induction k as [|k IH]; intros l C; [exact C|].
  destruct l as [|x l]; [exact I|]. cbn [skipn]. apply IH. destruct l; [exact I | apply C].
Qed.

Lemma last_n_snoc {A} n (l : list A) x : 0 < n -> last_n n (last_n n l ++ [x]) = last_n n (l ++ [x]).
Proof.
  intros Hn. unfold last_n. remember (length l - Z.to_nat n)%nat as k eqn:Hk.
  assert (Ha : length (firstn k l) = k) by (rewrite length_firstn; lia).
  pose proof (firstn_skipn k l) as E. assert (Hb : length (skipn k l) = (length l - k)%nat) by apply length_skipn.
  revert Hk Ha Hb E. generalize (firstn k l) (skipn k l). intros a b Hk Ha Hb <-. rewrite <- app_assoc, !length_app in *. cbn [length].
  rewrite (skipn_app _ a), (skipn_all2 a) by lia. cbn [app]. f_equal. lia.
Qed.

Lemma last_last_n {A} n (l : list A) : 0 < n -> last (last_n n l) = last l.
Proof.
  intros Hn. destruct l as [|x l] using rev_ind; [unfold last_n; now rewrite skipn_nil|]. clear IHl.
  unfold last_n. rewrite length_app, skipn_app. cbn [length].
  replace (length l + 1 - Z.to_nat n - length l)%nat with 0%nat by lia. cbn [skipn]. now rewrite !last_app_one.
Qed.

Lemma last_n_Forall {A} (Q : A -> Prop) n l : Forall Q l -> Forall Q (last_n n l).
Proof.
  unfold last_n. intros H. rewrite <- (firstn_skipn (length l - Z.to_nat n) l) in H. now apply List.Forall_app in H.
Qed.

(** ** What is committed *)

Inductive committed (h0 : CausalFrameHistory) : CausalFrameHistory -> list CommittedFrameSnapshot -> Prop :=
| committed_none : committed h0 h0 []
| committed_frame h log f appended h' :
    committed h0 h log -> valid_bar (cf_bar f) -> commit h f = Ok (appended, h') ->
    committed h0 h' (if appended then log ++ [snapshot_of f] else log).

Definition snapshot_identity (h : CausalFrameHistory) (s : CommittedFrameSnapshot) : Prop :=
  _validate_identity h (hs_experiment_id s) (hs_symbol s) (hs_timeframe s) = Ok tt.
Definition frame_identity (h : CausalFrameHistory) (f : CausalMinuteFrame) : Prop :=
  _validate_identity h (fk_experiment_id (cf_key f)) (fk_symbol (cf_key f)) (fk_timeframe (cf_key f)) = Ok tt.

(** The history holds the end of the log of each of its symbols. *)
Record tracks (h0 h : CausalFrameHistory) (log : list CommittedFrameSnapshot) : Prop := {
  tk_same : h = with_snapshots h0 (hi_snapshots h);
  tk_keys : map fst (hi_snapshots h) = hi_symbols h0;
  tk_windows : forall symbol, elem_of symbol (hi_symbols h0) ->
    dict_get (hi_snapshots h) symbol = Some (last_n (hi_maximum_bars h0) (of_symbol symbol log));
  tk_bars : Forall barred log;
  tk_identity : Forall (snapshot_identity h0) log;
  tk_chain : forall symbol, contiguous (of_symbol symbol log)
}.

Lemma sorted_last l x : StronglySorted earlier l -> last l = Some x -> Forall (fun y => y = x \/ earlier y x) l.
Proof.
  induction l as [|y l IH]; intros S H; [discriminate|]. apply StronglySorted_inv in S as [S Fy].
  destruct l as [|z l]; [injection H as ->; constructor; [auto | constructor]|].
  pose proof (IH S H) as F. constructor; [|exact F]. right.
  assert (Hx : elem_of x (z :: l)) by (apply last_Some_elem_of; exact H).
  apply list_elem_of_In in Hx. exact (proj1 (List.Forall_forall _ _) Fy x Hx).
Qed.

Lemma of_symbol_app symbol l l' : of_symbol symbol (l ++ l') = of_symbol symbol l ++ of_symbol symbol l'.
Proof. apply List.filter_app. Qed.

Lemma of_symbol_barred symbol l : Forall barred l -> Forall barred (of_symbol symbol l).
Proof. apply incl_Forall, List.incl_filter. Qed.

Section Tracking.
Context (h0 h : CausalFrameHistory) (log : list CommittedFrameSnapshot) (T : tracks h0 h log) (Hmax : 0 < hi_maximum_bars h0).

Lemma tracked_parameters : hi_experiment_id h = hi_experiment_id h0 /\ hi_symbols h = hi_symbols h0 /\
  hi_timeframe h = hi_timeframe h0 /\ hi_maximum_bars h = hi_maximum_bars h0.
Proof. rewrite (tk_same _ _ _ T). repeat split. Qed.

Lemma tracked_identity f : frame_identity h f <-> frame_identity h0 f.
Proof.
  unfold frame_identity, _validate_identity. destruct tracked_parameters as (-> & -> & -> & _). reflexivity.
Qed.

Lemma identity_symbol f : frame_identity h0 f -> elem_of (fk_symbol (cf_key f)) (hi_symbols h0).
Proof. unfold frame_identity, _validate_identity. intros H. py_inv. bool_prop. assumption. Qed.

Context (f : CausalMinuteFrame) (B : valid_bar (cf_bar f)) (I : frame_identity h0 f).
Let symbol := fk_symbol (cf_key f).
Let entire := of_symbol symbol log.
Let w := last_n (hi_maximum_bars h0) entire.

Lemma window_sorted : Forall barred w /\ StronglySorted earlier w /\ window h symbol = Ok w.
Proof.
  assert (Hw : Forall barred w) by (apply last_n_Forall, of_symbol_barred, (tk_bars _ _ _ T)).
  split; [exact Hw|]. split; [apply contiguous_earlier; [exact Hw | apply contiguous_last_n, (tk_chain _ _ _ T)]|].
  unfold window. rewrite (tk_windows _ _ _ T) by now apply identity_symbol. reflexivity.
Qed.

Lemma frame_utc : is_utc (frame_close f) = true /\ is_utc (frame_open f) = true /\ instant (frame_open f) < instant (frame_close f).
Proof. apply valid_bar_facts in B. split; [|split]; apply B. Qed.

Lemma close_eqb s : In s w -> dt_eqb (snapshot_close s) (frame_close f) = (instant (snapshot_close s) =? instant (frame_close f)).
Proof.
  intros Hs. destruct window_sorted as (Hb & _). pose proof (proj1 (List.Forall_forall _ _) Hb s Hs) as Hs'.
  apply utc_eqb; [apply (barred_facts s Hs') | apply frame_utc].
Qed.

Lemma prior_start : _prior h f =
  do* raise_if (existsb (fun s => dt_ltb (frame_close f) (snapshot_close s)) w)
        (FrameHistoryConflict "cannot evaluate a frame behind committed history") ;;
  do* raise_if (match List.filter (fun s => dt_eqb (snapshot_close s) (frame_close f)) w with
                | s :: _ => negb (same_content s f)
                | [] => false
                end) (FrameHistoryConflict "frame time has different committed content") ;;
  Ok (List.filter (fun s => dt_ltb (snapshot_close s) (frame_close f)) w).
Proof.
  destruct window_sorted as (_ & _ & Hw). pose proof (proj2 (tracked_identity f) I) as Hi. unfold frame_identity in Hi.
  unfold _prior. rewrite Hi. cbn [bind]. fold symbol. now rewrite Hw.
Qed.

Lemma prior_empty : w = [] -> _prior h f = Ok [].
Proof. intros E. rewrite prior_start, E. reflexivity. Qed.

Context (x : CommittedFrameSnapshot) (Hx : last w = Some x).

Lemma prior_behind : instant (frame_close f) < instant (snapshot_close x) ->
  _prior h f = Raise (FrameHistoryConflict "cannot evaluate a frame behind committed history").
Proof.
  intros L. rewrite prior_start. assert (existsb (fun s => dt_ltb (frame_close f) (snapshot_close s)) w = true) as ->; [|reflexivity].
  apply existsb_exists. exists x. split; [now apply last_In | now apply Z.ltb_lt].
Qed.

Lemma window_bounded y : In y w -> y = x \/ earlier y x.
Proof.
  destruct window_sorted as (_ & S & _). intros Hy. exact (proj1 (List.Forall_forall _ _) (sorted_last w x S Hx) y Hy).
Qed.

Lemma none_later : instant (snapshot_close x) <= instant (frame_close f) ->
  existsb (fun s => dt_ltb (frame_close f) (snapshot_close s)) w = false.
Proof.
  intros L. apply existsb_false_Forall, List.Forall_forall. intros y Hy. apply Z.ltb_ge.
  destruct (window_bounded y Hy) as [->|E]; [exact L|]. unfold earlier in E. lia.
Qed.

Lemma prior_same : instant (snapshot_close x) = instant (frame_close f) ->
  _prior h f = if same_content x f then Ok (List.filter (fun s => dt_ltb (snapshot_close s) (frame_close f)) w)
               else Raise (FrameHistoryConflict "frame time has different committed content").
Proof.
  intros E. rewrite prior_start, none_later by lia. cbn [raise_if bind].
  assert (Hf : exists l, List.filter (fun s => dt_eqb (snapshot_close s) (frame_close f)) w = x :: l).
  { destruct (List.filter _ w) as [|y l] eqn:Ef.
    - exfalso. assert (Hin : In x []); [rewrite <- Ef; apply List.filter_In; split; [now apply last_In|] | destruct Hin].
      rewrite (close_eqb x (last_In _ _ Hx)), E. apply Z.eqb_refl.
    - exists l. f_equal. assert (Hy : In y (y :: l)) by now left. rewrite <- Ef in Hy. apply List.filter_In in Hy as [Hy Ey].
      rewrite (close_eqb y Hy) in Ey. bool_prop. destruct (window_bounded y Hy) as [->|Hl]; [reflexivity|]. unfold earlier in Hl. lia. }
  destruct Hf as [l ->]. now destruct (same_content x f).
Qed.

Lemma prior_ahead : instant (snapshot_close x) < instant (frame_close f) -> _prior h f = Ok w.
Proof.
  intros L. rewrite prior_start, none_later by lia. cbn [raise_if bind].
  assert (Hw : forall y, In y w -> instant (snapshot_close y) < instant (frame_close f)).
  { intros y Hy. destruct (window_bounded y Hy) as [->|E]; [exact L|]. unfold earlier in E. lia. }
  assert (List.filter (fun s => dt_eqb (snapshot_close s) (frame_close f)) w = []) as ->.
  { apply filter_nil, List.Forall_forall. intros y Hy. rewrite (close_eqb y Hy). apply Z.eqb_neq. specialize (Hw y Hy). lia. }
  cbn [raise_if bind]. f_equal. apply filter_all, List.Forall_forall. intros y Hy. apply Z.ltb_lt, Hw, Hy.
Qed.
End Tracking.

(** ** Committing *)

Definition behind : exn := FrameHistoryConflict "cannot evaluate a frame behind committed history".
Definition different : exn := FrameHistoryConflict "frame time has different committed content".
Definition gap : exn := FrameHistoryConflict "committed frame does not continue causal history".

(** The history with one more snapshot in the log of its symbol. *)
Definition extended (h0 h : CausalFrameHistory) (log : list CommittedFrameSnapshot) (s : CommittedFrameSnapshot) : CausalFrameHistory :=
  with_snapshots h (dict_set (hi_snapshots h) (hs_symbol s)
    (last_n (hi_maximum_bars h0) (of_symbol (hs_symbol s) log ++ [s]))).

(** What [commit] answers, by the last bar committed for the symbol. *)
Definition commit_answer (h0 h : CausalFrameHistory) (log : list CommittedFrameSnapshot) (f : CausalMinuteFrame)
  : result (bool * CausalFrameHistory) :=
  let append := let* s := from_frame f in Ok (true, extended h0 h log s) in
  match last (of_symbol (fk_symbol (cf_key f)) log) with
  | None => append
  | Some x =>
      if instant (frame_close f) <? instant (snapshot_close x) then Raise behind
      else if instant (snapshot_close x) =? instant (frame_close f) then
        if same_content x f then Ok (false, h) else Raise different
      else if instant (snapshot_close x) =? instant (frame_open f) then append else Raise gap
  end.

Lemma from_frame_same f s : from_frame f = Ok s -> s = snapshot_of f.
Proof. unfold from_frame, CommittedFrameSnapshot_post_init. intros H. cbv zeta in H. py_inv. reflexivity. Qed.

Lemma commit_tracked h0 h log f : tracks h0 h log -> 0 < hi_maximum_bars h0 -> valid_bar (cf_bar f) -> frame_identity h0 f ->
  commit h f = commit_answer h0 h log f.
Proof.
  intros T Hmax B I. destruct (window_sorted h0 h log T f I) as (Hb & _ & Hw).
  destruct (tracked_parameters h0 h log T) as (_ & _ & _ & Em). destruct (frame_utc f B) as (Uc & Uo & _).
  unfold commit_answer. rewrite <- (last_last_n _ _ Hmax). unfold commit. set (sym := fk_symbol (cf_key f)) in *.
  assert (Ap : forall p, (let* s := from_frame f in
      Ok (true, with_snapshots h (dict_set (hi_snapshots h) sym
                  (last_n (hi_maximum_bars h) (last_n (hi_maximum_bars h0) (of_symbol sym log) ++ [s]))))) = p ->
      (let* s := from_frame f in Ok (true, extended h0 h log s)) = p).
  { intros p <-. destruct (from_frame f) as [s|e] eqn:Ef; [|reflexivity]. apply from_frame_same in Ef as ->. cbn [bind].
    unfold extended. cbn [snapshot_of hs_symbol]. fold sym. now rewrite Em, last_n_snoc. }
  destruct (last (last_n (hi_maximum_bars h0) (of_symbol sym log))) as [x|] eqn:Hx.
  - pose proof (proj1 (List.Forall_forall _ _) Hb x (last_In _ _ Hx)) as Bx. destruct (barred_facts x Bx) as (_ & Ux & _).
    destruct (Z.ltb_spec (instant (frame_close f)) (instant (snapshot_close x))) as [L|L].
    { now rewrite (prior_behind h0 h log T f I x Hx L). }
    destruct (Z.eqb_spec (instant (snapshot_close x)) (instant (frame_close f))) as [E|E].
    + rewrite (prior_same h0 h log T f B I x Hx E). destruct (same_content x f) eqn:Es; [|reflexivity].
      cbn [bind]. rewrite Hw. cbn [bind]. rewrite Hx, (utc_eqb _ _ Ux Uc), E, Z.eqb_refl, Es. reflexivity.
    + rewrite (prior_ahead h0 h log T f B I x Hx) by lia. cbn [bind]. rewrite Hw. cbn [bind].
      fold sym. rewrite Hx. cbv beta iota zeta. rewrite (utc_eqb _ _ Ux Uc), (proj2 (Z.eqb_neq _ _) E), (utc_eqb _ _ Ux Uo).
      destruct (_ =? _); [symmetry; now apply Ap | reflexivity].
  - assert (E : last_n (hi_maximum_bars h0) (of_symbol sym log) = []) by now apply last_None in Hx.
    rewrite (prior_empty h0 h log T f I E). cbn [bind]. rewrite Hw. cbn [bind]. rewrite Hx. cbn [last raise_if bind].
    symmetry. now apply Ap.
Qed.

Lemma remove_dups_length (l : list string) : (length (remove_dups l) <= length l)%nat.
Proof. induction l as [|x l IH]; cbn [remove_dups]; [lia|]. destruct (decide_rel _ x l); cbn [length]; lia. Qed.

Lemma remove_dups_length_NoDup (l : list string) : length (remove_dups l) = length l -> NoDup l.
Proof.
  induction l as [|x l IH]; cbn [remove_dups]; intros E; [constructor|]. destruct (decide_rel _ x l) as [H|H].
  - exfalso. pose proof (remove_dups_length l). cbn [length] in E. lia.
  - constructor; [exact H|]. apply IH. cbn [length] in E. lia.
Qed.

Lemma dict_set_same_keys {V} (d : pydict V) k v : elem_of k (map fst d) -> map fst (dict_set d k v) = map fst d.
Proof.
  induction d as [|[k' v'] d IH]; cbn [dict_set map fst]; intros H; [now apply elem_of_nil in H|].
  destruct (decide (k = k')) as [->|n]; cbn [map fst]; [reflexivity|]. f_equal. apply IH.
  apply elem_of_cons in H as [->|H]; [contradiction | exact H].
Qed.

Lemma history_init_tracks id symbols timeframe maximum h0 : history_init id symbols timeframe maximum = Ok h0 ->
  tracks h0 h0 [] /\ 60 <= hi_maximum_bars h0 /\ NoDup (hi_symbols h0) /\ existsb nonempty (dict_values (hi_snapshots h0)) = false.
Proof.
  unfold history_init. intros H. py_inv. bool_prop. cbn [hi_maximum_bars hi_symbols hi_snapshots].
  assert (N : NoDup symbols) by (apply remove_dups_length_NoDup, Nat.eqb_eq; assumption).
  assert (Hk : map fst (map (fun s : string => (s, [] : list CommittedFrameSnapshot)) symbols) = symbols)
    by (rewrite List.map_map; apply List.map_id).
  split; [|split; [lia | split; [exact N|]]].
  - split; cbn [hi_snapshots hi_symbols hi_maximum_bars]; [reflexivity | exact Hk | | constructor | constructor |].
    + intros symbol Hs. unfold last_n. cbn [of_symbol List.filter]. rewrite skipn_nil. apply dict_get_NoDup; [now rewrite Hk|].
      apply in_map_iff. exists symbol. split; [reflexivity | now apply list_elem_of_In].
    + intros symbol. exact Logic.I.
  - apply existsb_false_Forall. unfold dict_values. rewrite List.map_map. cbn [snd]. apply Forall_map, List.Forall_forall. reflexivity.
Qed.

(** Every accepted commit keeps the history in step with the log. *)
Lemma extend_tracks h0 h log f : tracks h0 h log -> 0 < hi_maximum_bars h0 -> valid_bar (cf_bar f) -> frame_identity h0 f ->
  (forall x, last (of_symbol (fk_symbol (cf_key f)) log) = Some x -> dt_eqb (snapshot_close x) (frame_open f) = true) ->
  tracks h0 (extended h0 h log (snapshot_of f)) (log ++ [snapshot_of f]).
Proof.
  intros T Hmax B I Hl. set (s := snapshot_of f). pose proof (identity_symbol h0 f I) as Hs.
  change (fk_symbol (cf_key f)) with (hs_symbol s) in *. split.
  - rewrite (tk_same _ _ _ T). reflexivity.
  - cbn [extended with_snapshots hi_snapshots]. rewrite <- (tk_keys _ _ _ T). apply dict_set_same_keys.
    now rewrite (tk_keys _ _ _ T).
  - intros symbol Hsym. cbn [extended with_snapshots hi_snapshots]. rewrite of_symbol_app. cbn [of_symbol List.filter].
    destruct (decide (hs_symbol s = symbol)) as [<-|n].
    + rewrite bool_decide_true by reflexivity. apply dict_get_set.
    + rewrite bool_decide_false, app_nil_r by exact n. rewrite dict_get_set_ne by congruence. now apply T.
  - apply List.Forall_app. split; [apply T|]. constructor; [exact B | constructor].
  - apply List.Forall_app. split; [apply T|]. constructor; [exact I | constructor].
  - intros symbol. rewrite of_symbol_app. cbn [of_symbol List.filter]. case_bool_decide as E.
    + apply contiguous_app; [apply T|]. intros x Hx. apply Hl. now rewrite E.
    + rewrite app_nil_r. apply T.
Qed.

Lemma committed_tracks id symbols timeframe maximum h0 h log : history_init id symbols timeframe maximum = Ok h0 ->
  committed h0 h log -> tracks h0 h log.
Proof.
  intros H0 C. destruct (history_init_tracks _ _ _ _ _ H0) as (T0 & Hmax & _). induction C as [|h log f b h' C IH B Hc]; [exact T0|].
  assert (I : frame_identity h0 f).
  { apply (tracked_identity h0 h log IH). unfold frame_identity. unfold commit, _prior in Hc. py_inv.
    match goal with H : _validate_identity _ _ _ _ = Ok ?u |- _ => destruct u; exact H end. }
  rewrite (commit_tracked h0 h log f IH ltac:(lia) B I) in Hc. unfold commit_answer in Hc.
  destruct (frame_utc f B) as (_ & Uo & _).
  assert (Happ : (let* s := from_frame f in Ok (true, extended h0 h log s)) = Ok (b, h') ->
    (forall x, last (of_symbol (fk_symbol (cf_key f)) log) = Some x -> dt_eqb (snapshot_close x) (frame_open f) = true) ->
    tracks h0 h' (if b then log ++ [snapshot_of f] else log)).
  { intros Ha Hx. apply bind_Ok in Ha as (s & Hs & Ha). injection Ha as <- <-. apply from_frame_same in Hs as ->.
    apply extend_tracks; auto. lia. }
  destruct (last (of_symbol _ log)) as [x|] eqn:Hx; [|apply Happ; [exact Hc | discriminate]].
  destruct (_ <? _); [discriminate|]. destruct (_ =? _); [destruct (same_content x f); [injection Hc as <- <-; exact IH | discriminate]|].
  destruct (Z.eqb_spec (instant (snapshot_close x)) (instant (frame_open f))) as [E|E]; [|discriminate].
  apply Happ; [exact Hc|]. intros y [= <-]. apply last_In in Hx.
  pose proof (proj1 (List.Forall_forall _ _) (of_symbol_barred _ _ (tk_bars _ _ _ IH)) x Hx) as Bx.
  rewrite (utc_eqb _ _ (proj1 (proj2 (barred_facts x Bx))) Uo), E. apply Z.eqb_refl.
Qed.

(** ** Restoring *)

Lemma insert_in_order s a b : StronglySorted earlier (a ++ s :: b) -> insert_snapshot s (a ++ b) = a ++ s :: b.
Proof.
  induction a as [|x a IH]; cbn [app]; intros S.
  - destruct b as [|y b]; [reflexivity|]. cbn [insert_snapshot]. apply StronglySorted_inv in S as [_ F].
    apply Forall_cons in F as [F _]. unfold dt_ltb. unfold earlier in F. now rewrite (proj2 (Z.ltb_ge _ _)) by lia.
  - cbn [insert_snapshot]. apply StronglySorted_inv in S as [S F]. rewrite List.Forall_app in F. destruct F as [_ F].
    apply Forall_cons in F as [F _]. unfold dt_ltb. unfold earlier in F. rewrite (proj2 (Z.ltb_lt _ _)) by lia. now rewrite IH.
Qed.

Lemma sorted_remove a s b : StronglySorted earlier (a ++ s :: b) -> StronglySorted earlier (a ++ b).
Proof.
  induction a as [|x a IH]; cbn [app]; intros S; apply StronglySorted_inv in S as [S F]; [exact S|].
  constructor; [now apply IH|]. apply List.Forall_app in F as [Fa Fb]. apply Forall_cons in Fb as [_ Fb].
  apply List.Forall_app. now split.
Qed.

(** Sorting any permutation of an ordered list gives that list. *)
Lemma sort_permutation l : forall l', Permutation l l' -> StronglySorted earlier l' -> sort_snapshots l = l'.
Proof.
  induction l as [|s l IH]; intros l' P S; [now apply Permutation_nil in P as ->|].
  assert (Hs : In s l') by (eapply Permutation_in; [exact P | now left]). apply in_split in Hs as (a & b & ->).
  apply (Permutation_cons_app_inv (l := l)) in P. cbn [sort_snapshots fold_right]. fold (sort_snapshots l).
  rewrite (IH _ P (sorted_remove _ _ _ S)). now apply insert_in_order.
Qed.

Lemma of_symbol_permutation symbol l l' : Permutation l l' -> Permutation (of_symbol symbol l) (of_symbol symbol l').
Proof.
  unfold of_symbol. induction 1; cbn [List.filter]; [reflexivity | | | etransitivity; eassumption];
    repeat case_bool_decide; auto using perm_skip, perm_swap, Permutation_refl.
Qed.

Lemma neighbours_checked symbol l : contiguous l -> distinct_neighbours l -> check_neighbours symbol l = Ok tt.
Proof.
  induction l as [|x l IH]; intros C D; [reflexivity|]. destruct l as [|y l]; [reflexivity|].
  destruct C as [C1 C], D as (D1 & D2 & D). cbn [check_neighbours]. rewrite C1, (proj2 (Z.eqb_neq _ _) D1), bool_decide_false by exact D2.
  now apply IH.
Qed.

Section Restoring.
Context (h0 h : CausalFrameHistory) (log persisted : list CommittedFrameSnapshot) (T : tracks h0 h log).
Context (P : Permutation persisted log) (D : forall symbol, distinct_neighbours (of_symbol symbol log)).

Lemma tracked_sorted symbol : StronglySorted earlier (of_symbol symbol log).
Proof. apply contiguous_earlier; [apply of_symbol_barred, (tk_bars _ _ _ T) | apply (tk_chain _ _ _ T)]. Qed.

Lemma sort_persisted symbol : sort_snapshots (of_symbol symbol persisted) = of_symbol symbol log.
Proof. apply sort_permutation; [now apply of_symbol_permutation | apply tracked_sorted]. Qed.

(** The second loop writes the window of every symbol it is given. *)
Lemma restore_symbols_total symbols : forall g, hi_maximum_bars g = hi_maximum_bars h0 ->
  (forall symbol, elem_of symbol symbols -> elem_of symbol (map fst (hi_snapshots g))) -> exists d,
  restore_symbols g symbols persisted = (with_snapshots g d, Ok tt) /\
  map fst d = map fst (hi_snapshots g) /\
  forall symbol, dict_get d symbol = if bool_decide (symbol ∈ symbols)
    then Some (last_n (hi_maximum_bars h0) (of_symbol symbol log)) else dict_get (hi_snapshots g) symbol.
Proof.
  induction symbols as [|s symbols IH]; intros g Hm Hk.
  - exists (hi_snapshots g). split; [destruct g; reflexivity|]. split; [reflexivity|]. intros symbol.
    rewrite bool_decide_false by apply not_elem_of_nil. reflexivity.
  - cbn [restore_symbols]. rewrite sort_persisted, neighbours_checked by (auto; apply (tk_chain _ _ _ T)).
    set (w := last_n (hi_maximum_bars g) (of_symbol s log)).
    assert (Ek : map fst (dict_set (hi_snapshots g) s w) = map fst (hi_snapshots g)) by (apply dict_set_same_keys, Hk; constructor).
    destruct (IH (with_snapshots g (dict_set (hi_snapshots g) s w)) Hm) as (d & Hd & Hkd & Hg).
    { intros symbol Hs. cbn [with_snapshots hi_snapshots]. rewrite Ek. apply Hk. now constructor. }
    exists d. rewrite Hd. split; [reflexivity|]. split; [rewrite Hkd; exact Ek|]. intros symbol. rewrite Hg.
    cbn [with_snapshots hi_snapshots]. destruct (decide (symbol ∈ symbols)) as [H|H].
    { rewrite !bool_decide_true; [reflexivity | now constructor | exact H]. }
    rewrite (bool_decide_false (symbol ∈ symbols)) by exact H. destruct (decide (symbol = s)) as [->|n].
    + rewrite dict_get_set, bool_decide_true by constructor. unfold w. now rewrite Hm.
    + rewrite dict_get_set_ne, bool_decide_false; [reflexivity | | exact n]. rewrite elem_of_cons. tauto.
Qed.

Lemma restored : NoDup (hi_symbols h0) -> map fst (hi_snapshots h0) = hi_symbols h0 ->
  existsb nonempty (dict_values (hi_snapshots h0)) = false -> restore h0 persisted = (h, Ok tt).
Proof.
  intros N K E. unfold restore. rewrite E, (proj2 (iterM_Forall _ _)).
  2: { eapply Permutation_Forall; [symmetry; exact P | exact (tk_identity _ _ _ T)]. }
  destruct (restore_symbols_total (hi_symbols h0) h0 eq_refl) as (d & -> & Hk & Hg); [intros s Hs; now rewrite K|].
  f_equal. rewrite (tk_same _ _ _ T). f_equal. apply dict_ext.
  - now rewrite Hk, K, (tk_keys _ _ _ T).
  - now rewrite Hk, K.
  - intros s Hs. rewrite Hk, K in Hs. rewrite Hg, bool_decide_true by exact Hs. symmetry. now apply (tk_windows _ _ _ T).
Qed.
End Restoring.

(** ** Frames of the builder can be stored *)

Lemma manifest_sources sha256_hex l : forall m, manifest_of sha256_hex l = Ok m ->
  Forall (fun ns => exists e, In (fst ns, Some e) l /\ from_event sha256_hex e = Ok (snd ns)) m.
Proof.
  induction l as [|[n [e|]] l IH]; intros m H; cbn [manifest_of] in H.
  - injection H as <-. constructor.
  - py_inv. constructor; [exists e; cbn [fst snd]; split; [now left | assumption]|].
    eapply List.Forall_impl; [|apply IH; eassumption]. intros ns (y & Hy & E). exists y. split; [now right | exact E].
  - eapply List.Forall_impl; [|apply IH; exact H]. intros ns (y & Hy & E). exists y. split; [now right | exact E].
Qed.

Lemma from_event_fields sha256_hex e so : from_event sha256_hex e = Ok so ->
  so_sequence so = ev_sequence e /\ so_observed_at so = ev_observed_at e.
Proof. unfold from_event. intros H. py_inv. auto. Qed.

Lemma canonical_In sha256_hex e d x : canonical_of sha256_hex e d = Ok (Some x) -> In x d.
Proof.
  induction d as [|y d IH]; cbn [canonical_of]; [discriminate|]. destruct (bool_decide _); [|right; auto].
  intros H. py_inv. destruct (bool_decide _); [injection H as <-; now left | right; auto].
Qed.

Lemma latest_In sha256_hex l pred e : is_latest sha256_hex l pred (Some e) -> In e l.
Proof. intros H. apply H. Qed.

Lemma assemble_manifest sha256_hex uuid5 key cutoff bar x s f : assemble sha256_hex uuid5 key cutoff bar x s = Ok f ->
  manifest_of sha256_hex [("closed_bar", Some x); ("order_book", sr_book s); ("mark_funding", sr_mark s);
    ("primary_spot", sr_spot s); ("secondary_venue", sr_secondary s); ("venue_clock", sr_clock s);
    ("symbol_state", sr_state s)] = Ok (cf_source_manifest f) /\ String.length (cf_content_hash f) = 64%nat.
Proof.
  unfold assemble. intros H. py_inv. unfold CausalMinuteFrame_post_init in H. py_inv. bool_prop.
  split; assumption.
Qed.

(** A source of a manifest, taken from a valid event under a name of the builder. *)
Definition sound_source (ns : string * SourceObservation) : Prop :=
  fst ns <> "" /\ is_utc (so_observed_at (snd ns)) = true /\
  match so_sequence (snd ns) with Some q => 0 <= q | None => True end.

(** The frame of valid events, as [build] leaves it. *)
Record well_built (f : CausalMinuteFrame) : Prop := {
  wb_closed : cb_closed (cf_bar f) = true /\ cb_timeframe (cf_bar f) = fk_timeframe (cf_key f);
  wb_spot : present (cf_primary_spot_price f) = present (dict_get (cf_source_manifest f) "primary_spot");
  wb_sources : Forall sound_source (cf_source_manifest f);
  wb_hash : String.length (cf_content_hash f) = 64%nat
}.

Lemma selected_valid sha256_hex venue d s : Forall valid_event d -> selection sha256_hex venue d s ->
  forall name e, In (name, Some e) [("order_book", sr_book s); ("mark_funding", sr_mark s); ("primary_spot", sr_spot s);
    ("secondary_venue", sr_secondary s); ("venue_clock", sr_clock s); ("symbol_state", sr_state s)] ->
  name <> "" /\ valid_event e.
Proof.
  intros V [] name e H. rewrite List.Forall_forall in V.
  repeat destruct H as [[= <- Ee]|H]; try (split; [discriminate|]; apply V; rewrite Ee in *; eapply latest_In; eassumption).
  destruct H.
Qed.

Lemma spot_recorded sha256_hex m d o : Forall valid_event d -> is_latest sha256_hex d (is_reference PRIMARY_SPOT) o ->
  recorded sha256_hex m "primary_spot" o ->
  present (option_map rp_price (payload_of as_reference o)) = present (dict_get m "primary_spot").
Proof.
  intros V L. apply (typed_reference _ _ _ _ V) in L. unfold recorded. destruct o as [e|].
  - destruct L as [_ [p Hp]]. cbn [payload_of]. rewrite Hp. destruct (dict_get m "primary_spot"); [reflexivity | intros []].
  - destruct (dict_get m "primary_spot"); [intros [] | reflexivity].
Qed.

Lemma build_well_built sha256_hex uuid5 key e events dc f : valid_event e -> Forall valid_event events ->
  build sha256_hex uuid5 key e events dc = Ok f ->
  cf_key f = key /\ cf_frame_id f = key_frame_id uuid5 key /\ frame_facts f /\ well_built f.
Proof.
  intros Ve V B. pose proof (build_frame_facts _ _ _ _ _ _ _ Ve V B) as F.
  destruct (build_built _ _ _ _ _ _ _ B) as (bar & cutoff & d & x & s & [T1 T2 T3 T4 T5]).
  pose proof (assemble_reports _ _ _ _ _ _ _ _ T5) as R. apply frame_cutoff_Ok in T1.
  pose proof (dedup_valid _ _ _ (available_valid key cutoff events e V Ve) T2) as Vd.
  destruct (select_spec sha256_hex (ev_venue e) d Vd) as (s' & Hs & Sel). rewrite T4 in Hs. injection Hs as <-.
  destruct (assemble_manifest _ _ _ _ _ _ _ _ T5) as [M Hh].
  split; [apply R|]. split; [apply R|]. split; [exact F|]. split; [| | |exact Hh].
  - rewrite (rs_bar _ _ _ _ _ _ _ _ R), (rs_key _ _ _ _ _ _ _ _ R), (proj2 (co_timeframe _ _ _ _ _ T1)).
    split; apply T1.
  - rewrite (rs_spot _ _ _ _ _ _ _ _ R). apply (spot_recorded sha256_hex _ d _ Vd (sel_spot _ _ _ _ Sel)).
    pose proof (rs_manifest _ _ _ _ _ _ _ _ R) as Rm. rewrite List.Forall_forall in Rm.
    apply (Rm ("primary_spot", sr_spot s)). cbn; tauto.
  - eapply List.Forall_impl; [|exact (manifest_sources _ _ _ M)]. intros ns (y & Hy & Ey).
    assert (Hv : fst ns <> "" /\ valid_event y).
    { destruct Hy as [Hy|Hy]; [injection Hy as <- <- | exact (selected_valid _ _ _ _ Vd Sel _ _ Hy)].
      split; [discriminate|]. rewrite List.Forall_forall in Vd. apply Vd. eapply canonical_In. eassumption. }
    destruct Hv as [Hn Hv]. pose proof (valid_event_facts y Hv) as Fy. destruct (from_event_fields _ _ _ Ey) as [Es Eo].
    unfold sound_source. rewrite Es, Eo. split; [exact Hn|]. split; apply Fy.
Qed.

Lemma sequences_sound m : Forall sound_source m -> existsb (fun nv => empty (fst nv) || (snd nv <? 0)) (sequences_of m) = false.
Proof.
  intros H. apply existsb_false_Forall. unfold sequences_of. induction H as [|[n so] m [Hn [_ Hq]] _ IH]; cbn [flat_map]; [constructor|].
  apply List.Forall_app. split; [|exact IH]. cbn [fst snd] in *. destruct (so_sequence so) as [q|]; [|constructor].
  constructor; [|constructor]. cbn [fst snd]. unfold empty. rewrite bool_decide_false by exact Hn. now apply Z.ltb_ge.
Qed.

Lemma well_built_stored f : valid_key (cf_key f) -> cf_frame_id f <> 0 -> frame_facts f -> well_built f -> from_frame f = Ok (snapshot_of f).
Proof.
  intros K N F W. unfold valid_key, FrameKey_post_init in K. py_inv. bool_prop.
  unfold from_frame, CommittedFrameSnapshot_post_init, snapshot_of. cbn [hs_experiment_id hs_frame_id hs_symbol hs_timeframe hs_bar
    hs_primary_spot_price hs_primary_spot_event_id hs_primary_spot_observed_at hs_source_sequences hs_content_hash].
  destruct (wb_closed f W) as [-> ->]. rewrite (sequences_sound _ (wb_sources f W)), (wb_hash f W).
  pose proof (wb_spot f W) as S. pose proof (ff_spot f F) as P.
  rewrite !(proj2 (Z.eqb_neq _ _)) by assumption. rewrite H0. unfold empty. rewrite bool_decide_false by assumption.
  rewrite bool_decide_true by reflexivity. cbn [orb negb raise_if bind]. rewrite Nat.eqb_refl.
  assert (U : forall so, dict_get (cf_source_manifest f) "primary_spot" = Some so -> is_utc (so_observed_at so) = true).
  { intros so Hso. refine (dict_get_Forall (fun so => is_utc (so_observed_at so) = true) _ _ _ _ Hso). unfold dict_values. apply Forall_map. eapply List.Forall_impl; [|exact (wb_sources f W)]. intros ns Hns. apply Hns. }
  destruct (dict_get (cf_source_manifest f) "primary_spot") as [so|], (cf_primary_spot_price f) as [p|]; try discriminate S; [|reflexivity].
  cbn [option_map]. rewrite (U so eq_refl). cbn [present existsb forallb negb Bool.eqb raise_if bind andb orb].
  assert ((p <=? dzero)%dec = false) as -> by (dec_prop; rewrite dval_zero; exact P). reflexivity.
Qed.

Lemma history_init_fields id symbols timeframe maximum h0 : history_init id symbols timeframe maximum = Ok h0 ->
  hi_experiment_id h0 = id /\ hi_symbols h0 = symbols /\ hi_timeframe h0 = timeframe /\ hi_maximum_bars h0 = maximum.
Proof. unfold history_init. intros H. py_inv. repeat split. Qed.

(** ** The properties *)

(** C14: The rolling window refines the log of accepted frames.  However frames
    of any symbols are interleaved, repeated or refused, the window of each
    configured symbol is the end of the log of that symbol, at most
    [maximum_bars] long, contiguous and strictly ordered by the close of its
    bars; and the answer to a frame is decided by the last accepted bar alone:
    a frame behind it, a different frame at its time and a frame that leaves a
    gap are refused, a redelivery changes nothing, the next bar is appended. *)
Theorem history_refines_log id symbols timeframe maximum h0 h log
    (H0 : history_init id symbols timeframe maximum = Ok h0) (C : committed h0 h log) :
  (forall symbol, In symbol symbols -> exists w, snapshots h symbol = Ok w /\
     w = last_n maximum (of_symbol symbol log) /\ Z.of_nat (length w) <= maximum /\ contiguous w /\ StronglySorted earlier w) /\
  (forall f, valid_bar (cf_bar f) -> frame_identity h0 f -> commit h f = commit_answer h0 h log f) /\
  (forall f, ~ frame_identity h0 f ->
     commit h f = Raise (ValueError "frame history identity differs from runtime configuration")).
Proof.
  pose proof (committed_tracks _ _ _ _ _ _ _ H0 C) as T. destruct (history_init_tracks _ _ _ _ _ H0) as (_ & Hmax & _).
  destruct (history_init_fields _ _ _ _ _ H0) as (_ & Es & _ & Em). split; [|split].
  - intros symbol Hs. rewrite <- Em. exists (last_n (hi_maximum_bars h0) (of_symbol symbol log)).
    assert (Hb : Forall barred (last_n (hi_maximum_bars h0) (of_symbol symbol log)))
      by (apply last_n_Forall, of_symbol_barred, (tk_bars _ _ _ T)).
    assert (Hc : contiguous (last_n (hi_maximum_bars h0) (of_symbol symbol log))) by apply contiguous_last_n, (tk_chain _ _ _ T).
    split; [|split; [reflexivity|split; [|split; [exact Hc | now apply contiguous_earlier]]]].
    + unfold snapshots. rewrite (tk_windows _ _ _ T); [reflexivity|]. rewrite Es. now apply list_elem_of_In.
    + unfold last_n. rewrite length_skipn. lia.
  - intros f B I. apply commit_tracked; auto. lia.
  - intros f NI. assert (NI' : ~ frame_identity h f) by now rewrite (tracked_identity h0 h log T).
    clear NI. unfold commit, _prior. unfold frame_identity, _validate_identity in *. destruct (_ || _); [reflexivity | now contradiction NI'].
Qed.

(** C19: A restart loses nothing.  Whatever order the database returns the
    persisted snapshots in, restoring them into a fresh history gives exactly
    the history of the process that committed them, so every later answer is
    the same.  The only requirement is that neighbouring frames differ in
    their name and content hash. *)
Theorem restart_safe id symbols timeframe maximum h0 h log persisted
    (H0 : history_init id symbols timeframe maximum = Ok h0) (C : committed h0 h log)
    (P : Permutation persisted log) (D : forall symbol, distinct_neighbours (of_symbol symbol log)) :
  restore h0 persisted = (h, Ok tt).
Proof.
  pose proof (committed_tracks _ _ _ _ _ _ _ H0 C) as T. destruct (history_init_tracks _ _ _ _ _ H0) as (T0 & _ & N & E).
  exact (restored h0 h log persisted T P D N (tk_keys _ _ _ T0) E).
Qed.

(** ** A concrete history *)

(** A checksum that tells the sample frames apart, as a number and as 64 digits. *)
Definition checksum (s : string) : Z := fold_left (fun a c => (a * 257 + Z.of_N (N_of_ascii c) + 1) mod 1000000000000007) (list_ascii_of_string s) 1.
Fixpoint digits (n : nat) (z : Z) : string :=
  match n with
  | O => EmptyString
  | S n' => String (ascii_of_nat (48 + Z.to_nat (z mod 10))) (digits n' (z / 10))
  end.
Definition checksum_digest (s : string) : string := digits 64 (checksum s).

Lemma checksum_digest_length s : String.length (checksum_digest s) = 64%nat.
Proof. reflexivity. Qed.

(** The frame of the [n]-th minute, with the books of that minute. *)
Definition minute_frame (n : Z) : result CausalMinuteFrame :=
  let ms := n * 60000 in
  build checksum_digest checksum
    {| fk_experiment_id := 1; fk_strategy_version_id := 2; fk_symbol := "BTCUSDT"; fk_timeframe := "1m"; fk_bar_close_at := at_ms (ms + 60000) |}
    (sample_event "bar" CLOSED_BAR (ms + 60000) (ms + 60300) (n + 1) (BarPayload (sample_bar_payload ms (101 + n))))
    [sample_book_event "book" (ms + 60100) 100 102] None.

Definition frame_at (n : Z) : CausalMinuteFrame := match minute_frame n with Ok f => f | Raise _ => frame_default end.

#[local] Opaque frame_at.

Definition fresh_history : result CausalFrameHistory := history_init 1 ["ETHUSDT"; "BTCUSDT"] "1m" 60.

Definition after (h : CausalFrameHistory) (n : Z) : CausalFrameHistory :=
  match commit h (frame_at n) with Ok (_, h') => h' | Raise _ => h end.

Definition start : CausalFrameHistory := match fresh_history with Ok h => h | Raise _ => with_snapshots
  {| hi_experiment_id := 0; hi_symbols := []; hi_timeframe := ""; hi_maximum_bars := 0; hi_snapshots := [] |} [] end.
Definition two_bars : CausalFrameHistory := after (after start 0) 1.
Definition two_snapshots : list CommittedFrameSnapshot := [snapshot_of (frame_at 0); snapshot_of (frame_at 1)].

Lemma two_bars_committed : committed start two_bars two_snapshots.
Proof.
  assert (S : forall n h log, committed start h log -> valid_bar (cf_bar (frame_at n)) ->
    (exists h', commit h (frame_at n) = Ok (true, h')) -> committed start (after h n) (log ++ [snapshot_of (frame_at n)])).
  { intros n h log C B [h' E]. unfold after. rewrite E. exact (committed_frame _ h log (frame_at n) true h' C B E). }
  apply (S 1 (after start 0) [snapshot_of (frame_at 0)]); [apply (S 0 start []); [constructor | |] | |];
    try (vm_compute; reflexivity); eexists; vm_compute; reflexivity.
Qed.

Lemma history_refines_log_witness :
  (exists w, snapshots two_bars "BTCUSDT" = Ok w /\ length w = 2%nat) /\
  commit two_bars (frame_at 1) = Ok (false, two_bars) /\ commit two_bars (frame_at 3) = Raise gap /\
  commit two_bars (frame_at 0) = Raise behind.
Proof.
  destruct (history_refines_log 1 ["ETHUSDT"; "BTCUSDT"] "1m" 60 start two_bars two_snapshots eq_refl two_bars_committed) as (W & A & _).
  split; [|split; [|split]].
  - destruct (W "BTCUSDT") as (w & Hw & E & _); [right; now left|]. exists w. split; [exact Hw|]. rewrite E. vm_compute. reflexivity.
  - rewrite A; vm_compute; reflexivity.
  - rewrite A; vm_compute; reflexivity.
  - rewrite A; vm_compute; reflexivity.
Defined.

Lemma restart_safe_witness : restore start (rev two_snapshots) = (two_bars, Ok tt).
Proof.
  apply (restart_safe 1 ["ETHUSDT"; "BTCUSDT"] "1m" 60 start two_bars two_snapshots _ eq_refl two_bars_committed).
  - symmetry. apply Permutation_rev.
  - intros symbol. destruct (decide (symbol = "BTCUSDT")) as [->|n].
    { vm_compute. split; [discriminate | split; [discriminate | exact I]]. }
    assert (E : Forall (fun s => hs_symbol s = "BTCUSDT") two_snapshots) by (constructor; [|constructor; [|constructor]]; vm_compute; reflexivity).
    revert E. generalize two_snapshots. intros l E. unfold of_symbol. rewrite (proj2 (filter_nil _ _)); [exact I|].
    eapply List.Forall_impl; [|exact E]. cbn beta. intros s ->. apply bool_decide_false. congruence.
Defined.
