(* ===== verification/Counterfactuals.v ===== *)
(** * Counterfactual research: [maais/research/counterfactuals.py]

    A proposal that a gate refused is followed as if it had been accepted: a
    hypothetical fill, an exit plan of its own ([Exits]), excursions, outcomes
    at fixed horizons, funding and a hypothetical result.  Market events may be
    delivered again; the audit trail tells whether an event was applied.

    The mutable part of the state is a record of its own, [research], which
    [_advance] replaces; the source names the replaced fields as keyword
    arguments.  Its transitions have the fields of [EventLog.Transition], with
    no checks of their own. *)

From Stdlib Require Import ZArith QArith Qabs Lia Lqa List Bool String.
From stdpp Require Import base decidable list strings.
From S2P Require Import Prelude PyDecimal DecimalTheory Domain Json Market Frames Fills Exits EventLog.

Local Open Scope Z_scope.

Definition _HORIZONS : list (string * timedelta) :=
  [("15m", seconds 900); ("1h", seconds 3600); ("4h", seconds 14400); ("24h", seconds 86400)].
Definition _RESEARCH_WINDOW : timedelta := seconds 86400.

Inductive CounterfactualStatus : Type := CF_PENDING | CF_NO_FILL | CF_OPEN | CF_RESOLVED.

#[export] Instance CounterfactualStatus_eq_dec : EqDecision CounterfactualStatus.
Proof. solve_decision. Defined.
Record HorizonOutcome : Type := {
  hz_horizon : string;
  hz_observed_at : datetime;
  hz_mark_price : dec;
  hz_net_pnl : dec
}.

Abbreviation CounterfactualTransition := Transition.

(** The fields that change after the creation. *)
Record research : Type := {
  rs_entry_fill : option PaperFill;
  rs_exit_plan : option ExitPlan;
  rs_maximum_favorable_excursion : dec;
  rs_maximum_adverse_excursion : dec;
  rs_outcomes : list HorizonOutcome;
  rs_funding : dec;
  rs_no_fill_reason : option string;
  rs_hypothetical_exit_reason : option string;
  rs_hypothetical_pnl : option dec;
  rs_closed_at : option datetime
}.

Record CounterfactualState : Type := {
  cs_counterfactual_id : UUID;
  cs_experiment_id : UUID;
  cs_proposal_id : UUID;
  cs_decision_cycle_id : UUID;
  cs_symbol : string;
  cs_direction : Direction;
  cs_rejection_gate : GateType;
  cs_prior_gate_chain : list GateType;
  cs_quantity : dec;
  cs_decision_executable_price : dec;
  cs_eligible_after : datetime;
  cs_fee_rate : dec;
  cs_expected_loss_fraction : dec;
  cs_expected_gain_fraction : dec;
  cs_status : CounterfactualStatus;
  cs_research : research;
  cs_created_at : datetime;
  cs_version : Z;
  cs_events : list CounterfactualTransition
}.

Definition _payload (value : pyval) : result json :=
  let* normalized := freeze_json value in as_mapping "counterfactual event payload must be an object" normalized.

Definition _require_rate (value : dec) (field : string) (allow_zero : bool) : result unit :=
  let lower_ok := if allow_zero then (value >=? dzero)%dec else (value >? dzero)%dec in
  raise_if (negb lower_ok || (value >=? done)%dec)
    (ValueError (field +:+ " must be a finite Decimal in " +:+ (if allow_zero then "[0, 1)" else "(0, 1)"))).

Definition counterfactual_create (counterfactual_id experiment_id proposal_id decision_cycle_id : UUID) (symbol : string)
    (direction : Direction) (rejection_gate : GateType) (prior_gate_chain : list GateType)
    (quantity decision_executable_price : dec) (eligible_after : datetime)
    (fee_rate expected_loss_fraction expected_gain_fraction : dec) (created_at : datetime) : result CounterfactualState :=
  do* raise_if (bool_decide (direction = NEUTRAL)) (ValueError "counterfactual direction must be long or short") ;;
  do* raise_if (empty symbol || negb (bool_decide (last prior_gate_chain = Some rejection_gate)))
        (ValueError "prior gate chain must end at the rejection gate") ;;
  do* require_positive_decimal quantity "quantity" ;;
  do* require_positive_decimal decision_executable_price "decision_executable_price" ;;
  do* _require_rate fee_rate "fee_rate" true ;;
  do* _require_rate expected_loss_fraction "expected_loss_fraction" false ;;
  do* _require_rate expected_gain_fraction "expected_gain_fraction" false ;;
  do* require_utc eligible_after "eligible_after" ;;
  do* require_utc created_at "created_at" ;;
  let* payload := _payload (PDict
    [("proposal_id", PUuid proposal_id); ("decision_cycle_id", PUuid decision_cycle_id); ("symbol", PStr symbol);
     ("direction", PEnum (enum_value direction)); ("rejection_gate", PEnum (enum_value rejection_gate));
     ("prior_gate_chain", PSeq (map (fun g => PEnum (enum_value g)) prior_gate_chain)); ("quantity", PDec quantity);
     ("decision_executable_price", PDec decision_executable_price); ("eligible_after", PTime eligible_after)]) in
  Ok {| cs_counterfactual_id := counterfactual_id; cs_experiment_id := experiment_id; cs_proposal_id := proposal_id;
        cs_decision_cycle_id := decision_cycle_id; cs_symbol := symbol; cs_direction := direction;
        cs_rejection_gate := rejection_gate; cs_prior_gate_chain := prior_gate_chain; cs_quantity := quantity;
        cs_decision_executable_price := decision_executable_price; cs_eligible_after := eligible_after;
        cs_fee_rate := fee_rate; cs_expected_loss_fraction := expected_loss_fraction;
        cs_expected_gain_fraction := expected_gain_fraction; cs_status := CF_PENDING;
        cs_research := {| rs_entry_fill := None; rs_exit_plan := None; rs_maximum_favorable_excursion := dzero;
          rs_maximum_adverse_excursion := dzero; rs_outcomes := []; rs_funding := dzero; rs_no_fill_reason := None;
          rs_hypothetical_exit_reason := None; rs_hypothetical_pnl := None; rs_closed_at := None |};
        cs_created_at := created_at; cs_version := 1;
        cs_events := [{| tr_sequence := 1; tr_event_type := "counterfactual.created"; tr_event_at := created_at;
                         tr_payload := payload |}] |}.

(** The keyword arguments that [_advance] is called with. *)
Definition set_entry (r : research) (fill : PaperFill) (plan : ExitPlan) : research := {|
  rs_entry_fill := Some fill; rs_exit_plan := Some plan;
  rs_maximum_favorable_excursion := rs_maximum_favorable_excursion r;
  rs_maximum_adverse_excursion := rs_maximum_adverse_excursion r; rs_outcomes := rs_outcomes r; rs_funding := rs_funding r;
  rs_no_fill_reason := rs_no_fill_reason r; rs_hypothetical_exit_reason := rs_hypothetical_exit_reason r;
  rs_hypothetical_pnl := rs_hypothetical_pnl r; rs_closed_at := rs_closed_at r |}.
Definition set_no_fill (r : research) (reason : string) (closed_at : datetime) : research := {|
  rs_entry_fill := rs_entry_fill r; rs_exit_plan := rs_exit_plan r;
  rs_maximum_favorable_excursion := rs_maximum_favorable_excursion r;
  rs_maximum_adverse_excursion := rs_maximum_adverse_excursion r; rs_outcomes := rs_outcomes r; rs_funding := rs_funding r;
  rs_no_fill_reason := Some reason; rs_hypothetical_exit_reason := rs_hypothetical_exit_reason r;
  rs_hypothetical_pnl := rs_hypothetical_pnl r; rs_closed_at := Some closed_at |}.
Definition set_mark (r : research) (favorable adverse : dec) (outcomes : list HorizonOutcome) (plan : ExitPlan) : research := {|
  rs_entry_fill := rs_entry_fill r; rs_exit_plan := Some plan; rs_maximum_favorable_excursion := favorable;
  rs_maximum_adverse_excursion := adverse; rs_outcomes := outcomes; rs_funding := rs_funding r;
  rs_no_fill_reason := rs_no_fill_reason r; rs_hypothetical_exit_reason := rs_hypothetical_exit_reason r;
  rs_hypothetical_pnl := rs_hypothetical_pnl r; rs_closed_at := rs_closed_at r |}.
Definition set_plan (r : research) (plan : ExitPlan) : research := {|
  rs_entry_fill := rs_entry_fill r; rs_exit_plan := Some plan;
  rs_maximum_favorable_excursion := rs_maximum_favorable_excursion r;
  rs_maximum_adverse_excursion := rs_maximum_adverse_excursion r; rs_outcomes := rs_outcomes r; rs_funding := rs_funding r;
  rs_no_fill_reason := rs_no_fill_reason r; rs_hypothetical_exit_reason := rs_hypothetical_exit_reason r;
  rs_hypothetical_pnl := rs_hypothetical_pnl r; rs_closed_at := rs_closed_at r |}.
Definition set_funding (r : research) (funding : dec) : research := {|
  rs_entry_fill := rs_entry_fill r; rs_exit_plan := rs_exit_plan r;
  rs_maximum_favorable_excursion := rs_maximum_favorable_excursion r;
  rs_maximum_adverse_excursion := rs_maximum_adverse_excursion r; rs_outcomes := rs_outcomes r; rs_funding := funding;
  rs_no_fill_reason := rs_no_fill_reason r; rs_hypothetical_exit_reason := rs_hypothetical_exit_reason r;
  rs_hypothetical_pnl := rs_hypothetical_pnl r; rs_closed_at := rs_closed_at r |}.
Definition set_closed (r : research) (reason : string) (pnl : dec) (closed_at : datetime) : research := {|
  rs_entry_fill := rs_entry_fill r; rs_exit_plan := rs_exit_plan r;
  rs_maximum_favorable_excursion := rs_maximum_favorable_excursion r;
  rs_maximum_adverse_excursion := rs_maximum_adverse_excursion r; rs_outcomes := rs_outcomes r; rs_funding := rs_funding r;
  rs_no_fill_reason := rs_no_fill_reason r; rs_hypothetical_exit_reason := Some reason; rs_hypothetical_pnl := Some pnl;
  rs_closed_at := Some closed_at |}.

Definition counterfactual_advance (s : CounterfactualState) (status : CounterfactualStatus) (event_type : string)
    (event_at : datetime) (payload : pyval) (changes : research) : result CounterfactualState :=
  do* require_utc event_at "event_at" ;;
  let* frozen := _payload payload in
  let event := {| tr_sequence := cs_version s + 1; tr_event_type := event_type; tr_event_at := event_at; tr_payload := frozen |} in
  Ok {| cs_counterfactual_id := cs_counterfactual_id s; cs_experiment_id := cs_experiment_id s;
        cs_proposal_id := cs_proposal_id s; cs_decision_cycle_id := cs_decision_cycle_id s; cs_symbol := cs_symbol s;
        cs_direction := cs_direction s; cs_rejection_gate := cs_rejection_gate s;
        cs_prior_gate_chain := cs_prior_gate_chain s; cs_quantity := cs_quantity s;
        cs_decision_executable_price := cs_decision_executable_price s; cs_eligible_after := cs_eligible_after s;
        cs_fee_rate := cs_fee_rate s; cs_expected_loss_fraction := cs_expected_loss_fraction s;
        cs_expected_gain_fraction := cs_expected_gain_fraction s; cs_status := status; cs_research := changes;
        cs_created_at := cs_created_at s; cs_version := cs_version s + 1; cs_events := cs_events s ++ [event] |}.

Definition enter (s : CounterfactualState) (fill : PaperFill) (plan_id : UUID) : result CounterfactualState :=
  do* raise_if (negb (bool_decide (cs_status s = CF_PENDING))) (RuntimeError "counterfactual is not pending") ;;
  let expected_side := if bool_decide (cs_direction s = LONG) then BUY else SELL in
  do* raise_if (negb (bool_decide (fl_symbol fill = cs_symbol s)) || negb (bool_decide (fl_side fill = expected_side)))
        (ValueError "hypothetical fill does not match counterfactual direction") ;;
  let* ineligible := if negb (fl_quantity fill =? cs_quantity s)%dec then Ok true
                     else dt_le (fl_fill_at fill) (cs_eligible_after s) in
  do* raise_if ineligible (ValueError "hypothetical fill quantity or eligibility differs") ;;
  let* plan := exit_create plan_id (cs_counterfactual_id s) (cs_direction s) (fl_quantity fill) (fl_price fill)
                 (cs_expected_loss_fraction s) (cs_expected_gain_fraction s) (fl_fill_at fill) 60 in
  let r := cs_research s in
  counterfactual_advance s CF_OPEN "counterfactual.entered" (fl_fill_at fill)
    (PDict [("market_event_id", PStr (fl_market_event_id fill)); ("quantity", PDec (fl_quantity fill));
            ("price", PDec (fl_price fill)); ("fee", PDec (fl_fee fill)); ("total_slippage", PDec (fl_total_slippage fill))])
    (set_entry r fill plan).

Definition mark_no_fill (s : CounterfactualState) (reason : string) (observed_at : datetime) : result CounterfactualState :=
  do* raise_if (negb (bool_decide (cs_status s = CF_PENDING))) (RuntimeError "counterfactual is not pending") ;;
  do* raise_if (empty reason) (ValueError "no-fill reason is required") ;;
  do* require_utc observed_at "observed_at" ;;
  let r := cs_research s in
  counterfactual_advance s CF_NO_FILL "counterfactual.no_fill" observed_at (PDict [("reason", PStr reason)])
    (set_no_fill r reason observed_at).

Definition observable (s : CounterfactualState) : bool :=
  bool_decide (cs_status s = CF_OPEN) || bool_decide (cs_status s = CF_RESOLVED).

Definition _gross_pnl (s : CounterfactualState) (mark_price : dec) : result dec :=
  let* fill := of_option AssertionError (rs_entry_fill (cs_research s)) in
  let difference := (mark_price - fl_price fill)%dec in
  Ok ((if bool_decide (cs_direction s = SHORT) then dneg difference else difference) * cs_quantity s)%dec.

Definition _net_pnl (s : CounterfactualState) (mark_price : dec) : result dec :=
  let* fill := of_option AssertionError (rs_entry_fill (cs_research s)) in
  let exit_fee := (mark_price * cs_quantity s * cs_fee_rate s)%dec in
  let* gross := _gross_pnl s mark_price in
  Ok (gross - fl_fee fill - exit_fee + rs_funding (cs_research s))%dec.

(** [payload.get(key)]. *)
Definition payload_get (payload : json) (key : string) : json :=
  match payload with
  | JObj items => match dict_get items key with Some v => v | None => JNull end
  | _ => JNull
  end.

Definition source_event (event_type market_event_id : string) (e : CounterfactualTransition) : bool :=
  bool_decide (tr_event_type e = event_type) &&
  bool_decide (payload_get (tr_payload e) "market_event_id" = JStr market_event_id).

Definition source_events (s : CounterfactualState) (event_type market_event_id : string) : list CounterfactualTransition :=
  List.filter (source_event event_type market_event_id) (cs_events s).

(** The compared values are strings and booleans. *)
Definition _source_event_exists (s : CounterfactualState) (event_type market_event_id : string) (observed_at : datetime)
    (expected : list (string * pyval)) (allow_reobservation : bool) : result bool :=
  let* expected_payload := _payload (PDict (("market_event_id", PStr market_event_id) :: expected)) in
  match source_events s event_type market_event_id with
  | [] => Ok false
  | [existing] =>
      do* raise_if ((negb allow_reobservation && negb (dt_eqb (tr_event_at existing) observed_at)) ||
                    match expected_payload with
                    | JObj items => existsb (fun kv => negb (bool_decide (payload_get (tr_payload existing) (fst kv) = snd kv))) items
                    | _ => false
                    end)
            (ValueError "counterfactual market event identity has different content") ;;
      Ok true
  | _ => Raise (RuntimeError "counterfactual source event was persisted more than once")
  end.

(** The horizons that are due at [observed_at] and not resolved yet. *)
Definition due_horizons (s : CounterfactualState) (fill : PaperFill) (observed_at : datetime) : list (string * timedelta) :=
  List.filter (fun hd => negb (bool_decide (fst hd ∈ map hz_horizon (rs_outcomes (cs_research s)))) &&
                         dt_leb (dt_add (fl_fill_at fill) (snd hd)) observed_at) _HORIZONS.

Definition _close (s : CounterfactualState) (mark_price : dec) (reason : string) (closed_at : datetime)
  : result CounterfactualState :=
  let* pnl := _net_pnl s mark_price in
  let r := cs_research s in
  counterfactual_advance s CF_RESOLVED "counterfactual.resolved" closed_at
    (PDict [("mark_price", PDec mark_price); ("reason", PStr reason); ("net_pnl", PDec pnl)])
    (set_closed r reason pnl closed_at).

(** [if evaluation.intent is not None: return updated._close(...)]. *)
Definition close_on (evaluation : option ExitEvaluation) (updated : CounterfactualState) (mark_price : dec) (closed_at : datetime)
  : result CounterfactualState :=
  match evaluation with
  | Some {| ee_intent := Some intent |} => _close updated mark_price (enum_value (ei_reason intent)) closed_at
  | _ => Ok updated
  end.

Definition observe_mark (s : CounterfactualState) (mark_price : dec) (observed_at : datetime) (market_event_id : string)
  : result CounterfactualState :=
  do* raise_if (negb (observable s)) (RuntimeError "counterfactual is not research-observable") ;;
  do* raise_if (empty market_event_id) (ValueError "counterfactual mark market_event_id is required") ;;
  do* require_positive_decimal mark_price "mark_price" ;;
  do* require_utc observed_at "observed_at" ;;
  let* seen := _source_event_exists s "counterfactual.mark_observed" market_event_id observed_at
                 [("mark_price", PDec mark_price)] false in
  if seen then Ok s else
  let r := cs_research s in
  let* fill := of_option AssertionError (rs_entry_fill r) in
  let* plan := of_option AssertionError (rs_exit_plan r) in
  let* gross := _gross_pnl s mark_price in
  let is_open := bool_decide (cs_status s = CF_OPEN) in
  let favorable := if is_open then dmax (rs_maximum_favorable_excursion r) (dmax dzero gross) else rs_maximum_favorable_excursion r in
  let adverse := if is_open then dmax (rs_maximum_adverse_excursion r) (dmax dzero (dneg gross)) else rs_maximum_adverse_excursion r in
  let* reached := mapM (fun hd => let* net := _net_pnl s mark_price in
    Ok {| hz_horizon := fst hd; hz_observed_at := observed_at; hz_mark_price := mark_price; hz_net_pnl := net |})
    (due_horizons s fill observed_at) in
  let outcomes := rs_outcomes r ++ reached in
  let* evaluation := if is_open then let* ev := evaluate_mark plan mark_price observed_at None in Ok (Some ev) else Ok None in
  if (favorable =? rs_maximum_favorable_excursion r)%dec && (adverse =? rs_maximum_adverse_excursion r)%dec &&
     negb (nonempty reached) && match evaluation with Some ev => is_none (ee_intent ev) | None => true end
  then Ok s
  else
    let* updated := counterfactual_advance s (cs_status s) "counterfactual.mark_observed" observed_at
      (PDict [("market_event_id", PStr market_event_id); ("mark_price", PDec mark_price); ("gross_pnl", PDec gross);
              ("maximum_favorable_excursion", PDec favorable); ("maximum_adverse_excursion", PDec adverse);
              ("resolved_horizons", PSeq (map (fun o => PStr (hz_horizon o)) outcomes))])
      (set_mark r favorable adverse outcomes (match evaluation with Some ev => ee_plan ev | None => plan end)) in
    close_on evaluation updated mark_price observed_at.

Definition counterfactual_closed_bar (s : CounterfactualState) (mark_price : dec) (decision_direction : Direction)
    (decision_approved : bool) (closed_at : datetime) (market_event_id : string) : result CounterfactualState :=
  do* raise_if (empty market_event_id) (ValueError "counterfactual closed bar market_event_id is required") ;;
  let* seen := _source_event_exists s "counterfactual.closed_bar_observed" market_event_id closed_at
                 [("mark_price", PDec mark_price); ("decision_direction", PEnum (enum_value decision_direction));
                  ("decision_approved", PBool decision_approved)] false in
  if seen then Ok s else
  let* updated := observe_mark s mark_price closed_at market_event_id in
  if negb (bool_decide (cs_status updated = CF_OPEN)) then Ok updated else
  let r := cs_research updated in
  let* plan := of_option AssertionError (rs_exit_plan r) in
  let* evaluation := observe_closed_bar plan decision_direction decision_approved closed_at mark_price in
  let* advanced := counterfactual_advance updated (cs_status updated) "counterfactual.closed_bar_observed" closed_at
    (PDict [("market_event_id", PStr market_event_id); ("mark_price", PDec mark_price);
            ("decision_direction", PEnum (enum_value decision_direction)); ("decision_approved", PBool decision_approved);
            ("bars_elapsed", PInt (ep_bars_elapsed (ee_plan evaluation)));
            ("opposite_signal_streak", PInt (ep_opposite_signal_streak (ee_plan evaluation)))])
    (set_plan r (ee_plan evaluation)) in
  close_on (Some evaluation) advanced mark_price closed_at.

Definition counterfactual_apply_funding (s : CounterfactualState) (rate mark_price : dec) (observed_at : datetime)
    (market_event_id : string) : result CounterfactualState :=
  do* raise_if (negb (observable s)) (RuntimeError "counterfactual is not research-observable") ;;
  do* raise_if (empty market_event_id) (ValueError "counterfactual funding market_event_id is required") ;;
  do* require_positive_decimal mark_price "mark_price" ;;
  do* require_utc observed_at "observed_at" ;;
  let r := cs_research s in
  let* fill := of_option AssertionError (rs_entry_fill r) in
  do* raise_if (bool_decide (cs_status s = CF_RESOLVED) && dt_ltb (dt_add (fl_fill_at fill) _RESEARCH_WINDOW) observed_at)
        (RuntimeError "counterfactual research window has ended") ;;
  let* seen := _source_event_exists s "counterfactual.funding_applied" market_event_id observed_at
                 [("rate", PDec rate); ("mark_price", PDec mark_price)] true in
  if seen then Ok s else
  let unsigned := (cs_quantity s * mark_price * rate)%dec in
  let amount := if bool_decide (cs_direction s = LONG) then dneg unsigned else unsigned in
  counterfactual_advance s (cs_status s) "counterfactual.funding_applied" observed_at
    (PDict [("market_event_id", PStr market_event_id); ("rate", PDec rate); ("mark_price", PDec mark_price); ("amount", PDec amount)])
    (set_funding r (rs_funding r + amount)%dec).

Definition counterfactual_outcome (s : CounterfactualState) (horizon : string) : option dec :=
  option_map hz_net_pnl (find (fun o => bool_decide (hz_horizon o = horizon)) (rs_outcomes (cs_research s))).

(** ** Appending an event *)

(** What a counterfactual is about; no operation changes it. *)
Definition subject (s : CounterfactualState) :=
  ((cs_counterfactual_id s, cs_experiment_id s, cs_proposal_id s, cs_decision_cycle_id s, cs_symbol s, cs_direction s),
   (cs_rejection_gate s, cs_prior_gate_chain s, cs_quantity s, cs_decision_executable_price s, cs_eligible_after s),
   (cs_fee_rate s, cs_expected_loss_fraction s, cs_expected_gain_fraction s, cs_created_at s)).

Record advances (s s' : CounterfactualState) (status : CounterfactualStatus) (e : CounterfactualTransition) (ch : research) : Prop := {
  av_subject : subject s' = subject s;
  av_status : cs_status s' = status;
  av_research : cs_research s' = ch;
  av_version : cs_version s' = cs_version s + 1;
  av_events : cs_events s' = cs_events s ++ [e];
  av_sequence : tr_sequence e = cs_version s + 1
}.

Lemma counterfactual_advance_Ok s status ty t l ch s' : counterfactual_advance s status ty t (PDict l) ch = Ok s' ->
  is_utc t = true /\ exists items, freeze_json (PDict l) = Ok (JObj items) /\
    advances s s' status {| tr_sequence := cs_version s + 1; tr_event_type := ty; tr_event_at := t; tr_payload := JObj items |} ch.
Proof.
  unfold counterfactual_advance, _payload, as_mapping. intros H. apply bind_Ok in H as (u & U & H). apply require_utc_Ok in U.
  split; [exact U|]. apply bind_Ok in H as (j & Hj & H). apply bind_Ok in Hj as (j' & Hf & Hj). py_inv.
  cbn [freeze_json] in Hf. pose proof Hf as Hf'. apply bind_Ok in Hf' as (items & _ & [= <-]). exists items. split; [exact Hf|].
  split; reflexivity.
Qed.

Lemma counterfactual_advance_total s status ty t l ch : is_utc t = true -> freezable (PDict l) = true ->
  exists s', counterfactual_advance s status ty t (PDict l) ch = Ok s'.
Proof.
  intros U F. destruct (freeze_dict_total l F) as [items Hi]. eexists. unfold counterfactual_advance, _payload.
  rewrite (require_utc_true _ _ U), Hi. reflexivity.
Qed.

Lemma advances_quantity s s' status e ch : advances s s' status e ch ->
  cs_symbol s' = cs_symbol s /\ cs_direction s' = cs_direction s /\ cs_quantity s' = cs_quantity s /\
  cs_eligible_after s' = cs_eligible_after s /\ cs_fee_rate s' = cs_fee_rate s.
Proof. intros [E _ _ _ _ _]. unfold subject in E. injection E. intros. repeat split; congruence. Qed.

Lemma source_events_advance s s' status e ch ty id : advances s s' status e ch ->
  source_events s' ty id = source_events s ty id ++ (if source_event ty id e then [e] else []).
Proof. intros A. unfold source_events. rewrite (av_events _ _ _ _ _ A), List.filter_app. reflexivity. Qed.

Lemma source_events_other s s' status e ch ty id : advances s s' status e ch -> tr_event_type e <> ty ->
  source_events s' ty id = source_events s ty id.
Proof.
  intros A N. rewrite (source_events_advance _ _ _ _ _ _ _ A). unfold source_event. rewrite bool_decide_false by exact N. apply app_nil_r.
Qed.

(** ** Source events that are delivered again *)

Lemma dict_get_app {V} (a b : pydict V) k v : dict_get a k = Some v -> dict_get (a ++ b) k = Some v.
Proof. induction a as [|[k' v'] a IH]; cbn; [discriminate|]. destruct (decide (k = k')); auto. Qed.

Lemma mapM_app_Ok {E A B} (f : A -> Prelude.outcome E B) a b l : mapM f (a ++ b) = Ok l ->
  exists la lb, mapM f a = Ok la /\ mapM f b = Ok lb /\ l = la ++ lb.
Proof.
  revert l. induction a as [|x a IH]; intros l H; [exists [], l; auto|]. cbn [app mapM] in H. py_inv.
  destruct (IH _ H1) as (la & lb & E1 & E2 & ->). cbn [mapM]. rewrite H0, E1. cbn [bind]. eexists _, lb. auto.
Qed.

(** The recorded payload begins with the values that a redelivery compares. *)
Lemma freeze_prefix a b items : freeze_json (PDict (a ++ b)) = Ok (JObj items) ->
  exists la lb, freeze_json (PDict a) = Ok (JObj la) /\ items = la ++ lb /\ map fst la = map fst a.
Proof.
  cbn [freeze_json]. intros H. apply bind_Ok in H as (l & H & [= <-]). apply mapM_app_Ok in H as (la & lb & Ha & _ & ->).
  exists la, lb. rewrite Ha. split; [reflexivity|]. split; [reflexivity|]. exact (freeze_items_keys a la Ha).
Qed.

Definition compared (id : string) (expected : list (string * pyval)) : list (string * pyval) := ("market_event_id", PStr id) :: expected.

Lemma recorded_matches la lb : NoDup (map fst la) ->
  existsb (fun kv => negb (bool_decide (payload_get (JObj (la ++ lb)) (fst kv) = snd kv))) la = false.
Proof.
  intros N. apply existsb_false_Forall, List.Forall_forall. intros [k v] Hk. cbn [fst snd payload_get].
  rewrite (dict_get_app la lb k v) by now apply dict_get_NoDup. now rewrite bool_decide_true.
Qed.

Lemma recorded_id id expected more items : freeze_json (PDict (compared id expected ++ more)) = Ok (JObj items) ->
  payload_get (JObj items) "market_event_id" = JStr id.
Proof.
  intros Hf. destruct (freeze_prefix _ _ _ Hf) as (la & lb & Ha & -> & _). cbn [compared freeze_json mapM fst snd bind] in Ha.
  apply bind_Ok in Ha as (l & Ha & [= <-]). apply bind_Ok in Ha as (l' & _ & [= <-]). reflexivity.
Qed.

Section Redelivery.
Context (s s' : CounterfactualState) (status : CounterfactualStatus) (ch : research) (n : Z) (ty id : string) (t : datetime)
  (expected more : list (string * pyval)) (items : list (string * json)).
Context (Hf : freeze_json (PDict (compared id expected ++ more)) = Ok (JObj items)).
Let e := {| tr_sequence := n; tr_event_type := ty; tr_event_at := t; tr_payload := JObj items |}.
Context (A : advances s s' status e ch) (Fresh : source_events s ty id = []).

Lemma recorded_once : source_events s' ty id = [e].
Proof.
  rewrite (source_events_advance _ _ _ _ _ _ _ A), Fresh. unfold source_event. subst e. cbn [tr_event_type tr_payload].
  now rewrite (recorded_id _ _ _ _ Hf), !bool_decide_true by reflexivity.
Qed.

Lemma seen_again allow : NoDup (map fst (compared id expected)) -> _source_event_exists s' ty id t expected allow = Ok true.
Proof.
  intros N. destruct (freeze_prefix _ _ _ Hf) as (la & lb & Ha & E & K). unfold _source_event_exists, _payload.
  fold (compared id expected). rewrite Ha. cbn [bind as_mapping raise_if]. rewrite recorded_once. subst e. cbn [tr_event_at tr_payload].
  rewrite dt_eqb_refl, andb_false_r, E, recorded_matches by now rewrite K. reflexivity.
Qed.
End Redelivery.

(** ** What the operations do *)

Definition MARK : string := "counterfactual.mark_observed".
Definition BAR : string := "counterfactual.closed_bar_observed".
Definition FUNDING : string := "counterfactual.funding_applied".

Definition event (s : CounterfactualState) (ty : string) (t : datetime) (items : list (string * json)) : CounterfactualTransition :=
  {| tr_sequence := cs_version s + 1; tr_event_type := ty; tr_event_at := t; tr_payload := JObj items |}.

(** The exit plan triggered: the state [s] closes at once. *)
Definition intent_of (evaluation : option ExitEvaluation) : option ExitIntent :=
  match evaluation with Some ev => ee_intent ev | None => None end.

Definition closes (evaluation : option ExitEvaluation) (s : CounterfactualState) (m : dec) (t : datetime) (s' : CounterfactualState) : Prop :=
  match intent_of evaluation with
  | None => s' = s
  | Some i => exists pnl items, _net_pnl s m = Ok pnl /\
      advances s s' CF_RESOLVED (event s "counterfactual.resolved" t items) (set_closed (cs_research s) (enum_value (ei_reason i)) pnl t)
  end.

Lemma close_on_Ok evaluation s m t s' : close_on evaluation s m t = Ok s' -> closes evaluation s m t s'.
Proof.
  unfold close_on, closes. destruct evaluation as [[p [i|]]|]; cbn [intent_of ee_intent]; [|now intros [= <-] ..].
  unfold _close. intros H. apply bind_Ok in H as (pnl & Hp & H). apply counterfactual_advance_Ok in H as (_ & items & _ & A). eauto.
Qed.

Record mark_guards (s : CounterfactualState) (m : dec) (t : datetime) (id : string) : Prop := {
  mg_observable : observable s = true;
  mg_id : empty id = false;
  mg_price : (0 < dval m)%Q;
  mg_utc : is_utc t = true
}.

(** The outcome of one due horizon. *)
Definition horizon_outcome (m : dec) (t : datetime) (net : dec) (hd : string * timedelta) : HorizonOutcome :=
  {| hz_horizon := fst hd; hz_observed_at := t; hz_mark_price := m; hz_net_pnl := net |}.

(** A mark that is recorded, in an observable state with its fill and plan. *)
Record mark_recorded (s : CounterfactualState) (m : dec) (t : datetime) (id : string) (s' : CounterfactualState)
    (fill : PaperFill) (plan : ExitPlan) (gross net : dec) (evaluation : option ExitEvaluation) : Prop := {
  mr_fresh : source_events s MARK id = [];
  mr_fill : rs_entry_fill (cs_research s) = Some fill;
  mr_plan : rs_exit_plan (cs_research s) = Some plan;
  mr_gross : _gross_pnl s m = Ok gross;
  mr_net : _net_pnl s m = Ok net;
  mr_evaluation : if bool_decide (cs_status s = CF_OPEN)
    then exists ev, evaluation = Some ev /\ evaluate_mark plan m t None = Ok ev else evaluation = None;
  mr_step : let r := cs_research s in
    let is_open := bool_decide (cs_status s = CF_OPEN) in
    exists items more updated,
      freeze_json (PDict (compared id [("mark_price", PDec m)] ++ more)) = Ok (JObj items) /\
      advances s updated (cs_status s) (event s MARK t items)
        (set_mark r (if is_open then dmax (rs_maximum_favorable_excursion r) (dmax dzero gross) else rs_maximum_favorable_excursion r)
           (if is_open then dmax (rs_maximum_adverse_excursion r) (dmax dzero (dneg gross)) else rs_maximum_adverse_excursion r)
           (rs_outcomes r ++ map (horizon_outcome m t net) (due_horizons s fill t))
           (match evaluation with Some ev => ee_plan ev | None => plan end)) /\
      closes evaluation updated m t s'
}.

Lemma mapM_pure {E A B} (f : A -> Prelude.outcome E B) (g : A -> B) l : (forall x, f x = Ok (g x)) -> mapM f l = Ok (map g l).
Proof. intros H. induction l as [|x l IH]; [reflexivity|]. cbn [mapM map]. now rewrite H, IH. Qed.

Lemma net_gross s m fill : rs_entry_fill (cs_research s) = Some fill ->
  exists gross net, _gross_pnl s m = Ok gross /\ _net_pnl s m = Ok net.
Proof. unfold _net_pnl, _gross_pnl. intros ->. cbn [of_option bind]. eauto. Qed.

(** [_source_event_exists] answers [False] exactly on a new event. *)
Lemma seen_false s ty id t expected allow : _source_event_exists s ty id t expected allow = Ok false -> source_events s ty id = [].
Proof.
  unfold _source_event_exists. intros H. apply bind_Ok in H as (j & _ & H). destruct (source_events s ty id) as [|e [|e' l]]; [reflexivity | |discriminate].
  apply bind_Ok in H as (u & _ & H). discriminate.
Qed.

Lemma seen_fresh s ty id t expected allow : source_events s ty id = [] -> freezable (PDict (compared id expected)) = true ->
  _source_event_exists s ty id t expected allow = Ok false.
Proof.
  intros E F. destruct (freeze_dict_total _ F) as [items Hi]. unfold _source_event_exists, _payload. fold (compared id expected).
  now rewrite Hi, E.
Qed.

Lemma observe_mark_Ok s m t id s' : observe_mark s m t id = Ok s' -> mark_guards s m t id /\
  (s' = s \/ exists fill plan gross net evaluation, mark_recorded s m t id s' fill plan gross net evaluation).
Proof.
  unfold observe_mark. intros H. do 4 (apply bind_Ok in H as ([] & ? & H)).
  split; [split; [now apply raise_if_Ok, negb_false_iff in H0 | now apply raise_if_Ok in H1 | now apply require_positive_Ok in H2 | now apply require_utc_Ok in H3]|].
  apply bind_Ok in H as ([] & Hs & H); [left; now injection H as <-|]. apply seen_false in Hs. cbv zeta in H.
  apply bind_Ok in H as (fill & Hfill & H). apply of_option_Ok in Hfill. apply bind_Ok in H as (plan & Hplan & H). apply of_option_Ok in Hplan.
  destruct (net_gross s m fill Hfill) as (gross & net & Hg & Hn). rewrite Hg in H. cbn [bind] in H.
  rewrite (mapM_pure _ (horizon_outcome m t net)) in H by (intros hd; rewrite Hn; reflexivity). cbn [bind] in H.
  apply bind_Ok in H as (evaluation & He & H).
  destruct (_ && _ && _ && _); [left; now injection H as <-|]. right. exists fill, plan, gross, net, evaluation.
  apply bind_Ok in H as (updated & Hu & H). apply close_on_Ok in H. apply counterfactual_advance_Ok in Hu as (_ & items & Hf & A).
  split; auto; [|cbv zeta; eexists items, _, updated; split; [exact Hf | split; [exact A | exact H]]].
  destruct (bool_decide _); [|congruence]. apply bind_Ok in He as (ev & He & [= <-]). eauto.
Qed.

Lemma exists_ext s1 s2 ty id t expected allow : source_events s1 ty id = source_events s2 ty id ->
  _source_event_exists s1 ty id t expected allow = _source_event_exists s2 ty id t expected allow.
Proof. unfold _source_event_exists. now intros ->. Qed.

Lemma closes_sources evaluation s m t s' ty id : closes evaluation s m t s' -> ty <> "counterfactual.resolved" ->
  source_events s' ty id = source_events s ty id.
Proof.
  unfold closes. destruct (intent_of evaluation); [|now intros ->]. intros (pnl & items & _ & A) N.
  apply (source_events_other _ _ _ _ _ _ _ A). cbn. congruence.
Qed.

Lemma closes_status evaluation s m t s' : closes evaluation s m t s' ->
  cs_status s' = match intent_of evaluation with Some _ => CF_RESOLVED | None => cs_status s end.
Proof. unfold closes. destruct (intent_of evaluation); [intros (pnl & items & _ & A); apply A | now intros ->]. Qed.

Lemma closes_fill evaluation s m t s' : closes evaluation s m t s' ->
  rs_entry_fill (cs_research s') = rs_entry_fill (cs_research s) /\ rs_exit_plan (cs_research s') = rs_exit_plan (cs_research s).
Proof.
  unfold closes. destruct (intent_of evaluation); [|now intros ->]. intros (pnl & items & _ & A). rewrite (av_research _ _ _ _ _ A). auto.
Qed.

Lemma observe_mark_seen s m t id : mark_guards s m t id ->
  _source_event_exists s MARK id t [("mark_price", PDec m)] false = Ok true -> observe_mark s m t id = Ok s.
Proof.
  intros [O I P U] E. unfold observe_mark. rewrite O, I, (require_positive_true _ _ P), (require_utc_true _ _ U). cbn [negb raise_if bind].
  fold MARK. now rewrite E.
Qed.

Lemma mark_recorded_seen s m t id s' fill plan gross net evaluation : mark_recorded s m t id s' fill plan gross net evaluation ->
  _source_event_exists s' MARK id t [("mark_price", PDec m)] false = Ok true /\
  exists items, source_events s' MARK id = [event s MARK t items] /\ payload_get (JObj items) "mark_price" = JStr (dec_text m).
Proof.
  intros [Fr _ _ _ _ _ (items & more & updated & Hf & A & C)]. pose proof (closes_sources _ _ _ _ _ MARK id C ltac:(discriminate)) as E.
  rewrite (exists_ext s' updated) by exact E. rewrite E. split.
  - eapply seen_again; [exact Hf | exact A | exact Fr | apply (bool_decide_unpack (NoDup _)); vm_compute; exact I].
  - exists items. split; [eapply recorded_once; eassumption|].
    destruct (freeze_prefix _ _ _ Hf) as (la & lb & Ha & -> & _). cbn in Ha. injection Ha as <-. reflexivity.
Qed.

Lemma observe_mark_again s m t id s' : observe_mark s m t id = Ok s' -> observe_mark s' m t id = Ok s'.
Proof.
  intros H. pose proof H as H'. apply observe_mark_Ok in H as ([O Hi P U] & [->|(fill & plan & gross & net & ev & R)]); [exact H'|].
  apply observe_mark_seen; [|apply (mark_recorded_seen _ _ _ _ _ _ _ _ _ _ R)].
  split; [|exact Hi | exact P | exact U]. destruct R as [_ _ _ _ _ _ (items & more & updated & _ & A & C)].
  unfold observable in *. rewrite (closes_status _ _ _ _ _ C), (av_status _ _ _ _ _ A). now destruct (intent_of ev).
Qed.

(** [observe_mark] adds only events of its own kind and the resolution. *)
Lemma observe_mark_sources s m t id s' ty k : observe_mark s m t id = Ok s' -> ty <> MARK -> ty <> "counterfactual.resolved" ->
  source_events s' ty k = source_events s ty k.
Proof.
  intros H N1 N2. apply observe_mark_Ok in H as (_ & [->|(fill & plan & gross & net & ev & R)]); [reflexivity|].
  destruct R as [_ _ _ _ _ _ (items & more & updated & _ & A & C)]. rewrite (closes_sources _ _ _ _ _ ty k C N2).
  apply (source_events_other _ _ _ _ _ _ _ A). cbn. congruence.
Qed.

(** What a closed bar compares and records. *)
Definition bar_expected (m : dec) (d : Direction) (ok : bool) : list (string * pyval) :=
  [("mark_price", PDec m); ("decision_direction", PEnum (enum_value d)); ("decision_approved", PBool ok)].

(** A closed bar that is recorded, after its mark left the state open. *)
Record bar_recorded (s : CounterfactualState) (m : dec) (d : Direction) (ok : bool) (t : datetime) (id : string)
    (marked s' : CounterfactualState) (plan : ExitPlan) (ev : ExitEvaluation) : Prop := {
  br_fresh : source_events s BAR id = [];
  br_mark : observe_mark s m t id = Ok marked;
  br_open : cs_status marked = CF_OPEN;
  br_plan : rs_exit_plan (cs_research marked) = Some plan;
  br_evaluation : observe_closed_bar plan d ok t m = Ok ev;
  br_step : exists items more advanced,
    freeze_json (PDict (compared id (bar_expected m d ok) ++ more)) = Ok (JObj items) /\
    advances marked advanced CF_OPEN (event marked BAR t items) (set_plan (cs_research marked) (ee_plan ev)) /\
    closes (Some ev) advanced m t s'
}.

Lemma closed_bar_Ok s m d ok t id s' : counterfactual_closed_bar s m d ok t id = Ok s' ->
  empty id = false /\
  (s' = s \/
   (source_events s BAR id = [] /\ observe_mark s m t id = Ok s' /\ cs_status s' <> CF_OPEN) \/
   exists marked plan ev, bar_recorded s m d ok t id marked s' plan ev).
Proof.
  unfold counterfactual_closed_bar. intros H. apply bind_Ok in H as ([] & Hi & H). apply raise_if_Ok in Hi. split; [exact Hi|].
  apply bind_Ok in H as ([] & Hs & H); [left; now injection H as <-|]. right. apply seen_false in Hs.
  apply bind_Ok in H as (marked & Hm & H). destruct (bool_decide_reflect (cs_status marked = CF_OPEN)) as [O|O]; cbn [negb] in H.
  - right. apply bind_Ok in H as (plan & Hp & H). apply of_option_Ok in Hp. apply bind_Ok in H as (ev & He & H).
    apply bind_Ok in H as (advanced & Ha & H). apply close_on_Ok in H. apply counterfactual_advance_Ok in Ha as (_ & items & Hf & A).
    exists marked, plan, ev. split; auto. rewrite O in A. eexists items, _, advanced. split; [exact Hf | split; [exact A | exact H]].
  - left. injection H as <-. auto.
Qed.

Lemma closed_bar_again s m d ok t id s' : counterfactual_closed_bar s m d ok t id = Ok s' -> counterfactual_closed_bar s' m d ok t id = Ok s'.
Proof.
  intros H. pose proof H as H'. apply closed_bar_Ok in H as (Hi & [->|[(Fr & Hm & Ho)|(marked & plan & ev & R)]]); [exact H' | |].
  - unfold counterfactual_closed_bar. rewrite Hi. cbn [raise_if bind]. fold BAR. fold (bar_expected m d ok).
    rewrite seen_fresh; [|rewrite (observe_mark_sources _ _ _ _ _ BAR id Hm); [exact Fr | discriminate | discriminate] | reflexivity].
    cbn [bind]. rewrite (observe_mark_again _ _ _ _ _ Hm). cbn [bind]. now rewrite bool_decide_false.
  - destruct R as [Fr Hm _ _ _ (items & more & advanced & Hf & A & C)].
    unfold counterfactual_closed_bar. rewrite Hi. cbn [raise_if bind]. fold BAR. fold (bar_expected m d ok).
    rewrite (exists_ext s' advanced) by (apply (closes_sources _ _ _ _ _ _ _ C); discriminate).
    rewrite (seen_again marked advanced _ _ _ BAR id t (bar_expected m d ok) more items Hf A); [reflexivity | |].
    + rewrite (observe_mark_sources _ _ _ _ _ BAR id Hm); [exact Fr | discriminate | discriminate].
    + apply (bool_decide_unpack (NoDup _)). vm_compute. exact I.
Qed.

Record funding_guards (s : CounterfactualState) (m : dec) (t : datetime) (id : string) (fill : PaperFill) : Prop := {
  fg_mark : mark_guards s m t id;
  fg_fill : rs_entry_fill (cs_research s) = Some fill;
  fg_window : cs_status s = CF_RESOLVED -> instant t <= instant (fl_fill_at fill) + _RESEARCH_WINDOW
}.

Definition funding_payment (s : CounterfactualState) (rate m : dec) : dec :=
  let unsigned := (cs_quantity s * m * rate)%dec in if bool_decide (cs_direction s = LONG) then dneg unsigned else unsigned.

Definition funding_expected (rate m : dec) : list (string * pyval) := [("rate", PDec rate); ("mark_price", PDec m)].

Lemma apply_funding_Ok s rate m t id s' : counterfactual_apply_funding s rate m t id = Ok s' -> exists fill, funding_guards s m t id fill /\
  (s' = s \/ source_events s FUNDING id = [] /\ exists items more,
     freeze_json (PDict (compared id (funding_expected rate m) ++ more)) = Ok (JObj items) /\
     advances s s' (cs_status s) (event s FUNDING t items)
       (set_funding (cs_research s) (rs_funding (cs_research s) + funding_payment s rate m)%dec)).
Proof.
  unfold counterfactual_apply_funding. intros H. do 4 (apply bind_Ok in H as ([] & ? & H)). cbv zeta in H.
  apply bind_Ok in H as (fill & Hfill & H). apply of_option_Ok in Hfill. apply bind_Ok in H as ([] & Hw & H). exists fill. split.
  - split; [split; [now apply raise_if_Ok, negb_false_iff in H0 | now apply raise_if_Ok in H1 | now apply require_positive_Ok in H2 | now apply require_utc_Ok in H3] | exact Hfill |].
    intros E. apply raise_if_Ok in Hw. rewrite bool_decide_true in Hw by exact E. now apply Z.ltb_ge in Hw.
  - apply bind_Ok in H as ([] & Hs & H); [left; now injection H as <-|]. right. apply seen_false in Hs. split; [exact Hs|].
    apply counterfactual_advance_Ok in H as (_ & items & Hf & A). eexists items, _. split; [exact Hf | exact A].
Qed.

Lemma apply_funding_again s rate m t id s' : counterfactual_apply_funding s rate m t id = Ok s' -> counterfactual_apply_funding s' rate m t id = Ok s'.
Proof.
  intros H. pose proof H as H'. apply apply_funding_Ok in H as (fill & [[O Hi P U] Hfill W] & [->|(Fr & items & more & Hf & A)]); [exact H'|].
  unfold counterfactual_apply_funding, observable. rewrite (av_status _ _ _ _ _ A). fold (observable s).
  rewrite O, Hi, (require_positive_true _ _ P), (require_utc_true _ _ U). cbn [negb raise_if bind].
  rewrite (av_research _ _ _ _ _ A). cbn [set_funding rs_entry_fill]. rewrite Hfill. cbn [of_option bind].
  rewrite (proj2 (raise_if_Ok _ _ tt)).
  - cbn [bind]. fold FUNDING. fold (funding_expected rate m).
    rewrite (seen_again s s' _ _ _ FUNDING id t (funding_expected rate m) more items Hf A Fr); [reflexivity|].
    apply (bool_decide_unpack (NoDup _)). vm_compute. exact I.
  - case_bool_decide as E; [|reflexivity]. apply Z.ltb_ge. exact (W E).
Qed.

(** ** Runs *)

Inductive counterfactual_step : CounterfactualState -> CounterfactualState -> Prop :=
| cf_enter s fill plan_id s' : enter s fill plan_id = Ok s' -> counterfactual_step s s'
| cf_no_fill s reason t s' : mark_no_fill s reason t = Ok s' -> counterfactual_step s s'
| cf_mark s m t id s' : observe_mark s m t id = Ok s' -> counterfactual_step s s'
| cf_bar s m d ok t id s' : counterfactual_closed_bar s m d ok t id = Ok s' -> counterfactual_step s s'
| cf_funding s rate m t id s' : counterfactual_apply_funding s rate m t id = Ok s' -> counterfactual_step s s'.

(** The hypothetical fill answers the proposal, after its eligibility. *)
Record entered (s : CounterfactualState) (fill : PaperFill) : Prop := {
  en_symbol : fl_symbol fill = cs_symbol s;
  en_side : fl_side fill = if bool_decide (cs_direction s = LONG) then BUY else SELL;
  en_quantity : deq (fl_quantity fill) (cs_quantity s);
  en_time : is_utc (fl_fill_at fill) = true /\ instant (cs_eligible_after s) < instant (fl_fill_at fill)
}.

(** The exit plan belongs to the fill. *)
Record plan_of (s : CounterfactualState) (fill : PaperFill) (plan : ExitPlan) : Prop := {
  po_side : ep_side plan = cs_direction s;
  po_quantity : ep_quantity plan = fl_quantity fill;
  po_created : ep_created_at plan = fl_fill_at fill
}.

(** What each status stands for. *)
Definition phase (s : CounterfactualState) : Prop :=
  let r := cs_research s in
  match cs_status s with
  | CF_PENDING => rs_entry_fill r = None /\ rs_exit_plan r = None /\ rs_no_fill_reason r = None /\
      rs_hypothetical_exit_reason r = None /\ rs_hypothetical_pnl r = None /\ rs_closed_at r = None
  | CF_NO_FILL => rs_entry_fill r = None /\ rs_exit_plan r = None /\ rs_no_fill_reason r <> None /\
      rs_hypothetical_exit_reason r = None /\ rs_hypothetical_pnl r = None /\ rs_closed_at r <> None
  | CF_OPEN => exists fill plan, rs_entry_fill r = Some fill /\ rs_exit_plan r = Some plan /\ entered s fill /\ plan_of s fill plan /\
      live_plan plan /\ rs_no_fill_reason r = None /\ rs_hypothetical_exit_reason r = None /\ rs_hypothetical_pnl r = None /\
      rs_closed_at r = None
  | CF_RESOLVED => exists fill plan reason, rs_entry_fill r = Some fill /\ rs_exit_plan r = Some plan /\ entered s fill /\
      plan_of s fill plan /\ ep_status plan = EP_TRIGGERED /\ ep_trigger_reason plan = Some reason /\
      rs_no_fill_reason r = None /\ rs_hypothetical_exit_reason r = Some (enum_value reason) /\
      rs_hypothetical_pnl r <> None /\ rs_closed_at r = ep_triggered_at plan
  end.

(** Each horizon is resolved at most once, by a mark at or after it. *)
Definition outcomes_ok (r : research) : Prop :=
  NoDup (map hz_horizon (rs_outcomes r)) /\
  Forall (fun o => exists fill d, rs_entry_fill r = Some fill /\ In (hz_horizon o, d) _HORIZONS /\
    instant (fl_fill_at fill) + d <= instant (hz_observed_at o)) (rs_outcomes r).

Definition once (s : CounterfactualState) : Prop := forall ty id, In ty [MARK; BAR; FUNDING] -> (length (source_events s ty id) <= 1)%nat.

Record recorded (s : CounterfactualState) : Prop := {
  rc_version : 0 < cs_version s;
  rc_sequences : map tr_sequence (cs_events s) = zrange 1 (Z.to_nat (cs_version s));
  rc_excursions : (0 <= dval (rs_maximum_favorable_excursion (cs_research s)) /\ 0 <= dval (rs_maximum_adverse_excursion (cs_research s)))%Q;
  rc_outcomes : outcomes_ok (cs_research s);
  rc_once : once s
}.

Record counterfactual_inv (s : CounterfactualState) : Prop := {
  ci_direction : cs_direction s <> NEUTRAL;
  ci_recorded : recorded s;
  ci_phase : phase s
}.

(** What a step keeps: the proposal, the audit trail, the excursions, the
    outcomes and the fill; and a resolved result is final. *)
Record grows (s s' : CounterfactualState) : Prop := {
  gr_subject : subject s' = subject s;
  gr_events : exists more, cs_events s' = cs_events s ++ more;
  gr_outcomes : exists more, rs_outcomes (cs_research s') = rs_outcomes (cs_research s) ++ more;
  gr_excursions : (dval (rs_maximum_favorable_excursion (cs_research s)) <= dval (rs_maximum_favorable_excursion (cs_research s')) /\
                   dval (rs_maximum_adverse_excursion (cs_research s)) <= dval (rs_maximum_adverse_excursion (cs_research s')))%Q;
  gr_fill : forall fill, rs_entry_fill (cs_research s) = Some fill -> rs_entry_fill (cs_research s') = Some fill;
  gr_final : cs_status s = CF_RESOLVED -> cs_status s' = CF_RESOLVED /\
    rs_hypothetical_pnl (cs_research s') = rs_hypothetical_pnl (cs_research s) /\
    rs_hypothetical_exit_reason (cs_research s') = rs_hypothetical_exit_reason (cs_research s) /\
    rs_closed_at (cs_research s') = rs_closed_at (cs_research s);
  gr_no_fill : cs_status s = CF_NO_FILL -> s' = s
}.

Lemma grows_refl s : grows s s.
Proof. split; try (exists []; now rewrite app_nil_r); auto; split; lra. Qed.

Lemma grows_trans s1 s2 s3 : grows s1 s2 -> grows s2 s3 -> grows s1 s3.
Proof.
  intros [A1 [a A2] [b A3] [A4 A4'] A5 A6 A7] [B1 [c B2] [d B3] [B4 B4'] B5 B6 B7]. split.
  - congruence.
  - exists (a ++ c). now rewrite B2, A2, app_assoc.
  - exists (b ++ d). now rewrite B3, A3, app_assoc.
  - split; lra.
  - auto.
  - intros E. destruct (A6 E) as (E2 & A8 & A9 & A10). destruct (B6 E2) as (E3 & B8 & B9 & B10). repeat split; congruence.
  - intros E. pose proof (A7 E) as ->. auto.
Qed.

(** *** One event *)

(** An event that a step may add: a new source event, or one of no source. *)
Definition new_event (s : CounterfactualState) (e : CounterfactualTransition) : Prop :=
  ~ In (tr_event_type e) [MARK; BAR; FUNDING] \/
  exists items id, tr_payload e = JObj items /\ payload_get (JObj items) "market_event_id" = JStr id /\
    source_events s (tr_event_type e) id = [].

Lemma advances_recorded s s' status e ch : recorded s -> advances s s' status e ch -> new_event s e ->
  (0 <= dval (rs_maximum_favorable_excursion ch) /\ 0 <= dval (rs_maximum_adverse_excursion ch))%Q -> outcomes_ok ch -> recorded s'.
Proof.
  intros [V Sq _ _ O] A N X Oc. split; rewrite ?(av_research _ _ _ _ _ A), ?(av_version _ _ _ _ _ A); auto; [lia | |].
  - rewrite (av_events _ _ _ _ _ A), map_app, Sq. cbn [map]. replace (Z.to_nat (cs_version s + 1)) with (S (Z.to_nat (cs_version s))) by lia.
    rewrite zrange_snoc, (av_sequence _ _ _ _ _ A). do 2 f_equal. lia.
  - intros ty id Hty. rewrite (source_events_advance _ _ _ _ _ _ _ A), length_app. specialize (O ty id Hty).
    destruct (source_event ty id e) eqn:E; cbn [length]; [|lia]. unfold source_event in E. bool_prop. subst ty.
    destruct N as [N|(items & id' & Ep & Ei & Fr)]; [contradiction|]. rewrite Ep, Ei in *.
    match goal with H : JStr _ = JStr _ |- _ => injection H as -> end. rewrite Fr. cbn. lia.
Qed.

Lemma advances_grows s s' status e ch : advances s s' status e ch -> let r := cs_research s in
  (exists more, rs_outcomes ch = rs_outcomes r ++ more) ->
  (dval (rs_maximum_favorable_excursion r) <= dval (rs_maximum_favorable_excursion ch) /\
   dval (rs_maximum_adverse_excursion r) <= dval (rs_maximum_adverse_excursion ch))%Q ->
  (rs_entry_fill r = None \/ rs_entry_fill ch = rs_entry_fill r) ->
  (cs_status s = CF_RESOLVED -> status = CF_RESOLVED /\ rs_hypothetical_pnl ch = rs_hypothetical_pnl r /\
     rs_hypothetical_exit_reason ch = rs_hypothetical_exit_reason r /\ rs_closed_at ch = rs_closed_at r) ->
  cs_status s <> CF_NO_FILL -> grows s s'.
Proof.
  intros A r O X F R N. split; rewrite ?(av_research _ _ _ _ _ A), ?(av_status _ _ _ _ _ A); auto.
  - apply A.
  - eexists. apply A.
  - fold r. intros fill E. destruct F; congruence.
  - contradiction.
Qed.

Lemma entered_advance s s' status e ch fill : advances s s' status e ch -> entered s fill -> entered s' fill.
Proof.
  intros A [E1 E2 E3 E4]. destruct (advances_quantity _ _ _ _ _ A) as (Q1 & Q2 & Q3 & Q4 & _). split; rewrite ?Q1, ?Q2, ?Q3, ?Q4; assumption.
Qed.

Lemma plan_advance s s' status e ch fill plan : advances s s' status e ch -> plan_of s fill plan -> plan_of s' fill plan.
Proof.
  intros A [P1 P2 P3]. destruct (advances_quantity _ _ _ _ _ A) as (_ & Q2 & _). split; rewrite ?Q2; assumption.
Qed.

(** *** The exit plan of a counterfactual *)

Lemma exit_create_live plan pos side q e loss gain t bars p : exit_create plan pos side q e loss gain t bars = Ok p ->
  live_plan p /\ ep_side p = side /\ ep_quantity p = q /\ ep_created_at p = t /\ side <> NEUTRAL /\ is_utc t = true.
Proof.
  unfold exit_create. destruct (_levels side e loss gain) as [st tg]. intros H. py_inv. bool_prop.
  match goal with H : require_utc _ _ = Ok _ |- _ => apply require_utc_Ok in H end.
  pose proof H as Hp. apply post_init_Ok in H. subst p. split; [split; [exact Hp | reflexivity | assumption]|]. repeat split; assumption.
Qed.

(** A plan after an evaluation: still live, or triggered by the intent. *)
Definition evaluated (p : ExitPlan) (t : datetime) (ev : ExitEvaluation) : Prop :=
  (ep_side (ee_plan ev) = ep_side p /\ ep_quantity (ee_plan ev) = ep_quantity p /\ ep_created_at (ee_plan ev) = ep_created_at p) /\
  match ee_intent ev with
  | None => live_plan (ee_plan ev)
  | Some i => ep_status (ee_plan ev) = EP_TRIGGERED /\ ep_trigger_reason (ee_plan ev) = Some (ei_reason i) /\
      ep_triggered_at (ee_plan ev) = Some t
  end.

Lemma trigger_evaluated p reason t price x ev : _trigger p reason t price x = Ok ev -> evaluated p t ev.
Proof.
  intros H. apply trigger_Ok in H as ([(_ & _ & L1 & L2 & _) _ _] & St & Re & Ti & _ & Q & _ & _ & i & Ei & Er & _).
  split; [auto|]. rewrite Ei, Er. auto.
Qed.

Lemma mark_evaluated p m t x ev : live_plan p -> evaluate_mark p m t x = Ok ev -> evaluated p t ev.
Proof.
  intros L H. apply evaluate_mark_Ok in H as (_ & [->|(reason & e & H)]); [split; [auto | exact L] | eapply trigger_evaluated, H].
Qed.

Lemma bar_evaluated p d ok t x ev : live_plan p -> observe_closed_bar p d ok t x = Ok ev -> evaluated p t ev.
Proof.
  intros L H. unfold observe_closed_bar in H. do 3 (apply bind_Ok in H as ([] & _ & H)). cbv zeta in H.
  apply bind_Ok in H as (u & Hu & H). pose proof (post_init_Ok _ _ Hu) as Eu. rewrite <- Eu in Hu.
  assert (Lu : live_plan u) by (split; [exact Hu | rewrite Eu; apply L | rewrite Eu; apply L]).
  assert (Ep : ep_side u = ep_side p /\ ep_quantity u = ep_quantity p /\ ep_created_at u = ep_created_at p) by (rewrite Eu; auto).
  assert (Hev : evaluated u t ev).
  { destruct (_ <=? _); [eapply trigger_evaluated, H|]. destruct (_ <=? _); [eapply trigger_evaluated, H|].
    injection H as <-. split; [auto | exact Lu]. }
  destruct Hev as [(E1 & E2 & E3) E4], Ep as (F1 & F2 & F3). split; [repeat split; congruence | exact E4].
Qed.

(** *** Each operation *)

Definition open_phase (s : CounterfactualState) (fill : PaperFill) (plan : ExitPlan) : Prop :=
  let r := cs_research s in
  rs_entry_fill r = Some fill /\ rs_exit_plan r = Some plan /\ entered s fill /\ plan_of s fill plan /\ live_plan plan /\
  rs_no_fill_reason r = None /\ rs_hypothetical_exit_reason r = None /\ rs_hypothetical_pnl r = None /\ rs_closed_at r = None.

(** An evaluation of the plan of an open state, recorded and acted upon. *)
Lemma evaluation_phase s updated e ch fill plan ev m t s' : open_phase s fill plan -> evaluated plan t ev ->
  advances s updated CF_OPEN e ch -> rs_entry_fill ch = rs_entry_fill (cs_research s) -> rs_exit_plan ch = Some (ee_plan ev) ->
  rs_no_fill_reason ch = rs_no_fill_reason (cs_research s) -> rs_hypothetical_exit_reason ch = rs_hypothetical_exit_reason (cs_research s) ->
  rs_hypothetical_pnl ch = rs_hypothetical_pnl (cs_research s) -> rs_closed_at ch = rs_closed_at (cs_research s) ->
  closes (Some ev) updated m t s' -> phase s'.
Proof.
  intros (O1 & O2 & O3 & [P1 P2 P3] & O5 & O6 & O7 & O8 & O9) [(V1 & V2 & V3) V4] A F1 F2 F3 F4 F5 F6 C.
  assert (Pu : plan_of updated fill (ee_plan ev)) by (apply (plan_advance _ _ _ _ _ _ _ A); split; congruence).
  pose proof (entered_advance _ _ _ _ _ _ A O3) as Eu. pose proof (av_research _ _ _ _ _ A) as Ru. unfold closes, intent_of in C.
  destruct (ee_intent ev) as [i|].
  - destruct C as (pnl & items & _ & A'). unfold phase. rewrite (av_status _ _ _ _ _ A'), (av_research _ _ _ _ _ A'), Ru.
    destruct V4 as (W1 & W2 & W3). exists fill, (ee_plan ev), (ei_reason i). cbn.
    split; [congruence|]. split; [congruence|]. split; [apply (entered_advance _ _ _ _ _ _ A' Eu)|].
    split; [apply (plan_advance _ _ _ _ _ _ _ A' Pu)|]. repeat split; try congruence; auto.
  - subst s'. unfold phase. rewrite (av_status _ _ _ _ _ A), Ru. exists fill, (ee_plan ev). repeat split; try congruence; try apply Eu; apply Pu || apply V4.
Qed.

Lemma closes_recorded evaluation s m t s' : recorded s -> (intent_of evaluation <> None -> cs_status s = CF_OPEN) ->
  closes evaluation s m t s' -> recorded s' /\ grows s s'.
Proof.
  intros R N C. unfold closes in C. destruct (intent_of evaluation); [|subst; split; [exact R | apply grows_refl]].
  destruct C as (pnl & items & _ & A). specialize (N ltac:(discriminate)). split.
  - eapply advances_recorded; [exact R | exact A | | apply R | apply R].
    left. cbn. intros [H|[H|[H|[]]]]; discriminate.
  - eapply advances_grows; [exact A | exists []; now rewrite app_nil_r | split; apply Qle_refl | now right | congruence | congruence].
Qed.

Lemma observable_open s : observable s = true -> cs_status s = CF_OPEN \/ cs_status s = CF_RESOLVED.
Proof. unfold observable. intros H. apply orb_true_iff in H as [H|H]; bool_prop; auto. Qed.

Lemma NoDup_map_filter {A B} (f : A -> B) (keep : A -> bool) l : NoDup (map f l) -> NoDup (map f (List.filter keep l)).
Proof.
  induction l as [|x l IH]; cbn [map List.filter]; intros N; [constructor|]. apply NoDup_cons in N as [Hx N]. destruct (keep x); [|now apply IH].
  cbn [map]. constructor; [|now apply IH]. intros H. apply Hx, list_elem_of_In, in_map_iff. apply list_elem_of_In, in_map_iff in H as (y & E & Hy).
  apply List.filter_In in Hy as [Hy _]. eauto.
Qed.

(** The horizons that a mark resolves are new and due. *)
Lemma due_outcomes s fill t m net : outcomes_ok (cs_research s) -> rs_entry_fill (cs_research s) = Some fill ->
  forall ch, rs_entry_fill ch = Some fill ->
  rs_outcomes ch = rs_outcomes (cs_research s) ++ map (horizon_outcome m t net) (due_horizons s fill t) -> outcomes_ok ch.
Proof.
  intros [N F] Ef ch Ec Eo. unfold outcomes_ok. rewrite Eo, Ec. split.
  - rewrite map_app, List.map_map. cbn [horizon_outcome hz_horizon]. apply NoDup_app. split; [exact N|]. split.
    + intros h Hh Hd. apply list_elem_of_In, in_map_iff in Hd as (hd & <- & Hd). apply List.filter_In in Hd as [_ Hd]. bool_prop. contradiction.
    + unfold due_horizons. apply NoDup_map_filter, (bool_decide_unpack (NoDup _)). vm_compute. exact I.
  - apply List.Forall_app. split.
    + eapply List.Forall_impl; [|exact F]. intros o (fill' & d & E & H). exists fill', d. split; [congruence | exact H].
    + apply List.Forall_forall. intros o Ho. apply in_map_iff in Ho as ([h d] & <- & Hd). apply List.filter_In in Hd as [Hd Hc].
      bool_prop. exists fill, d. split; [reflexivity|]. split; [exact Hd|]. now apply Z.leb_le.
Qed.

Lemma excursion_grows (b : bool) x g : (0 <= dval x)%Q ->
  (0 <= dval (if b then dmax x (dmax dzero g) else x) /\ dval x <= dval (if b then dmax x (dmax dzero g) else x))%Q.
Proof. intros H. pose proof (dmax_ub_l x (dmax dzero g)). destruct b; lra. Qed.

Lemma phase_open s : phase s -> cs_status s = CF_OPEN -> exists fill plan, open_phase s fill plan.
Proof. unfold phase. intros P E. rewrite E in P. exact P. Qed.

Lemma open_phase_phase s fill plan : cs_status s = CF_OPEN -> open_phase s fill plan -> phase s.
Proof. unfold phase. intros -> O. exists fill, plan. exact O. Qed.

(** A resolved state whose hypothetical result does not change. *)
Lemma resolved_phase s s' e ch : phase s -> cs_status s = CF_RESOLVED -> advances s s' CF_RESOLVED e ch ->
  rs_entry_fill ch = rs_entry_fill (cs_research s) -> rs_exit_plan ch = rs_exit_plan (cs_research s) ->
  rs_no_fill_reason ch = rs_no_fill_reason (cs_research s) -> rs_hypothetical_exit_reason ch = rs_hypothetical_exit_reason (cs_research s) ->
  rs_hypothetical_pnl ch = rs_hypothetical_pnl (cs_research s) -> rs_closed_at ch = rs_closed_at (cs_research s) -> phase s'.
Proof.
  unfold phase. intros P E A F1 F2 F3 F4 F5 F6. rewrite E in P. destruct P as (fill & plan & reason & P1 & P2 & P3 & P4 & P5 & P6 & P7 & P8 & P9 & P10).
  rewrite (av_status _ _ _ _ _ A), (av_research _ _ _ _ _ A). exists fill, plan, reason.
  split; [congruence|]. split; [congruence|]. split; [apply (entered_advance _ _ _ _ _ _ A P3)|].
  split; [apply (plan_advance _ _ _ _ _ _ _ A P4)|]. repeat split; congruence.
Qed.

Lemma new_source s ty id t items : In ty [MARK; BAR; FUNDING] -> payload_get (JObj items) "market_event_id" = JStr id ->
  source_events s ty id = [] -> new_event s (event s ty t items).
Proof. intros _ P F. right. exists items, id. auto. Qed.

Lemma subject_direction s s' : subject s' = subject s -> cs_direction s' = cs_direction s.
Proof. unfold subject. intros E. injection E. congruence. Qed.

Definition preserves (s s' : CounterfactualState) : Prop := counterfactual_inv s' /\ grows s s'.

Lemma preserves_intro s s' : counterfactual_inv s -> recorded s' -> grows s s' -> phase s' -> preserves s s'.
Proof. intros [D _ _] R G P. split; [|exact G]. split; [|exact R | exact P]. now rewrite (subject_direction _ _ (gr_subject _ _ G)). Qed.

Lemma mark_inv s m t id s' : counterfactual_inv s -> observe_mark s m t id = Ok s' -> preserves s s'.
Proof.
  intros Inv H. pose proof Inv as [D R P]. apply observe_mark_Ok in H as ([O Hi Hp U] & [->|(fill & plan & gross & net & ev & M)]);
    [split; [exact Inv | apply grows_refl]|].
  destruct M as [Fr Ef Epl Hg Hn Hev (items & more & updated & Hf & A & C)]. cbv zeta in A.
  destruct (rc_excursions s R) as [X1 X2].
  pose proof (excursion_grows (bool_decide (cs_status s = CF_OPEN)) _ gross X1) as [Y1 Z1].
  pose proof (excursion_grows (bool_decide (cs_status s = CF_OPEN)) _ (dneg gross) X2) as [Y2 Z2].
  assert (Ru : recorded updated).
  { eapply advances_recorded; [exact R | exact A | | split; [exact Y1 | exact Y2] |].
    - apply (new_source s MARK id t items); [cbn; auto | apply (recorded_id _ _ _ _ Hf) | exact Fr].
    - eapply due_outcomes; [apply R | exact Ef | exact Ef | reflexivity]. }
  assert (Gu : grows s updated).
  { eapply advances_grows; [exact A | eexists; reflexivity | split; [exact Z1 | exact Z2] | now right | |].
    - intros E. rewrite E. auto.
    - destruct (observable_open s O); congruence. }
  destruct (closes_recorded ev updated m t s' Ru) as [R' G']; [|exact C|].
  { intros Hi'. rewrite (av_status _ _ _ _ _ A). destruct (bool_decide_reflect (cs_status s = CF_OPEN)) as [E|E]; [exact E|].
    subst ev. now contradiction Hi'. }
  apply preserves_intro; [exact Inv | exact R' | exact (grows_trans _ _ _ Gu G')|].
  destruct (observable_open s O) as [E|E]; rewrite E in A, Hev.
  - rewrite bool_decide_true in Hev by reflexivity. destruct Hev as (e & -> & He). destruct (phase_open s P E) as (fill' & plan' & Ph).
    pose proof Ph as (O1 & O2 & _ & _ & L & _). replace plan' with plan in * by congruence.
    eapply (evaluation_phase s updated); [exact Ph | eapply mark_evaluated; eassumption | exact A | reflexivity .. | exact C].
  - rewrite bool_decide_false in Hev by discriminate. subst ev. cbn [closes intent_of] in C. subst s'.
    eapply resolved_phase; [exact P | exact E | exact A | try reflexivity ..]. cbn. congruence.
Qed.

Lemma bar_inv s m d ok t id s' : counterfactual_inv s -> counterfactual_closed_bar s m d ok t id = Ok s' -> preserves s s'.
Proof.
  intros Inv H. apply closed_bar_Ok in H as (_ & [->|[(_ & Hm & _)|(marked & plan & ev & B)]]).
  { split; [exact Inv | apply grows_refl]. }
  { eapply mark_inv; eassumption. }
  destruct B as [Fr Hm Om Epl Hev (items & more & advanced & Hf & A & C)].
  destruct (mark_inv _ _ _ _ _ Inv Hm) as [[Dm Rm Pm] Gm].
  assert (Ra : recorded advanced).
  { eapply advances_recorded; [exact Rm | exact A | | apply Rm | apply Rm].
    apply (new_source marked BAR id t items); [cbn; auto | apply (recorded_id _ _ _ _ Hf)|].
    rewrite (observe_mark_sources _ _ _ _ _ BAR id Hm); [exact Fr | discriminate | discriminate]. }
  assert (Ga : grows marked advanced).
  { eapply advances_grows; [exact A | exists []; now rewrite app_nil_r | split; apply Qle_refl | now right | congruence | congruence]. }
  destruct (closes_recorded (Some ev) advanced m t s' Ra) as [R' G']; [intros _; apply A | exact C|].
  destruct (phase_open marked Pm Om) as (fill & plan' & Ph). pose proof Ph as (_ & O2 & _ & _ & L & _).
  replace plan' with plan in * by congruence.
  apply preserves_intro; [exact Inv | exact R' | exact (grows_trans _ _ _ Gm (grows_trans _ _ _ Ga G'))|].
  eapply (evaluation_phase marked advanced); [exact Ph | eapply bar_evaluated; eassumption | exact A | reflexivity .. | exact C].
Qed.

Lemma funding_inv s rate m t id s' : counterfactual_inv s -> counterfactual_apply_funding s rate m t id = Ok s' -> preserves s s'.
Proof.
  intros Inv H. pose proof Inv as [D R P]. apply apply_funding_Ok in H as (fill & [[O _ _ _] Ef _] & [->|(Fr & items & more & Hf & A)]);
    [split; [exact Inv | apply grows_refl]|].
  apply preserves_intro; [exact Inv | | |].
  - eapply advances_recorded; [exact R | exact A | | apply R | apply R].
    apply (new_source s FUNDING id t items); [cbn; auto | apply (recorded_id _ _ _ _ Hf) | exact Fr].
  - eapply advances_grows; [exact A | exists []; now rewrite app_nil_r | split; apply Qle_refl | now right | intros E; rewrite E; auto |].
    destruct (observable_open s O); congruence.
  - destruct (observable_open s O) as [E|E]; rewrite E in A.
    + destruct (phase_open s P E) as (fill' & plan & O1 & O2 & O3 & O4 & O5 & O6 & O7 & O8 & O9).
      apply (open_phase_phase s' fill' plan); [apply A|]. unfold open_phase. rewrite (av_research _ _ _ _ _ A).
      split; [exact O1|]. split; [exact O2|]. split; [exact (entered_advance _ _ _ _ _ _ A O3)|].
      split; [exact (plan_advance _ _ _ _ _ _ _ A O4)|]. auto.
    + eapply resolved_phase; [exact P | exact E | exact A | reflexivity ..].
Qed.

Lemma pending_outcomes r : rs_entry_fill r = None -> outcomes_ok r -> rs_outcomes r = [].
Proof.
  intros E [_ F]. destruct (rs_outcomes r); [reflexivity|]. apply Forall_cons in F as [(fill & d & H & _) _]. congruence.
Qed.

Lemma enter_inv s fill plan_id s' : counterfactual_inv s -> enter s fill plan_id = Ok s' -> preserves s s'.
Proof.
  intros Inv H. pose proof Inv as [D R P]. unfold enter in H. cbv zeta in H. do 2 (apply bind_Ok in H as ([] & ? & H)).
  apply bind_Ok in H as (late & Hl & H). apply bind_Ok in H as ([] & Hf & H). apply raise_if_Ok in Hf as ->.
  apply bind_Ok in H as (plan & Hp & H). apply counterfactual_advance_Ok in H as (_ & items & _ & A).
  apply raise_if_Ok in H0, H1. bool_prop. unfold phase in P. rewrite H0 in P. destruct P as (P1 & P2 & P3 & P4 & P5 & P6).
  destruct (exit_create_live _ _ _ _ _ _ _ _ _ _ Hp) as (L & S1 & S2 & S3 & _ & U).
  assert (En : entered s fill).
  { destruct (deqb (fl_quantity fill) (cs_quantity s)) eqn:Eq; cbn [negb] in Hl; [|discriminate]. split; try assumption.
    - now apply deqb_eq.
    - split; [exact U|]. unfold dt_le in Hl. destruct (same_awareness _ _); [|discriminate]. injection Hl as Hl. now apply Z.leb_gt in Hl. }
  apply preserves_intro; [exact Inv | | |].
  - eapply advances_recorded; [exact R | exact A | left; cbn; intros [E|[E|[E|[]]]]; discriminate | apply R |].
    unfold outcomes_ok. cbn [set_entry rs_outcomes rs_entry_fill]. rewrite (pending_outcomes _ P1 (rc_outcomes s R)). split; constructor.
  - eapply advances_grows; [exact A | exists []; now rewrite app_nil_r | split; apply Qle_refl | now left | congruence | congruence].
  - apply (open_phase_phase s' fill plan); [apply A|]. unfold open_phase. rewrite (av_research _ _ _ _ _ A).
    split; [reflexivity|]. split; [reflexivity|]. split; [exact (entered_advance _ _ _ _ _ _ A En)|].
    split; [apply (plan_advance _ _ _ _ _ _ _ A); split; congruence|]. auto.
Qed.

Lemma no_fill_inv s reason t s' : counterfactual_inv s -> mark_no_fill s reason t = Ok s' -> preserves s s'.
Proof.
  intros Inv H. pose proof Inv as [D R P]. unfold mark_no_fill in H. do 3 (apply bind_Ok in H as ([] & ? & H)).
  apply counterfactual_advance_Ok in H as (_ & items & _ & A). apply raise_if_Ok in H0. bool_prop. unfold phase in P. rewrite H0 in P.
  destruct P as (P1 & P2 & P3 & P4 & P5 & P6). apply preserves_intro; [exact Inv | | |].
  - eapply advances_recorded; [exact R | exact A | left; cbn; intros [E|[E|[E|[]]]]; discriminate | apply R | apply R].
  - eapply advances_grows; [exact A | exists []; now rewrite app_nil_r | split; apply Qle_refl | now left | congruence | congruence].
  - unfold phase. rewrite (av_status _ _ _ _ _ A), (av_research _ _ _ _ _ A). cbn. repeat split; try assumption; discriminate.
Qed.

Lemma step_preserves s s' : counterfactual_inv s -> counterfactual_step s s' -> preserves s s'.
Proof.
  intros Inv H. destruct H; eauto using enter_inv, no_fill_inv, mark_inv, bar_inv, funding_inv.
Qed.

Lemma create_inv id experiment proposal cycle symbol direction gate chain quantity price eligible fee loss gain created s :
  counterfactual_create id experiment proposal cycle symbol direction gate chain quantity price eligible fee loss gain created = Ok s ->
  counterfactual_inv s.
Proof.
  unfold counterfactual_create. intros H. py_inv. bool_prop. split; [assumption | | repeat split].
  split; cbn; [lia | reflexivity | split; rewrite dval_zero; apply Qle_refl | split; constructor |].
  intros ty k Hty. unfold source_events, source_event. cbn [cs_events List.filter tr_event_type]. rewrite bool_decide_false; [cbn; lia|].
  destruct Hty as [<-|[<-|[<-|[]]]]; discriminate.
Qed.

Lemma run_preserves s s' : counterfactual_inv s -> star counterfactual_step s s' -> preserves s s'.
Proof.
  intros Inv H. induction H as [s|s1 s2 s3 H _ IH]; [split; [exact Inv | apply grows_refl]|].
  destruct (step_preserves _ _ Inv H) as [I2 G2]. destruct (IH I2) as [I3 G3]. split; [exact I3 | exact (grows_trans _ _ _ G2 G3)].
Qed.

(** ** The properties *)

(** C20: The life of a counterfactual.  Along every run the audit trail is
    numbered from one without gaps and holds each source event at most once;
    each status stands for exactly the evidence it needs (an open state has a
    matching fill after its eligibility and a live exit plan, a resolved one
    the triggered plan with its reason, time and result); horizons are resolved
    at most once and never early; excursions never shrink; a fill never
    changes; and a result, once there, is final. *)
Theorem counterfactual_lifecycle id experiment proposal cycle symbol direction gate chain quantity price eligible fee loss gain created s0 s s'
    (H0 : counterfactual_create id experiment proposal cycle symbol direction gate chain quantity price eligible fee loss gain created = Ok s0)
    (R : star counterfactual_step s0 s) (R' : star counterfactual_step s s') :
  counterfactual_inv s /\ grows s0 s /\ counterfactual_inv s' /\ grows s s'.
Proof.
  destruct (run_preserves _ _ (create_inv _ _ _ _ _ _ _ _ _ _ _ _ _ _ _ _ H0) R) as [I1 G1].
  destruct (run_preserves _ _ I1 R') as [I2 G2]. auto.
Qed.

Lemma dec_text_inj x y : repr x -> repr y -> dec_text x = dec_text y -> deq x y.
Proof. intros Rx Ry E. rewrite <- (dfix_repr x Rx), <- (dfix_repr y Ry), <- (dec_text_read x), <- (dec_text_read y). now rewrite E. Qed.


(** ** A mark of an open state *)

Lemma mark_evaluation p m t : live_plan p -> (0 < dval m)%Q -> after_creation p t -> exists ev, evaluate_mark p m t None = Ok ev /\
  match ee_intent ev with
  | Some i => (stop_hit p m \/ target_hit p m) /\ ei_reason i = if stop_hitb p m then STOP else TARGET
  | None => ~ stop_hit p m /\ ~ target_hit p m
  end.
Proof.
  intros L Hp Ht. assert (Tr : forall r, exists ev i, _trigger p r t (Some m) m = Ok ev /\ ee_intent ev = Some i /\ ei_reason i = r).
  { intros r. destruct (trigger_total p r t (Some m) m (lp_created p L) Ht Hp) as [ev Hev]; [now intros d [= <-]|].
    pose proof Hev as Hi. apply trigger_Ok in Hi as (_ & _ & _ & _ & _ & _ & _ & _ & i & Ei & Er & _). eauto. }
  destruct (evaluate_mark_eq p m t None L Hp (proj1 Ht)) as [(S & E)|[(S & T & E)|(S & T & E)]]; [discriminate | | |]; rewrite E.
  - destruct (Tr STOP) as (ev & i & Hev & Ei & Er). exists ev. rewrite Ei, (proj2 (stop_hitb_spec p m) S). auto.
  - destruct (Tr TARGET) as (ev & i & Hev & Ei & Er). exists ev. rewrite Ei. assert (stop_hitb p m = false) as ->; [|auto].
    apply not_true_iff_false. now rewrite stop_hitb_spec.
  - eexists. split; [reflexivity|]. cbn. auto.
Qed.

Lemma net_advance s s' status e ch m : advances s s' status e ch -> rs_entry_fill ch = rs_entry_fill (cs_research s) ->
  rs_funding ch = rs_funding (cs_research s) -> _net_pnl s' m = _net_pnl s m.
Proof.
  intros A E1 E2. destruct (advances_quantity _ _ _ _ _ A) as (_ & Q2 & Q3 & _ & Q5).
  unfold _net_pnl, _gross_pnl. rewrite (av_research _ _ _ _ _ A), E1, E2, Q2, Q3, Q5. reflexivity.
Qed.

Lemma close_on_total evaluation s m t net : is_utc t = true -> _net_pnl s m = Ok net -> exists s', close_on evaluation s m t = Ok s'.
Proof.
  intros U N. unfold close_on. destruct evaluation as [[p [i|]]|]; [|eauto ..]. unfold _close. rewrite N. cbn [bind].
  now apply counterfactual_advance_total.
Qed.

(** What a mark of an open state leaves. *)
Record mark_effect (s : CounterfactualState) (fill : PaperFill) (plan : ExitPlan) (m : dec) (t : datetime) (gross net : dec)
    (s' : CounterfactualState) : Prop := {
  me_resolved : cs_status s' = CF_RESOLVED <-> stop_hit plan m \/ target_hit plan m;
  me_open : cs_status s' = CF_RESOLVED \/ cs_status s' = CF_OPEN;
  me_result : cs_status s' = CF_RESOLVED -> rs_hypothetical_pnl (cs_research s') = Some net /\
    rs_hypothetical_exit_reason (cs_research s') = Some (enum_value (if stop_hitb plan m then STOP else TARGET)) /\
    rs_closed_at (cs_research s') = Some t;
  me_favorable : deq (rs_maximum_favorable_excursion (cs_research s'))
    (dmax (rs_maximum_favorable_excursion (cs_research s)) (dmax dzero gross));
  me_adverse : deq (rs_maximum_adverse_excursion (cs_research s'))
    (dmax (rs_maximum_adverse_excursion (cs_research s)) (dmax dzero (dneg gross)));
  me_outcomes : rs_outcomes (cs_research s') = rs_outcomes (cs_research s) ++ map (horizon_outcome m t net) (due_horizons s fill t)
}.

Lemma recorded_effect s fill plan m t gross net id s' ev : mark_recorded s m t id s' fill plan gross net (Some ev) ->
  cs_status s = CF_OPEN -> match ee_intent ev with
  | Some i => (stop_hit plan m \/ target_hit plan m) /\ ei_reason i = (if stop_hitb plan m then STOP else TARGET)
  | None => ~ stop_hit plan m /\ ~ target_hit plan m
  end -> mark_effect s fill plan m t gross net s'.
Proof.
  intros [_ Ef _ _ Hn _ (items & more & updated & _ & A & C)] O Hi. cbv zeta in A. rewrite O, bool_decide_true in A by reflexivity.
  pose proof (av_research _ _ _ _ _ A) as Ru. unfold closes, intent_of in C. destruct (ee_intent ev) as [i|].
  - destruct C as (pnl & items' & Hp & A'). rewrite (net_advance _ _ _ _ _ m A) in Hp by reflexivity.
    assert (pnl = net) as -> by congruence. destruct Hi as [Hi Er]. rewrite Er in A'.
    pose proof (av_research _ _ _ _ _ A') as R'. rewrite Ru in R'. split; rewrite ?(av_status _ _ _ _ _ A'), ?R'; cbn; try reflexivity; tauto.
  - subst s'. split; rewrite ?(av_status _ _ _ _ _ A), ?Ru; cbn; try reflexivity; [|now right | discriminate].
    split; [discriminate | tauto].
Qed.

(** Every mark of an open counterfactual has an answer, and the right one.
    It resolves the counterfactual exactly when the mark is at or beyond the
    stop or the target of its plan, with the net result of closing the whole
    quantity at that mark and the reason of the level that was hit (the stop
    first); otherwise it stays open.  The excursions become the largest gross
    gain and loss seen, and every horizon that is due and unresolved gets its
    outcome at this mark, the others none. *)
Theorem counterfactual_mark_exact s fill plan m t id
    (Inv : counterfactual_inv s) (O : cs_status s = CF_OPEN) (Ef : rs_entry_fill (cs_research s) = Some fill)
    (Ep : rs_exit_plan (cs_research s) = Some plan) (Fr : source_events s MARK id = []) (Hid : id <> "")
    (Pm : (0 < dval m)%Q) (U : is_utc t = true) (Late : instant (fl_fill_at fill) <= instant t) :
  exists s' gross net, observe_mark s m t id = Ok s' /\ _gross_pnl s m = Ok gross /\ _net_pnl s m = Ok net /\
    mark_effect s fill plan m t gross net s'.
Proof.
  destruct (net_gross s m fill Ef) as (gross & net & Hg & Hn).
  destruct (phase_open s (ci_phase s Inv) O) as (fill' & plan' & O1 & O2 & _ & [_ _ Pc] & L & _).
  assert (fill' = fill) as -> by congruence. assert (plan' = plan) as -> by congruence.
  destruct (mark_evaluation plan m t L Pm) as (ev & Hev & Hi); [split; [exact U | now rewrite Pc]|].
  assert (Ob : observable s = true) by (unfold observable; now rewrite O).
  unfold observe_mark. rewrite Ob. cbn [negb raise_if bind]. unfold empty at 1. rewrite bool_decide_false by exact Hid.
  rewrite (require_positive_true _ _ Pm), (require_utc_true _ _ U). cbn [raise_if bind]. fold MARK.
  rewrite seen_fresh by (exact Fr || reflexivity). cbn [bind]. cbv zeta. rewrite Ef, Ep, Hg. cbn [of_option bind].
  rewrite (mapM_pure _ (horizon_outcome m t net)) by (intros hd; rewrite Hn; reflexivity).
  rewrite (bool_decide_true (cs_status s = CF_OPEN)) by exact O. cbn [bind]. rewrite Hev. cbn [bind].
  destruct (_ && _ && _ && _) eqn:Q.
  - exists s, gross, net. split; [reflexivity|]. split; [reflexivity|]. split; [exact Hn|]. bool_prop. unfold is_none in *.
    destruct (ee_intent ev); [discriminate|]. destruct (map (horizon_outcome m t net) (due_horizons s fill t)) as [|o l] eqn:Ed; [|discriminate].
    split; rewrite ?Ed, ?app_nil_r; try reflexivity.
    + rewrite O. split; [discriminate | tauto].
    + now right.
    + rewrite O. discriminate.
    + symmetry. now apply deqb_eq.
    + symmetry. now apply deqb_eq.
  - edestruct counterfactual_advance_total as (updated & Hu); [exact U | | rewrite Hu].
    { cbn [freezable forallb snd andb]. now rewrite forallb_freezable. }
    cbn [bind]. apply counterfactual_advance_Ok in Hu as (_ & items & Hf & A).
    destruct (close_on_total (Some ev) updated m t net U) as (s' & Hs'); [rewrite (net_advance _ _ _ _ _ m A); [exact Hn | reflexivity ..]|].
    exists s', gross, net. split; [exact Hs'|]. split; [reflexivity|]. split; [exact Hn|].
    apply (recorded_effect s fill plan m t gross net id s' ev); [|exact O | exact Hi]. apply close_on_Ok in Hs'.
    split; auto; [rewrite bool_decide_true by exact O; eauto|]. cbv zeta. rewrite bool_decide_true by exact O.
    eexists items, _, updated. split; [exact Hf | split; [exact A | exact Hs']].
Qed.

(** ** A concrete counterfactual *)

Definition hypothetical_fill : PaperFill := {|
  fl_market_event_id := "fill-1"; fl_symbol := "BTCUSDT"; fl_side := BUY; fl_fill_at := utc 1000000; fl_quantity := dint 2;
  fl_price := dint 100; fl_notional := dint 200; fl_slices := []; fl_liquidity_role := "taker"; fl_fee := mkdec 1 (-1);
  fl_spread_cost := dzero; fl_depth_slippage := dzero; fl_latency_slippage := dzero; fl_total_slippage := dzero;
  fl_book := sample_book |}.

Definition sample_created : result CounterfactualState :=
  counterfactual_create 1 2 3 4 "BTCUSDT" LONG GT_EV [GT_DATA_QUALITY; GT_CONSENSUS; GT_EV] (dint 2) (dint 100) (utc 0)
    (mkdec 4 (-4)) (mkdec 1 (-2)) (mkdec 2 (-2)) (utc 0).

Lemma research_run_Ok : exists s0 s1 s2 s3 s4, sample_created = Ok s0 /\ enter s0 hypothetical_fill 5 = Ok s1 /\
  counterfactual_apply_funding s1 (mkdec 1 (-4)) (dint 100) (utc 2000000) "funding-1" = Ok s2 /\
  observe_mark s2 (dint 101) (utc 901000000) "mark-1" = Ok s3 /\
  counterfactual_closed_bar s3 (dint 103) NEUTRAL false (utc 961000000) "bar-1" = Ok s4 /\
  cs_status s3 = CF_OPEN /\ s3 <> s2 /\ map hz_horizon (rs_outcomes (cs_research s3)) = ["15m"] /\
  cs_status s4 = CF_RESOLVED /\ rs_hypothetical_exit_reason (cs_research s4) = Some "target".
Proof.
  do 5 eexists. split; [vm_compute; reflexivity|]. split; [vm_compute; reflexivity|]. split; [vm_compute; reflexivity|].
  split; [vm_compute; reflexivity|]. split; [vm_compute; reflexivity|].
  split; [reflexivity|]. split; [discriminate|]. repeat split.
Qed.

Lemma counterfactual_lifecycle_witness : exists s0 s4, sample_created = Ok s0 /\ star counterfactual_step s0 s4 /\
  cs_status s4 = CF_RESOLVED /\ once s4.
Proof.
  destruct research_run_Ok as (s0 & s1 & s2 & s3 & s4 & H0 & H1 & H2 & H3 & H4 & _ & _ & _ & St & _).
  assert (R : star counterfactual_step s0 s4).
  { eapply star_step; [eapply cf_enter, H1|]. eapply star_step; [eapply cf_funding, H2|].
    eapply star_step; [eapply cf_mark, H3|]. eapply star_step; [eapply cf_bar, H4 | apply star_refl]. }
  exists s0, s4. split; [exact H0|split; [exact R|split; [exact St|]]].
  destruct (counterfactual_lifecycle _ _ _ _ _ _ _ _ _ _ _ _ _ _ _ _ _ _ H0 R (star_refl _ s4)) as ([_ Rc _] & _). apply Rc.
Defined.


Lemma counterfactual_mark_exact_witness : exists s s' gross net plan, observe_mark s (dint 98) (utc 901000000) "mark-2" = Ok s' /\
  _net_pnl s (dint 98) = Ok net /\ mark_effect s hypothetical_fill plan (dint 98) (utc 901000000) gross net s' /\ cs_status s' = CF_RESOLVED.
Proof.
  destruct research_run_Ok as (s0 & s1 & s2 & s3 & s4 & H0 & H1 & _).
  assert (I1 : counterfactual_inv s1) by (eapply enter_inv; [eapply create_inv, H0 | exact H1]).
  vm_compute in H0. injection H0 as <-. vm_compute in H1. injection H1 as <-.
  edestruct (counterfactual_mark_exact _ hypothetical_fill _ (dint 98) (utc 901000000) "mark-2" I1 eq_refl eq_refl eq_refl)
    as (s' & gross & net & H & _ & Hn & M); [reflexivity | discriminate | reflexivity | reflexivity | vm_compute; discriminate |].
  eexists _, s', gross, net, _. split; [exact H|split; [exact Hn|split; [exact M|]]]. apply (me_resolved _ _ _ _ _ _ _ _ M). left.
  vm_compute. discriminate.
Defined.
