(* ===== verification/DecimalOrder.v ===== *)
(** * Monotonicity of decimal rounding

    Rounding an exact result to 28 digits preserves the order of exact results,
    so sums of products and weighted means of values in [[0, 1]] stay there. *)

From Stdlib Require Import ZArith QArith Qabs Lia Lqa List.
From stdpp Require Import base decidable list.
From S2P Require Import Prelude PyDecimal DecimalTheory.

Local Open Scope Z_scope.

Lemma rhe_mono n n' d : 0 < d -> n <= n' -> rhe n d <= rhe n' d.
Proof.
  intros Hd H. pose proof (Z.div_le_mono n n' d Hd H) as Hq.
  pose proof (Z.div_mod n d ltac:(lia)) as E. pose proof (Z.div_mod n' d ltac:(lia)) as E'.
  destruct (Z.eq_dec (n / d) (n' / d)) as [Eq|Ne].
  - unfold rhe. rewrite <- Eq in *. assert (Hr : n mod d <= n' mod d) by lia.
    destruct (Z.ltb_spec (2 * (n mod d)) d), (Z.ltb_spec (2 * (n' mod d)) d),
      (Z.ltb_spec d (2 * (n mod d))), (Z.ltb_spec d (2 * (n' mod d))), (Z.even (n / d)); lia.
  - destruct (rhe_cases n d Hd) as [->|[-> _]], (rhe_cases n' d Hd) as [->|[-> _]]; lia.
Qed.

(** At one exponent. *)
Lemma dfix_mono_same m m' e : 0 <= m -> m <= m' -> (dval (dfix m e) <= dval (dfix m' e))%Q.
Proof.
  intros H0 H. destruct (ndigits_spec m') as [[-> _]|(Hd' & Hlo' & Hhi')]; [replace m with 0 by lia; lra|].
  assert (Hn : ndigits m <= ndigits m') by (apply ndigits_le_repr; lia).
  destruct (Z.eq_dec (ndigits m) (ndigits m')) as [Eq|Ne].
  - unfold dfix. rewrite Eq. destruct (Z.leb_spec (ndigits m' - prec) 0) as [Hk|Hk].
    + unfold dval. cbn [mant dexp]. apply scaled_le, H.
    + rewrite !renorm_val. apply scaled_le, rhe_mono; [apply Z.pow_pos_nonneg; lia | exact H].
  - set (p := mkdec 1 (ndigits m' - 1 + e)).
    assert (Ep : (dval p == inject_Z (10 ^ (ndigits m' - 1)) * pow10 e)%Q).
    { unfold dval, p. cbn [mant dexp]. rewrite pow10_add, pow10_Z by lia. ring. }
    assert (Hp : repr p) by reflexivity.
    apply Qle_trans with (dval p).
    + apply (rounded_hi _ _ (dfix_rounded m e) p Hp). rewrite Ep. apply scaled_le.
      assert (ndigits m <= ndigits m' - 1) as Hm by lia. apply ndigits_le_repr in Hm; lia.
    + apply (rounded_lo _ _ (dfix_rounded m' e) p Hp). rewrite Ep. apply scaled_le. lia.
Qed.

Lemma dfix_mono m e m' e' : 0 <= m -> (inject_Z m * pow10 e <= inject_Z m' * pow10 e')%Q ->
  (dval (dfix m e) <= dval (dfix m' e'))%Q.
Proof.
  intros H0 H. set (x := Z.min e e').
  pose proof (dfix_shift m e (e - x) ltac:(unfold x; lia)) as S1. pose proof (dfix_shift m' e' (e' - x) ltac:(unfold x; lia)) as S2.
  replace (e - (e - x)) with x in S1 by lia. replace (e' - (e' - x)) with x in S2 by lia.
  unfold deq in S1, S2. rewrite <- S1, <- S2. apply dfix_mono_same.
  - pose proof (Z.pow_nonneg 10 (e - x)). nia.
  - apply (scaled_le _ _ x). rewrite !inject_Z_mult.
    rewrite (pow10_split e x), (pow10_split e' x) in H by (unfold x; lia).
    rewrite !Qmult_assoc in H. exact H.
Qed.

Lemma dval_nonneg_mant d : (0 <= dval d)%Q -> 0 <= mant d.
Proof. intros H. apply (scaled_le _ _ (dexp d)). unfold dval in H. change (inject_Z 0) with 0%Q. lra. Qed.

Lemma align_nonneg d e : e <= dexp d -> (0 <= dval d)%Q -> 0 <= align d e.
Proof. intros He H. apply dval_nonneg_mant in H. unfold align. pose proof (Z.pow_nonneg 10 (dexp d - e)). nia. Qed.

Lemma dadd_mono a b a' b' : (0 <= dval a -> 0 <= dval b -> dval a <= dval a' -> dval b <= dval b' ->
  dval (dadd a b) <= dval (dadd a' b'))%Q.
Proof.
  intros Ha Hb H1 H2. unfold dadd. set (e := Z.min (dexp a) (dexp b)). set (e' := Z.min (dexp a') (dexp b')).
  apply dfix_mono.
  - pose proof (align_nonneg a e ltac:(unfold e; lia) Ha). pose proof (align_nonneg b e ltac:(unfold e; lia) Hb). lia.
  - rewrite !inject_Z_plus, !Qmult_plus_distr_l, !align_val by (unfold e, e'; lia). lra.
Qed.

Lemma dmul_mono a b a' b' : (0 <= dval a -> 0 <= dval b -> dval a <= dval a' -> dval b <= dval b' ->
  dval (dmul a b) <= dval (dmul a' b'))%Q.
Proof.
  intros Ha Hb H1 H2. unfold dmul. apply dfix_mono.
  - pose proof (dval_nonneg_mant a Ha). pose proof (dval_nonneg_mant b Hb). nia.
  - rewrite !inject_Z_mult, !pow10_add. assert (E : forall x y, (inject_Z (mant x) * inject_Z (mant y) * (pow10 (dexp x) * pow10 (dexp y)) == dval x * dval y)%Q)
      by (intros x y; unfold dval; ring). rewrite !E.
    apply Qle_trans with (dval a' * dval b)%Q; [now apply Qmult_le_compat_r|].
    rewrite !(Qmult_comm (dval a')). apply Qmult_le_compat_r; [exact H2 | lra].
Qed.

(** Multiplying by at most one does not go above a 28-digit value. *)
Lemma dmul_unit_le w p : repr w -> (0 <= dval w -> dval p <= 1 -> dval (dmul w p) <= dval w)%Q.
Proof.
  intros Hr Hw Hp. apply (rounded_hi _ _ (dmul_rounded w p) w Hr).
  rewrite <- (Qmult_1_r (dval w)) at 2. rewrite !(Qmult_comm (dval w)). now apply Qmult_le_compat_r.
Qed.

Lemma fold_dadd_mono l l' : Forall2 (fun x y => 0 <= dval x /\ dval x <= dval y)%Q l l' ->
  forall a a', (0 <= dval a -> dval a <= dval a' -> dval (fold_left dadd l a) <= dval (fold_left dadd l' a'))%Q.
Proof.
  induction 1 as [|x y l l' [Hx Hy] _ IH]; intros a a' Ha Hle; cbn [fold_left]; [exact Hle|].
  apply IH; [now apply dadd_nonneg | now apply dadd_mono].
Qed.

Lemma dsum_mono l l' : Forall2 (fun x y => 0 <= dval x /\ dval x <= dval y)%Q l l' -> (dval (dsum l) <= dval (dsum l'))%Q.
Proof. intros H. apply (fold_dadd_mono _ _ H); rewrite dval_zero; lra. Qed.

(** A sum of positive values is positive. *)
Lemma dsum_pos x l : (0 < dval x -> Forall (fun d => 0 <= dval d) l -> In x l -> 0 < dval (dsum l))%Q.
Proof.
  intros Hx Hl Hi. unfold dsum. assert (H0 : (0 <= dval dzero)%Q) by (rewrite dval_zero; lra). revert H0. generalize dzero.
  assert (P : forall l a, Forall (fun d => 0 <= dval d)%Q l -> (0 < dval a)%Q -> (0 < dval (fold_left dadd l a))%Q).
  { clear. intros l. induction l as [|y l IH]; intros a Hl Ha; cbn [fold_left]; [exact Ha|]. apply Forall_cons in Hl as [Hy Hl].
    apply IH; [exact Hl | now apply dadd_pos]. }
  induction Hl as [|y l Hy Hl IH]; intros a Ha; [destruct Hi|]. cbn [fold_left].
  destruct Hi as [->|Hi]; [apply P; [exact Hl | rewrite dadd_comm; now apply dadd_pos] | apply IH; [exact Hi | now apply dadd_nonneg]].
Qed.

(** ** Weighted means *)

Section Weighted.
Context {A : Type} (weight value : A -> dec).

(** [sum(weight(x) * value(x)) / sum(weight(x))]. *)
Definition weighted_sum (l : list A) : dec := dsum (map (fun x => dmul (weight x) (value x)) l).
Definition total_weight (l : list A) : dec := dsum (map weight l).

Definition proper_weight (x : A) : Prop := repr (weight x) /\ (0 < dval (weight x))%Q.
Definition unit_value (x : A) : Prop := (0 <= dval (value x) /\ dval (value x) <= 1)%Q.

Lemma total_weight_pos l : Forall proper_weight l -> l <> [] -> (0 < dval (total_weight l))%Q.
Proof.
  intros W Hl. destruct l as [|x l]; [congruence|]. apply (dsum_pos (weight x)); [now apply Forall_cons in W as [[_ W] _] | | now left].
  apply Forall_map. eapply Forall_impl; [exact W|]. intros y [_ Hy]. cbn. lra.
Qed.

Lemma total_weight_nonneg l : Forall proper_weight l -> (0 <= dval (total_weight l))%Q.
Proof. intros W. apply dsum_nonneg, Forall_map. eapply Forall_impl; [exact W|]. intros y [_ Hy]. cbn. lra. Qed.

Lemma weighted_sum_bounds l : Forall proper_weight l -> Forall unit_value l ->
  (0 <= dval (weighted_sum l) /\ dval (weighted_sum l) <= dval (total_weight l))%Q.
Proof.
  intros W V. assert (P : Forall (fun x => 0 <= dval (dmul (weight x) (value x)) /\ dval (dmul (weight x) (value x)) <= dval (weight x))%Q l).
  { apply List.Forall_forall. rewrite List.Forall_forall in W, V. intros x Hx. destruct (W x Hx) as [R Hw], (V x Hx) as [V0 V1].
    split; [apply dmul_nonneg; lra | apply dmul_unit_le; [exact R | lra | exact V1]]. }
  split.
  - apply dsum_nonneg, Forall_map. eapply Forall_impl; [exact P|]. cbn. tauto.
  - apply dsum_mono, Forall2_fmap_l, Forall2_fmap_r, Forall_Forall2_diag, P.
Qed.

(** A rounded weighted mean of values in [[0, 1]] is in [[0, 1]]. *)
Lemma weighted_mean_unit l : Forall proper_weight l -> Forall unit_value l -> l <> [] ->
  exists m, ddiv (weighted_sum l) (total_weight l) = Ok m /\ (0 <= dval m /\ dval m <= 1)%Q.
Proof.
  intros W V Hl. pose proof (total_weight_pos l W Hl) as Hp. destruct (weighted_sum_bounds l W V) as [H0 H1].
  eexists. split; [apply ddiv_total; lra|]. split; [now apply ddiv_nonneg|].
  rewrite <- dval_one. apply (rounded_hi _ _ (ddiv_rounded (weighted_sum l) (total_weight l) ltac:(lra)) done); [reflexivity|].
  rewrite dval_one. apply Qle_shift_div_r; lra.
Qed.
End Weighted.
