(* ===== verification/Manifest.v ===== *)
(** * Experiment manifests: [maais/experiments/manifest.py]

    The pinned identity of an experiment: its configuration, its symbols and
    exactly one entry for each of the eight agents of [config/constants.py].
    [from_dict], which reads a stored manifest back, is not modelled. *)

From Stdlib Require Import ZArith Lia List Bool String Ascii Permutation.
From stdpp Require Import base decidable list strings.
From S2P Require Import Prelude PyDecimal Domain Json MarketEvents EventLog.

Local Open Scope Z_scope.

(** ** [config/constants.py] and [config/modes.py] *)

Definition MACRO_SENTIMENT : string := "macro_sentiment".

Definition ALL_AGENTS : list string :=
  ["momentum"; "technical_structure"; "liquidity"; "order_flow_toxicity"; "stop_run_detection"; "mean_reversion";
   "carry_yield"; MACRO_SENTIMENT].

Inductive RunMode : Type := REPLAY | PAPER_LIVE | TESTNET_SMOKE.

#[export] Instance RunMode_eq_dec : EqDecision RunMode.
Proof. solve_decision. Defined.
#[export] Instance RunMode_value : StrEnum RunMode := fun m =>
  match m with REPLAY => "replay" | PAPER_LIVE => "paper_live" | TESTNET_SMOKE => "testnet_smoke" end.

Definition permits_authenticated_exchange (m : RunMode) : bool := bool_decide (m = TESTNET_SMOKE).

(** ** Checks *)

(** [not s.strip()]. *)
Definition is_space (c : ascii) : bool :=
  let n := Z.of_nat (nat_of_ascii c) in ((9 <=? n) && (n <=? 13)) || ((28 <=? n) && (n <=? 32)).
Definition blank (s : string) : bool := forallb is_space (list_ascii_of_string s).

(** [s.strip()] on characters, and [s == s.strip()]. *)
Definition trim (l : list ascii) : list ascii :=
  let fix drop_spaces l := match l with c :: l' => if is_space c then drop_spaces l' else l | [] => [] end in
  rev (drop_spaces (rev (drop_spaces l))).
Definition trimmed (s : string) : bool := bool_decide (trim (list_ascii_of_string s) = list_ascii_of_string s).

(** [set(l) == set(names)]. *)
Definition same_names (l names : list string) : bool :=
  forallb (fun x => bool_decide (elem_of x names)) l && forallb (fun x => bool_decide (elem_of x l)) names.

Definition is_hex (c : ascii) : bool :=
  let n := Z.of_nat (nat_of_ascii c) in ((48 <=? n) && (n <=? 57)) || ((97 <=? n) && (n <=? 102)).

(** Sixty-four lowercase hexadecimal characters. *)
Definition digest_text (value : string) : bool :=
  (String.length value =? 64)%nat && forallb is_hex (list_ascii_of_string value).

Definition _require_hash (name value : string) (lengths : list nat) : result unit :=
  raise_if (negb (existsb (Nat.eqb (String.length value)) lengths) ||
            negb (negb (empty value) && forallb is_hex (list_ascii_of_string value)))
    (ValueError (name +:+ " must be lowercase hexadecimal characters")).

Definition _freeze_mapping (name : string) (value : json) : result json :=
  let* frozen := freeze_json (thaw value) in as_mapping (name +:+ " must be a JSON object") frozen.

Definition empty_object (j : json) : bool := match j with JObj [] => true | _ => false end.

(** ** Entries *)

Record AgentManifestEntry : Type := {
  ae_agent_name : string;
  ae_version : string;
  ae_maturity : AgentMaturity;
  ae_weight : dec;
  ae_enabled : bool;
  ae_implementation_hash : string;
  ae_data_dependencies : json
}.

Definition AgentManifestEntry_post_init (e : AgentManifestEntry) : result AgentManifestEntry :=
  do* raise_if (negb (bool_decide (elem_of (ae_agent_name e) ALL_AGENTS))) (ValueError "unknown agent") ;;
  do* raise_if (blank (ae_version e)) (ValueError "agent version cannot be empty") ;;
  do* raise_if (ae_weight e <=? dzero)%dec (ValueError "agent weight must be finite and positive") ;;
  do* _require_hash "implementation_hash" (ae_implementation_hash e) [64%nat] ;;
  do* raise_if (ae_enabled e && bool_decide (ae_maturity e = AM_DISABLED))
        (ValueError "a disabled-maturity agent cannot be enabled") ;;
  do* raise_if (negb (ae_enabled e) && negb (bool_decide (ae_maturity e = AM_DISABLED)))
        (ValueError "a disabled agent must have disabled maturity") ;;
  let* dependencies := _freeze_mapping "data_dependencies" (ae_data_dependencies e) in
  Ok {| ae_agent_name := ae_agent_name e; ae_version := ae_version e; ae_maturity := ae_maturity e;
        ae_weight := ae_weight e; ae_enabled := ae_enabled e; ae_implementation_hash := ae_implementation_hash e;
        ae_data_dependencies := dependencies |}.

Definition entry_to_dict (e : AgentManifestEntry) : pyval := PDict
  [("agent_name", PStr (ae_agent_name e)); ("version", PStr (ae_version e));
   ("maturity", PStr (enum_value (ae_maturity e))); ("weight", PStr (dec_str (ae_weight e)));
   ("enabled", PBool (ae_enabled e)); ("implementation_hash", PStr (ae_implementation_hash e));
   ("data_dependencies", thaw (ae_data_dependencies e))].

(** ** The manifest *)

Record ExperimentManifest : Type := {
  em_experiment_id : UUID;
  em_name : string;
  em_mode : RunMode;
  em_initial_capital : dec;
  em_currency : string;
  em_created_at : datetime;
  em_git_sha : string;
  em_worktree_hash : option string;
  em_lock_hash : string;
  em_schema_revision : string;
  em_configuration : json;
  em_symbols : list string;
  em_exchange_metadata : json;
  em_component_versions : json;
  em_agent_versions : list AgentManifestEntry;
  em_fee_policy : json;
  em_funding_policy : json;
  em_clock_policy : json;
  em_market_data_sources : json;
  em_data_versions : json;
  em_fill_policy : json;
  em_manifest_schema_version : Z
}.

(** [{entry.agent_name: entry for entry in agent_versions}]. *)
Definition agents_by_name (l : list AgentManifestEntry) : pydict AgentManifestEntry :=
  dict_by ae_agent_name l.

Definition require_policy (version : Z) (name : string) (value : json) : result json :=
  let* frozen := _freeze_mapping name value in
  let optional_for_legacy := (version =? 1) && bool_decide (elem_of name ["data_versions"; "fill_policy"]) in
  do* raise_if (negb (bool_decide (name = "configuration")) && empty_object frozen && negb optional_for_legacy)
        (ValueError (name +:+ " cannot be empty")) ;;
  Ok frozen.

Definition bad_symbol (symbol : string) : bool :=
  blank symbol || existsb is_lower (list_ascii_of_string symbol).

(** [tuple(agents_by_name[name] for name in ALL_AGENTS)], with its guards. *)
Definition ordered_agents (l : list AgentManifestEntry) : result (list AgentManifestEntry) :=
  let by_name := agents_by_name l in
  do* raise_if (negb (length l =? length ALL_AGENTS)%nat || negb (same_names (map fst by_name) ALL_AGENTS))
        (ValueError "manifest must contain exactly eight unique configured agents") ;;
  let* macro := of_option (LookupError MACRO_SENTIMENT) (dict_get by_name MACRO_SENTIMENT) in
  do* raise_if (bool_decide (ae_maturity macro = AM_IMPLEMENTED))
        (ValueError "macro_sentiment must be visibly proxy or disabled") ;;
  mapM (fun name => of_option (LookupError name) (dict_get by_name name)) ALL_AGENTS.

Definition ExperimentManifest_post_init (m : ExperimentManifest) : result ExperimentManifest :=
  do* raise_if (em_experiment_id m =? 0) (ValueError "experiment_id cannot be nil") ;;
  do* raise_if (blank (em_name m)) (ValueError "experiment name cannot be empty") ;;
  do* raise_if (em_initial_capital m <=? dzero)%dec (ValueError "initial capital must be finite and positive") ;;
  do* raise_if (negb (bool_decide (em_currency m = "USDT")))
        (ValueError "the initial paper account currency must be USDT") ;;
  do* raise_if (negb (is_utc (em_created_at m))) (ValueError "created_at must be UTC-aware") ;;
  do* _require_hash "git_sha" (em_git_sha m) [40%nat; 64%nat] ;;
  do* match em_worktree_hash m with Some h => _require_hash "worktree_hash" h [64%nat] | None => Ok tt end ;;
  do* _require_hash "lock_hash" (em_lock_hash m) [64%nat] ;;
  do* raise_if (blank (em_schema_revision m)) (ValueError "schema_revision cannot be empty") ;;
  do* raise_if (negb ((em_manifest_schema_version m =? 1) || (em_manifest_schema_version m =? 2)))
        (ValueError "unsupported manifest_schema_version") ;;
  do* raise_if (match em_symbols m with [] => true | _ => false end || negb (bool_decide (NoDup (em_symbols m))))
        (ValueError "symbols must be non-empty and unique") ;;
  do* raise_if (existsb bad_symbol (em_symbols m)) (ValueError "symbols must be non-empty uppercase venue symbols") ;;
  let* agents := ordered_agents (em_agent_versions m) in
  let field := require_policy (em_manifest_schema_version m) in
  let* configuration := field "configuration" (em_configuration m) in
  let* exchange_metadata := field "exchange_metadata" (em_exchange_metadata m) in
  let* component_versions := field "component_versions" (em_component_versions m) in
  let* fee_policy := field "fee_policy" (em_fee_policy m) in
  let* funding_policy := field "funding_policy" (em_funding_policy m) in
  let* clock_policy := field "clock_policy" (em_clock_policy m) in
  let* market_data_sources := field "market_data_sources" (em_market_data_sources m) in
  let* data_versions := field "data_versions" (em_data_versions m) in
  let* fill_policy := field "fill_policy" (em_fill_policy m) in
  do* raise_if ((em_manifest_schema_version m =? 1) && (negb (empty_object data_versions) || negb (empty_object fill_policy)))
        (ValueError "legacy manifest schema cannot contain v2 data or fill policy") ;;
  Ok {| em_experiment_id := em_experiment_id m; em_name := em_name m; em_mode := em_mode m;
        em_initial_capital := em_initial_capital m; em_currency := em_currency m; em_created_at := em_created_at m;
        em_git_sha := em_git_sha m; em_worktree_hash := em_worktree_hash m; em_lock_hash := em_lock_hash m;
        em_schema_revision := em_schema_revision m; em_configuration := configuration; em_symbols := em_symbols m;
        em_exchange_metadata := exchange_metadata; em_component_versions := component_versions;
        em_agent_versions := agents; em_fee_policy := fee_policy; em_funding_policy := funding_policy;
        em_clock_policy := clock_policy; em_market_data_sources := market_data_sources;
        em_data_versions := data_versions; em_fill_policy := fill_policy;
        em_manifest_schema_version := em_manifest_schema_version m |}.

Definition manifest_values (m : ExperimentManifest) : pyval := PDict
  ([("manifest_schema_version", PInt (em_manifest_schema_version m)); ("experiment_id", PUuid (em_experiment_id m));
    ("name", PStr (em_name m)); ("mode", PEnum (enum_value (em_mode m)));
    ("initial_capital", PDec (em_initial_capital m)); ("currency", PStr (em_currency m));
    ("created_at", PTime (em_created_at m)); ("git_sha", PStr (em_git_sha m));
    ("worktree_hash", popt PStr (em_worktree_hash m)); ("lock_hash", PStr (em_lock_hash m));
    ("schema_revision", PStr (em_schema_revision m)); ("configuration", thaw (em_configuration m));
    ("symbols", PSeq (map PStr (em_symbols m))); ("exchange_metadata", thaw (em_exchange_metadata m));
    ("component_versions", thaw (em_component_versions m));
    ("agent_versions", PSeq (map entry_to_dict (em_agent_versions m))); ("fee_policy", thaw (em_fee_policy m));
    ("funding_policy", thaw (em_funding_policy m)); ("clock_policy", thaw (em_clock_policy m));
    ("market_data_sources", thaw (em_market_data_sources m))] ++
   (if 2 <=? em_manifest_schema_version m
    then [("data_versions", thaw (em_data_versions m)); ("fill_policy", thaw (em_fill_policy m))]
    else [])).

Definition manifest_to_dict (m : ExperimentManifest) : result json :=
  let* normalized := freeze_json (manifest_values m) in as_mapping "normalized manifest must be an object" normalized.

Section Hashes.
Context (sha256_hex : string -> string).

Definition config_hash (m : ExperimentManifest) : result string := content_hash sha256_hex (thaw (em_configuration m)).
Definition manifest_hash (m : ExperimentManifest) : result string :=
  let* d := manifest_to_dict m in content_hash sha256_hex (thaw d).
End Hashes.

Definition require_candidate_identity (m : ExperimentManifest) : result ExperimentManifest :=
  do* raise_if (present (em_worktree_hash m)) (ValueError "official candidates require a clean committed worktree") ;;
  do* _require_hash "git_sha" (em_git_sha m) [40%nat; 64%nat] ;;
  Ok m.

(** ** Accepted manifests *)

Definition entry_valid (e : AgentManifestEntry) : Prop := AgentManifestEntry_post_init e = Ok e.

Lemma freeze_mapping_Ok name j k : _freeze_mapping name j = Ok k <-> k = j /\ exists items, j = JObj items.
Proof.
  unfold _freeze_mapping, as_mapping. rewrite freeze_thaw. cbn [bind]. split.
  - intros H. py_inv. destruct k; try discriminate. eauto.
  - intros (-> & items & ->). reflexivity.
Qed.

Lemma require_policy_Ok version name j k : require_policy version name j = Ok k ->
  k = j /\ require_policy version name j = Ok j.
Proof.
  unfold require_policy. intros H. py_inv. match goal with H : _freeze_mapping _ _ = Ok _ |- _ => apply freeze_mapping_Ok in H as (-> & items & ->) end.
  split; [reflexivity|]. pass; [now apply freeze_mapping_Ok; eauto|]. now pass.
Qed.

Lemma entry_post_init_Ok e0 e : AgentManifestEntry_post_init e0 = Ok e -> e = e0 /\ entry_valid e.
Proof.
  unfold AgentManifestEntry_post_init. intros H. py_inv.
  match goal with H : _freeze_mapping _ _ = Ok _ |- _ => apply freeze_mapping_Ok in H as (-> & items & E) end.
  assert (Heq : {| ae_agent_name := ae_agent_name e0; ae_version := ae_version e0; ae_maturity := ae_maturity e0;
        ae_weight := ae_weight e0; ae_enabled := ae_enabled e0; ae_implementation_hash := ae_implementation_hash e0;
        ae_data_dependencies := ae_data_dependencies e0 |} = e0) by (now destruct e0).
  rewrite Heq in *. split; [reflexivity|]. unfold entry_valid, AgentManifestEntry_post_init.
  repeat (pass; [first [assumption | match goal with v : unit |- _ => destruct v; eassumption end]|]).
  pass; [apply freeze_mapping_Ok; eauto|]. now rewrite Heq.
Qed.

Lemma ordered_agents_Ok l l' : ordered_agents l = Ok l' ->
  map ae_agent_name l' = ALL_AGENTS /\ Forall (fun e => In e l) l' /\
  Forall (fun e => ae_agent_name e = MACRO_SENTIMENT -> ae_maturity e <> AM_IMPLEMENTED) l'.
Proof.
  unfold ordered_agents. intros H. py_inv. bool_prop.
  rename v0 into macro. assert (B : forall k e, dict_get (agents_by_name l) k = Some e -> ae_agent_name e = k /\ In e l).
  { intros k e E. now apply dict_by_sound. }
  apply mapM_Forall2 in H. assert (F : Forall2 (fun k e => dict_get (agents_by_name l) k = Some e) ALL_AGENTS l').
  { eapply Forall2_impl; [exact H|]. intros k e E. now apply of_option_Ok in E. }
  clear H. assert (N : map ae_agent_name l' = ALL_AGENTS /\ Forall (fun e => dict_get (agents_by_name l) (ae_agent_name e) = Some e) l').
  { revert F. generalize ALL_AGENTS as names. intros names F. induction F as [|k e names l' E _ [IH1 IH2]]; [split; [reflexivity | constructor]|].
    pose proof (proj1 (B _ _ E)) as Ek. cbn [map]. rewrite IH1, Ek. split; [reflexivity|]. constructor; [now rewrite Ek | exact IH2]. }
  destruct N as [N1 N2]. split; [exact N1|]. split; eapply List.Forall_impl; try exact N2; cbn beta; intros e He.
  - exact (proj2 (B _ _ He)).
  - intros Em. rewrite Em in He. congruence.
Qed.

Lemma ALL_AGENTS_NoDup : NoDup ALL_AGENTS.
Proof. apply (bool_decide_unpack _). vm_compute. exact I. Qed.

Lemma same_names_refl l : same_names l l = true.
Proof. unfold same_names. rewrite andb_diag. apply forallb_forall. intros x Hx. apply bool_decide_eq_true. now apply list_elem_of_In. Qed.

(** The agents of a manifest are its entries in the canonical order. *)
Lemma ordered_agents_spec l k : ordered_agents l = Ok k <->
  Permutation k l /\ map ae_agent_name k = ALL_AGENTS /\
  Forall (fun e => ae_agent_name e = MACRO_SENTIMENT -> ae_maturity e <> AM_IMPLEMENTED) k.
Proof.
  split.
  - intros H. destruct (ordered_agents_Ok l k H) as (E & I & M). split; [|split; assumption].
    assert (N : NoDup k) by (apply (NoDup_fmap_1 ae_agent_name); change (NoDup (map ae_agent_name k)); rewrite E; exact ALL_AGENTS_NoDup).
    apply NoDup_Permutation_bis; [now apply NoDup_ListNoDup | | intros e He; rewrite List.Forall_forall in I; now apply I].
    unfold ordered_agents in H. py_inv. bool_prop. match goal with H : (length l =? _)%nat = true |- _ => apply Nat.eqb_eq in H; rewrite H end.
    now rewrite <- E, length_map.
  - intros (P & E & M). assert (N : NoDup (map ae_agent_name l)).
    { eapply (NoDup_Permutation_proper _ _ (Permutation_map ae_agent_name P)). rewrite E. exact ALL_AGENTS_NoDup. }
    assert (L : forall e, In e l -> dict_get (agents_by_name l) (ae_agent_name e) = Some e) by (intros e; now apply dict_by_find).
    assert (K : forall n, elem_of n ALL_AGENTS -> exists e, In e k /\ ae_agent_name e = n).
    { intros n Hn. rewrite <- E in Hn. apply list_elem_of_In, in_map_iff in Hn as (e & <- & He). eauto. }
    assert (Pk : forall e, In e k -> In e l) by (intros e; now apply Permutation_in).
    unfold ordered_agents. pass; [apply orb_false_iff; split; apply negb_false_iff|].
    { rewrite <- (Permutation_length P), <- (length_map ae_agent_name k), E. apply Nat.eqb_refl. }
    { apply andb_true_iff. split; apply forallb_forall; intros n Hn; apply list_elem_of_In in Hn; apply bool_decide_eq_true.
      - apply dict_get_key in Hn as [e He]. destruct (dict_by_sound _ l n e He) as [<- Hl].
        rewrite <- E. apply list_elem_of_In, in_map, (Permutation_in _ (Permutation_sym P) Hl).
      - apply dict_get_key. destruct (K n Hn) as (e & He & <-). eauto. }
    destruct (K MACRO_SENTIMENT ltac:(apply list_elem_of_In; cbv; tauto)) as (macro & Hm & Em).
    rewrite List.Forall_forall in M. pass; [rewrite <- Em, L by auto; reflexivity|]. pass; [apply bool_decide_eq_false; now apply M|].
    rewrite <- E. apply mapM_Forall2, Forall2_fmap_l, Forall_Forall2_diag, List.Forall_forall. intros e He. cbn [compose].
    now rewrite L by auto.
Qed.

Record valid_manifest (m : ExperimentManifest) : Prop := {
  vm_id : em_experiment_id m <> 0;
  vm_agents : map ae_agent_name (em_agent_versions m) = ALL_AGENTS;
  vm_macro : Forall (fun e => ae_agent_name e = MACRO_SENTIMENT -> ae_maturity e <> AM_IMPLEMENTED) (em_agent_versions m);
  vm_symbols : em_symbols m <> [] /\ NoDup (em_symbols m) /\ Forall (fun s => bad_symbol s = false) (em_symbols m);
  vm_capital : (em_initial_capital m <=? dzero)%dec = false;
  vm_created : is_utc (em_created_at m) = true;
  vm_again : ExperimentManifest_post_init m = Ok m
}.

Ltac policies :=
  repeat match goal with H : require_policy _ _ _ = Ok _ |- _ => apply require_policy_Ok in H as [-> H] end.

(** Constructing a manifest changes nothing but the order of its agents. *)
Lemma manifest_post_init_Ok m0 m : ExperimentManifest_post_init m0 = Ok m ->
  valid_manifest m /\ Permutation (em_agent_versions m) (em_agent_versions m0).
Proof.
  unfold ExperimentManifest_post_init at 1. intros H. py_inv. policies.
  match goal with H : ordered_agents _ = Ok _ |- _ => apply ordered_agents_spec in H as (A2 & A1 & A3) end.
  split; [|exact A2]. split; cbn; try (bool_prop; assumption).
  - bool_prop. split; [|split]; [intros E; rewrite E in *; discriminate | assumption | now apply existsb_false_Forall].
  - unfold ExperimentManifest_post_init. cbn.
    repeat (pass; [first [eassumption | now apply ordered_agents_spec |
      match goal with v : unit |- _ => destruct v; eassumption end]|]). reflexivity.
Qed.

Definition with_agents (m : ExperimentManifest) (l : list AgentManifestEntry) : ExperimentManifest :=
  {| em_experiment_id := em_experiment_id m; em_name := em_name m; em_mode := em_mode m;
     em_initial_capital := em_initial_capital m; em_currency := em_currency m; em_created_at := em_created_at m;
     em_git_sha := em_git_sha m; em_worktree_hash := em_worktree_hash m; em_lock_hash := em_lock_hash m;
     em_schema_revision := em_schema_revision m; em_configuration := em_configuration m; em_symbols := em_symbols m;
     em_exchange_metadata := em_exchange_metadata m; em_component_versions := em_component_versions m;
     em_agent_versions := l; em_fee_policy := em_fee_policy m; em_funding_policy := em_funding_policy m;
     em_clock_policy := em_clock_policy m; em_market_data_sources := em_market_data_sources m;
     em_data_versions := em_data_versions m; em_fill_policy := em_fill_policy m;
     em_manifest_schema_version := em_manifest_schema_version m |}.

Lemma post_init_reordered m l m' : Permutation l (em_agent_versions m) -> ExperimentManifest_post_init m = Ok m' ->
  ExperimentManifest_post_init (with_agents m l) = Ok m'.
Proof.
  intros P H. assert (exists k, ordered_agents (em_agent_versions m) = Ok k) as [k E].
  { unfold ExperimentManifest_post_init in H. py_inv. eauto. }
  assert (E' : ordered_agents l = Ok k).
  { apply ordered_agents_spec. apply ordered_agents_spec in E as (P' & E). split; [etransitivity; [exact P' | now symmetry] | exact E]. }
  revert H. unfold ExperimentManifest_post_init, with_agents. cbn. rewrite E, E'. exact (fun H => H).
Qed.

Lemma manifest_to_dict_total m : valid_manifest m -> exists items, manifest_to_dict m = Ok (JObj items).
Proof.
  intros V. unfold manifest_to_dict. destruct (freeze_total (manifest_values m)) as [j Hj].
  - unfold manifest_values. cbn [freezable]. rewrite forallb_app. cbn [forallb snd freezable]. rewrite (vm_created _ V).
    rewrite !freezable_thaw, !forallb_freezable; [|intros e; unfold entry_to_dict; cbn [freezable forallb snd]; now rewrite freezable_thaw | reflexivity].
    destruct (em_worktree_hash m); destruct (2 <=? _); cbn [forallb snd]; rewrite ?freezable_thaw; reflexivity.
  - rewrite Hj. unfold manifest_values in Hj. cbn [freeze_json] in Hj. py_inv. unfold as_mapping. cbn. eauto.
Qed.

(** C16: A manifest that is accepted holds the eight agents in the canonical
    order, whatever the order they were listed in, with an unmasked proxy for
    macro sentiment; constructing it again changes nothing, and its dictionary,
    from which the manifest hash is computed, always exists. *)
Theorem manifest_well_formed m0 m : ExperimentManifest_post_init m0 = Ok m ->
  valid_manifest m /\ Permutation (em_agent_versions m) (em_agent_versions m0) /\
  (forall l, Permutation l (em_agent_versions m0) -> ExperimentManifest_post_init (with_agents m0 l) = Ok m) /\
  exists items, manifest_to_dict m = Ok (JObj items).
Proof.
  intros H. destruct (manifest_post_init_Ok _ _ H) as [V P]. split; [exact V|]. split; [exact P|]. split.
  - intros l Hl. now apply post_init_reordered.
  - now apply manifest_to_dict_total.
Qed.

(** ** A sample *)

Definition sample_hash : string := "0123456789abcdef0123456789abcdef0123456789abcdef0123456789abcdef".

Definition sample_entry (name : string) : AgentManifestEntry := {|
  ae_agent_name := name; ae_version := "1.0"; ae_weight := done; ae_implementation_hash := sample_hash;
  ae_maturity := if bool_decide (name = MACRO_SENTIMENT) then AM_DISABLED else AM_IMPLEMENTED;
  ae_enabled := negb (bool_decide (name = MACRO_SENTIMENT)); ae_data_dependencies := JObj [] |}.

Definition pinned (version : string) : json := JObj [("version", JStr version)].

Definition sample_manifest : ExperimentManifest := {|
  em_experiment_id := 7; em_name := "paper"; em_mode := REPLAY; em_initial_capital := dint 100000; em_currency := "USDT";
  em_created_at := utc 0; em_git_sha := sample_hash; em_worktree_hash := None; em_lock_hash := sample_hash;
  em_schema_revision := "0001"; em_configuration := JObj []; em_symbols := ["BTCUSDT"];
  em_exchange_metadata := pinned "1"; em_component_versions := JObj [("features", JStr "1")];
  em_agent_versions := map sample_entry ALL_AGENTS; em_fee_policy := JObj [("taker", JStr "0.0005")];
  em_funding_policy := pinned "1"; em_clock_policy := pinned "1"; em_market_data_sources := pinned "1";
  em_data_versions := pinned "1"; em_fill_policy := pinned "1"; em_manifest_schema_version := 2 |}.

Lemma manifest_well_formed_witness :
  ExperimentManifest_post_init (with_agents sample_manifest (rev (em_agent_versions sample_manifest))) = Ok sample_manifest /\
  valid_manifest sample_manifest.
Proof.
  assert (H : ExperimentManifest_post_init (with_agents sample_manifest (rev (em_agent_versions sample_manifest))) = Ok sample_manifest)
    by (vm_compute; reflexivity).
  split; [exact H|]. exact (proj1 (manifest_well_formed _ _ H)).
Defined.
