(* ===== verification/Agents.v ===== *)
(** * Agents: [maais/agents/base.py] and [maais/agents/evaluations.py]

    The contract of an agent, and the matrix of evaluations: one row for each
    of the eight agents of the manifest, whatever the agents do.

    A float is its finiteness and its [repr] text; the program turns it into a
    decimal through that text.  An agent is its name, its regimes and its
    [analyze]: the floating-point heuristics of the eight agents are arguments.
    [analyze] replies, raises any exception or is cancelled.  The coroutines of
    one [gather] do not share state; they run here in the order of the manifest.
    A duration source is a function of the agent and of the number of earlier
    readings. *)

From Stdlib Require Import ZArith QArith Lia List Bool String Ascii Permutation.
From stdpp Require Import base decidable list strings.
From S2P Require Import Prelude PyDecimal DecimalTheory Domain Json MarketEvents Frames EventLog Manifest.

Local Open Scope Z_scope.

(** ** Floats and [feature_pipeline/features.py] *)

Record pyfloat : Type := { fl_finite : bool; fl_repr : string }.

(** The mantissa and the exponent of a float's text. *)
Fixpoint split_exponent (l : list ascii) : list ascii * list ascii :=
  match l with
  | [] => ([], [])
  | c :: l' => if ascii_dec c "e"%char then ([], l') else let '(m, e) := split_exponent l' in (c :: m, e)
  end.

Definition exponent_of (l : list ascii) : Z :=
  match l with
  | c :: l' => if ascii_dec c "+"%char then mant (dec_of_chars l') else mant (dec_of_chars l)
  | [] => 0
  end.

(** [Decimal(str(value))], when it is finite. *)
Definition float_dec (x : pyfloat) : option dec :=
  if fl_finite x then
    let '(m, e) := split_exponent (list_ascii_of_string (fl_repr x)) in
    let d := dec_of_chars m in Some (mkdec (mant d) (dexp d + exponent_of e))
  else None.

Example float_dec_1 : float_dec {| fl_finite := true; fl_repr := "1.5e-05" |} = Some (mkdec 15 (-6)).
Proof. vm_compute. reflexivity. Qed.
Example float_dec_2 : float_dec {| fl_finite := true; fl_repr := "-2e+16" |} = Some (mkdec (-2) 16).
Proof. vm_compute. reflexivity. Qed.
Example float_dec_3 : float_dec {| fl_finite := false; fl_repr := "nan" |} = None.
Proof. reflexivity. Qed.

Definition pfloat (x : pyfloat) : pyval := PFloat (fl_finite x) (fl_repr x).

Record FeatureSet : Type := {
  fs_symbol : string;
  fs_timeframe : string;
  fs_timestamp : datetime;
  fs_zscore : option pyfloat;
  fs_zscore_mean : option pyfloat;
  fs_zscore_std : option pyfloat;
  fs_ema_fast : option pyfloat;
  fs_ema_slow : option pyfloat;
  fs_ema_signal : option pyfloat;
  fs_roc_short : option pyfloat;
  fs_roc_long : option pyfloat;
  fs_atr : option pyfloat;
  fs_rolling_std : option pyfloat;
  fs_bid_ask_spread : option pyfloat;
  fs_book_imbalance : option pyfloat;
  fs_funding_rate : option pyfloat;
  fs_annualized_funding : option pyfloat;
  fs_funding_bias : option string;
  fs_regime : option string
}.

(** [isoformat()] of any datetime. *)
Definition offset_chars (o : timedelta) : list ascii :=
  let a := Z.abs o in
  let sec := a / 1000000 in
  (if o <? 0 then "-"%char else "+"%char) :: fixed_digits 10 2 (sec / 3600) ++ ":"%char :: fixed_digits 10 2 (sec / 60 mod 60) ++
  (if a mod 60000000 =? 0 then [] else ":"%char :: fixed_digits 10 2 (sec mod 60)) ++
  (if a mod 1000000 =? 0 then [] else "."%char :: fixed_digits 10 6 (a mod 1000000)).

Definition local_isoformat (t : datetime) : string :=
  string_of_list_ascii
    match utcoffset t with
    | None => iso_chars t
    | Some o => iso_chars (mkdt (instant t + o) (Some o)) ++ offset_chars o
    end.

Example isoformat_1 : local_isoformat (utc 1785628800123000) = isoformat (utc 1785628800123000).
Proof. vm_compute. reflexivity. Qed.

Definition features_to_dict (f : FeatureSet) : pyval := PDict
  [("symbol", PStr (fs_symbol f)); ("timeframe", PStr (fs_timeframe f)); ("timestamp", PStr (local_isoformat (fs_timestamp f)));
   ("zscore", popt pfloat (fs_zscore f)); ("zscore_mean", popt pfloat (fs_zscore_mean f));
   ("zscore_std", popt pfloat (fs_zscore_std f)); ("ema_fast", popt pfloat (fs_ema_fast f));
   ("ema_slow", popt pfloat (fs_ema_slow f)); ("ema_signal", popt pfloat (fs_ema_signal f));
   ("roc_short", popt pfloat (fs_roc_short f)); ("roc_long", popt pfloat (fs_roc_long f)); ("atr", popt pfloat (fs_atr f));
   ("rolling_std", popt pfloat (fs_rolling_std f)); ("bid_ask_spread", popt pfloat (fs_bid_ask_spread f));
   ("book_imbalance", popt pfloat (fs_book_imbalance f)); ("funding_rate", popt pfloat (fs_funding_rate f));
   ("annualized_funding", popt pfloat (fs_annualized_funding f)); ("funding_bias", popt PStr (fs_funding_bias f));
   ("regime", popt PStr (fs_regime f))].

(** ** [agents/base.py] *)

Record AgentOutput : Type := {
  ao_agent_name : string;
  ao_directional_hypothesis : string;
  ao_probability_estimate : pyfloat;
  ao_confidence_score : pyfloat;
  ao_risk_estimate : pyfloat
}.

Definition unit_float (nx : string * pyfloat) : result unit :=
  match float_dec (snd nx) with
  | None => Raise (ValueError (fst nx +:+ " must be finite"))
  | Some d => raise_if ((d <? dzero)%dec || (done <? d)%dec) (ValueError (fst nx +:+ " out of range"))
  end.

Definition AgentOutput_post_init (o : AgentOutput) : result AgentOutput :=
  do* raise_if (empty (ao_agent_name o)) (ValueError "agent_name is required") ;;
  do* raise_if (negb (bool_decide (elem_of (ao_directional_hypothesis o) ["long"; "short"; "neutral"])))
        (ValueError "invalid hypothesis") ;;
  do* iterM unit_float [("probability_estimate", ao_probability_estimate o); ("confidence_score", ao_confidence_score o);
                        ("risk_estimate", ao_risk_estimate o)] ;;
  Ok o.

Inductive agent_reply : Type :=
| Replied (o : AgentOutput)
| AgentRaised (type_name text : string)
| AgentCancelled.

Record BaseAgent : Type := {
  ag_name : string;
  ag_compatible_regimes : list string;
  ag_analyze : FeatureSet -> agent_reply
}.

Definition is_compatible_with_regime (a : BaseAgent) (regime : option string) : bool :=
  match ag_compatible_regimes a with
  | [] => true
  | regimes => match regime with Some r => bool_decide (elem_of r regimes) | None => false end
  end.

(** ** Durations *)

Definition MonotonicDurationSource_elapsed_ms (started now : Z) : Z := Z.max 0 ((now - started) / 1000000).

Definition DeterministicDurationSource (durations : pydict Z) : result (string -> nat -> Z) :=
  do* raise_if (existsb (fun nv => negb (bool_decide (elem_of (fst nv) ALL_AGENTS)) || (snd nv <? 0)) durations)
        (ValueError "deterministic agent durations must be named and nonnegative") ;;
  Ok (fun agent_name _ => match dict_get durations agent_name with Some d => d | None => 0 end).

(** ** Evaluations *)

Record AgentOutputSnapshot : Type := {
  os_direction : Direction;
  os_probability : dec;
  os_confidence : dec;
  os_risk : dec
}.

Definition unit_field (nv : string * dec) : result unit :=
  raise_if ((snd nv <? dzero)%dec || (done <? snd nv)%dec)
    (ValueError ("agent " +:+ fst nv +:+ " must be a finite Decimal in [0, 1]")).

Definition AgentOutputSnapshot_post_init (o : AgentOutputSnapshot) : result AgentOutputSnapshot :=
  do* iterM unit_field [("probability", os_probability o); ("confidence", os_confidence o); ("risk", os_risk o)] ;;
  Ok o.

Definition one_half : dec := mkdec 5 (-1).

Definition neutral_output (risk : dec) : result AgentOutputSnapshot :=
  AgentOutputSnapshot_post_init
    {| os_direction := NEUTRAL; os_probability := one_half; os_confidence := dzero; os_risk := risk |}.

(** A float that is not finite makes a decimal that is not finite, and the check refuses it. *)
Definition float_field (nx : string * pyfloat) : result dec :=
  let* d := of_option (ValueError ("agent " +:+ fst nx +:+ " must be a finite Decimal in [0, 1]")) (float_dec (snd nx)) in
  do* unit_field (fst nx, d) ;;
  Ok d.

Definition from_legacy (o : AgentOutput) : result AgentOutputSnapshot :=
  let* direction := of_option (ValueError "is not a valid Direction") (Direction_of (ao_directional_hypothesis o)) in
  let* probability := float_field ("probability", ao_probability_estimate o) in
  let* confidence := float_field ("confidence", ao_confidence_score o) in
  let* risk := float_field ("risk", ao_risk_estimate o) in
  AgentOutputSnapshot_post_init
    {| os_direction := direction; os_probability := probability; os_confidence := confidence; os_risk := risk |}.

Definition output_to_dict (o : AgentOutputSnapshot) : pyval := PDict
  [("direction", PEnum (enum_value (os_direction o))); ("probability", PDec (os_probability o));
   ("confidence", PDec (os_confidence o)); ("risk", PDec (os_risk o))].

Record AgentEvaluation : Type := {
  av_agent_name : string;
  av_version : string;
  av_maturity : AgentMaturity;
  av_proxy_label : option string;
  av_weight : dec;
  av_enabled : bool;
  av_compatible : bool;
  av_voting : bool;
  av_reason_codes : list string;
  av_input_contributions : json;
  av_duration_ms : Z;
  av_output : AgentOutputSnapshot;
  av_failure_reason : option string
}.

(** The truth value of an optional string. *)
Definition truthy (s : option string) : bool := match s with Some s => negb (empty s) | None => false end.

Definition AgentEvaluation_post_init (v : AgentEvaluation) : result AgentEvaluation :=
  do* raise_if (negb (bool_decide (elem_of (av_agent_name v) ALL_AGENTS)) || empty (av_version v))
        (ValueError "agent evaluation identity is invalid") ;;
  do* raise_if (av_weight v <=? dzero)%dec (ValueError "agent evaluation weight must be positive and finite") ;;
  do* raise_if ((av_duration_ms v <? 0) || negb (nonempty (av_reason_codes v)))
        (ValueError "agent evaluation duration and reason codes are invalid") ;;
  do* raise_if (bool_decide (av_maturity v = AM_PROXY) && negb (truthy (av_proxy_label v)))
        (ValueError "proxy agent evaluation requires a visible proxy label") ;;
  do* raise_if (negb (bool_decide (av_maturity v = AM_PROXY)) && present (av_proxy_label v))
        (ValueError "only a proxy agent can have a proxy label") ;;
  do* raise_if (av_voting v && (negb (av_enabled v) || negb (av_compatible v) || truthy (av_failure_reason v)))
        (ValueError "only a successful enabled compatible agent can vote") ;;
  do* raise_if (negb (av_voting v) && negb (bool_decide (os_direction (av_output v) = NEUTRAL)))
        (ValueError "nonvoting agent output must be neutral") ;;
  let* normalized := freeze_json (thaw (av_input_contributions v)) in
  let* normalized := as_mapping "agent input contributions must be an object" normalized in
  Ok {| av_agent_name := av_agent_name v; av_version := av_version v; av_maturity := av_maturity v;
        av_proxy_label := av_proxy_label v; av_weight := av_weight v; av_enabled := av_enabled v;
        av_compatible := av_compatible v; av_voting := av_voting v; av_reason_codes := av_reason_codes v;
        av_input_contributions := normalized; av_duration_ms := av_duration_ms v; av_output := av_output v;
        av_failure_reason := av_failure_reason v |}.

Definition evaluation_to_dict (v : AgentEvaluation) : pyval := PDict
  [("agent_name", PStr (av_agent_name v)); ("version", PStr (av_version v)); ("maturity", PEnum (enum_value (av_maturity v)));
   ("proxy_label", popt PStr (av_proxy_label v)); ("weight", PDec (av_weight v)); ("enabled", PBool (av_enabled v));
   ("compatible", PBool (av_compatible v)); ("voting", PBool (av_voting v));
   ("reason_codes", PSeq (map PStr (av_reason_codes v))); ("input_contributions", thaw (av_input_contributions v));
   ("duration_ms", PInt (av_duration_ms v)); ("output", output_to_dict (av_output v));
   ("failure_reason", popt PStr (av_failure_reason v))].

Record AgentEvaluationMatrix : Type := {
  am_experiment_id : UUID;
  am_symbol : string;
  am_timeframe : string;
  am_feature_at : datetime;
  am_regime : option string;
  am_evaluations : list AgentEvaluation
}.

Definition AgentEvaluationMatrix_post_init (m : AgentEvaluationMatrix) : result AgentEvaluationMatrix :=
  do* raise_if (am_experiment_id m =? 0) (ValueError "agent matrix experiment_id cannot be nil") ;;
  do* raise_if (negb (upper_symbol (am_symbol m)) || empty (am_timeframe m))
        (ValueError "agent matrix market identity is invalid") ;;
  do* raise_if (negb (is_utc (am_feature_at m))) (ValueError "agent matrix feature_at must be UTC-aware") ;;
  do* raise_if (negb (bool_decide (map av_agent_name (am_evaluations m) = ALL_AGENTS)))
        (ValueError "agent evaluation matrix must contain exactly eight ordered rows") ;;
  Ok m.

Definition by_name (m : AgentEvaluationMatrix) (agent_name : string) : option AgentEvaluation :=
  List.find (fun v => bool_decide (av_agent_name v = agent_name)) (am_evaluations m).

Definition matrix_items (m : AgentEvaluationMatrix) : list (string * pyval) :=
  [("experiment_id", PUuid (am_experiment_id m)); ("symbol", PStr (am_symbol m)); ("timeframe", PStr (am_timeframe m));
   ("feature_at", PTime (am_feature_at m)); ("regime", popt PStr (am_regime m));
   ("evaluations", PSeq (map evaluation_to_dict (am_evaluations m)))].

Section MatrixHash.
Context (sha256_hex : string -> string).

Definition matrix_hash (m : AgentEvaluationMatrix) : result string := content_hash sha256_hex (PDict (matrix_items m)).

Definition matrix_to_dict (m : AgentEvaluationMatrix) : result json :=
  let* h := matrix_hash m in
  let* normalized := freeze_json (PDict (matrix_items m ++ [("content_hash", PStr h)])) in
  as_mapping "agent matrix must normalize to an object" normalized.
End MatrixHash.

(** ** Running the agents *)

Record AgentFailure : Type := { af_agent_name : string; af_reason_code : string; af_details : string }.

(** What [run_agent_matrix] raises. *)
Inductive run_error : Type :=
| AgentMatrixError (message : string) (matrix : AgentEvaluationMatrix) (failures : list AgentFailure)
| Cancelled
| Raised (e : exn).

Definition lift {A} (m : result A) : outcome run_error A := map_exn Raised m.

Definition _proxy_label (e : AgentManifestEntry) : option string :=
  if bool_decide (ae_maturity e = AM_PROXY)
  then Some (if bool_decide (ae_agent_name e = MACRO_SENTIMENT) then "technical_features_proxy" else "proxy")
  else None.

Definition _inputs (e : AgentManifestEntry) (features : FeatureSet) : result json :=
  let* normalized := freeze_json (PDict [("declared_dependencies", thaw (ae_data_dependencies e));
                                         ("feature_snapshot", features_to_dict features)]) in
  as_mapping "agent inputs must be an object" normalized.

Definition _neutral_evaluation (e : AgentManifestEntry) (features : FeatureSet) (compatible : bool) (reason_code : string)
    (failure_reason : option string) (duration_ms : Z) : result AgentEvaluation :=
  let* inputs := _inputs e features in
  let* output := neutral_output (if truthy failure_reason then done else one_half) in
  AgentEvaluation_post_init
    {| av_agent_name := ae_agent_name e; av_version := ae_version e; av_maturity := ae_maturity e;
       av_proxy_label := _proxy_label e; av_weight := ae_weight e; av_enabled := ae_enabled e; av_compatible := compatible;
       av_voting := false; av_reason_codes := [reason_code]; av_input_contributions := inputs;
       av_duration_ms := duration_ms; av_output := output; av_failure_reason := failure_reason |}.

(** [Counter(names)[name]]. *)
Definition count (names : list string) (name : string) : nat := length (List.filter (fun n => bool_decide (n = name)) names).

Section Run.
Context (features : FeatureSet) (manifest : ExperimentManifest).

Definition matrix_of (rows : list AgentEvaluation) : result AgentEvaluationMatrix :=
  AgentEvaluationMatrix_post_init
    {| am_experiment_id := em_experiment_id manifest; am_symbol := fs_symbol features; am_timeframe := fs_timeframe features;
       am_feature_at := fs_timestamp features; am_regime := fs_regime features; am_evaluations := rows |}.

Definition registry_reason (names : list string) (name : string) : string :=
  match count names name with
  | O => "agent_missing"
  | S O => "agent_registry_invalid"
  | _ => "agent_duplicate"
  end.

Definition registry_failure (names : list string) (name : string) : list AgentFailure :=
  match count names name with
  | O => [{| af_agent_name := name; af_reason_code := "agent_missing"; af_details := "configured agent is missing" |}]
  | S O => []
  | _ => [{| af_agent_name := name; af_reason_code := "agent_duplicate"; af_details := "configured agent appears more than once" |}]
  end.

Definition unknown_failure (name : string) : AgentFailure :=
  {| af_agent_name := name; af_reason_code := "agent_unknown"; af_details := "unknown registry agent" |}.

(** [sorted(name for name in counts if name not in ALL_AGENTS)]. *)
Definition unknown_names (names : list string) : list string :=
  sort_by (fun s => s) (List.filter (fun n => negb (bool_decide (elem_of n ALL_AGENTS))) (remove_dups names)).

Definition _registry_failure_matrix (agents : list BaseAgent) : result (AgentEvaluationMatrix * list AgentFailure) :=
  let names := map ag_name agents in
  let* rows := mapM (fun e =>
    let reason := registry_reason names (ae_agent_name e) in
    _neutral_evaluation e features false reason (Some reason) 0) (em_agent_versions manifest) in
  let* matrix := matrix_of rows in
  Ok (matrix, flat_map (fun e => registry_failure names (ae_agent_name e)) (em_agent_versions manifest) ++
              map unknown_failure (unknown_names names)).

(** [{agent.name: agent for agent in registry}]. *)
Definition registry (agents : list BaseAgent) : pydict BaseAgent :=
  dict_by ag_name agents.

Definition registry_matches (agents : list BaseAgent) : bool :=
  let names := map ag_name agents in same_names names ALL_AGENTS && bool_decide (NoDup names).

Section Evaluate.
Context (elapsed_ms : string -> nat -> Z).

(** The body of the [try] statement, once the agent replied. *)
Definition successful (e : AgentManifestEntry) (o : AgentOutput) : result AgentEvaluation :=
  do* raise_if (negb (bool_decide (ao_agent_name o = ae_agent_name e))) (ValueError "agent output identity differs") ;;
  let* snapshot := from_legacy o in
  let* inputs := _inputs e features in
  AgentEvaluation_post_init
    {| av_agent_name := ae_agent_name e; av_version := ae_version e; av_maturity := ae_maturity e;
       av_proxy_label := _proxy_label e; av_weight := ae_weight e; av_enabled := true; av_compatible := true;
       av_voting := true; av_reason_codes := ["agent_evaluated"]; av_input_contributions := inputs;
       av_duration_ms := elapsed_ms (ae_agent_name e) 0; av_output := snapshot; av_failure_reason := None |}.

(** Its handler; the clock was read before when the agent had replied. *)
Definition failed (e : AgentManifestEntry) (details : string) (readings : nat)
  : outcome run_error (AgentEvaluation * option AgentFailure) :=
  let* row := lift (_neutral_evaluation e features true "agent_exception" (Some details) (elapsed_ms (ae_agent_name e) readings)) in
  Ok (row, Some {| af_agent_name := ae_agent_name e; af_reason_code := "agent_exception"; af_details := details |}).

Definition details (type_name text : string) : string := type_name +:+ ": " +:+ text.

(** The clock is read in the [try] once the output is accepted. *)
Definition readings_of (e : AgentManifestEntry) (o : AgentOutput) : nat :=
  if bool_decide (ao_agent_name o = ae_agent_name e) && is_ok (from_legacy o) then 1%nat else 0%nat.

Definition evaluate (agents_by_name : pydict BaseAgent) (e : AgentManifestEntry)
  : outcome run_error (AgentEvaluation * option AgentFailure) :=
  let* agent := of_option (Raised (LookupError (ae_agent_name e))) (dict_get agents_by_name (ae_agent_name e)) in
  let compatible := is_compatible_with_regime agent (fs_regime features) in
  if negb (ae_enabled e) then
    let* row := lift (_neutral_evaluation e features compatible "disabled_agent" None 0) in Ok (row, None)
  else if negb compatible then
    let* row := lift (_neutral_evaluation e features false "incompatible_regime" None 0) in Ok (row, None)
  else
    match ag_analyze agent features with
    | AgentCancelled => Raise Cancelled
    | AgentRaised type_name text => failed e (details type_name text) 0
    | Replied output =>
        match successful e output with
        | Ok row => Ok (row, None)
        | Raise exc => failed e (details (error_type exc) (error_text exc)) (readings_of e output)
        end
    end.

Definition run_agent_matrix (agents : list BaseAgent) : outcome run_error AgentEvaluationMatrix :=
  if negb (registry_matches agents) then
    let* mf := lift (_registry_failure_matrix agents) in
    Raise (AgentMatrixError "agent registry does not match the manifest" (fst mf) (snd mf))
  else
    let* results := mapM (evaluate (registry agents)) (em_agent_versions manifest) in
    let* matrix := lift (matrix_of (map fst results)) in
    match omap snd results with
    | [] => Ok matrix
    | failures => Raise (AgentMatrixError "one or more mandatory agents failed" matrix failures)
    end.
End Evaluate.
End Run.

(** ** Every row exists *)

(** No feature is a NaN or an infinity. *)
Definition features_finite (f : FeatureSet) : Prop := freezable (features_to_dict f) = true.

Lemma inputs_total e f : features_finite f -> exists items, _inputs e f = Ok (JObj items).
Proof.
  intros F. unfold _inputs. destruct (freeze_total (PDict [("declared_dependencies", thaw (ae_data_dependencies e));
    ("feature_snapshot", features_to_dict f)])) as [j Hj].
  - cbn [freezable forallb snd]. now rewrite freezable_thaw, F.
  - rewrite Hj. cbn [freeze_json] in Hj. py_inv. unfold as_mapping. cbn. eauto.
Qed.

Lemma entry_facts e : entry_valid e ->
  bool_decide (elem_of (ae_agent_name e) ALL_AGENTS) = true /\ empty (ae_version e) = false /\ (ae_weight e <=? dzero)%dec = false.
Proof.
  unfold entry_valid, AgentManifestEntry_post_init. intros H. py_inv.
  match goal with H : negb (bool_decide _) = false |- _ => apply negb_false_iff in H; rewrite H end.
  split; [reflexivity|]. split; [|assumption]. unfold empty. apply bool_decide_eq_false. intros E. rewrite E in *. discriminate.
Qed.

Definition evaluation_valid (v : AgentEvaluation) : Prop := AgentEvaluation_post_init v = Ok v.

Lemma proxy_label_ok e :
  bool_decide (ae_maturity e = AM_PROXY) && negb (truthy (_proxy_label e)) = false /\
  negb (bool_decide (ae_maturity e = AM_PROXY)) && present (_proxy_label e) = false.
Proof.
  unfold _proxy_label. destruct (bool_decide (ae_maturity e = AM_PROXY)); [|now split].
  destruct (bool_decide (ae_agent_name e = MACRO_SENTIMENT)); now split.
Qed.

Definition row (e : AgentManifestEntry) (inputs : list (string * json)) (enabled compatible voting : bool) (reason : string)
    (duration : Z) (output : AgentOutputSnapshot) (failure : option string) : AgentEvaluation :=
  {| av_agent_name := ae_agent_name e; av_version := ae_version e; av_maturity := ae_maturity e;
     av_proxy_label := _proxy_label e; av_weight := ae_weight e; av_enabled := enabled; av_compatible := compatible;
     av_voting := voting; av_reason_codes := [reason]; av_input_contributions := JObj inputs;
     av_duration_ms := duration; av_output := output; av_failure_reason := failure |}.

Definition snapshot_valid (o : AgentOutputSnapshot) : Prop := AgentOutputSnapshot_post_init o = Ok o.

Lemma row_valid e inputs enabled compatible voting reason duration output failure :
  entry_valid e -> 0 <= duration ->
  (voting = true -> enabled = true /\ compatible = true /\ truthy failure = false) ->
  (voting = false -> os_direction output = NEUTRAL) ->
  evaluation_valid (row e inputs enabled compatible voting reason duration output failure).
Proof.
  intros V D Hv Hn. destruct (entry_facts e V) as (E1 & E2 & E3), (proxy_label_ok e) as [P1 P2].
  unfold evaluation_valid, AgentEvaluation_post_init, row. cbn.
  pass; [now rewrite E1, E2|]. pass; [exact E3|]. pass; [apply orb_false_iff; split; [now apply Z.ltb_ge | reflexivity]|].
  pass; [exact P1|]. pass; [exact P2|].
  pass; [destruct voting; [destruct Hv as (-> & -> & ->); reflexivity | reflexivity]|].
  pass; [destruct voting; [reflexivity | now rewrite (bool_decide_eq_true_2 _ (Hn eq_refl))]|].
  pass; [exact (freeze_thaw (JObj inputs))|]. reflexivity.
Qed.

Definition neutral_snapshot (risk : dec) : AgentOutputSnapshot :=
  {| os_direction := NEUTRAL; os_probability := one_half; os_confidence := dzero; os_risk := risk |}.

Lemma neutral_total e f compatible reason failure duration : entry_valid e -> features_finite f -> 0 <= duration ->
  exists inputs, _neutral_evaluation e f compatible reason failure duration =
    Ok (row e inputs (ae_enabled e) compatible false reason duration
          (neutral_snapshot (if truthy failure then done else one_half)) failure) /\
    evaluation_valid (row e inputs (ae_enabled e) compatible false reason duration
          (neutral_snapshot (if truthy failure then done else one_half)) failure).
Proof.
  intros V F D. destruct (inputs_total e f F) as [items Hi]. exists items.
  assert (R : evaluation_valid (row e items (ae_enabled e) compatible false reason duration
          (neutral_snapshot (if truthy failure then done else one_half)) failure)) by (apply row_valid; [exact V | exact D | discriminate | reflexivity]).
  split; [|exact R]. unfold _neutral_evaluation. pass; [exact Hi|].
  refine (bind_pass _ _ (neutral_snapshot (if truthy failure then done else one_half)) _ _ R).
  destruct (truthy failure); reflexivity.
Qed.

(** ** What an agent contributes *)

(** The output of an agent that answered under its own name and within range. *)
Definition agent_answer (a : BaseAgent) (f : FeatureSet) : option AgentOutputSnapshot :=
  match ag_analyze a f with
  | Replied o => if bool_decide (ao_agent_name o = ag_name a)
                 then match from_legacy o with Ok s => Some s | Raise _ => None end else None
  | _ => None
  end.

(** The row of agent [a]: it votes its answer when it is enabled, compatible and
    answered; otherwise the row is neutral, and says why. *)
Record row_of (f : FeatureSet) (a : BaseAgent) (e : AgentManifestEntry) (v : AgentEvaluation) : Prop := {
  ro_identity : av_agent_name v = ae_agent_name e /\ av_version v = ae_version e /\ av_weight v = ae_weight e /\
    av_maturity v = ae_maturity e /\ av_enabled v = ae_enabled e /\
    av_compatible v = is_compatible_with_regime a (fs_regime f);
  ro_vote : av_voting v = true <-> av_enabled v = true /\ av_compatible v = true /\ present (agent_answer a f) = true;
  ro_output : av_voting v = true -> agent_answer a f = Some (av_output v) /\ av_failure_reason v = None;
  ro_neutral : av_voting v = false -> os_direction (av_output v) = NEUTRAL /\ os_confidence (av_output v) = dzero;
  ro_failure : av_voting v = false ->
    (present (av_failure_reason v) = true <-> av_enabled v = true /\ av_compatible v = true);
  ro_valid : evaluation_valid v;
  ro_snapshot : snapshot_valid (av_output v)
}.

Lemma from_legacy_valid o s : from_legacy o = Ok s -> snapshot_valid s.
Proof.
  unfold from_legacy. intros H. py_inv. unfold snapshot_valid, AgentOutputSnapshot_post_init in *. py_inv.
  repeat match goal with u : unit |- _ => destruct u end. pass; [eassumption | reflexivity].
Qed.

Section Rows.
Context (features : FeatureSet) (elapsed_ms : string -> nat -> Z).
Hypothesis (F : features_finite features) (D : forall n k, 0 <= elapsed_ms n k).

(** The failure that goes with a row. *)
Definition failure_of (v : AgentEvaluation) : option AgentFailure :=
  match av_failure_reason v with
  | Some d => Some {| af_agent_name := av_agent_name v; af_reason_code := "agent_exception"; af_details := d |}
  | None => None
  end.

Lemma neutral_row_of a e inputs reason duration risk failure :
  let c := is_compatible_with_regime a (fs_regime features) in
  let v := row e inputs (ae_enabled e) c false reason duration (neutral_snapshot risk) failure in
  evaluation_valid v -> snapshot_valid (neutral_snapshot risk) -> (ae_enabled e = true -> c = true -> agent_answer a features = None) ->
  (present failure = true <-> ae_enabled e = true /\ c = true) -> row_of features a e v.
Proof.
  intros c v R S N P. subst v. split; cbn; try tauto; try discriminate.
  split; [discriminate|]. intros (E1 & E2 & E3). rewrite (N E1 E2) in E3. discriminate.
Qed.

Lemma lift_row (m : result AgentEvaluation) v (x : option AgentFailure) : m = Ok v -> x = failure_of v ->
  (let* r := lift m in Ok (r, x)) = Ok (v, failure_of v).
Proof. intros -> ->. reflexivity. Qed.

Lemma successful_spec a e o : entry_valid e -> ag_name a = ae_agent_name e -> ag_analyze a features = Replied o ->
  match agent_answer a features with
  | Some s => exists inputs, let v := row e inputs true true true "agent_evaluated" (elapsed_ms (ae_agent_name e) 0) s None in
      successful features elapsed_ms e o = Ok v /\ evaluation_valid v
  | None => exists exc, successful features elapsed_ms e o = Raise exc
  end.
Proof.
  intros V Hn Er. unfold agent_answer. rewrite Er, Hn. unfold successful.
  destruct (bool_decide (ao_agent_name o = ae_agent_name e)); cbn [negb raise_if bind]; [|eauto].
  destruct (from_legacy o) as [s|exc]; cbn [bind]; [|eauto]. destruct (inputs_total e features F) as [items ->]. cbn [bind].
  exists items. cbv zeta. set (v := row _ _ _ _ _ _ _ _ _). assert (R : evaluation_valid v) by (apply row_valid; [exact V | apply D | now split | discriminate]).
  split; exact R.
Qed.

Lemma evaluate_total d e a : entry_valid e -> dict_get d (ae_agent_name e) = Some a -> ag_name a = ae_agent_name e ->
  ag_analyze a features <> AgentCancelled ->
  exists v, evaluate features elapsed_ms d e = Ok (v, failure_of v) /\ row_of features a e v.
Proof.
  intros V Ha Hn Hc. unfold evaluate. rewrite Ha. cbn [of_option bind].
  set (c := is_compatible_with_regime a (fs_regime features)).
  assert (failed_row : forall text n, ae_enabled e = true -> c = true -> agent_answer a features = None ->
    exists v, failed features elapsed_ms e text n = Ok (v, failure_of v) /\ row_of features a e v).
  { intros text n En Ec N. destruct (neutral_total e features c "agent_exception" (Some text) (elapsed_ms (ae_agent_name e) n) V F (D _ _)) as (inputs & E & R).
    eexists. split; [unfold failed; rewrite <- Ec at 1; apply lift_row; [exact E | reflexivity]|].
    apply neutral_row_of; [exact R | destruct (truthy (Some text)); reflexivity | now intros | now split]. }
  destruct (ae_enabled e) eqn:En; cbn [negb].
  - destruct c eqn:Ec; cbn [negb].
    + destruct (ag_analyze a features) as [o|ty text|] eqn:Er;
        [|apply failed_row; [reflexivity | reflexivity | unfold agent_answer; now rewrite Er]|congruence].
      pose proof (successful_spec a e o V Hn Er) as S. destruct (agent_answer a features) as [s|] eqn:Ea.
      * destruct S as (inputs & -> & R). exists (row e inputs true true true "agent_evaluated" (elapsed_ms (ae_agent_name e) 0) s None).
        split; [reflexivity|].
        split; cbn; rewrite ?Ea; try tauto; try discriminate; [fold c; repeat split; congruence|].
        unfold agent_answer in Ea. rewrite Er in Ea. destruct (bool_decide _); [|discriminate].
        destruct (from_legacy o) as [s'|] eqn:El; [|discriminate]. injection Ea as <-. now apply from_legacy_valid with o.
      * destruct S as [exc ->]. now apply failed_row.
    + destruct (neutral_total e features c "incompatible_regime" None 0 V F ltac:(lia)) as (inputs & E & R).
      eexists. split; [rewrite <- Ec at 1; apply lift_row; [exact E | reflexivity]|]. apply neutral_row_of; [exact R | reflexivity | fold c; congruence | fold c; cbn; intuition congruence].
  - destruct (neutral_total e features c "disabled_agent" None 0 V F ltac:(lia)) as (inputs & E & R).
    eexists. split; [apply lift_row; [exact E | reflexivity]|]. apply neutral_row_of; [exact R | reflexivity | fold c; congruence | fold c; cbn; intuition congruence].
Qed.
End Rows.

(** ** The matrix *)

Record valid_features (f : FeatureSet) : Prop := {
  vf_finite : features_finite f;
  vf_symbol : upper_symbol (fs_symbol f) = true;
  vf_timeframe : empty (fs_timeframe f) = false;
  vf_timestamp : is_utc (fs_timestamp f) = true
}.

Lemma registry_find agents n : registry_matches agents = true -> elem_of n ALL_AGENTS ->
  exists a, In a agents /\ ag_name a = n /\ dict_get (registry agents) n = Some a.
Proof.
  unfold registry_matches, same_names. intros H Hn. bool_prop.
  match goal with H : forallb (fun x => bool_decide (elem_of x (map ag_name _))) _ = true |- _ => rewrite forallb_forall in H;
    specialize (H n (proj1 (list_elem_of_In _ _) Hn)); apply bool_decide_eq_true, list_elem_of_In, in_map_iff in H as (a & <- & Ha) end.
  exists a. split; [exact Ha|]. split; [reflexivity|]. now apply dict_by_find.
Qed.

Section Matrix.
Context (features : FeatureSet) (manifest : ExperimentManifest) (elapsed_ms : string -> nat -> Z) (agents : list BaseAgent).
Hypothesis (VF : valid_features features) (VM : valid_manifest manifest).
Hypothesis (VE : Forall entry_valid (em_agent_versions manifest)).
Hypothesis (D : forall n k, 0 <= elapsed_ms n k).
Hypothesis (NC : Forall (fun a => ag_analyze a features <> AgentCancelled) agents).

(** The row of one of the agents. *)
Definition agent_row (e : AgentManifestEntry) (v : AgentEvaluation) : Prop :=
  exists a, In a agents /\ ag_name a = ae_agent_name e /\ row_of features a e v.

Lemma rows_total : registry_matches agents = true -> forall entries, Forall entry_valid entries ->
  exists rows, mapM (evaluate features elapsed_ms (registry agents)) entries = Ok (map (fun v => (v, failure_of v)) rows) /\
    Forall2 agent_row entries rows.
Proof.
  intros R. induction 1 as [|e entries V _ (rows & E & IH)]; [exists []; split; [reflexivity | constructor]|].
  destruct (registry_find agents (ae_agent_name e) R) as (a & Ha & Hn & Hg).
  { destruct (entry_facts e V) as [Hk _]. now apply bool_decide_eq_true in Hk. }
  rewrite List.Forall_forall in NC.
  destruct (evaluate_total features elapsed_ms (vf_finite _ VF) D (registry agents) e a V Hg Hn (NC a Ha)) as (v & Ev & Rv).
  exists (v :: rows). cbn [mapM map]. rewrite Ev, E. split; [reflexivity|]. constructor; [|exact IH]. exists a. auto.
Qed.

Lemma matrix_of_total rows : map av_agent_name rows = ALL_AGENTS ->
  exists m, matrix_of features manifest rows = Ok m /\ am_evaluations m = rows /\ AgentEvaluationMatrix_post_init m = Ok m /\
    am_symbol m = fs_symbol features /\ am_timeframe m = fs_timeframe features /\ am_feature_at m = fs_timestamp features /\
    am_regime m = fs_regime features /\ am_experiment_id m = em_experiment_id manifest.
Proof.
  intros E. eexists. assert (H : forall m, am_evaluations m = rows -> am_symbol m = fs_symbol features ->
    am_timeframe m = fs_timeframe features -> am_feature_at m = fs_timestamp features -> am_experiment_id m = em_experiment_id manifest ->
    AgentEvaluationMatrix_post_init m = Ok m).
  { intros m E1 E2 E3 E4 E5. unfold AgentEvaluationMatrix_post_init. rewrite E1, E2, E3, E4, E5.
    pass; [apply Z.eqb_neq, vm_id, VM|]. pass; [now rewrite (vf_symbol _ VF), (vf_timeframe _ VF)|].
    pass; [now rewrite (vf_timestamp _ VF)|]. pass; [now rewrite bool_decide_true | reflexivity]. }
  unfold matrix_of. split; [apply H; reflexivity|]. cbn. repeat split. now apply H.
Qed.

(** A row that could not vote because the registry is wrong. *)
Definition registry_row (v : AgentEvaluation) : Prop :=
  av_voting v = false /\ os_direction (av_output v) = NEUTRAL /\ present (av_failure_reason v) = true /\ evaluation_valid v /\
  snapshot_valid (av_output v).

Lemma registry_rows_total names : forall entries, Forall entry_valid entries ->
  exists rows, mapM (fun e => _neutral_evaluation e features false (registry_reason names (ae_agent_name e))
      (Some (registry_reason names (ae_agent_name e))) 0) entries = Ok rows /\
    map av_agent_name rows = map ae_agent_name entries /\ Forall registry_row rows.
Proof.
  induction 1 as [|e entries V _ (rows & E & N & R)]; [exists []; repeat split; constructor|].
  destruct (neutral_total e features false (registry_reason names (ae_agent_name e)) (Some (registry_reason names (ae_agent_name e))) 0 V (vf_finite _ VF) ltac:(lia)) as (inputs & Er & Vr).
  eexists. cbn [mapM]. rewrite Er, E. split; [reflexivity|]. cbn [map]. rewrite N. split; [reflexivity|].
  constructor; [|exact R]. repeat split; [exact Vr|].
  cbn [av_output row]. destruct (truthy _); reflexivity.
Qed.

Lemma count_spec names n : count names n = 1%nat -> elem_of n names.
Proof.
  unfold count. intros H. destruct (List.filter _ names) as [|x l] eqn:E; [discriminate|].
  assert (Hx : In x (List.filter (fun y => bool_decide (y = n)) names)) by (rewrite E; now left).
  apply filter_In in Hx as [Hx Hb]. apply bool_decide_eq_true in Hb as ->. now apply list_elem_of_In.
Qed.

Lemma count_NoDup names : (forall n, elem_of n names -> count names n = 1%nat) -> NoDup names.
Proof.
  induction names as [|x names IH]; intros H; [constructor|].
  assert (Hx : count (x :: names) x = 1%nat) by (apply H; constructor).
  unfold count in Hx. cbn [List.filter] in Hx. rewrite bool_decide_true in Hx by reflexivity. cbn [length] in Hx.
  injection Hx as Hx. apply length_zero_iff_nil, filter_nil in Hx. rewrite List.Forall_forall in Hx.
  assert (Hn : ~ elem_of x names).
  { intros Hi. apply list_elem_of_In in Hi. specialize (Hx x Hi). apply bool_decide_eq_false in Hx. congruence. }
  apply NoDup_cons. split; [exact Hn|]. apply IH. intros n Hi. specialize (H n ltac:(now constructor)).
  unfold count in *. cbn [List.filter] in H. rewrite bool_decide_false in H; [exact H|]. congruence.
Qed.

(** A registry without a failure matches. *)
Lemma no_failure_matches : let names := map ag_name agents in
  flat_map (fun e => registry_failure names (ae_agent_name e)) (em_agent_versions manifest) = [] ->
  unknown_names names = [] -> registry_matches agents = true.
Proof.
  intros names Hf Hu.
  assert (C : forall n, elem_of n ALL_AGENTS -> count names n = 1%nat).
  { intros n Hn. rewrite <- (vm_agents _ VM) in Hn. apply list_elem_of_In, in_map_iff in Hn as (e & <- & He).
    assert (Z0 : registry_failure names (ae_agent_name e) = []).
    { destruct (registry_failure names (ae_agent_name e)) as [|x l] eqn:E; [reflexivity|].
      assert (Hin : In x (flat_map (fun e => registry_failure names (ae_agent_name e)) (em_agent_versions manifest)))
        by (apply in_flat_map; exists e; rewrite E; split; [exact He | now left]). now rewrite Hf in Hin. }
    unfold registry_failure in Z0. destruct (count names (ae_agent_name e)) as [|[|k]]; [discriminate | reflexivity | discriminate]. }
  assert (U : forall n, elem_of n names -> elem_of n ALL_AGENTS).
  { intros n Hn. destruct (decide (elem_of n ALL_AGENTS)) as [?|Hno]; [assumption|]. exfalso.
    assert (Hin : In n (unknown_names names)).
    { unfold unknown_names. eapply Permutation_in; [symmetry; apply sort_by_perm|].
      apply filter_In. split; [apply list_elem_of_In, elem_of_remove_dups, Hn|]. apply negb_true_iff. now apply bool_decide_eq_false. }
    now rewrite Hu in Hin. }
  unfold registry_matches. fold names. apply andb_true_iff. split.
  - unfold same_names. apply andb_true_iff. split; apply forallb_forall; intros n Hn; apply list_elem_of_In in Hn; apply bool_decide_eq_true; auto.
    apply count_spec, C, Hn.
  - apply bool_decide_eq_true, count_NoDup. auto.
Qed.
End Matrix.

Lemma omap_failures rows : omap snd (map (fun v => (v, failure_of v)) rows) = omap failure_of rows.
Proof. induction rows as [|v rows IH]; [reflexivity|]. cbn. rewrite <- IH. reflexivity. Qed.

Lemma agent_rows_names features agents entries rows : Forall2 (agent_row features agents) entries rows ->
  map av_agent_name rows = map ae_agent_name entries.
Proof.
  induction 1 as [|e v entries rows (a & _ & _ & R) _ IH]; [reflexivity|]. cbn [map]. rewrite IH. f_equal.
  exact (proj1 (ro_identity _ _ _ _ R)).
Qed.

(** What is wrong with a registry, agent by agent. *)
Inductive registry_fault (names : list string) : AgentFailure -> Prop :=
| fault_missing n : elem_of n ALL_AGENTS -> ~ elem_of n names ->
    registry_fault names {| af_agent_name := n; af_reason_code := "agent_missing"; af_details := "configured agent is missing" |}
| fault_repeated n l1 l2 l3 : elem_of n ALL_AGENTS -> names = l1 ++ n :: l2 ++ n :: l3 ->
    registry_fault names {| af_agent_name := n; af_reason_code := "agent_duplicate";
                            af_details := "configured agent appears more than once" |}
| fault_unknown n : elem_of n names -> ~ elem_of n ALL_AGENTS -> registry_fault names (unknown_failure n).

Lemma count_cons names x n : count (x :: names) n = ((if bool_decide (x = n) then 1 else 0) + count names n)%nat.
Proof. unfold count. cbn [List.filter]. now destruct (bool_decide (x = n)). Qed.

Lemma count_zero names n : count names n = 0%nat <-> ~ elem_of n names.
Proof.
  induction names as [|x names IH]; [split; [intros _ H; inversion H | reflexivity]|].
  rewrite count_cons, elem_of_cons. case_bool_decide; [split; [lia | intros H'; destruct H'; auto]|].
  cbn [Nat.add]. rewrite IH. split; [intros H' [?|?]; congruence || auto | tauto].
Qed.

Lemma count_repeated names n : (2 <= count names n)%nat <-> exists l1 l2 l3, names = l1 ++ n :: l2 ++ n :: l3.
Proof.
  split.
  - induction names as [|x names IH]; [cbn; lia|]. rewrite count_cons. case_bool_decide as E.
    + subst x. intros H. assert (Hin : elem_of n names).
      { destruct (decide (elem_of n names)) as [?|Hno]; [assumption|]. apply count_zero in Hno. lia. }
      apply list_elem_of_split in Hin as (l2 & l3 & ->). now exists [], l2, l3.
    + intros H. destruct IH as (l1 & l2 & l3 & ->); [lia|]. now exists (x :: l1), l2, l3.
  - intros (l1 & l2 & l3 & ->).
    assert (A : forall a b, count (a ++ b) n = (count a n + count b n)%nat)
      by (intros; unfold count; now rewrite List.filter_app, length_app).
    rewrite A, count_cons, A, count_cons, bool_decide_true by reflexivity. lia.
Qed.

Lemma registry_failure_spec names n f : In f (registry_failure names n) <->
  (~ elem_of n names /\ f = {| af_agent_name := n; af_reason_code := "agent_missing"; af_details := "configured agent is missing" |}) \/
  ((exists l1 l2 l3, names = l1 ++ n :: l2 ++ n :: l3) /\
   f = {| af_agent_name := n; af_reason_code := "agent_duplicate"; af_details := "configured agent appears more than once" |}).
Proof.
  rewrite <- count_zero, <- count_repeated. unfold registry_failure.
  destruct (count names n) as [|[|k]]; cbn [In]; split; intros H; intuition (subst; try lia; auto); auto.
Qed.

Lemma unknown_names_spec names n : In n (unknown_names names) <-> elem_of n names /\ ~ elem_of n ALL_AGENTS.
Proof.
  unfold unknown_names. rewrite (Permutation_in' eq_refl (sort_by_perm _ _)), filter_In, negb_true_iff, bool_decide_eq_false.
  rewrite <- list_elem_of_In, elem_of_remove_dups. reflexivity.
Qed.

Definition registry_failures (names : list string) (entries : list AgentManifestEntry) : list AgentFailure :=
  flat_map (fun e => registry_failure names (ae_agent_name e)) entries ++ map unknown_failure (unknown_names names).

(** Exactly the faults are reported. *)
Lemma registry_failures_spec names entries f : map ae_agent_name entries = ALL_AGENTS ->
  In f (registry_failures names entries) <-> registry_fault names f.
Proof.
  intros N. unfold registry_failures. rewrite in_app_iff, in_flat_map, in_map_iff. split.
  - intros [(e & He & Hf)|(n & <- & Hn)].
    + assert (Ha : elem_of (ae_agent_name e) ALL_AGENTS) by (rewrite <- N; now apply list_elem_of_In, in_map).
      apply registry_failure_spec in Hf as [[Hno ->]|[(l1 & l2 & l3 & E) ->]]; [now apply fault_missing | exact (fault_repeated _ _ _ _ _ Ha E)].
    + apply unknown_names_spec in Hn as [? ?]. now apply fault_unknown.
  - destruct 1 as [n Ha Hno|n l1 l2 l3 Ha E|n Hn Hno].
    + left. rewrite <- N in Ha. apply list_elem_of_In, in_map_iff in Ha as (e & <- & He). exists e. split; [exact He|].
      apply registry_failure_spec. now left.
    + left. rewrite <- N in Ha. apply list_elem_of_In, in_map_iff in Ha as (e & <- & He). exists e. split; [exact He|].
      apply registry_failure_spec. right. split; [eauto | reflexivity].
    + right. exists n. split; [reflexivity | now apply unknown_names_spec].
Qed.

(** C11: Whatever the agents do, as long as none is cancelled and no feature is a
    NaN or an infinity, running them gives a complete matrix: one row for each
    of the eight agents, in order.  Over a matching registry a row votes exactly
    when its agent is enabled, compatible with the regime and answered under its
    own name within range, it then holds that answer, and otherwise it is
    neutral; the failures are exactly those of the enabled and compatible agents
    without an answer.  Over any other registry no row votes, and the failures
    are exactly the missing, the repeated and the unknown agents, each of them. *)
Theorem agent_matrix_complete features manifest elapsed_ms agents :
  valid_features features -> valid_manifest manifest -> Forall entry_valid (em_agent_versions manifest) ->
  (forall n k, 0 <= elapsed_ms n k) -> Forall (fun a => ag_analyze a features <> AgentCancelled) agents ->
  exists message matrix failures,
    run_agent_matrix features manifest elapsed_ms agents =
      match failures with [] => Ok matrix | _ => Raise (AgentMatrixError message matrix failures) end /\
    AgentEvaluationMatrix_post_init matrix = Ok matrix /\ map av_agent_name (am_evaluations matrix) = ALL_AGENTS /\
    am_regime matrix = fs_regime features /\
    if registry_matches agents
    then Forall2 (agent_row features agents) (em_agent_versions manifest) (am_evaluations matrix) /\
         failures = omap failure_of (am_evaluations matrix)
    else Forall registry_row (am_evaluations matrix) /\ failures <> [] /\
         forall f, In f failures <-> registry_fault (map ag_name agents) f.
Proof.
  intros VF VM VE D NC. unfold run_agent_matrix. destruct (registry_matches agents) eqn:R; cbn [negb].
  - destruct (rows_total features elapsed_ms agents VF D NC R (em_agent_versions manifest) VE) as (rows & E & F).
    pose proof (agent_rows_names _ _ _ _ F) as N. rewrite (vm_agents _ VM) in N.
    destruct (matrix_of_total features manifest VF VM rows N) as (m & Em & Er & P & _ & _ & _ & Hr & _).
    exists "one or more mandatory agents failed", m, (omap failure_of (am_evaluations m)).
    rewrite E. cbn [bind]. rewrite omap_failures, map_map. cbn [fst]. rewrite map_id, Em, Er. cbn [lift map_exn bind].
    rewrite <- Er in N, F |- *. repeat split; try assumption. now destruct (omap failure_of (am_evaluations m)).
  - destruct (registry_rows_total features VF (map ag_name agents) (em_agent_versions manifest) VE) as (rows & E & N & F).
    rewrite (vm_agents _ VM) in N. destruct (matrix_of_total features manifest VF VM rows N) as (m & Em & Er & P & _ & _ & _ & Hr & _).
    set (failures := registry_failures (map ag_name agents) (em_agent_versions manifest)).
    assert (NE : failures <> []).
    { intros Z0. apply app_eq_nil in Z0 as [Z1 Z2]. apply map_eq_nil in Z2.
      rewrite (no_failure_matches manifest agents VM Z1 Z2) in R. discriminate. }
    exists "agent registry does not match the manifest", m, failures.
    assert (Eq : _registry_failure_matrix features manifest agents = Ok (m, failures)).
    { unfold _registry_failure_matrix. pass; [exact E|]. pass; [exact Em | reflexivity]. }
    rewrite Eq. cbn [lift map_exn bind fst snd]. rewrite <- Er in N, F.
    split; [now destruct failures|]. do 3 (split; [assumption|]). split; [exact F|split; [exact NE|]].
    intros f. apply registry_failures_spec, (vm_agents _ VM).
Qed.

(** ** A sample *)

Definition flt (text : string) : pyfloat := {| fl_finite := true; fl_repr := text |}.

Definition sample_features : FeatureSet := {|
  fs_symbol := "BTCUSDT"; fs_timeframe := "1m"; fs_timestamp := utc 60000000; fs_zscore := None; fs_zscore_mean := None;
  fs_zscore_std := None; fs_ema_fast := None; fs_ema_slow := None; fs_ema_signal := None; fs_roc_short := None;
  fs_roc_long := None; fs_atr := Some (flt "1.5"); fs_rolling_std := None; fs_bid_ask_spread := Some (flt "0.0001");
  fs_book_imbalance := None; fs_funding_rate := None; fs_annualized_funding := Some (flt "1e-05");
  fs_funding_bias := Some "long_heavy"; fs_regime := Some "trending" |}.

Definition sample_output (name direction : string) : AgentOutput := {|
  ao_agent_name := name; ao_directional_hypothesis := direction; ao_probability_estimate := flt "0.75";
  ao_confidence_score := flt "0.5"; ao_risk_estimate := flt "0.25" |}.

(** Momentum and structure see an uptrend, the carry agent raises. *)
Definition sample_agent (name : string) : BaseAgent := {|
  ag_name := name; ag_compatible_regimes := [];
  ag_analyze := fun _ =>
    if bool_decide (name = "carry_yield") then AgentRaised "ZeroDivisionError" "float division by zero"
    else Replied (sample_output name (if bool_decide (elem_of name ["momentum"; "technical_structure"]) then "long" else "neutral")) |}.

Definition no_delay (_ : string) (_ : nat) : Z := 0.

Lemma sample_manifest_valid : valid_manifest sample_manifest /\ Forall entry_valid (em_agent_versions sample_manifest).
Proof.
  split; [apply (manifest_post_init_Ok sample_manifest); vm_compute; reflexivity|].
  repeat constructor; vm_compute; reflexivity.
Qed.

Lemma sample_features_valid : valid_features sample_features.
Proof. split; vm_compute; reflexivity. Qed.

Lemma agent_matrix_complete_witness :
  registry_matches (map sample_agent ALL_AGENTS) = true /\
  exists message matrix failures,
    run_agent_matrix sample_features sample_manifest no_delay (map sample_agent ALL_AGENTS) =
      match failures with [] => Ok matrix | _ => Raise (AgentMatrixError message matrix failures) end /\
    failures = omap failure_of (am_evaluations matrix).
Proof.
  destruct (agent_matrix_complete sample_features sample_manifest no_delay (map sample_agent ALL_AGENTS)
    sample_features_valid (proj1 sample_manifest_valid) (proj2 sample_manifest_valid)) as (message & m & fl & E & _ & _ & _ & F).
  - unfold no_delay. lia.
  - repeat constructor; discriminate.
  - split; [vm_compute; reflexivity|]. exists message, m, fl. split; [exact E|]. exact (proj2 F).
Defined.

(** The run reports the one agent that raised. *)
Example sample_matrix_run :
  match run_agent_matrix sample_features sample_manifest no_delay (map sample_agent ALL_AGENTS) with
  | Raise (AgentMatrixError _ m fl) => (map av_voting (am_evaluations m), map af_agent_name fl)
  | _ => ([], [])
  end = ([true; true; true; true; true; true; false; false], ["carry_yield"]).
Proof. vm_compute. reflexivity. Qed.
