(* ===== verification/DecisionOfficial.v ===== *)
(** * The official decision engine: [maais/decision/official.py]

    From the matrix of agent evaluations and the features: the consensus, the
    adversarial challenge, the expected value after costs and the alpha over a
    benchmark.  [abs] and unary minus round to the context, like every
    operation of a decimal. *)

From Stdlib Require Import ZArith QArith Qabs Lia Lqa List Bool String.
From stdpp Require Import base decidable list strings.
From S2P Require Import Prelude PyDecimal DecimalTheory DecimalOrder Domain Json MarketEvents Frames EventLog Manifest Agents.

Local Open Scope Z_scope.

(** ** Policy *)

(** [config/fees.py]. *)
Definition BINANCE_USDM_REGULAR_TAKER_FEE_RATE : dec := mkdec 5 (-4).

Record OfficialDecisionPolicy : Type := {
  op_adversarial_block_threshold : dec;
  op_round_trip_fee_fraction : dec;
  op_atr_slippage_multiplier : dec;
  op_spread_impact_multiplier : dec;
  op_maximum_expected_move_fraction : dec;
  op_minimum_directional_voters : Z
}.

Definition nonnegative (nv : string * dec) : result unit :=
  raise_if (snd nv <? dzero)%dec (ValueError (fst nv +:+ " must be nonnegative and finite")).

Definition OfficialDecisionPolicy_post_init (p : OfficialDecisionPolicy) : result OfficialDecisionPolicy :=
  do* iterM nonnegative
        [("adversarial_block_threshold", op_adversarial_block_threshold p);
         ("round_trip_fee_fraction", op_round_trip_fee_fraction p);
         ("atr_slippage_multiplier", op_atr_slippage_multiplier p);
         ("spread_impact_multiplier", op_spread_impact_multiplier p);
         ("maximum_expected_move_fraction", op_maximum_expected_move_fraction p)] ;;
  do* raise_if (done <? op_adversarial_block_threshold p)%dec (ValueError "adversarial threshold cannot exceed one") ;;
  do* raise_if (op_minimum_directional_voters p <=? 0) (ValueError "minimum directional voters must be positive") ;;
  Ok p.

Definition conservative (taker_fee_fraction : dec) : result OfficialDecisionPolicy :=
  do* raise_if ((taker_fee_fraction <? dzero)%dec || (mkdec 1 (-2) <? taker_fee_fraction)%dec)
        (ValueError "taker fee fraction must be a finite Decimal in [0, 0.01]") ;;
  OfficialDecisionPolicy_post_init
    {| op_adversarial_block_threshold := mkdec 65 (-2);
       op_round_trip_fee_fraction := (taker_fee_fraction * dint 2)%dec;
       op_atr_slippage_multiplier := mkdec 5 (-1);
       op_spread_impact_multiplier := mkdec 3 (-1);
       op_maximum_expected_move_fraction := mkdec 20 (-2);
       op_minimum_directional_voters := 2 |}.

(** ** Analysis *)

Record OfficialDecisionAnalysis : Type := {
  da_direction : Direction;
  da_consensus_probability : dec;
  da_consensus_confidence : dec;
  da_long_weight : dec;
  da_short_weight : dec;
  da_neutral_weight : dec;
  da_directional_voters : Z;
  da_consensus_passed : bool;
  da_consensus_reason : string;
  da_dissenters : list string;
  da_dissent_probability : dec;
  da_dissent_confidence : dec;
  da_challenge_blocked : bool;
  da_expected_gain : dec;
  da_expected_loss : dec;
  da_gross_ev : dec;
  da_funding_carry : dec;
  da_estimated_cost : dec;
  da_net_ev : dec;
  da_ev_positive : bool;
  da_ev_reason : string;
  da_benchmark_available : bool;
  da_benchmark_return : dec;
  da_alpha_estimate : dec;
  da_alpha_positive : bool;
  da_alpha_reason : string;
  da_consensus_snapshot : json;
  da_adversarial_snapshot : json;
  da_ev_snapshot : json;
  da_cost_snapshot : json;
  da_content_hash : string
}.

Definition unit_decimal (nv : string * dec) : result unit :=
  raise_if ((snd nv <? dzero)%dec || (done <? snd nv)%dec) (ValueError (fst nv +:+ " must be a finite Decimal in [0, 1]")).

Definition frozen_object (name : string) (j : json) : result json :=
  let* normalized := freeze_json (thaw j) in as_mapping (name +:+ " must be an object") normalized.

Definition OfficialDecisionAnalysis_post_init (a : OfficialDecisionAnalysis) : result OfficialDecisionAnalysis :=
  do* iterM unit_decimal
        [("consensus_probability", da_consensus_probability a); ("consensus_confidence", da_consensus_confidence a);
         ("dissent_probability", da_dissent_probability a); ("dissent_confidence", da_dissent_confidence a)] ;;
  do* iterM nonnegative
        [("long_weight", da_long_weight a); ("short_weight", da_short_weight a); ("neutral_weight", da_neutral_weight a);
         ("expected_gain", da_expected_gain a); ("expected_loss", da_expected_loss a);
         ("estimated_cost", da_estimated_cost a)] ;;
  do* raise_if (bool_decide (da_direction a = NEUTRAL) && da_consensus_passed a)
        (ValueError "neutral consensus cannot pass") ;;
  do* raise_if (negb (Bool.eqb (da_ev_positive a) (dzero <? da_net_ev a)%dec))
        (ValueError "EV verdict differs from net EV") ;;
  do* raise_if (negb (Bool.eqb (da_alpha_positive a) (da_benchmark_available a && (dzero <? da_alpha_estimate a)%dec)))
        (ValueError "alpha verdict differs from alpha estimate") ;;
  do* raise_if (negb (String.length (da_content_hash a) =? 64)%nat)
        (ValueError "official decision content hash must be SHA-256") ;;
  let* consensus := frozen_object "consensus_snapshot" (da_consensus_snapshot a) in
  let* adversarial := frozen_object "adversarial_snapshot" (da_adversarial_snapshot a) in
  let* ev := frozen_object "ev_snapshot" (da_ev_snapshot a) in
  let* cost := frozen_object "cost_snapshot" (da_cost_snapshot a) in
  Ok {| da_direction := da_direction a; da_consensus_probability := da_consensus_probability a;
        da_consensus_confidence := da_consensus_confidence a; da_long_weight := da_long_weight a;
        da_short_weight := da_short_weight a; da_neutral_weight := da_neutral_weight a;
        da_directional_voters := da_directional_voters a; da_consensus_passed := da_consensus_passed a;
        da_consensus_reason := da_consensus_reason a; da_dissenters := da_dissenters a;
        da_dissent_probability := da_dissent_probability a; da_dissent_confidence := da_dissent_confidence a;
        da_challenge_blocked := da_challenge_blocked a; da_expected_gain := da_expected_gain a;
        da_expected_loss := da_expected_loss a; da_gross_ev := da_gross_ev a; da_funding_carry := da_funding_carry a;
        da_estimated_cost := da_estimated_cost a; da_net_ev := da_net_ev a; da_ev_positive := da_ev_positive a;
        da_ev_reason := da_ev_reason a; da_benchmark_available := da_benchmark_available a;
        da_benchmark_return := da_benchmark_return a; da_alpha_estimate := da_alpha_estimate a;
        da_alpha_positive := da_alpha_positive a; da_alpha_reason := da_alpha_reason a;
        da_consensus_snapshot := consensus; da_adversarial_snapshot := adversarial; da_ev_snapshot := ev;
        da_cost_snapshot := cost; da_content_hash := da_content_hash a |}.

Definition _object (v : pyval) : result json :=
  let* normalized := freeze_json v in as_mapping "official decision snapshot must be an object" normalized.

Definition _feature_decimal (x : option pyfloat) : option dec :=
  match x with Some x => float_dec x | None => None end.

(** ** The verdicts *)

Section Evaluate.
Context (sha256_hex : string -> string) (policy : OfficialDecisionPolicy).

Definition output_of (f : AgentOutputSnapshot -> dec) (v : AgentEvaluation) : dec := f (av_output v).
Definition points (d : Direction) (v : AgentEvaluation) : bool := bool_decide (os_direction (av_output v) = d).
Definition directional (v : AgentEvaluation) : bool := av_voting v && (points LONG v || points SHORT v).

Definition directional_rows (m : AgentEvaluationMatrix) : list AgentEvaluation := List.filter directional (am_evaluations m).
Definition rows_for (d : Direction) (m : AgentEvaluationMatrix) : list AgentEvaluation :=
  List.filter (points d) (directional_rows m).
Definition neutral_rows (m : AgentEvaluationMatrix) : list AgentEvaluation :=
  List.filter (fun v => negb (av_voting v) || points NEUTRAL v) (am_evaluations m).
Definition row_weight (l : list AgentEvaluation) : dec := total_weight av_weight l.

Definition voters (m : AgentEvaluationMatrix) : Z := Z.of_nat (length (directional_rows m)).

Definition consensus_direction (m : AgentEvaluationMatrix) : Direction * string :=
  let long_weight := row_weight (rows_for LONG m) in
  let short_weight := row_weight (rows_for SHORT m) in
  if voters m <? op_minimum_directional_voters policy then (NEUTRAL, "insufficient_directional_voters")
  else if (long_weight =? short_weight)%dec then (NEUTRAL, "directional_weight_tie")
  else if (short_weight <? long_weight)%dec then (LONG, "long_weight_majority")
  else (SHORT, "short_weight_majority").

(** Both weighted means, unless there is nothing to weigh. *)
Definition means (direction : Direction) (rows : list AgentEvaluation) (probability confidence : dec) : result (dec * dec) :=
  let weight := row_weight rows in
  if bool_decide (direction = NEUTRAL) || (weight =? dzero)%dec then Ok (probability, confidence)
  else
    let* p := ddiv (weighted_sum av_weight (output_of os_probability) rows) weight in
    let* c := ddiv (weighted_sum av_weight (output_of os_confidence) rows) weight in
    Ok (p, c).

Definition winner_side (direction : Direction) : Direction := if bool_decide (direction = LONG) then LONG else SHORT.
Definition minority_direction (direction : Direction) : Direction := if bool_decide (direction = LONG) then SHORT else LONG.

Definition _funding_carry (features : FeatureSet) (direction : Direction) : result dec :=
  match _feature_decimal (fs_annualized_funding features), fs_funding_bias features with
  | Some annualized, Some bias =>
      if bool_decide (bias = "long_heavy") || bool_decide (bias = "short_heavy") then
        let* per_period := ddiv (dabs annualized) (dint (365 * 3)) in
        let rewarded := if bool_decide (bias = "long_heavy") then bool_decide (direction = SHORT)
                        else bool_decide (direction = LONG) in
        Ok (if rewarded then per_period else dneg per_period)
      else Ok dzero
  | _, _ => Ok dzero
  end.

Record economics : Type := {
  ec_expected_gain : dec;
  ec_expected_loss : dec;
  ec_gross_ev : dec;
  ec_funding_carry : dec;
  ec_estimated_cost : dec;
  ec_net_ev : dec;
  ec_reason : string
}.

Definition no_economics (gain : dec) (reason : string) : economics :=
  {| ec_expected_gain := gain; ec_expected_loss := gain; ec_gross_ev := dzero; ec_funding_carry := dzero;
     ec_estimated_cost := dzero; ec_net_ev := dzero; ec_reason := reason |}.

(** [atr is not None and atr > 0 and atr / executable_price <= maximum]. *)
Definition expected_move_available (atr : option dec) (executable_price : dec) : result bool :=
  match atr with
  | Some a => if (dzero <? a)%dec
              then let* move := ddiv a executable_price in Ok (move <=? op_maximum_expected_move_fraction policy)%dec
              else Ok false
  | None => Ok false
  end.

Definition spread_usable (spread : option dec) : bool :=
  match spread with Some s => (dzero <=? s)%dec | None => false end.

Definition expected_value (features : FeatureSet) (direction : Direction) (probability executable_price : dec)
  : result economics :=
  let atr := _feature_decimal (fs_atr features) in
  let spread := _feature_decimal (fs_bid_ask_spread features) in
  let* available := expected_move_available atr executable_price in
  if bool_decide (direction = NEUTRAL) || negb available then
    Ok (no_economics dzero
          (if bool_decide (direction = NEUTRAL) then "neutral_consensus"
           else if match atr with Some a => (a <=? dzero)%dec | None => true end
           then "expected_move_unavailable" else "expected_move_out_of_bounds"))
  else
    let* a := of_option (RuntimeError "available expected move unexpectedly has no ATR") atr in
    let* gain := ddiv a executable_price in
    match spread with
    | Some s =>
        if (dzero <=? s)%dec then
          let gross_ev := (probability * gain - (done - probability) * gain)%dec in
          let* carry := _funding_carry features direction in
          let slippage := (gain * op_atr_slippage_multiplier policy + s * op_spread_impact_multiplier policy)%dec in
          let cost := (op_round_trip_fee_fraction policy + slippage)%dec in
          let net := (gross_ev + carry - cost)%dec in
          Ok {| ec_expected_gain := gain; ec_expected_loss := gain; ec_gross_ev := gross_ev; ec_funding_carry := carry;
                ec_estimated_cost := cost; ec_net_ev := net;
                ec_reason := if (dzero <? net)%dec then "positive_ev" else "non_positive_ev" |}
        else Ok (no_economics gain "cost_inputs_unavailable")
    | None => Ok (no_economics gain "cost_inputs_unavailable")
    end.

Definition same_identity (features : FeatureSet) (m : AgentEvaluationMatrix) : bool :=
  bool_decide (am_symbol m = fs_symbol features) && bool_decide (am_timeframe m = fs_timeframe features) &&
  dt_eqb (am_feature_at m) (fs_timestamp features) && bool_decide (am_regime m = fs_regime features).

Definition official_evaluate (features : FeatureSet) (m : AgentEvaluationMatrix) (executable_price : dec)
    (benchmark_return : option dec) : result OfficialDecisionAnalysis :=
  do* raise_if (executable_price <=? dzero)%dec (ValueError "executable price must be a positive finite Decimal") ;;
  do* raise_if (negb (same_identity features m)) (ValueError "agent matrix and feature identity differ") ;;
  let long_weight := row_weight (rows_for LONG m) in
  let short_weight := row_weight (rows_for SHORT m) in
  let neutral_weight := row_weight (neutral_rows m) in
  let direction := fst (consensus_direction m) in
  let consensus_reason := snd (consensus_direction m) in
  let* pc := means direction (rows_for (winner_side direction) m) one_half dzero in
  let consensus_passed := negb (bool_decide (direction = NEUTRAL)) in
  let dissenters := rows_for (minority_direction direction) m in
  let* dpc := means direction dissenters dzero dzero in
  let challenge_blocked := consensus_passed && nonempty dissenters && (op_adversarial_block_threshold policy <=? snd dpc)%dec in
  let* ec := expected_value features direction (fst pc) executable_price in
  let ev_positive := (dzero <? ec_net_ev ec)%dec in
  let benchmark_available := present benchmark_return in
  let benchmark_value := match benchmark_return with Some b => b | None => dzero end in
  let alpha_estimate := (ec_net_ev ec - benchmark_value)%dec in
  let alpha_positive := benchmark_available && (dzero <? alpha_estimate)%dec in
  let alpha_reason := if negb benchmark_available then "benchmark_unavailable"
                      else if alpha_positive then "positive_alpha" else "non_positive_alpha" in
  let* matrix_digest := matrix_hash sha256_hex m in
  let* consensus_snapshot := _object (PDict
    [("direction", PEnum (enum_value direction)); ("reason", PStr consensus_reason); ("probability", PDec (fst pc));
     ("confidence", PDec (snd pc)); ("long_weight", PDec long_weight); ("short_weight", PDec short_weight);
     ("neutral_weight", PDec neutral_weight); ("directional_voters", PInt (voters m)); ("matrix_hash", PStr matrix_digest)]) in
  let* adversarial_snapshot := _object (PDict
    [("majority_direction", PEnum (enum_value direction));
     ("minority_direction", PEnum (enum_value (if bool_decide (direction = NEUTRAL) then NEUTRAL else minority_direction direction)));
     ("dissenters", PSeq (map (fun v => PStr (av_agent_name v)) dissenters)); ("dissent_probability", PDec (fst dpc));
     ("dissent_confidence", PDec (snd dpc)); ("challenge_blocked", PBool challenge_blocked);
     ("threshold", PDec (op_adversarial_block_threshold policy))]) in
  let* cost_snapshot := _object (PDict
    [("round_trip_fee_fraction", PDec (op_round_trip_fee_fraction policy));
     ("atr_slippage_multiplier", PDec (op_atr_slippage_multiplier policy));
     ("spread_impact_multiplier", PDec (op_spread_impact_multiplier policy));
     ("maximum_expected_move_fraction", PDec (op_maximum_expected_move_fraction policy));
     ("spread_fraction", popt PDec (_feature_decimal (fs_bid_ask_spread features)));
     ("estimated_cost", PDec (ec_estimated_cost ec))]) in
  let* ev_snapshot := _object (PDict
    [("p_win", PDec (fst pc)); ("p_loss", PDec (done - fst pc)%dec); ("expected_gain", PDec (ec_expected_gain ec));
     ("expected_loss", PDec (ec_expected_loss ec)); ("gross_ev", PDec (ec_gross_ev ec));
     ("funding_carry", PDec (ec_funding_carry ec)); ("estimated_cost", PDec (ec_estimated_cost ec));
     ("net_ev", PDec (ec_net_ev ec)); ("ev_reason", PStr (ec_reason ec)); ("benchmark_available", PBool benchmark_available);
     ("benchmark_return", popt PDec benchmark_return); ("alpha_estimate", PDec alpha_estimate);
     ("alpha_reason", PStr alpha_reason)]) in
  let* digest := content_hash sha256_hex (PDict
    [("consensus", thaw consensus_snapshot); ("adversarial", thaw adversarial_snapshot); ("cost", thaw cost_snapshot);
     ("ev", thaw ev_snapshot)]) in
  OfficialDecisionAnalysis_post_init
    {| da_direction := direction; da_consensus_probability := fst pc; da_consensus_confidence := snd pc;
       da_long_weight := long_weight; da_short_weight := short_weight; da_neutral_weight := neutral_weight;
       da_directional_voters := voters m; da_consensus_passed := consensus_passed; da_consensus_reason := consensus_reason;
       da_dissenters := map av_agent_name dissenters; da_dissent_probability := fst dpc; da_dissent_confidence := snd dpc;
       da_challenge_blocked := challenge_blocked; da_expected_gain := ec_expected_gain ec;
       da_expected_loss := ec_expected_loss ec; da_gross_ev := ec_gross_ev ec; da_funding_carry := ec_funding_carry ec;
       da_estimated_cost := ec_estimated_cost ec; da_net_ev := ec_net_ev ec; da_ev_positive := ev_positive;
       da_ev_reason := ec_reason ec; da_benchmark_available := benchmark_available; da_benchmark_return := benchmark_value;
       da_alpha_estimate := alpha_estimate; da_alpha_positive := alpha_positive; da_alpha_reason := alpha_reason;
       da_consensus_snapshot := consensus_snapshot; da_adversarial_snapshot := adversarial_snapshot;
       da_ev_snapshot := ev_snapshot; da_cost_snapshot := cost_snapshot; da_content_hash := digest |}.
End Evaluate.

(** ** The engine always answers *)

Record valid_decision_policy (p : OfficialDecisionPolicy) : Prop := {
  vp_threshold : (0 <= dval (op_adversarial_block_threshold p) /\ dval (op_adversarial_block_threshold p) <= 1)%Q;
  vp_fee : (0 <= dval (op_round_trip_fee_fraction p))%Q;
  vp_slippage : (0 <= dval (op_atr_slippage_multiplier p))%Q;
  vp_spread : (0 <= dval (op_spread_impact_multiplier p))%Q;
  vp_voters : 0 < op_minimum_directional_voters p
}.

Lemma nonnegative_Ok nv u : nonnegative nv = Ok u <-> (0 <= dval (snd nv))%Q.
Proof. destruct u. unfold nonnegative. rewrite raise_if_Ok, dltb_ge, dval_zero. reflexivity. Qed.

Lemma unit_decimal_Ok nv u : unit_decimal nv = Ok u <-> (0 <= dval (snd nv) /\ dval (snd nv) <= 1)%Q.
Proof. destruct u. unfold unit_decimal. rewrite raise_if_Ok, orb_false_iff, !dltb_ge, dval_zero, dval_one. reflexivity. Qed.

Lemma decision_policy_valid p0 p : OfficialDecisionPolicy_post_init p0 = Ok p -> p = p0 /\ valid_decision_policy p.
Proof.
  unfold OfficialDecisionPolicy_post_init. intros H. py_inv.
  match goal with H : iterM nonnegative _ = Ok ?u |- _ => destruct u; apply iterM_Forall in H; rewrite !Forall_cons, !nonnegative_Ok in H; cbn [snd] in H end.
  bool_prop. rewrite dltb_ge, dval_one in *. split; [reflexivity|]. split; tauto || lia.
Qed.

(** A row that can be weighed. *)
Definition row_ok (v : AgentEvaluation) : Prop := proper_weight av_weight v /\ snapshot_valid (av_output v).

Record valid_matrix (m : AgentEvaluationMatrix) : Prop := {
  mx_rows : Forall row_ok (am_evaluations m);
  mx_time : is_utc (am_feature_at m) = true
}.

Lemma snapshot_unit o : snapshot_valid o ->
  ((0 <= dval (os_probability o) /\ dval (os_probability o) <= 1) /\ (0 <= dval (os_confidence o) /\ dval (os_confidence o) <= 1) /\
   (0 <= dval (os_risk o) /\ dval (os_risk o) <= 1))%Q.
Proof.
  unfold snapshot_valid, AgentOutputSnapshot_post_init. intros H. py_inv.
  match goal with H : iterM unit_field _ = Ok ?u |- _ => destruct u; apply iterM_Forall in H; rewrite !Forall_cons in H end.
  assert (U : forall nv, unit_field nv = Ok tt -> (0 <= dval (snd nv) /\ dval (snd nv) <= 1)%Q).
  { intros nv. unfold unit_field. rewrite raise_if_Ok, orb_false_iff, !dltb_ge, dval_zero, dval_one. tauto. }
  destruct H0 as (H1 & H2 & H3 & _). apply U in H1, H2, H3. auto.
Qed.

Lemma rows_filter f m : valid_matrix m -> Forall row_ok (List.filter f (am_evaluations m)).
Proof. intros V. apply List.Forall_forall. intros v Hv. apply filter_In in Hv as [Hv _]. pose proof (mx_rows _ V) as R. rewrite List.Forall_forall in R. auto. Qed.

Lemma rows_for_ok d m : valid_matrix m -> Forall row_ok (rows_for d m).
Proof.
  intros V. unfold rows_for. apply List.Forall_forall. intros v Hv. apply filter_In in Hv as [Hv _].
  pose proof (rows_filter directional m V) as R. rewrite List.Forall_forall in R. auto.
Qed.

Lemma row_weight_nonneg l : Forall row_ok l -> (0 <= dval (row_weight l))%Q.
Proof. intros H. apply total_weight_nonneg. eapply Forall_impl; [exact H|]. now intros v [? _]. Qed.

Lemma means_total direction rows p c : Forall row_ok rows -> (0 <= dval p /\ dval p <= 1)%Q -> (0 <= dval c /\ dval c <= 1)%Q ->
  exists pc, means direction rows p c = Ok pc /\ (0 <= dval (fst pc) /\ dval (fst pc) <= 1)%Q /\ (0 <= dval (snd pc) /\ dval (snd pc) <= 1)%Q.
Proof.
  intros R Hp Hc. unfold means. destruct (bool_decide (direction = NEUTRAL) || (row_weight rows =? dzero)%dec) eqn:E;
    [exists (p, c); now split|].
  apply orb_false_iff in E as [_ E]. apply deqb_ne in E.
  assert (Hr : rows <> []) by (intros ->; apply E; reflexivity).
  assert (W : Forall (proper_weight av_weight) rows) by (eapply Forall_impl; [exact R|]; now intros v [? _]).
  destruct (weighted_mean_unit av_weight (output_of os_probability) rows W) as (x & Ex & Hx); [|exact Hr|].
  { eapply Forall_impl; [exact R|]. intros v [_ S]. apply (proj1 (snapshot_unit _ S)). }
  destruct (weighted_mean_unit av_weight (output_of os_confidence) rows W) as (y & Ey & Hy); [|exact Hr|].
  { eapply Forall_impl; [exact R|]. intros v [_ S]. apply (proj1 (proj2 (snapshot_unit _ S))). }
  exists (x, y). unfold row_weight in *. rewrite Ex, Ey. now split.
Qed.

Section Total.
Context (policy : OfficialDecisionPolicy) (VP : valid_decision_policy policy).

(** The inputs without which no expected value is computed. *)
Definition priced (features : FeatureSet) (executable_price : dec) : Prop :=
  exists atr spread, _feature_decimal (fs_atr features) = Some atr /\ _feature_decimal (fs_bid_ask_spread features) = Some spread /\
    (0 < dval atr)%Q /\ (dval (ddiv_raw atr executable_price) <= dval (op_maximum_expected_move_fraction policy))%Q /\ (0 <= dval spread)%Q.

Lemma carry_total features direction : exists d, _funding_carry features direction = Ok d.
Proof.
  unfold _funding_carry. destruct (_feature_decimal _) as [a|]; [|eauto]. destruct (fs_funding_bias features) as [b|]; [|eauto].
  destruct (_ || _); [|eauto]. rewrite ddiv_total by (vm_compute; discriminate). cbn [bind]. eauto.
Qed.

Lemma expected_value_total features direction p price : (0 < dval price)%Q ->
  exists ec, expected_value policy features direction p price = Ok ec /\
    (0 <= dval (ec_expected_gain ec))%Q /\ ec_expected_loss ec = ec_expected_gain ec /\ (0 <= dval (ec_estimated_cost ec))%Q /\
    ((0 < dval (ec_net_ev ec))%Q -> direction <> NEUTRAL /\ priced features price).
Proof.
  intros Hp. unfold expected_value, expected_move_available.
  assert (Hnz : ~ (dval price == 0)%Q) by lra.
  assert (Z0 : forall gain reason, (0 <= dval gain)%Q -> exists ec, Ok (no_economics gain reason) = Ok (E := exn) ec /\
    (0 <= dval (ec_expected_gain ec))%Q /\ ec_expected_loss ec = ec_expected_gain ec /\ (0 <= dval (ec_estimated_cost ec))%Q /\
    ((0 < dval (ec_net_ev ec))%Q -> direction <> NEUTRAL /\ priced features price)).
  { intros gain reason Hg. eexists. split; [reflexivity|]. cbn [no_economics ec_expected_gain ec_expected_loss ec_estimated_cost ec_net_ev].
    rewrite dval_zero. repeat split; try lra. all: intros; lra. }
  destruct (_feature_decimal (fs_atr features)) as [atr|] eqn:Ea; [|cbn [bind]; rewrite orb_true_r; apply Z0; rewrite dval_zero; lra].
  destruct (dzero <? atr)%dec eqn:E0; [|cbn [bind negb]; rewrite orb_true_r; apply Z0; rewrite dval_zero; lra].
  rewrite dltb_lt, dval_zero in E0. rewrite (ddiv_total atr price Hnz). cbn [bind of_option].
  destruct (bool_decide (direction = NEUTRAL) || _) eqn:Eb; [apply Z0; rewrite dval_zero; lra|].
  apply orb_false_iff in Eb as [Ed Em]. apply bool_decide_eq_false in Ed. apply negb_false_iff in Em. rewrite dleb_le in Em.
  assert (Hg : (0 <= dval (ddiv_raw atr price))%Q) by (apply ddiv_nonneg; lra).
  rewrite (ddiv_total atr price Hnz). cbn [bind].
  destruct (_feature_decimal (fs_bid_ask_spread features)) as [s|] eqn:Es; [|apply Z0, Hg].
  destruct (dzero <=? s)%dec eqn:E1; [|apply Z0, Hg]. rewrite dleb_le, dval_zero in E1.
  destruct (carry_total features direction) as [carry ->]. cbn [bind]. eexists. split; [reflexivity|].
  cbn [ec_expected_gain ec_expected_loss ec_estimated_cost ec_net_ev]. destruct VP as [_ V2 V3 V4 _].
  split; [exact Hg|]. split; [reflexivity|]. split; [apply dadd_nonneg; [exact V2|]; apply dadd_nonneg; now apply dmul_nonneg|].
  intros _. split; [exact Ed|]. exists atr, s. auto.
Qed.

Lemma consensus_LONG m : fst (consensus_direction policy m) = LONG <->
  op_minimum_directional_voters policy <= voters m /\ (dval (row_weight (rows_for SHORT m)) < dval (row_weight (rows_for LONG m)))%Q.
Proof.
  unfold consensus_direction. destruct (Z.ltb_spec (voters m) (op_minimum_directional_voters policy)); [cbn; split; [discriminate | lia]|].
  destruct (_ =? _)%dec eqn:E; [apply deqb_eq in E; cbn; split; [discriminate | intros [_ H1]; lra]|].
  destruct (_ <? _)%dec eqn:E1; cbn; [apply dltb_lt in E1 | apply dltb_ge in E1]; (split; [|try discriminate]); try tauto; try discriminate.
  intros [_ H1]. lra.
Qed.

Lemma consensus_SHORT m : fst (consensus_direction policy m) = SHORT <->
  op_minimum_directional_voters policy <= voters m /\ (dval (row_weight (rows_for LONG m)) < dval (row_weight (rows_for SHORT m)))%Q.
Proof.
  unfold consensus_direction. destruct (Z.ltb_spec (voters m) (op_minimum_directional_voters policy)); [cbn; split; [discriminate | lia]|].
  destruct (_ =? _)%dec eqn:E; [apply deqb_eq in E; cbn; split; [discriminate | intros [_ H1]; lra]|]. apply deqb_ne in E.
  destruct (_ <? _)%dec eqn:E1; cbn; [apply dltb_lt in E1 | apply dltb_ge in E1]; split; try tauto; try discriminate.
  - intros [_ H1]. lra.
  - intros _. split; [assumption | lra].
Qed.
End Total.

Lemma object_total l : forallb (fun kv => freezable (snd kv)) l = true -> exists items, _object (PDict l) = Ok (JObj items).
Proof.
  intros H. unfold _object. destruct (freeze_total (PDict l) H) as [j Hj]. rewrite Hj. cbn [freeze_json] in Hj. py_inv.
  unfold as_mapping. cbn. eauto.
Qed.

Lemma frozen_object_same name items : frozen_object name (JObj items) = Ok (JObj items).
Proof. unfold frozen_object. rewrite freeze_thaw. reflexivity. Qed.

Lemma freezable_option {A} (f : A -> pyval) o : (forall x, freezable (f x) = true) -> freezable (popt f o) = true.
Proof. intros H. destruct o; [apply H | reflexivity]. Qed.

Lemma matrix_items_freezable m : is_utc (am_feature_at m) = true ->
  forallb (fun kv => freezable (snd kv)) (matrix_items m) = true.
Proof.
  intros H. unfold matrix_items. cbn [forallb snd freezable]. rewrite H, freezable_option, forallb_freezable; [reflexivity | |reflexivity].
  intros v. unfold evaluation_to_dict, output_to_dict. cbn [freezable forallb snd].
  now rewrite !freezable_option, forallb_freezable, freezable_thaw by reflexivity.
Qed.

(** The weighted mean of a value over rows of votes: the quotient of the sum of
    [weight * value] and the sum of the weights, correctly rounded. *)
Definition weighted_mean (f : AgentOutputSnapshot -> dec) (rows : list AgentEvaluation) (d : dec) : Prop :=
  rounded (dval (dsum (map (fun v => av_weight v * output_of f v)%dec rows)) / dval (dsum (map av_weight rows))) d.

Lemma means_spec direction rows p c pc : Forall row_ok rows -> means direction rows p c = Ok pc ->
  (direction <> NEUTRAL -> rows <> [] ->
   weighted_mean os_probability rows (fst pc) /\ weighted_mean os_confidence rows (snd pc)) /\
  (direction = NEUTRAL \/ rows = [] -> pc = (p, c)).
Proof.
  intros R H. assert (W : rows <> [] -> (0 < dval (row_weight rows))%Q).
  { intros Hne. apply total_weight_pos; [eapply Forall_impl; [exact R|]; now intros v [? _] | exact Hne]. }
  unfold means in H. destruct (bool_decide (direction = NEUTRAL)) eqn:Ed; bool_prop; cbn [orb] in H.
  - injection H as <-. split; [contradiction | auto].
  - destruct rows as [|v rows']; [cbn in H; injection H as <-; split; [contradiction | auto]|].
    specialize (W ltac:(discriminate)). set (rows := v :: rows') in *.
    destruct (row_weight rows =? dzero)%dec eqn:Ez; [apply deqb_eq in Ez; rewrite dval_zero in Ez; lra|].
    py_inv. split; [|intros [?|?]; [contradiction | discriminate]]. intros _ _.
    repeat match goal with H : ddiv _ _ = Ok _ |- _ => apply ddiv_Ok in H as [_ ->] end.
    split; apply ddiv_rounded; intros E; rewrite E in W; lra.
Qed.

(** What the verdicts of an analysis mean. *)
Record decision_meaning (policy : OfficialDecisionPolicy) (features : FeatureSet) (m : AgentEvaluationMatrix)
    (executable_price : dec) (benchmark_return : option dec) (a : OfficialDecisionAnalysis) : Prop := {
  dm_long : da_direction a = LONG <-> op_minimum_directional_voters policy <= voters m /\
    (dval (row_weight (rows_for SHORT m)) < dval (row_weight (rows_for LONG m)))%Q;
  dm_short : da_direction a = SHORT <-> op_minimum_directional_voters policy <= voters m /\
    (dval (row_weight (rows_for LONG m)) < dval (row_weight (rows_for SHORT m)))%Q;
  dm_consensus : da_consensus_passed a = true <-> da_direction a <> NEUTRAL;
  dm_unit : Forall (fun d => 0 <= dval d /\ dval d <= 1)%Q
    [da_consensus_probability a; da_consensus_confidence a; da_dissent_probability a; da_dissent_confidence a];
  dm_majority : da_direction a <> NEUTRAL -> let rows := rows_for (da_direction a) m in
    rows <> [] /\ weighted_mean os_probability rows (da_consensus_probability a) /\
    weighted_mean os_confidence rows (da_consensus_confidence a);
  dm_dissent : da_direction a <> NEUTRAL -> let rows := rows_for (minority_direction (da_direction a)) m in
    da_dissenters a = map av_agent_name rows /\
    (rows <> [] -> weighted_mean os_probability rows (da_dissent_probability a) /\
                   weighted_mean os_confidence rows (da_dissent_confidence a)) /\
    (rows = [] -> da_dissent_probability a = dzero /\ da_dissent_confidence a = dzero);
  dm_neutral : da_direction a = NEUTRAL ->
    da_consensus_probability a = one_half /\ da_consensus_confidence a = dzero /\
    da_dissent_probability a = dzero /\ da_dissent_confidence a = dzero;
  dm_economics : expected_value policy features (da_direction a) (da_consensus_probability a) executable_price
    = Ok {| ec_expected_gain := da_expected_gain a; ec_expected_loss := da_expected_loss a; ec_gross_ev := da_gross_ev a;
            ec_funding_carry := da_funding_carry a; ec_estimated_cost := da_estimated_cost a; ec_net_ev := da_net_ev a;
            ec_reason := da_ev_reason a |};
  dm_challenge : da_challenge_blocked a = true <-> da_direction a <> NEUTRAL /\
    rows_for (minority_direction (da_direction a)) m <> [] /\
    (dval (op_adversarial_block_threshold policy) <= dval (da_dissent_confidence a))%Q;
  dm_ev : da_ev_positive a = true <-> (0 < dval (da_net_ev a))%Q;
  dm_priced : da_ev_positive a = true -> da_direction a <> NEUTRAL /\ priced policy features executable_price;
  dm_alpha : da_alpha_positive a = true <-> exists b, benchmark_return = Some b /\ (dval b < dval (da_net_ev a))%Q;
  dm_moves : (0 <= dval (da_expected_gain a))%Q /\ da_expected_loss a = da_expected_gain a;
  dm_valid : OfficialDecisionAnalysis_post_init a = Ok a
}.

Lemma dsub_pos_iff x y : (0 < dval (dsub x y) <-> dval y < dval x)%Q.
Proof.
  split; intros H.
  - pose proof (rounded_pos_inv (dsub_rounded x y) H). lra.
  - apply (rounded_pos (dsub_rounded x y)). lra.
Qed.

Lemma direction_rows policy m : valid_matrix m -> fst (consensus_direction policy m) <> NEUTRAL ->
  rows_for (fst (consensus_direction policy m)) m <> [].
Proof.
  intros VM Hd E. pose proof (row_weight_nonneg _ (rows_for_ok LONG m VM)). pose proof (row_weight_nonneg _ (rows_for_ok SHORT m VM)).
  assert (Z : (dval (row_weight []) == 0)%Q) by reflexivity.
  destruct (fst (consensus_direction policy m)) eqn:Ed; [apply consensus_LONG in Ed as [_ Ed] | apply consensus_SHORT in Ed as [_ Ed] | contradiction];
    rewrite E in Ed; lra.
Qed.


(** ** A sample: two agents see an uptrend, the range is 1.5 on a price of 100 *)

Definition sample_policy : OfficialDecisionPolicy := {|
  op_adversarial_block_threshold := mkdec 65 (-2); op_round_trip_fee_fraction := mkdec 10 (-4);
  op_atr_slippage_multiplier := mkdec 5 (-2); op_spread_impact_multiplier := mkdec 3 (-1);
  op_maximum_expected_move_fraction := mkdec 20 (-2); op_minimum_directional_voters := 2 |}.

Definition quiet_agent (name : string) : BaseAgent := {|
  ag_name := name; ag_compatible_regimes := [];
  ag_analyze := fun _ => Replied (sample_output name
    (if bool_decide (elem_of name ["momentum"; "technical_structure"]) then "long" else "neutral")) |}.

Definition sample_matrix : AgentEvaluationMatrix :=
  match run_agent_matrix sample_features sample_manifest no_delay (map quiet_agent ALL_AGENTS) with
  | Ok m => m
  | Raise _ => {| am_experiment_id := 0; am_symbol := ""; am_timeframe := ""; am_feature_at := utc 0; am_regime := None;
                  am_evaluations := [] |}
  end.

Lemma sample_matrix_valid : valid_matrix sample_matrix.
Proof.
  split; [|vm_compute; reflexivity]. unfold row_ok, proper_weight, snapshot_valid.
  let l := eval vm_compute in (am_evaluations sample_matrix) in change (am_evaluations sample_matrix) with l.
  repeat (constructor; [split; [split; vm_compute; reflexivity | vm_compute; reflexivity]|]). constructor.
Qed.

