(* ===== verification/Decisions.v ===== *)
(** * Decision bundles: [maais/decisions/bundle.py]

    The records of one decision cycle and the consistency of a bundle of them.
    A mapping passed to a record is frozen on the way in, so records hold JSON
    trees. *)

From Stdlib Require Import ZArith QArith Lia List Bool String Ascii.
From stdpp Require Import base decidable list strings.
From S2P Require Import Prelude PyDecimal DecimalTheory Domain Json MarketEvents Frames EventLog Manifest Agents.

Local Open Scope Z_scope.

(** ** Checks *)

Definition _validate_utc (name : string) (value : datetime) : result unit :=
  raise_if (negb (is_utc value)) (ValueError (name +:+ " must be UTC-aware")).
Definition _validate_uuid (name : string) (value : UUID) : result unit :=
  raise_if (value =? 0) (ValueError (name +:+ " cannot be nil")).
(** A decimal of the model is finite. *)
Definition _validate_nonnegative (nv : string * dec) : result unit :=
  raise_if (snd nv <? dzero)%dec (ValueError (fst nv +:+ " cannot be negative")).
Definition _validate_unit_interval (nv : string * dec) : result unit :=
  raise_if ((snd nv <? dzero)%dec || (done <? snd nv)%dec) (ValueError (fst nv +:+ " must be in [0, 1]")).
Definition _freeze_object (value : json) : result json :=
  let* frozen := freeze_json (thaw value) in as_mapping "expected a JSON object" frozen.

Definition validate_uuids : list (string * UUID) -> result unit := iterM (fun nv => _validate_uuid (fst nv) (snd nv)).
Definition validate_utcs : list (string * datetime) -> result unit := iterM (fun nv => _validate_utc (fst nv) (snd nv)).
(** Freezing a frozen tree changes nothing ([Json.freeze_thaw]): what remains of it is the check. *)
Definition freeze_objects : list json -> result unit := iterM (fun j => let* _ := _freeze_object j in Ok tt).

(** ** Records *)

Record MarketFrameRecord : Type := {
  mr_id : UUID;
  mr_experiment_id : UUID;
  mr_symbol : string;
  mr_venue : string;
  mr_timeframe : string;
  mr_bar_open_at : datetime;
  mr_bar_close_at : datetime;
  mr_observed_at : datetime;
  mr_open : dec;
  mr_high : dec;
  mr_low : dec;
  mr_close : dec;
  mr_volume : dec;
  mr_best_bid : option dec;
  mr_best_ask : option dec;
  mr_mark_price : option dec;
  mr_index_price : option dec;
  mr_funding_rate : option dec;
  mr_primary_spot_price : option dec;
  mr_secondary_venue_price : option dec;
  mr_bar_snapshot : json;
  mr_orderbook_snapshot : json;
  mr_source_manifest : json;
  mr_source_sequence : json;
  mr_quality_status : QualityStatus;
  mr_quality_results : json;
  mr_content_hash : string
}.

Definition positive_price (nv : string * dec) : result unit :=
  raise_if (snd nv <=? dzero)%dec (ValueError (fst nv +:+ " must be positive")).
Definition optional_price (nv : string * option dec) : result unit :=
  match snd nv with Some v => positive_price (fst nv, v) | None => Ok tt end.

Definition MarketFrameRecord_post_init (r : MarketFrameRecord) : result MarketFrameRecord :=
  do* validate_uuids [("market_frame.id", mr_id r); ("market_frame.experiment_id", mr_experiment_id r)] ;;
  do* validate_utcs [("bar_open_at", mr_bar_open_at r); ("bar_close_at", mr_bar_close_at r); ("observed_at", mr_observed_at r)] ;;
  do* raise_if (negb (upper_symbol (mr_symbol r))) (ValueError "market frame symbol must be uppercase") ;;
  do* raise_if (empty (mr_venue r) || empty (mr_timeframe r)) (ValueError "venue and timeframe are required") ;;
  do* raise_if (negb (dt_ltb (mr_bar_open_at r) (mr_bar_close_at r) && dt_leb (mr_bar_close_at r) (mr_observed_at r)))
        (ValueError "market frame times are not ordered") ;;
  do* iterM positive_price [("open", mr_open r); ("high", mr_high r); ("low", mr_low r); ("close", mr_close r)] ;;
  do* _validate_nonnegative ("volume", mr_volume r) ;;
  do* raise_if ((mr_low r >? dmin (mr_open r) (mr_close r))%dec || (mr_high r <? dmax (mr_open r) (mr_close r))%dec)
        (ValueError "OHLC values are inconsistent") ;;
  do* iterM optional_price
        [("best_bid", mr_best_bid r); ("best_ask", mr_best_ask r); ("mark_price", mr_mark_price r);
         ("index_price", mr_index_price r); ("primary_spot_price", mr_primary_spot_price r);
         ("secondary_venue_price", mr_secondary_venue_price r)] ;;
  do* raise_if (negb (String.length (mr_content_hash r) =? 64)%nat)
        (ValueError "market frame content_hash must be SHA-256") ;;
  do* freeze_objects
        [mr_bar_snapshot r; mr_orderbook_snapshot r; mr_source_manifest r; mr_source_sequence r; mr_quality_results r] ;;
  Ok r.

Record DecisionCycleRecord : Type := {
  dc_id : UUID;
  dc_experiment_id : UUID;
  dc_market_frame_id : UUID;
  dc_strategy_version_id : UUID;
  dc_symbol : string;
  dc_timeframe : string;
  dc_cycle_at : datetime;
  dc_regime : string;
  dc_feature_snapshot : json;
  dc_feature_version : string;
  dc_status : DecisionStatus;
  dc_direction : Direction;
  dc_disposition : Disposition;
  dc_reason_code : ReasonCode;
  dc_created_at : datetime;
  dc_completed_at : datetime
}.

Definition DecisionCycleRecord_post_init (r : DecisionCycleRecord) : result DecisionCycleRecord :=
  do* validate_uuids [("id", dc_id r); ("experiment_id", dc_experiment_id r); ("market_frame_id", dc_market_frame_id r);
                      ("strategy_version_id", dc_strategy_version_id r)] ;;
  do* validate_utcs [("cycle_at", dc_cycle_at r); ("created_at", dc_created_at r); ("completed_at", dc_completed_at r)] ;;
  do* raise_if (negb (dt_leb (dc_created_at r) (dc_completed_at r)))
        (ValueError "decision completion cannot precede creation") ;;
  do* raise_if (empty (dc_symbol r) || empty (dc_timeframe r) || empty (dc_regime r) || empty (dc_feature_version r))
        (ValueError "decision identity and version fields are required") ;;
  do* freeze_objects [dc_feature_snapshot r] ;;
  Ok r.

Record AgentEvaluationRecord : Type := {
  ar_id : UUID;
  ar_decision_cycle_id : UUID;
  ar_agent_version_id : UUID;
  ar_agent_name : string;
  ar_compatible : bool;
  ar_enabled : bool;
  ar_weight : dec;
  ar_direction : Direction;
  ar_probability : dec;
  ar_confidence : dec;
  ar_risk : dec;
  ar_input_snapshot : json;
  ar_reason_codes : list ReasonCode;
  ar_explanation : json;
  ar_duration_ms : Z;
  ar_created_at : datetime
}.

Definition AgentEvaluationRecord_post_init (r : AgentEvaluationRecord) : result AgentEvaluationRecord :=
  do* validate_uuids [("id", ar_id r); ("decision_cycle_id", ar_decision_cycle_id r);
                      ("agent_version_id", ar_agent_version_id r)] ;;
  do* _validate_utc "agent created_at" (ar_created_at r) ;;
  do* raise_if (ar_weight r <=? dzero)%dec (ValueError "agent weight must be positive") ;;
  do* iterM _validate_unit_interval
        [("probability", ar_probability r); ("confidence", ar_confidence r); ("risk", ar_risk r)] ;;
  do* raise_if (ar_duration_ms r <? 0) (ValueError "agent duration cannot be negative") ;;
  do* freeze_objects [ar_input_snapshot r; ar_explanation r] ;;
  Ok r.

Record DecisionSummaryRecord : Type := {
  sm_decision_cycle_id : UUID;
  sm_consensus_direction : Direction;
  sm_consensus_probability : dec;
  sm_consensus_confidence : dec;
  sm_long_weight : dec;
  sm_short_weight : dec;
  sm_neutral_weight : dec;
  sm_dissenters : list string;
  sm_dissent_probability : dec;
  sm_dissent_confidence : dec;
  sm_challenge_blocked : bool;
  sm_expected_gain : dec;
  sm_expected_loss : dec;
  sm_gross_ev : dec;
  sm_funding_carry : dec;
  sm_estimated_cost : dec;
  sm_net_ev : dec;
  sm_benchmark_return : dec;
  sm_alpha_estimate : dec;
  sm_consensus_snapshot : json;
  sm_adversarial_snapshot : json;
  sm_ev_snapshot : json;
  sm_cost_snapshot : json
}.

Definition DecisionSummaryRecord_post_init (r : DecisionSummaryRecord) : result DecisionSummaryRecord :=
  do* _validate_uuid "decision_cycle_id" (sm_decision_cycle_id r) ;;
  do* iterM _validate_unit_interval
        [("consensus_probability", sm_consensus_probability r); ("consensus_confidence", sm_consensus_confidence r);
         ("dissent_probability", sm_dissent_probability r); ("dissent_confidence", sm_dissent_confidence r)] ;;
  do* iterM _validate_nonnegative
        [("long_weight", sm_long_weight r); ("short_weight", sm_short_weight r); ("neutral_weight", sm_neutral_weight r);
         ("expected_gain", sm_expected_gain r); ("expected_loss", sm_expected_loss r);
         ("estimated_cost", sm_estimated_cost r)] ;;
  do* freeze_objects
        [sm_consensus_snapshot r; sm_adversarial_snapshot r; sm_ev_snapshot r; sm_cost_snapshot r] ;;
  Ok r.

Record GateEvaluationRecord : Type := {
  gr_id : UUID;
  gr_decision_cycle_id : UUID;
  gr_gate_type : GateType;
  gr_sequence : Z;
  gr_passed : bool;
  gr_reason_code : ReasonCode;
  gr_input : json;
  gr_output : json;
  gr_evaluated_at : datetime;
  gr_duration_ms : Z
}.

Definition GateEvaluationRecord_post_init (r : GateEvaluationRecord) : result GateEvaluationRecord :=
  do* validate_uuids [("gate.id", gr_id r); ("gate.decision_cycle_id", gr_decision_cycle_id r)] ;;
  do* _validate_utc "gate.evaluated_at" (gr_evaluated_at r) ;;
  do* raise_if (gr_sequence r <? 1) (ValueError "gate sequence must start at one") ;;
  do* raise_if (gr_duration_ms r <? 0) (ValueError "gate duration cannot be negative") ;;
  do* freeze_objects [gr_input r; gr_output r] ;;
  Ok r.

Record TradeProposalRecord : Type := {
  tp_id : UUID;
  tp_decision_cycle_id : UUID;
  tp_experiment_id : UUID;
  tp_symbol : string;
  tp_direction : Direction;
  tp_status : ProposalStatus;
  tp_reason_code : ReasonCode;
  tp_proposed_at : datetime;
  tp_expires_at : datetime;
  tp_entry_policy : json;
  tp_exit_policy : json;
  tp_sizing_snapshot : json;
  tp_approved_quantity : option dec;
  tp_approved_notional : option dec;
  tp_risk_at_stop : option dec
}.

Definition optional_nonnegative (nv : string * option dec) : result unit :=
  match snd nv with Some v => _validate_nonnegative (fst nv, v) | None => Ok tt end.

Definition TradeProposalRecord_post_init (r : TradeProposalRecord) : result TradeProposalRecord :=
  do* validate_uuids [("id", tp_id r); ("decision_cycle_id", tp_decision_cycle_id r); ("experiment_id", tp_experiment_id r)] ;;
  do* _validate_utc "proposed_at" (tp_proposed_at r) ;;
  do* _validate_utc "expires_at" (tp_expires_at r) ;;
  do* raise_if (dt_leb (tp_expires_at r) (tp_proposed_at r)) (ValueError "proposal expiry must follow proposal time") ;;
  do* iterM optional_nonnegative
        [("approved_quantity", tp_approved_quantity r); ("approved_notional", tp_approved_notional r);
         ("risk_at_stop", tp_risk_at_stop r)] ;;
  do* freeze_objects [tp_entry_policy r; tp_exit_policy r; tp_sizing_snapshot r] ;;
  Ok r.

(** ** Records as dictionaries: [record_to_dict] *)

Definition pdec (o : option dec) : pyval := popt PDec o.
Definition preason (r : ReasonCode) : pyval := PEnum (enum_value r).
Definition pdirection (d : Direction) : pyval := PEnum (enum_value d).

Definition frame_tree (r : MarketFrameRecord) : pyval := PDict
  [("id", PUuid (mr_id r)); ("experiment_id", PUuid (mr_experiment_id r)); ("symbol", PStr (mr_symbol r));
   ("venue", PStr (mr_venue r)); ("timeframe", PStr (mr_timeframe r)); ("bar_open_at", PTime (mr_bar_open_at r));
   ("bar_close_at", PTime (mr_bar_close_at r)); ("observed_at", PTime (mr_observed_at r)); ("open", PDec (mr_open r));
   ("high", PDec (mr_high r)); ("low", PDec (mr_low r)); ("close", PDec (mr_close r)); ("volume", PDec (mr_volume r));
   ("best_bid", pdec (mr_best_bid r)); ("best_ask", pdec (mr_best_ask r)); ("mark_price", pdec (mr_mark_price r));
   ("index_price", pdec (mr_index_price r)); ("funding_rate", pdec (mr_funding_rate r));
   ("primary_spot_price", pdec (mr_primary_spot_price r)); ("secondary_venue_price", pdec (mr_secondary_venue_price r));
   ("bar_snapshot", thaw (mr_bar_snapshot r)); ("orderbook_snapshot", thaw (mr_orderbook_snapshot r));
   ("source_manifest", thaw (mr_source_manifest r)); ("source_sequence", thaw (mr_source_sequence r));
   ("quality_status", PEnum (enum_value (mr_quality_status r))); ("quality_results", thaw (mr_quality_results r));
   ("content_hash", PStr (mr_content_hash r))].

Definition cycle_tree (r : DecisionCycleRecord) : pyval := PDict
  [("id", PUuid (dc_id r)); ("experiment_id", PUuid (dc_experiment_id r)); ("market_frame_id", PUuid (dc_market_frame_id r));
   ("strategy_version_id", PUuid (dc_strategy_version_id r)); ("symbol", PStr (dc_symbol r));
   ("timeframe", PStr (dc_timeframe r)); ("cycle_at", PTime (dc_cycle_at r)); ("regime", PStr (dc_regime r));
   ("feature_snapshot", thaw (dc_feature_snapshot r)); ("feature_version", PStr (dc_feature_version r));
   ("status", PEnum (enum_value (dc_status r))); ("direction", pdirection (dc_direction r));
   ("disposition", PEnum (enum_value (dc_disposition r))); ("reason_code", preason (dc_reason_code r));
   ("created_at", PTime (dc_created_at r)); ("completed_at", PTime (dc_completed_at r))].

Definition agent_tree (r : AgentEvaluationRecord) : pyval := PDict
  [("id", PUuid (ar_id r)); ("decision_cycle_id", PUuid (ar_decision_cycle_id r));
   ("agent_version_id", PUuid (ar_agent_version_id r)); ("agent_name", PStr (ar_agent_name r));
   ("compatible", PBool (ar_compatible r)); ("enabled", PBool (ar_enabled r)); ("weight", PDec (ar_weight r));
   ("direction", pdirection (ar_direction r)); ("probability", PDec (ar_probability r));
   ("confidence", PDec (ar_confidence r)); ("risk", PDec (ar_risk r)); ("input_snapshot", thaw (ar_input_snapshot r));
   ("reason_codes", PSeq (map preason (ar_reason_codes r))); ("explanation", thaw (ar_explanation r));
   ("duration_ms", PInt (ar_duration_ms r)); ("created_at", PTime (ar_created_at r))].

Definition summary_tree (r : DecisionSummaryRecord) : pyval := PDict
  [("decision_cycle_id", PUuid (sm_decision_cycle_id r)); ("consensus_direction", pdirection (sm_consensus_direction r));
   ("consensus_probability", PDec (sm_consensus_probability r)); ("consensus_confidence", PDec (sm_consensus_confidence r));
   ("long_weight", PDec (sm_long_weight r)); ("short_weight", PDec (sm_short_weight r));
   ("neutral_weight", PDec (sm_neutral_weight r)); ("dissenters", PSeq (map PStr (sm_dissenters r)));
   ("dissent_probability", PDec (sm_dissent_probability r)); ("dissent_confidence", PDec (sm_dissent_confidence r));
   ("challenge_blocked", PBool (sm_challenge_blocked r)); ("expected_gain", PDec (sm_expected_gain r));
   ("expected_loss", PDec (sm_expected_loss r)); ("gross_ev", PDec (sm_gross_ev r));
   ("funding_carry", PDec (sm_funding_carry r)); ("estimated_cost", PDec (sm_estimated_cost r));
   ("net_ev", PDec (sm_net_ev r)); ("benchmark_return", PDec (sm_benchmark_return r));
   ("alpha_estimate", PDec (sm_alpha_estimate r)); ("consensus_snapshot", thaw (sm_consensus_snapshot r));
   ("adversarial_snapshot", thaw (sm_adversarial_snapshot r)); ("ev_snapshot", thaw (sm_ev_snapshot r));
   ("cost_snapshot", thaw (sm_cost_snapshot r))].

Definition gate_tree (r : GateEvaluationRecord) : pyval := PDict
  [("id", PUuid (gr_id r)); ("decision_cycle_id", PUuid (gr_decision_cycle_id r));
   ("gate_type", PEnum (enum_value (gr_gate_type r))); ("sequence", PInt (gr_sequence r)); ("passed", PBool (gr_passed r));
   ("reason_code", preason (gr_reason_code r)); ("input", thaw (gr_input r)); ("output", thaw (gr_output r));
   ("evaluated_at", PTime (gr_evaluated_at r)); ("duration_ms", PInt (gr_duration_ms r))].

Definition proposal_tree (r : TradeProposalRecord) : pyval := PDict
  [("id", PUuid (tp_id r)); ("decision_cycle_id", PUuid (tp_decision_cycle_id r)); ("experiment_id", PUuid (tp_experiment_id r));
   ("symbol", PStr (tp_symbol r)); ("direction", pdirection (tp_direction r)); ("status", PEnum (enum_value (tp_status r)));
   ("reason_code", preason (tp_reason_code r)); ("proposed_at", PTime (tp_proposed_at r)); ("expires_at", PTime (tp_expires_at r));
   ("entry_policy", thaw (tp_entry_policy r)); ("exit_policy", thaw (tp_exit_policy r));
   ("sizing_snapshot", thaw (tp_sizing_snapshot r)); ("approved_quantity", pdec (tp_approved_quantity r));
   ("approved_notional", pdec (tp_approved_notional r)); ("risk_at_stop", pdec (tp_risk_at_stop r))].

Definition record_to_dict (tree : pyval) : result json :=
  let* normalized := freeze_json tree in as_mapping "record must normalize to an object" normalized.

(** ** Bundles *)

Record DecisionBundle : Type := {
  db_market_frame : MarketFrameRecord;
  db_cycle : DecisionCycleRecord;
  db_agents : list AgentEvaluationRecord;
  db_summary : DecisionSummaryRecord;
  db_gates : list GateEvaluationRecord;
  db_proposal : option TradeProposalRecord
}.

Definition has_reason (codes : list ReasonCode) (r : AgentEvaluationRecord) : bool :=
  existsb (fun c => bool_decide (elem_of c (ar_reason_codes r))) codes.

Definition validate_agent (cycle_id : UUID) (r : AgentEvaluationRecord) : result unit :=
  do* raise_if (negb (ar_decision_cycle_id r =? cycle_id)) (ValueError "agent references another decision cycle") ;;
  do* raise_if (negb (ar_enabled r) && negb (has_reason [RC_DISABLED_AGENT] r))
        (ValueError "disabled_agent reason is required") ;;
  do* raise_if (negb (ar_compatible r) && negb (has_reason [RC_INCOMPATIBLE_REGIME; RC_AGENT_FAILED] r))
        (ValueError "incompatible or failed-agent reason is required") ;;
  raise_if ((negb (ar_enabled r) || negb (ar_compatible r)) && negb (bool_decide (ar_direction r = NEUTRAL)))
    (ValueError "non-voting agents must be neutral").

(** The loop over the gates; [failure_seen] is returned. *)
Fixpoint validate_gates (cycle_id : UUID) (failure_seen : bool) (gates : list GateEvaluationRecord) : result bool :=
  match gates with
  | [] => Ok failure_seen
  | g :: gates' =>
      do* raise_if (negb (gr_decision_cycle_id g =? cycle_id)) (ValueError "gate references another decision cycle") ;;
      do* raise_if (failure_seen && gr_passed g) (ValueError "a gate passed after failure") ;;
      validate_gates cycle_id (failure_seen || negb (gr_passed g)) gates'
  end.

Definition validate_proposal (c : DecisionCycleRecord) (proposal : option TradeProposalRecord) : result unit :=
  if bool_decide (dc_disposition c = DP_NEUTRAL) then
    raise_if (negb (bool_decide (dc_direction c = NEUTRAL)) || present proposal)
      (ValueError "neutral cycle cannot create a synthetic proposal")
  else
    match proposal with
    | Some p =>
        do* raise_if (bool_decide (dc_direction c = NEUTRAL)) (ValueError "directional cycle requires a proposal") ;;
        do* raise_if (negb ((tp_decision_cycle_id p =? dc_id c) && (tp_experiment_id p =? dc_experiment_id c) &&
                            bool_decide (tp_symbol p = dc_symbol c) && bool_decide (tp_direction p = dc_direction c)))
              (ValueError "proposal identity does not match decision cycle") ;;
        let expected := if bool_decide (dc_disposition c = DP_APPROVED) then PS_APPROVED else PS_REJECTED in
        raise_if (negb (bool_decide (tp_status p = expected))) (ValueError "proposal status does not match disposition")
    | None => Raise (ValueError "directional cycle requires a proposal")
    end.

Definition bundle_validate (b : DecisionBundle) : result unit :=
  let f := db_market_frame b in
  let c := db_cycle b in
  do* raise_if (negb (mr_experiment_id f =? dc_experiment_id c)) (ValueError "market frame and cycle experiment differ") ;;
  do* raise_if (negb (mr_id f =? dc_market_frame_id c)) (ValueError "cycle does not reference its market frame") ;;
  do* raise_if (negb (bool_decide (mr_symbol f = dc_symbol c) && bool_decide (mr_timeframe f = dc_timeframe c)))
        (ValueError "market frame and cycle identity differ") ;;
  let by_name := dict_by ar_agent_name (db_agents b) in
  do* raise_if (negb (length (db_agents b) =? length ALL_AGENTS)%nat || negb (same_names (map fst by_name) ALL_AGENTS))
        (ValueError "bundle requires exactly one evaluation for each configured agent") ;;
  do* iterM (fun name => let* agent := of_option (LookupError name) (dict_get by_name name) in validate_agent (dc_id c) agent)
        ALL_AGENTS ;;
  do* raise_if (negb (sm_decision_cycle_id (db_summary b) =? dc_id c)) (ValueError "summary references another decision cycle") ;;
  do* raise_if (negb (bool_decide (map gr_sequence (db_gates b) = zrange 1 (length (db_gates b)))))
        (ValueError "gate sequences must be contiguous from one") ;;
  do* raise_if (negb (bool_decide (NoDup (map gr_gate_type (db_gates b))))) (ValueError "gate types cannot repeat") ;;
  let* failure_seen := validate_gates (dc_id c) false (db_gates b) in
  do* validate_proposal c (db_proposal b) ;;
  do* raise_if (bool_decide (dc_disposition c = DP_APPROVED) && failure_seen)
        (ValueError "approved decision cannot contain a failed gate") ;;
  raise_if (bool_decide (dc_disposition c = DP_REJECTED) && negb failure_seen)
    (ValueError "rejected decision requires a failed gate").

Definition bundle_tree (b : DecisionBundle) : pyval := PDict
  [("market_frame", frame_tree (db_market_frame b)); ("cycle", cycle_tree (db_cycle b));
   ("agents", PSeq (map agent_tree (db_agents b))); ("summary", summary_tree (db_summary b));
   ("gates", PSeq (map gate_tree (db_gates b))); ("proposal", popt proposal_tree (db_proposal b))].

Definition bundle_hash (sha256_hex : string -> string) (b : DecisionBundle) : result string :=
  do* bundle_validate b ;;
  let* d := record_to_dict (bundle_tree b) in
  content_hash sha256_hex (thaw d).
