(* ===== verification/Commands.v ===== *)
(** * Orchestration commands and outcomes: [maais/orchestration/commands.py]
    and [maais/orchestration/results.py]

    Everything that decides one causal frame, checked for identity and time, and
    the outcome of that decision, checked for consistency. *)

From Stdlib Require Import ZArith QArith Lia List Bool String Ascii.
From stdpp Require Import base decidable list strings.
From S2P Require Import Prelude PyDecimal DecimalTheory Domain Json Market MarketEvents Frames Filters Positions Account Exits Authorization Records Sensitivity RiskOfficial Integrity EventLog Incidents Admission Counterfactuals Manifest Agents Decisions.

Local Open Scope Z_scope.

(** ** [Decimal(str(value))] of a value of a frozen mapping *)

Definition lower (c : ascii) : ascii :=
  let n := nat_of_ascii c in if (65 <=? Z.of_nat n) && (Z.of_nat n <=? 90) then ascii_of_nat (n + 32) else c.

Definition digit (c : ascii) : bool := let n := Z.of_nat (nat_of_ascii c) in (48 <=? n) && (n <=? 57).

Definition unsigned (l : list ascii) : bool * list ascii :=
  match l with
  | c :: l' => if ascii_dec c "-"%char then (true, l') else if ascii_dec c "+"%char then (false, l') else (false, l)
  | [] => (false, [])
  end.

(** Digits with at most one point, at least one digit. *)
Definition plain_number (l : list ascii) : bool :=
  forallb (fun c => digit c || bool_decide (c = "."%char)) l && existsb digit l &&
  (length (List.filter (fun c => bool_decide (c = "."%char)) l) <=? 1)%nat.

Inductive literal : Type := InvalidLiteral | NotFinite | Finite (d : dec).

Definition not_finite_word (l : list ascii) : bool :=
  let w := string_of_list_ascii l in
  bool_decide (elem_of w ["inf"; "infinity"]) ||
  match l with
  | "n"%char :: "a"%char :: "n"%char :: payload | "s"%char :: "n"%char :: "a"%char :: "n"%char :: payload => forallb digit payload
  | _ => false
  end.

(** The literals of [Decimal(text)]: surrounding spaces and underscores do not count. *)
Definition decimal_literal (text : string) : literal :=
  let l := map lower (List.filter (fun c => negb (bool_decide (c = "_"%char))) (trim (list_ascii_of_string text))) in
  let '(negative, body) := unsigned l in
  if not_finite_word body then NotFinite
  else
    let '(m, e) := split_exponent body in
    let has_exponent := existsb (fun c => bool_decide (c = "e"%char)) body in
    let '(e_negative, e_digits) := unsigned e in
    if plain_number m && (negb has_exponent || (nonempty e_digits && forallb digit e_digits)) then
      let d := scan_unsigned m in
      let x := mant (scan_unsigned e_digits) in
      Finite (mkdec (if negative then - mant d else mant d) (dexp d + (if e_negative then - x else x)))
    else InvalidLiteral.

Example literal_1 : decimal_literal " 0.000_5" = Finite (mkdec 5 (-4)).
Proof. vm_compute. reflexivity. Qed.
Example literal_2 : decimal_literal "-1.5E+3" = Finite (mkdec (-15) 2).
Proof. vm_compute. reflexivity. Qed.
Example literal_3 : map decimal_literal ["None"; "1e"; "-Infinity"; ""; "1.2.3"] =
  [InvalidLiteral; InvalidLiteral; NotFinite; InvalidLiteral; InvalidLiteral].
Proof. vm_compute. reflexivity. Qed.

(** [str] of a frozen scalar; the text of a container is not a number. *)
Definition json_str (j : option json) : string :=
  match j with
  | Some (JStr s) => s
  | Some (JInt n) => string_of_list_ascii (int_chars n)
  | Some (JFloat t) => t
  | Some (JBool b) => if b then "True" else "False"
  | Some (JArr _) => "()"
  | Some (JObj _) => "{}"
  | Some JNull | None => "None"
  end.

(** [mapping.get(key)]. *)
Definition json_get (j : json) (key : string) : option json :=
  match j with JObj items => dict_get items key | _ => None end.

(** ** Entry contexts *)

Record EntryDecisionContext : Type := {
  en_monitoring : MonitoringAdmissionContext;
  en_drawdown : DrawdownSnapshot;
  en_open_positions : list OpenRiskPosition;
  en_correlations : list CorrelationObservation;
  en_exchange_filters : ExchangeFilterSnapshot;
  en_account : AccountState;
  en_books : list BookSnapshot;
  en_active_exit_plan : option ExitPlan;
  en_proposal_ttl : timedelta;
  en_execution_latency : timedelta;
  en_taker_fee_rate : dec
}.

(** [sorted(books, key=lambda item: (item.observed_at, item.sequence))], stable. *)
Definition book_sort_key (b : BookSnapshot) : Z * Z := (instant (bk_observed_at b), bk_sequence b).
Fixpoint insert_book (b : BookSnapshot) (l : list BookSnapshot) : list BookSnapshot :=
  match l with
  | [] => [b]
  | x :: l' => if key_ltb (book_sort_key x) (book_sort_key b) then x :: insert_book b l' else b :: l
  end.
Definition sort_books (l : list BookSnapshot) : list BookSnapshot := fold_right insert_book [] l.

(** [{symbol: position for ... if not position.is_flat}]. *)
Definition held_positions (a : AccountState) : pydict PositionState :=
  List.filter (fun kv => negb (is_flat (snd kv))) (ac_positions a).

Definition check_risk_position (leverage : Z) (risk_positions : pydict OpenRiskPosition) (kv : string * PositionState)
  : result unit :=
  let* rp := of_option (LookupError (fst kv)) (dict_get risk_positions (fst kv)) in
  let gross := ps_gross_notional (snd kv) in
  let* margin := ddiv gross (dint leverage) in
  raise_if (negb (orp_notional rp =? gross)%dec || negb (orp_margin rp =? margin)%dec || (orp_loss_at_stop rp <=? dzero)%dec)
    (ValueError "open risk position does not reconcile to the paper account").

Definition EntryDecisionContext_post_init (c : EntryDecisionContext) : result EntryDecisionContext :=
  let account := en_account c in
  do* raise_if ((en_proposal_ttl c <=? 0) || (en_execution_latency c <=? 0))
        (ValueError "proposal TTL and execution latency must be positive") ;;
  do* raise_if ((en_taker_fee_rate c <? dzero)%dec || (done <? en_taker_fee_rate c)%dec)
        (ValueError "taker fee rate must be a finite Decimal in [0, 1]") ;;
  do* raise_if (negb (dd_peak_equity (en_drawdown c) =? ac_peak_equity account)%dec ||
                negb (dd_current_equity (en_drawdown c) =? equity account)%dec)
        (ValueError "drawdown snapshot must reconcile to the paper account") ;;
  let held := held_positions account in
  let risk_positions := dict_by orp_symbol (en_open_positions c) in
  do* raise_if (negb (same_names (map fst held) (map fst risk_positions)))
        (ValueError "open risk positions must cover every non-flat paper position") ;;
  do* iterM (check_risk_position (ac_leverage account) risk_positions) held ;;
  do* raise_if (present (dict_get held (ef_symbol (en_exchange_filters c))) && negb (present (en_active_exit_plan c)))
        (ValueError "a non-flat paper position requires its active exit plan") ;;
  do* match en_active_exit_plan c with
      | Some plan =>
          let* current := ac_position account (ef_symbol (en_exchange_filters c)) in
          raise_if (negb (ep_position_id plan =? ps_position_id current))
            (ValueError "active exit plan belongs to another paper position")
      | None => Ok tt
      end ;;
  Ok {| en_monitoring := en_monitoring c; en_drawdown := en_drawdown c;
        en_open_positions := sort_by orp_symbol (en_open_positions c);
        en_correlations := sort_by co_other_symbol (en_correlations c); en_exchange_filters := en_exchange_filters c;
        en_account := account; en_books := sort_books (en_books c); en_active_exit_plan := en_active_exit_plan c;
        en_proposal_ttl := en_proposal_ttl c; en_execution_latency := en_execution_latency c;
        en_taker_fee_rate := en_taker_fee_rate c |}.

(** ** Commands *)

Record OrchestrationCommand : Type := {
  oc_frame : CausalMinuteFrame;
  oc_integrity : IntegrityAssessment;
  oc_manifest : ExperimentManifest;
  oc_agent_version_ids : pydict UUID;
  oc_evaluated_at : datetime;
  oc_completed_at : datetime;
  oc_entry_context : option EntryDecisionContext
}.

Definition check_taker_fee (m : ExperimentManifest) (c : EntryDecisionContext) : result unit :=
  match decimal_literal (json_str (json_get (em_fee_policy m) "taker")) with
  | InvalidLiteral => Raise (ValueError "manifest taker fee must be an explicit decimal")
  | NotFinite => Raise (ValueError "entry-context taker fee differs from the frozen manifest")
  | Finite fee => raise_if (negb (en_taker_fee_rate c =? fee)%dec)
                    (ValueError "entry-context taker fee differs from the frozen manifest")
  end.

Definition check_context (o : OrchestrationCommand) (c : EntryDecisionContext) : result unit :=
  let key := cf_key (oc_frame o) in
  do* raise_if (negb (bool_decide (mc_symbol (en_monitoring c) = fk_symbol key)) ||
                negb (bool_decide (mc_timeframe (en_monitoring c) = fk_timeframe key)) ||
                negb (bool_decide (ef_symbol (en_exchange_filters c) = fk_symbol key)) ||
                negb (ac_experiment_id (en_account c) =? fk_experiment_id key))
        (ValueError "entry context identity differs from the causal frame") ;;
  do* raise_if (negb (dt_eqb (mc_evaluated_at (en_monitoring c)) (oc_evaluated_at o)))
        (ValueError "monitoring and orchestration evaluation times differ") ;;
  do* raise_if (dt_ltb (oc_completed_at o) (ef_captured_at (en_exchange_filters c)))
        (ValueError "exchange filters cannot be captured after the decision") ;;
  check_taker_fee (oc_manifest o) c.

Definition OrchestrationCommand_post_init (o : OrchestrationCommand) : result OrchestrationCommand :=
  let frame := oc_frame o in
  do* require_utc (oc_evaluated_at o) "evaluated_at" ;;
  do* require_utc (oc_completed_at o) "completed_at" ;;
  do* raise_if (negb (ia_frame_id (oc_integrity o) =? cf_frame_id frame))
        (ValueError "integrity assessment belongs to another frame") ;;
  do* raise_if (negb (em_experiment_id (oc_manifest o) =? fk_experiment_id (cf_key frame)))
        (ValueError "manifest and frame experiment differ") ;;
  do* raise_if (negb (bool_decide (elem_of (fk_symbol (cf_key frame)) (em_symbols (oc_manifest o)))))
        (ValueError "frame symbol is not pinned by the experiment manifest") ;;
  do* raise_if (dt_ltb (oc_evaluated_at o) (cf_cutoff_at frame) || dt_ltb (oc_completed_at o) (oc_evaluated_at o))
        (ValueError "orchestration times are not causally ordered") ;;
  do* match oc_entry_context o with Some c => check_context o c | None => Ok tt end ;;
  do* raise_if (negb (same_names (map fst (oc_agent_version_ids o)) ALL_AGENTS) ||
                existsb (fun v => v =? 0) (dict_values (oc_agent_version_ids o)))
        (ValueError "agent version IDs must contain exactly eight non-nil identities") ;;
  Ok o.

Definition feature_version (o : OrchestrationCommand) : result string :=
  match json_get (em_component_versions (oc_manifest o)) "features" with
  | Some (JStr version) => do* raise_if (empty version) (ValueError "manifest must pin a feature version") ;; Ok version
  | _ => Raise (ValueError "manifest must pin a feature version")
  end.

(** ** Outcomes *)

Inductive OrchestrationDisposition : Type := OD_QUARANTINED | OD_HALTED | OD_NEUTRAL | OD_REJECTED | OD_EXECUTED.

#[export] Instance OrchestrationDisposition_eq_dec : EqDecision OrchestrationDisposition.
Proof. solve_decision. Defined.
#[export] Instance OrchestrationDisposition_value : StrEnum OrchestrationDisposition := fun d =>
  match d with
  | OD_QUARANTINED => "quarantined" | OD_HALTED => "halted" | OD_NEUTRAL => "neutral" | OD_REJECTED => "rejected"
  | OD_EXECUTED => "executed"
  end.

Record OrchestrationOutcome : Type := {
  oo_disposition : OrchestrationDisposition;
  oo_bundle : DecisionBundle;
  oo_incident : option IncidentState;
  oo_counterfactual : option CounterfactualState;
  oo_capability : option ExecutionCapability;
  oo_execution : option PaperExecutionRecord;
  oo_sensitivities : list SensitivityOutcome
}.

Definition is_disposition (o : OrchestrationOutcome) (d : OrchestrationDisposition) : bool := bool_decide (oo_disposition o = d).

Definition proposal_is (p : option TradeProposalRecord) (status : ProposalStatus) : bool :=
  match p with Some p => bool_decide (tp_status p = status) | None => false end.

#[export] Instance SensitivityScenario_eq_dec : EqDecision SensitivityScenario.
Proof. solve_decision. Defined.

(** [len(l) == 3 and {item.scenario for item in l} == set(SensitivityScenario)]. *)
Definition three_scenarios (l : list SensitivityOutcome) : bool :=
  (length l =? 3)%nat &&
  forallb (fun s => existsb (fun o => bool_decide (so_scenario o = s)) l) [OPTIMISTIC; CONSERVATIVE; STRESS].

Definition OrchestrationOutcome_post_init (o : OrchestrationOutcome) : result OrchestrationOutcome :=
  let cycle := db_cycle (oo_bundle o) in
  let proposal := db_proposal (oo_bundle o) in
  do* bundle_validate (oo_bundle o) ;;
  do* raise_if (match oo_incident o with Some i => negb (in_experiment_id i =? dc_experiment_id cycle) | None => false end)
        (ValueError "incident and decision bundle experiment differ") ;;
  do* raise_if (is_disposition o OD_HALTED && negb (present (oo_incident o))) (ValueError "halted outcomes require an incident") ;;
  do* raise_if (is_disposition o OD_QUARANTINED &&
                negb (Bool.eqb (bool_decide (dc_reason_code cycle = RC_INSUFFICIENT_HISTORY)) (negb (present (oo_incident o)))))
        (ValueError "only expected-history quarantine may omit an operator incident") ;;
  do* raise_if (match oo_counterfactual o, proposal with
                | Some c, Some p => negb (bool_decide (tp_status p = PS_REJECTED)) || negb (cs_proposal_id c =? tp_id p)
                | Some _, None => true
                | None, _ => false
                end) (ValueError "counterfactual requires the matching rejected proposal") ;;
  do* raise_if (present (oo_capability o) && negb (proposal_is proposal PS_APPROVED))
        (ValueError "execution capability requires an approved proposal") ;;
  do* match oo_execution o with
      | Some e =>
          do* Records.validate e ;;
          raise_if (negb (present (oo_capability o)) || negb (present proposal))
            (ValueError "paper execution requires its approved capability")
      | None => Ok tt
      end ;;
  do* raise_if (nonempty (oo_sensitivities o) && (negb (present (oo_execution o)) || negb (three_scenarios (oo_sensitivities o))))
        (ValueError "execution requires exactly three sensitivity scenarios") ;;
  do* raise_if (is_disposition o OD_EXECUTED && (negb (present (oo_execution o)) || present (oo_incident o)))
        (ValueError "executed outcome must have execution and no incident") ;;
  do* raise_if (is_disposition o OD_REJECTED && (negb (proposal_is proposal PS_REJECTED) || negb (present (oo_counterfactual o))))
        (ValueError "directional rejection requires a proposal and counterfactual") ;;
  Ok o.
