(* ===== verification/Service.v ===== *)
(** * The orchestration service: [maais/orchestration/service.py]

    One causal frame in, one authoritative outcome out: quarantine, halt,
    neutral, rejected with a counterfactual, or executed under a capability.

    The feature pipeline, the agents, the digests and the name-based identifier
    are parameters.  A service without authoriser or broker has [None] there. *)

From Stdlib Require Import ZArith QArith Lia Lqa List Bool String Ascii.
From stdpp Require Import base decidable list strings.
From S2P Require Import Prelude PyDecimal DecimalTheory DecimalOrder Domain Json Market MarketEvents Frames Filters Fills Orders Positions Account Exits Authorization Records Broker Sensitivity RiskOfficial Integrity EventLog Incidents Gates Admission Counterfactuals Manifest Agents DecisionOfficial Decisions Commands.

Local Open Scope Z_scope.

Record PaperBroker : Type := { pb_signing_key : string; pb_max_book_age : timedelta }.

Record OfficialOrchestrationService : Type := {
  sv_feature_computer : CausalMinuteFrame -> result (option FeatureSet);
  sv_agents : list BaseAgent;
  sv_durations : string -> nat -> Z;
  sv_authorizer : option string;
  sv_paper_broker : option PaperBroker;
  sv_decision_policy : option OfficialDecisionPolicy;
  sv_monitoring_policy : OfficialAdmissionPolicy;
  sv_risk_policy : OfficialRiskPolicy
}.

Record _GateFact : Type := {
  gf_gate_type : GateType;
  gf_raw_passed : bool;
  gf_reason_code : ReasonCode;
  gf_raw_reason : string;
  gf_input : pyval;
  gf_output : list (string * pyval)
}.

(** [tuple(GateType)]. *)
Definition all_gates : list GateType :=
  [GT_DATA_QUALITY; GT_REGIME_COMPATIBILITY; GT_CONSENSUS; GT_ADVERSARIAL; GT_EV; GT_ALPHA; GT_MONITORING; GT_DRAWDOWN;
   GT_CORRELATION; GT_PORTFOLIO_RISK; GT_LEVERAGE; GT_EXCHANGE_FILTERS; GT_PAPER_BROKER_CAPACITY].

Definition int_text (n : Z) : string := string_of_list_ascii (int_chars n).
Definition penum {A} `{StrEnum A} (x : A) : pyval := PEnum (enum_value x).

Definition _json_object (v : pyval) : result json :=
  let* normalized := freeze_json v in as_mapping "orchestration snapshot must be a JSON object" normalized.

(** A mapping given to a record, which freezes it. *)
Definition mapping (l : list (string * pyval)) : result json :=
  let* normalized := freeze_json (PDict l) in as_mapping "expected a JSON object" normalized.

(** [value.quantize(Decimal("0.000000000000000001"))]. *)
Definition quantize_18 (d : dec) : result dec :=
  let m := if (-18 <=? dexp d) then mant d * 10 ^ (dexp d + 18) else rhe (mant d) (10 ^ (-18 - dexp d)) in
  if prec <? ndigits m then Raise InvalidOperation else Ok (mkdec m (-18)).

Section Service.
Context (sha256_hex : string -> string) (hmac_sha256_hex : string -> string -> string) (uuid5 : string -> UUID).
Context (service : OfficialOrchestrationService).

Definition _id (kind : string) (parts : list string) : UUID :=
  uuid5 ("maais://" +:+ kind +:+ "/" +:+ String.concat "/" parts).

(** ** Records *)

Definition _cycle_id (o : OrchestrationCommand) : UUID := _id "decision-cycle" [uuid_str (cf_frame_id (oc_frame o))].

Definition blocking (o : OrchestrationCommand) : pyval := PSeq (map penum (ia_blocking_checks (oc_integrity o))).

Definition sorted_manifest (f : CausalMinuteFrame) : pydict SourceObservation := sort_by fst (cf_source_manifest f).

Definition _market_frame (o : OrchestrationCommand) : result MarketFrameRecord :=
  let frame := oc_frame o in
  let bar := Frames.cf_bar frame in
  let book_source := dict_get (cf_source_manifest frame) "order_book" in
  let closed_bar_source := dict_get (cf_source_manifest frame) "closed_bar" in
  let* bar_snapshot := _json_object (bar_to_dict bar) in
  let* orderbook_snapshot := _json_object (PDict
    [("bids", PSeq (map level_to_dict (cf_book_bids frame))); ("asks", PSeq (map level_to_dict (cf_book_asks frame)));
     ("best_bid", popt PDec (cf_best_bid frame)); ("best_ask", popt PDec (cf_best_ask frame));
     ("source_event_id", popt (fun s => PStr (so_event_id s)) book_source);
     ("source_content_hash", popt (fun s => PStr (so_content_hash s)) book_source)]) in
  let* source_manifest := _json_object (PDict (map (fun ns => (fst ns, source_to_dict (snd ns))) (sorted_manifest frame))) in
  let* source_sequence := _json_object (PDict (map (fun ns => (fst ns, PDict
    [("event_id", PStr (so_event_id (snd ns))); ("sequence", popt PInt (so_sequence (snd ns)));
     ("content_hash", PStr (so_content_hash (snd ns)))])) (sorted_manifest frame))) in
  let* quality_results := _json_object (PDict
    [("assessment_hash", PStr (ia_content_hash (oc_integrity o))); ("admission", penum (ia_admission (oc_integrity o)));
     ("blocking_checks", blocking o); ("results", PSeq (map result_to_dict (ia_results (oc_integrity o))))]) in
  MarketFrameRecord_post_init
    {| mr_id := cf_frame_id frame; mr_experiment_id := fk_experiment_id (cf_key frame); mr_symbol := fk_symbol (cf_key frame);
       mr_venue := match closed_bar_source with Some s => so_venue s | None => "unknown" end;
       mr_timeframe := fk_timeframe (cf_key frame); mr_bar_open_at := cb_bar_open_at bar;
       mr_bar_close_at := cb_bar_close_at bar; mr_observed_at := cf_cutoff_at frame; mr_open := cb_open bar;
       mr_high := cb_high bar; mr_low := cb_low bar; mr_close := cb_close bar; mr_volume := cb_volume bar;
       mr_best_bid := cf_best_bid frame; mr_best_ask := cf_best_ask frame; mr_mark_price := cf_mark_price frame;
       mr_index_price := cf_index_price frame; mr_funding_rate := cf_funding_rate frame;
       mr_primary_spot_price := cf_primary_spot_price frame; mr_secondary_venue_price := cf_secondary_venue_price frame;
       mr_bar_snapshot := bar_snapshot; mr_orderbook_snapshot := orderbook_snapshot; mr_source_manifest := source_manifest;
       mr_source_sequence := source_sequence; mr_quality_status := ia_quality_status (oc_integrity o);
       mr_quality_results := quality_results; mr_content_hash := cf_content_hash frame |}.

Definition _cycle (o : OrchestrationCommand) (cycle_id : UUID) (status : DecisionStatus) (reason : ReasonCode)
    (regime : string) (feature_snapshot : pyval) (direction : Direction) (disposition : Disposition)
  : result DecisionCycleRecord :=
  let key := cf_key (oc_frame o) in
  let* snapshot := _json_object feature_snapshot in
  let* version := feature_version o in
  DecisionCycleRecord_post_init
    {| dc_id := cycle_id; dc_experiment_id := fk_experiment_id key; dc_market_frame_id := cf_frame_id (oc_frame o);
       dc_strategy_version_id := fk_strategy_version_id key; dc_symbol := fk_symbol key; dc_timeframe := fk_timeframe key;
       dc_cycle_at := cb_bar_close_at (Frames.cf_bar (oc_frame o)); dc_regime := regime; dc_feature_snapshot := snapshot;
       dc_feature_version := version; dc_status := status; dc_direction := direction; dc_disposition := disposition;
       dc_reason_code := reason; dc_created_at := oc_evaluated_at o; dc_completed_at := oc_completed_at o |}.

Definition _neutral_summary (cycle_id : UUID) (reason : string) : result DecisionSummaryRecord :=
  let executed := [("executed", PBool false); ("reason", PStr reason)] in
  let* consensus := mapping [("direction", penum NEUTRAL); ("reason", PStr reason)] in
  let* other := mapping executed in
  DecisionSummaryRecord_post_init
    {| sm_decision_cycle_id := cycle_id; sm_consensus_direction := NEUTRAL; sm_consensus_probability := one_half;
       sm_consensus_confidence := dzero; sm_long_weight := dzero; sm_short_weight := dzero; sm_neutral_weight := dzero;
       sm_dissenters := []; sm_dissent_probability := dzero; sm_dissent_confidence := dzero; sm_challenge_blocked := false;
       sm_expected_gain := dzero; sm_expected_loss := dzero; sm_gross_ev := dzero; sm_funding_carry := dzero;
       sm_estimated_cost := dzero; sm_net_ev := dzero; sm_benchmark_return := dzero; sm_alpha_estimate := dzero;
       sm_consensus_snapshot := consensus; sm_adversarial_snapshot := other; sm_ev_snapshot := other;
       sm_cost_snapshot := other |}.

Definition _analysis_summary (cycle_id : UUID) (a : OfficialDecisionAnalysis) : result DecisionSummaryRecord :=
  DecisionSummaryRecord_post_init
    {| sm_decision_cycle_id := cycle_id; sm_consensus_direction := da_direction a;
       sm_consensus_probability := da_consensus_probability a; sm_consensus_confidence := da_consensus_confidence a;
       sm_long_weight := da_long_weight a; sm_short_weight := da_short_weight a; sm_neutral_weight := da_neutral_weight a;
       sm_dissenters := da_dissenters a; sm_dissent_probability := da_dissent_probability a;
       sm_dissent_confidence := da_dissent_confidence a; sm_challenge_blocked := da_challenge_blocked a;
       sm_expected_gain := da_expected_gain a; sm_expected_loss := da_expected_loss a; sm_gross_ev := da_gross_ev a;
       sm_funding_carry := da_funding_carry a; sm_estimated_cost := da_estimated_cost a; sm_net_ev := da_net_ev a;
       sm_benchmark_return := da_benchmark_return a; sm_alpha_estimate := da_alpha_estimate a;
       sm_consensus_snapshot := da_consensus_snapshot a; sm_adversarial_snapshot := da_adversarial_snapshot a;
       sm_ev_snapshot := da_ev_snapshot a; sm_cost_snapshot := da_cost_snapshot a |}.

Definition _gate (cycle_id : UUID) (gate_type : GateType) (sequence : Z) (passed : bool) (reason : ReasonCode)
    (input output : pyval) (o : OrchestrationCommand) : result GateEvaluationRecord :=
  let* input := _json_object input in
  let* output := _json_object output in
  GateEvaluationRecord_post_init
    {| gr_id := _id "gate-evaluation" [uuid_str cycle_id; int_text sequence; enum_value gate_type];
       gr_decision_cycle_id := cycle_id; gr_gate_type := gate_type; gr_sequence := sequence; gr_passed := passed;
       gr_reason_code := reason; gr_input := input; gr_output := output; gr_evaluated_at := oc_completed_at o;
       gr_duration_ms := 0 |}.

Definition _incident (o : OrchestrationCommand) (component reason : string) (evidence : pyval) (severity : IncidentSeverity)
  : result IncidentState :=
  let key := component +:+ ":" +:+ reason +:+ ":" +:+ uuid_str (cf_frame_id (oc_frame o)) in
  incident_create (_id "incident" [uuid_str (em_experiment_id (oc_manifest o)); key]) (em_experiment_id (oc_manifest o)) key
    severity component reason evidence true (oc_completed_at o).

(** A row of a cycle in which no agent ran. *)
Definition idle_agent (o : OrchestrationCommand) (cycle_id : UUID) (reason_code : ReasonCode) (input explanation : list (string * pyval))
    (e : AgentManifestEntry) : result AgentEvaluationRecord :=
  let* version_id := of_option (LookupError (ae_agent_name e)) (dict_get (oc_agent_version_ids o) (ae_agent_name e)) in
  let* input := mapping input in
  let* explanation := mapping explanation in
  AgentEvaluationRecord_post_init
    {| ar_id := _id "agent-evaluation" [uuid_str cycle_id; ae_agent_name e]; ar_decision_cycle_id := cycle_id;
       ar_agent_version_id := version_id; ar_agent_name := ae_agent_name e; ar_compatible := true;
       ar_enabled := ae_enabled e; ar_weight := ae_weight e; ar_direction := NEUTRAL; ar_probability := one_half;
       ar_confidence := dzero; ar_risk := done; ar_input_snapshot := input;
       ar_reason_codes := if negb (ae_enabled e) then [reason_code; RC_DISABLED_AGENT] else [reason_code];
       ar_explanation := explanation; ar_duration_ms := 0; ar_created_at := oc_evaluated_at o |}.

Definition record_reason (value : string) : ReasonCode :=
  match dict_get [("agent_evaluated", RC_ACCEPTED); ("disabled_agent", RC_DISABLED_AGENT);
                  ("incompatible_regime", RC_INCOMPATIBLE_REGIME); ("agent_exception", RC_AGENT_FAILED);
                  ("agent_missing", RC_AGENT_FAILED); ("agent_duplicate", RC_AGENT_FAILED);
                  ("agent_registry_invalid", RC_AGENT_FAILED)] value with
  | Some r => r
  | None => RC_AGENT_FAILED
  end.
Definition _record_reasons (values : list string) : list ReasonCode := map record_reason values.

Definition matrix_record (o : OrchestrationCommand) (cycle_id : UUID) (v : AgentEvaluation) : result AgentEvaluationRecord :=
  let* version_id := of_option (LookupError (av_agent_name v)) (dict_get (oc_agent_version_ids o) (av_agent_name v)) in
  let* explanation := mapping
    [("voting", PBool (av_voting v)); ("maturity", penum (av_maturity v)); ("proxy_label", popt PStr (av_proxy_label v));
     ("reason_codes", PSeq (map PStr (av_reason_codes v))); ("failure_reason", popt PStr (av_failure_reason v))] in
  AgentEvaluationRecord_post_init
    {| ar_id := _id "agent-evaluation" [uuid_str cycle_id; av_agent_name v]; ar_decision_cycle_id := cycle_id;
       ar_agent_version_id := version_id; ar_agent_name := av_agent_name v; ar_compatible := av_compatible v;
       ar_enabled := av_enabled v; ar_weight := av_weight v; ar_direction := os_direction (av_output v);
       ar_probability := os_probability (av_output v); ar_confidence := os_confidence (av_output v);
       ar_risk := os_risk (av_output v); ar_input_snapshot := av_input_contributions v;
       ar_reason_codes := _record_reasons (av_reason_codes v); ar_explanation := explanation;
       ar_duration_ms := av_duration_ms v; ar_created_at := oc_evaluated_at o |}.

Definition _matrix_records (o : OrchestrationCommand) (cycle_id : UUID) (m : AgentEvaluationMatrix)
  : result (list AgentEvaluationRecord) := mapM (matrix_record o cycle_id) (am_evaluations m).

Definition outcome_of (disposition : OrchestrationDisposition) (b : DecisionBundle) (incident : option IncidentState)
  : OrchestrationOutcome :=
  {| oo_disposition := disposition; oo_bundle := b; oo_incident := incident; oo_counterfactual := None;
     oo_capability := None; oo_execution := None; oo_sensitivities := [] |}.

(** ** Frames that do not reach a decision *)

Definition _quarantined (o : OrchestrationCommand) : result OrchestrationOutcome :=
  let cycle_id := _cycle_id o in
  let integrity := oc_integrity o in
  let expected_warmup := is_expected_warmup integrity in
  let reason_code := if expected_warmup then RC_INSUFFICIENT_HISTORY else RC_DATA_QUALITY_FAILED in
  let feature_execution := if expected_warmup then "skipped_due_to_history_warmup" else "skipped_due_to_data_quality" in
  let* agents := mapM (fun e => idle_agent o cycle_id reason_code
    [("frame_content_hash", PStr (cf_content_hash (oc_frame o))); ("integrity_hash", PStr (ia_content_hash integrity));
     ("feature_execution", PStr feature_execution)]
    [("admission", penum (ia_admission integrity)); ("blocking_checks", blocking o);
     ("expected_warmup", PBool expected_warmup); ("maturity", penum (ae_maturity e)); ("voting", PBool false)] e)
    (em_agent_versions (oc_manifest o)) in
  let* frame := _market_frame o in
  let* cycle := _cycle o cycle_id DS_QUARANTINED reason_code "quarantined"
    (PDict [("execution", PStr feature_execution); ("expected_warmup", PBool expected_warmup)]) NEUTRAL DP_NEUTRAL in
  let* summary := _neutral_summary cycle_id (if expected_warmup then "history_warmup" else "data_quality_quarantine") in
  let* gate := _gate cycle_id GT_DATA_QUALITY 1 false reason_code
    (PDict [("integrity_hash", PStr (ia_content_hash integrity)); ("expected_warmup", PBool expected_warmup)])
    (PDict [("admission", penum (ia_admission integrity)); ("blocking_checks", blocking o)]) o in
  let bundle := {| db_market_frame := frame; db_cycle := cycle; db_agents := agents; db_summary := summary;
                   db_gates := [gate]; db_proposal := None |} in
  let* incident :=
    if expected_warmup then Ok None
    else
      let* i := _incident o "market_data" "market_frame_quarantined" (PDict
        [("frame_id", PUuid (cf_frame_id (oc_frame o))); ("frame_content_hash", PStr (cf_content_hash (oc_frame o)));
         ("integrity_hash", PStr (ia_content_hash integrity)); ("blocking_checks", blocking o);
         ("results", PSeq (map result_to_dict (ia_results integrity)))]) ERROR in
      Ok (Some i) in
  OrchestrationOutcome_post_init (outcome_of OD_QUARANTINED bundle incident).

Definition admitted_gate (o : OrchestrationCommand) (cycle_id : UUID) : result GateEvaluationRecord :=
  _gate cycle_id GT_DATA_QUALITY 1 true RC_ACCEPTED
    (PDict [("integrity_hash", PStr (ia_content_hash (oc_integrity o)))])
    (PDict [("admission", penum (ia_admission (oc_integrity o)))]) o.

Definition items_of (j : json) : list (string * pyval) :=
  match j with JObj items => map (fun kv => (fst kv, thaw (snd kv))) items | _ => [] end.

(** [{**first, **second}]. *)
Definition dict_update (first second : list (string * pyval)) : list (string * pyval) :=
  fold_left (fun d kv => dict_set d (fst kv) (snd kv)) second first.

Definition _neutral_halt (o : OrchestrationCommand) (reason_code : ReasonCode) (component incident_reason : string)
    (feature_snapshot : pyval) : result OrchestrationOutcome :=
  let cycle_id := _cycle_id o in
  let* normalized := _json_object feature_snapshot in
  let* agents := mapM (idle_agent o cycle_id reason_code (items_of normalized)
    [("voting", PBool false); ("failure_reason", PStr incident_reason)]) (em_agent_versions (oc_manifest o)) in
  let* frame := _market_frame o in
  let* cycle := _cycle o cycle_id DS_REJECTED reason_code "unavailable" (thaw normalized) NEUTRAL DP_NEUTRAL in
  let* summary := _neutral_summary cycle_id incident_reason in
  let* data_quality := admitted_gate o cycle_id in
  let* consensus := _gate cycle_id GT_CONSENSUS 2 false reason_code (thaw normalized)
    (PDict [("reason", PStr incident_reason)]) o in
  let bundle := {| db_market_frame := frame; db_cycle := cycle; db_agents := agents; db_summary := summary;
                   db_gates := [data_quality; consensus]; db_proposal := None |} in
  let* incident := _incident o component incident_reason
    (PDict (dict_update [("decision_cycle_id", PUuid cycle_id)] (items_of normalized))) CRITICAL in
  OrchestrationOutcome_post_init (outcome_of OD_HALTED bundle (Some incident)).

Definition _feature_failure (o : OrchestrationCommand) (reason : string) : result OrchestrationOutcome :=
  _neutral_halt o RC_INSUFFICIENT_HISTORY "features" reason (PDict [("failure_reason", PStr reason)]).

Definition failures_value (failures : list AgentFailure) : pyval :=
  PSeq (map (fun f => PDict [("agent_name", PStr (af_agent_name f)); ("reason_code", PStr (af_reason_code f));
                             ("details", PStr (af_details f))]) failures).

Definition regime_or (f : FeatureSet) (default : string) : string :=
  match fs_regime f with Some r => if empty r then default else r | None => default end.

Definition _agent_failure (o : OrchestrationCommand) (features : FeatureSet) (m : AgentEvaluationMatrix)
    (failures : list AgentFailure) : result OrchestrationOutcome :=
  let cycle_id := _cycle_id o in
  let* records := _matrix_records o cycle_id m in
  let* frame := _market_frame o in
  let* cycle := _cycle o cycle_id DS_REJECTED RC_AGENT_FAILED (regime_or features "unknown") (features_to_dict features)
    NEUTRAL DP_NEUTRAL in
  let* summary := _neutral_summary cycle_id "mandatory_agent_failure" in
  let* data_quality := admitted_gate o cycle_id in
  let* digest := matrix_hash sha256_hex m in
  let* consensus := _gate cycle_id GT_CONSENSUS 2 false RC_AGENT_FAILED (PDict [("matrix_hash", PStr digest)])
    (PDict [("failures", failures_value failures)]) o in
  let bundle := {| db_market_frame := frame; db_cycle := cycle; db_agents := records; db_summary := summary;
                   db_gates := [data_quality; consensus]; db_proposal := None |} in
  let* incident := _incident o "agents" "mandatory_agent_failure" (PDict
    [("decision_cycle_id", PUuid cycle_id); ("matrix_hash", PStr digest); ("failures", failures_value failures)]) CRITICAL in
  OrchestrationOutcome_post_init (outcome_of OD_HALTED bundle (Some incident)).

(** ** Prices, sizes and gates of a decision *)

Definition _executable_price (o : OrchestrationCommand) : result dec :=
  let frame := oc_frame o in
  let midpoint :=
    match cf_best_bid frame, cf_best_ask frame with
    | Some bid, Some ask =>
        if (dzero <? bid)%dec && (bid <? ask)%dec then ddiv (bid + ask)%dec (dint 2)
        else Raise (ValueError "admitted frame has no executable mark or midpoint")
    | _, _ => Raise (ValueError "admitted frame has no executable mark or midpoint")
    end in
  match cf_mark_price frame with
  | Some mark => if (dzero <? mark)%dec then Ok mark else midpoint
  | None => midpoint
  end.

Definition _side (d : Direction) : result PaperOrderSide :=
  match d with
  | LONG => Ok BUY
  | SHORT => Ok SELL
  | NEUTRAL => Raise (ValueError "neutral direction has no paper order side")
  end.

Definition _stop_price (d : Direction) (price loss : dec) : dec :=
  if bool_decide (d = LONG) then (price * (done - loss))%dec else (price * (done + loss))%dec.
Definition _target_price (d : Direction) (price gain : dec) : dec :=
  if bool_decide (d = LONG) then (price * (done + gain))%dec else (price * (done - gain))%dec.

Definition one_percent : dec := mkdec 1 (-2).
Definition _research_loss (a : OfficialDecisionAnalysis) : result dec :=
  quantize_18 (if (dzero <? da_expected_loss a)%dec then da_expected_loss a else one_percent).
Definition _research_gain (a : OfficialDecisionAnalysis) : result dec :=
  quantize_18 (if (dzero <? da_expected_gain a)%dec then da_expected_gain a else one_percent).

Definition _research_quantity (c : EntryDecisionContext) (executable_price : dec) : result dec :=
  let filters := en_exchange_filters c in
  let target_notional := dmax (ef_minimum_notional filters) (equity (en_account c) * mkdec 1 (-3))%dec in
  let* raw := ddiv target_notional executable_price in
  let raw := dmin (dmax (ef_minimum_quantity filters) raw) (ef_maximum_quantity filters) in
  let* quantity := quantize_quantity filters raw in
  Ok (if (quantity <=? dzero)%dec then ef_minimum_quantity filters else quantity).

Definition risk_request (o : OrchestrationCommand) (c : EntryDecisionContext) (a : OfficialDecisionAnalysis)
    (executable_price : dec) : OfficialRiskRequest :=
  {| rr_symbol := fk_symbol (cf_key (oc_frame o)); rr_direction := da_direction a; rr_capital := equity (en_account c);
     rr_executable_price := executable_price;
     rr_stop_price := _stop_price (da_direction a) executable_price (da_expected_loss a);
     rr_p_win := da_consensus_probability a; rr_expected_gain_fraction := da_expected_gain a;
     rr_expected_loss_fraction := da_expected_loss a; rr_entry_fee_fraction := en_taker_fee_rate c;
     rr_leverage := ac_leverage (en_account c); rr_drawdown := en_drawdown c; rr_open_positions := en_open_positions c;
     rr_correlations := en_correlations c; rr_evaluated_at := oc_evaluated_at o |}.

Definition _risk_decision (o : OrchestrationCommand) (c : EntryDecisionContext) (a : OfficialDecisionAnalysis)
    (executable_price : dec) : result (option OfficialRiskDecision) :=
  if (da_expected_loss a <=? dzero)%dec || (da_expected_gain a <=? dzero)%dec then Ok None
  else
    let* request := OfficialRiskRequest_post_init (risk_request o c a executable_price) in
    let* d := RiskOfficial.evaluate sha256_hex (sv_risk_policy service) request in
    Ok (Some d).

(** [next(item for item in decision.gates if item.check is check)]. *)
Definition risk_gate (d : OfficialRiskDecision) (c : RiskCheck) : result RiskGateResult :=
  of_option (RuntimeError "StopIteration") (List.find (fun g => bool_decide (gt_check g = c)) (rd_gates d)).

Definition _risk_check (d : option OfficialRiskDecision) (c : RiskCheck) : result (bool * string) :=
  match d with
  | None => Ok (false, "risk_decision_unavailable")
  | Some d => let* g := risk_gate d c in Ok (bool_decide (gt_status g = PASSED), gt_reason_code g)
  end.

Fixpoint _first_risk_reason (d : option OfficialRiskDecision) (checks : list RiskCheck) : result string :=
  match checks with
  | [] => Ok "portfolio_risk_within_limit"
  | c :: checks' =>
      let* pr := _risk_check d c in if fst pr then _first_risk_reason d checks' else Ok (snd pr)
  end.

Definition _risk_gate_output (d : option OfficialRiskDecision) (c : RiskCheck) : result (list (string * pyval)) :=
  match d with
  | None => Ok [("status", penum NOT_APPLICABLE); ("reason", PStr "risk_unavailable")]
  | Some d =>
      let* g := risk_gate d c in
      Ok [("status", penum (gt_status g)); ("reason", PStr (gt_reason_code g)); ("details", thaw (gt_details g));
          ("risk_decision_hash", PStr (rd_content_hash d))]
  end.

Definition _monitoring_reason (d : option MonitoringAdmissionDecision) : string :=
  match d with
  | None => "monitoring_context_unavailable"
  | Some d =>
      match List.find (fun g => negb (bool_decide (ag_status g = PASSED))) (md_gates d) with
      | Some g => ag_reason_code g
      | None => "monitoring_admitted"
      end
  end.

Definition portfolio_checks : list RiskCheck := [KELLY; PRICE_AND_STOP; TRADE_RISK_AT_STOP; PORTFOLIO_LOSS_AT_STOP; GROSS_NOTIONAL].

(** [all(self._risk_check(risk, check)[0] for check in checks)]. *)
Fixpoint all_risk_checks (d : OfficialRiskDecision) (checks : list RiskCheck) : result bool :=
  match checks with
  | [] => Ok true
  | c :: checks' => let* pr := _risk_check (Some d) c in if fst pr then all_risk_checks d checks' else Ok false
  end.

Record capacity : Type := { cy_passed : bool; cy_reason : string; cy_required : dec; cy_free_margin : dec }.

Definition dependencies_present : bool := present (sv_authorizer service) && present (sv_paper_broker service).

(** The position of the symbol does not oppose the direction. *)
Definition direction_compatible (account : AccountState) (symbol : string) (d : Direction) : bool :=
  match dict_get (ac_positions account) symbol with
  | Some p => is_flat p || bool_decide (ps_side p = d)
  | None => true
  end.

Definition broker_capacity (o : OrchestrationCommand) (a : OfficialDecisionAnalysis) (prepared : option PreparedOrder)
  : result capacity :=
  match oc_entry_context o, prepared with
  | Some c, Some p =>
      let* margin := ddiv (pr_notional p) (dint (ac_leverage (en_account c))) in
      let required := (margin + pr_notional p * en_taker_fee_rate c)%dec in
      let* free := free_margin (en_account c) in
      let compatible := direction_compatible (en_account c) (fk_symbol (cf_key (oc_frame o))) (da_direction a) in
      Ok {| cy_passed := dependencies_present && nonempty (en_books c) && compatible && (required <=? free)%dec;
            cy_reason :=
              if negb dependencies_present then "paper_execution_dependency_missing"
              else if negb (nonempty (en_books c)) then "eligible_book_stream_missing"
              else if negb compatible then "existing_position_direction_conflict"
              else if (free <? required)%dec then "paper_account_capacity_exceeded"
              else "paper_broker_capacity_available";
            cy_required := required; cy_free_margin := free |}
  | Some c, None =>
      let* free := free_margin (en_account c) in
      Ok {| cy_passed := false; cy_reason := "prepared_order_unavailable"; cy_required := dzero; cy_free_margin := free |}
  | None, _ =>
      Ok {| cy_passed := false; cy_reason := "prepared_order_unavailable"; cy_required := dzero; cy_free_margin := dzero |}
  end.

Definition reason_if (passed : bool) (failure : ReasonCode) : ReasonCode := if passed then RC_ACCEPTED else failure.

Definition fact (gate_type : GateType) (passed : bool) (failure : ReasonCode) (raw_reason : string) (input : pyval)
    (output : list (string * pyval)) : _GateFact :=
  {| gf_gate_type := gate_type; gf_raw_passed := passed; gf_reason_code := reason_if passed failure;
     gf_raw_reason := raw_reason; gf_input := input; gf_output := output |}.

Definition filter_summary (f : ExchangeFilterSnapshot) : pyval := PDict
  [("symbol", PStr (ef_symbol f)); ("status", PStr (ef_status f)); ("captured_at", PTime (ef_captured_at f));
   ("quantity_step", PDec (ef_quantity_step f)); ("minimum_quantity", PDec (ef_minimum_quantity f));
   ("maximum_quantity", PDec (ef_maximum_quantity f)); ("minimum_notional", PDec (ef_minimum_notional f))].

Definition _gate_facts (o : OrchestrationCommand) (m : AgentEvaluationMatrix) (a : OfficialDecisionAnalysis)
    (monitoring : option MonitoringAdmissionDecision) (risk : option OfficialRiskDecision) (prepared : option PreparedOrder)
    (filter_reason : string) : result (list _GateFact) :=
  let context := oc_entry_context o in
  let voting := List.filter av_voting (am_evaluations m) in
  let monitored := match monitoring with Some d => md_allowed d | None => false end in
  let risk_input := match risk with Some d => thaw (rd_input_snapshot d) | None => PDict [] end in
  let risk_gates := match risk with Some d => map gate_dict (rd_gates d) | None => [] end in
  let leverage := option_map (fun c => ac_leverage (en_account c)) context in
  let* drawdown := _risk_check risk DRAWDOWN in
  let* correlation := _risk_check risk CORRELATION in
  let* portfolio_passed := match risk with Some d => all_risk_checks d portfolio_checks | None => Ok false end in
  let* portfolio_reason := _first_risk_reason risk portfolio_checks in
  let* margin := _risk_check risk MARGIN in
  let leverage_is_one := match leverage with Some l => l =? 1 | None => false end in
  let leverage_passed := leverage_is_one && fst margin in
  let leverage_reason :=
    if leverage_passed then "leverage_and_margin_within_limit"
    else if present leverage && negb leverage_is_one then "paper_leverage_above_conservative_limit" else snd margin in
  let* cap := broker_capacity o a prepared in
  let* digest := matrix_hash sha256_hex m in
  let* drawdown_output := _risk_gate_output risk DRAWDOWN in
  let* correlation_output := _risk_gate_output risk CORRELATION in
  let* margin_output := _risk_gate_output risk MARGIN in
  Ok
    [fact GT_DATA_QUALITY true RC_ACCEPTED "frame_admitted" (PDict [("integrity_hash", PStr (ia_content_hash (oc_integrity o)))])
       [("admission", penum (ia_admission (oc_integrity o)))];
     fact GT_REGIME_COMPATIBILITY (nonempty voting) RC_INCOMPATIBLE_REGIME
       (if nonempty voting then "compatible_voting_agents_present" else "no_compatible_voting_agents")
       (PDict [("regime", popt PStr (am_regime m)); ("matrix_hash", PStr digest)])
       [("voting_agents", PSeq (map (fun v => PStr (av_agent_name v)) voting))];
     fact GT_CONSENSUS (da_consensus_passed a) RC_NEUTRAL_CONSENSUS (da_consensus_reason a) (thaw (da_consensus_snapshot a))
       [("direction", penum (da_direction a))];
     fact GT_ADVERSARIAL (negb (da_challenge_blocked a)) RC_ADVERSARIAL_BLOCKED
       (if da_challenge_blocked a then "adversarial_challenge_blocked" else "adversarial_challenge_clear")
       (thaw (da_adversarial_snapshot a)) [("challenge_blocked", PBool (da_challenge_blocked a))];
     fact GT_EV (da_ev_positive a) RC_NON_POSITIVE_EV (da_ev_reason a) (thaw (da_ev_snapshot a)) [("net_ev", PDec (da_net_ev a))];
     fact GT_ALPHA (da_alpha_positive a) RC_ALPHA_FAILED (da_alpha_reason a) (thaw (da_ev_snapshot a))
       [("benchmark_available", PBool (da_benchmark_available a)); ("benchmark_return", PDec (da_benchmark_return a));
        ("alpha_estimate", PDec (da_alpha_estimate a))];
     fact GT_MONITORING monitored RC_MONITORING_UNHEALTHY (_monitoring_reason monitoring)
       (match monitoring with Some d => thaw (md_input_snapshot d) | None => PDict [] end)
       [("decision_hash", popt (fun d => PStr (md_content_hash d)) monitoring);
        ("gates", PSeq (match monitoring with Some d => map gate_to_dict (md_gates d) | None => [] end))];
     fact GT_DRAWDOWN (fst drawdown) RC_DRAWDOWN_HALT (snd drawdown) risk_input drawdown_output;
     fact GT_CORRELATION (fst correlation) RC_CORRELATION_BLOCKED (snd correlation) risk_input correlation_output;
     fact GT_PORTFOLIO_RISK portfolio_passed RC_PORTFOLIO_RISK_EXCEEDED portfolio_reason risk_input
       [("risk_decision_hash", popt (fun d => PStr (rd_content_hash d)) risk); ("gates", PSeq risk_gates)];
     fact GT_LEVERAGE leverage_passed RC_LEVERAGE_REJECTED leverage_reason
       (PDict [("account_leverage", popt PInt leverage); ("conservative_limit", PInt 1)]) margin_output;
     fact GT_EXCHANGE_FILTERS (present prepared) RC_EXCHANGE_FILTER_REJECTED filter_reason
       (PDict [("filter_snapshot", popt (fun c => filter_summary (en_exchange_filters c)) context)])
       [("quantity", popt (fun p => PDec (pr_quantity p)) prepared); ("notional", popt (fun p => PDec (pr_notional p)) prepared)];
     fact GT_PAPER_BROKER_CAPACITY (cy_passed cap) RC_BROKER_CAPACITY_REJECTED (cy_reason cap)
       (PDict [("required_capacity", PDec (cy_required cap)); ("free_margin", PDec (cy_free_margin cap));
               ("execution_dependencies_present", PBool dependencies_present);
               ("eligible_books", PInt (match context with Some c => Z.of_nat (length (en_books c)) | None => 0 end))])
       [("capacity_available", PBool (cy_passed cap))]].

(** The loop of [_gate_records]: the records from [sequence] on, given the gate that blocked. *)
Fixpoint gate_loop (o : OrchestrationCommand) (cycle_id : UUID) (sequence : Z) (blocking_gate : option GateType)
    (facts : list _GateFact) : result (list GateEvaluationRecord) :=
  match facts with
  | [] => Ok []
  | f :: facts' =>
      let free := negb (present blocking_gate) in
      let passed := free && gf_raw_passed f in
      let output := dict_update (gf_output f)
        [("raw_passed", PBool (gf_raw_passed f)); ("raw_reason", PStr (gf_raw_reason f));
         ("effective_status", PStr (if passed then "passed" else if free then "failed" else "not_applicable"));
         ("blocking_gate", popt penum blocking_gate)] in
      let* record := _gate cycle_id (gf_gate_type f) sequence passed (if free then gf_reason_code f else RC_PRIOR_GATE_FAILED)
                       (gf_input f) (PDict output) o in
      let blocking_gate := if free && negb (gf_raw_passed f) then Some (gf_gate_type f) else blocking_gate in
      let* records := gate_loop o cycle_id (sequence + 1) blocking_gate facts' in
      Ok (record :: records)
  end.

Definition _gate_records (o : OrchestrationCommand) (cycle_id : UUID) (facts : list _GateFact)
  : result (list GateEvaluationRecord) :=
  do* raise_if (negb (bool_decide (map gf_gate_type facts = all_gates)))
        (ValueError "official orchestration must evaluate every ordered gate") ;;
  gate_loop o cycle_id 1 None facts.

(** ** Admitted frames *)

Definition _neutral (o : OrchestrationCommand) (features : FeatureSet) (m : AgentEvaluationMatrix)
    (a : OfficialDecisionAnalysis) : result OrchestrationOutcome :=
  let cycle_id := _cycle_id o in
  let* facts := _gate_facts o m a None None None "direction_is_neutral" in
  let* gates := _gate_records o cycle_id facts in
  let* frame := _market_frame o in
  let* cycle := _cycle o cycle_id DS_COMPLETED RC_NEUTRAL_CONSENSUS (regime_or features "unknown") (features_to_dict features)
    NEUTRAL DP_NEUTRAL in
  let* agents := _matrix_records o cycle_id m in
  let* summary := _analysis_summary cycle_id a in
  OrchestrationOutcome_post_init (outcome_of OD_NEUTRAL
    {| db_market_frame := frame; db_cycle := cycle; db_agents := agents; db_summary := summary; db_gates := gates;
       db_proposal := None |} None).

(** The order the exchange would accept, or why not. *)
Definition prepare_entry (c : EntryDecisionContext) (a : OfficialDecisionAnalysis) (risk : option OfficialRiskDecision)
    (executable_price : dec) : result (option PreparedOrder * string) :=
  match risk with
  | Some d =>
      if (dzero <? rd_quantity d)%dec then
        let* side := _side (da_direction a) in
        match prepare (en_exchange_filters c) side MARKET (rd_quantity d) (rd_quantity d) (Some executable_price) (rd_notional d) with
        | Ok p => Ok (Some p, "exchange_filters_passed")
        | Raise (FilterRejection reason) => Ok (None, reason)
        | Raise e => Raise e
        end
      else Ok (None, "risk_quantity_unavailable")
  | None => Ok (None, "risk_quantity_unavailable")
  end.

Definition all_passed (gates : list GateEvaluationRecord) : bool := forallb gr_passed gates.

(** The gates up to and with the first that did not pass. *)
Fixpoint prior_chain (gates : list GateEvaluationRecord) : list GateType :=
  match gates with
  | [] => []
  | g :: gates' => gr_gate_type g :: if gr_passed g then prior_chain gates' else []
  end.

Definition rejection (gates : list GateEvaluationRecord) : option GateEvaluationRecord :=
  List.find (fun g => negb (gr_passed g)) gates.

Definition gate_chain_hash (gates : list GateEvaluationRecord) : result string :=
  let* dicts := mapM (fun g => record_to_dict (gate_tree g)) gates in
  content_hash sha256_hex (PSeq (map thaw dicts)).

(** The quantities and prices of a directional decision. *)
Record terms : Type := {
  tm_chain_hash : string;
  tm_quantity : dec;
  tm_loss : dec;
  tm_gain : dec;
  tm_expires_at : datetime
}.

Definition entry_terms (o : OrchestrationCommand) (c : EntryDecisionContext) (a : OfficialDecisionAnalysis)
    (prepared : option PreparedOrder) (gates : list GateEvaluationRecord) (executable_price : dec) : result terms :=
  let* chain_hash := gate_chain_hash gates in
  let* quantity := match prepared with Some p => Ok (pr_quantity p) | None => _research_quantity c executable_price end in
  let* loss := _research_loss a in
  let* gain := _research_gain a in
  Ok {| tm_chain_hash := chain_hash; tm_quantity := quantity; tm_loss := loss; tm_gain := gain;
        tm_expires_at := dt_add (oc_completed_at o) (en_proposal_ttl c) |}.

Definition proposal_id_of (cycle_id : UUID) : UUID := _id "trade-proposal" [uuid_str cycle_id].

Definition final_reason (gates : list GateEvaluationRecord) : ReasonCode :=
  match rejection gates with Some g => gr_reason_code g | None => RC_ACCEPTED end.

Definition trade_proposal (o : OrchestrationCommand) (c : EntryDecisionContext) (a : OfficialDecisionAnalysis)
    (risk : option OfficialRiskDecision) (prepared : option PreparedOrder) (gates : list GateEvaluationRecord)
    (executable_price : dec) (t : terms) : result TradeProposalRecord :=
  let cycle_id := _cycle_id o in
  let approved := all_passed gates in
  let direction := da_direction a in
  let* side := _side direction in
  let* entry_policy := _json_object (PDict
    [("order_type", penum MARKET); ("executable_price", PDec executable_price); ("side", penum side);
     ("gate_chain_hash", PStr (tm_chain_hash t)); ("filter_captured_at", PTime (ef_captured_at (en_exchange_filters c)))]) in
  let* exit_policy := _json_object (PDict
    [("stop_price", PDec (_stop_price direction executable_price (tm_loss t)));
     ("target_price", PDec (_target_price direction executable_price (tm_gain t)));
     ("expected_loss_fraction", PDec (tm_loss t)); ("expected_gain_fraction", PDec (tm_gain t));
     ("expected_move_source", PStr (if (dzero <? da_expected_loss a)%dec then "atr" else "research_only_fallback"))]) in
  let* sizing := _json_object (PDict
    [("risk_decision_hash", popt (fun d => PStr (rd_content_hash d)) risk);
     ("risk_input", popt (fun d => thaw (rd_input_snapshot d)) risk);
     ("risk_gates", PSeq (match risk with Some d => map gate_dict (rd_gates d) | None => [] end));
     ("prepared_quantity", popt (fun p => PDec (pr_quantity p)) prepared); ("research_quantity", PDec (tm_quantity t))]) in
  TradeProposalRecord_post_init
    {| tp_id := proposal_id_of cycle_id; tp_decision_cycle_id := cycle_id; tp_experiment_id := em_experiment_id (oc_manifest o);
       tp_symbol := fk_symbol (cf_key (oc_frame o)); tp_direction := direction;
       tp_status := if approved then PS_APPROVED else PS_REJECTED; tp_reason_code := final_reason gates;
       tp_proposed_at := oc_completed_at o; tp_expires_at := tm_expires_at t; tp_entry_policy := entry_policy;
       tp_exit_policy := exit_policy; tp_sizing_snapshot := sizing;
       tp_approved_quantity := if approved then Some (tm_quantity t) else None;
       tp_approved_notional := if approved then Some (tm_quantity t * executable_price)%dec else None;
       tp_risk_at_stop := match risk with
                          | Some d => if approved && (dzero <? rd_risk_at_stop d)%dec then Some (rd_risk_at_stop d) else None
                          | None => None
                          end |}.

Definition _rejected (o : OrchestrationCommand) (c : EntryDecisionContext) (a : OfficialDecisionAnalysis)
    (bundle : DecisionBundle) (executable_price : dec) (t : terms) : result OrchestrationOutcome :=
  let cycle_id := _cycle_id o in
  let gates := db_gates bundle in
  let* gate := of_option (RuntimeError "rejected directional proposal has no rejection gate") (rejection gates) in
  let* counterfactual := counterfactual_create (_id "counterfactual" [uuid_str (proposal_id_of cycle_id)])
    (em_experiment_id (oc_manifest o)) (proposal_id_of cycle_id) cycle_id (fk_symbol (cf_key (oc_frame o))) (da_direction a)
    (gr_gate_type gate) (prior_chain gates) (tm_quantity t) executable_price
    (dt_add (oc_completed_at o) (en_execution_latency c)) (en_taker_fee_rate c) (tm_loss t) (tm_gain t) (oc_completed_at o) in
  OrchestrationOutcome_post_init
    {| oo_disposition := OD_REJECTED; oo_bundle := bundle; oo_incident := None; oo_counterfactual := Some counterfactual;
       oo_capability := None; oo_execution := None; oo_sensitivities := [] |}.

Definition entry_command (o : OrchestrationCommand) (c : EntryDecisionContext) (side : PaperOrderSide) (quantity price : dec)
    (t : terms) (position_id : UUID) (capability : ExecutionCapability) : result MarketEntryCommand :=
  let cycle_id := _cycle_id o in
  let proposal_id := proposal_id_of cycle_id in
  MarketEntryCommand_post_init
    {| ec_order_id := _id "paper-order" [uuid_str proposal_id; "entry"]; ec_fill_id := _id "paper-fill" [uuid_str proposal_id; "entry"];
       ec_position_id := position_id; ec_exit_plan_id := _id "exit-plan" [uuid_str position_id];
       ec_experiment_id := em_experiment_id (oc_manifest o); ec_decision_cycle_id := cycle_id; ec_proposal_id := proposal_id;
       ec_gate_chain_hash := tm_chain_hash t; ec_client_order_id := "paper-" +:+ uuid_str proposal_id;
       ec_symbol := fk_symbol (cf_key (oc_frame o)); ec_side := side; ec_requested_quantity := quantity;
       ec_approved_quantity := quantity; ec_approved_notional := (quantity * price)%dec; ec_decision_executable_price := price;
       ec_decision_completed_at := oc_completed_at o; ec_execution_latency := en_execution_latency c;
       ec_created_at := oc_completed_at o; ec_expires_at := tm_expires_at t; ec_taker_fee_rate := en_taker_fee_rate c;
       ec_expected_loss_fraction := tm_loss t; ec_expected_gain_fraction := tm_gain t; ec_capability := capability;
       ec_exchange_filters := en_exchange_filters c |}.

(** The body of the [try] statement. *)
Definition run_entry (b : PaperBroker) (c : EntryDecisionContext) (command : MarketEntryCommand)
  : result (PaperBrokerResult * list SensitivityOutcome) :=
  let* executed := execute_market_entry sha256_hex hmac_sha256_hex (pb_signing_key b) (pb_max_book_age b) command
                     (en_account c) (en_books c) (en_active_exit_plan c) in
  let f := br_fill executed in
  let* sensitivities := calculate_sensitivities f (bk_mark_price (fl_book f)) (fl_fill_at f) (dint 2) in
  Ok (executed, sensitivities).

Definition _execute (o : OrchestrationCommand) (c : EntryDecisionContext) (a : OfficialDecisionAnalysis)
    (prepared : option PreparedOrder) (bundle : DecisionBundle) (executable_price : dec) (t : terms)
  : result OrchestrationOutcome :=
  let cycle_id := _cycle_id o in
  let symbol := fk_symbol (cf_key (oc_frame o)) in
  match prepared, sv_authorizer service, sv_paper_broker service with
  | Some p, Some key, Some broker =>
      let* side := _side (da_direction a) in
      let* claims := AuthorizationClaims_post_init
        {| cl_experiment_id := em_experiment_id (oc_manifest o); cl_decision_cycle_id := cycle_id;
           cl_proposal_id := proposal_id_of cycle_id; cl_gate_chain_hash := tm_chain_hash t; cl_symbol := symbol; cl_side := side;
           cl_quantity := pr_quantity p; cl_approved_notional := (tm_quantity t * executable_price)%dec;
           cl_issued_at := oc_completed_at o; cl_expires_at := tm_expires_at t |} in
      let* capability := issue hmac_sha256_hex key claims true in
      let position_id := match dict_get (ac_positions (en_account c)) symbol with
                         | Some held => ps_position_id held
                         | None => _id "paper-position" [uuid_str (em_experiment_id (oc_manifest o)); symbol]
                         end in
      let* command := entry_command o c side (pr_quantity p) executable_price t position_id capability in
      match run_entry broker c command with
      | Ok (executed, sensitivities) =>
          OrchestrationOutcome_post_init
            {| oo_disposition := OD_EXECUTED; oo_bundle := bundle; oo_incident := None; oo_counterfactual := None;
               oo_capability := Some capability; oo_execution := Some (br_record executed); oo_sensitivities := sensitivities |}
      | Raise exc =>
          let* incident := _incident o "paper_execution" "approved_entry_execution_failed" (PDict
            [("decision_cycle_id", PUuid cycle_id); ("proposal_id", PUuid (proposal_id_of cycle_id));
             ("gate_chain_hash", PStr (tm_chain_hash t)); ("error_type", PStr (error_type exc)); ("error", PStr (error_text exc))])
            CRITICAL in
          OrchestrationOutcome_post_init
            {| oo_disposition := OD_HALTED; oo_bundle := bundle; oo_incident := Some incident; oo_counterfactual := None;
               oo_capability := Some capability; oo_execution := None; oo_sensitivities := [] |}
      end
  | _, _, _ => Raise (RuntimeError "passed broker-capacity gate lacks execution dependencies")
  end.

(** The decision of an admitted frame with a direction and an entry context. *)
Definition _directional (o : OrchestrationCommand) (c : EntryDecisionContext) (features : FeatureSet)
    (m : AgentEvaluationMatrix) (a : OfficialDecisionAnalysis) (executable_price : dec) : result OrchestrationOutcome :=
  let cycle_id := _cycle_id o in
  let* monitoring := admission_evaluate sha256_hex (sv_monitoring_policy service) (en_monitoring c) in
  let* risk := _risk_decision o c a executable_price in
  let* pf := prepare_entry c a risk executable_price in
  let* facts := _gate_facts o m a (Some monitoring) risk (fst pf) (snd pf) in
  let* gates := _gate_records o cycle_id facts in
  let approved := all_passed gates in
  let* t := entry_terms o c a (fst pf) gates executable_price in
  let* proposal := trade_proposal o c a risk (fst pf) gates executable_price t in
  let* frame := _market_frame o in
  let* cycle := _cycle o cycle_id (if approved then DS_COMPLETED else DS_REJECTED) (final_reason gates)
    (regime_or features "unknown") (features_to_dict features) (da_direction a)
    (if approved then DP_APPROVED else DP_REJECTED) in
  let* agents := _matrix_records o cycle_id m in
  let* summary := _analysis_summary cycle_id a in
  let bundle := {| db_market_frame := frame; db_cycle := cycle; db_agents := agents; db_summary := summary; db_gates := gates;
                   db_proposal := Some proposal |} in
  if approved then _execute o c a (fst pf) bundle executable_price t else _rejected o c a bundle executable_price t.

(** [self._decision_analytics or OfficialDecisionAnalytics(conservative(...))]. *)
Definition decision_policy (o : OrchestrationCommand) : result OfficialDecisionPolicy :=
  match sv_decision_policy service with
  | Some p => Ok p
  | None => DecisionOfficial.conservative
              (match oc_entry_context o with Some c => en_taker_fee_rate c | None => BINANCE_USDM_REGULAR_TAKER_FEE_RATE end)
  end.

Definition _admitted (o : OrchestrationCommand) (features : FeatureSet) (m : AgentEvaluationMatrix)
  : result OrchestrationOutcome :=
  let* executable_price := _executable_price o in
  let benchmark := match oc_entry_context o with Some c => mc_benchmark (en_monitoring c) | None => None end in
  let* policy := decision_policy o in
  let* a := official_evaluate sha256_hex policy features m executable_price (option_map bo_return_fraction benchmark) in
  if bool_decide (da_direction a = NEUTRAL) then _neutral o features m a
  else
    match oc_entry_context o with
    | None => _neutral_halt o RC_MONITORING_UNHEALTHY "orchestration" "entry_decision_context_missing" (features_to_dict features)
    | Some c => _directional o c features m a executable_price
    end.

Definition _validate_features (o : OrchestrationCommand) (f : FeatureSet) : result unit :=
  do* raise_if (negb (bool_decide (fs_symbol f = fk_symbol (cf_key (oc_frame o)))) ||
                negb (bool_decide (fs_timeframe f = fk_timeframe (cf_key (oc_frame o)))) ||
                negb (dt_eqb (fs_timestamp f) (cb_bar_close_at (Frames.cf_bar (oc_frame o)))))
        (ValueError "feature identity differs from the causal market frame") ;;
  raise_if (negb (truthy (fs_regime f))) (ValueError "official feature output requires an explicit regime").

Definition process (o : OrchestrationCommand) : outcome run_error OrchestrationOutcome :=
  if bool_decide (ia_admission (oc_integrity o) = QUARANTINED) then lift (_quarantined o)
  else
    let* features := lift (sv_feature_computer service (oc_frame o)) in
    match features with
    | None => lift (_feature_failure o "feature_history_insufficient")
    | Some features =>
        do* lift (_validate_features o features) ;;
        match run_agent_matrix features (oc_manifest o) (sv_durations service) (sv_agents service) with
        | Ok m => lift (_admitted o features m)
        | Raise (AgentMatrixError _ m failures) => lift (_agent_failure o features m failures)
        | Raise e => Raise e
        end
    end.
End Service.

(** ** The chain of gates *)

Lemma forallb_map' {A B} (p : B -> bool) (f : A -> B) l : forallb p (map f l) = forallb (fun x => p (f x)) l.
Proof. induction l as [|x l IH]; [reflexivity|]. cbn. now rewrite IH. Qed.

(** Whether each gate passes: none does after the first that fails. *)
Fixpoint chain_passed (free : bool) (raw : list bool) : list bool :=
  match raw with
  | [] => []
  | b :: raw' => (free && b) :: chain_passed (free && b) raw'
  end.

Lemma chain_all free raw : forallb id (chain_passed free raw) = (free || negb (nonempty raw)) && forallb id raw.
Proof.
  revert free; induction raw as [|b raw IH]; intros free; [now destruct free|].
  cbn [chain_passed forallb nonempty]. rewrite IH. unfold id. destruct free, b, raw; reflexivity.
Qed.

Lemma chain_blocked raw : chain_passed false raw = map (fun _ => false) raw.
Proof. induction raw as [|b raw IH]; [reflexivity|]. cbn. now rewrite IH. Qed.

Section Chain.
Context (uuid5 : string -> UUID) (o : OrchestrationCommand).

Lemma gate_record_Ok cycle kind sequence passed reason input output g :
  _gate uuid5 cycle kind sequence passed reason input output o = Ok g ->
  gr_gate_type g = kind /\ gr_passed g = passed /\ gr_reason_code g = reason /\ gr_sequence g = sequence.
Proof.
  unfold _gate, GateEvaluationRecord_post_init. intros H. py_inv. repeat split; reflexivity.
Qed.

Lemma gate_loop_spec cycle facts : forall sequence blocking gates,
  gate_loop uuid5 o cycle sequence blocking facts = Ok gates ->
  map gr_gate_type gates = map gf_gate_type facts /\ map gr_sequence gates = zrange sequence (length facts) /\
  map gr_passed gates = chain_passed (negb (present blocking)) (map gf_raw_passed facts).
Proof.
  induction facts as [|f facts IH]; intros sequence blocking gates H; cbn [gate_loop] in H; py_inv; [now repeat split|].
  apply gate_record_Ok in H0 as (E1 & E2 & _ & E4). apply IH in H1 as (I1 & I2 & I3). cbn [map length chain_passed].
  rewrite E1, E2, E4, I1, I2, I3. split; [reflexivity|].
  split; [now rewrite zrange_S|]. destruct blocking, (gf_raw_passed f); reflexivity.
Qed.

(** The records of thirteen facts: one per gate, in order. *)
Lemma gate_records_spec cycle facts gates : _gate_records uuid5 o cycle facts = Ok gates ->
  map gr_gate_type gates = all_gates /\ map gr_sequence gates = zrange 1 13 /\
  map gr_passed gates = chain_passed true (map gf_raw_passed facts) /\ length facts = 13%nat.
Proof.
  unfold _gate_records. intros H. py_inv. bool_prop. apply gate_loop_spec in H as (H1 & H2 & H3).
  assert (L : length facts = 13%nat) by (rewrite <- (length_map gf_gate_type), H0; reflexivity).
  rewrite H1, H2, H3, H0, L. auto.
Qed.

(** Every gate passed exactly when every raw result did. *)
Lemma all_passed_raw cycle facts gates : _gate_records uuid5 o cycle facts = Ok gates ->
  all_passed gates = forallb gf_raw_passed facts.
Proof.
  intros H. destruct (gate_records_spec _ _ _ H) as (_ & _ & E & _). unfold all_passed.
  transitivity (forallb id (map gr_passed gates)); [exact (eq_sym (forallb_map' id gr_passed gates))|].
  rewrite E, chain_all. rewrite andb_true_l. exact (forallb_map' id gf_raw_passed facts).
Qed.
End Chain.

(** ** What the risk engine returns *)

Lemma risk_gates_complete sha policy r d : RiskOfficial.evaluate sha policy r = Ok d ->
  map gt_check (rd_gates d) = all_checks /\ rd_approved d = forallb RiskOfficial.passed (rd_gates d).
Proof.
  assert (D : forall snap q n ra mg hk dm cm gates, _decision sha snap q n ra mg hk dm cm gates = Ok d ->
    map gt_check (rd_gates d) = all_checks /\ rd_approved d = forallb RiskOfficial.passed (rd_gates d)).
  { intros * H. apply decision_Ok in H as (_ & _ & _ & _ & _ & _ & _ & E & A & _ & M & _). now rewrite E. }
  unfold RiskOfficial.evaluate. intros H. py_inv. destruct v0 as [[? ?] ?].
  repeat (match goal with
          | H : (if ?c then _ else _) = Ok d |- _ => destruct c
          | H : (let '(_, _) := ?c in _) = Ok d |- _ => destruct c
          | H : _early_rejection _ _ _ _ _ = Ok d |- _ => unfold _early_rejection in H
          end || py_inv_step); eauto.
Qed.

Lemma risk_check_passed d c reason : _risk_check (Some d) c = Ok (true, reason) ->
  exists g, List.find (fun g => bool_decide (gt_check g = c)) (rd_gates d) = Some g /\ RiskOfficial.passed g = true.
Proof. unfold _risk_check, risk_gate, RiskOfficial.passed. intros H. py_inv. eauto. Qed.

Lemma all_risk_checks_passed d checks : all_risk_checks d checks = Ok true ->
  Forall (fun c => exists reason, _risk_check (Some d) c = Ok (true, reason)) checks.
Proof.
  induction checks as [|c checks IH]; intros H; [constructor|]. cbn [all_risk_checks] in H. py_inv.
  destruct v as [[|] reason]; [|discriminate]. constructor; eauto.
Qed.

(** Every check passed when the portfolio checks and the three others did. *)
Lemma risk_approved_of_checks sha policy r d : RiskOfficial.evaluate sha policy r = Ok d ->
  Forall (fun c => exists reason, _risk_check (Some d) c = Ok (true, reason)) ([DRAWDOWN; CORRELATION; MARGIN] ++ portfolio_checks) ->
  rd_approved d = true.
Proof.
  intros H A. apply risk_gates_complete in H as [M ->]. apply forallb_forall. intros g Hg.
  assert (P : exists reason, _risk_check (Some d) (gt_check g) = Ok (true, reason)).
  { rewrite Forall_forall in A. apply A. unfold portfolio_checks. cbn [app]. destruct (gt_check g); in_list. }
  destruct P as [reason P]. apply risk_check_passed in P as (g' & Hf & Hp).
  enough (g = g') as -> by exact Hp. apply List.find_some in Hf as [Hg' E]. bool_prop.
  apply (NoDup_map_inj gt_check (rd_gates d)); [|assumption..|now rewrite E].
  rewrite M. unfold all_checks. repeat (constructor; [in_list|]). constructor.
Qed.

(** ** What a directional frame needs to be executed *)

(** The facts behind the thirteen gates. *)
Record approved (service : OfficialOrchestrationService) (symbol : string) (c : EntryDecisionContext) (m : AgentEvaluationMatrix)
    (a : OfficialDecisionAnalysis) (monitoring : MonitoringAdmissionDecision) (risk : OfficialRiskDecision)
    (p : PreparedOrder) : Prop := {
  ap_voting : exists v, elem_of v (am_evaluations m) /\ av_voting v = true;
  ap_consensus : da_consensus_passed a = true;
  ap_challenge : da_challenge_blocked a = false;
  ap_ev : da_ev_positive a = true;
  ap_alpha : da_alpha_positive a = true;
  ap_monitoring : md_allowed monitoring = true;
  ap_risk : rd_approved risk = true;
  ap_leverage : ac_leverage (en_account c) = 1;
  ap_books : en_books c <> [];
  ap_direction : direction_compatible (en_account c) symbol (da_direction a) = true;
  ap_dependencies : exists key broker, sv_authorizer service = Some key /\ sv_paper_broker service = Some broker;
  ap_capacity : exists margin free, ddiv (pr_notional p) (dint 1) = Ok margin /\ free_margin (en_account c) = Ok free /\
    (dval (margin + pr_notional p * en_taker_fee_rate c)%dec <= dval free)%Q
}.

Lemma nonempty_filter {A} (f : A -> bool) l : nonempty (List.filter f l) = true -> exists x, elem_of x l /\ f x = true.
Proof.
  induction l as [|x l IH]; [discriminate|]. cbn [List.filter]. destruct (f x) eqn:E.
  - intros _. exists x. split; [left | exact E].
  - intros H. destruct (IH H) as (y & Hy & Hf). exists y. split; [right; exact Hy | exact Hf].
Qed.

Section Facts.
Context (sha256_hex : string -> string) (service : OfficialOrchestrationService) (o : OrchestrationCommand).

Lemma capacity_passed c a prepared cap : oc_entry_context o = Some c -> broker_capacity service o a prepared = Ok cap ->
  cy_passed cap = true -> ac_leverage (en_account c) = 1 -> exists p, prepared = Some p /\
  en_books c <> [] /\ direction_compatible (en_account c) (fk_symbol (cf_key (oc_frame o))) (da_direction a) = true /\
  (exists key broker, sv_authorizer service = Some key /\ sv_paper_broker service = Some broker) /\
  exists margin free, ddiv (pr_notional p) (dint 1) = Ok margin /\ free_margin (en_account c) = Ok free /\
    (dval (margin + pr_notional p * en_taker_fee_rate c)%dec <= dval free)%Q.
Proof.
  unfold broker_capacity. intros -> H P L. destruct prepared as [p|]; py_inv; cbn [cy_passed] in P; [|discriminate].
  rewrite L in H0. bool_prop. dec_prop. exists p. split; [reflexivity|].
  split; [now destruct (en_books c)|]. split; [assumption|].
  split; [|eauto]. unfold dependencies_present in *. destruct (sv_authorizer service), (sv_paper_broker service); try discriminate.
  eauto.
Qed.

(** Thirteen raw results that all passed mean an approved decision. *)
Lemma facts_approved c m a monitoring risk prepared reason facts :
  oc_entry_context o = Some c ->
  (forall d, risk = Some d -> exists policy r, RiskOfficial.evaluate sha256_hex policy r = Ok d) ->
  _gate_facts sha256_hex service o m a (Some monitoring) risk prepared reason = Ok facts ->
  forallb gf_raw_passed facts = true ->
  exists d p, risk = Some d /\ prepared = Some p /\
    approved service (fk_symbol (cf_key (oc_frame o))) c m a monitoring d p.
Proof.
  intros Hc Hr H A. unfold _gate_facts in H. rewrite Hc in H. py_inv.
  cbn [forallb gf_raw_passed fact option_map] in A. bool_prop.
  destruct risk as [d|]; [|py_inv; discriminate].
  destruct v, v0, v3. cbn [fst] in *. subst.
  match goal with H : cy_passed _ = true |- _ => eapply capacity_passed in H as (p & -> & ?); [|eassumption..|assumption] end.
  destruct (Hr d eq_refl) as (policy & r & E). exists d, p.
  split; [reflexivity|]. split; [reflexivity|]. constructor; try tauto; try assumption; try lia.
  - apply nonempty_filter. assumption.
  - apply (risk_approved_of_checks _ _ _ _ E). apply Forall_app. split; [|now apply all_risk_checks_passed].
    repeat (constructor; [eauto|]). constructor.
Qed.
End Facts.

(** ** Outcomes *)

Lemma outcome_post_init_same x out : OrchestrationOutcome_post_init x = Ok out -> out = x.
Proof. unfold OrchestrationOutcome_post_init. intros H. py_inv. reflexivity. Qed.

Definition withheld (out : OrchestrationOutcome) : Prop :=
  oo_capability out = None /\ oo_execution out = None /\ oo_sensitivities out = [].

(** The thirteen gates of the bundle, every one passed. *)
Definition all_gates_passed (out : OrchestrationOutcome) : Prop :=
  map gr_gate_type (db_gates (oo_bundle out)) = all_gates /\ Forall (fun g => gr_passed g = true) (db_gates (oo_bundle out)).

Section Outcomes.
Context (sha256_hex : string -> string) (hmac_sha256_hex : string -> string -> string) (uuid5 : string -> UUID).
Context (service : OfficialOrchestrationService) (o : OrchestrationCommand).

Let symbol := fk_symbol (cf_key (oc_frame o)).
Let cycle_id := _cycle_id uuid5 o.

(** The capability and the execution of an approved entry. *)
Record entry_executed (c : EntryDecisionContext) (p : PreparedOrder) (price : dec) (out : OrchestrationOutcome) : Prop := {
  xe_gates : all_gates_passed out;
  xe_order : exists key broker side capability command result,
    sv_authorizer service = Some key /\ sv_paper_broker service = Some broker /\
    issue hmac_sha256_hex key (cap_claims capability) true = Ok capability /\ oo_capability out = Some capability /\
    cl_decision_cycle_id (cap_claims capability) = cycle_id /\
    cl_proposal_id (cap_claims capability) = proposal_id_of uuid5 cycle_id /\
    gate_chain_hash sha256_hex (db_gates (oo_bundle out)) = Ok (cl_gate_chain_hash (cap_claims capability)) /\
    cl_symbol (cap_claims capability) = symbol /\ cl_side (cap_claims capability) = side /\
    cl_quantity (cap_claims capability) = pr_quantity p /\
    cl_approved_notional (cap_claims capability) = (pr_quantity p * price)%dec /\
    ec_capability command = capability /\ ec_symbol command = symbol /\ ec_side command = side /\
    ec_requested_quantity command = pr_quantity p /\ ec_decision_executable_price command = price /\
    execute_market_entry sha256_hex hmac_sha256_hex (pb_signing_key broker) (pb_max_book_age broker) command
      (en_account c) (en_books c) (en_active_exit_plan c) = Ok result /\
    oo_execution out = Some (br_record result) /\ Records.validate (br_record result) = Ok tt
}.

(** The decision of a directional frame, with what it was made of. *)
Record directional (c : EntryDecisionContext) (f : FeatureSet) (m : AgentEvaluationMatrix) (a : OfficialDecisionAnalysis)
    (price : dec) (out : OrchestrationOutcome) (monitoring : MonitoringAdmissionDecision) (risk : option OfficialRiskDecision)
    (prepared : option PreparedOrder) (reason : string) (facts : list _GateFact) (bundle : DecisionBundle) (t : terms) : Prop := {
  dr_monitoring : admission_evaluate sha256_hex (sv_monitoring_policy service) (en_monitoring c) = Ok monitoring;
  dr_risk : _risk_decision sha256_hex service o c a price = Ok risk;
  dr_prepared : prepare_entry c a risk price = Ok (prepared, reason);
  dr_facts : _gate_facts sha256_hex service o m a (Some monitoring) risk prepared reason = Ok facts;
  dr_gates : _gate_records uuid5 o cycle_id facts = Ok (db_gates bundle);
  dr_terms : entry_terms sha256_hex o c a prepared (db_gates bundle) price = Ok t;
  dr_outcome : (if all_passed (db_gates bundle)
                then _execute sha256_hex hmac_sha256_hex uuid5 service o c a prepared bundle price t
                else _rejected uuid5 o c a bundle price t) = Ok out
}.

Lemma directional_Ok c f m a price out :
  _directional sha256_hex hmac_sha256_hex uuid5 service o c f m a price = Ok out ->
  exists monitoring risk prepared reason facts bundle t,
    directional c f m a price out monitoring risk prepared reason facts bundle t.
Proof.
  unfold _directional. intros H. py_inv. destruct v1 as [prepared reason]. cbn [fst snd] in *.
  do 7 eexists. econstructor; [..|exact H]; cbn [db_gates]; eassumption.
Qed.

Lemma risk_decision_Ok c a price d : _risk_decision sha256_hex service o c a price = Ok (Some d) ->
  exists r, OfficialRiskRequest_post_init (risk_request o c a price) = Ok r /\
    RiskOfficial.evaluate sha256_hex (sv_risk_policy service) r = Ok d.
Proof. unfold _risk_decision. intros H. destruct (_ || _); py_inv; [discriminate|]. eauto. Qed.

Lemma risk_decision_engine c a price risk : _risk_decision sha256_hex service o c a price = Ok risk ->
  forall d, risk = Some d -> exists policy r, RiskOfficial.evaluate sha256_hex policy r = Ok d.
Proof. intros H d ->. apply risk_decision_Ok in H as (r & _ & E). eauto. Qed.

Lemma prepare_entry_Ok c a d price p reason : prepare_entry c a (Some d) price = Ok (Some p, reason) ->
  exists side, _side (da_direction a) = Ok side /\
    prepare (en_exchange_filters c) side MARKET (rd_quantity d) (rd_quantity d) (Some price) (rd_notional d) = Ok p.
Proof.
  unfold prepare_entry. intros H. destruct (_ <? _)%dec; py_inv; [|discriminate].
  destruct (prepare _ _ _ _ _ _ _) as [q|[]] eqn:E; try discriminate. injection H as <- <-. eauto.
Qed.

Lemma run_entry_Ok b c command result sens : run_entry sha256_hex hmac_sha256_hex b c command = Ok (result, sens) ->
  execute_market_entry sha256_hex hmac_sha256_hex (pb_signing_key b) (pb_max_book_age b) command
    (en_account c) (en_books c) (en_active_exit_plan c) = Ok result.
Proof. unfold run_entry. intros H. py_inv. assumption. Qed.

Lemma entry_validated key age command account books plan result :
  execute_market_entry sha256_hex hmac_sha256_hex key age command account books plan = Ok result ->
  Records.validate (br_record result) = Ok tt.
Proof. unfold execute_market_entry. intros H. py_inv. cbn [br_record].
  match goal with H : Records.validate _ = Ok ?u |- _ => now destruct u end.
Qed.

Lemma gates_all_passed facts bundle : _gate_records uuid5 o cycle_id facts = Ok (db_gates bundle) ->
  all_passed (db_gates bundle) = true ->
  map gr_gate_type (db_gates bundle) = all_gates /\ Forall (fun g => gr_passed g = true) (db_gates bundle).
Proof.
  intros H A. apply gate_records_spec in H as (T & _). split; [exact T|].
  apply List.Forall_forall. unfold all_passed in A. now rewrite forallb_forall in A.
Qed.

Lemma issue_claims key claims capability : issue hmac_sha256_hex key claims true = Ok capability -> cap_claims capability = claims.
Proof. unfold issue. intros H. py_inv. reflexivity. Qed.

Lemma entry_terms_Ok c a p gates price t : entry_terms sha256_hex o c a (Some p) gates price = Ok t ->
  gate_chain_hash sha256_hex gates = Ok (tm_chain_hash t) /\ tm_quantity t = pr_quantity p.
Proof. unfold entry_terms. intros H. py_inv. cbn in *. auto. Qed.

(** An approved entry either executes or halts with an incident. *)
Lemma execute_cases c f m a price out monitoring risk p reason facts bundle t :
  directional c f m a price out monitoring risk (Some p) reason facts bundle t -> all_passed (db_gates bundle) = true ->
  oo_bundle out = bundle /\ present (oo_capability out) = true /\ oo_counterfactual out = None /\
  ((oo_disposition out = OD_EXECUTED /\ oo_incident out = None /\ entry_executed c p price out) \/
   (oo_disposition out = OD_HALTED /\ oo_execution out = None /\ oo_sensitivities out = [] /\ present (oo_incident out) = true)).
Proof.
  intros [_ _ _ _ Hg Ht H] A. rewrite A in H. pose proof (gates_all_passed _ _ Hg A) as [T P].
  apply entry_terms_Ok in Ht as [Hh Hq].
  unfold _execute in H. destruct (sv_authorizer service) as [key|] eqn:Ek, (sv_paper_broker service) as [b|] eqn:Eb;
    try discriminate H.
  py_inv. destruct (run_entry _ _ _ _ _) as [[result sens]|e] eqn:R; py_inv; apply outcome_post_init_same in H as ->;
    cbn [oo_bundle oo_capability oo_disposition oo_execution oo_incident oo_counterfactual oo_sensitivities present];
    (do 3 (split; [reflexivity|])); [left | right; auto].
  do 2 (split; [reflexivity|]). apply run_entry_Ok in R. pose proof (entry_validated _ _ _ _ _ _ _ R) as V.
  constructor; [split; assumption|].
  unfold AuthorizationClaims_post_init in *. py_inv. 
  unfold entry_command, MarketEntryCommand_post_init in *. py_inv.
  rewrite Hq in *.
  match goal with H : issue _ _ _ _ = Ok ?cap, R : execute_market_entry _ _ _ _ ?command _ _ _ = Ok _ |- _ =>
    pose proof (issue_claims _ _ _ H) as C; exists key, b, v, cap, command, result end.
  rewrite C in *. cbn [cap_claims cl_decision_cycle_id cl_proposal_id cl_gate_chain_hash cl_symbol cl_side cl_quantity
    cl_approved_notional oo_bundle oo_capability oo_execution].
  repeat (split; [reflexivity || eassumption|]). exact V.
Qed.
End Outcomes.

(** The first gate that did not pass. *)
Definition first_failure (gates : list GateEvaluationRecord) (g : GateEvaluationRecord) : Prop :=
  exists before after, gates = before ++ g :: after /\ Forall (fun x => gr_passed x = true) before /\
    Forall (fun x => gr_passed x = false) (g :: after) /\ prior_chain gates = map gr_gate_type (before ++ [g]).

Lemma rejection_first gates g : rejection gates = Some g ->
  map gr_passed gates = chain_passed true (map gr_passed gates) -> first_failure gates g.
Proof.
  unfold rejection. induction gates as [|x gates IH]; intros H C; [discriminate|]. cbn [List.find map chain_passed] in *.
  injection C as C. destruct (gr_passed x) eqn:E; cbn [negb andb] in *.
  - destruct (IH H C) as (before & after & -> & B & A & P). exists (x :: before), after. split; [reflexivity|].
    split; [now constructor|]. split; [exact A|]. cbn [prior_chain app map]. now rewrite E, P.
  - injection H as <-. exists [], gates. split; [reflexivity|]. split; [constructor|]. split.
    + constructor; [exact E|]. rewrite chain_blocked, map_map in C. apply List.Forall_forall. intros y Hy.
      apply (in_map gr_passed) in Hy. rewrite C in Hy. now apply in_map_iff in Hy as (? & <- & _).
    + cbn [prior_chain app map]. now rewrite E.
Qed.

Lemma chain_idem free raw : chain_passed free (chain_passed free raw) = chain_passed free raw.
Proof.
  revert free. induction raw as [|b raw IH]; intros free; [reflexivity|]. cbn [chain_passed].
  rewrite andb_assoc, andb_diag. f_equal. apply IH.
Qed.

Section Answers.
Context (sha256_hex : string -> string) (hmac_sha256_hex : string -> string -> string) (uuid5 : string -> UUID).
Context (service : OfficialOrchestrationService) (o : OrchestrationCommand).
Let cycle_id := _cycle_id uuid5 o.

Record rejected_outcome (out : OrchestrationOutcome) : Prop := {
  rj_withheld : withheld out;
  rj_incident : oo_incident out = None;
  rj_types : map gr_gate_type (db_gates (oo_bundle out)) = all_gates;
  rj_failure : exists g s p, first_failure (db_gates (oo_bundle out)) g /\ oo_counterfactual out = Some s /\
    cs_rejection_gate s = gr_gate_type g /\ cs_prior_gate_chain s = prior_chain (db_gates (oo_bundle out)) /\
    db_proposal (oo_bundle out) = Some p /\ tp_status p = PS_REJECTED /\ cs_proposal_id s = tp_id p
}.

(** What the outcome of a frame says of it. *)
Definition outcome_meaning (out : OrchestrationOutcome) : Prop :=
  match oo_disposition out with
  | OD_QUARANTINED => ia_admission (oc_integrity o) = QUARANTINED /\ withheld out /\
      db_proposal (oo_bundle out) = None /\ oo_counterfactual out = None /\
      (oo_incident out = None <-> is_expected_warmup (oc_integrity o) = true)
  | OD_HALTED => ia_admission (oc_integrity o) <> QUARANTINED /\ present (oo_incident out) = true /\
      oo_execution out = None /\ oo_sensitivities out = [] /\ oo_counterfactual out = None /\
      (oo_capability out = None /\ db_proposal (oo_bundle out) = None \/
       present (oo_capability out) = true /\ all_gates_passed out)
  | OD_NEUTRAL => ia_admission (oc_integrity o) <> QUARANTINED /\ withheld out /\ oo_incident out = None /\
      db_proposal (oo_bundle out) = None /\ oo_counterfactual out = None /\ map gr_gate_type (db_gates (oo_bundle out)) = all_gates
  | OD_REJECTED => ia_admission (oc_integrity o) <> QUARANTINED /\ rejected_outcome out
  | OD_EXECUTED => ia_admission (oc_integrity o) <> QUARANTINED /\ all_gates_passed out /\ oo_incident out = None /\
      oo_counterfactual out = None /\ present (oo_capability out) = true /\ present (oo_execution out) = true
  end.

Definition unexecuted (out : OrchestrationOutcome) : Prop := oo_disposition out <> OD_EXECUTED /\ outcome_meaning out.

Lemma quarantined_meaning out : ia_admission (oc_integrity o) = QUARANTINED ->
  _quarantined uuid5 o = Ok out -> unexecuted out.
Proof.
  unfold _quarantined. intros Q H. py_inv. apply outcome_post_init_same in H as ->. split; [discriminate|]. cbn.
  unfold withheld. cbn. do 4 (split; [auto|]). destruct (is_expected_warmup _); py_inv; split; intros E; (reflexivity || discriminate E).
Qed.

Lemma neutral_halt_meaning reason component incident snapshot out : ia_admission (oc_integrity o) <> QUARANTINED ->
  _neutral_halt uuid5 o reason component incident snapshot = Ok out -> unexecuted out.
Proof.
  unfold _neutral_halt. intros Q H. py_inv. apply outcome_post_init_same in H as ->. split; [discriminate|]. cbn. auto 10.
Qed.

Lemma agent_failure_meaning f m failures out : ia_admission (oc_integrity o) <> QUARANTINED ->
  _agent_failure sha256_hex uuid5 o f m failures = Ok out -> unexecuted out.
Proof.
  unfold _agent_failure. intros Q H. py_inv. apply outcome_post_init_same in H as ->. split; [discriminate|]. cbn. auto 10.
Qed.

Lemma neutral_meaning f m a out : ia_admission (oc_integrity o) <> QUARANTINED ->
  _neutral sha256_hex uuid5 service o f m a = Ok out -> unexecuted out.
Proof.
  unfold _neutral. intros Q H. py_inv. apply outcome_post_init_same in H as ->. split; [discriminate|]. cbn. unfold withheld. cbn.
  apply gate_records_spec in H1 as (T & _). auto 10.
Qed.

Lemma rejected_meaning c a bundle price t facts out : _gate_records uuid5 o cycle_id facts = Ok (db_gates bundle) ->
  _rejected uuid5 o c a bundle price t = Ok out -> oo_disposition out = OD_REJECTED /\ rejected_outcome out.
Proof.
  unfold _rejected. intros G H. py_inv. pose proof (outcome_post_init_same _ _ H) as ->. split; [reflexivity|].
  apply gate_records_spec in G as (T & _ & C & _).
  unfold OrchestrationOutcome_post_init, proposal_is, is_disposition in H. cbn in H. py_inv.
  constructor; cbn; [now repeat split | reflexivity | exact T |].
  unfold counterfactual_create in H1. py_inv. destruct (db_proposal bundle) as [p|]; [|discriminate]. bool_prop.
  do 3 eexists. cbn in *. split; [eapply rejection_first; [eassumption|]; now rewrite C, chain_idem|].
  repeat (split; [reflexivity || assumption|]). assumption.
Qed.
End Answers.

Section Process.
Context (sha256_hex : string -> string) (hmac_sha256_hex : string -> string -> string) (uuid5 : string -> UUID).
Context (service : OfficialOrchestrationService) (o : OrchestrationCommand).

Lemma lifted_Ok {A} (m : result A) (x : A) : lift m = Ok x -> m = Ok x.
Proof. destruct m; [now intros [= ->] | discriminate]. Qed.

Lemma executed_present c p price out : entry_executed sha256_hex hmac_sha256_hex uuid5 service o c p price out ->
  present (oo_execution out) = true.
Proof. intros [_ E]. decompose [ex and] E. match goal with H : oo_execution out = Some _ |- _ => now rewrite H end. Qed.

(** The entry that a decision was executed as, with what it was made of. *)
Record entry_of (c : EntryDecisionContext) (f : FeatureSet) (m : AgentEvaluationMatrix) (a : OfficialDecisionAnalysis) (price : dec)
    (monitoring : MonitoringAdmissionDecision) (r : OfficialRiskRequest) (risk : OfficialRiskDecision) (side : PaperOrderSide)
    (p : PreparedOrder) (out : OrchestrationOutcome) : Prop := {
  ey_context : oc_entry_context o = Some c;
  ey_features : sv_feature_computer service (oc_frame o) = Ok (Some f);
  ey_identity : _validate_features o f = Ok tt;
  ey_matrix : run_agent_matrix f (oc_manifest o) (sv_durations service) (sv_agents service) = Ok m;
  ey_price : _executable_price o = Ok price;
  ey_analysis : exists policy, decision_policy service o = Ok policy /\
    official_evaluate sha256_hex policy f m price (option_map bo_return_fraction (mc_benchmark (en_monitoring c))) = Ok a;
  ey_monitoring : admission_evaluate sha256_hex (sv_monitoring_policy service) (en_monitoring c) = Ok monitoring;
  ey_request : OfficialRiskRequest_post_init (risk_request o c a price) = Ok r;
  ey_risk : RiskOfficial.evaluate sha256_hex (sv_risk_policy service) r = Ok risk;
  ey_side : _side (da_direction a) = Ok side;
  ey_prepared : prepare (en_exchange_filters c) side MARKET (rd_quantity risk) (rd_quantity risk) (Some price) (rd_notional risk) = Ok p;
  ey_approved : approved service (fk_symbol (cf_key (oc_frame o))) c m a monitoring risk p;
  ey_executed : entry_executed sha256_hex hmac_sha256_hex uuid5 service o c p price out
}.

(** A directional frame: rejected with its counterfactual, executed, or halted by the execution. *)
Lemma directional_meaning c f m a price out : ia_admission (oc_integrity o) <> QUARANTINED -> oc_entry_context o = Some c ->
  _directional sha256_hex hmac_sha256_hex uuid5 service o c f m a price = Ok out ->
  outcome_meaning o out /\ (oo_disposition out = OD_EXECUTED -> exists monitoring risk p,
    admission_evaluate sha256_hex (sv_monitoring_policy service) (en_monitoring c) = Ok monitoring /\
    _risk_decision sha256_hex service o c a price = Ok (Some risk) /\
    (exists reason, prepare_entry c a (Some risk) price = Ok (Some p, reason)) /\
    approved service (fk_symbol (cf_key (oc_frame o))) c m a monitoring risk p /\
    entry_executed sha256_hex hmac_sha256_hex uuid5 service o c p price out).
Proof.
  intros Q Hc H. apply directional_Ok in H as (monitoring & risk & prepared & reason & facts & bundle & t & D).
  pose proof D as [Dm Dr Dp Df Dg _ Do].
  destruct (all_passed (db_gates bundle)) eqn:A; rewrite ?A in Do.
  - rewrite (all_passed_raw _ _ _ _ _ Dg) in A.
    destruct (facts_approved sha256_hex service o _ _ _ _ _ _ _ _ Hc (risk_decision_engine _ _ _ _ _ _ _ Dr) Df A)
      as (d & p & -> & -> & Ap).
    rewrite <- (all_passed_raw _ _ _ _ _ Dg) in A. pose proof (gates_all_passed _ _ _ _ Dg A) as [T P].
    apply (execute_cases sha256_hex hmac_sha256_hex uuid5 service o) in D as (Eb & Ec & Ef & [(Ed & Ei & E)|(Ed & Ee & Es & Ei)]);
      [..|exact A]; unfold outcome_meaning; rewrite Ed; (split; [|try discriminate]).
    + pose proof (executed_present _ _ _ _ E). destruct E as [G _]. auto 10.
    + intros _. exists monitoring, d, p. eauto 10.
    + do 5 (split; [assumption|]). right. split; [exact Ec|]. unfold all_gates_passed. now rewrite Eb.
  - eapply rejected_meaning in Do as [E R]; [|exact Dg]. unfold outcome_meaning. rewrite E. split; [auto | discriminate].
Qed.

Lemma unexecuted_answer out (P : Prop) : unexecuted o out -> outcome_meaning o out /\ (oo_disposition out = OD_EXECUTED -> P).
Proof. intros [N M]. split; [exact M | intros E; contradiction]. Qed.

Lemma admitted_meaning f m out : ia_admission (oc_integrity o) <> QUARANTINED -> sv_feature_computer service (oc_frame o) = Ok (Some f) ->
  _validate_features o f = Ok tt ->
  run_agent_matrix f (oc_manifest o) (sv_durations service) (sv_agents service) = Ok m ->
  _admitted sha256_hex hmac_sha256_hex uuid5 service o f m = Ok out ->
  outcome_meaning o out /\ (oo_disposition out = OD_EXECUTED ->
    exists c a price monitoring r risk side p, entry_of c f m a price monitoring r risk side p out).
Proof.
  unfold _admitted. intros Q Hf Hv Hm H. py_inv. case_bool_decide.
  - apply unexecuted_answer. eapply neutral_meaning; eassumption.
  - destruct (oc_entry_context o) as [c|] eqn:Hc.
    + apply directional_meaning in H as [M E]; [|assumption..]. split; [exact M|]. intros X.
      destruct (E X) as (monitoring & risk & p & Em & Er & (reason & Ep) & Ea & Ex).
      apply risk_decision_Ok in Er as (r & Hr & He). apply prepare_entry_Ok in Ep as (side & Hs & Hp).
      exists c, v1, v, monitoring, r, risk, side, p. constructor; eauto.
    + apply unexecuted_answer. eapply neutral_halt_meaning; eassumption.
Qed.

Lemma process_meaning out : process sha256_hex hmac_sha256_hex uuid5 service o = Ok out ->
  outcome_meaning o out /\ (oo_disposition out = OD_EXECUTED -> ia_admission (oc_integrity o) <> QUARANTINED /\
    exists c f m a price monitoring r risk side p, entry_of c f m a price monitoring r risk side p out).
Proof.
  unfold process. intros H. case_bool_decide as Q.
  { apply unexecuted_answer. eapply quarantined_meaning; [exact Q | apply lifted_Ok, H]. }
  apply bind_Ok in H as (features & Hf & H). apply lifted_Ok in Hf. destruct features as [f|].
  2:{ apply lifted_Ok in H. apply unexecuted_answer. eapply neutral_halt_meaning; eassumption. }
  apply bind_Ok in H as ([] & Hv & H). apply lifted_Ok in Hv.
  destruct (run_agent_matrix _ _ _ _) as [m|[message m failures| |]] eqn:Hm; try discriminate; apply lifted_Ok in H.
  - apply (admitted_meaning f m) in H as [M E]; [|assumption..]. split; [exact M|]. intros X.
    destruct (E X) as (c & a & price & monitoring & r & risk & side & p & Y). split; [exact Q|]. eauto 12.
  - apply unexecuted_answer. eapply agent_failure_meaning; eassumption.
Qed.

(** Every answer is a constructed outcome. *)
Lemma outcome_constructed x out : OrchestrationOutcome_post_init x = Ok out -> OrchestrationOutcome_post_init out = Ok out.
Proof. intros H. pose proof (outcome_post_init_same _ _ H) as ->. exact H. Qed.

Lemma process_constructed out : process sha256_hex hmac_sha256_hex uuid5 service o = Ok out ->
  OrchestrationOutcome_post_init out = Ok out.
Proof.
  unfold process, _quarantined, _feature_failure, _agent_failure, _admitted, _directional, _execute, _rejected, _neutral.
  intros H.
  repeat match goal with
  | H : OrchestrationOutcome_post_init _ = Ok _ |- _ => exact (outcome_constructed _ _ H)
  | H : _neutral_halt _ _ _ _ _ _ = Ok _ |- _ => unfold _neutral_halt in H
  | H : lift _ = Ok _ |- _ => apply lifted_Ok in H
  | H : bind _ _ = Ok _ |- _ => apply bind_Ok in H as (? & ? & H)
  | H : Raise _ = Ok _ |- _ => discriminate H
  | H : (if ?c then _ else _) = Ok out |- _ => destruct c
  | H : (match ?c with _ => _ end) = Ok out |- _ => destruct c
  end.
Qed.
End Process.

(** C1: Nothing is executed without approval.  An outcome says [executed] only
    for an admitted frame with an entry context whose features and agent matrix
    were computed, with a consensus no challenge blocks, positive expected
    value and alpha, an allowed monitoring decision, an official risk decision
    approved by its eight checks, leverage one, an order the exchange filters
    accept and a free margin that covers it; its thirteen gates all passed, its
    capability is signed for exactly that proposal, gate chain, side, quantity
    and notional, and its execution is the validated record of the broker. *)
Theorem executed_is_approved (sha256_hex : string -> string) (hmac_sha256_hex : string -> string -> string)
  (uuid5 : string -> UUID) (service : OfficialOrchestrationService) (o : OrchestrationCommand) (out : OrchestrationOutcome)
  (H : process sha256_hex hmac_sha256_hex uuid5 service o = Ok out) (Hd : oo_disposition out = OD_EXECUTED) :
  ia_admission (oc_integrity o) <> QUARANTINED /\ exists c f m a price monitoring r risk side p,
    entry_of sha256_hex hmac_sha256_hex uuid5 service o c f m a price monitoring r risk side p out.
Proof. exact (proj2 (process_meaning _ _ _ _ _ _ H) Hd). Qed.

(** C2: Every outcome is accounted for.  It passes its own validation and that
    of its bundle.  A frame in quarantine has no proposal, no capability and no
    counterfactual, and it has an incident exactly when its history is not just
    warming up.  A halt always has an incident and no execution; either it has
    neither proposal nor capability, or it is a failed execution, which keeps
    its capability and passed all thirteen gates.  A neutral or rejected
    decision evaluated the thirteen gates in order and carries neither
    capability nor incident; a rejected one names, in its counterfactual, the
    first gate that failed with the chain up to it, and no gate after it
    passed.  A capability exists only when all thirteen passed. *)
Theorem outcomes_are_gated (sha256_hex : string -> string) (hmac_sha256_hex : string -> string -> string)
  (uuid5 : string -> UUID) (service : OfficialOrchestrationService) (o : OrchestrationCommand) (out : OrchestrationOutcome)
  (H : process sha256_hex hmac_sha256_hex uuid5 service o = Ok out) :
  OrchestrationOutcome_post_init out = Ok out /\ outcome_meaning o out.
Proof. split; [exact (process_constructed _ _ _ _ _ _ H) | exact (proj1 (process_meaning _ _ _ _ _ _ H))]. Qed.

(** ** A sample service and command *)

Definition toy_uuid5 (name : string) : UUID :=
  1 + fold_left (fun h c => (31 * h + Z.of_nat (nat_of_ascii c)) mod 1000003) (list_ascii_of_string name) 7.

Definition signing_key : string := "0123456789abcdef0123456789abcdef".

Definition sample_service : OfficialOrchestrationService := {|
  sv_feature_computer := fun _ => Ok (Some sample_features); sv_agents := map quiet_agent ALL_AGENTS; sv_durations := no_delay;
  sv_authorizer := Some signing_key;
  sv_paper_broker := Some {| pb_signing_key := signing_key; pb_max_book_age := seconds 5 |};
  sv_decision_policy := Some sample_policy; sv_monitoring_policy := Admission.conservative;
  sv_risk_policy := RiskOfficial.conservative |}.

Definition sample_bar : ClosedBarPayload := {|
  cb_timeframe := "1m"; cb_bar_open_at := utc 0; cb_bar_close_at := utc (seconds 60); cb_open := dint 99; cb_high := dint 101;
  cb_low := dint 98; cb_close := dint 100; cb_volume := dint 10; cb_quote_volume := dint 1000; cb_trade_count := 5;
  cb_taker_buy_volume := dint 4; cb_taker_buy_quote_volume := dint 400; cb_closed := true |}.

Definition sample_frame : CausalMinuteFrame := {|
  cf_key := {| fk_experiment_id := 7; fk_strategy_version_id := 8; fk_symbol := "BTCUSDT"; fk_timeframe := "1m";
               fk_bar_close_at := utc (seconds 60) |};
  cf_frame_id := 9; cf_cutoff_at := utc (seconds 61); Frames.cf_bar := sample_bar; cf_book_bids := []; cf_book_asks := [];
  cf_best_bid := None; cf_best_ask := None; cf_mark_price := Some (dint 100); cf_index_price := None; cf_funding_rate := None;
  cf_primary_spot_price := None; cf_secondary_venue_price := None; cf_venue_server_time := None; cf_symbol_status := None;
  cf_source_manifest := []; cf_content_hash := sample_hash |}.

Definition sample_assessment (admission : FrameAdmission) : IntegrityAssessment := {|
  ia_frame_id := 9; ia_admission := admission; ia_quality_status := PASSED; ia_results := []; ia_blocking_checks := [];
  ia_content_hash := sample_hash |}.

Definition sample_monitoring : MonitoringAdmissionContext := {|
  mc_symbol := "BTCUSDT"; mc_timeframe := "1m"; mc_evaluated_at := utc (seconds 100); mc_kill_switch_active := false;
  mc_kill_switch_reason := None; mc_kill_switch_version := 1; mc_kill_switch_changed_at := utc 0;
  mc_kill_switch_changed_by := "operator"; mc_health := mc_health demo_monitoring; mc_volatility := mc_volatility demo_monitoring;
  mc_benchmark := Some {| bo_symbol := "BTCUSDT"; bo_return_fraction := mkdec 1 (-3); bo_observed_at := utc (seconds 99);
                          bo_source_event_id := "e1" |} |}.

Definition flat_account : AccountState := or_default (account_create 7 (dint 1000) "USDT" 1).

Definition sample_context : EntryDecisionContext := {|
  en_monitoring := sample_monitoring;
  en_drawdown := {| dd_peak_equity := dint 1000; dd_current_equity := dint 1000 |}; en_open_positions := [];
  en_correlations := []; en_exchange_filters := btc_filters; en_account := flat_account;
  en_books := [demo_book "b1" 102 100 thin_bids]; en_active_exit_plan := None; en_proposal_ttl := seconds 30;
  en_execution_latency := 250000; en_taker_fee_rate := mkdec 5 (-4) |}.

(** No book stream: the broker has no capacity. *)
Definition idle_context : EntryDecisionContext := {|
  en_monitoring := sample_monitoring;
  en_drawdown := {| dd_peak_equity := dint 1000; dd_current_equity := dint 1000 |}; en_open_positions := [];
  en_correlations := []; en_exchange_filters := btc_filters; en_account := flat_account; en_books := [];
  en_active_exit_plan := None; en_proposal_ttl := seconds 30; en_execution_latency := 250000; en_taker_fee_rate := mkdec 5 (-4) |}.

Definition sample_command (admission : FrameAdmission) (context : option EntryDecisionContext) : OrchestrationCommand := {|
  oc_frame := sample_frame; oc_integrity := sample_assessment admission; oc_manifest := sample_manifest;
  oc_agent_version_ids := map (fun n => (n, 11)) ALL_AGENTS; oc_evaluated_at := utc (seconds 100);
  oc_completed_at := utc (seconds 101); oc_entry_context := context |}.

Notation sample_process admission context :=
  (process (fun _ => sample_hash) toy_hmac toy_uuid5 sample_service (sample_command admission context)).

(** The disposition that a run ends with. *)
Definition ends_with (d : OrchestrationDisposition) (r : outcome run_error OrchestrationOutcome) : bool :=
  match r with Ok out => bool_decide (oo_disposition out = d) | Raise _ => false end.

Lemma ends_with_Ok d r : ends_with d r = true -> exists out, r = Ok out /\ oo_disposition out = d.
Proof. destruct r as [out|]; [|discriminate]. intros H. exists out. split; [reflexivity | exact (bool_decide_eq_true_1 _ H)]. Qed.

Example sample_runs :
  ends_with OD_QUARANTINED (sample_process QUARANTINED None) = true /\
  ends_with OD_HALTED (sample_process ADMITTED None) = true /\
  ends_with OD_REJECTED (sample_process ADMITTED (Some idle_context)) = true /\
  ends_with OD_EXECUTED (sample_process ADMITTED (Some sample_context)) = true.
Proof. vm_compute. repeat split. Qed.

Lemma executed_is_approved_witness : exists out, sample_process ADMITTED (Some sample_context) = Ok out /\
  exists c f m a price monitoring r risk side p, entry_of (fun _ => sample_hash) toy_hmac toy_uuid5 sample_service
    (sample_command ADMITTED (Some sample_context)) c f m a price monitoring r risk side p out.
Proof.
  destruct (ends_with_Ok _ _ (proj2 (proj2 (proj2 sample_runs)))) as (out & E & D).
  exists out. split; [exact E|]. exact (proj2 (executed_is_approved (fun _ => sample_hash) toy_hmac toy_uuid5 sample_service (sample_command ADMITTED (Some sample_context)) out E D)).
Defined.

Lemma outcomes_are_gated_witness : exists out, sample_process ADMITTED (Some idle_context) = Ok out /\ rejected_outcome out.
Proof.
  destruct (ends_with_Ok _ _ (proj1 (proj2 (proj2 sample_runs)))) as (out & E & D).
  exists out. split; [exact E|]. pose proof (proj2 (outcomes_are_gated _ _ _ _ _ out E)) as M.
  unfold outcome_meaning in M. rewrite D in M. exact (proj2 M).
Defined.
