(* ===== verification/Canonical.v ===== *)
(** * Canonical JSON is a code: [maais/domain/json.py]

    The canonical text of a frozen value determines the value up to the order
    of the keys of its objects.  With a digest that does not collide, equal
    content hashes therefore mean equal contents: the audit chain, the manifest
    and the stored states rest on this. *)

From Stdlib Require Import ZArith Lia List Bool String Ascii.
From stdpp Require Import base decidable list strings.
From S2P Require Import Prelude PyDecimal DecimalTheory Domain Json.

Local Open Scope Z_scope.

(** ** Values with sorted keys *)

(** [sort_keys=True], at every level. *)
Fixpoint canonical (j : json) : json :=
  match j with
  | JArr l => JArr (map canonical l)
  | JObj l => JObj (sort_by fst (map (fun kv => (fst kv, canonical (snd kv))) l))
  | _ => j
  end.

(** Printing in the order that is there. *)
Fixpoint plain (j : json) : list ascii :=
  match j with
  | JNull => list_ascii_of_string "null"
  | JBool true => list_ascii_of_string "true"
  | JBool false => list_ascii_of_string "false"
  | JInt n => int_chars n
  | JFloat t => list_ascii_of_string t
  | JStr s => quote s
  | JArr l => "["%char :: join [","%char] (map plain l) ++ ["]"%char]
  | JObj l => "{"%char :: join [","%char] (map (fun kv => quote (fst kv) ++ ":"%char :: plain (snd kv)) l) ++ ["}"%char]
  end.

Lemma insert_by_map {A B} (key : A -> string) (key' : B -> string) (f : A -> B) x l : (forall a, key' (f a) = key a) ->
  insert_by key' (f x) (map f l) = map f (insert_by key x l).
Proof.
  intros E. induction l as [|y l IH]; cbn [insert_by map]; [reflexivity|]. rewrite !E. destruct (String.leb _ _); cbn [map]; [reflexivity | now rewrite IH].
Qed.

Lemma sort_by_map {A B} (key : A -> string) (key' : B -> string) (f : A -> B) l : (forall a, key' (f a) = key a) ->
  sort_by key' (map f l) = map f (sort_by key l).
Proof. intros E. induction l as [|x l IH]; [reflexivity|]. cbn [sort_by map]. now rewrite IH, (insert_by_map key). Qed.

(** Induction on values, with the hypotheses on the elements. *)
Section JsonInd.
Context (P : json -> Prop) (Hnull : P JNull) (Hbool : forall b, P (JBool b)) (Hint : forall n, P (JInt n))
  (Hfloat : forall t, P (JFloat t)) (Hstr : forall s, P (JStr s)) (Harr : forall l, Forall P l -> P (JArr l))
  (Hobj : forall l, Forall (fun kv => P (snd kv)) l -> P (JObj l)).

Lemma json_elements : forall j, P j.
Proof.
  fix IH 1. intros [|b|n|t|s|l|l]; [exact Hnull | apply Hbool | apply Hint | apply Hfloat | apply Hstr | |].
  - apply Harr. induction l as [|x l IHl]; constructor; [exact (IH x) | exact IHl].
  - apply Hobj. induction l as [|[k x] l IHl]; constructor; [exact (IH x) | exact IHl].
Qed.
End JsonInd.

Lemma dumps_canonical j : dumps j = plain (canonical j).
Proof.
  induction j as [|b|n|t|s|l IH|l IH] using json_elements; cbn [dumps canonical plain]; try reflexivity.
  - do 3 f_equal. rewrite map_map. induction IH as [|x l Hx _ IHl]; cbn [map]; [reflexivity|]. now rewrite Hx, IHl.
  - do 3 f_equal.
    rewrite (sort_by_map (fun kv : string * json => fst kv) fst (fun kv => (fst kv, canonical (snd kv)))) by reflexivity.
    rewrite (sort_by_map (fun kv : string * json => fst kv) fst (fun kv => (fst kv, quote (fst kv) ++ ":"%char :: dumps (snd kv)))) by reflexivity.
    rewrite !map_map. apply map_ext_in. intros kv I. cbn [fst snd]. do 2 f_equal. rewrite List.Forall_forall in IH. apply IH.
    eapply Permutation.Permutation_in; [apply sort_by_perm | exact I].
Qed.

(** ** Tokens *)

Lemma app_eq_split {A} (a b x y : list A) : a ++ x = b ++ y -> (exists c, b = a ++ c /\ x = c ++ y) \/ (exists c, a = b ++ c /\ y = c ++ x).
Proof.
  revert b; induction a as [|u a IH]; intros b E; [left; exists b; auto|].
  destruct b as [|v b]; [right; exists (u :: a); auto|]. cbn in E. injection E as -> E.
  destruct (IH b E) as [(c & -> & ->)|(c & -> & ->)]; [left | right]; exists c; auto.
Qed.

Fixpoint prefixb (a b : list ascii) : bool :=
  match a, b with
  | [], _ => true
  | x :: a', y :: b' => Ascii.eqb x y && prefixb a' b'
  | _ :: _, [] => false
  end.

(** [s.startswith(prefix)]. *)
Definition starts_with (prefix s : string) : bool := prefixb (list_ascii_of_string prefix) (list_ascii_of_string s).

Lemma prefixb_app a c : prefixb a (a ++ c) = true.
Proof. induction a as [|x a IH]; [reflexivity|]. cbn [app prefixb]. now rewrite Ascii.eqb_refl. Qed.

Definition all_chars : list ascii := map ascii_of_nat (seq 0 256).

Lemma all_chars_spec c : In c all_chars.
Proof. apply in_map_iff. exists (nat_of_ascii c). split; [apply ascii_nat_embedding|]. apply in_seq. pose proof (nat_ascii_bounded c). lia. Qed.

Definition escape_table : list (ascii * list ascii) := Eval vm_compute in map (fun c => (c, escape_char c)) all_chars.

Lemma escape_table_spec c : In (c, escape_char c) escape_table.
Proof.
  assert (E : escape_table = map (fun c => (c, escape_char c)) all_chars) by (vm_compute; reflexivity).
  rewrite E. apply (in_map (fun c => (c, escape_char c))), all_chars_spec.
Qed.

(** No escape begins another one, and none begins with the closing quote. *)
Lemma escapes_checked : forallb (fun p => forallb (fun q => negb (prefixb (snd p) (snd q)) || Ascii.eqb (fst p) (fst q)) escape_table &&
  match snd p with [] => false | x :: _ => negb (Ascii.eqb x quote_char) end) escape_table = true.
Proof. vm_compute. reflexivity. Qed.

Lemma escape_prefix c c' d : escape_char c' = escape_char c ++ d -> c = c'.
Proof.
  intros E. pose proof escapes_checked as H. rewrite forallb_forall in H. specialize (H _ (escape_table_spec c)).
  apply andb_true_iff in H as [H _]. rewrite forallb_forall in H. specialize (H _ (escape_table_spec c')). cbn [fst snd] in H.
  rewrite E, prefixb_app in H. now apply Ascii.eqb_eq.
Qed.

Lemma escape_head c : exists x l, escape_char c = x :: l /\ x <> quote_char.
Proof.
  pose proof escapes_checked as H. rewrite forallb_forall in H. specialize (H _ (escape_table_spec c)). apply andb_true_iff in H as [_ H]. cbn [fst snd] in H.
  destruct (escape_char c) as [|x l]; [discriminate|]. exists x, l. split; [reflexivity|]. intros ->. now rewrite Ascii.eqb_refl in H.
Qed.

Lemma escapes_inj l l' r r' : concat (map escape_char l) ++ quote_char :: r = concat (map escape_char l') ++ quote_char :: r' ->
  l = l' /\ r = r'.
Proof.
  revert l'; induction l as [|c l IH]; intros [|c' l'] E; cbn [map concat] in E; rewrite <- ?app_assoc in E.
  - injection E as ->. auto.
  - destruct (escape_head c') as (x & k & Ex & N). rewrite Ex in E. injection E as E _. now destruct N.
  - destruct (escape_head c) as (x & k & Ex & N). rewrite Ex in E. injection E as E _. now destruct N.
  - assert (c = c') as <- by (destruct (app_eq_split _ _ _ _ E) as [(d & Ed & _)|(d & Ed & _)]; [|symmetry]; exact (escape_prefix _ _ _ Ed)).
    apply app_inv_head in E. destruct (IH _ E) as [-> ->]. auto.
Qed.

Lemma quote_inj s s' r r' : quote s ++ r = quote s' ++ r' -> s = s' /\ r = r'.
Proof.
  unfold quote. cbn [app]. intros E. injection E as E. rewrite <- !app_assoc in E. cbn [app] in E. apply escapes_inj in E as [E ->].
  split; [|reflexivity]. apply (f_equal string_of_list_ascii) in E. now rewrite !string_of_list_ascii_of_string in E.
Qed.

(** ** Numbers *)

Definition number_char (c : ascii) : bool :=
  let n := Z.of_nat (nat_of_ascii c) in
  ((48 <=? n) && (n <=? 57)) || (n =? 43) || (n =? 45) || (n =? 46) || (n =? 101).
Definition mark_char (c : ascii) : bool := let n := Z.of_nat (nat_of_ascii c) in (n =? 46) || (n =? 101).

(** The text of a finite float: it has a point or an exponent. *)
Definition float_text (t : string) : bool := forallb number_char (list_ascii_of_string t) && existsb mark_char (list_ascii_of_string t).

(** What may follow a value: the end of the text or a separator. *)
Definition delimited (r : list ascii) : Prop := match r with [] => True | c :: _ => number_char c = false end.

Lemma number_token t t' r r' : forallb number_char t = true -> forallb number_char t' = true -> delimited r -> delimited r' ->
  t ++ r = t' ++ r' -> t = t' /\ r = r'.
Proof.
  intros H H' D D' E. destruct (app_eq_split _ _ _ _ E) as [(c & E1 & E2)|(c & E1 & E2)].
  - assert (c = []) as -> by (destruct c as [|x c]; [reflexivity|]; exfalso; rewrite E1, forallb_app in H'; cbn in H'; rewrite E2 in D; cbn in D;
      rewrite D, andb_false_r in H'; discriminate). rewrite app_nil_r in E1. auto.
  - assert (c = []) as -> by (destruct c as [|x c]; [reflexivity|]; exfalso; rewrite E1, forallb_app in H; cbn in H; rewrite E2 in D'; cbn in D';
      rewrite D', andb_false_r in H; discriminate). rewrite app_nil_r in E1. auto.
Qed.

Lemma digit_number d : 0 <= d < 10 -> number_char (digit_char d) = true /\ mark_char (digit_char d) = false.
Proof.
  intros H. assert (d = 0 \/ d = 1 \/ d = 2 \/ d = 3 \/ d = 4 \/ d = 5 \/ d = 6 \/ d = 7 \/ d = 8 \/ d = 9) as C by lia.
  repeat (destruct C as [->|C]; [split; reflexivity|]). subst. split; reflexivity.
Qed.

Lemma digits_number k n : forallb number_char (fixed_digits 10 k n) = true /\ existsb mark_char (fixed_digits 10 k n) = false.
Proof.
  revert n; induction k as [|k IH]; intros n; cbn [fixed_digits]; [auto|]. destruct (IH (n / 10)) as [H1 H2].
  destruct (digit_number (n mod 10) (Z.mod_pos_bound n 10 ltac:(lia))) as [D1 D2].
  rewrite forallb_app, existsb_app, H1, H2. cbn [forallb existsb]. now rewrite D1, D2.
Qed.

Lemma int_number n : forallb number_char (int_chars n) = true /\ existsb mark_char (int_chars n) = false.
Proof. unfold int_chars, nat_digits. destruct (n <? 0); [cbn [forallb existsb]|]; apply digits_number. Qed.

Lemma nat_digits_inj n m : 0 <= n -> 0 <= m -> nat_digits n = nat_digits m -> n = m.
Proof.
  intros Hn Hm E. pose proof (scan_nat n 0 0 false Hn) as A. rewrite E, (scan_nat m 0 0 false Hm) in A. injection A as A. lia.
Qed.

Lemma int_chars_inj n m : int_chars n = int_chars m -> n = m.
Proof.
  unfold int_chars. intros E.
  destruct (Z.ltb_spec n 0), (Z.ltb_spec m 0).
  - injection E as E. apply nat_digits_inj in E; lia.
  - destruct (nat_digits_head m []) as (c & l & Ec & N). rewrite app_nil_r in Ec. rewrite Ec in E. injection E as E _. now destruct N.
  - destruct (nat_digits_head n []) as (c & l & Ec & N). rewrite app_nil_r in Ec. rewrite Ec in E. injection E as E _. now destruct N.
  - apply nat_digits_inj in E; lia.
Qed.

Lemma int_head n : exists c l, int_chars n = c :: l /\ number_char c = true.
Proof.
  destruct (int_number n) as [H _]. destruct (int_chars n) as [|c l] eqn:E.
  - exfalso. unfold int_chars in E. destruct (n <? 0); [discriminate|]. destruct (nat_digits_head n []) as (c & l & Ec & _).
    rewrite app_nil_r in Ec. congruence.
  - cbn [forallb] in H. apply andb_true_iff in H as [H _]. eauto.
Qed.

(** ** Values *)

(** The floats of the value have the texts of finite floats. *)
Fixpoint floats_ok (j : json) : bool :=
  match j with
  | JFloat t => float_text t
  | JArr l => forallb floats_ok l
  | JObj l => forallb (fun kv => floats_ok (snd kv)) l
  | _ => true
  end.

Definition value_head (j : json) : ascii :=
  match plain j with [] => quote_char | c :: _ => c end.

(** The first character tells the kind of the value. *)
Definition kind_head (j : json) (c : ascii) : Prop :=
  match j with
  | JNull => c = "n"%char
  | JBool b => c = if b then "t"%char else "f"%char
  | JInt _ | JFloat _ => number_char c = true
  | JStr _ => c = quote_char
  | JArr _ => c = "["%char
  | JObj _ => c = "{"%char
  end.

Lemma plain_head j : floats_ok j = true -> exists c l, plain j = c :: l /\ kind_head j c.
Proof.
  intros F. destruct j as [|[]|n|t|s|l|l]; cbn [plain kind_head]; try (eexists _, _; split; reflexivity).
  - destruct (int_head n) as (c & l & -> & H). eauto.
  - cbn [floats_ok] in F. apply andb_true_iff in F as [H1 H2]. destruct (list_ascii_of_string t) as [|c l]; [discriminate|].
    cbn [forallb] in H1. apply andb_true_iff in H1 as [H1 _]. eauto.
Qed.

(** No value begins with a closing bracket. *)
Lemma kind_not_close j c : kind_head j c -> c <> "]"%char.
Proof. destruct j as [|[]|n|t|s|l|l]; cbn [kind_head]; intros H E; subst; try discriminate; congruence. Qed.

(** Two values that begin alike have the same kind. *)
Definition value_kind (j : json) : nat :=
  match j with JNull => 0 | JBool true => 1 | JBool false => 2 | JInt _ | JFloat _ => 3 | JStr _ => 4 | JArr _ => 5 | JObj _ => 6 end.

Lemma same_kind j j' r r' : floats_ok j = true -> floats_ok j' = true -> plain j ++ r = plain j' ++ r' -> value_kind j = value_kind j'.
Proof.
  intros F F' E. destruct (plain_head j F) as (c & l & Ec & K), (plain_head j' F') as (c' & l' & Ec' & K').
  rewrite Ec, Ec' in E. injection E as <- _.
  destruct j as [|[]|n|t|s|k|k], j' as [|[]|n'|t'|s'|k'|k']; cbn [kind_head value_kind] in *; subst; try reflexivity; discriminate.
Qed.

(** A separated list of codes is a code. *)
Section Join.
Context {A : Type} (p : A -> list ascii) (ok : A -> bool) (close : ascii).
Context (Hclose : number_char close = false) (Hcomma : close <> ","%char).
Context (Hhead : forall a l r, ok a = true -> p a ++ l <> close :: r).

Lemma join_inj l l' r r' :
  Forall (fun a => forall a' x x', ok a = true -> ok a' = true -> delimited x -> delimited x' -> p a ++ x = p a' ++ x' -> a = a' /\ x = x') l ->
  forallb ok l = true -> forallb ok l' = true ->
  join [","%char] (map p l) ++ close :: r = join [","%char] (map p l') ++ close :: r' -> l = l' /\ r = r'.
Proof.
  intros H. revert l'. induction H as [|a l Ha _ IH]; intros l' F F' E.
  - destruct l' as [|b l']; [cbn in E; injection E as ->; auto|]. exfalso. cbn [forallb] in F'. apply andb_true_iff in F' as [Fb _].
    cbn [map join] in E. destruct (map p l') eqn:M; [exact (Hhead b _ _ Fb (eq_sym E))|].
    rewrite <- app_assoc in E. exact (Hhead b _ _ Fb (eq_sym E)).
  - cbn [forallb] in F. apply andb_true_iff in F as [Fa F]. destruct l' as [|b l'].
    + exfalso. cbn [map join] in E. destruct (map p l) eqn:M; [exact (Hhead a _ _ Fa E)|].
      rewrite <- app_assoc in E. exact (Hhead a _ _ Fa E).
    + cbn [forallb] in F'. apply andb_true_iff in F' as [Fb F'].
      destruct l as [|a2 l], l' as [|b2 l'].
      * cbn [map join] in E. destruct (Ha b (close :: r) (close :: r') Fa Fb Hclose Hclose E) as [-> E']. injection E' as ->. auto.
      * change (join [","%char] (map p [a])) with (p a) in E.
        change (join [","%char] (map p (b :: b2 :: l'))) with (p b ++ [","%char] ++ join [","%char] (map p (b2 :: l'))) in E.
        rewrite <- !app_assoc in E. destruct (Ha b (close :: r) ([","%char] ++ join [","%char] (map p (b2 :: l')) ++ close :: r') Fa Fb Hclose eq_refl E) as [_ E'].
        injection E' as E' _. now destruct Hcomma.
      * change (join [","%char] (map p [b])) with (p b) in E.
        change (join [","%char] (map p (a :: a2 :: l))) with (p a ++ [","%char] ++ join [","%char] (map p (a2 :: l))) in E.
        rewrite <- !app_assoc in E. destruct (Ha b ([","%char] ++ join [","%char] (map p (a2 :: l)) ++ close :: r) (close :: r') Fa Fb eq_refl Hclose E) as [_ E'].
        injection E' as E' _. now destruct Hcomma.
      * change (join [","%char] (map p (a :: a2 :: l))) with (p a ++ [","%char] ++ join [","%char] (map p (a2 :: l))) in E.
        change (join [","%char] (map p (b :: b2 :: l'))) with (p b ++ [","%char] ++ join [","%char] (map p (b2 :: l'))) in E.
        rewrite <- !app_assoc in E.
        destruct (Ha b ([","%char] ++ join [","%char] (map p (a2 :: l)) ++ close :: r) ([","%char] ++ join [","%char] (map p (b2 :: l')) ++ close :: r')
          Fa Fb eq_refl eq_refl E) as [-> E'].
        cbn [app] in E'. injection E' as E'. destruct (IH (b2 :: l') F F' E') as [-> ->]. auto.
Qed.
End Join.

(** Printed values followed by a separator are read back in one way. *)
Lemma plain_inj : forall j j' r r', floats_ok j = true -> floats_ok j' = true -> delimited r -> delimited r' ->
  plain j ++ r = plain j' ++ r' -> j = j' /\ r = r'.
Proof.
  intros j; induction j as [|b|n|t|s|l IH|l IH] using json_elements; intros j' r r' F F' D D' E;
    pose proof (same_kind _ _ _ _ F F' E) as K.
  - destruct j' as [|[]|n'|t'|s'|k'|k']; try discriminate K. cbn [plain] in E. apply app_inv_head in E. auto.
  - destruct b, j' as [|[]|n'|t'|s'|k'|k']; try discriminate K; cbn [plain] in E; apply app_inv_head in E; auto.
  - destruct j' as [|[]|n'|t'|s'|k'|k']; try discriminate K; cbn [plain] in E; cbn [floats_ok] in F'.
    + destruct (number_token _ _ _ _ (proj1 (int_number n)) (proj1 (int_number n')) D D' E) as [E1 ->]. now rewrite (int_chars_inj _ _ E1).
    + apply andb_true_iff in F' as [F1 F2]. destruct (number_token _ _ _ _ (proj1 (int_number n)) F1 D D' E) as [E1 _].
      pose proof (proj2 (int_number n)) as M. rewrite E1 in M. congruence.
  - destruct j' as [|[]|n'|t'|s'|k'|k']; try discriminate K; cbn [plain] in E; cbn [floats_ok] in F, F'; apply andb_true_iff in F as [F1 F2].
    + destruct (number_token _ _ _ _ F1 (proj1 (int_number n')) D D' E) as [E1 _].
      pose proof (proj2 (int_number n')) as M. rewrite <- E1 in M. congruence.
    + apply andb_true_iff in F' as [F1' _]. destruct (number_token _ _ _ _ F1 F1' D D' E) as [E1 ->].
      apply (f_equal string_of_list_ascii) in E1. rewrite !string_of_list_ascii_of_string in E1. now subst.
  - destruct j' as [|[]|n'|t'|s'|k'|k']; try discriminate K; cbn [plain] in E. apply quote_inj in E as [-> ->]. auto.
  - destruct j' as [|[]|n'|t'|s'|k'|k']; try discriminate K; cbn [plain] in E; cbn [floats_ok] in F, F'.
    cbn [app] in E. injection E as E. rewrite <- !app_assoc in E. cbn [app] in E.
    destruct (join_inj plain floats_ok "]"%char eq_refl ltac:(discriminate)) with (l := l) (l' := k') (r := r) (r' := r') as [-> ->]; auto.
    intros a x y Fa. destruct (plain_head a Fa) as (c & m & -> & Kc). intros C. injection C as C _. exact (kind_not_close a c Kc C).
  - destruct j' as [|[]|n'|t'|s'|k'|k']; try discriminate K; cbn [plain] in E; cbn [floats_ok] in F, F'.
    cbn [app] in E. injection E as E. rewrite <- !app_assoc in E. cbn [app] in E.
    destruct (join_inj (fun kv => quote (fst kv) ++ ":"%char :: plain (snd kv)) (fun kv => floats_ok (snd kv)) "}"%char eq_refl ltac:(discriminate))
      with (l := l) (l' := k') (r := r) (r' := r') as [-> ->]; auto.
    eapply List.Forall_impl; [|exact IH]. intros [k v] Hv [k2 v2] x x' Fa Fa' Dx Dx' Ex. cbn [fst snd] in *.
    rewrite <- !app_assoc in Ex. apply quote_inj in Ex as [-> Ex]. cbn [app] in Ex. injection Ex as Ex.
    destruct (Hv _ _ _ Fa Fa' Dx Dx' Ex) as [-> ->]. auto.
Qed.

Lemma floats_canonical j : floats_ok (canonical j) = floats_ok j.
Proof.
  induction j as [|b|n|t|s|l IH|l IH] using json_elements; cbn [canonical floats_ok]; try reflexivity.
  - induction IH as [|x l Hx _ IHl]; cbn [map forallb]; [reflexivity | now rewrite Hx, IHl].
  - transitivity (forallb (fun kv => floats_ok (snd kv)) (map (fun kv : string * json => (fst kv, canonical (snd kv))) l)).
    + apply eq_true_iff_eq. rewrite !forallb_forall.
      split; intros H x I; apply H; (eapply Permutation.Permutation_in; [|exact I]); [symmetry|]; apply sort_by_perm.
    + induction IH as [|x l Hx _ IHl]; cbn [map forallb snd]; [reflexivity | now rewrite Hx, IHl].
Qed.

(** Sorting does not change what a key holds. *)
Lemma dict_get_perm {V} (l l' : list (string * V)) k : Permutation l l' -> NoDup (map fst l) -> dict_get l k = dict_get l' k.
Proof.
  intros P N. assert (N' : NoDup (map fst l')) by (now rewrite <- (Permutation_map fst P)).
  destruct (dict_get l k) as [v|] eqn:E.
  - symmetry. apply dict_get_NoDup; [exact N'|]. eapply Permutation.Permutation_in; [exact P|].
    clear -E. induction l as [|[k' v'] l IH]; [discriminate|]. cbn [dict_get] in E. destruct (decide (k = k')) as [->|n].
    + injection E as ->. now left.
    + right. now apply IH.
  - destruct (dict_get l' k) as [v|] eqn:E'; [|reflexivity]. exfalso.
    assert (Hk : elem_of k (map fst l')) by (apply dict_get_key; eauto).
    rewrite <- (Permutation_map fst P) in Hk. apply dict_get_key in Hk as [v' Hv]. congruence.
Qed.

Lemma dict_get_map {V W} (f : V -> W) (l : list (string * V)) k :
  dict_get (map (fun kv => (fst kv, f (snd kv))) l) k = option_map f (dict_get l k).
Proof. induction l as [|[k' v] l IH]; [reflexivity|]. cbn [map dict_get fst snd]. destruct (decide (k = k')); [reflexivity | exact IH]. Qed.

Lemma canonical_get l k : NoDup (map fst l) -> dict_get (sort_by fst (map (fun kv => (fst kv, canonical (snd kv))) l)) k = option_map canonical (dict_get l k).
Proof.
  intros N. rewrite <- dict_get_map. symmetry. apply dict_get_perm; [symmetry; apply sort_by_perm|].
  rewrite map_map. cbn [fst]. exact N.
Qed.

(** Equal texts are equal values, up to the order of keys. *)
Lemma dumps_text_inj j j' : floats_ok j = true -> floats_ok j' = true -> dumps_text j = dumps_text j' -> canonical j = canonical j'.
Proof.
  unfold dumps_text. intros F F' E. apply (f_equal list_ascii_of_string) in E. rewrite !list_ascii_of_string_of_list_ascii, !dumps_canonical in E.
  destruct (plain_inj (canonical j) (canonical j') [] []) as [H _]; rewrite ?floats_canonical, ?app_nil_r; auto; exact I.
Qed.

(** C31: The canonical text is injective: two frozen values have the same text
    exactly when they are equal up to the order of the keys of their objects,
    at every level; and objects with the same text hold, under every key,
    values that are equal in this sense. *)
Theorem canonical_json_injective j j' : floats_ok j = true -> floats_ok j' = true ->
  (dumps_text j = dumps_text j' <-> canonical j = canonical j') /\
  (forall l l' k, j = JObj l -> j' = JObj l' -> NoDup (map fst l) -> NoDup (map fst l') -> dumps_text j = dumps_text j' ->
     option_map canonical (dict_get l k) = option_map canonical (dict_get l' k)).
Proof.
  intros F F'. split.
  - split; [now apply dumps_text_inj|]. unfold dumps_text. rewrite !dumps_canonical. now intros ->.
  - intros l l' k -> -> N N' E. apply dumps_text_inj in E; auto. cbn [canonical] in E. injection E as E.
    rewrite <- !canonical_get by assumption. now rewrite E.
Qed.

Lemma canonical_json_injective_witness : exists text,
  dumps_text (JObj [("b", JFloat "1.5"); ("a", JArr [JInt 1; JNull])]) = text /\
  dumps_text (JObj [("a", JArr [JInt 1; JNull]); ("b", JFloat "1.5")]) = text /\
  dumps_text (JObj [("a", JStr "1,null")]) <> dumps_text (JObj [("a", JArr [JInt 1; JNull])]).
Proof.
  eexists. split; [reflexivity|]. split.
  - apply (proj1 (canonical_json_injective (JObj [("a", JArr [JInt 1; JNull]); ("b", JFloat "1.5")])
      (JObj [("b", JFloat "1.5"); ("a", JArr [JInt 1; JNull])]) eq_refl eq_refl)). vm_compute. reflexivity.
  - intros C. apply (proj1 (canonical_json_injective (JObj [("a", JStr "1,null")]) (JObj [("a", JArr [JInt 1; JNull])]) eq_refl eq_refl)) in C. discriminate.
Defined.

(** A digest that tells texts of different lengths apart, up to 256. *)
Definition length_digest (s : string) : string :=
  let n := Z.of_nat (String.length s) in string_of_list_ascii (repeat "0"%char 62 ++ fixed_digits 16 2 (n mod 256)).
