(* ===== verification/Sessions.v ===== *)
(** * Operator sessions: [maais/security/sessions.py],
    [maais/db/repositories/sessions.py] and their callers in [api/security.py]
    and [api/app.py]

    Opaque session tokens, their table and the throttle of failed logins.  A
    table is a list of rows, a transaction a function from the tables to the
    tables it commits: one that raises commits nothing.  The keyed digest, the
    values drawn by [secrets.token_urlsafe] and [uuid4], the answer of the
    password verifier and the wall clock are arguments. *)

From Stdlib Require Import ZArith Lia List Bool String Ascii.
From stdpp Require Import base decidable list strings.
From S2P Require Import Prelude PyDecimal Domain Json MarketEvents EventLog Authorization Manifest.

Local Open Scope Z_scope.

(** ** Errors *)

Inductive session_error : Type :=
| SessionAuthenticationError (reason_code : string) (session_id : option UUID) (terminal_at : option datetime)
| SessionConflict (msg : string)
| LoginAuthenticationError
| Python (e : exn)
| StillDrawing.

#[export] Instance session_error_eq_dec : EqDecision session_error.
Proof. solve_decision. Defined.

Definition INVALID_SESSION : string := "invalid_session".
Definition invalid_session : session_error := SessionAuthenticationError INVALID_SESSION None None.

Definition minutes (n : Z) : timedelta := seconds (n * 60).
Definition SESSION_ABSOLUTE_TTL : timedelta := minutes 720.
Definition SESSION_IDLE_TTL : timedelta := minutes 30.
Definition LOGIN_WINDOW : timedelta := minutes 15.
Definition LOGIN_MAX_FAILURES : Z := 5.
Definition LOGIN_LOCKOUT : timedelta := minutes 30.

(** ** Sessions *)

Record OperatorSession : Type := {
  os_id : UUID;
  os_token_hash : string;
  os_csrf_hash : string;
  os_actor : string;
  os_created_at : datetime;
  os_last_seen_at : datetime;
  os_expires_at : datetime;
  os_revoked_at : option datetime;
  os_version : Z
}.

#[export] Instance OperatorSession_eq_dec : EqDecision OperatorSession.
Proof. solve_decision. Defined.

Definition require_hash (value name : string) : result unit :=
  raise_if (negb (digest_text value)) (ValueError (name +:+ " hash must be a lowercase SHA-256 digest")).

Definition session_utc (value : datetime) (name : string) : result unit :=
  raise_if (negb (is_utc value)) (ValueError (name +:+ " must be timezone-aware UTC")).

Definition later (a b : option datetime) : bool :=
  match a, b with Some x, Some y => dt_ltb x y | _, _ => false end.

Definition OperatorSession_post_init (s : OperatorSession) : result OperatorSession :=
  do* require_hash (os_token_hash s) "session token" ;;
  do* require_hash (os_csrf_hash s) "CSRF token" ;;
  do* raise_if (bool_decide (os_token_hash s = os_csrf_hash s))
        (ValueError "session and CSRF token hashes must be independent") ;;
  do* raise_if (negb (is_ascii (os_actor s)) || negb (trimmed (os_actor s)) ||
                negb ((1 <=? String.length (os_actor s)) && (String.length (os_actor s) <=? 64))%nat)
        (ValueError "session actor must be 1-64 trimmed ASCII characters") ;;
  do* iterM (fun x => session_utc (snd x) (fst x))
        [("created_at", os_created_at s); ("last_seen_at", os_last_seen_at s); ("expires_at", os_expires_at s)] ;;
  do* opt_check (fun t => session_utc t "revoked_at") (os_revoked_at s) ;;
  do* raise_if (negb (dt_leb (os_created_at s) (os_last_seen_at s) && dt_leb (os_last_seen_at s) (os_expires_at s)))
        (ValueError "session timestamps are out of order") ;;
  do* raise_if (negb (dt_eqb (os_expires_at s) (dt_add (os_created_at s) SESSION_ABSOLUTE_TTL)))
        (ValueError "session absolute TTL must remain fixed at 12 hours") ;;
  do* raise_if (match os_revoked_at s with Some t => dt_ltb t (os_last_seen_at s) | None => false end)
        (ValueError "session revocation cannot precede last activity") ;;
  do* raise_if (os_version s <? 1) (ValueError "session version must be positive") ;;
  Ok s.

Definition active (s : OperatorSession) : bool := negb (present (os_revoked_at s)).

Definition session_revoke (s : OperatorSession) (revoked_at : datetime) : result OperatorSession :=
  do* session_utc revoked_at "revoked_at" ;;
  if present (os_revoked_at s) then Ok s
  else
    do* raise_if (dt_ltb revoked_at (os_last_seen_at s)) (ValueError "session revocation cannot precede last activity") ;;
    OperatorSession_post_init {|
      os_id := os_id s; os_token_hash := os_token_hash s; os_csrf_hash := os_csrf_hash s; os_actor := os_actor s;
      os_created_at := os_created_at s; os_last_seen_at := os_last_seen_at s; os_expires_at := os_expires_at s;
      os_revoked_at := Some revoked_at; os_version := os_version s + 1 |}.

Record NewSessionRequest : Type := {
  ns_id : UUID;
  ns_token_hash : string;
  ns_csrf_hash : string;
  ns_actor : string;
  ns_created_at : datetime;
  ns_expires_at : datetime
}.

Definition to_session (r : NewSessionRequest) : result OperatorSession :=
  OperatorSession_post_init {|
    os_id := ns_id r; os_token_hash := ns_token_hash r; os_csrf_hash := ns_csrf_hash r; os_actor := ns_actor r;
    os_created_at := ns_created_at r; os_last_seen_at := ns_created_at r; os_expires_at := ns_expires_at r;
    os_revoked_at := None; os_version := 1 |}.

Record IssuedSession : Type := { is_session : OperatorSession; is_token : string; is_csrf_token : string }.

Definition to_request (i : IssuedSession) : NewSessionRequest := {|
  ns_id := os_id (is_session i); ns_token_hash := os_token_hash (is_session i); ns_csrf_hash := os_csrf_hash (is_session i);
  ns_actor := os_actor (is_session i); ns_created_at := os_created_at (is_session i);
  ns_expires_at := os_expires_at (is_session i) |}.

(** [replace(session, ...)] of a rotation or an observation. *)
Definition session_touch (s : OperatorSession) (token_hash csrf_hash : string) (observed_at : datetime) : result OperatorSession :=
  OperatorSession_post_init {|
    os_id := os_id s; os_token_hash := token_hash; os_csrf_hash := csrf_hash; os_actor := os_actor s;
    os_created_at := os_created_at s; os_last_seen_at := observed_at; os_expires_at := os_expires_at s;
    os_revoked_at := os_revoked_at s; os_version := os_version s + 1 |}.

(** The end of a session that is not revoked. *)
Definition terminal_time (s : OperatorSession) : datetime :=
  let idle := dt_add (os_last_seen_at s) SESSION_IDLE_TTL in
  if dt_ltb idle (os_expires_at s) then idle else os_expires_at s.

Definition require_authenticatable_session (session : option OperatorSession) (observed_at : datetime)
  : outcome session_error OperatorSession :=
  do* map_exn Python (session_utc observed_at "observed_at") ;;
  let* s := of_option invalid_session session in
  do* raise_if (negb (active s)) (SessionAuthenticationError "session_revoked" (Some (os_id s)) (os_revoked_at s)) ;;
  do* raise_if (dt_leb (terminal_time s) observed_at)
        (SessionAuthenticationError "session_expired" (Some (os_id s)) (Some (terminal_time s))) ;;
  Ok s.

(** The loop that draws a CSRF token until it differs from the session token;
    [draws] are the values it is given. *)
Fixpoint draw_csrf (token : string) (draws : list string) : outcome session_error string :=
  match draws with
  | [] => Raise StillDrawing
  | csrf :: draws' => if bool_decide (token = csrf) then draw_csrf token draws' else Ok csrf
  end.

Section Tokens.
Context (hmac_sha256_hex : string -> string -> string).

Definition opaque_token_hash (token pepper : string) : result string :=
  do* raise_if (empty token || negb (is_ascii token)) (ValueError "opaque token must be nonempty ASCII") ;;
  Ok (hmac_sha256_hex pepper token).

Definition issue_session_tokens (actor : string) (observed_at : datetime) (session_pepper csrf_pepper : string)
    (session_id : UUID) (token : string) (draws : list string) : outcome session_error IssuedSession :=
  do* map_exn Python (session_utc observed_at "observed_at") ;;
  let* csrf_token := draw_csrf token draws in
  let* token_hash := map_exn Python (opaque_token_hash token session_pepper) in
  let* csrf_hash := map_exn Python (opaque_token_hash csrf_token csrf_pepper) in
  let* session := map_exn Python (OperatorSession_post_init {|
    os_id := session_id; os_token_hash := token_hash; os_csrf_hash := csrf_hash; os_actor := actor;
    os_created_at := observed_at; os_last_seen_at := observed_at; os_expires_at := dt_add observed_at SESSION_ABSOLUTE_TTL;
    os_revoked_at := None; os_version := 1 |}) in
  Ok {| is_session := session; is_token := token; is_csrf_token := csrf_token |}.

Definition rotate_session_tokens (session : OperatorSession) (observed_at : datetime) (session_pepper csrf_pepper : string)
    (token : string) (draws : list string) : outcome session_error IssuedSession :=
  let* _ := require_authenticatable_session (Some session) observed_at in
  let* csrf_token := draw_csrf token draws in
  let* token_hash := map_exn Python (opaque_token_hash token session_pepper) in
  let* csrf_hash := map_exn Python (opaque_token_hash csrf_token csrf_pepper) in
  let* rotated := map_exn Python (session_touch session token_hash csrf_hash observed_at) in
  Ok {| is_session := rotated; is_token := token; is_csrf_token := csrf_token |}.

Definition rotate_csrf_token (session : OperatorSession) (observed_at : datetime) (csrf_pepper csrf_token : string)
  : outcome session_error (OperatorSession * string) :=
  let* _ := require_authenticatable_session (Some session) observed_at in
  let* csrf_hash := map_exn Python (opaque_token_hash csrf_token csrf_pepper) in
  let* rotated := map_exn Python (session_touch session (os_token_hash session) csrf_hash observed_at) in
  Ok (rotated, csrf_token).

Definition verify_csrf_token (presented_token expected_hash pepper : string) : result bool :=
  let presented_hash := match opaque_token_hash presented_token pepper with
                        | Ok h => h
                        | Raise _ => hmac_sha256_hex pepper "invalid"
                        end in
  compare_digest presented_hash expected_hash.
End Tokens.

(** ** The session table *)

Definition table : Type := list OperatorSession.

(** [select ... where p], through [_session_from_row], which runs the constructor's checks. *)
Definition fetch (p : OperatorSession -> bool) (rows : table) : outcome session_error (option OperatorSession) :=
  match List.find p rows with
  | None => Ok None
  | Some row => let* s := map_exn Python (OperatorSession_post_init row) in Ok (Some s)
  end.

Definition has_id (id : UUID) (s : OperatorSession) : bool := os_id s =? id.
Definition has_token (h : string) (s : OperatorSession) : bool := bool_decide (os_token_hash s = h).
Definition has_csrf (h : string) (s : OperatorSession) : bool := bool_decide (os_csrf_hash s = h).

(** The row of an identity is written. *)
Definition write (s : OperatorSession) (rows : table) : table :=
  map (fun r => if has_id (os_id s) r then s else r) rows.

(** A unique column of another row holds the value. *)
Definition conflicts (c r : OperatorSession) : bool :=
  has_id (os_id c) r || has_token (os_token_hash c) r || has_csrf (os_csrf_hash c) r.

Definition session_issue (rows : table) (request : NewSessionRequest) : outcome session_error (table * OperatorSession) :=
  let* candidate := map_exn Python (to_session request) in
  if existsb (conflicts candidate) rows then
    let* row := fetch (conflicts candidate) rows in
    if bool_decide (row = Some candidate) then Ok (rows, candidate)
    else Raise (SessionConflict "operator session identifier or token hash conflicts")
  else Ok (rows ++ [candidate], candidate).

Definition authenticate (rows : table) (token_hash : string) (observed_at : datetime)
  : outcome session_error (table * OperatorSession) :=
  let* current := fetch (has_token token_hash) rows in
  let* authenticated := require_authenticatable_session current observed_at in
  let* updated := map_exn Python (session_touch authenticated (os_token_hash authenticated) (os_csrf_hash authenticated) observed_at) in
  Ok (write updated rows, updated).

Definition session_check (rows : table) (token_hash : string) (observed_at : datetime) : outcome session_error OperatorSession :=
  let* current := fetch (has_token token_hash) rows in require_authenticatable_session current observed_at.

Definition _locked_session (rows : table) (id : UUID) : outcome session_error OperatorSession :=
  let* current := fetch (has_id id) rows in of_option invalid_session current.

Definition stale_rotation (candidate current : OperatorSession) : bool :=
  negb (bool_decide (os_actor candidate = os_actor current)) ||
  negb (bool_decide (os_created_at candidate = os_created_at current)) ||
  negb (bool_decide (os_expires_at candidate = os_expires_at current)) ||
  present (os_revoked_at candidate) ||
  negb (os_version candidate =? os_version current + 1) ||
  dt_ltb (os_last_seen_at candidate) (os_last_seen_at current).

Definition session_rotate (rows : table) (candidate : OperatorSession) : outcome session_error (table * OperatorSession) :=
  let* current := _locked_session rows (os_id candidate) in
  let* _ := require_authenticatable_session (Some current) (os_last_seen_at candidate) in
  do* raise_if (stale_rotation candidate current || bool_decide (os_token_hash candidate = os_token_hash current) ||
                bool_decide (os_csrf_hash candidate = os_csrf_hash current))
        (SessionConflict "session rotation evidence is stale or invalid") ;;
  do* raise_if (existsb (fun r => negb (has_id (os_id candidate) r) &&
                           (has_token (os_token_hash candidate) r || has_csrf (os_csrf_hash candidate) r)) rows)
        (SessionConflict "session rotation token hash conflicts") ;;
  Ok (write candidate rows, candidate).

Definition session_rotate_csrf (rows : table) (candidate : OperatorSession) : outcome session_error (table * OperatorSession) :=
  let* current := _locked_session rows (os_id candidate) in
  let* _ := require_authenticatable_session (Some current) (os_last_seen_at candidate) in
  do* raise_if (stale_rotation candidate current || negb (bool_decide (os_token_hash candidate = os_token_hash current)) ||
                bool_decide (os_csrf_hash candidate = os_csrf_hash current))
        (SessionConflict "CSRF rotation evidence is stale or invalid") ;;
  do* raise_if (existsb (fun r => negb (has_id (os_id candidate) r) && has_csrf (os_csrf_hash candidate) r) rows)
        (SessionConflict "CSRF rotation token hash conflicts") ;;
  Ok (write candidate rows, candidate).

Definition session_revoke_id (rows : table) (id : UUID) (revoked_at : datetime) : outcome session_error (table * OperatorSession) :=
  let* current := _locked_session rows id in
  let* updated := map_exn Python (session_revoke current revoked_at) in
  Ok (write updated rows, updated).

(** [order_by(OperatorSessionModel.id)]. *)
Fixpoint insert_row (s : OperatorSession) (l : table) : table :=
  match l with
  | [] => [s]
  | r :: l' => if os_id s <=? os_id r then s :: r :: l' else r :: insert_row s l'
  end.
Definition sort_rows (l : table) : table := fold_right insert_row [] l.

(** The active rows, in the order of their identifiers, each revoked. *)
Definition revoke_all_active (rows : table) (revoked_at : datetime) : outcome session_error (table * list OperatorSession) :=
  let* revoked := mapM (fun row => let* s := map_exn Python (OperatorSession_post_init row) in
                                   map_exn Python (session_revoke s revoked_at))
                    (sort_rows (List.filter active rows)) in
  Ok (fold_left (fun acc s => write s acc) revoked rows, revoked).

(** ** The login throttle *)

Record OperatorAuthState : Type := {
  oa_failed_attempts : Z;
  oa_window_started_at : option datetime;
  oa_locked_until : option datetime;
  oa_updated_at : datetime;
  oa_version : Z
}.

Definition OperatorAuthState_post_init (a : OperatorAuthState) : result OperatorAuthState :=
  do* session_utc (oa_updated_at a) "updated_at" ;;
  do* opt_check (fun t => session_utc t "window_started_at") (oa_window_started_at a) ;;
  do* opt_check (fun t => session_utc t "locked_until") (oa_locked_until a) ;;
  do* raise_if (negb ((0 <=? oa_failed_attempts a) && (oa_failed_attempts a <=? LOGIN_MAX_FAILURES)) || (oa_version a <? 1))
        (ValueError "login throttle counts and version must be valid") ;;
  do* (if oa_failed_attempts a =? 0 then
         raise_if (present (oa_window_started_at a) || present (oa_locked_until a))
           (ValueError "clean login throttle state cannot retain a window or lockout")
       else if negb (present (oa_window_started_at a)) then Raise (ValueError "failed login state requires a window")
       else if (oa_failed_attempts a <? LOGIN_MAX_FAILURES) && present (oa_locked_until a) then
         Raise (ValueError "login throttle cannot lock before the fifth failure")
       else raise_if ((oa_failed_attempts a =? LOGIN_MAX_FAILURES) &&
                      negb match oa_locked_until a with
                           | Some t => dt_eqb t (dt_add (oa_updated_at a) LOGIN_LOCKOUT)
                           | None => false
                           end)
              (ValueError "the fifth login failure requires the fixed lockout")) ;;
  do* raise_if match oa_window_started_at a with Some w => dt_ltb (oa_updated_at a) w | None => false end
        (ValueError "login throttle timestamps are out of order") ;;
  Ok a.

Definition locked (a : OperatorAuthState) (observed_at : datetime) : result bool :=
  do* session_utc observed_at "observed_at" ;;
  Ok match oa_locked_until a with Some t => dt_ltb observed_at t | None => false end.

(** The singleton row: inserted clean when it is missing, read through the constructor. *)
Definition _locked_auth_state (row : option OperatorAuthState) (observed_at : datetime) : result OperatorAuthState :=
  do* raise_if (negb (is_utc observed_at)) (ValueError "login observation must be timezone-aware UTC") ;;
  OperatorAuthState_post_init match row with
    | Some a => a
    | None => {| oa_failed_attempts := 0; oa_window_started_at := None; oa_locked_until := None;
                 oa_updated_at := observed_at; oa_version := 1 |}
    end.

Definition login_state (row : option OperatorAuthState) (observed_at : datetime) : outcome session_error OperatorAuthState :=
  map_exn Python (_locked_auth_state row observed_at).

Definition require_login_allowed (row : option OperatorAuthState) (observed_at : datetime) : outcome session_error OperatorAuthState :=
  let* current := login_state row observed_at in
  let* is_locked := map_exn Python (locked current observed_at) in
  do* raise_if is_locked LoginAuthenticationError ;;
  Ok current.

Definition regressed_login : exn := ValueError "login observation cannot precede durable throttle state".

(** The window that a failure falls in. *)
Definition window_closed (a : OperatorAuthState) (observed_at : datetime) : bool :=
  match oa_window_started_at a with Some w => dt_leb (dt_add w LOGIN_WINDOW) observed_at | None => true end.

Definition record_login_failure (row : option OperatorAuthState) (observed_at : datetime) : outcome session_error OperatorAuthState :=
  let* current := login_state row observed_at in
  do* raise_if (dt_ltb observed_at (oa_updated_at current)) (Python regressed_login) ;;
  let* is_locked := map_exn Python (locked current observed_at) in
  if is_locked then Ok current
  else
    let '(failed_attempts, window_started_at) :=
      if window_closed current observed_at then (1, Some observed_at)
      else (oa_failed_attempts current + 1, oa_window_started_at current) in
    map_exn Python (OperatorAuthState_post_init {|
      oa_failed_attempts := failed_attempts; oa_window_started_at := window_started_at;
      oa_locked_until := if LOGIN_MAX_FAILURES <=? failed_attempts then Some (dt_add observed_at LOGIN_LOCKOUT) else None;
      oa_updated_at := observed_at; oa_version := oa_version current + 1 |}).

Definition record_login_success (row : option OperatorAuthState) (observed_at : datetime) : outcome session_error OperatorAuthState :=
  let* current := login_state row observed_at in
  do* raise_if (dt_ltb observed_at (oa_updated_at current)) (Python regressed_login) ;;
  let* is_locked := map_exn Python (locked current observed_at) in
  do* raise_if is_locked LoginAuthenticationError ;;
  map_exn Python (OperatorAuthState_post_init {|
    oa_failed_attempts := 0; oa_window_started_at := None; oa_locked_until := None;
    oa_updated_at := observed_at; oa_version := oa_version current + 1 |}).

(** ** The web handlers *)

Record auth_store : Type := { as_sessions : table; as_throttle : option OperatorAuthState }.

Inductive login_outcome : Type :=
| LoginBlocked
| LoginRejected (lockout_started : bool)
| LoggedIn (issued : IssuedSession) (revoked : list OperatorSession).

(** The values that one request draws. *)
Record draws : Type := { dw_session_id : UUID; dw_token : string; dw_csrf : list string }.

Record security_settings : Type := { se_session_pepper : string; se_csrf_pepper : string }.

Section Web.
Context (hmac_sha256_hex : string -> string -> string) (settings : security_settings).

(** [login]: the transaction of one request; [valid] is the answer of the
    password verifier, which runs only when the throttle allows it. *)
Definition login (st : auth_store) (observed_at : datetime) (valid : bool) (d : draws)
  : outcome session_error (auth_store * login_outcome) :=
  match require_login_allowed (as_throttle st) observed_at with
  | Raise LoginAuthenticationError =>
      let* a := login_state (as_throttle st) observed_at in
      Ok ({| as_sessions := as_sessions st; as_throttle := Some a |}, LoginBlocked)
  | Raise e => Raise e
  | Ok current =>
      if valid then
        let* a := record_login_success (Some current) observed_at in
        let* revoked := revoke_all_active (as_sessions st) observed_at in
        let* issued := issue_session_tokens hmac_sha256_hex "sole_operator" observed_at (se_session_pepper settings)
                         (se_csrf_pepper settings) (dw_session_id d) (dw_token d) (dw_csrf d) in
        let* stored := session_issue (fst revoked) (to_request issued) in
        Ok ({| as_sessions := fst stored; as_throttle := Some a |}, LoggedIn issued (snd revoked))
      else
        let* a := record_login_failure (Some current) observed_at in
        let* is_locked := map_exn Python (locked a observed_at) in
        Ok ({| as_sessions := as_sessions st; as_throttle := Some a |}, LoginRejected is_locked)
  end.

(** The session of a request, from its cookie: [require_operator], [authenticate_websocket]
    and [optional_operator_session] in session mode. *)
Definition cookie_hash (token : string) : string :=
  match opaque_token_hash hmac_sha256_hex token (se_session_pepper settings) with
  | Ok h => h
  | Raise _ => string_of_list_ascii (repeat "0"%char 64)
  end.

Definition require_operator (st : auth_store) (cookie : string) (observed_at : datetime)
  : outcome session_error (auth_store * OperatorSession) :=
  let* r := authenticate (as_sessions st) (cookie_hash cookie) observed_at in
  Ok ({| as_sessions := fst r; as_throttle := as_throttle st |}, snd r).

(** [require_csrf], past the comparison of origins. *)
Definition require_csrf (session : OperatorSession) (presented : string) : result bool :=
  verify_csrf_token hmac_sha256_hex presented (os_csrf_hash session) (se_csrf_pepper settings).

(** [csrf_bootstrap]: a new CSRF token for the session of the request. *)
Definition csrf_bootstrap (st : auth_store) (current : OperatorSession) (observed_at : datetime) (csrf_token : string)
  : outcome session_error (auth_store * string) :=
  let* issued := rotate_csrf_token hmac_sha256_hex current observed_at (se_csrf_pepper settings) csrf_token in
  let* r := session_rotate_csrf (as_sessions st) (fst issued) in
  Ok ({| as_sessions := fst r; as_throttle := as_throttle st |}, snd issued).

(** [logout] of the session of the request. *)
Definition logout (st : auth_store) (session_id : UUID) (revoked_at : datetime)
  : outcome session_error (auth_store * OperatorSession) :=
  let* r := session_revoke_id (as_sessions st) session_id revoked_at in
  Ok ({| as_sessions := fst r; as_throttle := as_throttle st |}, snd r).
End Web.

(** ** Facts *)

Definition session_valid (s : OperatorSession) : Prop := OperatorSession_post_init s = Ok s.

Lemma session_utc_Ok t f u : session_utc t f = Ok u <-> is_utc t = true.
Proof. unfold session_utc. rewrite raise_if_Ok. apply negb_false_iff. Qed.

Lemma session_post_init_same s s' : OperatorSession_post_init s = Ok s' -> s' = s.
Proof. unfold OperatorSession_post_init. intros H. now py_inv. Qed.

Lemma session_post_init_valid s s' : OperatorSession_post_init s = Ok s' -> session_valid s'.
Proof. intros H. pose proof (session_post_init_same _ _ H) as ->. exact H. Qed.

(** What the constructor promises of a session. *)
Record session_facts (s : OperatorSession) : Prop := {
  sf_hashes : digest_text (os_token_hash s) = true /\ digest_text (os_csrf_hash s) = true /\ os_token_hash s <> os_csrf_hash s;
  sf_actor : negb (is_ascii (os_actor s)) || negb (trimmed (os_actor s)) ||
             negb ((1 <=? String.length (os_actor s)) && (String.length (os_actor s) <=? 64))%nat = false;
  sf_utc : is_utc (os_created_at s) = true /\ is_utc (os_last_seen_at s) = true /\ is_utc (os_expires_at s) = true;
  sf_order : instant (os_created_at s) <= instant (os_last_seen_at s) <= instant (os_expires_at s);
  sf_ttl : instant (os_expires_at s) = instant (os_created_at s) + SESSION_ABSOLUTE_TTL;
  sf_revoked : forall t, os_revoked_at s = Some t -> is_utc t = true /\ instant (os_last_seen_at s) <= instant t;
  sf_version : 1 <= os_version s
}.

Lemma session_valid_facts s : session_valid s <-> session_facts s.
Proof.
  unfold session_valid, OperatorSession_post_init, require_hash, iterM. split.
  - intros H. py_inv. bool_prop. unfold dt_leb, dt_ltb in *. bool_prop. cbn [fst snd] in *.
    repeat match goal with H : session_utc _ _ = Ok _ |- _ => apply session_utc_Ok in H end.
    split; auto; try lia.
    + repeat match goal with H : ?b = true |- context[?b] => rewrite H end. reflexivity.
    + match goal with H : dt_eqb _ _ = true |- _ => apply dt_eqb_instant in H; exact H end.
    + intros t E. rewrite E in *. cbn [opt_check] in *. cbv beta in *.
      match goal with H : session_utc _ _ = Ok _ |- _ => apply session_utc_Ok in H end. bool_prop. split; [assumption | lia].
  - intros [(F1 & F2 & F3) F4 (F5 & F6 & F7) F8 F9 F10 F11]. unfold dt_leb, dt_ltb.
    pass; [now rewrite F1|]. pass; [now rewrite F2|]. pass; [now apply bool_decide_eq_false|]. pass; [exact F4|].
    cbn [fst snd]. rewrite (proj2 (session_utc_Ok _ "created_at" tt) F5), (proj2 (session_utc_Ok _ "last_seen_at" tt) F6),
      (proj2 (session_utc_Ok _ "expires_at" tt) F7). cbn [bind].
    pass. { destruct (os_revoked_at s) as [t|] eqn:E; [|reflexivity]. apply session_utc_Ok. now apply (F10 t). }
    pass; [rewrite !(proj2 (Z.leb_le _ _)) by lia; reflexivity|].
    pass. { unfold dt_eqb. rewrite same_awareness_utc by assumption. cbn [andb]. apply negb_false_iff, Z.eqb_eq. exact F9. }
    pass. { destruct (os_revoked_at s) as [t|] eqn:E; [|reflexivity]. apply Z.ltb_ge. now apply (F10 t). }
    pass; [apply Z.ltb_ge; exact F11 | reflexivity].
Qed.

Lemma session_touch_Ok s h c t s' : session_touch s h c t = Ok s' ->
  session_valid s' /\ s' = {|
    os_id := os_id s; os_token_hash := h; os_csrf_hash := c; os_actor := os_actor s; os_created_at := os_created_at s;
    os_last_seen_at := t; os_expires_at := os_expires_at s; os_revoked_at := os_revoked_at s; os_version := os_version s + 1 |}.
Proof. intros H. split; [exact (session_post_init_valid _ _ H) | exact (session_post_init_same _ _ H)]. Qed.

(** When a session authenticates. *)
Definition authenticatable (s : OperatorSession) (t : datetime) : Prop :=
  active s = true /\ instant (os_created_at s) <= instant t /\
  instant t < instant (os_expires_at s) /\ instant t < instant (os_last_seen_at s) + SESSION_IDLE_TTL.

Lemma terminal_time_spec s t : dt_leb (terminal_time s) t = false <->
  instant t < instant (os_expires_at s) /\ instant t < instant (os_last_seen_at s) + SESSION_IDLE_TTL.
Proof.
  unfold terminal_time, dt_leb, dt_ltb, dt_add. cbn [instant]. rewrite Z.leb_gt.
  destruct (Z.ltb_spec (instant (os_last_seen_at s) + SESSION_IDLE_TTL) (instant (os_expires_at s))); cbn [instant] in *; lia.
Qed.

Lemma require_authenticatable_Ok o t s : require_authenticatable_session o t = Ok s <->
  is_utc t = true /\ o = Some s /\ active s = true /\ dt_leb (terminal_time s) t = false.
Proof.
  unfold require_authenticatable_session. split.
  - intros H. py_inv. match goal with H : session_utc _ _ = Ok _ |- _ => apply session_utc_Ok in H end.
    bool_prop. repeat split; assumption.
  - intros (U & -> & A & T). rewrite (proj2 (session_utc_Ok _ "observed_at" tt) U). cbn [map_exn bind of_option].
    now rewrite A, T.
Qed.

(** A valid active session that is not over accepts an observation. *)
Lemma session_touch_total s t : session_valid s -> is_utc t = true -> authenticatable s t ->
  exists s', session_touch s (os_token_hash s) (os_csrf_hash s) t = Ok s'.
Proof.
  intros V U (A & C & E & _). apply session_valid_facts in V as [F1 F2 (F3 & F4 & F5) F6 F7 F8 F9].
  eexists. apply session_valid_facts. split; cbn; auto; try lia.
  intros r Er. unfold active in A. rewrite Er in A. discriminate.
Qed.

(** ** Tables *)

Record table_ok (rows : table) : Prop := {
  to_valid : Forall session_valid rows;
  to_ids : NoDup (map os_id rows);
  to_tokens : NoDup (map os_token_hash rows);
  to_csrfs : NoDup (map os_csrf_hash rows)
}.

Lemma has_id_spec i s : has_id i s = true <-> os_id s = i.
Proof. apply Z.eqb_eq. Qed.
Lemma has_id_ne i s : os_id s <> i -> has_id i s = false.
Proof. apply Z.eqb_neq. Qed.
Lemma has_token_spec h s : has_token h s = true <-> os_token_hash s = h.
Proof. apply bool_decide_eq_true. Qed.
Lemma has_csrf_spec h s : has_csrf h s = true <-> os_csrf_hash s = h.
Proof. apply bool_decide_eq_true. Qed.

Lemma fetch_Ok p rows o : Forall session_valid rows -> fetch p rows = Ok o <-> List.find p rows = o.
Proof.
  intros V. unfold fetch. destruct (List.find p rows) as [r|] eqn:E; [|split; congruence].
  apply find_some in E as [I _]. rewrite List.Forall_forall in V. rewrite (V r I). cbn. split; congruence.
Qed.

(** A unique column finds its row. *)
Lemma find_unique {K} (key : OperatorSession -> K) (p : OperatorSession -> bool) rows s :
  NoDup (map key rows) -> In s rows -> (forall r, p r = true <-> key r = key s) -> List.find p rows = Some s.
Proof.
  intros N I P. destruct (List.find p rows) as [r|] eqn:E.
  - apply find_some in E as [I' E]. f_equal. apply (NoDup_map_inj key rows); auto. now apply P.
  - exfalso. pose proof (find_none _ _ E s I) as F. rewrite (proj2 (P s) eq_refl) in F. discriminate.
Qed.

Lemma In_write s rows r : In r (write s rows) <->
  r = s /\ In (os_id s) (map os_id rows) \/ os_id r <> os_id s /\ In r rows.
Proof.
  unfold write. rewrite in_map_iff. split.
  - intros (q & E & I). destruct (has_id (os_id s) q) eqn:H.
    + left. apply has_id_spec in H. split; [congruence|]. rewrite <- H. now apply in_map.
    + right. subst q. split; [|exact I]. intros C. apply has_id_spec in C. congruence.
  - intros [[-> I]|[N I]].
    + apply in_map_iff in I as (q & E & I). exists q. rewrite (proj2 (has_id_spec _ _) E). auto.
    + exists r. destruct (has_id (os_id s) r) eqn:H; [apply has_id_spec in H; congruence | auto].
Qed.

Lemma write_ids s rows : map os_id (write s rows) = map os_id rows.
Proof.
  unfold write. rewrite map_map. apply map_ext. intros r. destruct (has_id (os_id s) r) eqn:H; [|reflexivity].
  apply has_id_spec in H. now symmetry.
Qed.

(** Writing a row keeps a column unique when no other row holds the new value. *)
Lemma write_NoDup (key : OperatorSession -> string) s rows : NoDup (map os_id rows) -> NoDup (map key rows) ->
  (forall r, In r rows -> os_id r <> os_id s -> key r <> key s) -> NoDup (map key (write s rows)).
Proof.
  induction rows as [|r rows IH]; intros N1 N2 F; [constructor|]. cbn [map] in N1, N2. apply NoDup_cons in N1 as [Hi N1], N2 as [Hk N2].
  change (write s (r :: rows)) with ((if has_id (os_id s) r then s else r) :: write s rows). cbn [map].
  apply NoDup_cons. split; [|apply IH; auto; intros q I; apply F; now right].
  rewrite list_elem_of_In, in_map_iff. intros (q & E & I). apply In_write in I as [[-> I]|[Hq I]].
  - destruct (has_id (os_id s) r) eqn:H.
    + apply has_id_spec in H. apply Hi. rewrite list_elem_of_In, H. exact I.
    + apply (F r (or_introl eq_refl)); [intros C; apply has_id_spec in C; congruence | now symmetry].
  - destruct (has_id (os_id s) r) eqn:H.
    + exact (F q (or_intror I) Hq E).
    + apply Hk. rewrite list_elem_of_In, <- E. now apply in_map.
Qed.

Lemma write_table_ok s rows : table_ok rows -> session_valid s ->
  (forall r, In r rows -> os_id r <> os_id s -> os_token_hash r <> os_token_hash s /\ os_csrf_hash r <> os_csrf_hash s) ->
  table_ok (write s rows).
Proof.
  intros [V N1 N2 N3] Vs F. split.
  - apply List.Forall_forall. intros r I. rewrite List.Forall_forall in V. apply In_write in I as [[-> _]|[_ I]]; auto.
  - now rewrite write_ids.
  - apply write_NoDup; auto. intros r I Hi. now apply F.
  - apply write_NoDup; auto. intros r I Hi. now apply F.
Qed.

(** At most one row is active. *)
Definition sole (rows : table) : Prop :=
  forall r r', In r rows -> In r' rows -> active r = true -> active r' = true -> r = r'.

(** What a row becomes: its identity stays, its version grows, a revoked row is final. *)
Record row_succ (s s' : OperatorSession) : Prop := {
  rs_id : os_id s' = os_id s;
  rs_actor : os_actor s' = os_actor s;
  rs_times : os_created_at s' = os_created_at s /\ os_expires_at s' = os_expires_at s;
  rs_version : os_version s <= os_version s';
  rs_revoked : active s = false -> s' = s
}.

Definition later_rows (rows rows' : table) : Prop := forall s, In s rows -> exists s', In s' rows' /\ row_succ s s'.

Lemma row_succ_refl s : row_succ s s.
Proof. now split. Qed.

Lemma row_succ_trans a b c : row_succ a b -> row_succ b c -> row_succ a c.
Proof.
  intros [A1 A2 [A3 A4] A5 A6] [B1 B2 [B3 B4] B5 B6]. split; try congruence; [split; congruence | lia|].
  intros F. pose proof (A6 F) as E. subst b. now apply B6.
Qed.

Lemma later_refl rows : later_rows rows rows.
Proof. intros s I. exists s. split; [exact I | apply row_succ_refl]. Qed.

Lemma later_trans a b c : later_rows a b -> later_rows b c -> later_rows a c.
Proof.
  intros H1 H2 s I. destruct (H1 s I) as (s' & I' & R). destruct (H2 s' I') as (s'' & I'' & R').
  exists s''. split; [exact I'' | exact (row_succ_trans _ _ _ R R')].
Qed.

Record rows_after (rows rows' : table) : Prop := {
  ra_ok : table_ok rows';
  ra_sole : sole rows -> sole rows';
  ra_later : later_rows rows rows'
}.

Lemma rows_after_refl rows : table_ok rows -> rows_after rows rows.
Proof. split; auto using later_refl. Qed.

Lemma rows_after_trans a b c : rows_after a b -> rows_after b c -> rows_after a c.
Proof. intros [_ S1 L1] [O S2 L2]. split; eauto using later_trans. Qed.

(** An active row is replaced by a successor. *)
Lemma replaced rows s s' : table_ok rows -> In s rows -> active s = true -> row_succ s s' -> session_valid s' ->
  (forall r, In r rows -> os_id r <> os_id s' -> os_token_hash r <> os_token_hash s' /\ os_csrf_hash r <> os_csrf_hash s') ->
  rows_after rows (write s' rows).
Proof.
  intros O I A R V F. pose proof (rs_id _ _ R) as Hi. split; [now apply write_table_ok|..].
  - intros S r r' Hr Hr' Ar Ar'. apply In_write in Hr as [[-> _]|[N Hr]], Hr' as [[-> _]|[N' Hr']].
    + reflexivity.
    + exfalso. apply N'. rewrite Hi. now rewrite (S r' s Hr' I Ar' A).
    + exfalso. apply N. rewrite Hi. now rewrite (S r s Hr I Ar A).
    + now apply S.
  - intros r Ir. destruct (decide (os_id r = os_id s')) as [E|N].
    + assert (r = s) as -> by (apply (NoDup_map_inj os_id rows); [apply O | exact Ir | exact I | congruence]).
      exists s'. split; [|exact R]. apply In_write. left. split; [reflexivity|]. rewrite Hi. now apply in_map.
    + exists r. split; [apply In_write; auto | apply row_succ_refl].
Qed.

(** The hashes of a row belong to it alone. *)
Lemma own_hashes rows s r : table_ok rows -> In s rows -> In r rows -> os_id r <> os_id s ->
  os_token_hash r <> os_token_hash s /\ os_csrf_hash r <> os_csrf_hash s.
Proof.
  intros [_ _ T C] I I' N. split; intros E; apply N; f_equal;
    [exact (NoDup_map_inj _ _ _ _ T I' I E) | exact (NoDup_map_inj _ _ _ _ C I' I E)].
Qed.

Lemma write_same rows s : table_ok rows -> In s rows -> write s rows = rows.
Proof.
  intros O I. unfold write. rewrite <- (map_id rows) at 2. apply map_ext_in. intros r Ir.
  destruct (has_id (os_id s) r) eqn:H; [|reflexivity]. apply has_id_spec in H.
  symmetry. apply (NoDup_map_inj os_id rows); auto. apply O.
Qed.

(** ** Operations *)

Lemma authenticate_Ok rows h t rows' s' : table_ok rows -> authenticate rows h t = Ok (rows', s') ->
  is_utc t = true /\ exists s, In s rows /\ os_token_hash s = h /\ authenticatable s t /\ rows' = write s' rows /\
    s' = {| os_id := os_id s; os_token_hash := h; os_csrf_hash := os_csrf_hash s; os_actor := os_actor s;
            os_created_at := os_created_at s; os_last_seen_at := t; os_expires_at := os_expires_at s;
            os_revoked_at := os_revoked_at s; os_version := os_version s + 1 |} /\ session_valid s'.
Proof.
  intros O H. unfold authenticate in H. apply bind_Ok in H as (o & Hf & H). apply fetch_Ok in Hf; [|apply O].
  apply bind_Ok in H as (s & Hr & H). apply require_authenticatable_Ok in Hr as (U & -> & A & T).
  apply find_some in Hf as [I Hh]. apply has_token_spec in Hh. apply bind_Ok in H as (x & Hx & H). injection H as <- <-.
  apply map_exn_Ok, session_touch_Ok in Hx as [V ->]. split; [exact U|]. exists s. rewrite Hh in *.
  split; [exact I|]. split; [reflexivity|]. split; [|split; [reflexivity | split; [reflexivity | exact V]]].
  apply session_valid_facts in V as [_ _ _ V _ _ _]. apply terminal_time_spec in T. cbn in V.
  unfold authenticatable. repeat split; [exact A | lia..].
Qed.

Lemma authenticate_total rows s t : table_ok rows -> In s rows -> is_utc t = true -> authenticatable s t ->
  exists rows' s', authenticate rows (os_token_hash s) t = Ok (rows', s').
Proof.
  intros O I U A. unfold authenticate.
  rewrite (proj2 (fetch_Ok _ _ (Some s) (to_valid _ O))) by
    (apply (find_unique os_token_hash); [apply O | exact I | apply has_token_spec]). cbn [bind].
  destruct A as (A1 & A2 & A3). rewrite (proj2 (require_authenticatable_Ok (Some s) t s)) by
    (repeat split; try assumption; now apply terminal_time_spec). cbn [bind].
  pose proof (to_valid _ O) as V. rewrite List.Forall_forall in V.
  destruct (session_touch_total s t (V s I) U (conj A1 (conj A2 A3))) as (s' & ->). cbn. eauto.
Qed.

Lemma authenticate_after rows h t rows' s' : table_ok rows -> authenticate rows h t = Ok (rows', s') -> rows_after rows rows'.
Proof.
  intros O H. apply authenticate_Ok in H as (U & s & I & <- & (A & _) & -> & E & V); [|exact O].
  apply (replaced rows s); auto.
  - rewrite E. split; cbn; auto; [lia | congruence].
  - intros r Ir N. rewrite E in N. rewrite E. cbn in *. now apply (own_hashes rows).
Qed.

Lemma _locked_session_Ok rows id s : table_ok rows -> _locked_session rows id = Ok s -> In s rows /\ os_id s = id.
Proof.
  intros O H. unfold _locked_session in H. apply bind_Ok in H as (o & Hf & H). apply fetch_Ok in Hf; [|apply O].
  apply of_option_Ok in H as ->. apply find_some in Hf as [I E]. now apply has_id_spec in E.
Qed.

(** Fresh evidence carries a successor. *)
Lemma fresh_rotation candidate current : os_id current = os_id candidate -> active current = true ->
  stale_rotation candidate current = false -> row_succ current candidate.
Proof.
  unfold stale_rotation. intros E A H. bool_prop. split; auto; [lia | congruence].
Qed.

Lemma existsb_In {A} (f : A -> bool) l x : existsb f l = false -> In x l -> f x = false.
Proof. rewrite existsb_false_Forall, List.Forall_forall. auto. Qed.

Lemma rotate_after rows candidate rows' s' : table_ok rows -> session_valid candidate ->
  session_rotate rows candidate = Ok (rows', s') -> rows_after rows rows'.
Proof.
  intros O V H. unfold session_rotate in H. apply bind_Ok in H as (cur & Hc & H). apply _locked_session_Ok in Hc as [I Ei]; [|exact O].
  apply bind_Ok in H as (x & Hr & H). apply require_authenticatable_Ok in Hr as (_ & [= <-] & A & _).
  py_inv. bool_prop. apply (replaced rows cur); auto; [now apply fresh_rotation|]. intros r Ir N.
  match goal with H : existsb _ _ = false |- _ => pose proof (existsb_In _ _ _ H Ir) as F end. cbn beta in F.
  rewrite (has_id_ne _ _ N) in F. cbn [negb andb] in F. bool_prop.
  split; intros C; [rewrite (proj2 (has_token_spec _ _) C) in * | rewrite (proj2 (has_csrf_spec _ _) C) in *]; discriminate.
Qed.

Lemma rotate_csrf_after rows candidate rows' s' : table_ok rows -> session_valid candidate ->
  session_rotate_csrf rows candidate = Ok (rows', s') -> rows_after rows rows'.
Proof.
  intros O V H. unfold session_rotate_csrf in H. apply bind_Ok in H as (cur & Hc & H).
  apply _locked_session_Ok in Hc as [I Ei]; [|exact O].
  apply bind_Ok in H as (x & Hr & H). apply require_authenticatable_Ok in Hr as (_ & [= <-] & A & _).
  py_inv. bool_prop. apply (replaced rows cur); auto; [now apply fresh_rotation|]. intros r Ir N. split.
  - match goal with H : os_token_hash _ = os_token_hash cur |- _ => rewrite H end. apply (own_hashes rows); auto. congruence.
  - match goal with H : existsb _ _ = false |- _ => pose proof (existsb_In _ _ _ H Ir) as F end. cbn beta in F.
    rewrite (has_id_ne _ _ N) in F. cbn [negb andb] in F.
    intros C. rewrite (proj2 (has_csrf_spec _ _) C) in F. discriminate.
Qed.

Lemma session_revoke_Ok s t s' : session_revoke s t = Ok s' -> session_valid s -> session_valid s' /\ active s' = false /\
  row_succ s s' /\ os_token_hash s' = os_token_hash s /\ os_csrf_hash s' = os_csrf_hash s /\ (active s = true -> os_revoked_at s' = Some t).
Proof.
  unfold session_revoke. intros H V. apply bind_Ok in H as (u & _ & H). destruct (os_revoked_at s) as [r|] eqn:E; cbn [present] in H.
  - injection H as <-. assert (active s = false) as A by (unfold active; now rewrite E).
    split; [exact V|]. split; [exact A|]. split; [apply row_succ_refl|]. repeat split. rewrite A. discriminate.
  - apply bind_Ok in H as (u' & _ & H). pose proof (session_post_init_valid _ _ H) as V'.
    assert (active s = true) as A by (unfold active; now rewrite E).
    pose proof (session_post_init_same _ _ H) as ->. repeat split; auto; cbn; [lia|]. rewrite A. discriminate.
Qed.

Lemma revoke_write rows s t s' : table_ok rows -> In s rows -> session_revoke s t = Ok s' -> rows_after rows (write s' rows).
Proof.
  intros O I H. pose proof (to_valid _ O) as V. rewrite List.Forall_forall in V.
  destruct (session_revoke_Ok _ _ _ H (V s I)) as (V' & _ & R & E1 & E2 & _). destruct (active s) eqn:A.
  - apply (replaced rows s); auto. intros r Ir N. rewrite E1, E2. apply (own_hashes rows); auto.
    rewrite (rs_id _ _ R) in N. exact N.
  - rewrite (rs_revoked _ _ R A). rewrite write_same by assumption. now apply rows_after_refl.
Qed.

Lemma revoke_id_after rows id t rows' s' : table_ok rows -> session_revoke_id rows id t = Ok (rows', s') ->
  rows_after rows rows' /\ In s' rows' /\ os_id s' = id /\ active s' = false.
Proof.
  intros O H. unfold session_revoke_id in H. apply bind_Ok in H as (s & Hs & H). apply _locked_session_Ok in Hs as [I E]; [|exact O].
  py_inv. split; [now apply (revoke_write rows s t)|].
  pose proof (to_valid _ O) as V. rewrite List.Forall_forall in V.
  match goal with H : session_revoke _ _ = Ok _ |- _ => destruct (session_revoke_Ok _ _ _ H (V s I)) as (_ & A & R & _) end.
  split; [|split; [rewrite (rs_id _ _ R); reflexivity | exact A]]. apply In_write. left. split; [reflexivity|].
  rewrite (rs_id _ _ R). now apply in_map.
Qed.

Lemma insert_row_perm s l : Permutation (insert_row s l) (s :: l).
Proof.
  induction l as [|r l IH]; cbn [insert_row]; [reflexivity|]. destruct (os_id s <=? os_id r); [reflexivity|].
  rewrite IH. apply Permutation_swap.
Qed.

Lemma sort_rows_perm l : Permutation (sort_rows l) l.
Proof. induction l as [|s l IH]; [reflexivity|]. cbn [sort_rows fold_right]. rewrite insert_row_perm. now constructor. Qed.

(** Revoking rows one after the other. *)
Lemma revoke_fold t sources revoked rows : Forall2 (fun s s' => session_revoke s t = Ok s') sources revoked ->
  table_ok rows -> NoDup (map os_id sources) -> Forall (fun s => In s rows) sources ->
  let rows' := fold_left (fun acc s => write s acc) revoked rows in
  rows_after rows rows' /\ (forall r, In r rows' -> active r = true -> In r rows /\ ~ In r sources).
Proof.
  intros F. revert rows. induction F as [|s s' sources revoked H F IH]; intros rows O N I; cbn [fold_left].
  - split; [now apply rows_after_refl | auto].
  - cbn [map] in N. apply NoDup_cons in N as [Hn N]. apply Forall_cons in I as [Is I].
    pose proof (to_valid _ O) as V. rewrite List.Forall_forall in V, I.
    pose proof (revoke_write rows s t s' O Is H) as A. destruct (session_revoke_Ok _ _ _ H (V s Is)) as (_ & A' & R & _).
    assert (Hs : forall r, In r sources -> os_id r <> os_id s').
    { intros r Ir E. apply Hn. rewrite list_elem_of_In, <- (rs_id _ _ R), <- E. now apply in_map. }
    destruct (IH (write s' rows) (ra_ok _ _ A) N) as [B C].
    { apply List.Forall_forall. intros r Ir. apply In_write. right. auto. }
    split; [exact (rows_after_trans _ _ _ A B)|]. intros r Ir Ar. destruct (C r Ir Ar) as [Iw Nr].
    apply In_write in Iw as [[-> _]|[Ne Iw]]; [congruence|]. split; [exact Iw|]. intros [->|Ir']; [|auto].
    apply Ne. symmetry. exact (rs_id _ _ R).
Qed.

Lemma revoke_all_Ok rows t rows' revoked : table_ok rows -> revoke_all_active rows t = Ok (rows', revoked) ->
  rows_after rows rows' /\ Forall (fun r => active r = false) rows'.
Proof.
  intros O H. unfold revoke_all_active in H. apply bind_Ok in H as (l & Hl & H). injection H as <- <-.
  pose proof (to_valid _ O) as V. rewrite List.Forall_forall in V.
  assert (Hin : forall s, In s (sort_rows (List.filter active rows)) <-> In s rows /\ active s = true).
  { intros s. rewrite <- filter_In. split; apply Permutation_in; [|symmetry]; apply sort_rows_perm. }
  apply mapM_Forall2 in Hl.
  assert (F : Forall2 (fun s s' => session_revoke s t = Ok s') (sort_rows (List.filter active rows)) l).
  { eapply Forall2_impl; [exact Hl|]. intros s s' E. apply bind_Ok in E as (x & E1 & E2). apply map_exn_Ok in E1, E2.
    now rewrite (session_post_init_same _ _ E1) in E2. }
  destruct (revoke_fold t _ _ rows F O) as [A C].
  - rewrite sort_rows_perm. clear -O. destruct O as [_ N _ _]. induction rows as [|r rows IH]; [constructor|].
    cbn [map] in N. apply NoDup_cons in N as [H N]. cbn [List.filter]. destruct (active r); [|auto]. cbn [map].
    apply NoDup_cons. split; [|auto]. intros C. apply H. apply list_elem_of_In, in_map_iff in C as (q & E & Iq).
    apply filter_In in Iq as [Iq _]. rewrite list_elem_of_In, <- E. now apply in_map.
  - apply List.Forall_forall. intros s Is. now apply Hin in Is.
  - split; [exact A|]. apply List.Forall_forall. intros r Ir. destruct (active r) eqn:E; [|reflexivity].
    exfalso. destruct (C r Ir E) as [Ir' Nr]. apply Nr, Hin. auto.
Qed.

Lemma issue_Ok rows request rows' c : table_ok rows -> session_issue rows request = Ok (rows', c) ->
  session_valid c /\ active c = true /\ to_session request = Ok c /\
  (rows' = rows /\ In c rows \/
   rows' = rows ++ [c] /\ table_ok rows' /\ (forall r, In r rows -> os_id r <> os_id c /\ os_token_hash r <> os_token_hash c)).
Proof.
  intros O H. unfold session_issue in H. apply bind_Ok in H as (c' & Hc & H). apply map_exn_Ok in Hc.
  pose proof Hc as Hs. unfold to_session in Hc. pose proof (session_post_init_valid _ _ Hc) as V.
  assert (A : active c' = true) by (now rewrite (session_post_init_same _ _ Hc)).
  destruct (existsb (conflicts c') rows) eqn:E.
  - apply bind_Ok in H as (o & Hf & H). apply fetch_Ok in Hf; [|apply O]. destruct (bool_decide _) eqn:B; [|discriminate].
    injection H as <- <-. apply bool_decide_eq_true in B. subst o. apply find_some in B as [I _]. auto 6.
  - injection H as <- <-. split; [exact V|]. split; [exact A|]. split; [exact Hs|]. right.
    assert (F : forall r, In r rows -> os_id r <> os_id c' /\ os_token_hash r <> os_token_hash c' /\ os_csrf_hash r <> os_csrf_hash c').
    { intros r I. pose proof (existsb_In _ _ _ E I) as X. unfold conflicts in X. bool_prop.
      split; [intros C; apply has_id_spec in C; congruence|].
      split; intros C; [apply has_token_spec in C | apply has_csrf_spec in C]; congruence. }
    split; [reflexivity|]. split; [|intros r I; destruct (F r I) as (? & ? & ?); auto].
    destruct O as [O1 O2 O3 O4].
    assert (N : forall K (key : OperatorSession -> K), NoDup (map key rows) -> (forall r, In r rows -> key r <> key c') ->
                NoDup (map key (rows ++ [c']))).
    { intros K key N X. rewrite map_app. apply NoDup_app. split; [exact N|]. split; [|apply NoDup_singleton].
      intros k Hk Hk'. cbn in Hk'. apply list_elem_of_singleton in Hk' as ->. apply list_elem_of_In, in_map_iff in Hk as (r & Er & Ir).
      exact (X r Ir Er). }
    split; [apply Forall_app; split; [exact O1 | now constructor] | | |]; apply N; auto; intros r I; now apply F.
Qed.

(** ** The throttle *)

Definition throttle_valid (a : OperatorAuthState) : Prop := OperatorAuthState_post_init a = Ok a.

Lemma throttle_same a a' : OperatorAuthState_post_init a = Ok a' -> a' = a.
Proof. unfold OperatorAuthState_post_init. intros H. now py_inv. Qed.

(** What the constructor promises of the throttle. *)
Record throttle_facts (a : OperatorAuthState) : Prop := {
  tf_utc : is_utc (oa_updated_at a) = true;
  tf_version : 1 <= oa_version a;
  tf_count : 0 <= oa_failed_attempts a <= 5;
  tf_clean : oa_failed_attempts a = 0 -> oa_window_started_at a = None;
  tf_window : forall w, oa_window_started_at a = Some w -> is_utc w = true /\ instant w <= instant (oa_updated_at a);
  tf_open : oa_failed_attempts a <> 0 -> oa_window_started_at a <> None;
  tf_unlocked : oa_failed_attempts a <> 5 -> oa_locked_until a = None;
  tf_locked : oa_failed_attempts a = 5 -> exists t, oa_locked_until a = Some t /\ is_utc t = true /\
                instant t = instant (oa_updated_at a) + LOGIN_LOCKOUT
}.

Lemma throttle_valid_facts a : throttle_valid a <-> throttle_facts a.
Proof.
  unfold throttle_valid, OperatorAuthState_post_init, LOGIN_MAX_FAILURES, dt_ltb. split.
  - intros H. py_inv. bool_prop. repeat match goal with H : session_utc _ _ = Ok _ |- _ => apply session_utc_Ok in H end.
    destruct (oa_window_started_at a) as [w|] eqn:Ew, (oa_locked_until a) as [l|] eqn:El; cbn [opt_check present negb orb andb] in *; cbv beta in *;
      repeat match goal with H : session_utc _ _ = Ok _ |- _ => apply session_utc_Ok in H end;
      destruct (Z.eqb_spec (oa_failed_attempts a) 0); cbn [negb] in *; py_inv; try discriminate;
      destruct (Z.ltb_spec (oa_failed_attempts a) 5); cbn [andb] in *; py_inv; try discriminate;
      destruct (Z.eqb_spec (oa_failed_attempts a) 5); cbn [andb negb] in *; try discriminate; bool_prop; try lia;
      split; rewrite ?Ew, ?El; auto; try lia; try congruence; try (intros ? [= <-]; split; [assumption | lia]).
    intros _. exists l. split; [reflexivity|]. split; [assumption|].
    match goal with H : dt_eqb _ _ = true |- _ => apply dt_eqb_instant in H; exact H end.
  - intros [F1 F2 F3 F4 F5 F6 F7 F8].
    pass; [now apply session_utc_Ok|].
    pass; [destruct (oa_window_started_at a) as [w|]; [apply session_utc_Ok; now apply (F5 w) | reflexivity]|].
    pass. { destruct (decide (oa_failed_attempts a = 5)) as [E|E]; [destruct (F8 E) as (t & -> & U & _); now apply session_utc_Ok | now rewrite (F7 E)]. }
    pass; [rewrite !(proj2 (Z.leb_le _ _)), (proj2 (Z.ltb_ge _ _)) by lia; reflexivity|].
    pass.
    { destruct (Z.eqb_spec (oa_failed_attempts a) 0) as [E|E]; [rewrite (F4 E), F7 by lia; reflexivity|].
      destruct (oa_window_started_at a) as [w|]; [|now destruct (F6 E)]. cbn [present negb].
      destruct (Z.ltb_spec (oa_failed_attempts a) 5) as [L|L]; cbn [andb]; [rewrite F7 by lia; cbn; destruct (Z.eqb_spec (oa_failed_attempts a) 5); [lia | reflexivity]|].
      destruct (F8 ltac:(lia)) as (t & -> & U & Et). rewrite (proj2 (Z.eqb_eq _ _)) by lia. cbn [andb].
      unfold dt_eqb. rewrite same_awareness_utc by assumption. cbn. now rewrite Et, Z.eqb_refl. }
    pass; [|reflexivity]. destruct (oa_window_started_at a) as [w|]; [|reflexivity]. apply Z.ltb_ge. now apply (F5 w).
Qed.

Definition throttle_ok (row : option OperatorAuthState) : Prop := match row with Some a => throttle_valid a | None => True end.

(** The row that a request sees. *)
Definition seen_throttle (row : option OperatorAuthState) (t : datetime) : OperatorAuthState :=
  match row with
  | Some a => a
  | None => {| oa_failed_attempts := 0; oa_window_started_at := None; oa_locked_until := None; oa_updated_at := t; oa_version := 1 |}
  end.

Lemma seen_valid row t : throttle_ok row -> is_utc t = true -> throttle_valid (seen_throttle row t).
Proof.
  intros O U. destruct row as [a|]; [exact O|]. apply throttle_valid_facts. split; cbn; auto; try lia; discriminate.
Qed.

Lemma login_state_Ok row t : throttle_ok row -> is_utc t = true -> login_state row t = Ok (seen_throttle row t).
Proof.
  intros O U. unfold login_state, _locked_auth_state. rewrite U. cbn [negb raise_if bind].
  change (match row with Some a => a | None => _ end) with (seen_throttle row t). now rewrite (seen_valid row t O U).
Qed.

Definition is_locked (a : OperatorAuthState) (t : datetime) : bool :=
  match oa_locked_until a with Some l => dt_ltb t l | None => false end.

Lemma locked_Ok a t : is_utc t = true -> locked a t = Ok (is_locked a t).
Proof. intros U. unfold locked, session_utc. now rewrite U. Qed.

Lemma require_login_Ok row t : throttle_ok row -> is_utc t = true ->
  require_login_allowed row t = if is_locked (seen_throttle row t) t then Raise LoginAuthenticationError else Ok (seen_throttle row t).
Proof.
  intros O U. unfold require_login_allowed. rewrite login_state_Ok by assumption. cbn [bind]. rewrite locked_Ok by exact U.
  cbn [map_exn bind]. now destruct (is_locked _ _).
Qed.

(** The throttle after a counted failure. *)
Definition after_failure (a : OperatorAuthState) (t : datetime) : OperatorAuthState :=
  let n := if window_closed a t then 1 else oa_failed_attempts a + 1 in
  {| oa_failed_attempts := n; oa_window_started_at := if window_closed a t then Some t else oa_window_started_at a;
     oa_locked_until := if 5 <=? n then Some (dt_add t LOGIN_LOCKOUT) else None; oa_updated_at := t; oa_version := oa_version a + 1 |}.

(** An unlocked throttle has failures left: a fifth one locks it past its window. *)
Lemma unlocked_count a t : throttle_facts a -> is_locked a t = false -> window_closed a t = false -> oa_failed_attempts a < 5.
Proof.
  intros F L W. destruct (decide (oa_failed_attempts a = 5)) as [E|E]; [|pose proof (tf_count a F); lia]. exfalso.
  destruct (tf_locked a F E) as (l & El & _ & Hl). unfold is_locked, dt_ltb in L. rewrite El in L. apply Z.ltb_ge in L.
  unfold window_closed, dt_leb in W. destruct (oa_window_started_at a) as [w|] eqn:Ew; [|discriminate].
  apply Z.leb_gt in W. cbn in W. pose proof (tf_window a F w Ew) as [_ Hw]. unfold LOGIN_LOCKOUT, LOGIN_WINDOW, minutes, seconds in *. lia.
Qed.

Lemma after_failure_valid a t : throttle_valid a -> is_utc t = true -> instant (oa_updated_at a) <= instant t ->
  is_locked a t = false -> throttle_valid (after_failure a t).
Proof.
  intros V U T L. apply throttle_valid_facts in V as F. apply throttle_valid_facts. unfold after_failure.
  pose proof (tf_count a F) as C0. pose proof (tf_version a F) as C1. destruct (window_closed a t) eqn:W.
  - split; cbn; auto; try lia; try congruence. intros w [= <-]. split; [exact U | lia].
  - pose proof (unlocked_count a t F L W) as C.
    unfold window_closed in W. destruct (oa_window_started_at a) as [w|] eqn:Ew; [|discriminate].
    split; cbn; auto; try lia; try congruence.
    + intros w' [= <-]. pose proof (tf_window a F w Ew) as [? ?]. split; [assumption | lia].
    + intros N. now rewrite (proj2 (Z.leb_gt _ _)) by lia.
    + intros ->. cbn. exists (dt_add t LOGIN_LOCKOUT). repeat split. exact U.
Qed.

Lemma record_failure_Ok a t : throttle_valid a -> is_utc t = true -> is_locked a t = false ->
  record_login_failure (Some a) t =
    if dt_ltb t (oa_updated_at a) then Raise (Python regressed_login) else Ok (after_failure a t).
Proof.
  intros V U L. unfold record_login_failure. rewrite login_state_Ok by assumption. cbn [seen_throttle bind].
  destruct (dt_ltb t (oa_updated_at a)) eqn:T; [reflexivity|]. cbn [raise_if bind]. unfold dt_ltb in T. apply Z.ltb_ge in T.
  rewrite locked_Ok by exact U. cbn [map_exn bind]. rewrite L. pose proof (after_failure_valid a t V U T L) as V'.
  unfold after_failure, LOGIN_MAX_FAILURES in *. destruct (window_closed a t); now rewrite V'.
Qed.

Lemma record_success_Ok a t : throttle_valid a -> is_utc t = true -> is_locked a t = false ->
  record_login_success (Some a) t =
    if dt_ltb t (oa_updated_at a) then Raise (Python regressed_login)
    else Ok {| oa_failed_attempts := 0; oa_window_started_at := None; oa_locked_until := None; oa_updated_at := t;
               oa_version := oa_version a + 1 |}.
Proof.
  intros V U L. unfold record_login_success. rewrite login_state_Ok by assumption. cbn [seen_throttle bind].
  destruct (dt_ltb t (oa_updated_at a)) eqn:T; [reflexivity|]. cbn [raise_if bind].
  rewrite locked_Ok by exact U. cbn [map_exn bind]. rewrite L. cbn [raise_if bind].
  apply throttle_valid_facts in V. match goal with |- map_exn _ (OperatorAuthState_post_init ?x) = _ => assert (V' : throttle_valid x) end.
  { apply throttle_valid_facts. split; cbn; auto; try lia; try discriminate. pose proof (tf_version _ V). lia. }
  now rewrite V'.
Qed.

(** ** The handlers *)

Section WebFacts.
Context (hmac_sha256_hex : string -> string -> string) (settings : security_settings).
Local Abbreviation login := (login hmac_sha256_hex settings).
Local Abbreviation require_operator := (require_operator hmac_sha256_hex settings).
Local Abbreviation cookie_hash := (cookie_hash hmac_sha256_hex settings).

(** What the web process does to the tables. *)
Inductive web_step : auth_store -> auth_store -> Prop :=
| step_login st t valid d st' o : login st t valid d = Ok (st', o) -> web_step st st'
| step_request st cookie t st' s : require_operator st cookie t = Ok (st', s) -> web_step st st'
| step_rotation st current t token ds issued rows s : rotate_session_tokens hmac_sha256_hex current t (se_session_pepper settings)
    (se_csrf_pepper settings) token ds = Ok issued ->
  session_rotate (as_sessions st) (is_session issued) = Ok (rows, s) ->
  web_step st {| as_sessions := rows; as_throttle := as_throttle st |}
| step_csrf st current t token st' c : csrf_bootstrap hmac_sha256_hex settings st current t token = Ok (st', c) -> web_step st st'
| step_logout st id t st' s : logout st id t = Ok (st', s) -> web_step st st'.

Definition empty_store : auth_store := {| as_sessions := []; as_throttle := None |}.

Record web_inv (st : auth_store) : Prop := {
  wi_table : table_ok (as_sessions st);
  wi_sole : sole (as_sessions st);
  wi_throttle : throttle_ok (as_throttle st)
}.

Lemma empty_inv : web_inv empty_store.
Proof. split; [split; constructor | intros r r' [] | exact I]. Qed.

Lemma issue_tokens_Ok actor t id token ds issued : issue_session_tokens hmac_sha256_hex actor t (se_session_pepper settings)
    (se_csrf_pepper settings) id token ds = Ok issued ->
  is_token issued = token /\ opaque_token_hash hmac_sha256_hex token (se_session_pepper settings) = Ok (os_token_hash (is_session issued)) /\
  session_valid (is_session issued) /\ exists h c, is_session issued = {|
    os_id := id; os_token_hash := h; os_csrf_hash := c; os_actor := actor;
    os_created_at := t; os_last_seen_at := t; os_expires_at := dt_add t SESSION_ABSOLUTE_TTL;
    os_revoked_at := None; os_version := 1 |}.
Proof.
  unfold issue_session_tokens. intros H. py_inv.
  match goal with H : OperatorSession_post_init _ = Ok _ |- _ =>
    pose proof (session_post_init_valid _ _ H); pose proof (session_post_init_same _ _ H) as -> end.
  cbn. repeat split; eauto.
Qed.

(** The three answers of a login. *)
Lemma login_Ok st t valid d st' o : web_inv st -> login st t valid d = Ok (st', o) ->
  is_utc t = true /\
  let a := seen_throttle (as_throttle st) t in
  match o with
  | LoginBlocked => is_locked a t = true /\ st' = {| as_sessions := as_sessions st; as_throttle := Some a |}
  | LoginRejected b => valid = false /\ is_locked a t = false /\ instant (oa_updated_at a) <= instant t /\
      b = is_locked (after_failure a t) t /\
      st' = {| as_sessions := as_sessions st; as_throttle := Some (after_failure a t) |}
  | LoggedIn issued revoked => valid = true /\ is_locked a t = false /\ instant (oa_updated_at a) <= instant t /\
      throttle_ok (as_throttle st') /\ table_ok (as_sessions st') /\ later_rows (as_sessions st) (as_sessions st') /\
      (forall r, In r (as_sessions st') -> active r = true <-> r = is_session issued) /\ In (is_session issued) (as_sessions st') /\
      authenticatable (is_session issued) t /\ cookie_hash (is_token issued) = os_token_hash (is_session issued)
  end.
Proof.
  intros [O S T] H. assert (U : is_utc t = true).
  { destruct (is_utc t) eqn:U; [reflexivity|]. exfalso. unfold login, require_login_allowed, login_state, _locked_auth_state in H.
    rewrite U in H. discriminate. }
  split; [exact U|]. cbv zeta. pose proof (seen_valid _ _ T U) as V. set (a := seen_throttle (as_throttle st) t) in *.
  unfold login in H. rewrite require_login_Ok in H by assumption. fold a in H. destruct (is_locked a t) eqn:L.
  - rewrite login_state_Ok in H by assumption. fold a in H. cbn [bind] in H. injection H as <- <-. auto.
  - destruct valid.
    + rewrite record_success_Ok in H by assumption. destruct (dt_ltb t (oa_updated_at a)) eqn:D; [discriminate|].
      unfold dt_ltb in D. apply Z.ltb_ge in D. cbn [bind] in H. apply bind_Ok in H as ([rows1 revoked] & Hr & H).
      destruct (revoke_all_Ok _ _ _ _ O Hr) as [[O1 _ L1] R1]. apply bind_Ok in H as (issued & Hi & H).
      apply issue_tokens_Ok in Hi as (Et & Eh & Vi & h & c & Ei). apply bind_Ok in H as ([rows2 s] & Hs & H). cbn [fst snd] in *.
      injection H as <- <-. destruct (issue_Ok _ _ _ _ O1 Hs) as (Vs & As & Es & Cases).
      assert (s = is_session issued) as -> by (rewrite (session_post_init_same _ _ Es); unfold to_request; cbn; rewrite Ei; reflexivity).
      rewrite List.Forall_forall in R1. destruct Cases as [[-> I]|(-> & O2 & F)]; [specialize (R1 _ I); congruence|].
      cbn [as_sessions as_throttle]. split; [reflexivity|]. split; [reflexivity|]. split; [exact D|].
      split. { apply throttle_valid_facts in V. apply throttle_valid_facts. split; cbn; auto; try lia; try discriminate. pose proof (tf_version _ V). lia. }
      split; [exact O2|]. split. { apply (later_trans _ _ _ L1). intros r Ir. exists r. split; [apply in_or_app; auto | apply row_succ_refl]. }
      split. { intros r Ir. apply in_app_or in Ir as [Ir|[<-|[]]]; [|now split]. rewrite (R1 r Ir). split; [discriminate|]. intros ->.
               now apply R1 in Ir; congruence. }
      split; [apply in_or_app; right; now left|]. split.
      * rewrite Ei. unfold authenticatable, SESSION_ABSOLUTE_TTL, SESSION_IDLE_TTL, minutes, seconds. cbn. repeat split; lia.
      * unfold cookie_hash. now rewrite Et, Eh.
    + rewrite record_failure_Ok in H by assumption. destruct (dt_ltb t (oa_updated_at a)) eqn:D; [discriminate|].
      unfold dt_ltb in D. apply Z.ltb_ge in D. cbn [bind] in H. rewrite locked_Ok in H by exact U. cbn [map_exn bind] in H.
      injection H as <- <-. auto.
Qed.

Lemma web_step_inv st st' : web_inv st -> web_step st st' -> web_inv st' /\ later_rows (as_sessions st) (as_sessions st').
Proof.
  intros W H. pose proof W as [O S T]. destruct H as [st t valid d st' o H|st cookie t st' s H|st current t token ds issued rows s Hi H
    |st current t token st' c H|st id t st' s H].
  - apply login_Ok in H as [U H]; [|exact W]. cbv zeta in H. pose proof (seen_valid _ _ T U) as V. destruct o as [|b|issued revoked].
    + destruct H as [_ ->]. split; [split; auto | apply later_refl].
    + destruct H as (_ & L & D & _ & ->). split; [split; auto; cbn; now apply after_failure_valid | apply later_refl].
    + destruct H as (_ & _ & _ & T' & O' & L' & Act & I & _). split; [|exact L']. split; auto.
      intros r r' Ir Ir' A A'. apply Act in A, A'; congruence.
  - unfold Sessions.require_operator in H. apply bind_Ok in H as ([rows' s'] & H & E). injection E as <- <-.
    destruct (authenticate_after _ _ _ _ _ O H) as [O' S' L']. split; [split|]; auto.
  - unfold rotate_session_tokens in Hi. py_inv. match goal with H : session_touch _ _ _ _ = Ok _ |- _ => apply session_touch_Ok in H as [V _] end.
    destruct (rotate_after _ _ _ _ O V H) as [O' S' L']. split; [split|]; auto.
  - unfold csrf_bootstrap, rotate_csrf_token in H. py_inv.
    match goal with H : session_touch _ _ _ _ = Ok _ |- _ => apply session_touch_Ok in H as [V _] end. cbn [fst snd] in *.
    match goal with H : session_rotate_csrf _ _ = Ok ?p |- _ => destruct p as [rows' s']; destruct (rotate_csrf_after _ _ _ _ O V H) as [O' S' L'] end.
    split; [split|]; auto.
  - unfold logout in H. apply bind_Ok in H as ([rows' s'] & H & E). injection E as <- <-.
    destruct (revoke_id_after _ _ _ _ _ O H) as [[O' S' L'] _]. split; [split|]; auto.
Qed.

Lemma web_run st st' : web_inv st -> star web_step st st' -> web_inv st' /\ later_rows (as_sessions st) (as_sessions st').
Proof.
  intros W R. induction R as [|a b c H _ IH]; [split; [exact W | apply later_refl]|].
  destruct (web_step_inv _ _ W H) as [W' L]. destruct (IH W') as [W'' L']. split; [exact W'' | exact (later_trans _ _ _ L L')].
Qed.

Lemma operator_exact st cookie t : web_inv st -> is_utc t = true ->
  (exists st' s', require_operator st cookie t = Ok (st', s')) <->
  (exists s, In s (as_sessions st) /\ os_token_hash s = cookie_hash cookie /\ authenticatable s t).
Proof.
  intros [O _ _] U. unfold Sessions.require_operator. split.
  - intros (st' & s' & H). apply bind_Ok in H as ([rows' s] & H & _). apply authenticate_Ok in H as (_ & r & I & E & A & _); eauto.
  - intros (s & I & E & A). destruct (authenticate_total _ _ _ O I U A) as (rows' & s' & H). rewrite E in H. rewrite H. cbn. eauto.
Qed.

Lemma revoked_refused st cookie t s : web_inv st -> is_utc t = true -> In s (as_sessions st) -> os_token_hash s = cookie_hash cookie ->
  active s = false ->
  require_operator st cookie t = Raise (SessionAuthenticationError "session_revoked" (Some (os_id s)) (os_revoked_at s)).
Proof.
  intros [O _ _] U I E A. unfold Sessions.require_operator, authenticate. rewrite <- E.
  rewrite (proj2 (fetch_Ok _ _ (Some s) (to_valid _ O))) by (apply (find_unique os_token_hash); [apply O | exact I | apply has_token_spec]).
  cbn [bind]. unfold require_authenticatable_session. rewrite (proj2 (session_utc_Ok _ "observed_at" tt) U). cbn [map_exn bind of_option].
  now rewrite A.
Qed.

(** ** Guessing *)

(** Wrong passwords, one after the other: how many of them were compared. *)
Fixpoint guesses (st : auth_store) (d : draws) (times : list datetime) : auth_store * Z :=
  match times with
  | [] => (st, 0)
  | t :: times' =>
      match login st t false d with
      | Ok (st', LoginRejected _) => let '(last, n) := guesses st' d times' in (last, n + 1)
      | Ok (st', _) => guesses st' d times'
      | Raise _ => guesses st d times'
      end
  end.

(** The failures that are left until [t0] plus a window. *)
Definition budget (t0 : Z) (a : OperatorAuthState) : Z :=
  let fresh := match oa_window_started_at a with Some w => t0 <=? instant w | None => false end in
  if fresh then 5 - oa_failed_attempts a
  else if oa_failed_attempts a =? 5 then (if t0 <=? instant (oa_updated_at a) then 0 else 5)
  else 9 - oa_failed_attempts a.

Lemma budget_spent t0 a t : throttle_facts a -> is_locked a t = false -> instant (oa_updated_at a) <= instant t ->
  t0 <= instant t < t0 + LOGIN_WINDOW -> budget t0 (after_failure a t) + 1 <= budget t0 a.
Proof.
  intros F L D R. pose proof (tf_count a F) as C. unfold budget, after_failure, LOGIN_WINDOW, minutes, seconds in *.
  destruct (window_closed a t) eqn:W; cbn [oa_window_started_at oa_failed_attempts oa_updated_at].
  - rewrite (proj2 (Z.leb_le t0 (instant t))) by lia. destruct (oa_window_started_at a) as [w|] eqn:Ew.
    + unfold window_closed, dt_leb, LOGIN_WINDOW, minutes, seconds in W. rewrite Ew in W. cbn in W. apply Z.leb_le in W.
      rewrite (proj2 (Z.leb_gt t0 (instant w))) by lia. destruct (Z.eqb_spec (oa_failed_attempts a) 5) as [E|E]; [|lia].
      destruct (tf_locked a F E) as (l & El & _ & Hl). unfold is_locked, dt_ltb in L. rewrite El in L. apply Z.ltb_ge in L.
      unfold LOGIN_LOCKOUT, minutes, seconds in Hl. rewrite (proj2 (Z.leb_gt t0 _)) by lia. lia.
    + pose proof (tf_open a F). destruct (Z.eqb_spec (oa_failed_attempts a) 5) as [E|E]; [|lia].
      exfalso. apply H; [lia | exact Ew].
  - pose proof (unlocked_count a t F L W) as N. destruct (oa_window_started_at a) as [w|] eqn:Ew;
      [|unfold window_closed in W; rewrite Ew in W; discriminate].
    destruct (Z.leb_spec t0 (instant w)); [lia|]. rewrite (proj2 (Z.eqb_neq (oa_failed_attempts a) 5)) by lia.
    destruct (Z.eqb_spec (oa_failed_attempts a + 1) 5); [rewrite (proj2 (Z.leb_le t0 (instant t))) by lia; lia | lia].
Qed.

Lemma budget_range t0 a : throttle_facts a -> 0 <= budget t0 a <= 9.
Proof.
  intros F. pose proof (tf_count a F). unfold budget. destruct (match oa_window_started_at a with Some _ => _ | None => _ end); [lia|].
  destruct (Z.eqb_spec (oa_failed_attempts a) 5); [destruct (_ <=? _); lia | lia].
Qed.

Definition store_budget (t0 : Z) (st : auth_store) : Z := match as_throttle st with Some a => budget t0 a | None => 9 end.

Lemma guesses_bounded d t0 times : Forall (fun t => t0 <= instant t < t0 + LOGIN_WINDOW) times ->
  forall st, web_inv st -> snd (guesses st d times) <= store_budget t0 st.
Proof.
  induction 1 as [|t times R _ IH]; intros st W; cbn [guesses].
  - cbn. unfold store_budget. pose proof (wi_throttle st W) as T. destruct (as_throttle st) as [a|]; [|lia].
    apply throttle_valid_facts in T. now apply budget_range.
  - destruct (login st t false d) as [[st' o]|e] eqn:E; [|now apply IH].
    pose proof (step_login _ _ _ _ _ _ E) as St. destruct (web_step_inv _ _ W St) as [W' _]. specialize (IH st' W').
    apply login_Ok in E as [U E]; [|exact W]. cbv zeta in E.
    pose proof (proj1 (throttle_valid_facts _) (seen_valid _ _ (wi_throttle st W) U)) as F.
    assert (B : budget t0 (seen_throttle (as_throttle st) t) <= store_budget t0 st).
    { unfold store_budget. destruct (as_throttle st) as [a|]; cbn [seen_throttle]; [lia|]. unfold budget. cbn. lia. }
    destruct o as [|b|issued revoked].
    + destruct E as [_ ->]. cbn [store_budget as_throttle] in IH. unfold store_budget in IH. cbn in IH. lia.
    + destruct E as (_ & L & D & _ & Es). rewrite Es in *. unfold store_budget at 1 in IH. cbn [as_throttle] in IH.
      destruct (guesses _ d times) as [last n]. cbn [snd] in *. pose proof (budget_spent t0 _ t F L D R). lia.
    + destruct E as [E _]. discriminate.
Qed.
End WebFacts.

(** ** The theorems *)

(** C23: One operator, one session.  In every state that the handlers reach from
    empty tables: at most one session is active; a request authenticates
    exactly when its cookie is the token of an active session within its
    twelve hours and its half hour of idleness; a revoked session is refused,
    with the reason, then and in every later state; and a login leaves the
    session that it issues as the only active one, whose token is accepted. *)
Theorem sessions_are_exclusive (hmac_sha256_hex : string -> string -> string) settings st :
  star (web_step hmac_sha256_hex settings) empty_store st ->
  sole (as_sessions st) /\
  (forall cookie t, is_utc t = true ->
     (exists st' s', require_operator hmac_sha256_hex settings st cookie t = Ok (st', s')) <->
     (exists s, In s (as_sessions st) /\ os_token_hash s = cookie_hash hmac_sha256_hex settings cookie /\ authenticatable s t)) /\
  (forall s cookie t st', In s (as_sessions st) -> active s = false -> os_token_hash s = cookie_hash hmac_sha256_hex settings cookie ->
     is_utc t = true -> star (web_step hmac_sha256_hex settings) st st' ->
     require_operator hmac_sha256_hex settings st' cookie t =
       Raise (SessionAuthenticationError "session_revoked" (Some (os_id s)) (os_revoked_at s))) /\
  (forall t valid d st' issued revoked, login hmac_sha256_hex settings st t valid d = Ok (st', LoggedIn issued revoked) ->
     valid = true /\ (forall r, In r (as_sessions st') -> active r = true <-> r = is_session issued) /\
     exists st'' s, require_operator hmac_sha256_hex settings st' (is_token issued) t = Ok (st'', s) /\ os_id s = os_id (is_session issued)).
Proof.
  intros R. destruct (web_run _ _ _ _ empty_inv R) as [W _]. split; [exact (wi_sole st W)|].
  split; [intros cookie t U; now apply operator_exact|]. split.
  - intros s cookie t st' I A E U R'. destruct (web_run _ _ _ _ W R') as [W' L]. destruct (L s I) as (s' & I' & S).
    rewrite (rs_revoked _ _ S A) in I'. now apply revoked_refused.
  - intros t valid d st' issued revoked H. pose proof (web_step_inv _ _ _ _ W (step_login _ _ _ _ _ _ _ _ H)) as [W' _].
    apply login_Ok in H as [U (V & _ & _ & _ & O & _ & Act & I & A & E)]; [|exact W]. split; [exact V|]. split; [exact Act|].
    unfold require_operator. rewrite E. destruct (authenticate_total _ _ _ O I U A) as (rows & s & H). rewrite H. cbn [bind fst snd].
    exists {| as_sessions := rows; as_throttle := as_throttle st' |}, s. split; [reflexivity|].
    apply authenticate_Ok in H as (_ & r & Ir & Er & _ & _ & -> & _); [|exact O]. cbn.
    f_equal. apply (NoDup_map_inj os_token_hash (as_sessions st')); auto. apply O.
Qed.


(** ** Witnesses *)

(** A stand-in for the keyed digest: 64 hexadecimal digits that begin with the text. *)
Definition low_digit (c : ascii) : ascii := ascii_of_nat (48 + Nat.modulo (nat_of_ascii c) 10).
Definition sample_hmac (key msg : string) : string :=
  string_of_list_ascii (take 64 (map low_digit (list_ascii_of_string key ++ list_ascii_of_string msg) ++ repeat "0"%char 64)).
Definition sample_settings : security_settings := {| se_session_pepper := "p"; se_csrf_pepper := "q" |}.
Definition sample_draws (n : Z) : draws :=
  let text := string_of_list_ascii (nat_digits n) in {| dw_session_id := n; dw_token := "1" +:+ text; dw_csrf := ["1" +:+ text; "2" +:+ text] |}.

Definition logged_in (st : auth_store) (t : Z) (n : Z) : auth_store :=
  match login sample_hmac sample_settings st (utc t) true (sample_draws n) with Ok (st', _) => st' | Raise _ => st end.

Definition first_store : auth_store := Eval vm_compute in logged_in empty_store 0 7.
Definition second_store : auth_store := Eval vm_compute in logged_in first_store (minutes 10) 8.

Lemma sample_login_1 : exists o, login sample_hmac sample_settings empty_store (utc 0) true (sample_draws 7) = Ok (first_store, o).
Proof. eexists. vm_compute. reflexivity. Qed.

Lemma sample_login_2 : exists i r,
  login sample_hmac sample_settings first_store (utc (minutes 10)) true (sample_draws 8) = Ok (second_store, LoggedIn i r).
Proof. do 2 eexists. vm_compute. reflexivity. Qed.

Lemma sample_web_run : star (web_step sample_hmac sample_settings) empty_store second_store.
Proof.
  destruct sample_login_1 as [o1 H1], sample_login_2 as (i & r & H2).
  eapply star_step; [exact (step_login _ _ _ _ _ _ _ _ H1)|]. exact (star_one _ _ _ (step_login _ _ _ _ _ _ _ _ H2)).
Qed.

Lemma sessions_are_exclusive_witness : exists revoked_at, length (as_sessions second_store) = 2%nat /\
  require_operator sample_hmac sample_settings second_store "17" (utc (minutes 11)) =
    Raise (SessionAuthenticationError "session_revoked" (Some 7) revoked_at) /\
  exists st' s', require_operator sample_hmac sample_settings second_store "18" (utc (minutes 39)) = Ok (st', s').
Proof.
  destruct (sessions_are_exclusive sample_hmac sample_settings second_store sample_web_run) as (_ & Exact & Revoked & _).
  eexists. split; [reflexivity|]. split.
  - eapply (Revoked _ "17" (utc (minutes 11)) second_store (or_introl eq_refl)); [reflexivity | vm_compute; reflexivity | reflexivity | constructor].
  - apply Exact; [reflexivity|]. eexists. split; [right; left; reflexivity|]. split; [vm_compute; reflexivity|].
    unfold authenticatable. vm_compute. repeat split; discriminate.
Defined.

(** Six wrong passwords a second apart: the fifth locks, the sixth is not compared. *)
Definition sample_times : list datetime := map (fun i => utc (seconds i)) [1200; 1201; 1202; 1203; 1204; 1205].

