(* ===== verification/Ledger.v ===== *)
(** * The event ledger: [maais/domain/events.py] and [maais/db/repositories/events.py]

    Every state change of the platform is an event of one stream.  A stream is
    a type and an identifier of an aggregate with a version; an append names
    the version that it extends, and is refused when the stream is elsewhere.
    Each event has a row in the outbox, written in the same transaction.  The
    keys, the global positions and the wall clock of the database are left
    out. *)

From Stdlib Require Import ZArith Lia List Bool String Ascii.
From stdpp Require Import base decidable list strings gmap.
From S2P Require Import Prelude PyDecimal Domain Json MarketEvents EventLog Manifest.

Local Open Scope Z_scope.

(** ** Events *)

Record NewDomainEvent : Type := {
  de_aggregate_id : UUID;
  de_aggregate_type : string;
  de_event_type : string;
  de_payload : json;
  de_metadata : json;
  de_occurred_at : datetime;
  de_event_version : Z
}.

(** [s.split(".")]. *)
Fixpoint split_dots (l : list ascii) : list (list ascii) :=
  match l with
  | [] => [[]]
  | c :: l' =>
      match split_dots l' with
      | part :: parts => if bool_decide (c = "."%char) then [] :: part :: parts else (c :: part) :: parts
      | [] => [[c]]
      end
  end.

(** A dotted name without empty parts. *)
Definition event_name (ty : string) : bool :=
  dotted ty && forallb (fun part => match part with [] => false | _ => true end) (split_dots (list_ascii_of_string ty)).

(** The payload and the metadata are given as values; they are stored frozen. *)
Definition NewDomainEvent_init (aggregate_id : UUID) (aggregate_type event_type : string) (payload metadata : pyval)
    (occurred_at : datetime) (event_version : Z) : result NewDomainEvent :=
  do* raise_if (aggregate_id =? 0) (ValueError "aggregate_id cannot be nil") ;;
  do* raise_if (blank aggregate_type) (ValueError "aggregate_type cannot be empty") ;;
  do* raise_if (negb (event_name event_type)) (ValueError "event_type must be a dotted non-empty name") ;;
  do* raise_if (event_version <? 1) (ValueError "event_version must be at least one") ;;
  do* require_utc occurred_at "occurred_at" ;;
  let* frozen_payload := freeze_json payload in
  let* frozen_metadata := freeze_json metadata in
  let* object_payload := as_mapping "event payload and metadata must be JSON objects" frozen_payload in
  let* object_metadata := as_mapping "event payload and metadata must be JSON objects" frozen_metadata in
  Ok {| de_aggregate_id := aggregate_id; de_aggregate_type := aggregate_type; de_event_type := event_type;
        de_payload := object_payload; de_metadata := object_metadata; de_occurred_at := occurred_at;
        de_event_version := event_version |}.

Record StoredDomainEvent : Type := { sd_event : NewDomainEvent; sd_stream_version : Z }.

(** ** The repository *)

Definition stream_key : Type := string * UUID.

Definition key_of (e : NewDomainEvent) : stream_key := (de_aggregate_type e, de_aggregate_id e).

Record Ledger : Type := {
  lg_streams : gmap stream_key Z;
  lg_events : list StoredDomainEvent;
  lg_outbox : list (string * StoredDomainEvent)
}.

Definition empty_ledger : Ledger := {| lg_streams := ∅; lg_events := []; lg_outbox := [] |}.

(** [stream_version]: zero when the stream has no row. *)
Definition stream_version (l : Ledger) (k : stream_key) : Z := default 0 (lg_streams l !! k).

(** The events of an append, numbered from the next version. *)
Fixpoint number (version : Z) (events : list NewDomainEvent) : list StoredDomainEvent :=
  match events with
  | [] => []
  | e :: events' => {| sd_event := e; sd_stream_version := version + 1 |} :: number (version + 1) events'
  end.

Definition append (l : Ledger) (aggregate_id : UUID) (aggregate_type : string) (expected_version : Z) (events : list NewDomainEvent)
  : result (Ledger * list StoredDomainEvent) :=
  do* raise_if (aggregate_id =? 0) (ValueError "aggregate_id cannot be nil") ;;
  do* raise_if (blank aggregate_type) (ValueError "aggregate_type cannot be empty") ;;
  do* raise_if (expected_version <? 0) (ValueError "expected_version cannot be negative") ;;
  do* raise_if (match events with [] => true | _ => false end) (ValueError "at least one event is required") ;;
  do* raise_if (existsb (fun e => negb (de_aggregate_id e =? aggregate_id) || negb (bool_decide (de_aggregate_type e = aggregate_type))) events)
        (ValueError "event aggregate identity does not match append target") ;;
  let current_version := stream_version l (aggregate_type, aggregate_id) in
  do* raise_if (negb (current_version =? expected_version)) (OptimisticConcurrencyError "stream version differs") ;;
  let stored := number expected_version events in
  Ok ({| lg_streams := <[(aggregate_type, aggregate_id) := expected_version + Z.of_nat (length events)]> (lg_streams l);
         lg_events := lg_events l ++ stored;
         lg_outbox := lg_outbox l ++ map (fun s => (de_event_type (sd_event s), s)) stored |}, stored).

Definition in_stream (k : stream_key) (s : StoredDomainEvent) : bool := bool_decide (key_of (sd_event s) = k).

(** [order_by(stream_version)]. *)
Fixpoint insert_version (s : StoredDomainEvent) (l : list StoredDomainEvent) : list StoredDomainEvent :=
  match l with
  | [] => [s]
  | x :: l' => if sd_stream_version s <=? sd_stream_version x then s :: x :: l' else x :: insert_version s l'
  end.
Definition by_version (l : list StoredDomainEvent) : list StoredDomainEvent := fold_right insert_version [] l.

Definition load_stream (l : Ledger) (k : stream_key) (after_version : Z) : result (list StoredDomainEvent) :=
  do* raise_if (after_version <? 0) (ValueError "after_version cannot be negative") ;;
  Ok (by_version (List.filter (fun s => in_stream k s && (after_version <? sd_stream_version s)) (lg_events l))).

(** ** Facts *)

(** The events of a stream are numbered from one up to its version. *)
Record ledger_ok (l : Ledger) : Prop := {
  lo_numbers : forall k, map sd_stream_version (List.filter (in_stream k) (lg_events l)) = zrange 1 (Z.to_nat (stream_version l k));
  lo_version : forall k, 0 <= stream_version l k;
  lo_outbox : lg_outbox l = map (fun s => (de_event_type (sd_event s), s)) (lg_events l)
}.

Lemma empty_ledger_ok : ledger_ok empty_ledger.
Proof. split; intros; reflexivity || (unfold stream_version; cbn; rewrite lookup_empty; cbn; reflexivity || lia). Qed.

Lemma number_versions v events : map sd_stream_version (number v events) = zrange (v + 1) (length events).
Proof.
  revert v; induction events as [|e events IH]; intros v; cbn [number map length]; [reflexivity|].
  rewrite zrange_S, IH. reflexivity.
Qed.

Lemma number_events v events : map sd_event (number v events) = events.
Proof. revert v; induction events as [|e events IH]; intros v; cbn [number map]; [reflexivity|]. now rewrite IH. Qed.

Lemma number_stream k v events : List.Forall (fun e => key_of e = k) events ->
  List.filter (in_stream k) (number v events) = number v events /\
  (forall k', k' <> k -> List.filter (in_stream k') (number v events) = []).
Proof.
  intros F. assert (G : Forall (fun s => key_of (sd_event s) = k) (number v events)).
  { apply List.Forall_forall. intros s Is. rewrite List.Forall_forall in F. apply F. rewrite <- (number_events v events). now apply in_map. }
  split.
  - apply filter_all. eapply List.Forall_impl; [|exact G]. intros s E. now apply bool_decide_eq_true.
  - intros k' N. apply filter_nil. eapply List.Forall_impl; [|exact G]. intros s E. apply bool_decide_eq_false. cbn. congruence.
Qed.

(** What the constructor of an event keeps. *)
Lemma NewDomainEvent_init_Ok id ty name p md t v e : NewDomainEvent_init id ty name p md t v = Ok e ->
  key_of e = (ty, id) /\ de_event_type e = name /\ freeze_json p = Ok (de_payload e) /\ de_occurred_at e = t /\ id <> 0.
Proof.
  unfold NewDomainEvent_init, as_mapping. intros H. py_inv. bool_prop. cbn. auto.
Qed.

Lemma NewDomainEvent_init_total id ty name p m t items md : id <> 0 -> blank ty = false -> event_name name = true -> is_utc t = true ->
  freeze_json p = Ok (JObj items) -> freeze_json m = Ok (JObj md) ->
  exists e, NewDomainEvent_init id ty name p m t 1 = Ok e /\ key_of e = (ty, id).
Proof.
  intros Hid Hty Hn U Ep Em. unfold NewDomainEvent_init. rewrite (proj2 (Z.eqb_neq _ _) Hid), Hty, Hn, (require_utc_true _ _ U), Ep, Em.
  cbn. eauto.
Qed.

(** What an append does: it names the present version, and only its stream moves. *)
Lemma append_Ok l id ty v events l' stored : append l id ty v events = Ok (l', stored) ->
  stream_version l (ty, id) = v /\ events <> [] /\ List.Forall (fun e => key_of e = (ty, id)) events /\ id <> 0 /\
  stored = number v events /\ lg_events l' = lg_events l ++ stored /\
  lg_outbox l' = lg_outbox l ++ map (fun s => (de_event_type (sd_event s), s)) stored /\
  stream_version l' (ty, id) = v + Z.of_nat (length events) /\
  (forall k, k <> (ty, id) -> stream_version l' k = stream_version l k).
Proof.
  unfold append. intros H. py_inv. bool_prop. cbn [lg_events lg_outbox].
  split; [assumption|]. split; [now destruct events|]. split.
  { apply List.Forall_forall. intros e Ie. match goal with H : existsb _ _ = false |- _ => apply existsb_false_Forall in H; rewrite List.Forall_forall in H; specialize (H e Ie); cbn beta in H end.
    bool_prop. unfold key_of. congruence. }
  split; [assumption|]. split; [congruence|]. repeat split; try congruence.
  - unfold stream_version. cbn [lg_streams]. rewrite lookup_insert_eq. reflexivity.
  - intros k N. unfold stream_version. cbn [lg_streams]. rewrite lookup_insert_ne by congruence. reflexivity.
Qed.

Lemma append_total l id ty events : id <> 0 -> blank ty = false -> ledger_ok l -> events <> [] ->
  List.Forall (fun e => key_of e = (ty, id)) events ->
  exists l' stored, append l id ty (stream_version l (ty, id)) events = Ok (l', stored).
Proof.
  intros Hid Hty O Hev F. eexists _, _. unfold append. pass; [now apply Z.eqb_neq|]. pass; [exact Hty|].
  pass; [apply Z.ltb_ge; apply (lo_version l O)|]. pass; [now destruct events|].
  pass. { apply existsb_false_Forall. eapply List.Forall_impl; [|exact F]. intros e E. injection E as -> ->.
          now rewrite Z.eqb_refl, bool_decide_true. }
  pass; [now rewrite Z.eqb_refl | reflexivity].
Qed.

Lemma append_ok l id ty v events l' stored : ledger_ok l -> append l id ty v events = Ok (l', stored) -> ledger_ok l'.
Proof.
  intros [O1 O2 O3] H. apply append_Ok in H as (Ev & _ & F & _ & -> & Ee & Eo & V1 & V2). destruct (number_stream (ty, id) v events F) as [N1 N2].
  pose proof (O2 (ty, id)) as P. split.
  - intros k. rewrite Ee, List.filter_app, map_app, O1. destruct (decide (k = (ty, id))) as [->|n].
    + rewrite N1, V1, number_versions, Ev. rewrite Ev in P. rewrite Z2Nat.inj_add, Nat2Z.id, zrange_app by lia. do 2 f_equal. lia.
    + rewrite (N2 k n), (V2 k n). apply app_nil_r.
  - intros k. destruct (decide (k = (ty, id))) as [->|n]; [lia | now rewrite (V2 k n)].
  - now rewrite Eo, O3, Ee, map_app.
Qed.

(** The stored order of a stream is the order of its versions. *)
Lemma by_version_sorted l k n : map sd_stream_version l = zrange k n -> by_version l = l.
Proof.
  revert k n; induction l as [|s l IH]; intros k n E; [reflexivity|]. destruct n as [|n]; [discriminate|].
  rewrite zrange_S in E. cbn [map] in E. injection E as E1 E2. cbn [by_version fold_right].
  change (fold_right insert_version [] l) with (by_version l). rewrite (IH _ _ E2). destruct l as [|x l]; [reflexivity|].
  destruct n as [|n]; [discriminate|]. rewrite zrange_S in E2. cbn [map] in E2. injection E2 as E2 _. cbn [insert_version].
  now rewrite (proj2 (Z.leb_le _ _)) by lia.
Qed.

Lemma load_all l k : ledger_ok l -> load_stream l k 0 = Ok (List.filter (in_stream k) (lg_events l)).
Proof.
  intros [O1 O2 _]. unfold load_stream.
  assert (E : List.filter (fun s => in_stream k s && (0 <? sd_stream_version s)) (lg_events l) = List.filter (in_stream k) (lg_events l)).
  { apply filter_ext_in. intros s Is. destruct (in_stream k s) eqn:Es; [|reflexivity]. cbn [andb].
    assert (I : In (sd_stream_version s) (zrange 1 (Z.to_nat (stream_version l k)))) by (rewrite <- O1; apply in_map, filter_In; auto).
    unfold zrange in I. apply in_map_iff in I as (i & <- & _). apply Z.ltb_lt. lia. }
  rewrite E. pass; [reflexivity|]. f_equal. eapply by_version_sorted, O1.
Qed.

(** The events of one stream, and what an append of one event does to the streams. *)
Definition stream_of (l : Ledger) (k : stream_key) : list StoredDomainEvent := List.filter (in_stream k) (lg_events l).

Lemma append_one l id ty v e l' stored : append l id ty v [e] = Ok (l', stored) ->
  stream_version l (ty, id) = v /\ stream_version l' (ty, id) = v + 1 /\
  stream_of l' (ty, id) = stream_of l (ty, id) ++ [{| sd_event := e; sd_stream_version := v + 1 |}] /\
  (forall k, k <> (ty, id) -> stream_version l' k = stream_version l k /\ stream_of l' k = stream_of l k).
Proof.
  intros H. apply append_Ok in H as (V & _ & F & _ & -> & Ee & _ & V1 & V2). destruct (number_stream (ty, id) v [e] F) as [N1 N2].
  repeat split; auto; unfold stream_of; rewrite Ee, List.filter_app; [now rewrite N1 | rewrite N2 by assumption; apply app_nil_r].
Qed.

Lemma append_other l id ty v events l' stored k : append l id ty v events = Ok (l', stored) -> k <> (ty, id) ->
  stream_version l' k = stream_version l k /\ stream_of l' k = stream_of l k.
Proof.
  intros H N. apply append_Ok in H as (_ & _ & F & _ & -> & Ee & _ & _ & V2). destruct (number_stream (ty, id) v events F) as [_ N2].
  split; [auto|]. unfold stream_of. rewrite Ee, List.filter_app, N2 by assumption. apply app_nil_r.
Qed.
