(* ===== verification/Experiments.v ===== *)
(** * Experiments: [maais/experiments/service.py],
    [maais/db/repositories/experiments.py] and the rebuild of their projection
    in [maais/db/replay.py]

    The lifecycle of an experiment, its row and its event stream.  A row keeps
    the columns of the projection; the other columns copy the manifest when the
    row is created and are left out.  The identifiers that the database gives
    to strategy and agent versions are left out too. *)

From Stdlib Require Import ZArith Lia List Bool String Ascii.
From stdpp Require Import base decidable list strings gmap.
From S2P Require Import Prelude PyDecimal Domain Json MarketEvents EventLog Manifest Commands Ledger.

Local Open Scope Z_scope.

(** ** The lifecycle *)

Definition _ALLOWED (s : ExperimentStatus) : list ExperimentStatus :=
  match s with
  | ES_CREATED => [ES_RUNNING]
  | ES_RUNNING => [ES_PAUSED; ES_STOPPED; ES_COMPLETED; ES_FAILED]
  | ES_PAUSED => [ES_RUNNING; ES_STOPPED; ES_FAILED]
  | ES_STOPPED | ES_COMPLETED | ES_FAILED => []
  end.

Definition _EVENT_NAMES (s : ExperimentStatus) : option string :=
  match s with
  | ES_CREATED => None
  | ES_RUNNING => Some "experiment.started"
  | ES_PAUSED => Some "experiment.paused"
  | ES_STOPPED => Some "experiment.stopped"
  | ES_COMPLETED => Some "experiment.completed"
  | ES_FAILED => Some "experiment.failed"
  end.

Record ExperimentTransition : Type := {
  et_status : ExperimentStatus;
  et_expected_version : Z;
  et_events : list NewDomainEvent
}.

Section Experiments.
Context (sha256_hex : string -> string).

(** [ExperimentLifecycle(manifest, status, version, now=...)._transition(target)]. *)
Definition lifecycle_transition (m : ExperimentManifest) (status : ExperimentStatus) (version : Z) (target : ExperimentStatus)
    (failure_reason : option string) (occurred_at : datetime) : result ExperimentTransition :=
  do* raise_if (version <? 1) (ValueError "existing experiment stream version must be at least one") ;;
  do* raise_if (negb (bool_decide (elem_of target (_ALLOWED status))))
        (InvalidExperimentTransition ("cannot transition " +:+ enum_value status +:+ " to " +:+ enum_value target)) ;;
  let* config := config_hash sha256_hex m in
  let* manifest := manifest_hash sha256_hex m in
  let* event_type := of_option (LookupError (enum_value target)) (_EVENT_NAMES target) in
  let* event := NewDomainEvent_init (em_experiment_id m) "experiment" event_type
    (PDict ([("previous_status", PStr (enum_value status)); ("status", PStr (enum_value target));
             ("config_hash", PStr config); ("manifest_hash", PStr manifest)] ++
            match failure_reason with Some r => [("failure_reason", PStr r)] | None => [] end))
    (PDict [("manifest_schema_version", PInt (em_manifest_schema_version m))]) occurred_at 1 in
  Ok {| et_status := target; et_expected_version := version; et_events := [event] |}.

Definition strip (s : string) : string := string_of_list_ascii (trim (list_ascii_of_string s)).

Definition lifecycle_fail (m : ExperimentManifest) (status : ExperimentStatus) (version : Z) (reason : string) (occurred_at : datetime)
  : result ExperimentTransition :=
  do* raise_if (version <? 1) (ValueError "existing experiment stream version must be at least one") ;;
  do* raise_if (blank reason) (ValueError "failure reason cannot be empty") ;;
  lifecycle_transition m status version ES_FAILED (Some (strip reason)) occurred_at.

(** ** The rows *)

Record ExperimentRow : Type := {
  xr_status : ExperimentStatus;
  xr_started_at : option datetime;
  xr_ended_at : option datetime;
  xr_failure_reason : option string;
  xr_config_hash : string;
  xr_manifest_hash : string
}.

Record AgentVersionRow : Type := {
  vr_agent_name : string;
  vr_version : string;
  vr_maturity : AgentMaturity;
  vr_implementation_hash : string;
  vr_parameters : json;
  vr_data_dependencies : json;
  vr_enabled : bool
}.

Record ExperimentStore : Type := {
  xs_rows : gmap UUID ExperimentRow;
  xs_agents : list AgentVersionRow;
  xs_ledger : Ledger
}.

Definition empty_experiments : ExperimentStore := {| xs_rows := ∅; xs_agents := []; xs_ledger := empty_ledger |}.

(** Equality of JSON objects: that of their canonical texts. *)
Definition same_json (a b : json) : bool := bool_decide (dumps_text a = dumps_text b).

Definition register_agent_version (agents : list AgentVersionRow) (e : AgentManifestEntry) (parameters : json)
  : result (list AgentVersionRow) :=
  match List.find (fun r => bool_decide (vr_agent_name r = ae_agent_name e) && bool_decide (vr_version r = ae_version e)) agents with
  | Some r =>
      do* raise_if (negb (bool_decide (vr_maturity r = ae_maturity e)) ||
                    negb (bool_decide (vr_implementation_hash r = ae_implementation_hash e)) ||
                    negb (same_json (vr_parameters r) parameters) ||
                    negb (same_json (vr_data_dependencies r) (ae_data_dependencies e)) ||
                    negb (Bool.eqb (vr_enabled r) (ae_enabled e)))
            (VersionIdentityConflict ("agent version conflict: " +:+ ae_agent_name e +:+ "/" +:+ ae_version e)) ;;
      Ok agents
  | None => Ok (agents ++ [{| vr_agent_name := ae_agent_name e; vr_version := ae_version e; vr_maturity := ae_maturity e;
                             vr_implementation_hash := ae_implementation_hash e; vr_parameters := parameters;
                             vr_data_dependencies := ae_data_dependencies e; vr_enabled := ae_enabled e |}])
  end.

(** [for entry in manifest.agent_versions: register_agent_version(entry)]. *)
Fixpoint register_agents (agents : list AgentVersionRow) (l : list AgentManifestEntry) : result (list AgentVersionRow) :=
  match l with
  | [] => Ok agents
  | e :: l' => let* agents' := register_agent_version agents e (JObj []) in register_agents agents' l'
  end.

Definition experiment_create (st : ExperimentStore) (m : ExperimentManifest) : result ExperimentStore :=
  let id := em_experiment_id m in
  let* hash := manifest_hash sha256_hex m in
  match xs_rows st !! id with
  | Some row =>
      do* raise_if (negb (bool_decide (xr_manifest_hash row = hash)))
            (ImmutableManifestError "experiment ID already has a different manifest") ;;
      Ok st
  | None =>
      let* agents := register_agents (xs_agents st) (em_agent_versions m) in
      let* manifest_json := manifest_to_dict m in
      let* config := config_hash sha256_hex m in
      let* event := NewDomainEvent_init id "experiment" "experiment.created"
        (PDict [("status", PStr (enum_value ES_CREATED)); ("config_hash", PStr config); ("manifest_hash", PStr hash);
                ("manifest", thaw manifest_json)])
        (PDict [("manifest_schema_version", PInt (em_manifest_schema_version m))]) (em_created_at m) 1 in
      let* r := append (xs_ledger st) id "experiment" 0 [event] in
      Ok {| xs_rows := <[id := {| xr_status := ES_CREATED; xr_started_at := None; xr_ended_at := None; xr_failure_reason := None;
                                  xr_config_hash := config; xr_manifest_hash := hash |}]> (xs_rows st);
            xs_agents := agents; xs_ledger := fst r |}
  end.

(** [payload.get(key)] of a stored object. *)
Definition payload_get (j : json) (k : string) : option json := match j with JObj items => dict_get items k | _ => None end.

Definition is_terminal (s : ExperimentStatus) : bool := bool_decide (elem_of s [ES_STOPPED; ES_COMPLETED; ES_FAILED]).

Definition optional_text (j : option json) : option string :=
  match j with None | Some JNull => None | Some _ => Some (json_str j) end.

(** What [transition] does to the columns of the locked row. *)
Definition advance_row (row : ExperimentRow) (target : ExperimentStatus) (e : NewDomainEvent) : ExperimentRow := {|
  xr_status := target;
  xr_started_at := if bool_decide (target = ES_RUNNING) && negb (present (xr_started_at row)) then Some (de_occurred_at e)
                   else xr_started_at row;
  xr_ended_at := if is_terminal target then Some (de_occurred_at e) else xr_ended_at row;
  xr_failure_reason := if bool_decide (target = ES_FAILED) then optional_text (payload_get (de_payload e) "failure_reason")
                       else xr_failure_reason row;
  xr_config_hash := xr_config_hash row; xr_manifest_hash := xr_manifest_hash row |}.

(** The locked row of a manifest. *)
Definition locked_experiment (st : ExperimentStore) (m : ExperimentManifest) (conflict : string) : result ExperimentRow :=
  let* row := of_option (LookupError "experiment not found") (xs_rows st !! em_experiment_id m) in
  let* hash := manifest_hash sha256_hex m in
  do* raise_if (negb (bool_decide (xr_manifest_hash row = hash))) (ImmutableManifestError conflict) ;;
  Ok row.

Definition experiment_transition (st : ExperimentStore) (m : ExperimentManifest) (t : ExperimentTransition) : result ExperimentStore :=
  let* row := locked_experiment st m "stored manifest identity does not match transition manifest" in
  let* event := of_option (LookupError "tuple index out of range") (head (et_events t)) in
  let* previous := of_option (LookupError "previous_status") (payload_get (de_payload event) "previous_status") in
  do* raise_if (negb (bool_decide (enum_value (xr_status row) = json_str (Some previous))))
        (RuntimeError "experiment projection status differs from the expected one") ;;
  let* r := append (xs_ledger st) (em_experiment_id m) "experiment" (et_expected_version t) (et_events t) in
  Ok {| xs_rows := <[em_experiment_id m := advance_row row (et_status t) event]> (xs_rows st);
        xs_agents := xs_agents st; xs_ledger := fst r |}.

Definition get_status (st : ExperimentStore) (id : UUID) : result ExperimentStatus :=
  let* row := of_option (LookupError "experiment not found") (xs_rows st !! id) in Ok (xr_status row).

Definition experiment_version (st : ExperimentStore) (m : ExperimentManifest) : Z :=
  stream_version (xs_ledger st) ("experiment", em_experiment_id m).

Definition ensure_running (st : ExperimentStore) (m : ExperimentManifest) (started_at : datetime) : result (ExperimentStore * bool) :=
  let* row := locked_experiment st m "stored manifest identity does not match worker manifest" in
  if bool_decide (xr_status row = ES_RUNNING) then Ok (st, false)
  else
    do* raise_if (negb (bool_decide (xr_status row = ES_CREATED)))
          (RuntimeError ("paper worker cannot start experiment from " +:+ enum_value (xr_status row))) ;;
    let* t := lifecycle_transition m (xr_status row) (experiment_version st m) ES_RUNNING None started_at in
    let* st' := experiment_transition st m t in Ok (st', true).

Definition pause_active (st : ExperimentStore) (m : ExperimentManifest) (paused_at : datetime) : result (ExperimentStore * bool) :=
  let* row := locked_experiment st m "stored manifest identity does not match pause manifest" in
  if bool_decide (xr_status row = ES_PAUSED) then Ok (st, false)
  else
    do* raise_if (negb (bool_decide (xr_status row = ES_RUNNING)))
          (RuntimeError ("paper worker cannot pause experiment from " +:+ enum_value (xr_status row))) ;;
    let* t := lifecycle_transition m (xr_status row) (experiment_version st m) ES_PAUSED None paused_at in
    let* st' := experiment_transition st m t in Ok (st', true).

Definition resume_paused (st : ExperimentStore) (m : ExperimentManifest) (resumed_at : datetime) : result (ExperimentStore * bool) :=
  let* row := locked_experiment st m "stored manifest identity does not match resume manifest" in
  if bool_decide (xr_status row = ES_RUNNING) then Ok (st, false)
  else
    do* raise_if (negb (bool_decide (xr_status row = ES_PAUSED)))
          (RuntimeError ("paper worker cannot resume experiment from " +:+ enum_value (xr_status row))) ;;
    let* t := lifecycle_transition m (xr_status row) (experiment_version st m) ES_RUNNING None resumed_at in
    let* st' := experiment_transition st m t in Ok (st', true).

Definition stop_active (st : ExperimentStore) (m : ExperimentManifest) (stopped_at : datetime) : result (ExperimentStore * bool) :=
  let* row := locked_experiment st m "stored manifest identity does not match stop manifest" in
  if bool_decide (xr_status row = ES_STOPPED) then Ok (st, false)
  else
    do* raise_if (negb (bool_decide (elem_of (xr_status row) [ES_RUNNING; ES_PAUSED])))
          (RuntimeError ("paper worker cannot stop experiment from " +:+ enum_value (xr_status row))) ;;
    let* t := lifecycle_transition m (xr_status row) (experiment_version st m) ES_STOPPED None stopped_at in
    let* st' := experiment_transition st m t in Ok (st', true).

Definition fail_active (st : ExperimentStore) (m : ExperimentManifest) (reason : string) (failed_at : datetime)
  : result (ExperimentStore * bool) :=
  let* row := locked_experiment st m "stored manifest identity does not match halt manifest" in
  if bool_decide (xr_status row = ES_FAILED) then
    do* raise_if (negb (bool_decide (xr_failure_reason row = Some reason)))
          (RuntimeError "experiment is already failed for a different reason") ;;
    Ok (st, false)
  else
    do* raise_if (negb (bool_decide (elem_of (xr_status row) [ES_RUNNING; ES_PAUSED])))
          (RuntimeError ("cannot persistently halt experiment from " +:+ enum_value (xr_status row))) ;;
    let* t := lifecycle_fail m (xr_status row) (experiment_version st m) reason failed_at in
    let* st' := experiment_transition st m t in Ok (st', true).
End Experiments.

(** ** The rebuild of the projection *)

Definition event_statuses (event_type : string) : option ExperimentStatus :=
  dict_get [("experiment.started", ES_RUNNING); ("experiment.paused", ES_PAUSED); ("experiment.stopped", ES_STOPPED);
            ("experiment.completed", ES_COMPLETED); ("experiment.failed", ES_FAILED)] event_type.

(** The body of the loop over the later events. *)
Definition rebuild_step (row : ExperimentRow) (s : StoredDomainEvent) : ExperimentRow :=
  let event := sd_event s in
  match event_statuses (de_event_type event) with
  | None => row
  | Some target =>
      let started_at := match target, xr_started_at row with
                        | ES_RUNNING, None => Some (de_occurred_at event)
                        | _, started_at => started_at
                        end in
      let ended_at := match target with
                      | ES_STOPPED | ES_COMPLETED | ES_FAILED => Some (de_occurred_at event)
                      | _ => xr_ended_at row
                      end in
      let failure_reason := match target with
                            | ES_FAILED => match payload_get (de_payload event) "failure_reason" with
                                           | None | Some JNull => None
                                           | Some raw_reason => Some (json_str (Some raw_reason))
                                           end
                            | _ => xr_failure_reason row
                            end in
      {| xr_status := target; xr_started_at := started_at; xr_ended_at := ended_at; xr_failure_reason := failure_reason;
         xr_config_hash := xr_config_hash row; xr_manifest_hash := xr_manifest_hash row |}
  end.

(** [str(payload.get(key, ""))]. *)
Definition text_or_empty (j : option json) : string := match j with None => "" | Some _ => json_str j end.

Definition _rebuild_experiment_projection_from_events (events : list StoredDomainEvent) : result ExperimentRow :=
  match by_version events with
  | created :: later =>
      do* raise_if (negb (bool_decide (de_event_type (sd_event created) = "experiment.created")))
            (ValueError "experiment stream must begin with experiment.created") ;;
      Ok (fold_left rebuild_step later {|
            xr_status := ES_CREATED; xr_started_at := None; xr_ended_at := None; xr_failure_reason := None;
            xr_config_hash := text_or_empty (payload_get (de_payload (sd_event created)) "config_hash");
            xr_manifest_hash := text_or_empty (payload_get (de_payload (sd_event created)) "manifest_hash") |})
  | [] => Raise (ValueError "experiment stream must begin with experiment.created")
  end.

Definition rebuild_experiment_projection (l : Ledger) (experiment_id : UUID) : result ExperimentRow :=
  _rebuild_experiment_projection_from_events (by_version (List.filter (in_stream ("experiment", experiment_id)) (lg_events l))).

(** ** Facts *)

Section Facts.
Context (sha256_hex : string -> string).

Definition experiment_key (id : UUID) : stream_key := ("experiment", id).

(** The lifecycle, as a relation of statuses of its own. *)
Inductive lifecycle_step : ExperimentStatus -> ExperimentStatus -> Prop :=
| life_start : lifecycle_step ES_CREATED ES_RUNNING
| life_pause : lifecycle_step ES_RUNNING ES_PAUSED
| life_resume : lifecycle_step ES_PAUSED ES_RUNNING
| life_stop s : s = ES_RUNNING \/ s = ES_PAUSED -> lifecycle_step s ES_STOPPED
| life_complete : lifecycle_step ES_RUNNING ES_COMPLETED
| life_fail s : s = ES_RUNNING \/ s = ES_PAUSED -> lifecycle_step s ES_FAILED.

#[local] Hint Constructors lifecycle_step : core.

Definition ended (s : ExperimentStatus) : Prop := s = ES_STOPPED \/ s = ES_COMPLETED \/ s = ES_FAILED.

Lemma lifecycle_allowed a b : lifecycle_step a b <-> elem_of b (_ALLOWED a).
Proof.
  split.
  - destruct 1 as [| | |s [-> | ->]| |s [-> | ->]]; cbn; set_solver.
  - destruct a; cbn; rewrite ?elem_of_cons, ?elem_of_nil; intuition (subst; auto).
Qed.

Lemma event_statuses_name s ty : _EVENT_NAMES s = Some ty -> event_statuses ty = Some s.
Proof. destruct s; intros [= <-]; vm_compute; reflexivity. Qed.

(** The loop does with the event of a transition what the transition did to the row. *)
Lemma rebuild_transition row target s : _EVENT_NAMES target = Some (de_event_type (sd_event s)) ->
  rebuild_step row s = advance_row row target (sd_event s).
Proof.
  intros E. unfold rebuild_step, advance_row. rewrite (event_statuses_name _ _ E).
  destruct target; cbn; try reflexivity; try (destruct (xr_started_at row); reflexivity).
  destruct (payload_get (de_payload (sd_event s)) "failure_reason") as [[]|]; reflexivity.
Qed.

(** The event of a transition, and what a transition event means. *)
Lemma lifecycle_transition_Ok m status version target reason t tr :
  lifecycle_transition sha256_hex m status version target reason t = Ok tr ->
  lifecycle_step status target /\ et_status tr = target /\ et_expected_version tr = version /\
  exists e, et_events tr = [e] /\ key_of e = experiment_key (em_experiment_id m) /\ _EVENT_NAMES target = Some (de_event_type e) /\
    payload_get (de_payload e) "previous_status" = Some (JStr (enum_value status)).
Proof.
  unfold lifecycle_transition. intros H. py_inv. bool_prop. cbn [et_status et_expected_version et_events].
  split; [now apply lifecycle_allowed|]. split; [reflexivity|]. split; [reflexivity|]. eexists. split; [reflexivity|].
  match goal with H : NewDomainEvent_init _ _ _ _ _ _ _ = Ok _ |- _ => apply NewDomainEvent_init_Ok in H as (E1 & E2 & E3 & _) end.
  split; [exact E1|]. split; [congruence|]. destruct reason; cbn in E3; injection E3 as <-; reflexivity.
Qed.

Lemma lifecycle_fail_Ok m status version reason t tr : lifecycle_fail sha256_hex m status version reason t = Ok tr ->
  lifecycle_transition sha256_hex m status version ES_FAILED (Some (strip reason)) t = Ok tr.
Proof. unfold lifecycle_fail. intros H. now py_inv. Qed.

(** A row and its event stream say the same. *)
Definition projected (st : ExperimentStore) (id : UUID) (row : ExperimentRow) : Prop :=
  rebuild_experiment_projection (xs_ledger st) id = Ok row.

Record experiments_ok (st : ExperimentStore) : Prop := {
  eo_ledger : ledger_ok (xs_ledger st);
  eo_rows : forall id row, xs_rows st !! id = Some row -> projected st id row
}.

(** The stream of an experiment, in its stored order. *)
Lemma rebuild_sorted l id : ledger_ok l -> rebuild_experiment_projection l id =
  match List.filter (in_stream (experiment_key id)) (lg_events l) with
  | created :: later =>
      do* raise_if (negb (bool_decide (de_event_type (sd_event created) = "experiment.created")))
            (ValueError "experiment stream must begin with experiment.created") ;;
      Ok (fold_left rebuild_step later {|
            xr_status := ES_CREATED; xr_started_at := None; xr_ended_at := None; xr_failure_reason := None;
            xr_config_hash := text_or_empty (payload_get (de_payload (sd_event created)) "config_hash");
            xr_manifest_hash := text_or_empty (payload_get (de_payload (sd_event created)) "manifest_hash") |})
  | [] => Raise (ValueError "experiment stream must begin with experiment.created")
  end.
Proof.
  intros O. unfold rebuild_experiment_projection, _rebuild_experiment_projection_from_events.
  pose proof (lo_numbers l O (experiment_key id)) as N. fold (experiment_key id).
  rewrite !(by_version_sorted _ _ _ N). reflexivity.
Qed.

(** One more event of the stream is one more step of the rebuild. *)
Lemma rebuild_append l l' id v events stored row : ledger_ok l -> append l id "experiment" v events = Ok (l', stored) ->
  rebuild_experiment_projection l id = Ok row ->
  rebuild_experiment_projection l' id = Ok (fold_left rebuild_step stored row).
Proof.
  intros O H R. pose proof (append_ok _ _ _ _ _ _ _ O H) as O'. apply append_Ok in H as (_ & _ & F & _ & -> & Ee & _).
  rewrite rebuild_sorted in * by assumption. rewrite Ee, List.filter_app. fold (experiment_key id) in F. destruct (number_stream _ v _ F) as [-> _].
  destruct (List.filter _ (lg_events l)) as [|created later]; [discriminate|]. cbn [app].
  apply bind_Ok in R as (u & -> & R). injection R as <-. cbn [bind]. now rewrite fold_left_app.
Qed.

(** Events of other streams do not matter. *)
Lemma rebuild_other l l' id ty v events stored id' : ledger_ok l -> append l id ty v events = Ok (l', stored) ->
  (ty, id) <> experiment_key id' ->
  rebuild_experiment_projection l' id' = rebuild_experiment_projection l id'.
Proof.
  intros O H N. pose proof (append_ok _ _ _ _ _ _ _ O H) as O'. apply append_Ok in H as (_ & _ & F & _ & -> & Ee & _).
  rewrite !rebuild_sorted by assumption. rewrite Ee, List.filter_app. destruct (number_stream _ v _ F) as [_ E].
  rewrite E by congruence. now rewrite app_nil_r.
Qed.

Lemma locked_experiment_Ok st m c row : locked_experiment sha256_hex st m c = Ok row ->
  xs_rows st !! em_experiment_id m = Some row /\ manifest_hash sha256_hex m = Ok (xr_manifest_hash row).
Proof. unfold locked_experiment. intros H. py_inv. bool_prop. split; congruence. Qed.

(** Rows move along the lifecycle, and a terminal row is final. *)
Record row_after (a b : ExperimentRow) : Prop := {
  xa_status : star lifecycle_step (xr_status a) (xr_status b);
  xa_hashes : xr_config_hash b = xr_config_hash a /\ xr_manifest_hash b = xr_manifest_hash a;
  xa_terminal : ended (xr_status a) -> b = a
}.

Lemma row_after_refl a : row_after a a.
Proof. split; auto using star_refl. Qed.

Lemma row_after_trans a b c : row_after a b -> row_after b c -> row_after a c.
Proof.
  intros [A1 [A2 A3] A4] [B1 [B2 B3] B4]. split; [exact (star_trans _ _ _ _ A1 B1) | split; congruence|].
  intros T. pose proof (A4 T). subst b. now apply B4.
Qed.

Definition rows_later (st st' : ExperimentStore) : Prop :=
  forall id row, xs_rows st !! id = Some row -> exists row', xs_rows st' !! id = Some row' /\ row_after row row'.

Lemma rows_later_refl st : rows_later st st.
Proof. intros id row E. exists row. split; [exact E | apply row_after_refl]. Qed.

Lemma rows_later_trans a b c : rows_later a b -> rows_later b c -> rows_later a c.
Proof.
  intros H1 H2 id row E. destruct (H1 id row E) as (r1 & E1 & A1). destruct (H2 id r1 E1) as (r2 & E2 & A2).
  exists r2. split; [exact E2 | exact (row_after_trans _ _ _ A1 A2)].
Qed.

Lemma advance_after row target e : lifecycle_step (xr_status row) target -> row_after row (advance_row row target e).
Proof.
  intros L. split; cbn; [now apply star_one | auto|]. unfold ended.
  destruct L as [| | |? [-> | ->]| |? [-> | ->]]; intuition discriminate.
Qed.

(** A transition of the lifecycle keeps the row and the stream together. *)
Lemma transition_ok st m status tr st' : experiments_ok st ->
  (exists v target reason t, lifecycle_transition sha256_hex m status v target reason t = Ok tr) ->
  experiment_transition sha256_hex st m tr = Ok st' -> experiments_ok st' /\ rows_later st st'.
Proof.
  intros [O R] (v & target & reason & t & T) H. apply lifecycle_transition_Ok in T as (L & Et & Ev & e & Ee & Ek & En & Ep).
  unfold experiment_transition in H. apply bind_Ok in H as (row & Hr & H). apply locked_experiment_Ok in Hr as [Hr _].
  rewrite Ee in H. cbn [head of_option bind] in H. rewrite Ep in H. cbn [of_option bind] in H. py_inv. bool_prop.
  match goal with H : enum_value _ = _ |- _ => cbn [json_str] in H; assert (xr_status row = status) as Es
    by (revert H; destruct (xr_status row), status; try reflexivity; discriminate) end.
  match goal with H : append _ _ _ _ _ = Ok ?r |- _ => destruct r as [l' stored]; rename H into Ha end. cbn [fst].
  assert (W : fold_left rebuild_step stored row = advance_row row (et_status tr) e).
  { pose proof (append_Ok _ _ _ _ _ _ _ Ha) as (_ & _ & _ & _ & -> & _). cbn [number fold_left].
    apply rebuild_transition. exact En. }
  split.
  - split; [exact (append_ok _ _ _ _ _ _ _ O Ha)|]. intros id row' E. cbn [xs_rows] in E. unfold projected. cbn [xs_ledger].
    destruct (decide (id = em_experiment_id m)) as [->|n].
    + rewrite lookup_insert_eq in E. injection E as <-. rewrite <- W. eapply rebuild_append; [exact O | exact Ha | now apply R].
    + rewrite lookup_insert_ne in E by congruence. erewrite rebuild_other; [now apply R | exact O | exact Ha | unfold experiment_key; congruence].
  - intros id row' E. cbn [xs_rows]. destruct (decide (id = em_experiment_id m)) as [->|n].
    + rewrite Hr in E. injection E as <-. eexists. rewrite lookup_insert_eq. split; [reflexivity|]. apply advance_after. now rewrite Es.
    + exists row'. rewrite lookup_insert_ne by congruence. split; [exact E | apply row_after_refl].
Qed.

Lemma create_ok st m st' : experiments_ok st -> experiment_create sha256_hex st m = Ok st' -> experiments_ok st' /\ rows_later st st'.
Proof.
  intros S H. unfold experiment_create in H. apply bind_Ok in H as (hash & Hh & H).
  destruct (xs_rows st !! em_experiment_id m) as [row|] eqn:E; [py_inv; split; [exact S | apply rows_later_refl]|].
  destruct S as [O R]. py_inv.
  match goal with H : append _ _ _ _ _ = Ok ?r |- _ => destruct r as [l' stored]; rename H into Ha end.
  match goal with H : NewDomainEvent_init _ _ _ _ _ _ _ = Ok ?x |- _ =>
    apply NewDomainEvent_init_Ok in H as (E1 & E2 & E3 & _); rename x into e end. cbn [fst].
  pose proof (append_ok _ _ _ _ _ _ _ O Ha) as O'. split.
  - split; [exact O'|]. intros id row' E'. cbn [xs_rows] in E'. unfold projected. cbn [xs_ledger].
    destruct (decide (id = em_experiment_id m)) as [->|n].
    + rewrite lookup_insert_eq in E'. injection E' as <-. rewrite rebuild_sorted by exact O'.
      pose proof (append_Ok _ _ _ _ _ _ _ Ha) as (V & _ & F & _ & -> & Ee & _). rewrite Ee, List.filter_app.
      destruct (number_stream _ 0 _ F) as [N _]. fold (experiment_key (em_experiment_id m)) in N, V. rewrite N.
      pose proof (lo_numbers _ O (experiment_key (em_experiment_id m))) as Z0. rewrite V in Z0. cbn in Z0. apply map_eq_nil in Z0. rewrite Z0.
      cbn [app number fold_left sd_event]. rewrite E2. cbn [bool_decide].
      rewrite bool_decide_true by reflexivity. cbn [negb raise_if bind].
      match type of E3 with freeze_json (PDict [_; _; _; (?k, thaw ?j)]) = _ =>
        pose proof (freeze_thaw j) as Ft; cbn in E3; rewrite Ft in E3; cbn in E3; injection E3 as <- end. reflexivity.
    + rewrite lookup_insert_ne in E' by congruence. erewrite rebuild_other; [now apply R | exact O | exact Ha | unfold experiment_key; congruence].
  - intros id row' E'. cbn [xs_rows]. destruct (decide (id = em_experiment_id m)) as [->|n]; [congruence|].
    exists row'. rewrite lookup_insert_ne by congruence. split; [exact E' | apply row_after_refl].
Qed.

(** What the platform does to experiments and to other streams. *)
Inductive experiment_step : ExperimentStore -> ExperimentStore -> Prop :=
| step_create st m st' : experiment_create sha256_hex st m = Ok st' -> experiment_step st st'
| step_run st m t st' b : ensure_running sha256_hex st m t = Ok (st', b) -> experiment_step st st'
| step_pause st m t st' b : pause_active sha256_hex st m t = Ok (st', b) -> experiment_step st st'
| step_resume st m t st' b : resume_paused sha256_hex st m t = Ok (st', b) -> experiment_step st st'
| step_stop st m t st' b : stop_active sha256_hex st m t = Ok (st', b) -> experiment_step st st'
| step_fail st m reason t st' b : fail_active sha256_hex st m reason t = Ok (st', b) -> experiment_step st st'
| step_complete st m v t tr st' : lifecycle_transition sha256_hex m ES_RUNNING v ES_COMPLETED None t = Ok tr ->
    experiment_transition sha256_hex st m tr = Ok st' -> experiment_step st st'
| step_other st id ty v events l' stored : ty <> "experiment" -> append (xs_ledger st) id ty v events = Ok (l', stored) ->
    experiment_step st {| xs_rows := xs_rows st; xs_agents := xs_agents st; xs_ledger := l' |}.

Ltac status_change H :=
  apply bind_Ok in H as (? & ? & H); destruct (bool_decide _); py_inv; [split; [assumption | apply rows_later_refl]|];
  eapply transition_ok; [eassumption | do 4 eexists; eassumption | eassumption].

Lemma experiment_step_ok st st' : experiments_ok st -> experiment_step st st' -> experiments_ok st' /\ rows_later st st'.
Proof.
  intros S H.
  destruct H as [st m st' H|st m t st' b H|st m t st' b H|st m t st' b H|st m t st' b H|st m reason t st' b H|st m v t tr st' Ht H|st id ty v events l' stored N H].
  - exact (create_ok _ _ _ S H).
  - unfold ensure_running in H. status_change H.
  - unfold pause_active in H. status_change H.
  - unfold resume_paused in H. status_change H.
  - unfold stop_active in H. status_change H.
  - unfold fail_active in H. apply bind_Ok in H as (row & Hr & H). destruct (bool_decide _); py_inv; [split; [assumption | apply rows_later_refl]|].
    match goal with H : lifecycle_fail _ _ _ _ _ _ = Ok _ |- _ => apply lifecycle_fail_Ok in H end.
    eapply transition_ok; [eassumption | do 4 eexists; eassumption | eassumption].
  - eapply transition_ok; [eassumption | do 4 eexists; eassumption | eassumption].
  - split; [|exact (rows_later_refl st)]. destruct S as [O R]. split; [exact (append_ok _ _ _ _ _ _ _ O H)|]. intros i row E.
    unfold projected. cbn [xs_ledger]. erewrite rebuild_other; [now apply R | exact O | exact H | unfold experiment_key; congruence].
Qed.

Lemma empty_experiments_ok : experiments_ok empty_experiments.
Proof. split; [apply empty_ledger_ok|]. intros id row E. cbn in E. rewrite lookup_empty in E. discriminate. Qed.

Lemma experiment_run st st' : experiments_ok st -> star experiment_step st st' -> experiments_ok st' /\ rows_later st st'.
Proof.
  intros S R. induction R as [|a b c H _ IH]; [split; [exact S | apply rows_later_refl]|].
  destruct (experiment_step_ok _ _ S H) as [S' L]. destruct (IH S') as [S'' L']. split; [exact S'' | exact (rows_later_trans _ _ _ L L')].
Qed.
End Facts.

Lemma hashes_total sha256_hex m : valid_manifest m ->
  (exists c, config_hash sha256_hex m = Ok c) /\ (exists h, manifest_hash sha256_hex m = Ok h).
Proof.
  intros V. split.
  - exact (content_hash_total sha256_hex _ (freezable_thaw (em_configuration m))) || (unfold config_hash; destruct (content_hash_total sha256_hex _ (freezable_thaw (em_configuration m))) as [b ->]; eauto).
  - destruct (manifest_to_dict_total m V) as (items & E). unfold manifest_hash. rewrite E. cbn [bind].
    destruct (content_hash_total sha256_hex _ (freezable_thaw (JObj items))) as [b ->]. eauto.
Qed.

Lemma lifecycle_transition_total sha256_hex m status v target reason t : valid_manifest m -> 1 <= v -> lifecycle_step status target ->
  is_utc t = true -> exists tr, lifecycle_transition sha256_hex m status v target reason t = Ok tr.
Proof.
  intros V Hv L U. destruct (hashes_total sha256_hex m V) as [[c Ec] [h Eh]]. unfold lifecycle_transition.
  rewrite (proj2 (Z.ltb_ge _ _)) by lia. rewrite bool_decide_true by now apply lifecycle_allowed. rewrite Ec, Eh. cbn [negb raise_if bind].
  assert (exists name, _EVENT_NAMES target = Some name /\ event_name name = true) as (name & -> & En).
  { destruct L; eexists; (split; [reflexivity | vm_compute; reflexivity]). }
  cbn [of_option bind]. unfold NewDomainEvent_init. rewrite (proj2 (Z.eqb_neq _ _) (vm_id m V)), En.
  rewrite (require_utc_true _ _ U). destruct reason; cbn; eauto.
Qed.

(** A legal move of a stored experiment succeeds. *)
Lemma move_total sha256_hex st m row target reason t : experiments_ok st -> valid_manifest m -> is_utc t = true ->
  xs_rows st !! em_experiment_id m = Some row -> manifest_hash sha256_hex m = Ok (xr_manifest_hash row) ->
  lifecycle_step (xr_status row) target ->
  exists tr st', lifecycle_transition sha256_hex m (xr_status row) (experiment_version st m) target reason t = Ok tr /\
    experiment_transition sha256_hex st m tr = Ok st' /\ exists row', xs_rows st' !! em_experiment_id m = Some row' /\ xr_status row' = target.
Proof.
  intros [O R] V U E Hh L.
  assert (Hv : 1 <= experiment_version st m).
  { specialize (R _ _ E). unfold projected in R. rewrite rebuild_sorted in R by exact O. pose proof (lo_numbers _ O (experiment_key (em_experiment_id m))) as N.
    unfold experiment_version. fold (experiment_key (em_experiment_id m)). pose proof (lo_version _ O (experiment_key (em_experiment_id m))).
    destruct (decide (stream_version (xs_ledger st) (experiment_key (em_experiment_id m)) = 0)) as [Z0|n]; [|lia].
    rewrite Z0 in N. cbn in N. apply map_eq_nil in N. rewrite N in R. discriminate. }
  destruct (lifecycle_transition_total sha256_hex m (xr_status row) _ target reason t V Hv L U) as [tr T]. exists tr.
  pose proof (lifecycle_transition_Ok _ _ _ _ _ _ _ _ T) as (_ & Et & Ev & e & Ee & Ek & _ & Ep).
  destruct (append_total (xs_ledger st) (em_experiment_id m) "experiment" [e] (vm_id m V) eq_refl O ltac:(discriminate) ltac:(now constructor))
    as (l' & stored & Ha).
  unfold experiment_version in *. eexists. split; [exact T|]. split.
  - unfold experiment_transition. pass; [unfold locked_experiment; pass; [now rewrite E|]; pass; [exact Hh|]; pass; [now rewrite bool_decide_true | reflexivity]|].
    pass; [now rewrite Ee|]. pass; [now rewrite Ep|]. pass; [now rewrite bool_decide_true|].
    pass; [rewrite Ev, Ee; exact Ha | reflexivity].
  - cbn [xs_rows]. eexists. rewrite lookup_insert_eq. split; [reflexivity | exact Et].
Qed.

(** An operation of a worker that succeeds exactly when [allowed], and then
    leaves the experiment in [target]. *)
Definition leads_to (m : ExperimentManifest) (r : result (ExperimentStore * bool)) (allowed : bool) (target : ExperimentStatus) : Prop :=
  is_ok r = allowed /\ forall st' b, r = Ok (st', b) -> option_map xr_status (xs_rows st' !! em_experiment_id m) = Some target.

Lemma leads_stays st m row b : xs_rows st !! em_experiment_id m = Some row -> leads_to m (Ok (st, b)) true (xr_status row).
Proof. intros E. split; [reflexivity|]. intros st' b' [= <- <-]. now rewrite E. Qed.

Lemma leads_raise m e target : leads_to m (Raise e) false target.
Proof. split; [reflexivity | discriminate]. Qed.

Lemma fail_exact sha256_hex st m row reason t : experiments_ok st -> valid_manifest m -> is_utc t = true ->
  xs_rows st !! em_experiment_id m = Some row -> manifest_hash sha256_hex m = Ok (xr_manifest_hash row) ->
  leads_to m (fail_active sha256_hex st m reason t)
    match xr_status row with
    | ES_RUNNING | ES_PAUSED => negb (blank reason)
    | ES_FAILED => bool_decide (xr_failure_reason row = Some reason)
    | _ => false
    end ES_FAILED.
Proof.
  intros S V U E Hh. unfold fail_active, locked_experiment. rewrite E, Hh. cbn [of_option bind].
  rewrite !(bool_decide_true (xr_manifest_hash row = xr_manifest_hash row)) by reflexivity. cbn [negb raise_if bind].
  assert (M : lifecycle_step (xr_status row) ES_FAILED ->
    leads_to m (let* t0 := lifecycle_fail sha256_hex m (xr_status row) (experiment_version st m) reason t in
                let* st' := experiment_transition sha256_hex st m t0 in Ok (st', true)) (negb (blank reason)) ES_FAILED).
  { intros L. destruct (move_total sha256_hex st m row ES_FAILED (Some (strip reason)) t S V U E Hh L) as (tr & st' & T & X & row' & E' & Es).
    unfold lifecycle_fail. assert (Hv := T). unfold lifecycle_transition in Hv. py_inv.
    match goal with H : (_ <? 1) = false |- _ => rewrite H end. cbn [raise_if bind].
    destruct (blank reason); cbn [raise_if bind negb]; [apply leads_raise|]. rewrite T. cbn [bind]. rewrite X. cbn [bind]. rewrite <- Es. now apply leads_stays. }
  pose proof (leads_stays st m row false E) as K.
  destruct (xr_status row); cbn -[lifecycle_fail experiment_transition elem_of] in *; try apply leads_raise; try exact (M ltac:(constructor; auto)).
  destruct (bool_decide (xr_failure_reason row = Some reason)); [exact K | apply leads_raise].
Qed.


(** ** Witness *)

Definition toy_sha (_ : string) : string := sample_hash.

Definition store_or (st : ExperimentStore) {A} (f : A -> ExperimentStore) (r : result A) : ExperimentStore :=
  match r with Ok x => f x | Raise _ => st end.

Definition created_store : ExperimentStore :=
  Eval vm_compute in store_or empty_experiments id (experiment_create toy_sha empty_experiments sample_manifest).
Definition running_store : ExperimentStore :=
  Eval vm_compute in store_or created_store fst (ensure_running toy_sha created_store sample_manifest (utc 5)).
Definition failed_store : ExperimentStore :=
  Eval vm_compute in store_or running_store fst (fail_active toy_sha running_store sample_manifest " disk " (utc 9)).

Lemma sample_experiment_run : star (experiment_step toy_sha) empty_experiments failed_store.
Proof.
  eapply star_step; [exact (step_create toy_sha empty_experiments sample_manifest created_store ltac:(vm_compute; reflexivity))|].
  eapply star_step; [exact (step_run toy_sha created_store sample_manifest (utc 5) running_store true ltac:(vm_compute; reflexivity))|].
  exact (star_one _ _ _ (step_fail toy_sha running_store sample_manifest " disk " (utc 9) failed_store true ltac:(vm_compute; reflexivity))).
Qed.


(** A reason with outer spaces is not repeatable: the row keeps the stripped text. *)
Example failing_twice : fail_active toy_sha failed_store sample_manifest " disk " (utc 10) =
  Raise (RuntimeError "experiment is already failed for a different reason").
Proof. vm_compute. reflexivity. Qed.
