(* ===== verification/AuditLog.v ===== *)
(** * Operational evidence: [maais/observability/audit.py] and
    [maais/db/repositories/observability.py]

    The audit log is a chain: each event is bound to its content and to its
    predecessor by a digest.  Health evaluations are bound to their content.
    The digest and the name-based identifiers are arguments.  So are what the
    database does: the append function that the runtime roles call, and the
    JSONB column of the evidence, whose documented behaviour is the class
    [JsonbColumn].  The direct append checks the foreign keys of its row. *)

From Stdlib Require Import ZArith Lia List Bool String Ascii Permutation.
From stdpp Require Import base decidable list strings gmap.
From S2P Require Import Prelude PyDecimal Domain Json MarketEvents EventLog Manifest Canonical Commands Ledger.

Local Open Scope Z_scope.

(** ** Codes and references *)

Definition code_char (c : ascii) : bool := is_lower c || digit c || bool_decide (c = "_"%char).

Definition code_part (l : list ascii) : bool := match l with c :: l' => is_lower c && forallb code_char l' | [] => false end.

(** [_REASON_CODE_PATTERN] and [_EVENT_CODE_PATTERN], with the bound of [_require_code]. *)
Definition reason_code_ok (value : string) : bool :=
  (String.length value <=? 128)%nat && forallb code_part (split_dots (list_ascii_of_string value)).
Definition event_code_ok (value : string) : bool :=
  reason_code_ok value && (2 <=? length (split_dots (list_ascii_of_string value)))%nat.
Definition check_name_ok (value : string) : bool :=
  (String.length value <=? 64)%nat && code_part (list_ascii_of_string value).

(** [[a-z][a-z0-9_]{1,31}:[0-9a-f]{32}]. *)
Definition reference_ok (value : string) : bool :=
  let l := list_ascii_of_string value in
  let n := (length l - 33)%nat in
  (35 <=? length l)%nat && (length l <=? 65)%nat && code_part (take n l) &&
  bool_decide (nth_error l n = Some ":"%char) && forallb is_hex (drop (S n) l).

Definition _require_reference (value name : string) : result unit :=
  raise_if (negb (reference_ok value)) (ValueError (name +:+ " must be a bounded pseudonymous reference")).
Definition require_sha256 (value name : string) : result unit :=
  raise_if (negb (digest_text value)) (ValueError (name +:+ " must be lowercase SHA-256")).
Definition _require_uuid (value : UUID) (name : string) : result unit :=
  raise_if (value =? 0) (ValueError (name +:+ " identifier is invalid")).
Definition audit_utc (value : datetime) (name : string) : result unit :=
  raise_if (negb (is_utc value)) (ValueError (name +:+ " must be timezone-aware UTC")).

Definition bounded_reason_code (value fallback : string) : result string :=
  do* raise_if (negb (reason_code_ok fallback)) (ValueError "audit fallback reason_code is invalid") ;;
  Ok (if reason_code_ok value then value else fallback).

Definition namespace_ok (value : string) : bool :=
  (2 <=? String.length value)%nat && (String.length value <=? 32)%nat && code_part (list_ascii_of_string value).

(** Text joined by a NUL character. *)
Definition nul_joined (a b : string) : string := a +:+ String "000"%char b.

Definition pseudonymous_reference (sha256_hex : string -> string) (namespace rendered : string) : result string :=
  do* raise_if (negb (namespace_ok namespace)) (ValueError "pseudonymous reference namespace is invalid") ;;
  do* raise_if ((String.length rendered =? 0)%nat || (1024 <? String.length rendered)%nat)
        (ValueError "pseudonymous reference value must be 1-1024 characters") ;;
  Ok (namespace +:+ ":" +:+ String.substring 0 32 (sha256_hex (nul_joined namespace rendered))).

Definition deterministic_audit_event_id (uuid5 : string -> UUID) (event_code rendered : string) : result UUID :=
  do* raise_if (negb (event_code_ok event_code)) (ValueError "audit event_code is invalid") ;;
  do* raise_if ((String.length rendered =? 0)%nat || (2048 <? String.length rendered)%nat)
        (ValueError "audit event identity must be 1-2048 characters") ;;
  Ok (uuid5 (nul_joined event_code rendered)).

(** ** Evidence *)

Definition _FORBIDDEN_EVIDENCE_KEYS : list string :=
  ["access_key"; "account_equity"; "authorization"; "balance"; "body"; "client_secret"; "cookie"; "credentials"; "csrf";
   "database_url"; "headers"; "local_storage"; "order_quantity"; "password"; "position"; "positions"; "private_key"; "quantity";
   "raw_response"; "request_body"; "response_body"; "secret"; "session_storage"; "session_token"; "token"].

(** Lowercase words joined by single underscores, between underscores. *)
Fixpoint words (l : list ascii) : list ascii :=
  match l with
  | [] => ["_"%char]
  | c :: l' =>
      let rest := words l' in
      if is_lower c || digit c then c :: rest
      else match rest with
           | x :: _ => if bool_decide (x = "_"%char) then rest else "_"%char :: rest
           | [] => rest
           end
  end.
Definition padded_key (key : string) : list ascii :=
  let l := words (map lower (list_ascii_of_string key)) in
  match l with c :: _ => if bool_decide (c = "_"%char) then l else "_"%char :: l | [] => l end.

Fixpoint contains (needle l : list ascii) : bool :=
  prefixb needle l || match l with [] => false | _ :: l' => contains needle l' end.

Definition forbidden_key (key : string) : bool :=
  existsb (fun marker => contains ("_"%char :: list_ascii_of_string marker ++ ["_"%char]) (padded_key key)) _FORBIDDEN_EVIDENCE_KEYS.

Definition first_some {A} (l : list (option A)) : option A :=
  fold_right (fun o rest => match o with Some _ => o | None => rest end) None l.

(** [_reject_sensitive_keys]: the place of the first forbidden key, if any. *)
Fixpoint forbidden_at (path : list string) (j : json) : option (list string) :=
  match j with
  | JObj l =>
      first_some (map (fun kv => if forbidden_key (fst kv) then Some (path ++ [fst kv]) else forbidden_at (path ++ [fst kv]) (snd kv)) l)
  | JArr l => first_some (map (forbidden_at path) l)
  | _ => None
  end.

Definition _reject_sensitive_keys (value : json) : result unit :=
  match forbidden_at [] value with
  | Some path => Raise (ValueError ("operational evidence contains forbidden key: " +:+ String.concat "." path))
  | None => Ok tt
  end.

Definition _MAX_EVIDENCE_BYTES : Z := 65536.
Definition _MAX_COMPONENT_BYTES : Z := 131072.

Definition _evidence_object (value : pyval) (maximum_bytes : Z) : result json :=
  let* value' := freeze_json value in
  let* frozen := as_mapping "operational evidence must be a JSON object" value' in
  do* _reject_sensitive_keys frozen ;;
  do* raise_if (maximum_bytes <? Z.of_nat (String.length (dumps_text frozen)))
        (ValueError "operational evidence exceeds its size limit") ;;
  Ok frozen.

Example forbidden_1 : map forbidden_key ["Session-Token"; "tokens"; "CSRF"; "x.position"; "status"; "positional"] =
  [true; false; true; true; false; false].
Proof. vm_compute. reflexivity. Qed.

(** ** Audit events *)

Inductive AuditSourceRole : Type := SRC_WEB | SRC_WORKER | SRC_OPERATIONS | SRC_MIGRATOR | SRC_VERIFIER.

#[export] Instance AuditSourceRole_eq_dec : EqDecision AuditSourceRole.
Proof. solve_decision. Defined.
#[export] Instance AuditSourceRole_value : StrEnum AuditSourceRole := fun r =>
  match r with
  | SRC_WEB => "web" | SRC_WORKER => "worker" | SRC_OPERATIONS => "operations" | SRC_MIGRATOR => "migrator" | SRC_VERIFIER => "verifier"
  end.

Definition AUDIT_EVENT_CODES_BY_SOURCE (r : AuditSourceRole) : list string :=
  match r with
  | SRC_WEB => ["auth.csrf.rejected"; "auth.login.locked"; "auth.login.rejected"; "auth.login.succeeded"; "auth.logout";
                "auth.session.expired"; "auth.session.revoked"; "operator.command.enqueued"; "service.booted"; "service.stopped"]
  | SRC_WORKER => ["operator.command.accepted"; "operator.command.completed"; "operator.command.rejected"; "run.completed";
                   "run.invalidated"; "run.started"; "service.booted"; "service.stopped"]
  | SRC_OPERATIONS => ["artifact.publication_failed"; "artifact.published"; "backup.failed"; "backup.succeeded";
                       "daily_close.failed"; "daily_close.succeeded"; "health.evaluated"; "readiness.verdict"; "restore.failed";
                       "restore.succeeded"; "service.booted"; "service.stopped"]
  | SRC_MIGRATOR => ["migration.completed"; "migration.started"; "service.booted"; "service.stopped"]
  | SRC_VERIFIER => ["service.booted"; "service.stopped"]
  end.

Record AuditEvent : Type := {
  au_event_id : UUID;
  au_sequence : Z;
  au_previous_hash : option string;
  au_source_role : AuditSourceRole;
  au_actor_reference : string;
  au_session_reference : option string;
  au_event_code : string;
  au_reason_code : option string;
  au_evidence : json;
  au_run_id : option UUID;
  au_service_boot_id : option UUID;
  au_occurred_at : datetime;
  au_content_hash : string
}.

#[export] Instance AuditEvent_eq_dec : EqDecision AuditEvent.
Proof. solve_decision. Defined.

Definition _audit_hash_payload (e : AuditEvent) : pyval := PDict
  [("actor_reference", PStr (au_actor_reference e)); ("event_code", PStr (au_event_code e));
   ("event_id", PStr (uuid_str (au_event_id e))); ("evidence", thaw (au_evidence e)); ("occurred_at", PTime (au_occurred_at e));
   ("previous_hash", popt PStr (au_previous_hash e)); ("reason_code", popt PStr (au_reason_code e));
   ("run_id", popt PUuid (au_run_id e)); ("sequence", PInt (au_sequence e));
   ("service_boot_id", popt PUuid (au_service_boot_id e)); ("session_reference", popt PStr (au_session_reference e));
   ("source_role", PStr (enum_value (au_source_role e)))].

Section Audit.
Context (sha256_hex : string -> string).

Definition AuditEvent_post_init (e : AuditEvent) : result AuditEvent :=
  do* _require_uuid (au_event_id e) "audit event" ;;
  do* raise_if (au_sequence e <? 1) (ValueError "audit sequence must be positive") ;;
  do* raise_if (negb (Bool.eqb (au_sequence e =? 1) (negb (present (au_previous_hash e)))))
        (ValueError "only the genesis audit event can omit previous_hash") ;;
  do* opt_check (fun h => require_sha256 h "audit previous_hash") (au_previous_hash e) ;;
  do* raise_if (negb (bool_decide (elem_of (au_event_code e) (AUDIT_EVENT_CODES_BY_SOURCE (au_source_role e)))))
        (ValueError "audit event code is not approved for its source role") ;;
  do* _require_reference (au_actor_reference e) "audit actor_reference" ;;
  do* opt_check (fun r => do* _require_reference r "audit session_reference" ;;
                          raise_if (negb (starts_with "session:" r))
                            (ValueError "audit session_reference must use the session namespace")) (au_session_reference e) ;;
  do* raise_if (negb (event_code_ok (au_event_code e))) (ValueError "audit event_code is invalid") ;;
  do* opt_check (fun c => raise_if (negb (reason_code_ok c)) (ValueError "audit reason_code is invalid")) (au_reason_code e) ;;
  do* audit_utc (au_occurred_at e) "audit occurred_at" ;;
  do* opt_check (fun u => _require_uuid u "audit run") (au_run_id e) ;;
  do* opt_check (fun u => _require_uuid u "audit service boot") (au_service_boot_id e) ;;
  do* require_sha256 (au_content_hash e) "audit content_hash" ;;
  let* hash := content_hash sha256_hex (_audit_hash_payload e) in
  do* raise_if (negb (bool_decide (hash = au_content_hash e)))
        (ValueError "audit content_hash does not match immutable event state") ;;
  Ok e.

(** What an append is given: the fields that do not depend on the chain. *)
Record audit_request : Type := {
  aq_event_id : UUID;
  aq_source_role : AuditSourceRole;
  aq_actor_reference : string;
  aq_session_reference : option string;
  aq_event_code : string;
  aq_reason_code : option string;
  aq_evidence : pyval;
  aq_run_id : option UUID;
  aq_service_boot_id : option UUID;
  aq_occurred_at : datetime
}.

Definition with_hash (e : AuditEvent) (hash : string) : AuditEvent := {|
  au_event_id := au_event_id e; au_sequence := au_sequence e; au_previous_hash := au_previous_hash e;
  au_source_role := au_source_role e; au_actor_reference := au_actor_reference e; au_session_reference := au_session_reference e;
  au_event_code := au_event_code e; au_reason_code := au_reason_code e; au_evidence := au_evidence e; au_run_id := au_run_id e;
  au_service_boot_id := au_service_boot_id e; au_occurred_at := au_occurred_at e; au_content_hash := hash |}.

(** [AuditEvent.create]: the content hash is that of the other fields. *)
Definition AuditEvent_create (q : audit_request) (sequence : Z) (previous_hash : option string) : result AuditEvent :=
  let* evidence := _evidence_object (aq_evidence q) _MAX_EVIDENCE_BYTES in
  let e := {| au_event_id := aq_event_id q; au_sequence := sequence; au_previous_hash := previous_hash;
              au_source_role := aq_source_role q; au_actor_reference := aq_actor_reference q;
              au_session_reference := aq_session_reference q; au_event_code := aq_event_code q; au_reason_code := aq_reason_code q;
              au_evidence := evidence; au_run_id := aq_run_id q; au_service_boot_id := aq_service_boot_id q;
              au_occurred_at := aq_occurred_at q; au_content_hash := "" |} in
  let* hash := content_hash sha256_hex (_audit_hash_payload e) in
  AuditEvent_post_init (with_hash e hash).

(** ** Verification of a chain *)

Record AuditChainVerification : Type := {
  cv_ok : bool;
  cv_event_count : Z;
  cv_terminal_hash : option string;
  cv_errors : list string
}.

Definition int_text (n : Z) : string := string_of_list_ascii (int_chars n).

Definition event_errors (e : AuditEvent) (previous_hash : option string) (expected_sequence : Z) : result (list string) :=
  let* hash := content_hash sha256_hex (_audit_hash_payload e) in
  Ok ((if au_sequence e =? expected_sequence then []
       else ["audit_sequence_gap:expected=" +:+ int_text expected_sequence +:+ ":actual=" +:+ int_text (au_sequence e)]) ++
      (if bool_decide (au_previous_hash e = previous_hash) then []
       else ["audit_previous_hash_mismatch:sequence=" +:+ int_text (au_sequence e)]) ++
      (if bool_decide (hash = au_content_hash e) then []
       else ["audit_content_hash_mismatch:sequence=" +:+ int_text (au_sequence e)])).

Fixpoint chain_errors (events : list AuditEvent) (previous_hash : option string) (expected_sequence : Z) : result (list string) :=
  match events with
  | [] => Ok []
  | e :: events' =>
      let* errors := event_errors e previous_hash expected_sequence in
      let* rest := chain_errors events' (Some (au_content_hash e)) (au_sequence e + 1) in
      Ok (errors ++ rest)
  end.

Definition verify_audit_chain (events : list AuditEvent) : result AuditChainVerification :=
  let* errors := chain_errors events None 1 in
  Ok {| cv_ok := match errors with [] => true | _ => false end; cv_event_count := Z.of_nat (length events);
        cv_terminal_hash := option_map au_content_hash (last events); cv_errors := errors |}.

(** ** The repository *)

(** A service instance, as the repository reads it. *)
Record ServiceInstance : Type := {
  si_boot_id : UUID;
  si_run_id : option UUID;
  si_service_role : string;
  si_stopped_at : option datetime;
  si_first_seen_at : datetime
}.

(** The runs (with their experiments) and the service instances of the platform. *)
Record PlatformRows : Type := { pf_runs : gmap UUID UUID; pf_services : list ServiceInstance }.

(** What a JSONB column keeps to the letter: no float, as the database reads
    1e+22 back as an integer; 64-bit integers; each key once. *)
Fixpoint storable (j : json) : bool :=
  match j with
  | JFloat _ => false
  | JInt n => (- 2 ^ 63 <=? n) && (n <? 2 ^ 63)
  | JArr l => forallb storable l
  | JObj l => bool_decide (NoDup (map fst l)) && forallb (fun kv => storable (snd kv)) l
  | JNull | JBool _ | JStr _ => true
  end.

(** A JSONB column, from what is written to what is read back.  It may refuse a
    value (a NUL character, a size over the bound of the table) and reorders
    keys. *)
Class JsonbColumn : Type := {
  jsonb : json -> result json;
  jsonb_keeps : forall j j', storable j = true -> jsonb j = Ok j' -> dumps_text j' = dumps_text j
}.

(** A stored row is read through the constructor. *)
Definition _audit_from_row (row : AuditEvent) : result AuditEvent :=
  match AuditEvent_post_init row with
  | Raise (ValueError _) | Raise (TypeError _) => Raise (ObservabilityIntegrityError "stored audit event is invalid")
  | r => r
  end.

(** Equality of events; evidence is equal up to the order of keys. *)
Definition with_evidence (e : AuditEvent) (j : json) : AuditEvent := {|
  au_event_id := au_event_id e; au_sequence := au_sequence e; au_previous_hash := au_previous_hash e;
  au_source_role := au_source_role e; au_actor_reference := au_actor_reference e; au_session_reference := au_session_reference e;
  au_event_code := au_event_code e; au_reason_code := au_reason_code e; au_evidence := j; au_run_id := au_run_id e;
  au_service_boot_id := au_service_boot_id e; au_occurred_at := au_occurred_at e; au_content_hash := au_content_hash e |}.

Definition same_event (a b : AuditEvent) : bool :=
  bool_decide (with_evidence a JNull = with_evidence b JNull) && bool_decide (dumps_text (au_evidence a) = dumps_text (au_evidence b)).

(** [order_by(sequence.desc()).limit(1)]. *)
Definition latest (log : list AuditEvent) : option AuditEvent :=
  match log with
  | [] => None
  | e :: log' => Some (fold_left (fun best x => if au_sequence best <? au_sequence x then x else best) log' e)
  end.

(** [fk_audit_event_run] and [fk_audit_event_service_boot]. *)
Definition audit_references (platform : PlatformRows) (run_id service_boot_id : option UUID) : result unit :=
  do* raise_if (match run_id with Some u => negb (present (pf_runs platform !! u)) | None => false end) (IntegrityError "fk_audit_event_run") ;;
  raise_if (match service_boot_id with Some u => negb (existsb (fun s => si_boot_id s =? u) (pf_services platform)) | None => false end)
    (IntegrityError "fk_audit_event_service_boot").

Context {column : JsonbColumn}.

(** The event that is answered is the one in memory; the row is what the column
    of the evidence keeps of it. *)
Definition _append_audit_direct (platform : PlatformRows) (log : list AuditEvent) (q : audit_request)
    : result (list AuditEvent * AuditEvent) :=
  match List.find (fun e => au_event_id e =? aq_event_id q) log with
  | Some row =>
      let* restored := _audit_from_row row in
      let* candidate := AuditEvent_create q (au_sequence restored) (au_previous_hash restored) in
      do* raise_if (negb (same_event candidate restored)) (ObservabilityIntegrityError "immutable audit identity has changed") ;;
      Ok (log, restored)
  | None =>
      let* event := AuditEvent_create q (match latest log with Some e => au_sequence e + 1 | None => 1 end)
                      (option_map au_content_hash (latest log)) in
      let* evidence := jsonb (au_evidence event) in
      do* audit_references platform (au_run_id event) (au_service_boot_id event) ;;
      Ok (log ++ [with_evidence event evidence], event)
  end.

Definition get_audit (log : list AuditEvent) (sequence : Z) : result AuditEvent :=
  let* row := of_option (LookupError "audit event does not exist") (List.find (fun e => au_sequence e =? sequence) log) in
  _audit_from_row row.

(** [AuditSourceRole] of the runtime database roles. *)
Definition _RUNTIME_SOURCE_BY_DATABASE_ROLE (database_role : string) : option AuditSourceRole :=
  dict_get [("maais_migrator", SRC_MIGRATOR); ("maais_ops", SRC_OPERATIONS); ("maais_web", SRC_WEB);
            ("maais_worker", SRC_WORKER); ("maais_verifier", SRC_VERIFIER)] database_role.

(** The append of the runtime roles is a function of the database: an argument,
    which answers the log after it and the sequence of the event. *)
Definition append_audit (gateway : list AuditEvent -> audit_request -> result (list AuditEvent * Z)) (database_role : string)
    (platform : PlatformRows) (log : list AuditEvent) (q : audit_request) : result (list AuditEvent * AuditEvent) :=
  match _RUNTIME_SOURCE_BY_DATABASE_ROLE database_role with
  | Some runtime_source =>
      do* raise_if (negb (bool_decide (runtime_source = aq_source_role q)))
            (ObservabilityIntegrityError "database role cannot append an audit event for another source role") ;;
      let* r := gateway log q in
      let* event := get_audit (fst r) (snd r) in
      Ok (fst r, event)
  | None => _append_audit_direct platform log q
  end.

Definition list_audit_events (log : list AuditEvent) : result (list AuditEvent) := mapM _audit_from_row log.
Definition verify_stored_chain (log : list AuditEvent) : result AuditChainVerification :=
  let* events := list_audit_events log in verify_audit_chain events.
End Audit.

(** ** Health evaluations *)

Inductive HealthStatus : Type := HS_HEALTHY | HS_WARNING | HS_CRITICAL.
Inductive HealthSeverity : Type := HV_INFO | HV_WARNING | HV_CRITICAL.

#[export] Instance HealthStatus_eq_dec : EqDecision HealthStatus.
Proof. solve_decision. Defined.
#[export] Instance HealthSeverity_eq_dec : EqDecision HealthSeverity.
Proof. solve_decision. Defined.
#[export] Instance HealthStatus_value : StrEnum HealthStatus := fun s =>
  match s with HS_HEALTHY => "healthy" | HS_WARNING => "warning" | HS_CRITICAL => "critical" end.
#[export] Instance HealthSeverity_value : StrEnum HealthSeverity := fun s =>
  match s with HV_INFO => "info" | HV_WARNING => "warning" | HV_CRITICAL => "critical" end.

Record HealthEvaluation : Type := {
  he_evaluation_id : UUID;
  he_run_id : UUID;
  he_service_boot_id : UUID;
  he_overall_status : HealthStatus;
  he_failed_check_names : list string;
  he_severity : HealthSeverity;
  he_deduplication_key : string;
  he_incident_id : option UUID;
  he_recovery_of_evaluation_id : option UUID;
  he_recovered_at : option datetime;
  he_components : json;
  he_checked_at : datetime;
  he_content_hash : string
}.

(** [tuple(sorted(set(names)))]. *)
Definition sorted_set (l : list string) : list string := sort_by (fun s => s) (remove_dups l).

Definition _health_hash_payload (e : HealthEvaluation) : pyval := PDict
  [("checked_at", PTime (he_checked_at e)); ("components", thaw (he_components e)); ("deduplication_key", PStr (he_deduplication_key e));
   ("evaluation_id", PStr (uuid_str (he_evaluation_id e))); ("failed_check_names", PSeq (map PStr (he_failed_check_names e)));
   ("incident_id", popt PUuid (he_incident_id e)); ("overall_status", PStr (enum_value (he_overall_status e)));
   ("recovered_at", popt PTime (he_recovered_at e)); ("recovery_of_evaluation_id", popt PUuid (he_recovery_of_evaluation_id e));
   ("run_id", PStr (uuid_str (he_run_id e))); ("service_boot_id", PStr (uuid_str (he_service_boot_id e)));
   ("severity", PStr (enum_value (he_severity e)))].

(** The checks of the recovery fields. *)
Definition health_recovery_checks (e : HealthEvaluation) : result unit :=
  match he_recovery_of_evaluation_id e with
  | None => raise_if (present (he_recovered_at e)) (ValueError "health recovered_at requires a recovery reference")
  | Some prior =>
      do* _require_uuid prior "health recovery evaluation" ;;
      do* raise_if (prior =? he_evaluation_id e) (ValueError "health recovery cannot reference itself") ;;
      do* raise_if (negb (bool_decide (he_overall_status e = HS_HEALTHY)) || negb (present (he_recovered_at e)))
            (ValueError "health recovery must be a healthy terminal snapshot") ;;
      raise_if (match he_recovered_at e with Some t => negb (dt_eqb t (he_checked_at e)) | None => true end)
        (ValueError "health recovery time must equal checked_at")
  end.

Definition health_status_checks (e : HealthEvaluation) : result unit :=
  let no_failures := match he_failed_check_names e with [] => true | _ => false end in
  if bool_decide (he_overall_status e = HS_HEALTHY) then
    do* raise_if (negb no_failures) (ValueError "healthy evaluation cannot contain failed checks") ;;
    raise_if (negb (bool_decide (he_severity e = HV_INFO))) (ValueError "healthy evaluation severity must be info")
  else
    do* raise_if no_failures (ValueError "unhealthy evaluation requires failed checks") ;;
    raise_if (negb (String.eqb (enum_value (he_severity e)) (enum_value (he_overall_status e))))
      (ValueError "health severity must match unhealthy status").

Section Health.
Context (sha256_hex : string -> string).

Definition HealthEvaluation_post_init (e : HealthEvaluation) : result HealthEvaluation :=
  do* _require_uuid (he_evaluation_id e) "health evaluation" ;;
  do* _require_uuid (he_run_id e) "health run" ;;
  do* _require_uuid (he_service_boot_id e) "health service boot" ;;
  do* raise_if (empty_object (he_components e)) (ValueError "health components cannot be empty") ;;
  do* raise_if (negb (bool_decide (he_failed_check_names e = sorted_set (he_failed_check_names e))))
        (ValueError "health failed checks must be sorted and unique") ;;
  do* iterM (fun name => raise_if (negb (check_name_ok name)) (ValueError "health failed check is invalid")) (he_failed_check_names e) ;;
  do* health_status_checks e ;;
  do* require_sha256 (he_deduplication_key e) "health deduplication_key" ;;
  do* opt_check (fun u => _require_uuid u "health incident") (he_incident_id e) ;;
  do* health_recovery_checks e ;;
  do* opt_check (fun t => audit_utc t "health recovered_at") (he_recovered_at e) ;;
  do* audit_utc (he_checked_at e) "health checked_at" ;;
  do* require_sha256 (he_content_hash e) "health content_hash" ;;
  let* hash := content_hash sha256_hex (_health_hash_payload e) in
  do* raise_if (negb (bool_decide (hash = he_content_hash e))) (ValueError "health content_hash does not match immutable evaluation") ;;
  Ok e.

(** [HealthEvaluation.create]; the components of [e] are given as a value, and its hash is not read. *)
Definition HealthEvaluation_create (e : HealthEvaluation) (components : pyval) : result HealthEvaluation :=
  let normalized_checks := sorted_set (he_failed_check_names e) in
  let* frozen_components := _evidence_object components _MAX_COMPONENT_BYTES in
  let draft hash := {| he_evaluation_id := he_evaluation_id e; he_run_id := he_run_id e; he_service_boot_id := he_service_boot_id e;
    he_overall_status := he_overall_status e; he_failed_check_names := normalized_checks; he_severity := he_severity e;
    he_deduplication_key := he_deduplication_key e; he_incident_id := he_incident_id e;
    he_recovery_of_evaluation_id := he_recovery_of_evaluation_id e; he_recovered_at := he_recovered_at e;
    he_components := frozen_components; he_checked_at := he_checked_at e; he_content_hash := hash |} in
  let* hash := content_hash sha256_hex (_health_hash_payload (draft "")) in
  HealthEvaluation_post_init (draft hash).

Definition health_deduplication_key (run_id : UUID) (failed_check_names : list string) : result string :=
  do* _require_uuid run_id "health run" ;;
  let names := sorted_set failed_check_names in
  do* iterM (fun name => raise_if (negb (check_name_ok name)) (ValueError "health failed check is invalid")) names ;;
  content_hash sha256_hex (PDict [("failed_check_names", PSeq (map PStr names)); ("run_id", PStr (uuid_str run_id))]).

Definition _health_from_row (row : HealthEvaluation) : result HealthEvaluation :=
  match HealthEvaluation_post_init row with
  | Raise (ValueError _) | Raise (TypeError _) => Raise (ObservabilityIntegrityError "stored health evaluation is invalid")
  | r => r
  end.

Definition _require_operations_service (services : list ServiceInstance) (evaluation : HealthEvaluation) : result unit :=
  raise_if (match List.find (fun s => si_boot_id s =? he_service_boot_id evaluation) services with
            | None => true
            | Some service => negb (bool_decide (si_run_id service = Some (he_run_id evaluation))) ||
                negb (bool_decide (si_service_role service = "operations")) || present (si_stopped_at service) ||
                dt_ltb (he_checked_at evaluation) (si_first_seen_at service)
            end) (ObservabilityIntegrityError "health evaluation requires an active operations service for the run").

Definition find_health (rows : list HealthEvaluation) (evaluation_id : UUID) : option HealthEvaluation :=
  List.find (fun row => he_evaluation_id row =? evaluation_id) rows.

(** The evaluation that a recovery names. *)
Definition recovers (rows : list HealthEvaluation) (evaluation : HealthEvaluation) (prior : UUID) : bool :=
  match find_health rows prior with
  | None => false
  | Some p => (he_run_id p =? he_run_id evaluation) && dt_ltb (he_checked_at p) (he_checked_at evaluation) &&
              negb (bool_decide (he_overall_status p = HS_HEALTHY))
  end.

(** The keys of the table: the identifier, and the run with the time. *)
Definition health_conflict (evaluation row : HealthEvaluation) : bool :=
  (he_evaluation_id row =? he_evaluation_id evaluation) ||
  ((he_run_id row =? he_run_id evaluation) && (instant (he_checked_at row) =? instant (he_checked_at evaluation))).

(** Equality of evaluations; the components are equal up to the order of keys. *)
Definition with_components (e : HealthEvaluation) (j : json) : HealthEvaluation :=
  {| he_evaluation_id := he_evaluation_id e; he_run_id := he_run_id e; he_service_boot_id := he_service_boot_id e;
     he_overall_status := he_overall_status e; he_failed_check_names := he_failed_check_names e; he_severity := he_severity e;
     he_deduplication_key := he_deduplication_key e; he_incident_id := he_incident_id e;
     he_recovery_of_evaluation_id := he_recovery_of_evaluation_id e; he_recovered_at := he_recovered_at e;
     he_components := j; he_checked_at := he_checked_at e; he_content_hash := he_content_hash e |}.

#[export] Instance HealthEvaluation_eq_dec : EqDecision HealthEvaluation.
Proof. solve_decision. Defined.

Definition same_health (a b : HealthEvaluation) : bool :=
  bool_decide (with_components a JNull = with_components b JNull) &&
  bool_decide (dumps_text (he_components a) = dumps_text (he_components b)).

Definition record_health (services : list ServiceInstance) (rows : list HealthEvaluation) (evaluation : HealthEvaluation)
    : result (list HealthEvaluation * HealthEvaluation) :=
  do* _require_operations_service services evaluation ;;
  do* raise_if (match he_recovery_of_evaluation_id evaluation with Some prior => negb (recovers rows evaluation prior) | None => false end)
        (ObservabilityIntegrityError "health recovery must reference an earlier unhealthy evaluation for the run") ;;
  if existsb (health_conflict evaluation) rows then
    let* row := of_option (ObservabilityIntegrityError "health run and checked_at identity belongs to another evaluation")
                  (find_health rows (he_evaluation_id evaluation)) in
    let* restored := _health_from_row row in
    do* raise_if (negb (same_health restored evaluation)) (ObservabilityIntegrityError "immutable health evaluation identity has changed") ;;
    Ok (rows, restored)
  else Ok (rows ++ [evaluation], evaluation).

Definition get_health (rows : list HealthEvaluation) (evaluation_id : UUID) : result HealthEvaluation :=
  let* row := of_option (LookupError "health evaluation does not exist") (find_health rows evaluation_id) in
  _health_from_row row.

(** [order_by(checked_at.desc(), evaluation_id.desc()).limit(1)]. *)
Definition later_health (best row : HealthEvaluation) : bool :=
  dt_ltb (he_checked_at best) (he_checked_at row) ||
  ((instant (he_checked_at best) =? instant (he_checked_at row)) && (he_evaluation_id best <? he_evaluation_id row)).
Definition latest_health (rows : list HealthEvaluation) (run_id : UUID) : result (option HealthEvaluation) :=
  match List.filter (fun row => he_run_id row =? run_id) rows with
  | [] => Ok None
  | row :: rest =>
      let* e := _health_from_row (fold_left (fun best x => if later_health best x then x else best) rest row) in Ok (Some e)
  end.
End Health.

(** ** The payload of a hash *)

(** The frozen payload. *)
Definition frozen_payload (e : AuditEvent) (time : string) : json := JObj
  [("actor_reference", JStr (au_actor_reference e)); ("event_code", JStr (au_event_code e));
   ("event_id", JStr (uuid_str (au_event_id e))); ("evidence", au_evidence e); ("occurred_at", JStr time);
   ("previous_hash", match au_previous_hash e with Some h => JStr h | None => JNull end);
   ("reason_code", match au_reason_code e with Some c => JStr c | None => JNull end);
   ("run_id", match au_run_id e with Some u => JStr (uuid_str u) | None => JNull end); ("sequence", JInt (au_sequence e));
   ("service_boot_id", match au_service_boot_id e with Some u => JStr (uuid_str u) | None => JNull end);
   ("session_reference", match au_session_reference e with Some r => JStr r | None => JNull end);
   ("source_role", JStr (enum_value (au_source_role e)))].

Lemma payload_text e t : canonical_json_bytes (_audit_hash_payload e) = Ok t ->
  exists time, utc_iso (au_occurred_at e) = Ok time /\ t = dumps_text (frozen_payload e time).
Proof.
  unfold canonical_json_bytes, _audit_hash_payload. cbn [freeze_json mapM fst snd bind]. rewrite freeze_thaw. cbn [bind].
  destruct (utc_iso (au_occurred_at e)) as [time|x]; [|discriminate]. intros H. exists time. split; [reflexivity|].
  unfold frozen_payload. now destruct (au_previous_hash e), (au_reason_code e), (au_run_id e), (au_service_boot_id e), (au_session_reference e);
    cbn [bind popt freeze_json] in H; injection H as <-.
Qed.

Lemma dumps_text_eq a b : dumps_text a = dumps_text b -> dumps a = dumps b.
Proof. unfold dumps_text. intros H. now rewrite <- (list_ascii_of_string_of_list_ascii (dumps a)), H, list_ascii_of_string_of_list_ascii. Qed.

(** A row whose evidence kept its text has the hash of the event. *)
Lemma row_hash sha256_hex e j : dumps_text j = dumps_text (au_evidence e) ->
  content_hash sha256_hex (_audit_hash_payload (with_evidence e j)) = content_hash sha256_hex (_audit_hash_payload e).
Proof.
  intros H. apply dumps_text_eq in H. unfold content_hash, canonical_json_bytes, _audit_hash_payload, with_evidence.
  cbn [freeze_json mapM fst snd bind au_event_id au_sequence au_previous_hash au_source_role au_actor_reference au_session_reference au_event_code
       au_reason_code au_evidence au_run_id au_service_boot_id au_occurred_at au_content_hash]. rewrite !freeze_thaw. cbn [bind].
  destruct (utc_iso (au_occurred_at e)) as [time|x]; [|reflexivity]. cbn [bind].
  destruct (au_previous_hash e), (au_reason_code e), (au_run_id e), (au_service_boot_id e), (au_session_reference e);
    cbn [bind popt freeze_json]; unfold dumps_text; cbn [dumps map fst snd]; now rewrite H.
Qed.

(** ** The chain *)

Section Chain.
Context (sha256_hex : string -> string).

Local Abbreviation hash_of e := (content_hash sha256_hex (_audit_hash_payload e)).

(** What verification accepts. *)
Fixpoint chained (previous_hash : option string) (n : Z) (events : list AuditEvent) : Prop :=
  match events with
  | [] => True
  | e :: events' =>
      au_sequence e = n /\ au_previous_hash e = previous_hash /\ hash_of e = Ok (au_content_hash e) /\
      chained (Some (au_content_hash e)) (n + 1) events'
  end.

Lemma chain_errors_nil events p n : chain_errors sha256_hex events p n = Ok [] <-> chained p n events.
Proof.
  revert p n; induction events as [|e events IH]; intros p n; cbn [chain_errors chained]; [tauto|]. split.
  - intros H. py_inv. apply app_eq_nil in H as [-> ->]. unfold event_errors in *. py_inv.
    match goal with E : _ ++ _ = [] |- _ => apply app_eq_nil in E as [E1 E]; apply app_eq_nil in E as [E2 E3] end.
    destruct (Z.eqb_spec (au_sequence e) n) as [<-|]; [|discriminate]. destruct (bool_decide_reflect (au_previous_hash e = p)) as [<-|]; [|discriminate].
    match goal with E : hash_of e = Ok ?h |- _ => destruct (bool_decide_reflect (h = au_content_hash e)) as [->|]; [|discriminate]; rewrite E end.
    repeat split; auto. now apply IH.
  - intros (E1 & E2 & E3 & C). unfold event_errors. rewrite E3. cbn [bind]. rewrite E1, Z.eqb_refl, !bool_decide_true by auto. cbn [app bind].
    apply IH in C. rewrite C. reflexivity.
Qed.

Definition tip (previous_hash : option string) (events : list AuditEvent) : option string :=
  match last events with Some e => Some (au_content_hash e) | None => previous_hash end.

Lemma tip_cons p e events : tip p (e :: events) = tip (Some (au_content_hash e)) events.
Proof. unfold tip. destruct events as [|x events]; [reflexivity|]. cbn [last]. destruct (last (x :: events)) eqn:E; [reflexivity|]. now apply last_None in E. Qed.

Lemma chained_snoc events e p n : chained p n (events ++ [e]) <->
  chained p n events /\ au_sequence e = n + Z.of_nat (length events) /\ au_previous_hash e = tip p events /\ hash_of e = Ok (au_content_hash e).
Proof.
  revert p n; induction events as [|x events IH]; intros p n.
  - cbn [app chained length Z.of_nat tip last]. unfold tip. cbn [last]. rewrite Z.add_0_r. tauto.
  - rewrite tip_cons. cbn [app chained length]. rewrite IH, Nat2Z.inj_succ. replace (n + 1 + Z.of_nat (length events)) with (n + Z.succ (Z.of_nat (length events))) by lia. tauto.
Qed.

(** The event with the greatest sequence is the last one. *)
Lemma latest_chained events p n : chained p n events -> latest events = last events.
Proof.
  destruct events as [|e events]; [reflexivity|]. cbn [latest chained]. intros (E & _ & _ & C). clear p. revert e n E C.
  induction events as [|x events IH]; intros e n E C; cbn [fold_left]; [reflexivity|]. cbn [chained] in C. destruct C as (Ex & _ & _ & C).
  assert ((au_sequence e <? au_sequence x) = true) as -> by (apply Z.ltb_lt; lia).
  rewrite (IH x (n + 1)); auto.
Qed.

Lemma chained_last events p n e : chained p n events -> last events = Some e -> au_sequence e = n + Z.of_nat (length events) - 1.
Proof.
  intros C L. destruct (exists_last (l := events)) as (front & x & ->); [intros ->; discriminate|]. rewrite last_app_one in L. injection L as ->.
  apply chained_snoc in C as (_ & E & _). rewrite length_app. cbn [length]. lia.
Qed.

Lemma audit_post_init_Ok e e' : AuditEvent_post_init sha256_hex e = Ok e' ->
  e' = e /\ hash_of e = Ok (au_content_hash e) /\ digest_text (au_content_hash e) = true /\ is_utc (au_occurred_at e) = true.
Proof.
  unfold AuditEvent_post_init, require_sha256, audit_utc. intros H. py_inv. bool_prop. subst. repeat split; auto; try congruence.
Qed.

Lemma create_Ok q n p e : AuditEvent_create sha256_hex q n p = Ok e ->
  AuditEvent_post_init sha256_hex e = Ok e /\ au_event_id e = aq_event_id q /\ au_sequence e = n /\ au_previous_hash e = p.
Proof.
  unfold AuditEvent_create. intros H. py_inv. pose proof (audit_post_init_Ok _ _ H) as [-> _]. repeat split. exact H.
Qed.

(** The fields that do not depend on the place in the chain. *)
Lemma create_fields q n p e : AuditEvent_create sha256_hex q n p = Ok e ->
  _evidence_object (aq_evidence q) _MAX_EVIDENCE_BYTES = Ok (au_evidence e) /\ au_run_id e = aq_run_id q /\ au_service_boot_id e = aq_service_boot_id q.
Proof.
  unfold AuditEvent_create. intros H. apply bind_Ok in H as (v & Ev & H). apply bind_Ok in H as (h & _ & H).
  pose proof (audit_post_init_Ok _ _ H) as [-> _]. cbn. auto.
Qed.

Lemma from_row_Ok e : AuditEvent_post_init sha256_hex e = Ok e -> _audit_from_row sha256_hex e = Ok e.
Proof. unfold _audit_from_row. now intros ->. Qed.

Lemma same_event_refl e : same_event e e = true.
Proof. unfold same_event. now rewrite !bool_decide_true. Qed.

Context {column : JsonbColumn}.

(** The evidence of a request is one that the column keeps. *)
Definition plain_evidence (q : audit_request) : Prop := forall j, freeze_json (aq_evidence q) = Ok j -> storable j = true.

(** The logs that direct appends of plain evidence produce from the empty log,
    whatever becomes of the platform in between. *)
Inductive audit_log : list AuditEvent -> Prop :=
| log_empty : audit_log []
| log_append platform log q log' e : audit_log log -> plain_evidence q ->
    _append_audit_direct sha256_hex platform log q = Ok (log', e) -> audit_log log'.

Definition stored log := chained None 1 log /\ Forall (fun e => AuditEvent_post_init sha256_hex e = Ok e) log.

Definition fresh (log : list AuditEvent) (u : UUID) : Prop := forall x, In x log -> au_event_id x <> u.

Lemma find_fresh log u : List.find (fun e => au_event_id e =? u) log = None <-> fresh log u.
Proof.
  split.
  - intros H x I E. pose proof (List.find_none _ _ H x I) as N. cbn in N. apply Z.eqb_neq in N. contradiction.
  - intros H. destruct (List.find _ log) as [x|] eqn:E; [|reflexivity]. apply List.find_some in E as [I E]. apply Z.eqb_eq in E. now destruct (H x I).
Qed.

Definition next_sequence (log : list AuditEvent) : Z := Z.of_nat (length log) + 1.

(** What a fresh request stores under an event. *)
Definition stored_row (platform : PlatformRows) (e : AuditEvent) : result AuditEvent :=
  let* evidence := jsonb (au_evidence e) in
  do* audit_references platform (au_run_id e) (au_service_boot_id e) ;;
  Ok (with_evidence e evidence).

(** An append to a stored log, case by case. *)
Lemma append_cases platform log q : stored log ->
  (fresh log (aq_event_id q) /\ _append_audit_direct sha256_hex platform log q =
     (let* e := AuditEvent_create sha256_hex q (next_sequence log) (tip None log) in
      let* row := stored_row platform e in Ok (log ++ [row], e))) \/
  exists x, In x log /\ au_event_id x = aq_event_id q /\ forall later, _append_audit_direct sha256_hex later log q =
    (let* c := AuditEvent_create sha256_hex q (au_sequence x) (au_previous_hash x) in
     do* raise_if (negb (same_event c x)) (ObservabilityIntegrityError "immutable audit identity has changed") ;; Ok (log, x)).
Proof.
  intros [C V]. unfold _append_audit_direct. destruct (List.find _ log) as [x|] eqn:F.
  - right. exists x. apply List.find_some in F as [I E]. apply Z.eqb_eq in E. rewrite List.Forall_forall in V. rewrite (from_row_Ok x) by auto. auto.
  - left. split; [now apply find_fresh|]. rewrite (latest_chained _ _ _ C). unfold tip, next_sequence, stored_row. destruct (last log) as [x|] eqn:L; cbn [option_map].
    + rewrite (chained_last _ _ _ _ C L). replace (1 + Z.of_nat (length log) - 1 + 1) with (Z.of_nat (length log) + 1) by lia.
      destruct (AuditEvent_create _ _ _ _) as [e|]; cbn [bind]; [|reflexivity]. destruct (jsonb _); cbn [bind]; [|reflexivity]. now destruct (audit_references _ _ _).
    + apply last_None in L as ->. cbn [length]. destruct (AuditEvent_create _ _ _ _) as [e|]; cbn [bind]; [|reflexivity].
      destruct (jsonb _); cbn [bind]; [|reflexivity]. now destruct (audit_references _ _ _).
Qed.

(** The row of an event with plain evidence differs at most in the order of keys. *)
Lemma stored_row_Ok platform q e row n p : plain_evidence q -> AuditEvent_create sha256_hex q n p = Ok e -> stored_row platform e = Ok row ->
  same_event e row = true /\ AuditEvent_post_init sha256_hex row = Ok row /\ au_event_id row = aq_event_id q /\ au_sequence row = n /\
  au_previous_hash row = p /\ au_content_hash row = au_content_hash e /\ audit_references platform (aq_run_id q) (aq_service_boot_id q) = Ok tt.
Proof.
  intros Pl H R. destruct (create_Ok _ _ _ _ H) as (P & Ei & En & Ep).
  destruct (create_fields _ _ _ _ H) as (Ev & Er & Es).
  assert (St : storable (au_evidence e) = true) by (unfold _evidence_object, as_mapping in Ev; py_inv; now apply Pl).
  unfold stored_row in R. py_inv. rewrite Er, Es in *.
  match goal with J : jsonb _ = Ok _ |- _ => apply jsonb_keeps in J; [rename J into T|exact St] end.
  repeat split; auto.
  - unfold same_event. apply andb_true_intro. split; apply bool_decide_true; [reflexivity | symmetry; exact T].
  - pose proof (row_hash sha256_hex e _ T) as Hh. unfold AuditEvent_post_init in *. rewrite Hh. clear Hh.
    cbn [with_evidence au_event_id au_sequence au_previous_hash au_source_role au_actor_reference au_session_reference au_event_code
         au_reason_code au_run_id au_service_boot_id au_occurred_at au_content_hash]. py_inv.
    repeat match goal with u : unit |- _ => destruct u end.
    repeat (pass; [eassumption|]). reflexivity.
  - match goal with H : audit_references _ _ _ = Ok ?u |- _ => destruct u; exact H end.
Qed.

Lemma append_stored platform log q log' e : stored log -> plain_evidence q ->
  _append_audit_direct sha256_hex platform log q = Ok (log', e) -> stored log'.
Proof.
  intros S Pl H. destruct (append_cases platform log q S) as [[_ E]|(x & _ & _ & E)]; rewrite E in H; py_inv; [|exact S].
  match goal with Hc : AuditEvent_create _ _ _ _ = Ok _, Hr : stored_row _ _ = Ok _ |- _ =>
    destruct (stored_row_Ok _ _ _ _ _ _ Pl Hc Hr) as (_ & P & _ & Hn & Hp & _) end.
  destruct S as [C V]. split; [|apply Forall_app; split; [exact V | now constructor]].
  apply chained_snoc. pose proof (audit_post_init_Ok _ _ P) as (_ & Hh & _). repeat split; auto. rewrite Hn. unfold next_sequence. lia.
Qed.

Lemma audit_log_stored log : audit_log log -> stored log.
Proof. induction 1 as [|platform log q log' e _ S Pl H]; [split; [exact I | constructor] | exact (append_stored _ _ _ _ _ S Pl H)]. Qed.

(** The run and the service instance that a request names are rows of the platform. *)
Definition references_exist (platform : PlatformRows) (q : audit_request) : Prop :=
  (forall u, aq_run_id q = Some u -> is_Some (pf_runs platform !! u)) /\
  (forall u, aq_service_boot_id q = Some u -> exists s, In s (pf_services platform) /\ si_boot_id s = u).

Lemma audit_references_Ok platform q : audit_references platform (aq_run_id q) (aq_service_boot_id q) = Ok tt <-> references_exist platform q.
Proof.
  unfold audit_references, references_exist. split.
  - intros H. py_inv. split; intros u E; rewrite E in *; bool_prop.
    + match goal with H : present (pf_runs platform !! u) = true |- _ => destruct (pf_runs platform !! u); [eauto | discriminate] end.
    + match goal with H : existsb _ _ = true |- _ => apply existsb_exists in H as (s & I & Hs); apply Z.eqb_eq in Hs; eauto end.
  - intros [R S]. destruct (aq_run_id q) as [u|]; [destruct (R u eq_refl) as [x ->]|]; cbn [present negb raise_if bind];
      (destruct (aq_service_boot_id q) as [w|]; [|reflexivity]); destruct (S w eq_refl) as (s & I & Hs);
      (assert (existsb (fun s => si_boot_id s =? w) (pf_services platform) = true) as -> by (apply existsb_exists; exists s; split; [exact I | now apply Z.eqb_eq])); reflexivity.
Qed.

(** The place in the chain does not decide whether a request is accepted. *)
Lemma create_elsewhere q e n h : (forall t, digest_text (sha256_hex t) = true) -> AuditEvent_create sha256_hex q 1 None = Ok e ->
  1 < n -> digest_text h = true -> exists e', AuditEvent_create sha256_hex q n (Some h) = Ok e'.
Proof.
  intros Hs H Hn Hh. pose proof (create_Ok _ _ _ _ H) as (P & _). unfold AuditEvent_create in *. py_inv.
  pose proof (audit_post_init_Ok _ _ H) as (-> & _ & _ & U). cbn in U.
  match goal with E : _evidence_object _ _ = Ok _ |- _ => rewrite E; cbn [bind] end.
  match goal with |- context [content_hash sha256_hex ?v] => destruct (content_hash_total sha256_hex v) as [b Hb] end.
  { cbn. rewrite U, !freezable_thaw. now destruct (aq_reason_code q), (aq_run_id q), (aq_service_boot_id q), (aq_session_reference q). }
  rewrite Hb. cbn [bind]. eexists. unfold AuditEvent_post_init, with_hash in *; cbn [au_event_id au_sequence au_previous_hash au_source_role au_actor_reference
    au_session_reference au_event_code au_reason_code au_evidence au_run_id au_service_boot_id au_occurred_at au_content_hash present] in *. py_inv.
  repeat match goal with u : unit |- _ => destruct u end.
  assert (N1 : (n <? 1) = false) by (apply Z.ltb_ge; lia). assert (N2 : (n =? 1) = false) by (apply Z.eqb_neq; lia).
  repeat (pass; [first [eassumption | rewrite ?N1, ?N2; reflexivity | unfold opt_check, require_sha256; rewrite ?Hh, ?Hs; reflexivity]|]).
  pass; [now rewrite bool_decide_true | reflexivity].
Qed.

(** What an append answers. *)
Lemma append_answers platform log q log' e : stored log -> plain_evidence q -> _append_audit_direct sha256_hex platform log q = Ok (log', e) ->
  (exists row, In row log' /\ same_event e row = true /\ forall later, _append_audit_direct sha256_hex later log' q = Ok (log', row)) /\
  ((log' = log /\ In e log /\ exists c, AuditEvent_create sha256_hex q (au_sequence e) (au_previous_hash e) = Ok c /\ same_event c e = true) \/
   (exists row, log' = log ++ [row] /\ same_event e row = true /\ fresh log (aq_event_id q) /\ references_exist platform q /\
      au_sequence row = next_sequence log /\ au_event_id row = aq_event_id q)).
Proof.
  intros S Pl H. pose proof (append_stored _ _ _ _ _ S Pl H) as S'.
  destruct (append_cases platform log q S) as [[F E]|(x & I & Hx & E)]; rewrite E in H; py_inv.
  - match goal with Hc : AuditEvent_create _ _ _ _ = Ok _, Hr : stored_row _ _ = Ok ?r |- _ =>
      rename Hc into Cr; rename r into row; destruct (stored_row_Ok _ _ _ _ _ _ Pl Cr Hr) as (Same & _ & Hi & Hn & Hp & _ & Rf) end.
    apply audit_references_Ok in Rf. split; [|right; exists row; auto 10]. exists row.
    split; [apply in_app_iff; right; now left|]. split; [exact Same|]. intros later.
    destruct (append_cases later _ q S') as [[F' _]|(x & I & Hx & E')].
    + destruct (F' row); [apply in_app_iff; right; now left | exact Hi].
    + assert (x = row) as -> by (apply in_app_iff in I as [I|[I|[]]]; [now destruct (F x) | now symmetry]).
      rewrite E', Hn, Hp, Cr. cbn [bind]. now rewrite Same.
  - match goal with Hc : AuditEvent_create _ _ _ _ = Ok _ |- _ => rename Hc into Cr end. bool_prop. split; [|left; eauto].
    exists e. split; [exact I|]. split; [apply same_event_refl|]. intros later.
    rewrite E, Cr. cbn [bind]. match goal with Hs : same_event _ _ = true |- _ => now rewrite Hs end.
Qed.

Lemma append_accepts platform log q e0 j : stored log -> (forall t, digest_text (sha256_hex t) = true) ->
  AuditEvent_create sha256_hex q 1 None = Ok e0 -> fresh log (aq_event_id q) -> references_exist platform q -> jsonb (au_evidence e0) = Ok j ->
  exists e, _append_audit_direct sha256_hex platform log q = Ok (log ++ [with_evidence e j], e).
Proof.
  intros S Hs H F Rf J. destruct (append_cases platform log q S) as [[_ E]|(x & I & Hx & _)]; [|now destruct (F x)]. rewrite E. unfold tip, next_sequence.
  assert (Row : forall e, au_evidence e = au_evidence e0 -> au_run_id e = aq_run_id q -> au_service_boot_id e = aq_service_boot_id q ->
            stored_row platform e = Ok (with_evidence e j)).
  { intros e Ee Er Es. unfold stored_row. rewrite Ee, J, Er, Es. cbn [bind]. now rewrite (proj2 (audit_references_Ok platform q) Rf). }
  destruct (last log) as [x|] eqn:L.
  - assert (V : AuditEvent_post_init sha256_hex x = Ok x) by (destruct S as [_ V]; rewrite List.Forall_forall in V; apply V, last_In, L).
    destruct (create_elsewhere q e0 (Z.of_nat (length log) + 1) (au_content_hash x) Hs H) as [e Ee].
    + destruct log; [discriminate|]. cbn [length]. lia.
    + now apply audit_post_init_Ok in V as (_ & _ & V & _).
    + rewrite Ee. cbn [bind]. destruct (create_fields _ _ _ _ H) as (Ev0 & _), (create_fields _ _ _ _ Ee) as (Ev & Er & Es).
      rewrite (Row e); [cbn [bind]; eauto | congruence | assumption | assumption].
  - apply last_None in L as ->. change (Z.of_nat (length []) + 1) with 1. rewrite H. cbn [bind]. destruct (create_fields _ _ _ _ H) as (_ & Er & Es).
    rewrite (Row e0); auto. cbn [bind]. eauto.
Qed.
End Chain.

(** C29: The log that direct appends write is a chain, whatever becomes of the
    platform rows in between, as long as its evidence is what a JSONB column
    keeps (no floats, 64-bit integers).  Reading it back and verifying it
    succeeds, with the number of its events and the hash of the last one.  An
    append answers the stored event when the identifier is known, and then only
    if nothing else than the order of the keys of the evidence differs;
    otherwise it adds exactly one row, at the end, with the next sequence, equal
    to the event it answers up to that order, and the run and the service
    instance that it names exist.  Repeating an append, whatever the platform
    is by then, changes nothing and answers the stored row.  With a digest that
    answers digests, every request that the constructor accepts as the first
    event is accepted under a fresh identifier, when the run and the service
    instance that it names exist and the column takes the evidence. *)
Theorem audit_log_is_a_chain {column : JsonbColumn} sha256_hex log (R : audit_log sha256_hex log) :
  (exists v, verify_stored_chain sha256_hex log = Ok v /\ cv_ok v = true /\ cv_errors v = [] /\
     cv_event_count v = Z.of_nat (length log) /\ cv_terminal_hash v = option_map au_content_hash (last log)) /\
  (forall platform q log' e, plain_evidence q -> _append_audit_direct sha256_hex platform log q = Ok (log', e) ->
     (exists row, In row log' /\ same_event e row = true /\
        forall later, _append_audit_direct sha256_hex later log' q = Ok (log', row)) /\
     ((log' = log /\ In e log /\ exists c, AuditEvent_create sha256_hex q (au_sequence e) (au_previous_hash e) = Ok c /\ same_event c e = true) \/
      (exists row, log' = log ++ [row] /\ same_event e row = true /\ fresh log (aq_event_id q) /\ references_exist platform q /\
         au_sequence row = next_sequence log /\ au_event_id row = aq_event_id q))) /\
  ((forall t, digest_text (sha256_hex t) = true) -> forall platform q e0 j, AuditEvent_create sha256_hex q 1 None = Ok e0 ->
     fresh log (aq_event_id q) -> references_exist platform q -> jsonb (au_evidence e0) = Ok j ->
     exists e, _append_audit_direct sha256_hex platform log q = Ok (log ++ [with_evidence e j], e)).
Proof.
  pose proof (audit_log_stored _ _ R) as S. split; [|split].
  - destruct S as [C V]. unfold verify_stored_chain, list_audit_events.
    assert (mapM (_audit_from_row sha256_hex) log = Ok log) as -> by (apply mapM_Forall2, Forall_Forall2_diag; eapply List.Forall_impl; [exact (from_row_Ok sha256_hex) | exact V]).
    cbn [bind]. unfold verify_audit_chain. rewrite (proj2 (chain_errors_nil sha256_hex log None 1) C). cbn [bind]. eexists. repeat split.
  - intros platform q log' e Pl H. exact (append_answers sha256_hex platform log q log' e S Pl H).
  - intros Hs platform q e0 j H F Rf J. exact (append_accepts sha256_hex platform log q e0 j S Hs H F Rf J).
Qed.

(** ** Tampering *)

Lemma rev_case {A} (l : list A) : l = [] \/ exists l' x, l = l' ++ [x].
Proof. destruct l as [|x l] using rev_ind; eauto. Qed.

(** What two events agree on when their contents are the same. *)
Definition same_content (a b : AuditEvent) : Prop :=
  au_content_hash a = au_content_hash b /\ au_sequence a = au_sequence b /\ au_previous_hash a = au_previous_hash b /\
  uuid_str (au_event_id a) = uuid_str (au_event_id b) /\ au_source_role a = au_source_role b /\
  au_actor_reference a = au_actor_reference b /\ au_session_reference a = au_session_reference b /\
  au_event_code a = au_event_code b /\ au_reason_code a = au_reason_code b /\
  canonical (au_evidence a) = canonical (au_evidence b) /\
  option_map uuid_str (au_run_id a) = option_map uuid_str (au_run_id b) /\
  option_map uuid_str (au_service_boot_id a) = option_map uuid_str (au_service_boot_id b) /\
  utc_iso (au_occurred_at a) = utc_iso (au_occurred_at b).

Lemma source_role_inj (a b : AuditSourceRole) : enum_value a = enum_value b -> a = b.
Proof. destruct a, b; (reflexivity || discriminate). Qed.

Lemma payload_inj a b ta tb : floats_ok (au_evidence a) = true -> floats_ok (au_evidence b) = true ->
  utc_iso (au_occurred_at a) = Ok ta -> utc_iso (au_occurred_at b) = Ok tb -> au_content_hash a = au_content_hash b ->
  dumps_text (frozen_payload a ta) = dumps_text (frozen_payload b tb) -> same_content a b.
Proof.
  intros Fa Fb Ia Ib Eh E.
  assert (floats : forall e t, floats_ok (au_evidence e) = true -> floats_ok (frozen_payload e t) = true).
  { intros e t F. unfold frozen_payload. cbn [floats_ok forallb snd]. rewrite F.
    now destruct (au_previous_hash e), (au_reason_code e), (au_run_id e), (au_service_boot_id e), (au_session_reference e). }
  apply dumps_text_inj in E; [|now apply floats | now apply floats]. unfold frozen_payload in E. unfold same_content. rewrite Ia, Ib.
  generalize dependent uuid_str. intros us E. cbn in E. injection E. clear E. intros.
  assert (options : forall {A} (f : A -> string) (x y : option A),
            canonical match x with Some u => JStr (f u) | None => JNull end = canonical match y with Some u => JStr (f u) | None => JNull end ->
            option_map f x = option_map f y).
  { intros A f [x|] [y|]; cbn; congruence. }
  assert (texts : forall x y : option string, option_map (fun s => s) x = option_map (fun s => s) y -> x = y) by (intros [x|] [y|]; cbn; congruence).
  repeat split; auto using source_role_inj; try (apply texts, options; assumption); try (apply options; assumption); congruence.
Qed.

Lemma payload_hash sha256_hex e h : content_hash sha256_hex (_audit_hash_payload e) = Ok h ->
  exists t, canonical_json_bytes (_audit_hash_payload e) = Ok t /\ h = sha256_hex t.
Proof. unfold content_hash. intros H. py_inv. eauto. Qed.

(** No two of the events have different payloads with one digest. *)
Definition collision_free (sha256_hex : string -> string) (events events' : list AuditEvent) : Prop :=
  forall a b ta tb, In a events -> In b events' -> canonical_json_bytes (_audit_hash_payload a) = Ok ta ->
    canonical_json_bytes (_audit_hash_payload b) = Ok tb -> sha256_hex ta = sha256_hex tb -> ta = tb.

Lemma chains_agree sha256_hex events : forall events', chained sha256_hex None 1 events -> chained sha256_hex None 1 events' ->
  collision_free sha256_hex events events' -> Forall (fun e => floats_ok (au_evidence e) = true) (events ++ events') ->
  tip None events = tip None events' -> Forall2 same_content events events'.
Proof.
  induction events as [|a events IH] using rev_ind; intros events' C C' N F T.
  - destruct (rev_case events') as [->|(l & b & ->)]; [constructor|]. unfold tip in T. now rewrite last_app_one in T.
  - destruct (rev_case events') as [->|(l & b & ->)]; [unfold tip in T; now rewrite last_app_one in T|].
    unfold tip in T. rewrite !last_app_one in T. injection T as T.
    apply chained_snoc in C as (C & Sa & Pa & Ha), C' as (C' & Sb & Pb & Hb).
    apply payload_hash in Ha as (ta & Ea & Ha), Hb as (tb & Eb & Hb).
    assert (E : ta = tb) by (apply (N a b); [apply in_app_iff; right; now left | apply in_app_iff; right; now left | assumption | assumption | congruence]).
    apply payload_text in Ea as (ma & Ia & ->), Eb as (mb & Ib & ->).
    rewrite !Forall_app, !Forall_singleton in F. destruct F as [[F1 Fa] [F2 Fb]].
    pose proof (payload_inj a b ma mb Fa Fb Ia Ib T E) as S. apply Forall2_app; [|now constructor].
    apply IH; [assumption | assumption | | | ].
    + intros x y tx ty Ix Iy. apply N; apply in_app_iff; auto.
    + apply Forall_app. split; assumption.
    + destruct S as (_ & _ & S & _). congruence.
Qed.

(** C28: The terminal hash fixes the whole log.  If two sequences of events both
    pass the verification and end in the same hash, and the digest does not
    collide on their payloads, then they have the same length and agree event
    by event on every field: no event of a log whose terminal hash is known
    can be altered, removed, inserted or moved without being detected. *)
Theorem audit_tamper_evident sha256_hex events events' v v'
  (V : verify_audit_chain sha256_hex events = Ok v) (V' : verify_audit_chain sha256_hex events' = Ok v')
  (O : cv_ok v = true) (O' : cv_ok v' = true) (T : cv_terminal_hash v = cv_terminal_hash v')
  (N : collision_free sha256_hex events events')
  (F : Forall (fun e => floats_ok (au_evidence e) = true) (events ++ events')) :
  Forall2 same_content events events' /\ cv_event_count v = cv_event_count v'.
Proof.
  assert (chain : forall l w, verify_audit_chain sha256_hex l = Ok w -> cv_ok w = true ->
            chained sha256_hex None 1 l /\ cv_terminal_hash w = tip None l /\ cv_event_count w = Z.of_nat (length l)).
  { intros l w H Ow. unfold verify_audit_chain in H. py_inv. cbn [cv_ok] in Ow. match type of Ow with match ?es with _ => _ end = _ => destruct es; [|discriminate] end.
    split; [now apply chain_errors_nil|]. split; [|reflexivity]. cbn [cv_terminal_hash]. unfold tip. now destruct (last l). }
  destruct (chain _ _ V O) as (C & Et & Ec), (chain _ _ V' O') as (C' & Et' & Ec').
  assert (A : Forall2 same_content events events') by (apply (chains_agree sha256_hex); auto; congruence).
  split; [exact A|]. rewrite Ec, Ec'. f_equal. now apply Forall2_length in A.
Qed.

(** ** A sample log *)

Definition sample_request (u : UUID) (evidence : pyval) : audit_request := {|
  aq_event_id := u; aq_source_role := SRC_WORKER; aq_actor_reference := "worker:0123456789abcdef0123456789abcdef";
  aq_session_reference := None; aq_event_code := "run.started"; aq_reason_code := if u =? 1 then None else Some "operator";
  aq_evidence := evidence; aq_run_id := Some 7; aq_service_boot_id := None; aq_occurred_at := utc 1785628800000000 |}.

(** A column that gives back what it takes, with the run of the requests. *)
Definition verbatim_column : JsonbColumn.
Proof. refine {| jsonb := Ok |}. intros j j' _ H. now injection H as <-. Defined.
#[local] Existing Instance verbatim_column.

Definition run_platform : PlatformRows := {| pf_runs := {[ 7 := 5 ]}; pf_services := [] |}.

Definition evidence_1 : pyval := PDict [("mode", PStr "paper"); ("attempt", PInt 1)].
Definition evidence_2 : pyval := PDict [("attempt", PInt 1); ("mode", PStr "paper")].

Definition append_all (requests : list audit_request) : result (list AuditEvent) :=
  fold_left (fun log q => let* l := log in let* r := _append_audit_direct length_digest run_platform l q in Ok (fst r)) requests (Ok []).

Example audit_refuses :
  (let* log := append_all [sample_request 1 evidence_1] in
   _append_audit_direct length_digest run_platform log (sample_request 1 (PDict [("mode", PStr "live")])))
  = Raise (ObservabilityIntegrityError "immutable audit identity has changed") /\
  AuditEvent_create length_digest (sample_request 1 (PDict [("outer", PSeq [PDict [("Session-Token", PNone)]])])) 1 None
  = Raise (ValueError "operational evidence contains forbidden key: outer.Session-Token") /\
  _append_audit_direct length_digest {| pf_runs := ∅; pf_services := [] |} [] (sample_request 1 evidence_1) = Raise (IntegrityError "fk_audit_event_run").
Proof. repeat split; vm_compute; reflexivity. Qed.

(** A column of numerics: it reads the float 1e+22 back as the integer. *)
Definition numeric_column : JsonbColumn.
Proof.
  refine {| jsonb := fun j => Ok match j with JObj [(k, JFloat t)] => if String.eqb t "1e+22" then JObj [(k, JInt (10 ^ 22))] else j | _ => j end |}.
  intros j j' S H. injection H as <-. destruct j as [| | | | | |[|[k []] []]]; try reflexivity. cbn [storable forallb snd andb] in S.
  now rewrite andb_false_r in S.
Defined.

(** With it, an accepted event with such a float is a row that no constructor accepts:
    the event can be appended, and from then on the log cannot be read. *)
Example float_evidence_breaks_the_chain :
  let q := sample_request 1 (PDict [("volume", PFloat true "1e+22")]) in
  let r := _append_audit_direct (column := numeric_column) length_digest run_platform [] q in
  (let* x := r in Ok (au_sequence (snd x))) = Ok 1 /\
  (let* x := r in verify_stored_chain length_digest (fst x)) = Raise (ObservabilityIntegrityError "stored audit event is invalid") /\
  (let* x := r in _append_audit_direct (column := numeric_column) length_digest run_platform (fst x) q)
  = Raise (ObservabilityIntegrityError "stored audit event is invalid").
Proof. vm_compute. repeat split. Qed.

Lemma plain_evidence_1 u : plain_evidence (sample_request u evidence_1).
Proof. intros j H. vm_compute in H. injection H as <-. vm_compute. reflexivity. Qed.

Lemma audit_log_is_a_chain_witness : exists log e log' e', _append_audit_direct length_digest run_platform [] (sample_request 1 evidence_1) = Ok (log, e) /\
  _append_audit_direct length_digest run_platform log (sample_request 2 evidence_1) = Ok (log', e') /\
  length log' = 2%nat /\ exists v, verify_stored_chain length_digest log' = Ok v /\ cv_ok v = true.
Proof.
  eexists _, _, _, _. split; [vm_compute; reflexivity|]. split; [vm_compute; reflexivity|]. split; [reflexivity|].
  match goal with |- context [verify_stored_chain _ ?l] =>
    destruct (proj1 (audit_log_is_a_chain length_digest l ltac:(eapply (log_append _ run_platform _ (sample_request 2 evidence_1));
      [eapply (log_append _ run_platform _ (sample_request 1 evidence_1)); [apply log_empty | apply plain_evidence_1 | vm_compute; reflexivity]
      | apply plain_evidence_1 | vm_compute; reflexivity]))) as (v & E & O & _) end.
  exists v. split; assumption.
Defined.

Definition log_of (r : result (list AuditEvent)) : list AuditEvent := match r with Ok l => l | Raise _ => [] end.
Definition log_1 : list AuditEvent := Eval vm_compute in log_of (append_all [sample_request 1 evidence_1; sample_request 2 evidence_1]).
Definition log_2 : list AuditEvent := Eval vm_compute in log_of (append_all [sample_request 1 evidence_2; sample_request 2 evidence_2]).

Lemma audit_tamper_evident_witness : exists v v', verify_audit_chain length_digest log_1 = Ok v /\ verify_audit_chain length_digest log_2 = Ok v' /\
  Forall2 same_content log_1 log_2 /\ log_1 <> log_2.
Proof.
  destruct (verify_audit_chain length_digest log_1) as [v|] eqn:V; [|vm_compute in V; discriminate].
  destruct (verify_audit_chain length_digest log_2) as [v' |] eqn:V'; [|vm_compute in V'; discriminate].
  exists v, v'. split; [reflexivity|]. split; [reflexivity|]. split; [|discriminate].
  refine (proj1 (audit_tamper_evident length_digest log_1 log_2 v v' V V' _ _ _ _ _));
    [vm_compute in V; injection V as <-; reflexivity | vm_compute in V'; injection V' as <-; reflexivity
    | vm_compute in V, V'; injection V as <-; injection V' as <-; reflexivity | |].
  - intros a b ta tb Ia Ib Ea Eb E. destruct Ia as [<-|[<-|[]]], Ib as [<-|[<-|[]]]; vm_compute in Ea, Eb; injection Ea as <-; injection Eb as <-;
      first [reflexivity | vm_compute in E; discriminate].
  - repeat constructor.
Defined.

(** ** Health evaluations *)

Section HealthLog.
Context (sha256_hex : string -> string).

Inductive health_log : list HealthEvaluation -> Prop :=
| health_empty : health_log []
| health_record services rows e rows' x : health_log rows -> HealthEvaluation_post_init sha256_hex e = Ok e ->
    record_health sha256_hex services rows e = Ok (rows', x) -> health_log rows'.

(** The constructor's checks on a recovery. *)
Lemma health_post_init_Ok e e' : HealthEvaluation_post_init sha256_hex e = Ok e' -> e' = e /\
  (forall prior, he_recovery_of_evaluation_id e = Some prior -> he_overall_status e = HS_HEALTHY /\ prior <> he_evaluation_id e).
Proof.
  unfold HealthEvaluation_post_init, health_recovery_checks. intros H. py_inv. split; [now symmetry|]. intros prior E.
  match goal with Hr : match he_recovery_of_evaluation_id _ with _ => _ end = Ok _ |- _ => rewrite E in Hr; clear E end. py_inv. bool_prop. auto.
Qed.

Lemma find_health_In rows u p : find_health rows u = Some p -> In p rows /\ he_evaluation_id p = u.
Proof. unfold find_health. intros H. apply List.find_some in H as [I E]. now apply Z.eqb_eq in E. Qed.

Lemma record_cases services rows e rows' x : Forall (fun r => HealthEvaluation_post_init sha256_hex r = Ok r) rows ->
  record_health sha256_hex services rows e = Ok (rows', x) ->
  _require_operations_service services e = Ok tt /\
  (forall prior, he_recovery_of_evaluation_id e = Some prior -> recovers rows e prior = true) /\
  ((rows' = rows /\ In x rows /\ same_health x e = true) \/
   (rows' = rows ++ [e] /\ x = e /\ Forall (fun r => health_conflict e r = false) rows)).
Proof.
  intros V H. unfold record_health in H. apply bind_Ok in H as ([] & S & H). split; [exact S|].
  apply bind_Ok in H as (u & R & H). apply raise_if_Ok in R. split.
  { intros prior E. rewrite E in R. now apply negb_false_iff in R. }
  destruct (existsb _ rows) eqn:Ex; py_inv; bool_prop.
  - left. match goal with F : find_health _ _ = Some _ |- _ => apply find_health_In in F as [I _] end.
    rewrite List.Forall_forall in V. match goal with F : _health_from_row _ _ = Ok _ |- _ => unfold _health_from_row in F; rewrite (V _ I) in F; injection F as <- end. auto.
  - right. split; [reflexivity|]. split; [reflexivity|]. now apply existsb_false_Forall.
Qed.

(** The evaluation that each stored recovery names. *)
Definition recovery_sound (rows : list HealthEvaluation) (e : HealthEvaluation) : Prop :=
  forall prior, he_recovery_of_evaluation_id e = Some prior -> he_overall_status e = HS_HEALTHY /\
    exists p, In p rows /\ he_evaluation_id p = prior /\ he_run_id p = he_run_id e /\
      instant (he_checked_at p) < instant (he_checked_at e) /\ he_overall_status p <> HS_HEALTHY.

Definition distinct_health (rows : list HealthEvaluation) : Prop :=
  forall x y, In x rows -> In y rows -> health_conflict x y = true -> x = y.

Lemma health_conflict_sym x y : health_conflict x y = health_conflict y x.
Proof. unfold health_conflict. now rewrite (Z.eqb_sym (he_evaluation_id y)), (Z.eqb_sym (he_run_id y)), (Z.eqb_sym (instant (he_checked_at y))). Qed.

Lemma health_log_invariant rows : health_log rows ->
  Forall (fun r => HealthEvaluation_post_init sha256_hex r = Ok r) rows /\ Forall (recovery_sound rows) rows /\ distinct_health rows.
Proof.
  induction 1 as [|services rows e rows' x _ (V & R & D) P H]; [repeat split; try constructor; intros ? ? []|].
  destruct (record_cases _ _ _ _ _ V H) as (_ & Hr & [(-> & _ & _)|(-> & -> & N)]); [auto|]. split; [|split].
  - apply Forall_app. auto.
  - apply Forall_app. split.
    + eapply List.Forall_impl; [|exact R]. intros y Hy prior E. destruct (Hy prior E) as (O & p & I & Rest). split; [exact O|]. exists p. rewrite in_app_iff. auto.
    + constructor; [|constructor]. intros prior E. split; [now apply (health_post_init_Ok _ _ P) in E|].
      specialize (Hr prior E). unfold recovers in Hr. destruct (find_health rows prior) as [p|] eqn:F; [|discriminate]. bool_prop.
      apply find_health_In in F as [I F]. exists p. rewrite in_app_iff. unfold dt_ltb in *. bool_prop. auto.
  - rewrite List.Forall_forall in N. intros a b Ia Ib C. apply in_app_iff in Ia as [Ia|[<-|[]]], Ib as [Ib|[<-|[]]]; auto.
    + rewrite health_conflict_sym, N in C by assumption. discriminate.
    + rewrite N in C by assumption. discriminate.
Qed.

Lemma latest_fold rest row : let best := fold_left (fun best x => if later_health best x then x else best) rest row in
  In best (row :: rest) /\ Forall (fun x => instant (he_checked_at x) <= instant (he_checked_at best)) (row :: rest).
Proof.
  revert row; induction rest as [|x rest IH]; intros row; cbn [fold_left]; [split; [now left | constructor; [lia | constructor]]|].
  cbv zeta in *. destruct (IH (if later_health row x then x else row)) as [I M]. apply Forall_cons in M as [M1 M].
  assert (B : instant (he_checked_at row) <= instant (he_checked_at (if later_health row x then x else row)) /\
              instant (he_checked_at x) <= instant (he_checked_at (if later_health row x then x else row))).
  { unfold later_health, dt_ltb. destruct (Z.ltb_spec (instant (he_checked_at row)) (instant (he_checked_at x))); cbn [orb]; [lia|].
    destruct (Z.eqb_spec (instant (he_checked_at row)) (instant (he_checked_at x))); cbn [andb]; [|lia].
    destruct (he_evaluation_id row <? he_evaluation_id x); lia. }
  split; [|constructor; [lia|]; constructor; [lia | exact M]].
  destruct I as [I|I]; [|right; now right]. destruct (later_health row x); rewrite <- I; [right; now left | now left].
Qed.

End HealthLog.


Definition sample_health (u : UUID) (status : HealthStatus) (severity : HealthSeverity) (checks : list string) (prior : option UUID) (at_us : Z)
    : result HealthEvaluation :=
  HealthEvaluation_create length_digest {| he_evaluation_id := u; he_run_id := 7; he_service_boot_id := 3; he_overall_status := status;
    he_failed_check_names := checks; he_severity := severity; he_deduplication_key := length_digest "key"; he_incident_id := None;
    he_recovery_of_evaluation_id := prior; he_recovered_at := option_map (fun _ => utc at_us) prior; he_components := JNull;
    he_checked_at := utc at_us; he_content_hash := "" |} (PDict [("database", PStr "ok")]).

Definition ops_service : ServiceInstance :=
  {| si_boot_id := 3; si_run_id := Some 7; si_service_role := "operations"; si_stopped_at := None; si_first_seen_at := utc 0 |}.

Definition health_1 : HealthEvaluation := Eval vm_compute in match sample_health 1 HS_CRITICAL HV_CRITICAL ["queue"; "database"; "queue"] None 1000 with Ok e => e
  | Raise _ => {| he_evaluation_id := 0; he_run_id := 0; he_service_boot_id := 0; he_overall_status := HS_HEALTHY; he_failed_check_names := [];
      he_severity := HV_INFO; he_deduplication_key := ""; he_incident_id := None; he_recovery_of_evaluation_id := None; he_recovered_at := None;
      he_components := JNull; he_checked_at := utc 0; he_content_hash := "" |} end.

Example health_samples : he_failed_check_names health_1 = ["database"; "queue"] /\
  (let* h := sample_health 2 HS_HEALTHY HV_INFO [] (Some 1) 2000 in
   let* r := record_health length_digest [ops_service] [health_1] h in Ok (map he_evaluation_id (fst r))) = Ok [1; 2] /\
  (let* h := sample_health 2 HS_HEALTHY HV_INFO [] (Some 1) 1000 in record_health length_digest [ops_service] [health_1] h)
  = Raise (ObservabilityIntegrityError "health recovery must reference an earlier unhealthy evaluation for the run").
Proof. vm_compute. repeat split. Qed.

