(* ===== verification/Controls.v ===== *)
(** * Trading controls: [maais/operations/controls.py] and
    [maais/db/repositories/controls.py]

    The kill switch of an experiment: it is halted with a reason and reset only
    by a request that names its version and a prefix of its reason.  The row of
    a control keeps its snapshot and the hash of it; each change is an event of
    the control's stream. *)

From Stdlib Require Import ZArith Lia List Bool String.
From stdpp Require Import base decidable list strings gmap.
From S2P Require Import Prelude PyDecimal Domain Json MarketEvents EventLog Manifest Canonical Ledger.

Local Open Scope Z_scope.

(** ** The snapshot *)

Record TradingControlSnapshot : Type := {
  tc_experiment_id : UUID;
  tc_kill_switch_active : bool;
  tc_reason : option string;
  tc_version : Z;
  tc_changed_at : datetime;
  tc_changed_by : string
}.

#[export] Instance TradingControlSnapshot_eq_dec : EqDecision TradingControlSnapshot.
Proof. solve_decision. Defined.

Definition TradingControlSnapshot_post_init (s : TradingControlSnapshot) : result TradingControlSnapshot :=
  do* raise_if ((tc_experiment_id s =? 0) || (tc_version s <=? 0)) (ValueError "trading control identity is invalid") ;;
  do* require_utc (tc_changed_at s) "trading control changed_at" ;;
  do* raise_if (empty (tc_changed_by s)) (ValueError "trading control actor is required") ;;
  do* raise_if (negb (Bool.eqb (tc_kill_switch_active s) (present (tc_reason s))))
        (ValueError "trading control state and reason must appear together") ;;
  Ok s.

Definition snapshot_initialize (experiment_id : UUID) (initialized_at : datetime) (actor : string) : result TradingControlSnapshot :=
  TradingControlSnapshot_post_init {| tc_experiment_id := experiment_id; tc_kill_switch_active := false; tc_reason := None;
    tc_version := 1; tc_changed_at := initialized_at; tc_changed_by := actor |}.

(** [replace(self, ...)]: the next version of the control. *)
Definition next_control (s : TradingControlSnapshot) (reason : option string) (changed_at : datetime) (actor : string)
  : result TradingControlSnapshot :=
  TradingControlSnapshot_post_init {| tc_experiment_id := tc_experiment_id s; tc_kill_switch_active := present reason;
    tc_reason := reason; tc_version := tc_version s + 1; tc_changed_at := changed_at; tc_changed_by := actor |}.

Definition snapshot_halt (s : TradingControlSnapshot) (reason : string) (halted_at : datetime) (actor : string)
  : result TradingControlSnapshot :=
  do* require_utc halted_at "trading control halted_at" ;;
  do* raise_if (empty reason || empty actor) (ValueError "trading halt requires a reason and actor") ;;
  do* raise_if (dt_ltb halted_at (tc_changed_at s)) (ValueError "trading control time cannot regress") ;;
  if tc_kill_switch_active s && bool_decide (tc_reason s = Some reason) then Ok s
  else next_control s (Some reason) halted_at actor.

Definition snapshot_reset (s : TradingControlSnapshot) (reset_at : datetime) (actor : string) (expected_version : Z)
    (allowed_reason_prefix : string) : result TradingControlSnapshot :=
  do* require_utc reset_at "trading control reset_at" ;;
  do* raise_if (empty actor || empty allowed_reason_prefix)
        (ValueError "trading reset requires an actor and allowed reason prefix") ;;
  do* raise_if (negb (expected_version =? tc_version s)) (ValueError "trading control version changed before reset") ;;
  do* raise_if (dt_ltb reset_at (tc_changed_at s)) (ValueError "trading control time cannot regress") ;;
  if negb (tc_kill_switch_active s) then Ok s
  else
    let* reason := of_option AssertionError (tc_reason s) in
    do* raise_if (negb (starts_with allowed_reason_prefix reason))
          (ValueError "trading control reason is not eligible for this reset") ;;
    next_control s None reset_at actor.

Definition control_dict (s : TradingControlSnapshot) : pyval := PDict
  [("experiment_id", PUuid (tc_experiment_id s)); ("kill_switch_active", PBool (tc_kill_switch_active s));
   ("reason", popt PStr (tc_reason s)); ("version", PInt (tc_version s)); ("changed_at", PTime (tc_changed_at s));
   ("changed_by", PStr (tc_changed_by s))].

(** ** The repository *)

(** The columns of a row are those of the snapshot; [state_json], which is
    written and never read, is left out. *)
Record ControlRow : Type := { cr_snapshot : TradingControlSnapshot; cr_content_hash : string }.

Record ControlStore : Type := { ct_rows : gmap UUID ControlRow; ct_ledger : Ledger }.

Definition empty_controls : ControlStore := {| ct_rows := ∅; ct_ledger := empty_ledger |}.

(** [_new_event] of the operational repositories. *)
Definition _new_event (aggregate_id : UUID) (aggregate_type event_type : string) (payload : pyval) (occurred_at : datetime)
  : result NewDomainEvent :=
  NewDomainEvent_init aggregate_id aggregate_type event_type payload (PDict [("schema_revision", PStr "0009")]) occurred_at 1.

Section Controls.
Context (sha256_hex : string -> string).

Definition control_hash (s : TradingControlSnapshot) : result string := content_hash sha256_hex (control_dict s).

Definition _locked (st : ControlStore) (experiment_id : UUID) : result ControlRow :=
  of_option (LookupError "trading controls are not initialized") (ct_rows st !! experiment_id).

(** [_from_row], with the check of the stored hash. *)
Definition verified (row : ControlRow) : result TradingControlSnapshot :=
  let* current := TradingControlSnapshot_post_init (cr_snapshot row) in
  let* hash := control_hash current in
  do* raise_if (negb (bool_decide (hash = cr_content_hash row)))
        (TradingControlConflict "trading control content hash is invalid") ;;
  Ok current.

Definition current (st : ControlStore) (experiment_id : UUID) : result TradingControlSnapshot :=
  let* row := _locked st experiment_id in verified row.

(** The row is written and the event appended behind the version that was read. *)
Definition write_control (st : ControlStore) (s : TradingControlSnapshot) (expected_version : Z) (event_type : string)
    (occurred_at : datetime) : result ControlStore :=
  let* hash := control_hash s in
  let* event := _new_event (tc_experiment_id s) "trading_control" event_type (control_dict s) occurred_at in
  let* r := append (ct_ledger st) (tc_experiment_id s) "trading_control" expected_version [event] in
  Ok {| ct_rows := <[tc_experiment_id s := {| cr_snapshot := s; cr_content_hash := hash |}]> (ct_rows st); ct_ledger := fst r |}.

Definition controls_initialize (st : ControlStore) (experiment_id : UUID) (initialized_at : datetime) (actor : string)
  : result (ControlStore * TradingControlSnapshot) :=
  let* candidate := snapshot_initialize experiment_id initialized_at actor in
  match ct_rows st !! experiment_id with
  | Some _ => let* s := current st experiment_id in Ok (st, s)
  | None =>
      let* st' := write_control st candidate 0 "trading_control.initialized" initialized_at in
      Ok (st', candidate)
  end.

Definition controls_halt (st : ControlStore) (experiment_id : UUID) (reason : string) (halted_at : datetime) (actor : string)
  : result (ControlStore * TradingControlSnapshot) :=
  let* row := _locked st experiment_id in
  let* current := verified row in
  let* halted := snapshot_halt current reason halted_at actor in
  if bool_decide (halted = current) then Ok (st, current)
  else
    let* st' := write_control st halted (tc_version current) "trading_control.halted" halted_at in
    Ok (st', halted).

Definition controls_reset (st : ControlStore) (experiment_id : UUID) (reset_at : datetime) (actor : string) (expected_version : Z)
    (allowed_reason_prefix : string) : result (ControlStore * TradingControlSnapshot) :=
  let* row := _locked st experiment_id in
  let* current := verified row in
  let* reset := snapshot_reset current reset_at actor expected_version allowed_reason_prefix in
  if bool_decide (reset = current) then Ok (st, current)
  else
    let* st' := write_control st reset (tc_version current) "trading_control.reset" reset_at in
    Ok (st', reset).

(** What reaches the controls and the ledger: initialisations, halts, resets
    (when [resets] holds) and the appends of other parts. *)
Inductive control_step (resets : bool) : ControlStore -> ControlStore -> Prop :=
| control_initialized st id t actor st' s : controls_initialize st id t actor = Ok (st', s) -> control_step resets st st'
| control_halted st id reason t actor st' s : controls_halt st id reason t actor = Ok (st', s) -> control_step resets st st'
| control_was_reset st id t actor v prefix st' s : resets = true -> controls_reset st id t actor v prefix = Ok (st', s) -> control_step resets st st'
| control_other st id ty v events l' stored : ty <> "trading_control" -> append (ct_ledger st) id ty v events = Ok (l', stored) ->
    control_step resets st {| ct_rows := ct_rows st; ct_ledger := l' |}.
End Controls.

(** ** Facts *)

Section Facts.
Context (sha256_hex : string -> string).

Definition control_key (id : UUID) : stream_key := ("trading_control", id).

Lemma control_post_init_Ok s s' : TradingControlSnapshot_post_init s = Ok s' ->
  s' = s /\ tc_experiment_id s <> 0 /\ 0 < tc_version s /\ is_utc (tc_changed_at s) = true /\ empty (tc_changed_by s) = false /\
  tc_kill_switch_active s = present (tc_reason s).
Proof.
  unfold TradingControlSnapshot_post_init, require_utc. intros H. py_inv. bool_prop.
  match goal with E : Bool.eqb _ _ = true |- _ => apply Bool.eqb_prop in E end. auto 10.
Qed.

Lemma control_post_init_total s : tc_experiment_id s <> 0 -> 0 < tc_version s -> is_utc (tc_changed_at s) = true ->
  empty (tc_changed_by s) = false -> tc_kill_switch_active s = present (tc_reason s) -> TradingControlSnapshot_post_init s = Ok s.
Proof.
  intros H1 H2 H3 H4 H5. unfold TradingControlSnapshot_post_init, require_utc. pass.
  { apply orb_false_iff. split; [now apply Z.eqb_neq | now apply Z.leb_gt]. }
  pass; [now rewrite H3|]. pass; [exact H4|]. pass; [now rewrite H5, eqb_reflx|]. reflexivity.
Qed.

Lemma control_hash_total s : is_utc (tc_changed_at s) = true -> exists h, control_hash sha256_hex s = Ok h.
Proof.
  intros U. unfold control_hash. destruct (content_hash_total sha256_hex (control_dict s)) as [b ->]; [|eauto].
  cbn. rewrite U. now destruct (tc_reason s).
Qed.

(** A row that agrees with its stream: the last event holds the state. *)
Record row_ok (l : Ledger) (id : UUID) (row : ControlRow) : Prop := {
  ro_valid : TradingControlSnapshot_post_init (cr_snapshot row) = Ok (cr_snapshot row);
  ro_id : tc_experiment_id (cr_snapshot row) = id;
  ro_hash : control_hash sha256_hex (cr_snapshot row) = Ok (cr_content_hash row);
  ro_version : stream_version l (control_key id) = tc_version (cr_snapshot row);
  ro_event : exists front e, stream_of l (control_key id) = front ++ [e] /\
    freeze_json (control_dict (cr_snapshot row)) = Ok (de_payload (sd_event e));
  ro_reason : forall r, tc_reason (cr_snapshot row) = Some r -> empty r = false
}.

Record controls_ok (st : ControlStore) : Prop := {
  co_ledger : ledger_ok (ct_ledger st);
  co_rows : forall id row, ct_rows st !! id = Some row -> row_ok (ct_ledger st) id row
}.

Lemma empty_controls_ok : controls_ok empty_controls.
Proof. split; [apply empty_ledger_ok|]. intros id row E. cbn in E. rewrite lookup_empty in E. discriminate. Qed.

Lemma verified_ok l id row : row_ok l id row -> verified sha256_hex row = Ok (cr_snapshot row).
Proof. intros R. unfold verified. rewrite (ro_valid _ _ _ R). cbn [bind]. rewrite (ro_hash _ _ _ R). cbn [bind]. now rewrite bool_decide_true. Qed.

Lemma control_current_ok st id row : controls_ok st -> ct_rows st !! id = Some row -> current sha256_hex st id = Ok (cr_snapshot row).
Proof. intros C E. unfold current, _locked. rewrite E. exact (verified_ok _ _ _ (co_rows st C id row E)). Qed.

Lemma current_row st id s : controls_ok st -> current sha256_hex st id = Ok s -> exists row, ct_rows st !! id = Some row /\ cr_snapshot row = s.
Proof.
  intros C H. unfold current, _locked in H. destruct (ct_rows st !! id) as [row|] eqn:E; [|discriminate]. exists row. split; [reflexivity|].
  cbn [of_option bind] in H. rewrite (verified_ok _ _ _ (co_rows st C id row E)) in H. now injection H.
Qed.

(** Writing the next state of a control keeps every row in agreement. *)
Lemma write_ok st s v ty t st' : controls_ok st -> TradingControlSnapshot_post_init s = Ok s ->
  (forall r, tc_reason s = Some r -> empty r = false) -> tc_version s = v + 1 ->
  write_control sha256_hex st s v ty t = Ok st' ->
  controls_ok st' /\ (exists row, ct_rows st' !! tc_experiment_id s = Some row /\ cr_snapshot row = s) /\
  (forall id, id <> tc_experiment_id s -> ct_rows st' !! id = ct_rows st !! id).
Proof.
  intros C V Rn Ev H. unfold write_control in H. py_inv. cbn [ct_rows ct_ledger].
  match goal with Ha : append _ _ _ _ _ = Ok ?r |- _ => destruct r as [l' stored]; rename Ha into A end.
  match goal with He : _new_event _ _ _ _ _ = Ok ?x |- _ => apply NewDomainEvent_init_Ok in He as (Ek & _ & Ep & _ & _); rename x into e end. cbn [fst].
  pose proof (append_one _ _ _ _ _ _ _ A) as (V0 & V1 & S1 & O1). split; [split|split].
  - exact (append_ok _ _ _ _ _ _ _ (co_ledger st C) A).
  - intros id row E. cbn [ct_rows ct_ledger] in *. destruct (decide (id = tc_experiment_id s)) as [->|n].
    + rewrite lookup_insert_eq in E. injection E as <-. split; cbn [cr_snapshot cr_content_hash]; auto; [unfold control_key; lia|]. eexists _, _. split; [exact S1 | exact Ep].
    + rewrite lookup_insert_ne in E by congruence. destruct (co_rows st C id row E) as [R1 R2 R3 R4 R5 R6].
      assert (Nk : control_key id <> ("trading_control", tc_experiment_id s)) by (unfold control_key; congruence).
      destruct (O1 _ Nk) as [O2 O3]. split; auto; [now rewrite O2 | now rewrite O3].
  - eexists. rewrite lookup_insert_eq. auto.
  - intros id n. now rewrite lookup_insert_ne by congruence.
Qed.

Lemma write_total st s v ty t : controls_ok st -> TradingControlSnapshot_post_init s = Ok s ->
  stream_version (ct_ledger st) (control_key (tc_experiment_id s)) = v -> is_utc t = true ->
  event_name ty = true -> exists st', write_control sha256_hex st s v ty t = Ok st'.
Proof.
  intros C V Ev U En. destruct (control_post_init_Ok _ _ V) as (_ & Hid & _ & Us & _). destruct (control_hash_total s Us) as [h Eh].
  unfold write_control. rewrite Eh. cbn [bind].
  assert (Ef : exists items, freeze_json (control_dict s) = Ok (JObj items)).
  { destruct (freeze_total (control_dict s)) as [j Ej]; [cbn; rewrite Us; now destruct (tc_reason s)|].
    pose proof Ej as E. unfold control_dict in E. cbn [freeze_json] in E. py_inv. eauto. }
  destruct Ef as [items Ef].
  destruct (NewDomainEvent_init_total (tc_experiment_id s) "trading_control" ty (control_dict s) (PDict [("schema_revision", PStr "0009")]) t items _
    Hid eq_refl En U Ef eq_refl) as (e & Ee & Ek).
  unfold _new_event. rewrite Ee. cbn [bind].
  destruct (append_total (ct_ledger st) (tc_experiment_id s) "trading_control" [e] Hid eq_refl (co_ledger st C) ltac:(discriminate) ltac:(now constructor))
    as (l' & stored & A). subst v.
  eexists. eapply bind_pass; [exact A | reflexivity].
Qed.

Lemma initialize_ok st id t actor st' s : controls_ok st -> controls_initialize sha256_hex st id t actor = Ok (st', s) ->
  controls_ok st' /\ (exists row, ct_rows st' !! id = Some row /\ cr_snapshot row = s) /\ (forall i row, ct_rows st !! i = Some row -> ct_rows st' !! i = Some row).
Proof.
  intros C H. unfold controls_initialize in H. apply bind_Ok in H as (c & Hc & H). destruct (ct_rows st !! id) as [row|] eqn:E.
  - rewrite (control_current_ok _ _ _ C E) in H. injection H as <- <-. split; [exact C|]. split; [eauto | auto].
  - apply bind_Ok in H as (st2 & Hw & H). injection H as <- <-. unfold snapshot_initialize in Hc.
    pose proof (control_post_init_Ok _ _ Hc) as [-> _].
    destruct (write_ok _ _ 0 _ _ _ C Hc ltac:(discriminate) eq_refl Hw) as (C' & R & O). cbn [tc_experiment_id] in *.
    split; [exact C'|]. split; [exact R|]. intros i row Ei. rewrite O; [exact Ei | congruence].
Qed.

Lemma snapshot_halt_Ok s reason t actor s' : snapshot_halt s reason t actor = Ok s' ->
  empty reason = false /\
  (s' = s /\ tc_kill_switch_active s = true /\ tc_reason s = Some reason \/
   TradingControlSnapshot_post_init s' = Ok s' /\ tc_experiment_id s' = tc_experiment_id s /\ tc_version s' = tc_version s + 1 /\
   tc_reason s' = Some reason /\ tc_kill_switch_active s' = true /\ tc_changed_at s' = t).
Proof.
  unfold snapshot_halt, next_control. intros H. apply bind_Ok in H as ([] & _ & H). apply bind_Ok in H as (u & E & H). apply raise_if_Ok in E.
  apply orb_false_iff in E as [E _]. apply bind_Ok in H as (u2 & _ & H). split; [exact E|].
  destruct (tc_kill_switch_active s && bool_decide (tc_reason s = Some reason)) eqn:B.
  - injection H as <-. bool_prop. auto.
  - right. pose proof (control_post_init_Ok _ _ H) as [-> _]. cbn. repeat split; auto.
Qed.

Lemma halt_ok st id reason t actor st' s' : controls_ok st -> controls_halt sha256_hex st id reason t actor = Ok (st', s') ->
  controls_ok st' /\ (exists row, ct_rows st' !! id = Some row /\ cr_snapshot row = s') /\
  tc_kill_switch_active s' = true /\ tc_reason s' = Some reason /\
  (forall i, i <> id -> ct_rows st' !! i = ct_rows st !! i) /\
  exists row, ct_rows st !! id = Some row /\ (st' = st \/ tc_version s' = tc_version (cr_snapshot row) + 1).
Proof.
  intros C H. unfold controls_halt, _locked in H. destruct (ct_rows st !! id) as [row|] eqn:E; [|discriminate]. cbn [of_option bind] in H.
  pose proof (co_rows st C id row E) as R. rewrite (verified_ok _ _ _ R) in H. cbn [bind] in H.
  apply bind_Ok in H as (h & Hh & H). destruct (snapshot_halt_Ok _ _ _ _ _ Hh) as (Ne & [(-> & A & Er)|(V & Ei & Ev & Er & A & _)]).
  - rewrite bool_decide_true in H by reflexivity. injection H as <- <-. repeat (split; [now eauto|]). eauto.
  - rewrite bool_decide_false in H by (intros ->; lia). apply bind_Ok in H as (st2 & Hw & H). injection H as <- <-.
    destruct (write_ok _ _ _ _ _ _ C V ltac:(intros r Hr; congruence) Ev Hw) as (C' & R' & O). rewrite Ei, (ro_id _ _ _ R) in *.
    repeat (split; [assumption|]). eauto.
Qed.

Lemma snapshot_reset_Ok s t actor v prefix s' : snapshot_reset s t actor v prefix = Ok s' ->
  v = tc_version s /\ instant (tc_changed_at s) <= instant t /\
  (s' = s /\ tc_kill_switch_active s = false \/
   TradingControlSnapshot_post_init s' = Ok s' /\ tc_experiment_id s' = tc_experiment_id s /\ tc_version s' = tc_version s + 1 /\
   tc_reason s' = None /\ tc_kill_switch_active s' = false /\ exists r, tc_reason s = Some r /\ starts_with prefix r = true).
Proof.
  unfold snapshot_reset, next_control. intros H. apply bind_Ok in H as ([] & _ & H). apply bind_Ok in H as (u & _ & H). apply bind_Ok in H as (u2 & Ev & H).
  apply bind_Ok in H as (u3 & Et & H). apply raise_if_Ok in Ev, Et. unfold dt_ltb in Et. bool_prop. split; [assumption|]. split; [assumption|].
  destruct (tc_kill_switch_active s) eqn:A; cbn [negb] in H; [|injection H as <-; auto]. right. py_inv. bool_prop.
  match goal with V : TradingControlSnapshot_post_init _ = Ok _ |- _ => pose proof (control_post_init_Ok _ _ V) as [-> _] end.
  cbn. repeat split; eauto.
Qed.

Lemma reset_ok st id t actor v prefix st' s' : controls_ok st -> controls_reset sha256_hex st id t actor v prefix = Ok (st', s') ->
  controls_ok st' /\ (exists row, ct_rows st' !! id = Some row /\ cr_snapshot row = s') /\ tc_kill_switch_active s' = false /\
  (forall i, i <> id -> ct_rows st' !! i = ct_rows st !! i) /\
  exists row, ct_rows st !! id = Some row /\ v = tc_version (cr_snapshot row) /\
    (forall r, tc_reason (cr_snapshot row) = Some r -> starts_with prefix r = true).
Proof.
  intros C H. unfold controls_reset, _locked in H. destruct (ct_rows st !! id) as [row|] eqn:E; [|discriminate]. cbn [of_option bind] in H.
  pose proof (co_rows st C id row E) as R. rewrite (verified_ok _ _ _ R) in H. cbn [bind] in H. destruct (control_post_init_Ok _ _ (ro_valid _ _ _ R)) as (_ & _ & _ & _ & _ & P).
  apply bind_Ok in H as (h & Hh & H). destruct (snapshot_reset_Ok _ _ _ _ _ _ Hh) as (Hv & _ & [(-> & A)|(V & Ei & Ev & Er & A & r & Hr & Hp)]).
  - rewrite bool_decide_true in H by reflexivity. injection H as <- <-. repeat (split; [now eauto|]). exists row. repeat split; auto.
    intros r Hr. rewrite A, Hr in P. discriminate.
  - rewrite bool_decide_false in H by (intros ->; lia). apply bind_Ok in H as (st2 & Hw & H). injection H as <- <-.
    destruct (write_ok _ _ _ _ _ _ C V ltac:(intros r0 Hr0; congruence) Ev Hw) as (C' & R' & O). rewrite Ei, (ro_id _ _ _ R) in *.
    repeat (split; [assumption|]). exists row. repeat split; auto. intros r0 Hr0. congruence.
Qed.

Lemma other_ok st id ty v events l' stored : controls_ok st -> ty <> "trading_control" ->
  append (ct_ledger st) id ty v events = Ok (l', stored) -> controls_ok {| ct_rows := ct_rows st; ct_ledger := l' |}.
Proof.
  intros C N A. split; [exact (append_ok _ _ _ _ _ _ _ (co_ledger st C) A)|]. intros i row E. destruct (co_rows st C i row E) as [R1 R2 R3 R4 R5 R6].
  destruct (append_other _ _ _ _ _ _ _ (control_key i) A ltac:(unfold control_key; congruence)) as [O1 O2].
  cbn [ct_ledger]. split; auto; [now rewrite O1 | now rewrite O2].
Qed.

(** What a step does to an active control: without resets it stays active. *)
Lemma control_step_ok b st st' : controls_ok st -> control_step sha256_hex b st st' -> controls_ok st' /\
  forall id row, ct_rows st !! id = Some row -> exists row', ct_rows st' !! id = Some row' /\
    (b = false -> tc_kill_switch_active (cr_snapshot row) = true ->
       tc_kill_switch_active (cr_snapshot row') = true /\ tc_version (cr_snapshot row) <= tc_version (cr_snapshot row')).
Proof.
  intros C S. revert C. destruct S as [st id t actor st' s H|st id reason t actor st' s H|st id t actor v prefix st' s Eb H|st id ty v events l' stored N H]; intros C.
  - destruct (initialize_ok _ _ _ _ _ _ C H) as (C' & _ & K). split; [exact C'|]. intros i row E. exists row. split; [now apply K | intros _ A; split; [exact A | lia]].
  - destruct (halt_ok _ _ _ _ _ _ _ C H) as (C' & (row' & E' & Es) & A & _ & K & row & E & Hv). split; [exact C'|]. intros i r Ei.
    destruct (decide (i = id)) as [->|n]; [|exists r; rewrite K by assumption; split; [exact Ei | intros _ A'; split; [exact A' | lia]]].
    assert (r = row) as -> by congruence. exists row'. split; [exact E'|]. intros _ _. rewrite Es. split; [exact A|].
    destruct Hv as [-> | ->]; [|lia]. assert (row' = row) as -> by congruence. rewrite Es. lia.
  - destruct (reset_ok _ _ _ _ _ _ _ _ C H) as (C' & (row' & E' & _) & _ & K & _). split; [exact C'|]. intros i r Ei.
    destruct (decide (i = id)) as [->|n]; [exists row'; split; [exact E' | congruence]|]. exists r. rewrite K by assumption. split; [exact Ei | congruence].
  - split; [exact (other_ok _ _ _ _ _ _ _ C N H)|]. intros i row E. exists row. split; [exact E | intros _ A; split; [exact A | lia]].
Qed.

Lemma control_run b st st' : controls_ok st -> star (control_step sha256_hex b) st st' -> controls_ok st' /\
  forall id row, ct_rows st !! id = Some row -> exists row', ct_rows st' !! id = Some row' /\
    (b = false -> tc_kill_switch_active (cr_snapshot row) = true ->
       tc_kill_switch_active (cr_snapshot row') = true /\ tc_version (cr_snapshot row) <= tc_version (cr_snapshot row')).
Proof.
  intros C R. induction R as [st|a m z H _ IH]; [split; [exact C | intros id row E; exists row; split; [exact E | intros _ A; split; [exact A | lia]]]|].
  destruct (control_step_ok _ _ _ C H) as [C' K]. destruct (IH C') as [C'' K']. split; [exact C''|]. intros id row E.
  destruct (K id row E) as (row1 & E1 & H1). destruct (K' id row1 E1) as (row2 & E2 & H2). exists row2. split; [exact E2|].
  intros Hb A. destruct (H1 Hb A) as [A1 L1]. destruct (H2 Hb A1) as [A2 L2]. split; [exact A2 | lia].
Qed.
End Facts.


(** ** Witness *)

Definition store_of {A} (st : ControlStore) (r : result (ControlStore * A)) : ControlStore := match r with Ok p => fst p | Raise _ => st end.

Definition initialised_store : ControlStore :=
  Eval vm_compute in store_of empty_controls (controls_initialize length_digest empty_controls 7 (utc 1) "system").
Definition halted_store : ControlStore :=
  Eval vm_compute in store_of initialised_store (controls_halt length_digest initialised_store 7 "operator_pause:1" (utc 5) "worker").

