(* ===== verification/Operators.v ===== *)
(** * Operator commands: [maais/operations/operator_commands.py] and
    [maais/db/repositories/operator_commands.py]

    A command is requested once under an idempotency key, accepted by a worker,
    possibly taken over by another, and completed or rejected with a result.
    Its row, its event stream and the audit log change in one transaction.  The
    enqueueing of the web role goes through a function of the database and is
    left out; a row is never locked by somebody else. *)

From Stdlib Require Import ZArith Lia List Bool String Ascii.
From stdpp Require Import base decidable list strings gmap.
From S2P Require Import Prelude PyDecimal Domain Json MarketEvents EventLog Manifest Canonical Commands Ledger Experiments AuditLog Controls.

Local Open Scope Z_scope.

(** ** The command *)

Inductive CommandType : Type :=
| CMD_START | CMD_PAUSE | CMD_RESUME | CMD_STOP | CMD_EMERGENCY_HALT | CMD_FLATTEN | CMD_ACKNOWLEDGE_INCIDENT | CMD_RESOLVE_INCIDENT
| CMD_RESET_KILL_SWITCH.
Inductive CommandStatus : Type := CS_REQUESTED | CS_ACCEPTED | CS_COMPLETED | CS_REJECTED.

#[export] Instance CommandType_eq_dec : EqDecision CommandType.
Proof. solve_decision. Defined.
#[export] Instance CommandStatus_eq_dec : EqDecision CommandStatus.
Proof. solve_decision. Defined.
#[export] Instance CommandType_value : StrEnum CommandType := fun c =>
  match c with
  | CMD_START => "start" | CMD_PAUSE => "pause" | CMD_RESUME => "resume" | CMD_STOP => "stop" | CMD_EMERGENCY_HALT => "emergency_halt"
  | CMD_FLATTEN => "flatten" | CMD_ACKNOWLEDGE_INCIDENT => "acknowledge_incident" | CMD_RESOLVE_INCIDENT => "resolve_incident"
  | CMD_RESET_KILL_SWITCH => "reset_kill_switch"
  end.
#[export] Instance CommandStatus_value : StrEnum CommandStatus := fun s =>
  match s with CS_REQUESTED => "requested" | CS_ACCEPTED => "accepted" | CS_COMPLETED => "completed" | CS_REJECTED => "rejected" end.

Definition _SAFETY_CRITICAL : list CommandType :=
  [CMD_START; CMD_PAUSE; CMD_RESUME; CMD_STOP; CMD_EMERGENCY_HALT; CMD_FLATTEN; CMD_RESOLVE_INCIDENT; CMD_RESET_KILL_SWITCH].
Definition safety_critical (c : CommandType) : bool := bool_decide (elem_of c _SAFETY_CRITICAL).

Definition upper (c : ascii) : ascii :=
  let n := nat_of_ascii c in if ((97 <=? n) && (n <=? 122))%nat then ascii_of_nat (n - 32) else c.
Definition confirmation_phrase (c : CommandType) : string :=
  "CONFIRM " +:+ string_of_list_ascii (map upper (list_ascii_of_string (enum_value c))).

Record OperatorCommand : Type := {
  oc_command_id : UUID;
  oc_experiment_id : UUID;
  oc_command_type : CommandType;
  oc_status : CommandStatus;
  oc_idempotency_key : string;
  oc_actor : string;
  oc_reason : string;
  oc_payload : json;
  oc_operator_confirmed : bool;
  oc_request_hash : string;
  oc_requested_at : datetime;
  oc_version : Z;
  oc_accepted_at : option datetime;
  oc_accepted_by : option string;
  oc_completed_at : option datetime;
  oc_result : option json
}.

#[export] Instance OperatorCommand_eq_dec : EqDecision OperatorCommand.
Proof. solve_decision. Defined.

(** Nonempty and without outer spaces. *)
Definition proper (s : string) : bool := negb (empty s) && trimmed s.

Definition _object (value : pyval) (field : string) : result json :=
  let* frozen := freeze_json value in as_mapping (field +:+ " must be a JSON object") frozen.

(** The version of a status, and whether it has an acceptance and a completion. *)
Definition lifecycle_shape (s : CommandStatus) : Z * bool * bool :=
  match s with
  | CS_REQUESTED => (1, false, false)
  | CS_ACCEPTED => (2, true, false)
  | CS_COMPLETED | CS_REJECTED => (3, true, true)
  end.

Definition absent {A} (o : option A) : bool := negb (present o).

Definition OperatorCommand_post_init (c : OperatorCommand) : result OperatorCommand :=
  do* raise_if ((oc_command_id c =? 0) || (oc_experiment_id c =? 0)) (ValueError "operator command identities cannot be nil") ;;
  do* raise_if (negb (proper (oc_idempotency_key c)) || negb ((8 <=? String.length (oc_idempotency_key c))%nat && (String.length (oc_idempotency_key c) <=? 128)%nat))
        (ValueError "idempotency key must be 8-128 trimmed characters") ;;
  do* raise_if (negb (proper (oc_actor c))) (ValueError "operator command actor must be nonempty and trimmed") ;;
  do* raise_if (negb (proper (oc_reason c))) (ValueError "operator command reason must be nonempty and trimmed") ;;
  do* raise_if (negb (digest_text (oc_request_hash c)))
        (ValueError "operator command request hash must be a lowercase SHA-256 digest") ;;
  do* raise_if (oc_version c <=? 0) (ValueError "operator command version must be positive") ;;
  do* require_utc (oc_requested_at c) "requested_at" ;;
  do* opt_check (fun t => require_utc t "accepted_at") (oc_accepted_at c) ;;
  do* opt_check (fun t => require_utc t "completed_at") (oc_completed_at c) ;;
  do* raise_if (match oc_accepted_at c with Some t => dt_ltb t (oc_requested_at c) | None => false end)
        (ValueError "operator command acceptance time cannot regress") ;;
  do* raise_if (match oc_completed_at c with
                | Some t => match oc_accepted_at c with None => true | Some a => dt_ltb t a end
                | None => false
                end) (ValueError "operator command completion time cannot regress") ;;
  do* raise_if (safety_critical (oc_command_type c) && negb (oc_operator_confirmed c))
        (ValueError "safety-critical operator command must be confirmed") ;;
  let '(minimum_version, has_acceptance, has_completion) := lifecycle_shape (oc_status c) in
  do* raise_if (if bool_decide (oc_status c = CS_REQUESTED) then negb (oc_version c =? minimum_version) else oc_version c <? minimum_version)
        (ValueError "operator command version differs from lifecycle status") ;;
  do* raise_if (if (has_acceptance : bool) then negb (present (oc_accepted_at c) && present (oc_accepted_by c))
                else negb (absent (oc_accepted_at c) && absent (oc_accepted_by c)))
        (ValueError "operator command acceptance shape is invalid") ;;
  do* raise_if (if (has_completion : bool) then negb (present (oc_completed_at c) && present (oc_result c))
                else negb (absent (oc_completed_at c) && absent (oc_result c)))
        (ValueError "operator command completion shape is invalid") ;;
  do* raise_if (match oc_accepted_by c with Some w => negb (proper w) | None => false end)
        (ValueError "operator command worker identity must be nonempty and trimmed") ;;
  let* _ := _object (thaw (oc_payload c)) "payload" in
  let* _ := match oc_result c with Some r => _object (thaw r) "result" | None => Ok JNull end in
  Ok c.

(** A command that a worker changes. *)
Definition with_status (c : OperatorCommand) (status : CommandStatus) (version : Z) (accepted_at : option datetime)
    (accepted_by : option string) (completed_at : option datetime) (result : option json) : OperatorCommand := {|
  oc_command_id := oc_command_id c; oc_experiment_id := oc_experiment_id c; oc_command_type := oc_command_type c;
  oc_status := status; oc_idempotency_key := oc_idempotency_key c; oc_actor := oc_actor c; oc_reason := oc_reason c;
  oc_payload := oc_payload c; oc_operator_confirmed := oc_operator_confirmed c; oc_request_hash := oc_request_hash c;
  oc_requested_at := oc_requested_at c; oc_version := version; oc_accepted_at := accepted_at; oc_accepted_by := accepted_by;
  oc_completed_at := completed_at; oc_result := result |}.

Definition accept (c : OperatorCommand) (accepted_at : datetime) (worker_id : string) : result OperatorCommand :=
  if bool_decide (oc_status c = CS_ACCEPTED) then
    do* raise_if (negb (bool_decide (oc_accepted_by c = Some worker_id)))
          (ValueError "operator command was accepted by a different worker") ;;
    Ok c
  else
    do* raise_if (negb (bool_decide (oc_status c = CS_REQUESTED))) (ValueError "only a requested operator command can be accepted") ;;
    OperatorCommand_post_init
      (with_status c CS_ACCEPTED 2 (Some accepted_at) (Some worker_id) (oc_completed_at c) (oc_result c)).

Definition take_over (c : OperatorCommand) (worker_id : string) : result OperatorCommand :=
  do* raise_if (negb (bool_decide (oc_status c = CS_ACCEPTED))) (ValueError "only an accepted operator command can be taken over") ;;
  do* raise_if (negb (proper worker_id)) (ValueError "operator command worker identity must be nonempty and trimmed") ;;
  if bool_decide (oc_accepted_by c = Some worker_id) then Ok c
  else OperatorCommand_post_init
         (with_status c CS_ACCEPTED (oc_version c + 1) (oc_accepted_at c) (Some worker_id) (oc_completed_at c) (oc_result c)).

(** The two ends of a command; [again] and [state] are the texts of the refusals. *)
Definition finish (c : OperatorCommand) (status : CommandStatus) (completed_at : datetime) (result : json) (again state : string)
  : Prelude.result OperatorCommand :=
  if bool_decide (oc_status c = status) then
    do* raise_if (negb (match oc_result c with Some r => same_json r result | None => false end)) (ValueError again) ;;
    Ok c
  else
    do* raise_if (negb (bool_decide (oc_status c = CS_ACCEPTED))) (ValueError state) ;;
    OperatorCommand_post_init
      (with_status c status (oc_version c + 1) (oc_accepted_at c) (oc_accepted_by c) (Some completed_at) (Some result)).

Definition complete (c : OperatorCommand) (completed_at : datetime) (result : pyval) : Prelude.result OperatorCommand :=
  let* normalized_result := _object result "result" in
  finish c CS_COMPLETED completed_at normalized_result "operator command is already completed with a different result"
    "only an accepted operator command can be completed".

Definition reject (c : OperatorCommand) (completed_at : datetime) (reason_code detail : string) : Prelude.result OperatorCommand :=
  do* raise_if (negb (proper reason_code)) (ValueError "command rejection reason code must be nonempty and trimmed") ;;
  do* raise_if (negb (proper detail)) (ValueError "command rejection detail must be nonempty and trimmed") ;;
  finish c CS_REJECTED completed_at (JObj [("reason_code", JStr reason_code); ("detail", JStr detail)])
    "operator command is already rejected with a different result" "only an accepted operator command can be rejected".

Definition command_dict (c : OperatorCommand) : pyval := PDict
  [("command_id", PUuid (oc_command_id c)); ("experiment_id", PUuid (oc_experiment_id c));
   ("command_type", PEnum (enum_value (oc_command_type c))); ("status", PEnum (enum_value (oc_status c)));
   ("idempotency_key", PStr (oc_idempotency_key c)); ("actor", PStr (oc_actor c)); ("reason", PStr (oc_reason c));
   ("payload", thaw (oc_payload c)); ("operator_confirmed", PBool (oc_operator_confirmed c));
   ("request_hash", PStr (oc_request_hash c)); ("requested_at", PTime (oc_requested_at c)); ("version", PInt (oc_version c));
   ("accepted_at", popt PTime (oc_accepted_at c)); ("accepted_by", popt PStr (oc_accepted_by c));
   ("completed_at", popt PTime (oc_completed_at c)); ("result", popt thaw (oc_result c))].

(** ** Identifiers in text *)

(** [s.replace(needle, "")], with the length of the text as fuel. *)
Fixpoint remove_all (fuel : nat) (needle l : list ascii) : list ascii :=
  match fuel, l with
  | S fuel', c :: l' =>
      if prefixb needle l then remove_all fuel' needle (drop (length needle) l) else c :: remove_all fuel' needle l'
  | _, _ => l
  end.
Definition without (needle : string) (l : list ascii) : list ascii := remove_all (length l) (list_ascii_of_string needle) l.

Definition hex_value (c : ascii) : option Z :=
  let n := Z.of_nat (nat_of_ascii c) in
  if (48 <=? n) && (n <=? 57) then Some (n - 48)
  else if (97 <=? n) && (n <=? 102) then Some (n - 87)
  else if (65 <=? n) && (n <=? 70) then Some (n - 55)
  else None.

(** Digits of base 16, with single underscores between them. *)
Fixpoint hex_digits (l : list ascii) (acc : Z) (after_digit : bool) : option Z :=
  match l with
  | [] => if after_digit then Some acc else None
  | c :: l' =>
      if bool_decide (c = "_"%char) then if after_digit then hex_digits l' acc false else None
      else match hex_value c with Some d => hex_digits l' (16 * acc + d) true | None => None end
  end.

(** [int(text, 16)]. *)
Definition int_base16 (l : list ascii) : option Z :=
  let l := trim l in
  let '(sign, l) := match l with
                    | c :: l' => if bool_decide (c = "-"%char) then (-1, l') else if bool_decide (c = "+"%char) then (1, l') else (1, l)
                    | [] => (1, l)
                    end in
  let l := match l with
           | z :: x :: l' =>
               if bool_decide (z = "0"%char) && (bool_decide (x = "x"%char) || bool_decide (x = "X"%char))
               then match l' with c :: l'' => if bool_decide (c = "_"%char) then l'' else l' | [] => l' end else l
           | _ => l
           end in
  option_map (Z.mul sign) (hex_digits l 0 false).

Definition is_brace (c : ascii) : bool := bool_decide (c = "{"%char) || bool_decide (c = "}"%char).
Fixpoint drop_braces (l : list ascii) : list ascii := match l with c :: l' => if is_brace c then drop_braces l' else l | [] => [] end.

(** [UUID(text)], when it does not raise. *)
Definition parse_uuid (text : string) : option UUID :=
  let l := without "uuid:" (without "urn:" (list_ascii_of_string text)) in
  let l := List.filter (fun c => negb (bool_decide (c = "-"%char))) (rev (drop_braces (rev (drop_braces l)))) in
  if negb (length l =? 32)%nat then None
  else match int_base16 l with
       | Some n => if (0 <=? n) && (n <? 2 ^ 128) then Some n else None
       | None => None
       end.

Example parse_uuid_1 : map parse_uuid ["00000000-0000-0000-0000-0000000000ff"; "{urn:uuid:000000000000000000000000000000FF}"; "ff";
  "-0000000-0000-0000-0000-0000000000ff0"; "zz000000-0000-0000-0000-0000000000ff"] = [Some 255; Some 255; None; Some 4080; None].
Proof. vm_compute. reflexivity. Qed.

(** ** The repository *)

Record CommandRow : Type := { cm_command : OperatorCommand; cm_content_hash : string }.

Record CommandStore : Type := {
  cm_rows : list CommandRow;
  cm_ledger : Ledger;
  cm_audit : list AuditEvent
}.

Record OperatorCommandWriteResult : Type := { wr_created : bool; wr_command : OperatorCommand }.

Section Repository.
Context (sha256_hex : string -> string) (uuid5 : string -> UUID).
Context {column : JsonbColumn} (gateway : list AuditEvent -> audit_request -> result (list AuditEvent * Z)) (database_role : string) (platform : PlatformRows).

Definition command_hash (c : OperatorCommand) : result string := content_hash sha256_hex (command_dict c).

(** [OperatorCommand.request]. *)
Definition request (command_id experiment_id : UUID) (command_type : CommandType) (idempotency_key actor reason : string)
    (payload : pyval) (confirmation : option string) (requested_at : datetime) : result OperatorCommand :=
  let required_confirmation := confirmation_phrase command_type in
  let operator_confirmed := bool_decide (confirmation = Some required_confirmation) in
  do* raise_if (safety_critical command_type && negb operator_confirmed)
        (ValueError ("command requires exact confirmation: " +:+ required_confirmation)) ;;
  let* normalized_payload := _object payload "payload" in
  let* request_hash := content_hash sha256_hex (PDict
    [("experiment_id", PUuid experiment_id); ("command_type", PEnum (enum_value command_type));
     ("idempotency_key", PStr idempotency_key); ("actor", PStr actor); ("reason", PStr reason);
     ("payload", thaw normalized_payload); ("operator_confirmed", PBool operator_confirmed)]) in
  OperatorCommand_post_init {|
    oc_command_id := command_id; oc_experiment_id := experiment_id; oc_command_type := command_type; oc_status := CS_REQUESTED;
    oc_idempotency_key := idempotency_key; oc_actor := actor; oc_reason := reason; oc_payload := normalized_payload;
    oc_operator_confirmed := operator_confirmed; oc_request_hash := request_hash; oc_requested_at := requested_at; oc_version := 1;
    oc_accepted_at := None; oc_accepted_by := None; oc_completed_at := None; oc_result := None |}.

Definition command_event (c : OperatorCommand) (event_type : string) (occurred_at : datetime) : result NewDomainEvent :=
  NewDomainEvent_init (oc_command_id c) "operator_command" event_type (command_dict c) (PDict [("schema_revision", PStr "0017")])
    occurred_at 1.

Definition _verify (row : CommandRow) : result OperatorCommand :=
  let* command := OperatorCommand_post_init (cm_command row) in
  let* hash := command_hash command in
  do* raise_if (negb (bool_decide (hash = cm_content_hash row)))
        (OperatorCommandConflict "operator command content hash is invalid") ;;
  Ok command.

Definition find_command (rows : list CommandRow) (id : UUID) : option CommandRow :=
  List.find (fun r => oc_command_id (cm_command r) =? id) rows.

Definition same_key (c : OperatorCommand) (r : CommandRow) : bool :=
  (oc_experiment_id (cm_command r) =? oc_experiment_id c) && String.eqb (oc_idempotency_key (cm_command r)) (oc_idempotency_key c).

(** The keys of the table: the identifier, and the idempotency key of an experiment. *)
Definition command_conflict (c : OperatorCommand) (r : CommandRow) : bool :=
  (oc_command_id (cm_command r) =? oc_command_id c) || same_key c r.

Definition enqueue (st : CommandStore) (command : OperatorCommand) : result (CommandStore * OperatorCommandWriteResult) :=
  do* raise_if (negb (bool_decide (oc_status command = CS_REQUESTED)))
        (ValueError "only a requested operator command can enter the inbox") ;;
  let* hash := command_hash command in
  if existsb (command_conflict command) (cm_rows st) then
    let* existing := of_option (OperatorCommandConflict "operator command identity already exists")
                       (List.find (same_key command) (cm_rows st)) in
    let* restored := _verify existing in
    do* raise_if (negb (bool_decide (oc_request_hash restored = oc_request_hash command)))
          (OperatorCommandConflict "idempotency key was already used for a different operator request") ;;
    Ok (st, {| wr_created := false; wr_command := restored |})
  else
    let* event := command_event command "operator_command.requested" (oc_requested_at command) in
    let* r := append (cm_ledger st) (oc_command_id command) "operator_command" 0 [event] in
    Ok ({| cm_rows := cm_rows st ++ [{| cm_command := command; cm_content_hash := hash |}]; cm_ledger := fst r; cm_audit := cm_audit st |},
        {| wr_created := true; wr_command := command |}).

Definition command_get (st : CommandStore) (command_id : UUID) : result OperatorCommand :=
  let* row := of_option (LookupError "operator command does not exist") (find_command (cm_rows st) command_id) in _verify row.

(** [order_by(requested_at.desc(), id.desc())]. *)
Fixpoint insert_recent (r : CommandRow) (l : list CommandRow) : list CommandRow :=
  match l with
  | [] => [r]
  | x :: l' =>
      let key r := (instant (oc_requested_at (cm_command r)), oc_command_id (cm_command r)) in
      if (fst (key x) <? fst (key r)) || ((fst (key x) =? fst (key r)) && (snd (key x) <=? snd (key r))) then r :: x :: l'
      else x :: insert_recent r l'
  end.

Definition list_for_experiment (st : CommandStore) (experiment_id : UUID) (status : option CommandStatus) (limit : Z)
  : result (list OperatorCommand) :=
  do* raise_if (negb ((1 <=? limit) && (limit <=? 500))) (ValueError "operator command limit must be between 1 and 500") ;;
  let selected r := (oc_experiment_id (cm_command r) =? experiment_id) &&
                    match status with Some s => bool_decide (oc_status (cm_command r) = s) | None => true end in
  mapM _verify (take (Z.to_nat limit) (fold_right insert_recent [] (List.filter selected (cm_rows st)))).

Definition replaced (c : OperatorCommand) (hash : string) (row : CommandRow) : CommandRow :=
  if oc_command_id (cm_command row) =? oc_command_id c then {| cm_command := c; cm_content_hash := hash |} else row.

(** The changed row, its event behind the version that was read. *)
Definition write_command (st : CommandStore) (c : OperatorCommand) (expected_version : Z) (event_type : string) (occurred_at : datetime)
  : result CommandStore :=
  let* hash := command_hash c in
  let* event := command_event c event_type occurred_at in
  let* r := append (cm_ledger st) (oc_command_id c) "operator_command" expected_version [event] in
  Ok {| cm_rows := map (replaced c hash) (cm_rows st); cm_ledger := fst r; cm_audit := cm_audit st |}.

(** The run that the payload names, when it is one of the experiment. *)
Definition audit_run (c : OperatorCommand) : option UUID :=
  match payload_get (oc_payload c) "run_id" with
  | Some (JStr raw_run_id) =>
      match parse_uuid raw_run_id with
      | Some candidate => if bool_decide (pf_runs platform !! candidate = Some (oc_experiment_id c)) then Some candidate else None
      | None => None
      end
  | _ => None
  end.

(** The boot of the worker that acts, when the platform knows it. *)
Definition audit_boot (worker_id : string) (run_id : option UUID) : option UUID :=
  if starts_with "paper_worker:" worker_id then
    match parse_uuid (String.substring 13 (String.length worker_id) worker_id) with
    | Some candidate =>
        match List.find (fun s => si_boot_id s =? candidate) (pf_services platform) with
        | Some service =>
            if bool_decide (si_service_role service = "worker") && (absent run_id || bool_decide (si_run_id service = run_id))
            then Some candidate else None
        | None => None
        end
    | None => None
    end
  else None.

Definition _audit_command (audit : list AuditEvent) (c : OperatorCommand) (worker_id event_code reason_code : string)
    (occurred_at : datetime) : result (list AuditEvent) :=
  let run_id := audit_run c in
  let* event_id := deterministic_audit_event_id uuid5 event_code (uuid_str (oc_command_id c) +:+ ":" +:+ int_text (oc_version c)) in
  let* actor_reference := pseudonymous_reference sha256_hex "service" worker_id in
  let* r := append_audit sha256_hex gateway database_role platform audit {|
    aq_event_id := event_id; aq_source_role := SRC_WORKER; aq_actor_reference := actor_reference; aq_session_reference := None;
    aq_event_code := event_code; aq_reason_code := Some reason_code;
    aq_evidence := PDict [("command_id", PStr (uuid_str (oc_command_id c))); ("command_type", PStr (enum_value (oc_command_type c)));
                          ("experiment_id", PStr (uuid_str (oc_experiment_id c))); ("status", PStr (enum_value (oc_status c)));
                          ("version", PInt (oc_version c))];
    aq_run_id := run_id; aq_service_boot_id := audit_boot worker_id run_id; aq_occurred_at := occurred_at |} in
  Ok (fst r).

Definition audited (st : CommandStore) (c : OperatorCommand) (worker_id event_code reason_code : string) (occurred_at : datetime)
  : result CommandStore :=
  let* audit := _audit_command (cm_audit st) c worker_id event_code reason_code occurred_at in
  Ok {| cm_rows := cm_rows st; cm_ledger := cm_ledger st; cm_audit := audit |}.

(** Accepted commands first, then the oldest request. *)
Definition claimable (experiment_id : UUID) (r : CommandRow) : bool :=
  (oc_experiment_id (cm_command r) =? experiment_id) && bool_decide (elem_of (oc_status (cm_command r)) [CS_ACCEPTED; CS_REQUESTED]).
Definition claim_key (r : CommandRow) : Z * Z := (instant (oc_requested_at (cm_command r)), oc_command_id (cm_command r)).
Definition next_claim (rows : list CommandRow) (experiment_id : UUID) : option CommandRow :=
  let open := List.filter (claimable experiment_id) rows in
  let accepted := List.filter (fun r => bool_decide (oc_status (cm_command r) = CS_ACCEPTED)) open in
  match min_by claim_key accepted with Some r => Some r | None => min_by claim_key open end.

Definition claim_next (st : CommandStore) (experiment_id : UUID) (worker_id : string) (accepted_at : datetime)
  : result (CommandStore * option OperatorCommand) :=
  match next_claim (cm_rows st) experiment_id with
  | None => Ok (st, None)
  | Some row =>
      let* current := _verify row in
      if bool_decide (oc_status current = CS_ACCEPTED) then
        let* recovered := take_over current worker_id in
        if bool_decide (recovered = current) then Ok (st, Some current)
        else
          let* st' := write_command st recovered (oc_version current) "operator_command.recovered" accepted_at in
          Ok (st', Some recovered)
      else
        let* accepted := accept current accepted_at worker_id in
        let* st' := write_command st accepted (oc_version current) "operator_command.accepted" accepted_at in
        let* st' := audited st' accepted worker_id "operator.command.accepted" "worker_claimed" accepted_at in
        Ok (st', Some accepted)
  end.

(** [_locked] and [_verify], for the worker that has accepted the command. *)
Definition owned (st : CommandStore) (command_id : UUID) (worker_id : string) : result OperatorCommand :=
  let* current := command_get st command_id in
  do* raise_if (negb (bool_decide (oc_accepted_by current = Some worker_id)))
        (OperatorCommandConflict "operator command belongs to a different worker") ;;
  Ok current.

Definition command_complete (st : CommandStore) (command_id : UUID) (worker_id : string) (completed_at : datetime) (result : pyval)
  : Prelude.result (CommandStore * OperatorCommand) :=
  let* current := owned st command_id worker_id in
  let* completed := complete current completed_at result in
  if bool_decide (completed = current) then
    let* at_time := of_option AssertionError (oc_completed_at current) in
    let* st' := audited st current worker_id "operator.command.completed" "command_completed" at_time in
    Ok (st', current)
  else
    let* st' := write_command st completed (oc_version current) "operator_command.completed" completed_at in
    let* st' := audited st' completed worker_id "operator.command.completed" "command_completed" completed_at in
    Ok (st', completed).

Definition command_reject (st : CommandStore) (command_id : UUID) (worker_id : string) (completed_at : datetime)
    (reason_code detail : string) : Prelude.result (CommandStore * OperatorCommand) :=
  let* current := owned st command_id worker_id in
  let* rejected := reject current completed_at reason_code detail in
  if bool_decide (rejected = current) then
    let* at_time := of_option AssertionError (oc_completed_at current) in
    let stored_reason := match oc_result current with Some r => json_str (payload_get r "reason_code") | None => "command_rejected" end in
    let* code := bounded_reason_code stored_reason "command_rejected" in
    let* st' := audited st current worker_id "operator.command.rejected" code at_time in
    Ok (st', current)
  else
    let* st' := write_command st rejected (oc_version current) "operator_command.rejected" completed_at in
    let* code := bounded_reason_code reason_code "command_rejected" in
    let* st' := audited st' rejected worker_id "operator.command.rejected" code completed_at in
    Ok (st', rejected).

(** What happens to commands: requests, claims, ends, appends of other parts
    to the ledger and to the audit log. *)
Inductive command_step : CommandStore -> CommandStore -> Prop :=
| command_enqueued st c st' w : enqueue st c = Ok (st', w) -> OperatorCommand_post_init c = Ok c -> command_step st st'
| command_claimed st id w t st' c : claim_next st id w t = Ok (st', c) -> command_step st st'
| command_completed st id w t r st' c : command_complete st id w t r = Ok (st', c) -> command_step st st'
| command_rejected st id w t code detail st' c : command_reject st id w t code detail = Ok (st', c) -> command_step st st'
| command_other st id ty v events l' stored audit : ty <> "operator_command" -> append (cm_ledger st) id ty v events = Ok (l', stored) ->
    command_step st {| cm_rows := cm_rows st; cm_ledger := l'; cm_audit := audit |}.
End Repository.

(** ** Facts *)

(** The identity of a command never changes, its status only moves on, and a
    completed or rejected command is final. *)
Definition status_rank (s : CommandStatus) : Z := match s with CS_REQUESTED => 0 | CS_ACCEPTED => 1 | CS_COMPLETED | CS_REJECTED => 2 end.
Definition finished (c : OperatorCommand) : bool := bool_decide (elem_of (oc_status c) [CS_COMPLETED; CS_REJECTED]).

Record same_request (c c' : OperatorCommand) : Prop := {
  sr_id : oc_command_id c' = oc_command_id c;
  sr_experiment : oc_experiment_id c' = oc_experiment_id c;
  sr_type : oc_command_type c' = oc_command_type c;
  sr_key : oc_idempotency_key c' = oc_idempotency_key c;
  sr_actor : oc_actor c' = oc_actor c;
  sr_reason : oc_reason c' = oc_reason c;
  sr_payload : oc_payload c' = oc_payload c;
  sr_confirmed : oc_operator_confirmed c' = oc_operator_confirmed c;
  sr_hash : oc_request_hash c' = oc_request_hash c;
  sr_requested : oc_requested_at c' = oc_requested_at c
}.

Record command_after (c c' : OperatorCommand) : Prop := {
  ca_same : same_request c c';
  ca_version : oc_version c <= oc_version c';
  ca_status : status_rank (oc_status c) <= status_rank (oc_status c');
  ca_final : finished c = true -> c' = c;
  ca_accepted : forall t, oc_accepted_at c = Some t -> oc_accepted_at c' = Some t
}.

Lemma same_request_refl c : same_request c c.
Proof. split; reflexivity. Qed.

Lemma same_request_trans a b c : same_request a b -> same_request b c -> same_request a c.
Proof. intros [] []. split; congruence. Qed.

Lemma with_status_same c s v a w t r : same_request c (with_status c s v a w t r).
Proof. split; reflexivity. Qed.

Lemma command_after_refl c : command_after c c.
Proof. split; auto using same_request_refl; lia. Qed.

Lemma command_after_trans a b c : command_after a b -> command_after b c -> command_after a c.
Proof.
  intros [S1 V1 R1 F1 A1] [S2 V2 R2 F2 A2]. split; [eauto using same_request_trans | lia | lia | | eauto].
  intros F. pose proof (F1 F) as ->. now apply F2.
Qed.

(** What the constructor checks of the shape of a command. *)
Lemma command_post_init_Ok c c' : OperatorCommand_post_init c = Ok c' -> c' = c /\ oc_command_id c <> 0 /\ 0 < oc_version c /\
  is_utc (oc_requested_at c) = true /\ (oc_status c = CS_REQUESTED -> oc_version c = 1 /\ oc_accepted_at c = None /\ oc_accepted_by c = None) /\
  (oc_status c <> CS_REQUESTED -> 2 <= oc_version c /\ present (oc_accepted_at c) = true /\ present (oc_accepted_by c) = true) /\
  (finished c = false -> oc_completed_at c = None /\ oc_result c = None) /\
  (safety_critical (oc_command_type c) = true -> oc_operator_confirmed c = true).
Proof.
  unfold OperatorCommand_post_init, require_utc, finished, absent. intros H. repeat (apply bind_Ok in H as (? & ? & H)).
  destruct (lifecycle_shape (oc_status c)) as [[m a] d] eqn:L. py_inv. bool_prop.
  destruct (oc_status c') eqn:S; injection L as <- <- <-; rewrite ?bool_decide_true in * by reflexivity; rewrite ?(bool_decide_false (_ = CS_REQUESTED)) in * by discriminate; bool_prop;
    destruct (oc_accepted_at c'), (oc_accepted_by c'), (oc_completed_at c'), (oc_result c'), (safety_critical (oc_command_type c')), (oc_operator_confirmed c');
    try discriminate; repeat split; auto; try congruence; try lia; intros; try discriminate; try lia; try congruence.
Qed.

(** A change of a command: the next version, allowed by the lifecycle. *)
Record moved (c c' : OperatorCommand) : Prop := {
  mv_valid : OperatorCommand_post_init c' = Ok c';
  mv_after : command_after c c';
  mv_version : oc_version c' = oc_version c + 1
}.

Lemma moved_intro c s v a w t r : OperatorCommand_post_init c = Ok c -> finished c = false -> v = oc_version c + 1 ->
  status_rank (oc_status c) <= status_rank s -> (forall x, oc_accepted_at c = Some x -> a = Some x) ->
  forall c', OperatorCommand_post_init (with_status c s v a w t r) = Ok c' -> c' = with_status c s v a w t r /\ moved c c'.
Proof.
  intros V F -> R A c' H. pose proof (command_post_init_Ok _ _ H) as [-> _]. split; [reflexivity|]. split; [exact H | | reflexivity].
  split; [apply with_status_same | cbn; lia | exact R | congruence | exact A].
Qed.

Lemma not_finished c : oc_status c = CS_REQUESTED \/ oc_status c = CS_ACCEPTED -> finished c = false.
Proof. unfold finished. intros [-> | ->]; apply bool_decide_eq_false; rewrite !elem_of_cons, elem_of_nil; intuition discriminate. Qed.

Lemma accept_Ok c t w c' : OperatorCommand_post_init c = Ok c -> oc_status c = CS_REQUESTED -> accept c t w = Ok c' ->
  moved c c' /\ oc_status c' = CS_ACCEPTED /\ oc_accepted_by c' = Some w /\ oc_accepted_at c' = Some t.
Proof.
  intros V S H. unfold accept in H. rewrite bool_decide_false in H by (rewrite S; discriminate). apply bind_Ok in H as (u & _ & H).
  destruct (command_post_init_Ok _ _ V) as (_ & _ & _ & _ & Q & _). destruct (Q S) as (Ev & Ea & _).
  destruct (moved_intro c CS_ACCEPTED 2 (Some t) (Some w) _ _ V (not_finished c (or_introl S)) ltac:(rewrite Ev; reflexivity) ltac:(rewrite S; cbn; lia) ltac:(congruence) c' H) as [-> M].
  auto.
Qed.

Lemma take_over_Ok c w c' : OperatorCommand_post_init c = Ok c -> take_over c w = Ok c' ->
  oc_status c = CS_ACCEPTED /\ oc_status c' = CS_ACCEPTED /\ oc_accepted_by c' = Some w /\ (c' = c \/ moved c c').
Proof.
  intros V H. unfold take_over in H. apply bind_Ok in H as (u & S & H). apply raise_if_Ok in S. bool_prop. apply bind_Ok in H as (u2 & _ & H).
  split; [assumption|]. destruct (bool_decide_reflect (oc_accepted_by c = Some w)) as [E|n]; [injection H as <-; auto|].
  destruct (moved_intro c CS_ACCEPTED _ _ _ _ _ V (not_finished c (or_intror S)) eq_refl ltac:(rewrite S; cbn; lia) (fun x E => E) c' H) as [-> M]. auto.
Qed.

Lemma finish_Ok c s t r again state c' : elem_of s [CS_COMPLETED; CS_REJECTED] -> OperatorCommand_post_init c = Ok c -> finish c s t r again state = Ok c' ->
  oc_status c' = s /\ (c' = c \/ oc_status c = CS_ACCEPTED /\ moved c c' /\ oc_result c' = Some r /\ oc_completed_at c' = Some t /\
                       oc_accepted_by c' = oc_accepted_by c).
Proof.
  intros Is V H. unfold finish in H. destruct (bool_decide_reflect (oc_status c = s)) as [E|n].
  - apply bind_Ok in H as (u & _ & H). injection H as <-. auto.
  - apply bind_Ok in H as (u & S & H). apply raise_if_Ok in S. bool_prop.
    assert (R : status_rank (oc_status c) <= status_rank s).
    { rewrite S. apply elem_of_cons in Is as [-> |Is]; [cbn; lia|]. apply elem_of_cons in Is as [-> |Is]; [cbn; lia | now apply elem_of_nil in Is]. }
    destruct (moved_intro c s _ _ _ _ _ V (not_finished c (or_intror S)) eq_refl R (fun x E => E) c' H) as [-> M]. cbn. auto 10.
Qed.

Lemma complete_Ok c t r c' : OperatorCommand_post_init c = Ok c -> complete c t r = Ok c' ->
  oc_status c' = CS_COMPLETED /\ (c' = c \/ oc_status c = CS_ACCEPTED /\ moved c c' /\ freeze_json r = Ok (default JNull (oc_result c')) /\
    oc_completed_at c' = Some t /\ oc_accepted_by c' = oc_accepted_by c).
Proof.
  intros V H. unfold complete, _object, as_mapping in H. py_inv. apply finish_Ok in H as (S & [-> |(A & M & R & T & B)]); [auto | | apply list_elem_of_here | exact V].
  split; [exact S|]. right. rewrite R. auto 10.
Qed.

Lemma reject_Ok c t code detail c' : OperatorCommand_post_init c = Ok c -> reject c t code detail = Ok c' ->
  oc_status c' = CS_REJECTED /\ (c' = c \/ oc_status c = CS_ACCEPTED /\ moved c c' /\
    oc_result c' = Some (JObj [("reason_code", JStr code); ("detail", JStr detail)]) /\
    oc_completed_at c' = Some t /\ oc_accepted_by c' = oc_accepted_by c).
Proof.
  intros V H. unfold reject in H. py_inv. apply finish_Ok in H as (S & [-> |(A & M & R & T & B)]); [auto | | apply list_elem_of_further, list_elem_of_here | exact V].
  split; [exact S|]. right. auto 10.
Qed.

(** ** Reachable stores *)

Section Reachable.
Context (sha256_hex : string -> string) (uuid5 : string -> UUID).
Context {column : JsonbColumn} (gateway : list AuditEvent -> audit_request -> result (list AuditEvent * Z)) (database_role : string) (platform : PlatformRows).

Definition command_key (id : UUID) : stream_key := ("operator_command", id).
Definition row_id (r : CommandRow) : UUID := oc_command_id (cm_command r).
Definition row_key (r : CommandRow) : UUID * string := (oc_experiment_id (cm_command r), oc_idempotency_key (cm_command r)).
Definition accepted_row (r : CommandRow) : Prop := oc_status (cm_command r) = CS_ACCEPTED.

Record crow_ok (l : Ledger) (r : CommandRow) : Prop := {
  cr_valid : OperatorCommand_post_init (cm_command r) = Ok (cm_command r);
  cr_hash : command_hash sha256_hex (cm_command r) = Ok (cm_content_hash r);
  cr_version : stream_version l (command_key (row_id r)) = oc_version (cm_command r);
  cr_event : exists front e, stream_of l (command_key (row_id r)) = front ++ [e] /\
    freeze_json (command_dict (cm_command r)) = Ok (de_payload (sd_event e))
}.

Record commands_ok (st : CommandStore) : Prop := {
  cs_ledger : ledger_ok (cm_ledger st);
  cs_rows : Forall (crow_ok (cm_ledger st)) (cm_rows st);
  cs_ids : NoDup (map row_id (cm_rows st));
  cs_keys : NoDup (map row_key (cm_rows st));
  cs_serial : forall a b, In a (cm_rows st) -> In b (cm_rows st) -> accepted_row a -> accepted_row b ->
    oc_experiment_id (cm_command a) = oc_experiment_id (cm_command b) -> a = b
}.

Definition rows_after (st st' : CommandStore) : Prop :=
  forall r, In r (cm_rows st) -> exists r', In r' (cm_rows st') /\ command_after (cm_command r) (cm_command r').

Lemma command_rows_refl st : rows_after st st.
Proof. intros r I. exists r. split; [exact I | apply command_after_refl]. Qed.

Lemma command_rows_trans a b c : rows_after a b -> rows_after b c -> rows_after a c.
Proof.
  intros H1 H2 r I. destruct (H1 r I) as (r1 & I1 & A1). destruct (H2 r1 I1) as (r2 & I2 & A2). exists r2. split; [exact I2 | eauto using command_after_trans].
Qed.

Lemma verify_ok l r : crow_ok l r -> _verify sha256_hex r = Ok (cm_command r).
Proof. intros [V H _ _]. unfold _verify. rewrite V. cbn [bind]. rewrite H. cbn [bind]. now rewrite bool_decide_true. Qed.

Lemma row_ok_in st r : commands_ok st -> In r (cm_rows st) -> crow_ok (cm_ledger st) r.
Proof. intros C I. pose proof (cs_rows st C) as F. rewrite List.Forall_forall in F. auto. Qed.

Lemma find_command_Some st id r : find_command (cm_rows st) id = Some r -> In r (cm_rows st) /\ row_id r = id.
Proof. unfold find_command. intros H. apply List.find_some in H as [I E]. apply Z.eqb_eq in E. auto. Qed.

Lemma find_command_in st r : commands_ok st -> In r (cm_rows st) -> find_command (cm_rows st) (row_id r) = Some r.
Proof.
  intros C I. destruct (find_command (cm_rows st) (row_id r)) as [x|] eqn:F.
  - apply find_command_Some in F as [Ix E]. f_equal. exact (NoDup_map_inj row_id _ x r (cs_ids st C) Ix I E).
  - unfold find_command in F. pose proof (List.find_none _ _ F r I) as N. cbn in N. apply Z.eqb_neq in N. now destruct N.
Qed.

Lemma command_get_Ok st id c : commands_ok st -> command_get sha256_hex st id = Ok c ->
  exists r, In r (cm_rows st) /\ cm_command r = c /\ row_id r = id.
Proof.
  intros C H. unfold command_get in H. destruct (find_command (cm_rows st) id) as [r|] eqn:F; [|discriminate]. cbn [of_option bind] in H.
  apply find_command_Some in F as [I E]. rewrite (verify_ok _ _ (row_ok_in _ _ C I)) in H. injection H as <-. eauto.
Qed.

Lemma map_replaced {A} (f : CommandRow -> A) c hash rows :
  Forall (fun r => row_id r = oc_command_id c -> f {| cm_command := c; cm_content_hash := hash |} = f r) rows ->
  map f (map (replaced c hash) rows) = map f rows.
Proof.
  induction 1 as [|r rows Hr _ IH]; [reflexivity|]. cbn [map]. rewrite IH. f_equal. unfold replaced.
  destruct (Z.eqb_spec (oc_command_id (cm_command r)) (oc_command_id c)) as [E|]; [now apply Hr | reflexivity].
Qed.

(** Writing the next state of one command. *)
Lemma write_command_ok st r c ty t st' : commands_ok st -> In r (cm_rows st) -> moved (cm_command r) c ->
  (oc_status c = CS_ACCEPTED -> forall x, In x (cm_rows st) -> accepted_row x -> oc_experiment_id (cm_command x) = oc_experiment_id c -> x = r) ->
  write_command sha256_hex st c (oc_version (cm_command r)) ty t = Ok st' ->
  commands_ok st' /\ rows_after st st' /\ cm_audit st' = cm_audit st /\ (exists h, In {| cm_command := c; cm_content_hash := h |} (cm_rows st')) /\
  map row_id (cm_rows st') = map row_id (cm_rows st) /\
  (forall x, In x (cm_rows st') -> cm_command x = c \/ In x (cm_rows st) /\ x <> r).
Proof.
  intros C I M Ser H. pose proof (ca_same _ _ (mv_after _ _ M)) as S. unfold write_command in H. apply bind_Ok in H as (h & Hh & H).
  apply bind_Ok in H as (e & He & H). apply bind_Ok in H as ([l' stored] & A & H). injection H as <-. cbn [fst cm_rows cm_ledger cm_audit].
  apply NewDomainEvent_init_Ok in He as (Ek & _ & Ep & _ & _). pose proof (append_one _ _ _ _ _ _ _ A) as (V0 & V1 & S1 & O1).
  assert (Same : forall x, In x (cm_rows st) -> row_id x = oc_command_id c -> x = r).
  { intros x Ix E. apply (NoDup_map_inj row_id _ x r (cs_ids st C) Ix I). rewrite E. exact (sr_id _ _ S). }
  assert (New : forall x, In x (map (replaced c h) (cm_rows st)) -> x = {| cm_command := c; cm_content_hash := h |} \/ In x (cm_rows st) /\ x <> r /\ row_id x <> oc_command_id c).
  { intros x Ix. apply in_map_iff in Ix as (y & <- & Iy). unfold replaced. destruct (Z.eqb_spec (oc_command_id (cm_command y)) (oc_command_id c)) as [E|n]; [now left|].
    right. split; [exact Iy|]. split; [|exact n]. intros ->. apply n. symmetry. exact (sr_id _ _ S). }
  assert (Idents : map row_id (map (replaced c h) (cm_rows st)) = map row_id (cm_rows st)).
  { apply map_replaced. apply List.Forall_forall. intros x Ix E. cbn. now rewrite E. }
  split; [split|]; cbn [cm_rows cm_ledger cm_audit].
  - exact (append_ok _ _ _ _ _ _ _ (cs_ledger st C) A).
  - apply List.Forall_forall. intros x Ix. destruct (New x Ix) as [->|(Iy & _ & n)].
    + split; cbn [cm_command cm_content_hash row_id]; [exact (mv_valid _ _ M) | exact Hh | exact (eq_trans V1 (eq_sym (mv_version _ _ M))) |].
      eexists _, _. split; [exact S1 | exact Ep].
    + destruct (row_ok_in _ _ C Iy) as [R1 R2 R3 R4].
      destruct (O1 (command_key (row_id x)) ltac:(unfold command_key; congruence)) as [O2 O3]. split; auto; [now rewrite O2 | now rewrite O3].
  - rewrite Idents. exact (cs_ids st C).
  - rewrite map_replaced; [exact (cs_keys st C)|]. apply List.Forall_forall. intros x Ix E. rewrite (Same x Ix E). unfold row_key. cbn. now rewrite (sr_experiment _ _ S), (sr_key _ _ S).
  - intros a b Ia Ib Aa Ab E. unfold accepted_row in *. destruct (New a Ia) as [->|(Ja & Na & _)], (New b Ib) as [->|(Jb & Nb & _)]; auto.
    + cbn in *. destruct Nb. now apply Ser.
    + cbn in *. destruct Na. apply Ser; auto.
    + now apply (cs_serial st C).
  - split; [|split; [reflexivity|split; [|split; [exact Idents|]]]].
    + intros x Ix. exists (replaced c h x). split; [now apply in_map|]. unfold replaced. destruct (Z.eqb_spec (oc_command_id (cm_command x)) (oc_command_id c)) as [E|n].
      * rewrite (Same x Ix E). exact (mv_after _ _ M).
      * apply command_after_refl.
    + exists h. apply in_map_iff. exists r. split; [|exact I]. unfold replaced. now rewrite <- (sr_id _ _ S), Z.eqb_refl.
    + intros x Ix. destruct (New x Ix) as [->|(Iy & Ny & _)]; [now left | right; auto].
Qed.

Lemma audited_Ok st c w code reason t st' : audited sha256_hex uuid5 gateway database_role platform st c w code reason t = Ok st' ->
  cm_rows st' = cm_rows st /\ cm_ledger st' = cm_ledger st.
Proof. unfold audited. intros H. apply bind_Ok in H as (a & _ & H). injection H as <-. auto. Qed.

Lemma same_rows_ok st st' : commands_ok st -> cm_rows st' = cm_rows st -> cm_ledger st' = cm_ledger st -> commands_ok st'.
Proof. intros [] E1 E2. split; rewrite ?E1, ?E2; assumption. Qed.

Lemma same_rows_after st st1 st2 : rows_after st st1 -> cm_rows st2 = cm_rows st1 -> rows_after st st2.
Proof. unfold rows_after. now intros H ->. Qed.

Lemma enqueue_ok st c st' w : commands_ok st -> OperatorCommand_post_init c = Ok c -> enqueue sha256_hex st c = Ok (st', w) ->
  commands_ok st' /\ rows_after st st' /\ cm_audit st' = cm_audit st /\ oc_status c = CS_REQUESTED /\
  (exists r, In r (cm_rows st') /\ cm_command r = wr_command w /\ same_key c r = true /\ oc_request_hash (wr_command w) = oc_request_hash c) /\
  (if wr_created w then wr_command w = c /\ Forall (fun r => command_conflict c r = false) (cm_rows st) /\
                        exists h, cm_rows st' = cm_rows st ++ [{| cm_command := c; cm_content_hash := h |}]
   else st' = st).
Proof.
  intros C V H. unfold enqueue in H. apply bind_Ok in H as (u & S & H). apply raise_if_Ok in S. bool_prop. apply bind_Ok in H as (h & Hh & H).
  destruct (existsb _ _) eqn:Ex.
  - apply bind_Ok in H as (r & F & H). apply of_option_Ok in F. apply List.find_some in F as [I K].
    rewrite (verify_ok _ _ (row_ok_in _ _ C I)) in H. cbn [bind] in H. apply bind_Ok in H as (u2 & E & H). apply raise_if_Ok in E. bool_prop.
    injection H as <- <-. cbn [wr_created wr_command]. repeat (split; [now auto using command_rows_refl|]). split; [eauto 10 | reflexivity].
  - apply existsb_false_Forall in Ex. apply bind_Ok in H as (e & He & H). apply bind_Ok in H as ([l' stored] & A & H). injection H as <- <-.
    cbn [fst cm_rows cm_ledger cm_audit wr_created wr_command]. apply NewDomainEvent_init_Ok in He as (Ek & _ & Ep & _ & _).
    pose proof (append_one _ _ _ _ _ _ _ A) as (V0 & V1 & S1 & O1). rewrite List.Forall_forall in Ex.
    assert (N1 : forall x, In x (cm_rows st) -> row_id x <> oc_command_id c).
    { intros x Ix E. specialize (Ex x Ix). unfold command_conflict in Ex. apply orb_false_iff in Ex as [Ex _]. apply Z.eqb_neq in Ex. now destruct Ex. }
    assert (N2 : forall x, In x (cm_rows st) -> row_key x <> (oc_experiment_id c, oc_idempotency_key c)).
    { intros x Ix E. specialize (Ex x Ix). unfold command_conflict, same_key in Ex. unfold row_key in E. injection E as E1 E2.
      now rewrite E1, E2, Z.eqb_refl, String.eqb_refl, orb_true_r in Ex. }
    destruct (command_post_init_Ok _ _ V) as (_ & _ & _ & _ & Q & _). destruct (Q S) as (Ev & _).
    split; [split|]; cbn [cm_rows cm_ledger cm_audit].
    + exact (append_ok _ _ _ _ _ _ _ (cs_ledger st C) A).
    + apply Forall_app. split; [|constructor; [|constructor]].
      * apply List.Forall_forall. intros x Ix. destruct (row_ok_in _ _ C Ix) as [R1 R2 R3 R4].
        destruct (O1 (command_key (row_id x))) as [O2 O3]; [intros E; injection E as E; exact (N1 x Ix E)|]. split; auto; [now rewrite O2 | now rewrite O3].
      * split; cbn [cm_command cm_content_hash row_id]; [exact V | exact Hh | exact (eq_trans V1 (eq_sym Ev)) |]. eexists _, _. split; [exact S1 | exact Ep].
    + rewrite map_app. apply NoDup_app. split; [exact (cs_ids st C)|]. split; [|apply NoDup_singleton]. intros i Ii J. apply list_elem_of_singleton in J as ->.
      apply list_elem_of_In, in_map_iff in Ii as (x & E & Ix). exact (N1 x Ix E).
    + rewrite map_app. apply NoDup_app. split; [exact (cs_keys st C)|]. split; [|apply NoDup_singleton]. intros i Ii J. apply list_elem_of_singleton in J as ->.
      apply list_elem_of_In, in_map_iff in Ii as (x & E & Ix). exact (N2 x Ix E).
    + intros a b Ia Ib Aa Ab E. unfold accepted_row in *. apply in_app_iff in Ia as [Ia|[<-|[]]], Ib as [Ib|[<-|[]]]; cbn in *; try congruence. now apply (cs_serial st C).
    + split; [intros x Ix; exists x; split; [apply in_app_iff; now left | apply command_after_refl]|]. split; [reflexivity|]. split; [exact S|]. split.
      * eexists. split; [apply in_app_iff; right; now left|]. cbn. unfold same_key. cbn. now rewrite Z.eqb_refl, String.eqb_refl.
      * split; [reflexivity|]. split; [now apply List.Forall_forall | eauto].
Qed.

Lemma next_claim_Some rows id r : next_claim rows id = Some r ->
  In r rows /\ oc_experiment_id (cm_command r) = id /\
  (accepted_row r \/
   oc_status (cm_command r) = CS_REQUESTED /\
   (forall x, In x rows -> oc_experiment_id (cm_command x) = id -> ~ accepted_row x) /\
   (forall x, In x rows -> oc_experiment_id (cm_command x) = id -> oc_status (cm_command x) = CS_REQUESTED -> key_le (claim_key r) (claim_key x))).
Proof.
  unfold next_claim. set (open := List.filter (claimable id) rows).
  assert (O : forall x, In x open <-> In x rows /\ oc_experiment_id (cm_command x) = id /\ elem_of (oc_status (cm_command x)) [CS_ACCEPTED; CS_REQUESTED]).
  { intros x. unfold open. rewrite filter_In. unfold claimable. rewrite andb_true_iff, Z.eqb_eq, bool_decide_eq_true. reflexivity. }
  destruct (min_by claim_key (List.filter _ open)) as [a|] eqn:E.
  - intros [= <-]. apply min_by_spec in E as [I _]. apply filter_In in I as [I B]. apply bool_decide_eq_true in B. apply O in I as (I & Ei & _). auto.
  - intros H. apply min_by_None, filter_nil in E. rewrite List.Forall_forall in E. apply min_by_spec in H as [I M]. rewrite List.Forall_forall in M.
    pose proof (E r I) as Er. cbn beta in Er. apply bool_decide_eq_false in Er. apply O in I as (I & Ei & S). split; [exact I|]. split; [exact Ei|]. right.
    split; [apply elem_of_cons in S as [S|S]; [contradiction | now apply list_elem_of_singleton in S]|]. split.
    + intros x Ix Ex Ax. assert (Ox : In x open) by (apply O; split; [exact Ix|]; split; [exact Ex|]; rewrite Ax; apply list_elem_of_here).
      specialize (E x Ox). cbn beta in E. apply bool_decide_eq_false in E. contradiction.
    + intros x Ix Ex Sx. apply M, O. split; [exact Ix|]. split; [exact Ex|]. rewrite Sx. apply list_elem_of_further, list_elem_of_here.
Qed.

Lemma next_claim_None rows id : next_claim rows id = None <-> Forall (fun r => claimable id r = false) rows.
Proof.
  unfold next_claim. set (open := List.filter (claimable id) rows). rewrite <- filter_nil. fold open.
  destruct (min_by claim_key (List.filter _ open)) as [a|] eqn:E.
  - split; [discriminate|]. intros Eo. rewrite Eo in E. discriminate.
  - apply min_by_None.
Qed.

Lemma claim_ok st id w t st' oc : commands_ok st -> claim_next sha256_hex uuid5 gateway database_role platform st id w t = Ok (st', oc) ->
  commands_ok st' /\ rows_after st st' /\
  match oc with
  | None => st' = st /\ next_claim (cm_rows st) id = None
  | Some c => exists r h, next_claim (cm_rows st) id = Some r /\ In {| cm_command := c; cm_content_hash := h |} (cm_rows st') /\
      command_after (cm_command r) c /\ oc_experiment_id c = id /\ oc_status c = CS_ACCEPTED /\ oc_accepted_by c = Some w /\
      (forall x, In x (cm_rows st') -> cm_command x = c \/ In x (cm_rows st) /\ x <> r)
  end.
Proof.
  intros C H. unfold claim_next in H. destruct (next_claim (cm_rows st) id) as [r|] eqn:N; [|injection H as <- <-; split; [exact C | auto using command_rows_refl]].
  destruct (next_claim_Some _ _ _ N) as (I & Ei & Why). pose proof (row_ok_in _ _ C I) as R. rewrite (verify_ok _ _ R) in H. cbn [bind] in H.
  destruct (bool_decide_reflect (oc_status (cm_command r) = CS_ACCEPTED)) as [A|A].
  - apply bind_Ok in H as (c & Hc & H). destruct (take_over_Ok _ _ _ (cr_valid _ _ R) Hc) as (_ & S & B & [-> | M]).
    + rewrite bool_decide_true in H by reflexivity. injection H as <- <-. split; [exact C|]. split; [apply command_rows_refl|].
      exists r, (cm_content_hash r). split; [reflexivity|]. split; [destruct r; exact I|]. split; [apply command_after_refl|]. repeat (split; [assumption|]).
      intros x Ix. destruct (decide (row_id x = row_id r)) as [E|n]; [left; f_equal; exact (NoDup_map_inj row_id _ x r (cs_ids st C) Ix I E) | right; split; [exact Ix | congruence]].
    + destruct (bool_decide_reflect (c = cm_command r)) as [E|_]; [pose proof (mv_version _ _ M); rewrite E in *; lia|].
      apply bind_Ok in H as (st2 & Hw & H). injection H as <- <-.
      pose proof (ca_same _ _ (mv_after _ _ M)) as Sm.
      destruct (write_command_ok _ _ _ _ _ _ C I M ltac:(intros _ x Ix Ax Ex; apply (cs_serial st C); auto; rewrite Ex; exact (sr_experiment _ _ Sm)) Hw)
        as (C' & L & _ & (h & In') & _ & Old).
      split; [exact C'|]. split; [exact L|]. exists r, h. repeat (split; [first [reflexivity | assumption | exact (mv_after _ _ M) | rewrite (sr_experiment _ _ Sm); exact Ei]|]). exact Old.
  - destruct Why as [Ax|(Sr & NoA & _)]; [contradiction|]. apply bind_Ok in H as (c & Hc & H).
    destruct (accept_Ok _ _ _ _ (cr_valid _ _ R) Sr Hc) as (M & S & B & _). pose proof (ca_same _ _ (mv_after _ _ M)) as Sm.
    apply bind_Ok in H as (st2 & Hw & H). apply bind_Ok in H as (st3 & Ha & H). injection H as <- <-.
    destruct (write_command_ok _ _ _ _ _ _ C I M ltac:(intros _ x Ix Ax Ex; destruct (NoA x Ix); [rewrite Ex, (sr_experiment _ _ Sm); exact Ei | exact Ax]) Hw)
      as (C' & L & _ & (h & In') & _ & Old).
    destruct (audited_Ok _ _ _ _ _ _ _ Ha) as [E1 E2]. split; [exact (same_rows_ok _ _ C' E1 E2)|]. split; [exact (same_rows_after _ _ _ L E1)|].
    exists r, h. rewrite E1. repeat (split; [first [reflexivity | assumption | exact (mv_after _ _ M) | rewrite (sr_experiment _ _ Sm); exact Ei]|]). exact Old.
Qed.

(** The end of a command: completed or rejected by the worker that accepted it. *)
Definition ended (st st' : CommandStore) (id : UUID) (w : string) (status : CommandStatus) (c : OperatorCommand) : Prop :=
  commands_ok st' /\ rows_after st st' /\ oc_status c = status /\ oc_accepted_by c = Some w /\
  exists r h, In r (cm_rows st) /\ row_id r = id /\ command_after (cm_command r) c /\ In {| cm_command := c; cm_content_hash := h |} (cm_rows st') /\
    (forall x, In x (cm_rows st') -> cm_command x = c \/ In x (cm_rows st) /\ x <> r).

Lemma owned_Ok st id w c : commands_ok st -> owned sha256_hex st id w = Ok c ->
  exists r, In r (cm_rows st) /\ cm_command r = c /\ row_id r = id /\ oc_accepted_by c = Some w.
Proof.
  intros C H. unfold owned in H. apply bind_Ok in H as (x & Hg & H). apply bind_Ok in H as (u & E & H). apply raise_if_Ok in E. bool_prop. injection H as <-.
  destruct (command_get_Ok _ _ _ C Hg) as (r & I & Er & Ei). eauto.
Qed.

Lemma end_same st r w status : commands_ok st -> In r (cm_rows st) -> oc_status (cm_command r) = status -> oc_accepted_by (cm_command r) = Some w ->
  forall st', cm_rows st' = cm_rows st -> cm_ledger st' = cm_ledger st -> ended st st' (row_id r) w status (cm_command r).
Proof.
  intros C I S B st' E1 E2. split; [exact (same_rows_ok _ _ C E1 E2)|]. split; [exact (same_rows_after _ _ _ (command_rows_refl st) E1)|].
  split; [exact S|]. split; [exact B|]. exists r, (cm_content_hash r). split; [exact I|]. split; [reflexivity|]. split; [apply command_after_refl|]. rewrite E1.
  split; [destruct r; exact I|]. intros x Ix.
  destruct (decide (row_id x = row_id r)) as [E|n]; [left; f_equal; exact (NoDup_map_inj row_id _ x r (cs_ids st C) Ix I E) | right; split; [exact Ix | congruence]].
Qed.

Lemma end_moved st r c w status ty t st2 : commands_ok st -> In r (cm_rows st) -> moved (cm_command r) c -> oc_status c = status -> status <> CS_ACCEPTED ->
  oc_accepted_by c = Some w -> write_command sha256_hex st c (oc_version (cm_command r)) ty t = Ok st2 ->
  forall st', cm_rows st' = cm_rows st2 -> cm_ledger st' = cm_ledger st2 -> ended st st' (row_id r) w status c.
Proof.
  intros C I M S N B Hw st' E1 E2.
  destruct (write_command_ok _ _ _ _ _ _ C I M ltac:(intros A; congruence) Hw) as (C' & L & _ & (h & In') & _ & Old).
  split; [exact (same_rows_ok _ _ C' E1 E2)|]. split; [exact (same_rows_after _ _ _ L E1)|]. split; [exact S|]. split; [exact B|].
  exists r, h. rewrite E1. split; [exact I|]. split; [reflexivity|]. split; [exact (mv_after _ _ M)|]. split; [exact In' | exact Old].
Qed.

Lemma complete_ends st id w t res st' c : commands_ok st ->
  command_complete sha256_hex uuid5 gateway database_role platform st id w t res = Ok (st', c) -> ended st st' id w CS_COMPLETED c.
Proof.
  intros C H. unfold command_complete in H. apply bind_Ok in H as (x & Ho & H). destruct (owned_Ok _ _ _ _ C Ho) as (r & I & <- & <- & B).
  apply bind_Ok in H as (y & Hy & H). destruct (complete_Ok _ _ _ _ (cr_valid _ _ (row_ok_in _ _ C I)) Hy) as (S & [-> |(A & M & _ & _ & By)]).
  - rewrite bool_decide_true in H by reflexivity. apply bind_Ok in H as (u & _ & H). apply bind_Ok in H as (st2 & Ha & H). injection H as <- <-.
    destruct (audited_Ok _ _ _ _ _ _ _ Ha). now apply end_same.
  - rewrite bool_decide_false in H by (intros ->; congruence). apply bind_Ok in H as (st2 & Hw & H). apply bind_Ok in H as (st3 & Ha & H). injection H as <- <-.
    destruct (audited_Ok _ _ _ _ _ _ _ Ha). eapply end_moved; eauto; congruence.
Qed.

Lemma reject_ends st id w t code detail st' c : commands_ok st ->
  command_reject sha256_hex uuid5 gateway database_role platform st id w t code detail = Ok (st', c) -> ended st st' id w CS_REJECTED c.
Proof.
  intros C H. unfold command_reject in H. apply bind_Ok in H as (x & Ho & H). destruct (owned_Ok _ _ _ _ C Ho) as (r & I & <- & <- & B).
  apply bind_Ok in H as (y & Hy & H). destruct (reject_Ok _ _ _ _ _ (cr_valid _ _ (row_ok_in _ _ C I)) Hy) as (S & [-> |(A & M & _ & _ & By)]).
  - rewrite bool_decide_true in H by reflexivity. apply bind_Ok in H as (u & _ & H). apply bind_Ok in H as (u2 & _ & H). apply bind_Ok in H as (st2 & Ha & H). injection H as <- <-.
    destruct (audited_Ok _ _ _ _ _ _ _ Ha). now apply end_same.
  - rewrite bool_decide_false in H by (intros ->; congruence). apply bind_Ok in H as (st2 & Hw & H). apply bind_Ok in H as (u2 & _ & H). apply bind_Ok in H as (st3 & Ha & H). injection H as <- <-.
    destruct (audited_Ok _ _ _ _ _ _ _ Ha). eapply end_moved; eauto; congruence.
Qed.

Lemma command_other_ok st id ty v events l' stored audit : commands_ok st -> ty <> "operator_command" ->
  append (cm_ledger st) id ty v events = Ok (l', stored) -> commands_ok {| cm_rows := cm_rows st; cm_ledger := l'; cm_audit := audit |}.
Proof.
  intros C N A. split; cbn [cm_rows cm_ledger]; [exact (append_ok _ _ _ _ _ _ _ (cs_ledger st C) A) | | exact (cs_ids st C) | exact (cs_keys st C) | exact (cs_serial st C)].
  eapply List.Forall_impl; [|exact (cs_rows st C)]. intros r [R1 R2 R3 R4].
  destruct (append_other _ _ _ _ _ _ _ (command_key (row_id r)) A ltac:(unfold command_key; congruence)) as [O1 O2].
  split; auto; [now rewrite O1 | now rewrite O2].
Qed.

Local Abbreviation step := (command_step sha256_hex uuid5 gateway database_role platform).

Lemma command_step_ok st st' : commands_ok st -> step st st' -> commands_ok st' /\ rows_after st st'.
Proof.
  intros C S. revert C. destruct S as [st c st' w H V|st id w t st' c H|st id w t r st' c H|st id w t code detail st' c H|st id ty v events l' stored audit N H]; intros C.
  - destruct (enqueue_ok _ _ _ _ C V H) as (C' & L & _). auto.
  - destruct (claim_ok _ _ _ _ _ _ C H) as (C' & L & _). auto.
  - destruct (complete_ends _ _ _ _ _ _ _ C H) as (C' & L & _). auto.
  - destruct (reject_ends _ _ _ _ _ _ _ _ C H) as (C' & L & _). auto.
  - split; [exact (command_other_ok _ _ _ _ _ _ _ _ C N H) | exact (command_rows_refl st)].
Qed.

Lemma command_run st st' : commands_ok st -> star step st st' -> commands_ok st' /\ rows_after st st'.
Proof.
  intros C R. induction R as [|a b c H _ IH]; [split; [exact C | apply command_rows_refl]|].
  destruct (command_step_ok _ _ C H) as [C' L]. destruct (IH C') as [C'' L']. split; [exact C'' | exact (command_rows_trans _ _ _ L L')].
Qed.

Definition empty_commands : CommandStore := {| cm_rows := []; cm_ledger := empty_ledger; cm_audit := [] |}.

Lemma empty_commands_ok : commands_ok empty_commands.
Proof. split; [apply empty_ledger_ok | constructor | constructor | constructor | intros ? ? []]. Qed.
End Reachable.

Lemma same_key_spec c r : same_key c r = true <-> row_key r = (oc_experiment_id c, oc_idempotency_key c).
Proof.
  unfold same_key, row_key. rewrite andb_true_iff, Z.eqb_eq, String.eqb_eq. split; [intros [-> ->]; reflexivity | intros [= -> ->]; auto].
Qed.

Lemma command_hash_total sha256_hex c : OperatorCommand_post_init c = Ok c -> oc_status c = CS_REQUESTED -> exists h, command_hash sha256_hex c = Ok h.
Proof.
  intros V S. destruct (command_post_init_Ok _ _ V) as (_ & _ & _ & U & Q & _ & F & _). destruct (Q S) as (_ & Ea & Eb).
  destruct (F (not_finished _ (or_introl S))) as [Ec Er]. unfold command_hash. destruct (content_hash_total sha256_hex (command_dict c)) as [b ->]; [|eauto].
  cbn. rewrite U, freezable_thaw, Ea, Eb, Ec, Er. reflexivity.
Qed.


(** ** Witness *)

#[local] Existing Instance verbatim_column.

Definition toy_name (name : string) : UUID := 1 + Z.of_nat (String.length name).
Definition no_gateway (log : list AuditEvent) (q : audit_request) : result (list AuditEvent * Z) := Raise (RuntimeError "gateway").
Definition toy_platform : PlatformRows := {| pf_runs := ∅; pf_services := [] |}.

Definition sample_request_of (id : UUID) (key reason : string) (at_us : Z) : result OperatorCommand :=
  request length_digest id 7 CMD_PAUSE key "operator" reason (PDict [("run_id", PStr "none")]) (Some "CONFIRM PAUSE") (utc at_us).
Definition pause_command : OperatorCommand := Eval vm_compute in match sample_request_of 1 "pause-0001" "maintenance" 10 with Ok c => c
  | Raise _ => {| oc_command_id := 0; oc_experiment_id := 0; oc_command_type := CMD_PAUSE; oc_status := CS_REQUESTED; oc_idempotency_key := "";
      oc_actor := ""; oc_reason := ""; oc_payload := JNull; oc_operator_confirmed := false; oc_request_hash := ""; oc_requested_at := utc 0;
      oc_version := 0; oc_accepted_at := None; oc_accepted_by := None; oc_completed_at := None; oc_result := None |} end.

Definition after {A} (r : result (CommandStore * A)) : CommandStore := match r with Ok p => fst p | Raise _ => empty_commands end.
Definition enqueued_store : CommandStore := Eval vm_compute in after (enqueue length_digest empty_commands pause_command).
Definition claimed_store : CommandStore :=
  Eval vm_compute in after (claim_next length_digest toy_name no_gateway "maais_owner" toy_platform enqueued_store 7 "worker-a" (utc 20)).

Example confirmation_needed : request length_digest 1 7 CMD_STOP "stop-0001" "operator" "end" (PDict []) None (utc 1) =
  Raise (ValueError "command requires exact confirmation: CONFIRM STOP").
Proof. vm_compute. reflexivity. Qed.

