(* ===== verification/Executor.v ===== *)
(** * The worker's application of operator commands:
    [maais/orchestration/operator_control.py]

    A transaction holds the experiments with the ledger, the controls, the
    commands and the audit log; what the executor uses of the other
    repositories (paper execution, market data, incidents, platform) is an
    interface.  A transaction that raises changes nothing.  [now k] is the
    [k]-th reading of the clock by the executor; other processes do not run
    between its transactions, except where a lemma starts from any state. *)

From Stdlib Require Import ZArith Lia List Bool String Ascii.
From stdpp Require Import base decidable list strings gmap.
From S2P Require Import Prelude PyDecimal Domain Json MarketEvents Frames EventLog Manifest Canonical Orders Positions Account Exits Records Incidents Recovery Commands Ledger Experiments AuditLog Controls Operators.

Local Open Scope Z_scope.

(** ** Flatten plans *)

Record FlattenTrigger : Type := {
  ft_symbol : string;
  ft_position_id : UUID;
  ft_exit_plan_id : UUID;
  ft_mark_event_id : string;
  ft_mark_observed_at : datetime;
  ft_mark_price : dec;
  ft_eligible_after : datetime
}.

Definition FlattenTrigger_post_init (t : FlattenTrigger) : result FlattenTrigger :=
  do* raise_if (empty (ft_symbol t) || empty (ft_mark_event_id t)) (ValueError "flatten trigger identity is required") ;;
  do* raise_if ((ft_position_id t =? 0) || (ft_exit_plan_id t =? 0)) (ValueError "flatten trigger position identities cannot be nil") ;;
  do* require_utc (ft_mark_observed_at t) "flatten mark_observed_at" ;;
  do* require_utc (ft_eligible_after t) "flatten eligible_after" ;;
  do* raise_if (dt_leb (ft_eligible_after t) (ft_mark_observed_at t))
        (ValueError "flatten liquidity eligibility must follow the causal mark") ;;
  do* raise_if (ft_mark_price t <=? dzero)%dec (ValueError "flatten mark price must be positive and finite") ;;
  Ok t.

Record FlattenPlan : Type := {
  fp_command_id : UUID;
  fp_source_account : AccountState;
  fp_executions : list PaperExecutionRecord;
  fp_planned_at : datetime;
  fp_triggers : list FlattenTrigger
}.

Definition open_positions (a : AccountState) : Z :=
  Z.of_nat (length (List.filter (fun p => negb (is_flat p)) (dict_values (ac_positions a)))).
Definition flat_account (a : AccountState) : bool := forallb is_flat (dict_values (ac_positions a)).

(** One execution of the plan on the account before it. *)
Definition plan_step (account : AccountState) (trigger : FlattenTrigger) (execution : PaperExecutionRecord) : result AccountState :=
  do* validate execution ;;
  let* next := of_option (ValueError "flatten execution requires an account result") (pe_account execution) in
  do* raise_if (negb (po_experiment_id (pe_order execution) =? ac_experiment_id account))
        (ValueError "flatten execution belongs to another experiment") ;;
  do* raise_if (negb (bool_decide (po_symbol (pe_order execution) = ft_symbol trigger)) ||
                match pe_exit_plan execution with
                | None => true
                | Some plan => negb (ep_plan_id plan =? ft_exit_plan_id trigger) || negb (ep_position_id plan =? ft_position_id trigger)
                end) (ValueError "flatten trigger and execution identities differ") ;;
  do* raise_if (negb (ac_version next =? ac_version account + 1))
        (ValueError "flatten execution account versions are not contiguous") ;;
  Ok next.

Fixpoint plan_run (account : AccountState) (pairs : list (FlattenTrigger * PaperExecutionRecord)) : result AccountState :=
  match pairs with
  | [] => Ok account
  | (trigger, execution) :: pairs' => let* next := plan_step account trigger execution in plan_run next pairs'
  end.

Definition FlattenPlan_post_init (p : FlattenPlan) : result FlattenPlan :=
  do* raise_if (fp_command_id p =? 0) (ValueError "flatten plan command identity cannot be nil") ;;
  do* require_utc (fp_planned_at p) "flatten planned_at" ;;
  do* raise_if (negb (length (fp_triggers p) =? length (fp_executions p))%nat) (ValueError "flatten triggers and executions must align") ;;
  let* account := plan_run (fp_source_account p) (combine (fp_triggers p) (fp_executions p)) in
  do* raise_if (negb (flat_account account)) (ValueError "flatten plan must close every open position") ;;
  Ok p.

(** ** Equality of accounts: decimals by value, mappings by key *)

Definition same_time (a b : option datetime) : bool :=
  match a, b with Some x, Some y => dt_eqb x y | None, None => true | _, _ => false end.

Definition same_lot (a b : PositionLot) : bool :=
  (lot_id a =? lot_id b) && (lot_opening_fill_id a =? lot_opening_fill_id b) && dt_eqb (lot_opened_at a) (lot_opened_at b) &&
  (lot_entry_price a =? lot_entry_price b)%dec && (lot_original_quantity a =? lot_original_quantity b)%dec &&
  (lot_remaining_quantity a =? lot_remaining_quantity b)%dec && (lot_opening_fee a =? lot_opening_fee b)%dec &&
  (lot_remaining_opening_fee a =? lot_remaining_opening_fee b)%dec && (lot_funding a =? lot_funding b)%dec.

Definition same_position (a b : PositionState) : bool :=
  (ps_position_id a =? ps_position_id b) && (ps_experiment_id a =? ps_experiment_id b) && String.eqb (ps_symbol a) (ps_symbol b) &&
  bool_decide (ps_side a = ps_side b) && (ps_mark_price a =? ps_mark_price b)%dec && (ps_average_entry a =? ps_average_entry b)%dec &&
  (ps_realized_pnl a =? ps_realized_pnl b)%dec && (ps_fees a =? ps_fees b)%dec && (ps_funding a =? ps_funding b)%dec &&
  list_eqb same_lot (ps_lots a) (ps_lots b) && same_time (ps_opened_at a) (ps_opened_at b) && same_time (ps_closed_at a) (ps_closed_at b) &&
  (ps_version a =? ps_version b).

Definition same_positions (a b : pydict PositionState) : bool :=
  (length a =? length b)%nat &&
  forallb (fun kv => match dict_get b (fst kv) with Some q => same_position (snd kv) q | None => false end) a.

Definition same_account (a b : AccountState) : bool :=
  (ac_experiment_id a =? ac_experiment_id b) && (ac_initial_capital a =? ac_initial_capital b)%dec &&
  String.eqb (ac_currency a) (ac_currency b) && (ac_leverage a =? ac_leverage b) && (ac_cash_balance a =? ac_cash_balance b)%dec &&
  (ac_peak_equity a =? ac_peak_equity b)%dec && same_positions (ac_positions a) (ac_positions b) && (ac_version a =? ac_version b) &&
  same_time (ac_updated_at a) (ac_updated_at b).

(** ** The other repositories *)

(** Two ledgers with the same experiment, control and command streams. *)
Definition quiet (l l' : Ledger) : Prop :=
  (ledger_ok l -> ledger_ok l') /\
  forall ty id, elem_of ty ["experiment"; "trading_control"; "operator_command"] ->
    stream_version l' (ty, id) = stream_version l (ty, id) /\ stream_of l' (ty, id) = stream_of l (ty, id).

(** What the executor calls of the paper execution, market data, incident and
    platform repositories, over their own state [P] and the parts they share.
    They write no experiment, control or command. *)
Class OtherRepositories (P : Type) := {
  load_account : P -> UUID -> result AccountState;
  load_pending_orders : P -> UUID -> result (list PaperOrder);
  get_blocking_recoveries : P -> UUID -> result (list RecoveryState);
  incident_get : P -> UUID -> result IncidentState;
  get_unresolved : P -> UUID -> result (list IncidentState);
  incident_record : P -> Ledger -> IncidentState -> result (P * Ledger);
  record_execution : P -> Ledger -> PaperExecutionRecord -> result (P * Ledger);
  activate_run : P -> list CommandRow -> list AuditEvent -> UUID -> UUID -> UUID -> datetime -> result (P * list AuditEvent);
  incident_record_quiet : forall p l i p' l', incident_record p l i = Ok (p', l') -> quiet l l';
  record_execution_quiet : forall p l x p' l', record_execution p l x = Ok (p', l') -> quiet l l'
}.

(** The account and the pending orders of every experiment are the same. *)
Definition same_books {P} `{OtherRepositories P} (p p' : P) : Prop :=
  forall id, load_account p' id = load_account p id /\ load_pending_orders p' id = load_pending_orders p id.

(** Incidents and platform runs are rows of their own: recording one, or
    activating one, touches no account and no order. *)
Class KeepsBooks (P : Type) `{OtherRepositories P} := {
  incident_record_books : forall p l i p' l', incident_record p l i = Ok (p', l') -> same_books p p';
  activate_run_books : forall p commands audit run command boot t p' audit',
    activate_run p commands audit run command boot t = Ok (p', audit') -> same_books p p'
}.

#[export] Instance IncidentStatus_value : StrEnum IncidentStatus := fun s =>
  match s with INCIDENT_OPEN => "open" | ACKNOWLEDGED => "acknowledged" | RESOLVED => "resolved" end.
#[export] Instance IncidentSeverity_eq_dec : EqDecision IncidentSeverity.
Proof. solve_decision. Defined.

(** ** Transactions *)

Record Transaction_ (P : Type) : Type := {
  tx_experiments : ExperimentStore;
  tx_controls : gmap UUID ControlRow;
  tx_commands : list CommandRow;
  tx_audit : list AuditEvent;
  tx_rest : P
}.
Arguments tx_experiments {P}.
Arguments tx_controls {P}.
Arguments tx_commands {P}.
Arguments tx_audit {P}.
Arguments tx_rest {P}.

Record OperatorCommandExecution : Type := { ox_command : OperatorCommand; ox_stop_worker : bool; ox_activate_worker : bool }.

Section Executor.
Context {P : Type} `{OtherRepositories P}.
Context (sha256_hex : string -> string) (uuid5 : string -> UUID).
Context {column : JsonbColumn} (gateway : list AuditEvent -> audit_request -> result (list AuditEvent * Z)) (database_role : string) (platform : PlatformRows).
Context (manifest : ExperimentManifest) (worker_boot : UUID) (platform_run_id : option UUID) (now : nat -> datetime).

Local Abbreviation Tx := (Transaction_ P).
Local Abbreviation experiment_id := (em_experiment_id manifest).

Definition tx_ledger (tx : Tx) : Ledger := xs_ledger (tx_experiments tx).
Definition with_ledger (tx : Tx) (l : Ledger) : ExperimentStore :=
  {| xs_rows := xs_rows (tx_experiments tx); xs_agents := xs_agents (tx_experiments tx); xs_ledger := l |}.

Definition control_store (tx : Tx) : ControlStore := {| ct_rows := tx_controls tx; ct_ledger := tx_ledger tx |}.
Definition command_store (tx : Tx) : CommandStore := {| cm_rows := tx_commands tx; cm_ledger := tx_ledger tx; cm_audit := tx_audit tx |}.

Definition set_experiments (tx : Tx) (x : ExperimentStore) : Tx :=
  {| tx_experiments := x; tx_controls := tx_controls tx; tx_commands := tx_commands tx; tx_audit := tx_audit tx; tx_rest := tx_rest tx |}.
Definition set_controls (tx : Tx) (c : ControlStore) : Tx :=
  {| tx_experiments := with_ledger tx (ct_ledger c); tx_controls := ct_rows c; tx_commands := tx_commands tx; tx_audit := tx_audit tx;
     tx_rest := tx_rest tx |}.
Definition set_commands (tx : Tx) (c : CommandStore) : Tx :=
  {| tx_experiments := with_ledger tx (cm_ledger c); tx_controls := tx_controls tx; tx_commands := cm_rows c; tx_audit := cm_audit c;
     tx_rest := tx_rest tx |}.
Definition set_rest (tx : Tx) (r : P * Ledger) : Tx :=
  {| tx_experiments := with_ledger tx (snd r); tx_controls := tx_controls tx; tx_commands := tx_commands tx; tx_audit := tx_audit tx;
     tx_rest := fst r |}.

(** The repositories of the transaction. *)
Definition worker_name : string := "paper_worker:" +:+ uuid_str worker_boot.

Definition controls_current (tx : Tx) : result TradingControlSnapshot := current sha256_hex (control_store tx) experiment_id.
Definition halt (tx : Tx) (reason : string) (halted_at : datetime) : result (Tx * TradingControlSnapshot) :=
  let* r := controls_halt sha256_hex (control_store tx) experiment_id reason halted_at worker_name in Ok (set_controls tx (fst r), snd r).
Definition reset (tx : Tx) (reset_at : datetime) (expected_version : Z) (prefix : string) : result (Tx * TradingControlSnapshot) :=
  let* r := controls_reset sha256_hex (control_store tx) experiment_id reset_at worker_name expected_version prefix in
  Ok (set_controls tx (fst r), snd r).

Definition experiment_status (tx : Tx) : result ExperimentStatus := get_status (tx_experiments tx) experiment_id.
Definition change_status (op : ExperimentStore -> ExperimentManifest -> datetime -> result (ExperimentStore * bool)) (tx : Tx)
    (at_time : datetime) : result (Tx * bool) :=
  let* r := op (tx_experiments tx) manifest at_time in Ok (set_experiments tx (fst r), snd r).

Definition claim (tx : Tx) (accepted_at : datetime) : result (Tx * option OperatorCommand) :=
  let* r := claim_next sha256_hex uuid5 gateway database_role platform (command_store tx) experiment_id worker_name accepted_at in
  Ok (set_commands tx (fst r), snd r).
Definition complete_command (tx : Tx) (command_id : UUID) (completed_at : datetime) (result : pyval)
  : Prelude.result (Tx * OperatorCommand) :=
  let* r := command_complete sha256_hex uuid5 gateway database_role platform (command_store tx) command_id worker_name completed_at result in
  Ok (set_commands tx (fst r), snd r).
Definition reject_command (tx : Tx) (command_id : UUID) (completed_at : datetime) (reason_code detail : string)
  : result (Tx * OperatorCommand) :=
  let* r := command_reject sha256_hex uuid5 gateway database_role platform (command_store tx) command_id worker_name completed_at
              reason_code detail in
  Ok (set_commands tx (fst r), snd r).

Definition answered (r : Tx * OperatorCommand) (stop activate : bool) : Tx * OperatorCommandExecution :=
  (fst r, {| ox_command := snd r; ox_stop_worker := stop; ox_activate_worker := activate |}).

Definition rejected (tx : Tx) (c : OperatorCommand) (k : nat) (reason_code detail : string) : result (Tx * OperatorCommandExecution) :=
  let* r := reject_command tx (oc_command_id c) (now k) reason_code detail in Ok (answered r false false).

(** The entries that every completion reports. *)
Definition report (c : OperatorCommand) (status : string) (control : TradingControlSnapshot) : list (string * pyval) :=
  [("command", PStr (enum_value (oc_command_type c))); ("experiment_status", PStr status);
   ("kill_switch_active", PBool (tc_kill_switch_active control)); ("control_version", PInt (tc_version control))].

(** ** The commands *)

Definition start (tx : Tx) (c : OperatorCommand) : result (Tx * OperatorCommandExecution) :=
  let* control := controls_current tx in
  if tc_kill_switch_active control then
    rejected tx c 1 "start_blocked_by_kill_switch" "start requires an inactive persistent kill switch"
  else
    let activated_at := now 1 in
    let* started := change_status (ensure_running sha256_hex) tx activated_at in
    let tx := fst started in
    let* tx := match platform_run_id with
               | Some run_id =>
                   let* r := activate_run (tx_rest tx) (tx_commands tx) (tx_audit tx) run_id (oc_command_id c) worker_boot activated_at in
                   Ok {| tx_experiments := tx_experiments tx; tx_controls := tx_controls tx; tx_commands := tx_commands tx;
                         tx_audit := snd r; tx_rest := fst r |}
               | None => Ok tx
               end in
    let* completed := complete_command tx (oc_command_id c) activated_at (PDict (report c "running" control)) in
    Ok (answered completed false (snd started)).

Definition incident_action (tx : Tx) (c : OperatorCommand) : result (Tx * OperatorCommandExecution) :=
  match parse_uuid (json_str (payload_get (oc_payload c) "incident_id")) with
  | None => rejected tx c 1 "invalid_command_payload" "incident action requires a valid incident_id"
  | Some incident_id =>
      let* incident := incident_get (tx_rest tx) incident_id in
      if negb (in_experiment_id incident =? experiment_id) then
        rejected tx c 1 "incident_scope_mismatch" "incident does not belong to the command experiment"
      else
        let finish changed :=
          let* r := incident_record (tx_rest tx) (tx_ledger tx) changed in
          let* completed := complete_command (set_rest tx r) (oc_command_id c) (now 2)
            (PDict [("command", PStr (enum_value (oc_command_type c))); ("incident_id", PStr (uuid_str incident_id));
                    ("incident_status", PStr (enum_value (in_status changed))); ("incident_version", PInt (in_version changed))]) in
          Ok (answered completed false false) in
        if bool_decide (oc_command_type c = CMD_ACKNOWLEDGE_INCIDENT) then
          let* changed := acknowledge incident (oc_actor c) (now 1) in finish changed
        else
          match payload_get (oc_payload c) "resolution" with
          | Some (JStr resolution) =>
              if blank resolution then
                rejected tx c 1 "invalid_command_payload" "incident resolution requires nonempty resolution text"
              else
                let* changed := resolve incident (oc_actor c) (strip resolution) (now 1) (oc_operator_confirmed c) in finish changed
          | _ => rejected tx c 1 "invalid_command_payload" "incident resolution requires nonempty resolution text"
          end
  end.

Definition stop (tx : Tx) (c : OperatorCommand) : result (Tx * OperatorCommandExecution) :=
  let* account := load_account (tx_rest tx) experiment_id in
  let* pending := load_pending_orders (tx_rest tx) experiment_id in
  if negb (open_positions account =? 0) || nonempty pending then
    rejected tx c 1 "open_state_requires_flatten" "stop requires zero open positions and pending paper orders"
  else
    let* halted := halt tx ("operator_stop:" +:+ uuid_str (oc_command_id c)) (now 1) in
    let* stopped := change_status (stop_active sha256_hex) (fst halted) (now 2) in
    let* completed := complete_command (fst stopped) (oc_command_id c) (now 3)
      (PDict (report c "stopped" (snd halted) ++
              [("open_positions", PInt (open_positions account)); ("pending_orders", PInt (Z.of_nat (length pending)))])) in
    Ok (answered completed true false).

Definition blocking_incident (i : IncidentState) : bool := in_requires_operator_review i || bool_decide (in_severity i = CRITICAL).

Definition reset_kill_switch (tx : Tx) (c : OperatorCommand) : result (Tx * OperatorCommandExecution) :=
  match payload_get (oc_payload c) "expected_control_version", payload_get (oc_payload c) "expected_reason" with
  | Some (JInt expected_version), Some (JStr expected_reason) =>
      if empty expected_reason then
        rejected tx c 1 "invalid_command_payload" "kill-switch reset requires expected_control_version and expected_reason"
      else
        let* status := experiment_status tx in
        let* control := controls_current tx in
        let* account := load_account (tx_rest tx) experiment_id in
        let* pending := load_pending_orders (tx_rest tx) experiment_id in
        let* recoveries := get_blocking_recoveries (tx_rest tx) experiment_id in
        let* unresolved := get_unresolved (tx_rest tx) experiment_id in
        let blocking := List.filter blocking_incident unresolved in
        let exact_state := tc_kill_switch_active control && (tc_version control =? expected_version) &&
                           bool_decide (tc_reason control = Some expected_reason) in
        if negb (bool_decide (status = ES_PAUSED)) || negb exact_state || negb (open_positions account =? 0) || nonempty pending ||
           nonempty recoveries || nonempty blocking then
          rejected tx c 1 "unsafe_kill_switch_reset"
            "reset requires exact paused control state, flat account, no pending orders, recoveries, or unresolved review incidents"
        else
          let* control := reset tx (now 1) expected_version expected_reason in
          let* completed := complete_command (fst control) (oc_command_id c) (now 2)
            (PDict (report c (enum_value status) (snd control) ++
                    [("open_positions", PInt (open_positions account)); ("pending_orders", PInt (Z.of_nat (length pending)));
                     ("blocking_recoveries", PInt (Z.of_nat (length recoveries)));
                     ("blocking_incidents", PInt (Z.of_nat (length blocking)))])) in
          Ok (answered completed false false)
  | _, _ => rejected tx c 1 "invalid_command_payload" "kill-switch reset requires expected_control_version and expected_reason"
  end.

Definition resume (tx : Tx) (c : OperatorCommand) : result (Tx * OperatorCommandExecution) :=
  match payload_get (oc_payload c) "expected_control_version" with
  | Some (JInt expected_version) =>
      let* control := controls_current tx in
      if negb (tc_version control =? expected_version) then
        rejected tx c 1 "control_version_changed" "kill-switch state changed after operator confirmation"
      else if tc_kill_switch_active control && negb (starts_with "operator_pause:" (default "" (tc_reason control))) then
        rejected tx c 1 "resume_requires_operator_pause" "resume cannot clear an emergency or system halt"
      else
        let k := if tc_kill_switch_active control then 2%nat else 1%nat in
        let* cleared := if tc_kill_switch_active control then reset tx (now 1) expected_version "operator_pause:"
                        else Ok (tx, control) in
        let* resumed := change_status (resume_paused sha256_hex) (fst cleared) (now k) in
        let* completed := complete_command (fst resumed) (oc_command_id c) (now (S k)) (PDict (report c "running" (snd cleared))) in
        Ok (answered completed false false)
  | _ => rejected tx c 1 "invalid_command_payload" "resume requires integer expected_control_version"
  end.

Definition pause_or_halt (tx : Tx) (c : OperatorCommand) : result (Tx * OperatorCommandExecution) :=
  let reason_prefix := if bool_decide (oc_command_type c = CMD_PAUSE) then "operator_pause" else "operator_emergency_halt" in
  let* halted := halt tx (reason_prefix +:+ ":" +:+ uuid_str (oc_command_id c)) (now 1) in
  let* paused := change_status (pause_active sha256_hex) (fst halted) (now 2) in
  let* completed := complete_command (fst paused) (oc_command_id c) (now 3) (PDict (report c "paused" (snd halted))) in
  Ok (answered completed false false).

Definition flatten_reason (c : OperatorCommand) : string := "operator_flatten:" +:+ uuid_str (oc_command_id c).

(** A claimed flatten command halts and pauses at once, and stays accepted. *)
Definition begin_flatten (tx : Tx) (c : OperatorCommand) : result (Tx * OperatorCommandExecution) :=
  let* control := controls_current tx in
  let execution := {| ox_command := c; ox_stop_worker := false; ox_activate_worker := false |} in
  if tc_kill_switch_active control && bool_decide (tc_reason control = Some (flatten_reason c)) then Ok (tx, execution)
  else
    let* halted := halt tx (flatten_reason c) (now 1) in
    let* paused := change_status (pause_active sha256_hex) (fst halted) (now 2) in
    Ok (fst paused, execution).

(** The single transaction of every command but the end of a flatten. *)
Definition execute_claimed (tx : Tx) : result (Tx * option OperatorCommandExecution) :=
  let* claimed := claim tx (now 0) in
  match snd claimed with
  | None => Ok (fst claimed, None)
  | Some c =>
      let handler := match oc_command_type c with
                     | CMD_FLATTEN => begin_flatten
                     | CMD_START => start
                     | CMD_ACKNOWLEDGE_INCIDENT | CMD_RESOLVE_INCIDENT => incident_action
                     | CMD_STOP => stop
                     | CMD_RESET_KILL_SWITCH => reset_kill_switch
                     | CMD_RESUME => resume
                     | CMD_PAUSE | CMD_EMERGENCY_HALT => pause_or_halt
                     end in
      let* r := handler (fst claimed) c in Ok (fst r, Some (snd r))
  end.

(** ** The end of a flatten *)

Fixpoint record_executions (tx : Tx) (account : AccountState) (executions : list PaperExecutionRecord) : result (Tx * AccountState) :=
  match executions with
  | [] => Ok (tx, account)
  | execution :: executions' =>
      let* r := record_execution (tx_rest tx) (tx_ledger tx) execution in
      let* next := of_option AssertionError (pe_account execution) in
      record_executions (set_rest tx r) next executions'
  end.

Definition flattened_order (trigger : FlattenTrigger) (execution : PaperExecutionRecord) : result pyval :=
  let* fill := of_option (LookupError "tuple index out of range") (head (pe_fills execution)) in
  Ok (PDict [("order_id", PStr (uuid_str (po_order_id (pe_order execution)))); ("symbol", PStr (po_symbol (pe_order execution)));
    ("side", PStr (enum_value (po_side (pe_order execution)))); ("quantity", PDec (po_quantity (pe_order execution)));
    ("fill_id", PStr (uuid_str (xf_id fill))); ("market_event_id", PStr (xf_market_event_id fill)); ("fill_at", PTime (xf_fill_at fill));
    ("price", PDec (xf_price fill)); ("fee", PDec (xf_fee fill)); ("trigger_mark_event_id", PStr (ft_mark_event_id trigger));
    ("trigger_mark_observed_at", PTime (ft_mark_observed_at trigger)); ("trigger_mark_price", PDec (ft_mark_price trigger));
    ("eligible_after", PTime (ft_eligible_after trigger))]).

(** The transaction that persists a prepared plan; [k] is the next reading of the clock. *)
Definition persist_flatten (tx : Tx) (c : OperatorCommand) (plan : FlattenPlan) (k : nat) : result (Tx * OperatorCommandExecution) :=
  let* claimed := claim tx (now k) in
  let tx := fst claimed in
  do* raise_if (match snd claimed with Some c' => negb (oc_command_id c' =? oc_command_id c) | None => true end)
        (RuntimeError "flatten command changed before atomic persistence") ;;
  let* control := controls_current tx in
  let* status := experiment_status tx in
  do* raise_if (negb (bool_decide (status = ES_PAUSED)) || negb (tc_kill_switch_active control) ||
                negb (bool_decide (tc_reason control = Some (flatten_reason c))))
        (RuntimeError "flatten safety state changed before persistence") ;;
  let* account := load_account (tx_rest tx) experiment_id in
  do* raise_if (negb (same_account account (fp_source_account plan)))
        (RuntimeError "paper account changed while flatten was being prepared") ;;
  let* pending := load_pending_orders (tx_rest tx) experiment_id in
  do* raise_if (nonempty pending) (RuntimeError "flatten cannot proceed with pending paper orders") ;;
  let* final := record_executions tx account (fp_executions plan) in
  do* raise_if (negb (flat_account (snd final))) (RuntimeError "flatten persistence left an open paper position") ;;
  do* raise_if (negb (length (fp_triggers plan) =? length (fp_executions plan))%nat)
        (ValueError "zip() argument 2 has a different length than argument 1") ;;
  let* orders := mapM (fun te => flattened_order (fst te) (snd te)) (combine (fp_triggers plan) (fp_executions plan)) in
  let* completed := complete_command (fst final) (oc_command_id c) (now (S k))
    (PDict (report c (enum_value status) control ++
            [("source_account_version", PInt (ac_version account)); ("final_account_version", PInt (ac_version (snd final)));
             ("flattened_positions", PInt (Z.of_nat (length (fp_executions plan)))); ("orders", PSeq orders);
             ("planned_at", PTime (fp_planned_at plan))])) in
  Ok (answered completed false false).

(** A transaction: its changes are kept only when it does not raise. *)
Definition begin_transaction {A} (f : Tx -> result (Tx * A)) (tx : Tx) : Tx * result A :=
  match f tx with Ok (tx', a) => (tx', Ok a) | Raise e => (tx, Raise e) end.

Definition _complete_flatten (prepare : OperatorCommand -> result FlattenPlan) (tx : Tx) (c : OperatorCommand) (k : nat)
  : Tx * result OperatorCommandExecution :=
  match prepare c with
  | Raise (FlattenPlanningError reason_code detail) => begin_transaction (fun tx => rejected tx c k reason_code detail) tx
  | Raise e => (tx, Raise e)
  | Ok plan =>
      if negb (fp_command_id plan =? oc_command_id c) then (tx, Raise (RuntimeError "flatten planner returned a different command identity"))
      else begin_transaction (fun tx => persist_flatten tx c plan k) tx
  end.

Definition is_flatten (c : OperatorCommand) : bool := bool_decide (oc_command_type c = CMD_FLATTEN).

Definition execute_next (flatten_planner : option (OperatorCommand -> result FlattenPlan)) (tx : Tx)
  : Tx * result (option OperatorCommandExecution) :=
  let single := begin_transaction execute_claimed tx in
  match flatten_planner with
  | None => single
  | Some prepare =>
      match list_for_experiment sha256_hex (command_store tx) experiment_id (Some CS_ACCEPTED) 100 with
      | Raise e => (tx, Raise e)
      | Ok accepted =>
          match List.filter is_flatten accepted with
          | [] => single
          | [c0] =>
              let claim_again tx :=
                let* claimed := claim tx (now 0) in
                match snd claimed with
                | Some c =>
                    do* raise_if (negb (oc_command_id c =? oc_command_id c0)) (RuntimeError "accepted flatten command changed during recovery") ;;
                    Ok (fst claimed, c)
                | None => Raise (RuntimeError "accepted flatten command changed during recovery")
                end in
              match begin_transaction claim_again tx with
              | (tx', Raise e) => (tx', Raise e)
              | (tx', Ok c) => let (tx'', r) := _complete_flatten prepare tx' c 1 in (tx'', let* x := r in Ok (Some x))
              end
          | _ => (tx, Raise (RuntimeError "multiple accepted flatten commands violate serialization"))
          end
      end
  end.
End Executor.

(** ** The shared ledger *)

Definition same_streams (ty : string) (l l' : Ledger) : Prop :=
  forall id, stream_version l' (ty, id) = stream_version l (ty, id) /\ stream_of l' (ty, id) = stream_of l (ty, id).

(** Only streams of one type may have moved. *)
Definition touches (ty : string) (l l' : Ledger) : Prop :=
  (ledger_ok l -> ledger_ok l') /\ forall ty', ty' <> ty -> same_streams ty' l l'.

Lemma touches_refl ty l : touches ty l l.
Proof. split; [auto|]. intros ty' _ id. auto. Qed.

Lemma append_touches l id ty v events l' stored : append l id ty v events = Ok (l', stored) -> touches ty l l'.
Proof.
  intros H. split; [intros O; exact (append_ok _ _ _ _ _ _ _ O H)|]. intros ty' N i. apply (append_other _ _ _ _ _ _ _ _ H). congruence.
Qed.

(** A run of [H] through statements and branches, down to the append. *)
Ltac find_append H :=
  repeat (match type of H with
  | bind _ _ = Ok _ => apply bind_Ok in H as (? & ? & H)
  | (if ?b then _ else _) = Ok _ => destruct b
  | match ?m with _ => _ end = Ok _ => destruct m
  | Raise _ = Ok _ => discriminate H
  end).

Lemma write_control_touches sha st s v ty t st' : write_control sha st s v ty t = Ok st' -> touches "trading_control" (ct_ledger st) (ct_ledger st').
Proof.
  unfold write_control. intros Hw. apply bind_Ok in Hw as (h & _ & Hw). apply bind_Ok in Hw as (e & _ & Hw). apply bind_Ok in Hw as ([l stored] & A & Hw).
  injection Hw as <-. exact (append_touches _ _ _ _ _ _ _ A).
Qed.

Lemma halt_touches sha st id reason t actor st' s : controls_halt sha st id reason t actor = Ok (st', s) -> touches "trading_control" (ct_ledger st) (ct_ledger st').
Proof.
  unfold controls_halt. intros Hw. find_append Hw; injection Hw as <- <-; [apply touches_refl | eapply write_control_touches; eassumption].
Qed.

Lemma reset_touches sha st id t actor v prefix st' s : controls_reset sha st id t actor v prefix = Ok (st', s) -> touches "trading_control" (ct_ledger st) (ct_ledger st').
Proof.
  unfold controls_reset. intros Hw. find_append Hw; injection Hw as <- <-; [apply touches_refl | eapply write_control_touches; eassumption].
Qed.

Lemma write_command_touches sha st c v ty t st' : write_command sha st c v ty t = Ok st' -> touches "operator_command" (cm_ledger st) (cm_ledger st').
Proof.
  unfold write_command. intros Hw. apply bind_Ok in Hw as (h & _ & Hw). apply bind_Ok in Hw as (e & _ & Hw). apply bind_Ok in Hw as ([l stored] & A & Hw).
  injection Hw as <-. exact (append_touches _ _ _ _ _ _ _ A).
Qed.

Section CommandLedger.
Context (sha256_hex : string -> string) (uuid5 : string -> UUID).
Context {column : JsonbColumn} (gateway : list AuditEvent -> audit_request -> result (list AuditEvent * Z)) (database_role : string) (platform : PlatformRows).

Lemma claim_touches st id w t st' oc : claim_next sha256_hex uuid5 gateway database_role platform st id w t = Ok (st', oc) ->
  touches "operator_command" (cm_ledger st) (cm_ledger st').
Proof.
  unfold claim_next. intros Hw. find_append Hw; injection Hw as <- <-; try apply touches_refl; [eapply write_command_touches; eassumption|].
  match goal with A : audited _ _ _ _ _ _ _ _ _ _ _ = Ok _ |- _ => destruct (audited_Ok _ _ _ _ _ _ _ _ _ _ _ _ A) as [_ ->] end.
  eapply write_command_touches; eassumption.
Qed.

Lemma complete_touches st id w t r st' c : command_complete sha256_hex uuid5 gateway database_role platform st id w t r = Ok (st', c) ->
  touches "operator_command" (cm_ledger st) (cm_ledger st').
Proof.
  unfold command_complete. intros Hw. find_append Hw; injection Hw as <- <-;
    match goal with A : audited _ _ _ _ _ _ _ _ _ _ _ = Ok _ |- _ => destruct (audited_Ok _ _ _ _ _ _ _ _ _ _ _ _ A) as [_ ->] end;
    [apply touches_refl | eapply write_command_touches; eassumption].
Qed.

Lemma reject_touches st id w t code detail st' c : command_reject sha256_hex uuid5 gateway database_role platform st id w t code detail = Ok (st', c) ->
  touches "operator_command" (cm_ledger st) (cm_ledger st').
Proof.
  unfold command_reject. intros Hw. find_append Hw; injection Hw as <- <-;
    match goal with A : audited _ _ _ _ _ _ _ _ _ _ _ = Ok _ |- _ => destruct (audited_Ok _ _ _ _ _ _ _ _ _ _ _ _ A) as [_ ->] end;
    [apply touches_refl | eapply write_command_touches; eassumption].
Qed.
End CommandLedger.

(** A change of status: the target, or nothing when it is there already. *)
Record status_change (sha256_hex : string -> string) (target : ExperimentStatus)
    (op : ExperimentStore -> ExperimentManifest -> datetime -> result (ExperimentStore * bool)) : Prop := {
  sc_step : forall st m t st' b, op st m t = Ok (st', b) -> experiment_step sha256_hex st st';
  sc_same_or_moved : forall st m t st' b, op st m t = Ok (st', b) ->
    (st' = st /\ exists row, xs_rows st !! em_experiment_id m = Some row /\ xr_status row = target) \/
    exists row v tr, xs_rows st !! em_experiment_id m = Some row /\
      lifecycle_transition sha256_hex m (xr_status row) v target None t = Ok tr /\ experiment_transition sha256_hex st m tr = Ok st'
}.

Lemma transition_effect sha st m s v target reason t tr st' : lifecycle_transition sha m s v target reason t = Ok tr ->
  experiment_transition sha st m tr = Ok st' -> touches "experiment" (xs_ledger st) (xs_ledger st') /\
  (exists row, xs_rows st' !! em_experiment_id m = Some row /\ xr_status row = target).
Proof.
  intros Ht Hm. apply lifecycle_transition_Ok in Ht as (_ & Et & _). unfold experiment_transition in Hm. find_append Hm. injection Hm as <-. cbn [xs_ledger xs_rows].
  split.
  - match goal with A : append _ _ _ _ _ = Ok ?r |- _ => destruct r as [l stored]; exact (append_touches _ _ _ _ _ _ _ A) end.
  - eexists. rewrite lookup_insert_eq. split; [reflexivity | exact Et].
Qed.

Lemma locked_row sha st m conflict row : locked_experiment sha st m conflict = Ok row -> xs_rows st !! em_experiment_id m = Some row.
Proof. unfold locked_experiment. intros Hl. py_inv. assumption. Qed.

Ltac status_change_of step :=
  split; [intros st m t st' b Hs; exact (step _ st m t st' b Hs)|];
  intros st m t st' b Hs; apply bind_Ok in Hs as (row & Hr & Hs); apply locked_row in Hr;
  match type of Hs with (if bool_decide ?p then _ else _) = Ok _ =>
    destruct (bool_decide_reflect p) as [B|_]; [injection Hs as <- <-; left; split; [reflexivity | eauto] | py_inv; right; eauto 10] end.

Lemma ensure_running_change sha : status_change sha ES_RUNNING (ensure_running sha).
Proof. status_change_of step_run. Qed.
Lemma pause_change sha : status_change sha ES_PAUSED (pause_active sha).
Proof. status_change_of step_pause. Qed.
Lemma resume_change sha : status_change sha ES_RUNNING (resume_paused sha).
Proof. status_change_of step_resume. Qed.
Lemma stop_change sha : status_change sha ES_STOPPED (stop_active sha).
Proof. status_change_of step_stop. Qed.

Lemma change_effect sha target op st m t st' b : status_change sha target op -> op st m t = Ok (st', b) ->
  touches "experiment" (xs_ledger st) (xs_ledger st') /\ get_status st' (em_experiment_id m) = Ok target.
Proof.
  intros [S1 S2] Hs. unfold get_status. destruct (S2 _ _ _ _ _ Hs) as [(-> & row & E & Es)|(row & v & tr & E & Ht & Hm)].
  - split; [apply touches_refl|]. rewrite E. cbn. now rewrite Es.
  - destruct (transition_effect _ _ _ _ _ _ _ _ _ _ Ht Hm) as (T & row' & E' & Es). split; [exact T|]. rewrite E'. cbn. now rewrite Es.
Qed.

(** Each part keeps its invariant while the other streams move. *)
Lemma experiments_quiet st l' : experiments_ok st -> ledger_ok l' -> same_streams "experiment" (xs_ledger st) l' ->
  experiments_ok {| xs_rows := xs_rows st; xs_agents := xs_agents st; xs_ledger := l' |}.
Proof.
  intros [O R] O' S. split; [exact O'|]. intros id row E. specialize (R id row E). unfold projected, rebuild_experiment_projection in *. cbn [xs_ledger].
  destruct (S id) as [_ S2]. unfold stream_of in S2. now rewrite S2.
Qed.

Lemma controls_quiet sha st l' : controls_ok sha st -> ledger_ok l' -> same_streams "trading_control" (ct_ledger st) l' ->
  controls_ok sha {| ct_rows := ct_rows st; ct_ledger := l' |}.
Proof.
  intros [O R] O' S. split; [exact O'|]. intros id row E. destruct (R id row E) as [R1 R2 R3 R4 R5 R6]. destruct (S id) as [S1 S2].
  split; auto; cbn [ct_ledger]; unfold control_key in *; [now rewrite S1 | now rewrite S2].
Qed.

Lemma commands_quiet sha st l' audit : commands_ok sha st -> ledger_ok l' -> same_streams "operator_command" (cm_ledger st) l' ->
  commands_ok sha {| cm_rows := cm_rows st; cm_ledger := l'; cm_audit := audit |}.
Proof.
  intros [O R N1 N2 N3] O' S. split; cbn [cm_rows cm_ledger]; auto. eapply List.Forall_impl; [|exact R]. intros r [R1 R2 R3 R4].
  destruct (S (row_id r)) as [S1 S2]. split; auto; unfold command_key in *; [now rewrite S1 | now rewrite S2].
Qed.

(** ** Transactions keep the invariants *)

Section Sound.
Context {P : Type} `{OtherRepositories P}.
Context (sha256_hex : string -> string) (uuid5 : string -> UUID).
Context {column : JsonbColumn} (gateway : list AuditEvent -> audit_request -> result (list AuditEvent * Z)) (database_role : string) (platform : PlatformRows).
Context (manifest : ExperimentManifest) (worker_boot : UUID) (platform_run_id : option UUID) (now : nat -> datetime).

Local Abbreviation Tx := (Transaction_ P).
Local Abbreviation experiment_id := (em_experiment_id manifest).
Local Abbreviation control_of tx := (controls_current sha256_hex manifest tx).
Local Abbreviation status_of tx := (experiment_status manifest tx).
Local Abbreviation worker := (worker_name worker_boot).

Record tx_ok (tx : Tx) : Prop := {
  to_experiments : experiments_ok (tx_experiments tx);
  to_controls : controls_ok sha256_hex (control_store tx);
  to_commands : commands_ok sha256_hex (command_store tx)
}.

Lemma tx_ledger_ok tx : tx_ok tx -> ledger_ok (tx_ledger tx).
Proof. intros T. exact (eo_ledger _ (to_experiments _ T)). Qed.

(** What a part of a transaction may leave as it was. *)
Record kept (tx tx' : Tx) : Prop := {
  kp_status : status_of tx' = status_of tx;
  kp_control : control_of tx' = control_of tx;
  kp_rest : tx_rest tx' = tx_rest tx
}.

Lemma kept_trans a b c : kept a b -> kept b c -> kept a c.
Proof. intros [] []. split; congruence. Qed.

Lemma set_controls_ok tx c : tx_ok tx -> controls_ok sha256_hex c -> touches "trading_control" (tx_ledger tx) (ct_ledger c) -> tx_ok (set_controls tx c).
Proof.
  intros [X C M] C' [T1 T2]. pose proof (T1 (eo_ledger _ X)) as O. split.
  - exact (experiments_quiet (tx_experiments tx) _ X O (T2 "experiment" ltac:(discriminate))).
  - destruct c. exact C'.
  - exact (commands_quiet _ (command_store tx) _ (tx_audit tx) M O (T2 "operator_command" ltac:(discriminate))).
Qed.

Lemma set_commands_ok tx c : tx_ok tx -> commands_ok sha256_hex c -> touches "operator_command" (tx_ledger tx) (cm_ledger c) -> tx_ok (set_commands tx c).
Proof.
  intros [X C M] M' [T1 T2]. pose proof (T1 (eo_ledger _ X)) as O. split.
  - exact (experiments_quiet (tx_experiments tx) _ X O (T2 "experiment" ltac:(discriminate))).
  - exact (controls_quiet _ (control_store tx) _ C O (T2 "trading_control" ltac:(discriminate))).
  - destruct c. exact M'.
Qed.

Lemma set_experiments_ok tx x : tx_ok tx -> experiments_ok x -> touches "experiment" (tx_ledger tx) (xs_ledger x) -> tx_ok (set_experiments tx x).
Proof.
  intros [X C M] X' [T1 T2]. pose proof (eo_ledger _ X') as O. split; [exact X' | |].
  - exact (controls_quiet _ (control_store tx) _ C O (T2 "trading_control" ltac:(discriminate))).
  - exact (commands_quiet _ (command_store tx) _ (tx_audit tx) M O (T2 "operator_command" ltac:(discriminate))).
Qed.

Lemma set_rest_ok tx p l : tx_ok tx -> quiet (tx_ledger tx) l -> tx_ok (set_rest tx (p, l)).
Proof.
  intros [X C M] [Q1 Q2]. pose proof (Q1 (eo_ledger _ X)) as O. split.
  - apply (experiments_quiet (tx_experiments tx) l X O). intros id. apply Q2. rewrite !elem_of_cons. auto.
  - apply (controls_quiet _ (control_store tx) l C O). intros id. apply Q2. rewrite !elem_of_cons. auto.
  - apply (commands_quiet _ (command_store tx) l (tx_audit tx) M O). intros id. apply Q2. rewrite !elem_of_cons. auto.
Qed.

(** The operations of the executor on a transaction. *)
Lemma tx_halt tx reason t tx' s : tx_ok tx -> halt sha256_hex manifest worker_boot tx reason t = Ok (tx', s) ->
  tx_ok tx' /\ control_of tx' = Ok s /\ tc_kill_switch_active s = true /\ tc_reason s = Some reason /\ status_of tx' = status_of tx /\
  tx_rest tx' = tx_rest tx /\ tx_commands tx' = tx_commands tx.
Proof.
  intros T Hh. unfold halt in Hh. apply bind_Ok in Hh as ([st' s'] & Hc & Hh). injection Hh as <- <-. cbn [fst snd].
  destruct (halt_ok _ _ _ _ _ _ _ _ (to_controls _ T) Hc) as (C' & (row & E & <-) & A & R & _).
  split; [exact (set_controls_ok _ _ T C' (halt_touches _ _ _ _ _ _ _ _ Hc))|]. split; [|auto].
  exact (control_current_ok _ _ _ _ C' E).
Qed.

Lemma tx_reset tx t v prefix tx' s : tx_ok tx -> reset sha256_hex manifest worker_boot tx t v prefix = Ok (tx', s) ->
  tx_ok tx' /\ control_of tx' = Ok s /\ tc_kill_switch_active s = false /\ status_of tx' = status_of tx /\ tx_rest tx' = tx_rest tx.
Proof.
  intros T Hh. unfold reset in Hh. apply bind_Ok in Hh as ([st' s'] & Hc & Hh). injection Hh as <- <-. cbn [fst snd].
  destruct (reset_ok _ _ _ _ _ _ _ _ _ (to_controls _ T) Hc) as (C' & (row & E & <-) & A & _).
  split; [exact (set_controls_ok _ _ T C' (reset_touches _ _ _ _ _ _ _ _ _ Hc))|]. split; [|auto].
  exact (control_current_ok _ _ _ _ C' E).
Qed.

Lemma tx_change tx op target t tx' b : tx_ok tx -> status_change sha256_hex target op -> change_status manifest op tx t = Ok (tx', b) ->
  tx_ok tx' /\ status_of tx' = Ok target /\ control_of tx' = control_of tx /\ tx_rest tx' = tx_rest tx.
Proof.
  intros T S Hh. unfold change_status in Hh. apply bind_Ok in Hh as ([x' b'] & Hc & Hh). injection Hh as <- <-. cbn [fst snd].
  destruct (change_effect _ _ _ _ _ _ _ _ S Hc) as [Tc G]. destruct (experiment_step_ok _ _ _ (to_experiments _ T) (sc_step _ _ _ S _ _ _ _ _ Hc)) as [X' _].
  split; [exact (set_experiments_ok _ _ T X' Tc)|]. split; [exact G | auto].
Qed.

Lemma tx_claim tx t tx' oc : tx_ok tx -> claim sha256_hex uuid5 gateway database_role platform manifest worker_boot tx t = Ok (tx', oc) ->
  tx_ok tx' /\ kept tx tx' /\
  match oc with
  | None => Forall (fun r => claimable experiment_id r = false) (tx_commands tx)
  | Some c => oc_status c = CS_ACCEPTED /\ oc_accepted_by c = Some worker /\ oc_experiment_id c = experiment_id /\
      exists r, In r (tx_commands tx) /\ command_after (cm_command r) c
  end.
Proof.
  intros T Hh. unfold claim in Hh. apply bind_Ok in Hh as ([st' oc'] & Hc & Hh). injection Hh as <- <-. cbn [fst snd].
  destruct (claim_ok _ _ _ _ _ _ _ _ _ _ _ (to_commands _ T) Hc) as (C' & _ & Q).
  split; [exact (set_commands_ok _ _ T C' (claim_touches _ _ _ _ _ _ _ _ _ _ _ Hc))|]. split; [split; reflexivity|]. destruct oc' as [c|].
  - destruct Q as (r & h & N & _ & A & Ei & S & B & _). destruct (next_claim_Some _ _ _ N) as (I & _). eauto 10.
  - now apply next_claim_None.
Qed.

(** The command that a transaction ends. *)
Definition ends (status : CommandStatus) (id : UUID) (tx : Tx) (c : OperatorCommand) : Prop :=
  oc_status c = status /\ oc_accepted_by c = Some worker /\ oc_command_id c = id /\ exists r, In r (tx_commands tx) /\ command_after (cm_command r) c.

Lemma ended_ends tx st' id status c : ended sha256_hex (command_store tx) st' id worker status c -> ends status id tx c.
Proof.
  intros (_ & _ & S & B & r & h & I & E & A & _). split; [exact S|]. split; [exact B|]. split; [|eauto].
  rewrite (sr_id _ _ (ca_same _ _ A)). exact E.
Qed.

Lemma tx_complete tx id t r tx' c : tx_ok tx -> complete_command sha256_hex uuid5 gateway database_role platform worker_boot tx id t r = Ok (tx', c) ->
  tx_ok tx' /\ kept tx tx' /\ ends CS_COMPLETED id tx c.
Proof.
  intros T Hh. unfold complete_command in Hh. apply bind_Ok in Hh as ([st' c'] & Hc & Hh). injection Hh as <- <-. cbn [fst snd].
  pose proof (complete_ends _ _ _ _ _ _ _ _ _ _ _ _ (to_commands _ T) Hc) as E.
  split; [exact (set_commands_ok _ _ T (proj1 E) (complete_touches _ _ _ _ _ _ _ _ _ _ _ _ Hc))|]. split; [split; reflexivity | exact (ended_ends _ _ _ _ _ E)].
Qed.

Lemma tx_reject tx c k code detail tx' x : tx_ok tx ->
  rejected sha256_hex uuid5 gateway database_role platform worker_boot now tx c k code detail = Ok (tx', x) ->
  tx_ok tx' /\ kept tx tx' /\ ends CS_REJECTED (oc_command_id c) tx (ox_command x) /\ ox_stop_worker x = false /\ ox_activate_worker x = false.
Proof.
  intros T Hh. unfold rejected, reject_command in Hh. apply bind_Ok in Hh as (r & Hh & E). apply bind_Ok in Hh as ([st' c'] & Hc & Hh). injection Hh as <-.
  injection E as <- <-. cbn [fst snd ox_command ox_stop_worker ox_activate_worker].
  pose proof (reject_ends _ _ _ _ _ _ _ _ _ _ _ _ _ (to_commands _ T) Hc) as E.
  split; [exact (set_commands_ok _ _ T (proj1 E) (reject_touches _ _ _ _ _ _ _ _ _ _ _ _ _ Hc))|]. split; [split; reflexivity|].
  split; [exact (ended_ends _ _ _ _ _ E) | auto].
Qed.

(** ** What a transaction does *)

Definition answers (status : CommandStatus) (c : OperatorCommand) (x : OperatorCommandExecution) : Prop :=
  oc_status (ox_command x) = status /\ oc_command_id (ox_command x) = oc_command_id c /\ oc_accepted_by (ox_command x) = Some worker.

(** A reset is safe: the paused experiment, exactly the control that the
    operator saw, a flat account and nothing pending, recovering or to review. *)
Record reset_is_safe (tx : Tx) (c : OperatorCommand) (s : TradingControlSnapshot) : Prop := {
  rk_status : status_of tx = Ok ES_PAUSED;
  rk_control : control_of tx = Ok s /\ tc_kill_switch_active s = true;
  rk_version : payload_get (oc_payload c) "expected_control_version" = Some (JInt (tc_version s));
  rk_reason : exists r, tc_reason s = Some r /\ payload_get (oc_payload c) "expected_reason" = Some (JStr r);
  rk_flat : exists a, load_account (tx_rest tx) experiment_id = Ok a /\ open_positions a = 0;
  rk_orders : load_pending_orders (tx_rest tx) experiment_id = Ok [];
  rk_recoveries : get_blocking_recoveries (tx_rest tx) experiment_id = Ok [];
  rk_incidents : exists l, get_unresolved (tx_rest tx) experiment_id = Ok l /\ Forall (fun i => blocking_incident i = false) l
}.

(** A resumption names the control's version, and clears an operator's pause only. *)
Record resume_is_safe (tx : Tx) (c : OperatorCommand) (s : TradingControlSnapshot) : Prop := {
  rm_control : control_of tx = Ok s;
  rm_version : payload_get (oc_payload c) "expected_control_version" = Some (JInt (tc_version s));
  rm_reason : tc_kill_switch_active s = true -> exists r, tc_reason s = Some r /\ starts_with "operator_pause:" r = true
}.

Definition halted_for (tx : Tx) (reason : string) : Prop :=
  exists s, control_of tx = Ok s /\ tc_kill_switch_active s = true /\ tc_reason s = Some reason.

Definition switch_off (tx : Tx) : Prop := exists s, control_of tx = Ok s /\ tc_kill_switch_active s = false.

Inductive outcome (tx tx' : Tx) (c : OperatorCommand) (x : OperatorCommandExecution) : Prop :=
| outcome_rejected : answers CS_REJECTED c x -> kept tx tx' -> ox_stop_worker x = false -> ox_activate_worker x = false -> outcome tx tx' c x
| outcome_started : oc_command_type c = CMD_START -> answers CS_COMPLETED c x -> switch_off tx -> control_of tx' = control_of tx ->
    status_of tx' = Ok ES_RUNNING -> ox_stop_worker x = false ->
    (tx_rest tx' = tx_rest tx \/ exists commands audit run boot t audit',
       activate_run (tx_rest tx) commands audit run (oc_command_id c) boot t = Ok (tx_rest tx', audit')) -> outcome tx tx' c x
| outcome_incident i changed l l' : elem_of (oc_command_type c) [CMD_ACKNOWLEDGE_INCIDENT; CMD_RESOLVE_INCIDENT] -> answers CS_COMPLETED c x ->
    incident_step i changed -> in_experiment_id i = experiment_id -> incident_record (tx_rest tx) l changed = Ok (tx_rest tx', l') ->
    (exists u, incident_get (tx_rest tx) u = Ok i) -> control_of tx' = control_of tx -> status_of tx' = status_of tx -> outcome tx tx' c x
| outcome_stopped a : oc_command_type c = CMD_STOP -> answers CS_COMPLETED c x -> load_account (tx_rest tx) experiment_id = Ok a ->
    open_positions a = 0 -> load_pending_orders (tx_rest tx) experiment_id = Ok [] -> status_of tx' = Ok ES_STOPPED ->
    halted_for tx' ("operator_stop:" +:+ uuid_str (oc_command_id c)) -> tx_rest tx' = tx_rest tx -> ox_stop_worker x = true -> outcome tx tx' c x
| outcome_reset s : oc_command_type c = CMD_RESET_KILL_SWITCH -> answers CS_COMPLETED c x -> reset_is_safe tx c s -> switch_off tx' ->
    status_of tx' = status_of tx -> tx_rest tx' = tx_rest tx -> outcome tx tx' c x
| outcome_resumed s : oc_command_type c = CMD_RESUME -> answers CS_COMPLETED c x -> resume_is_safe tx c s -> switch_off tx' ->
    status_of tx' = Ok ES_RUNNING -> tx_rest tx' = tx_rest tx -> outcome tx tx' c x
| outcome_halted reason : elem_of (oc_command_type c) [CMD_PAUSE; CMD_EMERGENCY_HALT] -> answers CS_COMPLETED c x -> halted_for tx' reason ->
    reason = (if bool_decide (oc_command_type c = CMD_PAUSE) then "operator_pause" else "operator_emergency_halt") +:+ ":" +:+ uuid_str (oc_command_id c) ->
    status_of tx' = Ok ES_PAUSED -> tx_rest tx' = tx_rest tx -> outcome tx tx' c x
| outcome_flattening : oc_command_type c = CMD_FLATTEN -> ox_command x = c -> halted_for tx' (flatten_reason c) -> tx_rest tx' = tx_rest tx ->
    (kept tx tx' \/ status_of tx' = Ok ES_PAUSED) -> outcome tx tx' c x.

Lemma ends_answers status id tx c x : ends status id tx (ox_command x) -> id = oc_command_id c -> answers status c x.
Proof. intros (S & B & E & _) ->. repeat split; auto. Qed.

Lemma nonempty_false {A} (l : list A) : nonempty l = false -> l = [].
Proof. now destruct l. Qed.

Ltac rejects T Hx := destruct (tx_reject _ _ _ _ _ _ _ T Hx) as (?T' & ?K & ?E & ?F & ?G);
  split; [assumption | apply outcome_rejected; [eapply ends_answers; eauto | assumption ..]].

Lemma tx_complete_last tx id t r stop activate tx' x c : tx_ok tx -> id = oc_command_id c ->
  (let* completed := complete_command sha256_hex uuid5 gateway database_role platform worker_boot tx id t r in Ok (answered completed stop activate)) = Ok (tx', x) ->
  tx_ok tx' /\ kept tx tx' /\ answers CS_COMPLETED c x /\ ox_stop_worker x = stop /\ ox_activate_worker x = activate.
Proof.
  intros T -> Hx. apply bind_Ok in Hx as ([tx2 c2] & Hc & Hx). injection Hx as <- <-. destruct (tx_complete _ _ _ _ _ _ T Hc) as (T' & K & E).
  cbn [fst snd ox_command ox_stop_worker ox_activate_worker]. split; [exact T'|]. split; [exact K|]. split; [|auto].
  apply (ends_answers _ (oc_command_id c) tx c {| ox_command := c2; ox_stop_worker := stop; ox_activate_worker := activate |} E eq_refl).
Qed.

Lemma start_outcome tx c tx' x : tx_ok tx -> oc_command_type c = CMD_START ->
  start sha256_hex uuid5 gateway database_role platform manifest worker_boot platform_run_id now tx c = Ok (tx', x) ->
  tx_ok tx' /\ outcome tx tx' c x.
Proof.
  intros T Ty Hx. unfold start in Hx. apply bind_Ok in Hx as (s & Hs & Hx). destruct (tc_kill_switch_active s) eqn:A; [rejects T Hx|].
  apply bind_Ok in Hx as ([tx1 b] & Hc & Hx). destruct (tx_change _ _ _ _ _ _ T (ensure_running_change _) Hc) as (T1 & S1 & C1 & P1). cbn [fst snd] in Hx.
  apply bind_Ok in Hx as (tx2 & Hr & Hx).
  assert (K2 : tx_ok tx2 /\ control_of tx2 = control_of tx1 /\ status_of tx2 = status_of tx1 /\
    (tx_rest tx2 = tx_rest tx1 \/ exists commands audit run boot t audit',
       activate_run (tx_rest tx1) commands audit run (oc_command_id c) boot t = Ok (tx_rest tx2, audit'))).
  { destruct platform_run_id as [run|]; [|injection Hr as <-; auto]. apply bind_Ok in Hr as ([p audit] & Ha & Hr). injection Hr as <-.
    split; [|split; [reflexivity|split; [reflexivity | right; do 6 eexists; exact Ha]]].
    destruct T1 as [X C M]. split; [exact X | exact C | destruct M; split; assumption]. }
  destruct K2 as (T2 & C2 & S2 & P2). destruct (tx_complete_last _ _ _ _ _ _ _ _ c T2 eq_refl Hx) as (T3 & [K1 K2 K3] & An & St & _). split; [exact T3|].
  apply outcome_started; auto; [exists s; auto | congruence | congruence |]. rewrite K3, <- P1. exact P2.
Qed.

Lemma stop_outcome tx c tx' x : tx_ok tx -> oc_command_type c = CMD_STOP ->
  stop sha256_hex uuid5 gateway database_role platform manifest worker_boot now tx c = Ok (tx', x) -> tx_ok tx' /\ outcome tx tx' c x.
Proof.
  intros T Ty Hx. unfold stop in Hx. apply bind_Ok in Hx as (a & Ha & Hx). apply bind_Ok in Hx as (pending & Hp & Hx).
  destruct (negb (open_positions a =? 0) || nonempty pending) eqn:B; [rejects T Hx|]. apply orb_false_iff in B as [B1 B2]. bool_prop. apply nonempty_false in B2 as ->.
  apply bind_Ok in Hx as ([tx1 s] & Hh & Hx). destruct (tx_halt _ _ _ _ _ T Hh) as (T1 & C1 & A1 & R1 & S1 & P1 & _). cbn [fst snd] in Hx.
  apply bind_Ok in Hx as ([tx2 b] & Hc & Hx). destruct (tx_change _ _ _ _ _ _ T1 (stop_change _) Hc) as (T2 & S2 & C2 & P2). cbn [fst snd] in Hx.
  destruct (tx_complete_last _ _ _ _ _ _ _ _ c T2 eq_refl Hx) as (T3 & [K1 K2 K3] & An & St & _). split; [exact T3|].
  eapply outcome_stopped; eauto; [congruence | exists s; split; [congruence | auto] | congruence].
Qed.

Lemma pause_or_halt_outcome tx c tx' x : tx_ok tx -> elem_of (oc_command_type c) [CMD_PAUSE; CMD_EMERGENCY_HALT] ->
  pause_or_halt sha256_hex uuid5 gateway database_role platform manifest worker_boot now tx c = Ok (tx', x) -> tx_ok tx' /\ outcome tx tx' c x.
Proof.
  intros T Ty Hx. unfold pause_or_halt in Hx.
  apply bind_Ok in Hx as ([tx1 s] & Hh & Hx). destruct (tx_halt _ _ _ _ _ T Hh) as (T1 & C1 & A1 & R1 & S1 & P1 & _). cbn [fst snd] in Hx.
  apply bind_Ok in Hx as ([tx2 b] & Hc & Hx). destruct (tx_change _ _ _ _ _ _ T1 (pause_change _) Hc) as (T2 & S2 & C2 & P2). cbn [fst snd] in Hx.
  destruct (tx_complete_last _ _ _ _ _ _ _ _ c T2 eq_refl Hx) as (T3 & [K1 K2 K3] & An & St & _). split; [exact T3|].
  eapply outcome_halted; [exact Ty | exact An | exists s; split; [congruence | split; [exact A1 | exact R1]] | reflexivity | congruence | congruence].
Qed.

Lemma begin_flatten_outcome tx c tx' x : tx_ok tx -> oc_command_type c = CMD_FLATTEN ->
  begin_flatten sha256_hex manifest worker_boot now tx c = Ok (tx', x) -> tx_ok tx' /\ outcome tx tx' c x.
Proof.
  intros T Ty Hx. unfold begin_flatten in Hx. apply bind_Ok in Hx as (s & Hs & Hx).
  destruct (tc_kill_switch_active s && bool_decide (tc_reason s = Some (flatten_reason c))) eqn:B.
  - injection Hx as <- <-. bool_prop. split; [exact T|]. apply outcome_flattening; auto; [exists s; auto | left; split; reflexivity].
  - apply bind_Ok in Hx as ([tx1 s1] & Hh & Hx). destruct (tx_halt _ _ _ _ _ T Hh) as (T1 & C1 & A1 & R1 & S1 & P1 & _). cbn [fst snd] in Hx.
    apply bind_Ok in Hx as ([tx2 b] & Hc & Hx). destruct (tx_change _ _ _ _ _ _ T1 (pause_change _) Hc) as (T2 & S2 & C2 & P2). injection Hx as <- <-.
    split; [exact T2|]. apply outcome_flattening; auto; [exists s1; split; [congruence | auto] | cbn; congruence].
Qed.

Lemma incident_outcome tx c tx' x : tx_ok tx -> elem_of (oc_command_type c) [CMD_ACKNOWLEDGE_INCIDENT; CMD_RESOLVE_INCIDENT] ->
  incident_action sha256_hex uuid5 gateway database_role platform manifest worker_boot now tx c = Ok (tx', x) -> tx_ok tx' /\ outcome tx tx' c x.
Proof.
  intros T Ty Hx. unfold incident_action in Hx. destruct (parse_uuid _) as [u|]; [|rejects T Hx].
  apply bind_Ok in Hx as (i & Hi & Hx). destruct (negb (in_experiment_id i =? experiment_id)) eqn:B; [rejects T Hx|]. bool_prop.
  assert (Finish : forall changed r y, incident_step i changed ->
    (let* rec := incident_record (tx_rest tx) (tx_ledger tx) changed in
     let* completed := complete_command sha256_hex uuid5 gateway database_role platform worker_boot (set_rest tx rec) (oc_command_id c) (now 2) r in
     Ok (answered completed false false)) = Ok y -> tx_ok (fst y) /\ outcome tx (fst y) c (snd y)).
  { intros changed r [tx3 x3] St Hy. apply bind_Ok in Hy as ([p l] & Hrec & Hy). pose proof (incident_record_quiet _ _ _ _ _ Hrec) as Q.
    pose proof (set_rest_ok _ p l T Q) as T1. destruct (tx_complete_last _ _ _ _ _ _ _ _ c T1 eq_refl Hy) as (T3 & [K1 K2 K3] & An & _).
    split; [exact T3|]. cbn [fst snd]. apply (outcome_incident _ _ _ _ i changed (tx_ledger tx) l Ty An St B); [rewrite K3; exact Hrec | eauto | rewrite K2; reflexivity | rewrite K1; reflexivity]. }
  destruct (bool_decide _).
  - apply bind_Ok in Hx as (changed & Hc & Hx). exact (Finish changed _ _ (step_acknowledge _ _ _ _ Hc) Hx).
  - destruct (payload_get (oc_payload c) "resolution") as [[| | | |resolution| |]|]; try (rejects T Hx).
    destruct (blank resolution); [rejects T Hx|]. apply bind_Ok in Hx as (changed & Hc & Hx). exact (Finish changed _ _ (step_resolve _ _ _ _ _ _ Hc) Hx).
Qed.

Lemma reset_outcome tx c tx' x : tx_ok tx -> oc_command_type c = CMD_RESET_KILL_SWITCH ->
  reset_kill_switch sha256_hex uuid5 gateway database_role platform manifest worker_boot now tx c = Ok (tx', x) -> tx_ok tx' /\ outcome tx tx' c x.
Proof.
  intros T Ty Hx. unfold reset_kill_switch in Hx.
  destruct (payload_get (oc_payload c) "expected_control_version") as [[| |v| | | |]|] eqn:Ev; try (rejects T Hx).
  destruct (payload_get (oc_payload c) "expected_reason") as [[| | | |r| |]|] eqn:Er; try (rejects T Hx). destruct (empty r); [rejects T Hx|].
  apply bind_Ok in Hx as (status & Hst & Hx). apply bind_Ok in Hx as (s & Hs & Hx). apply bind_Ok in Hx as (a & Ha & Hx). apply bind_Ok in Hx as (pending & Hp & Hx).
  apply bind_Ok in Hx as (recoveries & Hrec & Hx). apply bind_Ok in Hx as (unresolved & Hun & Hx).
  match type of Hx with (if ?b then _ else _) = _ => destruct b eqn:B end; [rejects T Hx|].
  repeat (apply orb_false_iff in B as [B ?]). bool_prop.
  repeat match goal with N : nonempty _ = false |- _ => apply nonempty_false in N end. subst pending recoveries.
  apply bind_Ok in Hx as ([tx1 s1] & Hh & Hx). destruct (tx_reset _ _ _ _ _ _ T Hh) as (T1 & C1 & A1 & S1 & P1). cbn [fst snd] in Hx.
  destruct (tx_complete_last _ _ _ _ _ _ _ _ c T1 eq_refl Hx) as (T3 & [K1 K2 K3] & An & _). split; [exact T3|].
  apply (outcome_reset _ _ _ _ s Ty An); [|exists s1; split; [congruence | exact A1] | congruence | congruence].
  split; auto; try congruence; [exists r; split; congruence | eauto | exists unresolved; split; [exact Hun | now apply filter_nil]].
Qed.

Lemma resume_outcome tx c tx' x : tx_ok tx -> oc_command_type c = CMD_RESUME ->
  resume sha256_hex uuid5 gateway database_role platform manifest worker_boot now tx c = Ok (tx', x) -> tx_ok tx' /\ outcome tx tx' c x.
Proof.
  intros T Ty Hx. unfold resume in Hx.
  destruct (payload_get (oc_payload c) "expected_control_version") as [[| |v| | | |]|] eqn:Ev; try (rejects T Hx).
  apply bind_Ok in Hx as (s & Hs & Hx). destruct (negb (tc_version s =? v)) eqn:Bv; [rejects T Hx|]. bool_prop.
  destruct (tc_kill_switch_active s && negb (starts_with "operator_pause:" (default "" (tc_reason s)))) eqn:Br; [rejects T Hx|].
  assert (Safe : resume_is_safe tx c s).
  { split; [exact Hs | congruence|]. intros A. rewrite A in Br. cbn [andb] in Br. bool_prop. destruct (tc_reason s) as [r|]; [|vm_compute in Br; discriminate]. exists r. auto. }
  apply bind_Ok in Hx as ([tx1 s1] & Hh & Hx). cbn [fst snd] in Hx.
  assert (K1 : tx_ok tx1 /\ control_of tx1 = Ok s1 /\ tc_kill_switch_active s1 = false /\ tx_rest tx1 = tx_rest tx).
  { destruct (tc_kill_switch_active s) eqn:A; [destruct (tx_reset _ _ _ _ _ _ T Hh) as (T1 & C1 & A1 & _ & P1); auto | injection Hh as <- <-; auto]. }
  destruct K1 as (T1 & C1 & A1 & P1). apply bind_Ok in Hx as ([tx2 b] & Hc & Hx). destruct (tx_change _ _ _ _ _ _ T1 (resume_change _) Hc) as (T2 & S2 & C2 & P2). cbn [fst snd] in Hx.
  destruct (tx_complete_last _ _ _ _ _ _ _ _ c T2 eq_refl Hx) as (T3 & [K1 K2 K3] & An & _). split; [exact T3|].
  apply (outcome_resumed _ _ _ _ s Ty An Safe); [exists s1; split; [congruence | exact A1] | congruence | congruence].
Qed.
End Sound.

(** ** What one call of the executor does *)

Section Executed.
Context {P : Type} {repos : OtherRepositories P}.
Context (sha256_hex : string -> string) (uuid5 : string -> UUID).
Context {column : JsonbColumn} (gateway : list AuditEvent -> audit_request -> result (list AuditEvent * Z)) (database_role : string) (platform : PlatformRows).
Context (manifest : ExperimentManifest) (worker_boot : UUID) (platform_run_id : option UUID) (now : nat -> datetime).

Local Abbreviation Tx := (Transaction_ P).
Local Abbreviation experiment_id := (em_experiment_id manifest).
Local Abbreviation control_of tx := (controls_current sha256_hex manifest tx).
Local Abbreviation status_of tx := (experiment_status manifest tx).
Local Abbreviation worker := (worker_name worker_boot).
Local Abbreviation unchanged := (kept sha256_hex manifest).
Local Abbreviation execution := (execute_next sha256_hex uuid5 gateway database_role platform manifest worker_boot platform_run_id now).

(** A command that the worker holds after its claim. *)
Definition claimed (tx : Tx) (c : OperatorCommand) : Prop :=
  oc_status c = CS_ACCEPTED /\ oc_accepted_by c = Some worker /\ oc_experiment_id c = experiment_id /\
  exists r, In r (tx_commands tx) /\ command_after (cm_command r) c.

Lemma outcome_before a b tx' c x : unchanged a b -> outcome sha256_hex manifest worker_boot b tx' c x ->
  outcome sha256_hex manifest worker_boot a tx' c x.
Proof.
  intros [K1 K2 K3] O.
  assert (KK : unchanged b tx' -> unchanged a tx') by (intros [L1 L2 L3]; split; congruence).
  destruct O as [An K F1 F2|Ty An [s [Hs A]] C S F Rs|i ch l l' Ty An St E R U C S|acc Ty An L O Pe S Ha R F|s Ty An Safe Off S R|s Ty An Safe Off S R|reason Ty An Ha E S R|Ty E Ha R S].
  - now apply outcome_rejected; auto.
  - apply outcome_started; auto; [exists s; split; congruence | congruence | rewrite <- K3; exact Rs].
  - rewrite K3 in U, R. eapply outcome_incident; eauto; congruence.
  - eapply outcome_stopped; eauto; congruence.
  - apply (outcome_reset _ _ _ _ _ _ _ s); auto; try congruence. destruct Safe as [S1 [S2 S2'] S3 S4 S5 S6 S7 S8]. rewrite <- ?K3 in *.
    split; auto; rewrite <- ?K3; auto; try congruence. split; congruence.
  - apply (outcome_resumed _ _ _ _ _ _ _ s); auto; try congruence. destruct Safe as [S1 S2 S3]. split; auto; congruence.
  - eapply outcome_halted; eauto; congruence.
  - apply outcome_flattening; auto; try congruence. destruct S as [S|S]; auto.
Qed.

Lemma execute_claimed_ok tx tx' ox : tx_ok sha256_hex tx ->
  execute_claimed sha256_hex uuid5 gateway database_role platform manifest worker_boot platform_run_id now tx = Ok (tx', ox) ->
  tx_ok sha256_hex tx' /\
  match ox with
  | None => unchanged tx tx' /\ Forall (fun r => claimable experiment_id r = false) (tx_commands tx)
  | Some x => exists c, claimed tx c /\ outcome sha256_hex manifest worker_boot tx tx' c x
  end.
Proof.
  intros T Hx. unfold execute_claimed in Hx. apply bind_Ok in Hx as ([tx1 oc] & Hc & Hx).
  destruct (tx_claim _ _ _ _ _ _ _ _ _ _ _ T Hc) as (T1 & K & Q). cbn [fst snd] in Hx.
  destruct oc as [c|]; [|injection Hx as <- <-; auto]. destruct Q as (Q1 & Q2 & Q3 & Q4).
  apply bind_Ok in Hx as ([tx2 x] & Hh & Hx). injection Hx as <- <-. cbn [fst snd].
  assert (R : tx_ok sha256_hex tx2 /\ outcome sha256_hex manifest worker_boot tx1 tx2 c x).
  { destruct (oc_command_type c) eqn:Ty.
    - eapply start_outcome; eassumption.
    - eapply pause_or_halt_outcome; [exact T1 | rewrite Ty; apply list_elem_of_here | exact Hh].
    - eapply resume_outcome; eassumption.
    - eapply stop_outcome; eassumption.
    - eapply pause_or_halt_outcome; [exact T1 | rewrite Ty; apply list_elem_of_further, list_elem_of_here | exact Hh].
    - eapply begin_flatten_outcome; eassumption.
    - eapply incident_outcome; [exact T1 | rewrite Ty; apply list_elem_of_here | exact Hh].
    - eapply incident_outcome; [exact T1 | rewrite Ty; apply list_elem_of_further, list_elem_of_here | exact Hh].
    - eapply reset_outcome; eassumption. }
  destruct R as [T2 O]. split; [exact T2|]. exists c. split; [unfold claimed; auto | exact (outcome_before _ _ _ _ _ K O)].
Qed.

(** Executions recorded one after the other; each leaves the account of the next. *)
Inductive recorded : P -> AccountState -> list PaperExecutionRecord -> P -> AccountState -> Prop :=
| recorded_none p a : recorded p a [] p a
| recorded_one p a l e p1 l1 next es p' final : record_execution p l e = Ok (p1, l1) -> pe_account e = Some next ->
    recorded p1 next es p' final -> recorded p a (e :: es) p' final.

(** A flatten that completes: the experiment stayed paused under the halt of
    the command, the account was the one the plan was made for, no order was
    pending, and the recorded executions leave every position flat. *)
Record flattened (tx tx' : Tx) (c : OperatorCommand) (plan : FlattenPlan) (x : OperatorCommandExecution) : Prop := {
  fl_answers : answers worker_boot CS_COMPLETED c x;
  fl_plan : fp_command_id plan = oc_command_id c;
  fl_status : status_of tx = Ok ES_PAUSED /\ status_of tx' = Ok ES_PAUSED;
  fl_control : halted_for sha256_hex manifest tx (flatten_reason c) /\ control_of tx' = control_of tx;
  fl_account : exists account final, load_account (tx_rest tx) experiment_id = Ok account /\
    same_account account (fp_source_account plan) = true /\ recorded (tx_rest tx) account (fp_executions plan) (tx_rest tx') final /\
    flat_account final = true;
  fl_orders : load_pending_orders (tx_rest tx) experiment_id = Ok []
}.

Lemma record_executions_ok executions : forall tx account tx' final, tx_ok sha256_hex tx ->
  record_executions tx account executions = Ok (tx', final) ->
  tx_ok sha256_hex tx' /\ status_of tx' = status_of tx /\ control_of tx' = control_of tx /\ tx_commands tx' = tx_commands tx /\
  recorded (tx_rest tx) account executions (tx_rest tx') final.
Proof.
  induction executions as [|e es IH]; intros tx account tx' final T Hr; cbn [record_executions] in Hr; [injection Hr as <- <-; split; [exact T|]; repeat (split; [reflexivity|]); constructor|].
  apply bind_Ok in Hr as ([p l] & He & Hr). apply bind_Ok in Hr as (next & Hn & Hr). apply of_option_Ok in Hn.
  pose proof (set_rest_ok _ _ p l T (record_execution_quiet _ _ _ _ _ He)) as T1.
  destruct (IH _ _ _ _ T1 Hr) as (T2 & S & C & M & R). repeat (split; [assumption|]). econstructor; [exact He | exact Hn | exact R].
Qed.

Lemma persist_flatten_ok tx c plan k tx' x : tx_ok sha256_hex tx -> fp_command_id plan = oc_command_id c ->
  persist_flatten sha256_hex uuid5 gateway database_role platform manifest worker_boot now tx c plan k = Ok (tx', x) ->
  tx_ok sha256_hex tx' /\ flattened tx tx' c plan x.
Proof.
  intros T Ep Hx. unfold persist_flatten in Hx. apply bind_Ok in Hx as ([tx1 oc] & Hc & Hx).
  destruct (tx_claim _ _ _ _ _ _ _ _ _ _ _ T Hc) as (T1 & [K1 K2 K3] & _). cbn [fst snd] in Hx.
  apply bind_Ok in Hx as (u & _ & Hx). apply bind_Ok in Hx as (s & Hs & Hx). apply bind_Ok in Hx as (status & Hst & Hx).
  apply bind_Ok in Hx as (u1 & Hg & Hx). apply raise_if_Ok in Hg. repeat (apply orb_false_iff in Hg as [Hg ?]). bool_prop. subst status.
  apply bind_Ok in Hx as (account & Ha & Hx). apply bind_Ok in Hx as (u2 & Hsame & Hx). apply raise_if_Ok in Hsame. bool_prop.
  apply bind_Ok in Hx as (pending & Hp & Hx). apply bind_Ok in Hx as (u3 & Hn & Hx). apply raise_if_Ok in Hn. apply nonempty_false in Hn as ->.
  apply bind_Ok in Hx as ([tx2 final] & Hr & Hx). destruct (record_executions_ok _ _ _ _ _ T1 Hr) as (T2 & S2 & C2 & _ & R2). cbn [fst snd] in Hx.
  apply bind_Ok in Hx as (u4 & Hf & Hx). apply raise_if_Ok in Hf. bool_prop. apply bind_Ok in Hx as (u5 & _ & Hx). apply bind_Ok in Hx as (orders & _ & Hx).
  destruct (tx_complete_last _ _ _ _ _ manifest _ _ _ _ _ _ _ _ _ c T2 eq_refl Hx) as (T3 & [L1 L2 L3] & An & _). split; [exact T3|].
  split; [exact An | exact Ep | split; congruence | split; [exists s; split; [congruence | auto] | congruence] | | congruence].
  exists account, final. rewrite <- K3, L3. auto.
Qed.

Lemma insert_recent_In r l x : In x (insert_recent r l) -> x = r \/ In x l.
Proof.
  induction l as [|y l IH]; cbn [insert_recent]; [intros [<-|[]]; auto|]. cbv zeta. destruct (_ || _).
  - intros [<-|I]; auto.
  - intros [<-|I]; [right; now left|]. destruct (IH I) as [->|J]; [now left | right; now right].
Qed.

Lemma recent_In l x : In x (fold_right insert_recent [] l) -> In x l.
Proof. induction l as [|r l IH]; cbn [fold_right]; [auto|]. intros I. apply insert_recent_In in I as [-> |I]; [now left | right; auto]. Qed.

(** What is listed is stored. *)
Lemma listed st id status limit l c : commands_ok sha256_hex st -> list_for_experiment sha256_hex st id status limit = Ok l -> In c l ->
  exists r, In r (cm_rows st) /\ cm_command r = c.
Proof.
  intros C Hl I. unfold list_for_experiment in Hl. apply bind_Ok in Hl as (u & _ & Hl). apply mapM_Forall2 in Hl.
  apply In_nth_error in I as [n I]. rewrite <- nth_error_lookup in I || idtac.
  assert (E : exists r, In r (take (Z.to_nat limit) (fold_right insert_recent [] (List.filter (fun r => (oc_experiment_id (cm_command r) =? id) &&
      match status with Some s => bool_decide (oc_status (cm_command r) = s) | None => true end) (cm_rows st)))) /\ _verify sha256_hex r = Ok c).
  { revert n I. induction Hl as [|r c' rs cs Hr _ IH]; intros n I; [now destruct n|]. destruct n as [|n]; cbn in I.
    - injection I as <-. exists r. split; [now left | exact Hr].
    - destruct (IH n I) as (r' & J & V). exists r'. split; [now right | exact V]. }
  destruct E as (r & J & V). assert (Jr : In r (cm_rows st)).
  { assert (J2 : In r (fold_right insert_recent [] (List.filter (fun r => (oc_experiment_id (cm_command r) =? id) &&
      match status with Some s => bool_decide (oc_status (cm_command r) = s) | None => true end) (cm_rows st)))).
    { rewrite <- (take_drop (Z.to_nat limit)). apply in_app_iff. now left. }
    apply recent_In, filter_In in J2. apply J2. }
  exists r. split; [exact Jr|]. rewrite (verify_ok _ _ _ (row_ok_in _ _ _ C Jr)) in V. now injection V.
Qed.

(** Every call keeps the invariants; a call that raises changes at most who
    holds an accepted flatten command. *)
Lemma execution_ok planner tx tx' r : tx_ok sha256_hex tx -> execution planner tx = (tx', r) ->
  tx_ok sha256_hex tx' /\
  match r with
  | Raise _ | Ok None => unchanged tx tx'
  | Ok (Some x) => exists c, claimed tx c /\
      (outcome sha256_hex manifest worker_boot tx tx' c x \/
       exists prepare plan, planner = Some prepare /\ oc_command_type c = CMD_FLATTEN /\ prepare c = Ok plan /\ flattened tx tx' c plan x)
  end.
Proof.
  intros T Hx. assert (Single : begin_transaction (execute_claimed sha256_hex uuid5 gateway database_role platform manifest worker_boot platform_run_id now) tx = (tx', r) ->
    tx_ok sha256_hex tx' /\ match r with Raise _ | Ok None => unchanged tx tx' | Ok (Some x) => exists c, claimed tx c /\
      (outcome sha256_hex manifest worker_boot tx tx' c x \/
       exists prepare plan, planner = Some prepare /\ oc_command_type c = CMD_FLATTEN /\ prepare c = Ok plan /\ flattened tx tx' c plan x) end).
  { unfold begin_transaction. intros Hs. destruct (execute_claimed _ _ _ _ _ _ _ _ _ tx) as [[tx1 ox]|e] eqn:E; injection Hs as <- <-.
    - destruct (execute_claimed_ok _ _ _ T E) as [T1 Q]. split; [exact T1|]. destruct ox as [x|]; [|apply Q]. destruct Q as (c & Q1 & Q2). eauto.
    - split; [exact T | split; reflexivity]. }
  unfold execute_next in Hx. destruct planner as [prepare|]; [|exact (Single Hx)].
  destruct (list_for_experiment _ _ _ _ _) as [accepted|e] eqn:La; [|injection Hx as <- <-; split; [exact T | split; reflexivity]].
  destruct (List.filter is_flatten accepted) as [|c0 [|c1 rest]] eqn:Fl; [exact (Single Hx) | | injection Hx as <- <-; split; [exact T | split; reflexivity]].
  unfold begin_transaction at 1 in Hx.
  match type of Hx with context [match ?m with Ok _ => _ | Raise _ => _ end] => destruct m as [[tx1 c]|e] eqn:Hc end;
    [|injection Hx as <- <-; split; [exact T | split; reflexivity]].
  apply bind_Ok in Hc as ([tx2 oc] & Hcl & Hc). destruct (tx_claim _ _ _ _ _ _ _ _ _ _ _ T Hcl) as (T2 & K & Q). cbn [fst snd] in Hc.
  destruct oc as [c2|]; [|discriminate]. apply bind_Ok in Hc as (u & Hid & Hc). apply raise_if_Ok in Hid. bool_prop. injection Hc as <- <-.
  unfold _complete_flatten in Hx.
  assert (Rejects : forall reason_code detail tx3 r3, begin_transaction (fun tx => rejected sha256_hex uuid5 gateway database_role platform worker_boot now tx c2 1 reason_code detail) tx2 = (tx3, r3) ->
    tx_ok sha256_hex tx3 /\ match r3 with Raise _ => unchanged tx tx3 | Ok x => outcome sha256_hex manifest worker_boot tx tx3 c2 x end).
  { intros code detail tx3 r3 Hb. unfold begin_transaction in Hb. destruct (rejected _ _ _ _ _ _ _ tx2 _ _ _ _) as [[tx4 x]|e] eqn:E; injection Hb as <- <-; [|split; [exact T2 | exact K]].
    destruct (tx_reject _ _ _ _ _ manifest _ _ _ _ _ _ _ _ _ T2 E) as (T4 & K4 & En & F1 & F2). split; [exact T4|]. apply (outcome_before _ _ _ _ _ K).
    apply outcome_rejected; auto. exact (ends_answers _ _ _ _ _ _ En eq_refl). }
  assert (Typ : oc_command_type c2 = CMD_FLATTEN).
  { assert (I0 : In c0 (List.filter is_flatten accepted)) by (rewrite Fl; now left). apply filter_In in I0 as [I0 F0]. unfold is_flatten in F0. bool_prop.
    destruct (listed _ _ _ _ _ _ (to_commands _ _ T) La I0) as (r0 & Ir0 & E0). destruct Q as (_ & _ & _ & r1 & Ir1 & A1).
    pose proof (ca_same _ _ A1) as S1. assert (r1 = r0) as -> by (apply (NoDup_map_inj row_id _ r1 r0 (cs_ids _ _ (to_commands _ _ T)) Ir1 Ir0);
      unfold row_id; rewrite E0, <- (sr_id _ _ S1); assumption).
    rewrite (sr_type _ _ S1), E0. exact F0. }
  assert (Cl : claimed tx c2) by (destruct Q as (Q1 & Q2 & Q3 & Q4); repeat split; auto).
  destruct (prepare c2) as [plan|e] eqn:Pl.
  - destruct (negb (fp_command_id plan =? oc_command_id c2)) eqn:Bp; [injection Hx as <- <-; split; [exact T2 | exact K]|]. bool_prop.
    unfold begin_transaction in Hx. destruct (persist_flatten _ _ _ _ _ _ _ _ tx2 _ _ _) as [[tx4 x]|e] eqn:E; injection Hx as <- <-; [|split; [exact T2 | exact K]].
    destruct (persist_flatten_ok _ _ _ _ _ _ T2 Bp E) as [T4 F]. split; [exact T4|]. cbn [bind]. exists c2. split; [exact Cl|]. right.
    exists prepare, plan. repeat (split; [first [reflexivity | assumption]|]). destruct K as [K1 K2 K3]. destruct F as [F1 F2 [F3 F3'] F4 F5 F6].
    split; auto; rewrite <- ?K3; auto; [split; congruence|]. destruct F4 as [(s & Hs & A & R) F4]. split; [exists s; split; [congruence | auto] | congruence].
  - destruct (begin_transaction (fun tx => rejected sha256_hex uuid5 gateway database_role platform worker_boot now tx c2 1
        match e with FlattenPlanningError code _ => code | _ => "" end match e with FlattenPlanningError _ detail => detail | _ => "" end) tx2) as [tx3 r3] eqn:Br.
    destruct (Rejects _ _ _ _ Br) as [T3 O3]. destruct e; try (injection Hx as <- <-; split; [exact T2 | exact K]).
    rewrite Br in Hx. injection Hx as <- <-. split; [exact T3|]. destruct r3 as [x|e]; cbn [bind]; [eauto | exact O3].
Qed.
End Executed.

(** ** Reachable transactions *)

Section Platform.
Context {P : Type} {repos : OtherRepositories P}.
Context (sha256_hex : string -> string) (uuid5 : string -> UUID).
Context {column : JsonbColumn} (gateway : list AuditEvent -> audit_request -> result (list AuditEvent * Z)) (database_role : string) (platform : PlatformRows).
Context (manifest : ExperimentManifest) (worker_boot : UUID) (platform_run_id : option UUID) (now : nat -> datetime).

Local Abbreviation Tx := (Transaction_ P).
Local Abbreviation control_of tx := (controls_current sha256_hex manifest tx).
Local Abbreviation status_of tx := (experiment_status manifest tx).
Local Abbreviation worker := (worker_name worker_boot).

Definition empty_transaction (p : P) : Tx :=
  {| tx_experiments := empty_experiments; tx_controls := ∅; tx_commands := []; tx_audit := []; tx_rest := p |}.

(** What happens to the state that the executor shares: experiments are
    created, controls initialised and halted, commands requested, other
    repositories write, and workers call the executor, whatever their clock. *)
Inductive operator_step : Tx -> Tx -> Prop :=
| os_experiment tx m x' : experiment_create sha256_hex (tx_experiments tx) m = Ok x' -> operator_step tx (set_experiments tx x')
| os_initialize tx id t actor st' s : controls_initialize sha256_hex (control_store tx) id t actor = Ok (st', s) -> operator_step tx (set_controls tx st')
| os_halt tx id reason t actor st' s : controls_halt sha256_hex (control_store tx) id reason t actor = Ok (st', s) -> operator_step tx (set_controls tx st')
| os_fail tx m reason t x' b : fail_active sha256_hex (tx_experiments tx) m reason t = Ok (x', b) -> operator_step tx (set_experiments tx x')
| os_enqueue tx c st' w : OperatorCommand_post_init c = Ok c -> enqueue sha256_hex (command_store tx) c = Ok (st', w) -> operator_step tx (set_commands tx st')
| os_rest tx p l : quiet (tx_ledger tx) l -> operator_step tx (set_rest tx (p, l))
| os_execute boot run clock planner tx tx' r :
    execute_next sha256_hex uuid5 gateway database_role platform manifest boot run clock planner tx = (tx', r) -> operator_step tx tx'.

Lemma operator_step_ok tx tx' : tx_ok sha256_hex tx -> operator_step tx tx' -> tx_ok sha256_hex tx'.
Proof.
  intros T S. revert T. destruct S as [tx m x' H|tx id t actor st' s H|tx id reason t actor st' s H|tx m reason t x' b H|tx c st' w V H|tx p l Q|boot run clock planner tx tx' r H]; intros T.
  - destruct (create_ok _ _ _ _ (to_experiments _ _ T) H) as [X _]. apply (set_experiments_ok _ _ _ T X). unfold experiment_create in H.
    apply bind_Ok in H as (h & _ & H). destruct (_ !! _); [find_append H; injection H as <-; apply touches_refl|].
    repeat (apply bind_Ok in H as (? & ? & H)). injection H as <-. cbn [xs_ledger].
    match goal with A : append _ _ _ _ _ = Ok ?r |- _ => destruct r as [l stored]; exact (append_touches _ _ _ _ _ _ _ A) end.
  - destruct (initialize_ok _ _ _ _ _ _ _ (to_controls _ _ T) H) as (C & _). apply (set_controls_ok _ _ _ T C). unfold controls_initialize in H.
    apply bind_Ok in H as (c & _ & H). destruct (_ !! _); find_append H; injection H as <- <-; [exact (touches_refl _ (tx_ledger tx))|].
    match goal with W : write_control _ _ _ _ _ _ = Ok _ |- _ => exact (write_control_touches _ _ _ _ _ _ _ W) end.
  - destruct (halt_ok _ _ _ _ _ _ _ _ (to_controls _ _ T) H) as (C & _). exact (set_controls_ok _ _ _ T C (halt_touches _ _ _ _ _ _ _ _ H)).
  - destruct (experiment_step_ok _ _ _ (to_experiments _ _ T) (step_fail _ _ _ _ _ _ _ H)) as [X _]. apply (set_experiments_ok _ _ _ T X).
    unfold fail_active in H. apply bind_Ok in H as (row & _ & H). destruct (bool_decide _); py_inv; [apply touches_refl|].
    match goal with L : lifecycle_fail _ _ _ _ _ _ = Ok _ |- _ => apply lifecycle_fail_Ok in L; eapply (transition_effect _ _ _ _ _ _ _ _ _ _ L); eassumption end.
  - destruct (enqueue_ok _ _ _ _ _ (to_commands _ _ T) V H) as (C & _). apply (set_commands_ok _ _ _ T C). unfold enqueue in H.
    apply bind_Ok in H as (u & _ & H). apply bind_Ok in H as (h & _ & H). destruct (existsb _ _); find_append H; injection H as <- <-; [exact (touches_refl _ (tx_ledger tx))|].
    match goal with A : append _ _ _ _ _ = Ok ?r |- _ => destruct r as [l stored]; exact (append_touches _ _ _ _ _ _ _ A) end.
  - exact (set_rest_ok _ _ _ _ T Q).
  - exact (proj1 (execution_ok _ _ _ _ _ _ _ _ _ _ _ _ _ T H)).
Qed.

Lemma reachable_ok p tx : star operator_step (empty_transaction p) tx -> tx_ok sha256_hex tx.
Proof.
  assert (T0 : tx_ok sha256_hex (empty_transaction p)) by (split; [exact empty_experiments_ok | exact (empty_controls_ok _) | exact (empty_commands_ok _)]).
  intros R. induction R as [|a b c S _ IH]; [exact T0 | apply IH; exact (operator_step_ok _ _ T0 S)].
Qed.
End Platform.

Lemma outcome_books {P} {repos : OtherRepositories P} {books : KeepsBooks P} sha256_hex manifest worker_boot tx tx' c x :
  outcome sha256_hex manifest worker_boot tx tx' c x -> same_books (tx_rest tx) (tx_rest tx').
Proof.
  assert (Refl : tx_rest tx' = tx_rest tx -> same_books (tx_rest tx) (tx_rest tx')) by (intros ->; split; reflexivity).
  destruct 1 as [An K _ _|Ty An _ C S _ [E|(cs & au & run & boot & t & au' & E)]|i ch l l' Ty An St E R2 U C S|acc Ty An L O Pe S Ha R2 _|s0 Ty An Safe Off S R2|s0 Ty An Safe Off S R2|reason Ty An Ha E2 S R2|Ty E2 Ha R2 S];
    auto; [apply Refl, K | exact (activate_run_books _ _ _ _ _ _ _ _ _ E) | exact (incident_record_books _ _ _ _ _ R2)].
Qed.


(** C22: The kill switch is only cleared on purpose and only when it is safe.  When
    a call of the worker finds the switch on and leaves it off, it completed
    one command that an operator confirmed: a reset of exactly the control
    that the operator saw, with the experiment paused, the account flat and
    no order, recovery or incident in the way; or a resumption of an
    operator's pause.  And a call that leaves the experiment running which was
    not running before leaves the switch off. *)
Theorem kill_switch_cleared_safely {P} {repos : OtherRepositories P} {column : JsonbColumn} sha256_hex uuid5 gateway database_role platform manifest worker_boot
    platform_run_id now (p : P) tx planner tx' r
  (R : star (operator_step sha256_hex uuid5 gateway database_role platform manifest) (empty_transaction p) tx)
  (E : execute_next sha256_hex uuid5 gateway database_role platform manifest worker_boot platform_run_id now planner tx = (tx', r)) :
  (forall s, controls_current sha256_hex manifest tx = Ok s -> tc_kill_switch_active s = true -> switch_off sha256_hex manifest tx' ->
     exists c x, r = Ok (Some x) /\ claimed manifest worker_boot tx c /\ oc_operator_confirmed c = true /\ answers worker_boot CS_COMPLETED c x /\
       ((oc_command_type c = CMD_RESET_KILL_SWITCH /\ reset_is_safe sha256_hex manifest tx c s) \/
        (oc_command_type c = CMD_RESUME /\ resume_is_safe sha256_hex manifest tx c s))) /\
  (experiment_status manifest tx' = Ok ES_RUNNING -> experiment_status manifest tx = Ok ES_RUNNING \/ switch_off sha256_hex manifest tx').
Proof.
  pose proof (reachable_ok _ _ _ _ _ _ _ _ R) as T. destruct (execution_ok _ _ _ _ _ _ _ _ _ _ _ _ _ T E) as [T' Q].
  assert (Confirmed : forall c, claimed manifest worker_boot tx c -> safety_critical (oc_command_type c) = true -> oc_operator_confirmed c = true).
  { intros c (_ & _ & _ & r0 & I & A) S. pose proof (ca_same _ _ A) as Sm. rewrite (sr_confirmed _ _ Sm). rewrite (sr_type _ _ Sm) in S.
    destruct (command_post_init_Ok _ _ (cr_valid _ _ _ (row_ok_in _ _ _ (to_commands _ _ T) I))) as (_ & _ & _ & _ & _ & _ & _ & F). now apply F. }
  split.
  - intros s Hs A (s' & Hs' & A').
    assert (Kept : kept sha256_hex manifest tx tx' -> False) by (intros [_ K _]; congruence).
    assert (On : forall reason, halted_for sha256_hex manifest tx' reason -> False) by (intros reason (s2 & H2 & A2 & _); congruence).
    assert (Same : controls_current sha256_hex manifest tx' = controls_current sha256_hex manifest tx -> False) by congruence.
    destruct r as [[x|]|e]; try (now destruct (Kept Q)). destruct Q as (c & Cl & [O|(prepare & plan & _ & _ & _ & F)]).
    + destruct O as [An K _ _|Ty An [s0 [H0 A0]] C S _ _|i ch l l' Ty An St E2 R2 U C S|acc Ty An L O Pe S Ha R2 _|s0 Ty An Safe Off S R2|s0 Ty An Safe Off S R2|reason Ty An Ha E2 S R2|Ty E2 Ha R2 S];
        try (now destruct (Kept K)); try (now destruct (Same C)); try (now destruct (On _ Ha)).
      * assert (s0 = s) as -> by (destruct (rk_control _ _ _ _ _ Safe); congruence). exists c, x.
        split; [reflexivity|]. split; [exact Cl|]. split; [apply (Confirmed c Cl); now rewrite Ty|]. split; [exact An | auto].
      * assert (s0 = s) as -> by (pose proof (rm_control _ _ _ _ _ Safe); congruence). exists c, x.
        split; [reflexivity|]. split; [exact Cl|]. split; [apply (Confirmed c Cl); now rewrite Ty|]. split; [exact An | auto].
    + destruct (Same (proj2 (fl_control _ _ _ _ _ _ _ _ F))).
  - intros S'. destruct r as [[x|]|e]; try (left; rewrite <- (kp_status _ _ _ _ Q); exact S'). destruct Q as (c & Cl & [O|(prepare & plan & _ & _ & _ & F)]).
    + destruct O as [An K _ _|Ty An [s0 [H0 A0]] C S _ _|i ch l l' Ty An St E2 R2 U C S|acc Ty An L O Pe S Ha R2 _|s0 Ty An Safe Off S R2|s0 Ty An Safe Off S R2|reason Ty An Ha E2 S R2|Ty E2 Ha R2 S]; try congruence; auto.
      * left. rewrite <- (kp_status _ _ _ _ K). exact S'.
      * right. exists s0. split; congruence.
      * left. congruence.
      * destruct S as [K|S]; [left; rewrite <- (kp_status _ _ _ _ K); exact S' | congruence].
    + destruct (fl_status _ _ _ _ _ _ _ _ F). congruence.
Qed.

(** ** Witness *)

#[export] Program Instance toy_repositories : OtherRepositories AccountState := {
  load_account p _ := Ok p;
  load_pending_orders _ _ := Ok [];
  get_blocking_recoveries _ _ := Ok [];
  incident_get _ _ := Raise (LookupError "incident does not exist");
  get_unresolved _ _ := Ok [];
  incident_record p l _ := Ok (p, l);
  record_execution p l e := Ok (default p (pe_account e), l);
  activate_run p _ audit _ _ _ _ := Ok (p, audit)
}.
Next Obligation. intros p l i p' l' [= <- <-]. split; auto. Qed.
Next Obligation. intros p l x p' l' [= <- <-]. split; auto. Qed.

#[local] Existing Instance verbatim_column.

#[export] Instance toy_keeps_books : KeepsBooks AccountState.
Proof. split; cbn; [intros p l i p' l' [= <- _] | intros p cs au run c b t p' au' [= <- _]]; split; reflexivity. Qed.

Definition toy_account : AccountState := {| ac_experiment_id := 7; ac_initial_capital := mkdec 1000 0; ac_currency := "USDT"; ac_leverage := 1;
  ac_cash_balance := mkdec 1000 0; ac_peak_equity := mkdec 1000 0; ac_positions := []; ac_version := 0; ac_updated_at := None |}.

(** Different names of the sample get different identifiers. *)
Definition toy_uuid (name : string) : UUID :=
  fold_left (fun acc c => (acc * 131 + Z.of_nat (nat_of_ascii c)) mod 2305843009213693951) (list_ascii_of_string name) 1.

Local Abbreviation toy_call clock tx :=
  (execute_next toy_sha toy_uuid no_gateway "maais_owner" toy_platform sample_manifest 3 None (fun k => utc (clock + Z.of_nat k)) None tx).

Definition operator_request (id : UUID) (ty : CommandType) (key : string) (payload : pyval) (at_us : Z) : result OperatorCommand :=
  request toy_sha id 7 ty key "operator" "drill" payload (Some (confirmation_phrase ty)) (utc at_us).
Definition request_of (r : result OperatorCommand) : OperatorCommand := match r with Ok c => c | Raise _ => pause_command end.

Definition start_request : OperatorCommand := Eval vm_compute in request_of (operator_request 1 CMD_START "start-0001" (PDict []) 20).
Definition pause_request : OperatorCommand := Eval vm_compute in request_of (operator_request 2 CMD_PAUSE "pause-0001" (PDict []) 30).
Definition resume_request : OperatorCommand :=
  Eval vm_compute in request_of (operator_request 3 CMD_RESUME "resume-0001" (PDict [("expected_control_version", PInt 2)]) 40).

Definition enqueued_tx (tx : Transaction_ AccountState) (c : OperatorCommand) : Transaction_ AccountState :=
  match enqueue toy_sha (command_store tx) c with Ok (st, _) => set_commands tx st | Raise _ => tx end.

Definition tx_0 : Transaction_ AccountState := Eval vm_compute in
  match experiment_create toy_sha empty_experiments sample_manifest with Ok x => set_experiments (empty_transaction toy_account) x | Raise _ => empty_transaction toy_account end.
Definition tx_1 : Transaction_ AccountState := Eval vm_compute in
  match controls_initialize toy_sha (control_store tx_0) 7 (utc 10) "system" with Ok (st, _) => set_controls tx_0 st | Raise _ => tx_0 end.
Definition tx_2 : Transaction_ AccountState := Eval vm_compute in enqueued_tx tx_1 start_request.
Definition tx_3 : Transaction_ AccountState := Eval vm_compute in fst (toy_call 25 tx_2).
Definition tx_4 : Transaction_ AccountState := Eval vm_compute in enqueued_tx tx_3 pause_request.
Definition tx_5 : Transaction_ AccountState := Eval vm_compute in fst (toy_call 35 tx_4).
Definition tx_6 : Transaction_ AccountState := Eval vm_compute in enqueued_tx tx_5 resume_request.
Definition tx_7 : Transaction_ AccountState := Eval vm_compute in fst (toy_call 45 tx_6).

Local Abbreviation toy_step := (operator_step toy_sha toy_uuid no_gateway "maais_owner" toy_platform sample_manifest).

Lemma toy_execute clock tx : toy_step tx (fst (toy_call clock tx)).
Proof.
  exact (os_execute toy_sha toy_uuid no_gateway "maais_owner" toy_platform sample_manifest 3 None
    (fun k => utc (clock + Z.of_nat k)) None tx _ _ (surjective_pairing (toy_call clock tx))).
Qed.

Lemma toy_enqueue tx tx' c : OperatorCommand_post_init c = Ok c ->
  match enqueue toy_sha (command_store tx) c with Ok (st, _) => set_commands tx st = tx' | Raise _ => False end -> toy_step tx tx'.
Proof.
  intros V E. destruct (enqueue _ _ _) as [[st w]|] eqn:Q; [subst tx'|now destruct E].
  exact (os_enqueue _ _ _ _ _ _ tx c st w V Q).
Qed.

Ltac toy_enqueued c := apply (toy_enqueue _ _ c); [vm_compute; reflexivity | vm_compute; reflexivity].

Lemma toy_run_2 : star toy_step (empty_transaction toy_account) tx_2.
Proof.
  eapply star_step; [eapply (os_experiment _ _ _ _ _ _ _ sample_manifest (tx_experiments tx_0)); vm_compute; reflexivity|].
  eapply star_step; [eapply (os_initialize _ _ _ _ _ _ tx_0 7 (utc 10) "system" (control_store tx_1)); vm_compute; reflexivity|].
  apply star_one. change (set_controls tx_0 (control_store tx_1)) with tx_1. toy_enqueued start_request.
Qed.

Definition toy_answer (clock : Z) (tx : Transaction_ AccountState) : option OperatorCommandExecution :=
  match snd (toy_call clock tx) with Ok x => x | Raise _ => None end.
Definition answer_3 : option OperatorCommandExecution := Eval vm_compute in toy_answer 25 tx_2.
Definition answer_5 : option OperatorCommandExecution := Eval vm_compute in toy_answer 35 tx_4.
Definition answer_7 : option OperatorCommandExecution := Eval vm_compute in toy_answer 45 tx_6.

Lemma toy_call_3 : toy_call 25 tx_2 = (tx_3, Ok answer_3).
Proof. vm_compute. reflexivity. Qed.
Lemma toy_call_5 : toy_call 35 tx_4 = (tx_5, Ok answer_5).
Proof. vm_compute. reflexivity. Qed.
Lemma toy_call_7 : toy_call 45 tx_6 = (tx_7, Ok answer_7).
Proof. vm_compute. reflexivity. Qed.

Lemma toy_run_4 : star toy_step (empty_transaction toy_account) tx_4.
Proof.
  eapply star_trans; [exact toy_run_2|].
  eapply star_step; [apply (toy_execute 25)|]. rewrite toy_call_3. cbn [fst].
  apply star_one. toy_enqueued pause_request.
Qed.

Lemma toy_run_6 : star toy_step (empty_transaction toy_account) tx_6.
Proof.
  eapply star_trans; [exact toy_run_4|].
  eapply star_step; [apply (toy_execute 35)|]. rewrite toy_call_5. cbn [fst].
  apply star_one. toy_enqueued resume_request.
Qed.



Definition initial_control : TradingControlSnapshot :=
  {| tc_experiment_id := 7; tc_kill_switch_active := false; tc_reason := None; tc_changed_at := utc 10; tc_changed_by := "system"; tc_version := 0 |}.
Definition control_6 : TradingControlSnapshot := Eval vm_compute in
  match controls_current toy_sha sample_manifest tx_6 with Ok s => s | Raise _ => initial_control end.
Definition control_7 : TradingControlSnapshot := Eval vm_compute in
  match controls_current toy_sha sample_manifest tx_7 with Ok s => s | Raise _ => initial_control end.

Lemma toy_control_6 : controls_current toy_sha sample_manifest tx_6 = Ok control_6.
Proof. vm_compute. reflexivity. Qed.
Lemma toy_control_7 : controls_current toy_sha sample_manifest tx_7 = Ok control_7.
Proof. vm_compute. reflexivity. Qed.

Lemma kill_switch_cleared_safely_witness :
  exists c, claimed sample_manifest 3 tx_6 c /\ oc_operator_confirmed c = true /\
    (reset_is_safe toy_sha sample_manifest tx_6 c control_6 \/ resume_is_safe toy_sha sample_manifest tx_6 c control_6).
Proof.
  destruct (proj1 (kill_switch_cleared_safely _ _ _ _ _ _ _ _ _ _ _ _ _ _ toy_run_6 toy_call_7) control_6 toy_control_6 eq_refl
              (ex_intro _ control_7 (conj toy_control_7 eq_refl)))
    as (c & x & _ & C & O & _ & [(_ & Safe)|(_ & Safe)]); exists c; auto.
Defined.
