(* ===== verification/Leases.v ===== *)
(** * Worker leases: [maais/db/repositories/workers.py]

    One row per experiment says which worker owns it, until when and in which
    epoch.  Acquisitions and releases are events of the stream of the
    experiment; renewals only move the row. *)

From Stdlib Require Import ZArith Lia List Bool String Ascii.
From stdpp Require Import base decidable list strings gmap.
From S2P Require Import Prelude PyDecimal Domain Json MarketEvents EventLog Checkpoints Ledger Experiments Controls.

Local Open Scope Z_scope.

#[export] Instance WorkerLeaseStatus_value : StrEnum WorkerLeaseStatus := fun s =>
  match s with LEASE_ACTIVE => "active" | LEASE_RELEASED => "released" end.

(** The leases, the experiments that their foreign key refers to, and the ledger. *)
Record LeaseStore : Type := { le_experiments : list UUID; le_rows : gmap UUID WorkerLease; le_ledger : Ledger }.

Definition empty_leases : LeaseStore := {| le_experiments := []; le_rows := ∅; le_ledger := empty_ledger |}.

Definition _validate_request (experiment_id worker_id : UUID) (observed_at : datetime) (ttl : timedelta) : result unit :=
  do* raise_if ((experiment_id =? 0) || (worker_id =? 0)) (ValueError "worker lease UUIDs cannot be nil") ;;
  do* require_utc observed_at "worker lease observed_at" ;;
  raise_if (ttl <=? 0) (ValueError "worker lease TTL must be positive").

Definition py_option {A} (f : A -> pyval) (o : option A) : pyval := match o with Some a => f a | None => PNone end.

Definition lease_payload (l : WorkerLease) (previous : option WorkerLease) : pyval := PDict
  [("experiment_id", PUuid (wl_experiment_id l)); ("worker_id", PUuid (wl_worker_id l)); ("status", PEnum (enum_value (wl_status l)));
   ("acquired_at", PTime (wl_acquired_at l)); ("heartbeat_at", PTime (wl_heartbeat_at l)); ("expires_at", PTime (wl_expires_at l));
   ("released_at", py_option PTime (wl_released_at l)); ("epoch", PInt (wl_epoch l));
   ("previous_worker_id", py_option (fun p => PUuid (wl_worker_id p)) previous);
   ("previous_epoch", py_option (fun p => PInt (wl_epoch p)) previous)].

Definition _append_transition (ledger : Ledger) (l : WorkerLease) (event_type : string) (previous : option WorkerLease) : result Ledger :=
  let* occurred_at := if bool_decide (wl_status l = LEASE_RELEASED) then of_option AssertionError (wl_released_at l)
                      else Ok (wl_acquired_at l) in
  let expected := stream_version ledger ("worker_lease", wl_experiment_id l) in
  let* event := _new_event (wl_experiment_id l) "worker_lease" event_type (lease_payload l previous) occurred_at in
  let* r := append ledger (wl_experiment_id l) "worker_lease" expected [event] in
  Ok (fst r).

(** The row is written and the transition recorded. *)
Definition write_lease (st : LeaseStore) (l : WorkerLease) (event_type : string) (previous : option WorkerLease)
  : result (LeaseStore * WorkerLease) :=
  let* ledger := _append_transition (le_ledger st) l event_type previous in
  Ok ({| le_experiments := le_experiments st; le_rows := <[wl_experiment_id l := l]> (le_rows st); le_ledger := ledger |}, l).

Definition acquire (st : LeaseStore) (experiment_id worker_id : UUID) (acquired_at : datetime) (ttl : timedelta)
  : result (LeaseStore * WorkerLease) :=
  do* _validate_request experiment_id worker_id acquired_at ttl ;;
  let candidate epoch := WorkerLease_post_init {|
    wl_experiment_id := experiment_id; wl_worker_id := worker_id; wl_status := LEASE_ACTIVE; wl_acquired_at := acquired_at;
    wl_heartbeat_at := acquired_at; wl_expires_at := dt_add acquired_at ttl; wl_released_at := None; wl_epoch := epoch |} in
  match le_rows st !! experiment_id with
  | None =>
      do* raise_if (negb (bool_decide (elem_of experiment_id (le_experiments st)))) (IntegrityError "worker_leases.experiment_id") ;;
      let* lease := candidate 1 in write_lease st lease "worker_lease.acquired" None
  | Some row =>
      let* existing := WorkerLease_post_init row in
      let* valid := valid_at existing acquired_at in
      if lease_active existing && valid then
        do* raise_if (negb (wl_worker_id existing =? worker_id))
              (WorkerLeaseConflict "experiment lease is held by another worker") ;;
        Ok (st, existing)
      else
        let* lease := candidate (wl_epoch existing + 1) in
        write_lease st lease
          (if lease_active existing && negb (wl_worker_id existing =? worker_id) then "worker_lease.taken_over"
           else "worker_lease.reacquired") (Some existing)
  end.

Definition lease_locked (st : LeaseStore) (experiment_id : UUID) : result WorkerLease :=
  let* row := of_option (LookupError "worker lease does not exist") (le_rows st !! experiment_id) in
  WorkerLease_post_init row.

Definition renew (st : LeaseStore) (experiment_id worker_id : UUID) (heartbeat_at : datetime) (ttl : timedelta)
  : result (LeaseStore * WorkerLease) :=
  do* _validate_request experiment_id worker_id heartbeat_at ttl ;;
  let* current := lease_locked st experiment_id in
  do* raise_if (negb (lease_active current) || negb (wl_worker_id current =? worker_id))
        (WorkerLeaseConflict "worker does not own the active experiment lease") ;;
  let* valid := valid_at current heartbeat_at in
  do* raise_if (negb valid) (WorkerLeaseExpired "worker lease expired before heartbeat renewal") ;;
  do* raise_if (dt_ltb heartbeat_at (wl_heartbeat_at current)) (WorkerLeaseConflict "worker lease heartbeat cannot regress") ;;
  let* renewed := WorkerLease_post_init {|
    wl_experiment_id := wl_experiment_id current; wl_worker_id := wl_worker_id current; wl_status := wl_status current;
    wl_acquired_at := wl_acquired_at current; wl_heartbeat_at := heartbeat_at; wl_expires_at := dt_add heartbeat_at ttl;
    wl_released_at := wl_released_at current; wl_epoch := wl_epoch current |} in
  Ok ({| le_experiments := le_experiments st; le_rows := <[experiment_id := renewed]> (le_rows st); le_ledger := le_ledger st |}, renewed).

Definition release (st : LeaseStore) (experiment_id worker_id : UUID) (released_at : datetime) : result (LeaseStore * WorkerLease) :=
  do* require_utc released_at "worker lease released_at" ;;
  let* current := lease_locked st experiment_id in
  do* raise_if (negb (wl_worker_id current =? worker_id)) (WorkerLeaseConflict "worker cannot release another worker's lease") ;;
  if negb (lease_active current) then Ok (st, current)
  else
    do* raise_if (dt_ltb released_at (wl_heartbeat_at current))
          (WorkerLeaseConflict "worker lease release cannot precede its heartbeat") ;;
    let* released := WorkerLease_post_init {|
      wl_experiment_id := wl_experiment_id current; wl_worker_id := wl_worker_id current; wl_status := LEASE_RELEASED;
      wl_acquired_at := wl_acquired_at current; wl_heartbeat_at := wl_heartbeat_at current; wl_expires_at := released_at;
      wl_released_at := Some released_at; wl_epoch := wl_epoch current |} in
    write_lease st released "worker_lease.released" (Some current).

Definition get (st : LeaseStore) (experiment_id : UUID) : result WorkerLease := lease_locked st experiment_id.

(** What reaches the leases and the ledger, whatever clock each worker has. *)
Inductive lease_step : LeaseStore -> LeaseStore -> Prop :=
| step_acquire st id w t ttl st' l : acquire st id w t ttl = Ok (st', l) -> lease_step st st'
| step_renew st id w t ttl st' l : renew st id w t ttl = Ok (st', l) -> lease_step st st'
| step_release st id w t st' l : release st id w t = Ok (st', l) -> lease_step st st'
| step_experiments st experiments :
    lease_step st {| le_experiments := experiments; le_rows := le_rows st; le_ledger := le_ledger st |}
| step_elsewhere st id ty v events l' stored : ty <> "worker_lease" -> append (le_ledger st) id ty v events = Ok (l', stored) ->
    lease_step st {| le_experiments := le_experiments st; le_rows := le_rows st; le_ledger := l' |}.


(** ** Facts *)

Definition lease_key (id : UUID) : stream_key := ("worker_lease", id).
Definition lease_valid (l : WorkerLease) : Prop := WorkerLease_post_init l = Ok l.

Record lease_facts (l : WorkerLease) : Prop := {
  lf_ids : wl_experiment_id l <> 0 /\ wl_worker_id l <> 0;
  lf_utc : is_utc (wl_acquired_at l) = true /\ is_utc (wl_heartbeat_at l) = true /\ is_utc (wl_expires_at l) = true;
  lf_epoch : 0 < wl_epoch l;
  lf_heartbeat : instant (wl_acquired_at l) <= instant (wl_heartbeat_at l);
  lf_active : lease_active l = true -> wl_released_at l = None /\ instant (wl_heartbeat_at l) < instant (wl_expires_at l);
  lf_released : lease_active l = false -> exists t, wl_released_at l = Some t /\ is_utc t = true /\ instant (wl_heartbeat_at l) <= instant t
}.

Lemma lease_post_init_same l l' : WorkerLease_post_init l = Ok l' -> l' = l.
Proof. unfold WorkerLease_post_init. intros H. py_inv. reflexivity. Qed.

Lemma checkpoint_utc_iff t : checkpoint_utc t = Ok tt <-> is_utc t = true.
Proof. unfold checkpoint_utc. apply _require_utc_Ok. Qed.

Lemma lease_valid_facts l : lease_valid l <-> lease_facts l.
Proof.
  unfold lease_valid, WorkerLease_post_init. split.
  - intros H. py_inv. bool_prop.
    match goal with H : iterM _ _ = Ok _ |- _ => cbn [iterM] in H; py_inv end.
    repeat match goal with u : unit |- _ => destruct u end.
    repeat match goal with H : checkpoint_utc _ = Ok _ |- _ => apply checkpoint_utc_iff in H end.
    assert (A : lease_active l = bool_decide (wl_status l = LEASE_ACTIVE)) by reflexivity.
    split; auto; [unfold dt_ltb in *; bool_prop; lia | |]; intros Ha; rewrite A in Ha; rewrite Ha in *; py_inv; unfold dt_leb, dt_ltb in *; bool_prop.
    + split; [now destruct (wl_released_at l) | lia].
    + destruct (wl_released_at l) as [t|]; [|discriminate]. bool_prop. cbn [opt_check] in *.
      match goal with H : checkpoint_utc _ = Ok _ |- _ => apply checkpoint_utc_iff in H end. eauto.
  - intros [[I1 I2] (U1 & U2 & U3) E Hb A R].
    pass; [now rewrite (proj2 (Z.eqb_neq _ _) I1), (proj2 (Z.eqb_neq _ _) I2)|].
    pass. { cbn [iterM]. rewrite !(proj2 (checkpoint_utc_iff _)) by assumption. reflexivity. }
    pass. { destruct (lease_active l) eqn:L; [destruct (A eq_refl) as [-> _]; reflexivity|].
            destruct (R eq_refl) as (t & -> & U & _). now apply checkpoint_utc_iff. }
    pass. { unfold dt_ltb. rewrite (proj2 (Z.leb_gt _ _)) by lia. now rewrite (proj2 (Z.ltb_ge _ _)) by lia. }
    pass; [|reflexivity]. fold (lease_active l). destruct (lease_active l).
    + destruct (A eq_refl) as [-> L]. unfold dt_leb. now rewrite (proj2 (Z.leb_gt _ _)) by lia.
    + destruct (R eq_refl) as (t & -> & _ & L). unfold dt_ltb. now rewrite (proj2 (Z.ltb_ge _ _)) by lia.
Qed.

Lemma valid_at_Ok l t : is_utc t = true -> valid_at l t = Ok (lease_active l && dt_ltb t (wl_expires_at l)).
Proof. intros U. unfold valid_at. now rewrite (proj2 (checkpoint_utc_iff t) U). Qed.

Lemma lease_request_Ok id w t ttl : _validate_request id w t ttl = Ok tt <-> id <> 0 /\ w <> 0 /\ is_utc t = true /\ 0 < ttl.
Proof.
  unfold _validate_request, require_utc. split.
  - intros H. py_inv. bool_prop. lia || auto.
  - intros (H1 & H2 & U & T). pass; [now rewrite (proj2 (Z.eqb_neq _ _) H1), (proj2 (Z.eqb_neq _ _) H2)|].
    pass; [now rewrite U|]. now rewrite (proj2 (Z.leb_gt _ _)) by lia.
Qed.

(** *** The audit trail of a lease *)

Definition is_acquisition (s : StoredDomainEvent) : bool := negb (bool_decide (de_event_type (sd_event s) = "worker_lease.released")).

(** Epoch and worker of each acquisition, in order. *)
Definition owners (l : Ledger) (id : UUID) : list (option json * option json) :=
  map (fun s => (payload_get (de_payload (sd_event s)) "epoch", payload_get (de_payload (sd_event s)) "worker_id"))
    (List.filter is_acquisition (stream_of l (lease_key id))).

Definition epoch_entry (l : WorkerLease) : option json * option json := (Some (JInt (wl_epoch l)), Some (JStr (uuid_str (wl_worker_id l)))).

(** The trail has one acquisition per epoch, the last one by the owner of the row. *)
Record trail_ok (l : Ledger) (id : UUID) (row : WorkerLease) : Prop := {
  tl_epochs : map fst (owners l id) = map (fun n => Some (JInt n)) (zrange 1 (Z.to_nat (wl_epoch row)));
  tl_owner : last (owners l id) = Some (epoch_entry row)
}.

Lemma payload_entries l previous j : freeze_json (lease_payload l previous) = Ok j ->
  (payload_get j "epoch", payload_get j "worker_id") = epoch_entry l.
Proof. unfold lease_payload. destruct previous, (wl_released_at l); cbn [freeze_json mapM py_option fst snd]; intros H; py_inv; reflexivity. Qed.

Lemma lease_payload_total l previous : lease_facts l -> exists items, freeze_json (lease_payload l previous) = Ok (JObj items).
Proof.
  intros [_ (U1 & U2 & U3) _ _ A R]. unfold lease_payload. apply freeze_dict_total. cbn [freezable forallb snd py_option].
  rewrite U1, U2, U3. destruct (lease_active l) eqn:L; [destruct (A eq_refl) as [-> _] | destruct (R eq_refl) as (t & -> & U & _)];
    destruct previous; cbn; rewrite ?U; reflexivity.
Qed.

Record leases_ok (st : LeaseStore) : Prop := {
  ls_ledger : ledger_ok (le_ledger st);
  ls_valid : forall id row, le_rows st !! id = Some row -> lease_facts row /\ wl_experiment_id row = id;
  ls_trail : forall id row, le_rows st !! id = Some row -> trail_ok (le_ledger st) id row;
  ls_absent : forall id, le_rows st !! id = None -> stream_of (le_ledger st) (lease_key id) = []
}.

Lemma empty_leases_ok : leases_ok empty_leases.
Proof. split; [apply empty_ledger_ok | | |]; intros id; cbn; rewrite ?lookup_empty; try discriminate; reflexivity. Qed.

(** A transition is recorded exactly when the lease is valid, behind whatever the stream holds. *)
Lemma lease_transition_total ledger l ty previous : ledger_ok ledger -> lease_facts l -> event_name ty = true ->
  exists ledger', _append_transition ledger l ty previous = Ok ledger'.
Proof.
  intros O F En. destruct (lease_payload_total l previous F) as [items Ef]. destruct F as [[I1 _] (U1 & _) _ _ A R]. unfold _append_transition.
  assert (T : exists t, (if bool_decide (wl_status l = LEASE_RELEASED) then of_option AssertionError (wl_released_at l) else Ok (wl_acquired_at l)) = Ok t
                        /\ is_utc t = true).
  { destruct (wl_status l) eqn:S; [exists (wl_acquired_at l); rewrite bool_decide_false by discriminate; auto|].
    destruct R as (t & -> & U & _); [unfold lease_active; rewrite S; reflexivity|]. exists t. now rewrite bool_decide_true. }
  destruct T as (t & Et & U).
  destruct (NewDomainEvent_init_total (wl_experiment_id l) "worker_lease" ty (lease_payload l previous) (PDict [("schema_revision", PStr "0009")]) t items _
    I1 eq_refl En U Ef eq_refl) as (e & Ee & Ek).
  destruct (append_total ledger (wl_experiment_id l) "worker_lease" [e] I1 eq_refl O ltac:(discriminate) ltac:(now constructor)) as (l' & stored & Ha).
  exists l'. cbv zeta. rewrite Et. cbn [bind]. eapply bind_pass; [exact Ee|]. cbv beta. eapply bind_pass; [exact Ha | reflexivity].
Qed.

Lemma transition_Ok ledger l ty previous ledger' : _append_transition ledger l ty previous = Ok ledger' ->
  exists s, stream_of ledger' (lease_key (wl_experiment_id l)) = stream_of ledger (lease_key (wl_experiment_id l)) ++ [s] /\
    de_event_type (sd_event s) = ty /\ (payload_get (de_payload (sd_event s)) "epoch", payload_get (de_payload (sd_event s)) "worker_id") = epoch_entry l /\
    (forall id, id <> wl_experiment_id l -> stream_of ledger' (lease_key id) = stream_of ledger (lease_key id)) /\
    (ledger_ok ledger -> ledger_ok ledger').
Proof.
  unfold _append_transition. intros H. apply bind_Ok in H as (t & _ & H). cbv zeta in H. apply bind_Ok in H as (e & He & H).
  apply bind_Ok in H as ([l' stored] & A & H). injection H as <-. apply NewDomainEvent_init_Ok in He as (_ & Ety & Ep & _).
  destruct (append_one _ _ _ _ _ _ _ A) as (_ & _ & S & O). eexists. split; [exact S|]. split; [exact Ety|]. split; [exact (payload_entries _ _ _ Ep)|].
  split; [intros id n; apply O; unfold lease_key; congruence|]. intros K. exact (append_ok _ _ _ _ _ _ _ K A).
Qed.


(** *** The operations *)

Definition epoch_of (row : option WorkerLease) : Z := match row with Some l => wl_epoch l | None => 0 end.

(** What a recorded transition may be: the next epoch, or the release of the present one. *)
Definition next_or_release (row : option WorkerLease) (l : WorkerLease) (ty : string) : Prop :=
  (ty <> "worker_lease.released" /\ wl_epoch l = epoch_of row + 1) \/
  (ty = "worker_lease.released" /\ exists r, row = Some r /\ epoch_entry l = epoch_entry r).

Lemma owners_snoc ledger ledger' id s : stream_of ledger' (lease_key id) = stream_of ledger (lease_key id) ++ [s] ->
  owners ledger' id = owners ledger id ++
    (if is_acquisition s then [(payload_get (de_payload (sd_event s)) "epoch", payload_get (de_payload (sd_event s)) "worker_id")] else []).
Proof. intros E. unfold owners. rewrite E, List.filter_app, map_app. cbn [List.filter]. now destruct (is_acquisition s). Qed.

Lemma write_trail st l ty previous st' l' : leases_ok st -> lease_facts l -> next_or_release (le_rows st !! wl_experiment_id l) l ty ->
  write_lease st l ty previous = Ok (st', l') ->
  l' = l /\ leases_ok st' /\ le_rows st' = <[wl_experiment_id l := l]> (le_rows st).
Proof.
  intros S F N H. unfold write_lease in H. apply bind_Ok in H as (ledger' & Ht & H). injection H as <- <-. cbn [le_rows].
  split; [reflexivity|]. split; [|reflexivity].
  destruct (transition_Ok _ _ _ _ _ Ht) as (s & Es & Ety & Ep & Eo & K). split; cbn [le_rows le_ledger].
  - exact (K (ls_ledger st S)).
  - intros id row E. destruct (decide (id = wl_experiment_id l)) as [->|n].
    + rewrite lookup_insert_eq in E. injection E as <-. auto.
    + rewrite lookup_insert_ne in E by congruence. exact (ls_valid st S id row E).
  - intros id row E. destruct (decide (id = wl_experiment_id l)) as [->|n].
    + rewrite lookup_insert_eq in E. injection E as <-. pose proof (owners_snoc _ _ _ _ Es) as O. rewrite Ep in O. unfold is_acquisition in O. rewrite Ety in O.
      destruct N as [[Nt Ne]|(Nt & r & Er & Ee)].
      * rewrite (bool_decide_false _ Nt) in O. cbn [negb] in O. split; [|rewrite O; apply last_snoc]. rewrite O, map_app. cbn [map fst epoch_entry].
        pose proof (lf_epoch l F). rewrite Ne. destruct (le_rows st !! wl_experiment_id l) as [r|] eqn:Er; cbn [epoch_of] in *.
        -- destruct (ls_valid st S _ _ Er) as [Fr _]. pose proof (lf_epoch r Fr). rewrite (tl_epochs _ _ _ (ls_trail st S _ _ Er)).
           replace (Z.to_nat (wl_epoch r + 1)) with (Datatypes.S (Z.to_nat (wl_epoch r))) by lia. rewrite zrange_snoc, map_app. cbn [map].
           now replace (1 + Z.of_nat (Z.to_nat (wl_epoch r))) with (wl_epoch r + 1) by lia.
        -- unfold owners. rewrite (ls_absent st S _ Er). reflexivity.
      * rewrite (bool_decide_true _ Nt) in O. cbn [negb] in O. rewrite app_nil_r in O. destruct (ls_trail st S _ _ Er) as [T1 T2].
        split; [|now rewrite O, T2, Ee]. rewrite O, T1. unfold epoch_entry in Ee. injection Ee as -> _. reflexivity.
    + rewrite lookup_insert_ne in E by congruence. destruct (ls_trail st S id row E) as [T1 T2].
      split; unfold owners; rewrite (Eo id n); assumption.
  - intros id E. destruct (decide (id = wl_experiment_id l)) as [->|n]; [now rewrite lookup_insert_eq in E|].
    rewrite lookup_insert_ne in E by congruence. rewrite (Eo id n). exact (ls_absent st S id E).
Qed.

(** A lease that [acquire] constructs. *)
Definition taken (id w : UUID) (t : datetime) (ttl epoch : Z) : WorkerLease := {|
  wl_experiment_id := id; wl_worker_id := w; wl_status := LEASE_ACTIVE; wl_acquired_at := t; wl_heartbeat_at := t;
  wl_expires_at := dt_add t ttl; wl_released_at := None; wl_epoch := epoch |}.

Lemma utc_add t d : is_utc t = true -> is_utc (dt_add t d) = true.
Proof. exact (fun H => H). Qed.

Lemma taken_facts id w t ttl epoch : id <> 0 -> w <> 0 -> is_utc t = true -> 0 < ttl -> 0 < epoch -> lease_facts (taken id w t ttl epoch).
Proof. intros. split; cbn; auto; try lia; try discriminate. intros _. split; [reflexivity | lia]. Qed.

(** Whether a worker other than the owner of the row must be refused. *)
Definition held (row : option WorkerLease) (t : datetime) : bool :=
  match row with Some l => lease_active l && dt_ltb t (wl_expires_at l) | None => false end.

(** Only an experiment that is stored is acquired. *)
Lemma acquire_referenced st (id w : UUID) t ttl st' l : acquire st id w t ttl = Ok (st', l) -> le_rows st !! id = None -> elem_of id (le_experiments st).
Proof.
  intros H E. unfold acquire in H. apply bind_Ok in H as (u & _ & H). cbv zeta in H. rewrite E in H. apply bind_Ok in H as (u1 & X & _).
  apply raise_if_Ok in X. now bool_prop.
Qed.

(** The outcome of an acquisition, whatever the state. *)
Lemma acquire_cases st (id w : UUID) t ttl : leases_ok st -> id <> 0 -> w <> 0 -> is_utc t = true -> 0 < ttl ->
  (le_rows st !! id = None -> elem_of id (le_experiments st)) ->
  (held (le_rows st !! id) t = true /\ exists l, le_rows st !! id = Some l /\
     acquire st id w t ttl = if wl_worker_id l =? w then Ok (st, l)
                             else Raise (WorkerLeaseConflict "experiment lease is held by another worker")) \/
  (held (le_rows st !! id) t = false /\ exists st', acquire st id w t ttl = Ok (st', taken id w t ttl (epoch_of (le_rows st !! id) + 1)) /\
     leases_ok st' /\ le_rows st' = <[id := taken id w t ttl (epoch_of (le_rows st !! id) + 1)]> (le_rows st)).
Proof.
  intros S I W U T X. unfold acquire. rewrite (proj2 (lease_request_Ok id w t ttl) (conj I (conj W (conj U T)))). cbn [bind]. cbv zeta.
  assert (Write : forall epoch ty previous, 0 < epoch -> event_name ty = true -> ty <> "worker_lease.released" ->
    epoch = epoch_of (le_rows st !! id) + 1 -> exists st',
    (let* lease := WorkerLease_post_init (taken id w t ttl epoch) in write_lease st lease ty previous) = Ok (st', taken id w t ttl epoch) /\
    leases_ok st' /\ le_rows st' = <[id := taken id w t ttl epoch]> (le_rows st)).
  { intros epoch ty previous P En Nr Ne. pose proof (taken_facts id w t ttl epoch I W U T P) as F. rewrite (proj2 (lease_valid_facts _) F). cbn [bind].
    destruct (lease_transition_total (le_ledger st) (taken id w t ttl epoch) ty previous (ls_ledger st S) F En) as [ledger' Ht].
    assert (H : write_lease st (taken id w t ttl epoch) ty previous =
      Ok ({| le_experiments := le_experiments st; le_rows := <[id := taken id w t ttl epoch]> (le_rows st); le_ledger := ledger' |}, taken id w t ttl epoch))
      by (unfold write_lease; rewrite Ht; reflexivity).
    eexists. split; [exact H|]. destruct (write_trail _ _ _ _ _ _ S F (or_introl (conj Nr Ne)) H) as (_ & S' & R). auto. }
  destruct (le_rows st !! id) as [row|] eqn:E; rewrite ?E; cbn [held epoch_of] in *.
  - destruct (ls_valid st S id row E) as [F _]. rewrite (proj2 (lease_valid_facts row) F). cbn [bind]. rewrite (valid_at_Ok row t U). cbn [bind].
    rewrite andb_assoc, andb_diag. destruct (lease_active row && dt_ltb t (wl_expires_at row)) eqn:V.
    + left. split; [reflexivity|]. exists row. split; [reflexivity|]. now destruct (wl_worker_id row =? w).
    + right. split; [reflexivity|]. pose proof (lf_epoch row F). apply Write; [lia | now destruct (lease_active row && negb (wl_worker_id row =? w)) | now destruct (lease_active row && negb (wl_worker_id row =? w)) | reflexivity].
  - right. split; [reflexivity|]. rewrite (bool_decide_true _ (X eq_refl)). cbn [negb raise_if bind]. exact (Write 1 "worker_lease.acquired" None ltac:(lia) eq_refl ltac:(discriminate) eq_refl).
Qed.

(** The renewal of a lease: the owner's, while it lasts, not back in time. *)
Definition renewed (l : WorkerLease) (t : datetime) (ttl : Z) : WorkerLease := {|
  wl_experiment_id := wl_experiment_id l; wl_worker_id := wl_worker_id l; wl_status := wl_status l; wl_acquired_at := wl_acquired_at l;
  wl_heartbeat_at := t; wl_expires_at := dt_add t ttl; wl_released_at := wl_released_at l; wl_epoch := wl_epoch l |}.

Definition may_renew (l : WorkerLease) (w : UUID) (t : datetime) : bool :=
  lease_active l && (wl_worker_id l =? w) && dt_leb (wl_heartbeat_at l) t && dt_ltb t (wl_expires_at l).

Lemma move_row st l l' : leases_ok st -> le_rows st !! wl_experiment_id l = Some l -> lease_facts l' -> wl_experiment_id l' = wl_experiment_id l ->
  epoch_entry l' = epoch_entry l -> leases_ok {| le_experiments := le_experiments st; le_rows := <[wl_experiment_id l := l']> (le_rows st); le_ledger := le_ledger st |}.
Proof.
  intros S E F I Ee. split; cbn [le_rows le_ledger].
  - exact (ls_ledger st S).
  - intros id row R. destruct (decide (id = wl_experiment_id l)) as [->|n]; [rewrite lookup_insert_eq in R; injection R as <-; auto|].
    rewrite lookup_insert_ne in R by congruence. exact (ls_valid st S id row R).
  - intros id row R. destruct (decide (id = wl_experiment_id l)) as [->|n]; [rewrite lookup_insert_eq in R; injection R as <-|].
    + destruct (ls_trail st S _ _ E) as [T1 T2]. split; [|now rewrite T2, Ee]. rewrite T1. unfold epoch_entry in Ee. injection Ee as -> _. reflexivity.
    + rewrite lookup_insert_ne in R by congruence. exact (ls_trail st S id row R).
  - intros id R. destruct (decide (id = wl_experiment_id l)) as [->|n]; [now rewrite lookup_insert_eq in R|].
    rewrite lookup_insert_ne in R by congruence. exact (ls_absent st S id R).
Qed.

Lemma renew_spec st id w t ttl l : leases_ok st -> le_rows st !! id = Some l -> w <> 0 -> is_utc t = true -> 0 < ttl ->
  if may_renew l w t then exists st', renew st id w t ttl = Ok (st', renewed l t ttl) /\ leases_ok st' /\ le_rows st' = <[id := renewed l t ttl]> (le_rows st)
  else is_ok (renew st id w t ttl) = false.
Proof.
  intros S E W U T. destruct (ls_valid st S id l E) as [F I]. unfold renew, lease_locked. pose proof (proj1 (lf_ids l F)) as I0. rewrite I in I0.
  rewrite (proj2 (lease_request_Ok id w t ttl) (conj I0 (conj W (conj U T)))), E. cbn [bind of_option].
  rewrite (proj2 (lease_valid_facts l) F). cbn [bind]. rewrite (valid_at_Ok l t U). unfold may_renew.
  destruct (lease_active l) eqn:A; [|reflexivity]. destruct (wl_worker_id l =? w); [|reflexivity]. cbn [negb orb raise_if bind andb].
  destruct (dt_ltb t (wl_expires_at l)) eqn:X; [|rewrite andb_false_r; reflexivity]. cbn [negb raise_if bind]. rewrite andb_true_r.
  assert (L : dt_ltb t (wl_heartbeat_at l) = negb (dt_leb (wl_heartbeat_at l) t)) by (unfold dt_ltb, dt_leb; apply Z.ltb_antisym).
  rewrite L. destruct (dt_leb (wl_heartbeat_at l) t) eqn:B; [|reflexivity]. cbn [negb raise_if bind]. fold (renewed l t ttl).
  destruct F as [F1 (F2 & F3 & F4) F5 F6 F7 F8]. destruct (F7 A) as [N _]. unfold dt_leb in B. apply Z.leb_le in B.
  assert (F' : lease_facts (renewed l t ttl)).
  { split; cbn; auto; [lia | intros _; split; [exact N | lia] | intros C; unfold lease_active in *; cbn in C; congruence]. }
  rewrite (proj2 (lease_valid_facts _) F'). cbn [bind]. eexists. split; [reflexivity|]. split; [|reflexivity].
  rewrite <- I. apply move_row; auto. now rewrite I.
Qed.

(** The release: the owner's; a released lease stays. *)
Definition given_back (l : WorkerLease) (t : datetime) : WorkerLease := {|
  wl_experiment_id := wl_experiment_id l; wl_worker_id := wl_worker_id l; wl_status := LEASE_RELEASED; wl_acquired_at := wl_acquired_at l;
  wl_heartbeat_at := wl_heartbeat_at l; wl_expires_at := t; wl_released_at := Some t; wl_epoch := wl_epoch l |}.

Definition may_release (l : WorkerLease) (w : UUID) (t : datetime) : bool :=
  (wl_worker_id l =? w) && (negb (lease_active l) || dt_leb (wl_heartbeat_at l) t).

Lemma release_spec st id w t l : leases_ok st -> le_rows st !! id = Some l -> is_utc t = true ->
  if may_release l w t then
    if lease_active l then exists st', release st id w t = Ok (st', given_back l t) /\ leases_ok st' /\ le_rows st' = <[id := given_back l t]> (le_rows st)
    else release st id w t = Ok (st, l)
  else is_ok (release st id w t) = false.
Proof.
  intros S E U. destruct (ls_valid st S id l E) as [F I]. unfold release, lease_locked, may_release. rewrite (require_utc_true _ _ U), E. cbn [bind of_option].
  rewrite (proj2 (lease_valid_facts l) F). cbn [bind]. destruct (wl_worker_id l =? w); [|reflexivity]. cbn [negb raise_if bind andb].
  destruct (lease_active l) eqn:A; [|reflexivity]. cbn [negb orb].
  assert (L : dt_ltb t (wl_heartbeat_at l) = negb (dt_leb (wl_heartbeat_at l) t)) by (unfold dt_ltb, dt_leb; apply Z.ltb_antisym).
  rewrite L. destruct (dt_leb (wl_heartbeat_at l) t) eqn:B; [|reflexivity]. cbn [negb raise_if bind]. fold (given_back l t).
  unfold dt_leb in B. apply Z.leb_le in B.
  assert (F' : lease_facts (given_back l t)).
  { destruct F as [F1 (F2 & F3 & F4) F5 F6 F7 F8]. split; cbn; auto; [discriminate | eauto]. }
  rewrite (proj2 (lease_valid_facts _) F'). cbn [bind].
  destruct (lease_transition_total (le_ledger st) (given_back l t) "worker_lease.released" (Some l) (ls_ledger st S) F' eq_refl) as [ledger' Ht].
  assert (H : write_lease st (given_back l t) "worker_lease.released" (Some l) =
    Ok ({| le_experiments := le_experiments st; le_rows := <[id := given_back l t]> (le_rows st); le_ledger := ledger' |}, given_back l t)).
  { unfold write_lease. rewrite Ht. cbn [bind wl_experiment_id given_back]. now rewrite I. }
  rewrite H. eexists. split; [reflexivity|]. cbn [le_rows].
  assert (N : next_or_release (le_rows st !! wl_experiment_id (given_back l t)) (given_back l t) "worker_lease.released")
    by (right; split; [reflexivity|]; exists l; split; [cbn; congruence | reflexivity]).
  destruct (write_trail _ _ _ _ _ _ S F' N H) as (_ & S' & _). auto.
Qed.


(** *** Runs *)

Record lease_after (l l' : WorkerLease) : Prop := {
  la_epoch : wl_epoch l <= wl_epoch l';
  la_owner : wl_epoch l' = wl_epoch l -> wl_worker_id l' = wl_worker_id l /\ wl_acquired_at l' = wl_acquired_at l /\
    instant (wl_heartbeat_at l) <= instant (wl_heartbeat_at l');
  la_final : wl_epoch l' = wl_epoch l -> lease_active l = false -> l' = l
}.

Lemma lease_after_refl l : lease_after l l.
Proof. split; [lia | intros _; repeat split; lia | auto]. Qed.

Lemma lease_after_trans a b c : lease_after a b -> lease_after b c -> lease_after a c.
Proof.
  intros [E1 O1 F1] [E2 O2 F2]. split; [lia | |]; intros E; assert (Eb : wl_epoch b = wl_epoch a) by lia; assert (Ec : wl_epoch c = wl_epoch b) by lia.
  - destruct (O1 Eb) as (W1 & A1 & H1), (O2 Ec) as (W2 & A2 & H2). repeat split; congruence || lia.
  - intros A. pose proof (F1 Eb A) as ->. exact (F2 Ec A).
Qed.

Definition rows_later (st st' : LeaseStore) : Prop :=
  forall id l, le_rows st !! id = Some l -> exists l', le_rows st' !! id = Some l' /\ lease_after l l'.

(** Writing one row keeps the others. *)
Lemma later_insert st (id : UUID) l' rows : le_rows st = rows ->
  (forall l, rows !! id = Some l -> lease_after l l') ->
  forall i l, rows !! i = Some l -> exists k, <[id := l']> rows !! i = Some k /\ lease_after l k.
Proof.
  intros _ A i l E. destruct (decide (i = id)) as [->|n].
  - exists l'. rewrite lookup_insert_eq. auto.
  - exists l. rewrite lookup_insert_ne by congruence. split; [exact E | apply lease_after_refl].
Qed.

Lemma lease_step_ok st st' : leases_ok st -> lease_step st st' -> leases_ok st' /\ rows_later st st'.
Proof.
  intros S H. assert (Same : rows_later st st) by (intros id l E; exists l; split; [exact E | apply lease_after_refl]).
  destruct H as [st id w t ttl st' l H|st id w t ttl st' l H|st id w t st' l H|st experiments|st id ty v events l' stored N A].
  - assert (V : _validate_request id w t ttl = Ok tt) by (unfold acquire in H; apply bind_Ok in H as ([] & V & _); exact V).
    apply lease_request_Ok in V as (I & W & U & T). destruct (acquire_cases st id w t ttl S I W U T (acquire_referenced _ _ _ _ _ _ _ H)) as [(_ & l0 & E & R)|(_ & st2 & R & S' & E)]; rewrite R in H.
    + destruct (_ =? _); [injection H as <- <-; auto | discriminate].
    + injection H as <- <-. split; [exact S'|]. intros i l0. rewrite E. apply (later_insert st); [reflexivity|].
      intros l1 E1. rewrite E1. cbn [epoch_of]. split; cbn; intros; lia.
  - assert (V : _validate_request id w t ttl = Ok tt) by (unfold renew in H; apply bind_Ok in H as ([] & V & _); exact V).
    apply lease_request_Ok in V as (I & W & U & T). destruct (le_rows st !! id) as [l0|] eqn:E.
    + pose proof (renew_spec st id w t ttl l0 S E W U T) as R. destruct (may_renew l0 w t) eqn:M; [|rewrite H in R; discriminate].
      destruct R as (st2 & R & S' & E'). rewrite R in H. injection H as <- <-. split; [exact S'|]. intros i l1. rewrite E'. apply (later_insert st); [reflexivity|].
      intros l2 E2. rewrite E in E2. injection E2 as <-. unfold may_renew, dt_leb in M. bool_prop. split; cbn; intros; [lia | auto | congruence].
    + unfold renew, lease_locked in H. rewrite E in H. apply bind_Ok in H as (u & _ & H). discriminate.
  - assert (V : is_utc t = true) by (unfold release, require_utc in H; py_inv; bool_prop; assumption). destruct (le_rows st !! id) as [l0|] eqn:E.
    + pose proof (release_spec st id w t l0 S E V) as R. destruct (may_release l0 w t) eqn:M; [|rewrite H in R; discriminate].
      destruct (lease_active l0) eqn:A; [|rewrite R in H; injection H as <- <-; auto].
      destruct R as (st2 & R & S' & E'). rewrite R in H. injection H as <- <-. split; [exact S'|]. intros i l1. rewrite E'. apply (later_insert st); [reflexivity|].
      intros l2 E2. rewrite E in E2. injection E2 as <-. split; cbn; intros; [lia | repeat split; lia | congruence].
    + unfold release, lease_locked in H. rewrite E in H. apply bind_Ok in H as (u & _ & H). discriminate.
  - split; [|exact Same]. destruct S. split; assumption.
  - split; [|exact Same]. destruct S as [S1 S2 S3 S4]. split; cbn [le_rows le_ledger]; auto.
    + exact (append_ok _ _ _ _ _ _ _ S1 A).
    + intros i row E. destruct (S3 i row E) as [T1 T2]. destruct (append_other _ _ _ _ _ _ _ (lease_key i) A ltac:(unfold lease_key; congruence)) as [_ O].
      split; unfold owners; rewrite O; assumption.
    + intros i E. destruct (append_other _ _ _ _ _ _ _ (lease_key i) A ltac:(unfold lease_key; congruence)) as [_ ->]. exact (S4 i E).
Qed.

Lemma lease_run st st' : leases_ok st -> star lease_step st st' -> leases_ok st' /\ rows_later st st'.
Proof.
  intros S R. induction R as [st|a b c H _ IH].
  - split; [exact S|]. intros id l E. exists l. split; [exact E | apply lease_after_refl].
  - destruct (lease_step_ok _ _ S H) as [S' L]. destruct (IH S') as [S'' L']. split; [exact S''|].
    intros id l E. destruct (L id l E) as (l1 & E1 & A1). destruct (L' id l1 E1) as (l2 & E2 & A2). exists l2. split; [exact E2 | exact (lease_after_trans _ _ _ A1 A2)].
Qed.

Lemma get_row st id l : leases_ok st -> le_rows st !! id = Some l -> get st id = Ok l.
Proof.
  intros S E. unfold get, lease_locked. rewrite E. cbn [of_option bind]. apply lease_valid_facts. exact (proj1 (ls_valid st S id l E)).
Qed.

Lemma acquire_answer st (id w : UUID) t ttl st' l : leases_ok st -> acquire st id w t ttl = Ok (st', l) ->
  leases_ok st' /\ le_rows st' !! id = Some l /\ wl_worker_id l = w /\ lease_active l = true /\ instant t < instant (wl_expires_at l) /\
  (st' = st \/ wl_acquired_at l = t /\ wl_epoch l = epoch_of (le_rows st !! id) + 1 /\ held (le_rows st !! id) t = false).
Proof.
  intros S H. assert (V : _validate_request id w t ttl = Ok tt) by (unfold acquire in H; apply bind_Ok in H as ([] & V & _); exact V).
  apply lease_request_Ok in V as (I & W & U & T). destruct (acquire_cases st id w t ttl S I W U T (acquire_referenced _ _ _ _ _ _ _ H)) as [(Hd & l0 & E & Q)|(Hd & st2 & Q & S' & E)]; rewrite Q in H.
  - destruct (Z.eqb_spec (wl_worker_id l0) w) as [Ew|]; [injection H as <- <- | discriminate]. rewrite E in Hd. cbn in Hd. unfold dt_ltb in Hd. bool_prop. auto 10.
  - injection H as <- <-. split; [exact S'|]. rewrite E, lookup_insert_eq. cbn. repeat split; auto; lia.
Qed.

(** Who does not own the row is refused. *)
Lemma stranger_refused st (id w : UUID) t ttl l : leases_ok st -> le_rows st !! id = Some l -> w <> wl_worker_id l ->
  is_ok (renew st id w t ttl) = false /\ is_ok (release st id w t) = false.
Proof.
  intros S E N. assert (Ne : (wl_worker_id l =? w) = false) by now apply Z.eqb_neq. split.
  - destruct (renew st id w t ttl) as [[st3 l3]|] eqn:Q3; [|reflexivity].
    assert (V : _validate_request id w t ttl = Ok tt) by (unfold renew in Q3; apply bind_Ok in Q3 as ([] & V & _); exact V).
    apply lease_request_Ok in V as (_ & W & U & T). pose proof (renew_spec st id w t ttl l S E W U T) as Q4. unfold may_renew in Q4.
    rewrite Ne, andb_false_r in Q4. cbn [andb] in Q4. now rewrite Q3 in Q4.
  - destruct (release st id w t) as [[st3 l3]|] eqn:Q3; [|reflexivity].
    assert (U : is_utc t = true) by (unfold release, require_utc in Q3; py_inv; bool_prop; assumption).
    pose proof (release_spec st id w t l S E U) as Q4. unfold may_release in Q4. rewrite Ne in Q4. cbn [andb] in Q4. now rewrite Q3 in Q4.
Qed.

(** ** The theorem *)

(** One worker owns an experiment.  In every state that acquisitions,
    renewals, releases and the work of other parts reach, whatever the clocks
    of the workers: the row of an experiment is valid and the audited stream
    names the owner of each epoch, one after the other up to the present one;
    while a lease lasts another worker is refused, its owner may renew it and
    give it back, and otherwise the next worker gets the next epoch; an owner
    keeps its epoch until then, and a released one is final; so whoever
    acquires after another worker holds a greater epoch, and the former owner
    is refused every renewal and release. *)
Theorem worker_lease_is_exclusive st (R : star lease_step empty_leases st) :
  (forall id l, le_rows st !! id = Some l -> get st id = Ok l /\
     map fst (owners (le_ledger st) id) = map (fun n => Some (JInt n)) (zrange 1 (Z.to_nat (wl_epoch l))) /\
     last (owners (le_ledger st) id) = Some (epoch_entry l)) /\
  (forall id l w t ttl, le_rows st !! id = Some l -> w <> 0 -> is_utc t = true -> 0 < ttl ->
     is_ok (acquire st id w t ttl) = negb (lease_active l && dt_ltb t (wl_expires_at l)) || (wl_worker_id l =? w) /\
     is_ok (renew st id w t ttl) = may_renew l w t /\ is_ok (release st id w t) = may_release l w t) /\
  (forall (id w : UUID) t ttl st' l, acquire st id w t ttl = Ok (st', l) ->
     get st' id = Ok l /\ wl_worker_id l = w /\ lease_active l = true /\ instant t < instant (wl_expires_at l) /\
     (st' = st \/ wl_acquired_at l = t /\ wl_epoch l = epoch_of (le_rows st !! id) + 1 /\ held (le_rows st !! id) t = false)) /\
  (forall st', star lease_step st st' -> rows_later st st') /\
  (forall st' id l w t ttl st2 l2, le_rows st !! id = Some l -> star lease_step st st' -> w <> wl_worker_id l ->
     acquire st' id w t ttl = Ok (st2, l2) -> wl_epoch l < wl_epoch l2 /\
     forall t' ttl', is_ok (renew st2 id (wl_worker_id l) t' ttl') = false /\ is_ok (release st2 id (wl_worker_id l) t') = false).
Proof.
  destruct (lease_run _ _ empty_leases_ok R) as [S _]. split; [|split; [|split; [|split]]].
  - intros id l E. destruct (ls_trail st S id l E) as [T1 T2]. split; [exact (get_row st id l S E) | auto].
  - intros id l w t ttl E W U T. destruct (ls_valid st S id l E) as [F I]. pose proof (proj1 (lf_ids l F)) as I0. rewrite I in I0. split; [|split].
    + destruct (acquire_cases st id w t ttl S I0 W U T ltac:(congruence)) as [(Hd & l0 & E0 & ->)|(Hd & st2 & -> & _)]; rewrite E in *; cbn [held] in Hd; rewrite Hd; [|reflexivity].
      injection E0 as <-. now destruct (_ =? _).
    + pose proof (renew_spec st id w t ttl l S E W U T) as Q. destruct (may_renew l w t); [destruct Q as (? & -> & _); reflexivity | exact Q].
    + pose proof (release_spec st id w t l S E U) as Q. destruct (may_release l w t); [|exact Q]. destruct (lease_active l); [destruct Q as (? & -> & _) | rewrite Q]; reflexivity.
  - intros id w t ttl st' l H. destruct (acquire_answer st id w t ttl st' l S H) as (S' & E & Q). split; [exact (get_row st' id l S' E) | exact Q].
  - intros st' R'. exact (proj2 (lease_run _ _ S R')).
  - intros st' id l w t ttl st2 l2 E R' N H. destruct (lease_run _ _ S R') as [S' L]. destruct (L id l E) as (l1 & E1 & [A1 A2 _]).
    destruct (acquire_answer st' id w t ttl st2 l2 S' H) as (S2 & E2 & Ew & _ & _ & Q).
    split; [|intros t' ttl'; apply (stranger_refused st2 id _ t' ttl' l2 S2 E2); congruence].
    destruct Q as [->|(_ & Q & _)]; [|rewrite E1 in Q; cbn [epoch_of] in Q; lia].
    rewrite E1 in E2. injection E2 as <-. destruct (Z.eq_dec (wl_epoch l1) (wl_epoch l)) as [Ee|]; [|lia]. destruct (A2 Ee) as [A3 _]. congruence.
Qed.

(** ** Witness *)

Definition lease_store_of (st : LeaseStore) (r : result (LeaseStore * WorkerLease)) : LeaseStore := match r with Ok p => fst p | Raise _ => st end.
Definition one_experiment : LeaseStore := {| le_experiments := [7]; le_rows := ∅; le_ledger := le_ledger empty_leases |}.
Definition leased : LeaseStore := Eval vm_compute in lease_store_of one_experiment (acquire one_experiment 7 3 (utc 0) 100).
Definition taken_over : LeaseStore := Eval vm_compute in lease_store_of leased (acquire leased 7 4 (utc 150) 100).

Example lease_samples : acquire empty_leases 7 3 (utc 0) 100 = Raise (IntegrityError "worker_leases.experiment_id") /\ is_ok (acquire leased 7 4 (utc 50) 100) = false /\ is_ok (acquire leased 7 3 (utc 50) 100) = true /\
  is_ok (renew leased 7 3 (utc 50) 100) = true /\ is_ok (renew leased 7 3 (utc 100) 100) = false /\
  is_ok (release leased 7 4 (utc 50)) = false /\ is_ok (release leased 7 3 (utc 50)) = true.
Proof. vm_compute. auto 10. Qed.

Lemma worker_lease_is_exclusive_witness : exists l l2,
  le_rows leased !! 7 = Some l /\ get taken_over 7 = Ok l2 /\ wl_epoch l < wl_epoch l2 /\
  is_ok (renew taken_over 7 3 (utc 160) 100) = false.
Proof.
  assert (R : star lease_step empty_leases leased).
  { eapply star_step; [exact (step_experiments empty_leases [7])|]. apply star_one. eapply (step_acquire one_experiment 7 3 (utc 0) 100). vm_compute. reflexivity. }
  assert (A : exists l2, acquire leased 7 4 (utc 150) 100 = Ok (taken_over, l2)) by (eexists; vm_compute; reflexivity).
  destruct A as [l2 A]. destruct (worker_lease_is_exclusive _ R) as (_ & _ & Answer & _ & Fence).
  destruct (Answer 7 4 (utc 150) 100 _ _ A) as (G & _).
  assert (E : exists l, le_rows leased !! 7 = Some l /\ wl_worker_id l = 3) by (eexists; split; vm_compute; reflexivity).
  destruct E as (l & E & W). destruct (Fence leased 7 l 4 (utc 150) 100 _ _ E (star_refl _ _) ltac:(rewrite W; discriminate) A) as (L & F).
  exists l, l2. rewrite W in F. repeat (split; [assumption|]). exact (proj1 (F (utc 160) 100)).
Defined.

