(* ===== verification/Observations.v ===== *)
(** * Live observations: [maais/orchestration/observations.py]

    The health of the runtime components, and the buffer that keeps the latest
    mark and reference of every symbol and its recent order books.  [observe]
    runs to its end without another task between, so it is one step; a task
    that waits for a book sees the buffer each time it is woken. *)

From Stdlib Require Import ZArith QArith Lia List Bool String Ascii.
From stdpp Require Import base decidable list strings.
From S2P Require Import Prelude PyDecimal DecimalTheory Domain Json Market MarketEvents Frames EventLog Gates Admission.

Local Open Scope Z_scope.

(** ** Health *)

Record RuntimeHealthRegistry : Type := { hr_components : list string; hr_observations : pydict HealthObservation }.

Definition RuntimeHealthRegistry_init (components : list string) : result RuntimeHealthRegistry :=
  do* raise_if (negb (nonempty components) || negb (bool_decide (NoDup components)) || existsb empty components)
        (ValueError "runtime health components must be nonempty and unique") ;;
  Ok {| hr_components := components; hr_observations := [] |}.

Definition _record (r : RuntimeHealthRegistry) (o : HealthObservation) : result RuntimeHealthRegistry :=
  do* raise_if (negb (bool_decide (ho_component o ∈ hr_components r)))
        (ValueError ("unknown runtime health component: " +:+ ho_component o)) ;;
  do* raise_if (match dict_get (hr_observations r) (ho_component o) with
                | Some previous => dt_ltb (ho_observed_at o) (ho_observed_at previous)
                | None => false
                end) (RuntimeObservationConflict "runtime health observation regressed") ;;
  Ok {| hr_components := hr_components r; hr_observations := dict_set (hr_observations r) (ho_component o) o |}.

Definition heartbeat (r : RuntimeHealthRegistry) (component : string) (observed_at : datetime) : result RuntimeHealthRegistry :=
  let* o := HealthObservation_post_init {| ho_component := component; ho_healthy := true; ho_observed_at := observed_at; ho_error := None |} in
  _record r o.

Definition failure (r : RuntimeHealthRegistry) (component error : string) (observed_at : datetime) : result RuntimeHealthRegistry :=
  do* raise_if (empty error) (ValueError "runtime health failure requires an error") ;;
  let* o := HealthObservation_post_init {| ho_component := component; ho_healthy := false; ho_observed_at := observed_at; ho_error := Some error |} in
  _record r o.

Definition health_snapshot (r : RuntimeHealthRegistry) : list HealthObservation :=
  map snd (sort_by fst (hr_observations r)).

(** ** The buffer *)

Definition event_identity : Type := string * string * string * string.

Record MarketObservationBuffer : Type := {
  mb_symbols : list string;
  mb_capacity : Z;
  mb_marks : pydict ObservedMarketEvent;
  mb_primary : pydict ObservedMarketEvent;
  mb_books : pydict (list BookSnapshot);
  mb_book_hashes : list (event_identity * string)
}.

Definition MarketObservationBuffer_init (symbols : list string) (capacity_per_symbol : Z) : result MarketObservationBuffer :=
  do* raise_if (negb (nonempty symbols) || negb (bool_decide (NoDup symbols)))
        (ValueError "observation symbols must be nonempty and unique") ;;
  do* raise_if (existsb (fun s => negb (upper_symbol s)) symbols) (ValueError "observation symbols must be uppercase") ;;
  do* raise_if (capacity_per_symbol <=? 0) (ValueError "observation capacity must be positive") ;;
  Ok {| mb_symbols := symbols; mb_capacity := capacity_per_symbol; mb_marks := []; mb_primary := [];
        mb_books := map (fun s => (s, [])) symbols; mb_book_hashes := [] |}.

Definition with_marks (b : MarketObservationBuffer) (marks : pydict ObservedMarketEvent) : MarketObservationBuffer := {|
  mb_symbols := mb_symbols b; mb_capacity := mb_capacity b; mb_marks := marks; mb_primary := mb_primary b;
  mb_books := mb_books b; mb_book_hashes := mb_book_hashes b |}.
Definition with_primary (b : MarketObservationBuffer) (primary : pydict ObservedMarketEvent) : MarketObservationBuffer := {|
  mb_symbols := mb_symbols b; mb_capacity := mb_capacity b; mb_marks := mb_marks b; mb_primary := primary;
  mb_books := mb_books b; mb_book_hashes := mb_book_hashes b |}.
Definition with_books (b : MarketObservationBuffer) (books : pydict (list BookSnapshot)) (hashes : list (event_identity * string))
  : MarketObservationBuffer := {|
  mb_symbols := mb_symbols b; mb_capacity := mb_capacity b; mb_marks := mb_marks b; mb_primary := mb_primary b;
  mb_books := books; mb_book_hashes := hashes |}.

Definition known_hash (hashes : list (event_identity * string)) (i : event_identity) : option string :=
  option_map snd (List.find (fun h => bool_decide (fst h = i)) hashes).

(** The first identity with the identifier of an evicted book is forgotten. *)
Fixpoint forget (event_id : string) (hashes : list (event_identity * string)) : list (event_identity * string) :=
  match hashes with
  | [] => []
  | h :: hashes' => if bool_decide (snd (fst h) = event_id) then hashes' else h :: forget event_id hashes'
  end.

Definition book_level (l : PriceLevel) : result BookLevel :=
  BookLevel_post_init {| lv_price := pl_price l; lv_quantity := pl_quantity l |}.

Section Buffer.
Context (sha256_hex : string -> string).

Definition _replace_latest (values : pydict ObservedMarketEvent) (e : ObservedMarketEvent)
  : result (pydict ObservedMarketEvent * bool) :=
  match dict_get values (ev_symbol e) with
  | Some previous =>
      if bool_decide (identity previous = identity e) then
        let* a := event_hash sha256_hex previous in
        let* b := event_hash sha256_hex e in
        do* raise_if (negb (bool_decide (a = b))) (RuntimeObservationConflict "observation identity has different content") ;;
        Ok (values, false)
      else
        do* raise_if (dt_ltb (ev_observed_at e) (ev_observed_at previous))
              (RuntimeObservationConflict "latest market observation regressed") ;;
        Ok (dict_set values (ev_symbol e) e, true)
  | None => Ok (dict_set values (ev_symbol e) e, true)
  end.

(** A new book joins the end; beyond the capacity the oldest one leaves. *)
Definition store_book (b : MarketObservationBuffer) (e : ObservedMarketEvent) (hash : string) (snapshot : BookSnapshot)
  : MarketObservationBuffer :=
  let values := default [] (dict_get (mb_books b) (ev_symbol e)) ++ [snapshot] in
  let hashes := mb_book_hashes b ++ [(identity e, hash)] in
  match values with
  | removed :: rest =>
      if mb_capacity b <? Z.of_nat (length values)
      then with_books b (dict_set (mb_books b) (ev_symbol e) rest) (forget (bk_event_id removed) hashes)
      else with_books b (dict_set (mb_books b) (ev_symbol e) values) hashes
  | [] => b
  end.

Definition observe_book (b : MarketObservationBuffer) (e : ObservedMarketEvent) (payload : OrderBookPayload)
  : result (MarketObservationBuffer * bool) :=
  let* sequence := of_option (RuntimeObservationConflict "paper execution book requires a source sequence") (ev_sequence e) in
  match known_hash (mb_book_hashes b) (identity e) with
  | Some existing =>
      let* hash := event_hash sha256_hex e in
      do* raise_if (negb (bool_decide (existing = hash))) (RuntimeObservationConflict "book identity has different content") ;;
      Ok (b, false)
  | None =>
      match dict_get (mb_marks b) (ev_symbol e) with
      | None => Ok (b, false)
      | Some mark_event =>
          if dt_ltb (ev_observed_at e) (ev_observed_at mark_event) then Ok (b, false)
          else
            let* mark := match ev_payload mark_event with
                         | MarkPayload m => Ok m
                         | _ => Raise (TypeError "mark event payload is invalid")
                         end in
            let* bids := mapM book_level (ob_bids payload) in
            let* asks := mapM book_level (ob_asks payload) in
            let* snapshot := BookSnapshot_post_init {|
              bk_event_id := ev_event_id e; bk_symbol := ev_symbol e; bk_venue_event_at := ev_venue_event_at e;
              bk_observed_at := ev_observed_at e; bk_sequence := sequence; bk_bids := bids; bk_asks := asks;
              bk_mark_price := mf_mark_price mark |} in
            let* hash := event_hash sha256_hex e in
            Ok (store_book b e hash snapshot, true)
      end
  end.

Definition observe (b : MarketObservationBuffer) (e : ObservedMarketEvent) : result (MarketObservationBuffer * bool) :=
  do* raise_if (negb (bool_decide (ev_symbol e ∈ mb_symbols b)))
        (ValueError ("observation symbol is not configured: " +:+ ev_symbol e)) ;;
  match ev_kind e with
  | MARK_FUNDING => let* r := _replace_latest (mb_marks b) e in Ok (with_marks b (fst r), snd r)
  | REFERENCE_PRICE =>
      match ev_payload e with
      | ReferencePayload p =>
          if bool_decide (rp_reference_kind p = PRIMARY_SPOT)
          then let* r := _replace_latest (mb_primary b) e in Ok (with_primary b (fst r), snd r)
          else Ok (b, false)
      | _ => Raise (TypeError "reference event payload is invalid")
      end
  | ORDER_BOOK =>
      match ev_payload e with
      | BookPayload p => observe_book b e p
      | _ => Raise (TypeError "order-book event payload is invalid")
      end
  | _ => Ok (b, false)
  end.
End Buffer.

Definition _require_symbol (b : MarketObservationBuffer) (symbol : string) : result unit :=
  raise_if (negb (bool_decide (symbol ∈ mb_symbols b))) (ValueError ("observation symbol is not configured: " +:+ symbol)).

Definition books_of (b : MarketObservationBuffer) (symbol : string) : list BookSnapshot := default [] (dict_get (mb_books b) symbol).

Definition eligible (b : MarketObservationBuffer) (symbol : string) (eligible_after : datetime) : list BookSnapshot :=
  List.filter (fun k => dt_ltb eligible_after (bk_observed_at k)) (books_of b symbol).

(** The buffers of the [while] loop: as it is, and at each wake-up before the timeout. *)
Fixpoint wait_eligible (symbol : string) (eligible_after : datetime) (wakes : list MarketObservationBuffer) : result (list BookSnapshot) :=
  match wakes with
  | [] => Raise (EligibleBookTimeout ("no eligible " +:+ symbol +:+ " book observed after " +:+ isoformat eligible_after))
  | b :: wakes' =>
      match eligible b symbol eligible_after with
      | [] => wait_eligible symbol eligible_after wakes'
      | books => Ok books
      end
  end.

Definition books_after (b : MarketObservationBuffer) (wakes : list MarketObservationBuffer) (symbol : string) (eligible_after : datetime)
    (timeout : timedelta) : result (list BookSnapshot) :=
  do* _require_symbol b symbol ;;
  do* require_utc eligible_after "eligible_after" ;;
  do* raise_if (timeout <=? 0) (ValueError "eligible book timeout must be positive") ;;
  wait_eligible symbol eligible_after (b :: wakes).

Definition books_at_or_before (b : MarketObservationBuffer) (symbol : string) (observed_at : datetime) : result (list BookSnapshot) :=
  do* _require_symbol b symbol ;;
  do* require_utc observed_at "book causal cutoff" ;;
  Ok (List.filter (fun k => dt_leb (bk_observed_at k) observed_at) (books_of b symbol)).

Definition latest_at (values : pydict ObservedMarketEvent) (symbol : string) (at_or_before : datetime) : option ObservedMarketEvent :=
  match dict_get values symbol with
  | Some e => if dt_ltb at_or_before (ev_observed_at e) then None else Some e
  | None => None
  end.

Definition latest_primary_reference (b : MarketObservationBuffer) (symbol : string) (at_or_before : datetime)
  : result (option ObservedMarketEvent) :=
  do* _require_symbol b symbol ;;
  do* require_utc at_or_before "at_or_before" ;;
  Ok (latest_at (mb_primary b) symbol at_or_before).

Definition latest_mark (b : MarketObservationBuffer) (symbol : string) (at_or_before : datetime)
  : result (option (dec * ObservedMarketEvent)) :=
  do* _require_symbol b symbol ;;
  do* require_utc at_or_before "at_or_before" ;;
  match latest_at (mb_marks b) symbol at_or_before with
  | None => Ok None
  | Some e =>
      match ev_payload e with
      | MarkPayload m => Ok (Some (mf_mark_price m, e))
      | _ => Raise (TypeError "mark event payload is invalid")
      end
  end.


(** ** Facts *)

Section Facts.
Context (sha256_hex : string -> string) (ident : string -> event_identity).

(** The identifier of an event determines its identity, as in the connectors. *)
Definition identified (e : ObservedMarketEvent) : Prop := identity e = ident (ev_event_id e).

Inductive observe_step : MarketObservationBuffer -> MarketObservationBuffer -> Prop :=
| step_observe b e b' c : valid_event e -> identified e -> observe sha256_hex b e = Ok (b', c) -> observe_step b b'.

Definition hash_id (h : event_identity * string) : string := snd (fst h).

Definition latest_ok (kind : MarketEventKind) (values : pydict ObservedMarketEvent) : Prop :=
  forall s e, dict_get values s = Some e -> valid_event e /\ ev_symbol e = s /\ ev_kind e = kind.

Record buffer_ok (b : MarketObservationBuffer) : Prop := {
  bo_capacity : 0 < mb_capacity b;
  bo_marks : latest_ok MARK_FUNDING (mb_marks b);
  bo_primary : latest_ok REFERENCE_PRICE (mb_primary b);
  bo_books : forall s k, In k (books_of b s) -> valid_book k /\ bk_symbol k = s;
  bo_room : forall s, Z.of_nat (length (books_of b s)) <= mb_capacity b;
  bo_ids : forall s, NoDup (map bk_event_id (books_of b s));
  bo_known : forall x, In x (map hash_id (mb_book_hashes b)) <-> exists s k, In k (books_of b s) /\ bk_event_id k = x;
  bo_unique : NoDup (map hash_id (mb_book_hashes b));
  bo_identity : forall h, In h (mb_book_hashes b) -> fst h = ident (hash_id h);
  bo_symbol : forall s k, In k (books_of b s) -> snd (fst (ident (bk_event_id k))) = s
}.

Lemma empty_books symbols s : default [] (dict_get (map (fun s => (s, @nil BookSnapshot)) symbols) s) = [].
Proof. induction symbols as [|x l IH]; cbn [map dict_get]; [reflexivity|]. destruct (decide _); [reflexivity | exact IH]. Qed.

Lemma buffer_init_ok symbols capacity b : MarketObservationBuffer_init symbols capacity = Ok b -> buffer_ok b /\ mb_symbols b = symbols /\ mb_capacity b = capacity.
Proof.
  unfold MarketObservationBuffer_init. intros H. py_inv. bool_prop. cbn [mb_symbols mb_capacity]. split; [|auto].
  assert (E : forall s, books_of {| mb_symbols := symbols; mb_capacity := capacity; mb_marks := []; mb_primary := [];
    mb_books := map (fun s => (s, [])) symbols; mb_book_hashes := [] |} s = []) by (intros s; apply empty_books).
  split; cbn [mb_capacity mb_marks mb_primary mb_book_hashes map]; auto; try (intros s e Hs; discriminate Hs); try (intros s; rewrite E).
  - intros k [].
  - cbn. lia.
  - constructor.
  - intros s. split; [intros [] | intros (s' & k & I & _); rewrite E in I; destruct I].
  - constructor.
  - intros h [].
  - intros k [].
Qed.

(** A known identity, and what is left when one is forgotten. *)
Lemma known_hash_In hashes i h : known_hash hashes i = Some h -> In (i, h) hashes.
Proof.
  unfold known_hash. destruct (List.find _ _) as [[i' h']|] eqn:F; [|discriminate]. cbn. intros [= ->].
  apply List.find_some in F as [I F]. apply bool_decide_eq_true in F. cbn in F. now subst.
Qed.

Lemma known_hash_None hashes i : known_hash hashes i = None -> ~ In i (map fst hashes).
Proof.
  unfold known_hash. destruct (List.find _ _) eqn:F; [discriminate|]. intros _ I. apply in_map_iff in I as (h & E & I).
  pose proof (List.find_none _ _ F h I) as B. cbn beta in B. apply bool_decide_eq_false in B. contradiction.
Qed.

Lemma known_hash_unique hashes i h : NoDup (map hash_id hashes) -> In (i, h) hashes -> known_hash hashes i = Some h.
Proof.
  intros N I. unfold known_hash. destruct (List.find (fun p => bool_decide (fst p = i)) hashes) as [[i' h']|] eqn:F.
  - apply List.find_some in F as [I' F]. apply bool_decide_eq_true in F. cbn in F. subst i'. cbn. f_equal.
    assert (E : (i, h') = (i, h)) by (apply (NoDup_map_inj hash_id hashes); auto). congruence.
  - pose proof (List.find_none _ _ F (i, h) I) as B. cbn in B. apply bool_decide_eq_false in B. contradiction.
Qed.

Lemma forget_In x hashes h : NoDup (map hash_id hashes) -> In h (forget x hashes) <-> In h hashes /\ hash_id h <> x.
Proof.
  induction hashes as [|a l IH]; cbn [forget map In]; intros N; [tauto|]. apply NoDup_cons in N as [Na N]. specialize (IH N).
  destruct (bool_decide (snd (fst a) = x)) eqn:B; [apply bool_decide_eq_true in B | apply bool_decide_eq_false in B]; fold (hash_id a) in B.
  - split.
    + intros I. split; [now right|]. intros Ex. apply Na. apply list_elem_of_In, in_map_iff. exists h. split; [congruence | exact I].
    + intros [[->|I] Ne]; [contradiction | exact I].
  - cbn [In]. rewrite IH. split; [intros [->|[I Ne]]; auto | intros [[->|I] Ne]; auto].
Qed.

Lemma forget_NoDup x hashes : NoDup (map hash_id hashes) -> NoDup (map hash_id (forget x hashes)).
Proof.
  induction hashes as [|a l IH]; cbn [forget map]; intros N; [constructor|]. pose proof N as N0. apply NoDup_cons in N as [Na N].
  destruct (bool_decide _); [exact N|]. cbn [map]. apply NoDup_cons. split; [|now apply IH].
  intros I. apply list_elem_of_In, in_map_iff in I as (h & E & I). apply forget_In in I as [I _]; [|exact N].
  apply Na, list_elem_of_In, in_map_iff. eauto.
Qed.

Lemma books_of_set b s v hashes s' : books_of (with_books b (dict_set (mb_books b) s v) hashes) s' = if decide (s' = s) then v else books_of b s'.
Proof.
  unfold books_of. cbn [mb_books with_books]. destruct (decide (s' = s)) as [->|n]; [now rewrite dict_get_set | now rewrite dict_get_set_ne].
Qed.

Lemma book_level_Ok l k : book_level l = Ok k -> valid_level k.
Proof.
  unfold book_level, BookLevel_post_init. intros H. py_inv. unfold require_positive_decimal in *. py_inv. dec_prop. now split.
Qed.

Lemma mapM_levels l ks : mapM book_level l = Ok ks -> Forall valid_level ks.
Proof.
  revert ks; induction l as [|x l IH]; intros ks H; cbn [mapM] in H; py_inv; constructor; [eapply book_level_Ok; eassumption | auto].
Qed.

(** Replacing the books of one symbol, with the hashes to match. *)
Lemma replace_ok b s v hashes : buffer_ok b ->
  (forall k, In k v -> (valid_book k /\ bk_symbol k = s) /\ snd (fst (ident (bk_event_id k))) = s) ->
  Z.of_nat (length v) <= mb_capacity b -> NoDup (map bk_event_id v) -> NoDup (map hash_id hashes) ->
  (forall h, In h hashes -> fst h = ident (hash_id h)) ->
  (forall x, In x (map hash_id hashes) <->
     (exists k, In k v /\ bk_event_id k = x) \/ exists s' k, s' <> s /\ In k (books_of b s') /\ bk_event_id k = x) ->
  buffer_ok (with_books b (dict_set (mb_books b) s v) hashes).
Proof.
  intros B V L N Nh Idn K. split; cbn [mb_capacity mb_marks mb_primary mb_book_hashes with_books]; try apply B; auto.
  - intros s' k I. rewrite books_of_set in I. destruct (decide (s' = s)) as [->|n]; [now apply V | exact (bo_books b B s' k I)].
  - intros s'. rewrite books_of_set. destruct (decide (s' = s)); [exact L | apply (bo_room b B)].
  - intros s'. rewrite books_of_set. destruct (decide (s' = s)); [exact N | apply (bo_ids b B)].
  - intros x. rewrite K. split.
    + intros [(k & I & E)|(s' & k & n & I & E)]; [exists s, k | exists s', k]; rewrite books_of_set; [rewrite decide_True | rewrite decide_False]; auto.
    + intros (s' & k & I & E). rewrite books_of_set in I. destruct (decide (s' = s)) as [->|n]; [left | right]; eauto 10.
  - intros s' k I. rewrite books_of_set in I. destruct (decide (s' = s)) as [->|n]; [now apply V | exact (bo_symbol b B s' k I)].
Qed.

(** The books and hashes of a buffer, split at one symbol. *)
Lemma known_split b s x : buffer_ok b -> In x (map hash_id (mb_book_hashes b)) <->
  (exists k, In k (books_of b s) /\ bk_event_id k = x) \/ exists s' k, s' <> s /\ In k (books_of b s') /\ bk_event_id k = x.
Proof.
  intros B. rewrite (bo_known b B). split.
  - intros (s' & k & I & E). destruct (decide (s' = s)) as [->|n]; eauto 10.
  - intros [(k & I & E)|(s' & k & _ & I & E)]; eauto.
Qed.

(** A fresh book makes the hashes of the whole list, before the oldest one leaves. *)
Lemma fresh_facts b e hash k : buffer_ok b -> bk_event_id k = ev_event_id e -> identified e ->
  known_hash (mb_book_hashes b) (identity e) = None ->
  let hashes := mb_book_hashes b ++ [(identity e, hash)] in
  NoDup (map hash_id hashes) /\ NoDup (map bk_event_id (books_of b (ev_symbol e) ++ [k])) /\
  (forall h, In h hashes -> fst h = ident (hash_id h)) /\
  (forall x, In x (map hash_id hashes) <-> (exists k', In k' (books_of b (ev_symbol e) ++ [k]) /\ bk_event_id k' = x) \/
     exists s' k', s' <> ev_symbol e /\ In k' (books_of b s') /\ bk_event_id k' = x).
Proof.
  intros B Ei Ie Nk hashes.
  assert (Fresh : ~ In (ev_event_id e) (map hash_id (mb_book_hashes b))).
  { intros I. apply in_map_iff in I as (h & E & I). apply known_hash_None in Nk. apply Nk, in_map_iff. exists h. split; [|exact I].
    rewrite (bo_identity b B h I), E. symmetry. exact Ie. }
  unfold hashes. split; [|split; [|split]].
  - rewrite map_app. apply NoDup_app. split; [exact (bo_unique b B)|]. split; [|apply NoDup_singleton].
    intros x Ix Ix'. apply list_elem_of_singleton in Ix'. cbn in Ix'. subst x. now apply Fresh, list_elem_of_In.
  - rewrite map_app. apply NoDup_app. split; [apply (bo_ids b B)|]. split; [|apply NoDup_singleton].
    intros x Ix Ix'. apply list_elem_of_singleton in Ix'. subst x. apply list_elem_of_In, in_map_iff in Ix as (k' & E & I). cbn in E.
    apply Fresh, (bo_known b B). exists (ev_symbol e), k'. split; [exact I | congruence].
  - intros h I. apply in_app_iff in I as [I|[<-|[]]]; [exact (bo_identity b B h I) | exact Ie].
  - intros x. rewrite map_app, in_app_iff, (known_split b (ev_symbol e) x B). cbn. split.
    + intros [[(k' & I & E)|R]|[<-|[]]]; [left; exists k'; rewrite in_app_iff; auto | auto | left; exists k; rewrite in_app_iff; cbn; auto].
    + intros [(k' & I & E)|R]; [|auto]. apply in_app_iff in I as [I|[<-|[]]]; [left; left; eauto | right; left; congruence].
Qed.

(** Storing a fresh book. *)
Lemma store_ok b e hash k : buffer_ok b -> valid_book k -> bk_symbol k = ev_symbol e -> bk_event_id k = ev_event_id e -> identified e ->
  known_hash (mb_book_hashes b) (identity e) = None ->
  buffer_ok (store_book b e hash k) /\ In (identity e, hash) (mb_book_hashes (store_book b e hash k)) /\
  last (books_of (store_book b e hash k) (ev_symbol e)) = Some k /\ mb_symbols (store_book b e hash k) = mb_symbols b /\
  mb_marks (store_book b e hash k) = mb_marks b.
Proof.
  intros B V Es Ei Ie Nk. destruct (fresh_facts b e hash k B Ei Ie Nk) as (Nh & Ids & Idn & Known). unfold store_book.
  set (s := ev_symbol e) in *. change (default [] (dict_get (mb_books b) s)) with (books_of b s). set (old := books_of b s) in *.
  set (hashes := mb_book_hashes b ++ [(identity e, hash)]) in *.
  assert (Good : forall k', In k' (old ++ [k]) -> (valid_book k' /\ bk_symbol k' = s) /\ snd (fst (ident (bk_event_id k'))) = s).
  { intros k' I. apply in_app_iff in I as [I|[<-|[]]]; [split; [exact (bo_books b B s k' I) | exact (bo_symbol b B s k' I)]|].
    split; [auto|]. rewrite Ei, <- Ie. reflexivity. }
  assert (Last : last (old ++ [k]) = Some k) by apply last_snoc.
  assert (Len : length (old ++ [k]) = S (length old)) by (rewrite length_app; cbn; lia).
  pose proof (bo_room b B s) as Room. fold old in Room. pose proof (bo_capacity b B) as Cap.
  assert (New : In (identity e, hash) hashes) by (apply in_app_iff; right; now left).
  destruct (old ++ [k]) as [|r rest] eqn:Ev; [now destruct old|].
  destruct (mb_capacity b <? Z.of_nat (length (r :: rest))) eqn:Full; [apply Z.ltb_lt in Full | apply Z.ltb_ge in Full].
  - assert (Rest : rest <> []) by (intros ->; cbn in Full; lia).
    assert (Nr : bk_event_id r <> bk_event_id k).
    { cbn [map] in Ids. apply NoDup_cons in Ids as [Nr _]. intros E. apply Nr, list_elem_of_In. rewrite E. apply in_map.
      destruct old as [|o old]; cbn in Ev; injection Ev as _ <-; [contradiction | apply in_app_iff; right; now left]. }
    split; [|split; [apply forget_In; [exact Nh | split; [exact New | cbn; congruence]]|]].
    + cbn [map] in Ids. apply NoDup_cons in Ids as [Nr' Ids].
      apply replace_ok; auto; [intros k' I; apply Good; now right | cbn in Len; lia | now apply forget_NoDup | |].
      * intros h I. apply forget_In in I as [I _]; [exact (Idn h I) | exact Nh].
      * intros x. transitivity (In x (map hash_id hashes) /\ x <> bk_event_id r).
        { rewrite !in_map_iff. split; [intros (h & <- & I); apply forget_In in I as [I N]; eauto | intros [(h & <- & I) N]; exists h; rewrite forget_In by exact Nh; auto]. }
        rewrite Known. split.
        -- intros [[(k' & [<-|I] & E)|R] N]; [congruence | left; eauto | right; exact R].
        -- intros [(k' & I & <-)|(s' & k' & n & I & <-)].
           ++ split; [left; exists k'; split; [now right | reflexivity]|]. intros E. apply Nr', list_elem_of_In. rewrite <- E. now apply in_map.
           ++ split; [right; eauto 10|]. intros E. apply n. rewrite <- (bo_symbol b B s' k' I), E. apply Good. now left.
    + rewrite books_of_set, decide_True by reflexivity. destruct rest as [|x rest]; [contradiction | auto].
  - split; [now apply replace_ok|]. split; [exact New|]. rewrite books_of_set, decide_True by reflexivity. auto.
Qed.


(** Marks and references only move on in time. *)
Definition later_values (a b : pydict ObservedMarketEvent) : Prop :=
  forall s e, dict_get a s = Some e -> exists e', dict_get b s = Some e' /\ instant (ev_observed_at e) <= instant (ev_observed_at e').

Lemma later_values_refl a : later_values a a.
Proof. intros s e E. exists e. split; [exact E | lia]. Qed.

Lemma later_values_trans a b c : later_values a b -> later_values b c -> later_values a c.
Proof. intros H1 H2 s e E. destruct (H1 s e E) as (e1 & E1 & L1). destruct (H2 s e1 E1) as (e2 & E2 & L2). exists e2. split; [exact E2 | lia]. Qed.

Lemma replace_latest_ok kind values e values' c : latest_ok kind values -> valid_event e -> ev_kind e = kind ->
  _replace_latest sha256_hex values e = Ok (values', c) ->
  latest_ok kind values' /\ later_values values values' /\ _replace_latest sha256_hex values' e = Ok (values', false).
Proof.
  intros L V K H. pose proof H as H0. unfold _replace_latest in H.
  assert (Set_ : later_values values (dict_set values (ev_symbol e) e) ->
    latest_ok kind (dict_set values (ev_symbol e) e) /\ later_values values (dict_set values (ev_symbol e) e) /\
    _replace_latest sha256_hex (dict_set values (ev_symbol e) e) e = Ok (dict_set values (ev_symbol e) e, false)).
  { intros La. split; [|split; [exact La|]].
    - intros s x E. destruct (decide (s = ev_symbol e)) as [->|n]; [rewrite dict_get_set in E; injection E as <-; auto|].
      rewrite dict_get_set_ne in E by exact n. exact (L s x E).
    - unfold _replace_latest. rewrite dict_get_set, bool_decide_true by reflexivity. destruct (event_hash_total sha256_hex e V) as [h Hh].
      rewrite Hh. cbn [bind]. now rewrite bool_decide_true. }
  destruct (dict_get values (ev_symbol e)) as [p|] eqn:E.
  - destruct (bool_decide (identity p = identity e)) eqn:I; [py_inv; split; [exact L | split; [apply later_values_refl | exact H0]]|].
    py_inv. apply Set_. intros s x Ex. destruct (decide (s = ev_symbol e)) as [->|n].
    + rewrite E in Ex. injection Ex as <-. exists e. rewrite dict_get_set. unfold dt_ltb in *. bool_prop. auto.
    + exists x. rewrite dict_get_set_ne by exact n. split; [exact Ex | lia].
  - injection H as <- <-. apply Set_. intros s x Ex. exists x. rewrite dict_get_set_ne by congruence. split; [exact Ex | lia].
Qed.

Lemma snapshot_same k k' : BookSnapshot_post_init k = Ok k' -> k' = k.
Proof. unfold BookSnapshot_post_init. intros H. py_inv. reflexivity. Qed.

(** A book that was kept has the mark that was the latest when it was observed. *)
Definition priced (b : MarketObservationBuffer) (e : ObservedMarketEvent) (k : BookSnapshot) : Prop :=
  exists me m, dict_get (mb_marks b) (ev_symbol e) = Some me /\ ev_payload me = MarkPayload m /\
    instant (ev_observed_at me) <= instant (ev_observed_at e) /\
    bk_mark_price k = mf_mark_price m /\ bk_event_id k = ev_event_id e /\ bk_observed_at k = ev_observed_at e.

Definition same_buffer_setup (b b' : MarketObservationBuffer) : Prop := mb_symbols b' = mb_symbols b /\ mb_capacity b' = mb_capacity b.

Lemma store_setup b e h k : same_buffer_setup b (store_book b e h k).
Proof. unfold store_book. destruct (_ ++ _); [split; reflexivity|]. destruct (_ <? _); split; reflexivity. Qed.

Lemma observe_book_ok b e p b' c : buffer_ok b -> valid_event e -> identified e ->
  observe_book sha256_hex b e p = Ok (b', c) ->
  buffer_ok b' /\ same_buffer_setup b b' /\ mb_marks b' = mb_marks b /\ observe_book sha256_hex b' e p = Ok (b', false) /\
  (c = true -> exists k, last (books_of b' (ev_symbol e)) = Some k /\ priced b e k).
Proof.
  intros B V I H. pose proof H as H0. unfold observe_book in H. apply bind_Ok in H as (sq & Hsq & H).
  destruct (known_hash (mb_book_hashes b) (identity e)) as [h|] eqn:K.
  { py_inv. split; [exact B|]. split; [split; reflexivity|]. split; [reflexivity|]. split; [exact H0 | discriminate]. }
  destruct (dict_get (mb_marks b) (ev_symbol e)) as [me|] eqn:M;
    [|injection H as <- <-; split; [exact B|]; split; [split; reflexivity|]; split; [reflexivity|]; split; [exact H0 | discriminate]].
  destruct (dt_ltb (ev_observed_at e) (ev_observed_at me)) eqn:Lt;
    [injection H as <- <-; split; [exact B|]; split; [split; reflexivity|]; split; [reflexivity|]; split; [exact H0 | discriminate]|].
  apply bind_Ok in H as (m & Hm & H). apply bind_Ok in H as (bids & Hb & H). apply bind_Ok in H as (asks & Ha & H). apply bind_Ok in H as (k & Hk & H).
  apply bind_Ok in H as (h & Hh & H). injection H as <- <-. pose proof (snapshot_same _ _ Hk) as Ek.
  assert (Vk : valid_book k) by (subst k; split; [exact Hk|]; split; [exact (mapM_levels _ _ Hb) | exact (mapM_levels _ _ Ha)]).
  assert (F : bk_symbol k = ev_symbol e /\ bk_event_id k = ev_event_id e /\ bk_observed_at k = ev_observed_at e /\ bk_mark_price k = mf_mark_price m)
    by (rewrite Ek; auto).
  destruct F as (F1 & F2 & F3 & F4). destruct (store_ok b e h k B Vk F1 F2 I K) as (B' & In' & La & Ss & Sm).
  split; [exact B'|]. split; [apply store_setup|]. split; [exact Sm|]. split.
  - unfold observe_book. rewrite Hsq. cbn [bind]. rewrite (known_hash_unique _ _ h (bo_unique _ B') In'), Hh. cbn [bind]. now rewrite bool_decide_true.
  - intros _. exists k. split; [exact La|]. unfold dt_ltb in Lt. bool_prop. exists me, m. destruct (ev_payload me) eqn:Ep; try discriminate. injection Hm as ->. auto 10.
Qed.

Lemma observe_ok b e b' c : buffer_ok b -> valid_event e -> identified e -> observe sha256_hex b e = Ok (b', c) ->
  buffer_ok b' /\ same_buffer_setup b b' /\ later_values (mb_marks b) (mb_marks b') /\ observe sha256_hex b' e = Ok (b', false) /\
  (c = true -> ev_kind e = ORDER_BOOK -> exists k, last (books_of b' (ev_symbol e)) = Some k /\ priced b e k).
Proof.
  intros B V I H. pose proof H as H0. unfold observe in H. apply bind_Ok in H as (u & Hu & H). pose proof (ef_kind e (valid_event_facts e V)) as Ek.
  assert (Same : Ok (b, false) = Ok (b', c) :> result _ -> buffer_ok b' /\ same_buffer_setup b b' /\ later_values (mb_marks b) (mb_marks b') /\
    observe sha256_hex b' e = Ok (b', false) /\ (c = true -> ev_kind e = ORDER_BOOK -> exists k, last (books_of b' (ev_symbol e)) = Some k /\ priced b e k)).
  { intros [= <- <-]. split; [exact B|]. split; [split; reflexivity|]. split; [apply later_values_refl|]. split; [exact H0 | discriminate]. }
  assert (Books : forall b0, mb_books b0 = mb_books b -> mb_book_hashes b0 = mb_book_hashes b -> mb_capacity b0 = mb_capacity b ->
    latest_ok MARK_FUNDING (mb_marks b0) -> latest_ok REFERENCE_PRICE (mb_primary b0) -> buffer_ok b0).
  { intros b0 E1 E2 E3 L1 L2. destruct B. assert (E : forall s, books_of b0 s = books_of b s) by (intros s; unfold books_of; now rewrite E1).
    split; try setoid_rewrite E; rewrite ?E2, ?E3; auto. }
  destruct (ev_kind e) eqn:K; try (now apply Same).
  - destruct (ev_payload e) eqn:P; try discriminate Ek. destruct (observe_book_ok b e p b' c B V I H) as (B' & S & M & R & Pr).
    split; [exact B'|]. split; [exact S|]. split; [rewrite M; apply later_values_refl|]. split; [|auto].
    unfold observe. destruct S as [S _]. rewrite S, Hu. cbn [bind]. now rewrite K, P.
  - apply bind_Ok in H as ([vs d] & Hr & H). injection H as <- <-. destruct (replace_latest_ok _ _ _ _ _ (bo_marks b B) V K Hr) as (L & La & R).
    split; [apply Books; auto; apply B|]. split; [split; reflexivity|]. split; [exact La|]. split; [|discriminate].
    unfold observe. cbn [mb_symbols with_marks mb_marks fst snd]. rewrite Hu. cbn [bind]. rewrite K, R. reflexivity.
  - destruct (ev_payload e) eqn:P; try discriminate Ek. destruct (bool_decide (rp_reference_kind p = PRIMARY_SPOT)) eqn:Pr; [|now apply Same].
    apply bind_Ok in H as ([vs d] & Hr & H). injection H as <- <-. destruct (replace_latest_ok _ _ _ _ _ (bo_primary b B) V K Hr) as (L & La & R).
    split; [apply Books; auto; apply B|]. split; [split; reflexivity|]. split; [apply later_values_refl|]. split; [|discriminate].
    unfold observe. cbn [mb_symbols with_primary mb_primary fst snd]. rewrite Hu. cbn [bind]. rewrite K, P, Pr, R. reflexivity.
Qed.

Lemma observe_run b b' : buffer_ok b -> star observe_step b b' ->
  buffer_ok b' /\ same_buffer_setup b b' /\ later_values (mb_marks b) (mb_marks b').
Proof.
  intros B R. induction R as [b|a m z H _ IH]; [split; [exact B|]; split; [split; reflexivity | apply later_values_refl]|].
  destruct H as [b e b1 c V I H]. destruct (observe_ok b e b1 c B V I H) as (B1 & [S1 S2] & L & _). destruct (IH B1) as (Bz & [S3 S4] & Lz).
  split; [exact Bz|]. split; [split; congruence | exact (later_values_trans _ _ _ L Lz)].
Qed.

Lemma wait_spec s t wakes : Forall buffer_ok wakes ->
  match wait_eligible s t wakes with
  | Ok ks => ks <> [] /\ Forall (fun k => valid_book k /\ bk_symbol k = s /\ instant t < instant (bk_observed_at k)) ks /\
      exists b, In b wakes /\ ks = eligible b s t
  | Raise e => Forall (fun b => eligible b s t = []) wakes /\ exists m, e = EligibleBookTimeout m
  end.
Proof.
  induction wakes as [|b l IH]; intros F; cbn [wait_eligible]; [eauto|]. apply Forall_cons in F as [B F]. specialize (IH F).
  destruct (eligible b s t) as [|k ks] eqn:E.
  - destruct (wait_eligible s t l) as [ks|e]; [destruct IH as (N & Fk & b' & Ib & Eb) | destruct IH as [Fb Em]]; [|split; [now constructor | exact Em]].
    split; [exact N|]. split; [exact Fk|]. exists b'. split; [now right | exact Eb].
  - split; [discriminate|]. split; [|exists b; split; [now left | congruence]]. rewrite <- E. apply List.Forall_forall. intros x I.
    unfold eligible in I. apply filter_In in I as [I L]. unfold dt_ltb in L. bool_prop. destruct (bo_books b B s x I). auto.
Qed.
End Facts.

(** ** The theorem *)

(** What the buffer answers is causal and complete enough to trade on.  After
    any sequence of valid events whose identifiers determine their identities:
    at most the capacity of books is kept per symbol, all of them valid; a
    book that was kept is the last one of its symbol, priced by the mark that
    was the latest, observed no later than it; delivering an event again at once
    changes nothing; the latest mark at a time is never one observed after it
    and has a positive price, and is missing only when the symbol has no mark
    or a later one; marks never move back; and waiting for a book answers
    with every kept book observed strictly after the asked time, at the first
    moment there is one, or with a timeout when there never was. *)
Theorem observation_buffer_causal sha256_hex ident symbols capacity b0 b
  (I0 : MarketObservationBuffer_init symbols capacity = Ok b0) (R : star (observe_step sha256_hex ident) b0 b) :
  (forall s, Z.of_nat (length (books_of b s)) <= capacity /\ Forall (fun k => valid_book k /\ bk_symbol k = s) (books_of b s)) /\
  (forall e b' c, valid_event e -> identified ident e -> observe sha256_hex b e = Ok (b', c) ->
     observe sha256_hex b' e = Ok (b', false) /\
     (c = true -> ev_kind e = ORDER_BOOK -> exists k, last (books_of b' (ev_symbol e)) = Some k /\ priced b e k)) /\
  (forall s t, In s symbols -> is_utc t = true ->
     (latest_mark b s t = Ok None /\ forall e, dict_get (mb_marks b) s = Some e -> instant t < instant (ev_observed_at e)) \/
     exists m e, latest_mark b s t = Ok (Some (mf_mark_price m, e)) /\ ev_payload e = MarkPayload m /\ (0 < dval (mf_mark_price m))%Q /\
       ev_symbol e = s /\ instant (ev_observed_at e) <= instant t) /\
  (forall b', star (observe_step sha256_hex ident) b b' -> later_values (mb_marks b) (mb_marks b')) /\
  (forall s t timeout wakes, In s symbols -> is_utc t = true -> 0 < timeout -> Forall (star (observe_step sha256_hex ident) b) wakes ->
     match books_after b wakes s t timeout with
     | Ok ks => ks <> [] /\ Forall (fun k => valid_book k /\ bk_symbol k = s /\ instant t < instant (bk_observed_at k)) ks /\
         exists b', In b' (b :: wakes) /\ ks = eligible b' s t
     | Raise e => Forall (fun b' => eligible b' s t = []) (b :: wakes) /\ exists m, e = EligibleBookTimeout m
     end).
Proof.
  destruct (buffer_init_ok ident _ _ _ I0) as (B0 & S0 & C0). destruct (observe_run _ _ _ _ B0 R) as (B & [S C] & _).
  assert (Known : forall s, In s symbols -> _require_symbol b s = Ok tt).
  { intros s Is. unfold _require_symbol. rewrite S, S0, bool_decide_true by now apply list_elem_of_In. reflexivity. }
  split; [|split; [|split; [|split]]].
  - intros s. pose proof (bo_room ident b B s) as L. rewrite C, C0 in L. split; [exact L|]. apply List.Forall_forall. exact (bo_books ident b B s).
  - intros e b' c V Ie H. destruct (observe_ok _ _ b e b' c B V Ie H) as (_ & _ & _ & Rd & P). auto.
  - intros s t Is U. unfold latest_mark, latest_at. rewrite (Known s Is), (require_utc_true _ _ U). cbn [bind].
    destruct (dict_get (mb_marks b) s) as [e|] eqn:E; [|left; split; [reflexivity | discriminate]].
    destruct (bo_marks ident b B s e E) as (V & Es & K). unfold dt_ltb. destruct (Z.ltb_spec (instant t) (instant (ev_observed_at e))) as [L|L].
    + left. split; [reflexivity|]. intros e' [= <-]. exact L.
    + right. pose proof (valid_event_facts e V) as F. pose proof (ef_kind e F) as Ek. pose proof (ef_payload e F) as Vp. rewrite K in Ek.
      destruct (ev_payload e) as [| | |m| | | |] eqn:P; try discriminate Ek. exists m, e. cbn [valid_payload] in Vp. split; [reflexivity|]. split; [exact P|].
      split; [|auto]. unfold MarkFundingPayload_post_init in Vp. py_inv.
      match goal with H : _require_decimal (mf_mark_price m) _ _ _ = Ok _ |- _ => apply _require_decimal_Ok in H; tauto end.
  - intros b' R'. exact (proj2 (proj2 (observe_run _ _ _ _ B R'))).
  - intros s t timeout wakes Is U T F. unfold books_after. rewrite (Known s Is), (require_utc_true _ _ U), (proj2 (Z.leb_gt timeout 0) T). cbn [bind raise_if].
    apply (wait_spec ident). constructor; [exact B|]. eapply List.Forall_impl; [|exact F]. intros b' R'. exact (proj1 (observe_run _ _ _ _ B R')).
Qed.


(** ** Witness *)

Definition one_symbol (id : string) : event_identity := ("venue", "stream", "BTCUSDT", id).

(** The content of a sample event never changes. *)
Definition sample_digest (_ : string) : string := "digest".

Definition seen_event (id : string) (kind : MarketEventKind) (sequence : Z) (at_us : Z) (p : MarketPayload) : ObservedMarketEvent := {|
  ev_venue := "venue"; ev_stream := "stream"; ev_symbol := "BTCUSDT"; ev_event_id := id; ev_kind := kind;
  ev_venue_event_at := utc at_us; ev_observed_at := utc at_us; ev_sequence := Some sequence; ev_sequence_not_applicable_reason := None;
  ev_payload := p |}.
Definition seen_mark : ObservedMarketEvent := seen_event "m1" MARK_FUNDING 1 10 (MarkPayload {|
  mf_mark_price := dint 100; mf_index_price := dint 100; mf_funding_rate := dzero; mf_next_funding_at := utc 1000;
  mf_estimated_settle_price := None |}).
Definition seen_book (id : string) (at_us : Z) : ObservedMarketEvent := seen_event id ORDER_BOOK 2 at_us (BookPayload {|
  ob_bids := [{| pl_price := dint 99; pl_quantity := dint 5 |}]; ob_asks := [{| pl_price := dint 101; pl_quantity := dint 5 |}];
  ob_published_at := utc at_us; ob_sequence_start := 2; ob_previous_sequence := None; ob_snapshot_sequence := None |}).

Definition buffer_after (b : MarketObservationBuffer) (e : ObservedMarketEvent) : MarketObservationBuffer :=
  match observe sample_digest b e with Ok r => fst r | Raise _ => b end.
Definition buffer_0 : MarketObservationBuffer := Eval vm_compute in
  match MarketObservationBuffer_init ["BTCUSDT"] 1 with Ok b => b
  | Raise _ => {| mb_symbols := []; mb_capacity := 0; mb_marks := []; mb_primary := []; mb_books := []; mb_book_hashes := [] |} end.
Definition buffer_1 : MarketObservationBuffer := Eval vm_compute in buffer_after buffer_0 seen_mark.
Definition buffer_2 : MarketObservationBuffer := Eval vm_compute in buffer_after buffer_1 (seen_book "b1" 20).

(** With room for one book, the second one replaces the first. *)
Example one_book_kept : map bk_event_id (books_of (buffer_after buffer_2 (seen_book "b2" 30)) "BTCUSDT") = ["b2"] /\
  map hash_id (mb_book_hashes (buffer_after buffer_2 (seen_book "b2" 30))) = ["b2"].
Proof. vm_compute. auto. Qed.

Ltac valid_sample := split; [cbn; repeat split; repeat constructor | reflexivity].

Lemma seen_run : star (observe_step sample_digest one_symbol) buffer_0 buffer_2.
Proof.
  eapply star_step; [eapply (step_observe _ _ buffer_0 seen_mark buffer_1 true); [valid_sample | reflexivity | vm_compute; reflexivity]|].
  apply star_one. eapply (step_observe _ _ buffer_1 (seen_book "b1" 20) buffer_2 true); [valid_sample | reflexivity | vm_compute; reflexivity].
Qed.

Lemma observation_buffer_causal_witness : exists ks m e,
  books_after buffer_1 [buffer_2] "BTCUSDT" (utc 15) 5 = Ok ks /\ Forall (fun k => valid_book k /\ bk_symbol k = "BTCUSDT" /\ 15 < instant (bk_observed_at k)) ks /\
  latest_mark buffer_2 "BTCUSDT" (utc 25) = Ok (Some (mf_mark_price m, e)) /\ (0 < dval (mf_mark_price m))%Q.
Proof.
  assert (R1 : star (observe_step sample_digest one_symbol) buffer_0 buffer_1).
  { apply star_one. eapply (step_observe _ _ buffer_0 seen_mark buffer_1 true); [valid_sample | reflexivity | vm_compute; reflexivity]. }
  assert (R2 : star (observe_step sample_digest one_symbol) buffer_1 buffer_2).
  { apply star_one. eapply (step_observe _ _ buffer_1 (seen_book "b1" 20) buffer_2 true); [valid_sample | reflexivity | vm_compute; reflexivity]. }
  destruct (observation_buffer_causal sample_digest one_symbol ["BTCUSDT"] 1 buffer_0 buffer_1 eq_refl R1) as (_ & _ & _ & _ & Wait).
  destruct (observation_buffer_causal sample_digest one_symbol ["BTCUSDT"] 1 buffer_0 buffer_2 eq_refl seen_run) as (_ & _ & Mark & _).
  specialize (Wait "BTCUSDT" (utc 15) 5 [buffer_2] ltac:(now left) eq_refl ltac:(lia) ltac:(repeat constructor; exact R2)).
  assert (Ok_ : exists ks, books_after buffer_1 [buffer_2] "BTCUSDT" (utc 15) 5 = Ok ks) by (eexists; vm_compute; reflexivity).
  destruct Ok_ as [ks Ek]. rewrite Ek in Wait. destruct Wait as (_ & F & _).
  destruct (Mark "BTCUSDT" (utc 25) ltac:(now left) eq_refl) as [(_ & N)|(m & e & Em & _ & P & _)].
  - specialize (N seen_mark eq_refl). cbn in N. lia.
  - exists ks, m, e. auto.
Defined.

